(* ===== verification/_CoqProject ===== *)
-Q . S2P
Prelude.v
External.v
Errors.v
Utils.v
GroupStore.v
GroupService.v
MessageStore.v
ConvStore.v
ChatService.v
FriendStore.v
FriendService.v
Jwt.v
OnlineService.v
UserStore.v
AuthService.v
FileStore.v
FileService.v
Rpc.v
ChatHandler.v
GroupHandler.v
FriendHandler.v
AuthHandler.v
FileHandler.v
Api.v
Proto.v
ZonePayloads.v
ZoneStore.v
ZoneRpc.v
ZoneSystems.v
ZoneService.v
ZoneHandler.v
GateService.v
GateAnswers.v
WsSession.v
Cluster.v
System.v
LogSinks.v
AsyncLogger.v
Config.v
Startup.v
Client.v
ChatStorage.v
Widgets.v
MainWindow.v
Desktop.v
LoginWindow.v
MessageView.v
ChatInput.v
Delivery.v
Scenario.v
