(* ===== verification/Prelude.v ===== *)
(** * SwiftChatSystem: a verification library

    SwiftChatSystem is a chat system: seven C++ services behind gRPC (under [src/backend/]), a logging library
    ([src/component/asynclogger/]) and a desktop client on Qt ([src/client/desktop/src/]).  This library translates them
    into executable definitions, as the code is written, and proves what makes them correct, or what keeps them from
    being so.  Paths below are relative to those three directories.

    ** The program and its parts

    A client opens a WebSocket to a gateway (gatesvr), which binds the connection to a user when the zone server (zonesvr) has
    validated a login.  The gateway forwards every other command to the zone server, which knows who is online at which
    gateway, hands the command to one of five systems, each the client of one service, and pushes messages to receivers through
    their gateways.  Behind it are the services for accounts (authsvr), sessions and tokens (onlinesvr), friends
    (friendsvr), messages and groups (chatsvr) and files (filesvr), each a gRPC handler over a service core over a store in RocksDB.

    ** Files

    In dependency order; each models the sources it names at its top, one Definition per function, under the function's name.

    - [Prelude]: the state-and-exception monad [M], its automation ([walk], the databases [runs]), lemmas on strings, lists,
      options and 32-bit integers.  [External]: the libraries the sources call, as classes of operations with classes of their documented laws
      (RocksDB, JSON, OpenSSL, disjoint key spaces) and small concrete instances.
    - [Errors], [Utils]: common/ (error_code.h, utils.h and .cpp).
    - Stores: [GroupStore], [MessageStore], [ConvStore] (chatsvr/internal/store), [FriendStore] (friendsvr), [UserStore]
      (authsvr), [FileStore] (filesvr).  A state is the content of the database; an operation is a function on it.
    - Services: [GroupService], [ChatService], [FriendService], [OnlineService] (with its session store), [AuthService], [FileService];
      [Jwt] is common/src/jwt_helper.cpp and grpc_auth.cpp.
    - Handlers: [Rpc] (what they share), [ChatHandler], [GroupHandler], [FriendHandler], [AuthHandler] (with the one of onlinesvr),
      [FileHandler]; [Api]: the services behind one set of tokens.
    - Zone server: [Proto], [ZonePayloads] (messages of zone.proto and gate.proto), [ZoneStore] (the session store in memory and in
      Redis, whose keys have a time to live), [ZoneRpc], [ZoneSystems], [ZoneService], [ZoneHandler] (with the check of the
      internal secret, and whether the server starts with it).
    - Gateway: [GateService] (tables, dispatch), [GateAnswers], [WsSession] (the write queue of a session).
    - The running system: [Cluster] composes services, zone server and gateways over calls that can be lost; [System] and
      [Scenario] hold its theorems and a run of two users.
    - Operation: [LogSinks], [AsyncLogger] (the logging library, with its threads as interleaved steps), [Config] (the
      configuration loader and the options of the services), [Startup] (waiting, registration with retries, heartbeats).
    - Desktop client: [Client] (network/), [ChatStorage] (models/, the cache), [Widgets] (the lists of ui/contactwidget.cpp
      and chatwidget.cpp), [MainWindow] with its theorems in [Desktop], [LoginWindow], [MessageView] (rows of messages, pictures, files),
      [ChatInput] (mentions, replies, dialogs); [Delivery] joins client and servers.

    ** What the theorems show

    - Groups: [group_has_one_owner] (after any history), [RemoveMember_authorised], and the effect of creation, invitation and
      transfer ([CreateGroup_effect], [InviteMembers_effect], [TransferOwner_effect]); [SetMemberRole_second_owner] is a flaw.
    - Messages: [message_store_refines] (keys in RocksDB against a map and sets), [GetHistory_newest_first], [GetHistory_page],
      [PullOffline_pages_complete] and its limit [PullOffline_equal_timestamps_loop]; [SendMessage_private_effect],
      [RecallMessage_rules], [MarkRead_effect]; [message_delivered] from handler to handler; [GetHistory_private_leak],
      [DeleteConversation_closes_group], [clear_offline_of_another_user] are flaws.
    - Friends: [friendship_symmetric], [request_life_cycle] and the effects of single requests; [colon_makes_friends] is a flaw, outside
      their condition that ids have no ':' in them.
    - Accounts, tokens, sessions: [usernames_unique], [Register_effect], [Register_then_VerifyCredentials], [base64url_roundtrip],
      [JwtVerify_created], [authenticated_is_signed], [Login_then_ValidateToken]; [JwtCreate_2038],
      [ValidateToken_old_token_logs_out], [Login_other_device_refused], [Logout_any_token], [logout_does_not_revoke],
      [user_id_collision] are flaws.
    - Files: [stored_files_readable], [upload_roundtrip], [ReadFileRange_slices], [CleanupExpiredSessions_effect];
      [claimed_md5_trusted] is a flaw.
    - Across services: [calls_act_for_caller].
    - Zone server and gateway: [redis_store_equiv_memory] (until a time to live runs out) with what happens then,
      [session_lasts_an_hour] and [heartbeat_after_expiry]; [gate_tables_consistent], [owner_named_by_zone],
      [every_request_answered], [push_reaches_its_user], [frames_in_order], [frames_all_written], [conn_ids_unique];
      [zone_serves_secret_holders] (and nobody, where gRPC does not take the processor), [private_message_pushed], and, of the running system, the flaws [group_commands_refused],
      [group_messages_not_pushed], [stranger_deletes_any_file], [stale_disconnect_ends_session], [old_connection_cuts_off_new].
    - Operation: [entries_written_in_order], [shutdown_writes_everything] (under every fair schedule), [stopped_logger_loses_nothing], with what the
      threads can still lose ([accepted_entry_lost], [logger_used_after_shutdown]); [rotation_bounds_log_files], [option_precedence],
      [registration_ends]; [heartbeat_restores_gate_only], [unconfigured_secret_forgeable] are flaws.
    - Client: [callbacks_called_once], [answer_reaches_callback] (through the gateway and back), [merge_keeps_newest],
      [normalize_shows_each_once], [ready_since_validation], [sent_message_settles], [offline_page_merged_once],
      [history_forgets_recalls], [login_controls_come_back], [main_window_needs_login], [mention_completes],
      [preview_selection_sound], [recalled_hides_content]; [private_message_shown] follows a message from the zone server to the
      screen.  [read_messages_counted_again], [no_still_picture_shown], [animation_progress_101], [select_all_selects_nothing],
      [reply_to_picture_scrolls], [reply_is_dropped] and [quote_shows_recalled] are flaws.

    ** Interfaces

    The clients of a part are proved against a class, and the part's file provides the instance: [GroupStore] with [GroupStoreSpec]
    (implemented by [RocksDBGroupStore]), [SessionStore] with [SessionStoreLaws] (a store that forgets nothing: the one in memory), [ZoneStub]
    with [ZoneStubLaws] and [ZoneAnswers] (what the gateway relies on; discharged by the cluster in [System]), [Stubs] (what the zone server
    calls; the handlers in [Cluster]).  What is not under src/ stays a parameter: [RocksDB], [JsonLib], [OpenSSL], [Redis] and
    [ProtoBuf] with the laws documented for them (those of [Redis] with the expiry of keys, the time it takes being open), whether gRPC takes an
    authentication processor on insecure credentials ([cl_takes_processor]), [QtJson], [StdSort], [Qt] and [QtPictures]; every one has a concrete instance
    ([MemDB], [MemJson], [mem_proto], [some_qt] and the like), at which the witnesses evaluate the definitions.

    ** State, errors, integers, fuel

    Stateful code is a function on a record, or a computation in [M], with exceptions of C++ as [Exc]; errors are the code's own
    values.  Integers are [Z], with [wrap32] and the like where the code computes at a width it can exceed, and
    hypotheses of range where it relies on not exceeding it (the counters of requests and connections: fewer than 2^31 events).
    Clocks, random engines and the disk are arguments that may answer anything.  Concurrency is interleaving: of critical sections
    in the gateway's tables, of the steps of each thread in the logger, of handlers in a session, of inputs in the client.

    Fuel: the loops of [Split] and [ReplaceAll] end within one turn per byte ([Split_Join], [ReplaceAll_joins]); [pull_all] runs
    one page per unit, and [PullOffline_pages_complete] says how many; [read_strings] and the readers of [External] take the length of
    the text; [register_loop] and [wait_loop] need one unit per attempt, of which [registration_ends] and [waiting_ends] allow as
    many as there are seconds; [emit] of [Jwt] takes the bits at hand.

    ** Not modelled

    - The [main] functions beyond [Startup] and the connections of the client's, command lines, signals; sockets, TLS, Boost.Beast, the gRPC
      runtime, deadlines as such (they are among the reasons for a lost call).
    - Generated code, the encoding of protocol buffers (a class with its round-trip law), digests, base64 of OpenSSL, the calendar.
    - The build of the zone server without hiredis, where every call fails; faults of the streams of the log files; the thread that calls
      [CleanupExpiredSessions] (its operation is modelled).
    - Concurrency inside one request: a service core runs its calls one after the other, as do the calls of one request in [Cluster].
    - Qt: drawing, layout, style; modal dialogs appear as what was entered in them, and what arrives while one is open comes before
      or after it; the transport of uploads and downloads over HTTP; the image viewer, whose scale is a floating-point factor; QSettings, which is a field of
      the login window.
    - The unit tests, the proxies in deploy/, scripts and documents. *)

From Stdlib Require Export ZArith Lia.
From Stdlib Require Import String Ascii.
From stdpp Require Export base gmap strings list sorting pretty.

#[global] Open Scope Z_scope.
#[global] Open Scope list_scope.
#[global] Open Scope stdpp_scope.

(** * Effects

    An operation of a C++ class is a function of the object's state that
    returns a value or throws, and leaves a (possibly changed) state. *)

Inductive outcome (A : Type) : Type :=
  | Ret (a : A)
  | Exc.
Arguments Ret {A} a.
Arguments Exc {A}.
#[global] Instance outcome_eq_dec `{EqDecision A} : EqDecision (outcome A).
Proof. solve_decision. Defined.

Definition M (S A : Type) : Type := S → outcome A * S.

#[global] Instance M_ret {S} : MRet (M S) := λ A a s, (Ret a, s).
#[global] Instance M_bind {S} : MBind (M S) := λ A B f m s,
  match m s with
  | (Ret a, s') => f a s'
  | (Exc, s') => (Exc, s')
  end.

(** Read the state without changing it. *)
Definition reads {S A} (f : S → A) : M S A := λ s, (Ret (f s), s).

(** Change the state; do something under a condition. *)
Definition modify {S} (f : S → S) : M S unit := λ s, (Ret tt, f s).
Definition when_ {S} (b : bool) (m : M S unit) : M S unit := if b then m else mret tt.

(** Raise an exception. *)
Definition throw {S A} : M S A := λ s, (Exc, s).

(** [throw] when the value is absent, e.g. a library call that throws. *)
Definition or_throw {S A} (o : option A) : M S A :=
  match o with Some a => mret a | None => throw end.

(** [try { m } catch (...) { h }] *)
Definition try_catch {S A} (m h : M S A) : M S A := λ s,
  match m s with
  | (Ret a, s') => (Ret a, s')
  | (Exc, s') => h s'
  end.

(** Run an operation of a member object inside the state of its owner. *)
Definition zoom {S T A} (get : T → S) (set : S → T → T) (m : M S A) : M T A := λ t,
  let '(r, s) := m (get t) in (r, set s t).

(** [for (x : l) body(x)], results ignored, exceptions propagated. *)
Fixpoint for_each {S A B} (l : list A) (body : A → M S B) : M S unit :=
  match l with
  | [] => mret tt
  | x :: l' => _ ← body x; for_each l' body
  end.

(** Unfold the effect monad in a hypothesis about a run, and split it into the
    runs of the parts. *)
Ltac munfold H :=
  cbv beta iota zeta delta [mbind M_bind mret M_ret reads throw or_throw] in H.
Ltac mrun H :=
  repeat (munfold H;
          first
            [ progress simplify_eq
            | match type of H with
              | context [decide ?P] => destruct (decide P)
              | context [match ?x with _ => _ end] =>
                  lazymatch x with
                  | context [match _ with _ => _ end] => fail
                  | _ => destruct x eqn:?
                  end
              end ]).

Lemma run_bind_ret {S A B} (m : M S A) (f : A → M S B) (s : S) b s' :
  (x ← m; f x) s = (Ret b, s') → ∃ a s1, m s = (Ret a, s1) ∧ f a s1 = (Ret b, s').
Proof. unfold mbind, M_bind. destruct (m s) as [[a|] s1]; [eauto|done]. Qed.

Lemma bind_run {S A B} (m : M S A) (f : A → M S B) (s : S) a s1 :
  m s = (Ret a, s1) → (x ← m; f x) s = f a s1.
Proof. intros Hm. unfold mbind, M_bind. by rewrite Hm. Qed.

Lemma bind_exc {S A B} (m : M S A) (f : A → M S B) (s : S) s1 :
  m s = (Exc, s1) → (x ← m; f x) s = (Exc, s1).
Proof. intros Hm. unfold mbind, M_bind. by rewrite Hm. Qed.

(** Evaluate a closed equation; evaluate a run up to its result (the final
    state stays a projection of the run, it is never normalised). *)
Ltac eval_eq := match goal with |- ?x = ?y => vm_cast_no_check (eq_refl y) end.

Lemma run_fst {S A} (m : M S A) s r : fst (m s) = r → m s = (r, snd (m s)).
Proof. intros <-. by destruct (m s). Qed.

Lemma pair_fst {A B} (x : A * B) a : fst x = a → x = (a, snd x).
Proof. by intros <-; destruct x. Qed.
Ltac eval_run := apply run_fst; eval_eq.
Ltac eval_pair := apply pair_fst; eval_eq.

(** An invariant of the body of a loop is an invariant of the loop. *)
Lemma for_each_inv {S A B} (P : S → Prop) (body : A → M S B) l s r s' :
  (∀ x s r s', x ∈ l → P s → body x s = (r, s') → P s') →
  P s → for_each l body s = (r, s') → P s'.
Proof.
  revert s. induction l as [|x l IH]; intros s Hbody HP Hrun; simpl in Hrun.
  - munfold Hrun. by simplify_eq.
  - munfold Hrun. destruct (body x s) as [[y|] s1] eqn:Hx; simplify_eq.
    + eapply IH; [|eapply Hbody; [left|done..]|done].
      intros; eapply Hbody; [by right|done..].
    + by eapply Hbody; [left|..].
Qed.

(** * What a run keeps

    [along R m]: the states before and after a run of [m], returning or not, are related by
    the preorder [R]; [returns P m]: what [m] returns satisfies [P]. *)
Definition along {S A} (R : relation S) (m : M S A) : Prop := ∀ s, R s (snd (m s)).
Definition returns {S A} (P : A → Prop) (m : M S A) : Prop := ∀ s r s', m s = (Ret r, s') → P r.
Definition on_view {S T} (view : S → T) (R : relation T) : relation S := λ s s', R (view s) (view s').
#[export] Instance on_view_preorder {S T} (view : S → T) (R : relation T) : PreOrder R → PreOrder (on_view view R).
Proof. intros [Hr Ht]. split; unfold on_view; [intros s; apply Hr|intros a b c; apply Ht]. Qed.

Section Along.
Context {S : Type} (R : relation S) `{!PreOrder R}.
Lemma along_ret {A} (a : A) : along R (mret a).
Proof. intros s. reflexivity. Qed.
Lemma along_bind {A B} (m : M S A) (f : A → M S B) :
  along R m → (∀ a, along R (f a)) → along R (x ← m; f x).
Proof.
  intros Hm Hf s. specialize (Hm s). unfold mbind, M_bind. destruct (m s) as [[a|] s1]; [|done].
  etrans; [exact Hm|apply Hf].
Qed.
Lemma along_reads {A} (f : S → A) : along R (reads f).
Proof. intros s. cbn. reflexivity. Qed.
End Along.
Lemma along_zoom {S T A} (R : relation T) (get : T → S) (set : S → T → T) (m : M S A) :
  (∀ t, R t (set (snd (m (get t))) t)) → along R (zoom get set m).
Proof. intros Hm t. specialize (Hm t). unfold zoom. by destruct (m (get t)). Qed.
Lemma returns_ret {S A} (P : A → Prop) (a : A) : P a → returns (S:=S) P (mret a).
Proof. by intros Ha s r s' [= <- _]. Qed.
Lemma returns_bind {S A B} (P : B → Prop) (m : M S A) (f : A → M S B) :
  (∀ a, returns P (f a)) → returns P (x ← m; f x).
Proof. intros Hf s r s' (a & s1 & _ & Hrun)%run_bind_ret. by eapply Hf. Qed.
Lemma returns_bind_when {S A B} (Q : A → Prop) (P : B → Prop) (m : M S A) (f : A → M S B) :
  returns Q m → (∀ a, Q a → returns P (f a)) → returns P (x ← m; f x).
Proof. intros Hm Hf s r s' (a & s1 & Ha & Hrun)%run_bind_ret. eapply Hf; [by eapply Hm|done]. Qed.

(** ** Runs that return

    [sure R m]: [m] returns, in a state that [R] relates to the first. *)
Definition sure {S A} (R : relation S) (m : M S A) : Prop := ∀ s, ∃ a s', m s = (Ret a, s') ∧ R s s'.

Lemma sure_modify {S} (R : relation S) (f : S → S) : (∀ s, R s (f s)) → sure R (modify f).
Proof. intros Hf s. by exists tt, (f s). Qed.
Section Sure.
Context {S : Type} (R : relation S) `{!PreOrder R}.
Lemma sure_ret {A} (a : A) : sure R (mret a).
Proof. intros s. by exists a, s. Qed.
Lemma sure_reads {A} (f : S → A) : sure R (reads f).
Proof. intros s. by exists (f s), s. Qed.
Lemma sure_bind {A B} (m : M S A) (f : A → M S B) : sure R m → (∀ a, sure R (f a)) → sure R (x ← m; f x).
Proof.
  intros Hm Hf s. destruct (Hm s) as (a & s1 & Ha & Hr1). destruct (Hf a s1) as (b & s2 & Hb & Hr2).
  exists b, s2. split; [by erewrite bind_run|by trans s1].
Qed.
Lemma sure_for_each {A B} (l : list A) (body : A → M S B) : (∀ x, x ∈ l → sure R (body x)) → sure R (for_each l body).
Proof.
  induction l as [|x l IH]; intros Hb; [apply sure_ret|]. cbn.
  apply sure_bind; [apply Hb; left|intros _; apply IH; intros; apply Hb; by right].
Qed.
Lemma sure_run {A} (m : M S A) s : sure R m → R s (snd (m s)).
Proof. intros Hm. destruct (Hm s) as (a & s' & -> & Hr). done. Qed.
End Sure.

Create HintDb runs.
#[export] Hint Extern 1 (sure _ (mret _)) => apply sure_ret; apply _ : runs.
(** Walks through an operation: what is left are the changes of fields, and the operations no hypothesis is about. *)
Ltac walk1 :=
  lazymatch goal with
  | |- sure _ (mbind _ _) => apply sure_bind; [apply _| |intros ?]
  | |- sure _ (mret _) => apply sure_ret; apply _
  | |- sure _ (reads _) => apply sure_reads; apply _
  | |- sure _ (for_each _ _) => apply sure_for_each; [apply _|intros ? _]
  | |- sure _ (let _ := _ in _) => cbv zeta
  | |- sure _ (if ?b then _ else _) => destruct b
  | |- sure _ (match ?x with _ => _ end) => destruct x
  | |- sure _ (when_ ?b _) => destruct b; unfold when_
  end.

Ltac walk :=
  repeat first [ walk1 | assumption | apply sure_modify; intros ?; cbn; by repeat case_match | solve [eauto with runs] ].

(** * Refinement

    [refines rep op f]: run from a state that represents [M], the operation
    succeeds only as [f] says; a refused or failed operation (or an exception)
    leaves the represented store as it was, and [f] refuses only what the
    operation refuses. *)
Definition refines {S T} (rep : S → T → Prop) (op : M S bool) (f : T → option T) : Prop :=
  ∀ s a r s', rep s a → op s = (r, s') →
    match r with
    | Ret true => ∃ a', f a = Some a' ∧ rep s' a'
    | _ => rep s' a
    end ∧ (f a = None → r = Ret false).

Lemma refines_outcome {T U} (rep : T → U → Prop) op f t (a : U) r t' :
  refines rep op f → rep t a → op t = (r, t') →
  ∃ a', rep t' a' ∧ (r = Ret true ∧ f a = Some a' ∨ r ≠ Ret true ∧ a' = a).
Proof.
  intros Hop Hr Hrun. destruct (Hop _ _ _ _ Hr Hrun) as [Hres _].
  destruct r as [[]|]; naive_solver.
Qed.

Lemma refines_cases {T U} (rep : T → U → Prop) op f t (a : U) r t' :
  refines rep op f → rep t a → op t = (r, t') → ∃ a', rep t' a' ∧ (a' = a ∨ f a = Some a').
Proof.
  intros Hop Hr Hrun. destruct (Hop _ _ _ _ Hr Hrun) as [Hres _].
  destruct r as [[]|]; [destruct Hres as (a' & ? & ?)|..]; eauto.
Qed.

Lemma refines_true {T U} (rep : T → U → Prop) op f t (a : U) t' :
  refines rep op f → rep t a → op t = (Ret true, t') → ∃ a', f a = Some a' ∧ rep t' a'.
Proof. intros Hop Hr Hrun. by destruct (Hop _ _ _ _ Hr Hrun) as [Hres _]. Qed.

(** * Strings

    [std::string] is a sequence of bytes: Rocq's [string].  Comparison of
    strings ([operator<], RocksDB's bytewise comparator) is [String.le]. *)

#[global] Arguments String.append : simpl nomatch.

Definition str_size (s : string) : nat := String.length s.

(** [s.substr(n)] for [n <= s.size()]. *)
Fixpoint str_drop (n : nat) (s : string) : string :=
  match n, s with
  | O, _ => s
  | S n', EmptyString => EmptyString
  | S n', String _ s' => str_drop n' s'
  end.

(** [s.substr(0, n)] *)
Fixpoint str_take (n : nat) (s : string) : string :=
  match n, s with
  | O, _ => EmptyString
  | S n', EmptyString => EmptyString
  | S n', String a s' => String a (str_take n' s')
  end.

(** The byte [c] occurs in [s]. *)
Fixpoint str_has (c : ascii) (s : string) : bool :=
  match s with
  | EmptyString => false
  | String a s' => bool_decide (a = c) || str_has c s'
  end.

(** The separator of database keys does not occur in [s]. *)
Definition no_colon (s : string) : Prop := str_has ":" s = false.
#[global] Instance no_colon_dec s : Decision (no_colon s).
Proof. unfold no_colon. apply _. Defined.

Lemma str_app_nil_r s : (s +:+ "") = s.
Proof. induction s; simpl; congruence. Qed.

Lemma str_app_assoc s1 s2 s3 : (s1 +:+ (s2 +:+ s3)) = ((s1 +:+ s2) +:+ s3).
Proof. induction s1; simpl; congruence. Qed.

Lemma str_app_empty s1 s2 : s1 +:+ s2 = "" ↔ s1 = "" ∧ s2 = "".
Proof. destruct s1; simpl; naive_solver. Qed.

Lemma str_size_app s1 s2 : str_size (s1 +:+ s2) = (str_size s1 + str_size s2)%nat.
Proof. unfold str_size. induction s1 as [|a s1 IH]; [done|]. cbn. by rewrite IH. Qed.

Lemma str_drop_app s1 s2 : str_drop (str_size s1) (s1 +:+ s2) = s2.
Proof. induction s1; cbn; auto. Qed.

Lemma str_take_app s1 s2 : str_take (str_size s1) (s1 +:+ s2) = s1.
Proof. induction s1 as [|a s1 IH]; [done|]. cbn. f_equal. exact IH. Qed.

Lemma str_take_drop n s : str_take n s +:+ str_drop n s = s.
Proof. revert n; induction s; intros [|n]; simpl; auto. by rewrite IHs. Qed.

Lemma str_size_drop n s : str_size (str_drop n s) = (str_size s - n)%nat.
Proof. revert n; induction s; intros [|n]; simpl; auto. Qed.

Lemma str_drop_all n s : (str_size s ≤ n)%nat → str_drop n s = "".
Proof.
  revert n; induction s; intros [|n]; simpl; auto; [lia|].
  intros. apply IHs. unfold str_size in *. lia.
Qed.

Lemma str_drop_drop n m s : str_drop n (str_drop m s) = str_drop (m + n)%nat s.
Proof.
  revert m; induction s; intros [|m]; simpl; auto. by destruct n.
Qed.

Lemma str_size_take n s : (n ≤ str_size s)%nat → str_size (str_take n s) = n.
Proof.
  revert n; induction s; intros [|n]; simpl; auto; [lia|].
  intros. unfold str_size in *. simpl. rewrite IHs; lia.
Qed.

Lemma str_has_app c s1 s2 : str_has c (s1 +:+ s2) = str_has c s1 || str_has c s2.
Proof. induction s1; simpl; [done|]. rewrite IHs1. by destruct (bool_decide _). Qed.

Lemma no_colon_app s1 s2 : no_colon (s1 +:+ s2) ↔ no_colon s1 ∧ no_colon s2.
Proof. unfold no_colon. rewrite str_has_app. apply orb_false_iff. Qed.

(** ** Prefixes *)

Lemma prefix_iff p s : String.prefix p s = true ↔ ∃ t, s = p +:+ t.
Proof.
  revert s; induction p as [|a p IH]; intros s.
  - split; [intros _; by exists s|]. by destruct s.
  - destruct s as [|b s]; simpl.
    + split; [done|]. by intros [t ?].
    + destruct (ascii_dec a b) as [->|Hne].
      * rewrite IH. split; intros [t Ht]; exists t; congruence.
      * split; [done|]. intros [t Ht]; congruence.
Qed.

Lemma prefix_app p s : String.prefix p (p +:+ s) = true.
Proof. apply prefix_iff. by exists s. Qed.

(** ** The bytewise order *)

Lemma str_le_nil s : String.le "" s.
Proof. unfold String.le, String.leb. by destruct s. Qed.

Lemma str_le_cons a s b t :
  String.le (String a s) (String b t) ↔
    (N_of_ascii a < N_of_ascii b)%N ∨ a = b ∧ String.le s t.
Proof.
  unfold String.le, String.leb; simpl. unfold Ascii.compare.
  destruct (N.compare_spec (N_of_ascii a) (N_of_ascii b)) as [He|Hl|Hl].
  - assert (a = b) as ->.
    { rewrite <-(ascii_N_embedding a), <-(ascii_N_embedding b). congruence. }
    split; [intros; by right|]. intros [?|[_ ?]]; [lia|done].
  - split; [by left|done].
  - split; [done|]. intros [?|[-> _]]; lia.
Qed.

Lemma str_le_prefix p t : String.le p (p +:+ t).
Proof.
  induction p; simpl; [apply str_le_nil|]. apply str_le_cons. by right.
Qed.

Lemma str_le_app p s t : String.le (p +:+ s) (p +:+ t) ↔ String.le s t.
Proof.
  induction p as [|a p IH]; simpl; [done|]. rewrite str_le_cons, IH.
  split; [|by right]. intros [?|[_ ?]]; [lia|done].
Qed.

(** Strings with a common prefix are contiguous in the order. *)
Lemma str_le_between p k t :
  String.le p k → String.le k (p +:+ t) → String.prefix p k = true.
Proof.
  revert k; induction p as [|a p IH]; intros k; simpl; [by destruct k|].
  destruct k as [|b k]; [by intros []|].
  rewrite !str_le_cons. intros [?|[-> ?]] [?|[? ?]]; subst; try lia.
  simpl. destruct (ascii_dec b b); [eauto|done].
Qed.

(** ** Keys made of fields separated by a byte *)

Lemma str_split_at c a a' b b' :
  str_has c a = false → str_has c a' = false →
  a +:+ String c b = a' +:+ String c b' → a = a' ∧ b = b'.
Proof.
  revert a'; induction a as [|x a IH]; intros [|y a']; simpl; intros Ha Ha' Heq.
  - split; congruence.
  - simplify_eq. rewrite bool_decide_true in Ha' by done. done.
  - simplify_eq. rewrite bool_decide_true in Ha by done. done.
  - simplify_eq. apply orb_false_elim in Ha as [_ Ha], Ha' as [_ Ha'].
    destruct (IH a' Ha Ha') as [-> ->]; auto.
Qed.

(** * Lists *)

Lemma NoDup_omap_strong {A B} (f : A → option B) (l : list A) :
  (∀ x y z, x ∈ l → y ∈ l → f x = Some z → f y = Some z → x = y) →
  NoDup l → NoDup (omap f l).
Proof.
  induction l as [|x l IH]; intros Hinj Hnd; simpl; [constructor|].
  apply NoDup_cons in Hnd as [Hni Hnd].
  assert (NoDup (omap f l)) by (apply IH; [intros; eapply Hinj; set_solver|done]).
  destruct (f x) as [z|] eqn:Hz; [|done]. apply NoDup_cons. split; [|done].
  intros (y & Hy & Hfy)%list_elem_of_omap.
  assert (x = y) as -> by (eapply Hinj; set_solver). done.
Qed.

(** [std::set<std::string>::insert]: the set as its elements in order. *)
Fixpoint sset_insert (x : string) (l : list string) : list string :=
  match l with
  | [] => [x]
  | y :: l' => if decide (x = y) then l
               else if decide (String.le x y) then x :: l
               else y :: sset_insert x l'
  end.

Lemma sset_insert_elem x l y : y ∈ sset_insert x l ↔ y = x ∨ y ∈ l.
Proof.
  induction l as [|z l IH]; simpl; [set_solver|].
  repeat case_decide; subst; set_solver.
Qed.

Lemma sset_insert_sorted x l :
  StronglySorted String.le l → StronglySorted String.le (sset_insert x l).
Proof.
  induction l as [|y l IH]; simpl; intros Hs; [by repeat constructor|].
  inversion Hs as [|? ? Hs' Hall]; subst. repeat case_decide; [done|..].
  - constructor; [done|]. constructor; [done|].
    eapply Forall_impl; [done|]. intros z ?. by trans y.
  - constructor; [by apply IH|]. apply Forall_forall. intros z [->|?]%sset_insert_elem.
    + by destruct (total String.le x y).
    + by eapply Forall_forall.
Qed.

Lemma sset_insert_nodup x l :
  StronglySorted String.le l → NoDup l → NoDup (sset_insert x l).
Proof.
  induction l as [|y l IH]; simpl; intros Hs Hnd; [apply NoDup_singleton|].
  inversion Hs as [|? ? Hs' Hall]; subst. apply NoDup_cons in Hnd as Hnd'.
  repeat case_decide; [done|..].
  - apply NoDup_cons. split; [|done]. intros [->|Hin]%elem_of_cons; [done|].
    rewrite Forall_forall in Hall. by assert (x = y) as -> by (apply (anti_symm String.le); auto).
  - apply NoDup_cons. split; [|naive_solver].
    rewrite sset_insert_elem. naive_solver.
Qed.

(** * Maps

    The lookups of [stdpp] at [gmap], where instance resolution is settled. *)

Section GMap.
Context `{Countable K} {A : Type}.
Implicit Types m : gmap K A.

Lemma gmap_delete_is_Some m i j : is_Some (delete i m !! j) ↔ i ≠ j ∧ is_Some (m !! j).
Proof. apply lookup_delete_is_Some. Qed.
Lemma gmap_insert_is_Some m i j x :
  is_Some (<[i:=x]> m !! j) ↔ i = j ∨ is_Some (m !! j).
Proof. apply lookup_insert_is_Some'. Qed.
Lemma gmap_delete_None m i j : delete i m !! j = None ↔ i = j ∨ m !! j = None.
Proof. apply lookup_delete_None. Qed.
End GMap.

(** * Sub-ranges of a vector

    [std::vector(v.begin() + first, v.begin() + last)]: [None] when the range
    is not inside the vector (undefined behaviour in C++). *)
Definition vec_range {A} (v : list A) (first last : Z) : option (list A) :=
  if decide (0 ≤ first ≤ last ∧ last ≤ Z.of_nat (length v))
  then Some (take (Z.to_nat (last - first)) (drop (Z.to_nat first) v))
  else None.

