(* ===== verification/External.v ===== *)
(** The libraries the sources call and do not contain: the RocksDB key-value
    store and the nlohmann JSON library.  Each is a class of operations, with
    a class of the documented laws the code relies on.  [MemDB] and [MemJson]
    are small concrete instances: they show that the laws can hold and let the
    development evaluate the operations on concrete states. *)

From Stdlib Require Import Ascii.
From S2P Require Import Prelude.

(** * RocksDB *)

(** The operations of a [rocksdb::WriteBatch]. *)
Inductive WriteOp : Type :=
  | WPut (key value : string)
  | WDelete (key : string).

(** [db_Get]: [Some] when the status is ok.  [db_Write], [db_Put] and
    [db_Delete]: the new database when the status is ok, [None] otherwise.
    [db_Seek d target]: the entries a fresh iterator visits from [target] on. *)
Class RocksDB (db : Type) : Type := {
  db_Get : db → string → option string;
  db_Write : db → list WriteOp → option db;
  db_Put : db → string → string → option db;
  db_Delete : db → string → option db;
  db_Seek : db → string → list (string * string);
}.

(** What a batch, applied in order, leaves at key [k]. *)
Fixpoint batch_get (b : list WriteOp) (k : string) (o : option string) : option string :=
  match b with
  | [] => o
  | WPut k' v :: b' => batch_get b' k (if decide (k' = k) then Some v else o)
  | WDelete k' :: b' => batch_get b' k (if decide (k' = k) then None else o)
  end.

Class RocksDBLaws (db : Type) `{RocksDB db} : Prop := {
  db_Get_Write (d d' : db) b k :
    db_Write d b = Some d' → db_Get d' k = batch_get b k (db_Get d k);
  db_Put_Write (d : db) k v : db_Put d k v = db_Write d [WPut k v];
  db_Delete_Write (d : db) k : db_Delete d k = db_Write d [WDelete k];
  db_Seek_elem (d : db) p k v :
    (k, v) ∈ db_Seek d p ↔ db_Get d k = Some v ∧ String.le p k;
  db_Seek_sorted (d : db) p : StronglySorted String.le ((db_Seek d p).*1);
  db_Seek_nodup (d : db) p : NoDup ((db_Seek d p).*1);
}.

(** The entries visited by the loop every store uses,
    [for (it->Seek(p); it->Valid(); it->Next()) { if (!starts_with(p)) break; ... }] *)
Fixpoint while_prefix (p : string) (l : list (string * string)) : list (string * string) :=
  match l with
  | [] => []
  | e :: l' => if String.prefix p e.1 then e :: while_prefix p l' else []
  end.

Definition db_scan {db} `{RocksDB db} (d : db) (p : string) : list (string * string) :=
  while_prefix p (db_Seek d p).

(** Writing calls in the effect monad; the value is [status.ok()]. *)
Definition kv_commit {db} (w : db → option db) : M db bool := λ d,
  match w d with Some d' => (Ret true, d') | None => (Ret false, d) end.
Definition kv_put {db} `{RocksDB db} (k v : string) : M db bool :=
  kv_commit (λ d, db_Put d k v).
Definition kv_delete {db} `{RocksDB db} (k : string) : M db bool :=
  kv_commit (λ d, db_Delete d k).
Definition kv_write {db} `{RocksDB db} (b : list WriteOp) : M db bool :=
  kv_commit (λ d, db_Write d b).

(** * JSON *)

(** The values the sources store in JSON objects. *)
Inductive jval : Type :=
  | JStr (s : string)
  | JInt (z : Z)
  | JBool (b : bool)
  | JStrs (l : list string).

#[global] Instance jval_eq_dec : EqDecision jval.
Proof. solve_decision. Defined.

(** [js_set j k v] is [j[k] = v].  [js_str j k d] is [j.value(k, d)] at a
    string, [js_int] at an integer (before the conversion to the C++ type of
    the default), [js_bool] at a bool; [None] is a thrown [type_error].
    [js_array j k] is [Some l] when [j.contains(k) && j[k].is_array()] with
    [l] the elements, [None] otherwise; an element is [None] when it is not a
    string.  [js_dump] throws on bytes that are not UTF-8 ([js_utf8]);
    [js_parse] throws on text that is not JSON. *)
Class JsonLib : Type := {
  json : Type;
  js_empty : json;
  js_set : json → string → jval → json;
  js_str : json → string → string → option string;
  js_int : json → string → Z → option Z;
  js_bool : json → string → bool → option bool;
  js_array : json → string → option (list (option string));
  js_dump : json → option string;
  js_parse : string → option json;
  js_utf8 : string → Prop;
}.

(** [json j; j[k1] = v1; ...; j[kn] = vn;] *)
Definition js_obj `{JsonLib} (kvs : list (string * jval)) : json :=
  foldl (λ j kv, js_set j kv.1 kv.2) js_empty kvs.

Definition jval_utf8 `{JsonLib} (v : jval) : Prop :=
  match v with
  | JStr s => js_utf8 s
  | JStrs l => Forall js_utf8 l
  | _ => True
  end.

Class JsonLaws `{JsonLib} : Prop := {
  js_str_empty k d : js_str js_empty k d = Some d;
  js_int_empty k d : js_int js_empty k d = Some d;
  js_bool_empty k d : js_bool js_empty k d = Some d;
  js_array_empty k : js_array js_empty k = None;
  js_str_set_eq j k s d : js_str (js_set j k (JStr s)) k d = Some s;
  js_int_set_eq j k z d : js_int (js_set j k (JInt z)) k d = Some z;
  js_bool_set_eq j k b d : js_bool (js_set j k (JBool b)) k d = Some b;
  js_array_set_eq j k l : js_array (js_set j k (JStrs l)) k = Some (Some <$> l);
  js_str_set_ne j k k' v d : k ≠ k' → js_str (js_set j k v) k' d = js_str j k' d;
  js_int_set_ne j k k' v d : k ≠ k' → js_int (js_set j k v) k' d = js_int j k' d;
  js_bool_set_ne j k k' v d : k ≠ k' → js_bool (js_set j k v) k' d = js_bool j k' d;
  js_array_set_ne j k k' v : k ≠ k' → js_array (js_set j k v) k' = js_array j k';
  js_parse_dump j s : js_dump j = Some s → js_parse s = Some j;
  js_dump_ok kvs : Forall (λ kv, js_utf8 kv.1 ∧ jval_utf8 kv.2) kvs →
    is_Some (js_dump (js_obj kvs));
}.

(** C++ conversion of an integer to [int32_t] / [int]. *)
Definition wrap32 (z : Z) : Z := (z + 2 ^ 31) mod 2 ^ 32 - 2 ^ 31.

(** ... and to [int64_t]. *)
Definition wrap64 (z : Z) : Z := (z + 2 ^ 63) mod 2 ^ 64 - 2 ^ 63.
Definition int64_range (z : Z) : Prop := - 2 ^ 63 ≤ z < 2 ^ 63.
Lemma wrap64_id z : int64_range z → wrap64 z = z.
Proof. unfold int64_range, wrap64. intros. rewrite Z.mod_small; lia. Qed.

(** [j.value(k, d)] where [d] is an [int]: the stored integer converted to [int]. *)
Definition js_int32 `{JsonLib} (j : json) (k : string) (d : Z) : option Z :=
  wrap32 <$> js_int j k d.

(** * Facts about integers *)

Definition int32_range (z : Z) : Prop := - 2 ^ 31 ≤ z < 2 ^ 31.

Lemma wrap32_id z : int32_range z → wrap32 z = z.
Proof. unfold int32_range, wrap32. intros. rewrite Z.mod_small; lia. Qed.

Lemma wrap32_range z : int32_range (wrap32 z).
Proof.
  unfold int32_range, wrap32.
  pose proof (Z.mod_pos_bound (z + 2 ^ 31) (2 ^ 32)). lia.
Qed.

Lemma wrap32_idemp z : wrap32 (wrap32 z) = wrap32 z.
Proof. apply wrap32_id, wrap32_range. Qed.

(** The low bits are not affected by the conversion. *)
Lemma wrap32_mod z n : 0 ≤ n ≤ 32 → wrap32 z mod 2 ^ n = z mod 2 ^ n.
Proof.
  intros Hn. unfold wrap32.
  assert (2 ^ 32 = 2 ^ (32 - n) * 2 ^ n) as E by (rewrite <-Z.pow_add_r by lia; f_equal; lia).
  pose proof (Z.div_mod (z + 2^31) (2^32) ltac:(lia)).
  replace ((z + 2 ^ 31) mod 2 ^ 32 - 2 ^ 31) with (z + (- ((z + 2 ^ 31) / 2 ^ 32 * 2 ^ (32 - n))) * 2 ^ n).
  2:{ rewrite Z.mul_opp_l, <-Z.mul_assoc, <-E. lia. }
  apply Z.mod_add. apply Z.pow_nonzero; lia.
Qed.
Lemma bits_mod z k n : 0 ≤ k → 0 ≤ n → (z / 2 ^ k) mod 2 ^ n = (z mod 2 ^ (k + n)) / 2 ^ k.
Proof.
  intros Hk Hn. rewrite Z.pow_add_r by lia.
  assert (0 < 2 ^ k) by (apply Z.pow_pos_nonneg; lia).
  assert (0 < 2 ^ n) by (apply Z.pow_pos_nonneg; lia).
  rewrite Z.rem_mul_r by lia. rewrite Z.mul_comm, Z.div_add by lia.
  rewrite Z.mod_div by lia. lia.
Qed.
Lemma wrap32_bits z k n : 0 ≤ k → 0 ≤ n → k + n ≤ 32 →
  (wrap32 z / 2 ^ k) mod 2 ^ n = (z / 2 ^ k) mod 2 ^ n.
Proof. intros. rewrite !bits_mod, wrap32_mod by lia. done. Qed.

(** * Facts about JSON objects *)

(** The value a list of assignments leaves at a key: the last one. *)
Fixpoint js_assoc (k : string) (kvs : list (string * jval)) : option jval :=
  match kvs with
  | [] => None
  | (k', v) :: kvs' =>
      match js_assoc k kvs' with
      | Some w => Some w
      | None => if decide (k' = k) then Some v else None
      end
  end.

Section JsonFacts.
Context `{!JsonLib} `{!JsonLaws}.

Lemma js_obj_snoc kvs k v : js_obj (kvs ++ [(k, v)]) = js_set (js_obj kvs) k v.
Proof. unfold js_obj. by rewrite foldl_app. Qed.

Lemma js_assoc_snoc kvs k v k' :
  js_assoc k' (kvs ++ [(k, v)]) = if decide (k = k') then Some v else js_assoc k' kvs.
Proof.
  induction kvs as [|[k0 v0] kvs IH]; simpl; [done|].
  rewrite IH. by case_decide.
Qed.

Lemma js_str_obj kvs k s d :
  js_assoc k kvs = Some (JStr s) → js_str (js_obj kvs) k d = Some s.
Proof.
  induction kvs as [|[k' v] kvs IH] using rev_ind; [done|].
  rewrite js_assoc_snoc, js_obj_snoc. case_decide; subst.
  - intros [= ->]. apply js_str_set_eq.
  - rewrite js_str_set_ne by done. done.
Qed.
Lemma js_int_obj kvs k z d :
  js_assoc k kvs = Some (JInt z) → js_int (js_obj kvs) k d = Some z.
Proof.
  induction kvs as [|[k' v] kvs IH] using rev_ind; [done|].
  rewrite js_assoc_snoc, js_obj_snoc. case_decide; subst.
  - intros [= ->]. apply js_int_set_eq.
  - rewrite js_int_set_ne by done. done.
Qed.
Lemma js_bool_obj kvs k b d :
  js_assoc k kvs = Some (JBool b) → js_bool (js_obj kvs) k d = Some b.
Proof.
  induction kvs as [|[k' v] kvs IH] using rev_ind; [done|].
  rewrite js_assoc_snoc, js_obj_snoc. case_decide; subst.
  - intros [= ->]. apply js_bool_set_eq.
  - rewrite js_bool_set_ne by done. done.
Qed.
Lemma js_array_obj kvs k l :
  js_assoc k kvs = Some (JStrs l) → js_array (js_obj kvs) k = Some (Some <$> l).
Proof.
  induction kvs as [|[k' v] kvs IH] using rev_ind; [done|].
  rewrite js_assoc_snoc, js_obj_snoc. case_decide; subst.
  - intros [= ->]. apply js_array_set_eq.
  - rewrite js_array_set_ne by done. done.
Qed.
Lemma js_str_obj_absent kvs k d :
  js_assoc k kvs = None → js_str (js_obj kvs) k d = Some d.
Proof.
  induction kvs as [|[k' v] kvs IH] using rev_ind; [intros; apply js_str_empty|].
  rewrite js_assoc_snoc, js_obj_snoc. case_decide; subst; [done|].
  rewrite js_str_set_ne by done. done.
Qed.
End JsonFacts.

(** Read the fields of an object built with [js_obj]. *)
Ltac js_simp :=
  unfold js_int32; cbn [mbind option_bind fmap option_fmap option_map];
  repeat (first
    [ erewrite js_str_obj by reflexivity
    | erewrite js_int_obj by reflexivity
    | erewrite js_bool_obj by reflexivity
    | erewrite js_array_obj by reflexivity
    | erewrite js_str_obj_absent by reflexivity ];
    cbn [mbind option_bind fmap option_fmap option_map]).

(** * OpenSSL

    Digests (named by their [EVP_MD]) give the digest bytes or fail; [HMAC] with
    SHA-256 gives the bytes it wrote. *)
Class OpenSSL : Type := {
  EVP_digest : string → string → option string;
  HMAC_sha256 : string → string → string;
}.

(** Functions that stand for the cryptography in concrete runs. *)
#[export] Instance MemOpenSSL : OpenSSL := {|
  EVP_digest md s := Some (md +:+ "/" +:+ s);
  HMAC_sha256 key data := str_take 4 (key +:+ data);
|}.

(** * Facts about RocksDB *)

Lemma while_prefix_elem p l k v :
  StronglySorted String.le (l.*1) → (∀ e, e ∈ l → String.le p e.1) →
  (k, v) ∈ while_prefix p l ↔ (k, v) ∈ l ∧ String.prefix p k = true.
Proof.
  induction l as [|[k0 v0] l IH]; csimpl; intros Hs Hle.
  { set_solver. }
  inversion Hs as [|? ? Hs' Hall]; subst.
  destruct (String.prefix p k0) eqn:Hp.
  - rewrite !elem_of_cons, IH by set_solver. naive_solver.
  - split; [set_solver|]. intros [Hin Hpk]. exfalso.
    assert (String.prefix p k0 = true) as ?; [|congruence].
    apply prefix_iff in Hpk as [t Ht]. apply elem_of_cons in Hin as [Heq|Hin].
    + simplify_eq. by rewrite prefix_app in Hp.
    + apply (str_le_between _ _ t); [by apply (Hle (k0, v0)); left|].
      rewrite <-Ht. rewrite Forall_forall in Hall. apply Hall.
      apply list_elem_of_fmap. by exists (k, v).
Qed.

Lemma while_prefix_sublist p l : sublist (while_prefix p l) l.
Proof.
  induction l as [|e l IH]; simpl; [done|].
  destruct (String.prefix p e.1); [by constructor|]. apply sublist_nil_l.
Qed.

Lemma while_prefix_sorted p l :
  StronglySorted String.le (l.*1) → StronglySorted String.le ((while_prefix p l).*1).
Proof.
  induction l as [|e l IH]; csimpl; intros Hs; [done|].
  inversion Hs as [|? ? Hs' Hall]; subst.
  destruct (String.prefix p e.1); csimpl; [|constructor].
  constructor; [auto|]. rewrite Forall_forall in Hall |- *.
  intros x [y [-> Hy]]%list_elem_of_fmap. apply Hall, list_elem_of_fmap.
  exists y. split; [done|]. by eapply elem_of_sublist, while_prefix_sublist.
Qed.

Lemma StronglySorted_fmap_fst (l : list (string * string)) :
  StronglySorted String.le (l.*1) ↔ StronglySorted (λ x y, String.le x.1 y.1) l.
Proof.
  induction l as [|e l IH]; csimpl; [split; constructor|].
  split; intros Hs; inversion Hs as [|? ? Hs' Hall]; subst;
    (constructor; [by apply IH|]); revert Hall; by rewrite Forall_fmap.
Qed.

Section RocksDBFacts.
Context {db : Type} `{!RocksDB db} `{!RocksDBLaws db}.
Implicit Types d : db.

Lemma db_scan_elem d p k v :
  (k, v) ∈ db_scan d p ↔ db_Get d k = Some v ∧ String.prefix p k = true.
Proof.
  unfold db_scan. rewrite while_prefix_elem.
  - rewrite db_Seek_elem. split; [naive_solver|]. intros [? Hp].
    split; [split|]; auto. apply prefix_iff in Hp as [t ->]. apply str_le_prefix.
  - apply db_Seek_sorted.
  - intros [k' v'] Hin. by apply db_Seek_elem in Hin as [_ ?].
Qed.

Lemma db_scan_sorted d p : StronglySorted String.le ((db_scan d p).*1).
Proof. apply while_prefix_sorted, db_Seek_sorted. Qed.

Lemma db_scan_nodup d p : NoDup ((db_scan d p).*1).
Proof.
  eapply sublist_NoDup; [apply (db_Seek_nodup d p)|].
  apply fmap_sublist, while_prefix_sublist.
Qed.

(** A scan reads only the keys that carry its prefix. *)
Lemma db_scan_ext d1 d2 p :
  (∀ k, String.prefix p k = true → db_Get d1 k = db_Get d2 k) →
  db_scan d1 p = db_scan d2 p.
Proof.
  intros Hext. apply (StronglySorted_unique_strong (λ x y, String.le x.1 y.1)).
  - intros [k1 v1] [k2 v2] H1%db_scan_elem H2%db_scan_elem Hle1 Hle2; simpl in *.
    assert (k1 = k2) as -> by by apply (anti_symm String.le).
    rewrite Hext in H1 by naive_solver. f_equal. naive_solver congruence.
  - apply StronglySorted_fmap_fst, db_scan_sorted.
  - apply StronglySorted_fmap_fst, db_scan_sorted.
  - apply NoDup_Permutation.
    + eapply NoDup_fmap_1, db_scan_nodup.
    + eapply NoDup_fmap_1, db_scan_nodup.
    + intros [k v]. rewrite !db_scan_elem.
      split; intros [HG Hp]; specialize (Hext k Hp); split; congruence.
Qed.

Lemma kv_commit_Ret_true (w : db → option db) d d' :
  kv_commit w d = (Ret true, d') ↔ w d = Some d'.
Proof. unfold kv_commit. destruct (w d); naive_solver. Qed.

Lemma db_Get_Put d d' k v k' :
  db_Put d k v = Some d' →
  db_Get d' k' = if decide (k = k') then Some v else db_Get d k'.
Proof. rewrite db_Put_Write. intros ->%(db_Get_Write _ _ _ k'). done. Qed.

Lemma db_Get_Delete d d' k k' :
  db_Delete d k = Some d' →
  db_Get d' k' = if decide (k = k') then None else db_Get d k'.
Proof. rewrite db_Delete_Write. intros ->%(db_Get_Write _ _ _ k'). done. Qed.
End RocksDBFacts.

(** A condition under which writes succeed, now and later. *)
Definition keeps_writing {db} `{RocksDB db} (P : db → Prop) : Prop :=
  ∀ d b, P d → ∃ d', db_Write d b = Some d' ∧ P d'.

(** * A concrete store and a concrete JSON library *)

(** [healthy = false]: every write returns an error status. *)
Record MemDB : Type := { mem_content : gmap string string; mem_healthy : bool }.

Definition mem_empty : MemDB := {| mem_content := ∅; mem_healthy := true |}.

Definition mem_apply (m : gmap string string) (op : WriteOp) : gmap string string :=
  match op with
  | WPut k v => <[k := v]> m
  | WDelete k => delete k m
  end.

Definition mem_write (d : MemDB) (b : list WriteOp) : option MemDB :=
  if mem_healthy d
  then Some {| mem_content := foldl mem_apply (mem_content d) b; mem_healthy := true |}
  else None.

Definition pair_le (x y : string * string) : Prop := String.le x.1 y.1.
#[global] Instance pair_le_dec x y : Decision (pair_le x y).
Proof. unfold pair_le. apply _. Defined.

#[global] Instance MemDB_RocksDB : RocksDB MemDB := {|
  db_Get d k := mem_content d !! k;
  db_Write := mem_write;
  db_Put d k v := mem_write d [WPut k v];
  db_Delete d k := mem_write d [WDelete k];
  db_Seek d p :=
    merge_sort pair_le (filter (λ e, String.le p e.1) (map_to_list (mem_content d)));
|}.

#[global] Instance pair_le_trans : Transitive pair_le.
Proof. intros x y z. unfold pair_le. apply transitivity. Qed.
#[global] Instance pair_le_total : Total pair_le.
Proof. intros x y. unfold pair_le. apply (total String.le). Qed.

Lemma mem_foldl_lookup b m k :
  foldl mem_apply m b !! k = batch_get b k (m !! k).
Proof.
  revert m; induction b as [|[k' v|k'] b IH]; intros m; simpl; [done|..];
    rewrite IH; f_equal; by rewrite ?lookup_insert, ?lookup_delete.
Qed.

#[global] Instance MemDB_laws : RocksDBLaws MemDB.
Proof.
  split; simpl.
  - intros d d' b k. unfold mem_write. destruct (mem_healthy d); [|done].
    intros [= <-]. apply mem_foldl_lookup.
  - done.
  - done.
  - intros d p k v. rewrite merge_sort_Permutation, list_elem_of_filter,
      elem_of_map_to_list. simpl. naive_solver.
  - intros d p. apply StronglySorted_fmap_fst.
    apply (StronglySorted_merge_sort pair_le).
  - intros d p. rewrite merge_sort_Permutation.
    eapply sublist_NoDup; [apply (NoDup_fst_map_to_list (mem_content d))|].
    apply fmap_sublist, sublist_filter.
Qed.

Lemma mem_keeps_writing : keeps_writing (λ d : MemDB, mem_healthy d = true).
Proof. intros d b Hd. simpl. unfold mem_write. rewrite Hd. eauto. Qed.

(** Text of a JSON value.  Each byte of a string is preceded by ["1"] and the
    string is closed by ["0"]; numbers are written bit by bit. *)
Fixpoint put_str (s : string) (rest : string) : string :=
  match s with
  | EmptyString => String "0"%char rest
  | String c s => String "1"%char (String c (put_str s rest))
  end.
Fixpoint get_str (s : string) : option (string * string) :=
  match s with
  | String t s =>
      if ascii_dec t "0"%char then Some ("", s) else
      match s with
      | String c s => '(r, rest) ← get_str s; Some (String c r, rest)
      | EmptyString => None
      end
  | EmptyString => None
  end.

Fixpoint put_pos (p : positive) (rest : string) : string :=
  match p with
  | xH => String "h"%char rest
  | xO p => String "0"%char (put_pos p rest)
  | xI p => String "1"%char (put_pos p rest)
  end.
Fixpoint get_pos (s : string) : option (positive * string) :=
  match s with
  | String t s =>
      if ascii_dec t "h"%char then Some (xH, s) else
      '(p, rest) ← get_pos s;
      Some (if ascii_dec t "0"%char then xO p else xI p, rest)
  | EmptyString => None
  end.

Fixpoint put_strs (l : list string) (rest : string) : string :=
  match l with
  | [] => String "."%char rest
  | s :: l => String ","%char (put_str s (put_strs l rest))
  end.
Fixpoint get_strs (fuel : nat) (s : string) : option (list string * string) :=
  match fuel, s with
  | S n, String t s =>
      if ascii_dec t "."%char then Some ([], s) else
      '(x, s) ← get_str s; '(l, rest) ← get_strs n s; Some (x :: l, rest)
  | _, _ => None
  end.

Definition put_jval (v : jval) (rest : string) : string :=
  match v with
  | JStr s => String "s"%char (put_str s rest)
  | JInt Z0 => String "z"%char rest
  | JInt (Zpos p) => String "p"%char (put_pos p rest)
  | JInt (Zneg p) => String "n"%char (put_pos p rest)
  | JBool true => String "t"%char rest
  | JBool false => String "f"%char rest
  | JStrs l => String "a"%char (put_strs l rest)
  end.
Definition get_jval (fuel : nat) (s : string) : option (jval * string) :=
  match s with
  | String t s =>
      if ascii_dec t "s"%char then '(x, r) ← get_str s; Some (JStr x, r)
      else if ascii_dec t "z"%char then Some (JInt 0, s)
      else if ascii_dec t "p"%char then '(p, r) ← get_pos s; Some (JInt (Zpos p), r)
      else if ascii_dec t "n"%char then '(p, r) ← get_pos s; Some (JInt (Zneg p), r)
      else if ascii_dec t "t"%char then Some (JBool true, s)
      else if ascii_dec t "f"%char then Some (JBool false, s)
      else '(l, r) ← get_strs fuel s; Some (JStrs l, r)
  | EmptyString => None
  end.

Fixpoint put_fields (l : list (string * jval)) : string :=
  match l with
  | [] => "."
  | (k, v) :: l => String ","%char (put_str k (put_jval v (put_fields l)))
  end.
Fixpoint get_fields (fuel : nat) (s : string) : option (list (string * jval)) :=
  match fuel, s with
  | S n, String t s =>
      if ascii_dec t "."%char then Some [] else
      '(k, s) ← get_str s; '(v, s) ← get_jval n s; l ← get_fields n s; Some ((k, v) :: l)
  | _, _ => None
  end.

Lemma get_put_str s r : get_str (put_str s r) = Some (s, r).
Proof. induction s as [|c s IH]; simpl; [done|]. by rewrite IH. Qed.
Lemma get_put_pos p r : get_pos (put_pos p r) = Some (p, r).
Proof. induction p as [p IH|p IH|]; simpl; rewrite ?IH; done. Qed.

Lemma size_put_str s r : (str_size r < str_size (put_str s r))%nat.
Proof. unfold str_size. induction s; simpl; lia. Qed.

Lemma get_put_strs l r n : (str_size (put_strs l r) ≤ n)%nat →
  get_strs n (put_strs l r) = Some (l, r).
Proof.
  unfold str_size. revert n. induction l as [|s l IH]; intros [|n] Hn; simpl in *; try lia; [done|].
  rewrite get_put_str. simpl. rewrite IH; [done|].
  pose proof (size_put_str s (put_strs l r)). unfold str_size in *. lia.
Qed.

Lemma get_put_jval v r n : (str_size (put_jval v r) ≤ n)%nat →
  get_jval n (put_jval v r) = Some (v, r).
Proof.
  intros Hn. destruct v as [s|[]|[]|l]; simpl in *; rewrite ?get_put_str, ?get_put_pos; try done.
  rewrite get_put_strs; [done|]. unfold str_size in *. simpl in Hn. lia.
Qed.

Lemma size_put_strs l r : (str_size r < str_size (put_strs l r))%nat.
Proof.
  induction l as [|s l IH]; [unfold str_size; simpl; lia|].
  pose proof (size_put_str s (put_strs l r)). unfold str_size in *. simpl. lia.
Qed.

Lemma size_put_jval v r : (str_size r < str_size (put_jval v r))%nat.
Proof.
  assert (∀ p, str_size r < str_size (put_pos p r))%nat.
  { induction p; unfold str_size in *; simpl in *; lia. }
  destruct v as [s|[|p|p]|[]|l]; unfold str_size in *; simpl; try lia.
  - pose proof (size_put_str s r). unfold str_size in *. lia.
  - specialize (H p). lia.
  - specialize (H p). lia.
  - pose proof (size_put_strs l r). unfold str_size in *. lia.
Qed.

Lemma get_put_fields l n : (str_size (put_fields l) ≤ n)%nat →
  get_fields n (put_fields l) = Some l.
Proof.
  revert n. induction l as [|[k v] l IH]; intros [|n] Hn; unfold str_size in *; simpl in *; try lia;
    [done|].
  pose proof (size_put_str k (put_jval v (put_fields l))).
  pose proof (size_put_jval v (put_fields l)). unfold str_size in *.
  rewrite get_put_str. simpl. rewrite get_put_jval by (unfold str_size; lia). simpl.
  by rewrite IH by lia.
Qed.

(** The first entry of a list of fields at a key. *)
Fixpoint field (k : string) (l : list (string * jval)) : option jval :=
  match l with
  | [] => None
  | (k', v) :: l => if decide (k' = k) then Some v else field k l
  end.

#[global] Instance MemJson : JsonLib := {|
  json := list (string * jval);
  js_empty := [];
  js_set j k v := (k, v) :: j;
  js_str j k d := match field k j with
                  | None => Some d | Some (JStr s) => Some s | Some _ => None end;
  js_int j k d := match field k j with
                  | None => Some d | Some (JInt z) => Some z
                  | Some (JBool b) => Some (if b then 1 else 0) | Some _ => None end;
  js_bool j k d := match field k j with
                   | None => Some d | Some (JBool b) => Some b | Some _ => None end;
  js_array j k := match field k j with
                  | Some (JStrs l) => Some (Some <$> l) | _ => None end;
  js_dump j := Some (put_fields j);
  js_parse s := get_fields (str_size s) s;
  js_utf8 := λ _, True;
|}.

#[global] Instance MemJson_laws : JsonLaws.
Proof.
  split; simpl; intros; rewrite ?decide_True by done; rewrite ?decide_False by done; try done.
  simplify_eq. by rewrite get_put_fields.
Qed.

(** * Typed keys

    Each store builds its keys from a few constructors; [key_ok] says that the
    fields of the key do not contain the separator.  The rendering of such a
    key is the rendering of no other key. *)
Class KeySpace (K : Type) : Type := {
  ks_dec :: EqDecision K;
  key_str : K → string;
  key_ok : K → Prop;
  key_inj a b : key_ok b → key_str a = key_str b → a = b;
}.

(** An identifier usable as a key field: non-empty, no [':']. *)
Definition ok_id (s : string) : Prop := s ≠ "" ∧ no_colon s.
#[global] Instance ok_id_dec s : Decision (ok_id s).
Proof. unfold ok_id. apply _. Defined.

Lemma field_inj a a' b b' :
  no_colon a' → no_colon b' → a +:+ ":" +:+ b = a' +:+ ":" +:+ b' → a = a' ∧ b = b'.
Proof.
  unfold no_colon.
  revert a'; induction a as [|x a IH]; intros [|y a']; simpl; intros Ha' Hb' Heq.
  - by simplify_eq.
  - simplify_eq; by rewrite bool_decide_true in Ha'.
  - simplify_eq; rewrite str_has_app in Hb'; simpl in Hb'.
    by rewrite orb_true_r in Hb'.
  - simplify_eq. apply orb_false_elim in Ha' as [_ Ha'].
    destruct (IH a' Ha' Hb' ltac:(done)) as [-> ->]; auto.
Qed.

(** Writes at typed keys. *)
Inductive KOp (K : Type) : Type := KPut (k : K) (v : string) | KDel (k : K).
Arguments KPut {K} k v.
Arguments KDel {K} k.

Definition kop_key {K} (o : KOp K) : K := match o with KPut k _ => k | KDel k => k end.
Definition kop_op `{KeySpace K} (o : KOp K) : WriteOp :=
  match o with KPut k v => WPut (key_str k) v | KDel k => WDelete (key_str k) end.
Fixpoint kbatch_get `{KeySpace K} (b : list (KOp K)) (k : K) (o : option string) : option string :=
  match b with
  | [] => o
  | KPut k' v :: b' => kbatch_get b' k (if decide (k' = k) then Some v else o)
  | KDel k' :: b' => kbatch_get b' k (if decide (k' = k) then None else o)
  end.

Section TypedKeys.
Context {db : Type} `{!RocksDB db} `{!RocksDBLaws db} `{!KeySpace K}.
Implicit Types d : db.

Definition kget (d : db) (k : K) : option string := db_Get d (key_str k).

(** Every key of the database is a well-formed key of the store. *)
Definition keys_closed (d : db) : Prop :=
  ∀ s v, db_Get d s = Some v → ∃ k, key_ok k ∧ s = key_str k.

Lemma key_str_decide {A} (k k' : K) (x y : A) :
  key_ok k →
  (if decide (key_str k = key_str k') then x else y) = if decide (k = k') then x else y.
Proof.
  intros. destruct (decide (k = k')) as [->|Hne].
  - by rewrite decide_True.
  - rewrite decide_False; [done|]. intros ?. by apply Hne, symmetry, key_inj.
Qed.

Lemma kget_Some_ok d k v : keys_closed d → kget d k = Some v → key_ok k.
Proof. intros Hc (k' & Hok & Heq)%Hc. by rewrite (key_inj k k'). Qed.

Lemma kget_None d k : keys_closed d → ¬ key_ok k → kget d k = None.
Proof. intros Hc Hok. apply eq_None_not_Some. by intros [v ?%kget_Some_ok]. Qed.

Lemma batch_get_kbatch b k o :
  Forall (λ op, key_ok (kop_key op)) b →
  batch_get (kop_op <$> b) (key_str k) o = kbatch_get b k o.
Proof.
  intros Hb. revert o. induction Hb as [|[k' v|k'] b Hop Hb IH]; intros o; csimpl; [done|..];
    rewrite IH; f_equal; by rewrite key_str_decide.
Qed.

Lemma kget_write d d' b k :
  Forall (λ op, key_ok (kop_key op)) b →
  db_Write d (kop_op <$> b) = Some d' → kget d' k = kbatch_get b k (kget d k).
Proof.
  intros Hb Hw. unfold kget. rewrite (db_Get_Write d d' _ _ Hw).
  by apply batch_get_kbatch.
Qed.

Lemma batch_get_new b s o v :
  batch_get b s o = Some v → o = Some v ∨ ∃ v', WPut s v' ∈ b.
Proof.
  revert o. induction b as [|[k' v'|k'] b IH]; intros o; simpl; [by left|..];
    intros [Hd|[v'' ?]]%IH; try (right; eexists; by right); case_decide; subst.
  - right. eexists. by left.
  - by left.
  - done.
  - by left.
Qed.

Lemma keys_closed_write d d' b :
  keys_closed d → Forall (λ op, key_ok (kop_key op)) b →
  db_Write d (kop_op <$> b) = Some d' → keys_closed d'.
Proof.
  intros Hc Hb Hw s v. rewrite (db_Get_Write d d' _ s Hw).
  intros [?|[v' Hin]]%batch_get_new; [by eapply Hc|].
  apply list_elem_of_fmap in Hin as [[k0 v0|k0] [Heq Hin]]; simplify_eq/=.
  exists k0. split; [|done]. rewrite Forall_forall in Hb. by apply (Hb _ Hin).
Qed.

(** A single put or delete, seen as a batch. *)
Lemma kop_of_Put d d' k v :
  db_Put d (key_str k) v = Some d' → db_Write d (kop_op <$> [KPut k v]) = Some d'.
Proof. by rewrite db_Put_Write. Qed.
Lemma kop_of_Delete d d' k :
  db_Delete d (key_str k) = Some d' → db_Write d (kop_op <$> [KDel k]) = Some d'.
Proof. by rewrite db_Delete_Write. Qed.
End TypedKeys.

(** Split a hypothesis about a run of database calls. *)
Ltac dbrun H := unfold kv_put, kv_delete, kv_write, kv_commit in H; mrun H.

(** The keys of an explicit batch are well formed. *)
Ltac keys_ok :=
  repeat first [apply Forall_nil_2 | apply Forall_cons_2]; simpl; auto.

(** [key.substr(prefix.size())] for the visited keys longer than the prefix. *)
Definition key_suffixes (prefix : string) (l : list (string * string)) : list string :=
  omap (λ e, if decide (str_size prefix < str_size e.1)%nat
             then Some (str_drop (str_size prefix) e.1) else None) l.

Lemma key_suffixes_elem `{!RocksDB db} `{!RocksDBLaws db} (d : db) p s :
  s ∈ key_suffixes p (db_scan d p) ↔ s ≠ "" ∧ is_Some (db_Get d (p +:+ s)).
Proof.
  unfold key_suffixes. rewrite list_elem_of_omap. split.
  - intros [[k v] [Hin Hs]]. apply db_scan_elem in Hin as [Hget [t ->]%prefix_iff].
    simpl in Hs. case_decide as Hlen; [|done]. simplify_eq/=. rewrite str_drop_app.
    split; [|eauto]. intros ->. rewrite str_app_nil_r in Hlen. lia.
  - intros [Hne [v Hv]]. exists (p +:+ s, v). split.
    + apply db_scan_elem. split; [done|apply prefix_app].
    + simpl. rewrite str_size_app, str_drop_app, decide_True; [done|].
      destruct s; [done|]. unfold str_size; simpl; lia.
Qed.

Lemma key_suffixes_nodup `{!RocksDB db} `{!RocksDBLaws db} (d : db) p :
  NoDup (key_suffixes p (db_scan d p)).
Proof.
  pose proof (db_scan_nodup d p) as Hnd.
  assert (∀ k v, (k, v) ∈ db_scan d p → String.prefix p k = true) as Hp.
  { intros k v Hin. by apply db_scan_elem in Hin as [_ ?]. }
  induction (db_scan d p) as [|[k v] l IH]; [constructor|].
  csimpl in Hnd. apply NoDup_cons in Hnd as [Hni Hnd].
  assert (NoDup (key_suffixes p l)) as IH' by (apply IH; [done|set_solver]).
  unfold key_suffixes; simpl. case_decide as Hlen; [|done].
  apply NoDup_cons. split; [|done]. intros [[k' v'] [Hin Hs]]%list_elem_of_omap.
  simpl in Hs. case_decide; [|done]. simplify_eq.
  apply Hni. apply list_elem_of_fmap. exists (k', v'). split; [|done]. simpl.
  destruct (proj1 (prefix_iff p k) (Hp k v ltac:(left))) as [t ->].
  destruct (proj1 (prefix_iff p k') (Hp k' v' ltac:(by right))) as [t' ->].
  rewrite !str_drop_app in *. congruence.
Qed.
