(* ===== verification/Errors.v ===== *)
(** [swift/error_code.h]: the error codes, their numeric values and their
    descriptions, the [Error] structure, and the classes [Result<T>] and
    [Status]. *)

From S2P Require Import Prelude.

(** [enum class ErrorCode] *)
Inductive ErrorCode : Type :=
  | OK | UNKNOWN | INVALID_PARAM | INTERNAL_ERROR | NOT_FOUND | ALREADY_EXISTS
  | PERMISSION_DENIED | RATE_LIMITED | SERVICE_UNAVAILABLE | TIMEOUT | CANCELLED
  | DATA_CORRUPTED | UNSUPPORTED | AUTH_FAILED | TOKEN_EXPIRED | TOKEN_INVALID
  | USER_NOT_FOUND | PASSWORD_WRONG | USER_ALREADY_EXISTS | USERNAME_INVALID
  | PASSWORD_TOO_WEAK | ACCOUNT_DISABLED | ACCOUNT_LOCKED | EMAIL_INVALID
  | EMAIL_ALREADY_USED | PHONE_INVALID | PHONE_ALREADY_USED | VERIFY_CODE_WRONG
  | VERIFY_CODE_EXPIRED | LOGIN_ELSEWHERE | SESSION_INVALID | FRIEND_ALREADY
  | FRIEND_NOT_FOUND | BLOCKED | REQUEST_PENDING | REQUEST_NOT_FOUND | REQUEST_EXPIRED
  | SELF_OPERATION | FRIEND_LIMIT_REACHED | BLOCK_LIMIT_REACHED | ALREADY_BLOCKED
  | NOT_BLOCKED | FRIEND_GROUP_DEFAULT | FRIEND_GROUP_NOT_FOUND | MSG_NOT_FOUND
  | RECALL_TIMEOUT | RECALL_NOT_ALLOWED | MSG_TOO_LONG | MSG_EMPTY | MSG_TYPE_INVALID
  | CONVERSATION_NOT_FOUND | MSG_SEND_FAILED | MSG_ALREADY_READ | OFFLINE_MSG_LIMIT
  | MSG_FILTERED | RECEIVER_OFFLINE | RECEIVER_BLOCKED | CONVERSATION_PRIVATE_CANNOT_DELETE
  | FILE_TOO_LARGE | FILE_TYPE_NOT_ALLOWED | UPLOAD_FAILED | DOWNLOAD_FAILED
  | FILE_NOT_FOUND | FILE_EXPIRED | STORAGE_FULL | FILE_CORRUPTED | CHECKSUM_MISMATCH
  | UPLOAD_INCOMPLETE | FILE_LOCKED | THUMBNAIL_FAILED | GROUP_NOT_FOUND
  | GROUP_ALREADY_EXISTS | GROUP_FULL | NOT_GROUP_MEMBER | ALREADY_GROUP_MEMBER
  | NOT_GROUP_ADMIN | NOT_GROUP_OWNER | GROUP_DISBANDED | INVITE_NOT_ALLOWED
  | JOIN_NOT_ALLOWED | KICK_NOT_ALLOWED | GROUP_MUTED | MEMBER_MUTED | GROUP_NAME_INVALID
  | ADMIN_LIMIT_REACHED | OWNER_CANNOT_LEAVE | CANNOT_KICK_ADMIN | GROUP_MEMBERS_TOO_FEW
  | CONNECTION_CLOSED | CONNECTION_TIMEOUT | HANDSHAKE_FAILED | PROTOCOL_ERROR
  | MESSAGE_TOO_LARGE | INVALID_FRAME | PING_TIMEOUT | TOO_MANY_CONNECTIONS
  | KICK_BY_SERVER | DUPLICATE_LOGIN | UPSTREAM_UNAVAILABLE | ROUTE_NOT_FOUND
  | USER_OFFLINE | GATE_NOT_FOUND | GATE_UNAVAILABLE | SESSION_NOT_FOUND | FORWARD_FAILED
  | BROADCAST_FAILED | DB_CONNECTION_FAILED | DB_QUERY_FAILED | DB_WRITE_FAILED
  | DB_TRANSACTION_FAILED | CACHE_MISS | CACHE_WRITE_FAILED | REDIS_CONNECTION_FAILED
  | ROCKSDB_ERROR | RPC_FAILED | RPC_TIMEOUT | RPC_CANCELLED | SERVICE_NOT_FOUND
  | NETWORK_ERROR | DNS_FAILED | SSL_ERROR.

(** The values of the enumerators. *)
Definition ErrorCode_value (code : ErrorCode) : Z :=
  match code with
  | OK => 0 | UNKNOWN => 1 | INVALID_PARAM => 2 | INTERNAL_ERROR => 3 | NOT_FOUND => 4
  | ALREADY_EXISTS => 5 | PERMISSION_DENIED => 6 | RATE_LIMITED => 7
  | SERVICE_UNAVAILABLE => 8 | TIMEOUT => 9 | CANCELLED => 10 | DATA_CORRUPTED => 11
  | UNSUPPORTED => 12 | AUTH_FAILED => 100 | TOKEN_EXPIRED => 101 | TOKEN_INVALID => 102
  | USER_NOT_FOUND => 103 | PASSWORD_WRONG => 104 | USER_ALREADY_EXISTS => 105
  | USERNAME_INVALID => 106 | PASSWORD_TOO_WEAK => 107 | ACCOUNT_DISABLED => 108
  | ACCOUNT_LOCKED => 109 | EMAIL_INVALID => 110 | EMAIL_ALREADY_USED => 111
  | PHONE_INVALID => 112 | PHONE_ALREADY_USED => 113 | VERIFY_CODE_WRONG => 114
  | VERIFY_CODE_EXPIRED => 115 | LOGIN_ELSEWHERE => 116 | SESSION_INVALID => 117
  | FRIEND_ALREADY => 200 | FRIEND_NOT_FOUND => 201 | BLOCKED => 202
  | REQUEST_PENDING => 203 | REQUEST_NOT_FOUND => 204 | REQUEST_EXPIRED => 205
  | SELF_OPERATION => 206 | FRIEND_LIMIT_REACHED => 207 | BLOCK_LIMIT_REACHED => 208
  | ALREADY_BLOCKED => 209 | NOT_BLOCKED => 210 | FRIEND_GROUP_DEFAULT => 211
  | FRIEND_GROUP_NOT_FOUND => 212 | MSG_NOT_FOUND => 300 | RECALL_TIMEOUT => 301
  | RECALL_NOT_ALLOWED => 302 | MSG_TOO_LONG => 303 | MSG_EMPTY => 304
  | MSG_TYPE_INVALID => 305 | CONVERSATION_NOT_FOUND => 306 | MSG_SEND_FAILED => 307
  | MSG_ALREADY_READ => 308 | OFFLINE_MSG_LIMIT => 309 | MSG_FILTERED => 310
  | RECEIVER_OFFLINE => 311 | RECEIVER_BLOCKED => 312
  | CONVERSATION_PRIVATE_CANNOT_DELETE => 313 | FILE_TOO_LARGE => 400
  | FILE_TYPE_NOT_ALLOWED => 401 | UPLOAD_FAILED => 402 | DOWNLOAD_FAILED => 403
  | FILE_NOT_FOUND => 404 | FILE_EXPIRED => 405 | STORAGE_FULL => 406
  | FILE_CORRUPTED => 407 | CHECKSUM_MISMATCH => 408 | UPLOAD_INCOMPLETE => 409
  | FILE_LOCKED => 410 | THUMBNAIL_FAILED => 411 | GROUP_NOT_FOUND => 500
  | GROUP_ALREADY_EXISTS => 501 | GROUP_FULL => 502 | NOT_GROUP_MEMBER => 503
  | ALREADY_GROUP_MEMBER => 504 | NOT_GROUP_ADMIN => 505 | NOT_GROUP_OWNER => 506
  | GROUP_DISBANDED => 507 | INVITE_NOT_ALLOWED => 508 | JOIN_NOT_ALLOWED => 509
  | KICK_NOT_ALLOWED => 510 | GROUP_MUTED => 511 | MEMBER_MUTED => 512
  | GROUP_NAME_INVALID => 513 | ADMIN_LIMIT_REACHED => 514 | OWNER_CANNOT_LEAVE => 515
  | CANNOT_KICK_ADMIN => 516 | GROUP_MEMBERS_TOO_FEW => 517 | CONNECTION_CLOSED => 600
  | CONNECTION_TIMEOUT => 601 | HANDSHAKE_FAILED => 602 | PROTOCOL_ERROR => 603
  | MESSAGE_TOO_LARGE => 604 | INVALID_FRAME => 605 | PING_TIMEOUT => 606
  | TOO_MANY_CONNECTIONS => 607 | KICK_BY_SERVER => 608 | DUPLICATE_LOGIN => 609
  | UPSTREAM_UNAVAILABLE => 610 | ROUTE_NOT_FOUND => 700 | USER_OFFLINE => 701
  | GATE_NOT_FOUND => 702 | GATE_UNAVAILABLE => 703 | SESSION_NOT_FOUND => 704
  | FORWARD_FAILED => 705 | BROADCAST_FAILED => 706 | DB_CONNECTION_FAILED => 800
  | DB_QUERY_FAILED => 801 | DB_WRITE_FAILED => 802 | DB_TRANSACTION_FAILED => 803
  | CACHE_MISS => 804 | CACHE_WRITE_FAILED => 805 | REDIS_CONNECTION_FAILED => 806
  | ROCKSDB_ERROR => 807 | RPC_FAILED => 900 | RPC_TIMEOUT => 901 | RPC_CANCELLED => 902
  | SERVICE_NOT_FOUND => 903 | NETWORK_ERROR => 904 | DNS_FAILED => 905 | SSL_ERROR => 906
  end.

Definition all_codes : list ErrorCode :=
  [OK; UNKNOWN; INVALID_PARAM; INTERNAL_ERROR; NOT_FOUND; ALREADY_EXISTS;
   PERMISSION_DENIED; RATE_LIMITED; SERVICE_UNAVAILABLE; TIMEOUT; CANCELLED;
   DATA_CORRUPTED; UNSUPPORTED; AUTH_FAILED; TOKEN_EXPIRED; TOKEN_INVALID; USER_NOT_FOUND;
   PASSWORD_WRONG; USER_ALREADY_EXISTS; USERNAME_INVALID; PASSWORD_TOO_WEAK;
   ACCOUNT_DISABLED; ACCOUNT_LOCKED; EMAIL_INVALID; EMAIL_ALREADY_USED; PHONE_INVALID;
   PHONE_ALREADY_USED; VERIFY_CODE_WRONG; VERIFY_CODE_EXPIRED; LOGIN_ELSEWHERE;
   SESSION_INVALID; FRIEND_ALREADY; FRIEND_NOT_FOUND; BLOCKED; REQUEST_PENDING;
   REQUEST_NOT_FOUND; REQUEST_EXPIRED; SELF_OPERATION; FRIEND_LIMIT_REACHED;
   BLOCK_LIMIT_REACHED; ALREADY_BLOCKED; NOT_BLOCKED; FRIEND_GROUP_DEFAULT;
   FRIEND_GROUP_NOT_FOUND; MSG_NOT_FOUND; RECALL_TIMEOUT; RECALL_NOT_ALLOWED; MSG_TOO_LONG;
   MSG_EMPTY; MSG_TYPE_INVALID; CONVERSATION_NOT_FOUND; MSG_SEND_FAILED; MSG_ALREADY_READ;
   OFFLINE_MSG_LIMIT; MSG_FILTERED; RECEIVER_OFFLINE; RECEIVER_BLOCKED;
   CONVERSATION_PRIVATE_CANNOT_DELETE; FILE_TOO_LARGE; FILE_TYPE_NOT_ALLOWED;
   UPLOAD_FAILED; DOWNLOAD_FAILED; FILE_NOT_FOUND; FILE_EXPIRED; STORAGE_FULL;
   FILE_CORRUPTED; CHECKSUM_MISMATCH; UPLOAD_INCOMPLETE; FILE_LOCKED; THUMBNAIL_FAILED;
   GROUP_NOT_FOUND; GROUP_ALREADY_EXISTS; GROUP_FULL; NOT_GROUP_MEMBER;
   ALREADY_GROUP_MEMBER; NOT_GROUP_ADMIN; NOT_GROUP_OWNER; GROUP_DISBANDED;
   INVITE_NOT_ALLOWED; JOIN_NOT_ALLOWED; KICK_NOT_ALLOWED; GROUP_MUTED; MEMBER_MUTED;
   GROUP_NAME_INVALID; ADMIN_LIMIT_REACHED; OWNER_CANNOT_LEAVE; CANNOT_KICK_ADMIN;
   GROUP_MEMBERS_TOO_FEW; CONNECTION_CLOSED; CONNECTION_TIMEOUT; HANDSHAKE_FAILED;
   PROTOCOL_ERROR; MESSAGE_TOO_LARGE; INVALID_FRAME; PING_TIMEOUT; TOO_MANY_CONNECTIONS;
   KICK_BY_SERVER; DUPLICATE_LOGIN; UPSTREAM_UNAVAILABLE; ROUTE_NOT_FOUND; USER_OFFLINE;
   GATE_NOT_FOUND; GATE_UNAVAILABLE; SESSION_NOT_FOUND; FORWARD_FAILED; BROADCAST_FAILED;
   DB_CONNECTION_FAILED; DB_QUERY_FAILED; DB_WRITE_FAILED; DB_TRANSACTION_FAILED;
   CACHE_MISS; CACHE_WRITE_FAILED; REDIS_CONNECTION_FAILED; ROCKSDB_ERROR; RPC_FAILED;
   RPC_TIMEOUT; RPC_CANCELLED; SERVICE_NOT_FOUND; NETWORK_ERROR; DNS_FAILED; SSL_ERROR].

(** The enumerator with a given value. *)
Definition ErrorCode_of_value (v : Z) : option ErrorCode :=
  snd <$> list_find (λ c, ErrorCode_value c = v) all_codes.

Lemma ErrorCode_of_value_value c : ErrorCode_of_value (ErrorCode_value c) = Some c.
Proof. by destruct c. Qed.

#[global] Instance ErrorCode_value_inj : Inj (=) (=) ErrorCode_value.
Proof.
  intros c1 c2 Heq. apply (inj Some). by rewrite <-!ErrorCode_of_value_value, Heq.
Qed.

#[global] Instance ErrorCode_eq_dec : EqDecision ErrorCode.
Proof.
  refine (λ c1 c2, cast_if (decide (ErrorCode_value c1 = ErrorCode_value c2)));
    [by apply (inj ErrorCode_value)|congruence].
Defined.

(** [ErrorCodeToInt] *)
Definition ErrorCodeToInt (code : ErrorCode) : Z := ErrorCode_value code.

(** [ErrorCodeToString]: the table [messages], and "unknown" for a code that
    is not in it. *)
Definition ErrorCodeToString (code : ErrorCode) : string :=
  match code with
  | OK => "success"
  | UNKNOWN => "unknown error"
  | INVALID_PARAM => "invalid parameter"
  | INTERNAL_ERROR => "internal error"
  | NOT_FOUND => "not found"
  | ALREADY_EXISTS => "already exists"
  | PERMISSION_DENIED => "permission denied"
  | RATE_LIMITED => "rate limited"
  | SERVICE_UNAVAILABLE => "service unavailable"
  | TIMEOUT => "timeout"
  | CANCELLED => "cancelled"
  | DATA_CORRUPTED => "data corrupted"
  | UNSUPPORTED => "unsupported"
  | AUTH_FAILED => "authentication failed"
  | TOKEN_EXPIRED => "token expired"
  | TOKEN_INVALID => "token invalid"
  | USER_NOT_FOUND => "user not found"
  | PASSWORD_WRONG => "password wrong"
  | USER_ALREADY_EXISTS => "user already exists"
  | USERNAME_INVALID => "username invalid"
  | PASSWORD_TOO_WEAK => "password too weak"
  | ACCOUNT_DISABLED => "account disabled"
  | ACCOUNT_LOCKED => "account locked"
  | EMAIL_INVALID => "email invalid"
  | EMAIL_ALREADY_USED => "email already used"
  | PHONE_INVALID => "phone invalid"
  | PHONE_ALREADY_USED => "phone already used"
  | VERIFY_CODE_WRONG => "verify code wrong"
  | VERIFY_CODE_EXPIRED => "verify code expired"
  | LOGIN_ELSEWHERE => "login elsewhere"
  | SESSION_INVALID => "session invalid"
  | FRIEND_ALREADY => "already friends"
  | FRIEND_NOT_FOUND => "friend not found"
  | BLOCKED => "blocked by user"
  | REQUEST_PENDING => "request pending"
  | REQUEST_NOT_FOUND => "request not found"
  | REQUEST_EXPIRED => "request expired"
  | SELF_OPERATION => "cannot operate on self"
  | FRIEND_LIMIT_REACHED => "friend limit reached"
  | BLOCK_LIMIT_REACHED => "block limit reached"
  | ALREADY_BLOCKED => "already blocked"
  | NOT_BLOCKED => "not blocked"
  | MSG_NOT_FOUND => "message not found"
  | RECALL_TIMEOUT => "recall timeout"
  | RECALL_NOT_ALLOWED => "recall not allowed"
  | MSG_TOO_LONG => "message too long"
  | MSG_EMPTY => "message empty"
  | MSG_TYPE_INVALID => "message type invalid"
  | CONVERSATION_NOT_FOUND => "conversation not found"
  | MSG_SEND_FAILED => "message send failed"
  | MSG_ALREADY_READ => "message already read"
  | OFFLINE_MSG_LIMIT => "offline message limit"
  | MSG_FILTERED => "message filtered"
  | RECEIVER_OFFLINE => "receiver offline"
  | RECEIVER_BLOCKED => "receiver blocked"
  | CONVERSATION_PRIVATE_CANNOT_DELETE => "private conversation cannot be deleted"
  | FILE_TOO_LARGE => "file too large"
  | FILE_TYPE_NOT_ALLOWED => "file type not allowed"
  | UPLOAD_FAILED => "upload failed"
  | DOWNLOAD_FAILED => "download failed"
  | FILE_NOT_FOUND => "file not found"
  | FILE_EXPIRED => "file expired"
  | STORAGE_FULL => "storage full"
  | FILE_CORRUPTED => "file corrupted"
  | CHECKSUM_MISMATCH => "checksum mismatch"
  | UPLOAD_INCOMPLETE => "upload incomplete"
  | FILE_LOCKED => "file locked"
  | THUMBNAIL_FAILED => "thumbnail failed"
  | GROUP_NOT_FOUND => "group not found"
  | GROUP_ALREADY_EXISTS => "group already exists"
  | GROUP_FULL => "group full"
  | NOT_GROUP_MEMBER => "not group member"
  | ALREADY_GROUP_MEMBER => "already group member"
  | NOT_GROUP_ADMIN => "not group admin"
  | NOT_GROUP_OWNER => "not group owner"
  | GROUP_DISBANDED => "group disbanded"
  | INVITE_NOT_ALLOWED => "invite not allowed"
  | JOIN_NOT_ALLOWED => "join not allowed"
  | KICK_NOT_ALLOWED => "kick not allowed"
  | GROUP_MUTED => "group muted"
  | MEMBER_MUTED => "member muted"
  | GROUP_NAME_INVALID => "group name invalid"
  | ADMIN_LIMIT_REACHED => "admin limit reached"
  | OWNER_CANNOT_LEAVE => "owner cannot leave"
  | CANNOT_KICK_ADMIN => "cannot kick admin"
  | GROUP_MEMBERS_TOO_FEW => "group requires at least 3 members"
  | CONNECTION_CLOSED => "connection closed"
  | CONNECTION_TIMEOUT => "connection timeout"
  | HANDSHAKE_FAILED => "handshake failed"
  | PROTOCOL_ERROR => "protocol error"
  | MESSAGE_TOO_LARGE => "message too large"
  | INVALID_FRAME => "invalid frame"
  | PING_TIMEOUT => "ping timeout"
  | TOO_MANY_CONNECTIONS => "too many connections"
  | KICK_BY_SERVER => "kick by server"
  | DUPLICATE_LOGIN => "duplicate login"
  | UPSTREAM_UNAVAILABLE => "upstream service not configured"
  | ROUTE_NOT_FOUND => "route not found"
  | USER_OFFLINE => "user offline"
  | GATE_NOT_FOUND => "gate not found"
  | GATE_UNAVAILABLE => "gate unavailable"
  | SESSION_NOT_FOUND => "session not found"
  | FORWARD_FAILED => "forward failed"
  | BROADCAST_FAILED => "broadcast failed"
  | DB_CONNECTION_FAILED => "database connection failed"
  | DB_QUERY_FAILED => "database query failed"
  | DB_WRITE_FAILED => "database write failed"
  | DB_TRANSACTION_FAILED => "database transaction failed"
  | CACHE_MISS => "cache miss"
  | CACHE_WRITE_FAILED => "cache write failed"
  | REDIS_CONNECTION_FAILED => "redis connection failed"
  | ROCKSDB_ERROR => "rocksdb error"
  | RPC_FAILED => "rpc failed"
  | RPC_TIMEOUT => "rpc timeout"
  | RPC_CANCELLED => "rpc cancelled"
  | SERVICE_NOT_FOUND => "service not found"
  | NETWORK_ERROR => "network error"
  | DNS_FAILED => "dns failed"
  | SSL_ERROR => "ssl error"
  | _ => "unknown"
  end.

(** [struct Error] *)
Record Error : Type := { err_code : ErrorCode; err_message : string }.

(** [Error(ErrorCode c = ErrorCode::OK)] *)
Definition Error_of_code (c : ErrorCode) : Error :=
  {| err_code := c; err_message := ErrorCodeToString c |}.
Definition Error_ok (e : Error) : bool := bool_decide (err_code e = OK).
Definition Error_Code (e : Error) : Z := ErrorCodeToInt (err_code e).
Definition Error_ToString (e : Error) : string :=
  "[" +:+ pretty (Error_Code e) +:+ "] " +:+ err_message e.

(** [class Result<T>]: [std::variant<T, Error>]. *)
Inductive Result (T : Type) : Type :=
  | Result_value (value : T)
  | Result_error (error : Error).
Arguments Result_value {T} value.
Arguments Result_error {T} error.

Definition Result_ok {T} (r : Result T) : bool :=
  match r with Result_value _ => true | Result_error _ => false end.
Definition Result_value_or {T} (r : Result T) (default_value : T) : T :=
  match r with Result_value v => v | Result_error _ => default_value end.

(** [class Status] *)
Record Status : Type := { status_error : Error }.
Definition Status_of_code (code : ErrorCode) : Status := {| status_error := Error_of_code code |}.
Definition Status_OK : Status := Status_of_code OK.
Definition Status_ok (s : Status) : bool := Error_ok (status_error s).

(** Every enumerator is told apart by its number, numbers stay in 0..999 as the
    header announces, and 0 means success and nothing else. *)
Lemma ErrorCode_value_range c : 0 ≤ ErrorCode_value c ≤ 999.
Proof. destruct c; vm_compute; split; discriminate. Qed.

Lemma ErrorCode_value_zero c : ErrorCode_value c = 0 ↔ c = OK.
Proof. split; [|by intros ->]. intros H. by apply (inj ErrorCode_value). Qed.

Lemma Error_of_code_ok c : Error_ok (Error_of_code c) = bool_decide (c = OK).
Proof. done. Qed.
