(* ===== verification/Utils.v ===== *)
(** [swift/utils.{h,cpp}]: identifiers, encodings, string processing and
    conversions.  Digests are parameters (OpenSSL); base64 and the calendar
    functions are calls into OpenSSL and the C library and are not modelled. *)

From Stdlib Require Import Ascii.
From S2P Require Import Prelude External.

(** What an operation reads from outside its object: the clock (the [i]-th
    reading of [GetTimestampMs] during the call) and the [i]-th value drawn from
    the thread's random engine. *)
Record Env : Type := { env_clock : nat → Z; env_rand : nat → N }.

(** ** Character classes of the C locale *)

Definition code (c : ascii) : N := N_of_ascii c.
Definition chr (n : N) : ascii := ascii_of_N n.

Definition isdigit (c : ascii) : bool := (48 <=? code c)%N && (code c <=? 57)%N.
Definition isupper (c : ascii) : bool := (65 <=? code c)%N && (code c <=? 90)%N.
Definition islower (c : ascii) : bool := (97 <=? code c)%N && (code c <=? 122)%N.
Definition isalnum (c : ascii) : bool := isdigit c || isupper c || islower c.
(** space, \t \n \v \f \r *)
Definition isspace (c : ascii) : bool :=
  (code c =? 32)%N || ((9 <=? code c)%N && (code c <=? 13)%N).
Definition tolower (c : ascii) : ascii := if isupper c then chr (code c + 32) else c.
Definition toupper (c : ascii) : ascii := if islower c then chr (code c - 32) else c.

Fixpoint str_map (f : ascii → ascii) (s : string) : string :=
  match s with EmptyString => EmptyString | String c s' => String (f c) (str_map f s') end.
Fixpoint str_all (p : ascii → bool) (s : string) : bool :=
  match s with EmptyString => true | String c s' => p c && str_all p s' end.

(** * Identifiers *)

Definition kAlphaNum : string :=
  "0123456789ABCDEFGHIJKLMNOPQRSTUVWXYZabcdefghijklmnopqrstuvwxyz".
Definition kHexChars : string := "0123456789abcdef".

(** [s[n]] for [n < s.size()]. *)
Definition str_at (s : string) (n : nat) : ascii :=
  match String.get n s with Some c => c | None => "000"%char end.

(** A value of [uniform_int_distribution(0, n - 1)]. *)
Definition uniform (r : N) (n : nat) : nat := N.to_nat (r mod N.of_nat n).

Fixpoint random_chars (rand : nat → N) (chars : string) (i n : nat) : string :=
  match n with
  | O => ""
  | S n' => String (str_at chars (uniform (rand i) (str_size chars)))
                   (random_chars rand chars (S i) n')
  end.

Definition RandomString (rand : nat → N) (length : nat) (charset : string) : string :=
  let chars := if decide (charset = "") then kAlphaNum else charset in
  random_chars rand chars 0 length.

Definition GenerateShortId (rand : nat → N) (prefix : string) (length : nat) : string :=
  prefix +:+ RandomString rand length "".

(** * Encodings *)

(** [kHexChars[n]] *)
Definition hex_char (n : N) : ascii := str_at kHexChars (N.to_nat n).

Fixpoint BytesToHex (s : string) : string :=
  match s with
  | EmptyString => EmptyString
  | String c s' =>
      String (hex_char (N.land (N.shiftr (code c) 4) 15))
        (String (hex_char (N.land (code c) 15)) (BytesToHex s'))
  end.

Definition HexEncode (input : string) : string := BytesToHex input.

(** [isdigit(c) ? c - '0' : tolower(c) - 'a' + 10], an [int]. *)
Definition hex_val (c : ascii) : Z :=
  if isdigit c then Z.of_N (code c) - 48 else Z.of_N (code (tolower c)) - 97 + 10.

(** [static_cast<char>] of an [int]. *)
Definition to_char (z : Z) : ascii := chr (Z.to_N (z mod 256)).

Fixpoint HexDecode (input : string) : string :=
  match input with
  | String high (String low s') =>
      String (to_char (Z.lor (Z.shiftl (hex_val high) 4) (hex_val low))) (HexDecode s')
  | _ => ""
  end.

(** * Digests *)

Section Digests.
Context `{!OpenSSL}.

(** The empty string when OpenSSL fails. *)
Definition ComputeDigestHex (md input : string) : string :=
  match EVP_digest md input with Some hash => BytesToHex hash | None => "" end.
Definition SHA256 (input : string) : string := ComputeDigestHex "sha256" input.
Definition SHA512 (input : string) : string := ComputeDigestHex "sha512" input.
Definition MD5 (input : string) : string := ComputeDigestHex "md5" input.
Definition HmacSHA256 (key data : string) : string := BytesToHex (HMAC_sha256 key data).
End Digests.

(** Characters [UrlEncode] keeps. *)
Definition url_plain (c : ascii) : bool :=
  isalnum c || bool_decide (c = "-"%char) || bool_decide (c = "_"%char) ||
  bool_decide (c = "."%char) || bool_decide (c = "~"%char).

Fixpoint UrlEncode (input : string) : string :=
  match input with
  | EmptyString => EmptyString
  | String c s' =>
      if url_plain c then String c (UrlEncode s')
      else String "%" (String (hex_char (N.shiftr (code c) 4))
             (String (hex_char (N.land (code c) 15)) (UrlEncode s')))
  end.

(** The value of a hexadecimal digit. *)
Definition xdigit (c : ascii) : option Z :=
  if isdigit c then Some (Z.of_N (code c) - 48)
  else if (97 <=? code c)%N && (code c <=? 102)%N then Some (Z.of_N (code c) - 87)
  else if (65 <=? code c)%N && (code c <=? 70)%N then Some (Z.of_N (code c) - 55)
  else None.

(** [iss >> std::hex >> val] on a stream that holds the two characters [a b]:
    leading white space is skipped, a sign is accepted, and the digits up to
    the first other character are the value; [None] is the fail state. *)
Definition read_hex2 (a b : ascii) : option Z :=
  if isspace a then xdigit b
  else if bool_decide (a = "+"%char) then xdigit b
  else if bool_decide (a = "-"%char) then Z.opp <$> xdigit b
  else x ← xdigit a;
       if bool_decide (a = "0"%char) && (bool_decide (b = "x"%char) || bool_decide (b = "X"%char))
       then None
       else match xdigit b with Some y => Some (16 * x + y) | None => Some x end.

Fixpoint UrlDecode (input : string) : string :=
  match input with
  | EmptyString => EmptyString
  | String c s1 =>
      if bool_decide (c = "%"%char) then
        match s1 with
        | String a (String b s3) =>
            match read_hex2 a b with
            | Some val => String (to_char val) (UrlDecode s3)
            | None => String c (UrlDecode s1)
            end
        | _ => String c (UrlDecode s1)
        end
      else if bool_decide (c = "+"%char) then String " " (UrlDecode s1)
      else String c (UrlDecode s1)
  end.

(** * String processing *)

(** [s.find(pat)] *)
Fixpoint str_find (pat s : string) : option nat :=
  if String.prefix pat s then Some O
  else match s with
       | EmptyString => None
       | String _ s' => S <$> str_find pat s'
       end.

(** [s.find(pat, pos)] for [pos <= s.size()] *)
Definition str_find_from (pat s : string) (pos : nat) : option nat :=
  Nat.add pos <$> str_find pat (str_drop pos s).

(** [Split(str, char)]: [std::getline] until it fails; a final empty field is
    not produced. *)
Fixpoint split_char (s : string) (delimiter : ascii) (item : string) : list string :=
  match s with
  | EmptyString => if decide (item = "") then [] else [item]
  | String c s' =>
      if bool_decide (c = delimiter) then item :: split_char s' delimiter ""
      else split_char s' delimiter (item +:+ String c "")
  end.
Definition SplitChar (str : string) (delimiter : ascii) : list string :=
  split_char str delimiter "".

(** The loop of [Split(str, std::string)]: [None] when the fuel runs out. *)
Fixpoint split_loop (fuel : nat) (str delimiter : string) (start : nat) : option (list string) :=
  match fuel with
  | O => None
  | S fuel' =>
      match str_find_from delimiter str start with
      | Some last =>
          rest ← split_loop fuel' str delimiter (last + str_size delimiter);
          Some (str_take (last - start) (str_drop start str) :: rest)
      | None => Some [str_drop start str]
      end
  end.
Definition Split (fuel : nat) (str delimiter : string) : option (list string) :=
  if decide (delimiter = "") then Some [str] else split_loop fuel str delimiter 0.

(** [Join]: the loop with its index. *)
Fixpoint join_loop (parts : list string) (delimiter : string) (i : nat) (result : string) : string :=
  match parts with
  | [] => result
  | p :: parts' =>
      let result := if decide (0 < i)%nat then result +:+ delimiter else result in
      join_loop parts' delimiter (S i) (result +:+ p)
  end.
Definition Join (parts : list string) (delimiter : string) : string :=
  join_loop parts delimiter 0 "".

(** [" \t\n\r\f\v"] *)
Definition trim_set (c : ascii) : bool :=
  bool_decide (code c ∈ [32; 9; 10; 13; 12; 11]%N).

Fixpoint TrimLeft (str : string) : string :=
  match str with
  | EmptyString => ""
  | String c s' => if trim_set c then TrimLeft s' else str
  end.
Fixpoint TrimRight (str : string) : string :=
  match str with
  | EmptyString => ""
  | String c s' =>
      let r := TrimRight s' in
      if decide (r = "") then (if trim_set c then "" else String c "") else String c r
  end.
Definition Trim (str : string) : string := TrimLeft (TrimRight str).

Definition ToLower (str : string) : string := str_map tolower str.
Definition ToUpper (str : string) : string := str_map toupper str.

(** [s.replace(pos, n, to)] *)
Definition str_replace (s : string) (pos n : nat) (to : string) : string :=
  str_take pos s +:+ to +:+ str_drop (pos + n) s.

Definition Replace (str from to : string) : string :=
  if decide (from = "") then str else
  match str_find from str with
  | None => str
  | Some pos => str_replace str pos (str_size from) to
  end.

(** The loop of [ReplaceAll], on [result] and [pos]: [None] when the fuel runs out. *)
Fixpoint replace_loop (fuel : nat) (result from to : string) (pos : nat) : option string :=
  match fuel with
  | O => None
  | S fuel' =>
      match str_find_from from result pos with
      | None => Some result
      | Some pos => replace_loop fuel' (str_replace result pos (str_size from) to) from to
                      (pos + str_size to)
      end
  end.
Definition ReplaceAll (fuel : nat) (str from to : string) : option string :=
  if decide (from = "") then Some str else replace_loop fuel str from to 0.

Definition StartsWith (str prefix : string) : bool :=
  if decide (str_size str < str_size prefix)%nat then false
  else bool_decide (str_take (str_size prefix) str = prefix).
Definition EndsWith (str suffix : string) : bool :=
  if decide (str_size str < str_size suffix)%nat then false
  else bool_decide (str_drop (str_size str - str_size suffix) str = suffix).

Definition IsDigit (str : string) : bool :=
  if decide (str = "") then false else str_all isdigit str.
Definition IsBlank (str : string) : bool := str_all isspace str.

(** * Conversions *)

(** [strtoll] in base 10: white space, sign, digits; [None] without digits. *)
Fixpoint digits_val (s : string) (acc : Z) : Z :=
  match s with
  | String c s' => if isdigit c then digits_val s' (10 * acc + (Z.of_N (code c) - 48)) else acc
  | EmptyString => acc
  end.
Fixpoint skip_space (s : string) : string :=
  match s with
  | String c s' => if isspace c then skip_space s' else s
  | EmptyString => ""
  end.
Definition strto (s : string) : option Z :=
  let s := skip_space s in
  let '(neg, s) := match s with
                   | String c s' => if bool_decide (c = "-"%char) then (true, s')
                                    else if bool_decide (c = "+"%char) then (false, s')
                                    else (false, s)
                   | EmptyString => (false, s)
                   end in
  match s with
  | String c _ =>
      if isdigit c then Some (if neg then - digits_val s 0 else digits_val s 0) else None
  | EmptyString => None
  end.

(** [std::stoi], [std::stoll]: [None] is [invalid_argument] or [out_of_range]. *)
Definition stoi (s : string) : option Z :=
  z ← strto s; if decide (- 2 ^ 31 ≤ z < 2 ^ 31) then Some z else None.
Definition stoll (s : string) : option Z :=
  z ← strto s; if decide (- 2 ^ 63 ≤ z < 2 ^ 63) then Some z else None.

Definition ToInt32 (str : string) (default_val : Z) : Z := default default_val (stoi str).
Definition ToInt64 (str : string) (default_val : Z) : Z := default default_val (stoll str).

(** * Facts *)

Lemma random_chars_size rand chars i n : str_size (random_chars rand chars i n) = n.
Proof. revert i; induction n; intros; simpl; unfold str_size in *; simpl; auto. Qed.

Lemma random_chars_all rand chars p i n :
  chars ≠ "" → str_all p chars = true → str_all p (random_chars rand chars i n) = true.
Proof.
  intros Hne Hall. revert i. induction n as [|n IH]; intros i; simpl; [done|].
  rewrite IH, andb_true_r.
  assert (uniform (rand i) (str_size chars) < str_size chars)%nat as Hlt.
  { unfold uniform. destruct chars; [done|]. unfold str_size; simpl.
    pose proof (N.mod_lt (rand i) (N.pos (Pos.of_succ_nat (String.length chars)))). lia. }
  revert Hlt. generalize (uniform (rand i) (str_size chars)) as k. clear IH Hne.
  unfold str_at. induction chars as [|c chars IH]; intros [|k]; unfold str_size; simpl in *;
    try lia; apply andb_true_iff in Hall as [? ?]; auto.
  intros. apply IH; [done|]. unfold str_size. lia.
Qed.

Lemma str_all_has p c s : str_all p s = true → p c = false → str_has c s = false.
Proof.
  intros Hall Hp. induction s as [|x s IH]; simpl in *; [done|].
  apply andb_true_iff in Hall as [? ?]. rewrite IH by done.
  rewrite bool_decide_false; [done|]. congruence.
Qed.

Lemma RandomString_alnum rand n : str_all isalnum (RandomString rand n "") = true.
Proof. unfold RandomString. simpl. by apply random_chars_all. Qed.

Lemma RandomString_no_colon rand n : no_colon (RandomString rand n "").
Proof. eapply str_all_has; [apply RandomString_alnum|done]. Qed.

(** A generated identifier is usable as a key field. *)
Lemma short_id_ok (rand : nat → N) prefix n :
  prefix ≠ "" → no_colon prefix → ok_id (GenerateShortId rand prefix n).
Proof.
  intros Hne Hp. unfold GenerateShortId. split.
  - intros [? _]%str_app_empty. done.
  - apply no_colon_app. split; [done|apply RandomString_no_colon].
Qed.

(** ** Printing integers

    [std::to_string], [%d] and [%lld] are [pretty]; [stoi] and [stoll] read them back. *)

Lemma pretty_digit d : (d < 10)%N → pretty_N_char d = chr (d + 48) ∧ isdigit (pretty_N_char d) = true.
Proof.
  intros Hd. assert (d = 0 ∨ d = 1 ∨ d = 2 ∨ d = 3 ∨ d = 4 ∨ d = 5 ∨ d = 6 ∨ d = 7 ∨ d = 8 ∨ d = 9)%N
    as Hcases by lia.
  by repeat destruct Hcases as [->|Hcases]; [..|subst d].
Qed.
Lemma digits_val_digit d s acc : (d < 10)%N →
  digits_val (String (pretty_N_char d) s) acc = digits_val s (10 * acc + Z.of_N d).
Proof.
  intros Hd. destruct (pretty_digit d Hd) as [-> Hdig]. cbn [digits_val].
  assert (code (chr (d + 48)) = (d + 48)%N) as Hcode by (apply N_ascii_embedding; lia).
  unfold isdigit. rewrite Hcode. replace ((48 <=? d + 48) && (d + 48 <=? 57))%N with true.
  - f_equal. lia.
  - symmetry. apply andb_true_iff. split; apply N.leb_le; lia.
Qed.
Lemma pretty_go_digits x s : digits_val (pretty_N_go x s) 0 = digits_val s (Z.of_N x).
Proof.
  revert s. induction (N.lt_wf_0 x) as [x _ IH]; intros s.
  destruct (decide (x = 0%N)) as [->|Hx]; [by rewrite pretty_N_go_0|].
  rewrite pretty_N_go_step by lia. pose proof (N.mod_lt x 10 ltac:(lia)).
  rewrite IH by (apply N.div_lt; lia). rewrite digits_val_digit by done. f_equal.
  rewrite N2Z.inj_div, N2Z.inj_mod. pose proof (Z.div_mod (Z.of_N x) 10 ltac:(lia)). lia.
Qed.
Lemma pretty_go_head x s : (0 < x)%N → ∃ d s', (d < 10)%N ∧ pretty_N_go x s = String (pretty_N_char d) s'.
Proof.
  revert s. induction (N.lt_wf_0 x) as [x _ IH]; intros s Hx. rewrite pretty_N_go_step by lia.
  destruct (decide (x / 10 = 0)%N) as [->|Hd].
  - rewrite pretty_N_go_0. exists (x mod 10)%N, s. split; [apply N.mod_lt; lia|done].
  - apply IH; [apply N.div_lt; lia|by apply N.neq_0_lt_0].
Qed.
Lemma strto_pretty (z : Z) : strto (pretty z) = Some z.
Proof.
  assert (∀ p, ∃ d s', (d < 10)%N ∧ pretty (N.pos p) = String (pretty_N_char d) s' ∧
    digits_val (pretty (N.pos p)) 0 = Z.pos p) as Hpos.
  { intros p. destruct (pretty_go_head (N.pos p) "" ltac:(lia)) as (d & s' & Hd & Heq).
    exists d, s'. unfold pretty, pretty_N. rewrite decide_False by lia. split_and!; [done..|].
    by rewrite pretty_go_digits. }
  assert (∀ d s', (d < 10)%N → skip_space (String (pretty_N_char d) s') = String (pretty_N_char d) s' ∧
    pretty_N_char d ≠ "-"%char ∧ pretty_N_char d ≠ "+"%char) as Hskip.
  { intros d s' Hd. destruct (pretty_digit d Hd) as [_ Hdig]. cbn [skip_space]. split_and!.
    - by destruct (pretty_N_char d) as [[] [] [] [] [] [] [] []].
    - by intros Heq; rewrite Heq in Hdig.
    - by intros Heq; rewrite Heq in Hdig. }
  destruct z as [|p|p]; [done|..]; destruct (Hpos p) as (d & s' & Hd & Heq & Hval);
    destruct (Hskip d s' Hd) as (Hs & Hm & Hpl); destruct (pretty_digit d Hd) as [_ Hdig].
  - change (pretty (Z.pos p)) with (pretty (N.pos p)). unfold strto. rewrite Heq in *. rewrite Hs, !bool_decide_false by done. rewrite Hdig. by f_equal.
  - change (pretty (Z.neg p)) with ("-" +:+ pretty (N.pos p)). unfold strto. rewrite Heq in *.
    cbn [String.append skip_space]. change (isspace "-") with false. cbn iota.
    rewrite bool_decide_true by done. rewrite Hdig. f_equal. lia.
Qed.
Lemma pretty_inj_Z (z1 z2 : Z) : pretty z1 = pretty z2 → z1 = z2.
Proof. intros Heq. pose proof (strto_pretty z1) as H1. rewrite Heq, strto_pretty in H1. congruence. Qed.
(** A character that is neither a digit nor the sign does not occur. *)
Lemma pretty_has_not c (z : Z) : isdigit c = false → c ≠ "-"%char → str_has c (pretty z) = false.
Proof.
  intros Hc Hm. assert (∀ x s, str_has c s = false → str_has c (pretty_N_go x s) = false) as Hgo.
  { intros x. induction (N.lt_wf_0 x) as [x _ IH]; intros s Hs.
    destruct (decide (x = 0%N)) as [->|Hx]; [by rewrite pretty_N_go_0|].
    rewrite pretty_N_go_step by lia. apply IH; [apply N.div_lt; lia|]. cbn.
    destruct (pretty_digit (x mod 10) ltac:(apply N.mod_lt; lia)) as [_ Hd].
    rewrite Hs, bool_decide_false; [done|congruence]. }
  assert (∀ n : N, str_has c (pretty n) = false) as Hn.
  { intros n. unfold pretty, pretty_N. case_decide; [|by apply Hgo]. cbn.
    rewrite bool_decide_false; [done|]. intros <-. done. }
  destruct z as [|p|p]; [apply (Hn 0%N)|apply (Hn (N.pos p))|].
  change (pretty (Z.neg p)) with ("-" +:+ pretty (N.pos p)).
  cbn [String.append str_has]. rewrite bool_decide_false by congruence. apply Hn.
Qed.
Lemma stoll_pretty z : int64_range z → stoll (pretty z) = Some z.
Proof. intros. unfold stoll. rewrite strto_pretty. cbn. by rewrite decide_True. Qed.
Lemma stoi_pretty z : int32_range z → stoi (pretty z) = Some z.
Proof. intros. unfold stoi. rewrite strto_pretty. cbn. by rewrite decide_True. Qed.

(** An environment for concrete runs. *)
Definition env0 : Env := {| env_clock := λ _, 1700000000000; env_rand := λ _, 0%N |}.

(** ** The loops over the occurrences of a string *)

Lemma prefix_rest p s : String.prefix p s = true → ∃ t, s = p +:+ t.
Proof.
  revert s. induction p as [|a p IH]; intros s Hp; [by exists s|]. destruct s as [|c s]; [done|]. cbn in Hp.
  destruct (Ascii.ascii_dec a c) as [->|]; [|done]. destruct (IH s Hp) as [t ->]. by exists t.
Qed.
Lemma str_find_found pat s n : str_find pat s = Some n → ∃ a b, s = a +:+ pat +:+ b ∧ str_size a = n.
Proof.
  revert n. induction s as [|c s IH]; intros n; cbn [str_find]; destruct (String.prefix pat _) eqn:Hp; try done.
  - intros [= <-]. destruct (prefix_rest _ _ Hp) as [t Ht]. by exists "", t.
  - intros [= <-]. destruct (prefix_rest _ _ Hp) as [t Ht]. by exists "", t.
  - destruct (str_find pat s) as [m|]; [|done]. intros [= <-]. destruct (IH m eq_refl) as (a & b & -> & Hsz). exists (String c a), b. split; [done|].
    cbn. f_equal. exact Hsz.
Qed.
(** [Join], by recursion on the parts. *)
Fixpoint joined (parts : list string) (delimiter : string) : string :=
  match parts with [] => "" | [p] => p | p :: parts => p +:+ delimiter +:+ joined parts delimiter end.
Lemma joined_cons p parts d : parts ≠ [] → joined (p :: parts) d = p +:+ d +:+ joined parts d.
Proof. by destruct parts. Qed.
Lemma Join_joined parts d : Join parts d = joined parts d.
Proof.
  assert (∀ parts i result, parts ≠ [] → join_loop parts d (S i) result = result +:+ d +:+ joined parts d) as Hloop.
  { clear parts. intros parts. induction parts as [|p parts IH]; intros i result Hne; [done|]. cbn [join_loop].
    rewrite decide_True by lia. destruct parts as [|q parts]; [by cbn; rewrite <-!str_app_assoc|].
    rewrite IH by done. rewrite (joined_cons p) by done. rewrite <-!str_app_assoc. reflexivity. }
  destruct parts as [|p parts]; [done|]. unfold Join. cbn [join_loop]. rewrite decide_False by lia. cbn [String.app].
  destruct parts as [|q parts]; [done|]. by rewrite Hloop by done.
Qed.
Lemma split_loop_ends fuel str d start : d ≠ "" → (str_size (str_drop start str) < fuel)%nat →
  ∃ parts, split_loop fuel str d start = Some parts ∧ parts ≠ [] ∧ joined parts d = str_drop start str.
Proof.
  intros Hd. revert start. induction fuel as [|fuel IH]; intros start Hf; [lia|]. cbn [split_loop]. unfold str_find_from.
  destruct (str_find d (str_drop start str)) as [k|] eqn:Hk; cbn [fmap option_fmap option_map]; [|by eexists].
  destruct (str_find_found _ _ _ Hk) as (a & b & Hab & <-). assert (str_size d ≠ 0%nat) as Hsz by (by destruct d).
  assert (str_drop (start + str_size a + str_size d) str = b) as Hb.
  { rewrite <-Nat.add_assoc, <-str_drop_drop, Hab, <-str_drop_drop. by rewrite !str_drop_app. }
  destruct (IH (start + str_size a + str_size d)%nat) as (parts & -> & Hne & Hj).
  { rewrite Hb. rewrite Hab, !str_size_app in Hf. lia. }
  cbn. eexists. split_and!; [done|done|]. rewrite joined_cons, Hj, Hb by done.
  replace (start + str_size a - start)%nat with (str_size a) by lia. by rewrite Hab, str_take_app.
Qed.
Lemma replace_loop_joins fuel str d to start parts : d ≠ "" → split_loop fuel str d start = Some parts →
  ∀ before, replace_loop fuel (before +:+ str_drop start str) d to (str_size before) = Some (before +:+ joined parts to).
Proof.
  intros Hd. revert start parts. induction fuel as [|fuel IH]; intros start parts Hs before; [done|].
  cbn [split_loop replace_loop] in *. unfold str_find_from in *. rewrite str_drop_app.
  destruct (str_find d (str_drop start str)) as [k|] eqn:Hk; cbn [fmap option_fmap option_map] in *; [|by injection Hs as <-].
  destruct (split_loop fuel str d (start + k + str_size d)) as [rest|] eqn:Hrest; [|done]. injection Hs as <-.
  destruct (str_find_found _ _ _ Hk) as (a & b & Hab & <-).
  replace (start + str_size a - start)%nat with (str_size a) by lia.
  assert (str_drop (start + str_size a + str_size d) str = b) as Hb.
  { rewrite <-Nat.add_assoc, <-str_drop_drop, Hab, <-str_drop_drop. by rewrite !str_drop_app. }
  assert (str_replace (before +:+ str_drop start str) (str_size before + str_size a) (str_size d) to =
    (before +:+ a +:+ to) +:+ str_drop (start + str_size a + str_size d) str) as ->.
  { unfold str_replace. rewrite Hb, Hab, <-str_size_app, (str_app_assoc before a), str_take_app.
    rewrite <-str_drop_drop, !str_drop_app. by rewrite !str_app_assoc. }
  replace (str_size before + str_size a + str_size to)%nat with (str_size (before +:+ a +:+ to)) by (rewrite !str_size_app; lia).
  rewrite (IH _ _ Hrest). f_equal. rewrite joined_cons, Hab, str_take_app; [by rewrite !str_app_assoc|].
  destruct fuel as [|fuel]; [done|]. cbn in Hrest. destruct (str_find_from _ _ _); [|by injection Hrest as <-].
  by destruct (split_loop fuel _ _ _); [injection Hrest as <-|].
Qed.
(** [Split] ends within one turn per byte, and [Join] puts its parts together again. *)
Theorem Split_Join str d : ∃ parts, Split (S (str_size str)) str d = Some parts ∧ Join parts d = str.
Proof.
  unfold Split. case_decide as Hd; [by exists [str]|].
  destruct (split_loop_ends (S (str_size str)) str d 0 Hd) as (parts & Hs & _ & Hj); [change (str_drop 0 str) with str; lia|].
  exists parts. split; [done|]. by rewrite Join_joined.
Qed.
(** [ReplaceAll] ends, and is [Split] at the one string joined by the other. *)
Theorem ReplaceAll_joins str from to : from ≠ "" → ∃ parts, Split (S (str_size str)) str from = Some parts ∧
  ReplaceAll (S (str_size str)) str from to = Some (Join parts to).
Proof.
  intros Hf. unfold Split, ReplaceAll. rewrite !decide_False by done.
  destruct (split_loop_ends (S (str_size str)) str from 0 Hf) as (parts & Hs & _ & _); [change (str_drop 0 str) with str; lia|].
  exists parts. split; [done|]. rewrite Join_joined. exact (replace_loop_joins _ _ _ to _ _ Hf Hs "").
Qed.
