(* ===== verification/GroupStore.v ===== *)
(** [chatsvr/internal/store/group_store.{h,cpp}]: group metadata, group
    members and the per-user index, kept in one RocksDB database.  The class
    [GroupStore] is the C++ interface, [GroupStoreLaws] what its clients rely
    on; [RocksDBGroupStore] implements both. *)

From S2P Require Import Prelude External.

(** * Data *)

(** [struct GroupData] *)
Record GroupData : Type := {
  gd_group_id : string;
  gd_group_name : string;
  gd_avatar_url : string;
  gd_owner_id : string;
  gd_member_count : Z;   (* int32_t *)
  gd_announcement : string;
  gd_created_at : Z;     (* int64_t *)
  gd_updated_at : Z;     (* int64_t *)
  gd_status : Z;         (* int32_t: 0 normal, 1 dissolved *)
}.

(** [struct GroupMemberData] *)
Record GroupMemberData : Type := {
  gm_user_id : string;
  gm_role : Z;           (* int32_t: 0 owner, 1 member, 2 admin *)
  gm_nickname : string;
  gm_joined_at : Z;      (* int64_t *)
}.

#[global] Instance GroupData_eq_dec : EqDecision GroupData.
Proof. solve_decision. Defined.
#[global] Instance GroupMemberData_eq_dec : EqDecision GroupMemberData.
Proof. solve_decision. Defined.

(** Field assignments. *)
Definition gd_set_member_count (n : Z) (g : GroupData) : GroupData :=
  {| gd_group_id := gd_group_id g; gd_group_name := gd_group_name g;
     gd_avatar_url := gd_avatar_url g; gd_owner_id := gd_owner_id g;
     gd_member_count := n; gd_announcement := gd_announcement g;
     gd_created_at := gd_created_at g; gd_updated_at := gd_updated_at g;
     gd_status := gd_status g |}.
Definition gd_set_updated_at (t : Z) (g : GroupData) : GroupData :=
  {| gd_group_id := gd_group_id g; gd_group_name := gd_group_name g;
     gd_avatar_url := gd_avatar_url g; gd_owner_id := gd_owner_id g;
     gd_member_count := gd_member_count g; gd_announcement := gd_announcement g;
     gd_created_at := gd_created_at g; gd_updated_at := t;
     gd_status := gd_status g |}.
Definition gd_set_owner_id (o : string) (g : GroupData) : GroupData :=
  {| gd_group_id := gd_group_id g; gd_group_name := gd_group_name g;
     gd_avatar_url := gd_avatar_url g; gd_owner_id := o;
     gd_member_count := gd_member_count g; gd_announcement := gd_announcement g;
     gd_created_at := gd_created_at g; gd_updated_at := gd_updated_at g;
     gd_status := gd_status g |}.
Definition gd_set_status (st : Z) (g : GroupData) : GroupData :=
  {| gd_group_id := gd_group_id g; gd_group_name := gd_group_name g;
     gd_avatar_url := gd_avatar_url g; gd_owner_id := gd_owner_id g;
     gd_member_count := gd_member_count g; gd_announcement := gd_announcement g;
     gd_created_at := gd_created_at g; gd_updated_at := gd_updated_at g;
     gd_status := st |}.
Definition gd_set_info (name avatar announcement : string) (g : GroupData) : GroupData :=
  {| gd_group_id := gd_group_id g; gd_group_name := name;
     gd_avatar_url := avatar; gd_owner_id := gd_owner_id g;
     gd_member_count := gd_member_count g; gd_announcement := announcement;
     gd_created_at := gd_created_at g; gd_updated_at := gd_updated_at g;
     gd_status := gd_status g |}.
Definition gm_set_role (role : Z) (m : GroupMemberData) : GroupMemberData :=
  {| gm_user_id := gm_user_id m; gm_role := role;
     gm_nickname := gm_nickname m; gm_joined_at := gm_joined_at m |}.

(** The [int32_t] fields hold [int32_t] values. *)
Definition wf_group (g : GroupData) : Prop :=
  int32_range (gd_member_count g) ∧ int32_range (gd_status g).
Definition wf_member (m : GroupMemberData) : Prop := int32_range (gm_role m).

(** * The interface

    [gs_GetMembers s g page page_size] is [None] when the call is undefined,
    and otherwise the page with the value written to [*total_out], if any. *)
Class GroupStore (S : Type) : Type := {
  gs_CreateGroup : GroupData → M S bool;
  gs_GetGroup : S → string → option GroupData;
  gs_UpdateGroup : string → string → string → string → Z → M S bool;
  gs_UpdateGroupOwner : string → string → M S bool;
  gs_DeleteGroup : string → M S bool;
  gs_DissolveGroup : string → M S bool;
  gs_AddMember : string → GroupMemberData → M S bool;
  gs_RemoveMember : string → string → M S bool;
  gs_GetMember : S → string → string → option GroupMemberData;
  gs_GetMembers : S → string → Z → Z → option (list GroupMemberData * option Z);
  gs_UpdateMemberRole : string → string → Z → M S bool;
  gs_IsMember : S → string → string → bool;
  gs_GetUserGroupIds : S → string → list string;
}.

(** * The RocksDB implementation *)

Section Serialization.
Context `{!JsonLib}.

Definition SerializeGroup (g : GroupData) : option string :=
  js_dump (js_obj [
    ("group_id", JStr (gd_group_id g));
    ("group_name", JStr (gd_group_name g));
    ("avatar_url", JStr (gd_avatar_url g));
    ("owner_id", JStr (gd_owner_id g));
    ("member_count", JInt (gd_member_count g));
    ("announcement", JStr (gd_announcement g));
    ("created_at", JInt (gd_created_at g));
    ("updated_at", JInt (gd_updated_at g));
    ("status", JInt (gd_status g))]).

Definition DeserializeGroup (data : string) : option GroupData :=
  j ← js_parse data;
  group_id ← js_str j "group_id" "";
  group_name ← js_str j "group_name" "";
  avatar_url ← js_str j "avatar_url" "";
  owner_id ← js_str j "owner_id" "";
  member_count ← js_int32 j "member_count" 0;
  announcement ← js_str j "announcement" "";
  created_at ← js_int j "created_at" 0;
  updated_at ← js_int j "updated_at" 0;
  status ← js_int32 j "status" 0;
  Some {| gd_group_id := group_id; gd_group_name := group_name;
          gd_avatar_url := avatar_url; gd_owner_id := owner_id;
          gd_member_count := member_count; gd_announcement := announcement;
          gd_created_at := created_at; gd_updated_at := updated_at;
          gd_status := status |}.

Definition SerializeMember (m : GroupMemberData) : option string :=
  js_dump (js_obj [
    ("user_id", JStr (gm_user_id m));
    ("role", JInt (gm_role m));
    ("nickname", JStr (gm_nickname m));
    ("joined_at", JInt (gm_joined_at m))]).

Definition DeserializeMember (data : string) : option GroupMemberData :=
  j ← js_parse data;
  user_id ← js_str j "user_id" "";
  role ← js_int32 j "role" 1;
  nickname ← js_str j "nickname" "";
  joined_at ← js_int j "joined_at" 0;
  Some {| gm_user_id := user_id; gm_role := role;
          gm_nickname := nickname; gm_joined_at := joined_at |}.

Lemma DeserializeGroup_Serialize `{!JsonLaws} g v :
  wf_group g → SerializeGroup g = Some v → DeserializeGroup v = Some g.
Proof.
  intros [Hc Hs] Hv. unfold SerializeGroup, DeserializeGroup in *.
  apply js_parse_dump in Hv. rewrite Hv. js_simp.
  rewrite !wrap32_id by done. by destruct g.
Qed.

Lemma DeserializeMember_Serialize `{!JsonLaws} m v :
  wf_member m → SerializeMember m = Some v → DeserializeMember v = Some m.
Proof.
  intros Hr Hv. unfold SerializeMember, DeserializeMember in *.
  apply js_parse_dump in Hv. rewrite Hv. js_simp.
  rewrite wrap32_id by done. by destruct m.
Qed.

(** What is read back is well formed. *)
Lemma DeserializeGroup_wf v g : DeserializeGroup v = Some g → wf_group g.
Proof.
  unfold DeserializeGroup, js_int32. intros Hd.
  simplify_option_eq; split; apply wrap32_range.
Qed.
Lemma DeserializeMember_wf v m : DeserializeMember v = Some m → wf_member m.
Proof.
  unfold DeserializeMember, js_int32. intros Hd.
  simplify_option_eq; apply wrap32_range.
Qed.
End Serialization.

(** ** Keys *)

Definition K_GROUP : string := "group:".
Definition K_GROUP_MEMBER : string := "group_member:".
Definition K_USER_GROUPS : string := "user_groups:".

Definition KeyGroup (group_id : string) : string := K_GROUP +:+ group_id.
Definition KeyGroupMember (group_id user_id : string) : string :=
  K_GROUP_MEMBER +:+ group_id +:+ ":" +:+ user_id.
Definition KeyUserGroup (user_id group_id : string) : string :=
  K_USER_GROUPS +:+ user_id +:+ ":" +:+ group_id.
Definition PrefixGroupMember (group_id : string) : string :=
  K_GROUP_MEMBER +:+ group_id +:+ ":".
Definition PrefixUserGroups (user_id : string) : string :=
  K_USER_GROUPS +:+ user_id +:+ ":".

(** ** Operations

    The guard [!impl_->db] of every method is false on a constructed store
    (the constructor throws when the database cannot be opened), so the state
    is the opened database. *)
Section RocksDBGroupStore.
Context {db : Type} `{!RocksDB db} `{!JsonLib}.
Implicit Types d : db.

(** The constructor, over the function that opens a database. *)
Definition RocksDBGroupStore (DB_Open : string → option db) (db_path : string) : outcome db :=
  match DB_Open db_path with Some d => Ret d | None => Exc end.

Definition CreateGroup (data : GroupData) : M db bool :=
  if decide (gd_group_id data = "" ∨ gd_owner_id data = "") then mret false else
  let key := KeyGroup (gd_group_id data) in
  existing ← reads (λ d, db_Get d key);
  match existing with
  | Some _ => mret false
  | None => v ← or_throw (SerializeGroup data); kv_put key v
  end.

Definition GetGroup (d : db) (group_id : string) : option GroupData :=
  if decide (group_id = "") then None else
  value ← db_Get d (KeyGroup group_id);
  DeserializeGroup value.

Definition UpdateGroup (group_id group_name avatar_url announcement : string)
    (updated_at : Z) : M db bool :=
  if decide (group_id = "") then mret false else
  g ← reads (λ d, GetGroup d group_id);
  match g with
  | None => mret false
  | Some g =>
      let g := gd_set_info
                 (if decide (group_name = "") then gd_group_name g else group_name)
                 (if decide (avatar_url = "") then gd_avatar_url g else avatar_url)
                 announcement g in
      let g := if decide (updated_at ≠ 0) then gd_set_updated_at updated_at g else g in
      v ← or_throw (SerializeGroup g); kv_put (KeyGroup group_id) v
  end.

Definition UpdateGroupOwner (group_id new_owner_id : string) : M db bool :=
  if decide (group_id = "" ∨ new_owner_id = "") then mret false else
  g ← reads (λ d, GetGroup d group_id);
  match g with
  | None => mret false
  | Some g =>
      v ← or_throw (SerializeGroup (gd_set_owner_id new_owner_id g));
      kv_put (KeyGroup group_id) v
  end.

(** The loop that collects the members of a group from their keys. *)
Definition member_ids (d : db) (group_id : string) : list string :=
  key_suffixes (PrefixGroupMember group_id) (db_scan d (PrefixGroupMember group_id)).

(** [for (uid : user_ids) { batch.Delete(KeyGroupMember); batch.Delete(KeyUserGroup); }] *)
Definition delete_members (group_id : string) (user_ids : list string) : list WriteOp :=
  uid ← user_ids;
  [WDelete (KeyGroupMember group_id uid); WDelete (KeyUserGroup uid group_id)].

Definition DeleteGroup (group_id : string) : M db bool :=
  if decide (group_id = "") then mret false else
  user_ids ← reads (λ d, member_ids d group_id);
  kv_write (WDelete (KeyGroup group_id) :: delete_members group_id user_ids).

Definition DissolveGroup (group_id : string) : M db bool :=
  if decide (group_id = "") then mret false else
  g ← reads (λ d, GetGroup d group_id);
  match g with
  | None => mret false
  | Some g =>
      if decide (gd_status g = 1) then mret true else
      user_ids ← reads (λ d, member_ids d group_id);
      v ← or_throw (SerializeGroup (gd_set_member_count 0 (gd_set_status 1 g)));
      kv_write (WPut (KeyGroup group_id) v :: delete_members group_id user_ids)
  end.

Definition AddMember (group_id : string) (member : GroupMemberData) : M db bool :=
  if decide (group_id = "" ∨ gm_user_id member = "") then mret false else
  let mem_key := KeyGroupMember group_id (gm_user_id member) in
  existing ← reads (λ d, db_Get d mem_key);
  match existing with
  | Some _ => mret false
  | None =>
      g ← reads (λ d, GetGroup d group_id);
      match g with
      | None => mret false
      | Some g =>
          mv ← or_throw (SerializeMember member);
          let g := gd_set_member_count (wrap32 (gd_member_count g + 1)) g in
          gv ← or_throw (SerializeGroup (gd_set_updated_at 0 g));
          kv_write [WPut mem_key mv; WPut (KeyUserGroup (gm_user_id member) group_id) "";
                    WPut (KeyGroup group_id) gv]
      end
  end.

Definition RemoveMember (group_id user_id : string) : M db bool :=
  if decide (group_id = "" ∨ user_id = "") then mret false else
  let mem_key := KeyGroupMember group_id user_id in
  existing ← reads (λ d, db_Get d mem_key);
  match existing with
  | None => mret false
  | Some _ =>
      g ← reads (λ d, GetGroup d group_id);
      match g with
      | None => mret false
      | Some g =>
          let g := gd_set_member_count (Z.max 0 (gd_member_count g - 1)) g in
          gv ← or_throw (SerializeGroup g);
          kv_write [WDelete mem_key; WDelete (KeyUserGroup user_id group_id);
                    WPut (KeyGroup group_id) gv]
      end
  end.

Definition GetMember (d : db) (group_id user_id : string) : option GroupMemberData :=
  if decide (group_id = "" ∨ user_id = "") then None else
  value ← db_Get d (KeyGroupMember group_id user_id);
  DeserializeMember value.

(** The scan of [GetMembers]: the members whose value can be read. *)
Definition all_members (d : db) (group_id : string) : list GroupMemberData :=
  omap (λ e, DeserializeMember e.2) (db_scan d (PrefixGroupMember group_id)).

Definition GetMembers (d : db) (group_id : string) (page page_size : Z)
    : option (list GroupMemberData * option Z) :=
  if decide (group_id = "") then Some ([], None) else
  let all := all_members d group_id in
  let total := wrap32 (Z.of_nat (length all)) in
  let page := if decide (page ≤ 0) then 1 else page in
  let page_size := if decide (page_size ≤ 0) then 50 else page_size in
  let offset := wrap32 ((page - 1) * page_size) in
  if decide (total ≤ offset) then Some ([], Some total) else
  let last := Z.min (wrap32 (offset + page_size)) total in
  v ← vec_range all offset last;
  Some (v, Some total).

Definition UpdateMemberRole (group_id user_id : string) (role : Z) : M db bool :=
  if decide (group_id = "" ∨ user_id = "") then mret false else
  m ← reads (λ d, GetMember d group_id user_id);
  match m with
  | None => mret false
  | Some m =>
      v ← or_throw (SerializeMember (gm_set_role role m));
      kv_put (KeyGroupMember group_id user_id) v
  end.

Definition IsMember (d : db) (group_id user_id : string) : bool :=
  if decide (group_id = "" ∨ user_id = "") then false else
  bool_decide (is_Some (db_Get d (KeyGroupMember group_id user_id))).

Definition GetUserGroupIds (d : db) (user_id : string) : list string :=
  if decide (user_id = "") then [] else
  key_suffixes (PrefixUserGroups user_id) (db_scan d (PrefixUserGroups user_id)).

#[global] Instance RocksDB_GroupStore : GroupStore db := {|
  gs_CreateGroup := CreateGroup; gs_GetGroup := GetGroup;
  gs_UpdateGroup := UpdateGroup; gs_UpdateGroupOwner := UpdateGroupOwner;
  gs_DeleteGroup := DeleteGroup; gs_DissolveGroup := DissolveGroup;
  gs_AddMember := AddMember; gs_RemoveMember := RemoveMember;
  gs_GetMember := GetMember; gs_GetMembers := GetMembers;
  gs_UpdateMemberRole := UpdateMemberRole; gs_IsMember := IsMember;
  gs_GetUserGroupIds := GetUserGroupIds;
|}.
End RocksDBGroupStore.

(** ** Typed keys *)

Inductive GKey : Type :=
  | KG (g : string)          (* group:{g} *)
  | KM (g u : string)        (* group_member:{g}:{u} *)
  | KU (u g : string).       (* user_groups:{u}:{g} *)

#[global] Instance GKey_eq_dec : EqDecision GKey.
Proof. solve_decision. Defined.

Definition gkey_str (k : GKey) : string :=
  match k with
  | KG g => KeyGroup g
  | KM g u => KeyGroupMember g u
  | KU u g => KeyUserGroup u g
  end.
Definition gkey_ok (k : GKey) : Prop :=
  match k with KG g => ok_id g | KM g u => ok_id g ∧ ok_id u | KU u g => ok_id u ∧ ok_id g end.

#[global] Program Instance GKey_space : KeySpace GKey := {|
  key_str := gkey_str; key_ok := gkey_ok;
|}.
Next Obligation.
  unfold KeyGroup, KeyGroupMember, KeyUserGroup, K_GROUP, K_GROUP_MEMBER, K_USER_GROUPS, ok_id.
  intros [g|g u|u g] [g'|g' u'|u' g']; simpl; intros Hok Heq; simplify_eq; try done.
  - destruct Hok as [[_ ?] [_ ?]]. by destruct (field_inj g g' u u') as [-> ->].
  - destruct Hok as [[_ ?] [_ ?]]. by destruct (field_inj u u' g g') as [-> ->].
Qed.

(** * The abstract store

    What a group store holds, without keys, text or indexes. *)
Record gmodel : Type := {
  groups : gmap string GroupData;
  members : gmap (string * string) GroupMemberData;   (* (group, user) *)
}.

(** The members of a group. *)
Definition members_of (g : string) (M : gmodel) : gmap (string * string) GroupMemberData :=
  filter (λ e, e.1.1 = g) (members M).

Definition set_group (g : string) (gd : GroupData) (M : gmodel) : gmodel :=
  {| groups := <[g := gd]> (groups M); members := members M |}.
Definition set_member (g u : string) (m : GroupMemberData) (M : gmodel) : gmodel :=
  {| groups := groups M; members := <[(g, u) := m]> (members M) |}.
Definition drop_member (g u : string) (M : gmodel) : gmodel :=
  {| groups := groups M; members := delete (g, u) (members M) |}.
Definition drop_members (g : string) (M : gmodel) : gmodel :=
  {| groups := groups M; members := filter (λ e, e.1.1 ≠ g) (members M) |}.
Definition drop_group (g : string) (M : gmodel) : gmodel :=
  {| groups := delete g (groups M); members := members M |}.

(** What each writing operation does when it succeeds; [None]: it is refused. *)
Definition a_CreateGroup (data : GroupData) (M : gmodel) : option gmodel :=
  if decide (gd_group_id data = "" ∨ gd_owner_id data = "") then None else
  match groups M !! gd_group_id data with
  | Some _ => None
  | None => Some (set_group (gd_group_id data) data M)
  end.
Definition a_UpdateGroup (g name avatar announcement : string) (t : Z) (M : gmodel)
    : option gmodel :=
  gd ← groups M !! g;
  let gd := gd_set_info (if decide (name = "") then gd_group_name gd else name)
              (if decide (avatar = "") then gd_avatar_url gd else avatar) announcement gd in
  Some (set_group g (if decide (t ≠ 0) then gd_set_updated_at t gd else gd) M).
Definition a_UpdateGroupOwner (g o : string) (M : gmodel) : option gmodel :=
  if decide (o = "") then None else
  gd ← groups M !! g; Some (set_group g (gd_set_owner_id o gd) M).
Definition a_DeleteGroup (g : string) (M : gmodel) : option gmodel :=
  if decide (g = "") then None else Some (drop_group g (drop_members g M)).
Definition a_DissolveGroup (g : string) (M : gmodel) : option gmodel :=
  gd ← groups M !! g;
  if decide (gd_status gd = 1) then Some M else
  Some (set_group g (gd_set_member_count 0 (gd_set_status 1 gd)) (drop_members g M)).
Definition a_AddMember (g : string) (m : GroupMemberData) (M : gmodel) : option gmodel :=
  if decide (gm_user_id m = "") then None else
  match members M !! (g, gm_user_id m) with
  | Some _ => None
  | None =>
      gd ← groups M !! g;
      let gd := gd_set_member_count (wrap32 (gd_member_count gd + 1)) gd in
      Some (set_group g (gd_set_updated_at 0 gd) (set_member g (gm_user_id m) m M))
  end.
Definition a_RemoveMember (g u : string) (M : gmodel) : option gmodel :=
  _ ← members M !! (g, u);
  gd ← groups M !! g;
  Some (set_group g (gd_set_member_count (Z.max 0 (gd_member_count gd - 1)) gd)
         (drop_member g u M)).
Definition a_UpdateMemberRole (g u : string) (role : Z) (M : gmodel) : option gmodel :=
  m ← members M !! (g, u); Some (set_member g u (gm_set_role role m) M).

Lemma members_of_lookup g u M : members_of g M !! (g, u) = members M !! (g, u).
Proof.
  unfold members_of. rewrite map_lookup_filter.
  destruct (members M !! (g, u)); simpl; [|done]. by rewrite option_guard_True.
Qed.

Lemma members_of_set g u m M :
  members_of g (set_member g u m M) = <[(g, u) := m]> (members_of g M).
Proof. unfold members_of. simpl. by rewrite map_filter_insert_True. Qed.

Lemma members_of_set_size g u m M : members M !! (g, u) = None →
  size (members_of g (set_member g u m M)) = S (size (members_of g M)).
Proof.
  intros HM. rewrite members_of_set, map_size_insert_None; [done|].
  by rewrite members_of_lookup.
Qed.

Lemma members_of_drop_size g u M : is_Some (members M !! (g, u)) →
  S (size (members_of g (drop_member g u M))) = size (members_of g M).
Proof.
  intros [m Hm]. unfold members_of. simpl. rewrite map_filter_delete.
  rewrite map_size_delete_Some.
  - assert (size (filter (λ e : string * string * GroupMemberData, e.1.1 = g) (members M)) ≠ 0%nat).
    { apply map_size_ne_0_lookup. exists (g, u).
      change (is_Some (members_of g M !! (g, u))). rewrite members_of_lookup. eauto. }
    lia.
  - change (is_Some (members_of g M !! (g, u))). rewrite members_of_lookup. eauto.
Qed.

(** The page that [GetMembers] cuts out of the list of all members. *)
Definition page_of (all : list GroupMemberData) (page page_size : Z)
    : option (list GroupMemberData * option Z) :=
  let total := wrap32 (Z.of_nat (length all)) in
  let page := if decide (page ≤ 0) then 1 else page in
  let page_size := if decide (page_size ≤ 0) then 50 else page_size in
  let offset := wrap32 ((page - 1) * page_size) in
  if decide (total ≤ offset) then Some ([], Some total) else
  v ← vec_range all offset (Z.min (wrap32 (offset + page_size)) total);
  Some (v, Some total).

(** What the clients of a group store rely on. *)
Class GroupStoreSpec (S : Type) `{GroupStore S} : Type := {
  gs_rep : S → gmodel → Prop;
  gs_rep_member s M g u m : gs_rep s M → members M !! (g, u) = Some m →
    ok_id g ∧ ok_id u ∧ gm_user_id m = u ∧ wf_member m ∧ is_Some (groups M !! g);
  gs_rep_group s M g gd : gs_rep s M → groups M !! g = Some gd →
    ok_id g ∧ gd_group_id gd = g ∧ wf_group gd;
  spec_GetGroup s M g : gs_rep s M → gs_GetGroup s g = groups M !! g;
  spec_GetMember s M g u : gs_rep s M → gs_GetMember s g u = members M !! (g, u);
  spec_IsMember s M g u :
    gs_rep s M → gs_IsMember s g u = bool_decide (is_Some (members M !! (g, u)));
  spec_GetUserGroupIds s M u : gs_rep s M → ok_id u →
    NoDup (gs_GetUserGroupIds s u) ∧
    ∀ g, g ∈ gs_GetUserGroupIds s u ↔ is_Some (members M !! (g, u));
  spec_GetMembers s M g : gs_rep s M → ok_id g → ∃ all,
    all ≡ₚ (map_to_list (members_of g M)).*2 ∧
    ∀ page page_size, gs_GetMembers s g page page_size = page_of all page page_size;
  spec_CreateGroup data : ok_id (gd_group_id data) → wf_group data →
    refines gs_rep (gs_CreateGroup data) (a_CreateGroup data);
  spec_UpdateGroup g name avatar ann t :
    refines gs_rep (gs_UpdateGroup g name avatar ann t) (a_UpdateGroup g name avatar ann t);
  spec_UpdateGroupOwner g o :
    refines gs_rep (gs_UpdateGroupOwner g o) (a_UpdateGroupOwner g o);
  spec_DeleteGroup g : ok_id g → refines gs_rep (gs_DeleteGroup g) (a_DeleteGroup g);
  spec_DissolveGroup g : refines gs_rep (gs_DissolveGroup g) (a_DissolveGroup g);
  spec_AddMember g m : ok_id (gm_user_id m) → wf_member m →
    refines gs_rep (gs_AddMember g m) (a_AddMember g m);
  spec_RemoveMember g u : refines gs_rep (gs_RemoveMember g u) (a_RemoveMember g u);
  spec_UpdateMemberRole g u role : int32_range role →
    refines gs_rep (gs_UpdateMemberRole g u role) (a_UpdateMemberRole g u role);
}.

(** * The implementation meets the specification *)

Section Refinement.
Context {db : Type} `{!RocksDB db} `{!RocksDBLaws db} `{!JsonLib} `{!JsonLaws}.
Implicit Types d : db.

Definition group_val (g v : string) (gd : GroupData) : Prop :=
  DeserializeGroup v = Some gd ∧ gd_group_id gd = g.
Definition member_val (u v : string) (m : GroupMemberData) : Prop :=
  DeserializeMember v = Some m ∧ gm_user_id m = u.

Record group_rep (d : db) (M : gmodel) : Prop := {
  gr_closed : keys_closed d;
  gr_group g : option_Forall2 (group_val g) (kget d (KG g)) (groups M !! g);
  gr_member g u : option_Forall2 (member_val u) (kget d (KM g u)) (members M !! (g, u));
  gr_index u g : kget d (KU u g) = (λ _, "") <$> members M !! (g, u);
  gr_dangling g u : is_Some (members M !! (g, u)) → is_Some (groups M !! g);
}.

Lemma group_rep_group_ok d M g gd : group_rep d M → groups M !! g = Some gd →
  ok_id g ∧ gd_group_id gd = g ∧ wf_group gd.
Proof.
  intros Hr Hg. pose proof (gr_group _ _ Hr g) as Hv. rewrite Hg in Hv.
  inversion Hv as [v ? [Hd ?] Hk|]; subst. split; [|split; [done|]].
  - by apply (kget_Some_ok d (KG (gd_group_id gd)) v (gr_closed _ _ Hr)).
  - by eapply DeserializeGroup_wf.
Qed.

Lemma group_rep_member_ok d M g u m : group_rep d M → members M !! (g, u) = Some m →
  ok_id g ∧ ok_id u ∧ gm_user_id m = u ∧ wf_member m ∧ is_Some (groups M !! g).
Proof.
  intros Hr Hm. pose proof (gr_member _ _ Hr g u) as Hv. rewrite Hm in Hv.
  inversion Hv as [v ? [Hd ?] Hk|]; subst.
  destruct (kget_Some_ok d (KM g (gm_user_id m)) v (gr_closed _ _ Hr)) as [? ?]; [done|].
  split_and!; try done; [by eapply DeserializeMember_wf|].
  eapply gr_dangling; eauto.
Qed.

Lemma GetGroup_rep d M g : group_rep d M → GetGroup d g = groups M !! g.
Proof.
  intros Hr. pose proof (gr_group _ _ Hr g) as Hv. unfold GetGroup.
  case_decide as Hg.
  - destruct (groups M !! g) eqn:HM; [|done].
    destruct (group_rep_group_ok _ _ _ _ Hr HM) as [[? _] _]; done.
  - unfold kget in Hv; simpl in Hv. inversion Hv as [v gd [? ?]|]; simpl; done.
Qed.

Lemma kget_member_rep d M g u : group_rep d M →
  db_Get d (KeyGroupMember g u) = None ∧ members M !! (g, u) = None ∨
  ∃ v m, db_Get d (KeyGroupMember g u) = Some v ∧ members M !! (g, u) = Some m ∧
         DeserializeMember v = Some m.
Proof.
  intros Hr. pose proof (gr_member _ _ Hr g u) as Hv. unfold kget in Hv; simpl in Hv.
  inversion Hv as [v m [? ?]|]; [right; eauto|by left].
Qed.

Lemma member_guard d M g u : group_rep d M → g = "" ∨ u = "" → members M !! (g, u) = None.
Proof.
  intros Hr Hg. apply eq_None_not_Some. intros [m Hm].
  destruct (group_rep_member_ok _ _ _ _ _ Hr Hm) as ([??]&[??]&?). naive_solver.
Qed.

Lemma GetMember_rep d M g u : group_rep d M → GetMember d g u = members M !! (g, u).
Proof.
  intros Hr. unfold GetMember. case_decide; [by erewrite member_guard|].
  by destruct (kget_member_rep d M g u Hr) as [[-> ->]|(v&m&->&->&?)].
Qed.

Lemma IsMember_rep d M g u :
  group_rep d M → IsMember d g u = bool_decide (is_Some (members M !! (g, u))).
Proof.
  intros Hr. unfold IsMember. case_decide; [by erewrite member_guard|].
  destruct (kget_member_rep d M g u Hr) as [[-> ->]|(v&m&->&->&?)]; [done|].
  by rewrite !bool_decide_true by eauto.
Qed.

Lemma group_guard d M : group_rep d M → groups M !! "" = None.
Proof.
  intros Hr. apply eq_None_not_Some. intros [gd Hg].
  by destruct (group_rep_group_ok _ _ _ _ Hr Hg) as [[? _] _].
Qed.

(** A batch of writes at well-formed keys. *)
Lemma group_rep_write d d' M M' b :
  group_rep d M → Forall (λ op, key_ok (kop_key op)) b →
  db_Write d (kop_op <$> b) = Some d' →
  (∀ g, option_Forall2 (group_val g)
          (kbatch_get b (KG g) (kget d (KG g))) (groups M' !! g)) →
  (∀ g u, option_Forall2 (member_val u)
          (kbatch_get b (KM g u) (kget d (KM g u))) (members M' !! (g, u))) →
  (∀ u g, kbatch_get b (KU u g) (kget d (KU u g)) = (λ _, "") <$> members M' !! (g, u)) →
  (∀ g u, is_Some (members M' !! (g, u)) → is_Some (groups M' !! g)) →
  group_rep d' M'.
Proof.
  intros Hr Hb Hw Hg Hm Hu Hd. split.
  - eapply keys_closed_write; [by eapply gr_closed|done|done].
  - intros. by rewrite (kget_write d d' b).
  - intros. by rewrite (kget_write d d' b).
  - intros. by rewrite (kget_write d d' b).
  - done.
Qed.

Lemma rep_put_group d d' M g v gd :
  group_rep d M → ok_id g → DeserializeGroup v = Some gd → gd_group_id gd = g →
  db_Put d (KeyGroup g) v = Some d' → group_rep d' (set_group g gd M).
Proof.
  intros Hr Hok Hv Hid Hw. pose proof Hr as [_ Hg Hm Hu Hd].
  change (KeyGroup g) with (key_str (KG g)) in Hw. apply kop_of_Put in Hw.
  apply (group_rep_write d d' M _ [KPut (KG g) v]); try done.
  - keys_ok.
  - intros g'. simpl. case_decide; simplify_eq.
    + rewrite lookup_insert_eq. by constructor.
    + by rewrite lookup_insert_ne by congruence.
  - intros g' u ?%Hd. simpl. apply lookup_insert_is_Some'. by right.
Qed.

Lemma rep_put_member d d' M g u v m :
  group_rep d M → ok_id g → ok_id u → DeserializeMember v = Some m → gm_user_id m = u →
  is_Some (members M !! (g, u)) →
  db_Put d (KeyGroupMember g u) v = Some d' → group_rep d' (set_member g u m M).
Proof.
  intros Hr Hok Hok' Hv Hid Hin Hw. pose proof Hr as [_ Hg Hm Hu Hd].
  change (KeyGroupMember g u) with (key_str (KM g u)) in Hw. apply kop_of_Put in Hw.
  apply (group_rep_write d d' M _ [KPut (KM g u) v]); try done.
  - keys_ok.
  - intros g' u'. simpl. case_decide; simplify_eq.
    + rewrite lookup_insert_eq. by constructor.
    + by rewrite lookup_insert_ne by congruence.
  - intros u' g'. simpl. rewrite Hu, lookup_insert. case_decide; simplify_eq; [|done].
    by destruct Hin as [? ->].
  - intros g' u'. simpl. rewrite lookup_insert_is_Some'. naive_solver.
Qed.

Local Ltac start Hr :=
  intros d M r d' Hr Hop.

Lemma CreateGroup_refines data : ok_id (gd_group_id data) → wf_group data →
  refines group_rep (CreateGroup data) (a_CreateGroup data).
Proof.
  intros Hid Hwf. start Hr. unfold CreateGroup, a_CreateGroup in *.
  pose proof (gr_group _ _ Hr (gd_group_id data)) as Hg. unfold kget in Hg; simpl in Hg.
  dbrun Hop; inversion Hg; subst; try congruence; split; try done.
  eexists; split; [done|].
  eapply rep_put_group; eauto. by eapply DeserializeGroup_Serialize.
Qed.

(** The operations that rewrite the record of an existing group. *)
Lemma rewrite_group_refines g (f : GroupData → GroupData) d Mo r d' :
  group_rep d Mo →
  (∀ gd, wf_group gd → wf_group (f gd)) →
  (∀ gd, gd_group_id (f gd) = gd_group_id gd) →
  (g0 ← reads (λ d, GetGroup d g);
   match g0 with
   | None => mret false
   | Some gd => v ← or_throw (SerializeGroup (f gd)); kv_put (KeyGroup g) v
   end : M db bool) d = (r, d') →
  match r with
  | Ret true => ∃ Mo', (gd ← groups Mo !! g; Some (set_group g (f gd) Mo)) = Some Mo' ∧
                      group_rep d' Mo'
  | _ => group_rep d' Mo
  end ∧ ((gd ← groups Mo !! g; Some (set_group g (f gd) Mo)) = None → r = Ret false).
Proof.
  intros Hr Hwf Hid Hop. 
  dbrun Hop; rewrite (GetGroup_rep _ Mo g Hr) in *;
    match goal with H : groups Mo !! g = _ |- _ => rewrite H end; split; try done.
  simpl. eexists; split; [done|].
  destruct (group_rep_group_ok _ _ _ _ Hr ltac:(eassumption)) as (?&?&?).
  eapply rep_put_group; eauto; [by eapply DeserializeGroup_Serialize; eauto|].
  by rewrite Hid.
Qed.

Lemma UpdateGroup_refines g name avatar ann t :
  refines group_rep (UpdateGroup g name avatar ann t) (a_UpdateGroup g name avatar ann t).
Proof.
  start Hr. unfold UpdateGroup, a_UpdateGroup in *. case_decide as Hg.
  - injection Hop as <- <-. split; [done|]. intros _; done.
  - eapply (rewrite_group_refines g (λ g0, _) d M r d' Hr); [| |exact Hop].
    + intros gd [? ?]. by case_decide.
    + intros gd. by case_decide.
Qed.

Lemma UpdateGroupOwner_refines g o :
  refines group_rep (UpdateGroupOwner g o) (a_UpdateGroupOwner g o).
Proof.
  start Hr. unfold UpdateGroupOwner, a_UpdateGroupOwner in *.
  destruct (decide (o = "")) as [->|Ho].
  { rewrite decide_True in Hop by auto. injection Hop as <- <-. done. }
  destruct (decide (g = "" ∨ o = "")) as [[->|?]|_]; [|done|].
  { injection Hop as <- <-. by rewrite (group_guard _ _ Hr). }
  eapply (rewrite_group_refines g (gd_set_owner_id o) d M r d' Hr); try done.
Qed.

Lemma UpdateMemberRole_refines g u role : int32_range role →
  refines group_rep (UpdateMemberRole g u role) (a_UpdateMemberRole g u role).
Proof.
  intros Hrole. start Hr. unfold UpdateMemberRole, a_UpdateMemberRole in *.
  rewrite <-(GetMember_rep d M g u Hr).
  destruct (decide (g = "" ∨ u = "")) as [Hg|Hg].
  { injection Hop as <- <-. split; [done|]. done. }
  dbrun Hop; split; try done. eexists; split; [done|].
  match goal with H : GetMember _ _ _ = Some _ |- _ => rewrite (GetMember_rep d M g u Hr) in H;
    destruct (group_rep_member_ok _ _ _ _ _ Hr H) as (?&?&?&?&?) end.
  eapply rep_put_member; eauto. by eapply DeserializeMember_Serialize; eauto.
Qed.

Lemma AddMember_refines g m : ok_id (gm_user_id m) → wf_member m →
  refines group_rep (AddMember g m) (a_AddMember g m).
Proof.
  intros Hok Hwf. start Hr. unfold AddMember, a_AddMember in *.
  destruct (decide (gm_user_id m = "")) as [Hu|_]; [by destruct Hok|].
  destruct (decide (g = "" ∨ gm_user_id m = "")) as [[->|?]|_]; [|by destruct Hok|].
  { injection Hop as <- <-. split; [done|].
    rewrite (group_guard _ _ Hr). by case_match. }
  destruct (kget_member_rep _ _ g (gm_user_id m) Hr) as [[HG HM]|(v&m'&HG&HM&_)];
    rewrite HM; dbrun Hop; try congruence; try done;
    rewrite (GetGroup_rep _ M g Hr) in *;
    match goal with H : groups M !! g = _ |- _ => rewrite H end; split; try done.
  simpl. eexists; split; [done|].
  destruct (group_rep_group_ok _ _ _ _ Hr ltac:(eassumption)) as (Hog&Hid&Hwg).
  pose proof Hr as [_ Hg Hm Hu Hd].
  match goal with Hw : db_Write d _ = Some d' |- _ => rename Hw into Hw;
    match type of Hw with db_Write _ [WPut _ ?mv; _; WPut _ ?gv] = _ =>
      apply (group_rep_write d d' M _ [KPut (KM g (gm_user_id m)) mv;
        KPut (KU (gm_user_id m) g) ""; KPut (KG g) gv]); try done
    end end.
  - keys_ok.
  - intros g'. simpl. case_decide; simplify_eq.
    + rewrite lookup_insert_eq. constructor. split; [|done].
      eapply DeserializeGroup_Serialize; [|eassumption].
      destruct Hwg as [_ ?]. by split; [apply wrap32_range|].
    + by rewrite lookup_insert_ne by congruence.
  - intros g' u'. simpl. case_decide; simplify_eq.
    + rewrite lookup_insert_eq. constructor. split; [|done].
      by eapply DeserializeMember_Serialize.
    + by rewrite lookup_insert_ne by congruence.
  - intros u' g'. simpl. rewrite Hu, lookup_insert.
    repeat case_decide; simplify_eq; done.
  - intros g' u'. simpl. rewrite !lookup_insert_is_Some'. naive_solver.
Qed.

Lemma RemoveMember_refines g u :
  refines group_rep (RemoveMember g u) (a_RemoveMember g u).
Proof.
  start Hr. unfold RemoveMember, a_RemoveMember in *.
  destruct (decide (g = "" ∨ u = "")) as [Hg|_].
  { injection Hop as <- <-. split; [done|]. by rewrite (member_guard _ _ _ _ Hr Hg). }
  destruct (kget_member_rep _ _ g u Hr) as [[HG HM]|(v&m&HG&HM&_)];
    rewrite HM; dbrun Hop; try congruence; try done;
    rewrite (GetGroup_rep _ M g Hr) in *; simpl;
    match goal with H : groups M !! g = _ |- _ => rewrite H end; split; try done.
  simpl. eexists; split; [done|].
  destruct (group_rep_group_ok _ _ _ _ Hr ltac:(eassumption)) as (Hog&Hid&Hwg).
  destruct (group_rep_member_ok _ _ _ _ _ Hr HM) as (_&Hou&_).
  pose proof Hr as [_ Hg Hm Hu Hd].
  match goal with Hw : db_Write d _ = Some d' |- _ => rename Hw into Hw;
    match type of Hw with db_Write _ [_; _; WPut _ ?gv] = _ =>
      apply (group_rep_write d d' M _ [KDel (KM g u); KDel (KU u g); KPut (KG g) gv]);
      try done
    end end.
  - keys_ok.
  - intros g'. simpl. case_decide; simplify_eq.
    + rewrite lookup_insert_eq. constructor. split; [|done].
      eapply DeserializeGroup_Serialize; [|eassumption].
      destruct Hwg as [[? ?] ?]. split; [|done]. simpl. unfold int32_range. lia.
    + by rewrite lookup_insert_ne by congruence.
  - intros g' u'. simpl. case_decide; simplify_eq.
    + rewrite lookup_delete_eq. constructor.
    + by rewrite lookup_delete_ne by congruence.
  - intros u' g'. simpl. rewrite Hu, lookup_delete.
    repeat case_decide; simplify_eq; done.
  - intros g' u'. simpl. rewrite lookup_insert_is_Some', lookup_delete.
    case_decide; naive_solver.
Qed.

Lemma PrefixGroupMember_app g u : PrefixGroupMember g +:+ u = KeyGroupMember g u.
Proof. unfold PrefixGroupMember, KeyGroupMember. by rewrite <-!str_app_assoc. Qed.
Lemma PrefixUserGroups_app u g : PrefixUserGroups u +:+ g = KeyUserGroup u g.
Proof. unfold PrefixUserGroups, KeyUserGroup. by rewrite <-!str_app_assoc. Qed.

Lemma member_ids_elem d M g u : group_rep d M →
  u ∈ member_ids d g ↔ is_Some (members M !! (g, u)).
Proof.
  intros Hr. unfold member_ids. rewrite key_suffixes_elem, PrefixGroupMember_app.
  destruct (kget_member_rep d M g u Hr) as [[-> HM]|(v&m&->&HM&_)]; rewrite HM.
  - split; [by intros [_ []%is_Some_None]|by intros []%is_Some_None].
  - split; [eauto|]. split; [|eauto]. intros ->.
    destruct (group_rep_member_ok _ _ _ _ _ Hr HM) as (_&[? _]&_); done.
Qed.

Definition kdelete_members (g : string) (uids : list string) : list (KOp GKey) :=
  uid ← uids; [KDel (KM g uid); KDel (KU uid g)].

Lemma delete_members_kop g uids :
  delete_members g uids = kop_op <$> kdelete_members g uids.
Proof.
  unfold delete_members, kdelete_members.
  induction uids as [|u uids IH]; [done|]. by rewrite !bind_cons, fmap_app, <-IH.
Qed.

Lemma kbatch_get_delete g uids k o :
  kbatch_get (kdelete_members g uids) k o =
  match k with
  | KG _ => o
  | KM g' u | KU u g' => if decide (g' = g ∧ u ∈ uids) then None else o
  end.
Proof.
  revert o. induction uids as [|u uids IH]; intros o; simpl.
  - destruct k; [done|..]; by rewrite decide_False by set_solver.
  - change (kbatch_get (kdelete_members g (u :: uids)) k o) with
      (kbatch_get (kdelete_members g uids) k
        (if decide (KU u g = k) then None else
         if decide (KM g u = k) then None else o)).
    rewrite IH. destruct k; [done|..]; repeat case_decide; simplify_eq; set_solver.
Qed.

Lemma kdelete_members_ok d M g uids : group_rep d M →
  (∀ u, u ∈ uids → is_Some (members M !! (g, u))) →
  Forall (λ op, key_ok (kop_key op)) (kdelete_members g uids).
Proof.
  intros Hr Hin. unfold kdelete_members. apply Forall_forall. intros op.
  rewrite list_elem_of_bind. intros (u & Hop & Hu).
  destruct (Hin u Hu) as [m Hm].
  destruct (group_rep_member_ok _ _ _ _ _ Hr Hm) as (?&?&_). set_solver.
Qed.

(** Writing [op] at the group's record and deleting all its members. *)
Lemma rep_drop_members d d' M g op gs :
  group_rep d M → ok_id g → kop_key op = KG g →
  db_Write d (kop_op op :: delete_members g (member_ids d g)) = Some d' →
  (∀ g', option_Forall2 (group_val g')
           (kbatch_get [op] (KG g') (kget d (KG g'))) (gs !! g')) →
  (∀ g', g' ≠ g → gs !! g' = groups M !! g') →
  group_rep d' {| groups := gs; members := members (drop_members g M) |}.
Proof.
  intros Hr Hok Hkey Hw Hgs Hne. rewrite delete_members_kop in Hw.
  pose proof Hr as [_ Hg Hm Hu Hd].
  assert (∀ u, u ∈ member_ids d g ↔ is_Some (members M !! (g, u))) as Hids
    by (intros; by apply member_ids_elem).
  assert (∀ k o, match k with KG _ => False | _ => True end →
            kbatch_get [op] k o = o) as Hop.
  { intros k o Hk. destruct op; simpl in *; subst; case_decide; by subst. }
  assert (∀ k o, kbatch_get (op :: kdelete_members g (member_ids d g)) k o =
            kbatch_get (kdelete_members g (member_ids d g)) k (kbatch_get [op] k o)) as Hcons.
  { by intros k o; destruct op. }
  apply (group_rep_write d d' M _ (op :: kdelete_members g (member_ids d g))); try done.
  - apply Forall_cons. rewrite Hkey. split; [done|].
    eapply kdelete_members_ok; [done|]. intros u ?. by apply Hids.
  - intros g'. by rewrite Hcons, kbatch_get_delete.
  - intros g' u. rewrite Hcons, kbatch_get_delete, Hop by done. simpl.
    rewrite map_lookup_filter. specialize (Hm g' u).
    case_decide as Hdec; [destruct Hdec as [-> Hin]|].
    + destruct (members M !! (g, u)); simpl; [|constructor].
      rewrite option_guard_False by naive_solver. constructor.
    + destruct (members M !! (g', u)) as [m|] eqn:HM; simpl; [|done].
      rewrite option_guard_True; [done|]. simpl. intros ->. apply Hdec.
      split; [done|]. apply Hids. eauto.
  - intros u g'. rewrite Hcons, kbatch_get_delete, Hop, Hu by done. simpl.
    rewrite map_lookup_filter.
    case_decide as Hdec; [destruct Hdec as [-> Hin]|].
    + destruct (members M !! (g, u)); simpl; [|done].
      by rewrite option_guard_False by naive_solver.
    + destruct (members M !! (g', u)) as [m|] eqn:HM; simpl; [|done].
      rewrite option_guard_True; [done|]. simpl. intros ->. apply Hdec.
      split; [done|]. apply Hids. eauto.
  - intros g' u [m [Hin Hne']%map_lookup_filter_Some]. simpl in *.
    rewrite Hne by done. eauto.
Qed.

Lemma DeleteGroup_refines g : ok_id g →
  refines group_rep (DeleteGroup g) (a_DeleteGroup g).
Proof.
  intros Hok. start Hr. unfold DeleteGroup, a_DeleteGroup in *.
  pose proof Hok as [Hne _]. rewrite decide_False in * by done.
  dbrun Hop; split; try done. eexists; split; [done|].
  apply (rep_drop_members d d' M g (KDel (KG g)) _ Hr Hok); try done.
  - intros g'. simpl. pose proof (gr_group _ _ Hr g'). case_decide; simplify_eq.
    + rewrite lookup_delete_eq. constructor.
    + by rewrite lookup_delete_ne by congruence.
  - intros g' ?. by rewrite lookup_delete_ne.
Qed.

Lemma DissolveGroup_refines g :
  refines group_rep (DissolveGroup g) (a_DissolveGroup g).
Proof.
  start Hr. unfold DissolveGroup, a_DissolveGroup in *.
  destruct (decide (g = "")) as [->|_].
  { injection Hop as <- <-. by rewrite (group_guard _ _ Hr). }
  dbrun Hop; rewrite (GetGroup_rep _ M g Hr) in *;
    match goal with H : groups M !! g = _ |- _ => rewrite H end; simpl;
    try (rewrite decide_True by done); try (rewrite decide_False by done); split; try done.
  - eauto.
  - eexists; split; [done|].
    destruct (group_rep_group_ok _ _ _ _ Hr ltac:(eassumption)) as (Hog&Hid&[? _]).
    match goal with Hw : db_Write d (WPut _ ?v :: _) = Some d' |- _ =>
      apply (rep_drop_members d d' M g (KPut (KG g) v) _ Hr Hog); try done end.
    + intros g'. simpl. pose proof (gr_group _ _ Hr g'). case_decide; simplify_eq.
      * rewrite lookup_insert_eq. constructor. split; [|done].
        by eapply DeserializeGroup_Serialize.
      * by rewrite lookup_insert_ne by congruence.
    + intros g' ?. by rewrite lookup_insert_ne.
Qed.

Lemma GetUserGroupIds_rep d M u : group_rep d M → ok_id u →
  NoDup (GetUserGroupIds d u) ∧
  ∀ g, g ∈ GetUserGroupIds d u ↔ is_Some (members M !! (g, u)).
Proof.
  intros Hr Hu. unfold GetUserGroupIds. rewrite decide_False by apply Hu.
  split; [apply key_suffixes_nodup|]. intros g.
  rewrite key_suffixes_elem, PrefixUserGroups_app.
  pose proof (gr_index _ _ Hr u g) as Hi. unfold kget in Hi; simpl in Hi.
  rewrite Hi, fmap_is_Some. split; [by intros [_ ?]|]. intros [m Hm].
  destruct (group_rep_member_ok _ _ _ _ _ Hr Hm) as ([? _]&_). eauto.
Qed.

Lemma scan_member d M g k v : group_rep d M → ok_id g →
  (k, v) ∈ db_scan d (PrefixGroupMember g) ↔
  ∃ u m, k = KeyGroupMember g u ∧ db_Get d k = Some v ∧
         members M !! (g, u) = Some m ∧ DeserializeMember v = Some m ∧ gm_user_id m = u.
Proof.
  intros Hr Hok. rewrite db_scan_elem, prefix_iff. split.
  - intros [HG [u ->]]. rewrite PrefixGroupMember_app in *. exists u.
    pose proof (gr_member _ _ Hr g u) as Hm. unfold kget in Hm; simpl in Hm.
    rewrite HG in Hm. inversion Hm as [? m [? ?] Hv|]; subst. eauto 10.
  - intros (u&m&->&HG&_). split; [done|]. exists u. by rewrite PrefixGroupMember_app.
Qed.

Lemma all_members_elem d M g m : group_rep d M → ok_id g →
  m ∈ all_members d g ↔ ∃ u, members M !! (g, u) = Some m.
Proof.
  intros Hr Hok. unfold all_members. rewrite list_elem_of_omap. split.
  - intros [[k v] [Hin Hd]]. apply (scan_member _ M) in Hin as (u&m'&_&_&HM&Hd'&_); [|done..].
    simpl in Hd. exists u. congruence.
  - intros [u Hu]. pose proof (gr_member _ _ Hr g u) as Hm. rewrite Hu in Hm.
    inversion Hm as [v ? [Hd Hid] Hv|]; subst. unfold kget in Hv; simpl in Hv.
    exists (KeyGroupMember g (gm_user_id m), v). split; [|done].
    apply (scan_member _ M); eauto 10.
Qed.

Lemma all_members_perm d M g : group_rep d M → ok_id g →
  all_members d g ≡ₚ (map_to_list (members_of g M)).*2.
Proof.
  intros Hr Hok. apply NoDup_Permutation.
  - apply NoDup_omap_strong; [|eapply NoDup_fmap_1, db_scan_nodup].
    intros [k v] [k' v'] m Hin Hin' Hd Hd'; simpl in *.
    apply (scan_member _ M) in Hin as (u&m1&->&HG&_&?&?); [|done..].
    apply (scan_member _ M) in Hin' as (u'&m2&->&HG'&_&?&?); [|done..].
    simplify_eq. congruence.
  - apply NoDup_fmap_2_strong; [|apply NoDup_map_to_list].
    intros [[g1 u1] m1] [[g2 u2] m2]. unfold members_of.
    rewrite !elem_of_map_to_list, !map_lookup_filter_Some. simpl.
    intros [H1 ->] [H2 ->] ->.
    destruct (group_rep_member_ok _ _ _ _ _ Hr H1) as (_&_&<-&_).
    by destruct (group_rep_member_ok _ _ _ _ _ Hr H2) as (_&_&<-&_).
  - intros m. rewrite (all_members_elem _ _ _ _ Hr Hok), list_elem_of_fmap.
    unfold members_of. split.
    + intros [u Hu]. exists ((g, u), m). split; [done|].
      by rewrite elem_of_map_to_list, map_lookup_filter_Some.
    + intros ([[g' u] m'] & -> & Hin). exists u. simpl.
      rewrite elem_of_map_to_list, map_lookup_filter_Some in Hin. naive_solver.
Qed.

#[global] Instance RocksDB_GroupStoreSpec : GroupStoreSpec db.
Proof.
  refine {| gs_rep := group_rep |}.
  - intros s M g u m. apply group_rep_member_ok.
  - intros s M g gd. apply group_rep_group_ok.
  - apply GetGroup_rep.
  - apply GetMember_rep.
  - apply IsMember_rep.
  - apply GetUserGroupIds_rep.
  - intros s M g Hr Hok. exists (all_members s g). split; [by apply all_members_perm|].
    intros page page_size. simpl. unfold GetMembers. by rewrite decide_False by apply Hok.
  - apply CreateGroup_refines.
  - apply UpdateGroup_refines.
  - apply UpdateGroupOwner_refines.
  - apply DeleteGroup_refines.
  - apply DissolveGroup_refines.
  - apply AddMember_refines.
  - apply RemoveMember_refines.
  - apply UpdateMemberRole_refines.
Defined.

(** The empty database represents the empty store. *)
Lemma group_rep_empty d : (∀ k, db_Get d k = None) → group_rep d {| groups := ∅; members := ∅ |}.
Proof.
  intros He. split; simpl; intros; rewrite ?lookup_empty in *; unfold kget; rewrite ?He; try done.
  - intros s v. by rewrite He.
  - constructor.
  - constructor.
Qed.
End Refinement.
