(* ===== verification/GroupService.v ===== *)
(** [chatsvr/internal/service/group_service.{h,cpp}]: the rules of groups
    (creation, invitation, removal, roles, ownership) over any [GroupStore]. *)

From S2P Require Import Prelude External Errors Utils GroupStore.

Definition ROLE_OWNER : Z := 0.
Definition ROLE_MEMBER : Z := 1.
Definition ROLE_ADMIN : Z := 2.
Definition MIN_GROUP_MEMBERS : nat := 3.

(** [struct CreateGroupResult] *)
Record CreateGroupResult : Type := { cg_error_code : ErrorCode; cg_group_id : string }.

Section GroupService.
Context {S : Type} `{!GroupStore S}.

(** The set [unique]: the creator and the non-empty invited ids, in order. *)
Definition unique_members (creator_id : string) (member_ids : list string) : list string :=
  foldl (λ set id, if decide (id ≠ "") then sset_insert id set else set)
    (sset_insert creator_id []) member_ids.

Definition new_member (uid : string) (role now : Z) : GroupMemberData :=
  {| gm_user_id := uid; gm_role := role; gm_nickname := ""; gm_joined_at := now |}.

Definition CreateGroup (e : Env) (creator_id group_name avatar_url : string)
    (member_ids : list string) : M S CreateGroupResult :=
  let fail code := {| cg_error_code := code; cg_group_id := "" |} in
  if decide (creator_id = "") then mret (fail INVALID_PARAM) else
  let unique := unique_members creator_id member_ids in
  if decide (length unique < MIN_GROUP_MEMBERS)%nat then mret (fail GROUP_MEMBERS_TOO_FEW) else
  let group_id := GenerateShortId (env_rand e) "g_" 12 in
  let now := env_clock e 0 in
  let data := {|
    gd_group_id := group_id;
    gd_group_name := if decide (group_name = "") then "群聊" else group_name;
    gd_avatar_url := avatar_url;
    gd_owner_id := creator_id;
    gd_member_count := wrap32 (Z.of_nat (length unique));
    gd_announcement := "";
    gd_created_at := now;
    gd_updated_at := now;
    gd_status := 0 |} in
  ok ← gs_CreateGroup data;
  if negb ok then mret (fail INTERNAL_ERROR) else
  ok ← gs_AddMember group_id (new_member creator_id ROLE_OWNER now);
  if negb ok then (_ ← gs_DeleteGroup group_id; mret (fail INTERNAL_ERROR)) else
  _ ← for_each unique (λ uid,
        if decide (uid = creator_id) then mret true
        else gs_AddMember group_id (new_member uid ROLE_MEMBER now));
  mret {| cg_error_code := OK; cg_group_id := group_id |}.

Definition DismissGroup (group_id operator_id : string) : M S ErrorCode :=
  if decide (group_id = "" ∨ operator_id = "") then mret INVALID_PARAM else
  g ← reads (λ s, gs_GetGroup s group_id);
  match g with
  | None => mret GROUP_NOT_FOUND
  | Some g =>
      if decide (gd_owner_id g ≠ operator_id) then mret NOT_GROUP_OWNER else
      ok ← gs_DeleteGroup group_id;
      mret (if (ok : bool) then OK else INTERNAL_ERROR)
  end.

Definition GetGroupInfo (s : S) (group_id : string) : option GroupData :=
  if decide (group_id = "") then None else gs_GetGroup s group_id.

Definition UpdateGroup (e : Env) (group_id operator_id group_name avatar_url announcement : string)
    : M S ErrorCode :=
  if decide (group_id = "" ∨ operator_id = "") then mret INVALID_PARAM else
  g ← reads (λ s, gs_GetGroup s group_id);
  match g with
  | None => mret GROUP_NOT_FOUND
  | Some g =>
      mem ← reads (λ s, gs_GetMember s group_id operator_id);
      if bool_decide (gd_owner_id g ≠ operator_id) &&
         match mem with None => true | Some m => bool_decide (gm_role m ≠ ROLE_ADMIN) end
      then mret PERMISSION_DENIED else
      let now := env_clock e 0 in
      let g := gd_set_info (if decide (group_name ≠ "") then group_name else gd_group_name g)
                 (if decide (avatar_url ≠ "") then avatar_url else gd_avatar_url g)
                 announcement g in
      let g := gd_set_updated_at now g in
      ok ← gs_UpdateGroup group_id (gd_group_name g) (gd_avatar_url g) (gd_announcement g) now;
      mret (if (ok : bool) then OK else INTERNAL_ERROR)
  end.

Definition InviteMembers (e : Env) (group_id inviter_id : string) (member_ids : list string)
    : M S ErrorCode :=
  if decide (group_id = "" ∨ inviter_id = "") then mret INVALID_PARAM else
  g ← reads (λ s, gs_GetGroup s group_id);
  match g with
  | None => mret GROUP_NOT_FOUND
  | Some g =>
      is_member ← reads (λ s, gs_IsMember s group_id inviter_id);
      if negb is_member then mret NOT_GROUP_MEMBER else
      let now := env_clock e 0 in
      _ ← for_each member_ids (λ uid,
            if decide (uid = "") then mret true else
            already ← reads (λ s, gs_IsMember s group_id uid);
            if (already : bool) then mret true
            else gs_AddMember group_id (new_member uid ROLE_MEMBER now));
      mret OK
  end.

Definition RemoveMember (group_id operator_id member_id : string) : M S ErrorCode :=
  if decide (group_id = "" ∨ operator_id = "" ∨ member_id = "") then mret INVALID_PARAM else
  g ← reads (λ s, gs_GetGroup s group_id);
  match g with
  | None => mret GROUP_NOT_FOUND
  | Some g =>
      is_member ← reads (λ s, gs_IsMember s group_id member_id);
      if negb is_member then mret NOT_GROUP_MEMBER else
      op ← reads (λ s, gs_GetMember s group_id operator_id);
      target ← reads (λ s, gs_GetMember s group_id member_id);
      match op, target with
      | None, _ => mret NOT_GROUP_MEMBER
      | _, None => mret NOT_GROUP_MEMBER
      | Some op, Some target =>
          if decide (gm_role target = ROLE_OWNER) then mret KICK_NOT_ALLOWED else
          if decide (gm_role op ≠ ROLE_OWNER ∧ gm_role op ≠ ROLE_ADMIN)
          then mret PERMISSION_DENIED else
          if decide (gm_role op = ROLE_ADMIN ∧ gm_role target = ROLE_ADMIN)
          then mret KICK_NOT_ALLOWED else
          ok ← gs_RemoveMember group_id member_id;
          mret (if (ok : bool) then OK else INTERNAL_ERROR)
      end
  end.

Definition LeaveGroup (group_id user_id : string) : M S ErrorCode :=
  if decide (group_id = "" ∨ user_id = "") then mret INVALID_PARAM else
  g ← reads (λ s, gs_GetGroup s group_id);
  match g with
  | None => mret GROUP_NOT_FOUND
  | Some g =>
      if decide (gd_owner_id g = user_id) then mret OWNER_CANNOT_LEAVE else
      is_member ← reads (λ s, gs_IsMember s group_id user_id);
      if negb is_member then mret NOT_GROUP_MEMBER else
      ok ← gs_RemoveMember group_id user_id;
      mret (if (ok : bool) then OK else INTERNAL_ERROR)
  end.

Definition GetGroupMembers (s : S) (group_id : string) (page page_size : Z)
    : option (list GroupMemberData * option Z) :=
  if decide (group_id = "") then Some ([], None)
  else gs_GetMembers s group_id page page_size.

Definition TransferOwner (group_id old_owner_id new_owner_id : string) : M S ErrorCode :=
  if decide (group_id = "" ∨ old_owner_id = "" ∨ new_owner_id = "") then mret INVALID_PARAM else
  g ← reads (λ s, gs_GetGroup s group_id);
  match g with
  | None => mret GROUP_NOT_FOUND
  | Some g =>
      if decide (gd_owner_id g ≠ old_owner_id) then mret NOT_GROUP_OWNER else
      is_member ← reads (λ s, gs_IsMember s group_id new_owner_id);
      if negb is_member then mret NOT_GROUP_MEMBER else
      ok ← gs_UpdateMemberRole group_id old_owner_id ROLE_MEMBER;
      if negb ok then mret INTERNAL_ERROR else
      ok ← gs_UpdateMemberRole group_id new_owner_id ROLE_OWNER;
      if negb ok then mret INTERNAL_ERROR else
      ok ← gs_UpdateGroupOwner group_id new_owner_id;
      if negb ok then mret INTERNAL_ERROR else
      mret OK
  end.

Definition SetMemberRole (group_id operator_id member_id : string) (role : Z) : M S ErrorCode :=
  if decide (group_id = "" ∨ operator_id = "" ∨ member_id = "") then mret INVALID_PARAM else
  g ← reads (λ s, gs_GetGroup s group_id);
  match g with
  | None => mret GROUP_NOT_FOUND
  | Some g =>
      if decide (gd_owner_id g ≠ operator_id) then mret NOT_GROUP_OWNER else
      target ← reads (λ s, gs_GetMember s group_id member_id);
      match target with
      | None => mret NOT_GROUP_MEMBER
      | Some target =>
          if decide (gm_role target = ROLE_OWNER) then mret PERMISSION_DENIED else
          ok ← gs_UpdateMemberRole group_id member_id role;
          mret (if (ok : bool) then OK else INTERNAL_ERROR)
      end
  end.

Definition GetUserGroups (s : S) (user_id : string) : list GroupData :=
  if decide (user_id = "") then [] else
  omap (gs_GetGroup s) (gs_GetUserGroupIds s user_id).
End GroupService.

(** * Adding members one by one *)

(** [grown g who now M M']: [M'] is [M] with new ordinary members of [g], all
    satisfying [who]; the stored member count moved with the members. *)
Record grown (g : string) (who : string → Prop) (now : Z) (M M' : gmodel) : Prop := {
  grown_groups g' : g' ≠ g → groups M' !! g' = groups M !! g';
  grown_group gd : groups M !! g = Some gd → ∃ gd', groups M' !! g = Some gd' ∧
    gd_owner_id gd' = gd_owner_id gd ∧ gd_status gd' = gd_status gd ∧
    gd_member_count gd' = wrap32 (gd_member_count gd +
      (Z.of_nat (size (members_of g M')) - Z.of_nat (size (members_of g M))));
  grown_members g' u m : members M !! (g', u) = Some m → members M' !! (g', u) = Some m;
  grown_new g' u m : members M' !! (g', u) = Some m → members M !! (g', u) = None →
    g' = g ∧ who u ∧ m = new_member u ROLE_MEMBER now;
}.

Lemma wrap32_add a b : wrap32 (wrap32 a + b) = wrap32 (a + b).
Proof.
  unfold wrap32. f_equal.
  replace ((a + 2 ^ 31) mod 2 ^ 32 - 2 ^ 31 + b + 2 ^ 31)
    with ((a + 2 ^ 31) mod 2 ^ 32 + b) by lia.
  rewrite Z.add_mod_idemp_l by lia. f_equal. lia.
Qed.

Lemma grown_refl g who now M :
  (∀ gd, groups M !! g = Some gd → int32_range (gd_member_count gd)) → grown g who now M M.
Proof.
  intros Hr. split; try done.
  - intros gd Hg. exists gd. rewrite Z.sub_diag, Z.add_0_r, wrap32_id; eauto.
  - congruence.
Qed.

Lemma grown_step g (who : string → Prop) now M M1 M2 u :
  grown g who now M M1 → who u → u ≠ "" →
  a_AddMember g (new_member u ROLE_MEMBER now) M1 = Some M2 → grown g who now M M2.
Proof.
  intros [Hgs Hg Hms Hnew] Hw Hu Hadd. unfold a_AddMember in Hadd.
  rewrite decide_False in Hadd by done. simpl in Hadd.
  destruct (members M1 !! (g, u)) eqn:HM1; [done|].
  destruct (groups M1 !! g) as [gd1|] eqn:HG1; [|done]. simplify_eq/=. split; simpl.
  - intros g' ?. rewrite lookup_insert_ne by done. auto.
  - intros gd Hgd. destruct (Hg gd Hgd) as (gd' & Hgd' & Ho & Hs & Hc). simplify_eq.
    rewrite lookup_insert_eq. eexists; split; [done|]. simpl. split_and!; try done.
    rewrite Hc, wrap32_add. f_equal.
    change (members_of g (set_group g _ (set_member g u ?m M1)))
      with (members_of g (set_member g u m M1)).
    rewrite members_of_set_size by done. lia.
  - intros g' u' m Hm. rewrite lookup_insert_ne; [by apply Hms|].
    intros [= <- <-]. apply Hms in Hm. congruence.
  - intros g' u' m. rewrite lookup_insert. case_decide; simplify_eq.
    + by intros [= <-] _.
    + apply Hnew.
Qed.

Section Facts.
Context {S : Type} `{!GroupStore S} `{!GroupStoreSpec S}.
Implicit Types s : S.

(** The body shared by the two loops that add members. *)
Lemma grown_add g (who : string → Prop) now M s s' u r :
  ok_id u → who u →
  (∃ M1, gs_rep s M1 ∧ grown g who now M M1) →
  gs_AddMember g (new_member u ROLE_MEMBER now) s = (r, s') →
  ∃ M1, gs_rep s' M1 ∧ grown g who now M M1.
Proof.
  intros Hu Hw (M1 & Hr & Hgr) Hadd.
  destruct (spec_AddMember g (new_member u ROLE_MEMBER now) Hu ltac:(done) _ _ _ _ Hr Hadd)
    as [Hres _].
  destruct r as [[]|]; [|by exists M1..].
  destruct Hres as (M2 & Ha & Hr2). exists M2. split; [done|].
  eapply grown_step; eauto. apply Hu.
Qed.

Lemma unique_members_elem creator ids u :
  u ∈ unique_members creator ids ↔ u = creator ∨ u ≠ "" ∧ u ∈ ids.
Proof.
  unfold unique_members.
  assert (∀ l, u ∈ foldl (λ set id, if decide (id ≠ "") then sset_insert id set else set) l ids
            ↔ u ∈ l ∨ u ≠ "" ∧ u ∈ ids) as ->.
  { induction ids as [|x ids IH]; intros l; simpl; [set_solver|]. rewrite IH.
    case_decide; rewrite ?sset_insert_elem; set_solver. }
  rewrite sset_insert_elem. set_solver.
Qed.

Lemma members_of_fresh s M g : gs_rep s M → groups M !! g = None →
  (∀ u, members M !! (g, u) = None) ∧ size (members_of g M) = 0%nat.
Proof.
  intros Hr Hg.
  assert (∀ u, members M !! (g, u) = None) as Hnone.
  { intros u. apply eq_None_not_Some. intros [m Hm].
    destruct (gs_rep_member _ _ _ _ _ Hr Hm) as (_&_&_&_&[? ?]). congruence. }
  split; [done|]. apply map_size_empty_iff, map_empty. intros [g' u].
  unfold members_of. apply map_lookup_filter_None. destruct (decide (g' = g)) as [->|].
  - by left.
  - right. by intros m _.
Qed.

(** What holds after a successful creation. *)
Record created (e : Env) (creator name avatar : string) (ids : list string) (gid : string)
    (M M' : gmodel) : Prop := {
  cr_id : gid = GenerateShortId (env_rand e) "g_" 12;
  cr_fresh : groups M !! gid = None;
  cr_enough : (3 ≤ length (unique_members creator ids))%nat;
  cr_group : ∃ gd, groups M' !! gid = Some gd ∧ gd_owner_id gd = creator ∧ gd_status gd = 0 ∧
    gd_member_count gd =
      wrap32 (Z.of_nat (length (unique_members creator ids)) + Z.of_nat (size (members_of gid M')));
  cr_owner : members M' !! (gid, creator) = Some (new_member creator ROLE_OWNER (env_clock e 0));
  cr_others u m : members M' !! (gid, u) = Some m → u ≠ creator →
    u ∈ ids ∧ m = new_member u ROLE_MEMBER (env_clock e 0);
  cr_frame_groups g : g ≠ gid → groups M' !! g = groups M !! g;
  cr_frame_members g u : g ≠ gid → members M' !! (g, u) = members M !! (g, u);
}.

(** The record of the new group and its owner, as the two first writes leave them. *)
Lemma create_then_own data owner s s1 s2 M :
  gs_rep s M → ok_id (gd_group_id data) → wf_group data → ok_id (gm_user_id owner) →
  wf_member owner →
  gs_CreateGroup data s = (Ret true, s1) →
  gs_AddMember (gd_group_id data) owner s1 = (Ret true, s2) →
  groups M !! gd_group_id data = None ∧
  gs_rep s2 (set_group (gd_group_id data)
    (gd_set_updated_at 0 (gd_set_member_count (wrap32 (gd_member_count data + 1)) data))
    (set_member (gd_group_id data) (gm_user_id owner) owner M)).
Proof.
  intros Hr Hid Hwf Hou Hwm H1 H2.
  destruct (spec_CreateGroup data Hid Hwf _ _ _ _ Hr H1) as [(M1 & Ha1 & Hr1) _].
  unfold a_CreateGroup in Ha1. case_decide; [done|].
  destruct (groups M !! gd_group_id data) eqn:Hfresh; [done|]. injection Ha1 as <-.
  destruct (members_of_fresh _ _ _ Hr Hfresh) as [Hnone _].
  destruct (spec_AddMember _ owner Hou Hwm _ _ _ _ Hr1 H2) as [(M2 & Ha2 & Hr2) _].
  unfold a_AddMember in Ha2. simpl in Ha2. rewrite decide_False in Ha2 by apply Hou.
  rewrite Hnone, lookup_insert_eq in Ha2. injection Ha2 as <-.
  split; [done|]. unfold set_group, set_member in *; simpl in *.
  by rewrite insert_insert_eq in Hr2.
Qed.

Definition created_data (e : Env) (creator name avatar : string) (n : nat) : GroupData := {|
  gd_group_id := GenerateShortId (env_rand e) "g_" 12;
  gd_group_name := if decide (name = "") then "群聊" else name;
  gd_avatar_url := avatar; gd_owner_id := creator;
  gd_member_count := wrap32 (Z.of_nat n); gd_announcement := "";
  gd_created_at := env_clock e 0; gd_updated_at := env_clock e 0; gd_status := 0 |}.

(** The steps of a successful [CreateGroup]. *)
Lemma CreateGroup_steps e creator name avatar ids s s' gid :
  CreateGroup e creator name avatar ids s =
    (Ret {| cg_error_code := OK; cg_group_id := gid |}, s') →
  let data := created_data e creator name avatar (length (unique_members creator ids)) in
  (3 ≤ length (unique_members creator ids))%nat ∧ gid = gd_group_id data ∧
  ∃ s1 s2, gs_CreateGroup data s = (Ret true, s1) ∧
    gs_AddMember gid (new_member creator ROLE_OWNER (env_clock e 0)) s1 = (Ret true, s2) ∧
    for_each (unique_members creator ids) (λ uid,
      if decide (uid = creator) then mret true
      else gs_AddMember gid (new_member uid ROLE_MEMBER (env_clock e 0))) s2 = (Ret tt, s').
Proof.
  intros Hrun. unfold CreateGroup in Hrun. fold (created_data e creator name avatar
    (length (unique_members creator ids))) in Hrun. unfold MIN_GROUP_MEMBERS in Hrun.
  munfold Hrun. repeat (case_decide; [by simplify_eq|]).
  destruct (gs_CreateGroup _ s) as [[[]|] s1] eqn:H1; cbn [negb] in Hrun; [|by simplify_eq..].
  destruct (gs_AddMember _ _ s1) as [[[]|] s2] eqn:H2; cbn [negb] in Hrun.
  - destruct (for_each _ _ s2) as [[[]|] s3] eqn:H3; [|by simplify_eq].
    injection Hrun as <- <-. split; [lia|]. split; [done|]. eauto.
  - destruct (gs_DeleteGroup _ s2) as [[?|] s3]; by simplify_eq.
  - by simplify_eq.
Qed.

Lemma CreateGroup_created e creator name avatar ids s s' M gid :
  gs_rep s M → ok_id creator → Forall no_colon ids →
  CreateGroup e creator name avatar ids s =
    (Ret {| cg_error_code := OK; cg_group_id := gid |}, s') →
  ∃ M', gs_rep s' M' ∧ created e creator name avatar ids gid M M'.
Proof.
  intros Hr Hcr Hids (Hn & Hgid & s1 & s2 & H1 & H2 & H3)%CreateGroup_steps.
  set (data := created_data _ _ _ _ _) in *. subst gid.
  assert (ok_id (gd_group_id data)) as Hgid by by apply short_id_ok.
  destruct (create_then_own data (new_member creator ROLE_OWNER (env_clock e 0)) _ _ _ _ Hr Hgid
    ltac:(by split; [apply wrap32_range|]) Hcr ltac:(done) H1 H2) as [Hfresh Hr2].
  destruct (members_of_fresh _ _ _ Hr Hfresh) as [Hnone Hsize].
  match type of Hr2 with gs_rep _ ?X => set (M2 := X) in * end.
  assert (∃ M3, gs_rep s' M3 ∧
    grown (gd_group_id data) (λ u, u ∈ ids) (env_clock e 0) M2 M3) as (M3 & Hr3 & Hg3).
  { refine (for_each_inv (λ t, ∃ M3, gs_rep t M3 ∧ grown _ _ _ M2 M3) _ _ _ _ _ _ _ H3);
      [|exists M2; split; [exact Hr2|]].
    - intros u t r t' Hu HP Hb. case_decide; [by munfold Hb; simplify_eq|].
      apply unique_members_elem in Hu as [->|[Hne Hu]]; [done|].
      eapply grown_add; [|done|exact HP|exact Hb]. split; [done|].
      rewrite Forall_forall in Hids. auto.
    - apply grown_refl. simpl. rewrite lookup_insert_eq. intros ? [= <-]. apply wrap32_range. }
  exists M3. split; [done|]. destruct Hg3 as [Hgs Hg Hms Hnew]. split; try done.
  - destruct (Hg _ (lookup_insert_eq _ _ _)) as (gd' & ? & ? & ? & Hc).
    exists gd'. split_and!; try done. rewrite Hc. simpl.
    rewrite wrap32_add, <-Z.add_assoc, wrap32_add. f_equal.
    change (members_of _ M2) with
      (members_of (gd_group_id data) (set_member (gd_group_id data) creator
         (new_member creator ROLE_OWNER (env_clock e 0)) M)).
    rewrite members_of_set_size, Hsize by apply Hnone. lia.
  - apply Hms. simpl. apply lookup_insert_eq.
  - intros u m Hm Hu. destruct (Hnew _ _ _ Hm) as (_ & ? & ->); [|done].
    simpl. rewrite lookup_insert_ne by congruence. apply Hnone.
  - intros g Hne. rewrite Hgs by done. simpl. by rewrite lookup_insert_ne.
  - intros g u Hne. destruct (members M !! (g, u)) as [m|] eqn:HM.
    + apply Hms. simpl. rewrite lookup_insert_ne; [done|]. intros [= ? _]. by apply Hne.
    + apply eq_None_not_Some. intros [m Hm]. destruct (Hnew _ _ _ Hm) as [-> _]; [|done].
      simpl. rewrite lookup_insert_ne; [done|]. intros [= ? _]. by apply Hne.
Qed.
End Facts.

(** * What each request does to the represented groups *)

(** Who may do what. *)
Definition may_dismiss (M : gmodel) (g o : string) : Prop :=
  ∃ gd, groups M !! g = Some gd ∧ gd_owner_id gd = o.
Definition may_update (M : gmodel) (g o : string) : Prop :=
  ∃ gd, groups M !! g = Some gd ∧
    (gd_owner_id gd = o ∨ ∃ m, members M !! (g, o) = Some m ∧ gm_role m = ROLE_ADMIN).
Definition may_remove (M : gmodel) (g o u : string) : Prop :=
  ∃ op target, members M !! (g, o) = Some op ∧ members M !! (g, u) = Some target ∧
    gm_role target ≠ ROLE_OWNER ∧
    (gm_role op = ROLE_OWNER ∨ gm_role op = ROLE_ADMIN ∧ gm_role target ≠ ROLE_ADMIN).
Definition may_leave (M : gmodel) (g u : string) : Prop :=
  ∃ gd, groups M !! g = Some gd ∧ gd_owner_id gd ≠ u ∧ is_Some (members M !! (g, u)).
Definition may_set_role (M : gmodel) (g o u : string) : Prop :=
  ∃ gd target, groups M !! g = Some gd ∧ gd_owner_id gd = o ∧
    members M !! (g, u) = Some target ∧ gm_role target ≠ ROLE_OWNER.

(** A request made of guards and one write: it answers [OK] exactly when the
    write happened, which is only under [allowed]; a refusal by the guards
    (under any other code than [INTERNAL_ERROR]) means that it was not allowed;
    every outcome but [OK] leaves the groups as they were. *)
Definition answers {S} (rep : S → gmodel → Prop) (allowed : gmodel → Prop)
    (f : gmodel → option gmodel) (M : gmodel) (r : outcome ErrorCode) (s' : S) : Prop :=
  match r with
  | Ret OK => allowed M ∧ ∃ M', f M = Some M' ∧ rep s' M'
  | Ret INTERNAL_ERROR | Exc => rep s' M
  | Ret _ => rep s' M ∧ ¬ allowed M
  end.
Definition guarded {S} (rep : S → gmodel → Prop) (op : M S ErrorCode)
    (allowed : gmodel → Prop) (f : gmodel → option gmodel) : Prop :=
  ∀ s M r s', rep s M → op s = (r, s') → answers rep allowed f M r s'.

Section Requests.
Context {S : Type} `{!GroupStore S} `{!GroupStoreSpec S}.
Implicit Types s : S.

Lemma answers_write (op : M S bool) f allowed s M r s' :
  refines gs_rep op f → gs_rep s M → allowed M →
  (ok ← op; mret (if (ok : bool) then OK else INTERNAL_ERROR)) s = (r, s') →
  answers gs_rep allowed f M r s'.
Proof.
  intros Hop Hr Hal Hrun. munfold Hrun. destruct (op s) as [[[]|] s1] eqn:Heq; simplify_eq;
    destruct (Hop _ _ _ _ Hr Heq) as [? _]; done.
Qed.

Lemma answers_refused c f (allowed : gmodel → Prop) s M r s' :
  (Ret c, s) = (r, s') → c ≠ OK → gs_rep s M → ¬ allowed M →
  answers gs_rep allowed f M r s'.
Proof. intros [= <- <-]. by destruct c. Qed.

(** Read the represented store in a run, then follow the guards. *)
Local Ltac guards Hr Hrun :=
  munfold Hrun;
  repeat first
    [ rewrite (spec_GetGroup _ _ _ Hr) in Hrun | rewrite (spec_GetMember _ _ _ _ Hr) in Hrun
    | rewrite (spec_IsMember _ _ _ _ Hr) in Hrun
    | case_bool_decide | case_decide
    | match type of Hrun with
      | context [match ?x !! ?k with _ => _ end] => destruct (x !! k) eqn:?
      end
    | progress cbn [negb andb orb] in Hrun ].

Lemma rep_group_nonempty s M g gd : gs_rep s M → groups M !! g = Some gd → g ≠ "".
Proof. intros Hr Hg. by destruct (gs_rep_group _ _ _ _ Hr Hg) as [[? _] _]. Qed.
Lemma rep_member_nonempty s M g u m : gs_rep s M → members M !! (g, u) = Some m →
  g ≠ "" ∧ u ≠ "" ∧ is_Some (groups M !! g).
Proof. intros Hr Hm. by destruct (gs_rep_member _ _ _ _ _ Hr Hm) as ([? _]&[? _]&_&_&?). Qed.

Lemma may_remove_rep s M g o u : gs_rep s M → may_remove M g o u →
  g ≠ "" ∧ o ≠ "" ∧ u ≠ "" ∧ is_Some (groups M !! g).
Proof.
  intros Hr (m & m' & Hm & Hm' & _).
  apply (rep_member_nonempty _ _ _ _ _ Hr) in Hm as (?&?&?), Hm' as (?&?&?). done.
Qed.
Lemma may_set_role_rep s M g o u : gs_rep s M → may_set_role M g o u → g ≠ "" ∧ u ≠ "".
Proof.
  intros Hr (gd & m & _ & _ & Hm & _).
  by apply (rep_member_nonempty _ _ _ _ _ Hr) in Hm as (?&?&?).
Qed.
Lemma may_leave_rep s M g u : gs_rep s M → may_leave M g u → g ≠ "" ∧ u ≠ "".
Proof.
  intros Hr (gd & _ & _ & [m Hm]).
  by apply (rep_member_nonempty _ _ _ _ _ Hr) in Hm as (?&?&?).
Qed.

(** The branches of a request: one that answers without writing, and the one
    that writes. *)
Local Ltac refused :=
  eapply answers_refused; [eassumption|done|done|].
Local Ltac writes Hspec :=
  eapply answers_write; [exact Hspec|done| |eassumption].

Local Ltac open_facts :=
  unfold may_dismiss, may_update, may_remove, may_leave, may_set_role, ROLE_OWNER, ROLE_ADMIN,
    is_Some in *;
  repeat match goal with H : ∃ _, _ |- _ => destruct H end; destruct_and?; simplify_eq.

Lemma RemoveMember_guarded g o u :
  guarded gs_rep (RemoveMember g o u) (λ M, may_remove M g o u) (a_RemoveMember g u).
Proof.
  intros s M r s' Hr Hrun. unfold RemoveMember in Hrun. guards Hr Hrun.
  all: first [refused; intros Hm; pose proof (may_remove_rep _ _ g o u Hr Hm)
             |writes (spec_RemoveMember g u)].
  all: open_facts; first [tauto|lia|naive_solver lia].
Qed.

Lemma DismissGroup_guarded g o : ok_id g → o ≠ "" →
  guarded gs_rep (DismissGroup g o) (λ M, may_dismiss M g o) (a_DeleteGroup g).
Proof.
  intros [Hg ?] Ho s M r s' Hr Hrun. unfold DismissGroup in Hrun. guards Hr Hrun.
  all: first [refused; intros Hm | writes (spec_DeleteGroup g ltac:(done))].
  all: open_facts; first [tauto|eauto].
Qed.

Lemma LeaveGroup_guarded g u :
  guarded gs_rep (LeaveGroup g u) (λ M, may_leave M g u) (a_RemoveMember g u).
Proof.
  intros s M r s' Hr Hrun. unfold LeaveGroup in Hrun. guards Hr Hrun.
  all: first [refused; intros Hm; pose proof (may_leave_rep _ _ g u Hr Hm)
             |writes (spec_RemoveMember g u)].
  all: open_facts; first [tauto|naive_solver].
Qed.

Lemma SetMemberRole_guarded g o u role : o ≠ "" → int32_range role →
  guarded gs_rep (SetMemberRole g o u role) (λ M, may_set_role M g o u)
    (a_UpdateMemberRole g u role).
Proof.
  intros Ho Hrole s M r s' Hr Hrun. unfold SetMemberRole in Hrun. guards Hr Hrun.
  all: first [refused; intros Hm; pose proof (may_set_role_rep _ _ g o u Hr Hm)
             |writes (spec_UpdateMemberRole g u role Hrole)].
  all: open_facts; first [tauto|naive_solver].
Qed.

(** The service fills the fields that were not given, and so does the store. *)
Lemma given_or_current (given current : string) :
  (if decide ((if decide (given ≠ "") then given else current) = "") then current
   else if decide (given ≠ "") then given else current)
  = if decide (given = "") then current else given.
Proof. repeat case_decide; naive_solver. Qed.

Lemma UpdateGroup_guarded e g o name avatar ann : o ≠ "" →
  guarded gs_rep (UpdateGroup e g o name avatar ann) (λ M, may_update M g o)
    (a_UpdateGroup g name avatar ann (env_clock e 0)).
Proof.
  intros Ho s M r s' Hr Hrun. unfold UpdateGroup in Hrun.
  case_decide as Hne; munfold Hrun;
    rewrite ?(spec_GetGroup _ _ _ Hr), ?(spec_GetMember _ _ _ _ Hr) in Hrun.
  { refused. intros (gd & Hgd & _). apply (rep_group_nonempty _ _ _ _ Hr) in Hgd. tauto. }
  destruct (groups M !! g) as [gd|] eqn:Hg; [|refused; unfold may_update; naive_solver].
  rewrite ?(spec_GetMember _ _ _ _ Hr) in Hrun.
  match type of Hrun with context [bool_decide ?P && ?b] =>
    destruct (bool_decide P && b) eqn:Hb end.
  - refused. intros (gd' & Hg' & Hor). simplify_eq.
    apply andb_true_iff in Hb as [Hb1%bool_decide_eq_true Hb2].
    destruct Hor as [?|(m & Hm & Hrole)]; [done|]. rewrite Hm in Hb2.
    by apply bool_decide_eq_true in Hb2.
  - assert (may_update M g o) as Hal.
    { exists gd. split; [done|].
      apply andb_false_iff in Hb as [Hb|Hb].
      - apply bool_decide_eq_false in Hb. left. by destruct (decide (gd_owner_id gd = o)).
      - right. destruct (members M !! (g, o)) as [m|]; [|done].
        apply bool_decide_eq_false in Hb. exists m. split; [done|].
        by destruct (decide (gm_role m = ROLE_ADMIN)). }
    pose proof (answers_write _ _ (λ M, may_update M g o) _ _ _ _
      (spec_UpdateGroup g _ _ _ _) Hr Hal Hrun) as Hans.
    unfold answers, a_UpdateGroup in *. rewrite Hg in *. simpl in *. clear Hrun.
    by rewrite !given_or_current in Hans.
Qed.

(** [TransferOwner] writes three times: both members, then the group. *)
Definition a_TransferOwner (g o n : string) (M : gmodel) : option gmodel :=
  M1 ← a_UpdateMemberRole g o ROLE_MEMBER M;
  M2 ← a_UpdateMemberRole g n ROLE_OWNER M1;
  a_UpdateGroupOwner g n M2.
Definition may_transfer (M : gmodel) (g o n : string) : Prop :=
  may_dismiss M g o ∧ is_Some (members M !! (g, n)).

Lemma TransferOwner_answers g o n s M r s' : o ≠ "" →
  gs_rep s M → TransferOwner g o n s = (r, s') →
  match r with
  | Ret OK => may_transfer M g o n ∧ ∃ M', a_TransferOwner g o n M = Some M' ∧ gs_rep s' M'
  | Ret INTERNAL_ERROR | Exc => True
  | Ret _ => gs_rep s' M ∧ ¬ may_transfer M g o n
  end.
Proof.
  intros Ho Hr Hrun. unfold TransferOwner in Hrun.
  unfold may_transfer, may_dismiss.
  case_decide as Hne; munfold Hrun;
    rewrite ?(spec_GetGroup _ _ _ Hr) in Hrun.
  { injection Hrun as <- <-. split; [done|]. intros [(gd&Hgd&?) [m Hm]].
    apply (rep_member_nonempty _ _ _ _ _ Hr) in Hm. tauto. }
  destruct (groups M !! g) as [gd|] eqn:Hg; [|injection Hrun as <- <-; naive_solver].
  case_decide as Hown; [injection Hrun as <- <-; naive_solver|].
  munfold Hrun. rewrite (spec_IsMember _ _ _ _ Hr) in Hrun.
  case_bool_decide as Hmem; cbn [negb] in Hrun; [|injection Hrun as <- <-; naive_solver].
  destruct (gs_UpdateMemberRole g o ROLE_MEMBER s) as [[[]|] s1] eqn:H1; cbn [negb] in Hrun;
    [|by simplify_eq..].
  destruct (spec_UpdateMemberRole g o ROLE_MEMBER ltac:(done) _ _ _ _ Hr H1)
    as [(M1 & Ha1 & Hr1) _].
  destruct (gs_UpdateMemberRole g n ROLE_OWNER s1) as [[[]|] s2] eqn:H2; cbn [negb] in Hrun;
    [|by simplify_eq..].
  destruct (spec_UpdateMemberRole g n ROLE_OWNER ltac:(done) _ _ _ _ Hr1 H2)
    as [(M2 & Ha2 & Hr2) _].
  destruct (gs_UpdateGroupOwner g n s2) as [[[]|] s3] eqn:H3; cbn [negb] in Hrun;
    simplify_eq; try done.
  destruct (spec_UpdateGroupOwner g n _ _ _ _ Hr2 H3) as [(M3 & Ha3 & Hr3) _].
  split; [naive_solver|]. exists M3. split; [|done].
  unfold a_TransferOwner. by rewrite Ha1; simpl; rewrite Ha2; simpl.
Qed.

Lemma InviteMembers_answers e g i ids s M r s' : Forall no_colon ids →
  gs_rep s M → InviteMembers e g i ids s = (r, s') →
  match r with
  | Ret OK => is_Some (members M !! (g, i)) ∧
      ∃ M', gs_rep s' M' ∧ grown g (λ u, u ∈ ids) (env_clock e 0) M M'
  | Exc => True
  | Ret _ => gs_rep s' M ∧ members M !! (g, i) = None
  end.
Proof.
  intros Hids Hr Hrun. unfold InviteMembers in Hrun.
  assert (g = "" ∨ i = "" ∨ groups M !! g = None → members M !! (g, i) = None) as Hnone.
  { intros Hg. apply eq_None_not_Some. intros [m Hm].
    apply (rep_member_nonempty _ _ _ _ _ Hr) in Hm as (?&?&[? Hs]). naive_solver congruence. }
  case_decide; munfold Hrun; rewrite ?(spec_GetGroup _ _ _ Hr) in Hrun;
    [injection Hrun as <- <-; naive_solver|].
  destruct (groups M !! g) as [gd|] eqn:Hg; [|injection Hrun as <- <-; naive_solver].
  rewrite (spec_IsMember _ _ _ _ Hr) in Hrun.
  case_bool_decide as Hmem; cbn [negb] in Hrun.
  2: { injection Hrun as <- <-. split; [done|]. by apply eq_None_not_Some. }
  match type of Hrun with context [for_each ?l ?b s] => destruct (for_each l b s) as [[[]|] s1] eqn:Hf end;
    injection Hrun as <- <-; [|done].
  split; [done|].
  refine (for_each_inv (λ t, ∃ M1, gs_rep t M1 ∧ grown _ _ _ M M1) _ _ _ _ _ _ _ Hf).
  - intros u t r t' Hu HP Hb. munfold Hb. rewrite Forall_forall in Hids.
    case_decide as Hu0; [by simplify_eq|].
    destruct (gs_IsMember t g u); [by simplify_eq|].
    eapply grown_add; [|done|exact HP|exact Hb]. split; auto.
  - exists M. split; [done|]. apply grown_refl. intros gd' Hgd'.
    apply (gs_rep_group _ _ _ _ Hr Hgd').
Qed.
End Requests.

(** * Histories of requests *)

Inductive request : Type :=
  | ReqCreate (creator name avatar : string) (ids : list string)
  | ReqDismiss (g o : string)
  | ReqUpdate (g o name avatar ann : string)
  | ReqInvite (g i : string) (ids : list string)
  | ReqRemove (g o u : string)
  | ReqLeave (g u : string)
  | ReqTransfer (g o n : string)
  | ReqSetRole (g o u : string) (role : Z).

Definition serve {S} `{!GroupStore S} (e : Env) (q : request) : M S ErrorCode :=
  match q with
  | ReqCreate c n a ids => r ← CreateGroup e c n a ids; mret (cg_error_code r)
  | ReqDismiss g o => DismissGroup g o
  | ReqUpdate g o n a ann => UpdateGroup e g o n a ann
  | ReqInvite g i ids => InviteMembers e g i ids
  | ReqRemove g o u => RemoveMember g o u
  | ReqLeave g u => LeaveGroup g u
  | ReqTransfer g o n => TransferOwner g o n
  | ReqSetRole g o u role => SetMemberRole g o u role
  end.

(** The ids the front end hands over are usable as key fields, the caller is
    known, and a role to set is not that of the owner. *)
Definition sane_request (q : request) : Prop :=
  match q with
  | ReqCreate c _ _ ids => ok_id c ∧ Forall no_colon ids
  | ReqDismiss g o => ok_id g ∧ o ≠ ""
  | ReqUpdate _ o _ _ _ => o ≠ ""
  | ReqInvite _ _ ids => Forall no_colon ids
  | ReqRemove _ _ _ | ReqLeave _ _ => True
  | ReqTransfer _ o _ => o ≠ ""
  | ReqSetRole _ o _ role => o ≠ "" ∧ int32_range role ∧ role ≠ ROLE_OWNER
  end.

(** Every group has exactly one member whose role is owner: the recorded owner. *)
Record owned (M : gmodel) : Prop := {
  owned_owner g gd : groups M !! g = Some gd →
    ∃ m, members M !! (g, gd_owner_id gd) = Some m ∧ gm_role m = ROLE_OWNER;
  owned_unique g u m : members M !! (g, u) = Some m → gm_role m = ROLE_OWNER →
    ∃ gd, groups M !! g = Some gd ∧ gd_owner_id gd = u;
}.

Lemma owned_created e c n a ids gid M M' :
  created e c n a ids gid M M' → owned M → owned M'.
Proof.
  intros [_ _ _ (gd & Hgd & Ho & _) Hown Hoth Hfg Hfm] [H1 H2]. split.
  - intros g gd' Hg. destruct (decide (g = gid)) as [->|Hne].
    + simplify_eq. eauto.
    + rewrite Hfm by done. apply H1. by rewrite <-Hfg.
  - intros g u m Hm Hrole. destruct (decide (g = gid)) as [->|Hne].
    + destruct (decide (u = c)) as [->|Hu]; [eauto|].
      by destruct (Hoth _ _ Hm Hu) as [_ ->].
    + rewrite Hfg by done. eapply H2; [|done]. by rewrite <-Hfm.
Qed.

Lemma owned_grown g who now M M' : grown g who now M M' → owned M → is_Some (groups M !! g) →
  owned M'.
Proof.
  intros [Hgs Hg Hms Hnew] [H1 H2] [gd0 Hg0]. destruct (Hg _ Hg0) as (gd1 & Hg1 & Ho & _). split.
  - intros g' gd Hgd.
    assert (∃ gd2, groups M !! g' = Some gd2 ∧ gd_owner_id gd2 = gd_owner_id gd) as (gd2&Hg2&<-).
    { destruct (decide (g' = g)) as [->|]; [|rewrite <-Hgs by done]; naive_solver. }
    destruct (H1 _ _ Hg2) as (m & ? & ?). eauto.
  - intros g' u m Hm Hrole. destruct (members M !! (g', u)) as [m'|] eqn:Hm'.
    + pose proof (Hms _ _ _ Hm'). simplify_eq. destruct (H2 _ _ _ Hm' Hrole) as (gd & Hgd & <-).
      destruct (decide (g' = g)) as [->|]; [|rewrite Hgs by done]; naive_solver.
    + by destruct (Hnew _ _ _ Hm Hm') as (_ & _ & ->).
Qed.

(** Changing a group's record without its owner. *)
Lemma owned_set_group g gd gd' M : groups M !! g = Some gd → gd_owner_id gd' = gd_owner_id gd →
  owned M → owned (set_group g gd' M).
Proof.
  intros Hg Ho [H1 H2]. split; simpl.
  - intros g' gd2. rewrite lookup_insert. case_decide; [|eauto]. intros [= <-]. subst.
    rewrite Ho. eauto.
  - intros g' u m Hm Hr. destruct (H2 _ _ _ Hm Hr) as (gd2 & ? & <-).
    rewrite lookup_insert. case_decide; [|eauto]. subst. exists gd'. naive_solver.
Qed.

Lemma owned_drop_group g M : owned M → owned (drop_group g (drop_members g M)).
Proof.
  intros [H1 H2]. split; simpl.
  - intros g' gd. rewrite lookup_delete_Some. intros [? Hg].
    destruct (H1 _ _ Hg) as (m & ? & ?). exists m. split; [|done].
    by apply map_lookup_filter_Some.
  - intros g' u m [Hm ?]%map_lookup_filter_Some Hr. rewrite lookup_delete_ne by naive_solver.
    eauto.
Qed.

Lemma owned_drop_member g u m M : members M !! (g, u) = Some m → gm_role m ≠ ROLE_OWNER →
  owned M → owned (drop_member g u M).
Proof.
  intros Hm Hne [H1 H2]. split; simpl.
  - intros g' gd Hg. destruct (H1 _ _ Hg) as (m' & Hm' & ?). exists m'.
    rewrite lookup_delete_ne; [done|]. intros [= -> ->]. naive_solver.
  - intros g' u' m'. rewrite lookup_delete_Some. intros [_ ?]. eauto.
Qed.

Lemma owned_set_member g u m m' M : members M !! (g, u) = Some m →
  gm_role m ≠ ROLE_OWNER → gm_role m' ≠ ROLE_OWNER → owned M → owned (set_member g u m' M).
Proof.
  intros Hm Hne Hne' [H1 H2]. split; simpl.
  - intros g' gd Hg. destruct (H1 _ _ Hg) as (m2 & ? & ?). exists m2.
    rewrite lookup_insert_ne; [done|]. intros [= -> ->]. naive_solver.
  - intros g' u' m2. rewrite lookup_insert. case_decide; [|eauto]. by intros [= <-].
Qed.

Lemma owned_transfer g o n M M' : may_transfer M g o n → owned M →
  a_TransferOwner g o n M = Some M' → owned M'.
Proof.
  intros [(gd & Hg & Ho) [mn Hn]] [H1 H2] Ht.
  destruct (H1 _ _ Hg) as (mo & Hmo & Hro). rewrite Ho in Hmo.
  unfold a_TransferOwner, a_UpdateMemberRole, a_UpdateGroupOwner in Ht.
  rewrite Hmo in Ht. simpl in Ht.
  set (ms1 := <[(g, o) := gm_set_role ROLE_MEMBER mo]> (members M)) in *.
  destruct (ms1 !! (g, n)) as [mn1|] eqn:Hn1; [|done]. simpl in Ht. case_decide; [done|].
  rewrite Hg in Ht. simplify_eq/=. split; simpl.
  - intros g' gd'. rewrite lookup_insert. case_decide as Hgg.
    + intros [= <-]. subst. simpl. eexists. rewrite lookup_insert_eq. by split.
    + intros Hg'. destruct (H1 _ _ Hg') as (m & ? & ?). exists m.
      rewrite !lookup_insert_ne by (intros [=]; naive_solver). done.
  - intros g' u m. rewrite lookup_insert. case_decide as Hk; simplify_eq.
    + intros _ _. eexists. rewrite lookup_insert_eq. by split.
    + unfold ms1. rewrite lookup_insert. case_decide as Hk'; simplify_eq; [by intros [= <-]|].
      intros Hm Hr. destruct (H2 _ _ _ Hm Hr) as (gd' & Hg' & <-).
      rewrite lookup_insert_ne; [eauto|]. intros ->. naive_solver.
Qed.

Section Histories.
Context {S : Type} `{!GroupStore S} `{!GroupStoreSpec S}.
Implicit Types s : S.

Lemma CreateGroup_refused e c n a ids s s' r :
  CreateGroup e c n a ids s = (Ret r, s') →
  cg_error_code r ≠ OK → cg_error_code r ≠ INTERNAL_ERROR → s' = s.
Proof.
  intros Hrun. unfold CreateGroup in Hrun. munfold Hrun.
  repeat (case_decide; [by simplify_eq|]).
  destruct (gs_CreateGroup _ s) as [[[]|] s1]; cbn [negb] in Hrun; [|by simplify_eq..].
  destruct (gs_AddMember _ _ s1) as [[[]|] s2]; cbn [negb] in Hrun; [| |by simplify_eq].
  - destruct (for_each _ _ s2) as [[[]|] s3]; by simplify_eq.
  - destruct (gs_DeleteGroup _ s2) as [[?|] s3]; by simplify_eq.
Qed.

(** One request: the store is represented, and owned, after it as before it. *)
Definition healthy s : Prop := ∃ M, gs_rep s M ∧ owned M.

Lemma answers_owned allowed f M s' c :
  answers gs_rep allowed f M (Ret c) s' → owned M → c ≠ INTERNAL_ERROR →
  (∀ M', allowed M → f M = Some M' → owned M') → healthy s'.
Proof.
  intros Ha Ho Hc Hf. unfold healthy. destruct c; simpl in Ha; try done;
    try (destruct Ha as [? _]; by eauto).
  destruct Ha as (Hal & M' & ? & ?). eauto.
Qed.

Lemma serve_healthy e q s c s' :
  healthy s → sane_request q → serve e q s = (Ret c, s') → c ≠ INTERNAL_ERROR → healthy s'.
Proof.
  intros (M & Hr & Ho) Hq Hrun Hc. destruct q; simpl in Hq, Hrun.
  - munfold Hrun. destruct (CreateGroup _ _ _ _ _ s) as [[[c' gid]|] s1] eqn:Hcr; [|done].
    injection Hrun as <- <-. destruct (decide (c' = OK)) as [->|Hne].
    + destruct (CreateGroup_created _ _ _ _ _ _ _ _ _ Hr (proj1 Hq) (proj2 Hq) Hcr)
        as (M' & ? & ?). exists M'. split; [done|]. by eapply owned_created.
    + apply CreateGroup_refused in Hcr as ->; [|done..]. by exists M.
  - pose proof (DismissGroup_guarded _ _ (proj1 Hq) (proj2 Hq) _ _ _ _ Hr Hrun) as Ha.
    eapply answers_owned; [exact Ha|done|done|]. intros M' _.
    unfold a_DeleteGroup. case_decide; [done|]. intros [= <-]. by apply owned_drop_group.
  - pose proof (UpdateGroup_guarded _ _ _ _ _ _ Hq _ _ _ _ Hr Hrun) as Ha.
    eapply answers_owned; [exact Ha|done|done|]. intros M' _ Hf.
    unfold a_UpdateGroup in Hf. destruct (groups M !! g) eqn:Hg; [|done].
    simpl in Hf. injection Hf as <-. eapply owned_set_group; eauto. by case_decide.
  - pose proof (InviteMembers_answers _ _ _ _ _ _ _ _ Hq Hr Hrun) as Ha.
    destruct (decide (c = OK)) as [->|Hne].
    + destruct Ha as ([m Hm] & M' & ? & ?). exists M'. split; [done|].
      eapply owned_grown; [done..|]. eapply gs_rep_member; eauto.
    + exists M. split; [|done]. by destruct c; try apply Ha.
  - pose proof (RemoveMember_guarded _ _ _ _ _ _ _ Hr Hrun) as Ha.
    eapply answers_owned; [exact Ha|done|done|].
    intros M' (m & t & _ & Ht & Hnt & _) Hf. unfold a_RemoveMember in Hf. rewrite Ht in Hf.
    simpl in Hf. destruct (groups M !! g) eqn:Hg; [|done]. injection Hf as <-.
    eapply owned_set_group; [exact Hg|done|]. by eapply owned_drop_member.
  - pose proof (LeaveGroup_guarded _ _ _ _ _ _ Hr Hrun) as Ha.
    eapply answers_owned; [exact Ha|done|done|].
    intros M' (gd & Hg & Hne & [m Hm]) Hf. unfold a_RemoveMember in Hf. rewrite Hm, Hg in Hf.
    injection Hf as <-. eapply owned_set_group; [exact Hg|done|].
    eapply owned_drop_member; [done| |done]. intros Hrole.
    destruct (owned_unique _ Ho _ _ _ Hm Hrole) as (gd' & ? & ?). naive_solver.
  - pose proof (TransferOwner_answers _ _ _ _ _ _ _ Hq Hr Hrun) as Ha.
    destruct (decide (c = OK)) as [->|Hne].
    + destruct Ha as (Hal & M' & Hf & ?). exists M'. split; [done|].
      eauto using owned_transfer.
    + exists M. split; [|done]. by destruct c; try apply Ha.
  - destruct Hq as (Hq1 & Hq2 & Hq3).
    pose proof (SetMemberRole_guarded _ _ _ _ Hq1 Hq2 _ _ _ _ Hr Hrun) as Ha.
    eapply answers_owned; [exact Ha|done|done|].
    intros M' (gd & t & _ & _ & Ht & Hnt) Hf. unfold a_UpdateMemberRole in Hf.
    rewrite Ht in Hf. injection Hf as <-. by eapply owned_set_member.
Qed.

(** [served e q s s']: the store answered the request, and did not report an
    internal error (a write that failed half-way). *)
Inductive served : S → S → Prop :=
  | served_intro e q c s s' :
      sane_request q → serve e q s = (Ret c, s') → c ≠ INTERNAL_ERROR → served s s'.

Lemma history_healthy s s' : rtc served s s' → healthy s → healthy s'.
Proof.
  induction 1 as [|s1 s2 s3 [e q c s s' Hq Hrun Hc] _ IH]; [done|].
  intros Hh. eapply IH, serve_healthy; done.
Qed.

(** C1: after any sequence of group requests served by the group service from
    an empty store (each of them answered, without an internal error, and
    never asked to set the role "owner"; the ids of members without a ':' in them, the operator
    named), every group has exactly one member
    with the role of owner, and it is the owner the group's record names. *)
Theorem group_has_one_owner s0 s : gs_rep s0 {| groups := ∅; members := ∅ |} →
  rtc served s0 s → ∀ g gd, gs_GetGroup s g = Some gd →
  ∃ m, gs_GetMember s g (gd_owner_id gd) = Some m ∧ gm_role m = ROLE_OWNER ∧
    ∀ u m', gs_GetMember s g u = Some m' → gm_role m' = ROLE_OWNER → u = gd_owner_id gd.
Proof.
  intros Hr Hh g gd Hg. destruct (history_healthy s0 s Hh) as (M & Hrs & [H1 H2]).
  { exists {| groups := ∅; members := ∅ |}. split; [done|].
    split; simpl; intros *; rewrite lookup_empty; done. }
  rewrite (spec_GetGroup _ _ _ Hrs) in Hg. destruct (H1 _ _ Hg) as (m & Hm & Hrole).
  exists m. rewrite (spec_GetMember _ _ _ _ Hrs). split_and!; try done.
  intros u m' Hm' Hrole'. rewrite (spec_GetMember _ _ _ _ Hrs) in Hm'.
  destruct (H2 _ _ _ Hm' Hrole') as (gd' & ? & ?). naive_solver.
Qed.

(** [RemoveMember] answers [OK] only when the operator is the owner, or an
    admin removing neither the owner nor an admin; then exactly that member is
    gone, the stored count has dropped by one (not below 0) and every other
    member and group is as before.  Under any other answer, or an exception,
    nothing is removed. *)
Theorem RemoveMember_authorised g o u s M r s' : gs_rep s M → RemoveMember g o u s = (r, s') →
  ∃ M', gs_rep s' M' ∧
    if decide (r = Ret OK) then
      may_remove M g o u ∧ members M' = delete (g, u) (members M) ∧
      ∃ gd, groups M !! g = Some gd ∧
        groups M' = <[g := gd_set_member_count (Z.max 0 (gd_member_count gd - 1)) gd]> (groups M)
    else M' = M ∧ (r ≠ Exc → r ≠ Ret INTERNAL_ERROR → ¬ may_remove M g o u).
Proof.
  intros Hr Hrun. pose proof (RemoveMember_guarded g o u _ _ _ _ Hr Hrun) as Ha.
  case_decide as Hok; [subst|].
  - destruct Ha as (Hal & M' & Hf & Hr'). exists M'. split_and!; try done;
      unfold a_RemoveMember in Hf; destruct (members M !! (g, u)); try done; simpl in Hf;
      destruct (groups M !! g) eqn:Hg; simplify_eq/=; eauto.
  - exists M. destruct r as [[]|]; simpl in Ha; naive_solver.
Qed.

(** a successful [CreateGroup] makes a group under a new id, owned by its
    creator, whose other members are ordinary members taken from the invited
    ids, and changes nothing else.  The stored [member_count] is the number of
    requested members plus the number of members actually added (each
    [AddMember] counts again what [CreateGroup] had counted). *)
Theorem CreateGroup_effect e creator name avatar ids s s' M gid :
  gs_rep s M → ok_id creator → Forall no_colon ids →
  CreateGroup e creator name avatar ids s =
    (Ret {| cg_error_code := OK; cg_group_id := gid |}, s') →
  ∃ M', gs_rep s' M' ∧ created e creator name avatar ids gid M M'.
Proof. apply CreateGroup_created. Qed.

(** [InviteMembers] answers [OK] only to a member of the group; it then adds
    ordinary members only, out of the given ids and to this group only, keeps
    every member there was, and moves the stored count with the number of
    members.  Any other answer leaves the store as it was. *)
Theorem InviteMembers_effect e g i ids s M r s' : Forall no_colon ids →
  gs_rep s M → InviteMembers e g i ids s = (r, s') →
  match r with
  | Ret OK => is_Some (members M !! (g, i)) ∧
      ∃ M', gs_rep s' M' ∧ grown g (λ u, u ∈ ids) (env_clock e 0) M M'
  | Exc => True
  | Ret _ => gs_rep s' M ∧ members M !! (g, i) = None
  end.
Proof. apply InviteMembers_answers. Qed.

(** the role passed to [SetMemberRole] is not checked: with role 0 the owner
    gives a member the role of owner while staying owner, so that the group
    has two members with that role and cannot remove the second one. *)
Theorem SetMemberRole_second_owner g o u gd m s M s' r :
  gs_rep s M → owned M → u ≠ o →
  groups M !! g = Some gd → gd_owner_id gd = o → members M !! (g, u) = Some m →
  SetMemberRole g o u ROLE_OWNER s = (Ret OK, s') →
  gs_GetGroup s' g = Some gd ∧
  gm_role <$> gs_GetMember s' g o = Some ROLE_OWNER ∧
  gm_role <$> gs_GetMember s' g u = Some ROLE_OWNER ∧
  fst (RemoveMember g r u s') ≠ Ret OK.
Proof.
  intros Hr [H1 H2] Hne Hg Ho Hm Hrun.
  destruct (H1 _ _ Hg) as (mo & Hmo & Hrole). rewrite Ho in Hmo.
  assert (o ≠ "") as Hoe by apply (rep_member_nonempty _ _ _ _ _ Hr Hmo).
  destruct (SetMemberRole_guarded g o u ROLE_OWNER Hoe ltac:(done) _ _ _ _ Hr Hrun)
    as (_ & M' & Hf & Hr'). unfold a_UpdateMemberRole in Hf. rewrite Hm in Hf.
  injection Hf as <-.
  rewrite (spec_GetGroup _ _ _ Hr'), !(spec_GetMember _ _ _ _ Hr'). simpl.
  rewrite lookup_insert_eq, lookup_insert_ne, Hmo by congruence. split_and!; simpl; try congruence.
  destruct (RemoveMember g r u s') as [res s2] eqn:Hrm. simpl. intros ->.
  destruct (RemoveMember_guarded _ _ _ _ _ _ _ Hr' Hrm) as [(mr & t & _ & Ht & Hnt & _) _].
  simpl in Ht. rewrite lookup_insert_eq in Ht. by simplify_eq.
Qed.

(** [TransferOwner] answers [OK] only to the owner and for a member; it then
    moves the ownership: the record names the new owner, who has the role of
    owner, and the old owner (if another) is an ordinary member. *)
Theorem TransferOwner_effect g o n s M s' : o ≠ "" →
  gs_rep s M → TransferOwner g o n s = (Ret OK, s') →
  (∃ gd, gs_GetGroup s g = Some gd ∧ gd_owner_id gd = o) ∧ gs_IsMember s g n = true ∧
  gd_owner_id <$> gs_GetGroup s' g = Some n ∧
  gm_role <$> gs_GetMember s' g n = Some ROLE_OWNER ∧
  (o ≠ n → gm_role <$> gs_GetMember s' g o = Some ROLE_MEMBER) ∧
  ∀ g' u, (g' = g → u ≠ o ∧ u ≠ n) → gs_GetMember s' g' u = gs_GetMember s g' u.
Proof.
  intros Ho Hr Hrun.
  destruct (TransferOwner_answers _ _ _ _ _ _ _ Ho Hr Hrun)
    as ([(gd & Hg & Hgo) Hn] & M' & Hf & Hr').
  rewrite !(spec_GetGroup _ _ _ Hr), !(spec_GetGroup _ _ _ Hr'), (spec_IsMember _ _ _ _ Hr),
    !(spec_GetMember _ _ _ _ Hr').
  unfold a_TransferOwner, a_UpdateMemberRole, a_UpdateGroupOwner in Hf.
  destruct (members M !! (g, o)) as [mo|] eqn:Hmo; [|done]. simpl in Hf.
  destruct (<[_:=_]> (members M) !! (g, n)) as [mn|] eqn:Hmn; [|done]. simpl in Hf.
  case_decide; [done|]. rewrite Hg in Hf. injection Hf as <-. simpl.
  rewrite !lookup_insert_eq. split_and!; eauto.
  - by apply bool_decide_eq_true.
  - intros Hne. rewrite lookup_insert_ne by congruence. by rewrite lookup_insert_eq.
  - intros g' u Hgu. rewrite (spec_GetMember _ _ _ _ Hr'), (spec_GetMember _ _ _ _ Hr). simpl.
    rewrite !lookup_insert_ne by naive_solver. done.
Qed.
End Histories.

(** * Concrete runs, over the in-memory database *)

Definition gid0 : string := GenerateShortId (env_rand env0) "g_" 12.
Definition gm0 : gmodel := {| groups := ∅; members := ∅ |}.
Notation db_created := (snd (CreateGroup env0 "a" "team" "" ["b"; "c"] mem_empty)).

Lemma mem_empty_rep : gs_rep mem_empty gm0.
Proof. apply group_rep_empty. intros k. apply lookup_empty. Qed.

Lemma db_created_run : CreateGroup env0 "a" "team" "" ["b"; "c"] mem_empty =
  (Ret {| cg_error_code := OK; cg_group_id := gid0 |}, db_created).
Proof. eval_run. Qed.

Lemma db_created_rep : ∃ M, gs_rep db_created M ∧ owned M ∧
  gd_owner_id <$> groups M !! gid0 = Some "a" ∧ is_Some (members M !! (gid0, "b")).
Proof.
  destruct (CreateGroup_created _ _ _ _ _ _ _ gm0 gid0 mem_empty_rep (ltac:(done) : ok_id "a")
    (ltac:(by repeat constructor) : Forall no_colon ["b"; "c"]) db_created_run) as (M & Hr & Hc).
  exists M. pose proof Hc as [_ _ _ (gd & Hgd & Ho & _) _ _ _ _]. split_and!; [done|..].
  - eapply owned_created; [done|]. split; simpl; intros *; by rewrite lookup_empty.
  - rewrite Hgd. simpl. congruence.
  - rewrite <-(GetMember_rep _ _ _ _ Hr).
    assert (gm_role <$> GetMember db_created gid0 "b" = Some 1) as Hb by eval_eq.
    apply fmap_Some in Hb as (m & -> & _). eauto.
Qed.

Lemma group_has_one_owner_witness :
  ∃ s, serve env0 (ReqSetRole gid0 "a" "b" ROLE_ADMIN) db_created = (Ret OK, s) ∧
  ∃ gd m, GetGroup s gid0 = Some gd ∧ gd_owner_id gd = "a" ∧
    GetMember s gid0 "a" = Some m ∧ gm_role m = ROLE_OWNER ∧
    ∀ u m', GetMember s gid0 u = Some m' → gm_role m' = ROLE_OWNER → u = "a".
Proof.
  assert (serve env0 (ReqSetRole gid0 "a" "b" ROLE_ADMIN) db_created =
    (Ret OK, snd (serve env0 (ReqSetRole gid0 "a" "b" ROLE_ADMIN) db_created)))
    as Hrun by eval_run.
  assert (gd_owner_id <$> GetGroup
    (snd (serve env0 (ReqSetRole gid0 "a" "b" ROLE_ADMIN) db_created)) gid0 = Some "a")
    as Ho by eval_eq.
  revert Hrun Ho. generalize (snd (serve env0 (ReqSetRole gid0 "a" "b" ROLE_ADMIN) db_created)).
  intros s Hrun Ho. pose proof db_created_run as Hc.
  revert Hrun Hc. generalize db_created. intros s1 Hrun Hc. exists s. split; [exact Hrun|].
  assert (rtc served mem_empty s) as Hh.
  { eapply rtc_l; [|apply rtc_once].
    - apply (served_intro env0 (ReqCreate "a" "team" "" ["b"; "c"]) OK _ s1).
      + by split; [split|repeat constructor].
      + simpl. unfold mbind, M_bind. by rewrite Hc.
      + done.
    - refine (served_intro env0 (ReqSetRole gid0 "a" "b" ROLE_ADMIN) OK s1 s _ Hrun _); [|done].
      simpl. unfold int32_range, ROLE_ADMIN, ROLE_OWNER. split_and!; [done|lia..]. }
  apply fmap_Some in Ho as (gd & Hg & Ho).
  destruct (group_has_one_owner mem_empty s mem_empty_rep Hh gid0 gd Hg) as (m & Hm & Hw).
  rewrite <-Ho in Hm, Hw. destruct Hw as [Hrole Hu].
  exists gd, m. exact (conj Hg (conj (eq_sym Ho) (conj Hm (conj Hrole Hu)))).
Defined.

Lemma RemoveMember_authorised_witness :
  ∃ s' (M M' : gmodel), RemoveMember gid0 "a" "b" db_created = (Ret OK, s') ∧ group_rep s' M' ∧
    members M' = delete (gid0, "b") (members M).
Proof.
  destruct db_created_rep as (M & Hr & _).
  assert (RemoveMember gid0 "a" "b" db_created =
    (Ret OK, snd (RemoveMember gid0 "a" "b" db_created))) as Hrun by eval_run.
  destruct (RemoveMember_authorised gid0 "a" "b" db_created M _ _ Hr Hrun) as (M' & Hr' & Hif).
  rewrite decide_True in Hif by reflexivity. destruct Hif as (_ & Hm & _).
  eexists _, M, M'. exact (conj Hrun (conj Hr' Hm)).
Defined.

Lemma CreateGroup_effect_witness :
  ∃ M', group_rep db_created M' ∧ created env0 "a" "team" "" ["b"; "c"] gid0 gm0 M' ∧
    gd_member_count <$> GetGroup db_created gid0 = Some 6 ∧
    length (all_members db_created gid0) = 3%nat.
Proof.
  destruct (CreateGroup_effect env0 "a" "team" "" ["b"; "c"] mem_empty db_created gm0 gid0
    mem_empty_rep ltac:(done) ltac:(by repeat constructor) db_created_run) as (M' & Hr & Hc).
  exists M'. refine (conj Hr (conj Hc (conj _ _))); eval_eq.
Defined.

Lemma InviteMembers_effect_witness :
  ∃ s' (M M' : gmodel), InviteMembers env0 gid0 "b" ["d"; "c"] db_created = (Ret OK, s') ∧
    group_rep s' M' ∧ grown gid0 (λ u, u ∈ ["d"; "c"]) 1700000000000 M M' ∧
    gs_IsMember s' gid0 "d" = true.
Proof.
  destruct db_created_rep as (M & Hr & _).
  assert (InviteMembers env0 gid0 "b" ["d"; "c"] db_created =
    (Ret OK, snd (InviteMembers env0 gid0 "b" ["d"; "c"] db_created))) as Hrun by eval_run.
  destruct (InviteMembers_effect env0 gid0 "b" ["d"; "c"] db_created M _ _
    ltac:(by repeat constructor) Hr Hrun) as (_ & M' & Hr' & Hg).
  eexists _, M, M'. refine (conj Hrun (conj Hr' (conj Hg _))). eval_eq.
Defined.

Lemma SetMemberRole_second_owner_witness :
  ∃ s', SetMemberRole gid0 "a" "b" ROLE_OWNER db_created = (Ret OK, s') ∧
  gm_role <$> GetMember s' gid0 "a" = Some ROLE_OWNER ∧
  gm_role <$> GetMember s' gid0 "b" = Some ROLE_OWNER ∧
  fst (RemoveMember gid0 "a" "b" s') ≠ Ret OK.
Proof.
  destruct db_created_rep as (M & Hr & Ho & Hg & [m Hm]).
  apply fmap_Some in Hg as (gd & Hg & Hgo).
  assert (SetMemberRole gid0 "a" "b" ROLE_OWNER db_created =
    (Ret OK, snd (SetMemberRole gid0 "a" "b" ROLE_OWNER db_created))) as Hrun by eval_run.
  destruct (SetMemberRole_second_owner gid0 "a" "b" gd m db_created M _ "a" Hr Ho
    ltac:(done) Hg (eq_sym Hgo) Hm Hrun) as (_ & H1 & H2 & H3).
  eexists. exact (conj Hrun (conj H1 (conj H2 H3))).
Defined.

Lemma TransferOwner_effect_witness :
  ∃ s', TransferOwner gid0 "a" "b" db_created = (Ret OK, s') ∧
    gd_owner_id <$> GetGroup s' gid0 = Some "b" ∧
    gm_role <$> GetMember s' gid0 "a" = Some ROLE_MEMBER.
Proof.
  destruct db_created_rep as (M & Hr & _).
  assert (TransferOwner gid0 "a" "b" db_created =
    (Ret OK, snd (TransferOwner gid0 "a" "b" db_created))) as Hrun by eval_run.
  destruct (TransferOwner_effect gid0 "a" "b" db_created M _ ltac:(done) Hr Hrun)
    as (_ & _ & H1 & _ & Hold & _).
  eexists. exact (conj Hrun (conj H1 (Hold ltac:(done)))).
Defined.
