(* ===== verification/MessageStore.v ===== *)
(** [chatsvr/internal/store/message_store.{h,cpp}], [MessageStore]: messages,
    the timeline of each conversation (newest first, through a reversed
    timestamp in the key) and the offline queue of each user. *)

From Stdlib Require Import Ascii.
From S2P Require Import Prelude External Utils.

(** * Data *)

(** [struct MessageData] *)
Record MessageData : Type := {
  md_msg_id : string;
  md_from_user_id : string;
  md_to_id : string;
  md_conversation_id : string;
  md_chat_type : Z;         (* int: 1 private, 2 group *)
  md_content : string;
  md_media_url : string;
  md_media_type : string;
  md_mentions : list string;
  md_reply_to_msg_id : string;
  md_timestamp : Z;         (* int64_t *)
  md_status : Z;            (* int: 0 normal, 1 recalled *)
  md_recall_at : Z;         (* int64_t *)
}.
#[global] Instance MessageData_eq_dec : EqDecision MessageData.
Proof. solve_decision. Defined.

(** [msg->status = 1; msg->recall_at = t;] *)
Definition md_recall (t : Z) (m : MessageData) : MessageData :=
  {| md_msg_id := md_msg_id m; md_from_user_id := md_from_user_id m; md_to_id := md_to_id m;
     md_conversation_id := md_conversation_id m; md_chat_type := md_chat_type m;
     md_content := md_content m; md_media_url := md_media_url m;
     md_media_type := md_media_type m; md_mentions := md_mentions m;
     md_reply_to_msg_id := md_reply_to_msg_id m; md_timestamp := md_timestamp m;
     md_status := 1; md_recall_at := t |}.

Definition MAX_TS : Z := 9999999999999.

Section Serialization.
Context `{!JsonLib}.

Definition SerializeMessage (m : MessageData) : option string :=
  js_dump (js_obj [
    ("msg_id", JStr (md_msg_id m));
    ("from_user_id", JStr (md_from_user_id m));
    ("to_id", JStr (md_to_id m));
    ("conversation_id", JStr (md_conversation_id m));
    ("chat_type", JInt (md_chat_type m));
    ("content", JStr (md_content m));
    ("media_url", JStr (md_media_url m));
    ("media_type", JStr (md_media_type m));
    ("mentions", JStrs (md_mentions m));
    ("reply_to_msg_id", JStr (md_reply_to_msg_id m));
    ("timestamp", JInt (md_timestamp m));
    ("status", JInt (md_status m));
    ("recall_at", JInt (md_recall_at m))]).

Definition DeserializeMessage (data : string) : option MessageData :=
  j ← js_parse data;
  msg_id ← js_str j "msg_id" "";
  from_user_id ← js_str j "from_user_id" "";
  to_id ← js_str j "to_id" "";
  chat_id ← js_str j "chat_id" "";
  conversation_id ← js_str j "conversation_id" chat_id;
  chat_type ← js_int32 j "chat_type" 1;
  content ← js_str j "content" "";
  media_url ← js_str j "media_url" "";
  media_type ← js_str j "media_type" "";
  mentions ← match js_array j "mentions" with
             | Some l => mapM id l
             | None => Some []
             end;
  reply_to_msg_id ← js_str j "reply_to_msg_id" "";
  timestamp ← js_int j "timestamp" 0;
  status ← js_int32 j "status" 0;
  recall_at ← js_int j "recall_at" 0;
  Some {| md_msg_id := msg_id; md_from_user_id := from_user_id; md_to_id := to_id;
          md_conversation_id := conversation_id; md_chat_type := chat_type;
          md_content := content; md_media_url := media_url; md_media_type := media_type;
          md_mentions := mentions; md_reply_to_msg_id := reply_to_msg_id;
          md_timestamp := timestamp; md_status := status; md_recall_at := recall_at |}.
End Serialization.

(** ** Keys *)

Definition K_MSG : string := "msg:".
Definition K_CHAT : string := "chat:".
Definition K_OFFLINE : string := "offline:".

(** The last [n] decimal digits of [z]: [snprintf("%0<n>lld")] of [0 <= z < 10^n]. *)
Fixpoint dec (n : nat) (z : Z) : string :=
  match n with
  | O => ""
  | S n' => String (chr (Z.to_N (48 + (z / 10 ^ Z.of_nat n') mod 10))) (dec n' z)
  end.

Definition RevTs (timestamp : Z) : string :=
  let rev := if decide (timestamp ≤ 0 ∨ MAX_TS < timestamp) then MAX_TS else MAX_TS - timestamp in
  dec 13 rev.

Definition KeyMsg (msg_id : string) : string := K_MSG +:+ msg_id.
Definition KeyChat (chat_id : string) (timestamp : Z) (msg_id : string) : string :=
  K_CHAT +:+ chat_id +:+ ":" +:+ RevTs timestamp +:+ ":" +:+ msg_id.
Definition PrefixChat (chat_id : string) : string := K_CHAT +:+ chat_id +:+ ":".
Definition KeyOffline (user_id : string) (timestamp : Z) (msg_id : string) : string :=
  K_OFFLINE +:+ user_id +:+ ":" +:+ RevTs timestamp +:+ ":" +:+ msg_id.
Definition PrefixOffline (user_id : string) : string := K_OFFLINE +:+ user_id +:+ ":".

(** [ParseChatKey] and [ParseOfflineKey]: both out parameters start empty. *)
Definition ParseChatKey (key prefix : string) : string * string :=
  let pos := str_size prefix in
  if decide (str_size key ≤ pos + 13 + 1)%nat then ("", "")
  else (str_take 13 (str_drop pos key), str_drop (pos + 14) key).
Definition ParseOfflineKey (key prefix : string) : string * string :=
  let pos := str_size prefix in
  if decide (str_size key ≤ pos + 13 + 1)%nat then ("", "")
  else (str_take 13 (str_drop pos key), str_drop (pos + 14) key).

(** ** Operations *)
Section RocksDBMessageStore.
Context {db : Type} `{!RocksDB db} `{!JsonLib}.
Implicit Types d : db.

Definition RocksDBMessageStore (DB_Open : string → option db) (db_path : string) : outcome db :=
  match DB_Open db_path with Some d => Ret d | None => Exc end.

Definition Save (msg : MessageData) : M db bool :=
  if decide (md_msg_id msg = "" ∨ md_from_user_id msg = "") then mret false else
  existing ← reads (λ d, db_Get d (KeyMsg (md_msg_id msg)));
  match existing with
  | Some _ => mret false
  | None =>
      v ← or_throw (SerializeMessage msg);
      let timeline_id := if decide (md_conversation_id msg = "") then md_to_id msg
                         else md_conversation_id msg in
      kv_write [WPut (KeyMsg (md_msg_id msg)) v;
                WPut (KeyChat timeline_id (md_timestamp msg) (md_msg_id msg)) ""]
  end.

Definition GetById (d : db) (msg_id : string) : option MessageData :=
  if decide (msg_id = "") then None else
  value ← db_Get d (KeyMsg msg_id);
  DeserializeMessage value.

(** The loop of [GetHistory] over the visited keys; [n] is [keys.size()]. *)
Fixpoint history_keys (prefix : string) (rev_ts_cutoff limit n : Z) (l : list (string * string))
    : list (string * string) :=
  match l with
  | [] => []
  | e :: l' =>
      let '(rev_ts, msg_id) := ParseChatKey e.1 prefix in
      if decide (str_size rev_ts ≠ 13%nat) then history_keys prefix rev_ts_cutoff limit n l' else
      match stoll rev_ts with
      | None => history_keys prefix rev_ts_cutoff limit n l'
      | Some r =>
          if decide (0 ≤ rev_ts_cutoff ∧ r ≤ rev_ts_cutoff)
          then history_keys prefix rev_ts_cutoff limit n l'
          else (rev_ts, msg_id) ::
               if decide (limit ≤ n + 1) then []
               else history_keys prefix rev_ts_cutoff limit (n + 1) l'
      end
  end.

Definition GetHistory (d : db) (conversation_id : string) (chat_type : Z)
    (before_msg_id : string) (limit : Z) : list MessageData :=
  if decide (conversation_id = "" ∨ limit ≤ 0) then [] else
  let prefix := PrefixChat conversation_id in
  let collect rev_ts_cutoff :=
    omap (λ p, GetById d p.2) (history_keys prefix rev_ts_cutoff limit 0 (db_scan d prefix)) in
  if decide (before_msg_id = "") then collect (-1) else
  match GetById d before_msg_id with
  | None => []
  | Some msg =>
      if decide (md_conversation_id msg ≠ conversation_id ∧ md_to_id msg ≠ conversation_id)
      then [] else collect (wrap64 (MAX_TS - md_timestamp msg))
  end.

Definition MarkRecalled (msg_id : string) (recall_at : Z) : M db bool :=
  if decide (msg_id = "") then mret false else
  msg ← reads (λ d, GetById d msg_id);
  match msg with
  | None => mret false
  | Some msg => v ← or_throw (SerializeMessage (md_recall recall_at msg)); kv_put (KeyMsg msg_id) v
  end.

Definition AddToOffline (user_id msg_id : string) : M db bool :=
  if decide (user_id = "" ∨ msg_id = "") then mret false else
  msg ← reads (λ d, GetById d msg_id);
  match msg with
  | None => mret false
  | Some msg => kv_put (KeyOffline user_id (md_timestamp msg) msg_id) ""
  end.

(** The loop of [PullOffline]: the messages, [count], [last_rev_ts], and the
    entries from the iterator's position on. *)
Fixpoint pull_loop (get : string → option MessageData) (prefix cursor : string) (limit : Z)
    (skip : bool) (count : Z) (last_rev_ts : string) (l : list (string * string))
    : list MessageData * Z * string * list (string * string) :=
  match l with
  | [] => ([], count, last_rev_ts, [])
  | e :: l' =>
      let '(rev_ts, msg_id) := ParseOfflineKey e.1 prefix in
      if decide (skip = true ∧ rev_ts = cursor)
      then pull_loop get prefix cursor limit false count last_rev_ts l'
      else if skip then pull_loop get prefix cursor limit skip count last_rev_ts l'
      else match get msg_id with
           | None => pull_loop get prefix cursor limit skip count last_rev_ts l'
           | Some msg =>
               if decide (limit ≤ count + 1) then ([msg], count + 1, rev_ts, l)
               else let '(res, c, r, rest) :=
                      pull_loop get prefix cursor limit skip (count + 1) rev_ts l' in
                    (msg :: res, c, r, rest)
           end
  end.

(** The result with [next_cursor] and [has_more]. *)
Definition PullOffline (d : db) (user_id cursor : string) (limit : Z)
    : list MessageData * string * bool :=
  if decide (user_id = "" ∨ limit ≤ 0) then ([], "", false) else
  let prefix := PrefixOffline user_id in
  let '(result, count, last_rev_ts, rest) :=
    pull_loop (GetById d) prefix cursor limit (bool_decide (cursor ≠ "")) 0 ""
      (db_scan d prefix) in
  if decide (limit ≤ count ∧ rest ≠ []) then
    match tail rest with
    | [] => (result, "", false)
    | _ :: _ => (result, last_rev_ts, true)
    end
  else (result, "", false).

(** [batch.Delete] of the queue entries up to [until_ts]. *)
Definition until_deletes (prefix : string) (until_ts : Z) (l : list (string * string))
    : list WriteOp :=
  omap (λ e, r ← stoll (ParseOfflineKey e.1 prefix).1;
             if decide (wrap64 (MAX_TS - r) ≤ until_ts) then Some (WDelete e.1) else None) l.

Definition ClearOffline (user_id until_msg_id : string) : M db bool :=
  if decide (user_id = "") then mret true else
  let prefix := PrefixOffline user_id in
  if decide (until_msg_id = "") then
    l ← reads (λ d, db_scan d prefix);
    kv_write ((λ e, WDelete e.1) <$> l)
  else
    until_msg ← reads (λ d, GetById d until_msg_id);
    match until_msg with
    | None => mret true
    | Some until_msg =>
        l ← reads (λ d, db_scan d prefix);
        kv_write (until_deletes prefix (md_timestamp until_msg) l)
    end.
End RocksDBMessageStore.

(** * Facts about the reversed timestamp *)

Lemma dec_size n z : str_size (dec n z) = n.
Proof. unfold str_size. induction n; simpl; auto. Qed.

Lemma code_digit x : 0 ≤ x < 10 → code (chr (Z.to_N (48 + x))) = Z.to_N (48 + x).
Proof. intros. unfold code, chr. rewrite N_ascii_embedding; [done|lia]. Qed.

Lemma dec_cons n z : ∃ x, dec (S n) z = String (chr (Z.to_N (48 + x))) (dec n z) ∧
  x = (z / 10 ^ Z.of_nat n) mod 10 ∧ 0 ≤ x < 10.
Proof. eexists. split; [done|]. split; [done|]. by apply Z.mod_pos_bound. Qed.

Lemma dec_digits n z : str_all isdigit (dec n z) = true.
Proof.
  induction n as [|n IH]; [done|]. destruct (dec_cons n z) as (x & -> & _ & Hx).
  simpl. rewrite IH, andb_true_r. unfold isdigit. rewrite code_digit by done.
  apply andb_true_iff. split; apply N.leb_le; lia.
Qed.

Lemma dec_no_colon n z : no_colon (dec n z).
Proof. eapply str_all_has; [apply dec_digits|done]. Qed.

(** [dec] reads the last digits only. *)
Lemma dec_mod n z : dec n (z mod 10 ^ Z.of_nat n) = dec n z.
Proof.
  assert (∀ k z', (k ≤ n)%nat → z' = z mod 10 ^ Z.of_nat n → dec k z' = dec k z) as H;
    [|by apply H].
  induction k as [|k IH]; intros z' Hk ->; simpl; [done|]. f_equal; [|apply IH; [lia|done]].
  do 3 f_equal. replace (Z.of_nat n) with (Z.of_nat k + (1 + (Z.of_nat n - Z.of_nat k - 1))) by lia.
  rewrite Z.pow_add_r, Z.pow_add_r, Z.pow_1_r by lia.
  rewrite Z.rem_mul_r by (try apply Z.pow_nonzero; nia).
  rewrite Z.mul_comm, Z.div_add by (apply Z.pow_nonzero; lia).
  rewrite (Z.div_small (z mod _)) by (apply Z.mod_pos_bound; lia).
  simpl. rewrite Z.add_0_l.
  set (q := z / 10 ^ Z.of_nat k).
  rewrite Z.rem_mul_r by (try apply Z.pow_nonzero; lia).
  rewrite Z.mul_comm, Z.mod_add by lia. by apply Z.mod_mod.
Qed.

Lemma digits_val_dec n z acc :
  digits_val (dec n z) acc = acc * 10 ^ Z.of_nat n + z mod 10 ^ Z.of_nat n.
Proof.
  revert acc. induction n as [|n IH]; intros acc.
  - simpl. rewrite Z.mod_1_r. lia.
  - destruct (dec_cons n z) as (x & -> & Hx & Hr). simpl digits_val.
    assert (isdigit (chr (Z.to_N (48 + x))) = true) as ->.
    { unfold isdigit. rewrite code_digit by done.
      apply andb_true_iff. split; apply N.leb_le; lia. }
    rewrite IH, code_digit by done. rewrite Z2N.id by lia.
    rewrite Nat2Z.inj_succ, Z.pow_succ_r by lia.
    rewrite (Z.mul_comm 10 (10 ^ _)), Z.rem_mul_r by (try apply Z.pow_nonzero; lia).
    rewrite <-Hx. lia.
Qed.

Lemma stoll_dec z : 0 ≤ z < 10 ^ 13 → stoll (dec 13 z) = Some z.
Proof.
  intros Hz. unfold stoll, strto.
  assert (skip_space (dec 13 z) = dec 13 z ∧ ∃ c s, dec 13 z = String c s ∧ isdigit c = true ∧
    c ≠ "-"%char ∧ c ≠ "+"%char) as (-> & c & s & Heq & Hc & Hm & Hp).
  { pose proof (dec_digits 13 z) as Hd. destruct (dec_cons 12 z) as (x & Heq & _ & Hx).
    rewrite Heq in *. simpl in Hd. apply andb_true_iff in Hd as [Hd _].
    set (c := chr (Z.to_N (48 + x))) in *.
    assert (isspace c = false) as Hsp.
    { unfold isspace, c. rewrite code_digit by done.
      apply orb_false_iff. split; [apply N.eqb_neq; lia|].
      apply andb_false_iff. right. apply N.leb_gt. lia. }
    split; [simpl; by rewrite Hsp|]. exists c, (dec 12 z). split_and!; try done.
    - intros ->. by vm_compute in Hd.
    - intros ->. by vm_compute in Hd. }
  rewrite Heq. rewrite !bool_decide_false by done. rewrite Hc, <-Heq, digits_val_dec.
  simpl. rewrite Z.mod_small by lia. by rewrite decide_True by lia.
Qed.

Lemma dec_le n a b : 0 ≤ a < 10 ^ Z.of_nat n → 0 ≤ b < 10 ^ Z.of_nat n → a < b →
  ∀ s t, String.le (dec n a +:+ s) (dec n b +:+ t).
Proof.
  revert a b. induction n as [|n IH]; intros a b Ha Hb Hab s t; [simpl in *; lia|].
  rewrite Nat2Z.inj_succ, Z.pow_succ_r in Ha, Hb by lia.
  set (p := 10 ^ Z.of_nat n) in *. assert (0 < p) by (unfold p; lia).
  simpl. rewrite str_le_cons. fold p.
  assert (0 ≤ a / p < 10 ∧ 0 ≤ b / p < 10) as [Hqa Hqb].
  { split; (split; [apply Z.div_pos; lia|apply Z.div_lt_upper_bound; lia]). }
  change (N_of_ascii (chr ?x)) with (code (chr x)).
  rewrite !Z.mod_small by done.
  destruct (Z_lt_le_dec (a / p) (b / p)) as [Hlt|Hge].
  - left. change (code (chr (Z.to_N (48 + a / p))) < code (chr (Z.to_N (48 + b / p))))%N.
    rewrite !code_digit by done. lia.
  - right. assert (a / p = b / p) as Heq by (pose proof (Z.div_le_mono a b p); lia).
    rewrite Heq. split; [done|]. rewrite <-(dec_mod n a), <-(dec_mod n b). fold p.
    apply IH; fold p; [apply Z.mod_pos_bound; lia..|].
    pose proof (Z.div_mod a p). pose proof (Z.div_mod b p). nia.
Qed.

(** * Typed keys *)

Inductive MKey : Type :=
  | MMsg (id : string)             (* msg:{id} *)
  | MChat (c rev id : string)      (* chat:{c}:{rev}:{id} *)
  | MOff (u rev id : string).      (* offline:{u}:{rev}:{id} *)

#[global] Instance MKey_eq_dec : EqDecision MKey.
Proof. solve_decision. Defined.

Definition mkey_str (k : MKey) : string :=
  match k with
  | MMsg id => KeyMsg id
  | MChat c rev id => K_CHAT +:+ c +:+ ":" +:+ rev +:+ ":" +:+ id
  | MOff u rev id => K_OFFLINE +:+ u +:+ ":" +:+ rev +:+ ":" +:+ id
  end.
Definition mkey_ok (k : MKey) : Prop :=
  match k with
  | MMsg id => ok_id id
  | MChat c rev id | MOff c rev id => ok_id c ∧ (∃ t, rev = RevTs t) ∧ ok_id id
  end.

(** Occurrences of a byte. *)
Fixpoint str_count (c : ascii) (s : string) : nat :=
  match s with
  | EmptyString => 0
  | String x s' => (if decide (x = c) then 1 else 0) + str_count c s'
  end.
Lemma str_count_app c s t : str_count c (s +:+ t) = (str_count c s + str_count c t)%nat.
Proof. induction s as [|x s IH]; [done|]. simpl. rewrite IH. lia. Qed.
Lemma str_count_zero c s : str_count c s = 0%nat ↔ str_has c s = false.
Proof.
  induction s as [|x s IH]; simpl; [done|].
  case_decide; [rewrite bool_decide_true by done|rewrite bool_decide_false by done]; simpl;
    [split; [lia|done]|]. by rewrite <-IH.
Qed.

Lemma field_inj3 a b c a' b' c' :
  no_colon a' → no_colon b' → no_colon c' →
  a +:+ ":" +:+ b +:+ ":" +:+ c = a' +:+ ":" +:+ b' +:+ ":" +:+ c' →
  a = a' ∧ b = b' ∧ c = c'.
Proof.
  unfold no_colon. intros Ha Hb Hc Heq.
  pose proof (f_equal (str_count ":") Heq) as Hn. rewrite !str_count_app in Hn. simpl in Hn.
  rewrite <-str_count_zero in Ha, Hb, Hc. rewrite Ha, Hb, Hc in Hn.
  assert (str_count ":" a = 0 ∧ str_count ":" b = 0)%nat as [Ha0 Hb0] by lia.
  rewrite str_count_zero in *.
  apply str_split_at in Heq as [-> Heq]; [|done..].
  by apply str_split_at in Heq as [-> ->].
Qed.

Lemma RevTs_no_colon t : no_colon (RevTs t).
Proof. apply dec_no_colon. Qed.

#[global] Program Instance MKey_space : KeySpace MKey := {|
  key_str := mkey_str; key_ok := mkey_ok;
|}.
Next Obligation.
  unfold KeyMsg, K_MSG, K_CHAT, K_OFFLINE, ok_id.
  intros [i|c r i|c r i] [i'|c' r' i'|c' r' i']; cbn [mkey_str mkey_ok]; intros Hok Heq;
    simplify_eq/=; try done;
    destruct Hok as ([_ ?]&[? ->]&[_ ?]);
    apply field_inj3 in Heq as (->&->&->); auto using RevTs_no_colon.
Qed.

(** * The abstract store *)

(** The messages, and the offline queues as a set of (user, message) pairs. *)
Record mmodel : Type := {
  msgs : gmap string MessageData;
  queue : gset (string * string);
}.

(** Timestamps of messages are milliseconds between 1970 and 2286. *)
Definition wf_message (m : MessageData) : Prop :=
  1 ≤ md_timestamp m ≤ MAX_TS ∧ int32_range (md_chat_type m) ∧ int32_range (md_status m).
Definition timeline (m : MessageData) : string :=
  if decide (md_conversation_id m = "") then md_to_id m else md_conversation_id m.
Definition rev_of (m : MessageData) : string := RevTs (md_timestamp m).

Lemma DeserializeMessage_Serialize `{!JsonLib} `{!JsonLaws} m v :
  wf_message m → SerializeMessage m = Some v → DeserializeMessage v = Some m.
Proof.
  intros (_ & Hc & Hs) Hv. unfold SerializeMessage, DeserializeMessage in *.
  apply js_parse_dump in Hv. rewrite Hv. js_simp.
  rewrite !wrap32_id by done.
  assert (mapM id (Some <$> md_mentions m) = Some (md_mentions m)) as ->
    by by apply mapM_fmap_Some.
  simpl. by destruct m.
Qed.

Section Rep.
Context {db : Type} `{!RocksDB db} `{!RocksDBLaws db} `{!JsonLib} `{!JsonLaws}.
Implicit Types d : db.

Definition msg_val (id v : string) (m : MessageData) : Prop :=
  DeserializeMessage v = Some m ∧ md_msg_id m = id ∧ wf_message m.

Record msg_rep (d : db) (M : mmodel) : Prop := {
  mr_closed : keys_closed (K:=MKey) d;
  mr_msg id : option_Forall2 (msg_val id) (kget d (MMsg id)) (msgs M !! id);
  mr_chat c r id : is_Some (kget d (MChat c r id)) ↔
    ∃ m, msgs M !! id = Some m ∧ timeline m = c ∧ rev_of m = r;
  mr_off u r id : is_Some (kget d (MOff u r id)) ↔
    (u, id) ∈ queue M ∧ ∃ m, msgs M !! id = Some m ∧ rev_of m = r;
  mr_queue u id : (u, id) ∈ queue M → is_Some (msgs M !! id);
}.

Lemma msg_rep_msg d M id m : msg_rep d M → msgs M !! id = Some m →
  ok_id id ∧ md_msg_id m = id ∧ wf_message m ∧ ok_id (timeline m).
Proof.
  intros Hr Hm. pose proof (mr_msg _ _ Hr id) as Hv. rewrite Hm in Hv.
  inversion Hv as [v ? (Hd & Hid & Hwf) Hk|]; subst.
  split; [by apply (kget_Some_ok d (MMsg _) v (mr_closed _ _ Hr))|].
  split; [done|]. split; [done|].
  destruct (proj2 (mr_chat _ _ Hr (timeline m) (rev_of m) (md_msg_id m))) as [v' Hv']; [eauto|].
  by destruct (kget_Some_ok d (MChat _ _ _) v' (mr_closed _ _ Hr) Hv') as (? & _).
Qed.

Lemma msg_rep_queue d M u id : msg_rep d M → (u, id) ∈ queue M → ok_id u.
Proof.
  intros Hr Hq. destruct (mr_queue _ _ Hr _ _ Hq) as [m Hm].
  destruct (proj2 (mr_off _ _ Hr u (rev_of m) id)) as [v Hv]; [eauto|].
  by destruct (kget_Some_ok d (MOff _ _ _) v (mr_closed _ _ Hr) Hv) as (? & _).
Qed.

Lemma GetById_rep d M id : msg_rep d M → GetById d id = msgs M !! id.
Proof.
  intros Hr. unfold GetById. pose proof (mr_msg _ _ Hr id) as Hv.
  case_decide as Hid.
  - destruct (msgs M !! id) eqn:Hm; [|done].
    by destruct (msg_rep_msg _ _ _ _ Hr Hm) as ([? _]&_).
  - unfold kget in Hv; simpl in Hv. inversion Hv as [v m (?&?&?)|]; simpl; done.
Qed.

Lemma msg_rep_empty d : (∀ k, db_Get d k = None) → msg_rep d {| msgs := ∅; queue := ∅ |}.
Proof.
  intros He. split; simpl; intros; unfold kget; rewrite ?He, ?lookup_empty.
  - intros s v. by rewrite He.
  - constructor.
  - split; [by intros []%is_Some_None|naive_solver].
  - split; [by intros []%is_Some_None|set_solver].
  - set_solver.
Qed.
End Rep.

(** What each writing operation does when it succeeds; [None]: it is refused. *)
Definition a_Save (msg : MessageData) (M : mmodel) : option mmodel :=
  match msgs M !! md_msg_id msg with
  | Some _ => None
  | None => Some {| msgs := <[md_msg_id msg := msg]> (msgs M); queue := queue M |}
  end.
Definition a_MarkRecalled (id : string) (t : Z) (M : mmodel) : option mmodel :=
  m ← msgs M !! id; Some {| msgs := <[id := md_recall t m]> (msgs M); queue := queue M |}.
Definition a_AddToOffline (u id : string) (M : mmodel) : option mmodel :=
  _ ← msgs M !! id; Some {| msgs := msgs M; queue := {[ (u, id) ]} ∪ queue M |}.
(** The entry [(u', id)] stays in the queues when [u]'s queue is cleared up to
    [until]. *)
Definition stays (M : mmodel) (u until : string) (p : string * string) : Prop :=
  p.1 ≠ u ∨ until ≠ "" ∧
    ∀ m b, msgs M !! p.2 = Some m → msgs M !! until = Some b → md_timestamp b < md_timestamp m.
#[global] Instance stays_dec M u until p : Decision (stays M u until p).
Proof.
  unfold stays. apply or_dec; [apply _|]. apply and_dec; [apply _|].
  destruct (msgs M !! p.2) as [m|]; [|left; by intros].
  destruct (msgs M !! until) as [b|]; [|left; by intros].
  destruct (decide (md_timestamp b < md_timestamp m)); [left|right]; naive_solver.
Defined.
Definition a_ClearOffline (u until : string) (M : mmodel) : option mmodel :=
  Some (if decide (until ≠ "" ∧ msgs M !! until = None) then M
        else {| msgs := msgs M; queue := filter (stays M u until) (queue M) |}).

(** Messages sorted newest first. *)
Definition newer (a b : MessageData) : Prop := md_timestamp b ≤ md_timestamp a.

(** The key of a message under a prefix. *)
Definition rev_key (p : string) (m : MessageData) : string :=
  p +:+ rev_of m +:+ ":" +:+ md_msg_id m.

Lemma rev_of_dec m : wf_message m → rev_of m = dec 13 (MAX_TS - md_timestamp m).
Proof. intros [? _]. unfold rev_of, RevTs. by rewrite decide_False by lia. Qed.

Lemma stoll_rev_of m : wf_message m → stoll (rev_of m) = Some (MAX_TS - md_timestamp m).
Proof. intros Hw. rewrite rev_of_dec by done. apply stoll_dec. destruct Hw. unfold MAX_TS in *. lia. Qed.

Lemma rev_of_inj a b : wf_message a → wf_message b → rev_of a = rev_of b →
  md_timestamp a = md_timestamp b.
Proof. intros Ha Hb Heq. pose proof (stoll_rev_of a Ha). rewrite Heq, stoll_rev_of in * by done.
  simplify_eq. lia. Qed.

Lemma rev_key_newer p a b : wf_message a → wf_message b →
  String.le (rev_key p a) (rev_key p b) → newer a b.
Proof.
  intros Ha Hb Hle. unfold newer. destruct (Z_le_gt_dec (md_timestamp b) (md_timestamp a)); [done|].
  exfalso. unfold rev_key in Hle. rewrite str_le_app in Hle.
  rewrite !rev_of_dec in Hle by done.
  assert (∀ s t, String.le (dec 13 (MAX_TS - md_timestamp b) +:+ s)
                           (dec 13 (MAX_TS - md_timestamp a) +:+ t)) as Hge.
  { apply dec_le; destruct Ha as [? _], Hb as [? _]; unfold MAX_TS in *; lia. }
  specialize (Hge (":" +:+ md_msg_id b) (":" +:+ md_msg_id a)).
  pose proof (anti_symm String.le _ _ Hle Hge) as Heq.
  apply str_split_at in Heq as [Heq _]; try apply dec_no_colon.
  rewrite <-!rev_of_dec in Heq by done. apply rev_of_inj in Heq; [lia|done..].
Qed.

Lemma parse_rev_key p m : md_msg_id m ≠ "" →
  ParseChatKey (rev_key p m) p = (rev_of m, md_msg_id m) ∧
  ParseOfflineKey (rev_key p m) p = (rev_of m, md_msg_id m).
Proof.
  intros Hne. unfold ParseChatKey, ParseOfflineKey, rev_key.
  assert (str_size (rev_of m) = 13%nat) as Hsz by apply dec_size.
  rewrite decide_False.
  - rewrite !str_drop_app.
    assert (str_take 13 (rev_of m +:+ ":" +:+ md_msg_id m) = rev_of m) as ->
      by by rewrite <-Hsz, str_take_app.
    rewrite <-str_drop_drop, str_drop_app.
    assert (str_drop 14 (rev_of m +:+ ":" +:+ md_msg_id m) = md_msg_id m) as ->; [|done].
    change 14%nat with (13 + 1)%nat. rewrite <-str_drop_drop, <-Hsz, str_drop_app. by destruct (md_msg_id m).
  - rewrite !str_size_app, Hsz. destruct (md_msg_id m); [done|]. unfold str_size. simpl. lia.
Qed.

(** A scan whose keys are the keys of messages, as the list of these messages. *)
Lemma scan_messages p (ks : list string) (P : MessageData → Prop) :
  NoDup ks → StronglySorted String.le ks →
  (∀ k, k ∈ ks ↔ ∃ m, k = rev_key p m ∧ P m) →
  (∀ m, P m → wf_message m) → (∀ a b, P a → P b → rev_key p a = rev_key p b → a = b) →
  ∃ l, ks = rev_key p <$> l ∧ NoDup l ∧ (∀ m, m ∈ l ↔ P m) ∧ StronglySorted newer l.
Proof.
  intros Hnd Hs Hin Hwf Hinj.
  assert (∃ l, ks = rev_key p <$> l ∧ Forall P l) as (l & -> & HP).
  { assert (∀ k, k ∈ ks → ∃ m, k = rev_key p m ∧ P m) as H by (intros; by apply Hin).
    clear -H. induction ks as [|k ks IH]; [by exists []|].
    destruct IH as (l & -> & ?); [set_solver|].
    destruct (H k ltac:(left)) as (m & -> & ?). exists (m :: l). by split; [|constructor]. }
  exists l. split; [done|]. split; [by eapply NoDup_fmap_1|].
  rewrite Forall_forall in HP. split.
  - intros m. split; [apply HP|]. intros Hm.
    assert (rev_key p m ∈ rev_key p <$> l) as (m' & ? & Hm')%list_elem_of_fmap by (apply Hin; eauto).
    by rewrite (Hinj m m'); auto.
  - clear Hnd Hin. induction l as [|m l IH]; [constructor|].
    inversion Hs as [|? ? Hs' Hall]; subst. constructor; [apply IH; set_solver|].
    rewrite Forall_fmap in Hall. apply Forall_forall. intros m' Hm'.
    rewrite Forall_forall in Hall. specialize (Hall m' Hm'). simpl in Hall.
    eapply rev_key_newer; [..|exact Hall]; apply Hwf, HP; set_solver.
Qed.

Section Refinement.
Context {db : Type} `{!RocksDB db} `{!RocksDBLaws db} `{!JsonLib} `{!JsonLaws}.
Implicit Types d : db.

Lemma KeyChat_rev c m : KeyChat c (md_timestamp m) (md_msg_id m) = rev_key (PrefixChat c) m.
Proof. unfold KeyChat, rev_key, PrefixChat. by rewrite <-!str_app_assoc. Qed.
Lemma KeyOffline_rev u m : KeyOffline u (md_timestamp m) (md_msg_id m) = rev_key (PrefixOffline u) m.
Proof. unfold KeyOffline, rev_key, PrefixOffline. by rewrite <-!str_app_assoc. Qed.

Lemma rev_key_inj p a b : rev_key p a = rev_key p b → md_msg_id a = md_msg_id b.
Proof.
  unfold rev_key. intros Heq. apply (f_equal (str_drop (str_size p))) in Heq.
  rewrite !str_drop_app in Heq.
  apply str_split_at in Heq as [_ ?]; [done|apply RevTs_no_colon..].
Qed.

(** The keys under a prefix are the typed keys that start with it. *)
Lemma chat_prefix_key d M c k : msg_rep d M → ok_id c →
  is_Some (db_Get d k) ∧ String.prefix (PrefixChat c) k = true ↔
  ∃ m, k = rev_key (PrefixChat c) m ∧ msgs M !! md_msg_id m = Some m ∧ timeline m = c.
Proof.
  intros Hr [_ Hc]. split.
  - intros [[v Hv] [t Ht]%prefix_iff]. destruct (mr_closed _ _ Hr _ _ Hv) as (key & Hok & ->).
    destruct key as [id|c' r id|u r id]; [done| |done]. unfold PrefixChat in Ht.
    cbn [key_str MKey_space mkey_str] in Ht.
    rewrite <-!str_app_assoc in Ht. apply (f_equal (str_drop 5)) in Ht. simpl in Ht.
    apply str_split_at in Ht as [-> _]; [|apply Hok|done].
    destruct (proj1 (mr_chat _ _ Hr c r id)) as (m & Hm & Htl & Hrev); [by exists v|].
    destruct (msg_rep_msg _ _ _ _ Hr Hm) as (_ & <- & _). exists m.
    split; [|done]. subst r. cbn [key_str MKey_space mkey_str]. unfold rev_key, PrefixChat.
    by rewrite <-!str_app_assoc.
  - intros (m & -> & Hm & Htl). split; [|unfold rev_key; apply prefix_app].
    destruct (proj2 (mr_chat _ _ Hr c (rev_of m) (md_msg_id m))) as [v Hv]; [eauto|].
    rewrite <-KeyChat_rev. exists v. exact Hv.
Qed.

Lemma offline_prefix_key d M u k : msg_rep d M → ok_id u →
  is_Some (db_Get d k) ∧ String.prefix (PrefixOffline u) k = true ↔
  ∃ m, k = rev_key (PrefixOffline u) m ∧ msgs M !! md_msg_id m = Some m ∧
       (u, md_msg_id m) ∈ queue M.
Proof.
  intros Hr [_ Hu]. split.
  - intros [[v Hv] [t Ht]%prefix_iff]. destruct (mr_closed _ _ Hr _ _ Hv) as (key & Hok & ->).
    destruct key as [id|c' r id|u' r id]; [done|done|]. unfold PrefixOffline in Ht.
    cbn [key_str MKey_space mkey_str] in Ht.
    rewrite <-!str_app_assoc in Ht. apply (f_equal (str_drop 8)) in Ht. simpl in Ht.
    apply str_split_at in Ht as [-> _]; [|apply Hok|done].
    destruct (proj1 (mr_off _ _ Hr u r id)) as (Hq & m & Hm & Hrev); [by exists v|].
    destruct (msg_rep_msg _ _ _ _ Hr Hm) as (_ & <- & _). exists m.
    split; [|done]. subst r. cbn [key_str MKey_space mkey_str]. unfold rev_key, PrefixOffline.
    by rewrite <-!str_app_assoc.
  - intros (m & -> & Hm & Hq). split; [|unfold rev_key; apply prefix_app].
    destruct (proj2 (mr_off _ _ Hr u (rev_of m) (md_msg_id m))) as [v Hv]; [eauto|].
    rewrite <-KeyOffline_rev. exists v. exact Hv.
Qed.

Lemma scan_keys d p k :
  k ∈ (db_scan d p).*1 ↔ is_Some (db_Get d k) ∧ String.prefix p k = true.
Proof.
  rewrite list_elem_of_fmap. split.
  - intros ([k' v] & -> & [??]%db_scan_elem). split; [by exists v|done].
  - intros [[v Hv] Hp]. exists (k, v). by rewrite db_scan_elem.
Qed.

Lemma scan_chat d M c : msg_rep d M → ok_id c →
  ∃ l, (db_scan d (PrefixChat c)).*1 = rev_key (PrefixChat c) <$> l ∧ NoDup l ∧
    (∀ m, m ∈ l ↔ msgs M !! md_msg_id m = Some m ∧ timeline m = c) ∧ StronglySorted newer l.
Proof.
  intros Hr Hc. apply scan_messages.
  - apply db_scan_nodup.
  - apply db_scan_sorted.
  - intros k. rewrite scan_keys. by apply chat_prefix_key.
  - intros m [Hm _]. by apply (msg_rep_msg _ _ _ _ Hr Hm).
  - intros a b [Ha _] [Hb _] ?%rev_key_inj. congruence.
Qed.

Lemma scan_offline d M u : msg_rep d M → ok_id u →
  ∃ l, (db_scan d (PrefixOffline u)).*1 = rev_key (PrefixOffline u) <$> l ∧ NoDup l ∧
    (∀ m, m ∈ l ↔ msgs M !! md_msg_id m = Some m ∧ (u, md_msg_id m) ∈ queue M) ∧
    StronglySorted newer l.
Proof.
  intros Hr Hu. apply scan_messages.
  - apply db_scan_nodup.
  - apply db_scan_sorted.
  - intros k. rewrite scan_keys. by apply offline_prefix_key.
  - intros m [Hm _]. by apply (msg_rep_msg _ _ _ _ Hr Hm).
  - intros a b [Ha _] [Hb _] ?%rev_key_inj. congruence.
Qed.

(** ** Writes *)

Lemma msg_rep_write d d' M M' b :
  msg_rep d M → Forall (λ op, key_ok (kop_key op)) b → db_Write d (kop_op <$> b) = Some d' →
  (∀ id, option_Forall2 (msg_val id) (kbatch_get b (MMsg id) (kget d (MMsg id))) (msgs M' !! id)) →
  (∀ c r id, is_Some (kbatch_get b (MChat c r id) (kget d (MChat c r id))) ↔
    ∃ m, msgs M' !! id = Some m ∧ timeline m = c ∧ rev_of m = r) →
  (∀ u r id, is_Some (kbatch_get b (MOff u r id) (kget d (MOff u r id))) ↔
    (u, id) ∈ queue M' ∧ ∃ m, msgs M' !! id = Some m ∧ rev_of m = r) →
  (∀ u id, (u, id) ∈ queue M' → is_Some (msgs M' !! id)) →
  msg_rep d' M'.
Proof.
  intros Hr Hb Hw Hm Hc Ho Hq. split; try done; intros *; rewrite ?(kget_write d d' b) by done;
    auto. eapply keys_closed_write; [by eapply mr_closed|done|done].
Qed.

Lemma Save_refines msg : ok_id (md_msg_id msg) → md_from_user_id msg ≠ "" → wf_message msg →
  ok_id (timeline msg) → refines msg_rep (Save msg) (a_Save msg).
Proof.
  intros Hid Hfrom Hwf Htl d M r d' Hr Hop. unfold Save, a_Save in *.
  fold (timeline msg) in Hop. rewrite decide_False in Hop by (destruct Hid; naive_solver).
  pose proof (mr_msg _ _ Hr (md_msg_id msg)) as Hold. unfold kget in Hold; simpl in Hold.
  dbrun Hop; inversion Hold; subst; try congruence; split; try done.
  eexists; split; [done|]. pose proof Hr as [_ Hm Hc Ho Hq].
  assert (msgs M !! md_msg_id msg = None) as Hnew by done.
  match goal with Hw : db_Write d [WPut _ ?v; _] = _ |- _ =>
    apply (msg_rep_write d d' M _ [KPut (MMsg (md_msg_id msg)) v;
      KPut (MChat (timeline msg) (rev_of msg) (md_msg_id msg)) ""]); try exact Hw; try done end.
  - keys_ok. split_and!; try done. by eexists.
  - intros id. simpl. case_decide; simplify_eq.
    + rewrite lookup_insert_eq. constructor. split; [|done].
      by apply DeserializeMessage_Serialize.
    + by rewrite lookup_insert_ne by congruence.
  - intros c r id. simpl. rewrite lookup_insert. case_decide as Hk.
    + simplify_eq. split; [|eauto]. intros _. rewrite decide_True by done. eauto.
    + rewrite Hc. case_decide; [subst; rewrite Hnew|done].
      split; [naive_solver|]. intros (?&?&?&?). simplify_eq.
  - intros u r id. simpl. rewrite Ho, lookup_insert. case_decide; [subst|done].
    split; intros [Hin _]; apply Hq in Hin; rewrite Hnew in Hin; by apply is_Some_None in Hin.
  - intros u id Hin. simpl. apply lookup_insert_is_Some'. right. by eapply Hq.
Qed.

Lemma MarkRecalled_refines id t : refines msg_rep (MarkRecalled id t) (a_MarkRecalled id t).
Proof.
  intros d M r d' Hr Hop. unfold MarkRecalled, a_MarkRecalled in *. case_decide as Hid.
  { subst. injection Hop as <- <-. split; [done|]. intros _. done. }
  dbrun Hop; rewrite (GetById_rep _ M id Hr) in *;
    match goal with H : msgs M !! id = _ |- _ => rewrite H; rename H into Hm0 end; split; try done.
  simpl. eexists; split; [done|]. pose proof Hr as [_ Hm Hc Ho Hq].
  destruct (msg_rep_msg _ _ _ _ Hr Hm0) as (Hok & Hmid & Hwf & _).
  match goal with Hw : db_Put d _ ?v = Some d' |- _ =>
    change (KeyMsg id) with (key_str (MMsg id)) in Hw; apply kop_of_Put in Hw;
    apply (msg_rep_write d d' M _ [KPut (MMsg id) v]); try exact Hw; try done end.
  - keys_ok.
  - intros id'. simpl. case_decide; simplify_eq.
    + rewrite lookup_insert_eq. constructor.
      assert (wf_message (md_recall t m)) by (unfold wf_message, int32_range in *; simpl; lia).
      split; [by apply DeserializeMessage_Serialize|done].
    + by rewrite lookup_insert_ne by congruence.
  - intros c r id'. simpl. rewrite Hc, lookup_insert. case_decide; [|done]. subst id'.
    rewrite Hm0. split; intros (m1 & [= <-] & ?); eexists; (split; [done|]); done.
  - intros u r id'. simpl. rewrite Ho, lookup_insert. case_decide; [|done]. subst id'.
    rewrite Hm0. split; intros (? & m1 & [= <-] & ?); (split; [done|]); eauto.
  - intros u id'. simpl. intros ?%Hq. apply lookup_insert_is_Some'. by right.
Qed.

Lemma AddToOffline_refines u id : ok_id u →
  refines msg_rep (AddToOffline u id) (a_AddToOffline u id).
Proof.
  intros Hu d M r d' Hr Hop. unfold AddToOffline, a_AddToOffline in *. case_decide as Hid.
  { injection Hop as <- <-. split; [done|]. intros _. done. }
  dbrun Hop; rewrite (GetById_rep _ M id Hr) in *;
    match goal with H : msgs M !! id = _ |- _ => rewrite H; rename H into Hm0 end; split; try done.
  simpl. eexists; split; [done|]. pose proof Hr as [_ Hm Hc Ho Hq].
  destruct (msg_rep_msg _ _ _ _ Hr Hm0) as (Hok & Hmid & Hwf & _).
  match goal with Hw : db_Put d _ _ = Some d' |- _ =>
    change (KeyOffline u (md_timestamp m) id) with (key_str (MOff u (rev_of m) id)) in Hw;
    apply kop_of_Put in Hw;
    apply (msg_rep_write d d' M _ [KPut (MOff u (rev_of m) id) ""]); try exact Hw; try done end.
  - keys_ok. split_and!; try done. by eexists.
  - intros u' r id'. simpl. case_decide as Hk.
    + simplify_eq. split; [|eauto]. intros _. split; [set_solver|]. eauto.
    + rewrite Ho. split; intros (Hin & m' & Hm' & Hrv).
      * split; [set_solver|eauto].
      * apply elem_of_union in Hin as [Hin|Hin]; [|eauto].
        apply elem_of_singleton in Hin. simplify_eq.
  - intros u' id' [Hin|Hin]%elem_of_union; [|by eapply Hq]. set_solver.
Qed.

(** Where writes succeed, a stored message is queued. *)
Lemma AddToOffline_writes (P : db → Prop) u id d M : keeps_writing P → P d → msg_rep d M → ok_id u →
  is_Some (msgs M !! id) → fst (AddToOffline u id d) = Ret true.
Proof.
  intros HP Hd Hr Hu [m Hm]. unfold AddToOffline.
  destruct (msg_rep_msg _ _ _ _ Hr Hm) as ([Hid _] & _). rewrite decide_False by (destruct Hu; naive_solver).
  unfold mbind, M_bind, reads. rewrite (GetById_rep _ M id Hr), Hm. unfold kv_put, kv_commit.
  rewrite db_Put_Write. by destruct (HP d [WPut (KeyOffline u (md_timestamp m) id) ""] Hd) as (d' & -> & _).
Qed.
Lemma Save_writes (P : db → Prop) m d d' : keeps_writing P → P d → Save m d = (Ret true, d') → P d'.
Proof.
  intros HP Hd Hrun. unfold Save in Hrun. destruct (decide _); [done|]. munfold Hrun.
  destruct (db_Get d _); [done|]. destruct (SerializeMessage m) as [v|]; munfold Hrun; [|done].
  unfold kv_write, kv_commit in Hrun. edestruct (HP d) as (d1 & Hw & ?); [done|].
  rewrite Hw in Hrun. by injection Hrun as <-.
Qed.

Lemma batch_get_deletes ks k o :
  batch_get (WDelete <$> ks) k o = if decide (k ∈ ks) then None else o.
Proof.
  revert o. induction ks as [|k' ks IH]; intros o; csimpl.
  - done.
  - rewrite IH. repeat case_decide; set_solver.
Qed.

(** Deleting the queue entries of some of [u]'s messages. *)
Lemma msg_rep_delete_queue d d' M u (P : MessageData → Prop) ks :
  msg_rep d M → (∀ k, k ∈ ks ↔ ∃ m, k = rev_key (PrefixOffline u) m ∧
    msgs M !! md_msg_id m = Some m ∧ (u, md_msg_id m) ∈ queue M ∧ P m) →
  db_Write d (WDelete <$> ks) = Some d' →
  ∀ Q, Q ⊆ queue M →
    (∀ u' id m, (u', id) ∈ queue M → msgs M !! id = Some m → (u', id) ∈ Q ↔ ¬ (u' = u ∧ P m)) →
  msg_rep d' {| msgs := msgs M; queue := Q |}.
Proof.
  intros Hr Hks Hw Q Hsub HQ. pose proof Hr as [Hcl Hm Hc Ho Hq].
  assert (∀ k, db_Get d' k = if decide (k ∈ ks) then None else db_Get d k) as Hget.
  { intros k. by rewrite (db_Get_Write _ _ _ _ Hw), batch_get_deletes. }
  assert (∀ k, key_str k ∈ ks → ∃ r id, k = MOff u r id) as Hoff.
  { intros k Hk. apply Hks in Hk as (m & Heq & Hmm & Hqm & _).
    assert (key_ok (MOff u (rev_of m) (md_msg_id m))) as Hok.
    { destruct (proj2 (Ho u (rev_of m) (md_msg_id m))) as [v Hv]; [eauto|].
      eapply kget_Some_ok; eauto. }
    exists (rev_of m), (md_msg_id m). apply key_inj; [done|].
    rewrite Heq. apply (eq_sym (KeyOffline_rev u m)). }
  split; simpl.
  - intros s v. rewrite Hget. case_decide; [done|]. apply Hcl.
  - intros id. unfold kget in *. rewrite Hget. case_decide as Hin; [|apply Hm].
    by destruct (Hoff (MMsg id) Hin) as (?&?&?).
  - intros c r id. unfold kget in *. rewrite Hget. case_decide as Hin; [|apply Hc].
    by destruct (Hoff (MChat c r id) Hin) as (?&?&?).
  - intros u' r id. unfold kget in *. rewrite Hget. case_decide as Hin.
    + split; [by intros []%is_Some_None|]. intros (HinQ & m & Hmm & Hrev). exfalso.
      apply Hks in Hin as (m' & Heq & Hm' & Hq' & HP).
      destruct (Ho u (rev_of m') (md_msg_id m')) as [_ Hs].
      destruct Hs as [v Hv]; [eauto|].
      apply (kget_Some_ok d) in Hv; [|done].
      apply (key_inj (MOff u' r id)) in Hv as Heq'; [|by rewrite Heq; apply (eq_sym (KeyOffline_rev u m'))].
      simplify_eq. apply (HQ u (md_msg_id m') m') in HinQ; [|done..]. by apply HinQ.
    + rewrite Ho. split; intros (Hq' & m & Hmm & Hrev); [|split; [by apply Hsub|eauto]].
      split; [|eauto]. apply (HQ u' id m); [done..|]. intros [-> HP]. apply Hin, Hks.
      destruct (msg_rep_msg _ _ _ _ Hr Hmm) as (_ & <- & _). exists m.
      split; [|done]. subst r. apply (KeyOffline_rev u m).
  - intros u' id ?%Hsub. by eapply Hq.
Qed.

(** A scanned queue and the list of its messages. *)
Definition usable (m : MessageData) : Prop := wf_message m ∧ md_msg_id m ≠ "".

Lemma until_deletes_spec p ts sc l : sc.*1 = rev_key p <$> l → (∀ m, m ∈ l → usable m) →
  until_deletes p ts sc = WDelete <$> (rev_key p <$> filter (λ m, md_timestamp m ≤ ts) l).
Proof.
  revert l. unfold until_deletes.
  induction sc as [|[k v] sc IH]; intros [|m l] Hl Hok; csimpl in Hl; simplify_eq; [done|].
  destruct (Hok m ltac:(left)) as [Hwm Hidm]. csimpl.
  rewrite (proj2 (parse_rev_key _ m Hidm)). simpl. rewrite stoll_rev_of by done. simpl.
  rewrite wrap64_id by (destruct Hwm as [? _]; unfold int64_range, MAX_TS in *; lia).
  rewrite filter_cons. replace (MAX_TS - (MAX_TS - md_timestamp m)) with (md_timestamp m) by lia.
  destruct (decide (md_timestamp m ≤ ts)); csimpl; rewrite (IH l); auto;
    intros; apply Hok; by right.
Qed.

Lemma ClearOffline_refines u until : ok_id u →
  refines msg_rep (ClearOffline u until) (a_ClearOffline u until).
Proof.
  intros Hu d M r d' Hr Hop. unfold ClearOffline, a_ClearOffline in *.
  rewrite decide_False in Hop by apply Hu.
  destruct (scan_offline d M u Hr Hu) as (l & Hl & _ & Hin & _).
  assert (∀ k, k ∈ (db_scan d (PrefixOffline u)).*1 ↔ ∃ m, k = rev_key (PrefixOffline u) m ∧
    msgs M !! md_msg_id m = Some m ∧ (u, md_msg_id m) ∈ queue M) as Hks.
  { intros k. rewrite Hl, list_elem_of_fmap. split; intros (m & ? & ?); exists m; by rewrite ?Hin in *. }
  destruct (decide (until = "")) as [->|Hne].
  - rewrite decide_False by naive_solver. munfold Hop. unfold kv_write, kv_commit in Hop.
    destruct (db_Write d _) as [d1|] eqn:Hw; simplify_eq; split; try done.
    eexists; split; [done|].
    change (λ e : string * string, WDelete e.1) with (WDelete ∘ fst (B:=string)) in Hw.
    rewrite list_fmap_compose in Hw.
    eapply (msg_rep_delete_queue d d' M u (λ _, True)); [done| |exact Hw|set_solver|].
    + intros k. rewrite Hks. naive_solver.
    + intros u' id m Hq Hm. rewrite elem_of_filter. unfold stays. simpl. naive_solver.
  - munfold Hop. rewrite (GetById_rep _ _ _ Hr) in Hop.
    destruct (msgs M !! until) as [b|] eqn:Hb.
    2: { rewrite decide_True by done. simplify_eq. split; [|done]. eauto. }
    rewrite decide_False by naive_solver. unfold kv_write, kv_commit in Hop.
    destruct (db_Write d _) as [d1|] eqn:Hw; simplify_eq; split; try done.
    eexists; split; [done|].
    rewrite (until_deletes_spec _ _ _ l Hl) in Hw.
    2: { intros m [Hm _]%Hin. by destruct (msg_rep_msg _ _ _ _ Hr Hm) as ([??]&_&?&_). }
    eapply (msg_rep_delete_queue d d' M u (λ m, md_timestamp m ≤ md_timestamp b));
      [done| |exact Hw|set_solver|].
    + intros k. rewrite list_elem_of_fmap. setoid_rewrite list_elem_of_filter.
      setoid_rewrite Hin. naive_solver.
    + intros u' id m Hq Hm. rewrite elem_of_filter. unfold stays. simpl. split.
      * intros [[?|[_ Hst]] _] [-> ?]; [done|]. specialize (Hst _ _ Hm Hb). lia.
      * intros Hn. split; [|done]. destruct (decide (u' = u)) as [->|]; [right|by left].
        split; [done|]. intros m' b' Hm' Hb'.
        assert (m' = m) as -> by congruence. assert (b' = b) as -> by congruence.
        destruct (Z_le_gt_dec (md_timestamp m) (md_timestamp b)); [naive_solver|lia].
Qed.

(** ** Reads *)

(** The loop of [GetHistory] keeps the messages older than the cutoff, up to the limit. *)
Lemma history_keys_spec p cutoff limit n sc l : n < limit →
  sc.*1 = rev_key p <$> l → (∀ m, m ∈ l → usable m) →
  history_keys p cutoff limit n sc = (λ m, (rev_of m, md_msg_id m)) <$>
    take (Z.to_nat (limit - n)) (filter (λ m, ¬ (0 ≤ cutoff ∧ MAX_TS - md_timestamp m ≤ cutoff)) l).
Proof.
  revert l n. induction sc as [|[k v] sc IH]; intros [|m l] n Hn Hl Hok; csimpl in Hl; simplify_eq.
  { by rewrite filter_nil, take_nil. }
  destruct (Hok m ltac:(left)) as [Hwm Hidm]. cbn [history_keys fst].
  assert (∀ m, m ∈ l → usable m) as Hok' by (intros; apply Hok; by right).
  rewrite (proj1 (parse_rev_key _ m Hidm)), stoll_rev_of by done.
  rewrite decide_False by (unfold rev_of, RevTs; rewrite dec_size; lia).
  rewrite filter_cons.
  destruct (decide (0 ≤ cutoff ∧ MAX_TS - md_timestamp m ≤ cutoff)) as [Hcut|Hcut].
  - rewrite decide_False by tauto. by apply IH.
  - rewrite (decide_True (P := ¬ _)) by tauto.
    replace (Z.to_nat (limit - n)) with (S (Z.to_nat (limit - (n + 1)))) by lia.
    csimpl. f_equal. destruct (decide (limit ≤ n + 1)); [|apply IH; [lia|done..]].
    by replace (Z.to_nat (limit - (n + 1))) with 0%nat by lia.
Qed.

Lemma omap_GetById d M (l : list MessageData) : msg_rep d M → (∀ m, m ∈ l → msgs M !! md_msg_id m = Some m) →
  omap (λ p : string * string, GetById d p.2) ((λ m, (rev_of m, md_msg_id m)) <$> l) = l.
Proof.
  intros Hr. induction l as [|m l IH]; intros Hin; csimpl; [done|].
  rewrite (GetById_rep _ _ _ Hr), Hin by left. f_equal. apply IH. intros; apply Hin; by right.
Qed.

Lemma StronglySorted_filter {A} (R : A → A → Prop) (P : A → Prop) `{∀ x, Decision (P x)} l :
  StronglySorted R l → StronglySorted R (filter P l).
Proof.
  induction 1 as [|x l Hs IH Hall]; [constructor|]. rewrite filter_cons.
  case_decide; [|done]. constructor; [done|].
  rewrite Forall_forall in *. intros y [_ ?]%list_elem_of_filter. auto.
Qed.

Lemma GetHistory_spec d M c ct before limit : msg_rep d M → ok_id c → 0 < limit →
  before = "" ∨ (∃ b, msgs M !! before = Some b ∧ (md_conversation_id b = c ∨ md_to_id b = c)) →
  ∃ l, StronglySorted newer l ∧ NoDup l ∧
    (∀ m, m ∈ l ↔ msgs M !! md_msg_id m = Some m ∧ timeline m = c ∧
      ∀ b, msgs M !! before = Some b → md_timestamp m < md_timestamp b) ∧
    GetHistory d c ct before limit = take (Z.to_nat limit) l.
Proof.
  intros Hr Hc Hlim Hbefore. destruct (scan_chat d M c Hr Hc) as (l & Hl & Hnd & Hin & Hs).
  assert (∀ m, m ∈ l → usable m) as Hok.
  { intros m [Hm _]%Hin. by destruct (msg_rep_msg _ _ _ _ Hr Hm) as ([??]&_&?&_). }
  assert (∀ cutoff, omap (λ p : string * string, GetById d p.2)
      (history_keys (PrefixChat c) cutoff limit 0 (db_scan d (PrefixChat c))) =
    take (Z.to_nat limit) (filter (λ m, ¬ (0 ≤ cutoff ∧ MAX_TS - md_timestamp m ≤ cutoff)) l))
    as Hcol.
  { intros cutoff. rewrite (history_keys_spec _ _ _ _ _ l) by done. rewrite Z.sub_0_r.
    apply (omap_GetById _ M); [done|]. intros m Hm. apply Hin.
    eapply elem_of_sublist in Hm; [|apply sublist_take].
    by apply list_elem_of_filter in Hm as [_ ?]. }
  unfold GetHistory. rewrite decide_False by (destruct Hc; intros [?|?]; [done|lia]).
  destruct Hbefore as [->|(b & Hb & Hbc)].
  - rewrite decide_True by done. rewrite Hcol. refine (ex_intro _ _ (conj _ (conj _ (conj _ eq_refl))));
      [apply StronglySorted_filter, Hs|by apply NoDup_filter|].
    intros m. rewrite list_elem_of_filter, Hin.
    assert (msgs M !! "" = None) as ->.
    { apply eq_None_not_Some. intros [m' Hm'].
      by destruct (msg_rep_msg _ _ _ _ Hr Hm') as ([? _]&_). }
    split; [naive_solver|]. intros (?&?&_). split; [lia|done].
  - destruct (msg_rep_msg _ _ _ _ Hr Hb) as ([Hne _]&_&[Hwb _]&_).
    rewrite decide_False by done. rewrite (GetById_rep _ _ _ Hr), Hb.
    rewrite decide_False by naive_solver. rewrite Hcol. refine (ex_intro _ _ (conj _ (conj _ (conj _ eq_refl))));
      [apply StronglySorted_filter, Hs|by apply NoDup_filter|].
    intros m. rewrite list_elem_of_filter, Hin, wrap64_id
      by (unfold int64_range, MAX_TS in *; lia).
    split.
    + intros [Hn [? ?]]. split_and!; [done..|]. intros b' [= <-]. lia.
    + intros (?&?&Hlt). specialize (Hlt b eq_refl). split; [|done]. lia.
Qed.

(** Everything up to the first message with the reversed timestamp [cursor]. *)
Fixpoint drop_through (cursor : string) (l : list MessageData) : list MessageData :=
  match l with
  | [] => []
  | m :: l' => if decide (rev_of m = cursor) then l' else drop_through cursor l'
  end.

Lemma pull_loop_spec get p cursor limit n r sc l : n < limit →
  sc.*1 = rev_key p <$> l → (∀ m, m ∈ l → usable m ∧ get (md_msg_id m) = Some m) →
  ∃ rest, pull_loop get p cursor limit false n r sc =
    (take (Z.to_nat (limit - n)) l, n + Z.of_nat (Nat.min (Z.to_nat (limit - n)) (length l)),
     default r (rev_of <$> last (take (Z.to_nat (limit - n)) l)), rest) ∧
    (limit ≤ n + Z.of_nat (Nat.min (Z.to_nat (limit - n)) (length l)) →
      length rest = S (length (drop (Z.to_nat (limit - n)) l))).
Proof.
  revert l n r. induction sc as [|[k v] sc IH]; intros [|m l] n r Hn Hl Hok; csimpl in Hl; simplify_eq.
  { exists []. rewrite take_nil. simpl. rewrite Nat.min_0_r, Z.add_0_r. split; [done|lia]. }
  destruct (Hok m ltac:(left)) as [[Hwm Hidm] Hget]. cbn [pull_loop fst].
  rewrite (proj2 (parse_rev_key _ m Hidm)), decide_False by naive_solver. rewrite Hget.
  replace (Z.to_nat (limit - n)) with (S (Z.to_nat (limit - (n + 1)))) by lia.
  set (j := Z.to_nat (limit - (n + 1))). case_decide as Hlim.
  - assert (j = 0%nat) as -> by (unfold j; lia). eexists. split; [simpl; repeat f_equal; lia|].
    intros _. csimpl. match goal with H : sc.*1 = _ |- _ =>
      apply (f_equal length) in H; rewrite !length_fmap in H; by rewrite H end.
  - destruct (IH l (n + 1) (rev_of m)) as (rest & Heq & Hrest); [lia|done|intros; apply Hok; by right|].
    rewrite Heq. exists rest. fold j in Hrest |- *. split.
    + simpl. rewrite last_cons.
      replace (n + 1 + Z.of_nat (j `min` length l)) with (n + Z.of_nat (S (j `min` length l))) by lia.
      by destruct (last (take j l)).
    + intros Hle. simpl. apply Hrest. simpl in Hle. lia.
Qed.

Lemma pull_loop_skip get p cursor limit n r sc l :
  sc.*1 = rev_key p <$> l → (∀ m, m ∈ l → usable m) →
  ∃ sc', sc'.*1 = rev_key p <$> drop_through cursor l ∧
    pull_loop get p cursor limit true n r sc = pull_loop get p cursor limit false n r sc'.
Proof.
  revert l. induction sc as [|[k v] sc IH]; intros [|m l] Hl Hok; csimpl in Hl; simplify_eq.
  { by exists []. }
  destruct (Hok m ltac:(left)) as [Hwm Hidm]. cbn [pull_loop drop_through fst].
  rewrite (proj2 (parse_rev_key _ m Hidm)).
  destruct (decide (rev_of m = cursor)) as [Hc|Hc].
  - rewrite decide_True by done. by exists sc.
  - rewrite decide_False by naive_solver. apply IH; [done|]. intros; apply Hok; by right.
Qed.

(** The messages of a queue that follow a cursor. *)
Definition after_cursor (cursor : string) (l : list MessageData) : list MessageData :=
  if decide (cursor = "") then l else drop_through cursor l.

(** One page of [l], with [next_cursor] and [has_more]. *)
Definition page (n : nat) (l : list MessageData) : list MessageData * string * bool :=
  (take n l,
   if decide (n < length l)%nat then default "" (rev_of <$> last (take n l)) else "",
   bool_decide (n < length l)%nat).

Lemma drop_through_elem cursor l m : m ∈ drop_through cursor l → m ∈ l.
Proof. induction l; simpl; [done|]. case_decide; set_solver. Qed.
Lemma after_cursor_elem cursor l m : m ∈ after_cursor cursor l → m ∈ l.
Proof. unfold after_cursor. case_decide; [done|]. apply drop_through_elem. Qed.

Lemma PullOffline_spec d M u : msg_rep d M → ok_id u →
  ∃ l, StronglySorted newer l ∧ NoDup l ∧
    (∀ m, m ∈ l ↔ msgs M !! md_msg_id m = Some m ∧ (u, md_msg_id m) ∈ queue M) ∧
    ∀ cursor limit, 0 < limit →
      PullOffline d u cursor limit = page (Z.to_nat limit) (after_cursor cursor l).
Proof.
  intros Hr Hu. destruct (scan_offline d M u Hr Hu) as (l & Hl & Hnd & Hin & Hs).
  exists l. split_and!; try done. intros cursor limit Hlim.
  assert (∀ m, m ∈ l → usable m ∧ GetById d (md_msg_id m) = Some m) as Hok.
  { intros m [Hm _]%Hin. rewrite (GetById_rep _ _ _ Hr).
    by destruct (msg_rep_msg _ _ _ _ Hr Hm) as ([??]&_&?&_). }
  unfold PullOffline. rewrite decide_False by (destruct Hu; intros [?|?]; [done|lia]).
  assert (∃ sc, sc.*1 = rev_key (PrefixOffline u) <$> after_cursor cursor l ∧
    pull_loop (GetById d) (PrefixOffline u) cursor limit (bool_decide (cursor ≠ "")) 0 ""
      (db_scan d (PrefixOffline u)) =
    pull_loop (GetById d) (PrefixOffline u) cursor limit false 0 "" sc) as (sc & Hsc & ->).
  { unfold after_cursor. case_bool_decide as Hc.
    - rewrite decide_False by done. apply pull_loop_skip; [done|]. intros; by apply Hok.
    - rewrite decide_True by (by destruct (decide (cursor = ""))). eauto. }
  assert (∀ m, m ∈ after_cursor cursor l → usable m ∧ GetById d (md_msg_id m) = Some m) as Hok'
    by (intros m ?%after_cursor_elem; auto).
  revert Hsc Hok'. generalize (after_cursor cursor l) as l'. clear Hl Hnd Hin Hs Hok.
  intros l' Hsc Hok.
  destruct (pull_loop_spec (GetById d) (PrefixOffline u) cursor limit 0 "" sc l')
    as (rest & -> & Hrest); [lia|done..|].
  rewrite Z.sub_0_r in *. set (n := Z.to_nat limit) in *. rewrite Z.add_0_l in *.
  unfold page. destruct (decide (limit ≤ Z.of_nat (n `min` length l'))) as [Hle|Hgt].
  - specialize (Hrest Hle). destruct rest as [|e rest]; [done|]. simpl in Hrest.
    rewrite decide_True by done. simpl. rewrite length_drop in Hrest.
    destruct rest as [|e' rest]; simpl in Hrest.
    + rewrite decide_False, bool_decide_false by lia. done.
    + by rewrite decide_True, bool_decide_true by lia.
  - rewrite decide_False by naive_solver. by rewrite decide_False, bool_decide_false by lia.
Qed.

(** A client that pulls page after page, with the cursor it was given last. *)
Fixpoint pull_all (d : db) (u : string) (limit : Z) (fuel : nat) (cursor : string)
    : list MessageData :=
  match fuel with
  | O => []
  | S fuel' =>
      let '(ms, next, more) := PullOffline d u cursor limit in
      ms ++ if (more : bool) then pull_all d u limit fuel' next else []
  end.

Lemma pull_all_step d u limit fuel cursor : pull_all d u limit (S fuel) cursor =
  let '(ms, next, more) := PullOffline d u cursor limit in
  ms ++ if (more : bool) then pull_all d u limit fuel next else [].
Proof. done. Qed.

Lemma drop_through_app pre m post : NoDup (rev_of <$> pre ++ m :: post) →
  drop_through (rev_of m) (pre ++ m :: post) = post.
Proof.
  induction pre as [|x pre IH]; csimpl; intros Hnd.
  - by rewrite decide_True.
  - apply NoDup_cons in Hnd as [Hni Hnd]. rewrite decide_False; [by apply IH|].
    intros Heq. apply Hni. rewrite Heq, fmap_app. csimpl. set_solver.
Qed.

Lemma pull_all_spec d M u limit : msg_rep d M → ok_id u → 0 < limit →
  ∃ l, StronglySorted newer l ∧ NoDup l ∧
    (∀ m, m ∈ l ↔ msgs M !! md_msg_id m = Some m ∧ (u, md_msg_id m) ∈ queue M) ∧
    (NoDup (rev_of <$> l) → ∀ fuel, (length l ≤ fuel)%nat → pull_all d u limit (S fuel) "" = l).
Proof.
  intros Hr Hu Hlim. destruct (PullOffline_spec d M u Hr Hu) as (l & Hs & Hnd & Hin & Hpull).
  exists l. split_and!; try done. intros Hrev.
  assert (∀ fuel pre post cursor, l = pre ++ post → (length post ≤ fuel)%nat →
    after_cursor cursor l = post → pull_all d u limit (S fuel) cursor = post) as Hall.
  { induction fuel as [|fuel IH]; intros pre post cursor Hl Hfuel Hcur;
      rewrite pull_all_step, Hpull, Hcur by done; unfold page.
    - destruct post; [|simpl in *; lia]. by rewrite take_nil.
    - set (n := Z.to_nat limit). case_bool_decide as Hmore.
      2: { rewrite app_nil_r. apply take_ge. lia. }
      rewrite decide_True by done.
      destruct (last (take n post)) as [m|] eqn:Hlast.
      2: { apply last_None in Hlast. destruct post, n eqn:?; simplify_eq/=; lia. }
      apply last_Some in Hlast as (pre' & Hpre').
      assert (post = pre' ++ m :: drop n post) as Hpost.
      { rewrite <-(take_drop n post) at 1. by rewrite Hpre', <-app_assoc. }
      assert (l = (pre ++ pre') ++ m :: drop n post) as Hl'
        by by rewrite <-app_assoc, <-Hpost.
      rewrite (IH (pre ++ pre' ++ [m]) (drop n post)).
      + apply take_drop.
      + rewrite Hl' at 1. by rewrite <-!app_assoc.
      + rewrite length_drop. lia.
      + simpl. unfold after_cursor. rewrite decide_False.
        * rewrite Hl' at 1. apply drop_through_app. by rewrite <-Hl'.
        * intros He. apply (f_equal str_size) in He. unfold rev_of, RevTs in He.
          by rewrite dec_size in He. }
  intros fuel Hfuel. by apply (Hall fuel [] l "").
Qed.
End Refinement.

(** * The store as a whole *)

Inductive mstore_op : Type :=
  | OpSave (m : MessageData)
  | OpMarkRecalled (id : string) (t : Z)
  | OpAddToOffline (u id : string)
  | OpClearOffline (u until : string).

Definition mstore_run {db} `{!RocksDB db} `{!JsonLib} (op : mstore_op) : M db bool :=
  match op with
  | OpSave m => Save m
  | OpMarkRecalled id t => MarkRecalled id t
  | OpAddToOffline u id => AddToOffline u id
  | OpClearOffline u until => ClearOffline u until
  end.
Definition mstore_abs (op : mstore_op) : mmodel → option mmodel :=
  match op with
  | OpSave m => a_Save m
  | OpMarkRecalled id t => a_MarkRecalled id t
  | OpAddToOffline u id => a_AddToOffline u id
  | OpClearOffline u until => a_ClearOffline u until
  end.
(** Identifiers are usable as key fields, timestamps are between 1970 and 2286. *)
Definition mstore_ok (op : mstore_op) : Prop :=
  match op with
  | OpSave m => ok_id (md_msg_id m) ∧ md_from_user_id m ≠ "" ∧ wf_message m ∧ ok_id (timeline m)
  | OpMarkRecalled _ _ => True
  | OpAddToOffline u _ | OpClearOffline u _ => ok_id u
  end.

Section Properties.
Context {db : Type} `{!RocksDB db} `{!RocksDBLaws db} `{!JsonLib} `{!JsonLaws}.
Implicit Types d : db.

Lemma mstore_refines op : mstore_ok op → refines msg_rep (mstore_run op) (mstore_abs op).
Proof.
  destruct op; simpl; [intros (?&?&?&?); by apply Save_refines|intros _; apply MarkRecalled_refines
    |apply AddToOffline_refines|apply ClearOffline_refines].
Qed.

(** C2: the message store over RocksDB refines its abstract specification, a map
    from ids to messages and a set of queued (user, message) pairs, for operations
    whose ids can be told apart in a key: the message that is saved has a sender, and
    its id, its conversation and the users of the queues are not empty and have
    no ':' in them; its timestamp is a time in milliseconds from 1970 to 2286 and its type and status
    are 32 bits wide.  The store checks only that ids are not empty; with a ':' in
    an id the claim is false ([clear_offline_of_another_user]).  Such an operation
    returns true exactly as the abstract operation says and
    then represents its result; if it returns false or throws, the represented
    store is unchanged; and reading a message by id reads the map. *)
Theorem message_store_refines op d M r d' : mstore_ok op → msg_rep d M →
  mstore_run op d = (r, d') →
  ∃ M', msg_rep d' M' ∧ (∀ id, GetById d' id = msgs M' !! id) ∧
    match r with
    | Ret true => mstore_abs op M = Some M'
    | _ => M' = M
    end ∧ (mstore_abs op M = None → r = Ret false).
Proof.
  intros Hok Hr Hrun. destruct (mstore_refines op Hok _ _ _ _ Hr Hrun) as [Hres Href].
  destruct r as [[]|]; [destruct Hres as (M' & ? & ?); exists M'|exists M..];
    split_and!; try done; intros id; by apply GetById_rep.
Qed.

(** [GetHistory] returns the newest [limit] messages of the conversation,
    newest first; with [before_msg_id] those strictly older than that message. *)
Theorem GetHistory_newest_first d M c ct before limit : msg_rep d M → ok_id c → 0 < limit →
  before = "" ∨ (∃ b, msgs M !! before = Some b ∧ (md_conversation_id b = c ∨ md_to_id b = c)) →
  ∃ l, StronglySorted newer l ∧ NoDup l ∧
    (∀ m, m ∈ l ↔ msgs M !! md_msg_id m = Some m ∧ timeline m = c ∧
      ∀ b, msgs M !! before = Some b → md_timestamp m < md_timestamp b) ∧
    GetHistory d c ct before limit = take (Z.to_nat limit) l.
Proof. apply GetHistory_spec. Qed.

(** C38: a client that pulls its offline queue page by page, with the cursor it
    was given, terminates and receives every queued message exactly once,
    newest first, provided no two queued messages have the same timestamp. *)
Theorem PullOffline_pages_complete d M u limit : msg_rep d M → ok_id u → 0 < limit →
  ∃ l, StronglySorted newer l ∧ NoDup l ∧
    (∀ m, m ∈ l ↔ msgs M !! md_msg_id m = Some m ∧ (u, md_msg_id m) ∈ queue M) ∧
    (NoDup (rev_of <$> l) → ∀ fuel, (length l ≤ fuel)%nat → pull_all d u limit (S fuel) "" = l).
Proof. apply pull_all_spec. Qed.
End Properties.

(** ** Concrete runs *)

Definition msg0 (id : string) (ts : Z) : MessageData :=
  {| md_msg_id := id; md_from_user_id := "a"; md_to_id := "b"; md_conversation_id := "p_a_b";
     md_chat_type := 1; md_content := "hi"; md_media_url := ""; md_media_type := "text";
     md_mentions := []; md_reply_to_msg_id := ""; md_timestamp := ts; md_status := 0;
     md_recall_at := 0 |}.

(** Save a message for "b" and queue it. *)
Definition deliver (m : MessageData) : M MemDB bool :=
  _ ← Save m; AddToOffline "b" (md_msg_id m).
Notation db_two := (snd ((_ ← deliver (msg0 "m1" 1000); deliver (msg0 "m2" 2000)) mem_empty)).
Notation db_same := (snd ((_ ← deliver (msg0 "m1" 5000); _ ← deliver (msg0 "m2" 5000);
  deliver (msg0 "m3" 5000)) mem_empty)).

Definition mm0 : mmodel := {| msgs := ∅; queue := ∅ |}.
Lemma mem_empty_msg_rep : msg_rep mem_empty mm0.
Proof. apply msg_rep_empty. intros k. apply lookup_empty. Qed.

Lemma deliver_rep (d : MemDB) M m : msg_rep d M → mstore_ok (OpSave m) →
  msgs M !! md_msg_id m = None → fst (deliver m d) = Ret true →
  msg_rep (snd (deliver m d)) {| msgs := <[md_msg_id m := m]> (msgs M);
    queue := {[ ("b", md_msg_id m) ]} ∪ queue M |}.
Proof.
  intros Hr Hok Hnew Hres. unfold deliver, mbind, M_bind in *.
  destruct (Save m d) as [r d1] eqn:Hs.
  destruct (mstore_refines (OpSave m) Hok _ _ _ _ Hr Hs) as [Hsv Hrf].
  assert (r = Ret true) as ->.
  { destruct r as [[]|]; [done| |done].
    destruct (AddToOffline "b" (md_msg_id m) d1) as [r2 d2] eqn:Ha. simpl in Hres. subst r2.
    destruct (mstore_refines (OpAddToOffline "b" _) ltac:(done) _ _ _ _ Hsv Ha) as [(M2 & HM2 & _) _].
    simpl in HM2. unfold a_AddToOffline in HM2. by rewrite Hnew in HM2. }
  destruct Hsv as (M1 & HM1 & Hr1). simpl in HM1. unfold a_Save in HM1. rewrite Hnew in HM1.
  injection HM1 as <-. destruct (AddToOffline "b" (md_msg_id m) d1) as [r2 d2] eqn:Ha.
  simpl in Hres. subst r2.
  destruct (mstore_refines (OpAddToOffline "b" _) ltac:(done) _ _ _ _ Hr1 Ha) as [(M2 & HM2 & Hr2) _].
  simpl in HM2. unfold a_AddToOffline in HM2. simpl in HM2. rewrite lookup_insert_eq in HM2.
  by injection HM2 as <-.
Qed.

Lemma msg0_ok id ts : ok_id id → 1 ≤ ts ≤ MAX_TS → mstore_ok (OpSave (msg0 id ts)).
Proof. intros ??. by split_and!. Qed.

Lemma db_two_rep : msg_rep db_two
  {| msgs := {[ "m2" := msg0 "m2" 2000; "m1" := msg0 "m1" 1000 ]};
     queue := {[ ("b", "m2") ]} ∪ ({[ ("b", "m1") ]} ∪ ∅) |}.
Proof.
  assert (fst (deliver (msg0 "m1" 1000) mem_empty) = Ret true) as H1 by eval_eq.
  pose proof (deliver_rep _ _ (msg0 "m1" 1000) mem_empty_msg_rep
    ltac:(by apply msg0_ok) ltac:(done) H1) as Hr1.
  assert (fst (deliver (msg0 "m2" 2000) (snd (deliver (msg0 "m1" 1000) mem_empty))) = Ret true)
    as H2 by eval_eq.
  revert H1 H2 Hr1. unfold mbind, M_bind.
  destruct (deliver (msg0 "m1" 1000) mem_empty) as [r d1]. simpl. intros -> H2 Hr1.
  apply (deliver_rep d1 _ (msg0 "m2" 2000) Hr1); [by apply msg0_ok| |exact H2].
  simpl. by rewrite lookup_insert_ne.
Qed.

Lemma message_store_refines_witness :
  ∃ d' M', MarkRecalled "m1" 3000 db_two = (Ret true, d') ∧ msg_rep d' M' ∧
    md_status <$> msgs M' !! "m1" = Some 1.
Proof.
  assert (MarkRecalled "m1" 3000 db_two = (Ret true, snd (MarkRecalled "m1" 3000 db_two)))
    as Hrun by eval_run.
  destruct (message_store_refines (OpMarkRecalled "m1" 3000) _ _ _ _ I db_two_rep Hrun)
    as (M' & Hr & _ & Ha & _).
  exists (snd (MarkRecalled "m1" 3000 db_two)), M'. split; [exact Hrun|]. split; [exact Hr|].
  simpl in Ha. unfold a_MarkRecalled in Ha. simpl in Ha.
  rewrite lookup_insert_ne, lookup_singleton_eq in Ha by done. injection Ha as <-. simpl.
  by rewrite lookup_insert_eq.
Defined.

Lemma GetHistory_newest_first_witness :
  ∃ l, StronglySorted newer l ∧ md_msg_id <$> take 10 l = ["m2"; "m1"] ∧
    GetHistory db_two "p_a_b" 1 "" 10 = take 10 l.
Proof.
  destruct (GetHistory_newest_first db_two _ "p_a_b" 1 "" 10 db_two_rep ltac:(done) ltac:(lia)
    ltac:(by left)) as (l & Hs & _ & _ & Hl).
  exists l. split; [exact Hs|]. split; [|exact Hl].
  rewrite <-(f_equal (fmap md_msg_id) Hl : md_msg_id <$> GetHistory db_two "p_a_b" 1 "" 10 =
    md_msg_id <$> take 10 l). eval_eq.
Defined.

Lemma PullOffline_pages_complete_witness :
  ∃ l, StronglySorted newer l ∧ NoDup (rev_of <$> l) ∧ length l = 2%nat ∧
    pull_all db_two "b" 1 3 "" = l.
Proof.
  destruct (PullOffline_pages_complete db_two _ "b" 1 db_two_rep ltac:(done) ltac:(lia))
    as (l & Hs & Hnd & Hin & Hl).
  assert (l ≡ₚ [msg0 "m2" 2000; msg0 "m1" 1000]) as Hp.
  { apply NoDup_Permutation; [done|by repeat constructor; set_solver|].
    intros m. rewrite Hin, !elem_of_cons. simpl. rewrite lookup_insert, lookup_singleton. split.
    - intros [Hm _]. repeat case_decide; simplify_eq; auto.
    - intros [->|[->|[]%elem_of_nil]]; simpl; (split; [done|set_solver]). }
  assert (NoDup (rev_of <$> l)) as Hrev.
  { rewrite Hp. apply NoDup_cons. split; [|apply NoDup_singleton].
    rewrite list_elem_of_singleton. by vm_compute. }
  apply Permutation_length in Hp as Hlen. simpl in Hlen.
  exists l. refine (conj Hs (conj Hrev (conj Hlen _))). apply Hl; [done|]. by rewrite Hlen.
Defined.

(** a ':' in the id of a user: clearing the queue of "x" also empties the queue of "x:y". *)
Theorem clear_offline_of_another_user :
  let m := msg0 "m1" 1000 in
  let d := snd ((_ ← Save m; AddToOffline "x:y" "m1") mem_empty) in
  PullOffline d "x:y" "" 10 = ([m], "", false) ∧
  fst (ClearOffline "x" "" d) = Ret true ∧
  PullOffline (snd (ClearOffline "x" "" d)) "x:y" "" 10 = ([], "", false).
Proof. cbv zeta. split_and!; eval_eq. Qed.

(** the cursor is a timestamp only.  With three queued messages of the same
    timestamp and pages of one message, the cursor returned by the second page
    is the cursor it was given: [has_more] stays true and the same message is
    delivered again for ever, the third one never. *)
Theorem PullOffline_equal_timestamps_loop :
  let cursor := RevTs 5000 in
  PullOffline db_same "b" "" 1 = ([msg0 "m1" 5000], cursor, true) ∧
  PullOffline db_same "b" cursor 1 = ([msg0 "m2" 5000], cursor, true) ∧
  is_Some (db_Get db_same (KeyOffline "b" 5000 "m3")) ∧
  ∀ fuel, msg0 "m3" 5000 ∉ pull_all db_same "b" 1 fuel "".
Proof.
  assert (PullOffline db_same "b" "" 1 = ([msg0 "m1" 5000], RevTs 5000, true)) as H1 by eval_eq.
  assert (PullOffline db_same "b" (RevTs 5000) 1 = ([msg0 "m2" 5000], RevTs 5000, true))
    as H2 by eval_eq.
  assert (db_Get db_same (KeyOffline "b" 5000 "m3") = Some "") as H3 by eval_eq.
  split; [exact H1|]. split; [exact H2|]. split; [rewrite H3; eauto|].
  assert (∀ fuel, msg0 "m3" 5000 ∉ pull_all db_same "b" 1 fuel (RevTs 5000)) as Hloop.
  { induction fuel as [|fuel IH]; [apply not_elem_of_nil|].
    rewrite pull_all_step, H2, not_elem_of_app. split; [|exact IH]. by intros ?%list_elem_of_singleton. }
  intros [|fuel]; [apply not_elem_of_nil|]. rewrite pull_all_step, H1, not_elem_of_app.
  split; [by intros ?%list_elem_of_singleton|apply Hloop].
Qed.
