(* ===== verification/ConvStore.v ===== *)
(** [chatsvr/internal/store/message_store.{h,cpp}], [ConversationStore] and
    [ConversationRegistry]: the list of conversations each user sees, with the
    unread counters, and the registry of private conversations. *)

From S2P Require Import Prelude External.

(** * Data *)

(** [struct ConversationData] *)
Record ConversationData : Type := {
  cd_conversation_id : string;
  cd_chat_type : Z;       (* int *)
  cd_peer_id : string;
  cd_last_msg_id : string;
  cd_unread_count : Z;    (* int *)
  cd_updated_at : Z;      (* int64_t *)
  cd_is_pinned : bool;
  cd_is_muted : bool;
}.
#[global] Instance ConversationData_eq_dec : EqDecision ConversationData.
Proof. solve_decision. Defined.

Definition cd_set_unread (n : Z) (c : ConversationData) : ConversationData :=
  {| cd_conversation_id := cd_conversation_id c; cd_chat_type := cd_chat_type c;
     cd_peer_id := cd_peer_id c; cd_last_msg_id := cd_last_msg_id c; cd_unread_count := n;
     cd_updated_at := cd_updated_at c; cd_is_pinned := cd_is_pinned c;
     cd_is_muted := cd_is_muted c |}.

Section Serialization.
Context `{!JsonLib}.

Definition SerializeConversation (c : ConversationData) : option string :=
  js_dump (js_obj [
    ("conversation_id", JStr (cd_conversation_id c));
    ("chat_type", JInt (cd_chat_type c));
    ("peer_id", JStr (cd_peer_id c));
    ("last_msg_id", JStr (cd_last_msg_id c));
    ("unread_count", JInt (cd_unread_count c));
    ("updated_at", JInt (cd_updated_at c));
    ("is_pinned", JBool (cd_is_pinned c));
    ("is_muted", JBool (cd_is_muted c))]).

Definition DeserializeConversation (data : string) : option ConversationData :=
  j ← js_parse data;
  chat_id ← js_str j "chat_id" "";
  conversation_id ← js_str j "conversation_id" chat_id;
  chat_type ← js_int32 j "chat_type" 1;
  peer_id ← js_str j "peer_id" "";
  last_msg_id ← js_str j "last_msg_id" "";
  unread_count ← js_int32 j "unread_count" 0;
  updated_at ← js_int j "updated_at" 0;
  is_pinned ← js_bool j "is_pinned" false;
  is_muted ← js_bool j "is_muted" false;
  Some {| cd_conversation_id := conversation_id; cd_chat_type := chat_type;
          cd_peer_id := peer_id; cd_last_msg_id := last_msg_id;
          cd_unread_count := unread_count; cd_updated_at := updated_at;
          cd_is_pinned := is_pinned; cd_is_muted := is_muted |}.
End Serialization.

(** ** Keys *)

Definition K_CONV : string := "conv:".
Definition K_CONV_META : string := "conv_meta:".
Definition KeyConv (user_id conversation_id : string) : string :=
  K_CONV +:+ user_id +:+ ":" +:+ conversation_id.
Definition KeyConvMeta (conversation_id : string) : string := K_CONV_META +:+ conversation_id.
Definition PrefixConv (user_id : string) : string := K_CONV +:+ user_id +:+ ":".

(** ** Operations *)
Section RocksDBConversationStore.
Context {db : Type} `{!RocksDB db} `{!JsonLib}.
Implicit Types d : db.

Definition RocksDBConversationStore (DB_Open : string → option db) (db_path : string) : outcome db :=
  match DB_Open db_path with Some d => Ret d | None => Exc end.

Definition Upsert (user_id : string) (conv : ConversationData) : M db bool :=
  if decide (user_id = "" ∨ cd_conversation_id conv = "") then mret false else
  v ← or_throw (SerializeConversation conv);
  kv_put (KeyConv user_id (cd_conversation_id conv)) v.

Definition GetList (d : db) (user_id : string) : list ConversationData :=
  if decide (user_id = "") then [] else
  omap (λ e, DeserializeConversation e.2) (db_scan d (PrefixConv user_id)).

Definition Delete (user_id conversation_id : string) : M db bool :=
  if decide (user_id = "" ∨ conversation_id = "") then mret false else
  kv_delete (KeyConv user_id conversation_id).

(** [try { c = Deserialize(value); c.unread_count = f(c.unread_count); return Put(...).ok(); }
    catch (...) { return false; }] *)
Definition rewrite_unread (f : Z → Z) (user_id conversation_id : string) : M db bool :=
  if decide (user_id = "" ∨ conversation_id = "") then mret false else
  let key := KeyConv user_id conversation_id in
  value ← reads (λ d, db_Get d key);
  match value with
  | None => mret false
  | Some value =>
      try_catch
        (c ← or_throw (DeserializeConversation value);
         v ← or_throw (SerializeConversation (cd_set_unread (f (cd_unread_count c)) c));
         kv_put key v)
        (mret false)
  end.

Definition UpdateUnread (user_id conversation_id : string) (delta : Z) : M db bool :=
  rewrite_unread (λ n, Z.max 0 (wrap32 (n + delta))) user_id conversation_id.

Definition ClearUnread (user_id conversation_id : string) : M db bool :=
  rewrite_unread (λ _, 0) user_id conversation_id.

(** [RocksDBConversationRegistry]; the status of the write is not looked at. *)
Definition RocksDBConversationRegistry (DB_Open : string → option db) (db_path : string)
    : outcome db :=
  match DB_Open db_path with Some d => Ret d | None => Exc end.

Definition private_id (user_id_1 user_id_2 : string) : string :=
  let '(a, b) := if decide (String.le user_id_1 user_id_2) then (user_id_1, user_id_2)
                 else (user_id_2, user_id_1) in
  "p_" +:+ a +:+ "_" +:+ b.

Definition GetOrCreatePrivateConversation (user_id_1 user_id_2 : string) : M db string :=
  if decide (user_id_1 = "" ∨ user_id_2 = "") then mret "" else
  let conversation_id := private_id user_id_1 user_id_2 in
  let key := KeyConvMeta conversation_id in
  value ← reads (λ d, db_Get d key);
  match value with
  | Some _ => mret conversation_id
  | None =>
      v ← or_throw (js_dump (js_obj [("type", JStr "private")]));
      _ ← kv_put key v;
      mret conversation_id
  end.
End RocksDBConversationStore.

(** * Typed keys *)

Inductive CKey : Type := CConv (u c : string).   (* conv:{u}:{c} *)
#[global] Instance CKey_eq_dec : EqDecision CKey.
Proof. solve_decision. Defined.
#[global] Program Instance CKey_space : KeySpace CKey := {|
  key_str k := match k with CConv u c => KeyConv u c end;
  key_ok k := match k with CConv u c => ok_id u ∧ ok_id c end;
|}.
Next Obligation.
  unfold KeyConv, K_CONV, ok_id. intros [u c] [u' c'] [[_ ?] [_ ?]] Heq. simplify_eq.
  by destruct (field_inj u u' c c') as [-> ->].
Qed.

(** * The abstract store: a record per user and conversation *)

Notation cmodel := (gmap (string * string) ConversationData).

Definition wf_conv (c : ConversationData) : Prop :=
  int32_range (cd_chat_type c) ∧ int32_range (cd_unread_count c).

Definition a_Upsert (u : string) (c : ConversationData) (M : cmodel) : option cmodel :=
  Some (<[(u, cd_conversation_id c) := c]> M).
Definition a_Delete (u c : string) (M : cmodel) : option cmodel := Some (delete (u, c) M).
Definition a_unread (f : Z → Z) (u c : string) (M : cmodel) : option cmodel :=
  cd ← M !! (u, c); Some (<[(u, c) := cd_set_unread (f (cd_unread_count cd)) cd]> M).

Lemma DeserializeConversation_Serialize `{!JsonLib} `{!JsonLaws} c v :
  wf_conv c → SerializeConversation c = Some v → DeserializeConversation v = Some c.
Proof.
  intros [Hc Hs] Hv. unfold SerializeConversation, DeserializeConversation in *.
  apply js_parse_dump in Hv. rewrite Hv. js_simp.
  rewrite !wrap32_id by done. by destruct c.
Qed.
Lemma DeserializeConversation_wf `{!JsonLib} v c : DeserializeConversation v = Some c → wf_conv c.
Proof.
  unfold DeserializeConversation, js_int32. intros Hd.
  simplify_option_eq; split; apply wrap32_range.
Qed.

Section Rep.
Context {db : Type} `{!RocksDB db} `{!RocksDBLaws db} `{!JsonLib} `{!JsonLaws}.
Implicit Types d : db.

Definition conv_val (c v : string) (cd : ConversationData) : Prop :=
  DeserializeConversation v = Some cd ∧ cd_conversation_id cd = c.

Record conv_rep (d : db) (M : cmodel) : Prop := {
  cr_closed : keys_closed (K:=CKey) d;
  cr_conv u c : option_Forall2 (conv_val c) (kget d (CConv u c)) (M !! (u, c));
}.

Lemma conv_rep_ok d M u c cd : conv_rep d M → M !! (u, c) = Some cd →
  ok_id u ∧ ok_id c ∧ cd_conversation_id cd = c ∧ wf_conv cd.
Proof.
  intros Hr Hm. pose proof (cr_conv _ _ Hr u c) as Hv. rewrite Hm in Hv.
  inversion Hv as [v ? [Hd Hid] Hk|]; subst.
  destruct (kget_Some_ok d (CConv u (cd_conversation_id cd)) v (cr_closed _ _ Hr)) as [? ?]; [done|].
  split_and!; try done. all: by eapply DeserializeConversation_wf in Hd as [? ?].
Qed.

Lemma conv_rep_put d d' M u v cd : conv_rep d M → ok_id u → ok_id (cd_conversation_id cd) →
  DeserializeConversation v = Some cd → db_Put d (KeyConv u (cd_conversation_id cd)) v = Some d' →
  conv_rep d' (<[(u, cd_conversation_id cd) := cd]> M).
Proof.
  intros [Hcl Hc] Hu Hok Hd Hw.
  change (KeyConv u (cd_conversation_id cd)) with (key_str (CConv u (cd_conversation_id cd))) in Hw.
  apply kop_of_Put in Hw.
  assert (Forall (λ op, key_ok (kop_key op)) [KPut (CConv u (cd_conversation_id cd)) v]) by keys_ok.
  split; [by eapply keys_closed_write|]. intros u' c'. rewrite (kget_write _ _ _ _ ltac:(done) Hw).
  cbn [kbatch_get]. case_decide; simplify_eq.
  - rewrite lookup_insert_eq. by constructor.
  - by rewrite lookup_insert_ne by congruence.
Qed.

Lemma Upsert_refines u cd : ok_id u → ok_id (cd_conversation_id cd) → wf_conv cd →
  refines conv_rep (Upsert u cd) (a_Upsert u cd).
Proof.
  intros Hu Hc Hwf d M r d' Hr Hop. unfold Upsert in Hop.
  rewrite decide_False in Hop by (destruct Hu, Hc; naive_solver).
  dbrun Hop; split; try done. eexists; split; [done|].
  eapply conv_rep_put; eauto. by apply DeserializeConversation_Serialize.
Qed.

Lemma Delete_refines u c : ok_id u → ok_id c → refines conv_rep (Delete u c) (a_Delete u c).
Proof.
  intros Hu Hc d M r d' Hr Hop. unfold Delete in Hop.
  rewrite decide_False in Hop by (destruct Hu, Hc; naive_solver).
  dbrun Hop; split; try done. eexists; split; [done|].
  match goal with Hw : db_Delete d _ = Some d' |- _ =>
    change (KeyConv u c) with (key_str (CConv u c)) in Hw; apply kop_of_Delete in Hw;
    rename Hw into Hw1 end.
  assert (Forall (λ op, key_ok (kop_key op)) [KDel (CConv u c)]) by keys_ok.
  destruct Hr as [Hcl Hcv].
  split; [by eapply keys_closed_write|]. intros u' c'. rewrite (kget_write _ _ _ _ ltac:(done) Hw1).
  cbn [kbatch_get]. case_decide; simplify_eq.
  - rewrite lookup_delete_eq. constructor.
  - by rewrite lookup_delete_ne by congruence.
Qed.

Lemma rewrite_unread_refines f u c : (∀ n, int32_range n → int32_range (f n)) →
  refines conv_rep (rewrite_unread f u c) (a_unread f u c).
Proof.
  intros Hf d M r d' Hr Hop. unfold rewrite_unread, a_unread in *.
  pose proof (cr_conv _ _ Hr u c) as Hv. unfold kget in Hv. simpl in Hv.
  case_decide as Hne.
  { injection Hop as <- <-. split; [done|]. intros _. done. }
  munfold Hop. inversion Hv as [v cd [Hd Hid] Hk Hm|Hk Hm].
  2: { rewrite <-Hk in Hop. injection Hop as <- <-. by split. }
  rewrite <-Hk in Hop. unfold try_catch in Hop. munfold Hop. rewrite Hd in Hop. munfold Hop.
  destruct (SerializeConversation _) as [v'|] eqn:Hs; munfold Hop; [|injection Hop as <- <-; by split].
  unfold kv_put, kv_commit in Hop.
  destruct (db_Put d _ v') as [d1|] eqn:Hw; injection Hop as <- <-; split; try done.
  simpl. eexists; split; [done|].
  destruct (conv_rep_ok d M u c cd Hr (eq_sym Hm)) as (Hu & Hc & _ & Hwc & Hwu). subst c.
  apply (conv_rep_put d d1 M u v' (cd_set_unread (f (cd_unread_count cd)) cd)); try done.
  apply DeserializeConversation_Serialize; [|done]. split; [done|by apply Hf].
Qed.

Lemma conv_rep_empty d : (∀ k, db_Get d k = None) → conv_rep d ∅.
Proof.
  intros He. split.
  - intros s v. by rewrite He.
  - intros u c. rewrite lookup_empty. unfold kget. rewrite He. constructor.
Qed.

(** The list of a user: the records of the user, each once. *)
Lemma GetList_elem d M u : conv_rep d M → ok_id u →
  NoDup (GetList d u) ∧ ∀ cd, cd ∈ GetList d u ↔ M !! (u, cd_conversation_id cd) = Some cd.
Proof.
  intros Hr Hu. unfold GetList. rewrite decide_False by apply Hu.
  assert (∀ k v, (k, v) ∈ db_scan d (PrefixConv u) ↔ ∃ cd, k = KeyConv u (cd_conversation_id cd) ∧
    db_Get d k = Some v ∧ DeserializeConversation v = Some cd ∧
    M !! (u, cd_conversation_id cd) = Some cd) as Hscan.
  { assert (∀ c, PrefixConv u +:+ c = KeyConv u c) as Happ.
    { intros c. unfold PrefixConv, KeyConv. by rewrite <-!str_app_assoc. }
    intros k v. rewrite db_scan_elem, prefix_iff. split.
    - intros [HG [c ->]]. rewrite Happ in *. pose proof (cr_conv _ _ Hr u c) as Hv.
      unfold kget in Hv. simpl in Hv. rewrite HG in Hv. inversion Hv as [v0 cd [Hd Hid] Hk Hm|].
      subst c. exists cd. split_and!; try done.
    - intros (cd & -> & HG & _). split; [done|]. exists (cd_conversation_id cd). by rewrite Happ. }
  split.
  - apply NoDup_omap_strong; [|eapply NoDup_fmap_1, db_scan_nodup].
    intros [k v] [k' v'] cd (cd1 & -> & HG & ? & _)%Hscan (cd2 & -> & HG' & ? & _)%Hscan ??.
    simplify_eq/=. congruence.
  - intros cd. rewrite list_elem_of_omap. split.
    + intros [[k v] [(cd' & _ & _ & Hd & ?)%Hscan Hd']]. simpl in Hd'. by simplify_eq.
    + intros Hm. pose proof (cr_conv _ _ Hr u (cd_conversation_id cd)) as Hv. rewrite Hm in Hv.
      inversion Hv as [v ? [Hd _] Hk|]; subst. exists (KeyConv u (cd_conversation_id cd), v).
      split; [|done]. apply Hscan. exists cd. split_and!; try done.
Qed.
End Rep.

Lemma UpdateUnread_range delta n : int32_range (Z.max 0 (wrap32 (n + delta))).
Proof. pose proof (wrap32_range (n + delta)). unfold int32_range in *. lia. Qed.

Lemma private_id_comm u1 u2 : private_id u1 u2 = private_id u2 u1.
Proof.
  unfold private_id. repeat case_decide; try done.
  - by assert (u1 = u2) as -> by by apply (anti_symm String.le).
  - by destruct (total String.le u1 u2).
Qed.
