(* ===== verification/ChatService.v ===== *)
(** [chatsvr/internal/service/chat_service.{h,cpp}]: sending, recalling,
    history, offline messages and conversations, over the message, conversation
    and registry databases and any [GroupStore]. *)

From S2P Require Import Prelude External Errors Utils GroupStore GroupService MessageStore ConvStore.

(** [enum class ChatType] (values of other integers are not PRIVATE, not GROUP). *)
Definition CT_PRIVATE : Z := 1.
Definition CT_GROUP : Z := 2.
Definition RECALL_TIMEOUT_SECONDS : Z := 120.

(** The stores of a [ChatServiceCore]; the registry and the group store are
    pointers that can be null. *)
Record Chat (db GS : Type) : Type := {
  ch_msg : db;
  ch_conv : db;
  ch_reg : option db;
  ch_group : option GS;
}.
Arguments ch_msg {db GS}. Arguments ch_conv {db GS}.
Arguments ch_reg {db GS}. Arguments ch_group {db GS}.
Arguments Build_Chat {db GS}.

Record SendResult : Type := {
  sr_success : bool; sr_msg_id : string; sr_conversation_id : string;
  sr_timestamp : Z; sr_error : string }.
Record RecallResult : Type := { rr_success : bool; rr_error : string }.
Record OfflineResult : Type := {
  or_messages : list MessageData; or_next_cursor : string; or_has_more : bool }.
Record DeleteConversationResult : Type := { dr_success : bool; dr_error : ErrorCode }.

Section ChatService.
Context {db GS : Type} `{!RocksDB db} `{!JsonLib} `{!GroupStore GS}.
Notation Chat := (Chat db GS).
Implicit Types s : Chat.

(** Calls into the stores. *)
Definition on_msg {A} : M db A → M Chat A :=
  zoom ch_msg (λ d s, {| ch_msg := d; ch_conv := ch_conv s; ch_reg := ch_reg s; ch_group := ch_group s |}).
Definition on_conv {A} : M db A → M Chat A :=
  zoom ch_conv (λ d s, {| ch_msg := ch_msg s; ch_conv := d; ch_reg := ch_reg s; ch_group := ch_group s |}).
Definition on_reg {A} (none : A) (m : M db A) : M Chat A := λ s,
  match ch_reg s with
  | None => (Ret none, s)
  | Some d => let '(r, d') := m d in
      (r, {| ch_msg := ch_msg s; ch_conv := ch_conv s; ch_reg := Some d'; ch_group := ch_group s |})
  end.
Definition on_group {A} (none : A) (m : M GS A) : M Chat A := λ s,
  match ch_group s with
  | None => (Ret none, s)
  | Some g => let '(r, g') := m g in
      (r, {| ch_msg := ch_msg s; ch_conv := ch_conv s; ch_reg := ch_reg s; ch_group := Some g' |})
  end.

Definition GenerateMsgId (e : Env) : string := GenerateShortId (env_rand e) "m_" 16.

(** [group_store_->GetMembers(g, page, page_size, &total)], [{}] without a store. *)
Definition group_members (g : string) (page page_size : Z) : M Chat (list GroupMemberData) := λ s,
  match ch_group s with
  | None => (Ret [], s)
  | Some gs => or_throw (fst <$> gs_GetMembers gs g page page_size) s
  end.

Definition ResolveConversationId (user_id chat_id : string) (chat_type : Z) : M Chat string :=
  if decide (chat_id = "") then mret "" else
  if decide (chat_type = CT_PRIVATE)
  then on_reg "" (GetOrCreatePrivateConversation user_id chat_id)
  else mret chat_id.

Definition new_conv (conversation_id : string) (chat_type : Z) (peer_id last_msg_id : string)
    (now : Z) : ConversationData :=
  {| cd_conversation_id := conversation_id; cd_chat_type := chat_type; cd_peer_id := peer_id;
     cd_last_msg_id := last_msg_id; cd_unread_count := 0; cd_updated_at := now;
     cd_is_pinned := false; cd_is_muted := false |}.

(** [conv_store_->Upsert(u, conv); conv_store_->UpdateUnread(u, id, 1);] *)
Definition notify (u : string) (conv : ConversationData) : M Chat bool :=
  _ ← on_conv (Upsert u conv);
  on_conv (UpdateUnread u (cd_conversation_id conv) 1).

Definition new_message (e : Env) (from_user_id to_id conversation_id : string) (chat_type : Z)
    (content media_url media_type : string) (mentions : list string) (reply_to_msg_id : string)
    : MessageData :=
  {| md_msg_id := GenerateMsgId e; md_from_user_id := from_user_id; md_to_id := to_id;
     md_conversation_id := conversation_id; md_chat_type := chat_type; md_content := content;
     md_media_url := media_url;
     md_media_type := if decide (media_type = "") then "text" else media_type;
     md_mentions := mentions; md_reply_to_msg_id := reply_to_msg_id;
     md_timestamp := env_clock e 0; md_status := 0; md_recall_at := 0 |}.

(** The part of [SendMessage] after the message is saved. *)
Definition update_conversations (from_user_id to_id conversation_id : string) (chat_type : Z)
    (msg : MessageData) : M Chat unit :=
  let conv peer := new_conv conversation_id chat_type peer (md_msg_id msg) (md_timestamp msg) in
  _ ← on_conv (Upsert from_user_id (conv to_id));
  if decide (chat_type = CT_PRIVATE) then
    _ ← notify to_id (conv from_user_id); mret tt
  else
    ms ← group_members to_id 0 1000;
    for_each ms (λ m,
      if decide (gm_user_id m = from_user_id) then mret true
      else notify (gm_user_id m) (conv to_id)).

Definition queue_offline (from_user_id to_id : string) (chat_type : Z) (msg : MessageData)
    : M Chat unit :=
  if decide (chat_type = CT_PRIVATE) then
    _ ← on_msg (AddToOffline to_id (md_msg_id msg)); mret tt
  else
    ms ← group_members to_id 0 1000;
    for_each ms (λ m,
      if decide (gm_user_id m ≠ from_user_id)
      then on_msg (AddToOffline (gm_user_id m) (md_msg_id msg)) else mret true).

Definition send_fail (error : string) : SendResult :=
  {| sr_success := false; sr_msg_id := ""; sr_conversation_id := ""; sr_timestamp := 0;
     sr_error := error |}.

Definition SendMessage (e : Env) (from_user_id to_id : string) (chat_type : Z)
    (content media_url media_type : string) (mentions : list string) (reply_to_msg_id : string)
    : M Chat SendResult :=
  if decide (from_user_id = "" ∨ to_id = "") then mret (send_fail "invalid params") else
  let send conversation_id :=
    let msg := new_message e from_user_id to_id conversation_id chat_type content media_url
                 media_type mentions reply_to_msg_id in
    ok ← on_msg (Save msg);
    if negb ok then mret (send_fail "save failed") else
    _ ← update_conversations from_user_id to_id conversation_id chat_type msg;
    _ ← queue_offline from_user_id to_id chat_type msg;
    mret {| sr_success := true; sr_msg_id := md_msg_id msg;
            sr_conversation_id := conversation_id; sr_timestamp := md_timestamp msg;
            sr_error := "" |} in
  if decide (chat_type = CT_PRIVATE) then
    reg ← reads ch_reg;
    match reg with
    | None => mret (send_fail "conv_registry not set")
    | Some _ =>
        conversation_id ← on_reg "" (GetOrCreatePrivateConversation from_user_id to_id);
        send conversation_id
    end
  else
    member ← reads (λ s, match ch_group s with
                         | None => true
                         | Some g => gs_IsMember g to_id from_user_id end);
    if negb member then mret (send_fail "not a group member") else send to_id.

Definition RecallMessage (e : Env) (msg_id user_id : string) : M Chat RecallResult :=
  let fail error := {| rr_success := false; rr_error := error |} in
  if decide (msg_id = "" ∨ user_id = "") then mret (fail "invalid params") else
  msg ← reads (λ s, GetById (ch_msg s) msg_id);
  match msg with
  | None => mret (fail "message not found")
  | Some msg =>
      if decide (md_from_user_id msg ≠ user_id) then mret (fail "not allowed to recall") else
      let now := env_clock e 0 in
      if decide (RECALL_TIMEOUT_SECONDS * 1000 < wrap64 (now - md_timestamp msg))
      then mret (fail "recall timeout") else
      ok ← on_msg (MarkRecalled msg_id now);
      if negb ok then mret (fail "mark recalled failed") else
      mret {| rr_success := true; rr_error := "" |}
  end.

Definition PullOffline (s : Chat) (user_id cursor : string) (limit : Z) : OfflineResult :=
  let '(ms, next, more) :=
    MessageStore.PullOffline (ch_msg s) user_id cursor (if decide (limit ≤ 0) then 100 else limit) in
  {| or_messages := ms; or_next_cursor := next; or_has_more := more |}.

(** [g && g->status == 1] *)
Definition dissolved (gs : GS) (g : string) : bool :=
  match gs_GetGroup gs g with Some g => bool_decide (gd_status g = 1) | None => false end.

Definition GetHistory (user_id chat_id : string) (chat_type : Z) (before_msg_id : string)
    (limit : Z) : M Chat (list MessageData) :=
  if decide (chat_id = "" ∨ limit ≤ 0) then mret [] else
  conversation_id ← ResolveConversationId user_id chat_id chat_type;
  if decide (conversation_id = "") then mret [] else
  gone ← reads (λ s,
    match ch_group s with
    | Some gs => if decide (chat_type = CT_GROUP) then dissolved gs conversation_id else false
    | None => false
    end);
  if (gone : bool) then mret [] else
  reads (λ s, MessageStore.GetHistory (ch_msg s) conversation_id chat_type before_msg_id limit).

Definition MarkRead (user_id chat_id : string) (chat_type : Z) (last_msg_id : string)
    : M Chat bool :=
  if decide (user_id = "" ∨ chat_id = "") then mret false else
  conversation_id ← ResolveConversationId user_id chat_id chat_type;
  if decide (conversation_id = "") then mret false else
  ok ← on_conv (ClearUnread user_id conversation_id);
  _ ← (if decide (last_msg_id ≠ "") then on_msg (ClearOffline user_id last_msg_id)
       else mret true);
  mret ok.

Definition SyncConversations (s : Chat) (user_id : string) : list ConversationData :=
  if decide (user_id = "") then [] else
  let l := GetList (ch_conv s) user_id in
  match ch_group s with
  | None => l
  | Some gs =>
      filter (λ c, ¬ (cd_chat_type c = CT_GROUP ∧ dissolved gs (cd_conversation_id c) = true)) l
  end.

Definition GetMessageById (s : Chat) (msg_id : string) : option MessageData :=
  if decide (msg_id = "") then None else GetById (ch_msg s) msg_id.

Definition DeleteConversation (user_id chat_id : string) (chat_type : Z)
    : M Chat DeleteConversationResult :=
  let fail error := {| dr_success := false; dr_error := error |} in
  let success := {| dr_success := true; dr_error := OK |} in
  if decide (user_id = "" ∨ chat_id = "") then mret (fail INVALID_PARAM) else
  if decide (chat_type = CT_PRIVATE) then mret (fail CONVERSATION_PRIVATE_CANNOT_DELETE) else
  gs ← reads ch_group;
  match gs with
  | None => mret (fail INVALID_PARAM)
  | Some gs =>
      if decide (chat_type ≠ CT_GROUP) then mret (fail INVALID_PARAM) else
      match gs_GetGroup gs chat_id with
      | None => mret (fail GROUP_NOT_FOUND)
      | Some g =>
          if decide (gd_owner_id g ≠ user_id) then mret (fail NOT_GROUP_OWNER) else
          if decide (gd_status g = 1) then mret success else
          ms ← group_members chat_id 0 10000;
          ok ← on_group false (gs_DissolveGroup chat_id);
          if negb ok then mret (fail INTERNAL_ERROR) else
          _ ← for_each ms (λ m, on_conv (Delete (gm_user_id m) chat_id));
          mret success
      end
  end.
End ChatService.

(** * Facts *)

Lemma private_id_ok u1 u2 : no_colon u1 → no_colon u2 → ok_id (private_id u1 u2).
Proof.
  intros H1 H2. unfold private_id, ok_id. case_decide; split; try done;
    by rewrite !no_colon_app.
Qed.

Lemma msg_id_ok e : ok_id (GenerateMsgId e).
Proof. apply short_id_ok; done. Qed.

Section Facts.
Context {db GS : Type} `{!RocksDB db} `{!RocksDBLaws db} `{!JsonLib} `{!JsonLaws}.
Context `{!GroupStore GS}.
Notation Chat := (Chat db GS).
Implicit Types s : Chat.

(** A clock that gives a time between 1970 and 2286. *)
Definition sane_clock (e : Env) : Prop := 1 ≤ env_clock e 0 ≤ MAX_TS.

(** [s'] is [s] up to the databases named. *)
Definition same_but_msg s s' : Prop :=
  ch_conv s' = ch_conv s ∧ ch_reg s' = ch_reg s ∧ ch_group s' = ch_group s.

Lemma on_msg_run {A} (m : M db A) s r s' : on_msg m s = (r, s') →
  m (ch_msg s) = (r, ch_msg s') ∧ same_but_msg s s'.
Proof.
  unfold on_msg, zoom, same_but_msg. destruct (m (ch_msg s)) as [r1 d1]. intros [= <- <-]. done.
Qed.

Lemma on_conv_run {A} (m : M db A) s r s' : on_conv m s = (r, s') →
  m (ch_conv s) = (r, ch_conv s') ∧
  ch_msg s' = ch_msg s ∧ ch_reg s' = ch_reg s ∧ ch_group s' = ch_group s.
Proof.
  unfold on_conv, zoom. destruct (m (ch_conv s)) as [r1 d1]. intros [= <- <-]. done.
Qed.

Lemma on_reg_run {A} none (m : M db A) s r s' : on_reg none m s = (r, s') →
  ch_msg s' = ch_msg s ∧ ch_conv s' = ch_conv s ∧ ch_group s' = ch_group s.
Proof.
  unfold on_reg. destruct (ch_reg s); [destruct (m _) as [??]|]; by intros [= <- <-].
Qed.

(** [GetOrCreatePrivateConversation] names the conversation, when it returns. *)
Lemma get_or_create_id u1 u2 s cid s' : u1 ≠ "" → u2 ≠ "" → is_Some (ch_reg s) →
  on_reg "" (GetOrCreatePrivateConversation u1 u2) s = (Ret cid, s') → cid = private_id u1 u2.
Proof.
  intros H1 H2 [d Hd] Hrun. unfold on_reg in Hrun. rewrite Hd in Hrun.
  unfold GetOrCreatePrivateConversation in Hrun. rewrite decide_False in Hrun by naive_solver.
  munfold Hrun. destruct (db_Get d _); [by simplify_eq|].
  destruct (js_dump _); [|by simplify_eq].
  unfold kv_put, kv_commit in Hrun. destruct (db_Put _ _ _); by simplify_eq.
Qed.

(** The time that passed, in [int64_t]. *)
Lemma elapsed e m : sane_clock e → wf_message m →
  wrap64 (env_clock e 0 - md_timestamp m) = env_clock e 0 - md_timestamp m.
Proof.
  intros Hc [Hm _]. apply wrap64_id. unfold sane_clock, int64_range, MAX_TS in *. lia.
Qed.

(** A message can be recalled by its sender, within two minutes. *)
Definition may_recall (e : Env) (id u : string) (M : mmodel) : Prop :=
  ∃ m, msgs M !! id = Some m ∧ md_from_user_id m = u ∧
    env_clock e 0 - md_timestamp m ≤ RECALL_TIMEOUT_SECONDS * 1000.

(** What a request to recall [id] answers, and the messages it leaves. *)
Definition recall_answers (e : Env) (id u : string) (M : mmodel) (r : outcome RecallResult)
    (d' : db) : Prop :=
  match r with
  | Ret res =>
      if rr_success res
      then may_recall e id u M ∧ ∃ M', a_MarkRecalled id (env_clock e 0) M = Some M' ∧ msg_rep d' M'
      else msg_rep d' M ∧ (may_recall e id u M → rr_error res = "mark recalled failed")
  | Exc => msg_rep d' M
  end.

Lemma RecallMessage_spec e id u s M r s' : sane_clock e → msg_rep (ch_msg s) M → u ≠ "" →
  RecallMessage e id u s = (r, s') →
  same_but_msg s s' ∧ recall_answers e id u M r (ch_msg s').
Proof.
  intros Hclk Hr Hu Hrun. unfold RecallMessage in *.
  assert (∀ res, (Ret res, s) = (r, s') → rr_success res = false → ¬ may_recall e id u M →
    same_but_msg s s' ∧ recall_answers e id u M r (ch_msg s')) as Hno.
  { intros res [= <- <-] Hs Hn. split; [done|]. simpl. by rewrite Hs. }
  case_decide as Hne.
  { eapply Hno; [exact Hrun|done|]. intros (m & Hm & _).
    destruct (msg_rep_msg _ _ _ _ Hr Hm) as ([??]&_). naive_solver. }
  munfold Hrun. rewrite (GetById_rep _ _ _ Hr) in Hrun.
  destruct (msgs M !! id) as [m|] eqn:Hm.
  2: { eapply Hno; [exact Hrun|done|]. intros (m & ? & _). congruence. }
  destruct (msg_rep_msg _ _ _ _ Hr Hm) as (_ & _ & Hwf & _).
  case_decide as Hfrom.
  { eapply Hno; [exact Hrun|done|]. intros (m' & ? & ? & _). congruence. }
  rewrite elapsed in Hrun by done. case_decide as Htime.
  { eapply Hno; [exact Hrun|done|]. intros (m' & ? & ? & ?). simplify_eq. lia. }
  clear Hno. munfold Hrun. destruct (on_msg _ s) as [r1 s1] eqn:Hmark.
  apply on_msg_run in Hmark as [Hmark Hsame].
  destruct (MarkRecalled_refines id (env_clock e 0) _ _ _ _ Hr Hmark) as [Hres _].
  destruct r1 as [[]|]; cbn [negb] in Hrun; injection Hrun as <- <-; (split; [exact Hsame|]);
    simpl; [|done..].
  split; [|exact Hres]. exists m. split_and!; [done| |lia].
  by destruct (decide (md_from_user_id m = u)).
Qed.

(** ** Sending *)

(** The conversation records a notification may leave: the ones there were, the
    given record with an unread count of 0 or 1, or a record there was with its
    count incremented (when the first write failed). *)
Definition notified (u : string) (c : ConversationData) (M M' : cmodel) : Prop :=
  (∀ k, k ≠ (u, cd_conversation_id c) → M' !! k = M !! k) ∧
  (∀ cd, M' !! (u, cd_conversation_id c) = Some cd →
    cd = c ∨ cd = cd_set_unread 1 c ∨
    ∃ old, M !! (u, cd_conversation_id c) = Some old ∧
      (cd = old ∨ cd = cd_set_unread (Z.max 0 (wrap32 (cd_unread_count old + 1))) old)).

Lemma notify_notified u c s M r s' : conv_rep (ch_conv s) M → ok_id u →
  ok_id (cd_conversation_id c) → wf_conv c → cd_unread_count c = 0 →
  notify u c s = (r, s') →
  ch_msg s' = ch_msg s ∧ ch_group s' = ch_group s ∧
  ∃ M', conv_rep (ch_conv s') M' ∧ notified u c M M'.
Proof.
  intros Hr Hu Hc Hwf H0' Hrun. unfold notify in Hrun. munfold Hrun.
  destruct (on_conv (Upsert u c) s) as [r1 s1] eqn:H1.
  apply on_conv_run in H1 as (H1 & Hm1 & _ & Hg1).
  destruct (refines_cases _ _ _ _ _ _ _ (Upsert_refines u c Hu Hc Hwf) Hr H1)
    as (M1 & Hr1 & HM1).
  assert (notified u c M M1) as Hn1.
  { destruct HM1 as [->|[= <-]]; split; try done.
    - intros cd Hcd. right; right. eauto.
    - intros k Hk. by rewrite lookup_insert_ne.
    - intros cd. rewrite lookup_insert_eq. intros [= <-]. by left. }
  destruct r1 as [b|]; [|injection Hrun as <- <-; by eauto].
  apply on_conv_run in Hrun as (H2 & Hm2 & _ & Hg2).
  destruct (refines_cases _ _ _ _ _ _ _ (rewrite_unread_refines _ u _
    (λ n _, UpdateUnread_range 1 n)) Hr1 H2) as (M2 & Hr2 & HM2).
  split; [congruence|]. split; [congruence|]. exists M2. split; [done|].
  destruct HM2 as [->|HM2]; [done|]. unfold a_unread in HM2.
  destruct (M1 !! _) as [cd1|] eqn:Hcd1; [|done]. simpl in HM2. injection HM2 as <-.
  destruct Hn1 as [Hk1 Hv1]. split.
  - intros k Hk. rewrite lookup_insert_ne by done. auto.
  - intros cd. rewrite lookup_insert_eq. intros [= <-].
    destruct HM1 as [->|[= <-]]; [right; right; eauto|].
    rewrite lookup_insert_eq in Hcd1. injection Hcd1 as <-. right; left. by rewrite H0'.
Qed.

(** What a successful private [SendMessage] does. *)
Record sent_private (e : Env) (from to : string) (msg : MessageData)
    (M M' : mmodel) (C C' : cmodel) : Prop := {
  sp_id : md_msg_id msg = GenerateMsgId e;
  sp_time : md_timestamp msg = env_clock e 0;
  sp_sender : md_from_user_id msg = from ∧ md_to_id msg = to ∧ md_status msg = 0;
  sp_conversation : md_conversation_id msg = private_id from to;
  sp_fresh : msgs M !! md_msg_id msg = None;
  sp_msgs : msgs M' = <[md_msg_id msg := msg]> (msgs M);
  sp_queue : queue M' = queue M ∨ queue M' = {[ (to, md_msg_id msg) ]} ∪ queue M;
  sp_conv_frame u c : c ≠ private_id from to ∨ u ≠ from ∧ u ≠ to → C' !! (u, c) = C !! (u, c);
  sp_unread cd : C' !! (to, private_id from to) = Some cd → cd_last_msg_id cd = md_msg_id msg →
    (∀ old, C !! (to, private_id from to) = Some old → cd_last_msg_id old ≠ md_msg_id msg) →
    cd_unread_count cd ≤ 1 ∧ cd_is_pinned cd = false ∧ cd_is_muted cd = false;
}.

Lemma SendMessage_private e from to content url mt ms reply s M C res s' :
  sane_clock e → ok_id from → ok_id to → msg_rep (ch_msg s) M → conv_rep (ch_conv s) C →
  SendMessage e from to CT_PRIVATE content url mt ms reply s = (Ret res, s') →
  sr_success res = true →
  ∃ msg M' C', msg_rep (ch_msg s') M' ∧ conv_rep (ch_conv s') C' ∧
    sr_msg_id res = md_msg_id msg ∧ sr_conversation_id res = private_id from to ∧
    md_content msg = content ∧ sent_private e from to msg M M' C C' ∧
    (∀ P, keeps_writing P → P (ch_msg s) → (to, md_msg_id msg) ∈ queue M').
Proof.
  intros Hclk Hfrom Hto Hr Hc Hrun Hsucc. unfold SendMessage in Hrun.
  rewrite decide_False in Hrun by (destruct Hfrom, Hto; naive_solver).
  rewrite decide_True in Hrun by done. munfold Hrun.
  destruct (ch_reg s) as [dr|] eqn:Hreg; [|by simplify_eq].
  destruct (on_reg _ _ s) as [[cid|] s1] eqn:Hget; [|by simplify_eq].
  pose proof (get_or_create_id _ _ _ _ _ (proj1 Hfrom) (proj1 Hto) ltac:(by eexists) Hget) as ->.
  apply on_reg_run in Hget as (Hm1 & Hc1 & Hg1).
  set (msg := new_message _ _ _ _ _ _ _ _ _ _) in *.
  assert (ok_id (private_id from to)) as Hpid by (apply private_id_ok; [apply Hfrom|apply Hto]).
  assert (wf_message msg) as Hwf
    by (unfold wf_message, int32_range, sane_clock, CT_PRIVATE in *; simpl; lia).
  assert (timeline msg = private_id from to) as Htl.
  { unfold timeline. simpl. by rewrite decide_False by apply Hpid. }
  destruct (on_msg (Save msg) s1) as [[ok|] s2] eqn:Hsave; [|by simplify_eq].
  destruct ok; cbn [negb] in Hrun; [|by simplify_eq].
  apply on_msg_run in Hsave as (Hsave & Hc2 & _ & Hg2). rewrite Hm1 in Hsave.
  destruct (refines_true _ _ _ _ _ _ (Save_refines msg (msg_id_ok e) (proj1 Hfrom) Hwf
    ltac:(by rewrite Htl)) Hr Hsave) as (M1 & HM1 & Hr1).
  unfold a_Save in HM1. destruct (msgs M !! md_msg_id msg) eqn:Hfresh; [done|].
  injection HM1 as <-.
  destruct (update_conversations _ _ _ _ _ s2) as [[[]|] s3] eqn:Hup; [|by simplify_eq].
  destruct (queue_offline _ _ _ _ s3) as [[[]|] s4] eqn:Hoff; [|by simplify_eq].
  injection Hrun as <- <-.
  unfold update_conversations in Hup. munfold Hup.
  destruct (on_conv (Upsert from _) s2) as [[b|] s2a] eqn:Hu1; [|by simplify_eq].
  rewrite decide_True in Hup by done.
  destruct (notify to _ s2a) as [[b'|] s2b] eqn:Hn; [|by simplify_eq].
  injection Hup as <-. apply on_conv_run in Hu1 as (Hu1 & Hma & _ & Hga).
  set (cd1 := new_conv (private_id from to) CT_PRIVATE to _ _) in *.
  rewrite Hc2, Hc1 in Hu1.
  destruct (refines_cases _ _ _ _ _ _ _ (Upsert_refines from cd1 Hfrom Hpid
    ltac:(by split)) Hc Hu1) as (C1 & HC1 & HCa).
  destruct (notify_notified to (new_conv (private_id from to) CT_PRIVATE from (md_msg_id msg)
    (md_timestamp msg)) s2a C1 _ _ HC1 Hto Hpid ltac:(by split) eq_refl Hn)
    as (Hmb & _ & C2 & HC2 & Hk2 & Hv2).
  unfold queue_offline in Hoff. rewrite decide_True in Hoff by done. munfold Hoff.
  destruct (on_msg (AddToOffline to _) s2b) as [[b''|] s4'] eqn:Ha; [|by simplify_eq].
  injection Hoff as <-. apply on_msg_run in Ha as (Ha & Hc4 & _ & _).
  rewrite Hmb, Hma in Ha.
  destruct (refines_outcome _ _ _ _ _ _ _ (AddToOffline_refines to (md_msg_id msg) Hto) Hr1 Ha)
    as (M2 & HM2 & Hq0).
  unfold a_AddToOffline in Hq0. simpl in Hq0. rewrite lookup_insert_eq in Hq0. simpl in Hq0.
  assert (M2 = _ ∨ Some _ = Some M2) as Hq
    by (destruct Hq0 as [[_ Hq0]|[_ Hq0]]; [right; exact Hq0|left; exact Hq0]).
  exists msg, M2, C2. rewrite Hc4.
  assert (∀ P, keeps_writing P → P (ch_msg s) → (to, md_msg_id msg) ∈ queue M2) as Hqueued.
  { intros P HP Hd. pose proof (AddToOffline_writes P to (md_msg_id msg) _ _ HP
      (Save_writes P _ _ _ HP Hd Hsave) Hr1 Hto ltac:(simpl; rewrite lookup_insert_eq; by eexists)) as Hok.
    rewrite Ha in Hok. destruct Hq0 as [[_ [= <-]]|[Hno _]]; [set_solver|done]. }
  split_and!; try done. split; try done.
  - destruct Hq as [->|[= <-]]; done.
  - destruct Hq as [->|[= <-]]; [by left|by right].
  - intros u c Huc. simpl in Hk2. rewrite Hk2 by naive_solver.
    destruct HCa as [->|[= <-]]; [done|]. rewrite lookup_insert_ne; [done|]. naive_solver.
  - intros cd Hcd Hlast Hold. simpl in Hv2.
    destruct (Hv2 cd Hcd) as [->|[->|(old & Hold' & Heq)]]; [done..|].
    assert (cd_last_msg_id cd = cd_last_msg_id old) as Hlo by by destruct Heq as [->| ->].
    assert (old = cd1) as ->.
    { destruct HCa as [->|[= <-]]; [destruct (Hold old Hold'); congruence|].
      revert Hold'. rewrite lookup_insert. case_decide; [congruence|].
      intros Hold'. destruct (Hold old Hold'); congruence. }
    by destruct Heq as [->| ->].
Qed.

(** ** Reading and closing conversations *)

Lemma MarkRead_spec u chat ct last s M C s' : ok_id u → no_colon chat →
  msg_rep (ch_msg s) M → conv_rep (ch_conv s) C →
  MarkRead u chat ct last s = (Ret true, s') →
  ∃ cid cd M', C !! (u, cid) = Some cd ∧
    (cid = chat ∨ ct = CT_PRIVATE ∧ cid = private_id u chat) ∧
    conv_rep (ch_conv s') (<[(u, cid) := cd_set_unread 0 cd]> C) ∧
    msg_rep (ch_msg s') M' ∧ (M' = M ∨ last ≠ "" ∧ a_ClearOffline u last M = Some M').
Proof.
  intros Hu Hchat Hr Hc Hrun. unfold MarkRead in Hrun. case_decide as Hne; [done|].
  munfold Hrun. destruct (ResolveConversationId u chat ct s) as [[cid|] s1] eqn:Hres; [|done].
  assert ((cid = chat ∨ ct = CT_PRIVATE ∧ cid = private_id u chat ∨ cid = "") ∧
    ch_msg s1 = ch_msg s ∧ ch_conv s1 = ch_conv s) as (Hcid & Hm1 & Hc1).
  { unfold ResolveConversationId in Hres. rewrite decide_False in Hres by naive_solver.
    destruct (decide (ct = CT_PRIVATE)); [|munfold Hres; injection Hres as -> ->; by auto].
    destruct (ch_reg s) eqn:Hreg.
    - assert (chat ≠ "") by naive_solver. assert (is_Some (ch_reg s)) by (rewrite Hreg; eauto).
      pose proof (get_or_create_id u chat _ _ _ (proj1 Hu) ltac:(done) ltac:(done) Hres).
      apply on_reg_run in Hres as (?&?&?). by auto.
    - unfold on_reg in Hres. rewrite Hreg in Hres. injection Hres as -> ->. by auto 6. }
  case_decide as Hcid0; [done|].
  destruct (on_conv (ClearUnread u cid) s1) as [[ok|] s2] eqn:Hclr; [|done].
  apply on_conv_run in Hclr as (Hclr & Hm2 & _).
  assert (ok = true ∧ ch_conv s' = ch_conv s2 ∧ ∃ M', msg_rep (ch_msg s') M' ∧
    (M' = M ∨ last ≠ "" ∧ a_ClearOffline u last M = Some M')) as (-> & Hc' & M' & HM' & Hor).
  { case_decide.
    - destruct (on_msg (ClearOffline u last) s2) as [[b|] s3] eqn:Ho; simplify_eq.
      apply on_msg_run in Ho as (Ho & ? & _). rewrite Hm2, Hm1 in Ho.
      destruct (refines_cases _ _ _ _ _ _ _ (ClearOffline_refines u last Hu) Hr Ho)
        as (M' & ? & ?). split; [done|]. split; [done|]. exists M'. naive_solver.
    - injection Hrun as -> <-. split; [done|]. split; [done|]. exists M. rewrite Hm2, Hm1. auto. }
  rewrite Hc1 in Hclr.
  destruct (refines_true _ _ _ _ _ _ (rewrite_unread_refines (λ _, 0) u cid ltac:(done)) Hc Hclr)
    as (C' & HC' & HrC'). unfold a_unread in HC'.
  destruct (C !! (u, cid)) as [cd|] eqn:Hcd; [|done]. injection HC' as <-.
  exists cid, cd, M'. rewrite Hc'. split_and!; try done. naive_solver.
Qed.

Lemma GetHistory_group_any u c before limit s : c ≠ "" →
  match ch_group s with Some gs => dissolved gs c = false | None => True end →
  GetHistory u c CT_GROUP before limit s =
    (Ret (if decide (limit ≤ 0) then [] else
          MessageStore.GetHistory (ch_msg s) c CT_GROUP before limit), s).
Proof.
  intros Hc Hg. unfold GetHistory, ResolveConversationId.
  destruct (decide (limit ≤ 0)) as [Hl|Hl].
  - by rewrite decide_True by auto.
  - rewrite decide_False by naive_solver.
    rewrite (decide_False (P := c = "")), decide_False by done.
    unfold mbind, M_bind, mret, M_ret, reads. rewrite decide_False by done.
    destruct (ch_group s); [|done]. by rewrite decide_True, Hg by done.
Qed.

Context `{!GroupStoreSpec GS}.

(** What a deletion of a group's conversation does. *)
Lemma DeleteConversation_spec u g s gs G res s' : ch_group s = Some gs → gs_rep gs G →
  DeleteConversation u g CT_GROUP s = (Ret res, s') →
  ch_msg s' = ch_msg s ∧ ∃ gs' G', ch_group s' = Some gs' ∧ gs_rep gs' G' ∧
    if dr_success res
    then ∃ gd, groups G !! g = Some gd ∧ gd_owner_id gd = u ∧ a_DissolveGroup g G = Some G'
    else G' = G.
Proof.
  intros Hgs Hr Hrun. unfold DeleteConversation in Hrun.
  assert (∀ r, (Ret r, s) = (Ret res, s') → dr_success r = false →
    ch_msg s' = ch_msg s ∧ ∃ gs' G', ch_group s' = Some gs' ∧ gs_rep gs' G' ∧
    if dr_success res then ∃ gd, groups G !! g = Some gd ∧ gd_owner_id gd = u ∧
      a_DissolveGroup g G = Some G' else G' = G) as Hno.
  { intros r [= <- <-] ->. split; [done|]. by exists gs, G. }
  case_decide as Hne; [by eapply Hno|]. rewrite decide_False in Hrun by done.
  munfold Hrun. rewrite Hgs in Hrun. rewrite decide_False in Hrun by auto.
  rewrite (spec_GetGroup _ _ _ Hr) in Hrun.
  destruct (groups G !! g) as [gd|] eqn:Hg; [|by eapply Hno].
  case_decide as Hown; [by eapply Hno|].
  assert (gd_owner_id gd = u) as Ho by by destruct (decide (gd_owner_id gd = u)).
  clear Hno. case_decide as Hst.
  { injection Hrun as <- <-. split; [done|]. exists gs, G. split_and!; try done. simpl.
    exists gd. split_and!; try done. unfold a_DissolveGroup. rewrite Hg. simpl.
    by rewrite decide_True. }
  munfold Hrun. unfold group_members in Hrun. rewrite Hgs in Hrun. munfold Hrun.
  destruct (fst <$> gs_GetMembers gs g 0 10000) as [ms|]; [|done].
  unfold on_group in Hrun at 1. rewrite Hgs in Hrun.
  destruct (gs_DissolveGroup g gs) as [[[]|] gs1] eqn:Hd; cbn [negb] in Hrun; [| |done].
  2: { destruct (spec_DissolveGroup g _ _ _ _ Hr Hd) as [Hr1 _]. injection Hrun as <- <-.
       split; [done|]. by exists gs1, G. }
  destruct (refines_true _ _ _ _ _ _ (spec_DissolveGroup g) Hr Hd) as (G1 & HG1 & Hr1).
  set (s1 := {| ch_msg := ch_msg s; ch_conv := ch_conv s; ch_reg := ch_reg s;
                ch_group := Some gs1 |}) in *.
  destruct (for_each ms _ s1) as [[[]|] s2] eqn:Hfor; [|done]. injection Hrun as <- <-.
  assert (ch_msg s2 = ch_msg s ∧ ch_group s2 = Some gs1) as [Hm2 Hg2].
  { revert Hfor. apply (for_each_inv (λ t, ch_msg t = ch_msg s ∧ ch_group t = Some gs1)); [|done].
    intros m t r t' _ [? ?] (_ & ? & _ & ?)%on_conv_run. split; congruence. }
  split; [done|]. exists gs1, G1. split_and!; try done. by exists gd.
Qed.
End Facts.

Section Properties.
Context {db GS : Type} `{!RocksDB db} `{!RocksDBLaws db} `{!JsonLib} `{!JsonLaws}.
Context `{!GroupStore GS} `{!GroupStoreSpec GS}.
Notation Chat := (Chat db GS).
Implicit Types s : Chat.

(** C34: a message is recalled only by its sender and within two minutes of its
    timestamp; it is then marked recalled at the present time and nothing else
    changes.  Every refusal leaves the messages as they are, and a request that
    is allowed is refused only when the write fails. *)
Theorem RecallMessage_rules e id u s M r s' : sane_clock e → msg_rep (ch_msg s) M → u ≠ "" →
  RecallMessage e id u s = (r, s') →
  same_but_msg s s' ∧ recall_answers e id u M r (ch_msg s').
Proof. apply RecallMessage_spec. Qed.

(** a private message that was sent is stored under a new id in the
    conversation of the two users, queued for the receiver only (always, as long as the
    database can be written), and no other message, queue or conversation changes.  The unread counter the receiver
    then sees is at most 1, and its pinned and muted marks are gone: the
    conversation record is overwritten before the counter is incremented. *)
Theorem SendMessage_private_effect e from to content url mt ms reply s M C res s' :
  sane_clock e → ok_id from → ok_id to → msg_rep (ch_msg s) M → conv_rep (ch_conv s) C →
  SendMessage e from to CT_PRIVATE content url mt ms reply s = (Ret res, s') →
  sr_success res = true →
  ∃ msg M' C', msg_rep (ch_msg s') M' ∧ conv_rep (ch_conv s') C' ∧
    sr_msg_id res = md_msg_id msg ∧ sr_conversation_id res = private_id from to ∧
    md_content msg = content ∧ sent_private e from to msg M M' C C' ∧
    (∀ P, keeps_writing P → P (ch_msg s) → (to, md_msg_id msg) ∈ queue M').
Proof. apply SendMessage_private. Qed.

(** reading the history of a "group" checks neither membership nor that the
    id is that of a group: with the id of the private conversation of [a] and
    [b] and the chat type "group", any user is given what [a] is given. *)
Theorem GetHistory_private_leak a b c before limit s l s' : a ≠ "" → b ≠ "" →
  is_Some (ch_reg s) →
  match ch_group s with Some gs => gs_GetGroup gs (private_id a b) = None | None => True end →
  GetHistory a b CT_PRIVATE before limit s = (Ret l, s') →
  fst (GetHistory c (private_id a b) CT_GROUP before limit s) = Ret l.
Proof.
  intros Ha Hb Hreg Hg Hrun.
  assert (private_id a b ≠ "") as Hpid by (unfold private_id; by case_decide).
  rewrite GetHistory_group_any; [|done|].
  2: { destruct (ch_group s); [|done]. unfold dissolved. by rewrite Hg. }
  unfold GetHistory, ResolveConversationId in Hrun. simpl.
  destruct (decide (b = "" ∨ limit ≤ 0)) as [[?|?]|Hl]; [done| |].
  { rewrite decide_True by done. by injection Hrun as <- <-. }
  rewrite (decide_False (P := limit ≤ 0)) by naive_solver. munfold Hrun.
  rewrite (decide_False (P := b = "")), decide_True in Hrun by done.
  destruct (on_reg _ _ s) as [[cid|] s1] eqn:Hget; [|done].
  pose proof (get_or_create_id _ _ _ _ _ Ha Hb Hreg Hget) as ->.
  apply on_reg_run in Hget as (Hm1 & _ & _).
  rewrite (decide_False (P := private_id a b = "")) in Hrun by done.
  destruct (ch_group s1);
    rewrite ?(decide_False (P := CT_PRIVATE = CT_GROUP)) in Hrun by done;
    injection Hrun as <- <-; by rewrite Hm1.
Qed.

(** only the owner of a group can delete its conversation; the group is
    then dissolved, without members, its messages are kept, and from then on
    nobody can read its history or send to it.  In every other case, failures
    included, the groups are as they were. *)
Theorem DeleteConversation_closes_group u g s gs G res s' : ok_id g →
  ch_group s = Some gs → gs_rep gs G →
  (∀ gd, groups G !! g = Some gd → gd_status gd ≠ 1) →
  DeleteConversation u g CT_GROUP s = (Ret res, s') →
  ch_msg s' = ch_msg s ∧
  if dr_success res then
    (∃ gd, groups G !! g = Some gd ∧ gd_owner_id gd = u) ∧
    ∀ e v content url mt ms reply before limit, v ≠ "" →
      fst (SendMessage e v g CT_GROUP content url mt ms reply s') = Ret (send_fail "not a group member") ∧
      fst (GetHistory v g CT_GROUP before limit s') = Ret []
  else ∃ gs', ch_group s' = Some gs' ∧ gs_rep gs' G.
Proof.
  intros Hg Hgs Hr Hst Hrun.
  destruct (DeleteConversation_spec _ _ _ _ _ _ _ Hgs Hr Hrun) as (Hm & gs' & G' & Hgs' & Hr' & Hif).
  split; [done|]. destruct (dr_success res); [|subst; eauto].
  destruct Hif as (gd & Hgd & Ho & Hdis). split; [eauto|].
  unfold a_DissolveGroup in Hdis. rewrite Hgd in Hdis. simpl in Hdis.
  rewrite decide_False in Hdis by by apply Hst. injection Hdis as <-.
  intros e v content url mt ms reply before limit Hv. split.
  - unfold SendMessage. rewrite decide_False by (destruct Hg; naive_solver).
    rewrite decide_False by done. unfold mbind, M_bind, reads. rewrite Hgs'.
    rewrite (spec_IsMember _ _ _ _ Hr'). simpl.
    rewrite bool_decide_false; [done|]. rewrite map_lookup_filter. intros [m Hm'].
    destruct (members G !! (g, v)); [|done]. simpl in Hm'. by rewrite option_guard_False in Hm' by auto.
  - unfold GetHistory. case_decide; [done|]. unfold ResolveConversationId.
    rewrite (decide_False (P := g = "")), decide_False by (apply Hg || done).
    unfold mbind, M_bind, mret, M_ret, reads.
    rewrite (decide_False (P := g = "")) by apply Hg. rewrite Hgs', decide_True by done.
    unfold dissolved. rewrite (spec_GetGroup _ _ _ Hr'). simpl. rewrite lookup_insert_eq. done.
Qed.

(** [MarkRead] that answers true has set the unread counter of exactly the
    conversation resolved from the request to 0, and, with a message id, has at
    most taken out of the user's offline queue the messages up to that one. *)
Theorem MarkRead_effect u chat ct last s M C s' : ok_id u → no_colon chat →
  msg_rep (ch_msg s) M → conv_rep (ch_conv s) C →
  MarkRead u chat ct last s = (Ret true, s') →
  ∃ cid cd M', C !! (u, cid) = Some cd ∧
    (cid = chat ∨ ct = CT_PRIVATE ∧ cid = private_id u chat) ∧
    conv_rep (ch_conv s') (<[(u, cid) := cd_set_unread 0 cd]> C) ∧
    msg_rep (ch_msg s') M' ∧ (M' = M ∨ last ≠ "" ∧ a_ClearOffline u last M = Some M').
Proof. apply MarkRead_spec. Qed.
End Properties.

(** * Concrete runs *)

Definition chat_env (now : Z) : Env := {| env_clock := λ _, now; env_rand := λ _, 0%N |}.
Definition chat_start (d : MemDB) : Chat MemDB MemDB :=
  {| ch_msg := d; ch_conv := mem_empty; ch_reg := Some mem_empty; ch_group := None |}.

Lemma mem_empty_conv_rep : conv_rep mem_empty ∅.
Proof. apply conv_rep_empty. intros k. apply lookup_empty. Qed.

(** The parts of the concrete states, without evaluating them. *)
Lemma chat_start_rep d M : msg_rep d M → msg_rep (ch_msg (chat_start d)) M.
Proof. done. Qed.

Lemma RecallMessage_rules_witness :
  ∃ s' M', RecallMessage (chat_env 100000) "m1" "a" (chat_start db_two) =
      (Ret {| rr_success := true; rr_error := "" |}, s') ∧
    msg_rep (ch_msg s') M' ∧ md_status <$> msgs M' !! "m1" = Some 1.
Proof.
  assert (sane_clock (chat_env 100000)) as Hc by (unfold sane_clock, MAX_TS; simpl; lia).
  assert ("a" ≠ "") as Ha by done.
  assert (RecallMessage (chat_env 100000) "m1" "a" (chat_start db_two) =
    (Ret {| rr_success := true; rr_error := "" |},
     snd (RecallMessage (chat_env 100000) "m1" "a" (chat_start db_two)))) as Hrun by eval_run.
  pose proof (RecallMessage_rules (chat_env 100000) "m1" "a" (chat_start db_two) _ _ _ Hc
    (chat_start_rep _ _ db_two_rep) Ha Hrun) as (_ & _ & M' & HM' & Hr').
  eexists _, M'. refine (conj Hrun (conj Hr' _)).
  unfold a_MarkRecalled in HM'. simpl in HM'.
  rewrite lookup_insert_ne, lookup_singleton_eq in HM' by done. injection HM' as <-. simpl.
  by rewrite lookup_insert_eq.
Defined.

Notation chat_send := (SendMessage (chat_env 1700000000000) "a" "b" CT_PRIVATE "hi" "" "" [] ""
  (chat_start mem_empty)).

Lemma SendMessage_private_effect_witness :
  ∃ res s' msg M' C', chat_send = (Ret res, s') ∧ msg_rep (ch_msg s') M' ∧
    conv_rep (ch_conv s') C' ∧ md_content msg = "hi" ∧
    sent_private (chat_env 1700000000000) "a" "b" msg mm0 M' ∅ C'.
Proof.
  assert (sane_clock (chat_env 1700000000000)) as Hc by (unfold sane_clock, MAX_TS; simpl; lia).
  assert (ok_id "a") as Ha by done. assert (ok_id "b") as Hb by done.
  assert (∃ res, fst chat_send = Ret res ∧ sr_success res = true) as (res & Hres & Hok).
  { eexists {| sr_success := true; sr_msg_id := _; sr_conversation_id := _; sr_timestamp := _;
               sr_error := _ |}. split; [by vm_compute|done]. }
  pose proof (run_fst _ _ _ Hres) as Hrun.
  pose proof (SendMessage_private_effect (chat_env 1700000000000) "a" "b" "hi" "" "" [] ""
    (chat_start mem_empty) mm0 ∅ res _ Hc Ha Hb mem_empty_msg_rep mem_empty_conv_rep Hrun Hok)
    as (msg & M' & C' & Hr & Hcv & _ & _ & Hcont & Hsent & _).
  exists res. eexists _, msg, M', C'.
  exact (conj Hrun (conj Hr (conj Hcv (conj Hcont Hsent)))).
Defined.

Lemma GetHistory_private_leak_witness :
  ∃ l, fst (GetHistory "mallory" (private_id "a" "b") CT_GROUP "" 10 (chat_start db_two)) = Ret l ∧
    md_msg_id <$> l = ["m2"; "m1"].
Proof.
  pose (l := match fst (GetHistory "a" "b" CT_PRIVATE "" 10 (chat_start db_two)) with
            | Ret l => l | Exc => [] end).
  assert (fst (GetHistory "a" "b" CT_PRIVATE "" 10 (chat_start db_two)) = Ret l) as Hrun by eval_eq.
  assert (md_msg_id <$> l = ["m2"; "m1"]) as Hl by eval_eq.
  exists l. split; [|exact Hl].
  apply (GetHistory_private_leak "a" "b" "mallory" "" 10 (chat_start db_two) l _
    ltac:(done) ltac:(done) ltac:(by eexists) I (run_fst _ _ _ Hrun)).
Defined.

Definition chat_group (g : MemDB) : Chat MemDB MemDB :=
  {| ch_msg := mem_empty; ch_conv := mem_empty; ch_reg := None; ch_group := Some g |}.
Notation chat_group_start := (chat_group db_created).

Lemma DeleteConversation_closes_group_witness :
  ∃ s', DeleteConversation "a" gid0 CT_GROUP chat_group_start =
      (Ret {| dr_success := true; dr_error := OK |}, s') ∧
    fst (SendMessage env0 "b" gid0 CT_GROUP "hi" "" "" [] "" s') =
      Ret (send_fail "not a group member").
Proof.
  assert (ok_id gid0) as Hg by by apply short_id_ok. assert ("b" ≠ "") as Hb by done.
  destruct db_created_rep as (G & Hr & _).
  assert (DeleteConversation "a" gid0 CT_GROUP chat_group_start =
      (Ret {| dr_success := true; dr_error := OK |},
       snd (DeleteConversation "a" gid0 CT_GROUP chat_group_start))) as Hrun by eval_run.
  assert (∀ gd, groups G !! gid0 = Some gd → gd_status gd ≠ 1) as Hst.
  { intros gd Hgd. rewrite <-(GetGroup_rep _ _ _ Hr) in Hgd.
    assert (gd_status <$> GetGroup db_created gid0 = Some 0) as H0 by eval_eq.
    rewrite Hgd in H0. simpl in H0. congruence. }
  pose proof (DeleteConversation_closes_group "a" gid0 chat_group_start db_created G _ _
    Hg eq_refl Hr Hst Hrun) as (_ & _ & Hclosed).
  eexists. exact (conj Hrun (proj1 (Hclosed env0 "b" "hi" "" "" [] "" "" 0 Hb))).
Defined.

Definition conv0 : ConversationData :=
  cd_set_unread 3 (new_conv "p_a_b" CT_PRIVATE "a" "m2" 2000).
Notation conv_three := (snd (Upsert "b" conv0 mem_empty)).
Definition chat_of (m c : MemDB) : Chat MemDB MemDB :=
  {| ch_msg := m; ch_conv := c; ch_reg := Some mem_empty; ch_group := None |}.
Lemma chat_of_rep m c M C : msg_rep m M → conv_rep c C →
  msg_rep (ch_msg (chat_of m c)) M ∧ conv_rep (ch_conv (chat_of m c)) C.
Proof. done. Qed.
Notation chat_unread := (chat_of db_two conv_three).

Lemma MarkRead_effect_witness :
  ∃ s' C', MarkRead "b" "a" CT_PRIVATE "m1" chat_unread = (Ret true, s') ∧ conv_rep (ch_conv s') C' ∧
    cd_unread_count <$> C' !! ("b", "p_a_b") = Some 0.
Proof.
  assert (ok_id "b") as Hb by done. assert (no_colon "a") as Ha by done.
  assert (Upsert "b" conv0 mem_empty = (Ret true, conv_three)) as Hup by eval_run.
  destruct (refines_true _ _ _ _ _ _ (Upsert_refines "b" conv0 ltac:(done) ltac:(done)
    ltac:(by split)) mem_empty_conv_rep Hup) as (C & HC & Hr). injection HC as <-.
  assert (MarkRead "b" "a" CT_PRIVATE "m1" chat_unread =
    (Ret true, snd (MarkRead "b" "a" CT_PRIVATE "m1" chat_unread))) as Hrun by eval_run.
  destruct (chat_of_rep _ _ _ _ db_two_rep Hr) as [Hm Hc].
  pose proof (MarkRead_effect "b" "a" CT_PRIVATE "m1" chat_unread _ _ _ Hb Ha Hm Hc Hrun) as (cid & cd & M' & Hcd & _ & Hr' & _).
  eexists _, _. refine (conj Hrun (conj Hr' _)).
  assert (cid = "p_a_b") as ->.
  { rewrite lookup_insert in Hcd. case_decide as Hk; [by injection Hk|].
    by rewrite lookup_empty in Hcd. }
  by rewrite lookup_insert_eq.
Defined.
