(* ===== verification/FriendStore.v ===== *)
(** [friendsvr/internal/store/friend_store.{h,cpp}]: friendships, friend
    requests, friend groups and block lists, in one RocksDB database. *)

From S2P Require Import Prelude External.

(** * Data *)

(** [struct FriendData] *)
Record FriendData : Type := {
  fd_user_id : string;
  fd_friend_id : string;
  fd_remark : string;
  fd_group_id : string;
  fd_added_at : Z;        (* int64_t *)
}.
(** [struct FriendRequestData] *)
Record FriendRequestData : Type := {
  fr_request_id : string;
  fr_from_user_id : string;
  fr_to_user_id : string;
  fr_remark : string;
  fr_status : Z;          (* int: 0 pending, 1 accepted, 2 rejected *)
  fr_created_at : Z;      (* int64_t *)
}.
(** [struct FriendGroupData] *)
Record FriendGroupData : Type := {
  fg_group_id : string;
  fg_user_id : string;
  fg_group_name : string;
  fg_sort_order : Z;      (* int *)
}.
#[global] Instance FriendData_eq_dec : EqDecision FriendData.
Proof. solve_decision. Defined.
#[global] Instance FriendRequestData_eq_dec : EqDecision FriendRequestData.
Proof. solve_decision. Defined.
#[global] Instance FriendGroupData_eq_dec : EqDecision FriendGroupData.
Proof. solve_decision. Defined.

Definition kDefaultFriendGroupId : string := "default".
Definition kDefaultFriendGroupName : string := "我的好友".

Definition fd_set_remark (r : string) (d : FriendData) : FriendData :=
  {| fd_user_id := fd_user_id d; fd_friend_id := fd_friend_id d; fd_remark := r;
     fd_group_id := fd_group_id d; fd_added_at := fd_added_at d |}.
Definition fd_set_group (g : string) (d : FriendData) : FriendData :=
  {| fd_user_id := fd_user_id d; fd_friend_id := fd_friend_id d; fd_remark := fd_remark d;
     fd_group_id := g; fd_added_at := fd_added_at d |}.
Definition fr_set_status (st : Z) (r : FriendRequestData) : FriendRequestData :=
  {| fr_request_id := fr_request_id r; fr_from_user_id := fr_from_user_id r;
     fr_to_user_id := fr_to_user_id r; fr_remark := fr_remark r; fr_status := st;
     fr_created_at := fr_created_at r |}.

Section Serialization.
Context `{!JsonLib}.

Definition SerializeFriend (d : FriendData) : option string :=
  js_dump (js_obj [
    ("user_id", JStr (fd_user_id d));
    ("friend_id", JStr (fd_friend_id d));
    ("remark", JStr (fd_remark d));
    ("group_id", JStr (fd_group_id d));
    ("added_at", JInt (fd_added_at d))]).

(** The default of [added_at] is the [int] 0: the stored value is read as [int]. *)
Definition DeserializeFriend (data : string) : option FriendData :=
  j ← js_parse data;
  user_id ← js_str j "user_id" "";
  friend_id ← js_str j "friend_id" "";
  remark ← js_str j "remark" "";
  group_id ← js_str j "group_id" "";
  added_at ← js_int32 j "added_at" 0;
  Some {| fd_user_id := user_id; fd_friend_id := friend_id; fd_remark := remark;
          fd_group_id := group_id; fd_added_at := added_at |}.

Definition SerializeRequest (r : FriendRequestData) : option string :=
  js_dump (js_obj [
    ("request_id", JStr (fr_request_id r));
    ("from_user_id", JStr (fr_from_user_id r));
    ("to_user_id", JStr (fr_to_user_id r));
    ("remark", JStr (fr_remark r));
    ("status", JInt (fr_status r));
    ("created_at", JInt (fr_created_at r))]).

Definition DeserializeRequest (data : string) : option FriendRequestData :=
  j ← js_parse data;
  request_id ← js_str j "request_id" "";
  from_user_id ← js_str j "from_user_id" "";
  to_user_id ← js_str j "to_user_id" "";
  remark ← js_str j "remark" "";
  status ← js_int32 j "status" 0;
  created_at ← js_int32 j "created_at" 0;
  Some {| fr_request_id := request_id; fr_from_user_id := from_user_id;
          fr_to_user_id := to_user_id; fr_remark := remark; fr_status := status;
          fr_created_at := created_at |}.

Definition SerializeGroup (g : FriendGroupData) : option string :=
  js_dump (js_obj [
    ("group_id", JStr (fg_group_id g));
    ("user_id", JStr (fg_user_id g));
    ("group_name", JStr (fg_group_name g));
    ("sort_order", JInt (fg_sort_order g))]).

Definition DeserializeGroup (data : string) : option FriendGroupData :=
  j ← js_parse data;
  group_id ← js_str j "group_id" "";
  user_id ← js_str j "user_id" "";
  group_name ← js_str j "group_name" "";
  sort_order ← js_int32 j "sort_order" 0;
  Some {| fg_group_id := group_id; fg_user_id := user_id; fg_group_name := group_name;
          fg_sort_order := sort_order |}.
End Serialization.

(** ** Keys *)

Definition K_FRIEND : string := "friend:".
Definition K_FRIEND_REQ : string := "friend_req:".
Definition K_FRIEND_REQ_TO : string := "friend_req_to:".
Definition K_FRIEND_REQ_FROM : string := "friend_req_from:".
Definition K_FRIEND_GROUP : string := "friend_group:".
Definition K_BLOCK : string := "block:".

Definition KeyFriend (user_id friend_id : string) : string :=
  K_FRIEND +:+ user_id +:+ ":" +:+ friend_id.
Definition KeyFriendReq (request_id : string) : string := K_FRIEND_REQ +:+ request_id.
Definition KeyFriendReqTo (to_user_id request_id : string) : string :=
  K_FRIEND_REQ_TO +:+ to_user_id +:+ ":" +:+ request_id.
Definition KeyFriendReqFrom (from_user_id request_id : string) : string :=
  K_FRIEND_REQ_FROM +:+ from_user_id +:+ ":" +:+ request_id.
Definition KeyFriendGroup (user_id group_id : string) : string :=
  K_FRIEND_GROUP +:+ user_id +:+ ":" +:+ group_id.
Definition KeyBlock (user_id target_id : string) : string :=
  K_BLOCK +:+ user_id +:+ ":" +:+ target_id.
Definition PrefixFriend (user_id : string) : string := K_FRIEND +:+ user_id +:+ ":".
Definition PrefixFriendReqTo (u : string) : string := K_FRIEND_REQ_TO +:+ u +:+ ":".
Definition PrefixFriendReqFrom (u : string) : string := K_FRIEND_REQ_FROM +:+ u +:+ ":".
Definition PrefixFriendGroup (user_id : string) : string := K_FRIEND_GROUP +:+ user_id +:+ ":".
Definition PrefixBlock (user_id : string) : string := K_BLOCK +:+ user_id +:+ ":".

(** ** Operations *)
Section RocksDBFriendStore.
Context {db : Type} `{!RocksDB db} `{!JsonLib}.
Implicit Types d : db.

Definition RocksDBFriendStore (DB_Open : string → option db) (db_path : string) : outcome db :=
  match DB_Open db_path with Some d => Ret d | None => Exc end.

Definition IsFriend (d : db) (user_id friend_id : string) : bool :=
  if decide (user_id = "" ∨ friend_id = "") then false else
  bool_decide (is_Some (db_Get d (KeyFriend user_id friend_id))).

(** The relation in the other direction. *)
Definition reverse_friend (data : FriendData) : FriendData :=
  {| fd_user_id := fd_friend_id data; fd_friend_id := fd_user_id data; fd_remark := "";
     fd_group_id := kDefaultFriendGroupId; fd_added_at := fd_added_at data |}.

Definition AddFriend (data : FriendData) : M db bool :=
  if decide (fd_user_id data = "" ∨ fd_friend_id data = "") then mret false else
  already ← reads (λ d, IsFriend d (fd_user_id data) (fd_friend_id data));
  if (already : bool) then mret false else
  let reverse := reverse_friend data in
  v ← or_throw (SerializeFriend data);
  w ← or_throw (SerializeFriend reverse);
  kv_write [WPut (KeyFriend (fd_user_id data) (fd_friend_id data)) v;
            WPut (KeyFriend (fd_user_id reverse) (fd_friend_id reverse)) w].

Definition RemoveFriend (user_id friend_id : string) : M db bool :=
  if decide (user_id = "" ∨ friend_id = "") then mret false else
  kv_write [WDelete (KeyFriend user_id friend_id); WDelete (KeyFriend friend_id user_id)].

(** Entries that cannot be read and entries without a group are skipped. *)
Definition GetFriends (d : db) (user_id group_id : string) : list FriendData :=
  if decide (user_id = "") then [] else
  omap (λ e, f ← DeserializeFriend e.2;
             if decide (fd_group_id f = "") then None else
             if decide (group_id = "" ∨ fd_group_id f = group_id) then Some f else None)
    (db_scan d (PrefixFriend user_id)).

(** [UpdateRemark] and [MoveFriend]: the stored relation with one field changed;
    [DeserializeFriend] is not guarded here. *)
Definition rewrite_friend (f : FriendData → FriendData) (user_id friend_id : string) : M db bool :=
  if decide (user_id = "" ∨ friend_id = "") then mret false else
  value ← reads (λ d, db_Get d (KeyFriend user_id friend_id));
  match value with
  | None => mret false
  | Some value =>
      fd ← or_throw (DeserializeFriend value);
      v ← or_throw (SerializeFriend (f fd));
      kv_put (KeyFriend user_id friend_id) v
  end.
Definition UpdateRemark (user_id friend_id remark : string) : M db bool :=
  rewrite_friend (fd_set_remark remark) user_id friend_id.
Definition MoveFriend (user_id friend_id to_group_id : string) : M db bool :=
  rewrite_friend (fd_set_group to_group_id) user_id friend_id.

Definition CreateRequest (req : FriendRequestData) : M db bool :=
  if decide (fr_request_id req = "" ∨ fr_from_user_id req = "" ∨ fr_to_user_id req = "")
  then mret false else
  let req_key := KeyFriendReq (fr_request_id req) in
  existing ← reads (λ d, db_Get d req_key);
  match existing with
  | Some _ => mret false
  | None =>
      v ← or_throw (SerializeRequest req);
      kv_write [WPut req_key v;
                WPut (KeyFriendReqTo (fr_to_user_id req) (fr_request_id req)) "";
                WPut (KeyFriendReqFrom (fr_from_user_id req) (fr_request_id req)) ""]
  end.

Definition GetRequest (d : db) (request_id : string) : option FriendRequestData :=
  if decide (request_id = "") then None else
  value ← db_Get d (KeyFriendReq request_id);
  DeserializeRequest value.

Definition UpdateRequestStatus (request_id : string) (status : Z) : M db bool :=
  if decide (request_id = "") then mret false else
  req ← reads (λ d, GetRequest d request_id);
  match req with
  | None => mret false
  | Some req =>
      v ← or_throw (SerializeRequest (fr_set_status status req));
      kv_put (KeyFriendReq request_id) v
  end.

Definition GetReceivedRequests (d : db) (user_id : string) : list FriendRequestData :=
  if decide (user_id = "") then [] else
  omap (GetRequest d)
    (key_suffixes (PrefixFriendReqTo user_id) (db_scan d (PrefixFriendReqTo user_id))).
Definition GetSentRequests (d : db) (user_id : string) : list FriendRequestData :=
  if decide (user_id = "") then [] else
  omap (GetRequest d)
    (key_suffixes (PrefixFriendReqFrom user_id) (db_scan d (PrefixFriendReqFrom user_id))).

Definition CreateGroup (group : FriendGroupData) : M db bool :=
  if decide (fg_user_id group = "" ∨ fg_group_id group = "") then mret false else
  let key := KeyFriendGroup (fg_user_id group) (fg_group_id group) in
  existing ← reads (λ d, db_Get d key);
  match existing with
  | Some _ => mret false
  | None => v ← or_throw (SerializeGroup group); kv_put key v
  end.

Definition GetGroups (d : db) (user_id : string) : list FriendGroupData :=
  if decide (user_id = "") then [] else
  omap (λ e, DeserializeGroup e.2) (db_scan d (PrefixFriendGroup user_id)).

(** The puts of the relations moved to the default group; [None]: a thrown error. *)
Definition move_to_default (user_id : string) (friends : list FriendData) : option (list WriteOp) :=
  mapM (λ f, v ← SerializeFriend (fd_set_group kDefaultFriendGroupId f);
             Some (WPut (KeyFriend user_id (fd_friend_id f)) v)) friends.

Definition DeleteGroup (user_id group_id : string) : M db bool :=
  if decide (user_id = "" ∨ group_id = "") then mret false else
  friends ← reads (λ d, GetFriends d user_id group_id);
  puts ← or_throw (move_to_default user_id friends);
  kv_write (WDelete (KeyFriendGroup user_id group_id) :: puts).

Definition Block (user_id target_id : string) : M db bool :=
  if decide (user_id = "" ∨ target_id = "") then mret false else
  kv_put (KeyBlock user_id target_id) "1".

Definition Unblock (user_id target_id : string) : M db bool :=
  if decide (user_id = "" ∨ target_id = "") then mret false else
  kv_delete (KeyBlock user_id target_id).

Definition IsBlocked (d : db) (user_id target_id : string) : bool :=
  if decide (user_id = "" ∨ target_id = "") then false else
  bool_decide (is_Some (db_Get d (KeyBlock user_id target_id))).

Definition GetBlockList (d : db) (user_id : string) : list string :=
  if decide (user_id = "") then [] else
  key_suffixes (PrefixBlock user_id) (db_scan d (PrefixBlock user_id)).
End RocksDBFriendStore.

(** * Typed keys *)

Inductive FKey : Type :=
  | FFriend (u f : string)
  | FReq (id : string)
  | FReqTo (u id : string)
  | FReqFrom (u id : string)
  | FGroup (u g : string)
  | FBlock (u t : string).
#[global] Instance FKey_eq_dec : EqDecision FKey.
Proof. solve_decision. Defined.

Definition fkey_str (k : FKey) : string :=
  match k with
  | FFriend u f => KeyFriend u f
  | FReq id => KeyFriendReq id
  | FReqTo u id => KeyFriendReqTo u id
  | FReqFrom u id => KeyFriendReqFrom u id
  | FGroup u g => KeyFriendGroup u g
  | FBlock u t => KeyBlock u t
  end.
Definition fkey_ok (k : FKey) : Prop :=
  match k with
  | FReq id => ok_id id
  | FFriend a b | FReqTo a b | FReqFrom a b | FGroup a b | FBlock a b => ok_id a ∧ ok_id b
  end.
#[global] Program Instance FKey_space : KeySpace FKey := {|
  key_str := fkey_str; key_ok := fkey_ok;
|}.
Next Obligation.
  unfold KeyFriend, KeyFriendReq, KeyFriendReqTo, KeyFriendReqFrom, KeyFriendGroup, KeyBlock,
    K_FRIEND, K_FRIEND_REQ, K_FRIEND_REQ_TO, K_FRIEND_REQ_FROM, K_FRIEND_GROUP, K_BLOCK, ok_id.
  intros [a b|i|a b|a b|a b|a b] [a' b'|i'|a' b'|a' b'|a' b'|a' b']; simpl; intros Hok Heq;
    simplify_eq; try done; destruct Hok as [[_ ?] [_ ?]];
    by destruct (field_inj a a' b b') as [-> ->].
Qed.

(** * The abstract store *)

Record fmodel : Type := {
  friends : gmap (string * string) FriendData;          (* (user, friend) *)
  requests : gmap string FriendRequestData;
  fgroups : gmap (string * string) FriendGroupData;     (* (user, group) *)
  blocks : gset (string * string);                      (* (user, target) *)
}.

Definition with_friends (x : gmap (string * string) FriendData) (M : fmodel) : fmodel :=
  {| friends := x; requests := requests M; fgroups := fgroups M; blocks := blocks M |}.
Definition with_requests (x : gmap string FriendRequestData) (M : fmodel) : fmodel :=
  {| friends := friends M; requests := x; fgroups := fgroups M; blocks := blocks M |}.
Definition with_fgroups (x : gmap (string * string) FriendGroupData) (M : fmodel) : fmodel :=
  {| friends := friends M; requests := requests M; fgroups := x; blocks := blocks M |}.
Definition with_blocks (x : gset (string * string)) (M : fmodel) : fmodel :=
  {| friends := friends M; requests := requests M; fgroups := fgroups M; blocks := x |}.

(** What the JSON text keeps: the timestamps are cut to 32 bits. *)
Definition fd_stored (d : FriendData) : FriendData :=
  {| fd_user_id := fd_user_id d; fd_friend_id := fd_friend_id d; fd_remark := fd_remark d;
     fd_group_id := fd_group_id d; fd_added_at := wrap32 (fd_added_at d) |}.
Definition fr_stored (r : FriendRequestData) : FriendRequestData :=
  {| fr_request_id := fr_request_id r; fr_from_user_id := fr_from_user_id r;
     fr_to_user_id := fr_to_user_id r; fr_remark := fr_remark r; fr_status := fr_status r;
     fr_created_at := wrap32 (fr_created_at r) |}.

Definition a_AddFriend (x : FriendData) (M : fmodel) : option fmodel :=
  match friends M !! (fd_user_id x, fd_friend_id x) with
  | Some _ => None
  | None => Some (with_friends
      (<[(fd_friend_id x, fd_user_id x) := fd_stored (reverse_friend x)]>
       (<[(fd_user_id x, fd_friend_id x) := fd_stored x]> (friends M))) M)
  end.
Definition a_RemoveFriend (u f : string) (M : fmodel) : option fmodel :=
  Some (with_friends (delete (f, u) (delete (u, f) (friends M))) M).
Definition a_rewrite_friend (g : FriendData → FriendData) (u f : string) (M : fmodel)
    : option fmodel :=
  x ← friends M !! (u, f); Some (with_friends (<[(u, f) := g x]> (friends M)) M).
Definition a_CreateRequest (r : FriendRequestData) (M : fmodel) : option fmodel :=
  match requests M !! fr_request_id r with
  | Some _ => None
  | None => Some (with_requests (<[fr_request_id r := fr_stored r]> (requests M)) M)
  end.
Definition a_UpdateRequestStatus (id : string) (st : Z) (M : fmodel) : option fmodel :=
  r ← requests M !! id; Some (with_requests (<[id := fr_set_status st r]> (requests M)) M).
Definition a_CreateGroup (g : FriendGroupData) (M : fmodel) : option fmodel :=
  match fgroups M !! (fg_user_id g, fg_group_id g) with
  | Some _ => None
  | None => Some (with_fgroups (<[(fg_user_id g, fg_group_id g) := g]> (fgroups M)) M)
  end.
Definition a_DeleteGroup (u g : string) (M : fmodel) : option fmodel :=
  Some (with_fgroups (delete (u, g) (fgroups M))
    (with_friends (map_imap (λ k x, Some (if decide (k.1 = u ∧ fd_group_id x = g)
       then fd_set_group kDefaultFriendGroupId x else x)) (friends M)) M)).
Definition a_Block (u t : string) (M : fmodel) : option fmodel :=
  Some (with_blocks ({[ (u, t) ]} ∪ blocks M) M).
Definition a_Unblock (u t : string) (M : fmodel) : option fmodel :=
  Some (with_blocks (blocks M ∖ {[ (u, t) ]}) M).

(** What the database holds at each key. *)
Inductive fval : Type :=
  | VFriend (x : FriendData) | VReq (r : FriendRequestData) | VGroup (g : FriendGroupData) | VMark.

Definition shadow (M : fmodel) (k : FKey) : option fval :=
  match k with
  | FFriend u f => VFriend <$> friends M !! (u, f)
  | FReq id => VReq <$> requests M !! id
  | FReqTo u id => r ← requests M !! id; if decide (fr_to_user_id r = u) then Some VMark else None
  | FReqFrom u id =>
      r ← requests M !! id; if decide (fr_from_user_id r = u) then Some VMark else None
  | FGroup u g => VGroup <$> fgroups M !! (u, g)
  | FBlock u t => if decide ((u, t) ∈ blocks M) then Some VMark else None
  end.

Definition fval_ok `{!JsonLib} (k : FKey) (v : string) (x : fval) : Prop :=
  match k, x with
  | FFriend u f, VFriend y => DeserializeFriend v = Some y ∧ fd_user_id y = u ∧ fd_friend_id y = f
  | FReq id, VReq r => DeserializeRequest v = Some r ∧ fr_request_id r = id
  | FGroup u g, VGroup y => DeserializeGroup v = Some y ∧ fg_user_id y = u ∧ fg_group_id y = g
  | FReqTo _ _, VMark | FReqFrom _ _, VMark | FBlock _ _, VMark => True
  | _, _ => False
  end.

Section Codec.
Context `{!JsonLib} `{!JsonLaws}.

Lemma DeserializeFriend_Serialize x v :
  SerializeFriend x = Some v → DeserializeFriend v = Some (fd_stored x).
Proof.
  intros Hv. unfold SerializeFriend, DeserializeFriend in *.
  apply js_parse_dump in Hv. rewrite Hv. by js_simp.
Qed.
Lemma DeserializeRequest_Serialize r v : int32_range (fr_status r) →
  SerializeRequest r = Some v → DeserializeRequest v = Some (fr_stored r).
Proof.
  intros Hs Hv. unfold SerializeRequest, DeserializeRequest in *.
  apply js_parse_dump in Hv. rewrite Hv. js_simp. by rewrite (wrap32_id (fr_status r)).
Qed.
Lemma DeserializeFriendGroup_Serialize g v : int32_range (fg_sort_order g) →
  SerializeGroup g = Some v → DeserializeGroup v = Some g.
Proof.
  intros Hs Hv. unfold SerializeGroup, DeserializeGroup in *.
  apply js_parse_dump in Hv. rewrite Hv. js_simp. rewrite wrap32_id by done. by destruct g.
Qed.
Lemma DeserializeFriend_stored v x : DeserializeFriend v = Some x → fd_stored x = x.
Proof.
  unfold DeserializeFriend, js_int32. intros Hd. simplify_option_eq.
  unfold fd_stored. simpl. by rewrite wrap32_idemp.
Qed.
Lemma DeserializeRequest_stored v r : DeserializeRequest v = Some r →
  fr_stored r = r ∧ int32_range (fr_status r).
Proof.
  unfold DeserializeRequest, js_int32. intros Hd. simplify_option_eq.
  unfold fr_stored. simpl. rewrite wrap32_idemp. split; [done|apply wrap32_range].
Qed.
End Codec.

Section Rep.
Context {db : Type} `{!RocksDB db} `{!RocksDBLaws db} `{!JsonLib} `{!JsonLaws}.
Implicit Types d : db.

Record friend_rep (d : db) (M : fmodel) : Prop := {
  fr_closed : keys_closed (K:=FKey) d;
  fr_shadow k : option_Forall2 (fval_ok k) (kget d k) (shadow M k);
}.

Lemma friend_rep_write d d' M M' b :
  friend_rep d M → Forall (λ op, key_ok (kop_key op)) b → db_Write d (kop_op <$> b) = Some d' →
  (∀ k, option_Forall2 (fval_ok k) (kbatch_get b k (kget d k)) (shadow M' k)) →
  friend_rep d' M'.
Proof.
  intros [Hc Hs] Hb Hw Hs'. split; [by eapply keys_closed_write|].
  intros k. by rewrite (kget_write _ _ _ _ Hb Hw).
Qed.

(** The two sides of the representation at one key. *)
Lemma shadow_key d M k : friend_rep d M →
  kget d k = None ∧ shadow M k = None ∨
  ∃ v x, kget d k = Some v ∧ shadow M k = Some x ∧ fval_ok k v x ∧ key_ok k.
Proof.
  intros Hr. pose proof (fr_shadow _ _ Hr k) as Hv.
  inversion Hv as [v x Hok Hk Hx|Hk Hx]; [right|by left].
  exists v, x. split_and!; try done. by eapply kget_Some_ok; [apply Hr|].
Qed.

Lemma friend_key d M u f : friend_rep d M →
  db_Get d (KeyFriend u f) = None ∧ friends M !! (u, f) = None ∨
  ∃ v x, db_Get d (KeyFriend u f) = Some v ∧ friends M !! (u, f) = Some x ∧
    DeserializeFriend v = Some x ∧ fd_user_id x = u ∧ fd_friend_id x = f ∧ ok_id u ∧ ok_id f.
Proof.
  intros Hr. destruct (shadow_key d M (FFriend u f) Hr) as [[? Hn]|(v&x&?&Hx&Hok&?&?)]; simpl in *.
  - left. split; [done|]. by apply fmap_None in Hn.
  - right. apply fmap_Some in Hx as (y & Hy & ->). destruct Hok as (?&?&?). eauto 12.
Qed.

Lemma request_key d M id : friend_rep d M →
  db_Get d (KeyFriendReq id) = None ∧ requests M !! id = None ∨
  ∃ v r, db_Get d (KeyFriendReq id) = Some v ∧ requests M !! id = Some r ∧
    DeserializeRequest v = Some r ∧ fr_request_id r = id ∧ ok_id id.
Proof.
  intros Hr. destruct (shadow_key d M (FReq id) Hr) as [[? Hn]|(v&x&?&Hx&Hok&?)]; simpl in *.
  - left. split; [done|]. by apply fmap_None in Hn.
  - right. apply fmap_Some in Hx as (y & Hy & ->). destruct Hok as (?&?). eauto 10.
Qed.

Lemma IsFriend_rep d M u f : friend_rep d M →
  IsFriend d u f = bool_decide (is_Some (friends M !! (u, f))).
Proof.
  intros Hr. unfold IsFriend.
  destruct (friend_key d M u f Hr) as [[-> ->]|(v & x & -> & -> & _ & _ & _ & [? _] & [? _])].
  - by case_decide.
  - rewrite decide_False by naive_solver. by rewrite !bool_decide_true by eauto.
Qed.

Lemma GetRequest_rep d M id : friend_rep d M → GetRequest d id = requests M !! id.
Proof.
  intros Hr. unfold GetRequest.
  destruct (request_key d M id Hr) as [[-> ->]|(v & x & -> & -> & Hd & _ & [? _])].
  - by case_decide.
  - by rewrite decide_False.
Qed.

Lemma IsBlocked_rep d M u t : friend_rep d M →
  IsBlocked d u t = bool_decide ((u, t) ∈ blocks M).
Proof.
  intros Hr. unfold IsBlocked.
  destruct (shadow_key d M (FBlock u t) Hr) as [[Hk Hs]|(v&x&Hk&Hs&_&[[? _] [? _]])];
    unfold kget in Hk; simpl in Hk, Hs; rewrite Hk;
    destruct (decide ((u, t) ∈ blocks M)) as [Hin|Hin]; try done.
  - rewrite (bool_decide_false _ Hin). by case_decide.
  - rewrite decide_False by naive_solver. by rewrite !bool_decide_true by eauto.
Qed.

Definition fempty : fmodel :=
  {| friends := ∅; requests := ∅; fgroups := ∅; blocks := ∅ |}.
Lemma friend_rep_empty d : (∀ k, db_Get d k = None) → friend_rep d fempty.
Proof.
  intros He. split.
  - intros s v. by rewrite He.
  - intros k. unfold kget. rewrite He.
    assert (shadow fempty k = None) as ->; [|constructor].
    destruct k; simpl; rewrite ?lookup_empty; try done; by rewrite decide_False by set_solver.
Qed.

(** Compare the database after a batch with the abstract result, key by key. *)
Local Ltac keywise Hr :=
  let k := fresh "k" in let Hk := fresh "Hk" in
  intros k; pose proof (fr_shadow _ _ Hr k) as Hk;
  destruct k; cbn [kbatch_get shadow friends requests fgroups blocks with_friends with_requests
    with_fgroups with_blocks] in *;
  rewrite ?lookup_insert, ?lookup_delete;
  repeat (case_decide; simplify_eq); try done; try (by constructor); try congruence.

Lemma AddFriend_refines x : ok_id (fd_user_id x) → ok_id (fd_friend_id x) →
  refines friend_rep (AddFriend x) (a_AddFriend x).
Proof.
  intros Hu Hf d M r d' Hr Hop. unfold AddFriend, a_AddFriend in *.
  rewrite decide_False in Hop by (destruct Hu, Hf; naive_solver). munfold Hop.
  rewrite (IsFriend_rep _ _ _ _ Hr) in Hop.
  destruct (friends M !! (fd_user_id x, fd_friend_id x)) as [y|] eqn:Hxy.
  { rewrite bool_decide_true in Hop by eauto. injection Hop as <- <-. by split. }
  rewrite bool_decide_false in Hop by (by intros []%is_Some_None).
  destruct (SerializeFriend x) as [v|] eqn:Hv; munfold Hop; [|injection Hop as <- <-; by split].
  destruct (SerializeFriend (reverse_friend x)) as [w|] eqn:Hw; munfold Hop;
    [|injection Hop as <- <-; by split].
  unfold kv_write, kv_commit in Hop.
  destruct (db_Write d _) as [d1|] eqn:Hwr; injection Hop as <- <-; split; try done.
  eexists; split; [done|].
  apply (friend_rep_write d d1 M _ [KPut (FFriend (fd_user_id x) (fd_friend_id x)) v;
    KPut (FFriend (fd_friend_id x) (fd_user_id x)) w]); [done|keys_ok|done|].
  apply DeserializeFriend_Serialize in Hv, Hw. keywise Hr.
Qed.

Lemma RemoveFriend_refines u f : ok_id u → ok_id f →
  refines friend_rep (RemoveFriend u f) (a_RemoveFriend u f).
Proof.
  intros Hu Hf d M r d' Hr Hop. unfold RemoveFriend, a_RemoveFriend in *.
  rewrite decide_False in Hop by (destruct Hu, Hf; naive_solver).
  unfold kv_write, kv_commit in Hop.
  destruct (db_Write d _) as [d1|] eqn:Hwr; injection Hop as <- <-; split; try done.
  eexists; split; [done|].
  apply (friend_rep_write d d1 M _ [KDel (FFriend u f); KDel (FFriend f u)]); [done|keys_ok|done|].
  keywise Hr.
Qed.

Lemma rewrite_friend_refines g u f :
  (∀ x, fd_user_id (g x) = fd_user_id x ∧ fd_friend_id (g x) = fd_friend_id x ∧
        fd_stored (g x) = g (fd_stored x)) →
  refines friend_rep (rewrite_friend g u f) (a_rewrite_friend g u f).
Proof.
  intros Hg d M r d' Hr Hop. unfold rewrite_friend, a_rewrite_friend in *.
  destruct (friend_key d M u f Hr) as [[Hk ->]|(v & x & Hk & -> & Hd & Hxu & Hxf & Hu & Hf)].
  { case_decide; munfold Hop; [injection Hop as <- <-; by split|].
    rewrite Hk in Hop. injection Hop as <- <-. by split. }
  rewrite decide_False in Hop by (destruct Hu, Hf; naive_solver). munfold Hop.
  rewrite Hk, Hd in Hop. munfold Hop.
  destruct (SerializeFriend (g x)) as [w|] eqn:Hw; munfold Hop; [|injection Hop as <- <-; by split].
  unfold kv_put, kv_commit in Hop.
  destruct (db_Put d _ w) as [d1|] eqn:Hwr; injection Hop as <- <-; split; try done.
  simpl. eexists; split; [done|].
  change (KeyFriend u f) with (key_str (FFriend u f)) in Hwr. apply kop_of_Put in Hwr.
  apply (friend_rep_write d d1 M _ [KPut (FFriend u f) w]); [done|keys_ok|done|].
  apply DeserializeFriend_Serialize in Hw. destruct (Hg x) as (Hgu & Hgf & Hgs).
  rewrite Hgs, (DeserializeFriend_stored _ _ Hd) in Hw. keywise Hr; constructor; simpl; by rewrite Hgu, Hgf.
Qed.

Lemma CreateRequest_refines q : ok_id (fr_request_id q) → ok_id (fr_from_user_id q) →
  ok_id (fr_to_user_id q) → int32_range (fr_status q) →
  refines friend_rep (CreateRequest q) (a_CreateRequest q).
Proof.
  intros Hi Hf Ht Hst d M r d' Hr Hop. unfold CreateRequest, a_CreateRequest in *.
  rewrite decide_False in Hop by (destruct Hi, Hf, Ht; naive_solver). munfold Hop.
  destruct (request_key d M (fr_request_id q) Hr) as [[Hk HM]|(v & x & Hk & HM & _)];
    rewrite Hk, HM in *; [|injection Hop as <- <-; by split].
  destruct (SerializeRequest q) as [v|] eqn:Hv; munfold Hop; [|injection Hop as <- <-; by split].
  unfold kv_write, kv_commit in Hop.
  destruct (db_Write d _) as [d1|] eqn:Hwr; injection Hop as <- <-; split; try done.
  eexists; split; [done|].
  apply (friend_rep_write d d1 M _ [KPut (FReq (fr_request_id q)) v;
    KPut (FReqTo (fr_to_user_id q) (fr_request_id q)) "";
    KPut (FReqFrom (fr_from_user_id q) (fr_request_id q)) ""]); [done|keys_ok|done|].
  apply DeserializeRequest_Serialize in Hv; [|done].
  keywise Hr; simpl in *; rewrite ?HM in *; simpl in *; try done;
    try (rewrite decide_True by done; by constructor); by rewrite decide_False by congruence.
Qed.

Lemma UpdateRequestStatus_refines id st : int32_range st →
  refines friend_rep (UpdateRequestStatus id st) (a_UpdateRequestStatus id st).
Proof.
  intros Hst d M r d' Hr Hop. unfold UpdateRequestStatus, a_UpdateRequestStatus in *.
  rewrite <-(GetRequest_rep _ _ id Hr). case_decide as Hid.
  { subst. injection Hop as <- <-. by split. }
  munfold Hop. rewrite (GetRequest_rep _ _ id Hr) in *.
  destruct (request_key d M id Hr) as [[Hk HM]|(v & x & Hk & HM & Hd & Hxid & Hok)];
    rewrite HM in *; [injection Hop as <- <-; by split|].
  munfold Hop. destruct (SerializeRequest _) as [w|] eqn:Hw; munfold Hop; [|injection Hop as <- <-; by split].
  unfold kv_put, kv_commit in Hop.
  destruct (db_Put d _ w) as [d1|] eqn:Hwr; injection Hop as <- <-; split; try done.
  simpl. eexists; split; [done|].
  change (KeyFriendReq id) with (key_str (FReq id)) in Hwr. apply kop_of_Put in Hwr.
  apply (friend_rep_write d d1 M _ [KPut (FReq id) w]); [done|keys_ok|done|].
  apply DeserializeRequest_Serialize in Hw; [|done].
  destruct (DeserializeRequest_stored _ _ Hd) as [Hs _].
  assert (fr_stored (fr_set_status st x) = fr_set_status st x) as Hs'.
  { rewrite <-Hs at 2. done. }
  rewrite Hs' in Hw. keywise Hr; simpl in *; rewrite ?HM in *; simpl in *; try done.
Qed.

Lemma group_key d M u g : friend_rep d M →
  db_Get d (KeyFriendGroup u g) = None ∧ fgroups M !! (u, g) = None ∨
  ∃ v y, db_Get d (KeyFriendGroup u g) = Some v ∧ fgroups M !! (u, g) = Some y ∧
    DeserializeGroup v = Some y ∧ fg_user_id y = u ∧ fg_group_id y = g ∧ ok_id u ∧ ok_id g.
Proof.
  intros Hr. destruct (shadow_key d M (FGroup u g) Hr) as [[? Hn]|(v&x&?&Hx&Hok&?&?)]; simpl in *.
  - left. split; [done|]. by apply fmap_None in Hn.
  - right. apply fmap_Some in Hx as (y & Hy & ->). destruct Hok as (?&?&?). eauto 12.
Qed.

Lemma CreateFriendGroup_refines g : ok_id (fg_user_id g) → ok_id (fg_group_id g) →
  int32_range (fg_sort_order g) → refines friend_rep (CreateGroup g) (a_CreateGroup g).
Proof.
  intros Hu Hg Hs d M r d' Hr Hop. unfold CreateGroup, a_CreateGroup in *.
  rewrite decide_False in Hop by (destruct Hu, Hg; naive_solver). munfold Hop.
  destruct (group_key d M (fg_user_id g) (fg_group_id g) Hr) as [[Hk HM]|(v & x & Hk & HM & _)];
    rewrite Hk, HM in *; [|injection Hop as <- <-; by split].
  destruct (SerializeGroup g) as [v|] eqn:Hv; munfold Hop; [|injection Hop as <- <-; by split].
  unfold kv_put, kv_commit in Hop.
  destruct (db_Put d _ v) as [d1|] eqn:Hwr; injection Hop as <- <-; split; try done.
  eexists; split; [done|].
  change (KeyFriendGroup _ _) with (key_str (FGroup (fg_user_id g) (fg_group_id g))) in Hwr.
  apply kop_of_Put in Hwr.
  apply (friend_rep_write d d1 M _ [KPut (FGroup (fg_user_id g) (fg_group_id g)) v]);
    [done|keys_ok|done|].
  apply DeserializeFriendGroup_Serialize in Hv; [|done]. keywise Hr.
Qed.

Lemma Block_refines u t : ok_id u → ok_id t → refines friend_rep (Block u t) (a_Block u t).
Proof.
  intros Hu Ht d M r d' Hr Hop. unfold Block, a_Block in *.
  rewrite decide_False in Hop by (destruct Hu, Ht; naive_solver).
  unfold kv_put, kv_commit in Hop.
  destruct (db_Put d _ _) as [d1|] eqn:Hwr; injection Hop as <- <-; split; try done.
  eexists; split; [done|].
  change (KeyBlock u t) with (key_str (FBlock u t)) in Hwr. apply kop_of_Put in Hwr.
  apply (friend_rep_write d d1 M _ [KPut (FBlock u t) "1"]); [done|keys_ok|done|].
  keywise Hr; set_solver.
Qed.

Lemma Unblock_refines u t : ok_id u → ok_id t → refines friend_rep (Unblock u t) (a_Unblock u t).
Proof.
  intros Hu Ht d M r d' Hr Hop. unfold Unblock, a_Unblock in *.
  rewrite decide_False in Hop by (destruct Hu, Ht; naive_solver).
  unfold kv_delete, kv_commit in Hop.
  destruct (db_Delete d _) as [d1|] eqn:Hwr; injection Hop as <- <-; split; try done.
  eexists; split; [done|].
  change (KeyBlock u t) with (key_str (FBlock u t)) in Hwr. apply kop_of_Delete in Hwr.
  apply (friend_rep_write d d1 M _ [KDel (FBlock u t)]); [done|keys_ok|done|].
  keywise Hr; set_solver.
Qed.

(** ** Scans *)

Lemma scan_friend d M u k v : friend_rep d M → (k, v) ∈ db_scan d (PrefixFriend u) ↔
  ∃ x, k = KeyFriend u (fd_friend_id x) ∧ db_Get d k = Some v ∧
    friends M !! (u, fd_friend_id x) = Some x ∧ DeserializeFriend v = Some x.
Proof.
  intros Hr. assert (∀ f, PrefixFriend u +:+ f = KeyFriend u f) as Happ.
  { intros f. unfold PrefixFriend, KeyFriend. by rewrite <-!str_app_assoc. }
  rewrite db_scan_elem, prefix_iff. split.
  - intros [HG [f ->]]. rewrite Happ in *.
    destruct (friend_key d M u f Hr) as [[? _]|(v'&x&Hk&Hx&Hd&_&Hf&_)]; [congruence|].
    exists x. rewrite Hf. split_and!; try done. congruence.
  - intros (x & -> & HG & _). split; [done|]. exists (fd_friend_id x). by rewrite Happ.
Qed.

Lemma GetFriends_elem d M u g : friend_rep d M → ok_id u →
  NoDup (GetFriends d u g) ∧ ∀ x, x ∈ GetFriends d u g ↔
    friends M !! (u, fd_friend_id x) = Some x ∧ fd_group_id x ≠ "" ∧ (g = "" ∨ fd_group_id x = g).
Proof.
  intros Hr Hu. unfold GetFriends. rewrite decide_False by apply Hu. split.
  - apply NoDup_omap_strong; [|eapply NoDup_fmap_1, db_scan_nodup].
    intros [k v] [k' v'] x (x1 & -> & HG & _ & H1)%(scan_friend _ M)
      (x2 & -> & HG' & _ & H2)%(scan_friend _ M) Hf Hf'; [|done..].
    simpl in Hf, Hf'. rewrite H1 in Hf. rewrite H2 in Hf'. simpl in Hf, Hf'.
    repeat case_decide; simplify_eq. congruence.
  - intros x. rewrite list_elem_of_omap. split.
    + intros [[k v] [(y & _ & _ & Hy & Hd)%(scan_friend _ M) Hf]]; [|done]. simpl in Hf.
      rewrite Hd in Hf. simpl in Hf. repeat case_decide; by simplify_eq.
    + intros (Hx & Hne & Hg).
      destruct (friend_key d M u (fd_friend_id x) Hr) as [[_ ?]|(v&y&Hk&Hy&Hd&_)]; [congruence|].
      assert (y = x) as -> by congruence.
      exists (KeyFriend u (fd_friend_id x), v). split; [apply (scan_friend _ M); eauto 10|].
      simpl. rewrite Hd. simpl. rewrite decide_False by done. by rewrite decide_True.
Qed.

Lemma GetGroups_elem d M u : friend_rep d M → ok_id u →
  ∀ g, g ∈ GetGroups d u ↔ fgroups M !! (u, fg_group_id g) = Some g.
Proof.
  intros Hr Hu g. unfold GetGroups. rewrite decide_False by apply Hu.
  assert (∀ x, PrefixFriendGroup u +:+ x = KeyFriendGroup u x) as Happ.
  { intros x. unfold PrefixFriendGroup, KeyFriendGroup. by rewrite <-!str_app_assoc. }
  rewrite list_elem_of_omap. split.
  - intros [[k v] [[HG [x ->]%prefix_iff]%db_scan_elem Hd]]. rewrite Happ in *. simpl in Hd.
    destruct (group_key d M u x Hr) as [[? _]|(v'&y&Hk&Hy&Hd'&_&Hf&_)]; [congruence|].
    simplify_eq. done.
  - intros Hg. destruct (group_key d M u (fg_group_id g) Hr) as [[_ ?]|(v&y&Hk&Hy&Hd&_)]; [congruence|].
    assert (y = g) as -> by congruence.
    exists (KeyFriendGroup u (fg_group_id g), v). split; [|done].
    rewrite db_scan_elem. split; [done|]. rewrite <-Happ. apply prefix_app.
Qed.

(** The requests of an index. *)
Lemma GetReceivedRequests_elem d M u : friend_rep d M → ok_id u →
  ∀ q, q ∈ GetReceivedRequests d u ↔
    requests M !! fr_request_id q = Some q ∧ fr_to_user_id q = u.
Proof.
  intros Hr Hu q. unfold GetReceivedRequests. rewrite decide_False by apply Hu.
  assert (∀ x, PrefixFriendReqTo u +:+ x = KeyFriendReqTo u x) as Happ.
  { intros x. unfold PrefixFriendReqTo, KeyFriendReqTo. by rewrite <-!str_app_assoc. }
  assert (∀ id, is_Some (db_Get d (KeyFriendReqTo u id)) ↔
    ∃ r, requests M !! id = Some r ∧ fr_to_user_id r = u) as Hidx.
  { intros id. destruct (shadow_key d M (FReqTo u id) Hr) as [[Hk Hs]|(v&x&Hk&Hs&_)];
      unfold kget in Hk; simpl in Hk, Hs; rewrite Hk.
    - split; [by intros []%is_Some_None|]. intros (r & Hq & ?). rewrite Hq in Hs. simpl in Hs.
      by rewrite decide_True in Hs.
    - split; [|eauto]. intros _. destruct (requests M !! id) as [r|]; [|done]. simpl in Hs.
      case_decide; [eauto|done]. }
  rewrite list_elem_of_omap. setoid_rewrite key_suffixes_elem. setoid_rewrite Happ.
  setoid_rewrite Hidx. setoid_rewrite (GetRequest_rep _ M); [|done]. split.
  - intros (id & [_ (r & Hq & Ht)] & Hq'). assert (r = q) as -> by congruence.
    destruct (request_key d M id Hr) as [[_ ?]|(v&y&_&Hy&_&Hid&_)]; [congruence|].
    assert (y = q) as -> by congruence. by rewrite Hid.
  - intros [Hq Ht]. exists (fr_request_id q). split; [|done]. split; [|eauto].
    destruct (request_key d M (fr_request_id q) Hr) as [[_ ?]|(v&y&_&Hy&_&_&[? _])]; congruence.
Qed.

Lemma moves_get u l b :
  Forall2 (λ x op, ∃ v, SerializeFriend (fd_set_group kDefaultFriendGroupId x) = Some v ∧
    op = KPut (FFriend u (fd_friend_id x)) v) l b →
  NoDup (fd_friend_id <$> l) →
  ∀ o,
    (∀ x, x ∈ l → ∃ v, SerializeFriend (fd_set_group kDefaultFriendGroupId x) = Some v ∧
       kbatch_get b (FFriend u (fd_friend_id x)) o = Some v) ∧
    (∀ k, (∀ x, x ∈ l → k ≠ FFriend u (fd_friend_id x)) → kbatch_get b k o = o).
Proof.
  induction 1 as [|x op l b (v & Hv & ->) Hl IH]; csimpl; intros Hnd o; [set_solver|].
  apply NoDup_cons in Hnd as [Hni Hnd]. split.
  - intros y [->|Hy]%elem_of_cons.
    + exists v. split; [done|]. rewrite decide_True by done. apply IH; [done|].
      intros x' Hx' [= Heq]. apply Hni. rewrite Heq. by apply list_elem_of_fmap_2.
    + by apply IH.
  - intros k Hk. rewrite decide_False by (intros <-; by apply (Hk x); [left|]).
    apply IH; [done|]. intros y Hy. apply Hk. by right.
Qed.

Lemma move_to_default_spec u l ops : move_to_default u l = Some ops →
  ∃ b, ops = kop_op <$> b ∧
    Forall2 (λ x op, ∃ v, SerializeFriend (fd_set_group kDefaultFriendGroupId x) = Some v ∧
      op = KPut (FFriend u (fd_friend_id x)) v) l b.
Proof.
  unfold move_to_default. intros Hm%mapM_Some. induction Hm as [|x op l ops Hx _ (b & -> & IH)].
  - exists []. by split.
  - destruct (SerializeFriend _) as [v|] eqn:Hv; [|done]. simpl in Hx. injection Hx as <-.
    exists (KPut (FFriend u (fd_friend_id x)) v :: b). split; [done|].
    constructor; [|done]. exists v. by split.
Qed.

Lemma DeleteFriendGroup_refines u g : ok_id u → ok_id g →
  refines friend_rep (DeleteGroup u g) (a_DeleteGroup u g).
Proof.
  intros Hu Hg d M r d' Hr Hop. unfold DeleteGroup, a_DeleteGroup in *.
  rewrite decide_False in Hop by (destruct Hu, Hg; naive_solver). munfold Hop.
  destruct (move_to_default u (GetFriends d u g)) as [ops|] eqn:Hmv; munfold Hop;
    [|injection Hop as <- <-; by split].
  unfold kv_write, kv_commit in Hop.
  destruct (db_Write d _) as [d1|] eqn:Hwr; injection Hop as <- <-; split; try done.
  eexists; split; [done|].
  apply move_to_default_spec in Hmv as (b & -> & Hb).
  destruct (GetFriends_elem d M u g Hr Hu) as [Hnd Hin].
  assert (NoDup (fd_friend_id <$> GetFriends d u g)) as Hnd'.
  { apply NoDup_fmap_2_strong; [|done]. intros x y [Hx _]%Hin [Hy _]%Hin Heq. congruence. }
  pose proof (moves_get _ _ _ Hb Hnd') as Hget.
  assert (∀ k o, kbatch_get (KDel (FGroup u g) :: b) k o =
    kbatch_get b k (if decide (FGroup u g = k) then None else o)) as Hcons by done.
  apply (friend_rep_write d d1 M _ (KDel (FGroup u g) :: b)); [done| |done|].
  - apply Forall_cons. split; [done|]. apply Forall_forall. intros op Hop.
    apply list_elem_of_lookup in Hop as [i Hi].
    destruct (Forall2_lookup_r _ _ _ _ _ Hb Hi) as (x & Hx & v & _ & ->).
    apply list_elem_of_lookup_2, Hin in Hx as [Hx _]. simpl.
    by destruct (friend_key d M u (fd_friend_id x) Hr) as [[_ ?]|(?&?&_&_&_&_&_&?)]; [congruence|].
  - intros k. rewrite Hcons. pose proof (fr_shadow _ _ Hr k) as Hk.
    destruct (Hget (if decide (FGroup u g = k) then None else kget d k)) as [Hmoved Hother].
    destruct k as [u' f|id|u' id|u' id|u' g'|u' t]; simpl in *;
      try (rewrite Hother by done; done).
    + rewrite map_lookup_imap. simpl.
      destruct (friends M !! (u', f)) as [x|] eqn:Hx; simpl in *.
      2: { rewrite Hother; [done|]. intros x Hxin%Hin [= -> ->]. destruct Hxin. congruence. }
      destruct (friend_key d M u' f Hr) as [[_ ?]|(v&y&HG&Hy&Hd&Hyu&Hyf&_)]; [congruence|].
      assert (y = x) as -> by congruence. case_decide as Hcase.
      * destruct Hcase as [-> Hgx]. destruct (Hmoved x) as (w & Hw & Hgw).
        { apply Hin. rewrite Hyf. destruct Hg as [? _]. split_and!; [done|congruence|by right]. }
        rewrite Hyf in Hgw. rewrite Hgw. constructor. simpl.
        apply DeserializeFriend_Serialize in Hw. rewrite Hw.
        split_and!; [|done..]. f_equal. rewrite <-(DeserializeFriend_stored _ _ Hd) at 2. done.
      * rewrite Hother; [done|]. intros z Hz%Hin [= -> ->]. apply Hcase.
        destruct Hz as (Hz & _ & [->|?]); [by destruct Hg|]. split; congruence.
    + rewrite Hother by done. rewrite lookup_delete. repeat case_decide; simplify_eq; try done; constructor.
Qed.
End Rep.
