(* ===== verification/FriendService.v ===== *)
(** [friendsvr/internal/service/friend_service.{h,cpp}]: friend requests and
    their life cycle, friendships, friend groups and block lists. *)

From S2P Require Import Prelude External Errors Utils FriendStore.

Section FriendService.
Context {db : Type} `{!RocksDB db} `{!JsonLib}.
Implicit Types d : db.

Definition new_request (e : Env) (user_id friend_id remark : string) : FriendRequestData :=
  {| fr_request_id := GenerateShortId (env_rand e) "req_" 12; fr_from_user_id := user_id;
     fr_to_user_id := friend_id; fr_remark := remark; fr_status := 0;
     fr_created_at := env_clock e 0 |}.

Definition AddFriend (e : Env) (user_id friend_id remark : string) : M db bool :=
  if decide (user_id = "" ∨ friend_id = "") then mret false else
  if decide (user_id = friend_id) then mret false else
  already ← reads (λ d, IsFriend d user_id friend_id);
  if (already : bool) then mret false else
  blocked ← reads (λ d, IsBlocked d friend_id user_id);
  if (blocked : bool) then mret false else
  received ← reads (λ d, GetReceivedRequests d friend_id);
  if decide (Exists (λ r, fr_from_user_id r = user_id ∧ fr_status r = 0) received)
  then mret false else
  CreateRequest (new_request e user_id friend_id remark).

(** [EnsureDefaultGroup]; the result of [CreateGroup] is not looked at. *)
Definition EnsureDefaultGroup (user_id : string) : M db unit :=
  if decide (user_id = "") then mret tt else
  groups ← reads (λ d, GetGroups d user_id);
  if decide (Exists (λ g, fg_group_id g = kDefaultFriendGroupId) groups) then mret tt else
  _ ← CreateGroup {| fg_group_id := kDefaultFriendGroupId; fg_user_id := user_id;
                     fg_group_name := kDefaultFriendGroupName; fg_sort_order := 0 |};
  mret tt.

Definition HandleRequest (e : Env) (user_id request_id : string) (accept : bool)
    (group_id : string) : M db bool :=
  if decide (user_id = "" ∨ request_id = "") then mret false else
  req ← reads (λ d, GetRequest d request_id);
  match req with
  | None => mret false
  | Some req =>
      if decide (fr_to_user_id req ≠ user_id) then mret false else
      if decide (fr_status req ≠ 0) then mret false else
      if accept then
        let target_group := if decide (group_id = "") then kDefaultFriendGroupId else group_id in
        _ ← EnsureDefaultGroup user_id;
        added ← FriendStore.AddFriend {| fd_user_id := user_id;
                    fd_friend_id := fr_from_user_id req; fd_remark := "";
                    fd_group_id := target_group; fd_added_at := env_clock e 0 |};
        if negb added then mret false else UpdateRequestStatus request_id 1
      else UpdateRequestStatus request_id 2
  end.

Definition RemoveFriend (user_id friend_id : string) : M db bool :=
  if decide (user_id = "" ∨ friend_id = "") then mret false else
  is_friend ← reads (λ d, IsFriend d user_id friend_id);
  if negb is_friend then mret false else FriendStore.RemoveFriend user_id friend_id.

Definition GetFriends (d : db) (user_id group_id : string) : list FriendData :=
  if decide (user_id = "") then [] else FriendStore.GetFriends d user_id group_id.

Definition Block (user_id target_id : string) : M db bool :=
  if decide (user_id = "" ∨ target_id = "") then mret false else
  if decide (user_id = target_id) then mret false else FriendStore.Block user_id target_id.

Definition Unblock (user_id target_id : string) : M db bool :=
  if decide (user_id = "" ∨ target_id = "") then mret false else
  FriendStore.Unblock user_id target_id.

Definition GetBlockList (d : db) (user_id : string) : list string :=
  if decide (user_id = "") then [] else FriendStore.GetBlockList d user_id.

(** The value with [*out_group_id], written only on success. *)
Definition CreateFriendGroup (e : Env) (user_id group_name : string) : M db (bool * option string) :=
  if decide (user_id = "" ∨ group_name = "") then mret (false, None) else
  let group_id := GenerateShortId (env_rand e) "g_" 8 in
  ok ← CreateGroup {| fg_group_id := group_id; fg_user_id := user_id;
                      fg_group_name := group_name; fg_sort_order := 0 |};
  mret (if (ok : bool) then (true, Some group_id) else (false, None)).

Definition GetFriendGroups (user_id : string) : M db (list FriendGroupData) :=
  if decide (user_id = "") then mret [] else
  _ ← EnsureDefaultGroup user_id;
  reads (λ d, GetGroups d user_id).

Definition DeleteFriendGroup (user_id group_id : string) : M db ErrorCode :=
  if decide (user_id = "") then mret INVALID_PARAM else
  if decide (group_id = "" ∨ group_id = kDefaultFriendGroupId) then mret FRIEND_GROUP_DEFAULT else
  groups ← reads (λ d, GetGroups d user_id);
  if decide (Exists (λ g, fg_group_id g = group_id) groups) then
    ok ← DeleteGroup user_id group_id;
    mret (if (ok : bool) then OK else INTERNAL_ERROR)
  else mret FRIEND_GROUP_NOT_FOUND.

Definition MoveFriend (user_id friend_id to_group_id : string) : M db bool :=
  if decide (user_id = "" ∨ friend_id = "") then mret false else
  is_friend ← reads (λ d, IsFriend d user_id friend_id);
  if negb is_friend then mret false else FriendStore.MoveFriend user_id friend_id to_group_id.

Definition SetRemark (user_id friend_id remark : string) : M db bool :=
  if decide (user_id = "" ∨ friend_id = "") then mret false else
  is_friend ← reads (λ d, IsFriend d user_id friend_id);
  if negb is_friend then mret false else UpdateRemark user_id friend_id remark.

Definition GetFriendRequests (d : db) (user_id : string) (type : Z) : list FriendRequestData :=
  if decide (user_id = "") then [] else
  if decide (type = 1) then GetReceivedRequests d user_id else
  if decide (type = 2) then GetSentRequests d user_id else
  GetReceivedRequests d user_id ++ GetSentRequests d user_id.
End FriendService.

(** * Requests to the service that write *)

Inductive request : Type :=
  | RAddFriend (u f remark : string)
  | RHandle (u id : string) (accept : bool) (g : string)
  | RRemoveFriend (u f : string)
  | RBlock (u t : string)
  | RUnblock (u t : string)
  | RCreateGroup (u name : string)
  | RGetGroups (u : string)
  | RDeleteGroup (u g : string)
  | RMove (u f g : string)
  | RRemark (u f r : string).

Definition serve {db} `{!RocksDB db} `{!JsonLib} (e : Env) (q : request) : M db unit :=
  match q with
  | RAddFriend u f r => _ ← AddFriend e u f r; mret tt
  | RHandle u id a g => _ ← HandleRequest e u id a g; mret tt
  | RRemoveFriend u f => _ ← RemoveFriend u f; mret tt
  | RBlock u t => _ ← Block u t; mret tt
  | RUnblock u t => _ ← Unblock u t; mret tt
  | RCreateGroup u n => _ ← CreateFriendGroup e u n; mret tt
  | RGetGroups u => _ ← GetFriendGroups u; mret tt
  | RDeleteGroup u g => _ ← DeleteFriendGroup u g; mret tt
  | RMove u f g => _ ← MoveFriend u f g; mret tt
  | RRemark u f r => _ ← SetRemark u f r; mret tt
  end.

(** The ids in a request contain no separator. *)
Definition sane_request (q : request) : Prop :=
  match q with
  | RAddFriend a b _ | RHandle a _ _ b | RRemoveFriend a b | RBlock a b | RUnblock a b
  | RDeleteGroup a b | RMove a b _ | RRemark a b _ => no_colon a ∧ no_colon b
  | RCreateGroup a _ | RGetGroups a => no_colon a
  end.

(** * The invariant *)

Record finv (M : fmodel) : Prop := {
  fi_sym a b : is_Some (friends M !! (a, b)) → is_Some (friends M !! (b, a));
  fi_irrefl a : friends M !! (a, a) = None;
  fi_request id r : requests M !! id = Some r →
    fr_request_id r = id ∧ fr_from_user_id r ≠ fr_to_user_id r ∧ ok_id (fr_from_user_id r) ∧
    ok_id (fr_to_user_id r) ∧ 0 ≤ fr_status r ≤ 2;
}.

(** The requests at two moments: none disappears, and a request changes only when
    its receiver handles it while it is pending. *)
Definition requests_evolve (q : request) (M M' : fmodel) : Prop :=
  ∀ id r, requests M !! id = Some r → ∃ r', requests M' !! id = Some r' ∧
    (r' = r ∨ fr_status r = 0 ∧ ∃ accept g, q = RHandle (fr_to_user_id r) id accept g ∧
      r' = fr_set_status (if accept then 1 else 2) r).

(** A friendship that is new is one that the receiver of a pending request accepted. *)
Definition friends_from (q : request) (M M' : fmodel) : Prop :=
  ∀ a b, friends M !! (a, b) = None → is_Some (friends M' !! (a, b)) →
    ∃ id g r, q = RHandle (fr_to_user_id r) id true g ∧ requests M !! id = Some r ∧
      fr_status r = 0 ∧
      ((a, b) = (fr_to_user_id r, fr_from_user_id r) ∨
       (a, b) = (fr_from_user_id r, fr_to_user_id r)).

(** What one request may do. *)
Definition fstep (q : request) (M M' : fmodel) : Prop :=
  finv M' ∧ requests_evolve q M M' ∧ friends_from q M M'.

(** Steps that leave the requests as they are and add no friendship. *)
Lemma fstep_same q M M' : finv M → requests M' = requests M →
  (∀ k, is_Some (friends M' !! k) ↔ is_Some (friends M !! k)) → fstep q M M'.
Proof.
  intros [Hs Hir Hr] Hreq Hf. split_and!; [split| |].
  - intros a b. rewrite !Hf. auto.
  - intros a. apply eq_None_not_Some. rewrite Hf, Hir. apply is_Some_None.
  - rewrite Hreq. done.
  - intros id r. rewrite Hreq. eauto.
  - intros a b Hn. rewrite Hf, Hn. by intros []%is_Some_None.
Qed.

Lemma fstep_refl q M : finv M → fstep q M M.
Proof. intros. by apply fstep_same. Qed.

#[export] Hint Resolve fstep_refl : core.

(** Friendships disappear in pairs. *)
Lemma fstep_RemoveFriend q u f M M' : finv M → a_RemoveFriend u f M = Some M' → fstep q M M'.
Proof.
  intros [Hs Hir Hr] [= <-]. split_and!; [split| |]; simpl; try done.
  - intros a b. rewrite !gmap_delete_is_Some. naive_solver.
  - intros a. rewrite !gmap_delete_None. auto.
  - intros id r. eauto.
  - intros a b Hn. simpl. rewrite !gmap_delete_is_Some, Hn. by intros (_ & _ & []%is_Some_None).
Qed.

(** A new request is pending. *)
Lemma fstep_CreateRequest q r M M' : finv M → a_CreateRequest r M = Some M' →
  fr_from_user_id r ≠ fr_to_user_id r → ok_id (fr_from_user_id r) → ok_id (fr_to_user_id r) →
  fr_status r = 0 → fstep q M M'.
Proof.
  intros [Hs Hir Hr] Ha Hne Hf Ht H0. unfold a_CreateRequest in Ha.
  destruct (requests M !! fr_request_id r) eqn:Hn; simplify_eq.
  split_and!; [split| |]; simpl; try done.
  - intros id x [[<- <-]|[? ?]]%lookup_insert_Some; [|auto]. simpl. rewrite H0. split_and!; auto; lia.
  - intros id x Hx. exists x. simpl. rewrite lookup_insert_ne by congruence. auto.
  - intros a b Hb. simpl. rewrite Hb. by intros []%is_Some_None.
Qed.

(** The status of a pending request is set by its receiver. *)
Lemma fstep_UpdateRequestStatus id r (accept : bool) g M M' : finv M →
  requests M !! id = Some r → fr_status r = 0 →
  a_UpdateRequestStatus id (if accept then 1 else 2) M = Some M' →
  fstep (RHandle (fr_to_user_id r) id accept g) M M'.
Proof.
  intros [Hs Hir Hr] Hid H0 Ha. unfold a_UpdateRequestStatus in Ha. rewrite Hid in Ha.
  simpl in Ha. simplify_eq. split_and!; [split| |]; simpl; try done.
  - intros i x [[<- <-]|[? ?]]%lookup_insert_Some; [|auto].
    destruct (Hr _ _ Hid) as (?&?&?&?&_). simpl. by destruct accept.
  - intros i x Hx. simpl. destruct (decide (i = id)) as [->|Hi].
    + rewrite lookup_insert_eq. simplify_eq. eauto 10.
    + rewrite lookup_insert_ne by done. eauto.
  - intros a b Hb. simpl. rewrite Hb. by intros []%is_Some_None.
Qed.

(** Accepting a pending request adds the pair. *)
Lemma fstep_accept id r g x M M' : finv M → requests M !! id = Some r → fr_status r = 0 →
  fd_user_id x = fr_to_user_id r → fd_friend_id x = fr_from_user_id r →
  a_AddFriend x M = Some M' →
  fstep (RHandle (fr_to_user_id r) id true g) M M' ∧ requests M' = requests M.
Proof.
  intros [Hs Hir Hr] Hid H0 Hu Hf Ha. unfold a_AddFriend in Ha. rewrite Hu, Hf in Ha.
  destruct (friends M !! _) eqn:Hn; simplify_eq. destruct (Hr _ _ Hid) as (_ & Hne & _).
  split; [|done]. split_and!; [split| |]; simpl; try done.
  - intros a b. rewrite !gmap_insert_is_Some. naive_solver.
  - intros a. rewrite !lookup_insert_ne by congruence. auto.
  - intros i y Hy. eauto.
  - intros a b Hb. simpl. rewrite !gmap_insert_is_Some, Hb.
    intros [Heq|[Heq|[]%is_Some_None]]; exists id, g, r; split_and!; auto.
Qed.

(** Two steps for one request, the first of which leaves the requests as they are. *)
Lemma fstep_compose q M M1 M2 : fstep q M M1 → fstep q M1 M2 → requests M1 = requests M →
  friends M1 = friends M ∨ friends M2 = friends M1 → fstep q M M2.
Proof.
  intros (Hi1 & He1 & Hf1) (Hi2 & He2 & Hf2) Hr Hf. split_and!; [done| |].
  - unfold requests_evolve in *. by rewrite <-Hr.
  - unfold friends_from in *. destruct Hf as [Hf|Hf].
    + by rewrite <-Hf, <-Hr.
    + by rewrite Hf.
Qed.

(** * Every request takes a step *)

Section Steps.
Context {db : Type} `{!RocksDB db} `{!RocksDBLaws db} `{!JsonLib} `{!JsonLaws}.
Implicit Types d : db.

(** [op] run for request [q] is a step of the abstract store. *)
Definition steps {A} (q : request) (op : M db A) : Prop :=
  ∀ d M r d', friend_rep d M → finv M → op d = (r, d') →
    ∃ M', friend_rep d' M' ∧ fstep q M M'.

Lemma refines_steps q op f : refines friend_rep op f →
  (∀ M M', finv M → f M = Some M' → fstep q M M') → steps q op.
Proof.
  intros Hop Hf d M r d' Hr Hi Hrun.
  destruct (refines_cases _ _ _ _ _ _ _ Hop Hr Hrun) as (M' & Hr' & [->|Ha]); eauto.
Qed.

Lemma steps_ret {A} q (a : A) : steps q (mret a).
Proof. intros d M r d' Hr Hi [= <- <-]. eauto. Qed.

Lemma steps_reads {A B} q (f : db → A) (k : A → M db B) :
  (∀ d, steps q (k (f d))) → steps q (x ← reads f; k x).
Proof. intros Hk d M r d' Hr Hi Hrun. munfold Hrun. by eapply (Hk d). Qed.

Lemma steps_drop {A B} q (op : M db A) (g : A → B) :
  steps q op → steps q (x ← op; mret (g x)).
Proof.
  intros Hop d M r d' Hr Hi Hrun. munfold Hrun.
  destruct (op d) as [[x|] d1] eqn:Hx; simplify_eq; by eapply Hop.
Qed.

(** The guards of an operation: refused, or go on with usable ids. *)
Ltac pass_guard :=
  match goal with
  | |- steps _ (if decide ?P then mret _ else _) =>
      destruct (decide P); [apply steps_ret|]
  | |- steps _ (mbind _ (reads _)) => apply steps_reads; intros ?
  | |- steps _ (if ?b then mret _ else _) => destruct b; [apply steps_ret|]
  | |- steps _ (if negb ?b then mret _ else _) => destruct b; simpl; [|apply steps_ret]
  end.
Ltac usable_ids := repeat match goal with
  | H : no_colon ?u ∧ no_colon ?f |- _ => destruct H
  | H : no_colon ?u |- _ =>
      lazymatch goal with
      | _ : ok_id u |- _ => fail
      | _ => assert (ok_id u) by (split; [naive_solver|exact H])
      end
  end.

Lemma AddFriend_steps e u f m : no_colon u → no_colon f →
  steps (RAddFriend u f m) (AddFriend e u f m).
Proof.
  intros Hu Hf. unfold AddFriend. repeat pass_guard. usable_ids.
  eapply refines_steps; [apply CreateRequest_refines; try done; by apply short_id_ok|].
  intros M M' Hi Ha. by eapply fstep_CreateRequest.
Qed.

(** [EnsureDefaultGroup] changes nothing but friend groups. *)
Lemma EnsureDefaultGroup_run u d M r d' : ok_id u → friend_rep d M →
  EnsureDefaultGroup u d = (r, d') → ∃ M', friend_rep d' M' ∧ friends M' = friends M ∧
    requests M' = requests M ∧ blocks M' = blocks M ∧ fgroups M ⊆ fgroups M'.
Proof.
  intros Hu Hr Hrun. unfold EnsureDefaultGroup in Hrun.
  rewrite decide_False in Hrun by apply Hu. munfold Hrun.
  destruct (decide (Exists _ _)); [simplify_eq; eauto 10|].
  match type of Hrun with context [CreateGroup ?g] => set (dg := g) in * end.
  destruct (CreateGroup dg d) as [o d1] eqn:Hc.
  assert (d' = d1) as -> by (destruct o; by simplify_eq).
  destruct (refines_cases _ _ _ _ _ _ _ (CreateFriendGroup_refines dg Hu ltac:(done) ltac:(done)) Hr Hc)
    as (M' & Hr' & [->|Ha]); [eauto 10|].
  exists M'. unfold a_CreateGroup in Ha.
  destruct (fgroups M !! _) eqn:Hn; simplify_eq. split_and!; try done.
  by apply insert_subseteq.
Qed.

Lemma HandleRequest_steps e u id acc g : steps (RHandle u id acc g) (HandleRequest e u id acc g).
Proof.
  intros d M r d' Hr Hi Hrun. unfold HandleRequest in Hrun.
  case_decide; [by eapply steps_ret|]. munfold Hrun.
  rewrite (GetRequest_rep _ _ _ Hr) in Hrun.
  destruct (requests M !! id) as [q|] eqn:Hq; [|by eapply steps_ret].
  destruct (decide (fr_to_user_id q ≠ u)) as [|Ht]; [by eapply steps_ret|].
  apply dec_stable in Ht as <-.
  destruct (decide (fr_status q ≠ 0)) as [|Hst]; [by eapply steps_ret|]. apply dec_stable in Hst.
  destruct (fi_request _ Hi _ _ Hq) as (_ & _ & Hf & Ht & _).
  destruct acc.
  2: { destruct (refines_cases _ _ _ _ _ _ _ (UpdateRequestStatus_refines id 2 ltac:(done)) Hr Hrun)
         as (M' & Hr' & [->|Ha]); [by eauto|].
       exists M'. split; [done|]. by apply (fstep_UpdateRequestStatus id q false). }
  destruct (EnsureDefaultGroup (fr_to_user_id q) d) as [o d1] eqn:Hens.
  destruct (EnsureDefaultGroup_run _ _ _ _ _ Ht Hr Hens) as (M1 & Hr1 & Hf1 & Hq1 & _).
  assert (fstep (RHandle (fr_to_user_id q) id true g) M M1) as Hs1.
  { apply fstep_same; [done..|]. by rewrite Hf1. }
  assert (finv M1) as Hi1 by apply Hs1. rewrite <-Hq1 in Hq.
  destruct o as [[]|]; [|simplify_eq; by eauto].
  match type of Hrun with context [FriendStore.AddFriend ?y] => set (x := y) in * end.
  destruct (FriendStore.AddFriend x d1) as [o2 d2] eqn:Hadd.
  destruct (refines_cases _ _ _ _ _ _ _ (AddFriend_refines x Ht Hf) Hr1 Hadd)
    as (M2 & Hr2 & Ha2).
  assert (fstep (RHandle (fr_to_user_id q) id true g) M M2 ∧ requests M2 = requests M1) as [Hs2 Hq2].
  { destruct Ha2 as [->|Ha2]; [done|].
    destruct (fstep_accept id q g x M1 M2 Hi1 Hq Hst eq_refl eq_refl Ha2) as [? ?].
    split; [|done]. apply (fstep_compose _ M M1); auto. }
  rewrite <-Hq2 in Hq.
  destruct o2 as [[]|]; simpl in Hrun; [|simplify_eq; by eauto..].
  destruct (refines_cases _ _ _ _ _ _ _ (UpdateRequestStatus_refines id 1 ltac:(done)) Hr2 Hrun)
    as (M3 & Hr3 & [->|Ha3]); [by eauto|].
  exists M3. split; [done|]. apply (fstep_compose _ M M2); [done| |by rewrite Hq2|].
  - apply (fstep_UpdateRequestStatus id q true); [apply Hs2|done..].
  - right. unfold a_UpdateRequestStatus in Ha3. rewrite Hq in Ha3. by simplify_eq/=.
Qed.

(** What the remaining operations do to the abstract store. *)
Lemma fstep_quiet q f : (∀ M M', f M = Some M' → requests M' = requests M ∧
    ∀ k, is_Some (friends M' !! k) ↔ is_Some (friends M !! k)) →
  ∀ M M', finv M → f M = Some M' → fstep q M M'.
Proof. intros Hf M M' Hi Ha. destruct (Hf _ _ Ha). by apply fstep_same. Qed.

Lemma fstep_rewrite q h u f M M' : finv M → a_rewrite_friend h u f M = Some M' → fstep q M M'.
Proof.
  apply fstep_quiet. clear. unfold a_rewrite_friend. intros M M' Ha.
  destruct (friends M !! (u, f)) as [x|] eqn:Hx; simplify_eq/=. split; [done|].
  intros k. rewrite gmap_insert_is_Some. naive_solver.
Qed.

Lemma serve_steps e q : sane_request q → steps q (serve e q).
Proof.
  destruct q as [u f m|u id a g|u f|u t|u t|u n|u|u g|u f g|u f m]; simpl; intros Hq;
    apply steps_drop.
  - destruct Hq. by apply AddFriend_steps.
  - apply HandleRequest_steps.
  - unfold RemoveFriend. repeat pass_guard. usable_ids.
    eapply refines_steps; [by apply RemoveFriend_refines|]. apply fstep_RemoveFriend.
  - unfold Block. repeat pass_guard. usable_ids.
    eapply refines_steps; [by apply Block_refines|]. apply fstep_quiet. by intros ?? [= <-].
  - unfold Unblock. repeat pass_guard. usable_ids.
    eapply refines_steps; [by apply Unblock_refines|]. apply fstep_quiet. by intros ?? [= <-].
  - unfold CreateFriendGroup. pass_guard. usable_ids. apply steps_drop.
    eapply refines_steps; [by apply CreateFriendGroup_refines; [|by apply short_id_ok|]|].
    apply fstep_quiet. unfold a_CreateGroup. intros M M' Ha.
    destruct (fgroups M !! _); by simplify_eq.
  - unfold GetFriendGroups. pass_guard. usable_ids.
    intros d M r d' Hr Hi Hrun. munfold Hrun.
    destruct (EnsureDefaultGroup u d) as [o d1] eqn:He.
    destruct (EnsureDefaultGroup_run u d M o d1) as (M' & Hr' & Hf & Hq' & _); [done..|].
    exists M'. split; [destruct o; by simplify_eq|]. apply fstep_same; [done..|]. by rewrite Hf.
  - unfold DeleteFriendGroup. repeat pass_guard. usable_ids.
    destruct (decide _); [|apply steps_ret]. apply steps_drop.
    eapply refines_steps; [by apply DeleteFriendGroup_refines|].
    apply fstep_quiet. intros M M' [= <-]. split; [done|]. intros k. simpl.
    rewrite map_lookup_imap. destruct (friends M !! k); simpl; [|done]. split; eauto.
  - unfold MoveFriend. repeat pass_guard. usable_ids.
    eapply refines_steps; [by apply rewrite_friend_refines|]. apply fstep_rewrite.
  - unfold SetRemark. repeat pass_guard. usable_ids.
    eapply refines_steps; [by apply rewrite_friend_refines|]. apply fstep_rewrite.
Qed.
End Steps.

(** * Properties *)

Section Properties.
Context {db : Type} `{!RocksDB db} `{!RocksDBLaws db} `{!JsonLib} `{!JsonLaws}.
Implicit Types d : db.

(** One request was served, whatever its answer. *)
Definition fserved d d' : Prop := ∃ e q r, sane_request q ∧ serve e q d = (r, d').
Definition fresh_db d : Prop := ∀ k, db_Get d k = None.

Lemma finv_fempty : finv fempty.
Proof. split; intros *; simpl; rewrite ?lookup_empty; done || by intros []%is_Some_None. Qed.

Lemma fserved_rep d0 d : fresh_db d0 → rtc fserved d0 d → ∃ M, friend_rep d M ∧ finv M.
Proof.
  intros Hnew Hrun. assert (∃ M, friend_rep d0 M ∧ finv M) as (M & Hr & Hi)
    by (exists fempty; split; [by apply friend_rep_empty|apply finv_fempty]).
  clear Hnew. revert M Hr Hi. induction Hrun as [|d0 d1 d2 (e & q & r & Hq & Hs) _ IH]; [eauto|].
  intros M Hr Hi. destruct (serve_steps e q Hq d0 M r d1 Hr Hi Hs) as (M1 & Hr1 & Hi1 & _). eauto.
Qed.

(** C22: friendship is mutual and nobody is a friend of himself, after any sequence
    of requests to the friend service from an empty database, whatever the
    answers were (refusals, failed writes and exceptions included), as long as no id in
    a request has a ':' in it.  The service does not check the ids it gets from
    clients, and with a ':' the claim is false ([colon_makes_friends]). *)
Theorem friendship_symmetric d0 d : fresh_db d0 → rtc fserved d0 d → ∀ a b,
  IsFriend d a b = IsFriend d b a ∧ IsFriend d a a = false.
Proof.
  intros Hnew Hrun a b. destruct (fserved_rep _ _ Hnew Hrun) as (M & Hr & [Hs Hir _]).
  rewrite !(IsFriend_rep _ _ _ _ Hr), Hir. split; [|done].
  apply bool_decide_ext. split; apply Hs.
Qed.

(** C23: the life cycle of friend requests.  Whatever request is served after any
    history, as long as no id in it or in the requests before it has a ':' in it
    (which the service does not check), no friend request disappears, and one changes only when its
    receiver handles it while it is pending (to accepted or rejected, once);
    and two users become friends only when the receiver of a pending request
    between them accepts it.  With a ':' in an id two users are friends without any request
    between them ([colon_makes_friends]). *)
Theorem request_life_cycle d0 d e q r d' : fresh_db d0 → rtc fserved d0 d → sane_request q →
  serve e q d = (r, d') →
  (∀ id x, GetRequest d id = Some x → ∃ x', GetRequest d' id = Some x' ∧
     (x' = x ∨ fr_status x = 0 ∧ ∃ accept g, q = RHandle (fr_to_user_id x) id accept g ∧
        x' = fr_set_status (if accept then 1 else 2) x)) ∧
  (∀ a b, IsFriend d a b = false → IsFriend d' a b = true →
     ∃ id g x, q = RHandle (fr_to_user_id x) id true g ∧ GetRequest d id = Some x ∧
       fr_status x = 0 ∧ ((a, b) = (fr_to_user_id x, fr_from_user_id x) ∨
                          (a, b) = (fr_from_user_id x, fr_to_user_id x))).
Proof.
  intros Hnew Hrun Hq Hs. destruct (fserved_rep _ _ Hnew Hrun) as (M & Hr & Hi).
  destruct (serve_steps e q Hq d M r d' Hr Hi Hs) as (M' & Hr' & _ & He & Hf). split.
  - intros id x. rewrite (GetRequest_rep _ _ _ Hr), (GetRequest_rep _ _ _ Hr'). apply He.
  - intros a b. rewrite (IsFriend_rep _ _ _ _ Hr), (IsFriend_rep _ _ _ _ Hr').
    intros Hn%bool_decide_eq_false Hy%bool_decide_eq_true. apply eq_None_not_Some in Hn.
    destruct (Hf a b Hn Hy) as (id & g & x & ? & Hx & ?). exists id, g, x.
    by rewrite (GetRequest_rep _ _ _ Hr).
Qed.

(** [AddFriend] that answers true was not asked by a friend, by somebody the
    target has blocked, or by somebody with a pending request to the target;
    it stores one new pending request, and nothing else. *)
Theorem AddFriend_effect e u f m d M d' : friend_rep d M → no_colon u → no_colon f →
  AddFriend e u f m d = (Ret true, d') →
  u ≠ f ∧ friends M !! (u, f) = None ∧ (f, u) ∉ blocks M ∧
  (∀ id x, requests M !! id = Some x → fr_to_user_id x = f → fr_from_user_id x = u →
     fr_status x ≠ 0) ∧
  let q := fr_stored (new_request e u f m) in
  requests M !! fr_request_id q = None ∧
  friend_rep d' (with_requests (<[fr_request_id q := q]> (requests M)) M).
Proof.
  intros Hr Hu Hf Hrun. unfold AddFriend in Hrun. munfold Hrun.
  destruct (decide (u = "" ∨ f = "")) as [|Hne]; [done|].
  assert (ok_id u ∧ ok_id f) as [Hu' Hf'] by (unfold ok_id; naive_solver).
  destruct (decide (u = f)); [done|].
  rewrite (IsFriend_rep _ _ _ _ Hr) in Hrun. case_bool_decide as Hfr; [done|].
  rewrite (IsBlocked_rep _ _ _ _ Hr) in Hrun. case_bool_decide as Hbl; [done|].
  destruct (decide (Exists _ _)) as [|Hpend]; [done|].
  destruct (refines_true _ _ _ _ _ _ (CreateRequest_refines (new_request e u f m)
    (short_id_ok _ "req_" 12 ltac:(done) ltac:(done)) Hu' Hf' ltac:(done)) Hr Hrun)
    as (M' & Ha & Hr').
  unfold a_CreateRequest in Ha. destruct (requests M !! _) eqn:Hn; simplify_eq.
  split_and!; try done; [by apply eq_None_not_Some|].
  intros id x Hx Ht Hfrom Hst. apply Hpend, Exists_exists. exists x. split; [|done].
  apply (GetReceivedRequests_elem _ _ _ Hr Hf'). split; [|done].
  by destruct (request_key _ _ id Hr) as [[_ ?]|(v & y & _ & Hy & _ & <- & _)]; simplify_eq.
Qed.

(** [HandleRequest] that accepts and answers true has found a pending request
    to this user; it is then accepted, the two users are friends of each other
    (in the chosen group, the default group if none was chosen, of the receiver;
    in the default group of the sender), and other requests, friendships and
    all block lists are as they were. *)
Theorem HandleRequest_accept_effect e u id g d M d' : friend_rep d M → finv M →
  HandleRequest e u id true g d = (Ret true, d') →
  ∃ q M', requests M !! id = Some q ∧ fr_to_user_id q = u ∧ fr_status q = 0 ∧
    let v := fr_from_user_id q in
    let x := {| fd_user_id := u; fd_friend_id := v; fd_remark := "";
                fd_group_id := if decide (g = "") then kDefaultFriendGroupId else g;
                fd_added_at := wrap32 (env_clock e 0) |} in
    friends M !! (u, v) = None ∧ friend_rep d' M' ∧
    friends M' = <[(v, u) := reverse_friend x]> (<[(u, v) := x]> (friends M)) ∧
    requests M' = <[id := fr_set_status 1 q]> (requests M) ∧ blocks M' = blocks M.
Proof.
  intros Hr Hi Hrun. unfold HandleRequest in Hrun. munfold Hrun.
  case_decide; [done|]. rewrite (GetRequest_rep _ _ _ Hr) in Hrun.
  destruct (requests M !! id) as [q|] eqn:Hq; [|done].
  destruct (decide (fr_to_user_id q ≠ u)) as [|Ht]; [done|]. apply dec_stable in Ht as <-.
  destruct (decide (fr_status q ≠ 0)) as [|Hst]; [done|]. apply dec_stable in Hst.
  destruct (fi_request _ Hi _ _ Hq) as (_ & _ & Hf & Ht & _).
  destruct (EnsureDefaultGroup _ d) as [[[]|] d1] eqn:Hens; [|done].
  destruct (EnsureDefaultGroup_run _ _ _ _ _ Ht Hr Hens) as (M1 & Hr1 & Hf1 & Hq1 & Hb1 & _).
  match type of Hrun with context [FriendStore.AddFriend ?y] => set (x := y) in * end.
  destruct (FriendStore.AddFriend x d1) as [[[]|] d2] eqn:Hadd; simpl in Hrun; try done.
  destruct (refines_true _ _ _ _ _ _ (AddFriend_refines x Ht Hf) Hr1 Hadd) as (M2 & Ha2 & Hr2).
  unfold a_AddFriend in Ha2. destruct (friends M1 !! _) eqn:Hn; simplify_eq.
  destruct (refines_true _ _ _ _ _ _ (UpdateRequestStatus_refines id 1 ltac:(done)) Hr2 Hrun)
    as (M3 & Ha3 & Hr3).
  unfold a_UpdateRequestStatus in Ha3. simpl in Ha3. rewrite Hq1, Hq in Ha3. simplify_eq/=.
  rewrite <-Hf1, <-Hb1. exists q. eexists. split_and!; try done.
Qed.

(** [DeleteFriendGroup] answers [OK] only for an existing group that is not the
    default one; the group is then gone and the friends in it are in the
    default group, every other relation as before.  Under any other answer, or
    an exception, the store is as it was. *)
Theorem DeleteFriendGroup_effect u g d M r d' : no_colon u → no_colon g → friend_rep d M →
  DeleteFriendGroup u g d = (r, d') →
  match r with
  | Ret OK => g ≠ kDefaultFriendGroupId ∧ is_Some (fgroups M !! (u, g)) ∧ ∃ M', friend_rep d' M' ∧
      fgroups M' = delete (u, g) (fgroups M) ∧ requests M' = requests M ∧ blocks M' = blocks M ∧
      (∀ a f, friends M' !! (a, f) =
         (λ x, if decide (a = u ∧ fd_group_id x = g)
               then fd_set_group kDefaultFriendGroupId x else x) <$> friends M !! (a, f)) ∧
      GetFriends d' u g = [] ∧
      (∀ x, x ∈ GetFriends d u g →
         fd_set_group kDefaultFriendGroupId x ∈ GetFriends d' u kDefaultFriendGroupId)
  | _ => friend_rep d' M
  end.
Proof.
  intros Hu Hg Hr Hrun. unfold DeleteFriendGroup in Hrun. munfold Hrun.
  destruct (decide (u = "")) as [|Hune]; [by simplify_eq|].
  destruct (decide (g = "" ∨ g = kDefaultFriendGroupId)) as [|Hgne]; [by simplify_eq|].
  assert (ok_id u ∧ ok_id g) as [Hu' Hg'] by (unfold ok_id; naive_solver).
  destruct (decide (Exists _ _)) as [(y & Hy & Hyg)%Exists_exists|]; [|by simplify_eq].
  apply (GetGroups_elem _ _ _ Hr Hu') in Hy.
  destruct (DeleteGroup u g d) as [o d1] eqn:Hdel. assert (d' = d1) as -> by (destruct o; by simplify_eq).
  destruct (DeleteFriendGroup_refines u g Hu' Hg' _ _ _ _ Hr Hdel) as [Hres _].
  destruct o as [[]|]; simplify_eq; try done.
  destruct Hres as (M' & Ha & Hr'). split_and!; [naive_solver|eauto|]. exists M'.
  assert (∀ a f, friends M' !! (a, f) =
    (λ x, if decide (a = u ∧ fd_group_id x = fg_group_id y)
          then fd_set_group kDefaultFriendGroupId x else x) <$> friends M !! (a, f)) as Hfr.
  { unfold a_DeleteGroup in Ha. simplify_eq. intros a f. simpl. rewrite map_lookup_imap.
    by destruct (friends M !! (a, f)). }
  unfold a_DeleteGroup in Ha. split_and!; try done; [by simplify_eq..| |].
  - unfold GetFriends. rewrite decide_False by done.
    destruct (GetFriends_elem _ _ u (fg_group_id y) Hr' Hu') as [_ Hel].
    destruct (FriendStore.GetFriends d1 u (fg_group_id y)) as [|x l]; [done|].
    destruct (proj1 (Hel x) ltac:(left)) as (Hx & _ & Hgx). rewrite Hfr in Hx.
    destruct (friends M !! _) as [z|] eqn:Hz; simplify_eq/=.
    destruct Hgx as [Hgx|Hgx]; [naive_solver|]. case_decide; naive_solver.
  - intros x. unfold GetFriends. rewrite !decide_False by done.
    rewrite (proj2 (GetFriends_elem _ _ u _ Hr Hu')), (proj2 (GetFriends_elem _ _ u _ Hr' Hu')).
    simpl. intros (Hx & _ & [|Hgx]); [naive_solver|]. rewrite Hfr, Hx. simpl.
    rewrite decide_True by done. by eauto.
Qed.

(** moving a friend to the empty group (which [FriendService] lets through)
    hides the friend: he is in no group of the friend list, nor in the full list, while
    [IsFriend] still holds. *)
Theorem MoveFriend_empty_group_hides u f d M d' : no_colon u → no_colon f → friend_rep d M →
  MoveFriend u f "" d = (Ret true, d') →
  IsFriend d' u f = true ∧ ∀ g x, x ∈ GetFriends d' u g → fd_friend_id x ≠ f.
Proof.
  intros Hu Hf Hr Hrun. unfold MoveFriend in Hrun. munfold Hrun.
  destruct (decide (u = "" ∨ f = "")) as [|Hne]; [done|].
  assert (ok_id u ∧ ok_id f) as [Hu' Hf'] by (unfold ok_id; naive_solver).
  destruct (IsFriend d u f); simpl in Hrun; [|done].
  destruct (refines_true _ _ _ _ _ _ (rewrite_friend_refines (fd_set_group "") u f ltac:(done)) Hr Hrun)
    as (M' & Ha & Hr').
  unfold a_rewrite_friend in Ha. destruct (friends M !! (u, f)) as [y|]; simplify_eq/=.
  rewrite (IsFriend_rep _ _ _ _ Hr'). simpl. split.
  { rewrite lookup_insert_eq. by apply bool_decide_true. }
  intros g x. unfold GetFriends. destruct (decide _); [by intros ?%elem_of_nil|].
  rewrite (proj2 (GetFriends_elem _ _ u g Hr' Hu')). simpl. intros (Hx & Hgr & _) <-.
  rewrite lookup_insert_eq in Hx. by simplify_eq.
Qed.
End Properties.

(** * Concrete runs, over the in-memory database *)

Definition rid0 : string := GenerateShortId (env_rand env0) "req_" 12.
Notation db_asked := (snd (AddFriend env0 "a" "b" "hi" mem_empty)).
Notation db_friends := (snd (HandleRequest env0 "b" rid0 true "" db_asked)).

Lemma mem_empty_fresh : fresh_db mem_empty.
Proof. intros k. apply lookup_empty. Qed.
Lemma mem_empty_friend_rep : friend_rep mem_empty fempty.
Proof. apply friend_rep_empty, mem_empty_fresh. Qed.

Lemma db_asked_run : AddFriend env0 "a" "b" "hi" mem_empty = (Ret true, db_asked).
Proof. eval_run. Qed.
Lemma db_friends_run : HandleRequest env0 "b" rid0 true "" db_asked = (Ret true, db_friends).
Proof. eval_run. Qed.

(** a ':' in the id of a friend: "a" asks "b:c", who accepts; from then on "c" is also a friend of "a:b", who has
    sent and received no request, and "a:b" is none of "c". *)
Theorem colon_makes_friends :
  let d := snd ((_ ← serve env0 (RAddFriend "a" "b:c" "hi"); serve env0 (RHandle "b:c" rid0 true "")) mem_empty) in
  GetReceivedRequests d "a:b" = [] ∧ GetSentRequests d "a:b" = [] ∧
  IsFriend d "a:b" "c" = true ∧ IsFriend d "c" "a:b" = false.
Proof. cbv zeta. split_and!; eval_eq. Qed.

Lemma serve_run {A} d d' r e q (op : M MemDB A) :
  serve e q = (_ ← op; mret tt) → op d = (Ret r, d') → serve e q d = (Ret tt, d').
Proof. intros Hs Hop. rewrite Hs. unfold mbind, M_bind. by rewrite Hop. Qed.
Lemma fserved_run {A} d d' r e q (op : M MemDB A) : sane_request q →
  serve e q = (_ ← op; mret tt) → op d = (Ret r, d') → fserved d d'.
Proof. intros Hq Hs Hop. exists e, q, (Ret tt). split; [done|]. by eapply serve_run. Qed.
Lemma db_asked_served : rtc fserved mem_empty db_asked.
Proof.
  apply rtc_once. by eapply (fserved_run _ _ _ env0 (RAddFriend "a" "b" "hi")); [| |apply db_asked_run].
Qed.
Lemma db_friends_served : rtc fserved mem_empty db_friends.
Proof.
  eapply rtc_r; [apply db_asked_served|].
  by eapply (fserved_run _ _ _ env0 (RHandle "b" rid0 true "")); [| |apply db_friends_run].
Qed.
Lemma db_asked_rep : ∃ M, friend_rep db_asked M ∧ finv M.
Proof. apply (fserved_rep mem_empty); [apply mem_empty_fresh|apply db_asked_served]. Qed.
Lemma db_friends_rep : ∃ M, friend_rep db_friends M.
Proof.
  destruct (fserved_rep mem_empty db_friends) as (M & Hr & _);
    [apply mem_empty_fresh|apply db_friends_served|eauto].
Qed.

Lemma friendship_symmetric_witness :
  IsFriend db_friends "a" "b" = true ∧ IsFriend db_friends "b" "a" = true.
Proof.
  assert (IsFriend db_friends "a" "b" = true) as Hf by eval_eq.
  pose proof (friendship_symmetric mem_empty db_friends mem_empty_fresh db_friends_served "a" "b")
    as [Hs _].
  exact (conj Hf (eq_trans (eq_sym Hs) Hf)).
Defined.

Lemma request_life_cycle_witness : ∃ x, GetRequest db_asked rid0 = Some x ∧ fr_status x = 0 ∧
  IsFriend db_asked "a" "b" = false ∧ IsFriend db_friends "a" "b" = true ∧
  ∃ x', GetRequest db_friends rid0 = Some x' ∧ (x' = x ∨ fr_status x = 0).
Proof.
  assert (fr_status <$> GetRequest db_asked rid0 = Some 0) as Hx by eval_eq.
  assert (IsFriend db_asked "a" "b" = false) as Hn by eval_eq.
  assert (IsFriend db_friends "a" "b" = true) as Hy by eval_eq.
  assert (sane_request (RHandle "b" rid0 true "")) as Hq by (by split).
  pose proof (serve_run _ _ _ env0 (RHandle "b" rid0 true "") _ eq_refl db_friends_run) as Hrun.
  pose proof (request_life_cycle mem_empty db_asked env0 (RHandle "b" rid0 true "") (Ret tt) db_friends
    mem_empty_fresh db_asked_served Hq Hrun) as [Hlife _].
  apply fmap_Some in Hx as (x & Hx & H0). exists x.
  destruct (Hlife rid0 x Hx) as (x' & Hx' & Hc).
  refine (conj Hx (conj (eq_sym H0) (conj Hn (conj Hy (ex_intro _ x' (conj Hx' _)))))).
  destruct Hc as [Hc|[Hc _]]; [left; exact Hc|right; exact Hc].
Defined.

Lemma AddFriend_effect_witness : ∃ M' : fmodel,
  AddFriend env0 "a" "b" "hi" mem_empty = (Ret true, db_asked) ∧ friend_rep db_asked M' ∧
  is_Some (requests M' !! rid0).
Proof.
  pose proof (AddFriend_effect env0 "a" "b" "hi" mem_empty fempty db_asked mem_empty_friend_rep
    eq_refl eq_refl db_asked_run) as (_ & _ & _ & _ & _ & Hr).
  eexists. refine (conj db_asked_run (conj Hr _)). simpl.
  rewrite lookup_insert_eq. eauto.
Defined.

Lemma HandleRequest_accept_effect_witness : ∃ q M', fr_from_user_id q = "a" ∧
  friend_rep db_friends M' ∧ is_Some (friends M' !! ("a", "b")) ∧ requests M' !! rid0 = Some (fr_set_status 1 q).
Proof.
  assert (fr_from_user_id <$> GetRequest db_asked rid0 = Some "a") as Hfrom by eval_eq.
  destruct db_asked_rep as (M & Hr & Hi).
  pose proof (HandleRequest_accept_effect env0 "b" rid0 "" db_asked M db_friends Hr Hi db_friends_run)
    as (q & M' & Hq & _ & _ & _ & Hr' & Hf & Hrq & _).
  rewrite (GetRequest_rep _ _ _ Hr), Hq in Hfrom. injection Hfrom as Hfrom.
  exists q, M'. rewrite Hf, Hrq, Hfrom.
  refine (conj eq_refl (conj Hr' (conj _ _))); rewrite lookup_insert_eq; eauto.
Defined.

Notation db_grouped := (snd (CreateFriendGroup env0 "b" "work" db_friends)).
Definition fgid0 : string := GenerateShortId (env_rand env0) "g_" 8.
Notation db_moved := (snd (MoveFriend "b" "a" fgid0 db_grouped)).

Lemma db_moved_rep : ∃ M, friend_rep db_moved M.
Proof.
  assert (CreateFriendGroup env0 "b" "work" db_friends = (Ret (true, Some fgid0), db_grouped))
    as H1 by eval_run.
  assert (MoveFriend "b" "a" fgid0 db_grouped = (Ret true, db_moved)) as H2 by eval_run.
  destruct (fserved_rep mem_empty db_moved) as (M & Hr & _); [apply mem_empty_fresh| |by exists M].
  eapply rtc_r; [eapply rtc_r; [apply db_friends_served|]|].
  - exact (fserved_run _ _ _ env0 (RCreateGroup "b" "work") _ eq_refl eq_refl H1).
  - exact (fserved_run _ _ _ env0 (RMove "b" "a" fgid0) _ (conj eq_refl eq_refl) eq_refl H2).
Qed.

Lemma DeleteFriendGroup_effect_witness : ∃ d',
  DeleteFriendGroup "b" fgid0 db_moved = (Ret OK, d') ∧ GetFriends d' "b" fgid0 = [] ∧
  fd_friend_id <$> GetFriends d' "b" "default" = ["a"].
Proof.
  destruct db_moved_rep as (M & Hr).
  assert (DeleteFriendGroup "b" fgid0 db_moved =
    (Ret OK, snd (DeleteFriendGroup "b" fgid0 db_moved))) as Hrun by eval_run.
  assert (fd_friend_id <$> GetFriends (snd (DeleteFriendGroup "b" fgid0 db_moved)) "b" "default"
    = ["a"]) as Hd by eval_eq.
  pose proof (DeleteFriendGroup_effect "b" fgid0 db_moved M _ _ eq_refl eq_refl Hr Hrun)
    as (_ & _ & M' & _ & _ & _ & _ & _ & Hg & _).
  eexists. exact (conj Hrun (conj Hg Hd)).
Defined.

Lemma MoveFriend_empty_group_hides_witness : ∃ d', MoveFriend "b" "a" "" db_friends = (Ret true, d') ∧
  IsFriend d' "b" "a" = true ∧ GetFriends d' "b" "" = [].
Proof.
  destruct db_friends_rep as (M & Hr).
  assert (MoveFriend "b" "a" "" db_friends = (Ret true, snd (MoveFriend "b" "a" "" db_friends)))
    as Hrun by eval_run.
  assert (GetFriends (snd (MoveFriend "b" "a" "" db_friends)) "b" "" = []) as Hg by eval_eq.
  pose proof (MoveFriend_empty_group_hides "b" "a" db_friends M _ eq_refl eq_refl Hr Hrun) as [Hf _].
  eexists. exact (conj Hrun (conj Hf Hg)).
Defined.
