(* ===== verification/Jwt.v ===== *)
(** [swift/jwt_helper.{h,cpp}] and [swift/grpc_auth.{h,cpp}]: HS256 tokens, their
    base64url encoding, and the user id a gRPC call is authenticated as. *)

From Stdlib Require Import Ascii.
From S2P Require Import Prelude External Utils.

(** * Base64url *)

Definition b64 : string := "ABCDEFGHIJKLMNOPQRSTUVWXYZabcdefghijklmnopqrstuvwxyz0123456789+/".

(** [while (valb >= 0) { out.push_back(b64[(val >> valb) & 0x3F]); valb -= 6; }]:
    the characters, and [valb] after the loop. *)
Fixpoint emit (fuel : nat) (val valb : Z) : string * Z :=
  match fuel with
  | O => ("", valb)
  | S fuel' =>
      if decide (0 ≤ valb) then
        let '(out, valb') := emit fuel' val (valb - 6) in
        (String (str_at b64 (Z.to_nat (Z.land (Z.shiftr val valb) 63))) out, valb')
      else ("", valb)
  end.

(** The loop over the bytes and the character for the remaining bits; [val] is an
    [int] whose high bits are shifted out. *)
Fixpoint encode_loop (s : string) (val valb : Z) : string :=
  match s with
  | String c s' =>
      let val := wrap32 (Z.shiftl val 8 + Z.of_N (code c)) in
      let '(out, valb) := emit (S (Z.to_nat (valb + 8))) val (valb + 8) in
      out +:+ encode_loop s' val valb
  | EmptyString =>
      if decide (-6 < valb)
      then String (str_at b64 (Z.to_nat (Z.land (Z.shiftr (wrap32 (Z.shiftl val 8)) (valb + 8)) 63))) ""
      else ""
  end.

Definition to_url (c : ascii) : ascii :=
  if decide (c = "+"%char) then "-"%char else if decide (c = "/"%char) then "_"%char else c.
Definition of_url (c : ascii) : ascii :=
  if decide (c = "-"%char) then "+"%char else if decide (c = "_"%char) then "/"%char else c.

(** [while (!out.empty() && out.back() == '=') out.pop_back();] *)
Fixpoint pop_equals (s : string) : string :=
  match s with
  | EmptyString => ""
  | String c s' =>
      let r := pop_equals s' in
      if decide (r = "") then (if decide (c = "="%char) then "" else String c "") else String c r
  end.

Definition Base64UrlEncode (s : string) : string :=
  pop_equals (str_map to_url (encode_loop s 0 (-6))).

(** [T[256]]: 128 entries are listed, the others are 0. *)
Definition T_entries : list Z := [
  -1;-1;-1;-1;-1;-1;-1;-1;-1;-1;-1;-1;-1;-1;-1;-1;-1;-1;-1;-1;-1;-1;-1;-1;-1;-1;-1;-1;-1;-1;-1;-1;
  -1;-1;-1;-1;-1;-1;-1;-1;-1;-1;-1;62;-1;-1;-1;63;52;53;54;55;56;57;58;59;60;61;-1;-1;-1;-1;-1;-1;
  -1; 0; 1; 2; 3; 4; 5; 6; 7; 8; 9;10;11;12;13;14;15;16;17;18;19;20;21;22;23;24;25;-1;-1;-1;-1;-1;
  -1;26;27;28;29;30;31;32;33;34;35;36;37;38;39;40;41;42;43;44;45;46;47;48;49;50;51;-1;-1;-1;-1;-1].
Definition T (c : ascii) : Z := nth (N.to_nat (code c)) T_entries 0.

Fixpoint decode_loop (s : string) (val valb : Z) : string :=
  match s with
  | EmptyString => ""
  | String c s' =>
      if decide (T c < 0) then "" else
      let val := wrap32 (Z.shiftl val 6 + T c) in
      let valb := valb + 6 in
      if decide (0 ≤ valb)
      then String (chr (Z.to_N (Z.land (Z.shiftr val valb) 255))) (decode_loop s' val (valb - 8))
      else decode_loop s' val valb
  end.

(** [while (s.size() % 4) s += '=';] *)
Definition pad_equals (s : string) : string :=
  let n := (str_size s mod 4)%nat in
  s +:+ match n with 1%nat => "===" | 2%nat => "==" | 3%nat => "=" | _ => "" end.

Definition Base64UrlDecode (input : string) : string :=
  decode_loop (pad_equals (str_map of_url input)) 0 (-8).

(** * Signatures *)

Section Jwt.
Context `{!JsonLib} `{!OpenSSL}.

(** The loop of [snprintf("%02x")] over the bytes. *)
Definition HmacSha256 (key data : string) : string := BytesToHex (HMAC_sha256 key data).

(** The value of a hexadecimal digit; 0 for any other character. *)
Definition hex_digit (c : ascii) : Z :=
  if decide (48 ≤ Z.of_N (code c) ≤ 57) then Z.of_N (code c) - 48
  else if decide (97 ≤ Z.of_N (code c) ≤ 102) then Z.of_N (code c) - 97 + 10
  else if decide (65 ≤ Z.of_N (code c) ≤ 70) then Z.of_N (code c) - 65 + 10
  else 0.
Fixpoint HexDecode (hex : string) : string :=
  match hex with
  | String h (String l hex') =>
      String (to_char (Z.lor (Z.shiftl (hex_digit h) 4) (hex_digit l))) (HexDecode hex')
  | _ => ""
  end.

(** The signature both functions compute for [header.payload]. *)
Definition signature (secret msg : string) : string :=
  Base64UrlEncode (HexDecode (HmacSha256 secret msg)).

Record JwtPayload : Type := {
  jp_user_id : string;
  jp_issuer : string;
  jp_iat : Z;     (* int64_t *)
  jp_exp : Z;     (* int64_t *)
  jp_valid : bool;
}.
Definition jp_set_valid (b : bool) (p : JwtPayload) : JwtPayload :=
  {| jp_user_id := jp_user_id p; jp_issuer := jp_issuer p; jp_iat := jp_iat p;
     jp_exp := jp_exp p; jp_valid := b |}.
Definition no_payload : JwtPayload :=
  {| jp_user_id := ""; jp_issuer := ""; jp_iat := 0; jp_exp := 0; jp_valid := false |}.

Definition jwt_header : json := js_obj [("alg", JStr "HS256"); ("typ", JStr "JWT")].
Definition jwt_payload (user_id issuer : string) (now exp : Z) : json :=
  js_obj [("iss", JStr (if decide (issuer = "") then "swift-online" else issuer));
          ("sub", JStr user_id); ("iat", JInt now); ("exp", JInt exp)].

(** [now_ms] is what [GetTimestampMs] returns; [None] is the exception of [dump]. *)
Definition JwtCreate (now_ms : Z) (user_id secret : string) (expire_hours : Z) (issuer : string)
    : option string :=
  let now := Z.quot now_ms 1000 in
  let exp := wrap64 (now + wrap64 (expire_hours * 3600)) in
  header ← js_dump jwt_header;
  payload ← js_dump (jwt_payload user_id issuer now exp);
  let msg := Base64UrlEncode header +:+ "." +:+ Base64UrlEncode payload in
  Some (msg +:+ "." +:+ signature secret msg).

(** The part inside [try]: the fields that were read, [valid] when all is well. *)
Definition read_payload (now_ms : Z) (payload_json : string) : JwtPayload :=
  match js_parse payload_json with
  | None => no_payload
  | Some p =>
      match js_str p "sub" "" with
      | None => no_payload
      | Some sub =>
          match js_str p "iss" "" with
          | None => {| jp_user_id := sub; jp_issuer := ""; jp_iat := 0; jp_exp := 0;
                       jp_valid := false |}
          | Some iss =>
              match js_int32 p "iat" 0 with
              | None => {| jp_user_id := sub; jp_issuer := iss; jp_iat := 0; jp_exp := 0;
                           jp_valid := false |}
              | Some iat =>
                  match js_int32 p "exp" 0 with
                  | None => {| jp_user_id := sub; jp_issuer := iss; jp_iat := iat; jp_exp := 0;
                               jp_valid := false |}
                  | Some exp =>
                      let now := Z.quot now_ms 1000 in
                      let result b := {| jp_user_id := sub; jp_issuer := iss; jp_iat := iat;
                                         jp_exp := exp; jp_valid := b |} in
                      if decide (exp < now) then result false else
                      if decide (iss ≠ "swift-online" ∧ iss ≠ "swift-auth") then result false else
                      if decide (sub = "") then result false else
                      result true
                  end
              end
          end
      end
  end.

Definition JwtVerify (now_ms : Z) (token secret : string) : JwtPayload :=
  match str_find "." token with
  | None => no_payload
  | Some dot1 =>
      match str_find_from "." token (S dot1) with
      | None => no_payload
      | Some dot2 =>
          let payload_b64 := str_take (dot2 - dot1 - 1) (str_drop (S dot1) token) in
          let sig_b64 := str_drop (S dot2) token in
          let msg := str_take dot2 token in
          if decide (sig_b64 ≠ signature secret msg) then no_payload else
          read_payload now_ms (Base64UrlDecode payload_b64)
      end
  end.
End Jwt.

(** * The authenticated user of a call *)

(** [s.find_first_not_of(set)], [s.find_last_not_of(set)] and the [substr]s they
    delimit. *)
Fixpoint strip_left (drop : ascii → bool) (s : string) : string :=
  match s with
  | EmptyString => ""
  | String c s' => if drop c then strip_left drop s' else s
  end.
Fixpoint strip_right (drop : ascii → bool) (s : string) : string :=
  match s with
  | EmptyString => ""
  | String c s' =>
      let r := strip_right drop s' in
      if decide (r = "") then (if drop c then "" else String c "") else String c r
  end.
Definition header_space (c : ascii) : bool := bool_decide (code c ∈ [32; 9; 13; 10]%N).
Definition blank (c : ascii) : bool := bool_decide (code c ∈ [32; 9]%N).

(** [meta k] is what [client_metadata().find(k)] finds. *)
Definition GetTokenFromContext (meta : string → option string) : string :=
  match meta "authorization" with
  | Some v =>
      let v := strip_right header_space (strip_left header_space v) in
      if decide (v = "") then "" else
      if StartsWith v "Bearer " then
        let v := str_drop 7 v in
        let t := strip_left blank v in
        if decide (t = "") then v else t
      else v
  | None => default "" (meta "x-token")
  end.

Definition GetAuthenticatedUserId `{!JsonLib} `{!OpenSSL} (now_ms : Z)
    (meta : string → option string) (jwt_secret : string) : string :=
  if decide (jwt_secret = "") then "" else
  let token := GetTokenFromContext meta in
  if decide (token = "") then "" else
  let payload := JwtVerify now_ms token jwt_secret in
  if jp_valid payload then jp_user_id payload else "".

(** * Facts about base64url *)

Lemma six_bits z k : 0 ≤ k ≤ 26 → Z.land (Z.shiftr (wrap32 z) k) 63 = (z / 2 ^ k) mod 64.
Proof.
  intros. change 63 with (Z.ones 6). rewrite Z.land_ones, Z.shiftr_div_pow2 by lia.
  apply (wrap32_bits z k 6); lia.
Qed.
Lemma eight_bits z k : 0 ≤ k ≤ 24 → Z.land (Z.shiftr (wrap32 z) k) 255 = (z / 2 ^ k) mod 256.
Proof.
  intros. change 255 with (Z.ones 8). rewrite Z.land_ones, Z.shiftr_div_pow2 by lia.
  apply (wrap32_bits z k 8); lia.
Qed.

Lemma code_range c : 0 ≤ Z.of_N (code c) < 256.
Proof. pose proof (N_ascii_bounded c). unfold code. lia. Qed.
Lemma chr_code c : chr (code c) = c.
Proof. apply ascii_N_embedding. Qed.

(** The character of six bits. *)
Definition sextet (x : Z) : ascii := str_at b64 (Z.to_nat x).
Definition url_char (c : ascii) : bool :=
  negb (bool_decide (c = "="%char)) && negb (bool_decide (c = "."%char)) && negb (header_space c).
Lemma sextet_spec x : 0 ≤ x < 64 → T (of_url (to_url (sextet x))) = x ∧
  url_char (to_url (sextet x)) = true.
Proof.
  intros Hx. assert (forallb (λ n, (T (of_url (to_url (sextet (Z.of_nat n)))) =? Z.of_nat n) &&
    url_char (to_url (sextet (Z.of_nat n)))) (seq 0 64) = true) as Hall by done.
  rewrite forallb_forall in Hall. specialize (Hall (Z.to_nat x) ltac:(apply in_seq; lia)).
  rewrite Z2Nat.id in Hall by lia. by apply andb_true_iff in Hall as [?%Z.eqb_eq ?].
Qed.

(** What the decoder sees of an encoder's output. *)
Notation decode_url s := (decode_loop (str_map of_url (str_map to_url s))).

Lemma decode_sextet x s val valb : 0 ≤ x < 64 →
  decode_url (String (sextet x) s) val valb =
    if decide (0 ≤ valb + 6)
    then String (chr (Z.to_N (Z.land (Z.shiftr (wrap32 (64 * val + x)) (valb + 6)) 255)))
           (decode_url s (wrap32 (64 * val + x)) (valb - 2))
    else decode_url s (wrap32 (64 * val + x)) (valb + 6).
Proof.
  intros Hx. simpl. destruct (sextet_spec x Hx) as [-> _].
  rewrite decide_False by lia. rewrite Z.shiftl_mul_pow2 by lia.
  replace (val * 2 ^ 6) with (64 * val) by lia. by replace (valb + 6 - 8) with (valb - 2) by lia.
Qed.

Lemma sextet_at z k : 0 ≤ k ≤ 26 →
  str_at b64 (Z.to_nat (Z.land (Z.shiftr (wrap32 z) k) 63)) = sextet ((z / 2 ^ k) mod 64).
Proof. intros. by rewrite six_bits. Qed.

Lemma emit_one z k : 0 ≤ k < 6 →
  emit (S (Z.to_nat k)) (wrap32 z) k = (String (sextet ((z / 2 ^ k) mod 64)) "", k - 6).
Proof.
  intros. simpl. rewrite decide_True, sextet_at by lia. destruct (Z.to_nat k); [done|].
  simpl. by rewrite decide_False by lia.
Qed.
Lemma emit_two z :
  emit (S (Z.to_nat 6)) (wrap32 z) 6 =
    (String (sextet ((z / 2 ^ 6) mod 64)) (String (sextet ((z / 2 ^ 0) mod 64)) ""), -6).
Proof. rewrite <-!sextet_at by lia. done. Qed.

Lemma wrap32_mod_4 z : wrap32 z mod 4 = z mod 4.
Proof. by apply (wrap32_mod z 2). Qed.
Lemma wrap32_mod_16 z : wrap32 z mod 16 = z mod 16.
Proof. by apply (wrap32_mod z 4). Qed.
Lemma wrap32_mod_64 z : wrap32 z mod 64 = z mod 64.
Proof. by apply (wrap32_mod z 6). Qed.

Lemma wrap32_tail z x : (64 * wrap32 z + x) mod 256 = (64 * (z mod 4) + x) mod 256.
Proof. rewrite <-wrap32_mod_4. Z.div_mod_to_equations. lia. Qed.

Ltac decode_step :=
  rewrite decode_sextet by (apply Z.mod_pos_bound; lia);
  first [rewrite decide_True by lia; rewrite eight_bits by lia | rewrite decide_False by lia].
(** Two bytes are the same by arithmetic on the bits they were cut into. *)
Ltac byte_eq :=
  rewrite ?wrap32_mod_4, ?wrap32_mod_16, ?wrap32_mod_64;
  change (2 ^ 8) with 256; change (2 ^ 6) with 64; change (2 ^ 4) with 16; change (2 ^ 2) with 4;
  change (2 ^ 0) with 1; do 2 f_equal; Z.div_mod_to_equations; lia.

(** The decoder run on what the encoder still has to write gives what the encoder
    still has to read; between groups of three bytes the encoder holds 2 or 4
    bits and the decoder 6 or 4 bits of the same byte. *)
Lemma decode_encode_loop s : ∀ v w,
  decode_url (encode_loop s v (-6)) w (-8) = s ∧
  decode_url (encode_loop s v (-4)) w (-2) = String (chr (Z.to_N (w mod 64 * 4 + v mod 4))) s ∧
  decode_url (encode_loop s v (-2)) w (-4) = String (chr (Z.to_N (w mod 16 * 16 + v mod 16))) s.
Proof.
  induction s as [|c s IH]; intros v w.
  - cbn [encode_loop]. rewrite (Z.shiftl_mul_pow2 v 8), !sextet_at by lia.
    rewrite decide_False, !decide_True by lia.
    split_and!; [done|..]; decode_step; cbn [encode_loop str_map decode_loop]; f_equal; byte_eq.
  - pose proof (code_range c) as Hc. set (n := Z.of_N (code c)) in *.
    assert (chr (Z.to_N n) = c) as Hn by (unfold n; by rewrite N2Z.id, chr_code).
    cbn [encode_loop]. fold n. rewrite (Z.shiftl_mul_pow2 v 8) by lia.
    change (-6 + 8) with 2. change (-4 + 8) with 4. change (-2 + 8) with 6.
    rewrite !emit_one, emit_two by lia. cbn [String.append].
    change (2 - 6) with (-4). change (4 - 6) with (-2). split_and!.
    + decode_step. rewrite (proj1 (proj2 (IH _ _))), <-Hn. f_equal. byte_eq.
    + decode_step. change (-2 + 6) with 4. change (4 - 2) with 2.
      f_equal; [byte_eq|]. rewrite (proj2 (proj2 (IH _ _))), <-Hn. f_equal. byte_eq.
    + decode_step. f_equal; [byte_eq|]. change (-4 - 2) with (-6). decode_step.
      change (-6 - 2) with (-8). rewrite (proj1 (IH _ _)), <-Hn. f_equal.
      change (2 ^ (-6 + 6)) with 1. rewrite Z.div_1_r, wrap32_tail. byte_eq.
Qed.

(** The encoder writes no padding, no dot and no blank. *)
Lemma url_char_sextet z : url_char (to_url (str_at b64 (Z.to_nat (Z.land z 63)))) = true.
Proof.
  change 63 with (Z.ones 6). rewrite Z.land_ones by lia.
  by destruct (sextet_spec (z mod 2 ^ 6)) as [_ ?]; [by apply Z.mod_pos_bound|].
Qed.

Lemma str_map_app f s t : str_map f (s +:+ t) = str_map f s +:+ str_map f t.
Proof. induction s; simpl; congruence. Qed.
Lemma str_all_app p s t : str_all p (s +:+ t) = str_all p s && str_all p t.
Proof. induction s; simpl; [done|]. by rewrite IHs, andb_assoc. Qed.

Lemma emit_url_chars fuel val valb : str_all url_char (str_map to_url (emit fuel val valb).1) = true.
Proof.
  revert valb. induction fuel as [|fuel IH]; intros valb; simpl; [done|].
  destruct (decide (0 ≤ valb)); [|done]. specialize (IH (valb - 6)).
  destruct (emit fuel val (valb - 6)). simpl in *. by rewrite url_char_sextet.
Qed.
Lemma encode_url_chars s : ∀ v b, str_all url_char (str_map to_url (encode_loop s v b)) = true.
Proof.
  induction s as [|c s IH]; intros v b; cbn [encode_loop].
  - destruct (decide _); [|done]. simpl. by rewrite url_char_sextet.
  - pose proof (emit_url_chars (S (Z.to_nat (b + 8)))
      (wrap32 (Z.shiftl v 8 + Z.of_N (code c))) (b + 8)) as He.
    destruct (emit _ _ _) as [out b']. rewrite str_map_app, str_all_app, IH.
    simpl in He. by rewrite He.
Qed.

Lemma pop_equals_id s : str_all url_char s = true → pop_equals s = s.
Proof.
  induction s as [|c s IH]; simpl; [done|]. intros [Hc Hs]%andb_true_iff.
  rewrite IH by done. destruct (decide (s = "")) as [->|]; [|done].
  rewrite decide_False; [done|]. intros ->. done.
Qed.
Lemma Base64UrlEncode_eq s : Base64UrlEncode s = str_map to_url (encode_loop s 0 (-6)).
Proof. apply pop_equals_id, encode_url_chars. Qed.
Lemma Base64UrlEncode_no_dot s : str_has "." (Base64UrlEncode s) = false.
Proof. rewrite Base64UrlEncode_eq. by eapply str_all_has; [apply encode_url_chars|]. Qed.

(** Padding ends the decoding. *)
Lemma decode_loop_equals s t : ∀ val valb,
  decode_loop (s +:+ String "=" t) val valb = decode_loop s val valb.
Proof.
  induction s as [|c s IH]; intros val valb; simpl; [done|].
  destruct (decide (T c < 0)); [done|]. by rewrite !IH.
Qed.
Lemma decode_loop_pad s val valb : decode_loop (pad_equals s) val valb = decode_loop s val valb.
Proof.
  unfold pad_equals. destruct (str_size s mod 4)%nat as [|[|[|[|n]]]];
    rewrite ?str_app_nil_r; done || apply decode_loop_equals.
Qed.

Lemma Base64UrlDecode_Encode s : Base64UrlDecode (Base64UrlEncode s) = s.
Proof.
  unfold Base64UrlDecode. rewrite decode_loop_pad, Base64UrlEncode_eq.
  apply (decode_encode_loop s 0 0).
Qed.

(** ** Signatures in hexadecimal *)

Lemma hex_digits_byte c :
  to_char (Z.lor (Z.shiftl (hex_digit (hex_char (N.land (N.shiftr (code c) 4) 15))) 4)
                 (hex_digit (hex_char (N.land (code c) 15)))) = c.
Proof. by destruct c as [[] [] [] [] [] [] [] []]. Qed.

Lemma HexDecode_BytesToHex s : HexDecode (BytesToHex s) = s.
Proof.
  induction s as [|c s IH]; [done|]. cbn [BytesToHex HexDecode]. by rewrite IH, hex_digits_byte.
Qed.

(** ** The parts of a token *)

Lemma str_has_prefix c s : String.prefix (String c "") s = true → str_has c s = true.
Proof. intros [t ->]%prefix_iff. simpl. by rewrite bool_decide_true. Qed.

Lemma str_find_sep c a b : str_has c a = false →
  str_find (String c "") (a +:+ String c b) = Some (str_size a).
Proof.
  induction a as [|x a IH]; intros Ha; cbn [String.append str_find].
  - replace (String.prefix (String c "") (String c b)) with true
      by (symmetry; apply (prefix_app (String c "") b)). done.
  - destruct (String.prefix _ _) eqn:Hp.
    + apply prefix_iff in Hp as [t Ht]. simpl in Ht. injection Ht as -> _.
      simpl in Ha. by rewrite bool_decide_true in Ha.
    + simpl in Ha. apply orb_false_elim in Ha as [_ Ha]. by rewrite IH.
Qed.

Lemma str_find_sep_inv c s n : str_find (String c "") s = Some n →
  s = str_take n s +:+ String c (str_drop (S n) s) ∧ str_has c (str_take n s) = false ∧
  str_size (str_take n s) = n.
Proof.
  revert n. induction s as [|x s IH]; intros n; [done|]. cbn [str_find].
  destruct (String.prefix _ _) eqn:Hp.
  - apply prefix_iff in Hp as [t Ht]. simpl in Ht. injection Ht as -> ->. by intros [= <-].
  - destruct (str_find _ s) as [m|]; [|done]. intros [= <-].
    destruct (IH m eq_refl) as (Hs & Hh & Hz). cbn [str_take str_drop String.append str_has].
    split_and!; [f_equal; exact Hs| |by unfold str_size in *; simpl; rewrite Hz].
    rewrite Hh, orb_false_r. apply bool_decide_false. intros ->.
    pose proof (prefix_app (String c "") s) as Hq. cbn [String.append] in Hq. congruence.
Qed.

(** ** Blanks around a token *)

Lemma strip_left_id drop s : str_all (λ c, negb (drop c)) s = true → strip_left drop s = s.
Proof. destruct s as [|c s]; [done|]. simpl. by destruct (drop c). Qed.
Lemma strip_right_id drop s t : str_all (λ c, negb (drop c)) t = true → t ≠ "" →
  strip_right drop (s +:+ t) = s +:+ t.
Proof.
  intros Ht Hne. assert (strip_right drop t = t) as Hid.
  { clear Hne. induction t as [|c t IH]; simpl in *; [done|]. apply andb_true_iff in Ht as [Hc Ht].
    rewrite IH by done. case_decide; subst; [|done]. by destruct (drop c). }
  induction s as [|c s IH]; simpl; [done|]. rewrite IH. by destruct s, t.
Qed.
Lemma str_all_impl (p q : ascii → bool) s : (∀ c, p c = true → q c = true) →
  str_all p s = true → str_all q s = true.
Proof. intros Hpq. induction s; simpl; [done|]. intros [? ?]%andb_true_iff. by rewrite Hpq, IHs. Qed.

(** The characters of a token. *)
Definition token_char (c : ascii) : bool := negb (header_space c).
Lemma url_token_char c : url_char c = true → token_char c = true.
Proof. by intros [_ ?]%andb_true_iff. Qed.
Lemma Base64UrlEncode_token s : str_all token_char (Base64UrlEncode s) = true.
Proof. rewrite Base64UrlEncode_eq. eapply str_all_impl; [apply url_token_char|apply encode_url_chars]. Qed.

(** A bearer token in the authorization header is found. *)
Lemma GetTokenFromContext_bearer meta t : str_all token_char t = true → t ≠ "" →
  meta "authorization" = Some ("Bearer " +:+ t) → GetTokenFromContext meta = t.
Proof.
  intros Ht Hne Hm. unfold GetTokenFromContext. rewrite Hm.
  change (strip_left header_space ("Bearer " +:+ t)) with ("Bearer " +:+ t).
  rewrite strip_right_id by done. rewrite decide_False by done.
  assert (StartsWith ("Bearer " +:+ t) "Bearer " = true) as ->.
  { unfold StartsWith. rewrite decide_False by (unfold str_size; simpl; lia).
    apply bool_decide_true, (str_take_app "Bearer "). }
  rewrite (str_drop_app "Bearer " t : str_drop 7 ("Bearer " +:+ t) = t).
  rewrite strip_left_id; [by rewrite decide_False|].
  eapply str_all_impl; [|done]. intros c. unfold token_char, header_space, blank.
  rewrite !negb_true_iff, !bool_decide_eq_false. set_solver.
Qed.

Section JwtFacts.
Context `{!JsonLib} `{!JsonLaws} `{!OpenSSL}.

(** A token made of three parts is taken apart into them. *)
Lemma JwtVerify_parts now a b sg secret : str_has "." a = false → str_has "." b = false →
  JwtVerify now ((a +:+ "." +:+ b) +:+ "." +:+ sg) secret =
    if decide (sg ≠ signature secret (a +:+ "." +:+ b)) then no_payload
    else read_payload now (Base64UrlDecode b).
Proof.
  intros Ha Hb. unfold JwtVerify, str_find_from. rewrite <-str_app_assoc.
  change ("." +:+ b) with (String "." b). cbn [String.append].
  rewrite (str_find_sep "." a) by done.
  assert (∀ t, str_drop (S (str_size a)) (a +:+ String "." t) = t) as Hd.
  { intros t. change (S (str_size a)) with (1 + str_size a)%nat. rewrite Nat.add_comm, <-str_drop_drop.
    by rewrite str_drop_app. }
  rewrite Hd, (str_find_sep "." b) by done. cbn [fmap option_fmap option_map].
  assert (str_take (S (str_size a) + str_size b) (a +:+ String "." (b +:+ String "." sg)) =
    a +:+ String "." b) as Ht.
  { replace (S (str_size a) + str_size b)%nat with (str_size (a +:+ String "." b))
      by (rewrite str_size_app; unfold str_size; simpl; lia).
    change (String "." (b +:+ String "." sg)) with (String "." b +:+ String "." sg).
    rewrite str_app_assoc. apply str_take_app. }
  rewrite Ht.
  replace (S (str_size a) + str_size b - str_size a - 1)%nat with (str_size b) by lia.
  rewrite str_take_app.
  replace (S (S (str_size a) + str_size b)) with (S (str_size a) + S (str_size b))%nat by lia.
  rewrite <-str_drop_drop, Hd.
  replace (S (str_size b)) with (str_size (b +:+ ".")) by (rewrite str_size_app; unfold str_size; simpl; lia).
  change (b +:+ String "." sg) with (b +:+ ("." +:+ sg)). rewrite str_app_assoc, str_drop_app. done.
Qed.

(** A token that is verified as valid is signed. *)
Lemma JwtVerify_valid now token secret : jp_valid (JwtVerify now token secret) = true →
  ∃ a b, str_has "." a = false ∧ str_has "." b = false ∧
    token = (a +:+ "." +:+ b) +:+ "." +:+ signature secret (a +:+ "." +:+ b) ∧
    JwtVerify now token secret = read_payload now (Base64UrlDecode b).
Proof.
  intros Hv. assert (∃ a b sg, str_has "." a = false ∧ str_has "." b = false ∧
    token = (a +:+ "." +:+ b) +:+ "." +:+ sg) as (a & b & sg & Ha & Hb & ->).
  { revert Hv. unfold JwtVerify, str_find_from.
    destruct (str_find "." token) as [d1|] eqn:Hd1; [|done].
    destruct (str_find "." (str_drop (S d1) token)) as [d2|] eqn:Hd2; [|done]. intros _.
    apply str_find_sep_inv in Hd1 as (Hd1 & Ha & _), Hd2 as (Hd2 & Hb & _).
    do 3 eexists. split; [exact Ha|]. split; [exact Hb|].
    rewrite <-str_app_assoc. etrans; [exact Hd1|]. f_equal. cbn [String.append]. f_equal.
    exact Hd2. }
  rewrite JwtVerify_parts in Hv |- * by done.
  destruct (decide (sg ≠ _)) as [|Hsg]; [done|]. apply dec_stable in Hsg as ->. eauto 8.
Qed.

Lemma read_payload_fields now u issuer iat exp payload :
  js_dump (jwt_payload u issuer iat exp) = Some payload →
  let p := read_payload now payload in
  jp_user_id p = u ∧ jp_iat p = wrap32 iat ∧ jp_exp p = wrap32 exp ∧
  (jp_valid p = true ↔
    u ≠ "" ∧ issuer ∈ [""; "swift-online"; "swift-auth"] ∧ Z.quot now 1000 ≤ wrap32 exp).
Proof.
  intros Hp. apply js_parse_dump in Hp. unfold read_payload. rewrite Hp. unfold jwt_payload.
  set (iss := if decide (issuer = "") then "swift-online" else issuer). js_simp.
  assert (iss = "swift-online" ∨ iss = "swift-auth" ↔ issuer ∈ [""; "swift-online"; "swift-auth"])
    as Hiss by (subst iss; case_decide; rewrite !elem_of_cons, elem_of_nil; naive_solver).
  rewrite <-Hiss. clearbody iss.
  destruct (decide (wrap32 exp < _)); [simpl; split_and!; try done; naive_solver lia|].
  destruct (decide (iss ≠ _ ∧ _)); [simpl; split_and!; try done; naive_solver|].
  destruct (decide (u = "")); simpl; split_and!; try done; [naive_solver|].
  split; [intros _|done]. split_and!; [done| |lia].
  destruct (decide (iss = "swift-online")); [by left|right]. apply dec_stable. naive_solver.
Qed.

(** Verification of a created token reads back its fields. *)
Lemma JwtVerify_JwtCreate now1 now2 u secret hours issuer token :
  JwtCreate now1 u secret hours issuer = Some token →
  ∃ payload, js_dump (jwt_payload u issuer (Z.quot now1 1000)
      (wrap64 (Z.quot now1 1000 + wrap64 (hours * 3600)))) = Some payload ∧
    JwtVerify now2 token secret = read_payload now2 payload.
Proof.
  unfold JwtCreate. intros Hc.
  destruct (js_dump jwt_header) as [h|]; [|done].
  cbn [mbind option_bind] in Hc. destruct (js_dump (jwt_payload _ _ _ _)) as [p|]; [|done].
  cbn [mbind option_bind] in Hc. cbv zeta in Hc. apply (inj Some) in Hc as <-.
  exists p. split; [done|]. rewrite JwtVerify_parts by apply Base64UrlEncode_no_dot.
  rewrite decide_False by naive_solver. by rewrite Base64UrlDecode_Encode.
Qed.

Lemma JwtCreate_token now u secret hours issuer token :
  JwtCreate now u secret hours issuer = Some token → token ≠ "" ∧ str_all token_char token = true.
Proof.
  unfold JwtCreate. destruct (js_dump jwt_header); [|done]. cbn [mbind option_bind].
  destruct (js_dump (jwt_payload _ _ _ _)); [|done]. cbn [mbind option_bind]. cbv zeta.
  intros Hc%(inj Some). rewrite <-Hc. split; [by rewrite !str_app_empty; intros (?&?&?)|].
  unfold signature. by rewrite !str_all_app, !Base64UrlEncode_token.
Qed.

(** A call with a bearer token made for [u] is authenticated as [u] until the token expires. *)
Lemma GetAuthenticatedUserId_created now1 now2 meta u secret hours issuer token :
  JwtCreate now1 u secret hours issuer = Some token → meta "authorization" = Some ("Bearer " +:+ token) →
  secret ≠ "" → issuer ∈ [""; "swift-online"; "swift-auth"] →
  int64_range (hours * 3600) → int32_range (Z.quot now1 1000 + hours * 3600) →
  GetAuthenticatedUserId now2 meta secret =
    if decide (Z.quot now2 1000 ≤ Z.quot now1 1000 + hours * 3600) then u else "".
Proof.
  intros Hc Hm Hs Hi Hh He. destruct (JwtCreate_token _ _ _ _ _ _ Hc) as [Hne Ht].
  unfold GetAuthenticatedUserId. rewrite decide_False by done.
  rewrite (GetTokenFromContext_bearer meta token) by done. rewrite decide_False by done.
  destruct (JwtVerify_JwtCreate now1 now2 _ _ _ _ _ Hc) as (payload & Hd & ->).
  destruct (read_payload_fields now2 _ _ _ _ _ Hd) as (-> & _ & _ & Hv).
  rewrite (wrap64_id _ Hh), (wrap64_id (_ + _)), wrap32_id in Hv
    by (unfold int32_range, int64_range in *; lia).
  revert Hv. destruct (jp_valid _); intros Hv; case_decide; try done.
  - destruct Hv as [Hv _]. by destruct (Hv eq_refl) as (_ & _ & ?).
  - destruct (decide (u = "")) as [->|Hu]; [done|].
    exfalso. assert (false = true) by (apply Hv; split_and!; done). done.
Qed.
End JwtFacts.

(** * Properties *)

Section Properties.
Context `{!JsonLib} `{!JsonLaws} `{!OpenSSL}.

(** C39: base64url decoding inverts encoding, for every byte string and in spite of
    the overflow of the [int] both loops shift bits through; the encoded text
    contains neither a dot nor padding. *)
Theorem base64url_roundtrip s :
  Base64UrlDecode (Base64UrlEncode s) = s ∧ str_all url_char (Base64UrlEncode s) = true.
Proof.
  split; [apply Base64UrlDecode_Encode|]. rewrite Base64UrlEncode_eq. apply encode_url_chars.
Qed.

(** a token made by [JwtCreate] is read back by [JwtVerify] with the same secret:
    the user id is the one it was made for, and it is valid exactly when the user id
    is not empty, the issuer is one of the two known ones (or left out) and the
    expiry, as an [int], has not passed. *)
Theorem JwtVerify_created now1 now2 u secret hours issuer token :
  JwtCreate now1 u secret hours issuer = Some token →
  let p := JwtVerify now2 token secret in
  let exp := Z.quot now1 1000 + hours * 3600 in
  jp_user_id p = u ∧
  (int64_range (hours * 3600) → int64_range exp →
   (jp_valid p = true ↔
      u ≠ "" ∧ issuer ∈ [""; "swift-online"; "swift-auth"] ∧ Z.quot now2 1000 ≤ wrap32 exp)).
Proof.
  intros Hc. destruct (JwtVerify_JwtCreate now1 now2 _ _ _ _ _ Hc) as (payload & Hd & ->).
  destruct (read_payload_fields now2 _ _ _ _ _ Hd) as (Hu & _ & _ & Hv). split; [done|].
  intros Hh He. rewrite Hv. by rewrite (wrap64_id _ Hh), (wrap64_id _ He).
Qed.

(** The expiry is read back as a 32-bit [int].  A token made for seven days in
    the week before 03:14:08 UTC on 19 January 2038, or at any time in the 68 years
    after it, is invalid from the moment it is made. *)
Theorem JwtCreate_2038 now1 now2 u secret issuer token : 0 ≤ now2 →
  2 ^ 31 - 7 * 86400 ≤ Z.quot now1 1000 < 2 ^ 32 - 7 * 86400 →
  JwtCreate now1 u secret (24 * 7) issuer = Some token →
  jp_valid (JwtVerify now2 token secret) = false.
Proof.
  intros Hn2 Hn1 Hc. destruct (JwtVerify_JwtCreate now1 now2 _ _ _ _ _ Hc) as (payload & Hd & ->).
  destruct (read_payload_fields now2 _ _ _ _ _ Hd) as (_ & _ & _ & Hv).
  apply not_true_iff_false. rewrite Hv. intros (_ & _ & Hle).
  rewrite (wrap64_id (24 * 7 * 3600)) in Hle by (unfold int64_range; lia).
  rewrite wrap64_id in Hle by (unfold int64_range; lia).
  assert (0 ≤ Z.quot now2 1000) by (apply Z.quot_pos; lia).
  unfold wrap32 in Hle. revert Hle. generalize dependent (Z.quot now1 1000). intros n Hn _.
  Z.div_mod_to_equations. lia.
Qed.

(** C33: a call is authenticated as [u] only by a token in its metadata that carries the
    signature, under the server's secret, of its first two parts, and whose
    payload is a JSON object for [u], of a known issuer, that has not expired. *)
Theorem authenticated_is_signed now meta secret u :
  GetAuthenticatedUserId now meta secret = u → u ≠ "" →
  secret ≠ "" ∧ ∃ a b p, str_has "." a = false ∧ str_has "." b = false ∧
    GetTokenFromContext meta = (a +:+ "." +:+ b) +:+ "." +:+ signature secret (a +:+ "." +:+ b) ∧
    js_parse (Base64UrlDecode b) = Some p ∧ js_str p "sub" "" = Some u ∧
    (js_str p "iss" "" = Some "swift-online" ∨ js_str p "iss" "" = Some "swift-auth") ∧
    ∃ exp, js_int32 p "exp" 0 = Some exp ∧ Z.quot now 1000 ≤ exp.
Proof.
  unfold GetAuthenticatedUserId. intros Hu Hne. case_decide; [by subst|]. split; [done|].
  case_decide; [by subst|]. destruct (jp_valid _) eqn:Hv; [|by subst].
  destruct (JwtVerify_valid _ _ _ Hv) as (a & b & Ha & Hb & Ht & Hr). rewrite Hr in Hv, Hu.
  revert Hv Hu. unfold read_payload.
  destruct (js_parse _) as [p|] eqn:Hp; [|done]. destruct (js_str p "sub" "") as [sub|] eqn:Hsub; [|done].
  destruct (js_str p "iss" "") as [iss|] eqn:Hiss; [|done].
  destruct (js_int32 p "iat" 0); [|done]. destruct (js_int32 p "exp" 0) as [exp|] eqn:Hexp; [|done].
  destruct (decide (exp < _)); [done|]. destruct (decide (iss ≠ _ ∧ _)) as [|Hi]; [done|].
  destruct (decide (sub = "")); [done|]. simpl. intros _ ->.
  exists a, b, p. split_and!; try done.
  - rewrite Hiss. destruct (decide (iss = "swift-online")) as [->|]; [by left|right].
    f_equal. apply dec_stable. naive_solver.
  - exists exp. split; [done|lia].
Qed.

(** a call that carries "Bearer " and a token made by [JwtCreate] for [u] in its
    authorization header is authenticated as [u] as long as the token is
    valid, and as nobody afterwards. *)
Theorem bearer_authenticates now1 now2 meta u secret hours token :
  JwtCreate now1 u secret hours "" = Some token → meta "authorization" = Some ("Bearer " +:+ token) →
  secret ≠ "" → int64_range (hours * 3600) → int32_range (Z.quot now1 1000 + hours * 3600) →
  GetAuthenticatedUserId now2 meta secret =
    if decide (Z.quot now2 1000 ≤ Z.quot now1 1000 + hours * 3600) then u else "".
Proof.
  intros Hc Hm Hs. apply (GetAuthenticatedUserId_created now1 now2 meta u secret hours "" token); [done..|set_solver].
Qed.
End Properties.

(** * Concrete runs *)

Lemma token_made now u secret issuer : 
  bool_decide (is_Some (JwtCreate now u secret 168 issuer)) = true →
  ∃ token, JwtCreate now u secret 168 issuer = Some token.
Proof. by intros [t Ht]%bool_decide_eq_true; exists t. Qed.

Lemma JwtVerify_created_witness : ∃ token,
  JwtCreate 1700000000000 "u_1" "k" 168 "" = Some token ∧
  jp_user_id (JwtVerify 1700000001000 token "k") = "u_1" ∧
  jp_valid (JwtVerify 1700000001000 token "k") = true.
Proof.
  assert ("u_1" ≠ "" ∧ "" ∈ [""; "swift-online"; "swift-auth"] ∧
    Z.quot 1700000001000 1000 ≤ wrap32 (Z.quot 1700000000000 1000 + 168 * 3600)) as Hok
    by (split_and!; [done|left|by vm_compute]).
  destruct (token_made 1700000000000 "u_1" "k" "" ltac:(eval_eq)) as [token Ht].
  pose proof (JwtVerify_created 1700000000000 1700000001000 "u_1" "k" 168 "" token Ht) as [Hu Hv].
  exists token. refine (conj Ht (conj Hu _)).
  apply Hv; [split; vm_compute; [discriminate|reflexivity]..|exact Hok].
Defined.

Lemma JwtCreate_2038_witness : ∃ token,
  JwtCreate 2147483000000 "u_1" "k" (24 * 7) "" = Some token ∧
  jp_valid (JwtVerify 2147483000000 token "k") = false.
Proof.
  destruct (token_made 2147483000000 "u_1" "k" "" ltac:(eval_eq)) as [token Ht].
  exists token. refine (conj Ht _).
  apply (JwtCreate_2038 2147483000000 2147483000000 "u_1" "k" "" token); [lia| |exact Ht].
  change (Z.quot 2147483000000 1000) with 2147483000. lia.
Defined.

Definition bearer (token : string) : string → option string :=
  λ k, if decide (k = "authorization") then Some ("Bearer " +:+ token) else None.

Lemma bearer_authenticates_witness : ∃ token,
  JwtCreate 1700000000000 "u_1" "k" 168 "" = Some token ∧
  GetAuthenticatedUserId 1700000001000 (bearer token) "k" = "u_1" ∧
  GetAuthenticatedUserId 1800000000000 (bearer token) "k" = "".
Proof.
  destruct (token_made 1700000000000 "u_1" "k" "" ltac:(eval_eq)) as [token Ht].
  pose proof (λ now2, bearer_authenticates 1700000000000 now2 (bearer token) "u_1" "k" 168 token
    Ht eq_refl ltac:(done) ltac:(by split) ltac:(by split)) as Ha.
  exists token. refine (conj Ht (conj _ _)); rewrite Ha; reflexivity.
Defined.

Lemma authenticated_is_signed_witness : ∃ token,
  GetAuthenticatedUserId 1700000001000 (bearer token) "k" = "u_1" ∧
  ∃ a b, GetTokenFromContext (bearer token) =
    (a +:+ "." +:+ b) +:+ "." +:+ signature "k" (a +:+ "." +:+ b).
Proof.
  destruct (token_made 1700000000000 "u_1" "k" "" ltac:(eval_eq)) as [token Ht].
  assert (bool_decide (GetAuthenticatedUserId 1700000001000
    (bearer (default "" (JwtCreate 1700000000000 "u_1" "k" 168 ""))) "k" = "u_1") = true) as Ha
    by eval_eq.
  rewrite Ht in Ha. apply bool_decide_eq_true in Ha. exists token. split; [exact Ha|].
  destruct (authenticated_is_signed 1700000001000 (bearer token) "k" "u_1" Ha ltac:(done))
    as (_ & a & b & p & _ & _ & Htok & _).
  exists a, b. exact Htok.
Defined.
