(* ===== verification/OnlineService.v ===== *)
(** [onlinesvr/internal/store/session_store.{h,cpp}] and
    [onlinesvr/internal/service/online_service.{h,cpp}]: login sessions, one per
    user, and the tokens they hand out. *)

From S2P Require Import Prelude External Utils Jwt.

(** * The session store *)

(** [struct SessionData] *)
Record SessionData : Type := {
  sd_user_id : string;
  sd_device_id : string;
  sd_token : string;
  sd_login_time : Z;      (* int64_t *)
  sd_expire_at : Z;       (* int64_t *)
}.
#[global] Instance SessionData_eq_dec : EqDecision SessionData.
Proof. solve_decision. Defined.

Definition kSessionPrefix : string := "session:".

Section SessionStore.
Context {db : Type} `{!RocksDB db} `{!JsonLib}.
Implicit Types d : db.

Definition SerializeSession (s : SessionData) : option string :=
  js_dump (js_obj [
    ("user_id", JStr (sd_user_id s));
    ("device_id", JStr (sd_device_id s));
    ("token", JStr (sd_token s));
    ("login_time", JInt (sd_login_time s));
    ("expire_at", JInt (sd_expire_at s))]).

Definition DeserializeSession (data : string) : option SessionData :=
  j ← js_parse data;
  user_id ← js_str j "user_id" "";
  device_id ← js_str j "device_id" "";
  token ← js_str j "token" "";
  login_time ← js_int j "login_time" 0;
  expire_at ← js_int j "expire_at" 0;
  Some {| sd_user_id := user_id; sd_device_id := device_id; sd_token := token;
          sd_login_time := login_time; sd_expire_at := expire_at |}.

Definition RocksDBSessionStore (DB_Open : string → option db) (db_path : string) : outcome db :=
  match DB_Open db_path with Some d => Ret d | None => Exc end.

Definition SetSession (session : SessionData) : M db bool :=
  value ← or_throw (SerializeSession session);
  kv_put (kSessionPrefix +:+ sd_user_id session) value.

Definition GetSession (d : db) (user_id : string) : option SessionData :=
  value ← db_Get d (kSessionPrefix +:+ user_id);
  DeserializeSession value.

Definition RemoveSession (user_id : string) : M db bool :=
  kv_delete (kSessionPrefix +:+ user_id).
End SessionStore.

(** * The service *)

Definition kTokenExpireDays : Z := 7.
Definition kMsPerDay : Z := 24 * 3600 * 1000.
Definition kDefaultDeviceId : string := "default".

Record LoginResult : Type := {
  lr_success : bool; lr_token : string; lr_expire_at : Z; lr_error : string }.
Record LogoutResult : Type := { lo_success : bool; lo_error : string }.
Record TokenResult : Type := { tr_valid : bool; tr_user_id : string }.

(** [OnlineServiceCore(store, jwt_secret)] *)
Definition online_secret (jwt_secret : string) : string :=
  if decide (jwt_secret = "") then "swift_online_secret_2026" else jwt_secret.

Section OnlineService.
Context {db : Type} `{!RocksDB db} `{!JsonLib} `{!OpenSSL}.
Variable jwt_secret : string.        (* the member [jwt_secret_] *)

(** The state is the pointer [store_]: [none] is the answer without a store. *)
Definition with_store {A} (none : A) (m : M db A) : M (option db) A := λ s,
  match s with
  | None => (Ret none, None)
  | Some d => let '(r, d') := m d in (r, Some d')
  end.

Definition NormalizeDeviceId (device_id : string) : string :=
  if decide (device_id = "") then kDefaultDeviceId else device_id.

(** [now_ms] and [jwt_now] are the readings of the clock here and in [JwtCreate]. *)
Definition GenerateToken (now_ms jwt_now : Z) (user_id : string) : option (string * Z) :=
  let expire_hours := wrap32 (kTokenExpireDays * 24) in
  token ← JwtCreate jwt_now user_id jwt_secret expire_hours "swift-online";
  Some (token, wrap64 (now_ms + kTokenExpireDays * kMsPerDay)).

Definition login_error (error : string) : LoginResult :=
  {| lr_success := false; lr_token := ""; lr_expire_at := 0; lr_error := error |}.
Definition login_ok (token : string) (expire_at : Z) : LoginResult :=
  {| lr_success := true; lr_token := token; lr_expire_at := expire_at; lr_error := "" |}.

(** The clock is read at four places: for [now_ms], in [JwtVerify], in
    [GenerateToken] and in [JwtCreate]. *)
Definition Login (e : Env) (user_id device_id device_type : string) : M (option db) LoginResult :=
  if decide (user_id = "") then mret (login_error "user_id required") else
  with_store (login_error "Session store not available") (
    let normalized_device := NormalizeDeviceId device_id in
    existing_session ← reads (λ d, GetSession d user_id);
    let now_ms := env_clock e 0 in
    let fresh_session :=
      te ← or_throw (GenerateToken (env_clock e 2) (env_clock e 3) user_id);
      let '(token, expire_at) := te in
      ok ← SetSession {| sd_user_id := user_id; sd_device_id := normalized_device;
                         sd_token := token; sd_login_time := now_ms;
                         sd_expire_at := expire_at |};
      mret (if (ok : bool) then login_ok token expire_at
            else login_error "Failed to persist session") in
    match existing_session with
    | Some s =>
        if decide (sd_device_id s ≠ normalized_device)
        then mret (login_error "User already logged in on another device") else
        if jp_valid (JwtVerify (env_clock e 1) (sd_token s) jwt_secret) &&
           bool_decide (now_ms < sd_expire_at s)
        then mret (login_ok (sd_token s) (sd_expire_at s))
        else fresh_session
    | None => fresh_session
    end).

Definition Logout (user_id token : string) : M (option db) LogoutResult :=
  let result := {| lo_success := true; lo_error := "" |} in
  with_store result (
    session ← reads (λ d, GetSession d user_id);
    match session with
    | None => mret result
    | Some _ => _ ← RemoveSession user_id; mret result
    end).

Definition ValidateToken (e : Env) (token : string) : M (option db) TokenResult :=
  let invalid := {| tr_valid := false; tr_user_id := "" |} in
  if decide (token = "") then mret invalid else
  let payload := JwtVerify (env_clock e 0) token jwt_secret in
  if negb (jp_valid payload) then mret invalid else
  with_store invalid (
    session ← reads (λ d, GetSession d (jp_user_id payload));
    match session with
    | None => mret invalid
    | Some session =>
        let now_ms := env_clock e 1 in
        if decide (sd_token session ≠ token ∨ sd_expire_at session ≤ now_ms) then
          _ ← RemoveSession (jp_user_id payload); mret invalid
        else mret {| tr_valid := true; tr_user_id := jp_user_id payload |}
    end).
End OnlineService.

(** * Facts *)

Section Facts.
Context {db : Type} `{!RocksDB db} `{!RocksDBLaws db} `{!JsonLib} `{!JsonLaws} `{!OpenSSL}.
Implicit Types d : db.

Lemma session_key_inj u u' : kSessionPrefix +:+ u = kSessionPrefix +:+ u' → u = u'.
Proof. unfold kSessionPrefix. simpl. by intros [= ->]. Qed.

Lemma DeserializeSession_Serialize s v :
  SerializeSession s = Some v → DeserializeSession v = Some s.
Proof.
  intros Hv. unfold SerializeSession, DeserializeSession in *.
  apply js_parse_dump in Hv. rewrite Hv. js_simp. by destruct s.
Qed.

(** A put, a delete: the session of one user is replaced, or nothing happens. *)
Lemma SetSession_spec s d r d' : SetSession s d = (r, d') →
  (r = Ret true ∧ ∀ u, GetSession d' u = if decide (sd_user_id s = u) then Some s else GetSession d u)
  ∨ r ≠ Ret true ∧ d' = d.
Proof.
  unfold SetSession. intros Hrun. munfold Hrun.
  destruct (SerializeSession s) as [v|] eqn:Hv; munfold Hrun; [|simplify_eq; by right].
  unfold kv_put, kv_commit in Hrun. destruct (db_Put d _ v) as [d1|] eqn:Hp; simplify_eq; [left|by right].
  split; [done|]. intros u. unfold GetSession. rewrite (db_Get_Put _ _ _ _ (kSessionPrefix +:+ u) Hp).
  destruct (decide (sd_user_id s = u)) as [->|Hne].
  - rewrite decide_True by done. simpl. by apply DeserializeSession_Serialize.
  - rewrite decide_False; [done|]. by intros ?%session_key_inj.
Qed.

Lemma RemoveSession_spec u d r d' : RemoveSession u d = (r, d') →
  (r = Ret true ∧ ∀ u', GetSession d' u' = if decide (u = u') then None else GetSession d u')
  ∨ r = Ret false ∧ d' = d.
Proof.
  unfold RemoveSession, kv_delete, kv_commit.
  destruct (db_Delete d _) as [d1|] eqn:Hp; intros [= <- <-]; [left|by right].
  split; [done|]. intros u'. unfold GetSession. rewrite (db_Get_Delete _ _ _ (kSessionPrefix +:+ u') Hp).
  destruct (decide (u = u')) as [->|Hne].
  - by rewrite decide_True.
  - rewrite decide_False; [done|]. by intros ?%session_key_inj.
Qed.
End Facts.

(** * Properties *)

Section Properties.
Context {db : Type} `{!RocksDB db} `{!RocksDBLaws db} `{!JsonLib} `{!JsonLaws} `{!OpenSSL}.
Implicit Types d : db.
Variable secret : string.

Lemma with_store_run {A} (none : A) (m : M db A) d r d' :
  with_store none m (Some d) = (r, Some d') → m d = (r, d').
Proof. unfold with_store. destruct (m d) as [r1 d1]. by intros [= -> ->]. Qed.

(** [Login] that succeeds leaves the user with one session, on the device he named,
    with the token and the expiry that were returned; a login that fails changes
    nothing; and no login touches the session of another user. *)
Theorem Login_effect e u device ty d r d' : u ≠ "" →
  Login secret e u device ty (Some d) = (Ret r, Some d') →
  (if lr_success r then ∃ s, GetSession d' u = Some s ∧ sd_token s = lr_token r ∧
     sd_expire_at s = lr_expire_at r ∧ sd_device_id s = NormalizeDeviceId device
   else d' = d) ∧
  ∀ u', u' ≠ u → GetSession d' u' = GetSession d u'.
Proof.
  intros Hu Hrun. unfold Login in Hrun. rewrite decide_False in Hrun by done.
  apply with_store_run in Hrun. munfold Hrun.
  assert (∀ b te, (let '(token, expire_at) := te in
      ok ← SetSession {| sd_user_id := u; sd_device_id := NormalizeDeviceId device;
          sd_token := token; sd_login_time := b; sd_expire_at := expire_at |};
      mret (if (ok : bool) then login_ok token expire_at
            else login_error "Failed to persist session")) d = (Ret r, d') →
    (if lr_success r then ∃ s, GetSession d' u = Some s ∧ sd_token s = lr_token r ∧
       sd_expire_at s = lr_expire_at r ∧ sd_device_id s = NormalizeDeviceId device
     else d' = d) ∧ ∀ u', u' ≠ u → GetSession d' u' = GetSession d u') as Hfresh.
  { intros b [token ex] Hf. munfold Hf.
    destruct (SetSession _ d) as [[ok|] d1] eqn:Hs; [|done].
    apply SetSession_spec in Hs as [(Hok & Hget)|(Hok & ->)]; simplify_eq.
    - simpl. rewrite Hget, decide_True by done. split; [eauto|].
      intros u' ?. by rewrite Hget, decide_False by naive_solver.
    - by destruct ok. }
  destruct (GetSession d u) as [s|] eqn:Hs.
  - destruct (decide (sd_device_id s ≠ _)) as [|Hdev]; [by simplify_eq|]. apply dec_stable in Hdev.
    destruct (_ && _); [simplify_eq/=; by eauto 6|].
    destruct (GenerateToken _ _ _ u) as [te|]; [|done]. by eapply Hfresh.
  - destruct (GenerateToken _ _ _ u) as [te|]; [|done]. by eapply Hfresh.
Qed.

(** the token of a first login is accepted by [ValidateToken] for exactly that user,
    as long as neither the token nor the session has expired (until the tokens
    reach 2038). *)
Theorem Login_then_ValidateToken e u device ty d r d' e2 : u ≠ "" → GetSession d u = None →
  Login secret e u device ty (Some d) = (Ret r, Some d') → lr_success r = true →
  0 ≤ env_clock e 3 → Z.quot (env_clock e 3) 1000 + 604800 < 2 ^ 31 →
  Z.quot (env_clock e2 0) 1000 ≤ Z.quot (env_clock e 3) 1000 + 604800 →
  env_clock e2 1 < lr_expire_at r →
  ValidateToken secret e2 (lr_token r) (Some d') =
    (Ret {| tr_valid := true; tr_user_id := u |}, Some d').
Proof.
  intros Hu Hnone Hrun Hok H3 H31 Hjwt Hexp. unfold Login in Hrun.
  rewrite decide_False in Hrun by done. apply with_store_run in Hrun. munfold Hrun.
  rewrite Hnone in Hrun. unfold GenerateToken in Hrun. change (wrap32 (kTokenExpireDays * 24)) with 168 in Hrun.
  destruct (JwtCreate _ _ _ _ _) as [token|] eqn:Hc; [|done].
  cbn [mbind option_bind] in Hrun. munfold Hrun.
  destruct (SetSession _ d) as [[ok|] d1] eqn:Hs; [|done].
  apply SetSession_spec in Hs as [(Ho & Hget)|(Ho & ->)]; simplify_eq; [|by destruct ok].
  simpl in *. destruct (JwtVerify_JwtCreate (env_clock e 3) (env_clock e2 0) _ _ _ _ _ Hc)
    as (payload & Hd & Hv).
  destruct (read_payload_fields (env_clock e2 0) _ _ _ _ _ Hd) as (Hpu & _ & _ & Hpv).
  assert (0 ≤ Z.quot (env_clock e 3) 1000) by (apply Z.quot_pos; lia).
  rewrite (wrap64_id (168 * 3600)), wrap64_id, wrap32_id in Hpv
    by (unfold int32_range, int64_range; lia).
  assert (token ≠ "") as Htok.
  { intros ->. rewrite <-Hv in Hpu. simpl in Hpu. congruence. }
  unfold ValidateToken. rewrite decide_False by done. rewrite Hv, (proj2 Hpv).
  2: { split_and!; [done|set_solver|lia]. }
  simpl. munfold Hget. rewrite Hpu. unfold mbind, M_bind, reads.
  rewrite Hget, decide_True by done. cbn. by rewrite decide_False by (simpl; naive_solver lia).
Qed.

(** [ValidateToken] accepts exactly a token that verifies as a JWT for a user whose
    session holds this very token and has not expired; it then answers that user
    and changes nothing.  It never touches the session of another user. *)
Theorem ValidateToken_effect e token d r d' : token ≠ "" →
  ValidateToken secret e token (Some d) = (Ret r, Some d') →
  let p := JwtVerify (env_clock e 0) token secret in
  (tr_valid r = true ↔ jp_valid p = true ∧ ∃ s, GetSession d (jp_user_id p) = Some s ∧
     sd_token s = token ∧ env_clock e 1 < sd_expire_at s) ∧
  (tr_valid r = true → tr_user_id r = jp_user_id p ∧ d' = d) ∧
  ∀ u, u ≠ jp_user_id p → GetSession d' u = GetSession d u.
Proof.
  intros Hne Hrun p. unfold ValidateToken in Hrun. rewrite decide_False in Hrun by done. fold p in Hrun.
  destruct (jp_valid p) eqn:Hv; cbn [negb] in Hrun; [|injection Hrun as <- <-; naive_solver].
  apply with_store_run in Hrun. munfold Hrun.
  destruct (GetSession d (jp_user_id p)) as [s|] eqn:Hs; [|simplify_eq; naive_solver].
  destruct (decide _) as [Hbad|Hgood].
  2: { apply Decidable.not_or in Hgood as [Ht%dec_stable Hx]. simplify_eq/=.
       split_and!; try done. split; [|done]. intros _. split; [done|]. exists s. split_and!; [done..|lia]. }
  destruct (RemoveSession _ d) as [[ok|] d1] eqn:Hr; simplify_eq. simpl.
  split_and!; [|done|].
  { split; [done|]. intros (_ & s' & ? & ? & ?). simplify_eq. destruct Hbad; [done|lia]. }
  intros u Hu.
  apply RemoveSession_spec in Hr as [(_ & Hget)|(_ & ->)]; [|done].
  by rewrite Hget, decide_False by naive_solver.
Qed.

(** validating a token that is still valid but is not the one of the current
    session (the token of an earlier session of the user) ends the current session: its
    holder is then refused, with his own token. *)
Theorem ValidateToken_old_token_logs_out e e2 old token s d r d' r2 (d2 : option db) :
  let p := JwtVerify (env_clock e 0) old secret in
  old ≠ "" → jp_valid p = true → GetSession d (jp_user_id p) = Some s → sd_token s = token →
  token ≠ old → jp_user_id (JwtVerify (env_clock e2 0) token secret) = jp_user_id p →
  ValidateToken secret e old (Some d) = (Ret r, Some d') →
  ValidateToken secret e2 token (Some d') = (Ret r2, d2) →
  tr_valid r = false ∧ (d' = d ∨ GetSession d' (jp_user_id p) = None ∧ tr_valid r2 = false).
Proof.
  intros p Hne Hv Hs Ht Hneq Hsame Hrun Hrun2. unfold ValidateToken in Hrun.
  rewrite decide_False in Hrun by done. fold p in Hrun. rewrite Hv in Hrun. cbn [negb] in Hrun.
  apply with_store_run in Hrun. munfold Hrun. rewrite Hs in Hrun.
  rewrite decide_True in Hrun by naive_solver.
  destruct (RemoveSession _ d) as [[ok|] d1] eqn:Hr; simplify_eq. split; [done|].
  apply RemoveSession_spec in Hr as [(_ & Hget)|(_ & ->)]; [right|by left].
  rewrite Hget, decide_True by done. split; [done|].
  unfold ValidateToken, mret, M_ret in Hrun2. case_decide; [by simplify_eq|].
  destruct (jp_valid (JwtVerify (env_clock e2 0) _ _)); cbn [negb] in Hrun2; [|by simplify_eq].
  rewrite Hsame in Hrun2. unfold with_store in Hrun2. munfold Hrun2.
  rewrite Hget, decide_True in Hrun2 by done. by simplify_eq.
Qed.

(** one session, whatever its age, locks the user to its device: [Login] from any
    other device is refused and changes nothing, also after the session
    and its token have expired. *)
Theorem Login_other_device_refused e u device ty d s : u ≠ "" → GetSession d u = Some s →
  sd_device_id s ≠ NormalizeDeviceId device →
  Login secret e u device ty (Some d) =
    (Ret (login_error "User already logged in on another device"), Some d).
Proof.
  intros Hu Hs Hdev. unfold Login, with_store, mbind, M_bind, reads. rewrite decide_False by done.
  by rewrite Hs, decide_True.
Qed.

(** [Logout] does not look at the token: whoever names the user ends his session.
    It reports success even when the session could not be removed. *)
Theorem Logout_any_token u token d r d' : Logout u token (Some d) = (r, Some d') →
  r = Ret {| lo_success := true; lo_error := "" |} ∧
  (d' = d ∨ ∀ u', GetSession d' u' = if decide (u = u') then None else GetSession d u').
Proof.
  intros Hrun. unfold Logout in Hrun. apply with_store_run in Hrun. munfold Hrun.
  destruct (GetSession d u); [|simplify_eq; by auto].
  destruct (RemoveSession u d) as [[ok|] d1] eqn:Hr; simplify_eq;
    apply RemoveSession_spec in Hr as [(? & Hget)|(? & ->)]; auto; done.
Qed.
End Properties.

(** * Concrete runs, over the in-memory database *)

(** A clock that stands at [z] during the call. *)
Definition at_time (z : Z) : Env := {| env_clock := λ _, z; env_rand := λ _, 0%N |}.
Notation login_a := (Login "k" (at_time 1700000000000) "u_1" "phone" "" (Some mem_empty)).
Definition token_a : string :=
  match fst login_a with Ret r => lr_token r | Exc => "" end.
Definition unwrap_db (s : option MemDB) : MemDB := default mem_empty s.
Notation db_a := (unwrap_db (snd login_a)).

(** A run whose answer is known and whose store is there. *)
Lemma some_run {A} (m : M (option MemDB) A) s r :
  fst (m s) = Ret r → bool_decide (is_Some (snd (m s))) = true →
  m s = (Ret r, Some (unwrap_db (snd (m s)))).
Proof.
  by destruct (m s) as [r' [d'|]]; simpl; intros ->.
Qed.

Lemma login_a_run : login_a = (Ret (login_ok token_a 1700604800000), Some db_a).
Proof. apply some_run; eval_eq. Qed.
Lemma mem_empty_session u : GetSession mem_empty u = None.
Proof. unfold GetSession. simpl. by rewrite lookup_empty. Qed.

Lemma Login_effect_witness : ∃ s, GetSession db_a "u_1" = Some s ∧ sd_token s = token_a ∧
  sd_device_id s = "phone" ∧ GetSession db_a "u_2" = None.
Proof.
  pose proof (Login_effect "k" (at_time 1700000000000) "u_1" "phone" "" mem_empty _ db_a
    ltac:(done) login_a_run) as [(s & Hs & Ht & _ & Hd) Ho].
  exists s. exact (conj Hs (conj Ht (conj Hd (eq_trans (Ho "u_2" ltac:(done)) (mem_empty_session _))))).
Defined.

Lemma Login_then_ValidateToken_witness :
  ValidateToken "k" (at_time 1700000001000) token_a (Some db_a) =
    (Ret {| tr_valid := true; tr_user_id := "u_1" |}, Some db_a).
Proof.
  apply (Login_then_ValidateToken "k" (at_time 1700000000000) "u_1" "phone" "" mem_empty
    (login_ok token_a 1700604800000) db_a (at_time 1700000001000) ltac:(done) (mem_empty_session _)
    login_a_run eq_refl); vm_compute; try reflexivity; discriminate.
Defined.

Notation validated := (ValidateToken "k" (at_time 1700604800000) token_a (Some db_a)).
Lemma ValidateToken_effect_witness :
  fst validated = Ret {| tr_valid := false; tr_user_id := "" |} ∧
  GetSession (unwrap_db (snd validated)) "u_1" = None ∧
  GetSession (unwrap_db (snd validated)) "u_2" = GetSession db_a "u_2".
Proof.
  assert (bool_decide (token_a = "") = false) as Hne by eval_eq. apply bool_decide_eq_false in Hne.
  assert (validated = (Ret {| tr_valid := false; tr_user_id := "" |}, Some (unwrap_db (snd validated))))
    as Hrun by (apply some_run; eval_eq).
  pose proof (ValidateToken_effect "k" (at_time 1700604800000) token_a db_a _ _ Hne Hrun)
    as (_ & _ & Ho).
  assert (jp_user_id (JwtVerify 1700604800000 token_a "k") = "u_1") as Hu by eval_eq.
  refine (conj (f_equal fst Hrun) (conj _ (Ho "u_2" _))); [eval_eq|].
  change (jp_user_id (JwtVerify (env_clock (at_time 1700604800000) 0) token_a "k"))
    with (jp_user_id (JwtVerify 1700604800000 token_a "k")). rewrite Hu. discriminate.
Defined.

(** The user logs out and in again. *)
Notation logged_out := (Logout "u_1" "" (Some db_a)).
Notation login_b := (Login "k" (at_time 1700000060000) "u_1" "phone" "" (snd logged_out)).
Definition token_b : string :=
  match fst login_b with Ret r => lr_token r | Exc => "" end.
Notation db_b := (unwrap_db (snd login_b)).
Notation validated_old := (ValidateToken "k" (at_time 1700000070000) token_a (Some db_b)).
Notation db_gone := (unwrap_db (snd validated_old)).
Notation validated_new := (ValidateToken "k" (at_time 1700000080000) token_b (Some db_gone)).

Lemma ValidateToken_old_token_logs_out_witness :
  fst (ValidateToken "k" (at_time 1700000070000) token_b (Some db_b)) =
    Ret {| tr_valid := true; tr_user_id := "u_1" |} ∧
  ∃ r2, fst validated_new = Ret r2 ∧ (db_gone = db_b ∨ tr_valid r2 = false).
Proof.
  assert (bool_decide (token_a = "") = false) as Hne by eval_eq.
  assert (jp_valid (JwtVerify 1700000070000 token_a "k") = true) as Hv by eval_eq.
  assert (sd_token <$> GetSession db_b (jp_user_id (JwtVerify 1700000070000 token_a "k")) = Some token_b)
    as Hs by eval_eq.
  assert (bool_decide (token_b = token_a) = false) as Hneq by eval_eq.
  assert (jp_user_id (JwtVerify 1700000080000 token_b "k") =
    jp_user_id (JwtVerify 1700000070000 token_a "k")) as Hsame by eval_eq.
  assert (validated_old = (Ret {| tr_valid := false; tr_user_id := "" |}, Some db_gone))
    as Hrun by (apply some_run; eval_eq).
  assert (validated_new = (Ret {| tr_valid := false; tr_user_id := "" |}, snd validated_new))
    as Hrun2 by eval_run.
  split; [eval_eq|]. eexists. split; [exact (f_equal fst Hrun2)|].
  apply bool_decide_eq_false in Hne, Hneq. apply fmap_Some in Hs as (s & Hs & Hst).
  pose proof (ValidateToken_old_token_logs_out "k" (at_time 1700000070000) (at_time 1700000080000)
    token_a token_b s db_b _ db_gone _ _ Hne Hv Hs (eq_sym Hst) Hneq Hsame Hrun Hrun2) as [_ [Ho|[_ Ho]]];
    [left; exact Ho|right; exact Ho].
Defined.

(** Ten years later the session still keeps other devices out. *)
Lemma Login_other_device_refused_witness :
  Login "k" (at_time 2020000000000) "u_1" "laptop" "" (Some db_a) =
    (Ret (login_error "User already logged in on another device"), Some db_a).
Proof.
  assert (sd_device_id <$> GetSession db_a "u_1" = Some "phone") as Hs by eval_eq.
  apply fmap_Some in Hs as (s & Hs & Hd).
  apply (Login_other_device_refused "k" (at_time 2020000000000) "u_1" "laptop" "" db_a s ltac:(discriminate) Hs).
  rewrite <-Hd. discriminate.
Defined.

Lemma Logout_any_token_witness : fst (Logout "u_1" "not the token" (Some db_a)) =
    Ret {| lo_success := true; lo_error := "" |} ∧
  GetSession (unwrap_db (snd (Logout "u_1" "not the token" (Some db_a)))) "u_1" = None.
Proof.
  assert (Logout "u_1" "not the token" (Some db_a) = (Ret {| lo_success := true; lo_error := "" |},
    Some (unwrap_db (snd (Logout "u_1" "not the token" (Some db_a)))))) as Hrun
    by (apply some_run; eval_eq).
  pose proof (Logout_any_token "u_1" "not the token" db_a _ _ Hrun) as [_ Ho].
  refine (conj (f_equal fst Hrun) _). eval_eq.
Defined.
