(* ===== verification/UserStore.v ===== *)
(** [authsvr/internal/store/user_store.{h,cpp}]: the accounts, by user id and by
    user name, in one RocksDB database. *)

From S2P Require Import Prelude External Utils.

(** * Data *)

(** [struct UserData] *)
Record UserData : Type := {
  ud_user_id : string;
  ud_username : string;
  ud_password_hash : string;
  ud_nickname : string;
  ud_avatar_url : string;
  ud_signature : string;
  ud_gender : Z;          (* int *)
  ud_created_at : Z;      (* int64_t *)
  ud_updated_at : Z;      (* int64_t *)
}.
#[global] Instance UserData_eq_dec : EqDecision UserData.
Proof. solve_decision. Defined.

Section UserStore.
Context {db : Type} `{!RocksDB db} `{!JsonLib}.
Implicit Types d : db.

Definition SerializeUser (user : UserData) : option string :=
  js_dump (js_obj [
    ("user_id", JStr (ud_user_id user));
    ("username", JStr (ud_username user));
    ("password_hash", JStr (ud_password_hash user));
    ("nickname", JStr (ud_nickname user));
    ("avatar_url", JStr (ud_avatar_url user));
    ("signature", JStr (ud_signature user));
    ("gender", JInt (ud_gender user));
    ("created_at", JInt (ud_created_at user));
    ("updated_at", JInt (ud_updated_at user))]).

(** The defaults of the times are the [int] 0. *)
Definition DeserializeUser (data : string) : option UserData :=
  j ← js_parse data;
  user_id ← js_str j "user_id" "";
  username ← js_str j "username" "";
  password_hash ← js_str j "password_hash" "";
  nickname ← js_str j "nickname" "";
  avatar_url ← js_str j "avatar_url" "";
  signature ← js_str j "signature" "";
  gender ← js_int32 j "gender" 0;
  created_at ← js_int32 j "created_at" 0;
  updated_at ← js_int32 j "updated_at" 0;
  Some {| ud_user_id := user_id; ud_username := username; ud_password_hash := password_hash;
          ud_nickname := nickname; ud_avatar_url := avatar_url; ud_signature := signature;
          ud_gender := gender; ud_created_at := created_at; ud_updated_at := updated_at |}.

Definition KEY_PREFIX_USER : string := "user:".
Definition KEY_PREFIX_USERNAME : string := "username:".

Definition RocksDBUserStore (DB_Open : string → option db) (db_path : string) : outcome db :=
  match DB_Open db_path with Some d => Ret d | None => Exc end.

Definition UsernameExists (d : db) (username : string) : bool :=
  if decide (username = "") then false
  else bool_decide (is_Some (db_Get d (KEY_PREFIX_USERNAME +:+ username))).

Definition Create (user : UserData) : M db bool :=
  exists_ ← reads (λ d, UsernameExists d (ud_username user));
  if (exists_ : bool) then mret false else
  value ← or_throw (SerializeUser user);
  kv_write [WPut (KEY_PREFIX_USER +:+ ud_user_id user) value;
            WPut (KEY_PREFIX_USERNAME +:+ ud_username user) (ud_user_id user)].

Definition GetById (d : db) (user_id : string) : option UserData :=
  if decide (user_id = "") then None else
  value ← db_Get d (KEY_PREFIX_USER +:+ user_id);
  DeserializeUser value.

Definition GetByUsername (d : db) (username : string) : option UserData :=
  if decide (username = "") then None else
  user_id ← db_Get d (KEY_PREFIX_USERNAME +:+ username);
  GetById d user_id.

Definition Update (user : UserData) : M db bool :=
  if decide (ud_user_id user = "") then mret false else
  existing ← reads (λ d, GetById d (ud_user_id user));
  match existing with
  | None => mret false
  | Some existing =>
      taken ← reads (λ d, UsernameExists d (ud_username user));
      let renamed := bool_decide (ud_username existing ≠ ud_username user) in
      if renamed && taken then mret false else
      let batch :=
        if renamed then [WDelete (KEY_PREFIX_USERNAME +:+ ud_username existing);
                         WPut (KEY_PREFIX_USERNAME +:+ ud_username user) (ud_user_id user)]
        else [] in
      value ← or_throw (SerializeUser user);
      kv_write (batch ++ [WPut (KEY_PREFIX_USER +:+ ud_user_id user) value])
  end.

(** [haystack.find(key) != npos] *)
Definition user_matches (key : string) (user : UserData) : bool :=
  bool_decide (is_Some (str_find key
    (str_map tolower (ud_user_id user +:+ " " +:+ ud_username user +:+ " " +:+ ud_nickname user)))).

(** The loop over the entries, with the users found so far. *)
Fixpoint search_loop (key : string) (limit : Z) (l : list (string * string))
    (result : list UserData) : list UserData :=
  match l with
  | [] => result
  | (_, value) :: l' =>
      if decide (Z.of_nat (length result) < limit) then
        search_loop key limit l'
          match DeserializeUser value with
          | Some user => if user_matches key user then result ++ [user] else result
          | None => result
          end
      else result
  end.

Definition SearchUsers (d : db) (keyword : string) (limit : Z) : list UserData :=
  if decide (keyword = "" ∨ limit ≤ 0) then [] else
  search_loop (str_map tolower keyword) limit (db_scan d KEY_PREFIX_USER) [].
End UserStore.

(** * Keys *)

Inductive UKey : Type := UUser (id : string) | UName (username : string).
#[global] Instance UKey_eq_dec : EqDecision UKey.
Proof. solve_decision. Defined.
#[global] Program Instance UKey_space : KeySpace UKey := {|
  key_str k := match k with UUser id => KEY_PREFIX_USER +:+ id
                          | UName n => KEY_PREFIX_USERNAME +:+ n end;
  key_ok k := True;
|}.
Next Obligation.
  unfold KEY_PREFIX_USER, KEY_PREFIX_USERNAME.
  intros [a|a] [b|b] _; simpl; intros [= ->]; done.
Qed.

(** * The abstract store *)

Record umodel : Type := {
  users : gmap string UserData;      (* by user id *)
  names : gmap string string;        (* user name to user id *)
}.

(** What the JSON text keeps: the times are cut to 32 bits. *)
Definition ud_stored (u : UserData) : UserData :=
  {| ud_user_id := ud_user_id u; ud_username := ud_username u;
     ud_password_hash := ud_password_hash u; ud_nickname := ud_nickname u;
     ud_avatar_url := ud_avatar_url u; ud_signature := ud_signature u; ud_gender := ud_gender u;
     ud_created_at := wrap32 (ud_created_at u); ud_updated_at := wrap32 (ud_updated_at u) |}.

Definition a_Create (u : UserData) (M : umodel) : option umodel :=
  match names M !! ud_username u with
  | Some _ => None
  | None => Some {| users := <[ud_user_id u := ud_stored u]> (users M);
                    names := <[ud_username u := ud_user_id u]> (names M) |}
  end.
Definition a_Update (u : UserData) (M : umodel) : option umodel :=
  existing ← users M !! ud_user_id u;
  let put := <[ud_user_id u := ud_stored u]> (users M) in
  if decide (ud_username existing = ud_username u) then Some {| users := put; names := names M |} else
  match names M !! ud_username u with
  | Some _ => None
  | None => Some {| users := put; names := <[ud_username u := ud_user_id u]>
                                             (delete (ud_username existing) (names M)) |}
  end.

Section Rep.
Context {db : Type} `{!RocksDB db} `{!RocksDBLaws db} `{!JsonLib} `{!JsonLaws}.
Implicit Types d : db.

(** What the database holds at each key; every user has an id and a name. *)
Record user_rep (d : db) (M : umodel) : Prop := {
  ur_closed : keys_closed (K:=UKey) d;
  ur_user id : option_Forall2 (λ v u, DeserializeUser v = Some u ∧ ud_user_id u = id)
                 (kget d (UUser id)) (users M !! id);
  ur_name n : kget d (UName n) = names M !! n;
  ur_noname : names M !! "" = None;
}.

Lemma DeserializeUser_Serialize u v : int32_range (ud_gender u) →
  SerializeUser u = Some v → DeserializeUser v = Some (ud_stored u).
Proof.
  intros Hg Hv. unfold SerializeUser, DeserializeUser in *.
  apply js_parse_dump in Hv. rewrite Hv. js_simp. by rewrite (wrap32_id (ud_gender u)).
Qed.
Lemma DeserializeUser_stored v u : DeserializeUser v = Some u →
  ud_stored u = u ∧ int32_range (ud_gender u).
Proof.
  unfold DeserializeUser, js_int32. intros Hd. simplify_option_eq.
  unfold ud_stored. simpl. rewrite !wrap32_idemp. split; [done|apply wrap32_range].
Qed.

Lemma user_key d M id : user_rep d M →
  db_Get d (KEY_PREFIX_USER +:+ id) = None ∧ users M !! id = None ∨
  ∃ v u, db_Get d (KEY_PREFIX_USER +:+ id) = Some v ∧ users M !! id = Some u ∧
    DeserializeUser v = Some u ∧ ud_user_id u = id.
Proof.
  intros Hr. pose proof (ur_user _ _ Hr id) as Hu. unfold kget in Hu. simpl in Hu.
  inversion Hu as [v u [? ?] Hk Hm|Hk Hm]; [right|left]; eauto 6.
Qed.
Lemma name_key d M n : user_rep d M → db_Get d (KEY_PREFIX_USERNAME +:+ n) = names M !! n.
Proof. intros Hr. exact (ur_name _ _ Hr n). Qed.

Lemma UsernameExists_rep d M n : user_rep d M →
  UsernameExists d n = bool_decide (is_Some (names M !! n)).
Proof.
  intros Hr. unfold UsernameExists. rewrite (name_key _ _ _ Hr). case_decide; [|done].
  subst. by rewrite (ur_noname _ _ Hr).
Qed.
Lemma UserStore_GetById_rep d M id : user_rep d M → id ≠ "" → GetById d id = users M !! id.
Proof.
  intros Hr Hid. unfold GetById. rewrite decide_False by done.
  by destruct (user_key d M id Hr) as [[-> ->]|(v & u & -> & -> & Hd & _)].
Qed.
Lemma GetByUsername_rep d M n : user_rep d M →
  GetByUsername d n = id ← names M !! n; if decide (id = "") then None else users M !! id.
Proof.
  intros Hr. unfold GetByUsername. rewrite (name_key _ _ _ Hr). case_decide as Hn.
  { subst. by rewrite (ur_noname _ _ Hr). }
  destruct (names M !! n) as [id|]; simpl; [|done]. case_decide; subst; [done|].
  by apply UserStore_GetById_rep.
Qed.

Lemma user_rep_write d d' M M' (b : list (KOp UKey)) :
  user_rep d M → db_Write d (kop_op <$> b) = Some d' →
  (∀ id, option_Forall2 (λ v u, DeserializeUser v = Some u ∧ ud_user_id u = id)
     (kbatch_get b (UUser id) (kget d (UUser id))) (users M' !! id)) →
  (∀ n, kbatch_get b (UName n) (kget d (UName n)) = names M' !! n) →
  names M' !! "" = None → user_rep d' M'.
Proof.
  intros [Hc _ _ _] Hw Hu Hn He.
  assert (Forall (λ op, key_ok (kop_key op)) b) as Hb by (by apply Forall_forall).
  split; [by eapply keys_closed_write| | |done].
  - intros id. by rewrite (kget_write _ _ _ _ Hb Hw).
  - intros n. by rewrite (kget_write _ _ _ _ Hb Hw).
Qed.

Lemma user_rep_empty d : (∀ k, db_Get d k = None) → user_rep d {| users := ∅; names := ∅ |}.
Proof.
  intros He. split; simpl.
  - intros s v. by rewrite He.
  - intros id. unfold kget. rewrite He, lookup_empty. constructor.
  - intros n. unfold kget. by rewrite He, lookup_empty.
  - apply lookup_empty.
Qed.

Lemma Create_refines u : ud_username u ≠ "" → int32_range (ud_gender u) →
  refines user_rep (Create u) (a_Create u).
Proof.
  intros Hn Hg d M r d' Hr Hop. unfold Create, a_Create in *. munfold Hop.
  rewrite (UsernameExists_rep _ _ _ Hr) in Hop.
  destruct (names M !! ud_username u) as [id|] eqn:Hname.
  { rewrite bool_decide_true in Hop by eauto. injection Hop as <- <-. by split. }
  rewrite bool_decide_false in Hop by (by intros []%is_Some_None).
  destruct (SerializeUser u) as [v|] eqn:Hv; munfold Hop; [|injection Hop as <- <-; by split].
  unfold kv_write, kv_commit in Hop.
  destruct (db_Write d _) as [d1|] eqn:Hwr; injection Hop as <- <-; split; try done.
  eexists; split; [done|]. apply DeserializeUser_Serialize in Hv; [|done].
  apply (user_rep_write d d1 M _ [KPut (UUser (ud_user_id u)) v; KPut (UName (ud_username u)) (ud_user_id u)]);
    [done|done|..]; simpl.
  - intros id. rewrite lookup_insert. pose proof (ur_user _ _ Hr id) as Hid.
    repeat case_decide; simplify_eq; try done. by constructor.
  - intros n. rewrite lookup_insert. pose proof (ur_name _ _ Hr n) as Hid.
    repeat case_decide; by simplify_eq.
  - rewrite lookup_insert_ne by done. apply Hr.
Qed.

Lemma Update_refines u : ud_username u ≠ "" → int32_range (ud_gender u) →
  refines user_rep (Update u) (a_Update u).
Proof.
  intros Hn Hg d M r d' Hr Hop. unfold Update, a_Update in *. munfold Hop.
  destruct (decide (ud_user_id u = "")) as [Hid|Hid]; [injection Hop as <- <-; by split|].
  rewrite (UserStore_GetById_rep _ _ _ Hr Hid) in Hop.
  destruct (users M !! ud_user_id u) as [x|] eqn:Hx; [|injection Hop as <- <-; by split].
  rewrite (UsernameExists_rep _ _ _ Hr) in Hop. cbn [mbind option_bind].
  destruct (decide (ud_username x = ud_username u)) as [Hsame|Hren].
  - rewrite (bool_decide_false (_ ≠ _)) in Hop by naive_solver. cbn [andb app] in Hop.
    destruct (SerializeUser u) as [v|] eqn:Hv; munfold Hop; [|injection Hop as <- <-; by split].
    unfold kv_write, kv_commit in Hop.
    destruct (db_Write d _) as [d1|] eqn:Hwr; injection Hop as <- <-; split; try done.
    eexists; split; [done|]. apply DeserializeUser_Serialize in Hv; [|done].
    apply (user_rep_write d d1 M _ [KPut (UUser (ud_user_id u)) v]); [done|done|..]; simpl.
    + intros id. rewrite lookup_insert. pose proof (ur_user _ _ Hr id).
      repeat case_decide; simplify_eq; try done. by constructor.
    + apply Hr.
    + apply Hr.
  - rewrite (bool_decide_true (_ ≠ _)) in Hop by done. cbn [andb] in Hop.
    destruct (names M !! ud_username u) as [y|] eqn:Hy.
    { rewrite bool_decide_true in Hop by eauto. injection Hop as <- <-. by split. }
    rewrite bool_decide_false in Hop by (by intros []%is_Some_None).
    destruct (SerializeUser u) as [v|] eqn:Hv; munfold Hop; [|injection Hop as <- <-; by split].
    unfold kv_write, kv_commit in Hop.
    destruct (db_Write d _) as [d1|] eqn:Hwr; injection Hop as <- <-; split; try done.
    eexists; split; [done|]. apply DeserializeUser_Serialize in Hv; [|done].
    apply (user_rep_write d d1 M _ [KDel (UName (ud_username x));
      KPut (UName (ud_username u)) (ud_user_id u); KPut (UUser (ud_user_id u)) v]);
      [done|done|..]; simpl.
    + intros id. rewrite lookup_insert. pose proof (ur_user _ _ Hr id).
      repeat case_decide; simplify_eq; try done. by constructor.
    + intros n. rewrite lookup_insert, lookup_delete. pose proof (ur_name _ _ Hr n).
      repeat case_decide; by simplify_eq.
    + rewrite lookup_insert_ne, lookup_delete by done. case_decide; [done|]. apply Hr.
Qed.

(** ** Searching *)

(** The users of the database, in the order of their keys. *)
Definition all_users (d : db) : list UserData :=
  omap (λ e, DeserializeUser e.2) (db_scan d KEY_PREFIX_USER).

Lemma search_loop_spec key limit l : ∀ result, Z.of_nat (length result) ≤ limit →
  search_loop key limit l result =
    result ++ take (Z.to_nat limit - length result)
                (filter (λ u, user_matches key u = true) (omap (λ e, DeserializeUser e.2) l)).
Proof.
  induction l as [|[k v] l IH]; intros result Hlen; cbn [search_loop].
  - simpl. rewrite filter_nil. by destruct (_ - _)%nat; rewrite app_nil_r.
  - destruct (decide (Z.of_nat (length result) < limit)) as [Hlt|Hge].
    + csimpl. destruct (DeserializeUser v) as [u|]; [|by apply IH].
      rewrite filter_cons. destruct (user_matches key u) eqn:Hm.
      * rewrite decide_True by done. rewrite IH by (rewrite length_app; simpl; lia).
        rewrite length_app, <-app_assoc. simpl.
        replace (Z.to_nat limit - length result)%nat with (S (Z.to_nat limit - (length result + 1))) by lia.
        done.
      * rewrite decide_False by done. by apply IH.
    + replace (Z.to_nat limit - length result)%nat with 0%nat by lia. by rewrite take_0, app_nil_r.
Qed.

Lemma SearchUsers_spec d keyword limit : keyword ≠ "" → 0 < limit →
  SearchUsers d keyword limit =
    take (Z.to_nat limit)
      (filter (λ u, user_matches (str_map tolower keyword) u = true) (all_users d)).
Proof.
  intros Hk Hl. unfold SearchUsers. rewrite decide_False by (intros [?|?]; [done|lia]).
  rewrite search_loop_spec by (simpl; lia). simpl. by rewrite Nat.sub_0_r.
Qed.

Lemma all_users_elem d M u : user_rep d M →
  u ∈ all_users d ↔ users M !! ud_user_id u = Some u.
Proof.
  intros Hr. unfold all_users. rewrite list_elem_of_omap. split.
  - intros [[k v] [Hin Hd]]. apply db_scan_elem in Hin as [Hget [t ->]%prefix_iff].
    destruct (user_key d M t Hr) as [[? _]|(v' & x & Hk & Hx & Hd' & Hid)]; [congruence|].
    simplify_eq. by simplify_eq/=.
  - intros Hu. destruct (user_key d M (ud_user_id u) Hr) as [[_ ?]|(v & x & Hk & Hx & Hd & _)];
      [congruence|]. simplify_eq. exists (KEY_PREFIX_USER +:+ ud_user_id u, v).
    split; [|done]. apply db_scan_elem. split; [done|apply prefix_app].
Qed.
Lemma all_users_nodup d M : user_rep d M → NoDup (all_users d).
Proof.
  intros Hr. unfold all_users. apply NoDup_omap_strong.
  - intros [k1 v1] [k2 v2] u H1 H2. simpl. intros Hd1 Hd2.
    apply db_scan_elem in H1 as [Hg1 [t1 ->]%prefix_iff], H2 as [Hg2 [t2 ->]%prefix_iff].
    destruct (user_key d M t1 Hr) as [[? _]|(w1 & x1 & Hk1 & _ & Hx1 & Hi1)]; [congruence|].
    destruct (user_key d M t2 Hr) as [[? _]|(w2 & x2 & Hk2 & _ & Hx2 & Hi2)]; [congruence|].
    congruence.
  - eapply NoDup_fmap_1, (db_scan_nodup d).
Qed.
End Rep.
