(* ===== verification/AuthService.v ===== *)
(** [authsvr/internal/service/auth_service.{h,cpp}]: registration, credentials and
    profiles, over the user store. *)

From Stdlib Require Import Ascii.
From S2P Require Import Prelude External Errors Utils UserStore.

Definition kPasswordSalt : string := "swift_salt_2026".

Definition ValidateUsername (username : string) : bool :=
  if decide (str_size username < 3 ∨ 32 < str_size username)%nat then false
  else str_all (λ c, isalnum c || bool_decide (c = "_"%char)) username.

Definition ValidatePassword (password : string) : bool := bool_decide (8 ≤ str_size password)%nat.

(** [struct AuthProfile] *)
Record AuthProfile : Type := {
  ap_user_id : string;
  ap_username : string;
  ap_nickname : string;
  ap_avatar_url : string;
  ap_signature : string;
  ap_gender : Z;
  ap_created_at : Z;
}.
#[global] Instance AuthProfile_eq_dec : EqDecision AuthProfile.
Proof. solve_decision. Defined.

Record RegisterResult : Type := {
  rg_success : bool; rg_user_id : string; rg_error : string; rg_error_code : ErrorCode }.
Record VerifyCredentialsResult : Type := {
  vc_success : bool; vc_user_id : string; vc_profile : option AuthProfile; vc_error : string;
  vc_error_code : ErrorCode }.
Record UpdateProfileResult : Type := {
  up_success : bool; up_error : string; up_error_code : ErrorCode }.
#[global] Instance VerifyCredentialsResult_eq_dec : EqDecision VerifyCredentialsResult.
Proof. solve_decision. Defined.

Definition ToProfile (user : UserData) : AuthProfile :=
  {| ap_user_id := ud_user_id user; ap_username := ud_username user;
     ap_nickname := ud_nickname user; ap_avatar_url := ud_avatar_url user;
     ap_signature := ud_signature user; ap_gender := ud_gender user;
     ap_created_at := ud_created_at user |}.

Definition GenerateUserId (e : Env) : string := GenerateShortId (env_rand e) "u_" 12.

Section AuthService.
Context {db : Type} `{!RocksDB db} `{!JsonLib} `{!OpenSSL}.
Implicit Types d : db.

Definition HashPassword (password : string) : string := SHA256 (password +:+ kPasswordSalt).
Definition VerifyPassword (password hash : string) : bool := bool_decide (HashPassword password = hash).

Definition new_user (e : Env) (username password nickname avatar_url : string) : UserData :=
  let now := env_clock e 0 in
  {| ud_user_id := GenerateUserId e; ud_username := username;
     ud_password_hash := HashPassword password;
     ud_nickname := if decide (nickname = "") then username else nickname;
     ud_avatar_url := avatar_url; ud_signature := ""; ud_gender := 0;
     ud_created_at := now; ud_updated_at := now |}.

Definition Register (e : Env) (username password nickname email avatar_url : string)
    : M db RegisterResult :=
  let fail error code :=
    {| rg_success := false; rg_user_id := ""; rg_error := error; rg_error_code := code |} in
  if negb (ValidateUsername username) then
    mret (fail "Username must be 3-32 chars, alphanumeric and underscore" USERNAME_INVALID) else
  if negb (ValidatePassword password) then
    mret (fail "Password must be at least 6 characters" PASSWORD_TOO_WEAK) else
  taken ← reads (λ d, UsernameExists d username);
  if (taken : bool) then mret (fail "Username already exists" USER_ALREADY_EXISTS) else
  let user := new_user e username password nickname avatar_url in
  ok ← Create user;
  mret (if (ok : bool)
        then {| rg_success := true; rg_user_id := ud_user_id user; rg_error := "";
                rg_error_code := OK |}
        else fail "Failed to create user" ROCKSDB_ERROR).

Definition VerifyCredentials (d : db) (username password : string) : VerifyCredentialsResult :=
  let fail error code :=
    {| vc_success := false; vc_user_id := ""; vc_profile := None; vc_error := error;
       vc_error_code := code |} in
  match GetByUsername d username with
  | None => fail "User not found" USER_NOT_FOUND
  | Some user =>
      if negb (VerifyPassword password (ud_password_hash user))
      then fail "Wrong password" PASSWORD_WRONG
      else {| vc_success := true; vc_user_id := ud_user_id user;
              vc_profile := Some (ToProfile user); vc_error := ""; vc_error_code := OK |}
  end.

Definition GetProfile (d : db) (user_id : string) : option AuthProfile :=
  ToProfile <$> GetById d user_id.

(** An empty string leaves the field as it is. *)
Definition profile_changes (now : Z) (nickname avatar_url signature : string) (user : UserData)
    : UserData :=
  {| ud_user_id := ud_user_id user; ud_username := ud_username user;
     ud_password_hash := ud_password_hash user;
     ud_nickname := if decide (nickname = "") then ud_nickname user else nickname;
     ud_avatar_url := if decide (avatar_url = "") then ud_avatar_url user else avatar_url;
     ud_signature := if decide (signature = "") then ud_signature user else signature;
     ud_gender := ud_gender user; ud_created_at := ud_created_at user; ud_updated_at := now |}.

Definition UpdateProfile (e : Env) (user_id nickname avatar_url signature : string)
    : M db UpdateProfileResult :=
  user ← reads (λ d, GetById d user_id);
  match user with
  | None => mret {| up_success := false; up_error := "User not found";
                    up_error_code := USER_NOT_FOUND |}
  | Some user =>
      ok ← Update (profile_changes (env_clock e 0) nickname avatar_url signature user);
      mret (if (ok : bool) then {| up_success := true; up_error := ""; up_error_code := OK |}
            else {| up_success := false; up_error := "Failed to update profile";
                    up_error_code := ROCKSDB_ERROR |})
  end.

Definition SearchUsers (d : db) (keyword : string) (limit : Z) : list AuthProfile :=
  if decide (keyword = "") then [] else
  let capped_limit := if decide (limit ≤ 0) then 20 else Z.min limit 100 in
  ToProfile <$> UserStore.SearchUsers d keyword capped_limit.
End AuthService.

(** * Facts *)

(** Every account is kept under its id and found under its user name, and a user name leads to an account. *)
Record ainv (M : umodel) : Prop := {
  ai_name n id : names M !! n = Some id → id ≠ "" ∧ is_Some (users M !! id);
  ai_user id u : users M !! id = Some u → ud_user_id u = id ∧ names M !! ud_username u = Some id;
}.
(** A user name leads to the account with that name. *)
Definition exact (M : umodel) : Prop :=
  ∀ n id u, names M !! n = Some id → users M !! id = Some u → ud_username u = n.

Lemma ainv_empty : ainv {| users := ∅; names := ∅ |}.
Proof. split; simpl; intros ??; by rewrite lookup_empty. Qed.
Lemma exact_empty : exact {| users := ∅; names := ∅ |}.
Proof. intros n id u. simpl. by rewrite lookup_empty. Qed.

Lemma ValidateUsername_ne n : ValidateUsername n = true → n ≠ "".
Proof. unfold ValidateUsername. case_decide as Hd; [done|]. intros _ ->. apply Hd. left. unfold str_size. simpl. lia. Qed.

Lemma GenerateUserId_ne e : GenerateUserId e ≠ "".
Proof. unfold GenerateUserId, GenerateShortId. by intros [? _]%str_app_empty. Qed.

(** A new account, and one whose id was unused. *)
Lemma ainv_Create u M M' : ainv M → ud_user_id u ≠ "" → a_Create u M = Some M' →
  ainv M' ∧ (users M !! ud_user_id u = None → exact M → exact M').
Proof.
  intros [Hn Hu] Hid Ha. unfold a_Create in Ha.
  destruct (names M !! ud_username u) eqn:Hname; simplify_eq. split; [split; simpl|].
  - intros n id [[<- <-]|[? Hni]]%lookup_insert_Some; rewrite lookup_insert_is_Some; [by auto|].
    destruct (Hn _ _ Hni). split; [done|]. destruct (decide (ud_user_id u = id)); auto.
  - intros id x [[<- <-]|[? Hx]]%lookup_insert_Some; simpl.
    + by rewrite lookup_insert_eq.
    + destruct (Hu _ _ Hx) as [? Hxn]. split; [done|]. rewrite lookup_insert_ne; [done|]. congruence.
  - intros Hfree He n id x. simpl. intros [[<- <-]|[? Hni]]%lookup_insert_Some.
    + rewrite lookup_insert_eq. by intros [= <-].
    + destruct (Hn _ _ Hni) as (_ & y & Hy). rewrite lookup_insert_ne by congruence. by apply He.
Qed.

(** An account whose id and user name stay. *)
Lemma ainv_Update u x M M' : ainv M → users M !! ud_user_id u = Some x → ud_username x = ud_username u →
  a_Update u M = Some M' → ainv M' ∧ (exact M → exact M') ∧ names M' = names M ∧
    users M' = <[ud_user_id u := ud_stored u]> (users M).
Proof.
  intros [Hn Hu] Hx Hname Ha. unfold a_Update in Ha. rewrite Hx in Ha. simpl in Ha.
  rewrite decide_True in Ha by done. simplify_eq. split_and!; [split; simpl| |done..].
  - intros n id Hni. destruct (Hn _ _ Hni). split; [done|]. rewrite lookup_insert_is_Some.
    destruct (decide (ud_user_id u = id)); auto.
  - intros id y [[<- <-]|[? Hy]]%lookup_insert_Some; [|by apply Hu].
    simpl. split; [done|]. rewrite <-Hname. by apply Hu.
  - intros He n id y Hni. simpl. intros [[<- <-]|[? Hy]]%lookup_insert_Some; [|by eapply He].
    simpl. rewrite <-Hname. by eapply He.
Qed.

(** * Properties *)

Section Properties.
Context {db : Type} `{!RocksDB db} `{!RocksDBLaws db} `{!JsonLib} `{!JsonLaws} `{!OpenSSL}.
Implicit Types d : db.

Lemma new_user_refines e n p nick av : ValidateUsername n = true →
  refines user_rep (Create (new_user e n p nick av)) (a_Create (new_user e n p nick av)).
Proof. intros Hn. apply Create_refines; [by apply ValidateUsername_ne|done]. Qed.

(** The code [Register] answers, given whether the write went through. *)
Definition register_code (M : umodel) (n p : string) (written : bool) : ErrorCode :=
  if ValidateUsername n then
    if decide (8 ≤ str_size p)%nat then
      if decide (is_Some (names M !! n)) then USER_ALREADY_EXISTS
      else if written then OK else ROCKSDB_ERROR
    else PASSWORD_TOO_WEAK
  else USERNAME_INVALID.

(** C40: [Register], on every branch: the error code is the one of the first rule
    that is broken (user name, password, name taken, failed write), and the accounts are
    then as they were; it succeeds only when no rule is broken, and then
    the new account is put under the generated id, in place of the account with that id if there is one
    (the code does not check, [user_store.cpp:109]), its user name leads to it, and nothing else changes.  The
    rule for the password is that of the code, at least 8 characters; the comment at [auth_service.cpp:34] and the
    text of the error say 6. *)
Theorem Register_effect e n p nick email av d M r d' : user_rep d M →
  Register e n p nick email av d = (r, d') →
  match r with
  | Ret res => rg_error_code res = register_code M n p (rg_success res) ∧
      if rg_success res then
        rg_user_id res = GenerateUserId e ∧ rg_error_code res = OK ∧ ∃ M', user_rep d' M' ∧
          users M' = <[GenerateUserId e := ud_stored (new_user e n p nick av)]> (users M) ∧
          names M' = <[n := GenerateUserId e]> (names M)
      else user_rep d' M
  | Exc => user_rep d' M
  end.
Proof.
  intros Hr Hrun. unfold Register, register_code in *.
  destruct (ValidateUsername n) eqn:Hn; cbn [negb] in Hrun; [|by munfold Hrun; simplify_eq].
  unfold ValidatePassword in Hrun.
  destruct (decide (8 ≤ str_size p)%nat) as [Hp|Hp];
    [rewrite bool_decide_true in Hrun by done|rewrite bool_decide_false in Hrun by done];
    cbn [negb] in Hrun; [|by munfold Hrun; simplify_eq].
  munfold Hrun. rewrite (UsernameExists_rep _ _ _ Hr) in Hrun.
  destruct (decide (is_Some (names M !! n))) as [Hn'|Hn'];
    [rewrite bool_decide_true in Hrun by done; by simplify_eq|].
  rewrite bool_decide_false in Hrun by done.
  destruct (Create _ d) as [o d1] eqn:Hc.
  destruct (new_user_refines e n p nick av Hn _ _ _ _ Hr Hc) as [Hres Hnone].
  destruct o as [[]|]; simplify_eq; simpl; [|done..].
  destruct Hres as (M' & Ha & Hr'). split; [done|]. split; [done|]. split; [done|].
  exists M'. split; [done|]. unfold a_Create in Ha. simpl in Ha.
  by destruct (names M !! n); simplify_eq.
Qed.

(** C32: after a registration that succeeded, [VerifyCredentials] with that user name
    accepts exactly the passwords with the registered hash, so the registered
    password, answering the new user id and the registered profile; any
    other password is answered "wrong password". *)
Theorem Register_then_VerifyCredentials e n p nick email av d M res d' q : user_rep d M →
  Register e n p nick email av d = (Ret res, d') → rg_success res = true →
  let r := VerifyCredentials d' n q in
  if decide (HashPassword q = HashPassword p) then
    vc_success r = true ∧ vc_user_id r = rg_user_id res ∧
    vc_profile r = Some (ToProfile (ud_stored (new_user e n p nick av))) ∧ vc_error_code r = OK
  else vc_success r = false ∧ vc_user_id r = "" ∧ vc_profile r = None ∧
    vc_error_code r = PASSWORD_WRONG.
Proof.
  intros Hr Hrun Hok. unfold Register in Hrun.
  destruct (ValidateUsername n) eqn:Hn; cbn [negb] in Hrun; [|by munfold Hrun; simplify_eq].
  destruct (ValidatePassword p); cbn [negb] in Hrun; [|by munfold Hrun; simplify_eq].
  munfold Hrun. destruct (UsernameExists d n); [by simplify_eq|].
  destruct (Create _ d) as [[[]|] d1] eqn:Hc; simplify_eq; try done.
  destruct (refines_true _ _ _ _ _ _ (new_user_refines e n p nick av Hn) Hr Hc) as (M' & Ha & Hr').
  unfold a_Create in Ha. simpl in Ha. destruct (names M !! n); simplify_eq.
  assert (GetByUsername d' n = Some (ud_stored (new_user e n p nick av))) as Hg.
  { rewrite (GetByUsername_rep _ _ _ Hr'). simpl. rewrite lookup_insert_eq. simpl.
    apply lookup_insert_eq. }
  unfold VerifyCredentials, VerifyPassword. rewrite Hg. simpl.
  by destruct (decide (HashPassword q = HashPassword p));
    [rewrite bool_decide_true|rewrite bool_decide_false].
Qed.

Lemma UpdateProfile_run e u nick av sg d M r d' : user_rep d M → ainv M →
  UpdateProfile e u nick av sg d = (r, d') →
  (user_rep d' M ∧ ∀ res, r = Ret res → up_success res = false) ∨
  ∃ x, users M !! u = Some x ∧ r = Ret {| up_success := true; up_error := ""; up_error_code := OK |} ∧
    let y := ud_stored (profile_changes (env_clock e 0) nick av sg x) in
    let M' := {| users := <[u := y]> (users M); names := names M |} in
    user_rep d' M' ∧ ainv M' ∧ (exact M → exact M').
Proof.
  intros Hr Hi Hrun. unfold UpdateProfile in Hrun. munfold Hrun.
  destruct (GetById d u) as [x|] eqn:Hx; [|left; simplify_eq; split; [done|by intros ? [= <-]]].
  assert (u ≠ "") as Hu by (intros ->; by unfold GetById in Hx; simpl in Hx).
  rewrite (UserStore_GetById_rep _ _ _ Hr Hu) in Hx. destruct (ai_user _ Hi _ _ Hx) as [Hid Hname].
  assert (ud_username x ≠ "") as Hne by (intros Heq; rewrite Heq, (ur_noname _ _ Hr) in Hname; done).
  set (y := profile_changes (env_clock e 0) nick av sg x) in *.
  destruct (Update y d) as [o d1] eqn:Hup.
  assert (int32_range (ud_gender x)) as Hg.
  { destruct (user_key d M u Hr) as [[_ ?]|(v & x' & _ & ? & Hd & _)]; [congruence|].
    simplify_eq. by destruct (DeserializeUser_stored _ _ Hd). }
  destruct (Update_refines y Hne Hg _ _ _ _ Hr Hup) as [Hres _].
  destruct o as [[]|]; simplify_eq.
  - right. exists x. destruct Hres as (M' & Ha & Hr').
    destruct (ainv_Update y x M M' Hi) as (Hi' & He' & HN & HU); [done..|].
    assert (M' = {| users := <[ud_user_id x := ud_stored y]> (users M); names := names M |}) as HM.
    { destruct M'; simpl in *; subst. done. }
    rewrite HM in Hr', Hi', He'. done.
  - left. split; [done|by intros ? [= <-]].
  - by left.
Qed.

(** [UpdateProfile] that succeeds changes the nickname, avatar and signature
    of that account, each only when a new text was given, and its time of update; user id, user
    name, password, gender and time of creation stay.  Otherwise
    nothing changes. *)
Theorem UpdateProfile_effect e u nick av sg d M res d' : user_rep d M → ainv M →
  UpdateProfile e u nick av sg d = (Ret res, d') →
  if up_success res then ∃ x y, users M !! u = Some x ∧
    user_rep d' {| users := <[u := y]> (users M); names := names M |} ∧
    ud_user_id y = ud_user_id x ∧ ud_username y = ud_username x ∧
    ud_password_hash y = ud_password_hash x ∧ ud_gender y = ud_gender x ∧
    ud_created_at y = ud_created_at x ∧ ud_updated_at y = wrap32 (env_clock e 0) ∧
    ud_nickname y = (if decide (nick = "") then ud_nickname x else nick) ∧
    ud_avatar_url y = (if decide (av = "") then ud_avatar_url x else av) ∧
    ud_signature y = (if decide (sg = "") then ud_signature x else sg)
  else user_rep d' M.
Proof.
  intros Hr Hi Hrun. destruct (UpdateProfile_run _ _ _ _ _ _ _ _ _ Hr Hi Hrun)
    as [[Hr' Hf]|(x & Hx & [= ->] & Hr' & _)]; [by rewrite (Hf _ eq_refl)|].
  simpl. exists x. eexists. split; [done|]. split; [exact Hr'|]. simpl. split_and!; try done.
  destruct (user_key d M u Hr) as [[_ ?]|(v & x' & _ & ? & Hd & _)]; [congruence|].
  simplify_eq. apply DeserializeUser_stored in Hd as [Hd _]. by rewrite <-Hd at 2.
Qed.

(** A registration, or an update of a profile, was served; [fresh]: the id generated for
    a new account is one that no account has, which the code does not check. *)
Inductive aserved (fresh : bool) : db → db → Prop :=
  | served_register e n p nick email av d r d' : (fresh = true → GetById d (GenerateUserId e) = None) →
      Register e n p nick email av d = (r, d') → aserved fresh d d'
  | served_update e u nick av sg d r d' : UpdateProfile e u nick av sg d = (r, d') → aserved fresh d d'.

Lemma aserved_inv fresh d d' M : user_rep d M → ainv M → aserved fresh d d' →
  ∃ M', user_rep d' M' ∧ ainv M' ∧ (fresh = true → exact M → exact M').
Proof.
  intros Hr Hi Hs. destruct Hs as [e n p nick email av d r d' Hfree Hrun|e u nick av sg d r d' Hrun].
  - unfold Register in Hrun.
    destruct (ValidateUsername n) eqn:Hn; cbn [negb] in Hrun; [|munfold Hrun; simplify_eq; by eauto].
    destruct (ValidatePassword p); cbn [negb] in Hrun; [|munfold Hrun; simplify_eq; by eauto].
    munfold Hrun. destruct (UsernameExists d n); [simplify_eq; by eauto|].
    destruct (Create _ d) as [o d1] eqn:Hc.
    assert (d' = d1) as -> by (destruct o; by simplify_eq).
    destruct (refines_cases _ _ _ _ _ _ _ (new_user_refines e n p nick av Hn) Hr Hc)
      as (M' & Hr' & [->|Ha]); [by eauto|]. exists M'. split; [done|].
    destruct (ainv_Create (new_user e n p nick av) M M' Hi (GenerateUserId_ne e) Ha) as [Hi' He].
    split; [done|]. intros Hf. apply He. specialize (Hfree Hf).
    by rewrite (UserStore_GetById_rep _ _ _ Hr (GenerateUserId_ne e)) in Hfree.
  - destruct (UpdateProfile_run _ _ _ _ _ _ _ _ _ Hr Hi Hrun) as [[? _]|(x & _ & _ & ? & ? & ?)]; eauto.
Qed.
Lemma aserved_history fresh d0 d : (∀ k, db_Get d0 k = None) → rtc (aserved fresh) d0 d →
  ∃ M, user_rep d M ∧ ainv M ∧ (fresh = true → exact M).
Proof.
  intros Hnew Hrun.
  assert (∃ M, user_rep d0 M ∧ ainv M ∧ (fresh = true → exact M)) as (M & Hr & Hi & He).
  { eexists. split_and!; [by apply user_rep_empty|apply ainv_empty|intros _; apply exact_empty]. }
  clear Hnew. revert M Hr Hi He. induction Hrun as [|d0 d1 d2 Hs _ IH]; [by eauto|].
  intros M Hr Hi He. destruct (aserved_inv _ _ _ _ Hr Hi Hs) as (M1 & ? & ? & ?). eauto.
Qed.

(** C31: after any sequence of registrations and profile updates from an empty
    database, whatever their answers and whatever ids were generated, every account is found by its
    user name, so no two accounts have the same user name.  When each generated id was one that no account had, the index
    of user names is exact: looking up a user name finds the account with that name.  The code does
    not check the generated id ([auth_service.cpp:84], [user_store.cpp:109]): on a collision the name of the account that was
    there leads to the new one ([user_id_collision]). *)
Theorem usernames_unique d0 d : (∀ k, db_Get d0 k = None) → rtc (aserved false) d0 d →
  (∀ i u, GetById d i = Some u → ud_user_id u = i ∧ GetByUsername d (ud_username u) = Some u) ∧
  (∀ i j u v, GetById d i = Some u → GetById d j = Some v → ud_username u = ud_username v → i = j) ∧
  (rtc (aserved true) d0 d →
   ∀ n u, GetByUsername d n = Some u → ud_username u = n ∧ GetById d (ud_user_id u) = Some u).
Proof.
  intros Hnew Hrun.
  assert (∀ i u, GetById d i = Some u → ud_user_id u = i ∧ GetByUsername d (ud_username u) = Some u) as Hfound.
  { destruct (aserved_history false d0 d Hnew Hrun) as (M & Hr & Hi & _). intros i u Hu.
    assert (i ≠ "") as Hi0 by (intros ->; by unfold GetById in Hu; simpl in Hu).
    rewrite (UserStore_GetById_rep _ _ _ Hr Hi0) in Hu. destruct (ai_user _ Hi _ _ Hu) as [Hid Hn].
    split; [done|]. rewrite (GetByUsername_rep _ _ _ Hr), Hn. simpl. by rewrite decide_False. }
  split_and!; [done| |].
  - intros i j u v [<- Hu]%Hfound [<- Hv]%Hfound Hn. rewrite Hn, Hv in Hu. congruence.
  - intros Hfresh n u. destruct (aserved_history true d0 d Hnew Hfresh) as (M & Hr & Hi & He).
    specialize (He eq_refl). rewrite (GetByUsername_rep _ _ _ Hr). intros Hu.
    destruct (names M !! n) as [i|] eqn:Hn; [|done]. simpl in Hu.
    destruct (ai_name _ Hi _ _ Hn) as (Hi0 & _). rewrite decide_False in Hu by done.
    split; [by eapply He|]. destruct (ai_user _ Hi i u Hu) as [-> _].
    by rewrite (UserStore_GetById_rep _ _ _ Hr).
Qed.

(** a generated id that an account has already: the registration succeeds, the account that was there is gone,
    and its user name leads to the new account. *)
Theorem user_id_collision e n p nick email av d M res d' x : user_rep d M → ainv M →
  users M !! GenerateUserId e = Some x →
  Register e n p nick email av d = (Ret res, d') → rg_success res = true →
  let new := ud_stored (new_user e n p nick av) in
  ud_username x ≠ n ∧ GetById d' (ud_user_id x) = Some new ∧ GetByUsername d' (ud_username x) = Some new.
Proof.
  intros Hr Hi Hx Hrun Hok new. destruct (ai_user _ Hi _ _ Hx) as [Hid Hname].
  unfold Register in Hrun.
  destruct (ValidateUsername n) eqn:Hn; cbn [negb] in Hrun; [|by munfold Hrun; simplify_eq].
  destruct (ValidatePassword p); cbn [negb] in Hrun; [|by munfold Hrun; simplify_eq].
  munfold Hrun. rewrite (UsernameExists_rep _ _ _ Hr) in Hrun.
  case_bool_decide as Htaken; [by simplify_eq|].
  destruct (Create _ d) as [[[]|] d1] eqn:Hc; simplify_eq; try done.
  destruct (refines_true _ _ _ _ _ _ (new_user_refines e n p nick av Hn) Hr Hc) as (M' & Ha & Hr').
  unfold a_Create in Ha. simpl in Ha. destruct (names M !! n) eqn:Hnn; [by simplify_eq|]. injection Ha as <-.
  assert (ud_username x ≠ n) as Hne by (intros <-; congruence). split; [done|].
  rewrite (UserStore_GetById_rep _ _ _ Hr') by (rewrite Hid; apply GenerateUserId_ne).
  rewrite (GetByUsername_rep _ _ _ Hr'). simpl. rewrite Hid, lookup_insert_eq, lookup_insert_ne, Hname by done.
  simpl. by rewrite lookup_insert_eq.
Qed.

(** Searching lists profiles of accounts whose id, user name or nickname (joined by
    blanks, case ignored) contains the keyword, each account once, at most
    [limit] of them and never more than 100; when fewer are listed, none is missing. *)
Theorem SearchUsers_effect d M keyword limit : user_rep d M → keyword ≠ "" → 0 < limit →
  ∃ l, SearchUsers d keyword limit = ToProfile <$> l ∧ NoDup l ∧
    Z.of_nat (length l) ≤ Z.min limit 100 ∧
    (∀ u, u ∈ l → users M !! ud_user_id u = Some u ∧
       user_matches (str_map tolower keyword) u = true) ∧
    (Z.of_nat (length l) < Z.min limit 100 → ∀ i u, users M !! i = Some u →
       user_matches (str_map tolower keyword) u = true → u ∈ l).
Proof.
  intros Hr Hk Hl. unfold SearchUsers. rewrite (decide_False (P := keyword = "")) by done.
  rewrite (decide_False (P := limit ≤ 0)) by lia. rewrite SearchUsers_spec by (done || lia).
  set (f := filter _ (all_users d)). set (n := Z.to_nat (Z.min limit 100)).
  exists (take n f). assert (NoDup f) as Hnd by (apply NoDup_filter; by eapply all_users_nodup).
  assert (∀ u, u ∈ f ↔ users M !! ud_user_id u = Some u ∧
    user_matches (str_map tolower keyword) u = true) as Hf.
  { intros u. unfold f. rewrite list_elem_of_filter, (all_users_elem _ _ _ Hr). tauto. }
  split_and!; [done| | | |].
  - eapply sublist_NoDup; [exact Hnd|apply sublist_take].
  - rewrite length_take. lia.
  - intros u Hu. apply Hf. apply elem_of_take in Hu as (i & Hi & _). by eapply list_elem_of_lookup_2.
  - rewrite length_take. intros Hlt i u Hu Hm. rewrite take_ge by lia. apply Hf. split; [|done].
    destruct (user_key d M i Hr) as [[_ ?]|(v & x & _ & ? & _ & Hid)]; [congruence|].
    simplify_eq. done.
Qed.
End Properties.

(** * Concrete runs, over the in-memory database *)

Notation db_alice := (snd (Register env0 "alice" "password1" "" "" "" mem_empty)).
Definition uid0 : string := GenerateUserId env0.
Definition um0 : umodel := {| users := ∅; names := ∅ |}.

Lemma mem_empty_user_rep : user_rep mem_empty um0.
Proof. apply user_rep_empty. intros k. apply lookup_empty. Qed.
Lemma db_alice_run : Register env0 "alice" "password1" "" "" "" mem_empty =
  (Ret {| rg_success := true; rg_user_id := uid0; rg_error := ""; rg_error_code := OK |}, db_alice).
Proof. eval_run. Qed.

Lemma db_alice_served fresh : rtc (aserved fresh) mem_empty db_alice.
Proof.
  apply rtc_once. eapply served_register; [|apply db_alice_run]. intros _.
  rewrite (UserStore_GetById_rep _ _ _ mem_empty_user_rep (GenerateUserId_ne _)). apply lookup_empty.
Qed.
Lemma db_alice_rep : ∃ M, user_rep db_alice M ∧ ainv M.
Proof.
  destruct (aserved_history true mem_empty db_alice (λ k, lookup_empty k) (db_alice_served true)) as (M & ? & ? & _).
  by exists M.
Qed.

Lemma Register_effect_witness : ∃ M' : umodel, user_rep db_alice M' ∧ names M' !! "alice" = Some uid0.
Proof.
  pose proof (Register_effect env0 "alice" "password1" "" "" "" mem_empty um0 _ _ mem_empty_user_rep
    db_alice_run) as (_ & _ & _ & M' & Hr & _ & Hn).
  exists M'. rewrite Hn. exact (conj Hr (lookup_insert_eq _ _ _)).
Defined.

Lemma Register_then_VerifyCredentials_witness :
  vc_user_id (VerifyCredentials db_alice "alice" "password1") = uid0 ∧
  vc_error_code (VerifyCredentials db_alice "alice" "password2") = PASSWORD_WRONG.
Proof.
  pose proof (λ q, Register_then_VerifyCredentials env0 "alice" "password1" "" "" "" mem_empty um0 _ _ q
    mem_empty_user_rep db_alice_run eq_refl) as Hq.
  pose proof (Hq "password1") as (_ & Hu & _). pose proof (Hq "password2") as (_ & _ & _ & He).
  exact (conj Hu He).
Defined.

Lemma UpdateProfile_effect_witness : ∃ d', UpdateProfile env0 uid0 "Al" "" "" db_alice =
    (Ret {| up_success := true; up_error := ""; up_error_code := OK |}, d') ∧
  ∃ y M', user_rep d' M' ∧ users M' !! uid0 = Some y ∧ ud_nickname y = "Al".
Proof.
  assert (UpdateProfile env0 uid0 "Al" "" "" db_alice =
    (Ret {| up_success := true; up_error := ""; up_error_code := OK |},
     snd (UpdateProfile env0 uid0 "Al" "" "" db_alice))) as Hrun by eval_run.
  destruct db_alice_rep as (M & Hr & Hi).
  pose proof (UpdateProfile_effect env0 uid0 "Al" "" "" db_alice M _ _ Hr Hi Hrun)
    as (x & y & _ & Hr' & _ & _ & _ & _ & _ & _ & Hnick & _).
  eexists. refine (conj Hrun _). exists y. eexists.
  exact (conj Hr' (conj (lookup_insert_eq _ _ _) Hnick)).
Defined.

Lemma usernames_unique_witness : ∃ u, GetByUsername db_alice "alice" = Some u ∧
  ud_username u = "alice" ∧ GetById db_alice (ud_user_id u) = Some u.
Proof.
  assert (ud_user_id <$> GetByUsername db_alice "alice" = Some uid0) as Hu by eval_eq.
  apply fmap_Some in Hu as (u & Hu & _). exists u.
  pose proof (usernames_unique mem_empty db_alice (λ k, lookup_empty k) (db_alice_served false)) as (_ & _ & Hn).
  destruct (Hn (db_alice_served true) "alice" u Hu) as [H1 H2]. exact (conj Hu (conj H1 H2)).
Defined.

Lemma SearchUsers_effect_witness :
  ap_username <$> SearchUsers db_alice "LIC" 10 = ["alice"] ∧
  ∃ l, SearchUsers db_alice "LIC" 10 = ToProfile <$> l ∧ Z.of_nat (length l) ≤ Z.min 10 100.
Proof.
  split; [eval_eq|]. destruct db_alice_rep as (M & Hr & _).
  pose proof (SearchUsers_effect db_alice M "LIC" 10 Hr ltac:(discriminate) ltac:(lia))
    as (l & Hl & _ & Hlen & _).
  exists l. exact (conj Hl Hlen).
Defined.

(** The random engine gives Bob the id of Alice: his password now opens the account of hers. *)
Lemma user_id_collision_witness :
  let d := snd (Register env0 "bob" "password2" "" "" "" db_alice) in
  ud_username <$> GetByUsername d "alice" = Some "bob" ∧
  vc_error_code (VerifyCredentials d "alice" "password1") = PASSWORD_WRONG.
Proof.
  cbv zeta. split; [|eval_eq]. destruct db_alice_rep as (M & Hr & Hi).
  assert (ud_username <$> GetById db_alice uid0 = Some "alice") as Ha by eval_eq.
  rewrite (UserStore_GetById_rep _ _ uid0 Hr (GenerateUserId_ne env0)) in Ha. apply fmap_Some in Ha as (x & Hx & Hn).
  assert (Register env0 "bob" "password2" "" "" "" db_alice =
    (Ret {| rg_success := true; rg_user_id := uid0; rg_error := ""; rg_error_code := OK |},
     snd (Register env0 "bob" "password2" "" "" "" db_alice))) as Hrun by eval_run.
  destruct (user_id_collision env0 "bob" "password2" "" "" "" db_alice M _ _ x Hr Hi Hx Hrun eq_refl) as (_ & _ & Hg).
  rewrite <-Hn in Hg. rewrite Hg. reflexivity.
Defined.
