(* ===== verification/FileStore.v ===== *)
(** [filesvr/internal/store/file_store.{h,cpp}]: the records of stored files, the
    index of their MD5 sums and the upload sessions, in one RocksDB database. *)

From S2P Require Import Prelude External Utils.

(** * Data *)

(** [struct FileMetaData] *)
Record FileMetaData : Type := {
  fm_file_id : string;
  fm_file_name : string;
  fm_content_type : string;
  fm_file_size : Z;       (* int64_t *)
  fm_md5 : string;
  fm_uploader_id : string;
  fm_storage_path : string;
  fm_uploaded_at : Z;     (* int64_t *)
}.
(** [struct UploadSessionData] *)
Record UploadSessionData : Type := {
  us_upload_id : string;
  us_user_id : string;
  us_file_name : string;
  us_content_type : string;
  us_file_size : Z;       (* int64_t *)
  us_md5 : string;
  us_msg_id : string;
  us_temp_path : string;
  us_bytes_written : Z;   (* int64_t *)
  us_expire_at : Z;       (* int64_t *)
}.
#[global] Instance FileMetaData_eq_dec : EqDecision FileMetaData.
Proof. solve_decision. Defined.
#[global] Instance UploadSessionData_eq_dec : EqDecision UploadSessionData.
Proof. solve_decision. Defined.

Definition us_set_bytes (n : Z) (s : UploadSessionData) : UploadSessionData :=
  {| us_upload_id := us_upload_id s; us_user_id := us_user_id s; us_file_name := us_file_name s;
     us_content_type := us_content_type s; us_file_size := us_file_size s; us_md5 := us_md5 s;
     us_msg_id := us_msg_id s; us_temp_path := us_temp_path s; us_bytes_written := n;
     us_expire_at := us_expire_at s |}.

Section Serialization.
Context `{!JsonLib}.

Definition SerializeMeta (meta : FileMetaData) : option string :=
  js_dump (js_obj [
    ("file_id", JStr (fm_file_id meta));
    ("file_name", JStr (fm_file_name meta));
    ("content_type", JStr (fm_content_type meta));
    ("file_size", JInt (fm_file_size meta));
    ("md5", JStr (fm_md5 meta));
    ("uploader_id", JStr (fm_uploader_id meta));
    ("storage_path", JStr (fm_storage_path meta));
    ("uploaded_at", JInt (fm_uploaded_at meta))]).

Definition DeserializeMeta (data : string) : option FileMetaData :=
  j ← js_parse data;
  file_id ← js_str j "file_id" "";
  file_name ← js_str j "file_name" "";
  content_type ← js_str j "content_type" "";
  file_size ← js_int j "file_size" 0;
  md5 ← js_str j "md5" "";
  uploader_id ← js_str j "uploader_id" "";
  storage_path ← js_str j "storage_path" "";
  uploaded_at ← js_int j "uploaded_at" 0;
  Some {| fm_file_id := file_id; fm_file_name := file_name; fm_content_type := content_type;
          fm_file_size := file_size; fm_md5 := md5; fm_uploader_id := uploader_id;
          fm_storage_path := storage_path; fm_uploaded_at := uploaded_at |}.

Definition SerializeSession (s : UploadSessionData) : option string :=
  js_dump (js_obj [
    ("upload_id", JStr (us_upload_id s));
    ("user_id", JStr (us_user_id s));
    ("file_name", JStr (us_file_name s));
    ("content_type", JStr (us_content_type s));
    ("file_size", JInt (us_file_size s));
    ("md5", JStr (us_md5 s));
    ("msg_id", JStr (us_msg_id s));
    ("temp_path", JStr (us_temp_path s));
    ("bytes_written", JInt (us_bytes_written s));
    ("expire_at", JInt (us_expire_at s))]).

Definition DeserializeSession (data : string) : option UploadSessionData :=
  j ← js_parse data;
  upload_id ← js_str j "upload_id" "";
  user_id ← js_str j "user_id" "";
  file_name ← js_str j "file_name" "";
  content_type ← js_str j "content_type" "";
  file_size ← js_int j "file_size" 0;
  md5 ← js_str j "md5" "";
  msg_id ← js_str j "msg_id" "";
  temp_path ← js_str j "temp_path" "";
  bytes_written ← js_int j "bytes_written" 0;
  expire_at ← js_int j "expire_at" 0;
  Some {| us_upload_id := upload_id; us_user_id := user_id; us_file_name := file_name;
          us_content_type := content_type; us_file_size := file_size; us_md5 := md5;
          us_msg_id := msg_id; us_temp_path := temp_path; us_bytes_written := bytes_written;
          us_expire_at := expire_at |}.
End Serialization.

Definition KEY_PREFIX_FILE : string := "file:".
Definition KEY_PREFIX_FILE_MD5 : string := "file_md5:".
Definition KEY_PREFIX_UPLOAD : string := "upload:".

(** * Operations *)

Section RocksDBFileStore.
Context {db : Type} `{!RocksDB db} `{!JsonLib}.
Implicit Types d : db.

Definition RocksDBFileStore (DB_Open : string → option db) (db_path : string) : outcome db :=
  match DB_Open db_path with Some d => Ret d | None => Exc end.

Definition Save (meta : FileMetaData) : M db bool :=
  if decide (fm_file_id meta = "") then mret false else
  value ← or_throw (SerializeMeta meta);
  kv_write (WPut (KEY_PREFIX_FILE +:+ fm_file_id meta) value ::
            if decide (fm_md5 meta = "") then []
            else [WPut (KEY_PREFIX_FILE_MD5 +:+ fm_md5 meta) (fm_file_id meta)]).

Definition GetById (d : db) (file_id : string) : option FileMetaData :=
  if decide (file_id = "") then None else
  value ← db_Get d (KEY_PREFIX_FILE +:+ file_id);
  DeserializeMeta value.

Definition GetByMd5 (d : db) (md5 : string) : option FileMetaData :=
  if decide (md5 = "") then None else
  file_id ← db_Get d (KEY_PREFIX_FILE_MD5 +:+ md5);
  GetById d file_id.

Definition Delete (file_id : string) : M db bool :=
  if decide (file_id = "") then mret false else
  meta ← reads (λ d, GetById d file_id);
  match meta with
  | None => mret false
  | Some meta =>
      kv_write (WDelete (KEY_PREFIX_FILE +:+ file_id) ::
                if decide (fm_md5 meta = "") then []
                else [WDelete (KEY_PREFIX_FILE_MD5 +:+ fm_md5 meta)])
  end.

Definition SaveUploadSession (session : UploadSessionData) : M db bool :=
  if decide (us_upload_id session = "") then mret false else
  value ← or_throw (SerializeSession session);
  kv_put (KEY_PREFIX_UPLOAD +:+ us_upload_id session) value.

Definition GetUploadSession (d : db) (upload_id : string) : option UploadSessionData :=
  if decide (upload_id = "") then None else
  value ← db_Get d (KEY_PREFIX_UPLOAD +:+ upload_id);
  DeserializeSession value.

Definition UpdateUploadSessionBytes (upload_id : string) (bytes_written : Z) : M db bool :=
  if decide (upload_id = "") then mret false else
  s ← reads (λ d, GetUploadSession d upload_id);
  match s with
  | None => mret false
  | Some s => SaveUploadSession (us_set_bytes bytes_written s)
  end.

Definition DeleteUploadSession (upload_id : string) : M db bool :=
  if decide (upload_id = "") then mret false else
  kv_delete (KEY_PREFIX_UPLOAD +:+ upload_id).

(** Entries that cannot be read are skipped. *)
Definition ListAllUploadSessions (d : db) : list UploadSessionData :=
  omap (λ e, DeserializeSession e.2) (db_scan d KEY_PREFIX_UPLOAD).
End RocksDBFileStore.

(** * The abstract store *)

Inductive StKey : Type := SFile (id : string) | SMd5 (md5 : string) | SUpload (id : string).
#[global] Instance StKey_eq_dec : EqDecision StKey.
Proof. solve_decision. Defined.
#[global] Program Instance StKey_space : KeySpace StKey := {|
  key_str k := match k with
               | SFile id => KEY_PREFIX_FILE +:+ id
               | SMd5 m => KEY_PREFIX_FILE_MD5 +:+ m
               | SUpload id => KEY_PREFIX_UPLOAD +:+ id
               end;
  key_ok k := match k with SFile s | SMd5 s | SUpload s => s ≠ "" end;
|}.
Next Obligation.
  unfold KEY_PREFIX_FILE, KEY_PREFIX_FILE_MD5, KEY_PREFIX_UPLOAD.
  by intros [a|a|a] [b|b|b] _; simpl; intros [= ->].
Qed.

Record smodel : Type := {
  metas : gmap string FileMetaData;            (* by file id *)
  md5s : gmap string string;                   (* MD5 to file id *)
  uploads : gmap string UploadSessionData;     (* by upload id *)
}.

Definition a_Save (m : FileMetaData) (M : smodel) : option smodel :=
  Some {| metas := <[fm_file_id m := m]> (metas M);
          md5s := if decide (fm_md5 m = "") then md5s M else <[fm_md5 m := fm_file_id m]> (md5s M);
          uploads := uploads M |}.
Definition a_Delete (id : string) (M : smodel) : option smodel :=
  m ← metas M !! id;
  Some {| metas := delete id (metas M);
          md5s := if decide (fm_md5 m = "") then md5s M else delete (fm_md5 m) (md5s M);
          uploads := uploads M |}.
Definition a_SaveUploadSession (s : UploadSessionData) (M : smodel) : option smodel :=
  Some {| metas := metas M; md5s := md5s M; uploads := <[us_upload_id s := s]> (uploads M) |}.
Definition a_UpdateUploadSessionBytes (id : string) (n : Z) (M : smodel) : option smodel :=
  s ← uploads M !! id; a_SaveUploadSession (us_set_bytes n s) M.
Definition a_DeleteUploadSession (id : string) (M : smodel) : option smodel :=
  Some {| metas := metas M; md5s := md5s M; uploads := delete id (uploads M) |}.

Section Rep.
Context {db : Type} `{!RocksDB db} `{!RocksDBLaws db} `{!JsonLib} `{!JsonLaws}.
Implicit Types d : db.

Lemma DeserializeMeta_Serialize m v : SerializeMeta m = Some v → DeserializeMeta v = Some m.
Proof.
  intros Hv. unfold SerializeMeta, DeserializeMeta in *.
  apply js_parse_dump in Hv. rewrite Hv. js_simp. by destruct m.
Qed.
Lemma DeserializeUploadSession_Serialize s v :
  SerializeSession s = Some v → DeserializeSession v = Some s.
Proof.
  intros Hv. unfold SerializeSession, DeserializeSession in *.
  apply js_parse_dump in Hv. rewrite Hv. js_simp. by destruct s.
Qed.

(** The value of the database at a key, against the model. *)
Definition st_ok (M : smodel) (k : StKey) (o : option string) : Prop :=
  match k with
  | SFile id => option_Forall2 (λ v m, DeserializeMeta v = Some m ∧ fm_file_id m = id) o (metas M !! id)
  | SMd5 md5 => o = md5s M !! md5
  | SUpload id =>
      option_Forall2 (λ v s, DeserializeSession v = Some s ∧ us_upload_id s = id) o (uploads M !! id)
  end.
Record store_rep (d : db) (M : smodel) : Prop := {
  st_closed : keys_closed (K:=StKey) d;
  st_at k : st_ok M k (kget d k);
}.

Lemma store_rep_write d d' M M' b :
  store_rep d M → Forall (λ op, key_ok (kop_key op)) b → db_Write d (kop_op <$> b) = Some d' →
  (∀ k, st_ok M k (kget d k) → st_ok M' k (kbatch_get b k (kget d k))) → store_rep d' M'.
Proof.
  intros [Hc Hs] Hb Hw Hs'. split; [by eapply keys_closed_write|].
  intros k. rewrite (kget_write _ _ _ _ Hb Hw). auto.
Qed.

Lemma store_rep_empty d : (∀ k, db_Get d k = None) →
  store_rep d {| metas := ∅; md5s := ∅; uploads := ∅ |}.
Proof.
  intros He. split.
  - intros s v. by rewrite He.
  - intros k. unfold kget. rewrite He. destruct k; simpl; rewrite lookup_empty; by constructor.
Qed.

(** The representation at the three kinds of keys. *)
Lemma file_key d M id : store_rep d M →
  option_Forall2 (λ v m, DeserializeMeta v = Some m ∧ fm_file_id m = id)
    (db_Get d (KEY_PREFIX_FILE +:+ id)) (metas M !! id).
Proof. intros Hr. exact (st_at _ _ Hr (SFile id)). Qed.
Lemma md5_key d M md5 : store_rep d M → db_Get d (KEY_PREFIX_FILE_MD5 +:+ md5) = md5s M !! md5.
Proof. intros Hr. exact (st_at _ _ Hr (SMd5 md5)). Qed.
Lemma upload_key d M id : store_rep d M →
  option_Forall2 (λ v s, DeserializeSession v = Some s ∧ us_upload_id s = id)
    (db_Get d (KEY_PREFIX_UPLOAD +:+ id)) (uploads M !! id).
Proof. intros Hr. exact (st_at _ _ Hr (SUpload id)). Qed.

(** Nothing is stored under an empty id. *)
Lemma empty_key d M : store_rep d M →
  db_Get d (KEY_PREFIX_FILE +:+ "") = None ∧ db_Get d (KEY_PREFIX_FILE_MD5 +:+ "") = None ∧
  db_Get d (KEY_PREFIX_UPLOAD +:+ "") = None.
Proof.
  intros Hr. assert (∀ k : StKey, ¬ key_ok k → kget d k = None) as Hk
    by (intros k; apply (kget_None d k (st_closed _ _ Hr))).
  split_and!; [apply (Hk (SFile ""))|apply (Hk (SMd5 ""))|apply (Hk (SUpload ""))];
    simpl; naive_solver.
Qed.

Lemma FileStore_GetById_rep d M id : store_rep d M → GetById d id = metas M !! id.
Proof.
  intros Hr. unfold GetById. pose proof (file_key d M id Hr) as Hk. case_decide as Hid.
  - subst. rewrite (proj1 (empty_key d M Hr)) in Hk. by inversion Hk.
  - by destruct Hk as [v m [Hd Hi]|].
Qed.
Lemma GetByMd5_rep d M md5 : store_rep d M →
  GetByMd5 d md5 = id ← md5s M !! md5; metas M !! id.
Proof.
  intros Hr. unfold GetByMd5. rewrite <-(md5_key d M md5 Hr). case_decide as Hid.
  - subst. by rewrite (proj1 (proj2 (empty_key d M Hr))).
  - destruct (db_Get d _) as [id|]; [|done]. by apply FileStore_GetById_rep.
Qed.
Lemma GetUploadSession_rep d M id : store_rep d M → GetUploadSession d id = uploads M !! id.
Proof.
  intros Hr. unfold GetUploadSession. pose proof (upload_key d M id Hr) as Hk. case_decide as Hid.
  - subst. rewrite (proj2 (proj2 (empty_key d M Hr))) in Hk. by inversion Hk.
  - by destruct Hk as [v m [Hd Hi]|].
Qed.
(** The id under which something is stored is the one inside it, and not empty. *)
Lemma store_ids d M : store_rep d M →
  (∀ id m, metas M !! id = Some m → fm_file_id m = id ∧ id ≠ "") ∧
  (∀ id s, uploads M !! id = Some s → us_upload_id s = id ∧ id ≠ "").
Proof.
  intros Hr. destruct (empty_key d M Hr) as (Hf & _ & Hu).
  split; intros id x Hx; [pose proof (file_key d M id Hr) as Hk|pose proof (upload_key d M id Hr) as Hk];
    rewrite Hx in Hk; (split; [by inversion Hk as [? ? []|]|]); intros ->;
    [rewrite Hf in Hk|rewrite Hu in Hk]; by inversion Hk.
Qed.

(** Compare the database after a batch with the abstract result at one key. *)
Local Ltac at_key :=
  let k := fresh "k" in let Hk := fresh "Hk" in
  intros k Hk; destruct k; cbn [st_ok kbatch_get metas md5s uploads] in *;
  rewrite ?lookup_insert, ?lookup_delete;
  repeat (case_decide; simplify_eq); try done; try (by constructor); try congruence.

Lemma Save_meta_refines m : fm_file_id m ≠ "" → refines store_rep (Save m) (a_Save m).
Proof.
  intros Hid d M r d' Hr Hop. unfold Save, a_Save in *. rewrite decide_False in Hop by done.
  munfold Hop. destruct (SerializeMeta m) as [v|] eqn:Hv; munfold Hop; [|injection Hop as <- <-; by split].
  unfold kv_write, kv_commit in Hop.
  destruct (db_Write d _) as [d1|] eqn:Hwr; injection Hop as <- <-; split; try done.
  eexists; split; [done|]. apply DeserializeMeta_Serialize in Hv. case_decide as Hmd.
  - apply (store_rep_write d d1 M _ [KPut (SFile (fm_file_id m)) v]); [done|keys_ok|done|at_key].
  - apply (store_rep_write d d1 M _ [KPut (SFile (fm_file_id m)) v; KPut (SMd5 (fm_md5 m)) (fm_file_id m)]);
      [done|keys_ok|done|at_key].
Qed.

Lemma Delete_meta_refines id : refines store_rep (Delete id) (a_Delete id).
Proof.
  intros d M r d' Hr Hop. unfold Delete, a_Delete in *.
  case_decide as Hid.
  { subst. munfold Hop. injection Hop as <- <-. split; [done|]. done. }
  munfold Hop. rewrite (FileStore_GetById_rep _ _ _ Hr) in Hop.
  destruct (metas M !! id) as [m|] eqn:Hm; [|injection Hop as <- <-; by split].
  unfold kv_write, kv_commit in Hop.
  destruct (db_Write d _) as [d1|] eqn:Hwr; injection Hop as <- <-; split; try done.
  eexists; split; [done|]. case_decide as Hmd.
  - apply (store_rep_write d d1 M _ [KDel (SFile id)]); [done|keys_ok|done|at_key].
  - apply (store_rep_write d d1 M _ [KDel (SFile id); KDel (SMd5 (fm_md5 m))]);
      [done|keys_ok|done|at_key].
Qed.

Lemma SaveUploadSession_refines s : us_upload_id s ≠ "" →
  refines store_rep (SaveUploadSession s) (a_SaveUploadSession s).
Proof.
  intros Hid d M r d' Hr Hop. unfold SaveUploadSession, a_SaveUploadSession in *.
  rewrite decide_False in Hop by done. munfold Hop.
  destruct (SerializeSession s) as [v|] eqn:Hv; munfold Hop; [|injection Hop as <- <-; by split].
  unfold kv_put, kv_commit in Hop.
  destruct (db_Put d _ v) as [d1|] eqn:Hwr; injection Hop as <- <-; split; try done.
  eexists; split; [done|]. apply DeserializeUploadSession_Serialize in Hv.
  pose proof (kop_of_Put d d1 (SUpload (us_upload_id s)) v Hwr) as Hb.
  apply (store_rep_write d d1 M _ [KPut (SUpload (us_upload_id s)) v]); [done|keys_ok|done|at_key].
Qed.

Lemma UpdateUploadSessionBytes_refines id n :
  refines store_rep (UpdateUploadSessionBytes id n) (a_UpdateUploadSessionBytes id n).
Proof.
  intros d M r d' Hr Hop. unfold UpdateUploadSessionBytes, a_UpdateUploadSessionBytes in *.
  case_decide as Hid; [injection Hop as <- <-; by split|]. munfold Hop.
  rewrite (GetUploadSession_rep _ _ _ Hr) in Hop.
  destruct (uploads M !! id) as [s|] eqn:Hs; [|injection Hop as <- <-; by split].
  destruct (proj2 (store_ids _ _ Hr) _ _ Hs) as [Hsid ?].
  exact (SaveUploadSession_refines (us_set_bytes n s) ltac:(simpl; congruence) d M r d' Hr Hop).
Qed.

Lemma DeleteUploadSession_refines id :
  refines store_rep (DeleteUploadSession id) (a_DeleteUploadSession id).
Proof.
  intros d M r d' Hr Hop. unfold DeleteUploadSession, a_DeleteUploadSession in *.
  case_decide as Hid; [injection Hop as <- <-; by split|]. unfold kv_delete, kv_commit in Hop.
  destruct (db_Delete d _) as [d1|] eqn:Hwr; injection Hop as <- <-; split; try done.
  eexists; split; [done|]. pose proof (kop_of_Delete d d1 (SUpload id) Hwr) as Hb.
  apply (store_rep_write d d1 M _ [KDel (SUpload id)]); [done|keys_ok|done|at_key].
Qed.

Lemma ListAllUploadSessions_elem d M s : store_rep d M →
  s ∈ ListAllUploadSessions d ↔ uploads M !! us_upload_id s = Some s.
Proof.
  intros Hr. unfold ListAllUploadSessions. rewrite list_elem_of_omap. split.
  - intros [[k v] [Hin Hd]]. apply db_scan_elem in Hin as [Hget [t ->]%prefix_iff].
    pose proof (upload_key d M t Hr) as Hk. rewrite Hget in Hk. simpl in Hd.
    inversion Hk as [w x [Hd' Hi] Hv Hm|]. simplify_eq. done.
  - intros Hs. pose proof (upload_key d M (us_upload_id s) Hr) as Hk. rewrite Hs in Hk.
    inversion Hk as [w x [Hd' Hi] Hv Hm|]; subst. exists (KEY_PREFIX_UPLOAD +:+ us_upload_id s, w).
    split; [|done]. apply db_scan_elem. split; [done|apply prefix_app].
Qed.
Lemma ListAllUploadSessions_nodup d M : store_rep d M →
  NoDup (us_upload_id <$> ListAllUploadSessions d).
Proof.
  intros Hr. apply NoDup_fmap_2_strong.
  - intros x y Hx Hy Heq. apply (ListAllUploadSessions_elem _ _ _ Hr) in Hx, Hy. congruence.
  - apply NoDup_omap_strong; [|eapply NoDup_fmap_1, (db_scan_nodup d)].
    intros [k1 v1] [k2 v2] s [Hg1 [t1 ->]%prefix_iff]%db_scan_elem [Hg2 [t2 ->]%prefix_iff]%db_scan_elem.
    simpl. intros Hd1 Hd2.
    pose proof (upload_key d M t1 Hr) as Hk1. pose proof (upload_key d M t2 Hr) as Hk2.
    rewrite Hg1 in Hk1. rewrite Hg2 in Hk2.
    inversion Hk1 as [w1 x1 [E1 I1] W1 M1|]; inversion Hk2 as [w2 x2 [E2 I2] W2 M2|].
    simplify_eq. congruence.
Qed.
End Rep.
