(* ===== verification/FileService.v ===== *)
(** [filesvr/internal/service/file_service.{h,cpp}]: resumable and one-shot
    uploads, downloads, deletion and the clean-up of expired upload sessions, over
    the store of FileStore.v and a file system. *)

From Stdlib Require Import Ascii.
From S2P Require Import Prelude External Errors Utils FileStore.

(** The members of [FileConfig] the service reads. *)
Record FileConfig : Type := {
  fc_host : string;
  fc_http_port : Z;                       (* int *)
  fc_storage_path : string;
  fc_max_file_size : Z;                   (* int64_t *)
  fc_upload_session_expire_seconds : Z;   (* int64_t *)
}.

(** What a call reads from outside: the [i]-th reading of [system_clock] in ticks
    (nanoseconds), the [i]-th 64-bit random number, and how the file system and
    the allocator answer.  [fe_write] and [fe_close]: [None] when everything
    written reaches the file, [Some n] when the stream fails after [n] bytes.
    [fe_mkdir] is asked about the directory of a path; [fe_alloc n]: a vector
    of [n] bytes can be allocated. *)
Record FileEnv : Type := {
  fe_clock : nat → Z;
  fe_rand : nat → Z;
  fe_mkdir : string → bool;
  fe_open : string → bool;
  fe_write : option nat;
  fe_close : option nat;
  fe_rename : bool;
  fe_remove : string → bool;
  fe_stat : string → bool;
  fe_read : bool;
  fe_alloc : Z → bool;
}.

(** The store and the contents of the files by path. *)
Record FileState (db : Type) : Type := { fs_store : db; fs_disk : gmap string string }.
Arguments fs_store {db}. Arguments fs_disk {db}. Arguments Build_FileState {db}.

(** * Results *)

Record InitUploadResult : Type := {
  iu_success : bool; iu_error_code : Z; iu_error : string; iu_upload_id : string;
  iu_expire_at : Z; iu_existing_file_id : string }.
Record GetUploadStateResult : Type := {
  gu_found : bool; gu_error_code : Z; gu_error : string; gu_offset : Z; gu_file_size : Z;
  gu_completed : bool; gu_file_id : string; gu_expire_at : Z }.
Record AppendChunkResult : Type := {
  ac_success : bool; ac_error_code : Z; ac_error : string; ac_new_offset : Z }.
Record CompleteUploadResult : Type := {
  cu_success : bool; cu_error_code : Z; cu_error : string; cu_file_id : string;
  cu_file_url : string; cu_thumbnail_url : string }.
Record UploadResult : Type := {
  ur_success : bool; ur_error_code : Z; ur_file_id : string; ur_file_url : string;
  ur_thumbnail_url : string; ur_error : string }.
Record FileUrlResult : Type := {
  fu_success : bool; fu_error_code : Z; fu_error : string; fu_file_url : string;
  fu_file_name : string; fu_file_size : Z; fu_content_type : string; fu_expire_at : Z }.
(** [found] and [meta] *)
Definition FileInfoResult : Type := option FileMetaData.
Record UploadTokenResult : Type := {
  ut_success : bool; ut_error_code : Z; ut_error : string; ut_upload_token : string;
  ut_upload_url : string; ut_expire_at : Z }.
(** What [ReadFile] and [ReadFileRange] leave in their output parameters. *)
Record FileData : Type := {
  rd_data : string; rd_content_type : string; rd_file_name : string; rd_file_size : Z }.

Definition init_fail (c : ErrorCode) : InitUploadResult :=
  {| iu_success := false; iu_error_code := ErrorCodeToInt c; iu_error := ErrorCodeToString c;
     iu_upload_id := ""; iu_expire_at := 0; iu_existing_file_id := "" |}.
Definition append_fail (c : ErrorCode) : AppendChunkResult :=
  {| ac_success := false; ac_error_code := ErrorCodeToInt c; ac_error := ErrorCodeToString c;
     ac_new_offset := 0 |}.
Definition complete_fail (c : ErrorCode) : CompleteUploadResult :=
  {| cu_success := false; cu_error_code := ErrorCodeToInt c; cu_error := ErrorCodeToString c;
     cu_file_id := ""; cu_file_url := ""; cu_thumbnail_url := "" |}.
Definition upload_fail (c : ErrorCode) : UploadResult :=
  {| ur_success := false; ur_error_code := ErrorCodeToInt c; ur_file_id := ""; ur_file_url := "";
     ur_thumbnail_url := ""; ur_error := ErrorCodeToString c |}.

(** * Identifiers and paths *)

(** [memcpy] of a 64-bit integer: its bytes, the least significant first. *)
Fixpoint le_bytes (n : nat) (z : Z) : string :=
  match n with
  | O => ""
  | S n => String (chr (Z.to_N (z mod 256))) (le_bytes n (z / 256))
  end.

(** [HexEncode(data, len)] of file_service.cpp *)
Fixpoint hex_encode (data : string) : string :=
  match data with
  | EmptyString => ""
  | String c data' =>
      String (hex_char (N.land (N.shiftr (code c) 4) 15))
        (String (hex_char (N.land (code c) 15)) (hex_encode data'))
  end.

(** From the [i]-th reading of the clock and the [j]-th random number. *)
Definition GenerateFileId (e : FileEnv) (i j : nat) : string :=
  hex_encode (le_bytes 8 (fe_clock e i) +:+ le_bytes 8 (fe_rand e j)).

(** [duration_cast<seconds>] *)
Definition NowSeconds (e : FileEnv) (i : nat) : Z := Z.quot (fe_clock e i) 1000000000.

(** [s.back() == c] *)
Fixpoint str_ends_with (s : string) (c : ascii) : bool :=
  match s with
  | EmptyString => false
  | String a EmptyString => bool_decide (a = c)
  | String _ s' => str_ends_with s' c
  end.

Section FileService.
Context {db : Type} `{!RocksDB db} `{!JsonLib}.
Variable config : FileConfig.
Notation FileState := (FileState db).

Definition BuildStoragePath (file_id : string) : string :=
  if decide (str_size file_id < 2)%nat
  then fc_storage_path config +:+ "/" +:+ file_id
  else fc_storage_path config +:+ "/" +:+ str_take 2 file_id +:+ "/" +:+ file_id.

Definition BuildFileUrl (file_id : string) : string :=
  let host := if decide (fc_host config = "0.0.0.0") then "127.0.0.1" else fc_host config in
  "http://" +:+ host +:+ ":" +:+ pretty (fc_http_port config) +:+ "/files/" +:+ file_id.

Definition GetTempPath (upload_id : string) : string :=
  fc_storage_path config +:+ "/.tmp/" +:+ upload_id.

(** ** Access to the state *)

Definition on_store {A} : M db A → M FileState A :=
  zoom fs_store (λ d s, {| fs_store := d; fs_disk := fs_disk s |}).
Definition on_disk (f : gmap string string → gmap string string) : M FileState unit :=
  λ s, (Ret tt, {| fs_store := fs_store s; fs_disk := f (fs_disk s) |}).
Definition content (disk : gmap string string) (path : string) : string :=
  default "" (disk !! path).

(** What of [data] reaches the file. *)
Definition written (w : option nat) (data : string) : string :=
  match w with None => data | Some n => str_take n data end.

(** [fs::remove(path, ec)], true when [ec] is clear. *)
Definition remove_file (e : FileEnv) (path : string) : M FileState bool :=
  if fe_remove e path then _ ← on_disk (delete path); mret true else mret false.

(** [fs::rename(from, to, ec)], true when [ec] is clear. *)
Definition rename_file (e : FileEnv) (from to : string) : M FileState bool :=
  c ← reads (λ s, fs_disk s !! from);
  match c with
  | Some c => if fe_rename e
              then _ ← on_disk (λ m, <[to := c]> (delete from m)); mret true
              else mret false
  | None => mret false
  end.

(** ** Uploads *)

Definition InitUpload (e : FileEnv) (user_id file_name content_type : string) (file_size : Z)
    (md5 msg_id : string) : M FileState InitUploadResult :=
  if decide (file_size ≤ 0 ∨ fc_max_file_size config < file_size)
  then mret (init_fail FILE_TOO_LARGE) else
  existing ← reads (λ s, if decide (md5 = "") then None else GetByMd5 (fs_store s) md5);
  match existing with
  | Some existing =>
      mret {| iu_success := true; iu_error_code := 0; iu_error := "";
              iu_upload_id := fm_file_id existing;
              iu_expire_at := wrap64 (NowSeconds e 0 + fc_upload_session_expire_seconds config);
              iu_existing_file_id := fm_file_id existing |}
  | None =>
      let upload_id := GenerateFileId e 0 0 in
      let expire_at := wrap64 (NowSeconds e 1 + fc_upload_session_expire_seconds config) in
      let temp_path := GetTempPath upload_id in
      if negb (fe_mkdir e temp_path) then mret (init_fail INTERNAL_ERROR) else
      ok ← on_store (SaveUploadSession
        {| us_upload_id := upload_id; us_user_id := user_id; us_file_name := file_name;
           us_content_type := content_type; us_file_size := file_size; us_md5 := md5;
           us_msg_id := msg_id; us_temp_path := temp_path; us_bytes_written := 0;
           us_expire_at := expire_at |});
      if negb ok then mret (init_fail UPLOAD_FAILED) else
      mret {| iu_success := true; iu_error_code := 0; iu_error := ""; iu_upload_id := upload_id;
              iu_expire_at := expire_at; iu_existing_file_id := "" |}
  end.

Definition GetUploadState (upload_id : string) : M FileState GetUploadStateResult :=
  s ← reads (λ s, GetUploadSession (fs_store s) upload_id);
  mret match s with
  | None => {| gu_found := false; gu_error_code := ErrorCodeToInt FILE_EXPIRED;
               gu_error := ErrorCodeToString FILE_EXPIRED; gu_offset := 0; gu_file_size := 0;
               gu_completed := false; gu_file_id := ""; gu_expire_at := 0 |}
  | Some s => {| gu_found := true; gu_error_code := 0; gu_error := "";
                 gu_offset := us_bytes_written s; gu_file_size := us_file_size s;
                 gu_completed := false; gu_file_id := ""; gu_expire_at := us_expire_at s |}
  end.

(** The error of [create_directories] is ignored; opening fails then.
    [std::ios::app] creates a missing file. *)
Definition AppendChunk (e : FileEnv) (upload_id data : string) : M FileState AppendChunkResult :=
  s ← reads (λ s, GetUploadSession (fs_store s) upload_id);
  match s with
  | None => mret (append_fail FILE_EXPIRED)
  | Some s =>
      let new_offset := wrap64 (us_bytes_written s + wrap64 (Z.of_nat (str_size data))) in
      let path := us_temp_path s in
      if decide (us_file_size s < new_offset) then mret (append_fail INVALID_PARAM) else
      if negb (fe_open e path) then mret (append_fail UPLOAD_FAILED) else
      _ ← on_disk (λ m, <[path := content m path +:+ written (fe_write e) data]> m);
      if bool_decide (is_Some (fe_write e)) then mret (append_fail UPLOAD_FAILED) else
      ok ← on_store (UpdateUploadSessionBytes upload_id new_offset);
      if negb ok then mret (append_fail UPLOAD_FAILED) else
      mret {| ac_success := true; ac_error_code := 0; ac_error := "";
              ac_new_offset := new_offset |}
  end.

Definition CompleteUpload (e : FileEnv) (upload_id : string) : M FileState CompleteUploadResult :=
  s ← reads (λ s, GetUploadSession (fs_store s) upload_id);
  match s with
  | None => mret (complete_fail FILE_EXPIRED)
  | Some s =>
      if decide (us_bytes_written s ≠ us_file_size s)
      then mret (complete_fail UPLOAD_INCOMPLETE) else
      let file_id := GenerateFileId e 0 0 in
      let final_path := BuildStoragePath file_id in
      if negb (fe_mkdir e final_path) then mret (complete_fail INTERNAL_ERROR) else
      renamed ← rename_file e (us_temp_path s) final_path;
      if negb renamed then mret (complete_fail UPLOAD_FAILED) else
      ok ← on_store (Save
        {| fm_file_id := file_id; fm_file_name := us_file_name s;
           fm_content_type := us_content_type s; fm_file_size := us_file_size s;
           fm_md5 := us_md5 s; fm_uploader_id := us_user_id s; fm_storage_path := final_path;
           fm_uploaded_at := NowSeconds e 1 |});
      if negb ok then _ ← remove_file e final_path; mret (complete_fail UPLOAD_FAILED) else
      _ ← on_store (DeleteUploadSession upload_id);
      mret {| cu_success := true; cu_error_code := 0; cu_error := ""; cu_file_id := file_id;
              cu_file_url := BuildFileUrl file_id; cu_thumbnail_url := "" |}
  end.

(** The buffer of the stream reaches the file when the stream is destroyed, at
    the return; nothing looks at the file in between, and a failure then
    ([fe_close]) is not noticed. *)
Definition Upload (e : FileEnv) (user_id file_name content_type data : string)
    : M FileState UploadResult :=
  let size := wrap64 (Z.of_nat (str_size data)) in
  if decide (fc_max_file_size config < size) then mret (upload_fail FILE_TOO_LARGE) else
  let file_id := GenerateFileId e 0 0 in
  let path := BuildStoragePath file_id in
  if negb (fe_mkdir e path) then mret (upload_fail INTERNAL_ERROR) else
  if negb (fe_open e path) then mret (upload_fail UPLOAD_FAILED) else
  match fe_write e with
  | Some _ =>
      _ ← on_disk (insert path (written (fe_write e) data));
      _ ← remove_file e path; mret (upload_fail UPLOAD_FAILED)
  | None =>
      _ ← on_disk (insert path (written (fe_close e) data));
      ok ← on_store (Save
        {| fm_file_id := file_id; fm_file_name := file_name; fm_content_type := content_type;
           fm_file_size := size; fm_md5 := ""; fm_uploader_id := user_id;
           fm_storage_path := path; fm_uploaded_at := NowSeconds e 1 |});
      if negb ok then _ ← remove_file e path; mret (upload_fail UPLOAD_FAILED) else
      mret {| ur_success := true; ur_error_code := 0; ur_file_id := file_id;
              ur_file_url := BuildFileUrl file_id; ur_thumbnail_url := ""; ur_error := "" |}
  end.

Definition GetUploadToken (e : FileEnv) (user_id file_name : string) (file_size : Z)
    : M FileState UploadTokenResult :=
  let fail code error := {| ut_success := false; ut_error_code := code; ut_error := error;
                            ut_upload_token := ""; ut_upload_url := ""; ut_expire_at := 0 |} in
  if decide (file_size ≤ 0 ∨ fc_max_file_size config < file_size)
  then mret (fail (ErrorCodeToInt FILE_TOO_LARGE) (ErrorCodeToString FILE_TOO_LARGE)) else
  init ← InitUpload e user_id file_name "" file_size "" "";
  if negb (iu_success init) then mret (fail (iu_error_code init) (iu_error init)) else
  let upload_url := BuildFileUrl "" in
  let upload_url := if str_ends_with upload_url "/" then upload_url else upload_url +:+ "/" in
  mret {| ut_success := true; ut_error_code := 0; ut_error := "";
          ut_upload_token := iu_upload_id init; ut_upload_url := upload_url +:+ "upload";
          ut_expire_at := iu_expire_at init |}.

(** ** Downloads *)

Definition GetFileUrl (file_id user_id : string) : M FileState FileUrlResult :=
  meta ← reads (λ s, GetById (fs_store s) file_id);
  mret match meta with
  | None => {| fu_success := false; fu_error_code := ErrorCodeToInt FILE_NOT_FOUND;
               fu_error := ErrorCodeToString FILE_NOT_FOUND; fu_file_url := "";
               fu_file_name := ""; fu_file_size := 0; fu_content_type := "";
               fu_expire_at := 0 |}
  | Some meta => {| fu_success := true; fu_error_code := 0; fu_error := "";
                    fu_file_url := BuildFileUrl file_id; fu_file_name := fm_file_name meta;
                    fu_file_size := fm_file_size meta; fu_content_type := fm_content_type meta;
                    fu_expire_at := 0 |}
  end.

(** [data.resize(n); f.read(data.data(), n)] from [offset]: [resize] throws when
    the vector cannot be allocated (a negative [n] is a huge [size_t]); the read
    succeeds when the file has all the bytes. *)
Definition read_at (e : FileEnv) (c : string) (offset n : Z) : outcome (option string) :=
  if negb (bool_decide (0 ≤ n) && fe_alloc e n) then Exc else
  if fe_read e && bool_decide (n = 0 ∨ offset + n ≤ Z.of_nat (str_size c))
  then Ret (Some (str_take (Z.to_nat n) (str_drop (Z.to_nat offset) c)))
  else Ret None.

Definition of_outcome {S A} (o : outcome A) : M S A := λ s, (o, s).

(** [None] is the answer [false].  The file size is the caller's [data.size()]. *)
Definition ReadFile (e : FileEnv) (file_id : string) : M FileState (option FileData) :=
  meta ← reads (λ s, GetById (fs_store s) file_id);
  match meta with
  | None => mret None
  | Some meta =>
      file ← reads (λ s, fs_disk s !! fm_storage_path meta);
      match file with
      | Some c =>
          if negb (fe_open e (fm_storage_path meta)) then mret None else
          let size := Z.of_nat (str_size c) in
          data ← of_outcome (read_at e c 0 size);
          mret ((λ data, {| rd_data := data; rd_content_type := fm_content_type meta;
                            rd_file_name := fm_file_name meta; rd_file_size := size |}) <$> data)
      | None => mret None
      end
  end.

Definition ReadFileRange (e : FileEnv) (file_id : string) (offset length : Z)
    : M FileState (option FileData) :=
  meta ← reads (λ s, GetById (fs_store s) file_id);
  match meta with
  | None => mret None
  | Some meta =>
      let file_size := fm_file_size meta in
      let answer data := {| rd_data := data; rd_content_type := fm_content_type meta;
                            rd_file_name := fm_file_name meta; rd_file_size := file_size |} in
      let offset := if decide (offset < 0) then 0 else offset in
      if decide (file_size ≤ offset) then mret (Some (answer "")) else
      let read_len := if decide (length < 0) then file_size - offset else length in
      let read_len := if decide (file_size < wrap64 (offset + read_len))
                      then file_size - offset else read_len in
      file ← reads (λ s, fs_disk s !! fm_storage_path meta);
      match file with
      | Some c =>
          if negb (fe_open e (fm_storage_path meta)) then mret None else
          data ← of_outcome (read_at e c offset read_len);
          mret (answer <$> data)
      | None => mret None
      end
  end.

Definition GetFileInfo (file_id : string) : M FileState FileInfoResult :=
  reads (λ s, GetById (fs_store s) file_id).

Definition CheckMd5 (md5 : string) : M FileState (option string) :=
  reads (λ s, fm_file_id <$> GetByMd5 (fs_store s) md5).

(** ** Deletion *)

Definition DeleteFile (e : FileEnv) (file_id user_id : string) : M FileState bool :=
  meta ← reads (λ s, GetById (fs_store s) file_id);
  match meta with
  | None => mret false
  | Some meta =>
      if decide (fm_uploader_id meta ≠ user_id) then mret false else
      ok ← on_store (Delete file_id);
      if negb ok then mret false else
      _ ← remove_file e (fm_storage_path meta);
      mret true
  end.

(** One pass of the loop: true when it failed ([failed_count++]). *)
Definition cleanup_session (e : FileEnv) (now : Z) (session : UploadSessionData)
    : M FileState bool :=
  if decide (now < us_expire_at session) then mret false else
  let path := us_temp_path session in
  exists_ ← reads (λ s, fe_stat e path && bool_decide (is_Some (fs_disk s !! path)));
  removed ← (if exists_ : bool then remove_file e path else mret true);
  if negb removed then mret true else
  ok ← on_store (DeleteUploadSession (us_upload_id session));
  mret (negb ok).

Fixpoint cleanup_loop (e : FileEnv) (now : Z) (l : list UploadSessionData) (failed : nat)
    : M FileState nat :=
  match l with
  | [] => mret failed
  | session :: l =>
      f ← cleanup_session e now session;
      cleanup_loop e now l (if f : bool then S failed else failed)
  end.

(** The number of failures, which the code logs. *)
Definition CleanupExpiredSessions (e : FileEnv) : M FileState nat :=
  sessions ← reads (λ s, ListAllUploadSessions (fs_store s));
  cleanup_loop e (NowSeconds e 0) sessions 0.
End FileService.

(** * Identifiers and paths: facts *)

(** A generated identifier: 32 characters, none of which is a dot. *)
Definition gen_id (id : string) : Prop := str_size id = 32%nat ∧ str_has "." id = false.

Lemma hex_encode_gen s : str_size (hex_encode s) = (2 * str_size s)%nat ∧ str_has "." (hex_encode s) = false.
Proof.
  induction s as [|c s [IHs IHd]]; [done|]. unfold str_size in *. cbn [hex_encode str_has String.length].
  split; [lia|]. rewrite IHd. by destruct c as [[] [] [] [] [] [] [] []].
Qed.
Lemma le_bytes_size n z : str_size (le_bytes n z) = n.
Proof. unfold str_size. revert z. induction n as [|n IH]; intros z; simpl; [done|]. by rewrite IH. Qed.

Lemma GenerateFileId_gen e i j : gen_id (GenerateFileId e i j).
Proof.
  unfold gen_id, GenerateFileId.
  destruct (hex_encode_gen (le_bytes 8 (fe_clock e i) +:+ le_bytes 8 (fe_rand e j))) as [Hs Hd].
  by rewrite Hs, str_size_app, !le_bytes_size.
Qed.
Lemma gen_id_ne id : gen_id id → id ≠ "".
Proof. by intros [? _] ->. Qed.

Section Paths.
Variable config : FileConfig.

Lemma BuildStoragePath_gen id : gen_id id → ∃ a b rest, id = String a (String b rest) ∧ a ≠ "."%char ∧
  BuildStoragePath config id =
    fc_storage_path config +:+ (String "/" (String a (String b (String "/" id)))).
Proof.
  intros [Hs Hd]. unfold BuildStoragePath. rewrite decide_False by lia.
  destruct id as [|a [|b rest]]; [done..|]. exists a, b, rest. split_and!; [done| |done].
  intros ->. by simpl in Hd.
Qed.

(** Two files are never at the same path, nor at that of a temporary file. *)
Lemma BuildStoragePath_inj id id' : gen_id id → gen_id id' →
  BuildStoragePath config id = BuildStoragePath config id' → id = id'.
Proof.
  intros (a & b & r & _ & _ & ->)%BuildStoragePath_gen (a' & b' & r' & _ & _ & ->)%BuildStoragePath_gen.
  intros Heq. apply (f_equal (str_drop (str_size (fc_storage_path config)))) in Heq.
  rewrite !str_drop_app in Heq. congruence.
Qed.
Lemma GetTempPath_inj id id' : GetTempPath config id = GetTempPath config id' → id = id'.
Proof.
  unfold GetTempPath. intros Heq.
  apply (f_equal (str_drop (str_size (fc_storage_path config)))) in Heq.
  rewrite !str_drop_app in Heq. simpl in Heq. congruence.
Qed.
Lemma storage_temp_ne id id' : gen_id id → BuildStoragePath config id ≠ GetTempPath config id'.
Proof.
  intros (a & b & r & _ & Ha & ->)%BuildStoragePath_gen. unfold GetTempPath. intros Heq.
  apply (f_equal (str_drop (str_size (fc_storage_path config)))) in Heq.
  rewrite !str_drop_app in Heq. simpl in Heq. congruence.
Qed.
End Paths.

(** * The store and the disk agree *)

Section Consistency.
Context {db : Type} `{!RocksDB db} `{!RocksDBLaws db} `{!JsonLib} `{!JsonLaws}.
Variable config : FileConfig.
Notation FileState := (FileState db).
Notation temp := (GetTempPath config).
Notation final := (BuildStoragePath config).
Implicit Types st : FileState.

(** The temporary file of a session holds the bytes the session counts. *)
Record session_ok (disk : gmap string string) (id : string) (s : UploadSessionData) : Prop := {
  so_gen : gen_id id;
  so_path : us_temp_path s = temp id;
  so_range : 0 ≤ us_bytes_written s ≤ us_file_size s;
  so_max : us_file_size s ≤ fc_max_file_size config;
  so_content : Z.of_nat (str_size (content disk (temp id))) = us_bytes_written s;
}.
(** A file is at its path, with the size its record says. *)
Record file_ok (disk : gmap string string) (id : string) (m : FileMetaData) : Prop := {
  fo_gen : gen_id id;
  fo_path : fm_storage_path m = final id;
  fo_content : ∃ c, disk !! final id = Some c ∧ Z.of_nat (str_size c) = fm_file_size m;
}.
Record disk_rep st (M : smodel) : Prop := {
  dr_store : store_rep (fs_store st) M;
  dr_sessions : map_Forall (session_ok (fs_disk st)) (uploads M);
  dr_files : map_Forall (file_ok (fs_disk st)) (metas M);
}.

(** An identifier that names nothing yet. *)
Definition fresh_id st (id : string) : Prop :=
  GetUploadSession (fs_store st) id = None ∧ GetById (fs_store st) id = None ∧
  fs_disk st !! temp id = None ∧ fs_disk st !! final id = None.

Lemma session_ok_frame disk disk' id s : disk' !! temp id = disk !! temp id →
  session_ok disk id s → session_ok disk' id s.
Proof. intros Hd []. split; auto. unfold content in *. by rewrite Hd. Qed.
Lemma file_ok_frame disk disk' id m : disk' !! final id = disk !! final id →
  file_ok disk id m → file_ok disk' id m.
Proof. intros Hd []. split; auto. by rewrite Hd. Qed.

Lemma on_store_run {A} (m : M db A) st r st' : on_store m st = (r, st') →
  m (fs_store st) = (r, fs_store st') ∧ fs_disk st' = fs_disk st.
Proof. unfold on_store, zoom. destruct (m (fs_store st)) as [r1 d1]. by intros [= <- <-]. Qed.

(** A failed or refused call to the store may have been executed or not. *)
Lemma on_store_refines op f st M r st' :
  refines store_rep op f → store_rep (fs_store st) M → on_store op st = (r, st') →
  fs_disk st' = fs_disk st ∧ ∃ M', store_rep (fs_store st') M' ∧
    (r = Ret true ∧ f M = Some M' ∨ r ≠ Ret true ∧ M' = M).
Proof.
  intros Hop Hr [Hrun Hd]%on_store_run. split; [done|]. by apply (refines_outcome _ _ _ _ _ _ _ Hop Hr).
Qed.

Lemma remove_file_run e p st r st' : remove_file e p st = (r, st') →
  fs_store st' = fs_store st ∧ ∀ q, q ≠ p → fs_disk st' !! q = fs_disk st !! q.
Proof.
  unfold remove_file, on_disk. intros Hrun. destruct (fe_remove e p); munfold Hrun; simplify_eq; [|done].
  simpl. split; [done|]. intros q ?. by rewrite lookup_delete_ne by done.
Qed.

(** A change of the disk at paths that belong to no session and no file. *)
Lemma disk_rep_disk st st' M : disk_rep st M → store_rep (fs_store st') M →
  (∀ id, is_Some (uploads M !! id) → fs_disk st' !! temp id = fs_disk st !! temp id) →
  (∀ id, is_Some (metas M !! id) → fs_disk st' !! final id = fs_disk st !! final id) →
  disk_rep st' M.
Proof.
  intros [Hr Hs Hf] Hst Hs' Hf'. split; [done|..].
  - intros id s Hid. eapply session_ok_frame; [by apply Hs'; eauto|eauto].
  - intros id m Hid. eapply file_ok_frame; [by apply Hf'; eauto|eauto].
Qed.

Hypothesis max_ok : fc_max_file_size config < 2 ^ 62.

Lemma GetByMd5_nonempty d M md5 m : store_rep d M → GetByMd5 d md5 = Some m → fm_file_id m ≠ "".
Proof.
  intros Hr. rewrite (GetByMd5_rep _ _ _ Hr).
  destruct (md5s M !! md5) as [id|]; [simpl|done]. intros Hm.
  by destruct (proj1 (store_ids _ _ Hr) _ _ Hm) as [-> ?].
Qed.

(** A new session for [id]. *)
Definition add_session (id : string) (s : UploadSessionData) (M : smodel) : smodel :=
  {| metas := metas M; md5s := md5s M; uploads := <[id := s]> (uploads M) |}.

Lemma disk_rep_add_session st st' M id s :
  disk_rep st M → fs_disk st' = fs_disk st → session_ok (fs_disk st) id s →
  store_rep (fs_store st') (add_session id s M) → disk_rep st' (add_session id s M).
Proof.
  intros [Hr Hs Hf] Hd Hs' Hr'. split; simpl; rewrite ?Hd; [done|by apply map_Forall_insert_2|done].
Qed.

Lemma InitUpload_run e u fn ct size md5 mid st M r st' :
  disk_rep st M → fresh_id st (GenerateFileId e 0 0) →
  InitUpload config e u fn ct size md5 mid st = (r, st') →
  fs_disk st' = fs_disk st ∧
  (disk_rep st' M ∧ (∀ x, r = Ret x → iu_success x = true → iu_existing_file_id x ≠ "")
   ∨ ∃ ex s, r = Ret {| iu_success := true; iu_error_code := 0; iu_error := "";
        iu_upload_id := GenerateFileId e 0 0; iu_expire_at := ex; iu_existing_file_id := "" |} ∧
      us_bytes_written s = 0 ∧ us_file_size s = size ∧ us_file_name s = fn ∧
      us_content_type s = ct ∧ us_user_id s = u ∧ us_md5 s = md5 ∧
      disk_rep st' (add_session (GenerateFileId e 0 0) s M)).
Proof.
  intros Hrep (_ & _ & Htemp & _) Hrun. unfold InitUpload in Hrun. munfold Hrun.
  destruct (decide _) as [|Hsize]; [injection Hrun as <- <-; naive_solver|].
  apply Decidable.not_or in Hsize.
  destruct (if decide (md5 = "") then _ else _) as [m|] eqn:Hmd5.
  { injection Hrun as <- <-. split; [done|]. left. split; [done|]. intros x [= <-] _. simpl.
    case_decide; [done|]. by apply (GetByMd5_nonempty _ M md5 m (dr_store _ _ Hrep)). }
  destruct (fe_mkdir _ _); cbn [negb] in Hrun; [|injection Hrun as <- <-; naive_solver].
  set (s := Build_UploadSessionData _ _ _ _ _ _ _ _ _ _) in Hrun.
  destruct (on_store _ st) as [rs st1] eqn:Hsave.
  pose proof (GenerateFileId_gen e 0 0) as Hgen.
  apply (on_store_refines _ (a_SaveUploadSession s) _ M) in Hsave as (Hd & M' & Hr' & Hres);
    [|apply SaveUploadSession_refines; by apply gen_id_ne|apply dr_store, Hrep].
  destruct Hres as [[-> [= <-]]|[Hne ->]].
  - cbn [negb] in Hrun. injection Hrun as <- <-. split; [done|]. right.
    exists (us_expire_at s), s. split_and!; try done.
    apply (disk_rep_add_session st); [done..| |done].
    split; [done|done|simpl; lia|simpl; lia|]. unfold content. by rewrite Htemp.
  - assert (disk_rep st1 M) as Hrep1.
    { destruct Hrep. split; [done|by rewrite Hd..]. }
    destruct rs as [[]|]; cbn [negb] in Hrun; injection Hrun as <- <-; naive_solver.
Qed.

Lemma int64_sum a b : 0 ≤ a < 2 ^ 62 → 0 ≤ b < 2 ^ 62 → wrap64 (a + wrap64 b) = a + b.
Proof. intros. by rewrite (wrap64_id b), wrap64_id by (unfold int64_range; lia). Qed.

(** No chunk has 2^62 bytes. *)
Definition small (data : string) : Prop := Z.of_nat (str_size data) < 2 ^ 62.

(** A chunk is refused, with nothing changed, or is at the end of the file. *)
Lemma AppendChunk_run e id data st M r st' :
  disk_rep st M → small data → AppendChunk e id data st = (Ret r, st') →
  r ≠ append_fail UPLOAD_FAILED →
  ac_success r = false ∧ st' = st ∨
  ∃ s, uploads M !! id = Some s ∧ ac_success r = true ∧
    ac_new_offset r = us_bytes_written s + Z.of_nat (str_size data) ∧
    ac_new_offset r ≤ us_file_size s ∧
    fs_disk st' = <[temp id := content (fs_disk st) (temp id) +:+ data]> (fs_disk st) ∧
    store_rep (fs_store st') (add_session id (us_set_bytes (ac_new_offset r) s) M).
Proof.
  intros [Hr Hs _] Hsmall Hrun Hcode. unfold AppendChunk in Hrun. munfold Hrun.
  rewrite (GetUploadSession_rep _ M _ Hr) in Hrun.
  destruct (uploads M !! id) as [s|] eqn:Hid; [|injection Hrun as <- <-; by left].
  destruct (Hs _ _ Hid) as [Hgen Hpath Hrange Hmax _].
  rewrite int64_sum in Hrun by (unfold small in *; lia).
  destruct (decide _) as [|Hfit]; [injection Hrun as <- <-; by left|].
  destruct (fe_open _ _); cbn [negb] in Hrun; [|by injection Hrun as <- <-].
  unfold on_disk in Hrun. cbv beta iota in Hrun.
  destruct (fe_write e); [by injection Hrun as <- <-|].
  rewrite bool_decide_false in Hrun by (by intros [? ?]).
  destruct (on_store _ _) as [rs st1] eqn:Hup.
  apply (on_store_refines _ _ _ M _ _ (UpdateUploadSessionBytes_refines id _)) in Hup
    as (Hd & M' & Hr' & Hres); [|done].
  destruct rs as [[]|]; cbn [negb] in Hrun; [|by injection Hrun as <- <-|done].
  injection Hrun as <- <-. destruct Hres as [[_ HM']|[? _]]; [|done].
  unfold a_UpdateUploadSessionBytes in HM'. rewrite Hid in HM'. simpl in HM'. injection HM' as <-.
  right. exists s. destruct (proj2 (store_ids _ _ Hr) _ _ Hid) as [Hsid _]. simpl.
  split_and!; [done..|lia|by rewrite Hd, Hpath|]. unfold add_session. by rewrite <-Hsid at 1.
Qed.

Lemma str_size_appZ s1 s2 : Z.of_nat (str_size (s1 +:+ s2)) = Z.of_nat (str_size s1) + Z.of_nat (str_size s2).
Proof. rewrite str_size_app. lia. Qed.

(** Sessions other than [id], and files, do not live at [temp id]. *)
Lemma temp_frame id disk c M : map_Forall (session_ok disk) (uploads M) → 
  map_Forall (file_ok disk) (metas M) →
  (∀ id' s, id' ≠ id → uploads M !! id' = Some s → session_ok (<[temp id := c]> disk) id' s) ∧
  map_Forall (file_ok (<[temp id := c]> disk)) (metas M).
Proof.
  intros Hs Hf. split.
  - intros id' s Hne Hid. eapply session_ok_frame; [|by apply Hs].
    apply lookup_insert_ne. by intros ?%GetTempPath_inj.
  - intros id' m Hid. eapply file_ok_frame; [|by apply Hf].
    apply lookup_insert_ne. intros Heq. symmetry in Heq. revert Heq.
    by apply storage_temp_ne, (fo_gen _ _ _ (Hf _ _ Hid)).
Qed.

Lemma AppendChunk_inv e id data st M r st' :
  disk_rep st M → small data → AppendChunk e id data st = (Ret r, st') →
  r ≠ append_fail UPLOAD_FAILED → ∃ M', disk_rep st' M'.
Proof.
  intros Hrep Hsmall Hrun Hcode.
  destruct (AppendChunk_run _ _ _ _ _ _ _ Hrep Hsmall Hrun Hcode)
    as [[_ ->]|(s & Hid & _ & Hoff & Hle & Hd & Hr')]; [by eexists|].
  eexists. split; [exact Hr'|..]; rewrite Hd; destruct Hrep as [_ Hs Hf];
    destruct (temp_frame id (fs_disk st) (content (fs_disk st) (temp id) +:+ data) M Hs Hf) as [Hs' Hf'].
  - simpl. intros id' s'. destruct (decide (id' = id)) as [->|Hne].
    + rewrite lookup_insert_eq. intros [= <-]. destruct (Hs _ _ Hid) as [Hgen Hpath Hrange Hmax Hc].
      split; simpl; [done|done|lia|lia|]. unfold content at 1. rewrite lookup_insert_eq. simpl.
      rewrite str_size_appZ. lia.
    + rewrite lookup_insert_ne by done. by apply Hs'.
  - exact Hf'.
Qed.

(** A new file, with some sessions gone. *)
Lemma disk_rep_new_file st st' M U md5 id m c :
  disk_rep st M → U ⊆ uploads M → gen_id id → fm_storage_path m = final id →
  Z.of_nat (str_size c) = fm_file_size m → fs_disk st' !! final id = Some c →
  (∀ id', is_Some (U !! id') → fs_disk st' !! temp id' = fs_disk st !! temp id') →
  (∀ id', gen_id id' → id' ≠ id → fs_disk st' !! final id' = fs_disk st !! final id') →
  store_rep (fs_store st') {| metas := <[id := m]> (metas M); md5s := md5; uploads := U |} →
  disk_rep st' {| metas := <[id := m]> (metas M); md5s := md5; uploads := U |}.
Proof.
  intros [_ Hs Hf] Hsub Hgen Hpath Hsize Hnew Htemp Hfinal Hr'. split; simpl; [done|..].
  - intros id' s Hid'. eapply session_ok_frame; [by apply Htemp; eauto|].
    apply Hs. by eapply lookup_weaken.
  - intros id' m'. destruct (decide (id' = id)) as [->|Hne].
    + rewrite lookup_insert_eq. intros [= <-]. split; [done|done|eauto].
    + rewrite lookup_insert_ne by done. intros Hid'. pose proof (Hf _ _ Hid') as Hok.
      eapply file_ok_frame; [|exact Hok]. by apply Hfinal, Hne; apply Hok.
Qed.

Definition md5s_with (m : FileMetaData) (M : smodel) : gmap string string :=
  if decide (fm_md5 m = "") then md5s M else <[fm_md5 m := fm_file_id m]> (md5s M).

Lemma CompleteUpload_run e id st M r st' :
  disk_rep st M → CompleteUpload config e id st = (Ret r, st') →
  r ≠ complete_fail UPLOAD_FAILED →
  cu_success r = false ∧ st' = st ∨
  let fid := GenerateFileId e 0 0 in
  ∃ s c m U, uploads M !! id = Some s ∧ cu_success r = true ∧ cu_file_id r = fid ∧
    fs_disk st !! temp id = Some c ∧ Z.of_nat (str_size c) = us_file_size s ∧
    fm_file_id m = fid ∧ fm_file_name m = us_file_name s ∧
    fm_content_type m = us_content_type s ∧ fm_file_size m = us_file_size s ∧
    fm_uploader_id m = us_user_id s ∧ fm_storage_path m = final fid ∧ fm_md5 m = us_md5 s ∧
    fs_disk st' = <[final fid := c]> (delete (temp id) (fs_disk st)) ∧
    (U = delete id (uploads M) ∨ U = uploads M) ∧
    store_rep (fs_store st')
      {| metas := <[fid := m]> (metas M); md5s := md5s_with m M; uploads := U |}.
Proof.
  intros [Hr Hs _] Hrun Hcode. unfold CompleteUpload in Hrun. munfold Hrun.
  rewrite (GetUploadSession_rep _ M _ Hr) in Hrun.
  destruct (uploads M !! id) as [s|] eqn:Hid; [|injection Hrun as <- <-; by left].
  destruct (Hs _ _ Hid) as [Hgen Hpath Hrange Hmax Hcont].
  destruct (decide _) as [|Hfull]; [injection Hrun as <- <-; by left|]. apply dec_stable in Hfull.
  destruct (fe_mkdir _ _); cbn [negb] in Hrun; [|injection Hrun as <- <-; by left].
  unfold rename_file, on_disk in Hrun. munfold Hrun. rewrite Hpath in Hrun.
  unfold content in Hcont.
  destruct (fs_disk st !! temp id) as [c|] eqn:Hc; [|by injection Hrun as <- <-].
  destruct (fe_rename e); cbn [negb] in Hrun; [|by injection Hrun as <- <-].
  set (fid := GenerateFileId e 0 0) in *. set (m := Build_FileMetaData _ _ _ _ _ _ _ _) in Hrun.
  destruct (on_store (Save m) _) as [rs st1] eqn:Hsave.
  apply (on_store_refines _ _ _ M _ _ (Save_meta_refines m (gen_id_ne _ (GenerateFileId_gen e 0 0))))
    in Hsave as (Hd1 & M1 & Hr1 & Hres1); [|done].
  destruct rs as [[]|]; cbn [negb] in Hrun; [|by destruct (remove_file _ _ _) as [[|] ?]; simplify_eq|done].
  destruct Hres1 as [[_ [= <-]]|[? _]]; [|done].
  destruct (on_store (DeleteUploadSession id) st1) as [rd st2] eqn:Hdel.
  destruct (on_store_refines _ _ _ _ _ _ (DeleteUploadSession_refines id) Hr1 Hdel)
    as (Hd2 & M2 & Hr2 & Hres2).
  destruct rd as [b|]; [|done]. injection Hrun as <- <-. right.
  exists s, c, m, (uploads M2). rewrite Hd2, Hd1. split_and!; try done; [simpl in Hcont; lia|..].
  - destruct Hres2 as [[_ [= <-]]|[_ ->]]; simpl; auto.
  - by destruct Hres2 as [[_ [= <-]]|[_ ->]].
Qed.

Lemma CompleteUpload_inv e id st M r st' :
  disk_rep st M → CompleteUpload config e id st = (Ret r, st') →
  r ≠ complete_fail UPLOAD_FAILED →
  (cu_success r = true → GetUploadSession (fs_store st') id = None) → ∃ M', disk_rep st' M'.
Proof.
  intros Hrep Hrun Hcode Hgone.
  destruct (CompleteUpload_run _ _ _ _ _ _ Hrep Hrun Hcode)
    as [[_ ->]|(s & c & m & U & Hid & Hok & _ & Hc & Hsize & _ & _ & _ & Hms & _ & Hp & _ & Hd & HU & Hr')];
    [by eexists|].
  pose proof (GenerateFileId_gen e 0 0) as Hgen. specialize (Hgone Hok).
  rewrite (GetUploadSession_rep _ _ _ Hr') in Hgone. simpl in Hgone.
  eexists. eapply (disk_rep_new_file st st' M); [done| |done|done|by rewrite Hms|..|exact Hr'].
  - destruct HU as [-> | ->]; [apply delete_subseteq|done].
  - by rewrite Hd, lookup_insert_eq.
  - intros id' [s' Hs']. rewrite Hd, lookup_insert_ne, lookup_delete_ne; [done|..].
    + intros ->%GetTempPath_inj. congruence.
    + by apply storage_temp_ne.
  - intros id' Hgen' Hne. rewrite Hd, lookup_insert_ne, lookup_delete_ne; [done|..].
    + intros Heq. symmetry in Heq. by apply storage_temp_ne in Heq.
    + by intros ?%BuildStoragePath_inj.
Qed.

(** What [DeleteFile] does: only the uploader deletes, and only that file. *)
Lemma DeleteFile_run e id u st M r st' :
  disk_rep st M → DeleteFile e id u st = (r, st') →
  (∀ q, q ≠ final id → fs_disk st' !! q = fs_disk st !! q) ∧
  (r ≠ Ret true ∧ fs_disk st' = fs_disk st ∧ store_rep (fs_store st') M ∨
   ∃ m M', r = Ret true ∧ metas M !! id = Some m ∧ fm_uploader_id m = u ∧
     store_rep (fs_store st') M' ∧ a_Delete id M = Some M').
Proof.
  intros [Hr _ Hf] Hrun. unfold DeleteFile in Hrun. munfold Hrun.
  rewrite (FileStore_GetById_rep _ M _ Hr) in Hrun.
  destruct (metas M !! id) as [m|] eqn:Hid; [|injection Hrun as <- <-; naive_solver].
  destruct (decide _) as [|Hu]; [injection Hrun as <- <-; naive_solver|]. apply dec_stable in Hu.
  destruct (on_store (Delete id) st) as [rs st1] eqn:Hdel.
  destruct (on_store_refines _ _ _ _ _ _ (Delete_meta_refines id) Hr Hdel) as (Hd & M' & Hr' & Hres).
  destruct rs as [[]|]; cbn [negb] in Hrun.
  2-3: injection Hrun as <- <-; destruct Hres as [[? _]|[_ ->]]; [done|];
       split; [by intros; rewrite Hd|left; naive_solver].
  destruct Hres as [[_ HM']|[? _]]; [|done].
  destruct (remove_file e _ st1) as [rr st2] eqn:Hrm.
  destruct (remove_file_run _ _ _ _ _ Hrm) as [Hst2 Hd2].
  assert (r = Ret true ∧ st' = st2) as [-> ->].
  { unfold remove_file, on_disk in Hrm. destruct (fe_remove _ _); munfold Hrm; by simplify_eq. }
  destruct (Hf _ _ Hid) as [_ Hpath _]. rewrite Hpath in Hd2. split.
  - intros q Hq. by rewrite Hd2, Hd.
  - right. exists m, M'. by rewrite Hst2.
Qed.

Lemma a_Delete_metas id M M' : a_Delete id M = Some M' →
  metas M' = delete id (metas M) ∧ uploads M' = uploads M.
Proof. unfold a_Delete. destruct (metas M !! id); [|done]. by intros [= <-]. Qed.

Lemma DeleteFile_inv e id u st M r st' :
  disk_rep st M → DeleteFile e id u st = (r, st') → ∃ M', disk_rep st' M'.
Proof.
  intros Hrep Hrun. destruct (DeleteFile_run _ _ _ _ _ _ _ Hrep Hrun)
    as [Hq [(_ & Hd & Hr')|(m & M' & _ & Hid & _ & Hr' & [Hm Hu]%a_Delete_metas)]];
    destruct Hrep as [Hr Hs Hf].
  - exists M. by split; rewrite ?Hd.
  - exists M'. split; [done|..]; rewrite ?Hm, ?Hu.
    + intros id' s Hid'. eapply session_ok_frame; [|by apply Hs]. apply Hq.
      intros Heq. symmetry in Heq. apply storage_temp_ne in Heq; [done|]. by eapply fo_gen, Hf.
    + intros id' m' [Hne Hid']%lookup_delete_Some. eapply file_ok_frame; [|by apply Hf].
      apply Hq. intros Heq. apply Hne. symmetry.
      apply (BuildStoragePath_inj config); [..|done]; by eapply fo_gen, Hf.
Qed.

(** A change of the disk at the path of a file that does not exist. *)
Lemma disk_rep_off_final st st' M id :
  disk_rep st M → gen_id id → metas M !! id = None → store_rep (fs_store st') M →
  (∀ q, q ≠ final id → fs_disk st' !! q = fs_disk st !! q) → disk_rep st' M.
Proof.
  intros Hrep Hgen Hnew Hr Hq. apply (disk_rep_disk st); [done|done|..]; intros id' [x Hid]; apply Hq.
  - intros Heq. symmetry in Heq. by apply storage_temp_ne in Heq.
  - intros Heq%BuildStoragePath_inj; [congruence| |done]. by eapply fo_gen, dr_files.
Qed.

Lemma Upload_inv e u fn ct data st M r st' :
  disk_rep st M → fresh_id st (GenerateFileId e 0 0) → small data → fe_close e = None →
  Upload config e u fn ct data st = (r, st') → ∃ M', disk_rep st' M'.
Proof.
  intros Hrep Hfresh Hsmall Hclose Hrun. unfold Upload in Hrun. munfold Hrun.
  destruct (decide _); [injection Hrun as <- <-; by eexists|].
  destruct (fe_mkdir _ _); cbn [negb] in Hrun; [|injection Hrun as <- <-; by eexists].
  destruct (fe_open _ _); cbn [negb] in Hrun; [|injection Hrun as <- <-; by eexists].
  set (fid := GenerateFileId e 0 0) in *. pose proof (GenerateFileId_gen e 0 0 : gen_id fid) as Hgen.
  pose proof (dr_store _ _ Hrep) as Hr. assert (metas M !! fid = None) as Hnew.
  { destruct Hfresh as (_ & Hf & _). by rewrite (FileStore_GetById_rep _ M) in Hf. }
  destruct (fe_write e) as [k|]; unfold on_disk in Hrun; cbv beta iota in Hrun.
  - destruct (remove_file _ _ _) as [rr st1] eqn:Hrm.
    apply remove_file_run in Hrm as [Hst Hq]. simpl in *. exists M.
    apply (disk_rep_off_final st _ _ fid); [done..|destruct rr; injection Hrun as <- <-; by rewrite Hst|].
    intros q Hne. destruct rr; injection Hrun as <- <-; by rewrite Hq, lookup_insert_ne.
  - rewrite Hclose in Hrun. unfold written in Hrun. set (m := Build_FileMetaData _ _ _ _ _ _ _ _) in Hrun.
    destruct (on_store (Save m) _) as [rs st1] eqn:Hsave.
    apply (on_store_refines _ _ _ M _ _ (Save_meta_refines m (gen_id_ne _ Hgen)))
      in Hsave as (Hd & M' & Hr' & Hres); [|done]. simpl in Hd.
    assert (∀ q, q ≠ final fid → fs_disk st1 !! q = fs_disk st !! q) as Hq1.
    { intros q Hne. by rewrite Hd, lookup_insert_ne. }
    destruct Hres as [[-> [= <-]]|[Hne ->]]; cbn [negb] in Hrun.
    + injection Hrun as <- <-. eexists.
      apply (disk_rep_new_file st st1 M (uploads M) (md5s M) fid m data); try done.
      * unfold small in Hsmall. symmetry. apply wrap64_id. unfold int64_range. lia.
      * by rewrite Hd, lookup_insert_eq.
      * intros. apply Hq1. intros Heq. symmetry in Heq. by apply storage_temp_ne in Heq.
      * intros id' ? Hne. apply Hq1. by intros ?%BuildStoragePath_inj.
    + assert (disk_rep st1 M) as Hrep1 by by apply (disk_rep_off_final st _ _ fid).
      destruct rs as [[]|]; cbn [negb] in Hrun; [done| |injection Hrun as <- <-; by eexists].
      destruct (remove_file _ _ st1) as [rr st2] eqn:Hrm.
      apply remove_file_run in Hrm as [Hst Hq]. exists M.
      assert (st' = st2) as -> by (destruct rr; by simplify_eq).
      apply (disk_rep_off_final st1 _ _ fid); [done..|by rewrite Hst|done].
Qed.

(** ** Cleaning up *)

Definition expired_in (now : Z) (l : list UploadSessionData) (id : string) : Prop :=
  Exists (λ s, us_upload_id s = id ∧ us_expire_at s ≤ now) l.
#[local] Instance expired_in_dec now l id : Decision (expired_in now l id).
Proof. unfold expired_in. apply _. Defined.

Lemma cleanup_session_run e now s st M f st' :
  store_rep (fs_store st) M → us_temp_path s = temp (us_upload_id s) →
  cleanup_session e now s st = (Ret f, st') →
  if f then True else
  if decide (us_expire_at s ≤ now)
  then store_rep (fs_store st')
         {| metas := metas M; md5s := md5s M; uploads := delete (us_upload_id s) (uploads M) |} ∧
       ∀ q, q ≠ temp (us_upload_id s) → fs_disk st' !! q = fs_disk st !! q
  else st' = st.
Proof.
  intros Hr Hpath Hrun. unfold cleanup_session in Hrun. munfold Hrun. rewrite Hpath in Hrun.
  destruct f; [done|]. destruct (decide (now < us_expire_at s)) as [|Hexp].
  { rewrite decide_False by lia. by simplify_eq. }
  rewrite decide_True by lia.
  assert (∃ (rm : bool) st1, fs_store st1 = fs_store st ∧
    (∀ q, q ≠ temp (us_upload_id s) → fs_disk st1 !! q = fs_disk st !! q) ∧
    (if rm then on_store (DeleteUploadSession (us_upload_id s)) st1 = (Ret true, st') else False))
    as (rm & st1 & Hst & Hq & Hdel).
  { destruct (_ && _).
    - destruct (remove_file _ _ st) as [[rm|] st1] eqn:Hrm; [|done].
      apply remove_file_run in Hrm as [Hst Hq]. exists rm, st1.
      destruct rm; cbn [negb] in Hrun; [|done].
      destruct (on_store _ st1) as [[[]|] st2] eqn:Hd; simplify_eq/=. done.
    - exists true, st. cbn [negb] in Hrun.
      destruct (on_store _ st) as [[[]|] st2] eqn:Hd; simplify_eq/=. done. }
  destruct rm; [|done]. rewrite <-Hst in Hr.
  destruct (on_store_refines _ _ _ _ _ _ (DeleteUploadSession_refines _) Hr Hdel)
    as (Hd & M' & Hr' & [[_ [= <-]]|[? _]]); [|done].
  split; [exact Hr'|]. intros q ?. by rewrite Hd, Hq.
Qed.

Lemma cleanup_loop_ge e now l failed st n st' :
  cleanup_loop e now l failed st = (Ret n, st') → (failed ≤ n)%nat.
Proof.
  revert st failed. induction l as [|s l IH]; intros st failed Hrun; simpl in Hrun; munfold Hrun.
  - by injection Hrun as <- <-.
  - destruct (cleanup_session e now s st) as [[f|] st1]; [|done].
    apply IH in Hrun. destruct f; lia.
Qed.

(** A clean-up without a failure: the expired sessions are gone, with nothing
    but their temporary files. *)
Lemma cleanup_loop_run e now l failed st M st' :
  store_rep (fs_store st) M → Forall (λ s, us_temp_path s = temp (us_upload_id s)) l →
  cleanup_loop e now l failed st = (Ret failed, st') →
  ∃ M', store_rep (fs_store st') M' ∧ metas M' = metas M ∧
    (∀ id, uploads M' !! id = if decide (expired_in now l id) then None else uploads M !! id) ∧
    (∀ q, (∀ id, expired_in now l id → q ≠ temp id) → fs_disk st' !! q = fs_disk st !! q).
Proof.
  intros Hr Hl. revert st M Hr. induction Hl as [|s l Hs Hl IH]; intros st M Hr Hrun; simpl in Hrun;
    munfold Hrun.
  { injection Hrun as <-. by exists M. }
  destruct (cleanup_session e now s st) as [[f|] st1] eqn:Hone; [|done].
  destruct f; [apply cleanup_loop_ge in Hrun; lia|].
  apply (cleanup_session_run _ _ _ _ M) in Hone; [|done..]. unfold expired_in.
  destruct (decide (us_expire_at s ≤ now)) as [He|He].
  - destruct Hone as [Hr1 Hq1].
    destruct (IH _ _ Hr1 Hrun) as (M' & Hr' & Hm & Hu & Hq). exists M'. split_and!; [done|done|..].
    + intros id. rewrite Hu. simpl. unfold expired_in. destruct (decide (Exists _ l)) as [Hx|Hx].
      * by rewrite decide_True by by apply Exists_cons_tl.
      * destruct (decide (us_upload_id s = id)) as [<-|Hne].
        -- rewrite decide_True by by apply Exists_cons_hd. apply lookup_delete_eq.
        -- rewrite decide_False by (rewrite Exists_cons; naive_solver). by apply lookup_delete_ne.
    + intros q Hne. rewrite Hq by (intros id ?; apply Hne; by apply Exists_cons_tl).
      apply Hq1, Hne. by apply Exists_cons_hd.
  - subst st1. destruct (IH _ _ Hr Hrun) as (M' & Hr' & Hm & Hu & Hq). exists M'. split_and!; [done|done|..].
    + intros id. rewrite Hu. unfold expired_in. apply decide_ext.
      rewrite Exists_cons. naive_solver.
    + intros q Hne. apply Hq. intros id ?. apply Hne. by apply Exists_cons_tl.
Qed.

Lemma cleanup_run e st M st' :
  disk_rep st M → CleanupExpiredSessions e st = (Ret 0%nat, st') →
  ∃ M', store_rep (fs_store st') M' ∧ metas M' = metas M ∧
    (∀ id, uploads M' !! id =
       s ← uploads M !! id; if decide (us_expire_at s ≤ NowSeconds e 0) then None else Some s) ∧
    (∀ q, (∀ id s, uploads M !! id = Some s → us_expire_at s ≤ NowSeconds e 0 → q ≠ temp id) →
       fs_disk st' !! q = fs_disk st !! q).
Proof.
  intros [Hr Hs _] Hrun. unfold CleanupExpiredSessions in Hrun. munfold Hrun.
  assert (∀ id, expired_in (NowSeconds e 0) (ListAllUploadSessions (fs_store st)) id ↔
    ∃ s, uploads M !! id = Some s ∧ us_expire_at s ≤ NowSeconds e 0) as Hin.
  { intros id. unfold expired_in. rewrite Exists_exists. split.
    - intros (s & Hin & <- & He). exists s. by rewrite <-ListAllUploadSessions_elem.
    - intros (s & Hid & He). exists s. destruct (proj2 (store_ids _ _ Hr) _ _ Hid) as [<- _].
      split; [|done]. by rewrite ListAllUploadSessions_elem. }
  apply (cleanup_loop_run _ _ _ _ _ M) in Hrun as (M' & Hr' & Hm & Hu & Hq); [|done|].
  - exists M'. split_and!; [done|done|..].
    + intros id. rewrite Hu. destruct (uploads M !! id) as [s|] eqn:Hid; simpl.
      * apply decide_ext. rewrite Hin, Hid. naive_solver.
      * by case_decide.
    + intros q Hne. apply Hq. intros id (s & ? & ?)%Hin. by eapply Hne.
  - apply Forall_forall. intros s Hl. rewrite (ListAllUploadSessions_elem _ M) in Hl by done.
    by destruct (Hs _ _ Hl).
Qed.

Lemma Cleanup_inv e st M st' :
  disk_rep st M → CleanupExpiredSessions e st = (Ret 0%nat, st') → ∃ M', disk_rep st' M'.
Proof.
  intros Hrep Hrun. destruct (cleanup_run _ _ _ _ Hrep Hrun) as (M' & Hr' & Hm & Hu & Hq).
  destruct Hrep as [Hr Hs Hf]. exists M'. split; [done|..]; rewrite ?Hm.
  - intros id s Hid. rewrite Hu in Hid. destruct (uploads M !! id) as [s'|] eqn:Hid'; [|done].
    simpl in Hid. case_decide; [done|]. simplify_eq. eapply session_ok_frame; [|by apply Hs].
    apply Hq. intros id2 s2 ? ? <-%GetTempPath_inj. naive_solver.
  - intros id m Hid. eapply file_ok_frame; [|by apply Hf]. apply Hq. intros id2 s2 _ _.
    apply storage_temp_ne. by eapply fo_gen, Hf.
Qed.

(** ** Runs *)

(** The calls of a run in which no I/O fault is hit: identifiers are new, no
    chunk has 2^62 bytes, and no call answers [UPLOAD_FAILED], loses bytes when a
    stream is closed, or fails to delete a session it is done with.  Calls may
    still be refused for any other reason. *)
Inductive fstep : FileState → FileState → Prop :=
  | step_init e u fn ct size md5 mid st r st' :
      fresh_id st (GenerateFileId e 0 0) →
      InitUpload config e u fn ct size md5 mid st = (r, st') → fstep st st'
  | step_append e id data st r st' :
      small data → AppendChunk e id data st = (Ret r, st') →
      r ≠ append_fail UPLOAD_FAILED → fstep st st'
  | step_complete e id st r st' :
      CompleteUpload config e id st = (Ret r, st') → r ≠ complete_fail UPLOAD_FAILED →
      (cu_success r = true → GetUploadSession (fs_store st') id = None) → fstep st st'
  | step_upload e u fn ct data st r st' :
      fresh_id st (GenerateFileId e 0 0) → small data → fe_close e = None →
      Upload config e u fn ct data st = (r, st') → fstep st st'
  | step_delete e id u st r st' : DeleteFile e id u st = (r, st') → fstep st st'
  | step_cleanup e st st' : CleanupExpiredSessions e st = (Ret 0%nat, st') → fstep st st'.

Lemma fstep_inv st st' M : fstep st st' → disk_rep st M → ∃ M', disk_rep st' M'.
Proof.
  intros Hstep Hrep. destruct Hstep.
  - edestruct InitUpload_run as [_ [[? _]|(? & ? & _ & _ & _ & _ & _ & _ & _ & ?)]]; eauto.
  - eauto using AppendChunk_inv.
  - eauto using CompleteUpload_inv.
  - eauto using Upload_inv.
  - eauto using DeleteFile_inv.
  - eauto using Cleanup_inv.
Qed.

Lemma fsteps_inv st st' M : rtc fstep st st' → disk_rep st M → ∃ M', disk_rep st' M'.
Proof.
  intros Hsteps. revert M. induction Hsteps as [|st1 st2 st3 Hstep _ IH]; intros M Hrep; [eauto|].
  destruct (fstep_inv _ _ _ Hstep Hrep) as [M' ?]. eauto.
Qed.

Lemma disk_rep_empty st : (∀ k, db_Get (fs_store st) k = None) →
  disk_rep st {| metas := ∅; md5s := ∅; uploads := ∅ |}.
Proof. intros He. split; [by apply store_rep_empty|apply map_Forall_empty..]. Qed.

(** ** Reading *)

(** Files of up to [n] bytes can be opened and read. *)
Record reads_ok (e : FileEnv) (n : Z) : Prop := {
  ro_open p : fe_open e p = true;
  ro_read : fe_read e = true;
  ro_alloc k : 0 ≤ k ≤ n → fe_alloc e k = true;
}.

Lemma read_at_ok e n c offset k : reads_ok e n → 0 ≤ k ≤ n →
  offset + k ≤ Z.of_nat (str_size c) →
  read_at e c offset k = Ret (Some (str_take (Z.to_nat k) (str_drop (Z.to_nat offset) c))).
Proof.
  intros [_ Hread Halloc] Hk Hfit. unfold read_at.
  by rewrite Halloc, Hread, !bool_decide_true by (lia || by right).
Qed.

Lemma str_take_all n s : (str_size s ≤ n)%nat → str_take n s = s.
Proof.
  unfold str_size. revert n. induction s as [|a s IH]; intros [|n] Hn; simpl in *; [done..|lia|].
  by rewrite IH by lia.
Qed.

Lemma ReadFile_run e id st m c : GetById (fs_store st) id = Some m →
  fs_disk st !! fm_storage_path m = Some c → Z.of_nat (str_size c) = fm_file_size m →
  reads_ok e (fm_file_size m) →
  ReadFile e id st = (Ret (Some {| rd_data := c; rd_content_type := fm_content_type m;
    rd_file_name := fm_file_name m; rd_file_size := fm_file_size m |}), st).
Proof.
  intros Hid Hc Hsize He. unfold ReadFile, mbind, M_bind, reads, of_outcome. cbn.
  rewrite Hid, Hc, (ro_open _ _ He). cbn.
  rewrite (read_at_ok e (fm_file_size m)) by (done || lia). cbn.
  rewrite Nat2Z.id, str_take_all by done. by rewrite Hsize.
Qed.
End Consistency.

(** * Properties *)

Section Properties.
Context {db : Type} `{!RocksDB db} `{!RocksDBLaws db} `{!JsonLib} `{!JsonLaws}.
Variable config : FileConfig.
Notation FileState := (FileState db).
Implicit Types st : FileState.

(** A run of [AppendChunk]s, as long as they succeed. *)
Fixpoint AppendChunks (upload_id : string) (l : list (FileEnv * string)) : M FileState bool :=
  match l with
  | [] => mret true
  | (e, data) :: l =>
      r ← AppendChunk e upload_id data;
      if ac_success r then AppendChunks upload_id l else mret false
  end.
Definition str_concat (l : list string) : string := foldr String.append "" l.

(** C24: the store and the disk agree: after any sequence of calls that hits no I/O
    fault, starting from an empty store and whatever is on the disk, every file that has a record can be
    read, has the size of its record, and comes with the recorded type and name; and the
    offset an upload session reports is the number of bytes received for it.  The ids the random engine makes
    are new ones, and sizes stay below 2^62. *)
Theorem stored_files_readable st0 st :
  fc_max_file_size config < 2 ^ 62 → (∀ k, db_Get (fs_store st0) k = None) →
  rtc (fstep config) st0 st →
  (∀ id m e, GetById (fs_store st) id = Some m → reads_ok e (fm_file_size m) →
     ∃ c, Z.of_nat (str_size c) = fm_file_size m ∧
       ReadFile e id st = (Ret (Some {| rd_data := c; rd_content_type := fm_content_type m;
         rd_file_name := fm_file_name m; rd_file_size := fm_file_size m |}), st)) ∧
  (∀ id s, GetUploadSession (fs_store st) id = Some s →
     us_bytes_written s = Z.of_nat (str_size (content (fs_disk st) (GetTempPath config id))) ∧
     us_bytes_written s ≤ us_file_size s).
Proof.
  intros Hmax He Hsteps.
  destruct (fsteps_inv _ Hmax _ _ _ Hsteps (disk_rep_empty config st0 He)) as [M Hrep].
  pose proof (dr_store _ _ _ Hrep) as Hr. split.
  - intros id m e Hm Hro. pose proof Hm as Hid. rewrite (FileStore_GetById_rep _ M _ Hr) in Hid.
    destruct (dr_files _ _ _ Hrep _ _ Hid) as [_ Hp (c & Hc & Hsize)].
    exists c. split; [done|]. apply ReadFile_run; [done|by rewrite Hp|done..].
  - intros id s. rewrite (GetUploadSession_rep _ M _ Hr). intros Hid.
    destruct (dr_sessions _ _ _ Hrep _ _ Hid). by split; [|lia].
Qed.

Lemma AppendChunks_run id chunks st M s st' :
  fc_max_file_size config < 2 ^ 62 →
  disk_rep config st M → Forall (λ x, small x.2) chunks → uploads M !! id = Some s →
  AppendChunks id chunks st = (Ret true, st') →
  ∃ M' n, disk_rep config st' M' ∧ uploads M' !! id = Some (us_set_bytes n s) ∧
    content (fs_disk st') (GetTempPath config id) =
      content (fs_disk st) (GetTempPath config id) +:+ str_concat chunks.*2.
Proof.
  intros Hmax Hrep Hsmall. revert st M s Hrep. induction Hsmall as [|[e data] l Hd Hl IH];
    intros st M s Hrep Hid Hrun; simpl in Hrun; munfold Hrun.
  - injection Hrun as <-. exists M, (us_bytes_written s). rewrite str_app_nil_r.
    split_and!; [done| |done]. by destruct s.
  - destruct (AppendChunk e id data st) as [[r|] st1] eqn:Happ; [|done].
    destruct (ac_success r) eqn:Hok; [|done].
    assert (r ≠ append_fail UPLOAD_FAILED) as Hne by by intros ->.
    destruct (AppendChunk_run _ Hmax _ _ _ _ _ _ _ Hrep Hd Happ Hne)
      as [[? _]|(s' & Hid' & _ & _ & _ & Hdisk & Hr1)]; [congruence|].
    destruct (AppendChunk_inv _ Hmax _ _ _ _ _ _ _ Hrep Hd Happ Hne) as [M1 Hrep1].
    rewrite Hid in Hid'. injection Hid' as <-.
    assert (uploads M1 !! id = Some (us_set_bytes (ac_new_offset r) s)) as Hid1.
    { rewrite <-(GetUploadSession_rep _ M1 _ (dr_store _ _ _ Hrep1)), (GetUploadSession_rep _ _ _ Hr1).
      apply lookup_insert_eq. }
    destruct (IH _ _ _ Hrep1 Hid1 Hrun) as (M' & n & Hrep' & Hid' & Hc').
    exists M', n. split_and!; [done|done|]. rewrite Hc'. unfold content at 1. rewrite Hdisk, lookup_insert_eq.
    simpl. by rewrite <-str_app_assoc.
Qed.

Lemma AppendChunks_steps id chunks st st' : Forall (λ x, small x.2) chunks →
  AppendChunks id chunks st = (Ret true, st') → rtc (fstep config) st st'.
Proof.
  intros Hsmall. revert st. induction Hsmall as [|[e data] l Hd _ IH]; intros st Hrun; simpl in Hrun;
    munfold Hrun.
  - injection Hrun as <-. done.
  - destruct (AppendChunk e id data st) as [[r|] st1] eqn:Happ; [|done].
    destruct (ac_success r) eqn:Hok; [|done]. eapply rtc_l; [|by apply IH].
    eapply step_append; [done..|]. by intros ->.
Qed.

(** C25: an upload is read back as it was sent: the chunks of a session, each one appended with success,
    are after [CompleteUpload] the content of the file, in order, with the name and
    type given to [InitUpload]; and they have the announced size.  The id the random engine makes
    is a new one, and sizes stay below 2^62. *)
Theorem upload_roundtrip e1 u fn ct size md5 mid chunks e2 e3 st M r1 st1 st2 r2 st3 :
  fc_max_file_size config < 2 ^ 62 → disk_rep config st M → fresh_id config st (GenerateFileId e1 0 0) →
  InitUpload config e1 u fn ct size md5 mid st = (Ret r1, st1) → iu_success r1 = true →
  iu_existing_file_id r1 = "" → Forall (λ x, small x.2) chunks →
  AppendChunks (iu_upload_id r1) chunks st1 = (Ret true, st2) →
  CompleteUpload config e2 (iu_upload_id r1) st2 = (Ret r2, st3) → cu_success r2 = true →
  reads_ok e3 size →
  Z.of_nat (str_size (str_concat chunks.*2)) = size ∧
  ReadFile e3 (cu_file_id r2) st3 =
    (Ret (Some {| rd_data := str_concat chunks.*2; rd_content_type := ct; rd_file_name := fn;
                  rd_file_size := size |}), st3).
Proof.
  intros Hmax Hrep Hfresh Hinit Hok1 Hnone Hsmall Happ Hcomp Hok2 Hro.
  destruct (InitUpload_run config _ _ _ _ _ _ _ _ _ _ _ Hrep Hfresh Hinit)
    as [Hd1 [[_ Hex]|(ex & s & [= ->] & Hb & Hsize & Hfn & Hct & _ & _ & Hrep1)]]; [by destruct (Hex _ eq_refl Hok1)|].
  simpl in Happ, Hcomp. set (id := GenerateFileId e1 0 0) in *.
  destruct (AppendChunks_run id chunks st1 _ s st2 Hmax Hrep1 Hsmall) as (M2 & n & Hrep2 & Hid2 & Hc2);
    [apply lookup_insert_eq|done|].
  assert (content (fs_disk st1) (GetTempPath config id) = "") as Hc1.
  { unfold content. destruct Hfresh as (_ & _ & Hf & _). by rewrite Hd1, Hf. }
  rewrite Hc1 in Hc2. simpl in Hc2.
  destruct (CompleteUpload_run config _ _ _ _ _ _ Hrep2 Hcomp ltac:(by intros ->))
    as [[? _]|(s' & c & m & U & Hid' & _ & Hfid & Hc & Hcs & _ & Hmn & Hmt & Hms & _ & Hp & _ & Hd & _ & Hr3)];
    [congruence|].
  rewrite Hid2 in Hid'. injection Hid' as <-. simpl in *.
  unfold content in Hc2. rewrite Hc in Hc2. simpl in Hc2. subst c.
  rewrite Hsize in Hcs, Hms. split; [done|].
  rewrite (ReadFile_run e3 _ st3 m (str_concat chunks.*2)); rewrite ?Hms; try done.
  - by rewrite Hmt, Hmn, Hct, Hfn.
  - rewrite Hfid, (FileStore_GetById_rep _ _ _ Hr3). apply lookup_insert_eq.
  - by rewrite Hp, Hd, lookup_insert_eq.
Qed.

(** [ReadFileRange] is slicing: on a stored file it returns the [length] bytes from
    [offset] on, cut at the end of the file, all of the rest for a negative length, and
    nothing from an offset past the end; a negative offset counts as 0.  This holds as long as
    [offset + length] fits in 64 bits. *)
Theorem ReadFileRange_slices e id offset length st M m :
  disk_rep config st M → GetById (fs_store st) id = Some m → reads_ok e (fm_file_size m) →
  fm_file_size m < 2 ^ 63 → Z.max 0 offset + length < 2 ^ 63 →
  ∃ c, fs_disk st !! fm_storage_path m = Some c ∧
    let rest := str_drop (Z.to_nat offset) c in
    ReadFileRange e id offset length st =
      (Ret (Some {| rd_data := if decide (length < 0) then rest else str_take (Z.to_nat length) rest;
                    rd_content_type := fm_content_type m; rd_file_name := fm_file_name m;
                    rd_file_size := fm_file_size m |}), st).
Proof.
  intros Hrep Hm Hro Hmax Hsum. pose proof Hm as Hid.
  rewrite (FileStore_GetById_rep _ M _ (dr_store _ _ _ Hrep)) in Hid.
  destruct (dr_files _ _ _ Hrep _ _ Hid) as [_ Hp (c & Hc & Hsize)]. rewrite <-Hp in Hc.
  exists c. split; [done|]. cbv zeta. unfold ReadFileRange, mbind, M_bind, reads. rewrite Hm.
  set (off := if decide (offset < 0) then 0 else offset).
  assert (off = Z.max 0 offset ∧ Z.to_nat off = Z.to_nat offset) as [Hoff Hnat].
  { unfold off. case_decide; lia. }
  rewrite <-Hnat. clearbody off.
  destruct (decide (fm_file_size m ≤ off)) as [Hpast|Hin].
  { rewrite str_drop_all by (unfold str_size in *; lia). destruct (decide (length < 0)); [done|].
    by destruct (Z.to_nat length). }
  set (n := if decide (length < 0) then fm_file_size m - off else length).
  assert (0 ≤ n ∧ off + n < 2 ^ 63) as [Hn Hfit] by (unfold n; case_decide; lia).
  rewrite wrap64_id by (unfold int64_range; lia).
  set (k := if decide (fm_file_size m < off + n) then fm_file_size m - off else n).
  assert (0 ≤ k ≤ fm_file_size m ∧ off + k ≤ Z.of_nat (str_size c)) as [Hk Hfits].
  { unfold k. case_decide; lia. }
  rewrite Hc, (ro_open _ _ Hro). cbn [negb]. unfold of_outcome.
  rewrite (read_at_ok e (fm_file_size m)) by done. cbn. do 4 f_equal.
  unfold k, n. pose proof (str_size_drop (Z.to_nat off) c).
  repeat case_decide; try (rewrite !str_take_all; [done|lia..]); try lia.
  done.
Qed.

(** only its uploader deletes a file: [DeleteFile] answers true only to him, the file
    then has no record; any other answer leaves every record, and
    in no case is the record or the content of another file touched. *)
Theorem DeleteFile_effect e id u st M r st' :
  disk_rep config st M → DeleteFile e id u st = (r, st') →
  (r = Ret true → GetById (fs_store st') id = None ∧
     ∃ m, GetById (fs_store st) id = Some m ∧ fm_uploader_id m = u) ∧
  (r ≠ Ret true → fs_disk st' = fs_disk st ∧ GetById (fs_store st') id = GetById (fs_store st) id) ∧
  ∀ id', id' ≠ id → GetById (fs_store st') id' = GetById (fs_store st) id' ∧
    ∀ m, GetById (fs_store st) id' = Some m →
      fs_disk st' !! fm_storage_path m = fs_disk st !! fm_storage_path m.
Proof.
  intros Hrep Hrun. destruct (DeleteFile_run config _ _ _ _ _ _ _ Hrep Hrun) as [Hq Hcases].
  pose proof (dr_store _ _ _ Hrep) as Hr.
  assert (∀ id' m, id' ≠ id → is_Some (metas M !! id) → GetById (fs_store st) id' = Some m →
      fs_disk st' !! fm_storage_path m = fs_disk st !! fm_storage_path m) as Hkeep.
  { intros id' m Hne [m0 Hid0]. rewrite (FileStore_GetById_rep _ M _ Hr). intros Hid.
    destruct (dr_files _ _ _ Hrep _ _ Hid) as [Hgen Hp _]. rewrite Hp. apply Hq.
    intros ?%BuildStoragePath_inj; [done..|]. by eapply fo_gen, dr_files. }
  destruct Hcases as [(Hne & Hd & Hr')|(m & M' & -> & Hid & Hu & Hr' & [Hm _]%a_Delete_metas)].
  - assert (∀ id', GetById (fs_store st') id' = GetById (fs_store st) id') as Hsame.
    { intros id'. by rewrite (FileStore_GetById_rep _ M _ Hr), (FileStore_GetById_rep _ M _ Hr'). }
    split_and!; [done|by rewrite Hsame|]. intros id' _. rewrite Hd. by split; [apply Hsame|].
  - assert (∀ id', GetById (fs_store st') id' = delete id (metas M) !! id') as Hget.
    { intros id'. by rewrite (FileStore_GetById_rep _ M' _ Hr'), Hm. }
    split_and!; [|done|].
    + intros _. rewrite Hget. split; [apply lookup_delete_eq|]. exists m.
      by rewrite (FileStore_GetById_rep _ M _ Hr).
    + intros id' Hne. rewrite Hget, (FileStore_GetById_rep _ M _ Hr), lookup_delete_ne by done.
      split; [done|]. intros m' Hm'. apply (Hkeep id'); [done|by exists m|].
      by rewrite (FileStore_GetById_rep _ M _ Hr).
Qed.

(** A clean-up without failures removes exactly the sessions that have expired;
    the sessions that have not keep their record and their temporary file, and
    no stored file is touched. *)
Theorem CleanupExpiredSessions_effect e st M st' :
  disk_rep config st M → CleanupExpiredSessions e st = (Ret 0%nat, st') →
  let live s := NowSeconds e 0 < us_expire_at s in
  (∀ id s, GetUploadSession (fs_store st') id = Some s ↔
     GetUploadSession (fs_store st) id = Some s ∧ live s) ∧
  (∀ id s, GetUploadSession (fs_store st') id = Some s →
     content (fs_disk st') (us_temp_path s) = content (fs_disk st) (us_temp_path s)) ∧
  ∀ id, GetById (fs_store st') id = GetById (fs_store st) id ∧
    ∀ m, GetById (fs_store st) id = Some m →
      fs_disk st' !! fm_storage_path m = fs_disk st !! fm_storage_path m.
Proof.
  intros Hrep Hrun live. destruct (cleanup_run config _ _ _ _ Hrep Hrun) as (M' & Hr' & Hm & Hu & Hq).
  pose proof (dr_store _ _ _ Hrep) as Hr.
  assert (∀ id s, GetUploadSession (fs_store st') id = Some s ↔
     GetUploadSession (fs_store st) id = Some s ∧ live s) as Hlive.
  { intros id s. rewrite (GetUploadSession_rep _ M' _ Hr'), (GetUploadSession_rep _ M _ Hr), Hu. unfold live.
    destruct (uploads M !! id) as [s'|]; simpl; [|naive_solver].
    case_decide; (split; [intros [= <-]|intros [[= <-] ?]]); try lia; try done. by split; [|lia]. }
  split_and!; [done|..].
  - intros id s [Hs Hl]%Hlive. rewrite (GetUploadSession_rep _ M _ Hr) in Hs.
    destruct (dr_sessions _ _ _ Hrep _ _ Hs) as [_ Hp _ _ _]. rewrite Hp. unfold content.
    rewrite Hq; [done|]. intros id' s' Hs' He ->%GetTempPath_inj. unfold live in Hl. simplify_eq. lia.
  - intros id. rewrite (FileStore_GetById_rep _ M' _ Hr'), (FileStore_GetById_rep _ M _ Hr), Hm.
    split; [done|]. intros m Hid. destruct (dr_files _ _ _ Hrep _ _ Hid) as [Hgen Hp _]. rewrite Hp.
    apply Hq. intros id' s' _ _. by apply storage_temp_ne.
Qed.

(** The MD5 a client announces is never compared with the bytes it sends: once an upload
    announced with an MD5 is complete, whatever its content, [InitUpload] answers
    any user who announces that MD5 (and any size) with that file, without
    an upload. *)
Theorem claimed_md5_trusted e id st M s r st' e2 u fn ct size mid :
  disk_rep config st M → GetUploadSession (fs_store st) id = Some s → us_md5 s ≠ "" →
  CompleteUpload config e id st = (Ret r, st') → cu_success r = true →
  0 < size ≤ fc_max_file_size config →
  InitUpload config e2 u fn ct size (us_md5 s) mid st' =
    (Ret {| iu_success := true; iu_error_code := 0; iu_error := "";
            iu_upload_id := cu_file_id r;
            iu_expire_at := wrap64 (NowSeconds e2 0 + fc_upload_session_expire_seconds config);
            iu_existing_file_id := cu_file_id r |}, st').
Proof.
  intros Hrep Hs Hmd5 Hcomp Hok Hsize. rewrite (GetUploadSession_rep _ M _ (dr_store _ _ _ Hrep)) in Hs.
  destruct (CompleteUpload_run config _ _ _ _ _ _ Hrep Hcomp ltac:(by intros ->))
    as [[? _]|(s' & c & m & U & Hs' & _ & Hfid & _ & _ & Hmid & _ & _ & _ & _ & _ & Hmmd & _ & _ & Hr')];
    [congruence|].
  rewrite Hs in Hs'. injection Hs' as <-.
  unfold InitUpload, mbind, M_bind, reads, mret, M_ret. rewrite !decide_False by (done || lia).
  rewrite (GetByMd5_rep _ _ _ Hr'). cbn [md5s metas]. unfold md5s_with.
  rewrite Hmmd, decide_False, Hmid, lookup_insert_eq by done. cbn [mbind option_bind].
  by rewrite lookup_insert_eq, Hmid, Hfid.
Qed.
End Properties.

(** * Witnesses *)

Definition cfg0 : FileConfig := {|
  fc_host := "0.0.0.0"; fc_http_port := 8080; fc_storage_path := "/d"; fc_max_file_size := 100;
  fc_upload_session_expire_seconds := 3600 |}.
(** The clock stands at [t] seconds; all of the input and output succeeds, except that a
    write stops after [w] bytes. *)
Definition fenv (t r : Z) (w : option nat) : FileEnv := {|
  fe_clock := λ _, t * 1000000000; fe_rand := λ _, r; fe_mkdir := λ _, true; fe_open := λ _, true;
  fe_write := w; fe_close := None; fe_rename := true; fe_remove := λ _, true; fe_stat := λ _, true;
  fe_read := true; fe_alloc := λ n, bool_decide (n ≤ 2 ^ 40) |}.
Notation e_at t := (fenv t t None).
Notation up_id := (GenerateFileId (e_at 1) 0 0).
Notation file_id := (GenerateFileId (e_at 4) 0 0).

Notation file0 := {| fs_store := mem_empty; fs_disk := ∅ |}.
Notation init_run := (InitUpload cfg0 (e_at 1) "alice" "a.txt" "text/plain" 5 "h" "" file0).
Notation file1 := (snd init_run).
Notation chunks0 := [(e_at 2, "abc"); (e_at 3, "de")].
Notation file3 := (snd (AppendChunks up_id chunks0 file1)).
Notation file4 := (snd (CompleteUpload cfg0 (e_at 4) up_id file3)).
Notation complete_ok fid := {| cu_success := true; cu_error_code := 0; cu_error := "";
  cu_file_id := fid; cu_file_url := BuildFileUrl cfg0 fid; cu_thumbnail_url := "" |}.

Lemma fenv_reads_ok t r w n : n ≤ 2 ^ 40 → reads_ok (fenv t r w) n.
Proof. intros Hn. split; [done..|]. intros k Hk. simpl. rewrite bool_decide_true by lia. done. Qed.
Lemma file0_rep : disk_rep cfg0 file0 {| metas := ∅; md5s := ∅; uploads := ∅ |}.
Proof. apply disk_rep_empty. intros k. apply lookup_empty. Qed.
Lemma file0_fresh id : fresh_id cfg0 file0 id.
Proof.
  unfold fresh_id. rewrite (GetUploadSession_rep _ _ _ (dr_store _ _ _ file0_rep)),
    (FileStore_GetById_rep _ _ _ (dr_store _ _ _ file0_rep)). split_and!; apply lookup_empty.
Qed.

Lemma init_run_ok : init_run = (Ret {| iu_success := true; iu_error_code := 0; iu_error := "";
  iu_upload_id := up_id; iu_expire_at := 3601; iu_existing_file_id := "" |}, file1).
Proof. eval_run. Qed.
Lemma append_run_ok : AppendChunks up_id chunks0 file1 = (Ret true, file3).
Proof. eval_run. Qed.
Lemma complete_run_ok :
  CompleteUpload cfg0 (e_at 4) up_id file3 = (Ret (complete_ok file_id), file4).
Proof. eval_run. Qed.

Lemma upload_roundtrip_witness :
  ReadFile (e_at 5) file_id file4 = (Ret (Some {| rd_data := "abcde";
    rd_content_type := "text/plain"; rd_file_name := "a.txt"; rd_file_size := 5 |}), file4).
Proof.
  assert (Forall (λ x : FileEnv * string, small x.2) chunks0) as Hs
    by (repeat constructor; unfold small; simpl; lia).
  pose proof (upload_roundtrip cfg0 (e_at 1) "alice" "a.txt" "text/plain" 5 "h" "" chunks0 (e_at 4)
    (e_at 5) _ _ _ _ _ _ _ ltac:(simpl; lia) file0_rep (file0_fresh _) init_run_ok eq_refl eq_refl Hs
    append_run_ok complete_run_ok eq_refl (fenv_reads_ok _ _ _ 5 ltac:(lia))) as [_ Hread].
  exact Hread.
Defined.

Lemma chunks0_small : Forall (λ x : FileEnv * string, small x.2) chunks0.
Proof. repeat constructor; unfold small; simpl; lia. Qed.
Lemma file3_steps : rtc (fstep cfg0) file0 file3.
Proof.
  eapply rtc_l; [eapply step_init; [apply file0_fresh|exact init_run_ok]|].
  eapply AppendChunks_steps; [exact chunks0_small|exact append_run_ok].
Qed.
Lemma file4_steps : rtc (fstep cfg0) file0 file4.
Proof.
  eapply rtc_r; [exact file3_steps|]. eapply step_complete; [exact complete_run_ok|done|].
  intros _. eval_eq.
Qed.
Lemma file3_rep : ∃ M, disk_rep cfg0 file3 M.
Proof. exact (fsteps_inv cfg0 ltac:(simpl; lia) _ _ _ file3_steps file0_rep). Qed.
Lemma file4_rep : ∃ M, disk_rep cfg0 file4 M.
Proof. exact (fsteps_inv cfg0 ltac:(simpl; lia) _ _ _ file4_steps file0_rep). Qed.
Lemma file4_meta : ∃ m, GetById (fs_store file4) file_id = Some m ∧ fm_file_size m = 5 ∧
  fm_uploader_id m = "alice".
Proof.
  assert ((λ m, (fm_file_size m, fm_uploader_id m)) <$> GetById (fs_store file4) file_id =
    Some (5, "alice")) as Hm by eval_eq.
  apply fmap_Some in Hm as (m & Hm & Hp). exists m. injection Hp as Hsz Hu.
  exact (conj Hm (conj (eq_sym Hsz) (eq_sym Hu))).
Qed.

Lemma stored_files_readable_witness : ∃ c m, Z.of_nat (str_size c) = 5 ∧
  ReadFile (e_at 5) file_id file4 = (Ret (Some {| rd_data := c; rd_content_type := fm_content_type m;
    rd_file_name := fm_file_name m; rd_file_size := fm_file_size m |}), file4).
Proof.
  destruct file4_meta as (m & Hm & Hsz & _).
  pose proof (stored_files_readable cfg0 file0 file4 ltac:(simpl; lia) (λ k, lookup_empty k)
    file4_steps) as [Hall _].
  destruct (Hall file_id m (e_at 5) Hm (fenv_reads_ok _ _ _ (fm_file_size m) ltac:(rewrite Hsz; lia)))
    as (c & Hc & Hread).
  exists c, m. exact (conj (eq_trans Hc Hsz) Hread).
Defined.

Lemma ReadFileRange_slices_witness : ∃ m, 
  ReadFileRange (e_at 5) file_id 1 3 file4 = (Ret (Some {| rd_data := "bcd";
    rd_content_type := fm_content_type m; rd_file_name := fm_file_name m;
    rd_file_size := fm_file_size m |}), file4).
Proof.
  destruct file4_meta as (m & Hm & Hsz & _). destruct file4_rep as [M Hrep].
  destruct (ReadFileRange_slices cfg0 (e_at 5) file_id 1 3 file4 M m Hrep Hm
    (fenv_reads_ok _ _ _ (fm_file_size m) ltac:(rewrite Hsz; lia)) ltac:(rewrite Hsz; lia) ltac:(lia))
    as (c & Hc & Hread).
  assert ((m ← GetById (fs_store file4) file_id; fs_disk file4 !! fm_storage_path m) = Some "abcde")
    as Hd by eval_eq.
  rewrite Hm in Hd. exists m.
  assert (c = "abcde") as -> by exact (inj Some _ _ (eq_trans (eq_sym Hc) Hd)).
  exact Hread.
Defined.

Notation delete_run := (DeleteFile (e_at 6) file_id "alice" file4).
Lemma DeleteFile_effect_witness : delete_run = (Ret true, snd delete_run) ∧
  GetById (fs_store (snd delete_run)) file_id = None.
Proof.
  assert (delete_run = (Ret true, snd delete_run)) as Hrun by eval_run.
  destruct file4_rep as [M Hrep].
  pose proof (DeleteFile_effect cfg0 (e_at 6) file_id "alice" file4 M _ _ Hrep Hrun) as (Hd & _ & _).
  exact (conj Hrun (proj1 (Hd eq_refl))).
Defined.

Notation cleanup_run0 := (CleanupExpiredSessions (e_at 4000) file3).
Lemma CleanupExpiredSessions_effect_witness :
  is_Some (GetUploadSession (fs_store file3) up_id) ∧
  cleanup_run0 = (Ret 0%nat, snd cleanup_run0) ∧
  ∀ s, GetUploadSession (fs_store (snd cleanup_run0)) up_id = Some s → 4000 < us_expire_at s.
Proof.
  assert (cleanup_run0 = (Ret 0%nat, snd cleanup_run0)) as Hrun by eval_run.
  assert (bool_decide (is_Some (GetUploadSession (fs_store file3) up_id)) = true) as Hsome by eval_eq.
  apply bool_decide_eq_true in Hsome.
  destruct file3_rep as [M Hrep].
  pose proof (CleanupExpiredSessions_effect cfg0 (e_at 4000) file3 M _ Hrep Hrun) as [Hlive _].
  refine (conj Hsome (conj Hrun _)). intros s Hs. exact (proj2 (proj1 (Hlive up_id s) Hs)).
Defined.

Lemma claimed_md5_trusted_witness :
  InitUpload cfg0 (e_at 7) "bob" "b.txt" "image/png" 99 "h" "" file4 =
    (Ret {| iu_success := true; iu_error_code := 0; iu_error := ""; iu_upload_id := file_id;
            iu_expire_at := wrap64 (7 + 3600); iu_existing_file_id := file_id |}, file4).
Proof.
  destruct file3_rep as [M Hrep].
  assert (us_md5 <$> GetUploadSession (fs_store file3) up_id = Some "h") as Hs by eval_eq.
  apply fmap_Some in Hs as (s & Hs & Hmd5).
  pose proof (claimed_md5_trusted cfg0 (e_at 4) up_id file3 M s _ _ (e_at 7) "bob" "b.txt" "image/png" 99 ""
    Hrep Hs ltac:(rewrite <-Hmd5; discriminate) complete_run_ok eq_refl ltac:(simpl; lia)) as Hinit.
  rewrite <-Hmd5 in Hinit. exact Hinit.
Defined.

(** ** Faults *)

(** A chunk that reaches the file only in part is refused and the offset stays; the
    client that resumes from the reported offset completes a file that holds the
    partial bytes as well: 7 bytes for an upload of 5. *)
Notation file_torn := (snd (AppendChunk (fenv 2 2 (Some 2%nat)) up_id "abc" file1)).
Notation file_torn3 := (snd (AppendChunks up_id chunks0 file_torn)).
Example AppendChunk_retry_corrupts :
  fst (AppendChunk (fenv 2 2 (Some 2%nat)) up_id "abc" file1) = Ret (append_fail UPLOAD_FAILED) ∧
  gu_offset <$> match fst (GetUploadState up_id file_torn) with Ret r => Some r | Exc => None end
    = Some 0 ∧
  fst (CompleteUpload cfg0 (e_at 4) up_id file_torn3) = Ret (complete_ok file_id) ∧
  fst (ReadFile (e_at 5) file_id (snd (CompleteUpload cfg0 (e_at 4) up_id file_torn3))) =
    Ret (Some {| rd_data := "ababcde"; rd_content_type := "text/plain"; rd_file_name := "a.txt";
                 rd_file_size := 7 |}).
Proof. split_and!; eval_eq. Qed.

(** A range whose end is past the largest 64-bit integer: the sum wraps, is not
    cut at the end of the file, and the allocation throws. *)
Example ReadFileRange_wraps :
  fst (ReadFileRange (e_at 5) file_id 1 (2 ^ 63 - 1) file4) = Exc.
Proof. eval_eq. Qed.
