(* ===== verification/Rpc.v ===== *)
(** What the gRPC handlers of the services share: the context of a call, the
    common part of the responses, and the check of the caller's token
    ([GetAuthenticatedUserId] of common/src/grpc_auth.cpp at the start of a handler). *)

From S2P Require Import Prelude External Errors Utils Jwt.

(** What a handler uses of [::grpc::ServerContext]: the client's metadata; [rc_now] is
    the clock (in milliseconds) when the token is checked. *)
Record RpcContext : Type := { rc_meta : string → option string; rc_now : Z }.

(** A protobuf response: the fields [code] and [message] and the others. *)
Record Response (A : Type) : Type := { rsp_code : Z; rsp_message : string; rsp_body : A }.
Arguments Build_Response {A}. Arguments rsp_code {A}. Arguments rsp_message {A}.
Arguments rsp_body {A}.

(** [::swift::common::CommonResponse] *)
Definition CommonResponse : Type := Response unit.

(** [response->set_code(ErrorCodeToInt(code)); response->set_message(message)], the other
    fields with their default values. *)
Definition fail_with {A} (none : A) (code : ErrorCode) (message : string) : Response A :=
  {| rsp_code := ErrorCodeToInt code; rsp_message := message; rsp_body := none |}.
Definition token_error {A} (none : A) : Response A :=
  fail_with none TOKEN_INVALID "token invalid or missing".
(** Code [OK] without a message, and with its description. *)
Definition ok_plain {A} (body : A) : Response A :=
  {| rsp_code := ErrorCodeToInt OK; rsp_message := ""; rsp_body := body |}.
Definition ok_with {A} (body : A) : Response A :=
  {| rsp_code := ErrorCodeToInt OK; rsp_message := ErrorCodeToString OK; rsp_body := body |}.

Section Authentication.
Context `{!JsonLib} `{!OpenSSL}.

Definition caller (c : RpcContext) (jwt_secret : string) : string :=
  GetAuthenticatedUserId (rc_now c) (rc_meta c) jwt_secret.

(** [uid = GetAuthenticatedUserId(context, jwt_secret_); if (uid.empty()) { ...; return; }] *)
Definition authenticated {S A} (c : RpcContext) (jwt_secret : string) (refused : A)
    (body : string → M S A) : M S A :=
  let uid := caller c jwt_secret in
  if decide (uid = "") then mret refused else body uid.

(** A call changes the state only for the user its token is signed for: [h] does what
    [serve u] does, for the caller [u], or nothing. *)
Definition acts_for_caller {S A B} (jwt_secret : string) (c : RpcContext) (h : M S A)
    (serve : string → M S B) : Prop :=
  ∀ s r s', h s = (r, s') → s' ≠ s →
    caller c jwt_secret ≠ "" ∧ s' = snd (serve (caller c jwt_secret) s).

Lemma authenticated_acts {S A B} jwt_secret c (refused : A) (body : string → M S A)
    (serve : string → M S B) :
  (∀ u s r s', body u s = (r, s') → s' = s ∨ s' = snd (serve u s)) →
  acts_for_caller jwt_secret c (authenticated c jwt_secret refused body) serve.
Proof.
  intros Hbody s r s' Hrun Hne. unfold authenticated in Hrun. case_decide as Hu.
  - injection Hrun as <- <-. done.
  - destruct (Hbody _ _ _ _ Hrun) as [?|?]; done.
Qed.

(** The body of a handler runs for the caller. *)
Lemma authenticated_user {S A} jwt_secret c (refused : A) (body : string → M S A) u :
  caller c jwt_secret = u → u ≠ "" → authenticated c jwt_secret refused body = body u.
Proof. intros <- Hu. unfold authenticated. by rewrite decide_False. Qed.

(** The state after [m] is not changed by what is made of its result. *)
Lemma bind_mret_snd {S A B} (m : M S A) (f : A → B) s r s' :
  (x ← m; mret (f x)) s = (r, s') → s' = snd (m s).
Proof. unfold mbind, M_bind. destruct (m s) as [[a|] s1]; by intros [= <- <-]. Qed.
End Authentication.

(** * Calls with a token, for concrete runs *)

Definition token_of (u : string) : string :=
  default "" (JwtCreate 1700000000000 u "k" 168 "swift-online").
Definition rpc_as (u : string) : RpcContext :=
  {| rc_meta := bearer (token_of u); rc_now := 1700000001000 |}.
Definition rpc_anonymous : RpcContext := {| rc_meta := λ _, None; rc_now := 1700000001000 |}.
