(* ===== verification/ChatHandler.v ===== *)
(** [chatsvr/internal/handler/chat_handler.cpp]: the gRPC interface of the chat
    service. *)

From S2P Require Import Prelude External Errors Utils Jwt Rpc.
From S2P Require Import GroupStore GroupService MessageStore ConvStore ChatService.

Definition kMaxPullOfflineLimit : Z := 200.
Definition kMaxHistoryLimit : Z := 100.

(** [::swift::chat::ChatMessage], [Conversation] *)
Record ChatMessage : Type := {
  cm_msg_id : string; cm_from_user_id : string; cm_to_id : string; cm_chat_type : Z;
  cm_content : string; cm_media_url : string; cm_media_type : string; cm_mentions : list string;
  cm_reply_to_msg_id : string; cm_timestamp : Z; cm_status : Z; cm_recall_at : Z }.
Record Conversation : Type := {
  cv_chat_id : string; cv_chat_type : Z; cv_peer_id : string; cv_peer_name : string;
  cv_peer_avatar : string; cv_last_message : option ChatMessage; cv_unread_count : Z;
  cv_updated_at : Z; cv_is_pinned : bool; cv_is_muted : bool }.

Definition FillChatMessage (m : MessageData) : ChatMessage :=
  {| cm_msg_id := md_msg_id m; cm_from_user_id := md_from_user_id m; cm_to_id := md_to_id m;
     cm_chat_type := md_chat_type m; cm_content := md_content m; cm_media_url := md_media_url m;
     cm_media_type := md_media_type m; cm_mentions := md_mentions m;
     cm_reply_to_msg_id := md_reply_to_msg_id m; cm_timestamp := md_timestamp m;
     cm_status := md_status m; cm_recall_at := md_recall_at m |}.
Definition FillConversation (c : ConversationData) (last_msg : option MessageData) : Conversation :=
  {| cv_chat_id := cd_conversation_id c; cv_chat_type := cd_chat_type c; cv_peer_id := cd_peer_id c;
     cv_peer_name := ""; cv_peer_avatar := ""; cv_last_message := FillChatMessage <$> last_msg;
     cv_unread_count := cd_unread_count c; cv_updated_at := cd_updated_at c;
     cv_is_pinned := cd_is_pinned c; cv_is_muted := cd_is_muted c |}.

Definition MapSendErrorToCode (error : string) : ErrorCode :=
  if decide (error = "") then OK else
  if decide (error = "invalid params") then INVALID_PARAM else
  if decide (error = "not a group member") then NOT_GROUP_MEMBER else
  if decide (error = "save failed" ∨ error = "conv_registry not set") then MSG_SEND_FAILED else
  INTERNAL_ERROR.
Definition MapRecallErrorToCode (error : string) : ErrorCode :=
  if decide (error = "") then OK else
  if decide (error = "invalid params") then INVALID_PARAM else
  if decide (error = "message not found") then MSG_NOT_FOUND else
  if decide (error = "not allowed to recall") then RECALL_NOT_ALLOWED else
  if decide (error = "recall timeout") then RECALL_TIMEOUT else
  INTERNAL_ERROR.

Definition SetCommonOk : CommonResponse := ok_with tt.
Definition SetCommonFail (code : ErrorCode) (message : string) : CommonResponse :=
  fail_with tt code (if decide (message = "") then ErrorCodeToString code else message).

(** [request->chat_type() == 2 ? ChatType::GROUP : ChatType::PRIVATE] *)
Definition chat_type_of (chat_type : Z) : Z :=
  if decide (chat_type = 2) then CT_GROUP else CT_PRIVATE.

Section ChatHandler.
Context {db GS : Type} `{!RocksDB db} `{!JsonLib} `{!OpenSSL} `{!GroupStore GS}.
Variable jwt_secret : string.
Notation Chat := (Chat db GS).
Notation authenticated c := (authenticated c jwt_secret).

Definition SendMessage (e : Env) (c : RpcContext) (to_id : string) (chat_type : Z)
    (content media_url media_type : string) (mentions : list string) (reply_to_msg_id : string)
    : M Chat (Response (string * Z)) :=
  authenticated c (token_error ("", 0)) (λ uid,
    if decide (to_id = "")
    then mret (fail_with ("", 0) INVALID_PARAM (ErrorCodeToString INVALID_PARAM)) else
    result ← ChatService.SendMessage e uid to_id (chat_type_of chat_type) content media_url
               media_type mentions reply_to_msg_id;
    mret (if sr_success result then ok_with (sr_msg_id result, sr_timestamp result)
          else let code := MapSendErrorToCode (sr_error result) in
               fail_with ("", 0) code
                 (if decide (sr_error result = "") then ErrorCodeToString code
                  else sr_error result))).

Definition RecallMessage (e : Env) (c : RpcContext) (msg_id : string) : M Chat CommonResponse :=
  authenticated c (SetCommonFail TOKEN_INVALID "") (λ uid,
    if decide (msg_id = "") then mret (SetCommonFail INVALID_PARAM "") else
    result ← ChatService.RecallMessage e msg_id uid;
    mret (if rr_success result then SetCommonOk
          else SetCommonFail (MapRecallErrorToCode (rr_error result)) (rr_error result))).

(** Body: the messages, [next_cursor] and [has_more]. *)
Definition PullOffline (c : RpcContext) (cursor : string) (limit : Z)
    : M Chat (Response (list ChatMessage * string * bool)) :=
  authenticated c (token_error ([], "", false)) (λ uid,
    let limit := if decide (0 < limit) then Z.min limit kMaxPullOfflineLimit else 100 in
    result ← reads (λ s, ChatService.PullOffline s uid cursor limit);
    mret (ok_with (FillChatMessage <$> or_messages result, or_next_cursor result,
                   or_has_more result))).

Definition MarkRead (c : RpcContext) (chat_id : string) (chat_type : Z) (last_msg_id : string)
    : M Chat CommonResponse :=
  authenticated c (SetCommonFail TOKEN_INVALID "") (λ uid,
    if decide (chat_id = "") then mret (SetCommonFail INVALID_PARAM "") else
    ok ← ChatService.MarkRead uid chat_id (chat_type_of chat_type) last_msg_id;
    mret (if (ok : bool) then SetCommonOk else SetCommonFail CONVERSATION_NOT_FOUND "")).

(** Body: the messages and [has_more]. *)
Definition GetHistory (c : RpcContext) (chat_id : string) (chat_type : Z) (before_msg_id : string)
    (limit : Z) : M Chat (Response (list ChatMessage * bool)) :=
  authenticated c (token_error ([], false)) (λ uid,
    if decide (chat_id = "")
    then mret (fail_with ([], false) INVALID_PARAM (ErrorCodeToString INVALID_PARAM)) else
    let limit := if decide (0 < limit) then Z.min limit kMaxHistoryLimit else 50 in
    messages ← ChatService.GetHistory uid chat_id (chat_type_of chat_type) before_msg_id limit;
    mret (ok_with (FillChatMessage <$> messages,
                   bool_decide (wrap32 (Z.of_nat (length messages)) = limit)))).

Definition SyncConversations (c : RpcContext) : M Chat (Response (list Conversation)) :=
  authenticated c (token_error []) (λ uid,
    reads (λ s, ok_with ((λ conv,
      FillConversation conv
        (if decide (cd_last_msg_id conv = "") then None
         else GetMessageById s (cd_last_msg_id conv))) <$> ChatService.SyncConversations s uid))).

Definition DeleteConversation (c : RpcContext) (chat_id : string) (chat_type : Z)
    : M Chat CommonResponse :=
  authenticated c (SetCommonFail TOKEN_INVALID "") (λ uid,
    if decide (chat_id = "") then mret (SetCommonFail INVALID_PARAM "") else
    result ← ChatService.DeleteConversation uid chat_id (chat_type_of chat_type);
    mret (if dr_success result then SetCommonOk else SetCommonFail (dr_error result) "")).
End ChatHandler.

(** * Properties *)

Section Properties.
Context {db GS : Type} `{!RocksDB db} `{!RocksDBLaws db} `{!JsonLib} `{!JsonLaws} `{!OpenSSL}
  `{!GroupStore GS}.
Variable jwt_secret : string.
Notation Chat := (Chat db GS).
Implicit Types s : Chat.

(** The newest message is the head of a list that is sorted newest first. *)
Lemma newest_head l msg : StronglySorted newer l → msg ∈ l →
  (∀ m, m ∈ l → m = msg ∨ md_timestamp m < md_timestamp msg) → ∃ rest, l = msg :: rest.
Proof.
  intros Hs Hin Hnew. destruct l as [|m l]; [by apply elem_of_nil in Hin|].
  exists l. f_equal. destruct (Hnew m ltac:(left)) as [?|Hlt]; [done|].
  inversion Hs as [|? ? _ Hall]; subst. apply elem_of_cons in Hin as [?|Hin]; [done|].
  rewrite Forall_forall in Hall. specialize (Hall _ Hin). unfold newer in Hall. lia.
Qed.

(** C4: a private message is delivered: once [SendMessage] has answered its sender with a message
    id, the first message the receiver gets when he pulls his offline queue
    is that message, with its content, under that id and from the authenticated sender; as long as the
    message database can be written, and when everything queued for him
    before is older. *)
Theorem message_delivered e c1 c2 to chat_type content url mt ms reply s M C P r1 s1 limit :
  sane_clock e → ok_id (caller c1 jwt_secret) → ok_id to → caller c2 jwt_secret = to →
  chat_type ≠ 2 → msg_rep (ch_msg s) M → conv_rep (ch_conv s) C →
  keeps_writing P → P (ch_msg s) →
  (∀ id m, (to, id) ∈ queue M → msgs M !! id = Some m → md_timestamp m < env_clock e 0) →
  SendMessage jwt_secret e c1 to chat_type content url mt ms reply s = (Ret r1, s1) →
  fst (rsp_body r1) ≠ "" →
  ∃ m rest cursor more, PullOffline jwt_secret c2 "" limit s1 =
      (Ret (ok_with (m :: rest, cursor, more)), s1) ∧
    cm_msg_id m = fst (rsp_body r1) ∧ cm_content m = content ∧ cm_to_id m = to ∧
    cm_from_user_id m = caller c1 jwt_secret.
Proof.
  intros Hclk Hfrom Hto Hc2 Hct Hr Hcv HP Hd Hold Hrun Hid. unfold SendMessage in Hrun.
  rewrite (authenticated_user _ c1 _ _ _ eq_refl (proj1 Hfrom)) in Hrun.
  rewrite decide_False in Hrun by (destruct Hto; done).
  apply run_bind_ret in Hrun as (res & s2 & Hsend & Hret). injection Hret as <- <-.
  destruct (sr_success res) eqn:Hok; [|done]. simpl in Hid.
  unfold chat_type_of in Hsend. rewrite decide_False in Hsend by done.
  destruct (SendMessage_private e _ to content url mt ms reply s M C res s2 Hclk Hfrom Hto Hr Hcv Hsend Hok)
    as (msg & M' & C' & Hr' & _ & Hmid & _ & Hcont & [_ Htime (Hsender & Hmto & _) _ _ Hmsgs Hq _ _] & Hqueued).
  destruct (PullOffline_spec (ch_msg s2) M' to Hr' Hto) as (l & Hs & _ & Hin & Hpull).
  destruct (newest_head l msg Hs) as [rest ->].
  - apply Hin. split; [by rewrite Hmsgs, lookup_insert_eq|]. by apply (Hqueued P).
  - intros m [Hm Hmq]%Hin. rewrite Hmsgs in Hm. apply lookup_insert_Some in Hm as [[_ ?]|[Hne Hm]]; [by left|].
    right. assert ((to, md_msg_id m) ∈ queue M) as Hmq' by (destruct Hq as [Hq|Hq]; rewrite Hq in Hmq; set_solver).
    rewrite Htime. by eapply Hold.
  - unfold PullOffline. rewrite (authenticated_user _ c2 _ _ _ Hc2 (proj1 Hto)).
    set (n := if decide (0 < limit) then Z.min limit kMaxPullOfflineLimit else 100).
    assert (0 < n) as Hn by (unfold n, kMaxPullOfflineLimit; case_decide; lia).
    unfold mbind, M_bind, reads, mret, M_ret, ChatService.PullOffline.
    rewrite decide_False, Hpull by lia. unfold after_cursor. rewrite decide_True by done. unfold page.
    destruct (Z.to_nat n) as [|k] eqn:Hk; [lia|]. cbn [or_messages or_next_cursor or_has_more take fmap list_fmap].
    eexists _, _, _, _. split; [reflexivity|]. unfold FillChatMessage. cbn.
    split_and!; done.
Qed.

(** C37: the history of a private chat is paged: each call answers with the newest messages of the
    conversation of the caller and the peer that are older than [before_msg_id], newest
    first, at most 100 of them (50 when no limit is given), and changes no message; [has_more] only says that the page
    is full. *)
Theorem GetHistory_page c u peer chat_type before limit s M r s' :
  caller c jwt_secret = u → ok_id u → ok_id peer → chat_type ≠ 2 → is_Some (ch_reg s) →
  msg_rep (ch_msg s) M →
  before = "" ∨ (∃ b, msgs M !! before = Some b ∧ md_conversation_id b = private_id u peer) →
  GetHistory jwt_secret c peer chat_type before limit s = (Ret r, s') →
  ch_msg s' = ch_msg s ∧ ∃ l n, StronglySorted newer l ∧ NoDup l ∧
    (∀ m, m ∈ l ↔ msgs M !! md_msg_id m = Some m ∧ timeline m = private_id u peer ∧
       ∀ b, msgs M !! before = Some b → md_timestamp m < md_timestamp b) ∧
    n = Z.to_nat (if decide (0 < limit) then Z.min limit 100 else 50) ∧
    r = ok_with (FillChatMessage <$> take n l, bool_decide (length (take n l) = n)).
Proof.
  intros Hc Hu Hp Hct Hreg Hr Hbefore Hrun. unfold GetHistory in Hrun.
  rewrite (authenticated_user _ c _ _ _ Hc (proj1 Hu)) in Hrun.
  rewrite decide_False in Hrun by (by destruct Hp).
  set (n := if decide (0 < limit) then Z.min limit kMaxHistoryLimit else 50) in *.
  assert (0 < n ≤ 100) as Hn by (unfold n, kMaxHistoryLimit; case_decide; lia).
  apply run_bind_ret in Hrun as (ms & s1 & Hget & Hret). injection Hret as <- <-.
  unfold chat_type_of in Hget. rewrite decide_False in Hget by done.
  unfold ChatService.GetHistory in Hget. rewrite decide_False in Hget by (destruct Hp; naive_solver lia).
  apply run_bind_ret in Hget as (cid & s2 & Hres & Hget). unfold ResolveConversationId in Hres.
  rewrite decide_False, decide_True in Hres by (by destruct Hp).
  pose proof (get_or_create_id _ _ _ _ _ (proj1 Hu) (proj1 Hp) Hreg Hres) as ->.
  apply on_reg_run in Hres as (Hm & _ & _).
  assert (ok_id (private_id u peer)) as Hpid by (apply private_id_ok; [apply Hu|apply Hp]).
  rewrite decide_False in Hget by apply Hpid. munfold Hget.
  assert ((match ch_group s2 with
    | Some gs => if decide (CT_PRIVATE = CT_GROUP) then dissolved gs (private_id u peer) else false
    | None => false end) = false) as Hgone by (by destruct (ch_group s2)).
  rewrite Hgone in Hget. injection Hget as <- <-. rewrite Hm. split; [done|].
  destruct (GetHistory_spec (ch_msg s) M (private_id u peer) CT_PRIVATE before n Hr Hpid ltac:(lia)
    ltac:(naive_solver)) as (l & Hs & Hnd & Hin & Hl).
  exists l, (Z.to_nat n). split_and!; try done. rewrite Hl. f_equal. f_equal. apply bool_decide_ext.
  pose proof (length_take l (Z.to_nat n)). rewrite wrap32_id by (unfold int32_range; lia). lia.
Qed.
End Properties.

(** * Concrete runs *)

Notation send_call := (SendMessage "k" (chat_env 1700000000000) (rpc_as "a") "b" 1 "hi" "" "" [] ""
  (chat_start mem_empty)).
Lemma caller_a : caller (rpc_as "a") "k" = "a".
Proof. eval_eq. Qed.
Lemma caller_b : caller (rpc_as "b") "k" = "b".
Proof. eval_eq. Qed.

Lemma message_delivered_witness : ∃ m rest cursor more,
  PullOffline "k" (rpc_as "b") "" 0 (snd send_call) =
    (Ret (ok_with (m :: rest, cursor, more)), snd send_call) ∧
  cm_content m = "hi" ∧ cm_from_user_id m = "a".
Proof.
  assert (sane_clock (chat_env 1700000000000)) as Hc by (unfold sane_clock, MAX_TS; simpl; lia).
  assert (ok_id (caller (rpc_as "a") "k")) as Ha by (rewrite caller_a; done).
  assert (ok_id "b") as Hb by done.
  assert (∀ id m, ("b", id) ∈ queue mm0 → msgs mm0 !! id = Some m → md_timestamp m < 1700000000000)
    as Hold by (intros id m Hq; simpl in Hq; set_solver).
  assert ((match fst send_call with Ret r => fst (rsp_body r) | Exc => "" end) =
    GenerateMsgId (chat_env 1700000000000)) as Hid by eval_eq.
  assert (GenerateMsgId (chat_env 1700000000000) ≠ "") as Hne by apply msg_id_ok.
  destruct (fst send_call) as [r1|] eqn:Hr1; [|destruct (Hne (eq_sym Hid))].
  pose proof (message_delivered "k" (chat_env 1700000000000) (rpc_as "a") (rpc_as "b") "b" 1 "hi" "" ""
    [] "" (chat_start mem_empty) mm0 ∅ (λ d, mem_healthy d = true) r1 _ 0 Hc Ha Hb caller_b
    ltac:(discriminate) mem_empty_msg_rep mem_empty_conv_rep mem_keeps_writing eq_refl Hold
    (run_fst _ _ _ Hr1) ltac:(rewrite Hid; exact Hne)) as (m & rest & cur & more & Hp & _ & Hcont & _ & Hfrom).
  exists m, rest, cur, more. rewrite caller_a in Hfrom. exact (conj Hp (conj Hcont Hfrom)).
Defined.

Notation history_call := (GetHistory "k" (rpc_as "a") "b" 1 "" 1 (chat_start db_two)).
Lemma GetHistory_page_witness : ∃ l, 
  fst history_call = Ret (ok_with (FillChatMessage <$> take 1 l, bool_decide (length (take 1 l) = 1%nat))) ∧
  NoDup l.
Proof.
  assert (ok_id "a") as Ha by done. assert (ok_id "b") as Hb by done.
  assert (is_Some (ch_reg (chat_start db_two))) as Hreg by (by eexists). assert (1 ≠ 2) as Hct by done.
  assert (bool_decide (is_Some (match fst history_call with Ret r => Some r | Exc => None end)) = true)
    as Hr by eval_eq.
  apply bool_decide_eq_true in Hr. destruct (fst history_call) as [r|] eqn:Hrun; [clear Hr|destruct (is_Some_None Hr)].
  pose proof (GetHistory_page "k" (rpc_as "a") "a" "b" 1 "" 1 (chat_start db_two) _ r _ caller_a
    Ha Hb Hct Hreg (chat_start_rep _ _ db_two_rep)
    (or_introl eq_refl) (run_fst _ _ _ Hrun)) as (_ & l & n & _ & Hnd & _ & Hn & Heq).
  exists l. rewrite Heq, Hn. exact (conj eq_refl Hnd).
Defined.
