(* ===== verification/GroupHandler.v ===== *)
(** [chatsvr/internal/handler/group_handler.cpp]: the gRPC interface of the group
    service. *)

From S2P Require Import Prelude External Errors Utils Jwt Rpc GroupStore GroupService.

(** [::swift::group::GroupInfo], [GroupMember] *)
Record GroupInfo : Type := {
  gi_group_id : string; gi_group_name : string; gi_avatar_url : string; gi_owner_id : string;
  gi_member_count : Z; gi_announcement : string; gi_created_at : Z; gi_updated_at : Z }.
Record GroupMember : Type := {
  gme_user_id : string; gme_role : Z; gme_nickname : string; gme_joined_at : Z }.

Definition SetCommonOk : CommonResponse := ok_plain tt.
Definition SetCommonFail (code : ErrorCode) (message : string) : CommonResponse :=
  fail_with tt code (if decide (message = "") then ErrorCodeToString code else message).
(** [if (code == OK) SetCommonOk(response); else SetCommonFail(response, code);] *)
Definition common_of (code : ErrorCode) : CommonResponse :=
  if decide (code = OK) then SetCommonOk else SetCommonFail code "".

Definition FillGroupInfo (g : GroupData) : GroupInfo :=
  {| gi_group_id := gd_group_id g; gi_group_name := gd_group_name g;
     gi_avatar_url := gd_avatar_url g; gi_owner_id := gd_owner_id g;
     gi_member_count := gd_member_count g; gi_announcement := gd_announcement g;
     gi_created_at := gd_created_at g; gi_updated_at := gd_updated_at g |}.
Definition FillGroupMember (m : GroupMemberData) : GroupMember :=
  {| gme_user_id := gm_user_id m; gme_role := gm_role m; gme_nickname := gm_nickname m;
     gme_joined_at := gm_joined_at m |}.

Section GroupHandler.
Context {S : Type} `{!GroupStore S} `{!JsonLib} `{!OpenSSL}.
Variable jwt_secret : string.
Notation authenticated c := (authenticated c jwt_secret).

(** Body: the group id. *)
Definition CreateGroup (e : Env) (c : RpcContext) (group_name avatar_url : string)
    (member_ids : list string) : M S (Response string) :=
  authenticated c (token_error "") (λ uid,
    result ← GroupService.CreateGroup e uid group_name avatar_url member_ids;
    let code := cg_error_code result in
    mret {| rsp_code := ErrorCodeToInt code; rsp_message := ErrorCodeToString code;
            rsp_body := if decide (code = OK) then cg_group_id result else "" |}).

Definition DismissGroup (c : RpcContext) (group_id : string) : M S CommonResponse :=
  authenticated c (SetCommonFail TOKEN_INVALID "") (λ uid,
    code ← GroupService.DismissGroup group_id uid; mret (common_of code)).

Definition GetGroupInfo (c : RpcContext) (group_id : string) : M S (Response (option GroupInfo)) :=
  authenticated c (token_error None) (λ uid,
    g ← reads (λ s, GroupService.GetGroupInfo s group_id);
    mret match g with
         | None => fail_with None GROUP_NOT_FOUND (ErrorCodeToString GROUP_NOT_FOUND)
         | Some g => ok_plain (Some (FillGroupInfo g))
         end).

Definition UpdateGroup (e : Env) (c : RpcContext) (group_id group_name avatar_url announcement : string)
    : M S CommonResponse :=
  authenticated c (SetCommonFail TOKEN_INVALID "") (λ uid,
    code ← GroupService.UpdateGroup e group_id uid group_name avatar_url announcement;
    mret (common_of code)).

Definition InviteMembers (e : Env) (c : RpcContext) (group_id : string) (member_ids : list string)
    : M S CommonResponse :=
  authenticated c (SetCommonFail TOKEN_INVALID "") (λ uid,
    code ← GroupService.InviteMembers e group_id uid member_ids; mret (common_of code)).

Definition RemoveMember (c : RpcContext) (group_id member_id : string) : M S CommonResponse :=
  authenticated c (SetCommonFail TOKEN_INVALID "") (λ uid,
    code ← GroupService.RemoveMember group_id uid member_id; mret (common_of code)).

Definition LeaveGroup (c : RpcContext) (group_id : string) : M S CommonResponse :=
  authenticated c (SetCommonFail TOKEN_INVALID "") (λ uid,
    code ← GroupService.LeaveGroup group_id uid; mret (common_of code)).

(** Body: [total] and the members.  The page bounds of the store can be
    undefined ([None]). *)
Definition GetGroupMembers (c : RpcContext) (group_id : string) (page page_size : Z)
    : M S (Response (Z * list GroupMember)) :=
  authenticated c (token_error (0, [])) (λ uid,
    let page := if decide (0 < page) then page else 1 in
    let page_size := if decide (0 < page_size) then page_size else 50 in
    r ← reads (λ s, GroupService.GetGroupMembers s group_id page page_size);
    r ← or_throw r;
    let '(members, total) := r in
    mret (ok_plain (default 0 total, FillGroupMember <$> members))).

Definition TransferOwner (c : RpcContext) (group_id new_owner_id : string) : M S CommonResponse :=
  authenticated c (SetCommonFail TOKEN_INVALID "") (λ uid,
    code ← GroupService.TransferOwner group_id uid new_owner_id; mret (common_of code)).

Definition SetMemberRole (c : RpcContext) (group_id member_id : string) (role : Z)
    : M S CommonResponse :=
  authenticated c (SetCommonFail TOKEN_INVALID "") (λ uid,
    code ← GroupService.SetMemberRole group_id uid member_id role; mret (common_of code)).

Definition GetUserGroups (c : RpcContext) : M S (Response (list GroupInfo)) :=
  authenticated c (token_error []) (λ uid,
    reads (λ s, ok_plain (FillGroupInfo <$> GroupService.GetUserGroups s uid))).

(** Muting is left to the client. *)
Definition MuteGroup (c : RpcContext) : M S CommonResponse :=
  authenticated c (SetCommonFail TOKEN_INVALID "") (λ _, mret SetCommonOk).
End GroupHandler.
