(* ===== verification/FriendHandler.v ===== *)
(** [friendsvr/internal/handler/friend_handler.cpp]: the gRPC interface of the friend
    service. *)

From S2P Require Import Prelude External Errors Utils Jwt Rpc FriendStore FriendService.

(** [::swift::relation::FriendInfo], [FriendGroup], [FriendRequest]; the profiles are
    left empty. *)
Record FriendInfo : Type := {
  fi_friend_id : string; fi_remark : string; fi_group_id : string; fi_status : Z;
  fi_added_at : Z }.
Record FriendGroup : Type := {
  fgr_group_id : string; fgr_group_name : string; fgr_sort_order : Z; fgr_friend_count : Z }.
Record FriendRequest : Type := {
  frq_request_id : string; frq_from_user_id : string; frq_to_user_id : string;
  frq_remark : string; frq_status : Z; frq_created_at : Z }.

Definition SetOk : CommonResponse := ok_plain tt.
Definition SetFail (code : ErrorCode) (message : string) : CommonResponse :=
  fail_with tt code (if decide (message = "") then ErrorCodeToString code else message).
(** [if (ok) SetOk(response); else SetFail(response, code, message);] *)
Definition common_of (code : ErrorCode) (message : string) (ok : bool) : CommonResponse :=
  if ok then SetOk else SetFail code message.

Section FriendHandler.
Context {db : Type} `{!RocksDB db} `{!JsonLib} `{!OpenSSL}.
Variable jwt_secret : string.

(** [uid = RequireAuth(context, jwt_secret_, response); if (uid.empty()) return;] *)
Definition RequireAuth (c : RpcContext) : (string → M db CommonResponse) → M db CommonResponse :=
  authenticated c jwt_secret (SetFail TOKEN_INVALID "token invalid or missing").

(** The default arguments of [SetFail]. *)
Notation op_result := (common_of UNKNOWN "operation failed").
Notation friend_result := (common_of FRIEND_NOT_FOUND "friend not found").

Definition AddFriend (e : Env) (c : RpcContext) (friend_id remark : string) : M db CommonResponse :=
  RequireAuth c (λ uid,
    ok ← FriendService.AddFriend e uid friend_id remark; mret (op_result ok)).

Definition HandleFriendRequest (e : Env) (c : RpcContext) (request_id : string) (accept : bool)
    (group_id : string) : M db CommonResponse :=
  RequireAuth c (λ uid,
    ok ← HandleRequest e uid request_id accept group_id; mret (op_result ok)).

Definition RemoveFriend (c : RpcContext) (friend_id : string) : M db CommonResponse :=
  RequireAuth c (λ uid,
    ok ← FriendService.RemoveFriend uid friend_id; mret (friend_result ok)).

Definition GetFriends (c : RpcContext) (group_id : string) : M db (Response (list FriendInfo)) :=
  authenticated c jwt_secret (token_error []) (λ uid,
    l ← reads (λ d, FriendService.GetFriends d uid group_id);
    mret (ok_plain ((λ f, {| fi_friend_id := fd_friend_id f; fi_remark := fd_remark f;
      fi_group_id := fd_group_id f; fi_status := 0; fi_added_at := fd_added_at f |}) <$> l))).

Definition BlockUser (c : RpcContext) (target_id : string) : M db CommonResponse :=
  RequireAuth c (λ uid, ok ← FriendService.Block uid target_id; mret (op_result ok)).

Definition UnblockUser (c : RpcContext) (target_id : string) : M db CommonResponse :=
  RequireAuth c (λ uid, ok ← FriendService.Unblock uid target_id; mret (op_result ok)).

Definition GetBlockList (c : RpcContext) : M db (Response (list string)) :=
  authenticated c jwt_secret (token_error []) (λ uid,
    reads (λ d, ok_plain (FriendService.GetBlockList d uid))).

(** The id of the new group is not in the response. *)
Definition CreateFriendGroup (e : Env) (c : RpcContext) (group_name : string)
    : M db CommonResponse :=
  RequireAuth c (λ uid,
    r ← FriendService.CreateFriendGroup e uid group_name; mret (op_result (fst r))).

Definition GetFriendGroups (c : RpcContext) : M db (Response (list FriendGroup)) :=
  authenticated c jwt_secret (token_error []) (λ uid,
    groups ← FriendService.GetFriendGroups uid;
    reads (λ d, ok_plain ((λ g, {| fgr_group_id := fg_group_id g;
      fgr_group_name := fg_group_name g; fgr_sort_order := fg_sort_order g;
      fgr_friend_count :=
        wrap32 (Z.of_nat (length (FriendService.GetFriends d uid (fg_group_id g)))) |}) <$> groups))).

Definition DeleteFriendGroup (c : RpcContext) (group_id : string) : M db CommonResponse :=
  RequireAuth c (λ uid,
    code ← FriendService.DeleteFriendGroup uid group_id;
    mret (if decide (code = OK) then SetOk else SetFail code "operation failed")).

Definition MoveFriend (c : RpcContext) (friend_id to_group_id : string) : M db CommonResponse :=
  RequireAuth c (λ uid,
    ok ← FriendService.MoveFriend uid friend_id to_group_id; mret (friend_result ok)).

Definition SetRemark (c : RpcContext) (friend_id remark : string) : M db CommonResponse :=
  RequireAuth c (λ uid,
    ok ← FriendService.SetRemark uid friend_id remark; mret (friend_result ok)).

Definition GetFriendRequests (c : RpcContext) (type : Z) : M db (Response (list FriendRequest)) :=
  authenticated c jwt_secret (token_error []) (λ uid,
    l ← reads (λ d, FriendService.GetFriendRequests d uid type);
    mret (ok_plain ((λ r, {| frq_request_id := fr_request_id r;
      frq_from_user_id := fr_from_user_id r; frq_to_user_id := fr_to_user_id r;
      frq_remark := fr_remark r; frq_status := fr_status r;
      frq_created_at := fr_created_at r |}) <$> l))).
End FriendHandler.
