(* ===== verification/AuthHandler.v ===== *)
(** [authsvr/internal/handler/auth_handler.cpp] and
    [onlinesvr/internal/handler/online_handler.cpp]: the gRPC interfaces of the
    authentication service and of the login sessions. *)

From S2P Require Import Prelude External Errors Utils Jwt Rpc UserStore AuthService OnlineService.

(** [::grpc::Status]: OK with a response, or a code and a message. *)
Inductive grpc_code : Type := UNAUTHENTICATED | STATUS_NOT_FOUND.
Definition GrpcResult (A : Type) : Type := (A + grpc_code * string)%type.

Section AuthHandler.
Context {db : Type} `{!RocksDB db} `{!JsonLib} `{!OpenSSL}.
Variable jwt_secret : string.

(** Body: the user id. *)
Definition Register (e : Env) (username password nickname email avatar_url : string)
    : M db (Response string) :=
  result ← AuthService.Register e username password nickname email avatar_url;
  mret (if rg_success result then ok_plain (rg_user_id result)
        else fail_with "" (rg_error_code result) (rg_error result)).

(** Body: the user id and the profile. *)
Definition VerifyCredentials (username password : string)
    : M db (Response (string * option AuthProfile)) :=
  result ← reads (λ d, AuthService.VerifyCredentials d username password);
  mret (if vc_success result then ok_plain (vc_user_id result, vc_profile result)
        else fail_with ("", None) (vc_error_code result) (vc_error result)).

Definition GetProfile (c : RpcContext) : M db (GrpcResult AuthProfile) :=
  authenticated c jwt_secret (inr (UNAUTHENTICATED, "token invalid or missing")) (λ uid,
    profile ← reads (λ d, AuthService.GetProfile d uid);
    mret match profile with
         | None => inr (STATUS_NOT_FOUND, "user not found")
         | Some p => inl p
         end).

Definition UpdateProfile (e : Env) (c : RpcContext) (nickname avatar_url signature : string)
    : M db CommonResponse :=
  authenticated c jwt_secret (token_error tt) (λ uid,
    result ← AuthService.UpdateProfile e uid nickname avatar_url signature;
    mret (if up_success result then ok_plain tt
          else fail_with tt (up_error_code result) (up_error result))).

Definition SearchUsers (c : RpcContext) (keyword : string) (limit : Z)
    : M db (Response (list AuthProfile)) :=
  authenticated c jwt_secret (token_error []) (λ uid,
    reads (λ d, ok_plain (AuthService.SearchUsers d keyword limit))).
End AuthHandler.

(** ** Login sessions

    No call of this interface looks at the caller's token; gRPC passes no null
    request or response. *)

Section OnlineHandler.
Context {db : Type} `{!RocksDB db} `{!JsonLib} `{!OpenSSL}.
Variable jwt_secret : string.     (* of the service *)

(** Body: the token and its expiry. *)
Definition Login (e : Env) (user_id device_id device_type : string)
    : M (option db) (Response (string * Z)) :=
  result ← OnlineService.Login jwt_secret e user_id device_id device_type;
  mret {| rsp_code := if lr_success result then ErrorCodeToInt OK else ErrorCodeToInt AUTH_FAILED;
          rsp_message := lr_error result;
          rsp_body := if lr_success result then (lr_token result, lr_expire_at result)
                      else ("", 0) |}.

Definition Logout (user_id token : string) : M (option db) CommonResponse :=
  result ← OnlineService.Logout user_id token;
  mret {| rsp_code := if lo_success result then ErrorCodeToInt OK else ErrorCodeToInt AUTH_FAILED;
          rsp_message := lo_error result; rsp_body := tt |}.

(** Body: the user id and [valid]. *)
Definition ValidateToken (e : Env) (token : string) : M (option db) (Response (string * bool)) :=
  result ← OnlineService.ValidateToken jwt_secret e token;
  mret (if tr_valid result
        then ok_plain (tr_user_id result, true)
        else fail_with ("", false) TOKEN_INVALID (ErrorCodeToString TOKEN_INVALID)).
End OnlineHandler.
