(* ===== verification/FileHandler.v ===== *)
(** [filesvr/internal/handler/file_handler.cpp]: the gRPC interface of the file service,
    the stream of an upload, and the HTTP download. *)

From S2P Require Import Prelude External Errors Utils Jwt Rpc FileStore FileService.

(** [::swift::file::UploadChunk]: the member of the [oneof] that is set. *)
Inductive UploadChunk : Type :=
  | kMeta (upload_id : string)
  | kChunk (data : string)
  | kResumeMeta (upload_id : string) (offset : Z)
  | DATA_NOT_SET.

(** [::swift::file::FileInfo] *)
Record FileInfo : Type := {
  fin_file_id : string; fin_file_name : string; fin_file_size : Z; fin_content_type : string;
  fin_uploader_id : string; fin_uploaded_at : Z; fin_md5 : string }.
Record GetFileUrlBody : Type := {
  gfb_file_url : string; gfb_file_name : string; gfb_file_size : Z; gfb_content_type : string;
  gfb_expire_at : Z }.
Record GetUploadStateBody : Type := {
  gsb_offset : Z; gsb_file_size : Z; gsb_completed : bool; gsb_file_id : string;
  gsb_expire_at : Z }.
Record UploadBody : Type := {
  ub_file_id : string; ub_file_url : string; ub_thumbnail_url : string }.
Record UploadTokenBody : Type := {
  utb_upload_token : string; utb_upload_url : string; utb_expire_at : Z }.

Definition no_url : GetFileUrlBody :=
  {| gfb_file_url := ""; gfb_file_name := ""; gfb_file_size := 0; gfb_content_type := "";
     gfb_expire_at := 0 |}.
Definition no_state : GetUploadStateBody :=
  {| gsb_offset := 0; gsb_file_size := 0; gsb_completed := false; gsb_file_id := "";
     gsb_expire_at := 0 |}.
Definition no_upload : UploadBody :=
  {| ub_file_id := ""; ub_file_url := ""; ub_thumbnail_url := "" |}.
Definition no_upload_token : UploadTokenBody :=
  {| utb_upload_token := ""; utb_upload_url := ""; utb_expire_at := 0 |}.

(** [SetResponseOk], [SetResponseFail] *)
Definition SetResponseOk {A} (body : A) : Response A := ok_with body.
Definition SetResponseFail {A} (none : A) (code : Z) (message : string) : Response A :=
  {| rsp_code := code; rsp_message := message; rsp_body := none |}.
Definition fail_code {A} (none : A) (code : ErrorCode) : Response A :=
  SetResponseFail none (ErrorCodeToInt code) (ErrorCodeToString code).

Section FileHandler.
Context {db : Type} `{!RocksDB db} `{!JsonLib} `{!OpenSSL}.
Variable config : FileConfig.
Variable jwt_secret : string.
Notation FileState := (FileState db).

Definition GetUserId (c : RpcContext) (request_user_id : string) : string :=
  if decide (jwt_secret ≠ "") then
    let uid := GetAuthenticatedUserId (rc_now c) (rc_meta c) jwt_secret in
    if decide (uid ≠ "") then uid else request_user_id
  else request_user_id.

(** [user_id = GetUserId(...); if (user_id.empty()) { ... } if (field.empty()) { ... }] *)
Definition for_user {A} (c : RpcContext) (request_user_id field : string) (none : A)
    (body : string → M FileState (Response A)) : M FileState (Response A) :=
  let user_id := GetUserId c request_user_id in
  if decide (user_id = "") then mret (token_error none) else
  if decide (field = "") then mret (fail_code none INVALID_PARAM) else
  body user_id.

(** Body: the upload id and the expiry. *)
Definition InitUpload (e : FileEnv) (c : RpcContext) (request_user_id file_name content_type : string)
    (file_size : Z) (md5 msg_id : string) : M FileState (Response (string * Z)) :=
  for_user c request_user_id file_name ("", 0) (λ user_id,
    result ← FileService.InitUpload config e user_id file_name content_type file_size md5 msg_id;
    mret (if iu_success result
          then SetResponseOk (if decide (iu_upload_id result = "") then iu_existing_file_id result
                              else iu_upload_id result, iu_expire_at result)
          else SetResponseFail ("", 0) (iu_error_code result) (iu_error result))).

Definition GetUploadState (upload_id : string) : M FileState (Response GetUploadStateBody) :=
  if decide (upload_id = "") then mret (fail_code no_state INVALID_PARAM) else
  result ← FileService.GetUploadState upload_id;
  mret (if negb (gu_found result)
        then SetResponseFail no_state
               (if decide (gu_error_code result ≠ 0) then gu_error_code result
                else ErrorCodeToInt NOT_FOUND)
               (if decide (gu_error result = "") then ErrorCodeToString NOT_FOUND
                else gu_error result)
        else SetResponseOk
               {| gsb_offset := gu_offset result; gsb_file_size := gu_file_size result;
                  gsb_completed := gu_completed result;
                  gsb_file_id := if gu_completed result && bool_decide (gu_file_id result ≠ "")
                                 then gu_file_id result else "";
                  gsb_expire_at := gu_expire_at result |}).

(** The loop over the stream: the upload id it ends with, or the response of an early
    return.  The local [first] is true exactly as long as the id is empty, and
    [write_offset] is never read; each message comes with what its [AppendChunk]
    reads from outside. *)
Fixpoint read_stream (stream : list (FileEnv * UploadChunk)) (upload_id : string)
    : M FileState (string + Response UploadBody) :=
  let required := SetResponseFail no_upload (ErrorCodeToInt INVALID_PARAM) "upload_id required" in
  match stream with
  | [] => mret (inl upload_id)
  | (e, chunk) :: stream =>
      match chunk with
      | kMeta id | kResumeMeta id _ =>
          if decide (id = "") then mret (inr required) else read_stream stream id
      | kChunk data =>
          if decide (data = "") then read_stream stream upload_id else
          if decide (upload_id = "")
          then mret (inr (SetResponseFail no_upload (ErrorCodeToInt INVALID_PARAM)
                            "first message must be meta or resume_meta")) else
          append ← AppendChunk e upload_id data;
          if negb (ac_success append)
          then mret (inr (SetResponseFail no_upload (ac_error_code append) (ac_error append)))
          else read_stream stream upload_id
      | DATA_NOT_SET => read_stream stream upload_id
      end
  end.

Definition UploadFile (e : FileEnv) (stream : list (FileEnv * UploadChunk))
    : M FileState (Response UploadBody) :=
  r ← read_stream stream "";
  match r with
  | inr response => mret response
  | inl upload_id =>
      if decide (upload_id = "")
      then mret (SetResponseFail no_upload (ErrorCodeToInt INVALID_PARAM)
                   "stream must start with meta or resume_meta") else
      complete ← CompleteUpload config e upload_id;
      mret (if cu_success complete
            then SetResponseOk
                   {| ub_file_id := cu_file_id complete; ub_file_url := cu_file_url complete;
                      ub_thumbnail_url := cu_thumbnail_url complete |}
            else SetResponseFail no_upload (cu_error_code complete) (cu_error complete))
  end.

Definition GetFileUrl (c : RpcContext) (request_user_id file_id : string)
    : M FileState (Response GetFileUrlBody) :=
  for_user c request_user_id file_id no_url (λ user_id,
    result ← FileService.GetFileUrl config file_id user_id;
    mret (if fu_success result
          then SetResponseOk
                 {| gfb_file_url := fu_file_url result; gfb_file_name := fu_file_name result;
                    gfb_file_size := fu_file_size result;
                    gfb_content_type := fu_content_type result;
                    gfb_expire_at := if decide (0 < fu_expire_at result) then fu_expire_at result
                                     else 0 |}
          else SetResponseFail no_url (fu_error_code result) (fu_error result))).

(** No user is asked for. *)
Definition GetFileInfo (file_id : string) : M FileState (Response (option FileInfo)) :=
  if decide (file_id = "") then mret (fail_code None INVALID_PARAM) else
  result ← FileService.GetFileInfo file_id;
  mret match result with
       | None => fail_code None FILE_NOT_FOUND
       | Some meta => SetResponseOk (Some
           {| fin_file_id := fm_file_id meta; fin_file_name := fm_file_name meta;
              fin_file_size := fm_file_size meta; fin_content_type := fm_content_type meta;
              fin_uploader_id := fm_uploader_id meta; fin_uploaded_at := fm_uploaded_at meta;
              fin_md5 := fm_md5 meta |})
       end.

Definition DeleteFile (e : FileEnv) (c : RpcContext) (request_user_id file_id : string)
    : M FileState CommonResponse :=
  for_user c request_user_id file_id tt (λ user_id,
    ok ← FileService.DeleteFile e file_id user_id;
    mret (if (ok : bool) then SetResponseOk tt else fail_code tt FILE_NOT_FOUND)).

Definition GetUploadToken (e : FileEnv) (c : RpcContext) (request_user_id file_name : string)
    (file_size : Z) : M FileState (Response UploadTokenBody) :=
  for_user c request_user_id file_name no_upload_token (λ user_id,
    result ← FileService.GetUploadToken config e user_id file_name file_size;
    mret (if ut_success result
          then SetResponseOk
                 {| utb_upload_token := ut_upload_token result;
                    utb_upload_url := ut_upload_url result;
                    utb_expire_at := ut_expire_at result |}
          else SetResponseFail no_upload_token (ut_error_code result) (ut_error result))).

(** [HttpDownloadHandler::Serve]: [None] is the answer false; the second component is
    [is_partial]. *)
Definition Serve (e : FileEnv) (file_id : string) (range_start range_end : Z)
    : M FileState (option (FileData * bool)) :=
  if decide (0 ≤ range_start ∧ 0 ≤ range_end ∧ range_start ≤ range_end) then
    let length := wrap64 (range_end - range_start + 1) in
    data ← ReadFileRange e file_id range_start length;
    mret ((λ d, (d, true)) <$> data)
  else
    data ← ReadFile e file_id;
    mret ((λ d, (d, false)) <$> data).
End FileHandler.

(** * Properties *)

(** The stream with the offsets of its resume messages forgotten. *)
Definition forget_offset (x : FileEnv * UploadChunk) : FileEnv * UploadChunk :=
  (x.1, match x.2 with kResumeMeta id _ => kMeta id | chunk => chunk end).

Section Properties.
Context {db : Type} `{!RocksDB db} `{!RocksDBLaws db} `{!JsonLib} `{!JsonLaws} `{!OpenSSL}.
Variable config : FileConfig.
Variable jwt_secret : string.
Notation FileState := (FileState db).
Implicit Types st : FileState.

(** The offset a client resumes from is not looked at: its chunks are appended at the end of what
    was received, wherever the client thinks that is. *)
Lemma UploadFile_ignores_offset e stream st :
  UploadFile config e stream st = UploadFile config e (forget_offset <$> stream) st.
Proof.
  assert (∀ id st, read_stream stream id st = read_stream (forget_offset <$> stream) id st) as Hread.
  { induction stream as [|[e' chunk] l IH]; intros id st1; [done|].
    destruct chunk as [id'|data|id' off|]; cbn; repeat case_decide; try done; try apply IH.
    unfold mbind, M_bind. destruct (AppendChunk e' id data st1) as [[a|] st2]; [|done].
    destruct (negb _); [done|apply IH]. }
  unfold UploadFile, mbind, M_bind. by rewrite Hread.
Qed.

(** Where writes succeed, the uploader's deletion succeeds. *)
Lemma DeleteFile_writes (P : db → Prop) e id st M m : keeps_writing P → P (fs_store st) →
  disk_rep config st M → GetById (fs_store st) id = Some m →
  fst (FileService.DeleteFile e id (fm_uploader_id m) st) = Ret true.
Proof.
  intros HP Hst Hrep Hm. unfold FileService.DeleteFile, mbind, M_bind, reads. rewrite Hm.
  rewrite decide_False by naive_solver. unfold on_store, zoom, Delete.
  rewrite (FileStore_GetById_rep _ M _ (dr_store _ _ _ Hrep)) in Hm.
  destruct (proj1 (store_ids _ _ (dr_store _ _ _ Hrep)) _ _ Hm) as [_ Hid].
  rewrite decide_False by done. unfold mbind, M_bind, reads.
  rewrite (FileStore_GetById_rep _ M _ (dr_store _ _ _ Hrep)), Hm. unfold kv_write, kv_commit.
  match goal with |- context [db_Write ?d ?b] => destruct (HP d b Hst) as (d' & -> & _) end.
  unfold remove_file, on_disk. by destruct (fe_remove _ _).
Qed.

(** A caller without a token deletes any file: [GetFileInfo] tells him, unasked for a user, who
    uploaded it, and [DeleteFile] takes the user id he puts into the request for his own;
    the file is then gone, for its owner too. *)
Lemma anonymous_deletes_any_file e c id st M m P : caller c jwt_secret = "" →
  disk_rep config st M → keeps_writing P → P (fs_store st) →
  GetById (fs_store st) id = Some m → fm_uploader_id m ≠ "" →
  ∃ info st', GetFileInfo id st = (Ret (ok_with (Some info)), st) ∧
    DeleteFile jwt_secret e c (fin_uploader_id info) id st = (Ret (ok_with tt), st') ∧
    GetById (fs_store st') id = None.
Proof.
  intros Hc Hrep HP Hst Hm Hu.
  assert (id ≠ "") as Hid.
  { rewrite (FileStore_GetById_rep _ M _ (dr_store _ _ _ Hrep)) in Hm.
    apply (proj1 (store_ids _ _ (dr_store _ _ _ Hrep)) _ _ Hm). }
  unfold GetFileInfo, DeleteFile, for_user. rewrite !decide_False by done.
  eexists. exists (snd (FileService.DeleteFile e id (fm_uploader_id m) st)).
  unfold FileService.GetFileInfo, mbind, M_bind, reads, mret, M_ret. rewrite Hm.
  split; [reflexivity|]. cbn [fin_uploader_id].
  assert (GetUserId jwt_secret c (fm_uploader_id m) = fm_uploader_id m) as ->.
  { unfold GetUserId, caller in *. case_decide; [|done]. by rewrite Hc, decide_False by naive_solver. }
  rewrite !decide_False by done.
  pose proof (DeleteFile_writes P e id st M m HP Hst Hrep Hm) as Hdel.
  destruct (FileService.DeleteFile e id (fm_uploader_id m) st) as [r st'] eqn:Hrun. simpl in Hdel. subst r.
  split; [reflexivity|]. destruct (DeleteFile_run config _ _ _ _ _ _ _ Hrep Hrun) as [_ [[? _]|Hok]]; [done|].
  destruct Hok as (m' & M' & _ & _ & _ & Hr' & [Hms _]%a_Delete_metas).
  simpl. rewrite (FileStore_GetById_rep _ M' _ Hr'), Hms. apply lookup_delete_eq.
Qed.
End Properties.

(** * Concrete runs *)

