(* ===== verification/Api.v ===== *)
(** The services behind one set of tokens: what the handlers have in common, and
    what holds across the services. *)

From S2P Require Import Prelude External Errors Utils Jwt Rpc GroupStore GroupService.
From S2P Require MessageStore ConvStore ChatService FriendStore FriendService AuthService.
From S2P Require OnlineService FileStore FileService.
From S2P Require ChatHandler GroupHandler FriendHandler AuthHandler FileHandler.
Import ChatService (Chat, ch_msg).

(** * Calls that are made for a user *)

Inductive chat_call : Type :=
  | CSendMessage (to_id : string) (chat_type : Z) (content media_url media_type : string)
      (mentions : list string) (reply_to_msg_id : string)
  | CRecallMessage (msg_id : string)
  | CPullOffline (cursor : string) (limit : Z)
  | CMarkRead (chat_id : string) (chat_type : Z) (last_msg_id : string)
  | CGetHistory (chat_id : string) (chat_type : Z) (before_msg_id : string) (limit : Z)
  | CSyncConversations
  | CDeleteConversation (chat_id : string) (chat_type : Z).

Inductive group_call : Type :=
  | GCreateGroup (group_name avatar_url : string) (member_ids : list string)
  | GDismissGroup (group_id : string)
  | GGetGroupInfo (group_id : string)
  | GUpdateGroup (group_id group_name avatar_url announcement : string)
  | GInviteMembers (group_id : string) (member_ids : list string)
  | GRemoveMember (group_id member_id : string)
  | GLeaveGroup (group_id : string)
  | GGetGroupMembers (group_id : string) (page page_size : Z)
  | GTransferOwner (group_id new_owner_id : string)
  | GSetMemberRole (group_id member_id : string) (role : Z)
  | GGetUserGroups
  | GMuteGroup.

Inductive friend_call : Type :=
  | FAddFriend (friend_id remark : string)
  | FHandleFriendRequest (request_id : string) (accept : bool) (group_id : string)
  | FRemoveFriend (friend_id : string)
  | FGetFriends (group_id : string)
  | FBlockUser (target_id : string)
  | FUnblockUser (target_id : string)
  | FGetBlockList
  | FCreateFriendGroup (group_name : string)
  | FGetFriendGroups
  | FDeleteFriendGroup (group_id : string)
  | FMoveFriend (friend_id to_group_id : string)
  | FSetRemark (friend_id remark : string)
  | FGetFriendRequests (type : Z).

Inductive profile_call : Type :=
  | PGetProfile
  | PUpdateProfile (nickname avatar_url signature : string)
  | PSearchUsers (keyword : string) (limit : Z).

(** The effect of a call on the state, its response dropped. *)
Definition effect {S A} (m : M S A) : M S unit := _ ← m; mret tt.
Definition no_effect {S} : M S unit := mret tt.

Section Calls.
Context {db GS : Type} `{!RocksDB db} `{!JsonLib} `{!OpenSSL} `{!GroupStore GS}.
Variable jwt_secret : string.

(** What a handler does with a call, and what the service does with the same
    request in the name of user [u]. *)
Definition handle_chat (e : Env) (c : RpcContext) (q : chat_call) : M (Chat db GS) unit :=
  match q with
  | CSendMessage a b x y z l r => effect (ChatHandler.SendMessage jwt_secret e c a b x y z l r)
  | CRecallMessage a => effect (ChatHandler.RecallMessage jwt_secret e c a)
  | CPullOffline a n => effect (ChatHandler.PullOffline jwt_secret c a n)
  | CMarkRead a b x => effect (ChatHandler.MarkRead jwt_secret c a b x)
  | CGetHistory a b x n => effect (ChatHandler.GetHistory jwt_secret c a b x n)
  | CSyncConversations => effect (ChatHandler.SyncConversations jwt_secret c)
  | CDeleteConversation a b => effect (ChatHandler.DeleteConversation jwt_secret c a b)
  end.
Definition serve_chat (e : Env) (q : chat_call) (u : string) : M (Chat db GS) unit :=
  match q with
  | CSendMessage a b x y z l r =>
      effect (ChatService.SendMessage e u a (ChatHandler.chat_type_of b) x y z l r)
  | CRecallMessage a => effect (ChatService.RecallMessage e a u)
  | CMarkRead a b x => effect (ChatService.MarkRead u a (ChatHandler.chat_type_of b) x)
  | CGetHistory a b x n =>
      effect (ChatService.GetHistory u a (ChatHandler.chat_type_of b) x
        (if decide (0 < n) then Z.min n ChatHandler.kMaxHistoryLimit else 50))
  | CDeleteConversation a b =>
      effect (ChatService.DeleteConversation u a (ChatHandler.chat_type_of b))
  | CPullOffline _ _ | CSyncConversations => no_effect
  end.

Definition handle_group (e : Env) (c : RpcContext) (q : group_call) : M GS unit :=
  match q with
  | GCreateGroup n a l => effect (GroupHandler.CreateGroup jwt_secret e c n a l)
  | GDismissGroup g => effect (GroupHandler.DismissGroup jwt_secret c g)
  | GGetGroupInfo g => effect (GroupHandler.GetGroupInfo jwt_secret c g)
  | GUpdateGroup g n a x => effect (GroupHandler.UpdateGroup jwt_secret e c g n a x)
  | GInviteMembers g l => effect (GroupHandler.InviteMembers jwt_secret e c g l)
  | GRemoveMember g m => effect (GroupHandler.RemoveMember jwt_secret c g m)
  | GLeaveGroup g => effect (GroupHandler.LeaveGroup jwt_secret c g)
  | GGetGroupMembers g p n => effect (GroupHandler.GetGroupMembers jwt_secret c g p n)
  | GTransferOwner g n => effect (GroupHandler.TransferOwner jwt_secret c g n)
  | GSetMemberRole g m r => effect (GroupHandler.SetMemberRole jwt_secret c g m r)
  | GGetUserGroups => effect (GroupHandler.GetUserGroups jwt_secret c)
  | GMuteGroup => effect (GroupHandler.MuteGroup jwt_secret c)
  end.
Definition serve_group (e : Env) (q : group_call) (u : string) : M GS unit :=
  match q with
  | GCreateGroup n a l => effect (GroupService.CreateGroup e u n a l)
  | GDismissGroup g => effect (GroupService.DismissGroup g u)
  | GUpdateGroup g n a x => effect (GroupService.UpdateGroup e g u n a x)
  | GInviteMembers g l => effect (GroupService.InviteMembers e g u l)
  | GRemoveMember g m => effect (GroupService.RemoveMember g u m)
  | GLeaveGroup g => effect (GroupService.LeaveGroup g u)
  | GTransferOwner g n => effect (GroupService.TransferOwner g u n)
  | GSetMemberRole g m r => effect (GroupService.SetMemberRole g u m r)
  | GGetGroupInfo _ | GGetGroupMembers _ _ _ | GGetUserGroups | GMuteGroup => no_effect
  end.

Definition handle_friend (e : Env) (c : RpcContext) (q : friend_call) : M db unit :=
  match q with
  | FAddFriend f r => effect (FriendHandler.AddFriend jwt_secret e c f r)
  | FHandleFriendRequest i a g => effect (FriendHandler.HandleFriendRequest jwt_secret e c i a g)
  | FRemoveFriend f => effect (FriendHandler.RemoveFriend jwt_secret c f)
  | FGetFriends g => effect (FriendHandler.GetFriends jwt_secret c g)
  | FBlockUser t => effect (FriendHandler.BlockUser jwt_secret c t)
  | FUnblockUser t => effect (FriendHandler.UnblockUser jwt_secret c t)
  | FGetBlockList => effect (FriendHandler.GetBlockList jwt_secret c)
  | FCreateFriendGroup n => effect (FriendHandler.CreateFriendGroup jwt_secret e c n)
  | FGetFriendGroups => effect (FriendHandler.GetFriendGroups jwt_secret c)
  | FDeleteFriendGroup g => effect (FriendHandler.DeleteFriendGroup jwt_secret c g)
  | FMoveFriend f g => effect (FriendHandler.MoveFriend jwt_secret c f g)
  | FSetRemark f r => effect (FriendHandler.SetRemark jwt_secret c f r)
  | FGetFriendRequests t => effect (FriendHandler.GetFriendRequests jwt_secret c t)
  end.
Definition serve_friend (e : Env) (q : friend_call) (u : string) : M db unit :=
  match q with
  | FAddFriend f r => effect (FriendService.AddFriend e u f r)
  | FHandleFriendRequest i a g => effect (FriendService.HandleRequest e u i a g)
  | FRemoveFriend f => effect (FriendService.RemoveFriend u f)
  | FBlockUser t => effect (FriendService.Block u t)
  | FUnblockUser t => effect (FriendService.Unblock u t)
  | FCreateFriendGroup n => effect (FriendService.CreateFriendGroup e u n)
  | FGetFriendGroups => effect (FriendService.GetFriendGroups u)
  | FDeleteFriendGroup g => effect (FriendService.DeleteFriendGroup u g)
  | FMoveFriend f g => effect (FriendService.MoveFriend u f g)
  | FSetRemark f r => effect (FriendService.SetRemark u f r)
  | FGetFriends _ | FGetBlockList | FGetFriendRequests _ => no_effect
  end.

Definition handle_profile (e : Env) (c : RpcContext) (q : profile_call) : M db unit :=
  match q with
  | PGetProfile => effect (AuthHandler.GetProfile jwt_secret c)
  | PUpdateProfile n a x => effect (AuthHandler.UpdateProfile jwt_secret e c n a x)
  | PSearchUsers k n => effect (AuthHandler.SearchUsers jwt_secret c k n)
  end.
Definition serve_profile (e : Env) (q : profile_call) (u : string) : M db unit :=
  match q with
  | PUpdateProfile n a x => effect (AuthService.UpdateProfile e u n a x)
  | PGetProfile | PSearchUsers _ _ => no_effect
  end.
End Calls.

(** * Properties *)

Section Guard.
Context `{!JsonLib} `{!OpenSSL}.

Lemma acts_effect {S A} secret c (refused : A) (body : string → M S A) (serve : string → M S unit) :
  (∀ u s, snd (body u s) = s ∨ snd (body u s) = snd (serve u s)) →
  acts_for_caller secret c (effect (authenticated c secret refused body)) serve.
Proof.
  intros Hbody s r s' Hrun Hne. unfold effect, authenticated in Hrun. case_decide as Hu.
  - munfold Hrun. by injection Hrun as <- <-.
  - apply bind_mret_snd in Hrun as ->. by destruct (Hbody (caller c secret) s).
Qed.
End Guard.

(** A handler body that makes one call of the service: compare the states. *)
Ltac one_call :=
  apply acts_effect; let u := fresh "u" in let st := fresh "st" in intros u st;
  cbn [serve_chat serve_group serve_friend serve_profile];
  unfold effect, no_effect, or_throw, throw, reads, mbind, M_bind, mret, M_ret;
  repeat (cbn beta iota;
          match goal with
          | |- context [match ?x with _ => _ end] =>
              lazymatch x with
              | context [match _ with _ => _ end] => fail
              | _ => destruct x
              end
          end); simpl; auto.

Section Properties.
Context {db GS : Type} `{!RocksDB db} `{!RocksDBLaws db} `{!JsonLib} `{!JsonLaws} `{!OpenSSL}
  `{!GroupStore GS}.
Variable jwt_secret : string.

(** C3: a call to the chat, group, friend or profile interface changes the state only when its token
    names a user, and then exactly as the service does for that user: no field of a
    request can make it act for somebody else. *)
Theorem calls_act_for_caller e c (s s' : Chat db GS) (g g' : GS) (d d' : db) r :
  (∀ q, handle_chat jwt_secret e c q s = (r, s') → s' ≠ s →
     caller c jwt_secret ≠ "" ∧ s' = snd (serve_chat e q (caller c jwt_secret) s)) ∧
  (∀ q, handle_group jwt_secret e c q g = (r, g') → g' ≠ g →
     caller c jwt_secret ≠ "" ∧ g' = snd (serve_group e q (caller c jwt_secret) g)) ∧
  (∀ q, handle_friend jwt_secret e c q d = (r, d') → d' ≠ d →
     caller c jwt_secret ≠ "" ∧ d' = snd (serve_friend e q (caller c jwt_secret) d)) ∧
  (∀ q, handle_profile jwt_secret e c q d = (r, d') → d' ≠ d →
     caller c jwt_secret ≠ "" ∧ d' = snd (serve_profile e q (caller c jwt_secret) d)).
Proof.
  split_and!; intros q.
  - assert (acts_for_caller jwt_secret c
      (handle_chat (db:=db) (GS:=GS) jwt_secret e c q) (serve_chat e q)) as Hacts; [|exact (Hacts s r s')].
    destruct q; one_call.
  - assert (acts_for_caller jwt_secret c
      (handle_group (GS:=GS) jwt_secret e c q) (serve_group e q)) as Hacts; [|exact (Hacts g r g')].
    destruct q; one_call.
  - assert (acts_for_caller jwt_secret c
      (handle_friend (db:=db) jwt_secret e c q) (serve_friend e q)) as Hacts; [|exact (Hacts d r d')].
    destruct q; one_call.
  - assert (acts_for_caller jwt_secret c
      (handle_profile (db:=db) jwt_secret e c q) (serve_profile e q)) as Hacts; [|exact (Hacts d r d')].
    destruct q; one_call.
Qed.

(** A first login makes the token. *)
Lemma Login_first e u device ty (d : db) r d1 : u ≠ "" → OnlineService.GetSession d u = None →
  OnlineService.Login jwt_secret e u device ty (Some d) = (Ret r, Some d1) →
  OnlineService.lr_success r = true →
  JwtCreate (env_clock e 3) u jwt_secret 168 "swift-online" = Some (OnlineService.lr_token r).
Proof.
  intros Hu Hnone Hrun Hok. unfold OnlineService.Login in Hrun. rewrite decide_False in Hrun by done.
  apply OnlineService.with_store_run in Hrun. munfold Hrun. rewrite Hnone in Hrun.
  unfold OnlineService.GenerateToken in Hrun.
  change (wrap32 (OnlineService.kTokenExpireDays * 24)) with 168 in Hrun.
  destruct (JwtCreate _ _ _ _ _) as [token|]; [|done]. cbn [mbind option_bind] in Hrun. munfold Hrun.
  destruct (OnlineService.SetSession _ d) as [[ok|] d2]; [|done]. injection Hrun as <- <-. by destruct ok.
Qed.

(** logging out does not revoke a token.  The token of a login authenticates its user at every
    service with the same secret for seven days; after [Logout] the login service
    itself refuses it, and the other services, which check
    only its signature and its expiry, still act for the user. *)
Theorem logout_does_not_revoke e u device ty (d : db) r d1 any r2 d2 : u ≠ "" → jwt_secret ≠ "" →
  OnlineService.GetSession d u = None → int32_range (Z.quot (env_clock e 3) 1000 + 604800) →
  AuthHandler.Login jwt_secret e u device ty (Some d) = (Ret r, Some d1) → rsp_code r = 0 →
  AuthHandler.Logout u any (Some d1) = (Ret r2, Some d2) → OnlineService.GetSession d2 u = None →
  let token := fst (rsp_body r) in
  (∀ e2, fst (AuthHandler.ValidateToken jwt_secret e2 token (Some d2)) =
     Ret (fail_with ("", false) TOKEN_INVALID (ErrorCodeToString TOKEN_INVALID))) ∧
  ∀ c, rc_meta c "authorization" = Some ("Bearer " +:+ token) →
    Z.quot (rc_now c) 1000 ≤ Z.quot (env_clock e 3) 1000 + 604800 → caller c jwt_secret = u.
Proof.
  intros Hu Hsec Hnone Hclk Hlogin Hcode Hlogout Hgone token. unfold AuthHandler.Login in Hlogin.
  apply run_bind_ret in Hlogin as (lr & s1 & Hlogin & Hret). injection Hret as Hr Hs1. subst r s1.
  destruct (OnlineService.lr_success lr) eqn:Hok; [|done]. subst token. cbn [rsp_body fst].
  pose proof (Login_first _ _ _ _ _ _ _ Hu Hnone Hlogin Hok) as Hc. split.
  - intros e2. unfold AuthHandler.ValidateToken, OnlineService.ValidateToken, mbind, M_bind, mret, M_ret.
    destruct (JwtCreate_token _ _ _ _ _ _ Hc) as [Hne _]. rewrite decide_False by done.
    destruct (JwtVerify_JwtCreate _ (env_clock e2 0) _ _ _ _ _ Hc) as (payload & Hd & ->).
    destruct (read_payload_fields (env_clock e2 0) _ _ _ _ _ Hd) as (-> & _).
    destruct (jp_valid _); cbn [negb]; [|done].
    unfold OnlineService.with_store, reads. by rewrite Hgone.
  - intros c Hm Hnow. unfold caller.
    rewrite (GetAuthenticatedUserId_created _ (rc_now c) (rc_meta c) _ _ _ _ _ Hc Hm Hsec);
      [by rewrite decide_True|set_solver|unfold int64_range; lia|done].
Qed.
End Properties.

(** * Concrete runs *)

Import OnlineService (at_time, unwrap_db, some_run, mem_empty_session).

Notation login_call := (AuthHandler.Login "k" (at_time 1700000000000) "u_1" "phone" "" (Some mem_empty)).
Notation login_db := (unwrap_db (snd login_call)).
Notation logout_call := (AuthHandler.Logout "u_1" "" (Some login_db)).
Definition login_answer : Response (string * Z) :=
  match fst login_call with Ret r => r | Exc => token_error ("", 0) end.

Lemma logout_does_not_revoke_witness :
  caller {| rc_meta := bearer (fst (rsp_body login_answer)); rc_now := 1700000060000 |} "k" = "u_1".
Proof.
  assert (login_call = (Ret login_answer, Some login_db)) as Hlogin by (apply some_run; eval_eq).
  assert (rsp_code login_answer = 0) as Hcode by eval_eq.
  assert (logout_call = (Ret {| rsp_code := 0; rsp_message := ""; rsp_body := tt |},
    Some (unwrap_db (snd logout_call)))) as Hlogout by (apply some_run; eval_eq).
  assert (OnlineService.GetSession (unwrap_db (snd logout_call)) "u_1" = None) as Hgone by eval_eq.
  pose proof (logout_does_not_revoke "k" (at_time 1700000000000) "u_1" "phone" "" mem_empty _ _ "" _ _
    ltac:(discriminate) ltac:(discriminate) (mem_empty_session _) ltac:(split; vm_compute; congruence)
    Hlogin Hcode Hlogout Hgone) as [_ Hcaller].
  exact (Hcaller {| rc_meta := bearer (fst (rsp_body login_answer)); rc_now := 1700000060000 |}
    eq_refl ltac:(vm_compute; congruence)).
Defined.

Notation block_call := (handle_friend "k" (at_time 1700000000000) (rpc_as "a") (FBlockUser "b") mem_empty).
Lemma calls_act_for_caller_witness :
  snd block_call = snd (serve_friend (at_time 1700000000000) (FBlockUser "b") "a" mem_empty) ∧
  snd block_call ≠ mem_empty.
Proof.
  assert (bool_decide (mem_content (snd block_call) = ∅) = false) as Hd by eval_eq.
  apply bool_decide_eq_false in Hd.
  assert (snd block_call ≠ mem_empty) as Hne by exact (λ H, Hd (f_equal mem_content H)).
  assert (caller (rpc_as "a") "k" = "a") as Ha by eval_eq.
  pose proof (calls_act_for_caller "k" (at_time 1700000000000) (rpc_as "a")
    {| ChatService.ch_msg := mem_empty; ChatService.ch_conv := mem_empty;
       ChatService.ch_reg := None; ChatService.ch_group := None (A := MemDB) |}
    {| ChatService.ch_msg := mem_empty; ChatService.ch_conv := mem_empty;
       ChatService.ch_reg := None; ChatService.ch_group := None (A := MemDB) |}
    mem_empty mem_empty mem_empty (snd block_call) (fst block_call)) as (_ & _ & Hf & _).
  pose proof (Hf (FBlockUser "b") (surjective_pairing _) Hne) as [_ Hs].
  rewrite Ha in Hs. exact (conj Hs Hne).
Defined.
