(* ===== verification/Proto.v ===== *)
(** Protocol buffers: the classes generated by [protoc] are a list of fields with
    [SerializeToString] and [ParseFromString].  Those two functions are a class with the
    laws documented for them; [mem_proto] is a concrete instance. *)

From Stdlib Require Import Ascii.
From S2P Require Import Prelude.

(** * Messages *)

(** A field's type: how a value of it is written. *)
Class Field (A : Type) : Type := {
  fld_write : A → string;
  fld_read : string → option A;
  fld_read_write a : fld_read (fld_write a) = Some a }.

(** A message: its fields in order. *)
Class Msg (A : Type) : Type := {
  msg_fields : A → list string;
  msg_build : list string → option A;
  msg_build_fields a : msg_build (msg_fields a) = Some a }.

(** [SerializeToString] returns false ([None]) only when the message is too large;
    [pb_valid]: the strings of the message are UTF-8, the numbers are in the range of
    their types, and it has a serialised size below 2 GiB. *)
Class ProtoBuf : Type := {
  SerializeToString {A} `{Msg A} : A → option string;
  ParseFromString {A} `{Msg A} : string → option A;
  pb_valid {A} `{Msg A} : A → Prop }.

Class ProtoLaws `{ProtoBuf} : Prop := {
  Parse_Serialize {A} `{Msg A} (a : A) s :
    pb_valid a → SerializeToString a = Some s → ParseFromString s = Some a;
  Serialize_valid {A} `{Msg A} (a : A) : pb_valid a → is_Some (SerializeToString a) }.

(** * A concrete encoding

    A field is its length in unary, a zero and its bytes. *)

Fixpoint ones (n : nat) (rest : string) : string :=
  match n with O => String "0" rest | S n => String "1" (ones n rest) end.
Fixpoint count_ones (s : string) : nat * string :=
  match s with
  | EmptyString => (O, EmptyString)
  | String a s' => if decide (a = "1"%char) then let '(n, r) := count_ones s' in (S n, r)
                   else (O, s')
  end.
Lemma count_ones_ones n rest : count_ones (ones n rest) = (n, rest).
Proof. induction n as [|n IH]; simpl; [done|]. by rewrite IH. Qed.

Fixpoint write_strings (l : list string) : string :=
  match l with
  | [] => ""
  | s :: l => ones (str_size s) (s +:+ write_strings l)
  end.
(** [fuel] is at least the number of fields. *)
Fixpoint read_strings (fuel : nat) (s : string) : option (list string) :=
  match fuel with
  | O => None
  | S fuel =>
      if decide (s = "") then Some [] else
      let '(n, r) := count_ones s in
      l ← read_strings fuel (str_drop n r); Some (str_take n r :: l)
  end.
Lemma write_strings_size l : (length l ≤ str_size (write_strings l))%nat.
Proof.
  assert (∀ n r, str_size (ones n r) = (n + 1 + str_size r)%nat) as Hones.
  { intros n r. unfold str_size. induction n as [|n IH]; simpl; [done|]. by rewrite IH. }
  induction l as [|s l IH]; simpl; [lia|]. rewrite Hones, str_size_app. lia.
Qed.
Lemma read_write_strings fuel l : (length l < fuel)%nat →
  read_strings fuel (write_strings l) = Some l.
Proof.
  revert fuel; induction l as [|s l IH]; intros [|fuel] Hf; simpl in Hf; try lia; [done|].
  simpl. rewrite decide_False by (by destruct s).
  rewrite count_ones_ones, str_drop_app, str_take_app, IH by lia. done.
Qed.

Definition write_list (l : list string) : string := write_strings l.
Definition read_list (s : string) : option (list string) := read_strings (S (str_size s)) s.
Lemma read_write_list l : read_list (write_list l) = Some l.
Proof. apply read_write_strings. pose proof (write_strings_size l). unfold write_list. lia. Qed.

#[export] Instance mem_proto : ProtoBuf := {|
  SerializeToString A _ a := Some (write_list (msg_fields a));
  ParseFromString A _ s := read_list s ≫= msg_build;
  pb_valid A _ a := True |}.
#[export] Instance mem_proto_laws : ProtoLaws.
Proof.
  split; [|done]. intros A ? a s _ [= <-]. simpl. rewrite read_write_list. apply msg_build_fields.
Qed.

(** ** The field types *)

#[export, refine] Instance string_field : Field string := {| fld_write (s : string) := s; fld_read := Some |}.
Proof. done. Defined.
#[export, refine] Instance bool_field : Field bool := {|
  fld_write (b : bool) := if b then "1" else "0"; fld_read s := Some (bool_decide (s = "1")) |}.
Proof. by intros []. Defined.

Fixpoint write_pos (p : positive) : string :=
  match p with xH => "" | xO p => String "0" (write_pos p) | xI p => String "1" (write_pos p) end.
Fixpoint read_pos (s : string) : positive :=
  match s with
  | EmptyString => xH
  | String a s => if decide (a = "0"%char) then xO (read_pos s) else xI (read_pos s)
  end.
#[export, refine] Instance Z_field : Field Z := {|
  fld_write (z : Z) := match z with Z0 => "" | Zpos p => String "+" (write_pos p)
                 | Zneg p => String "-" (write_pos p) end;
  fld_read s := Some match s with EmptyString => 0
                 | String a s => if decide (a = "+"%char) then Zpos (read_pos s)
                                 else Zneg (read_pos s) end |}.
Proof.
  assert (∀ p, read_pos (write_pos p) = p) as Hp.
  { induction p as [p IH|p IH|]; simpl; [by rewrite IH..|done]. }
  intros [|p|p]; simpl; [done|by rewrite Hp..].
Defined.

#[export, refine] Instance strings_field : Field (list string) := {|
  fld_write := write_list; fld_read := read_list |}.
Proof. apply read_write_list. Defined.

(** A message as a field, repeated or single. *)
Definition write_msg `{Msg A} (a : A) : string := write_list (msg_fields a).
Definition read_msg `{Msg A} (s : string) : option A := read_list s ≫= msg_build.
Lemma read_write_msg `{Msg A} (a : A) : read_msg (write_msg a) = Some a.
Proof. unfold read_msg, write_msg. rewrite read_write_list. apply msg_build_fields. Qed.
Lemma read_write_msgs `{Msg A} (l : list A) : mapM read_msg (write_msg <$> l) = Some l.
Proof.
  apply mapM_Some_2, Forall2_fmap_l, Forall_Forall2_diag, Forall_true. apply read_write_msg.
Qed.

#[export, refine] Instance msgs_field `{Msg A} : Field (list A) := {|
  fld_write (l : list A) := write_list (write_msg <$> l);
  fld_read s := read_list s ≫= (mapM read_msg : list string → option (list A)) |}.
Proof. intros l. rewrite read_write_list. exact (read_write_msgs l). Defined.
#[export, refine] Instance msg_field `{Msg A} : Field (option A) := {|
  fld_write (o : option A) := write_list (write_msg <$> match o with Some a => [a] | None => [] end);
  fld_read s := l ← read_list s; head <$> (mapM read_msg l : option (list A)) |}.
Proof.
  intros o. rewrite read_write_list.
  destruct o as [a|]; [exact (f_equal (fmap head) (read_write_msgs [a]))|done].
Defined.

(** The proof of [msg_build_fields] for a record. *)
Ltac solve_msg := intros []; cbn -[fld_read fld_write]; by rewrite ?fld_read_write.
