(* ===== verification/ZonePayloads.v ===== *)
(** [zonesvr/proto/zone.proto] and [gatesvr/proto/gate.proto]: the messages in the
    payloads of the clients' commands and of the pushes, field by field. *)

From S2P Require Import Prelude Proto.

Record AuthLoginPayload : Type := { zal_username : string; zal_password : string;
  zal_device_id : string; zal_device_type : string }.
#[export, refine] Instance msg_AuthLoginPayload : Msg AuthLoginPayload := {|
  msg_fields m := [fld_write (zal_username m); fld_write (zal_password m);
    fld_write (zal_device_id m); fld_write (zal_device_type m)];
  msg_build l := match l with [a0; a1; a2; a3] =>
    a0 ← fld_read a0; a1 ← fld_read a1; a2 ← fld_read a2; a3 ← fld_read a3;
    Some (Build_AuthLoginPayload a0 a1 a2 a3)
    | _ => None end |}.
Proof. solve_msg. Defined.
Record AuthLoginResponsePayload : Type := { zalr_success : bool; zalr_user_id : string;
  zalr_token : string; zalr_expire_at : Z; zalr_error : string }.
#[export, refine] Instance msg_AuthLoginResponsePayload : Msg AuthLoginResponsePayload := {|
  msg_fields m := [fld_write (zalr_success m); fld_write (zalr_user_id m);
    fld_write (zalr_token m); fld_write (zalr_expire_at m); fld_write (zalr_error m)];
  msg_build l := match l with [a0; a1; a2; a3; a4] =>
    a0 ← fld_read a0; a1 ← fld_read a1; a2 ← fld_read a2; a3 ← fld_read a3; a4 ← fld_read a4;
    Some (Build_AuthLoginResponsePayload a0 a1 a2 a3 a4)
    | _ => None end |}.
Proof. solve_msg. Defined.
Record AuthRegisterPayload : Type := { zar_username : string; zar_password : string;
  zar_nickname : string; zar_email : string; zar_avatar_url : string }.
#[export, refine] Instance msg_AuthRegisterPayload : Msg AuthRegisterPayload := {|
  msg_fields m := [fld_write (zar_username m); fld_write (zar_password m);
    fld_write (zar_nickname m); fld_write (zar_email m); fld_write (zar_avatar_url m)];
  msg_build l := match l with [a0; a1; a2; a3; a4] =>
    a0 ← fld_read a0; a1 ← fld_read a1; a2 ← fld_read a2; a3 ← fld_read a3; a4 ← fld_read a4;
    Some (Build_AuthRegisterPayload a0 a1 a2 a3 a4)
    | _ => None end |}.
Proof. solve_msg. Defined.
Record AuthRegisterResponsePayload : Type := { zarr_success : bool; zarr_user_id : string;
  zarr_error : string }.
#[export, refine] Instance msg_AuthRegisterResponsePayload : Msg AuthRegisterResponsePayload := {|
  msg_fields m := [fld_write (zarr_success m); fld_write (zarr_user_id m);
    fld_write (zarr_error m)];
  msg_build l := match l with [a0; a1; a2] =>
    a0 ← fld_read a0; a1 ← fld_read a1; a2 ← fld_read a2;
    Some (Build_AuthRegisterResponsePayload a0 a1 a2)
    | _ => None end |}.
Proof. solve_msg. Defined.
Record AuthLogoutPayload : Type := { zalo_user_id : string; zalo_token : string }.
#[export, refine] Instance msg_AuthLogoutPayload : Msg AuthLogoutPayload := {|
  msg_fields m := [fld_write (zalo_user_id m); fld_write (zalo_token m)];
  msg_build l := match l with [a0; a1] =>
    a0 ← fld_read a0; a1 ← fld_read a1; Some (Build_AuthLogoutPayload a0 a1)
    | _ => None end |}.
Proof. solve_msg. Defined.
Record AuthValidateTokenPayload : Type := { zavt_token : string }.
#[export, refine] Instance msg_AuthValidateTokenPayload : Msg AuthValidateTokenPayload := {|
  msg_fields m := [fld_write (zavt_token m)];
  msg_build l := match l with [a0] =>
    a0 ← fld_read a0; Some (Build_AuthValidateTokenPayload a0)
    | _ => None end |}.
Proof. solve_msg. Defined.
Record AuthValidateTokenResponsePayload : Type := { zavtr_user_id : string }.
#[export, refine] Instance msg_AuthValidateTokenResponsePayload : Msg AuthValidateTokenResponsePayload := {|
  msg_fields m := [fld_write (zavtr_user_id m)];
  msg_build l := match l with [a0] =>
    a0 ← fld_read a0; Some (Build_AuthValidateTokenResponsePayload a0)
    | _ => None end |}.
Proof. solve_msg. Defined.
Record ChatSendMessagePayload : Type := { zcsm_from_user_id : string; zcsm_to_id : string;
  zcsm_chat_type : Z; zcsm_content : string; zcsm_media_url : string; zcsm_media_type : string;
  zcsm_client_msg_id : string; zcsm_file_size : Z; zcsm_mentions : list string;
  zcsm_reply_to_msg_id : string }.
#[export, refine] Instance msg_ChatSendMessagePayload : Msg ChatSendMessagePayload := {|
  msg_fields m := [fld_write (zcsm_from_user_id m); fld_write (zcsm_to_id m);
    fld_write (zcsm_chat_type m); fld_write (zcsm_content m); fld_write (zcsm_media_url m);
    fld_write (zcsm_media_type m); fld_write (zcsm_client_msg_id m);
    fld_write (zcsm_file_size m); fld_write (zcsm_mentions m);
    fld_write (zcsm_reply_to_msg_id m)];
  msg_build l := match l with [a0; a1; a2; a3; a4; a5; a6; a7; a8; a9] =>
    a0 ← fld_read a0; a1 ← fld_read a1; a2 ← fld_read a2; a3 ← fld_read a3; a4 ← fld_read a4;
    a5 ← fld_read a5; a6 ← fld_read a6; a7 ← fld_read a7; a8 ← fld_read a8; a9 ← fld_read a9;
    Some (Build_ChatSendMessagePayload a0 a1 a2 a3 a4 a5 a6 a7 a8 a9)
    | _ => None end |}.
Proof. solve_msg. Defined.
Record ChatSendMessageResponsePayload : Type := { zcsmr_success : bool; zcsmr_msg_id : string;
  zcsmr_timestamp : Z; zcsmr_error : string }.
#[export, refine] Instance msg_ChatSendMessageResponsePayload : Msg ChatSendMessageResponsePayload := {|
  msg_fields m := [fld_write (zcsmr_success m); fld_write (zcsmr_msg_id m);
    fld_write (zcsmr_timestamp m); fld_write (zcsmr_error m)];
  msg_build l := match l with [a0; a1; a2; a3] =>
    a0 ← fld_read a0; a1 ← fld_read a1; a2 ← fld_read a2; a3 ← fld_read a3;
    Some (Build_ChatSendMessageResponsePayload a0 a1 a2 a3)
    | _ => None end |}.
Proof. solve_msg. Defined.
Record ChatMessagePushPayload : Type := { zcmp_msg_id : string; zcmp_from_user_id : string;
  zcmp_to_id : string; zcmp_chat_type : Z; zcmp_content : string; zcmp_media_url : string;
  zcmp_media_type : string; zcmp_timestamp : Z; zcmp_mentions : list string;
  zcmp_reply_to_msg_id : string }.
#[export, refine] Instance msg_ChatMessagePushPayload : Msg ChatMessagePushPayload := {|
  msg_fields m := [fld_write (zcmp_msg_id m); fld_write (zcmp_from_user_id m);
    fld_write (zcmp_to_id m); fld_write (zcmp_chat_type m); fld_write (zcmp_content m);
    fld_write (zcmp_media_url m); fld_write (zcmp_media_type m); fld_write (zcmp_timestamp m);
    fld_write (zcmp_mentions m); fld_write (zcmp_reply_to_msg_id m)];
  msg_build l := match l with [a0; a1; a2; a3; a4; a5; a6; a7; a8; a9] =>
    a0 ← fld_read a0; a1 ← fld_read a1; a2 ← fld_read a2; a3 ← fld_read a3; a4 ← fld_read a4;
    a5 ← fld_read a5; a6 ← fld_read a6; a7 ← fld_read a7; a8 ← fld_read a8; a9 ← fld_read a9;
    Some (Build_ChatMessagePushPayload a0 a1 a2 a3 a4 a5 a6 a7 a8 a9)
    | _ => None end |}.
Proof. solve_msg. Defined.
Record ChatRecallMessagePayload : Type := { zcrm_msg_id : string; zcrm_user_id : string }.
#[export, refine] Instance msg_ChatRecallMessagePayload : Msg ChatRecallMessagePayload := {|
  msg_fields m := [fld_write (zcrm_msg_id m); fld_write (zcrm_user_id m)];
  msg_build l := match l with [a0; a1] =>
    a0 ← fld_read a0; a1 ← fld_read a1; Some (Build_ChatRecallMessagePayload a0 a1)
    | _ => None end |}.
Proof. solve_msg. Defined.
Record ChatMarkReadPayload : Type := { zcmr_chat_id : string; zcmr_chat_type : Z;
  zcmr_last_msg_id : string }.
#[export, refine] Instance msg_ChatMarkReadPayload : Msg ChatMarkReadPayload := {|
  msg_fields m := [fld_write (zcmr_chat_id m); fld_write (zcmr_chat_type m);
    fld_write (zcmr_last_msg_id m)];
  msg_build l := match l with [a0; a1; a2] =>
    a0 ← fld_read a0; a1 ← fld_read a1; a2 ← fld_read a2;
    Some (Build_ChatMarkReadPayload a0 a1 a2)
    | _ => None end |}.
Proof. solve_msg. Defined.
Record ChatPullOfflinePayload : Type := { zcpo_limit : Z; zcpo_cursor : string }.
#[export, refine] Instance msg_ChatPullOfflinePayload : Msg ChatPullOfflinePayload := {|
  msg_fields m := [fld_write (zcpo_limit m); fld_write (zcpo_cursor m)];
  msg_build l := match l with [a0; a1] =>
    a0 ← fld_read a0; a1 ← fld_read a1; Some (Build_ChatPullOfflinePayload a0 a1)
    | _ => None end |}.
Proof. solve_msg. Defined.
Record ChatPullOfflineResponsePayload : Type := { zcpor_messages : list ChatMessagePushPayload;
  zcpor_next_cursor : string; zcpor_has_more : bool }.
#[export, refine] Instance msg_ChatPullOfflineResponsePayload : Msg ChatPullOfflineResponsePayload := {|
  msg_fields m := [fld_write (zcpor_messages m); fld_write (zcpor_next_cursor m);
    fld_write (zcpor_has_more m)];
  msg_build l := match l with [a0; a1; a2] =>
    a0 ← fld_read a0; a1 ← fld_read a1; a2 ← fld_read a2;
    Some (Build_ChatPullOfflineResponsePayload a0 a1 a2)
    | _ => None end |}.
Proof. solve_msg. Defined.
Record FriendAddPayload : Type := { zfa_user_id : string; zfa_friend_id : string;
  zfa_remark : string }.
#[export, refine] Instance msg_FriendAddPayload : Msg FriendAddPayload := {|
  msg_fields m := [fld_write (zfa_user_id m); fld_write (zfa_friend_id m);
    fld_write (zfa_remark m)];
  msg_build l := match l with [a0; a1; a2] =>
    a0 ← fld_read a0; a1 ← fld_read a1; a2 ← fld_read a2; Some (Build_FriendAddPayload a0 a1 a2)
    | _ => None end |}.
Proof. solve_msg. Defined.
Record FriendHandleRequestPayload : Type := { zfhr_user_id : string; zfhr_request_id : string;
  zfhr_accept : bool }.
#[export, refine] Instance msg_FriendHandleRequestPayload : Msg FriendHandleRequestPayload := {|
  msg_fields m := [fld_write (zfhr_user_id m); fld_write (zfhr_request_id m);
    fld_write (zfhr_accept m)];
  msg_build l := match l with [a0; a1; a2] =>
    a0 ← fld_read a0; a1 ← fld_read a1; a2 ← fld_read a2;
    Some (Build_FriendHandleRequestPayload a0 a1 a2)
    | _ => None end |}.
Proof. solve_msg. Defined.
Record FriendRemovePayload : Type := { zfr_user_id : string; zfr_friend_id : string }.
#[export, refine] Instance msg_FriendRemovePayload : Msg FriendRemovePayload := {|
  msg_fields m := [fld_write (zfr_user_id m); fld_write (zfr_friend_id m)];
  msg_build l := match l with [a0; a1] =>
    a0 ← fld_read a0; a1 ← fld_read a1; Some (Build_FriendRemovePayload a0 a1)
    | _ => None end |}.
Proof. solve_msg. Defined.
Record FriendBlockPayload : Type := { zfb_user_id : string; zfb_target_id : string }.
#[export, refine] Instance msg_FriendBlockPayload : Msg FriendBlockPayload := {|
  msg_fields m := [fld_write (zfb_user_id m); fld_write (zfb_target_id m)];
  msg_build l := match l with [a0; a1] =>
    a0 ← fld_read a0; a1 ← fld_read a1; Some (Build_FriendBlockPayload a0 a1)
    | _ => None end |}.
Proof. solve_msg. Defined.
Record FriendGetFriendsPayload : Type := { zfgf_group_id : string }.
#[export, refine] Instance msg_FriendGetFriendsPayload : Msg FriendGetFriendsPayload := {|
  msg_fields m := [fld_write (zfgf_group_id m)];
  msg_build l := match l with [a0] =>
    a0 ← fld_read a0; Some (Build_FriendGetFriendsPayload a0)
    | _ => None end |}.
Proof. solve_msg. Defined.
Record FriendInfoPayload : Type := { zfi_friend_id : string; zfi_remark : string;
  zfi_group_id : string; zfi_nickname : string; zfi_avatar_url : string; zfi_added_at : Z }.
#[export, refine] Instance msg_FriendInfoPayload : Msg FriendInfoPayload := {|
  msg_fields m := [fld_write (zfi_friend_id m); fld_write (zfi_remark m);
    fld_write (zfi_group_id m); fld_write (zfi_nickname m); fld_write (zfi_avatar_url m);
    fld_write (zfi_added_at m)];
  msg_build l := match l with [a0; a1; a2; a3; a4; a5] =>
    a0 ← fld_read a0; a1 ← fld_read a1; a2 ← fld_read a2; a3 ← fld_read a3; a4 ← fld_read a4;
    a5 ← fld_read a5; Some (Build_FriendInfoPayload a0 a1 a2 a3 a4 a5)
    | _ => None end |}.
Proof. solve_msg. Defined.
Record FriendGetFriendsResponsePayload : Type := { zfgfr_friends : list FriendInfoPayload }.
#[export, refine] Instance msg_FriendGetFriendsResponsePayload : Msg FriendGetFriendsResponsePayload := {|
  msg_fields m := [fld_write (zfgfr_friends m)];
  msg_build l := match l with [a0] =>
    a0 ← fld_read a0; Some (Build_FriendGetFriendsResponsePayload a0)
    | _ => None end |}.
Proof. solve_msg. Defined.
Record FriendGetRequestsPayload : Type := { zfgr_type : Z }.
#[export, refine] Instance msg_FriendGetRequestsPayload : Msg FriendGetRequestsPayload := {|
  msg_fields m := [fld_write (zfgr_type m)];
  msg_build l := match l with [a0] =>
    a0 ← fld_read a0; Some (Build_FriendGetRequestsPayload a0)
    | _ => None end |}.
Proof. solve_msg. Defined.
Record FriendRequestInfoPayload : Type := { zfri_request_id : string; zfri_from_user_id : string;
  zfri_to_user_id : string; zfri_remark : string; zfri_status : Z; zfri_created_at : Z;
  zfri_from_nickname : string; zfri_from_avatar_url : string }.
#[export, refine] Instance msg_FriendRequestInfoPayload : Msg FriendRequestInfoPayload := {|
  msg_fields m := [fld_write (zfri_request_id m); fld_write (zfri_from_user_id m);
    fld_write (zfri_to_user_id m); fld_write (zfri_remark m); fld_write (zfri_status m);
    fld_write (zfri_created_at m); fld_write (zfri_from_nickname m);
    fld_write (zfri_from_avatar_url m)];
  msg_build l := match l with [a0; a1; a2; a3; a4; a5; a6; a7] =>
    a0 ← fld_read a0; a1 ← fld_read a1; a2 ← fld_read a2; a3 ← fld_read a3; a4 ← fld_read a4;
    a5 ← fld_read a5; a6 ← fld_read a6; a7 ← fld_read a7;
    Some (Build_FriendRequestInfoPayload a0 a1 a2 a3 a4 a5 a6 a7)
    | _ => None end |}.
Proof. solve_msg. Defined.
Record FriendGetRequestsResponsePayload : Type := {
  zfgrr_requests : list FriendRequestInfoPayload }.
#[export, refine] Instance msg_FriendGetRequestsResponsePayload : Msg FriendGetRequestsResponsePayload := {|
  msg_fields m := [fld_write (zfgrr_requests m)];
  msg_build l := match l with [a0] =>
    a0 ← fld_read a0; Some (Build_FriendGetRequestsResponsePayload a0)
    | _ => None end |}.
Proof. solve_msg. Defined.
Record FriendSearchPayload : Type := { zfs_keyword : string; zfs_limit : Z }.
#[export, refine] Instance msg_FriendSearchPayload : Msg FriendSearchPayload := {|
  msg_fields m := [fld_write (zfs_keyword m); fld_write (zfs_limit m)];
  msg_build l := match l with [a0; a1] =>
    a0 ← fld_read a0; a1 ← fld_read a1; Some (Build_FriendSearchPayload a0 a1)
    | _ => None end |}.
Proof. solve_msg. Defined.
Record FriendSearchUserPayload : Type := { zfsu_user_id : string; zfsu_username : string;
  zfsu_nickname : string; zfsu_avatar_url : string; zfsu_signature : string; zfsu_gender : Z }.
#[export, refine] Instance msg_FriendSearchUserPayload : Msg FriendSearchUserPayload := {|
  msg_fields m := [fld_write (zfsu_user_id m); fld_write (zfsu_username m);
    fld_write (zfsu_nickname m); fld_write (zfsu_avatar_url m); fld_write (zfsu_signature m);
    fld_write (zfsu_gender m)];
  msg_build l := match l with [a0; a1; a2; a3; a4; a5] =>
    a0 ← fld_read a0; a1 ← fld_read a1; a2 ← fld_read a2; a3 ← fld_read a3; a4 ← fld_read a4;
    a5 ← fld_read a5; Some (Build_FriendSearchUserPayload a0 a1 a2 a3 a4 a5)
    | _ => None end |}.
Proof. solve_msg. Defined.
Record FriendSearchResponsePayload : Type := { zfsr_users : list FriendSearchUserPayload }.
#[export, refine] Instance msg_FriendSearchResponsePayload : Msg FriendSearchResponsePayload := {|
  msg_fields m := [fld_write (zfsr_users m)];
  msg_build l := match l with [a0] =>
    a0 ← fld_read a0; Some (Build_FriendSearchResponsePayload a0)
    | _ => None end |}.
Proof. solve_msg. Defined.
Record FriendGetBlockListPayload : Type := { zfgbl_user_id : string }.
#[export, refine] Instance msg_FriendGetBlockListPayload : Msg FriendGetBlockListPayload := {|
  msg_fields m := [fld_write (zfgbl_user_id m)];
  msg_build l := match l with [a0] =>
    a0 ← fld_read a0; Some (Build_FriendGetBlockListPayload a0)
    | _ => None end |}.
Proof. solve_msg. Defined.
Record FriendGetBlockListResponsePayload : Type := { zfgblr_success : bool;
  zfgblr_blocked_ids : list string; zfgblr_error : string }.
#[export, refine] Instance msg_FriendGetBlockListResponsePayload : Msg FriendGetBlockListResponsePayload := {|
  msg_fields m := [fld_write (zfgblr_success m); fld_write (zfgblr_blocked_ids m);
    fld_write (zfgblr_error m)];
  msg_build l := match l with [a0; a1; a2] =>
    a0 ← fld_read a0; a1 ← fld_read a1; a2 ← fld_read a2;
    Some (Build_FriendGetBlockListResponsePayload a0 a1 a2)
    | _ => None end |}.
Proof. solve_msg. Defined.
Record FriendCreateGroupPayload : Type := { zfcg_user_id : string; zfcg_group_name : string }.
#[export, refine] Instance msg_FriendCreateGroupPayload : Msg FriendCreateGroupPayload := {|
  msg_fields m := [fld_write (zfcg_user_id m); fld_write (zfcg_group_name m)];
  msg_build l := match l with [a0; a1] =>
    a0 ← fld_read a0; a1 ← fld_read a1; Some (Build_FriendCreateGroupPayload a0 a1)
    | _ => None end |}.
Proof. solve_msg. Defined.
Record FriendCreateGroupResponsePayload : Type := { zfcgr_success : bool;
  zfcgr_group_id : string; zfcgr_error : string }.
#[export, refine] Instance msg_FriendCreateGroupResponsePayload : Msg FriendCreateGroupResponsePayload := {|
  msg_fields m := [fld_write (zfcgr_success m); fld_write (zfcgr_group_id m);
    fld_write (zfcgr_error m)];
  msg_build l := match l with [a0; a1; a2] =>
    a0 ← fld_read a0; a1 ← fld_read a1; a2 ← fld_read a2;
    Some (Build_FriendCreateGroupResponsePayload a0 a1 a2)
    | _ => None end |}.
Proof. solve_msg. Defined.
Record FriendGetGroupsPayload : Type := { zfgg_user_id : string }.
#[export, refine] Instance msg_FriendGetGroupsPayload : Msg FriendGetGroupsPayload := {|
  msg_fields m := [fld_write (zfgg_user_id m)];
  msg_build l := match l with [a0] =>
    a0 ← fld_read a0; Some (Build_FriendGetGroupsPayload a0)
    | _ => None end |}.
Proof. solve_msg. Defined.
Record FriendGroupPayload : Type := { zfg_group_id : string; zfg_group_name : string;
  zfg_friend_count : Z; zfg_sort_order : Z }.
#[export, refine] Instance msg_FriendGroupPayload : Msg FriendGroupPayload := {|
  msg_fields m := [fld_write (zfg_group_id m); fld_write (zfg_group_name m);
    fld_write (zfg_friend_count m); fld_write (zfg_sort_order m)];
  msg_build l := match l with [a0; a1; a2; a3] =>
    a0 ← fld_read a0; a1 ← fld_read a1; a2 ← fld_read a2; a3 ← fld_read a3;
    Some (Build_FriendGroupPayload a0 a1 a2 a3)
    | _ => None end |}.
Proof. solve_msg. Defined.
Record FriendGetGroupsResponsePayload : Type := { zfggr_success : bool;
  zfggr_groups : list FriendGroupPayload; zfggr_error : string }.
#[export, refine] Instance msg_FriendGetGroupsResponsePayload : Msg FriendGetGroupsResponsePayload := {|
  msg_fields m := [fld_write (zfggr_success m); fld_write (zfggr_groups m);
    fld_write (zfggr_error m)];
  msg_build l := match l with [a0; a1; a2] =>
    a0 ← fld_read a0; a1 ← fld_read a1; a2 ← fld_read a2;
    Some (Build_FriendGetGroupsResponsePayload a0 a1 a2)
    | _ => None end |}.
Proof. solve_msg. Defined.
Record FriendMoveToGroupPayload : Type := { zfmtg_user_id : string; zfmtg_friend_id : string;
  zfmtg_group_id : string }.
#[export, refine] Instance msg_FriendMoveToGroupPayload : Msg FriendMoveToGroupPayload := {|
  msg_fields m := [fld_write (zfmtg_user_id m); fld_write (zfmtg_friend_id m);
    fld_write (zfmtg_group_id m)];
  msg_build l := match l with [a0; a1; a2] =>
    a0 ← fld_read a0; a1 ← fld_read a1; a2 ← fld_read a2;
    Some (Build_FriendMoveToGroupPayload a0 a1 a2)
    | _ => None end |}.
Proof. solve_msg. Defined.
Record FriendMoveToGroupResponsePayload : Type := { zfmtgr_success : bool;
  zfmtgr_error : string }.
#[export, refine] Instance msg_FriendMoveToGroupResponsePayload : Msg FriendMoveToGroupResponsePayload := {|
  msg_fields m := [fld_write (zfmtgr_success m); fld_write (zfmtgr_error m)];
  msg_build l := match l with [a0; a1] =>
    a0 ← fld_read a0; a1 ← fld_read a1; Some (Build_FriendMoveToGroupResponsePayload a0 a1)
    | _ => None end |}.
Proof. solve_msg. Defined.
Record FriendDeleteGroupPayload : Type := { zfdg_user_id : string; zfdg_group_id : string }.
#[export, refine] Instance msg_FriendDeleteGroupPayload : Msg FriendDeleteGroupPayload := {|
  msg_fields m := [fld_write (zfdg_user_id m); fld_write (zfdg_group_id m)];
  msg_build l := match l with [a0; a1] =>
    a0 ← fld_read a0; a1 ← fld_read a1; Some (Build_FriendDeleteGroupPayload a0 a1)
    | _ => None end |}.
Proof. solve_msg. Defined.
Record FriendDeleteGroupResponsePayload : Type := { zfdgr_success : bool; zfdgr_error : string }.
#[export, refine] Instance msg_FriendDeleteGroupResponsePayload : Msg FriendDeleteGroupResponsePayload := {|
  msg_fields m := [fld_write (zfdgr_success m); fld_write (zfdgr_error m)];
  msg_build l := match l with [a0; a1] =>
    a0 ← fld_read a0; a1 ← fld_read a1; Some (Build_FriendDeleteGroupResponsePayload a0 a1)
    | _ => None end |}.
Proof. solve_msg. Defined.
Record FriendSetRemarkPayload : Type := { zfrm_user_id : string; zfrm_friend_id : string;
  zfrm_remark : string }.
#[export, refine] Instance msg_FriendSetRemarkPayload : Msg FriendSetRemarkPayload := {|
  msg_fields m := [fld_write (zfrm_user_id m); fld_write (zfrm_friend_id m);
    fld_write (zfrm_remark m)];
  msg_build l := match l with [a0; a1; a2] =>
    a0 ← fld_read a0; a1 ← fld_read a1; a2 ← fld_read a2;
    Some (Build_FriendSetRemarkPayload a0 a1 a2)
    | _ => None end |}.
Proof. solve_msg. Defined.
Record FriendSetRemarkResponsePayload : Type := { zfrmr_success : bool; zfrmr_error : string }.
#[export, refine] Instance msg_FriendSetRemarkResponsePayload : Msg FriendSetRemarkResponsePayload := {|
  msg_fields m := [fld_write (zfrmr_success m); fld_write (zfrmr_error m)];
  msg_build l := match l with [a0; a1] =>
    a0 ← fld_read a0; a1 ← fld_read a1; Some (Build_FriendSetRemarkResponsePayload a0 a1)
    | _ => None end |}.
Proof. solve_msg. Defined.
Record GroupCreatePayload : Type := { zgc_creator_id : string; zgc_group_name : string;
  zgc_member_ids : list string }.
#[export, refine] Instance msg_GroupCreatePayload : Msg GroupCreatePayload := {|
  msg_fields m := [fld_write (zgc_creator_id m); fld_write (zgc_group_name m);
    fld_write (zgc_member_ids m)];
  msg_build l := match l with [a0; a1; a2] =>
    a0 ← fld_read a0; a1 ← fld_read a1; a2 ← fld_read a2;
    Some (Build_GroupCreatePayload a0 a1 a2)
    | _ => None end |}.
Proof. solve_msg. Defined.
Record GroupCreateResponsePayload : Type := { zgcr_success : bool; zgcr_group_id : string;
  zgcr_error : string }.
#[export, refine] Instance msg_GroupCreateResponsePayload : Msg GroupCreateResponsePayload := {|
  msg_fields m := [fld_write (zgcr_success m); fld_write (zgcr_group_id m);
    fld_write (zgcr_error m)];
  msg_build l := match l with [a0; a1; a2] =>
    a0 ← fld_read a0; a1 ← fld_read a1; a2 ← fld_read a2;
    Some (Build_GroupCreateResponsePayload a0 a1 a2)
    | _ => None end |}.
Proof. solve_msg. Defined.
Record GroupDismissPayload : Type := { zgd_group_id : string; zgd_operator_id : string }.
#[export, refine] Instance msg_GroupDismissPayload : Msg GroupDismissPayload := {|
  msg_fields m := [fld_write (zgd_group_id m); fld_write (zgd_operator_id m)];
  msg_build l := match l with [a0; a1] =>
    a0 ← fld_read a0; a1 ← fld_read a1; Some (Build_GroupDismissPayload a0 a1)
    | _ => None end |}.
Proof. solve_msg. Defined.
Record GroupInviteMembersPayload : Type := { zgim_group_id : string; zgim_inviter_id : string;
  zgim_member_ids : list string }.
#[export, refine] Instance msg_GroupInviteMembersPayload : Msg GroupInviteMembersPayload := {|
  msg_fields m := [fld_write (zgim_group_id m); fld_write (zgim_inviter_id m);
    fld_write (zgim_member_ids m)];
  msg_build l := match l with [a0; a1; a2] =>
    a0 ← fld_read a0; a1 ← fld_read a1; a2 ← fld_read a2;
    Some (Build_GroupInviteMembersPayload a0 a1 a2)
    | _ => None end |}.
Proof. solve_msg. Defined.
Record GroupRemoveMemberPayload : Type := { zgrm_group_id : string; zgrm_operator_id : string;
  zgrm_member_id : string }.
#[export, refine] Instance msg_GroupRemoveMemberPayload : Msg GroupRemoveMemberPayload := {|
  msg_fields m := [fld_write (zgrm_group_id m); fld_write (zgrm_operator_id m);
    fld_write (zgrm_member_id m)];
  msg_build l := match l with [a0; a1; a2] =>
    a0 ← fld_read a0; a1 ← fld_read a1; a2 ← fld_read a2;
    Some (Build_GroupRemoveMemberPayload a0 a1 a2)
    | _ => None end |}.
Proof. solve_msg. Defined.
Record GroupLeavePayload : Type := { zgl_group_id : string; zgl_user_id : string }.
#[export, refine] Instance msg_GroupLeavePayload : Msg GroupLeavePayload := {|
  msg_fields m := [fld_write (zgl_group_id m); fld_write (zgl_user_id m)];
  msg_build l := match l with [a0; a1] =>
    a0 ← fld_read a0; a1 ← fld_read a1; Some (Build_GroupLeavePayload a0 a1)
    | _ => None end |}.
Proof. solve_msg. Defined.
Record GroupGetInfoPayload : Type := { zggi_group_id : string }.
#[export, refine] Instance msg_GroupGetInfoPayload : Msg GroupGetInfoPayload := {|
  msg_fields m := [fld_write (zggi_group_id m)];
  msg_build l := match l with [a0] =>
    a0 ← fld_read a0; Some (Build_GroupGetInfoPayload a0)
    | _ => None end |}.
Proof. solve_msg. Defined.
Record GroupInfoPayload : Type := { zgi_group_id : string; zgi_group_name : string;
  zgi_avatar_url : string; zgi_owner_id : string; zgi_member_count : Z;
  zgi_announcement : string; zgi_created_at : Z }.
#[export, refine] Instance msg_GroupInfoPayload : Msg GroupInfoPayload := {|
  msg_fields m := [fld_write (zgi_group_id m); fld_write (zgi_group_name m);
    fld_write (zgi_avatar_url m); fld_write (zgi_owner_id m); fld_write (zgi_member_count m);
    fld_write (zgi_announcement m); fld_write (zgi_created_at m)];
  msg_build l := match l with [a0; a1; a2; a3; a4; a5; a6] =>
    a0 ← fld_read a0; a1 ← fld_read a1; a2 ← fld_read a2; a3 ← fld_read a3; a4 ← fld_read a4;
    a5 ← fld_read a5; a6 ← fld_read a6; Some (Build_GroupInfoPayload a0 a1 a2 a3 a4 a5 a6)
    | _ => None end |}.
Proof. solve_msg. Defined.
Record GroupGetInfoResponsePayload : Type := { zggir_group : option GroupInfoPayload }.
#[export, refine] Instance msg_GroupGetInfoResponsePayload : Msg GroupGetInfoResponsePayload := {|
  msg_fields m := [fld_write (zggir_group m)];
  msg_build l := match l with [a0] =>
    a0 ← fld_read a0; Some (Build_GroupGetInfoResponsePayload a0)
    | _ => None end |}.
Proof. solve_msg. Defined.
Record GroupGetMembersPayload : Type := { zggm_group_id : string; zggm_page : Z;
  zggm_page_size : Z }.
#[export, refine] Instance msg_GroupGetMembersPayload : Msg GroupGetMembersPayload := {|
  msg_fields m := [fld_write (zggm_group_id m); fld_write (zggm_page m);
    fld_write (zggm_page_size m)];
  msg_build l := match l with [a0; a1; a2] =>
    a0 ← fld_read a0; a1 ← fld_read a1; a2 ← fld_read a2;
    Some (Build_GroupGetMembersPayload a0 a1 a2)
    | _ => None end |}.
Proof. solve_msg. Defined.
Record GroupMemberPayload : Type := { zgm_user_id : string; zgm_role : Z; zgm_nickname : string;
  zgm_joined_at : Z }.
#[export, refine] Instance msg_GroupMemberPayload : Msg GroupMemberPayload := {|
  msg_fields m := [fld_write (zgm_user_id m); fld_write (zgm_role m); fld_write (zgm_nickname m);
    fld_write (zgm_joined_at m)];
  msg_build l := match l with [a0; a1; a2; a3] =>
    a0 ← fld_read a0; a1 ← fld_read a1; a2 ← fld_read a2; a3 ← fld_read a3;
    Some (Build_GroupMemberPayload a0 a1 a2 a3)
    | _ => None end |}.
Proof. solve_msg. Defined.
Record GroupGetMembersResponsePayload : Type := { zggmr_members : list GroupMemberPayload;
  zggmr_total : Z }.
#[export, refine] Instance msg_GroupGetMembersResponsePayload : Msg GroupGetMembersResponsePayload := {|
  msg_fields m := [fld_write (zggmr_members m); fld_write (zggmr_total m)];
  msg_build l := match l with [a0; a1] =>
    a0 ← fld_read a0; a1 ← fld_read a1; Some (Build_GroupGetMembersResponsePayload a0 a1)
    | _ => None end |}.
Proof. solve_msg. Defined.
Inductive GroupGetUserGroupsPayload : Type := zggug.
#[export, refine] Instance msg_GroupGetUserGroupsPayload : Msg GroupGetUserGroupsPayload := {|
  msg_fields _ := []; msg_build _ := Some zggug |}.
Proof. by intros []. Defined.
Record GroupGetUserGroupsResponsePayload : Type := { zggugr_groups : list GroupInfoPayload }.
#[export, refine] Instance msg_GroupGetUserGroupsResponsePayload : Msg GroupGetUserGroupsResponsePayload := {|
  msg_fields m := [fld_write (zggugr_groups m)];
  msg_build l := match l with [a0] =>
    a0 ← fld_read a0; Some (Build_GroupGetUserGroupsResponsePayload a0)
    | _ => None end |}.
Proof. solve_msg. Defined.
Record ChatGetHistoryPayload : Type := { zcgh_chat_id : string; zcgh_chat_type : Z;
  zcgh_before_msg_id : string; zcgh_limit : Z }.
#[export, refine] Instance msg_ChatGetHistoryPayload : Msg ChatGetHistoryPayload := {|
  msg_fields m := [fld_write (zcgh_chat_id m); fld_write (zcgh_chat_type m);
    fld_write (zcgh_before_msg_id m); fld_write (zcgh_limit m)];
  msg_build l := match l with [a0; a1; a2; a3] =>
    a0 ← fld_read a0; a1 ← fld_read a1; a2 ← fld_read a2; a3 ← fld_read a3;
    Some (Build_ChatGetHistoryPayload a0 a1 a2 a3)
    | _ => None end |}.
Proof. solve_msg. Defined.
Record ChatGetHistoryResponsePayload : Type := { zcghr_messages : list ChatMessagePushPayload;
  zcghr_has_more : bool }.
#[export, refine] Instance msg_ChatGetHistoryResponsePayload : Msg ChatGetHistoryResponsePayload := {|
  msg_fields m := [fld_write (zcghr_messages m); fld_write (zcghr_has_more m)];
  msg_build l := match l with [a0; a1] =>
    a0 ← fld_read a0; a1 ← fld_read a1; Some (Build_ChatGetHistoryResponsePayload a0 a1)
    | _ => None end |}.
Proof. solve_msg. Defined.
Record ChatSyncConversationsPayload : Type := { zcsc_last_sync_time : Z }.
#[export, refine] Instance msg_ChatSyncConversationsPayload : Msg ChatSyncConversationsPayload := {|
  msg_fields m := [fld_write (zcsc_last_sync_time m)];
  msg_build l := match l with [a0] =>
    a0 ← fld_read a0; Some (Build_ChatSyncConversationsPayload a0)
    | _ => None end |}.
Proof. solve_msg. Defined.
Record ChatConversationPayload : Type := { zcc_chat_id : string; zcc_chat_type : Z;
  zcc_peer_id : string; zcc_peer_name : string; zcc_peer_avatar : string; zcc_unread_count : Z;
  zcc_updated_at : Z; zcc_last_msg_id : string; zcc_last_content : string;
  zcc_last_timestamp : Z }.
#[export, refine] Instance msg_ChatConversationPayload : Msg ChatConversationPayload := {|
  msg_fields m := [fld_write (zcc_chat_id m); fld_write (zcc_chat_type m);
    fld_write (zcc_peer_id m); fld_write (zcc_peer_name m); fld_write (zcc_peer_avatar m);
    fld_write (zcc_unread_count m); fld_write (zcc_updated_at m); fld_write (zcc_last_msg_id m);
    fld_write (zcc_last_content m); fld_write (zcc_last_timestamp m)];
  msg_build l := match l with [a0; a1; a2; a3; a4; a5; a6; a7; a8; a9] =>
    a0 ← fld_read a0; a1 ← fld_read a1; a2 ← fld_read a2; a3 ← fld_read a3; a4 ← fld_read a4;
    a5 ← fld_read a5; a6 ← fld_read a6; a7 ← fld_read a7; a8 ← fld_read a8; a9 ← fld_read a9;
    Some (Build_ChatConversationPayload a0 a1 a2 a3 a4 a5 a6 a7 a8 a9)
    | _ => None end |}.
Proof. solve_msg. Defined.
Record ChatSyncConversationsResponsePayload : Type := {
  zcscr_conversations : list ChatConversationPayload }.
#[export, refine] Instance msg_ChatSyncConversationsResponsePayload : Msg ChatSyncConversationsResponsePayload := {|
  msg_fields m := [fld_write (zcscr_conversations m)];
  msg_build l := match l with [a0] =>
    a0 ← fld_read a0; Some (Build_ChatSyncConversationsResponsePayload a0)
    | _ => None end |}.
Proof. solve_msg. Defined.
Record ChatDeleteConversationPayload : Type := { zcdc_chat_id : string; zcdc_chat_type : Z }.
#[export, refine] Instance msg_ChatDeleteConversationPayload : Msg ChatDeleteConversationPayload := {|
  msg_fields m := [fld_write (zcdc_chat_id m); fld_write (zcdc_chat_type m)];
  msg_build l := match l with [a0; a1] =>
    a0 ← fld_read a0; a1 ← fld_read a1; Some (Build_ChatDeleteConversationPayload a0 a1)
    | _ => None end |}.
Proof. solve_msg. Defined.
Record FileGetUploadTokenPayload : Type := { zfgut_user_id : string; zfgut_file_name : string;
  zfgut_file_size : Z }.
#[export, refine] Instance msg_FileGetUploadTokenPayload : Msg FileGetUploadTokenPayload := {|
  msg_fields m := [fld_write (zfgut_user_id m); fld_write (zfgut_file_name m);
    fld_write (zfgut_file_size m)];
  msg_build l := match l with [a0; a1; a2] =>
    a0 ← fld_read a0; a1 ← fld_read a1; a2 ← fld_read a2;
    Some (Build_FileGetUploadTokenPayload a0 a1 a2)
    | _ => None end |}.
Proof. solve_msg. Defined.
Record FileGetUploadTokenResponsePayload : Type := { zfgutr_success : bool;
  zfgutr_upload_token : string; zfgutr_upload_url : string; zfgutr_expire_at : Z;
  zfgutr_error : string }.
#[export, refine] Instance msg_FileGetUploadTokenResponsePayload : Msg FileGetUploadTokenResponsePayload := {|
  msg_fields m := [fld_write (zfgutr_success m); fld_write (zfgutr_upload_token m);
    fld_write (zfgutr_upload_url m); fld_write (zfgutr_expire_at m); fld_write (zfgutr_error m)];
  msg_build l := match l with [a0; a1; a2; a3; a4] =>
    a0 ← fld_read a0; a1 ← fld_read a1; a2 ← fld_read a2; a3 ← fld_read a3; a4 ← fld_read a4;
    Some (Build_FileGetUploadTokenResponsePayload a0 a1 a2 a3 a4)
    | _ => None end |}.
Proof. solve_msg. Defined.
Record FileInitUploadPayload : Type := { zfiu_user_id : string; zfiu_file_name : string;
  zfiu_content_type : string; zfiu_file_size : Z; zfiu_md5 : string; zfiu_msg_id : string }.
#[export, refine] Instance msg_FileInitUploadPayload : Msg FileInitUploadPayload := {|
  msg_fields m := [fld_write (zfiu_user_id m); fld_write (zfiu_file_name m);
    fld_write (zfiu_content_type m); fld_write (zfiu_file_size m); fld_write (zfiu_md5 m);
    fld_write (zfiu_msg_id m)];
  msg_build l := match l with [a0; a1; a2; a3; a4; a5] =>
    a0 ← fld_read a0; a1 ← fld_read a1; a2 ← fld_read a2; a3 ← fld_read a3; a4 ← fld_read a4;
    a5 ← fld_read a5; Some (Build_FileInitUploadPayload a0 a1 a2 a3 a4 a5)
    | _ => None end |}.
Proof. solve_msg. Defined.
Record FileInitUploadResponsePayload : Type := { zfiur_success : bool; zfiur_upload_id : string;
  zfiur_expire_at : Z; zfiur_error : string }.
#[export, refine] Instance msg_FileInitUploadResponsePayload : Msg FileInitUploadResponsePayload := {|
  msg_fields m := [fld_write (zfiur_success m); fld_write (zfiur_upload_id m);
    fld_write (zfiur_expire_at m); fld_write (zfiur_error m)];
  msg_build l := match l with [a0; a1; a2; a3] =>
    a0 ← fld_read a0; a1 ← fld_read a1; a2 ← fld_read a2; a3 ← fld_read a3;
    Some (Build_FileInitUploadResponsePayload a0 a1 a2 a3)
    | _ => None end |}.
Proof. solve_msg. Defined.
Record FileGetFileInfoPayload : Type := { zfgfi_file_id : string }.
#[export, refine] Instance msg_FileGetFileInfoPayload : Msg FileGetFileInfoPayload := {|
  msg_fields m := [fld_write (zfgfi_file_id m)];
  msg_build l := match l with [a0] =>
    a0 ← fld_read a0; Some (Build_FileGetFileInfoPayload a0)
    | _ => None end |}.
Proof. solve_msg. Defined.
Record FileGetFileInfoResponsePayload : Type := { zfgfir_success : bool; zfgfir_file_id : string;
  zfgfir_file_name : string; zfgfir_file_size : Z; zfgfir_content_type : string;
  zfgfir_uploader_id : string; zfgfir_uploaded_at : Z; zfgfir_md5 : string;
  zfgfir_error : string }.
#[export, refine] Instance msg_FileGetFileInfoResponsePayload : Msg FileGetFileInfoResponsePayload := {|
  msg_fields m := [fld_write (zfgfir_success m); fld_write (zfgfir_file_id m);
    fld_write (zfgfir_file_name m); fld_write (zfgfir_file_size m);
    fld_write (zfgfir_content_type m); fld_write (zfgfir_uploader_id m);
    fld_write (zfgfir_uploaded_at m); fld_write (zfgfir_md5 m); fld_write (zfgfir_error m)];
  msg_build l := match l with [a0; a1; a2; a3; a4; a5; a6; a7; a8] =>
    a0 ← fld_read a0; a1 ← fld_read a1; a2 ← fld_read a2; a3 ← fld_read a3; a4 ← fld_read a4;
    a5 ← fld_read a5; a6 ← fld_read a6; a7 ← fld_read a7; a8 ← fld_read a8;
    Some (Build_FileGetFileInfoResponsePayload a0 a1 a2 a3 a4 a5 a6 a7 a8)
    | _ => None end |}.
Proof. solve_msg. Defined.
Record FileGetFileUrlPayload : Type := { zfgfu_file_id : string; zfgfu_user_id : string }.
#[export, refine] Instance msg_FileGetFileUrlPayload : Msg FileGetFileUrlPayload := {|
  msg_fields m := [fld_write (zfgfu_file_id m); fld_write (zfgfu_user_id m)];
  msg_build l := match l with [a0; a1] =>
    a0 ← fld_read a0; a1 ← fld_read a1; Some (Build_FileGetFileUrlPayload a0 a1)
    | _ => None end |}.
Proof. solve_msg. Defined.
Record FileGetFileUrlResponsePayload : Type := { zfgfur_success : bool; zfgfur_file_url : string;
  zfgfur_file_name : string; zfgfur_file_size : Z; zfgfur_content_type : string;
  zfgfur_expire_at : Z; zfgfur_error : string }.
#[export, refine] Instance msg_FileGetFileUrlResponsePayload : Msg FileGetFileUrlResponsePayload := {|
  msg_fields m := [fld_write (zfgfur_success m); fld_write (zfgfur_file_url m);
    fld_write (zfgfur_file_name m); fld_write (zfgfur_file_size m);
    fld_write (zfgfur_content_type m); fld_write (zfgfur_expire_at m);
    fld_write (zfgfur_error m)];
  msg_build l := match l with [a0; a1; a2; a3; a4; a5; a6] =>
    a0 ← fld_read a0; a1 ← fld_read a1; a2 ← fld_read a2; a3 ← fld_read a3; a4 ← fld_read a4;
    a5 ← fld_read a5; a6 ← fld_read a6;
    Some (Build_FileGetFileUrlResponsePayload a0 a1 a2 a3 a4 a5 a6)
    | _ => None end |}.
Proof. solve_msg. Defined.
Record FileDeletePayload : Type := { zfd_file_id : string; zfd_user_id : string }.
#[export, refine] Instance msg_FileDeletePayload : Msg FileDeletePayload := {|
  msg_fields m := [fld_write (zfd_file_id m); fld_write (zfd_user_id m)];
  msg_build l := match l with [a0; a1] =>
    a0 ← fld_read a0; a1 ← fld_read a1; Some (Build_FileDeletePayload a0 a1)
    | _ => None end |}.
Proof. solve_msg. Defined.
Record ClientMessage : Type := { zcm_cmd : string; zcm_payload : string;
  zcm_request_id : string }.
#[export, refine] Instance msg_ClientMessage : Msg ClientMessage := {|
  msg_fields m := [fld_write (zcm_cmd m); fld_write (zcm_payload m);
    fld_write (zcm_request_id m)];
  msg_build l := match l with [a0; a1; a2] =>
    a0 ← fld_read a0; a1 ← fld_read a1; a2 ← fld_read a2; Some (Build_ClientMessage a0 a1 a2)
    | _ => None end |}.
Proof. solve_msg. Defined.
Record ServerMessage : Type := { zsm_cmd : string; zsm_payload : string; zsm_request_id : string;
  zsm_code : Z; zsm_message : string }.
#[export, refine] Instance msg_ServerMessage : Msg ServerMessage := {|
  msg_fields m := [fld_write (zsm_cmd m); fld_write (zsm_payload m);
    fld_write (zsm_request_id m); fld_write (zsm_code m); fld_write (zsm_message m)];
  msg_build l := match l with [a0; a1; a2; a3; a4] =>
    a0 ← fld_read a0; a1 ← fld_read a1; a2 ← fld_read a2; a3 ← fld_read a3; a4 ← fld_read a4;
    Some (Build_ServerMessage a0 a1 a2 a3 a4)
    | _ => None end |}.
Proof. solve_msg. Defined.
Record HeartbeatResponse : Type := { zhr_server_time : Z }.
#[export, refine] Instance msg_HeartbeatResponse : Msg HeartbeatResponse := {|
  msg_fields m := [fld_write (zhr_server_time m)];
  msg_build l := match l with [a0] =>
    a0 ← fld_read a0; Some (Build_HeartbeatResponse a0)
    | _ => None end |}.
Proof. solve_msg. Defined.
Record ReadReceiptNotify : Type := { zrrn_chat_id : string; zrrn_user_id : string;
  zrrn_last_read_msg_id : string }.
#[export, refine] Instance msg_ReadReceiptNotify : Msg ReadReceiptNotify := {|
  msg_fields m := [fld_write (zrrn_chat_id m); fld_write (zrrn_user_id m);
    fld_write (zrrn_last_read_msg_id m)];
  msg_build l := match l with [a0; a1; a2] =>
    a0 ← fld_read a0; a1 ← fld_read a1; a2 ← fld_read a2; Some (Build_ReadReceiptNotify a0 a1 a2)
    | _ => None end |}.
Proof. solve_msg. Defined.
Record KickedNotify : Type := { zkn_reason : string }.
#[export, refine] Instance msg_KickedNotify : Msg KickedNotify := {|
  msg_fields m := [fld_write (zkn_reason m)];
  msg_build l := match l with [a0] =>
    a0 ← fld_read a0; Some (Build_KickedNotify a0)
    | _ => None end |}.
Proof. solve_msg. Defined.
Record NewMessageNotify : Type := { znm_msg_id : string; znm_from_user_id : string; znm_from_nickname : string;
  znm_from_avatar : string; znm_chat_id : string; znm_chat_type : Z; znm_content : string; znm_media_url : string;
  znm_media_type : string; znm_mentions : list string; znm_timestamp : Z }.
#[export, refine] Instance msg_NewMessageNotify : Msg NewMessageNotify := {|
  msg_fields m := [fld_write (znm_msg_id m); fld_write (znm_from_user_id m); fld_write (znm_from_nickname m);
    fld_write (znm_from_avatar m); fld_write (znm_chat_id m); fld_write (znm_chat_type m); fld_write (znm_content m);
    fld_write (znm_media_url m); fld_write (znm_media_type m); fld_write (znm_mentions m); fld_write (znm_timestamp m)];
  msg_build l := match l with [a0; a1; a2; a3; a4; a5; a6; a7; a8; a9; a10] =>
    a0 ← fld_read a0; a1 ← fld_read a1; a2 ← fld_read a2; a3 ← fld_read a3; a4 ← fld_read a4; a5 ← fld_read a5;
    a6 ← fld_read a6; a7 ← fld_read a7; a8 ← fld_read a8; a9 ← fld_read a9; a10 ← fld_read a10;
    Some (Build_NewMessageNotify a0 a1 a2 a3 a4 a5 a6 a7 a8 a9 a10)
    | _ => None end |}.
Proof. solve_msg. Defined.
Record RecallNotify : Type := { zrn_msg_id : string; zrn_chat_id : string; zrn_chat_type : Z;
  zrn_operator_id : string; zrn_recall_at : Z }.
#[export, refine] Instance msg_RecallNotify : Msg RecallNotify := {|
  msg_fields m := [fld_write (zrn_msg_id m); fld_write (zrn_chat_id m); fld_write (zrn_chat_type m);
    fld_write (zrn_operator_id m); fld_write (zrn_recall_at m)];
  msg_build l := match l with [a0; a1; a2; a3; a4] =>
    a0 ← fld_read a0; a1 ← fld_read a1; a2 ← fld_read a2; a3 ← fld_read a3; a4 ← fld_read a4;
    Some (Build_RecallNotify a0 a1 a2 a3 a4)
    | _ => None end |}.
Proof. solve_msg. Defined.
Record HeartbeatRequest : Type := { zhrq_client_time : Z }.
#[export, refine] Instance msg_HeartbeatRequest : Msg HeartbeatRequest := {|
  msg_fields m := [fld_write (zhrq_client_time m)];
  msg_build l := match l with [a0] =>
    a0 ← fld_read a0; Some (Build_HeartbeatRequest a0)
    | _ => None end |}.
Proof. solve_msg. Defined.
