(* ===== verification/ZoneStore.v ===== *)
(** [zonesvr/internal/store/session_store.{h,cpp}]: who is online at which gateway,
    and which gateways there are; an interface with an implementation in memory and
    one in Redis. *)

From Stdlib Require Import Ascii.
From S2P Require Import Prelude External Utils.

(** [struct UserSession], [struct GateNode] *)
Record UserSession : Type := {
  us_user_id : string; us_gate_id : string; us_gate_addr : string; us_device_type : string;
  us_device_id : string; us_online_at : Z; us_last_active_at : Z }.
Record GateNode : Type := {
  gn_gate_id : string; gn_address : string; gn_current_connections : Z (* int *);
  gn_registered_at : Z; gn_last_heartbeat : Z }.
#[global] Instance UserSession_eq_dec : EqDecision UserSession.
Proof. solve_decision. Defined.
#[global] Instance GateNode_eq_dec : EqDecision GateNode.
Proof. solve_decision. Defined.

Definition set_last_active (t : Z) (s : UserSession) : UserSession :=
  {| us_user_id := us_user_id s; us_gate_id := us_gate_id s; us_gate_addr := us_gate_addr s;
     us_device_type := us_device_type s; us_device_id := us_device_id s;
     us_online_at := us_online_at s; us_last_active_at := t |}.
Definition set_heartbeat (connections t : Z) (g : GateNode) : GateNode :=
  {| gn_gate_id := gn_gate_id g; gn_address := gn_address g;
     gn_current_connections := connections; gn_registered_at := gn_registered_at g;
     gn_last_heartbeat := t |}.

(** * The interface

    [UpdateGateHeartbeat] gets the reading of the clock, in seconds. *)

Class SessionStore (S : Type) : Type := {
  SetOnline : UserSession → M S bool;
  SetOffline : string → M S bool;
  GetSession : string → M S (option UserSession);
  GetSessions : list string → M S (list UserSession);
  IsOnline : string → M S bool;
  UpdateLastActive : string → Z → M S bool;
  RegisterGate : GateNode → M S bool;
  UnregisterGate : string → M S bool;
  UpdateGateHeartbeat : Z → string → Z → M S bool;
  GetGate : string → M S (option GateNode);
  GetAllGates : M S (list GateNode) }.

(** What a store that forgets nothing promises, as the one in memory: it is a pair of maps, as
    long as it is up and the values are ones it can hold.  Nothing is promised of an update of a
    user or a gateway that is not there.  The store in Redis forgets: its keys have a time to live,
    and what it promises instead is stated below. *)
Class SessionStoreLaws (S : Type) `{SessionStore S} : Type := {
  store_up : S → Prop;
  online_at : S → string → option UserSession;
  gate_at : S → string → option GateNode;
  session_ok : UserSession → Prop;
  node_ok : GateNode → Prop;
  user_ok : string → Prop;
  gate_ok : string → Prop;
  SetOnline_law s u : store_up s → session_ok u → ∃ s', SetOnline u s = (Ret true, s') ∧ store_up s' ∧
    (∀ k, user_ok k → online_at s' k = if decide (k = us_user_id u) then Some u else online_at s k) ∧
    ∀ g, gate_ok g → gate_at s' g = gate_at s g;
  SetOffline_law s u : store_up s → user_ok u → ∃ s', SetOffline u s = (Ret true, s') ∧ store_up s' ∧
    (∀ k, user_ok k → online_at s' k = if decide (k = u) then None else online_at s k) ∧
    ∀ g, gate_ok g → gate_at s' g = gate_at s g;
  GetSession_law s u : store_up s → user_ok u → ∃ s', GetSession u s = (Ret (online_at s u), s') ∧
    store_up s' ∧ (∀ k, user_ok k → online_at s' k = online_at s k) ∧
    ∀ g, gate_ok g → gate_at s' g = gate_at s g;
  RegisterGate_law s n : store_up s → node_ok n → ∃ s', RegisterGate n s = (Ret true, s') ∧ store_up s' ∧
    (∀ k, user_ok k → online_at s' k = online_at s k) ∧
    ∀ g, gate_ok g → gate_at s' g = if decide (g = gn_gate_id n) then Some n else gate_at s g;
  UnregisterGate_law s n : store_up s → gate_ok n → ∃ s', UnregisterGate n s = (Ret true, s') ∧ store_up s' ∧
    (∀ k, user_ok k → online_at s' k = online_at s k) ∧
    ∀ g, gate_ok g → gate_at s' g = if decide (g = n) then None else gate_at s g;
  GetGate_law s n : store_up s → gate_ok n → ∃ s', GetGate n s = (Ret (gate_at s n), s') ∧
    store_up s' ∧ (∀ k, user_ok k → online_at s' k = online_at s k) ∧
    ∀ g, gate_ok g → gate_at s' g = gate_at s g;
  UpdateLastActive_law s u t x : store_up s → user_ok u → online_at s u = Some x → int64_range t →
    ∃ s', UpdateLastActive u t s = (Ret true, s') ∧ store_up s' ∧
    (∀ k, user_ok k → online_at s' k = if decide (k = u) then Some (set_last_active t x) else online_at s k) ∧
    ∀ g, gate_ok g → gate_at s' g = gate_at s g;
  UpdateGateHeartbeat_law s now n c x : store_up s → gate_ok n → gate_at s n = Some x → int32_range c →
    int64_range now → ∃ s', UpdateGateHeartbeat now n c s = (Ret true, s') ∧ store_up s' ∧
    (∀ k, user_ok k → online_at s' k = online_at s k) ∧
    ∀ g, gate_ok g → gate_at s' g = if decide (g = n) then Some (set_heartbeat c now x) else gate_at s g;
}.

(** * In memory *)

(** [MemorySessionStore::Impl] *)
Record MemoryImpl : Type := {
  mi_sessions : gmap string UserSession; mi_gates : gmap string GateNode }.
Definition with_sessions (f : gmap string UserSession → gmap string UserSession) (s : MemoryImpl) : MemoryImpl :=
  {| mi_sessions := f (mi_sessions s); mi_gates := mi_gates s |}.
Definition with_gates (f : gmap string GateNode → gmap string GateNode) (s : MemoryImpl) : MemoryImpl :=
  {| mi_sessions := mi_sessions s; mi_gates := f (mi_gates s) |}.

Module Memory.
Definition SetOnline (session : UserSession) : M MemoryImpl bool := λ s,
  (Ret true, with_sessions <[us_user_id session := session]> s).
Definition SetOffline (user_id : string) : M MemoryImpl bool := λ s,
  (Ret true, with_sessions (delete user_id) s).
Definition GetSession (user_id : string) : M MemoryImpl (option UserSession) :=
  reads (λ s, mi_sessions s !! user_id).
Definition GetSessions (user_ids : list string) : M MemoryImpl (list UserSession) :=
  reads (λ s, omap (λ uid, mi_sessions s !! uid) user_ids).
Definition IsOnline (user_id : string) : M MemoryImpl bool :=
  reads (λ s, bool_decide (is_Some (mi_sessions s !! user_id))).
Definition UpdateLastActive (user_id : string) (timestamp : Z) : M MemoryImpl bool := λ s,
  match mi_sessions s !! user_id with
  | Some x => (Ret true, with_sessions <[user_id := set_last_active timestamp x]> s)
  | None => (Ret false, s)
  end.
Definition RegisterGate (node : GateNode) : M MemoryImpl bool := λ s,
  (Ret true, with_gates <[gn_gate_id node := node]> s).
Definition UnregisterGate (gate_id : string) : M MemoryImpl bool := λ s,
  (Ret true, with_gates (delete gate_id) s).
Definition UpdateGateHeartbeat (now : Z) (gate_id : string) (connections : Z) : M MemoryImpl bool := λ s,
  match mi_gates s !! gate_id with
  | Some x => (Ret true, with_gates <[gate_id := set_heartbeat connections now x]> s)
  | None => (Ret false, s)
  end.
Definition GetGate (gate_id : string) : M MemoryImpl (option GateNode) :=
  reads (λ s, mi_gates s !! gate_id).
(** In the order of the map. *)
Definition GetAllGates : M MemoryImpl (list GateNode) :=
  reads (λ s, (map_to_list (mi_gates s)).*2).
End Memory.

#[export] Instance MemorySessionStore : SessionStore MemoryImpl := {|
  SetOnline := Memory.SetOnline; SetOffline := Memory.SetOffline; GetSession := Memory.GetSession;
  GetSessions := Memory.GetSessions; IsOnline := Memory.IsOnline;
  UpdateLastActive := Memory.UpdateLastActive; RegisterGate := Memory.RegisterGate;
  UnregisterGate := Memory.UnregisterGate; UpdateGateHeartbeat := Memory.UpdateGateHeartbeat;
  GetGate := Memory.GetGate; GetAllGates := Memory.GetAllGates |}.

(** * In Redis

    hiredis and the server are outside: a context that is usable or not, and the
    commands with their replies. *)

Inductive RedisCmd : Type :=
  | HMSET (key : string) (fields : list (string * string))
  | HSET (key : string) (fields : list (string * string))
  | EXPIRE (key : string) (seconds : Z)
  | DEL (key : string)
  | EXISTS (key : string)
  | HGETALL (key : string)
  | SADD (key member : string)
  | SREM (key member : string)
  | SMEMBERS (key : string).
Inductive redisReply : Type :=
  | REPLY_STATUS | REPLY_ERROR | REPLY_INTEGER (z : Z) | REPLY_STRING (s : string)
  | REPLY_ARRAY (l : list redisReply).

(** [redis_ctx_ok]: [ctx != nullptr && ctx->err == 0]; [redis_connect] replaces the
    context; no reply ([None]) is a failed connection. *)
Class Redis (R : Type) : Type := {
  redis_ctx_ok : R → bool;
  redis_connect : R → R;
  redisCommand : RedisCmd → R → option redisReply * R }.

(** ** What Redis does with a command *)

Inductive rval : Type :=
  | RHash (h : gmap string string)
  | RSet (s : gset string).
Definition as_hash (o : option rval) : option (gmap string string) :=
  match o with None => Some ∅ | Some (RHash h) => Some h | Some (RSet _) => None end.
Definition as_set (o : option rval) : option (gset string) :=
  match o with None => Some ∅ | Some (RSet s) => Some s | Some (RHash _) => None end.
(** An empty set is removed. *)
Definition put_set (k : string) (s : gset string) (d : gmap string rval) : gmap string rval :=
  if decide (s = ∅) then delete k d else <[k := RSet s]> d.
Definition set_fields (fields : list (string * string)) (h : gmap string string) : gmap string string :=
  foldl (λ h kv, <[kv.1 := kv.2]> h) h fields.
Definition flat_fields (l : list (string * string)) : list redisReply :=
  l ≫= λ kv, [REPLY_STRING kv.1; REPLY_STRING kv.2].
Definition exists_key (d : gmap string rval) (k : string) : Z :=
  match d !! k with Some _ => 1 | None => 0 end.
Definition wrong_type (c : RedisCmd) (d : gmap string rval) : Prop :=
  match c with
  | HMSET k _ | HSET k _ | HGETALL k => as_hash (d !! k) = None
  | SADD k _ | SREM k _ | SMEMBERS k => as_set (d !! k) = None
  | EXPIRE _ _ | DEL _ | EXISTS _ => False
  end.

(** What a command does to the values of the keys that are still there; the arrays come in any
    order.  A time to live is positive, so [EXPIRE] removes nothing by itself. *)
Inductive redis_step : RedisCmd → gmap string rval → redisReply → gmap string rval → Prop :=
  | rs_wrong c d : wrong_type c d → redis_step c d REPLY_ERROR d
  | rs_hmset k l d h : l ≠ [] → as_hash (d !! k) = Some h →
      redis_step (HMSET k l) d REPLY_STATUS (<[k := RHash (set_fields l h)]> d)
  | rs_hset k l d h n : l ≠ [] → as_hash (d !! k) = Some h →
      redis_step (HSET k l) d (REPLY_INTEGER n) (<[k := RHash (set_fields l h)]> d)
  | rs_expire k t d : 0 < t → redis_step (EXPIRE k t) d (REPLY_INTEGER (exists_key d k)) d
  | rs_del k d : redis_step (DEL k) d (REPLY_INTEGER (exists_key d k)) (delete k d)
  | rs_exists k d : redis_step (EXISTS k) d (REPLY_INTEGER (exists_key d k)) d
  | rs_hgetall k d h l : as_hash (d !! k) = Some h → l ≡ₚ map_to_list h →
      redis_step (HGETALL k) d (REPLY_ARRAY (flat_fields l)) d
  | rs_sadd k m d s n : as_set (d !! k) = Some s →
      redis_step (SADD k m) d (REPLY_INTEGER n) (<[k := RSet ({[m]} ∪ s)]> d)
  | rs_srem k m d s n : as_set (d !! k) = Some s →
      redis_step (SREM k m) d (REPLY_INTEGER n) (put_set k (s ∖ {[m]}) d)
  | rs_smembers k d s l : as_set (d !! k) = Some s → l ≡ₚ elements s →
      redis_step (SMEMBERS k) d (REPLY_ARRAY (REPLY_STRING <$> l)) d.

(** The times to live: a key with a deadline is there up to that moment.  Times are in
    milliseconds, as Redis keeps them. *)
Definition in_life (now : Z) (deadline : option Z) : bool :=
  match deadline with Some t => bool_decide (now ≤ t) | None => true end.
Definition alive (now : Z) (deadline : string → option Z) (d : gmap string rval) : gmap string rval :=
  filter (λ kv, in_life now (deadline kv.1) = true) d.
(** After a command: [EXPIRE] gives its key a deadline, a key that stays keeps its own, and a key
    that is made has none. *)
Definition deadline_after (c : RedisCmd) (now : Z) (d d' : gmap string rval)
    (deadline : string → option Z) (k : string) : option Z :=
  match d !! k, d' !! k with
  | Some _, Some _ => match c with
                      | EXPIRE k' t => if decide (k' = k) then Some (now + 1000 * t) else deadline k
                      | _ => deadline k
                      end
  | _, _ => None
  end.

(** [redis_up]: the connection works; a command other than a field list without fields or a time
    to live that is not positive is then answered.  Time passes, how much is open; the keys whose
    time is up when the command runs are gone. *)
Definition cmd_ok (c : RedisCmd) : Prop :=
  match c with HMSET _ l | HSET _ l => l ≠ [] | EXPIRE _ t => 0 < t | _ => True end.
Class RedisLaws (R : Type) `{Redis R} : Type := {
  redis_up : R → Prop;
  redis_data : R → gmap string rval;
  redis_deadline : R → string → option Z;
  redis_clock : R → Z;
  redis_up_ok r : redis_up r → redis_ctx_ok r = true;
  redis_answers c r : redis_up r → cmd_ok c → ∃ reply r', redisCommand c r = (Some reply, r') ∧
    redis_up r' ∧ redis_clock r ≤ redis_clock r' ∧
    let d := alive (redis_clock r') (redis_deadline r) (redis_data r) in
    redis_step c d reply (redis_data r') ∧
    ∀ k, redis_deadline r' k = deadline_after c (redis_clock r') d (redis_data r') (redis_deadline r) k }.

(** ** The store *)

Definition kSessionExpireSeconds : Z := 3600.
Definition kGateExpireSeconds : Z := 60.
Definition kSessionPrefix : string := "session:".
Definition kGatePrefix : string := "gate:".
Definition kGateListKey : string := "gate:list".

(** [s.c_str()] as a C string: up to the first NUL. *)
Fixpoint c_str (s : string) : string :=
  match s with
  | EmptyString => EmptyString
  | String c s' => if decide (c = Ascii.zero) then EmptyString else String c (c_str s')
  end.

(** [std::atoi] *)
Definition atoi (s : string) : Z :=
  wrap32 (Z.max (- 2 ^ 63) (Z.min (2 ^ 63 - 1) (default 0 (strto s)))).

Fixpoint str_find_char (c : ascii) (s : string) : option nat :=
  match s with
  | EmptyString => None
  | String a s' => if decide (a = c) then Some O else S <$> str_find_char c s'
  end.

(** The host and the port; the text of a C string ends at the first NUL. *)
Definition ParseRedisUrl (redis_url : string) : string * Z :=
  let v := if decide (str_take 8 redis_url = "redis://") then str_drop 8 redis_url else redis_url in
  match str_find_char ":" v with
  | Some colon =>
      let p := atoi (c_str (str_drop (S colon) v)) in
      (str_take colon v, if decide (0 < p < 65536) then p else 6379)
  | None => (v, 6379)
  end.

Module RedisStore.
Section RedisStore.
Context {R : Type} `{!Redis R}.

Definition EnsureConnected : M R bool := λ r,
  if redis_ctx_ok r then (Ret true, r)
  else let r' := redis_connect r in (Ret (redis_ctx_ok r'), r').
Definition Command (c : RedisCmd) : M R (option redisReply) := λ r,
  let '(reply, r') := redisCommand c r in (Ret reply, r').

(** [if (!impl_->EnsureConnected()) return none;] *)
Definition connected {A} (none : A) (m : M R A) : M R A :=
  ok ← EnsureConnected; if (ok : bool) then m else mret none.

Definition is_status (r : redisReply) : bool :=
  match r with REPLY_STATUS | REPLY_STRING _ => true | _ => false end.
Definition is_one (r : redisReply) : bool :=
  match r with REPLY_INTEGER z => bool_decide (z = 1) | _ => false end.
Definition is_integer (r : redisReply) : bool :=
  match r with REPLY_INTEGER _ => true | _ => false end.

(** [r = Command(c); if (r) ok = test(r);] *)
Definition check (ok : bool) (c : RedisCmd) (test : redisReply → bool) : M R bool :=
  r ← Command c; mret (match r with Some r => test r | None => ok end).

Definition SetOnline (session : UserSession) : M R bool :=
  connected false (
    let key := kSessionPrefix +:+ us_user_id session in
    r ← Command (HMSET (c_str key)
          [("user_id", c_str (us_user_id session)); ("gate_id", c_str (us_gate_id session));
           ("gate_addr", c_str (us_gate_addr session)); ("device_type", c_str (us_device_type session));
           ("device_id", c_str (us_device_id session)); ("online_at", pretty (us_online_at session));
           ("last_active_at", pretty (us_last_active_at session))]);
    match r with
    | None => mret false
    | Some r => if negb (is_status r) then mret false
                else check true (EXPIRE (c_str key) kSessionExpireSeconds) is_one
    end).

Definition SetOffline (user_id : string) : M R bool :=
  connected false (
    r ← Command (DEL (c_str (kSessionPrefix +:+ user_id)));
    mret (match r with Some _ => true | None => false end)).

(** The fields of a reply to [HGETALL], in pairs; an element that is not a string is
    passed over with its pair. *)
Fixpoint hash_fields {A} (l : list redisReply) (set : string → string → A → A) (a : A) : A :=
  match l with
  | f :: v :: l' =>
      hash_fields l' set (match f, v with
                          | REPLY_STRING f, REPLY_STRING v => set f v a
                          | _, _ => a
                          end)
  | _ => a
  end.

Definition no_session (user_id : string) : UserSession :=
  {| us_user_id := user_id; us_gate_id := ""; us_gate_addr := ""; us_device_type := "";
     us_device_id := ""; us_online_at := 0; us_last_active_at := 0 |}.
Definition set_session_field (f v : string) (s : UserSession) : UserSession :=
  let '(Build_UserSession u g a t d o l) := s in
  if decide (f = "gate_id") then Build_UserSession u v a t d o l else
  if decide (f = "gate_addr") then Build_UserSession u g v t d o l else
  if decide (f = "device_type") then Build_UserSession u g a v d o l else
  if decide (f = "device_id") then Build_UserSession u g a t v o l else
  if decide (f = "online_at") then Build_UserSession u g a t d (default o (stoll v)) l else
  if decide (f = "last_active_at") then Build_UserSession u g a t d o (default l (stoll v)) else s.
Definition ParseUserSessionHash (r : option redisReply) (user_id : string) : option UserSession :=
  match r with
  | Some (REPLY_ARRAY ((_ :: _) as l)) => Some (hash_fields l set_session_field (no_session user_id))
  | _ => None
  end.

Definition GetSession (user_id : string) : M R (option UserSession) :=
  connected None (
    r ← Command (HGETALL (c_str (kSessionPrefix +:+ user_id)));
    mret (ParseUserSessionHash r user_id)).

Fixpoint GetSessions (user_ids : list string) : M R (list UserSession) :=
  match user_ids with
  | [] => mret []
  | uid :: user_ids =>
      opt ← GetSession uid; rest ← GetSessions user_ids;
      mret (match opt with Some s => s :: rest | None => rest end)
  end.

Definition IsOnline (user_id : string) : M R bool :=
  connected false (check false (EXISTS (c_str (kSessionPrefix +:+ user_id))) is_one).

Definition UpdateLastActive (user_id : string) (timestamp : Z) : M R bool :=
  connected false (
    let key := kSessionPrefix +:+ user_id in
    r ← Command (HSET (c_str key) [("last_active_at", pretty timestamp)]);
    match r with
    | None => mret false
    | Some _ => check true (EXPIRE (c_str key) kSessionExpireSeconds) is_one
    end).

Definition RegisterGate (node : GateNode) : M R bool :=
  connected false (
    let key := kGatePrefix +:+ gn_gate_id node in
    r ← Command (HMSET (c_str key)
          [("gate_id", c_str (gn_gate_id node)); ("address", c_str (gn_address node));
           ("current_connections", pretty (gn_current_connections node));
           ("registered_at", pretty (gn_registered_at node));
           ("last_heartbeat", pretty (gn_last_heartbeat node))]);
    match r with
    | None => mret false
    | Some r =>
        if negb (is_status r) then mret false else
        ok ← check true (EXPIRE (c_str key) kGateExpireSeconds) is_one;
        if negb ok then mret false else
        check true (SADD kGateListKey (c_str (gn_gate_id node))) is_integer
    end).

Definition UnregisterGate (gate_id : string) : M R bool :=
  connected false (
    _ ← Command (DEL (c_str (kGatePrefix +:+ gate_id)));
    _ ← Command (SREM kGateListKey (c_str gate_id));
    mret true).

Definition UpdateGateHeartbeat (now : Z) (gate_id : string) (connections : Z) : M R bool :=
  connected false (
    let key := kGatePrefix +:+ gate_id in
    r ← Command (HSET (c_str key)
          [("current_connections", pretty connections); ("last_heartbeat", pretty now)]);
    match r with
    | None => mret false
    | Some _ => check false (EXPIRE (c_str key) kGateExpireSeconds) is_one
    end).

Definition no_node (gate_id : string) : GateNode :=
  {| gn_gate_id := gate_id; gn_address := ""; gn_current_connections := 0;
     gn_registered_at := 0; gn_last_heartbeat := 0 |}.
Definition set_node_field (f v : string) (n : GateNode) : GateNode :=
  let '(Build_GateNode g a c r h) := n in
  if decide (f = "address") then Build_GateNode g v c r h else
  if decide (f = "current_connections") then Build_GateNode g a (default c (stoi v)) r h else
  if decide (f = "registered_at") then Build_GateNode g a c (default r (stoll v)) h else
  if decide (f = "last_heartbeat") then Build_GateNode g a c r (default h (stoll v)) else n.
Definition ParseGateNodeHash (r : option redisReply) (gate_id : string) : option GateNode :=
  match r with
  | Some (REPLY_ARRAY ((_ :: _) as l)) => Some (hash_fields l set_node_field (no_node gate_id))
  | _ => None
  end.

Definition GetGate (gate_id : string) : M R (option GateNode) :=
  connected None (
    r ← Command (HGETALL (c_str (kGatePrefix +:+ gate_id)));
    mret (ParseGateNodeHash r gate_id)).

(** The loop over the members of the set. *)
Fixpoint gates_loop (l : list redisReply) : M R (list GateNode) :=
  match l with
  | [] => mret []
  | REPLY_STRING gid :: l =>
      h ← Command (HGETALL (c_str (kGatePrefix +:+ gid)));
      rest ← gates_loop l;
      mret (match ParseGateNodeHash h gid with Some n => n :: rest | None => rest end)
  | _ :: l => gates_loop l
  end.
Definition GetAllGates : M R (list GateNode) :=
  connected [] (
    r ← Command (SMEMBERS kGateListKey);
    match r with Some (REPLY_ARRAY l) => gates_loop l | _ => mret [] end).
End RedisStore.
End RedisStore.

#[export] Instance RedisSessionStore {R} `{!Redis R} : SessionStore R := {|
  SetOnline := RedisStore.SetOnline; SetOffline := RedisStore.SetOffline;
  GetSession := RedisStore.GetSession; GetSessions := RedisStore.GetSessions;
  IsOnline := RedisStore.IsOnline; UpdateLastActive := RedisStore.UpdateLastActive;
  RegisterGate := RedisStore.RegisterGate; UnregisterGate := RedisStore.UnregisterGate;
  UpdateGateHeartbeat := RedisStore.UpdateGateHeartbeat; GetGate := RedisStore.GetGate;
  GetAllGates := RedisStore.GetAllGates |}.

(** * The stores keep their promise *)

#[export, refine] Instance MemorySessionStoreLaws : SessionStoreLaws MemoryImpl := {|
  store_up _ := True; online_at s u := mi_sessions s !! u; gate_at s g := mi_gates s !! g;
  session_ok _ := True; node_ok _ := True; user_ok _ := True; gate_ok _ := True |}.
Proof.
  all: intros; cbn; unfold Memory.SetOnline, Memory.SetOffline, Memory.GetSession,
    Memory.RegisterGate, Memory.UnregisterGate, Memory.GetGate, Memory.UpdateLastActive,
    Memory.UpdateGateHeartbeat, reads; try match goal with E : _ !! _ = Some _ |- _ => rewrite E end;
    eexists; (split; [reflexivity|]); (split; [done|]); split; intros k _; cbn;
    try (case_decide; subst); by simplify_map_eq.
Defined.

Definition no_nul (s : string) : Prop := str_has Ascii.zero s = false.
#[global] Instance no_nul_dec s : Decision (no_nul s).
Proof. unfold no_nul. apply _. Defined.
Lemma c_str_id s : no_nul s → c_str s = s.
Proof.
  unfold no_nul. induction s as [|c s IH]; simpl; [done|].
  intros [Hc Hs]%orb_false_iff. apply bool_decide_eq_false in Hc.
  rewrite decide_False by done. by rewrite IH.
Qed.
Lemma no_nul_app s t : no_nul (s +:+ t) ↔ no_nul s ∧ no_nul t.
Proof. unfold no_nul. rewrite str_has_app. apply orb_false_iff. Qed.

(** ** Reading a hash back *)

Lemma hash_fields_flat {A} l (set : string → string → A → A) a :
  RedisStore.hash_fields (flat_fields l) set a = foldl (λ a kv, set kv.1 kv.2 a) a l.
Proof. revert a. induction l as [|[k v] l IH]; intros a; [done|]. apply IH. Qed.

(** The value of the member [p] that is set from the field [f]. *)
Lemma foldl_field {A B} (set : string → string → A → A) (p : A → B) (f : string) (rd : string → B → B) l a :
  (∀ v a, p (set f v a) = rd v (p a)) → (∀ k v a, k ≠ f → p (set k v a) = p a) → NoDup l.*1 →
  p (foldl (λ a kv, set kv.1 kv.2 a) a l) =
    match (list_to_map l : gmap string string) !! f with Some v => rd v (p a) | None => p a end.
Proof.
  intros Heq Hne. revert a. induction l as [|[k v] l IH]; intros a; csimpl; [done|].
  intros [Hk Hnd]%NoDup_cons. rewrite IH by done. destruct (decide (k = f)) as [->|Hkf].
  - rewrite lookup_insert_eq. apply not_elem_of_list_to_map_1 in Hk. by rewrite Hk, Heq.
  - rewrite lookup_insert_ne by done. by rewrite Hne.
Qed.

Definition hash_str (h : gmap string string) (f : string) : string := default "" (h !! f).
Definition hash_int (read : string → option Z) (h : gmap string string) (f : string) : Z :=
  default 0 (h !! f ≫= read).
Definition hash_session (u : string) (h : gmap string string) : UserSession :=
  {| us_user_id := u; us_gate_id := hash_str h "gate_id"; us_gate_addr := hash_str h "gate_addr";
     us_device_type := hash_str h "device_type"; us_device_id := hash_str h "device_id";
     us_online_at := hash_int stoll h "online_at"; us_last_active_at := hash_int stoll h "last_active_at" |}.
Definition hash_node (g : string) (h : gmap string string) : GateNode :=
  {| gn_gate_id := g; gn_address := hash_str h "address";
     gn_current_connections := hash_int stoi h "current_connections";
     gn_registered_at := hash_int stoll h "registered_at";
     gn_last_heartbeat := hash_int stoll h "last_heartbeat" |}.

Ltac field_of f rd :=
  rewrite (foldl_field _ _ f rd);
  [ | by intros v [] | by intros k v [] Hk; cbn; repeat case_decide; subst | done ].

Lemma parse_session u (h : gmap string string) l : l ≡ₚ map_to_list h →
  foldl (λ a kv, RedisStore.set_session_field kv.1 kv.2 a) (RedisStore.no_session u) l = hash_session u h.
Proof.
  intros Hl. assert (NoDup l.*1) as Hnd by (rewrite Hl; apply NoDup_fst_map_to_list).
  assert ((list_to_map l : gmap string string) = h) as <-.
  { rewrite (list_to_map_proper l (map_to_list h)) by done. apply list_to_map_to_list. }
  set (s := foldl _ _ _).
  assert (us_user_id s = u) as Hu.
  { subst s. clear. change u with (us_user_id (RedisStore.no_session u)) at 2.
    generalize (RedisStore.no_session u). induction l as [|[k v] l IH]; intros a; [done|].
    cbn [foldl]. rewrite IH. destruct a. cbn. by repeat case_decide. }
  assert (s = Build_UserSession (us_user_id s) (us_gate_id s) (us_gate_addr s) (us_device_type s)
    (us_device_id s) (us_online_at s) (us_last_active_at s)) as -> by (by destruct s).
  rewrite Hu. unfold hash_session, hash_str, hash_int. f_equal; subst s.
  - field_of "gate_id" (λ v _ : string, v). by destruct (_ !! _).
  - field_of "gate_addr" (λ v _ : string, v). by destruct (_ !! _).
  - field_of "device_type" (λ v _ : string, v). by destruct (_ !! _).
  - field_of "device_id" (λ v _ : string, v). by destruct (_ !! _).
  - field_of "online_at" (λ (v : string) (o : Z), default o (stoll v)). by destruct (_ !! _).
  - field_of "last_active_at" (λ (v : string) (o : Z), default o (stoll v)). by destruct (_ !! _).
Qed.

Lemma parse_node g (h : gmap string string) l : l ≡ₚ map_to_list h →
  foldl (λ a kv, RedisStore.set_node_field kv.1 kv.2 a) (RedisStore.no_node g) l = hash_node g h.
Proof.
  intros Hl. assert (NoDup l.*1) as Hnd by (rewrite Hl; apply NoDup_fst_map_to_list).
  assert ((list_to_map l : gmap string string) = h) as <-.
  { rewrite (list_to_map_proper l (map_to_list h)) by done. apply list_to_map_to_list. }
  set (s := foldl _ _ _).
  assert (gn_gate_id s = g) as Hg.
  { subst s. clear. change g with (gn_gate_id (RedisStore.no_node g)) at 2.
    generalize (RedisStore.no_node g). induction l as [|[k v] l IH]; intros a; [done|].
    cbn [foldl]. rewrite IH. destruct a. cbn. by repeat case_decide. }
  assert (s = Build_GateNode (gn_gate_id s) (gn_address s) (gn_current_connections s)
    (gn_registered_at s) (gn_last_heartbeat s)) as -> by (by destruct s).
  rewrite Hg. unfold hash_node, hash_str, hash_int. f_equal; subst s.
  - field_of "address" (λ v _ : string, v). by destruct (_ !! _).
  - field_of "current_connections" (λ (v : string) (o : Z), default o (stoi v)). by destruct (_ !! _).
  - field_of "registered_at" (λ (v : string) (o : Z), default o (stoll v)). by destruct (_ !! _).
  - field_of "last_heartbeat" (λ (v : string) (o : Z), default o (stoll v)). by destruct (_ !! _).
Qed.

(** ** The contents of the database *)

Definition session_key (u : string) : string := kSessionPrefix +:+ u.
Definition gate_key (g : string) : string := kGatePrefix +:+ g.
Definition hash_at (d : gmap string rval) (k : string) : gmap string string :=
  default ∅ (as_hash (d !! k)).
Definition session_in (d : gmap string rval) (u : string) : option UserSession :=
  let h := hash_at d (session_key u) in if decide (h = ∅) then None else Some (hash_session u h).
Definition node_in (d : gmap string rval) (g : string) : option GateNode :=
  let h := hash_at d (gate_key g) in if decide (h = ∅) then None else Some (hash_node g h).

(** The keys hold what the store puts there, and no hash is empty; "list" is no name for a gateway. *)
Record redis_wf (d : gmap string rval) : Prop := {
  wf_session u : is_Some (as_hash (d !! session_key u));
  wf_node g : g ≠ "list" → is_Some (as_hash (d !! gate_key g));
  wf_list : is_Some (as_set (d !! kGateListKey));
  wf_filled k h : d !! k = Some (RHash h) → h ≠ ∅ }.

Lemma set_fields_ne l h : l ≠ [] → set_fields l h ≠ ∅.
Proof.
  unfold set_fields. revert h. induction l as [|kv l IH]; intros h Hl; [done|]. cbn [foldl].
  destruct l as [|kv' l]; [cbn; apply insert_non_empty|]. by apply IH.
Qed.
(** What a key is set to: a hash that is not empty, a set, or nothing. *)
Definition filled (o : option rval) : Prop := o ≠ Some (RHash ∅).
Lemma filled_fields l h : l ≠ [] → filled (Some (RHash (set_fields l h))).
Proof. intros Hl Heq. injection Heq. by apply set_fields_ne. Qed.

Definition set_key (k : string) (o : option rval) (d : gmap string rval) : gmap string rval :=
  partial_alter (λ _, o) k d.
Lemma lookup_set_key k o d j : set_key k o d !! j = if decide (j = k) then o else d !! j.
Proof.
  unfold set_key. case_decide as Hj; [subst; apply lookup_partial_alter_eq|].
  by apply lookup_partial_alter_ne.
Qed.

Lemma lookup_set_key_ne k o d j : j ≠ k → set_key k o d !! j = d !! j.
Proof. intros. by rewrite lookup_set_key, decide_False. Qed.

Definition same_sessions (d d' : gmap string rval) : Prop := ∀ u, session_in d' u = session_in d u.
Definition same_nodes (d d' : gmap string rval) : Prop :=
  ∀ g, g ≠ "list" → node_in d' g = node_in d g.

Lemma session_key_eq u v : session_key u = session_key v ↔ u = v.
Proof. split; [|congruence]. intros Heq. by injection Heq. Qed.
Lemma gate_key_eq u v : gate_key u = gate_key v ↔ u = v.
Proof. split; [|congruence]. intros Heq. by injection Heq. Qed.
Lemma gate_key_list g : g ≠ "list" → gate_key g ≠ kGateListKey.
Proof. intros Hg Heq. by injection Heq. Qed.

Lemma same_sessions_ne d k o : (∀ u, session_key u ≠ k) → same_sessions d (set_key k o d).
Proof. intros Hk u. unfold session_in, hash_at. by rewrite lookup_set_key_ne. Qed.
Lemma same_nodes_ne d k o : (∀ g, g ≠ "list" → gate_key g ≠ k) → same_nodes d (set_key k o d).
Proof. intros Hk g Hg. unfold node_in, hash_at. by rewrite lookup_set_key_ne by auto. Qed.

Lemma set_key_filled d k o : redis_wf d → filled o → ∀ j h, set_key k o d !! j = Some (RHash h) → h ≠ ∅.
Proof.
  intros Hwf Ho j h. rewrite lookup_set_key. case_decide; [|apply (wf_filled d Hwf)].
  intros -> ->. by apply Ho.
Qed.
Lemma set_session_key d u o : redis_wf d → is_Some (as_hash o) → filled o →
  redis_wf (set_key (session_key u) o d) ∧ same_nodes d (set_key (session_key u) o d) ∧
  ∀ k, session_in (set_key (session_key u) o d) k =
    if decide (k = u) then (let h := default ∅ (as_hash o) in
                            if decide (h = ∅) then None else Some (hash_session u h))
    else session_in d k.
Proof.
  intros Hwf Ho Hf. pose proof Hwf as [Hs Hn Hl _]. split_and!; [split| |].
  - intros v. rewrite lookup_set_key. case_decide; [done|apply Hs].
  - intros g Hg. rewrite lookup_set_key_ne by done. by apply Hn.
  - by rewrite lookup_set_key_ne.
  - by apply set_key_filled.
  - by apply same_nodes_ne.
  - intros k. unfold session_in, hash_at. rewrite lookup_set_key.
    rewrite (decide_ext (session_key k = _) (k = u)) by apply session_key_eq.
    by destruct (decide (k = u)) as [->|].
Qed.
Lemma set_gate_key d g o : redis_wf d → is_Some (as_hash o) → filled o → g ≠ "list" →
  redis_wf (set_key (gate_key g) o d) ∧ same_sessions d (set_key (gate_key g) o d) ∧
  ∀ k, node_in (set_key (gate_key g) o d) k =
    if decide (k = g) then (let h := default ∅ (as_hash o) in
                            if decide (h = ∅) then None else Some (hash_node g h))
    else node_in d k.
Proof.
  intros Hwf Ho Hf Hg. pose proof Hwf as [Hs Hn Hl _]. split_and!; [split| |].
  - intros v. rewrite lookup_set_key_ne by done. apply Hs.
  - intros k Hk. rewrite lookup_set_key. case_decide; [done|by apply Hn].
  - rewrite lookup_set_key_ne; [done|]. intros Heq. by apply (gate_key_list g).
  - by apply set_key_filled.
  - by apply same_sessions_ne.
  - intros k. unfold node_in, hash_at. rewrite lookup_set_key.
    rewrite (decide_ext (gate_key k = _) (k = g)) by apply gate_key_eq.
    by destruct (decide (k = g)) as [->|].
Qed.
Lemma set_list_key d o : redis_wf d → is_Some (as_set o) → filled o →
  redis_wf (set_key kGateListKey o d) ∧ same_sessions d (set_key kGateListKey o d) ∧
  same_nodes d (set_key kGateListKey o d).
Proof.
  intros Hwf Ho Hf. pose proof Hwf as [Hs Hn Hl _]. split_and!; [split| |].
  - intros v. rewrite lookup_set_key_ne by done. apply Hs.
  - intros k Hk. rewrite lookup_set_key_ne by by apply gate_key_list. by apply Hn.
  - by rewrite lookup_set_key, decide_True.
  - by apply set_key_filled.
  - by apply same_sessions_ne.
  - apply same_nodes_ne, gate_key_list.
Qed.

(** ** The commands on a server that is up *)

Lemma lookup_alive now dl d k : alive now dl d !! k = if in_life now (dl k) then d !! k else None.
Proof.
  unfold alive. destruct (in_life now (dl k)) eqn:Hl.
  - destruct (d !! k) as [v|] eqn:Hk.
    + by apply map_lookup_filter_Some.
    + apply map_lookup_filter_None. by left.
  - apply map_lookup_filter_None. right. cbn. intros v _. by rewrite Hl.
Qed.
Lemma alive_wf now dl d : redis_wf d → redis_wf (alive now dl d).
Proof.
  intros [Hs Hn Hl Hf]. split.
  1-3: intros; rewrite lookup_alive; destruct (in_life _ _); eauto; by eexists.
  intros k h. rewrite lookup_alive. destruct (in_life _ _); [apply Hf|done].
Qed.

Section RedisRuns.
Context {R : Type} `{!Redis R} `{!RedisLaws R}.
Implicit Types r : R.

Definition redis_session_ok (u : UserSession) : Prop :=
  no_nul (us_user_id u) ∧ no_nul (us_gate_id u) ∧ no_nul (us_gate_addr u) ∧
  no_nul (us_device_type u) ∧ no_nul (us_device_id u) ∧ int64_range (us_online_at u) ∧
  int64_range (us_last_active_at u).
Definition redis_gate_ok (g : string) : Prop := no_nul g ∧ g ≠ "list".
Definition redis_node_ok (n : GateNode) : Prop :=
  redis_gate_ok (gn_gate_id n) ∧ no_nul (gn_address n) ∧ int32_range (gn_current_connections n) ∧
  int64_range (gn_registered_at n) ∧ int64_range (gn_last_heartbeat n).
Definition redis_store_up r : Prop := redis_up r ∧ redis_wf (redis_data r).

(** At the time [t] no key of [r] has reached its deadline, nor one that gets its deadline from
    then on, since the least time to live the store gives is that of a gateway. *)
Definition before_deadlines r (t : Z) : Prop :=
  t ≤ redis_clock r + 1000 * kGateExpireSeconds ∧ ∀ k dl, redis_deadline r k = Some dl → t ≤ dl.
(** What begins in [r] and ends in [r'] ends before any deadline. *)
Definition in_time r r' : Prop := before_deadlines r (redis_clock r').

(** [r] comes after [r0], in the same operation. *)
Definition late r0 r : Prop := redis_clock r0 ≤ redis_clock r ∧
  ∀ k dl, redis_deadline r k = Some dl →
    redis_deadline r0 k = Some dl ∨ redis_clock r0 + 1000 * kGateExpireSeconds ≤ dl.
Definition long_enough (c : RedisCmd) : Prop :=
  match c with EXPIRE _ t => kGateExpireSeconds ≤ t | _ => True end.
(** A command [c] of an operation that began in [r0] leads from [r] to [r']; [d] is what is there
    when it runs. *)
Record passes r0 (c : RedisCmd) r (d : gmap string rval) r' : Prop := {
  ps_up : redis_up r';
  ps_wf : redis_wf d;
  ps_late : late r0 r';
  ps_clock : redis_clock r ≤ redis_clock r';
  ps_alive : d = alive (redis_clock r') (redis_deadline r) (redis_data r);
  ps_deadline k : redis_deadline r' k =
    deadline_after c (redis_clock r') d (redis_data r') (redis_deadline r) k;
  ps_kept t : redis_clock r' ≤ t → before_deadlines r0 t → d = redis_data r }.

Lemma late_start r : late r r.
Proof. split; [done|]. by left. Qed.

Lemma connected_up {A} (none : A) m r : redis_up r → RedisStore.connected none m r = m r.
Proof.
  intros Hr. unfold RedisStore.connected, RedisStore.EnsureConnected, mbind, M_bind.
  by rewrite (redis_up_ok _ Hr).
Qed.

Lemma command_up r0 c r : late r0 r → redis_up r → redis_wf (redis_data r) → cmd_ok c → long_enough c →
  ∃ reply d r', RedisStore.Command c r = (Ret (Some reply), r') ∧ passes r0 c r d r' ∧
    redis_step c d reply (redis_data r').
Proof.
  intros [Hclock Hdl] Hr Hwf Hc Hlong. destruct (redis_answers c r Hr Hc) as (reply & r' & Hrun & ? & Ht & Hstep & Hd).
  exists reply, (alive (redis_clock r') (redis_deadline r) (redis_data r)), r'. split_and!; [|split|done].
  - unfold RedisStore.Command. by rewrite Hrun.
  - done.
  - by apply alive_wf.
  - split; [lia|]. intros k dl. rewrite Hd. unfold deadline_after.
    destruct (_ !! k), (redis_data r' !! k); try done. destruct c; auto.
    case_decide; [|auto]. intros [= <-]. right. cbn in Hlong. lia.
  - done.
  - done.
  - done.
  - intros t Hle [Hmin Hend]. apply map_eq. intros k. rewrite lookup_alive. unfold in_life.
    destruct (redis_deadline r k) as [dl|] eqn:Hk; [|done]. rewrite bool_decide_true; [done|].
    destruct (Hdl k dl Hk) as [Hold|]; [specialize (Hend k dl Hold)|]; lia.
Qed.

Lemma hmset_run r0 k l r : late r0 r → redis_up r → redis_wf (redis_data r) → l ≠ [] →
  (∀ d, redis_wf d → is_Some (as_hash (d !! k))) →
  ∃ d r', RedisStore.Command (HMSET k l) r = (Ret (Some REPLY_STATUS), r') ∧ passes r0 (HMSET k l) r d r' ∧
    redis_data r' = set_key k (Some (RHash (set_fields l (hash_at d k)))) d.
Proof.
  intros Hlate Hr Hwf Hl Hk. destruct (command_up r0 (HMSET k l) r Hlate Hr Hwf Hl I) as (reply & d & r' & Hrun & Hps & Hstep).
  destruct (Hk d (ps_wf _ _ _ _ _ Hps)) as [h0 Hh0].
  inversion Hstep as [? ? Hwrong|k' l' d' h Hl' Hh Hk' Hd Hrep Hd'| | | | | | | |]; subst; [exfalso; cbn in *; congruence|].
  exists d, r'. split_and!; [done..|]. unfold hash_at. by rewrite <-Hd', Hh.
Qed.
Lemma hset_run r0 k l r : late r0 r → redis_up r → redis_wf (redis_data r) → l ≠ [] →
  (∀ d, redis_wf d → is_Some (as_hash (d !! k))) →
  ∃ reply d r', RedisStore.Command (HSET k l) r = (Ret (Some reply), r') ∧ passes r0 (HSET k l) r d r' ∧
    redis_data r' = set_key k (Some (RHash (set_fields l (hash_at d k)))) d.
Proof.
  intros Hlate Hr Hwf Hl Hk. destruct (command_up r0 (HSET k l) r Hlate Hr Hwf Hl I) as (reply & d & r' & Hrun & Hps & Hstep).
  destruct (Hk d (ps_wf _ _ _ _ _ Hps)) as [h0 Hh0].
  inversion Hstep as [? ? Hwrong| |k' l' d' h n Hl' Hh Hk' Hd Hrep Hd'| | | | | | |]; subst; [exfalso; cbn in *; congruence|].
  exists (REPLY_INTEGER n), d, r'. split_and!; [done..|]. unfold hash_at. by rewrite <-Hd', Hh.
Qed.
Lemma expire_run r0 k t r : late r0 r → redis_up r → redis_wf (redis_data r) → kGateExpireSeconds ≤ t →
  ∃ d r', RedisStore.Command (EXPIRE k t) r = (Ret (Some (REPLY_INTEGER (exists_key d k))), r') ∧
    passes r0 (EXPIRE k t) r d r' ∧ redis_data r' = d.
Proof.
  intros Hlate Hr Hwf Ht. assert (0 < t) as Hpos by (unfold kGateExpireSeconds in *; lia).
  destruct (command_up r0 (EXPIRE k t) r Hlate Hr Hwf Hpos Ht) as (reply & d & r' & Hrun & Hps & Hstep).
  inversion Hstep; subst; [done|]. by eexists _, r'.
Qed.
Lemma del_run r0 k r : late r0 r → redis_up r → redis_wf (redis_data r) →
  ∃ reply d r', RedisStore.Command (DEL k) r = (Ret (Some reply), r') ∧ passes r0 (DEL k) r d r' ∧
    redis_data r' = set_key k None d.
Proof.
  intros Hlate Hr Hwf. destruct (command_up r0 (DEL k) r Hlate Hr Hwf I I) as (reply & d & r' & Hrun & Hps & Hstep).
  inversion Hstep; subst; [done|]. by eexists _, _, r'.
Qed.
Lemma hgetall_run r0 k r : late r0 r → redis_up r → redis_wf (redis_data r) →
  (∀ d, redis_wf d → is_Some (as_hash (d !! k))) →
  ∃ l d r', RedisStore.Command (HGETALL k) r = (Ret (Some (REPLY_ARRAY (flat_fields l))), r') ∧
    passes r0 (HGETALL k) r d r' ∧ l ≡ₚ map_to_list (hash_at d k) ∧ redis_data r' = d.
Proof.
  intros Hlate Hr Hwf Hk. destruct (command_up r0 (HGETALL k) r Hlate Hr Hwf I I) as (reply & d & r' & Hrun & Hps & Hstep).
  destruct (Hk d (ps_wf _ _ _ _ _ Hps)) as [h0 Hh0].
  inversion Hstep as [? ? Hwrong| | | | | |k' d' h l Hh Hl Hk' Hd Hrep| | |]; subst; [exfalso; cbn in *; congruence|].
  exists l, (redis_data r'), r'. split_and!; [done..| |done]. unfold hash_at. by rewrite Hh.
Qed.
Lemma sadd_run r0 m r : late r0 r → redis_up r → redis_wf (redis_data r) →
  ∃ n d r' gs, RedisStore.Command (SADD kGateListKey m) r = (Ret (Some (REPLY_INTEGER n)), r') ∧
    passes r0 (SADD kGateListKey m) r d r' ∧ redis_data r' = set_key kGateListKey (Some (RSet gs)) d.
Proof.
  intros Hlate Hr Hwf.
  destruct (command_up r0 (SADD kGateListKey m) r Hlate Hr Hwf I I) as (reply & d & r' & Hrun & Hps & Hstep).
  destruct (wf_list _ (ps_wf _ _ _ _ _ Hps)) as [s0 Hs0].
  inversion Hstep as [? ? Hwrong| | | | | | |k' m' d' s n Hs Hk Hd Hrep Hd'| |]; subst; [exfalso; cbn in *; congruence|].
  exists n, d, r', ({[m]} ∪ s). by split_and!.
Qed.
Lemma srem_run r0 m r : late r0 r → redis_up r → redis_wf (redis_data r) →
  ∃ reply d r' o, RedisStore.Command (SREM kGateListKey m) r = (Ret (Some reply), r') ∧
    passes r0 (SREM kGateListKey m) r d r' ∧ redis_data r' = set_key kGateListKey o d ∧ is_Some (as_set o) ∧ filled o.
Proof.
  intros Hlate Hr Hwf.
  destruct (command_up r0 (SREM kGateListKey m) r Hlate Hr Hwf I I) as (reply & d & r' & Hrun & Hps & Hstep).
  destruct (wf_list _ (ps_wf _ _ _ _ _ Hps)) as [s0 Hs0].
  inversion Hstep as [? ? Hwrong| | | | | | | |k' m' d' s n Hs Hk Hd Hrep Hd'|]; subst; [exfalso; cbn in *; congruence|].
  exists (REPLY_INTEGER n), d, r', (if decide (s ∖ {[m]} = ∅) then None else Some (RSet (s ∖ {[m]}))).
  split_and!; [done..| | |]; [rewrite <-Hd'; unfold put_set, set_key| |]; by case_decide.
Qed.
Lemma exists_run r0 k r : late r0 r → redis_up r → redis_wf (redis_data r) →
  ∃ d r', RedisStore.Command (EXISTS k) r = (Ret (Some (REPLY_INTEGER (exists_key d k))), r') ∧
    passes r0 (EXISTS k) r d r' ∧ redis_data r' = d.
Proof.
  intros Hlate Hr Hwf. destruct (command_up r0 (EXISTS k) r Hlate Hr Hwf I I) as (reply & d & r' & Hrun & Hps & Hstep).
  inversion Hstep; subst; [done|]. by eexists _, r'.
Qed.

Lemma c_str_session u : no_nul u → c_str (kSessionPrefix +:+ u) = session_key u.
Proof. intros. apply c_str_id, no_nul_app. done. Qed.
Lemma c_str_gate g : no_nul g → c_str (kGatePrefix +:+ g) = gate_key g.
Proof. intros. apply c_str_id, no_nul_app. done. Qed.
Lemma hash_session_there u d : redis_wf d → is_Some (as_hash (d !! session_key u)).
Proof. intros Hwf. apply (wf_session d Hwf). Qed.
Lemma hash_node_there g d : g ≠ "list" → redis_wf d → is_Some (as_hash (d !! gate_key g)).
Proof. intros Hg Hwf. by apply (wf_node d Hwf). Qed.
Lemma exists_key_set k v d : exists_key (set_key k (Some v) d) k = 1.
Proof. unfold exists_key. by rewrite lookup_set_key, decide_True. Qed.
Lemma session_in_alive now dl d u :
  session_in (alive now dl d) u = if in_life now (dl (session_key u)) then session_in d u else None.
Proof. unfold session_in, hash_at. rewrite lookup_alive. by destruct (in_life _ _). Qed.
Lemma node_in_alive now dl d g :
  node_in (alive now dl d) g = if in_life now (dl (gate_key g)) then node_in d g else None.
Proof. unfold node_in, hash_at. rewrite lookup_alive. by destruct (in_life _ _). Qed.

(** The reply to [HGETALL], parsed. *)
Lemma parse_session_reply u h l : l ≡ₚ map_to_list h →
  RedisStore.ParseUserSessionHash (Some (REPLY_ARRAY (flat_fields l))) u =
    if decide (h = ∅) then None else Some (hash_session u h).
Proof.
  intros Hl. case_decide as Hh.
  - subst. rewrite map_to_list_empty in Hl. by apply Permutation_nil_r in Hl as ->.
  - destruct l as [|[k v] l]; [by apply Permutation_nil_l, eq_sym, map_to_list_empty_iff in Hl|].
    rewrite <-(parse_session u h ((k, v) :: l) Hl), <-hash_fields_flat. done.
Qed.
Lemma parse_node_reply g h l : l ≡ₚ map_to_list h →
  RedisStore.ParseGateNodeHash (Some (REPLY_ARRAY (flat_fields l))) g =
    if decide (h = ∅) then None else Some (hash_node g h).
Proof.
  intros Hl. case_decide as Hh.
  - subst. rewrite map_to_list_empty in Hl. by apply Permutation_nil_r in Hl as ->.
  - destruct l as [|[k v] l]; [by apply Permutation_nil_l, eq_sym, map_to_list_empty_iff in Hl|].
    rewrite <-(parse_node g h ((k, v) :: l) Hl), <-hash_fields_flat. done.
Qed.

Lemma check_run ok c test reply r r' : RedisStore.Command c r = (Ret (Some reply), r') →
  RedisStore.check ok c test r = (Ret (test reply), r').
Proof. intros Hc. unfold RedisStore.check. by rewrite (bind_run _ _ _ _ _ Hc). Qed.

(** What an operation leads to when it ends before any deadline. *)
Lemma redis_SetOnline r u : redis_store_up r → redis_session_ok u → ∃ b r',
  RedisStore.SetOnline u r = (Ret b, r') ∧ redis_store_up r' ∧
  (in_time r r' → b = true ∧ same_nodes (redis_data r) (redis_data r') ∧
    (∀ k, session_in (redis_data r') k = if decide (k = us_user_id u) then Some u else session_in (redis_data r) k) ∧
    redis_deadline r' (session_key (us_user_id u)) = Some (redis_clock r' + 1000 * kSessionExpireSeconds)).
Proof.
  intros [Hr Hwf] (Hu & Hg & Ha & Ht & Hd & Ho & Hl). unfold RedisStore.SetOnline.
  rewrite connected_up by done. rewrite c_str_session, !c_str_id by done.
  set (fields := [("user_id", us_user_id u); _; _; _; _; _; _]).
  destruct (hmset_run r (session_key (us_user_id u)) fields r (late_start r) Hr Hwf ltac:(done)
    (hash_session_there _)) as (d1 & r1 & H1 & Hp1 & Hd1).
  destruct (set_session_key d1 (us_user_id u) (Some (RHash (set_fields fields (hash_at d1 (session_key (us_user_id u))))))
    (ps_wf _ _ _ _ _ Hp1) ltac:(by eexists) ltac:(by apply filled_fields)) as (Hwf1 & Hsame & Hin). rewrite <-Hd1 in Hwf1, Hsame, Hin.
  destruct (expire_run r (session_key (us_user_id u)) kSessionExpireSeconds r1 (ps_late _ _ _ _ _ Hp1)
    (ps_up _ _ _ _ _ Hp1) Hwf1 ltac:(done)) as (d2 & r2 & H2 & Hp2 & Hd2).
  eexists _, r2. rewrite (bind_run _ _ _ _ _ H1). cbn [RedisStore.is_status negb].
  rewrite (check_run _ _ _ _ _ _ H2). split; [reflexivity|]. split.
  { split; [apply Hp2|]. rewrite Hd2. apply Hp2. }
  intros Htime. pose proof (ps_kept _ _ _ _ _ Hp2 _ (Z.le_refl _) Htime) as Hk2. subst d2.
  pose proof (ps_kept _ _ _ _ _ Hp1 _ (ps_clock _ _ _ _ _ Hp2) Htime) as Hk1. subst d1.
  rewrite Hk2, Hd1, exists_key_set. rewrite <-Hd1. split_and!; [done|done| |].
  - intros k. rewrite Hin. case_decide; [|done]. cbn [as_hash default].
    rewrite decide_False by by apply set_fields_ne. f_equal. destruct u. subst fields. cbn in *.
    unfold hash_session, hash_str, hash_int. f_equal; simplify_map_eq; cbn; rewrite ?stoll_pretty by done; done.
  - rewrite (ps_deadline _ _ _ _ _ Hp2). unfold deadline_after.
    rewrite Hk2, Hd1, lookup_set_key, !decide_True by done. done.
Qed.

Lemma redis_SetOffline r u : redis_store_up r → no_nul u → ∃ b r',
  RedisStore.SetOffline u r = (Ret b, r') ∧ redis_store_up r' ∧
  (in_time r r' → b = true ∧ same_nodes (redis_data r) (redis_data r') ∧
   ∀ k, session_in (redis_data r') k = if decide (k = u) then None else session_in (redis_data r) k).
Proof.
  intros [Hr Hwf] Hu. unfold RedisStore.SetOffline. rewrite connected_up, c_str_session by done.
  destruct (del_run r (session_key u) r (late_start r) Hr Hwf) as (reply & d1 & r1 & H1 & Hp1 & Hd1).
  destruct (set_session_key d1 u None (ps_wf _ _ _ _ _ Hp1) ltac:(by eexists) ltac:(done)) as (? & ? & ?).
  exists true, r1. rewrite (bind_run _ _ _ _ _ H1). rewrite <-Hd1 in *. split; [done|]. split.
  { split; [apply Hp1|done]. }
  intros Htime. rewrite <-(ps_kept _ _ _ _ _ Hp1 _ (Z.le_refl _) Htime). by split_and!.
Qed.

(** A read answers what is there at that time. *)
Lemma session_read r0 r u : late r0 r → redis_up r → redis_wf (redis_data r) → no_nul u →
  ∃ d r', RedisStore.GetSession u r = (Ret (session_in d u), r') ∧
    passes r0 (HGETALL (session_key u)) r d r' ∧ redis_data r' = d.
Proof.
  intros Hlate Hr Hwf Hu. unfold RedisStore.GetSession. rewrite connected_up, c_str_session by done.
  destruct (hgetall_run r0 (session_key u) r Hlate Hr Hwf (hash_session_there u)) as (l & d1 & r1 & H1 & Hp1 & Hl & Hd1).
  exists d1, r1. by rewrite (bind_run _ _ _ _ _ H1), (parse_session_reply u _ l Hl).
Qed.
Lemma redis_GetSession r u : redis_store_up r → no_nul u → ∃ r', let d := alive (redis_clock r') (redis_deadline r) (redis_data r) in
  RedisStore.GetSession u r = (Ret (session_in d u), r') ∧ redis_store_up r' ∧
  redis_data r' = d ∧ (in_time r r' → d = redis_data r).
Proof.
  intros [Hr Hwf] Hu. destruct (session_read r r u (late_start r) Hr Hwf Hu) as (d1 & r1 & H1 & Hp1 & Hd1).
  exists r1. rewrite <-(ps_alive _ _ _ _ _ Hp1).
  cbn zeta. split_and!; [done|split; [apply Hp1|rewrite Hd1; apply Hp1]|done|].
  intros Htime. by apply (ps_kept _ _ _ _ _ Hp1 _ (Z.le_refl _)).
Qed.
Lemma sessions_read r0 us : Forall no_nul us → ∀ r, late r0 r → redis_up r → redis_wf (redis_data r) →
  ∃ l r', RedisStore.GetSessions us r = (Ret l, r') ∧ redis_up r' ∧ redis_wf (redis_data r') ∧
    redis_clock r ≤ redis_clock r' ∧
    ∀ t, redis_clock r' ≤ t → before_deadlines r0 t →
      l = omap (session_in (redis_data r)) us ∧ redis_data r' = redis_data r.
Proof.
  induction 1 as [|u us Hu _ IH]; intros r Hlate Hr Hwf; [by exists [], r|].
  destruct (session_read r0 r u Hlate Hr Hwf Hu) as (d1 & r1 & H1 & Hp1 & Hd1).
  destruct (IH r1 (ps_late _ _ _ _ _ Hp1) (ps_up _ _ _ _ _ Hp1)) as (l & r2 & H2 & Hr2 & Hwf2 & Hc2 & Hin).
  { rewrite Hd1. apply Hp1. }
  cbn [RedisStore.GetSessions]. rewrite (bind_run _ _ _ _ _ H1), (bind_run _ _ _ _ _ H2).
  eexists _, r2. pose proof (ps_clock _ _ _ _ _ Hp1) as Hc1. split_and!; [reflexivity|done|done|lia|].
  intros t Hle Htime. destruct (Hin t Hle Htime) as [-> ->]. rewrite Hd1, (ps_kept _ _ _ _ _ Hp1 t) by (done || lia).
  split; [|done]. csimpl. by destruct (session_in _ u).
Qed.
Lemma redis_GetSessions r us : redis_store_up r → Forall no_nul us → ∃ l r',
  RedisStore.GetSessions us r = (Ret l, r') ∧ redis_store_up r' ∧
  (in_time r r' → l = omap (session_in (redis_data r)) us ∧ redis_data r' = redis_data r).
Proof.
  intros [Hr Hwf] Hus. destruct (sessions_read r us Hus r (late_start r) Hr Hwf) as (l & r' & Hrun & ? & ? & _ & Hin).
  exists l, r'. split_and!; [done|by split|]. by apply Hin.
Qed.
Lemma redis_IsOnline r u : redis_store_up r → no_nul u → ∃ b r',
  RedisStore.IsOnline u r = (Ret b, r') ∧ redis_store_up r' ∧
  (in_time r r' → b = bool_decide (is_Some (session_in (redis_data r) u)) ∧ redis_data r' = redis_data r).
Proof.
  intros [Hr Hwf] Hu. unfold RedisStore.IsOnline. rewrite connected_up, c_str_session by done.
  destruct (exists_run r (session_key u) r (late_start r) Hr Hwf) as (d1 & r1 & H1 & Hp1 & Hd1).
  eexists _, r1. rewrite (check_run _ _ _ _ _ _ H1). split; [reflexivity|].
  split; [split; [apply Hp1|rewrite Hd1; apply Hp1]|].
  intros Htime. rewrite Hd1, (ps_kept _ _ _ _ _ Hp1 _ (Z.le_refl _) Htime). split; [|done].
  unfold session_in, hash_at, exists_key. pose proof (wf_session _ Hwf u) as Hs. pose proof (wf_filled _ Hwf) as Hf.
  destruct (redis_data r !! session_key u) as [[h|]|] eqn:Hk; cbn [as_hash default RedisStore.is_one].
  - assert (h ≠ ∅) as Hne by by eapply Hf. cbn zeta. cbn. by rewrite (decide_False (P := h = ∅)) by done.
  - by destruct Hs.
  - done.
Qed.

Lemma redis_RegisterGate r n : redis_store_up r → redis_node_ok n → ∃ b r',
  RedisStore.RegisterGate n r = (Ret b, r') ∧ redis_store_up r' ∧
  (in_time r r' → b = true ∧ same_sessions (redis_data r) (redis_data r') ∧
   ∀ k, redis_gate_ok k → node_in (redis_data r') k =
     if decide (k = gn_gate_id n) then Some n else node_in (redis_data r) k).
Proof.
  intros [Hr Hwf] ([Hg Hlist] & Ha & Hc & Hreg & Hh). unfold RedisStore.RegisterGate.
  rewrite connected_up by done. rewrite c_str_gate, !c_str_id by done.
  set (fields := [("gate_id", gn_gate_id n); ("address", gn_address n); _; _; _]).
  destruct (hmset_run r (gate_key (gn_gate_id n)) fields r (late_start r) Hr Hwf ltac:(done)
    (λ d, hash_node_there _ d Hlist)) as (d1 & r1 & H1 & Hp1 & Hd1).
  destruct (set_gate_key d1 (gn_gate_id n) (Some (RHash (set_fields fields
    (hash_at d1 (gate_key (gn_gate_id n)))))) (ps_wf _ _ _ _ _ Hp1) ltac:(by eexists) ltac:(by apply filled_fields) Hlist) as (Hwf1 & Hs1 & Hin).
  rewrite <-Hd1 in Hwf1, Hs1, Hin.
  destruct (expire_run r (gate_key (gn_gate_id n)) kGateExpireSeconds r1 (ps_late _ _ _ _ _ Hp1)
    (ps_up _ _ _ _ _ Hp1) Hwf1 ltac:(done)) as (d2 & r2 & H2 & Hp2 & Hd2).
  rewrite (bind_run _ _ _ _ _ H1). cbn [RedisStore.is_status negb].
  rewrite (bind_run _ _ _ _ _ (check_run _ _ _ _ _ _ H2)).
  assert (redis_wf (redis_data r2)) as Hwf2 by (rewrite Hd2; apply Hp2).
  assert (∀ t, redis_clock r2 ≤ t → before_deadlines r t → d2 = redis_data r1 ∧ d1 = redis_data r ∧
    RedisStore.is_one (REPLY_INTEGER (exists_key d2 (gate_key (gn_gate_id n)))) = true) as Hkept.
  { intros t Hle Htime. pose proof (ps_kept _ _ _ _ _ Hp2 t Hle Htime) as ->.
    split_and!; [done| |by rewrite Hd1, exists_key_set].
    apply (ps_kept _ _ _ _ _ Hp1 t); [|done]. pose proof (ps_clock _ _ _ _ _ Hp2). lia. }
  destruct (RedisStore.is_one _) eqn:Hone; cbn [negb].
  - destruct (sadd_run r (gn_gate_id n) r2 (ps_late _ _ _ _ _ Hp2) (ps_up _ _ _ _ _ Hp2) Hwf2)
      as (m & d3 & r3 & gs & H3 & Hp3 & Hd3).
    destruct (set_list_key d3 (Some (RSet gs)) (ps_wf _ _ _ _ _ Hp3) ltac:(by eexists) ltac:(done)) as (Hwf3 & Hs3 & Hn3).
    rewrite <-Hd3 in Hwf3, Hs3, Hn3.
    eexists _, r3. rewrite (check_run _ _ _ _ _ _ H3). split; [reflexivity|]. split; [split; [apply Hp3|done]|].
    intros Htime. destruct (Hkept _ (ps_clock _ _ _ _ _ Hp3) Htime) as (Hk2 & Hk1 & _).
    pose proof (ps_kept _ _ _ _ _ Hp3 _ (Z.le_refl _) Htime) as Hk3. subst d1 d2 d3. split_and!; [done|..].
    + intros k. by rewrite Hs3, Hk2, Hs1.
    + intros k [_ Hk]. rewrite Hn3, Hk2, Hin by done. case_decide; [|done]. cbn [as_hash default].
      rewrite decide_False by by apply set_fields_ne. f_equal. destruct n. subst fields. cbn in *.
      unfold hash_node, hash_str, hash_int.
      f_equal; simplify_map_eq; cbn; rewrite ?stoll_pretty, ?stoi_pretty by done; done.
  - exists false, r2. split; [done|]. split; [by split; [apply Hp2|]|]. intros Htime.
    by destruct (Hkept _ (Z.le_refl _) Htime) as (_ & _ & ?).
Qed.

Lemma redis_UnregisterGate r g : redis_store_up r → redis_gate_ok g → ∃ b r',
  RedisStore.UnregisterGate g r = (Ret b, r') ∧ redis_store_up r' ∧
  (in_time r r' → b = true ∧ same_sessions (redis_data r) (redis_data r') ∧
   ∀ k, redis_gate_ok k → node_in (redis_data r') k = if decide (k = g) then None else node_in (redis_data r) k).
Proof.
  intros [Hr Hwf] [Hg Hlist]. unfold RedisStore.UnregisterGate.
  rewrite connected_up, c_str_gate, (c_str_id g) by done.
  destruct (del_run r (gate_key g) r (late_start r) Hr Hwf) as (reply & d1 & r1 & H1 & Hp1 & Hd1).
  destruct (set_gate_key d1 g None (ps_wf _ _ _ _ _ Hp1) ltac:(by eexists) ltac:(done) Hlist) as (Hwf1 & Hs1 & Hin).
  rewrite <-Hd1 in Hwf1, Hs1, Hin.
  destruct (srem_run r g r1 (ps_late _ _ _ _ _ Hp1) (ps_up _ _ _ _ _ Hp1) Hwf1)
    as (reply2 & d2 & r2 & o & H2 & Hp2 & Hd2 & Ho & Hf).
  destruct (set_list_key d2 o (ps_wf _ _ _ _ _ Hp2) Ho Hf) as (Hwf2 & Hs2 & Hn2). rewrite <-Hd2 in Hwf2, Hs2, Hn2.
  exists true, r2. rewrite (bind_run _ _ _ _ _ H1), (bind_run _ _ _ _ _ H2).
  split; [done|]. split; [by split; [apply Hp2|]|]. intros Htime.
  pose proof (ps_kept _ _ _ _ _ Hp2 _ (Z.le_refl _) Htime) as Hk2.
  pose proof (ps_kept _ _ _ _ _ Hp1 _ (ps_clock _ _ _ _ _ Hp2) Htime) as Hk1. subst d1 d2. split_and!; [done|..].
  - intros k. by rewrite Hs2, Hs1.
  - intros k [_ Hk]. rewrite Hn2, Hin by done. by case_decide.
Qed.

Lemma redis_GetGate r g : redis_store_up r → redis_gate_ok g → ∃ r', let d := alive (redis_clock r') (redis_deadline r) (redis_data r) in
  RedisStore.GetGate g r = (Ret (node_in d g), r') ∧ redis_store_up r' ∧
  redis_data r' = d ∧ (in_time r r' → d = redis_data r).
Proof.
  intros [Hr Hwf] [Hg Hlist]. unfold RedisStore.GetGate. rewrite connected_up, c_str_gate by done.
  destruct (hgetall_run r (gate_key g) r (late_start r) Hr Hwf (λ d, hash_node_there g d Hlist))
    as (l & d1 & r1 & H1 & Hp1 & Hl & Hd1).
  exists r1. rewrite (bind_run _ _ _ _ _ H1), (parse_node_reply g _ l Hl), <-(ps_alive _ _ _ _ _ Hp1).
  cbn zeta. split_and!; [done|split; [apply Hp1|rewrite Hd1; apply Hp1]|done|].
  intros Htime. by apply (ps_kept _ _ _ _ _ Hp1 _ (Z.le_refl _)).
Qed.

(** The updates write fields whether or not there is a hash to write to. *)
Lemma redis_UpdateLastActive r u t : redis_store_up r → no_nul u → int64_range t → ∃ b r',
  RedisStore.UpdateLastActive u t r = (Ret b, r') ∧ redis_store_up r' ∧
  (in_time r r' → b = true ∧ same_nodes (redis_data r) (redis_data r') ∧
   ∀ k, session_in (redis_data r') k =
     if decide (k = u) then Some (set_last_active t (default (RedisStore.no_session u) (session_in (redis_data r) u)))
     else session_in (redis_data r) k).
Proof.
  intros [Hr Hwf] Hu Ht. unfold RedisStore.UpdateLastActive. rewrite connected_up, c_str_session by done.
  destruct (hset_run r (session_key u) [("last_active_at", pretty t)] r (late_start r) Hr Hwf ltac:(done)
    (hash_session_there u)) as (reply & d1 & r1 & H1 & Hp1 & Hd1).
  destruct (set_session_key d1 u (Some (RHash (set_fields [("last_active_at", pretty t)]
    (hash_at d1 (session_key u))))) (ps_wf _ _ _ _ _ Hp1) ltac:(by eexists) ltac:(by apply filled_fields)) as (Hwf1 & Hsame & Hin).
  rewrite <-Hd1 in Hwf1, Hsame, Hin.
  destruct (expire_run r (session_key u) kSessionExpireSeconds r1 (ps_late _ _ _ _ _ Hp1)
    (ps_up _ _ _ _ _ Hp1) Hwf1 ltac:(done)) as (d2 & r2 & H2 & Hp2 & Hd2).
  eexists _, r2. rewrite (bind_run _ _ _ _ _ H1), (check_run _ _ _ _ _ _ H2). split; [reflexivity|]. split.
  { split; [apply Hp2|]. rewrite Hd2. apply Hp2. }
  intros Htime. pose proof (ps_kept _ _ _ _ _ Hp2 _ (Z.le_refl _) Htime) as Hk2. subst d2.
  pose proof (ps_kept _ _ _ _ _ Hp1 _ (ps_clock _ _ _ _ _ Hp2) Htime) as Hk1. subst d1.
  rewrite Hk2, Hd1, exists_key_set. rewrite <-Hd1. split_and!; [done|done|].
  intros k. rewrite Hin. case_decide; [|done]. cbn [as_hash default].
  rewrite decide_False by by apply set_fields_ne. f_equal. unfold session_in.
  set (h := hash_at _ _). unfold hash_session, set_last_active, hash_str, hash_int.
  case_decide as Hh; [rewrite Hh|]; cbn; f_equal; simplify_map_eq; cbn; rewrite ?stoll_pretty by done; done.
Qed.

Lemma heartbeat_node g c now h : int32_range c → int64_range now →
  hash_node g (set_fields [("current_connections", pretty c); ("last_heartbeat", pretty now)] h) =
    set_heartbeat c now (default (RedisStore.no_node g) (if decide (h = ∅) then None else Some (hash_node g h))).
Proof.
  intros Hc Hnow. unfold hash_node, set_heartbeat, hash_str, hash_int.
  case_decide as Hh; [rewrite Hh|]; cbn; f_equal; simplify_map_eq; cbn;
    rewrite ?stoll_pretty, ?stoi_pretty by done; done.
Qed.
(** The heartbeat succeeds once its fields are written: the key it gives a time to live has just been
    written, unless it had a deadline that passes in between. *)
Lemma redis_UpdateGateHeartbeat r now g c : redis_store_up r → redis_gate_ok g → int32_range c →
  int64_range now → ∃ b r',
  RedisStore.UpdateGateHeartbeat now g c r = (Ret b, r') ∧ redis_store_up r' ∧
  (in_time r r' → b = true ∧ same_sessions (redis_data r) (redis_data r') ∧
   ∀ k, node_in (redis_data r') k =
     if decide (k = g) then Some (set_heartbeat c now (default (RedisStore.no_node g) (node_in (redis_data r) g)))
     else node_in (redis_data r) k) ∧
  (∀ dl, redis_deadline r (gate_key g) = Some dl → dl < redis_clock r →
   b = true ∧ node_in (redis_data r') g = Some (set_heartbeat c now (RedisStore.no_node g))).
Proof.
  intros [Hr Hwf] [Hg Hlist] Hc Hnow. unfold RedisStore.UpdateGateHeartbeat.
  rewrite connected_up, c_str_gate by done.
  set (fields := [("current_connections", pretty c); ("last_heartbeat", pretty now)]).
  destruct (hset_run r (gate_key g) fields r (late_start r) Hr Hwf ltac:(done)
    (λ d, hash_node_there g d Hlist)) as (reply & d1 & r1 & H1 & Hp1 & Hd1).
  destruct (set_gate_key d1 g (Some (RHash (set_fields fields (hash_at d1 (gate_key g)))))
    (ps_wf _ _ _ _ _ Hp1) ltac:(by eexists) ltac:(by apply filled_fields) Hlist) as (Hwf1 & Hsame & Hin).
  rewrite <-Hd1 in Hwf1, Hsame, Hin.
  destruct (expire_run r (gate_key g) kGateExpireSeconds r1 (ps_late _ _ _ _ _ Hp1)
    (ps_up _ _ _ _ _ Hp1) Hwf1 ltac:(done)) as (d2 & r2 & H2 & Hp2 & Hd2).
  eexists _, r2. rewrite (bind_run _ _ _ _ _ H1).
  rewrite (check_run _ _ _ _ _ _ H2). split; [reflexivity|]. split.
  { split; [apply Hp2|]. rewrite Hd2. apply Hp2. }
  assert (∀ k, node_in (redis_data r1) k = if decide (k = g)
    then Some (set_heartbeat c now (default (RedisStore.no_node g) (node_in d1 g))) else node_in d1 k) as Hnode.
  { intros k. rewrite Hin. case_decide; [|done]. cbn [as_hash default].
    rewrite decide_False by by apply set_fields_ne. f_equal. by apply heartbeat_node. }
  split.
  - intros Htime. pose proof (ps_kept _ _ _ _ _ Hp2 _ (Z.le_refl _) Htime) as Hk2. subst d2.
    pose proof (ps_kept _ _ _ _ _ Hp1 _ (ps_clock _ _ _ _ _ Hp2) Htime) as Hk1. subst d1.
    rewrite Hk2, Hd1, exists_key_set. rewrite <-Hd1. by split_and!.
  - intros dl Hdl Hover. pose proof (ps_clock _ _ _ _ _ Hp1) as Hcl.
    assert (in_life (redis_clock r1) (redis_deadline r (gate_key g)) = false) as Hgone.
    { rewrite Hdl. cbn. apply bool_decide_eq_false. lia. }
    assert (d1 !! gate_key g = None) as Hnone by (by rewrite (ps_alive _ _ _ _ _ Hp1), lookup_alive, Hgone).
    assert (redis_deadline r1 (gate_key g) = None) as Hdl1.
    { rewrite (ps_deadline _ _ _ _ _ Hp1). unfold deadline_after. by rewrite Hnone. }
    pose proof (ps_alive _ _ _ _ _ Hp2) as Hd2'. rewrite Hd2. split.
    + unfold exists_key. rewrite Hd2', lookup_alive, Hdl1, Hd1, lookup_set_key, decide_True by done. done.
    + rewrite Hd2', node_in_alive, Hdl1, Hnode, decide_True by done. cbn.
      rewrite (ps_alive _ _ _ _ _ Hp1), node_in_alive, Hgone. done.
Qed.
End RedisRuns.

(** ** A Redis for concrete runs

    [mr_tick]: how long a command takes. *)

Record MemRedis : Type := {
  mr_ok : bool; mr_clock : Z; mr_tick : Z; mr_data : gmap string rval; mr_deadline : gmap string Z }.
Definition mem_exec (c : RedisCmd) (d : gmap string rval) : redisReply * gmap string rval :=
  match c with
  | HMSET k l => match as_hash (d !! k) with
                 | Some h => (REPLY_STATUS, <[k := RHash (set_fields l h)]> d)
                 | None => (REPLY_ERROR, d) end
  | HSET k l => match as_hash (d !! k) with
                | Some h => (REPLY_INTEGER 0, <[k := RHash (set_fields l h)]> d)
                | None => (REPLY_ERROR, d) end
  | EXPIRE k _ | EXISTS k => (REPLY_INTEGER (exists_key d k), d)
  | DEL k => (REPLY_INTEGER (exists_key d k), delete k d)
  | HGETALL k => match as_hash (d !! k) with
                 | Some h => (REPLY_ARRAY (flat_fields (map_to_list h)), d)
                 | None => (REPLY_ERROR, d) end
  | SADD k m => match as_set (d !! k) with
                | Some s => (REPLY_INTEGER 1, <[k := RSet ({[m]} ∪ s)]> d)
                | None => (REPLY_ERROR, d) end
  | SREM k m => match as_set (d !! k) with
                | Some s => (REPLY_INTEGER 1, put_set k (s ∖ {[m]}) d)
                | None => (REPLY_ERROR, d) end
  | SMEMBERS k => match as_set (d !! k) with
                  | Some s => (REPLY_ARRAY (REPLY_STRING <$> elements s), d)
                  | None => (REPLY_ERROR, d) end
  end.
Definition mem_command (c : RedisCmd) (r : MemRedis) : redisReply * MemRedis :=
  let now := mr_clock r + Z.abs (mr_tick r) in
  let d := alive now (λ k, mr_deadline r !! k) (mr_data r) in
  let '(reply, d') := mem_exec c d in
  (reply, {| mr_ok := true; mr_clock := now; mr_tick := mr_tick r; mr_data := d';
             mr_deadline := map_imap (λ k _, deadline_after c now d d' (λ k, mr_deadline r !! k) k) d' |}).
#[export] Instance mem_redis : Redis MemRedis := {|
  redis_ctx_ok := mr_ok; redis_connect r := r;
  redisCommand c r := if mr_ok r then let '(reply, r) := mem_command c r in (Some reply, r) else (None, r) |}.
#[export, refine] Instance mem_redis_laws : RedisLaws MemRedis := {|
  redis_up r := mr_ok r = true; redis_data := mr_data; redis_deadline r k := mr_deadline r !! k; redis_clock := mr_clock |}.
Proof.
  - done.
  - intros c r Hr Hc. cbn. rewrite Hr. unfold mem_command. set (d := alive _ _ _).
    destruct (mem_exec c d) as [reply d'] eqn:Hexec.
    eexists _, _. split_and!; [done..|cbn; lia| |]; cbn; fold d.
    + revert Hexec Hc. destruct c; cbn; repeat case_match; intros [= <- <-] Hc; by econstructor.
    + intros k. rewrite map_lookup_imap. unfold deadline_after. by destruct (d' !! k), (d !! k).
Defined.
(** A second per command. *)
Definition redis_empty : MemRedis :=
  {| mr_ok := true; mr_clock := 1700000000000; mr_tick := 1000; mr_data := ∅; mr_deadline := ∅ |}.
Lemma redis_empty_up : redis_store_up redis_empty.
Proof. split; [done|]. split; intros *; cbn; rewrite lookup_empty; try done; by eexists. Qed.

(** * Properties *)

(** ** The store in Redis and the store in memory answer alike *)

Inductive store_op : Type :=
  | OSetOnline (u : UserSession) | OSetOffline (user_id : string) | OGetSession (user_id : string)
  | OGetSessions (user_ids : list string) | OIsOnline (user_id : string)
  | OUpdateLastActive (user_id : string) (timestamp : Z)
  | ORegisterGate (n : GateNode) | OUnregisterGate (gate_id : string) | OGetGate (gate_id : string)
  | OUpdateGateHeartbeat (now : Z) (gate_id : string) (connections : Z).
Inductive store_answer : Type :=
  | ABool (b : bool) | ASession (s : option UserSession) | ASessions (l : list UserSession)
  | ANode (n : option GateNode).
#[global] Instance store_answer_eq_dec : EqDecision store_answer.
Proof. solve_decision. Defined.

Definition run_op {S} `{!SessionStore S} (op : store_op) : M S store_answer :=
  match op with
  | OSetOnline u => b ← SetOnline u; mret (ABool b)
  | OSetOffline u => b ← SetOffline u; mret (ABool b)
  | OGetSession u => s ← GetSession u; mret (ASession s)
  | OGetSessions us => l ← GetSessions us; mret (ASessions l)
  | OIsOnline u => b ← IsOnline u; mret (ABool b)
  | OUpdateLastActive u t => b ← UpdateLastActive u t; mret (ABool b)
  | ORegisterGate n => b ← RegisterGate n; mret (ABool b)
  | OUnregisterGate g => b ← UnregisterGate g; mret (ABool b)
  | OGetGate g => n ← GetGate g; mret (ANode n)
  | OUpdateGateHeartbeat now g c => b ← UpdateGateHeartbeat now g c; mret (ABool b)
  end.
Fixpoint run_ops {S} `{!SessionStore S} (ops : list store_op) : M S (list store_answer) :=
  match ops with
  | [] => mret []
  | op :: ops => a ← run_op op; l ← run_ops ops; mret (a :: l)
  end.

(** The operation is one Redis can do: its values are ones it can hold, and what it updates is there. *)
Definition op_ok (m : MemoryImpl) (op : store_op) : Prop :=
  match op with
  | OSetOnline u => redis_session_ok u
  | OSetOffline u | OGetSession u | OIsOnline u => no_nul u
  | OGetSessions us => Forall no_nul us
  | OUpdateLastActive u t => no_nul u ∧ is_Some (mi_sessions m !! u) ∧ int64_range t
  | ORegisterGate n => redis_node_ok n
  | OUnregisterGate g | OGetGate g => redis_gate_ok g
  | OUpdateGateHeartbeat now g c =>
      redis_gate_ok g ∧ is_Some (mi_gates m !! g) ∧ int32_range c ∧ int64_range now
  end.
Fixpoint ops_ok (m : MemoryImpl) (ops : list store_op) : Prop :=
  match ops with
  | [] => True
  | op :: ops => op_ok m op ∧ ops_ok (snd (run_op op m)) ops
  end.

Section Agreement.
Context {R : Type} `{!Redis R} `{!RedisLaws R}.

(** Both hold the same users and gateways. *)
Definition agrees (r : R) (m : MemoryImpl) : Prop :=
  redis_store_up r ∧ (∀ u, no_nul u → session_in (redis_data r) u = mi_sessions m !! u) ∧
  ∀ g, redis_gate_ok g → node_in (redis_data r) g = mi_gates m !! g.
(** No key has reached the end of its time to live by the end of each operation. *)
Fixpoint ops_in_time (r : R) (ops : list store_op) : Prop :=
  match ops with
  | [] => True
  | op :: ops => let r' := snd (run_op op r) in in_time r r' ∧ ops_in_time r' ops
  end.

Lemma run_op_agrees r m op : agrees r m → op_ok m op → in_time r (snd (run_op op r)) → ∃ a r',
  run_op op r = (Ret a, r') ∧ fst (run_op op m) = Ret a ∧ agrees r' (snd (run_op op m)).
Proof.
  assert (∀ {A} (m : M R A) (f : A → store_answer) a (s s' : R), m s = (Ret a, s') →
    (x ← m; mret (f x)) s = (Ret (f a), s')) as Hrun by (intros * Hm; by rewrite (bind_run _ _ _ _ _ Hm)).
  intros (Hup & Hs & Hg) Hok.
  destruct op as [u|u|u|us|u|u t|n|g|g|now g c]; cbn [op_ok run_op] in *; cbn [SetOnline SetOffline GetSession
    GetSessions IsOnline UpdateLastActive RegisterGate UnregisterGate GetGate UpdateGateHeartbeat RedisSessionStore].
  - destruct (redis_SetOnline r u Hup Hok) as (b & r' & H1 & Hup' & Hin). rewrite (Hrun _ _ _ _ _ _ H1). cbn [snd].
    intros (-> & Hn' & Hs' & _)%Hin. eexists _, r'. split_and!; [done..|]. split_and!; [done|..].
    + intros k Hk. rewrite Hs'. cbn. case_decide; subst; simplify_map_eq; auto.
    + intros k Hk. rewrite Hn' by apply Hk. auto.
  - destruct (redis_SetOffline r u Hup Hok) as (b & r' & H1 & Hup' & Hin). rewrite (Hrun _ _ _ _ _ _ H1). cbn [snd].
    intros (-> & Hn' & Hs')%Hin. eexists _, r'. split_and!; [done..|]. split_and!; [done|..].
    + intros k Hk. rewrite Hs'. cbn. case_decide; subst; simplify_map_eq; auto.
    + intros k Hk. rewrite Hn' by apply Hk. auto.
  - destruct (redis_GetSession r u Hup Hok) as (r' & H1 & Hup' & Hd & Hin). rewrite (Hrun _ _ _ _ _ _ H1). cbn [snd].
    intros Hd'%Hin. rewrite Hd' in *. eexists _, r'. split_and!; [done|by rewrite Hs|].
    unfold agrees. rewrite Hd. by split_and!.
  - destruct (redis_GetSessions r us Hup Hok) as (l & r' & H1 & Hup' & Hin). rewrite (Hrun _ _ _ _ _ _ H1). cbn [snd].
    intros [-> Hd]%Hin. eexists _, r'. split_and!; [done| |unfold agrees; rewrite Hd; by split_and!].
    assert (omap (λ uid, mi_sessions m !! uid) us = omap (session_in (redis_data r)) us) as Hl.
    { clear Hin H1. induction Hok as [|u us Hu _ IH]; [done|]. csimpl. by rewrite Hs, IH. }
    rewrite <-Hl. done.
  - destruct (redis_IsOnline r u Hup Hok) as (b & r' & H1 & Hup' & Hin). rewrite (Hrun _ _ _ _ _ _ H1). cbn [snd].
    intros [-> Hd]%Hin. eexists _, r'. split_and!; [done|by rewrite Hs|unfold agrees; rewrite Hd; by split_and!].
  - destruct Hok as (Hu & [x Hx] & Ht).
    destruct (redis_UpdateLastActive r u t Hup Hu Ht) as (b & r' & H1 & Hup' & Hin).
    rewrite (Hrun _ _ _ _ _ _ H1). cbn [snd]. intros (-> & Hn' & Hs')%Hin.
    eexists _, r'. split; [done|]. unfold mbind, M_bind. cbn. unfold Memory.UpdateLastActive.
    rewrite Hx. cbn. split; [done|]. split_and!; [done|..].
    + intros k Hk. rewrite Hs', Hs, Hx by done. cbn. case_decide; subst; simplify_map_eq; auto.
    + intros k Hk. rewrite Hn' by apply Hk. auto.
  - destruct (redis_RegisterGate r n Hup Hok) as (b & r' & H1 & Hup' & Hin). rewrite (Hrun _ _ _ _ _ _ H1). cbn [snd].
    intros (-> & Hs' & Hn')%Hin. eexists _, r'. split_and!; [done..|]. split_and!; [done|..].
    + intros k Hk. rewrite Hs'. auto.
    + intros k Hk. rewrite Hn' by done. cbn. case_decide; subst; simplify_map_eq; auto.
  - destruct (redis_UnregisterGate r g Hup Hok) as (b & r' & H1 & Hup' & Hin). rewrite (Hrun _ _ _ _ _ _ H1). cbn [snd].
    intros (-> & Hs' & Hn')%Hin. eexists _, r'. split_and!; [done..|]. split_and!; [done|..].
    + intros k Hk. rewrite Hs'. auto.
    + intros k Hk. rewrite Hn' by done. cbn. case_decide; subst; simplify_map_eq; auto.
  - destruct (redis_GetGate r g Hup Hok) as (r' & H1 & Hup' & Hd & Hin). rewrite (Hrun _ _ _ _ _ _ H1). cbn [snd].
    intros Hd'%Hin. rewrite Hd' in *. eexists _, r'. split_and!; [done|by rewrite Hg|].
    unfold agrees. rewrite Hd. by split_and!.
  - destruct Hok as (Hgk & [x Hx] & Hc & Hn).
    destruct (redis_UpdateGateHeartbeat r now g c Hup Hgk Hc Hn) as (b & r' & H1 & Hup' & Hin & _).
    rewrite (Hrun _ _ _ _ _ _ H1). cbn [snd]. intros (-> & Hs' & Hn')%Hin.
    eexists _, r'. split; [done|]. unfold mbind, M_bind. cbn. unfold Memory.UpdateGateHeartbeat.
    rewrite Hx. cbn. split; [done|]. split_and!; [done|..].
    + intros k Hk. rewrite Hs'. auto.
    + intros k Hk. rewrite Hn', Hg, Hx by done. cbn. case_decide; subst; simplify_map_eq; auto.
Qed.

Lemma run_ops_agree r m ops : agrees r m → ops_ok m ops → ops_in_time r ops → ∃ l r',
  run_ops ops r = (Ret l, r') ∧ fst (run_ops ops m) = Ret l ∧ agrees r' (snd (run_ops ops m)).
Proof.
  revert r m. induction ops as [|op ops IH]; intros r m Ha Hok Ht; [by eexists _, _|].
  destruct Hok as [Hop Hok], Ht as [Htop Ht].
  destruct (run_op_agrees r m op Ha Hop Htop) as (a & s1 & H1 & H2 & Ha1). rewrite H1 in Ht.
  destruct (IH _ _ Ha1 Hok Ht) as (l & s2 & H3 & H4 & Ha2). exists (a :: l), s2. cbn [run_ops].
  rewrite (bind_run _ _ _ _ _ H1), (bind_run _ _ _ _ _ H3).
  rewrite (bind_run _ _ _ _ _ (run_fst _ _ _ H2)), (bind_run _ _ _ _ _ (run_fst _ _ _ H4)).
  by split_and!.
Qed.

(** C18: until a time to live runs out the two session stores of the zone server are interchangeable: a
    sequence of operations (all but the listing of every gateway) on the Redis store returns the same answers as
    on the store in memory, from states that hold the same users and gateways, and leaves states that do.  What it needs: the Redis
    server answers; no operation takes longer than a minute or ends after the deadline of a key (an hour
    for a user who came online or was active, a minute for a gateway that registered or sent a heartbeat;
    in memory nothing is ever forgotten); the operations store values Redis can hold (no NUL bytes, no gateway
    named "list") and update only users and gateways that are there. *)
Theorem redis_store_equiv_memory (r : R) (m : MemoryImpl) ops :
  agrees r m → ops_ok m ops → ops_in_time r ops → ∃ r', run_ops ops r = (fst (run_ops ops m), r') ∧
    agrees r' (snd (run_ops ops m)).
Proof.
  intros Ha Hok Ht. destruct (run_ops_agree r m ops Ha Hok Ht) as (l & r' & H1 & H2 & Ha').
  exists r'. by rewrite H2.
Qed.

(** On Redis a user is online for an hour: who has come online is found up to that moment, and not
    after it, unless they come online again: nothing of the zone server calls [UpdateLastActive].  In
    memory the user stays until they go offline. *)
Theorem session_lasts_an_hour (r : R) u : redis_store_up r → redis_session_ok u →
  in_time r (snd (SetOnline u r)) → ∃ r1 r2, SetOnline u r = (Ret true, r1) ∧
  GetSession (us_user_id u) r1 =
    (Ret (if decide (redis_clock r2 ≤ redis_clock r1 + 1000 * kSessionExpireSeconds) then Some u else None), r2).
Proof.
  intros Hup Hok Ht. pose proof Hok as (Hu & _).
  destruct (redis_SetOnline r u Hup Hok) as (b & r1 & H1 & Hup1 & Hin).
  cbn [SetOnline GetSession RedisSessionStore] in *. rewrite H1 in Ht.
  destruct (Hin Ht) as (-> & _ & Hs & Hdl).
  destruct (redis_GetSession r1 (us_user_id u) Hup1 Hu) as (r2 & H2 & _). exists r1, r2. split; [done|].
  rewrite H2. do 2 f_equal. rewrite session_in_alive, Hdl, Hs, decide_True by done. cbn.
  case_bool_decide; case_decide; done.
Qed.

(** When the entry of a gateway has reached its deadline, the next heartbeat of the gateway succeeds on Redis
    and makes a new entry with an empty address and no registration time, so users who come online
    there have no address to push to; in memory a gateway that is not there stays unknown, and the
    heartbeat fails. *)
Theorem heartbeat_after_expiry (r : R) (m : MemoryImpl) now g c dl : redis_store_up r → redis_gate_ok g →
  int32_range c → int64_range now →
  redis_deadline r (gate_key g) = Some dl → dl < redis_clock r →
  (∃ r' n, UpdateGateHeartbeat now g c r = (Ret true, r') ∧ node_in (redis_data r') g = Some n ∧
     gn_address n = "" ∧ gn_registered_at n = 0 ∧ gn_last_heartbeat n = now) ∧
  (mi_gates m !! g = None → UpdateGateHeartbeat now g c m = (Ret false, m)).
Proof.
  intros Hup Hok Hc Hnow Hdl Hover. split.
  - destruct (redis_UpdateGateHeartbeat r now g c Hup Hok Hc Hnow) as (b & r' & Hrun & _ & _ & Hlate).
    destruct (Hlate dl Hdl Hover) as [-> Hn]. exists r'. eexists. by split_and!.
  - intros Hnone. cbn. unfold Memory.UpdateGateHeartbeat. by rewrite Hnone.
Qed.
End Agreement.

(** * Concrete runs *)

Definition memory_empty : MemoryImpl := {| mi_sessions := ∅; mi_gates := ∅ |}.
Lemma empty_agrees : agrees redis_empty memory_empty.
Proof.
  split_and!; [exact redis_empty_up|..]; intros k Hk; cbn; unfold session_in, node_in, hash_at;
    cbn; by rewrite !lookup_empty.
Qed.
Definition node0 : GateNode :=
  {| gn_gate_id := "g1"; gn_address := "10.0.0.1:9091"; gn_current_connections := 0;
     gn_registered_at := 1700000000000; gn_last_heartbeat := 1700000000000 |}.
Definition session0 : UserSession :=
  {| us_user_id := "u_1"; us_gate_id := "g1"; us_gate_addr := "10.0.0.1:9091"; us_device_type := "ios";
     us_device_id := "d"; us_online_at := 1700000000000; us_last_active_at := 1700000000000 |}.
Definition ops0 : list store_op :=
  [ORegisterGate node0; OSetOnline session0; OUpdateGateHeartbeat 1700000030 "g1" 1; OGetSession "u_1";
   OIsOnline "u_1"; OGetSessions ["u_0"; "u_1"]; OGetGate "g1"; OSetOffline "u_1"; OGetSession "u_1"].


Fixpoint check_in_time (r : MemRedis) (ops : list store_op) : bool :=
  match ops with
  | [] => true
  | op :: ops => let r' := snd (run_op op r) in
      bool_decide (mr_clock r' ≤ mr_clock r + 1000 * kGateExpireSeconds) &&
      bool_decide (map_Forall (λ _ dl, mr_clock r' ≤ dl) (mr_deadline r)) && check_in_time r' ops
  end.
Lemma check_in_time_ok r ops : check_in_time r ops = true → ops_in_time r ops.
Proof.
  revert r. induction ops as [|op ops IH]; intros r; cbn [check_in_time ops_in_time]; [done|].
  rewrite !andb_true_iff, !bool_decide_eq_true. intros [[Hc Hd] Hops]. split; [|by apply IH]. by split.
Qed.

Lemma redis_store_equiv_memory_witness : fst (run_ops ops0 redis_empty) = fst (run_ops ops0 memory_empty) ∧
  fst (run_ops ops0 redis_empty) = Ret [ABool true; ABool true; ABool true; ASession (Some session0);
    ABool true; ASessions [session0]; ANode (Some (set_heartbeat 1 1700000030 node0)); ABool true; ASession None].
Proof.
  assert (ops_ok memory_empty ops0) as Hok.
  { cbn. unfold redis_node_ok, redis_session_ok, redis_gate_ok, int64_range, int32_range. cbn.
    split_and!; try done; try lia; try (by eexists). by repeat constructor. }
  assert (fst (run_ops ops0 memory_empty) = Ret [ABool true; ABool true; ABool true; ASession (Some session0);
    ABool true; ASessions [session0]; ANode (Some (set_heartbeat 1 1700000030 node0)); ABool true; ASession None]) as Hmem by eval_eq.
  assert (ops_in_time redis_empty ops0) as Htime by (apply check_in_time_ok; eval_eq).
  pose proof (redis_store_equiv_memory redis_empty memory_empty ops0 empty_agrees Hok Htime) as (r' & Hrun & _).
  pose proof (f_equal fst Hrun) as Hfst. cbn [fst] in Hfst. exact (conj Hfst (eq_trans Hfst Hmem)).
Defined.

(** A gateway whose entry has run out a minute after it registered. *)
Definition redis_stale : MemRedis :=
  let r := snd (run_op (ORegisterGate node0) redis_empty) in
  {| mr_ok := true; mr_clock := mr_clock r + 61000; mr_tick := 1000; mr_data := mr_data r; mr_deadline := mr_deadline r |}.
Lemma redis_stale_up : redis_store_up redis_stale.
Proof.
  destruct (redis_RegisterGate redis_empty node0 redis_empty_up) as (b & r' & Hrun & [_ Hwf] & _).
  - unfold redis_node_ok, redis_gate_ok, int64_range, int32_range. cbn. split_and!; done || lia.
  - split; [done|]. unfold redis_stale. cbn [run_op]. cbn [RegisterGate RedisSessionStore].
    rewrite (bind_run _ _ _ _ _ Hrun). exact Hwf.
Qed.
Lemma heartbeat_after_expiry_witness :
  ∃ n, node_in (redis_data (snd (UpdateGateHeartbeat 1700000061 "g1" 3 redis_stale))) "g1" = Some n ∧
    gn_address n = "".
Proof.
  pose proof (heartbeat_after_expiry redis_stale memory_empty 1700000061 "g1" 3 1700000062000 redis_stale_up
    ltac:(done) ltac:(unfold int32_range; lia) ltac:(unfold int64_range; lia) ltac:(eval_eq) ltac:(vm_compute; reflexivity))
    as [(r' & n & Hrun & Hn & Ha & _) _].
  exists n. rewrite Hrun. exact (conj Hn Ha).
Defined.
Lemma session_lasts_an_hour_witness : ∃ r1 r2, SetOnline session0 redis_empty = (Ret true, r1) ∧
  GetSession "u_1" r1 = (Ret (Some session0), r2).
Proof.
  destruct (session_lasts_an_hour redis_empty session0 redis_empty_up) as (r1 & r2 & H1 & H2).
  - unfold redis_session_ok, int64_range. cbn. split_and!; done || lia.
  - assert (ops_in_time redis_empty [OSetOnline session0]) as [Ht _] by (apply check_in_time_ok; eval_eq). exact Ht.
  - assert (r1 = snd (SetOnline session0 redis_empty)) as Hr1 by (by rewrite H1).
    assert (r2 = snd (GetSession "u_1" r1)) as Hr2 by (change "u_1" with (us_user_id session0); by rewrite H2).
    exists r1, r2. split; [exact H1|]. rewrite decide_True in H2; [exact H2|].
    rewrite Hr2, Hr1. vm_compute. discriminate.
Defined.
