(* ===== verification/ZoneRpc.v ===== *)
(** [zonesvr/internal/rpc/*_rpc_client.cpp]: the zone server's clients of the other
    services.

    The generated stubs and the network are a class: a call is made with the metadata of
    its context and the fields of the request, and gives the response, or the error
    message of a status that is not ok.  A client's result is [inl] when its
    [success] is true (or it returns true) and [inr] the error otherwise; the pointer
    [stub_] is set as long as a system holds the client, and deadlines are among the
    reasons for a status that is not ok. *)

From S2P Require Import Prelude External Errors Jwt Rpc.
From S2P Require AuthService ChatHandler GroupHandler FriendHandler AuthHandler FileHandler.

Definition grpc (A : Type) : Type := (A + string)%type.
Definition Metadata : Type := string → option string.

(** The profile of a friend or of the sender of a request: nickname, avatar. *)
Definition Profile : Type := (string * string)%type.

Class Stubs (W : Type) : Type := {
  auth_Register : Metadata → string → string → string → string → string → M W (grpc (Response string));
  auth_VerifyCredentials : Metadata → string → string →
    M W (grpc (Response (string * option AuthService.AuthProfile)));
  auth_GetProfile : Metadata → string → M W (grpc AuthService.AuthProfile);
  auth_UpdateProfile : Metadata → string → string → string → string → M W (grpc CommonResponse);
  auth_SearchUsers : Metadata → string → Z → M W (grpc (Response (list AuthService.AuthProfile)));
  online_Login : Metadata → string → string → string → M W (grpc (Response (string * Z)));
  online_Logout : Metadata → string → string → M W (grpc CommonResponse);
  online_ValidateToken : Metadata → string → M W (grpc (Response (string * bool)));
  chat_SendMessage : Metadata → string → string → Z → string → string → string → list string →
    string → string → Z → M W (grpc (Response (string * Z)));
  chat_RecallMessage : Metadata → string → string → M W (grpc CommonResponse);
  chat_PullOffline : Metadata → string → string → Z →
    M W (grpc (Response (list ChatHandler.ChatMessage * string * bool)));
  chat_MarkRead : Metadata → string → string → Z → string → M W (grpc CommonResponse);
  chat_GetHistory : Metadata → string → string → Z → string → Z →
    M W (grpc (Response (list ChatHandler.ChatMessage * bool)));
  chat_SyncConversations : Metadata → string → Z → M W (grpc (Response (list ChatHandler.Conversation)));
  chat_DeleteConversation : Metadata → string → string → Z → M W (grpc CommonResponse);
  friend_AddFriend : Metadata → string → string → string → string → M W (grpc CommonResponse);
  friend_HandleFriendRequest : Metadata → string → string → bool → string → M W (grpc CommonResponse);
  friend_RemoveFriend : Metadata → string → string → M W (grpc CommonResponse);
  friend_GetFriends : Metadata → string → string →
    M W (grpc (Response (list (FriendHandler.FriendInfo * option Profile))));
  friend_GetFriendRequests : Metadata → string → Z →
    M W (grpc (Response (list (FriendHandler.FriendRequest * option Profile))));
  friend_BlockUser : Metadata → string → string → M W (grpc CommonResponse);
  friend_UnblockUser : Metadata → string → string → M W (grpc CommonResponse);
  friend_GetBlockList : Metadata → string → M W (grpc (Response (list string)));
  friend_CreateFriendGroup : Metadata → string → string → M W (grpc CommonResponse);
  friend_GetFriendGroups : Metadata → string → M W (grpc (Response (list FriendHandler.FriendGroup)));
  friend_MoveFriend : Metadata → string → string → string → M W (grpc CommonResponse);
  friend_DeleteFriendGroup : Metadata → string → string → M W (grpc CommonResponse);
  friend_SetRemark : Metadata → string → string → string → M W (grpc CommonResponse);
  group_CreateGroup : Metadata → string → string → string → list string → M W (grpc (Response string));
  group_DismissGroup : Metadata → string → string → M W (grpc CommonResponse);
  group_GetGroupInfo : Metadata → string → M W (grpc (Response (option GroupHandler.GroupInfo)));
  group_GetGroupMembers : Metadata → string → Z → Z →
    M W (grpc (Response (Z * list GroupHandler.GroupMember)));
  group_GetUserGroups : Metadata → string → M W (grpc (Response (list GroupHandler.GroupInfo)));
  group_InviteMembers : Metadata → string → string → list string → M W (grpc CommonResponse);
  group_RemoveMember : Metadata → string → string → string → M W (grpc CommonResponse);
  group_LeaveGroup : Metadata → string → string → M W (grpc CommonResponse);
  group_TransferOwner : Metadata → string → string → string → M W (grpc CommonResponse);
  file_InitUpload : Metadata → string → string → string → Z → string → string →
    M W (grpc (Response (string * Z)));
  file_GetFileUrl : Metadata → string → string → M W (grpc (Response FileHandler.GetFileUrlBody));
  file_GetUploadToken : Metadata → string → string → Z → M W (grpc (Response FileHandler.UploadTokenBody));
  file_DeleteFile : Metadata → string → string → M W (grpc CommonResponse);
  file_GetFileInfo : Metadata → string → M W (grpc (Response (option FileHandler.FileInfo)));
  gate_WaitForConnected : string → M W bool;
  gate_channel_ready : string → M W bool;
  gate_PushMessage : Metadata → string → string → string → string → M W (grpc CommonResponse);
  gate_DisconnectUser : Metadata → string → string → string → M W (grpc CommonResponse) }.

(** [RpcClientBase::CreateContext]: the metadata. *)
Definition CreateContext (token : string) : Metadata := λ key,
  if decide (token ≠ "" ∧ key = "authorization") then Some ("Bearer " +:+ token) else None.
(** The default argument [token = ""]. *)
Definition no_token : Metadata := CreateContext "".

(** The end of every call: the status, the code of the response, and the message with its
    default. *)
Definition answer {A} (failed : string) (r : grpc (Response A)) : A + string :=
  match r with
  | inr error_message => inr error_message
  | inl resp => if decide (rsp_code resp ≠ 0)
                then inr (if decide (rsp_message resp = "") then failed else rsp_message resp)
                else inl (rsp_body resp)
  end.

(** ** Calls to AuthSvr *)

Module AuthRpcClient.
Section Client.
Context {W : Type} `{!Stubs W}.

(** The error comes with its code: -1 when the call failed. *)
Definition Register (username password nickname email avatar_url : string)
    : M W (string + string * Z) :=
  r ← auth_Register no_token username password nickname email avatar_url;
  mret match r with
       | inr error_message => inr (error_message, -1)
       | inl resp => if decide (rsp_code resp ≠ 0)
                     then inr (if decide (rsp_message resp = "") then "register failed"
                               else rsp_message resp, rsp_code resp)
                     else inl (rsp_body resp)
       end.

Definition VerifyCredentials (username password : string) : M W (string + string) :=
  r ← auth_VerifyCredentials no_token username password;
  mret match answer "auth failed" r with inl (user_id, _) => inl user_id | inr e => inr e end.

(** The nickname and the avatar. *)
Definition GetProfile (user_id : string) : M W (string * string + string) :=
  r ← auth_GetProfile no_token user_id;
  mret match r with
       | inl resp => inl (AuthService.ap_nickname resp, AuthService.ap_avatar_url resp)
       | inr e => inr e
       end.

Definition UpdateProfile (user_id nickname avatar_url signature : string) : M W (unit + string) :=
  r ← auth_UpdateProfile no_token user_id nickname avatar_url signature;
  mret (answer "update failed" r).

(** [SearchUserResult] has the members of the profile. *)
Definition SearchUsers (keyword : string) (limit : Z) (token : string)
    : M W (list AuthService.AuthProfile + string) :=
  if decide (keyword = "") then mret (inl []) else
  r ← auth_SearchUsers (CreateContext token) keyword (if decide (0 < limit) then limit else 20);
  mret (answer "search users failed" r).
End Client.
End AuthRpcClient.

(** ** Calls to OnlineSvr *)

Module OnlineRpcClient.
Section Client.
Context {W : Type} `{!Stubs W}.

(** The token and its expiry. *)
Definition Login (user_id device_id device_type : string) : M W (string * Z + string) :=
  r ← online_Login no_token user_id device_id device_type;
  mret (answer "login failed" r).

(** The error is the message of the response, even when it is empty. *)
Definition Logout (user_id token : string) : M W (unit + string) :=
  r ← online_Logout no_token user_id token;
  mret match r with
       | inr error_message => inr error_message
       | inl resp => if decide (rsp_code resp = 0) then inl tt else inr (rsp_message resp)
       end.

(** The user, when the token is valid. *)
Definition ValidateToken (token : string) : M W (option string) :=
  r ← online_ValidateToken no_token token;
  mret match r with
       | inr _ => None
       | inl resp => let '(user_id, valid) := rsp_body resp in
                     if decide (rsp_code resp ≠ 0) then None
                     else if negb valid then None else Some user_id
       end.
End Client.
End OnlineRpcClient.

(** ** Calls to ChatSvr *)

Module ChatRpcClient.
Section Client.
Context {W : Type} `{!Stubs W}.

(** [ChatMessageResult] *)
Record ChatMessageResult : Type := {
  mr_msg_id : string; mr_from_user_id : string; mr_to_id : string; mr_chat_type : Z;
  mr_content : string; mr_media_url : string; mr_media_type : string; mr_timestamp : Z;
  mr_status : Z }.
Definition FromProto (m : ChatHandler.ChatMessage) : ChatMessageResult :=
  {| mr_msg_id := ChatHandler.cm_msg_id m; mr_from_user_id := ChatHandler.cm_from_user_id m;
     mr_to_id := ChatHandler.cm_to_id m; mr_chat_type := ChatHandler.cm_chat_type m;
     mr_content := ChatHandler.cm_content m; mr_media_url := ChatHandler.cm_media_url m;
     mr_media_type := ChatHandler.cm_media_type m; mr_timestamp := ChatHandler.cm_timestamp m;
     mr_status := ChatHandler.cm_status m |}.
(** [ConversationResult] *)
Record ConversationResult : Type := {
  cr_chat_id : string; cr_chat_type : Z; cr_peer_id : string; cr_peer_name : string;
  cr_peer_avatar : string; cr_unread_count : Z; cr_updated_at : Z; cr_last_msg_id : string;
  cr_last_content : string; cr_last_timestamp : Z }.
Definition conversation_result (c : ChatHandler.Conversation) : ConversationResult :=
  let last {A} (f : ChatHandler.ChatMessage → A) (none : A) : A :=
    match ChatHandler.cv_last_message c with Some m => f m | None => none end in
  {| cr_chat_id := ChatHandler.cv_chat_id c; cr_chat_type := ChatHandler.cv_chat_type c;
     cr_peer_id := ChatHandler.cv_peer_id c; cr_peer_name := ChatHandler.cv_peer_name c;
     cr_peer_avatar := ChatHandler.cv_peer_avatar c; cr_unread_count := ChatHandler.cv_unread_count c;
     cr_updated_at := ChatHandler.cv_updated_at c; cr_last_msg_id := last ChatHandler.cm_msg_id "";
     cr_last_content := last ChatHandler.cm_content ""; cr_last_timestamp := last ChatHandler.cm_timestamp 0 |}.

(** [if (n > 0) req.set_n(n);] *)
Definition if_positive (n : Z) : Z := if decide (0 < n) then n else 0.

(** The id and the time of the message. *)
Definition SendMessage (from_user_id to_id : string) (chat_type : Z) (content media_url media_type : string)
    (mentions : list string) (reply_to_msg_id client_msg_id : string) (file_size : Z) (token : string)
    : M W (string * Z + string) :=
  r ← chat_SendMessage (CreateContext token) from_user_id to_id chat_type content media_url media_type
        mentions reply_to_msg_id client_msg_id (if_positive file_size);
  mret (answer "send failed" r).

Definition RecallMessage (msg_id user_id token : string) : M W (unit + string) :=
  r ← chat_RecallMessage (CreateContext token) msg_id user_id; mret (answer "recall failed" r).

Definition PullOffline (user_id : string) (limit : Z) (cursor token : string)
    : M W (list ChatMessageResult * string * bool + string) :=
  r ← chat_PullOffline (CreateContext token) user_id cursor (if_positive limit);
  mret match answer "pull failed" r with
       | inl (messages, next_cursor, has_more) => inl (FromProto <$> messages, next_cursor, has_more)
       | inr e => inr e
       end.

Definition GetHistory (user_id chat_id : string) (chat_type : Z) (before_msg_id : string) (limit : Z)
    (token : string) : M W (list ChatMessageResult * bool + string) :=
  r ← chat_GetHistory (CreateContext token) user_id chat_id chat_type before_msg_id (if_positive limit);
  mret match answer "get history failed" r with
       | inl (messages, has_more) => inl (FromProto <$> messages, has_more)
       | inr e => inr e
       end.

Definition SyncConversations (user_id : string) (last_sync_time : Z) (token : string)
    : M W (list ConversationResult + string) :=
  r ← chat_SyncConversations (CreateContext token) user_id (if_positive last_sync_time);
  mret match answer "sync conversations failed" r with
       | inl conversations => inl (conversation_result <$> conversations)
       | inr e => inr e
       end.

Definition DeleteConversation (user_id chat_id : string) (chat_type : Z) (token : string)
    : M W (unit + string) :=
  r ← chat_DeleteConversation (CreateContext token) user_id chat_id chat_type;
  mret (answer "delete conversation failed" r).

Definition MarkRead (user_id chat_id : string) (chat_type : Z) (last_msg_id token : string)
    : M W (unit + string) :=
  r ← chat_MarkRead (CreateContext token) user_id chat_id chat_type last_msg_id;
  mret (answer "mark read failed" r).
End Client.
End ChatRpcClient.

(** ** Calls to FriendSvr *)

Module FriendRpcClient.
Section Client.
Context {W : Type} `{!Stubs W}.

(** [FriendInfoResult], [FriendRequestInfoResult], [FriendGroupResult] *)
Record FriendInfoResult : Type := {
  fir_friend_id : string; fir_remark : string; fir_group_id : string; fir_nickname : string;
  fir_avatar_url : string; fir_added_at : Z }.
Record FriendRequestInfoResult : Type := {
  rir_request_id : string; rir_from_user_id : string; rir_to_user_id : string; rir_remark : string;
  rir_status : Z; rir_created_at : Z; rir_from_nickname : string; rir_from_avatar_url : string }.
Record FriendGroupResult : Type := {
  grr_group_id : string; grr_group_name : string; grr_friend_count : Z; grr_sort_order : Z }.

Definition AddFriend (user_id friend_id remark group_id token : string) : M W (unit + string) :=
  r ← friend_AddFriend (CreateContext token) user_id friend_id remark group_id;
  mret (answer "add friend failed" r).

Definition HandleFriendRequest (user_id request_id : string) (accept : bool) (group_id token : string)
    : M W (unit + string) :=
  r ← friend_HandleFriendRequest (CreateContext token) user_id request_id accept group_id;
  mret (answer "handle request failed" r).

Definition RemoveFriend (user_id friend_id token : string) : M W (unit + string) :=
  r ← friend_RemoveFriend (CreateContext token) user_id friend_id;
  mret (answer "remove friend failed" r).

Definition GetFriends (user_id group_id token : string) : M W (list FriendInfoResult + string) :=
  r ← friend_GetFriends (CreateContext token) user_id group_id;
  mret match answer "get friends failed" r with
       | inl friends => inl ((λ '(f, profile),
           {| fir_friend_id := FriendHandler.fi_friend_id f; fir_remark := FriendHandler.fi_remark f;
              fir_group_id := FriendHandler.fi_group_id f;
              fir_nickname := match profile with Some (n, _) => n | None => "" end;
              fir_avatar_url := match profile with Some (_, a) => a | None => "" end;
              fir_added_at := FriendHandler.fi_added_at f |}) <$> friends)
       | inr e => inr e
       end.

Definition GetFriendRequests (user_id : string) (type : Z) (token : string)
    : M W (list FriendRequestInfoResult + string) :=
  r ← friend_GetFriendRequests (CreateContext token) user_id (if decide (0 ≤ type) then type else 0);
  mret match answer "get friend requests failed" r with
       | inl requests => inl ((λ '(q, profile),
           {| rir_request_id := FriendHandler.frq_request_id q;
              rir_from_user_id := FriendHandler.frq_from_user_id q;
              rir_to_user_id := FriendHandler.frq_to_user_id q;
              rir_remark := FriendHandler.frq_remark q; rir_status := FriendHandler.frq_status q;
              rir_created_at := FriendHandler.frq_created_at q;
              rir_from_nickname := match profile with Some (n, _) => n | None => "" end;
              rir_from_avatar_url := match profile with Some (_, a) => a | None => "" end |}) <$> requests)
       | inr e => inr e
       end.

Definition BlockUser (user_id target_id token : string) : M W (unit + string) :=
  r ← friend_BlockUser (CreateContext token) user_id target_id; mret (answer "block failed" r).

Definition UnblockUser (user_id target_id token : string) : M W (unit + string) :=
  r ← friend_UnblockUser (CreateContext token) user_id target_id; mret (answer "unblock failed" r).

Definition GetBlockList (user_id token : string) : M W (list string + string) :=
  r ← friend_GetBlockList (CreateContext token) user_id; mret (answer "get block list failed" r).

Definition CreateFriendGroup (user_id group_name token : string) : M W (unit + string) :=
  r ← friend_CreateFriendGroup (CreateContext token) user_id group_name;
  mret (answer "create friend group failed" r).

Definition GetFriendGroups (user_id token : string) : M W (list FriendGroupResult + string) :=
  r ← friend_GetFriendGroups (CreateContext token) user_id;
  mret match answer "get friend groups failed" r with
       | inl groups => inl ((λ g,
           {| grr_group_id := FriendHandler.fgr_group_id g;
              grr_group_name := FriendHandler.fgr_group_name g;
              grr_friend_count := FriendHandler.fgr_friend_count g;
              grr_sort_order := FriendHandler.fgr_sort_order g |}) <$> groups)
       | inr e => inr e
       end.

Definition MoveFriendToGroup (user_id friend_id group_id token : string) : M W (unit + string) :=
  r ← friend_MoveFriend (CreateContext token) user_id friend_id group_id;
  mret (answer "move friend to group failed" r).

Definition DeleteFriendGroup (user_id group_id token : string) : M W (unit + string) :=
  r ← friend_DeleteFriendGroup (CreateContext token) user_id group_id;
  mret (answer "delete friend group failed" r).

Definition SetRemark (user_id friend_id remark token : string) : M W (unit + string) :=
  r ← friend_SetRemark (CreateContext token) user_id friend_id remark;
  mret (answer "set remark failed" r).
End Client.
End FriendRpcClient.

(** ** Calls to the group service of ChatSvr *)

Module GroupRpcClient.
Section Client.
Context {W : Type} `{!Stubs W}.

(** [GroupInfoResult], [GroupMemberResult] *)
Record GroupInfoResult : Type := {
  gir_group_id : string; gir_group_name : string; gir_avatar_url : string; gir_owner_id : string;
  gir_member_count : Z; gir_announcement : string; gir_created_at : Z }.
Record GroupMemberResult : Type := {
  gmr_user_id : string; gmr_role : Z; gmr_nickname : string; gmr_joined_at : Z }.
Definition group_info_result (g : GroupHandler.GroupInfo) : GroupInfoResult :=
  {| gir_group_id := GroupHandler.gi_group_id g; gir_group_name := GroupHandler.gi_group_name g;
     gir_avatar_url := GroupHandler.gi_avatar_url g; gir_owner_id := GroupHandler.gi_owner_id g;
     gir_member_count := GroupHandler.gi_member_count g;
     gir_announcement := GroupHandler.gi_announcement g; gir_created_at := GroupHandler.gi_created_at g |}.
Definition no_group_info : GroupInfoResult :=
  {| gir_group_id := ""; gir_group_name := ""; gir_avatar_url := ""; gir_owner_id := "";
     gir_member_count := 0; gir_announcement := ""; gir_created_at := 0 |}.

(** No call of this client carries a token. *)
Definition CreateGroup (creator_id group_name avatar_url : string) (member_ids : list string)
    : M W (string + string) :=
  r ← group_CreateGroup no_token creator_id group_name avatar_url member_ids;
  mret (answer "create group failed" r).

Definition DismissGroup (group_id operator_id : string) : M W (unit + string) :=
  r ← group_DismissGroup no_token group_id operator_id; mret (answer "dismiss failed" r).

Definition GetGroupInfo (group_id : string) : M W (GroupInfoResult + string) :=
  r ← group_GetGroupInfo no_token group_id;
  mret match answer "get group info failed" r with
       | inl g => inl (match g with Some g => group_info_result g | None => no_group_info end)
       | inr e => inr e
       end.

(** The members and the total. *)
Definition GetGroupMembers (group_id : string) (page page_size : Z)
    : M W (list GroupMemberResult * Z + string) :=
  r ← group_GetGroupMembers no_token group_id (if decide (0 < page) then page else 0)
        (if decide (0 < page_size) then page_size else 0);
  mret match answer "get members failed" r with
       | inl (total, members) => inl ((λ m,
           {| gmr_user_id := GroupHandler.gme_user_id m; gmr_role := GroupHandler.gme_role m;
              gmr_nickname := GroupHandler.gme_nickname m;
              gmr_joined_at := GroupHandler.gme_joined_at m |}) <$> members, total)
       | inr e => inr e
       end.

Definition GetUserGroups (user_id : string) : M W (list GroupInfoResult + string) :=
  r ← group_GetUserGroups no_token user_id;
  mret match answer "get user groups failed" r with
       | inl groups => inl (group_info_result <$> groups)
       | inr e => inr e
       end.

Definition InviteMembers (group_id inviter_id : string) (member_ids : list string) : M W (unit + string) :=
  r ← group_InviteMembers no_token group_id inviter_id member_ids; mret (answer "invite failed" r).

Definition RemoveMember (group_id operator_id member_id : string) : M W (unit + string) :=
  r ← group_RemoveMember no_token group_id operator_id member_id;
  mret (answer "remove member failed" r).

Definition LeaveGroup (group_id user_id : string) : M W (unit + string) :=
  r ← group_LeaveGroup no_token group_id user_id; mret (answer "leave failed" r).

Definition TransferOwner (group_id old_owner_id new_owner_id : string) : M W (unit + string) :=
  r ← group_TransferOwner no_token group_id old_owner_id new_owner_id;
  mret (answer "transfer owner failed" r).
End Client.
End GroupRpcClient.

(** ** Calls to FileSvr *)

Module FileRpcClient.
Section Client.
Context {W : Type} `{!Stubs W}.

(** No call of this client carries a token.  The upload id and its expiry. *)
Definition InitUpload (user_id file_name content_type : string) (file_size : Z) (md5 msg_id : string)
    : M W (string * Z + string) :=
  r ← file_InitUpload no_token user_id file_name content_type file_size md5 msg_id;
  mret (answer "init upload failed" r).

Definition GetFileUrl (file_id user_id : string) : M W (FileHandler.GetFileUrlBody + string) :=
  r ← file_GetFileUrl no_token file_id user_id; mret (answer "get file url failed" r).

Definition GetUploadToken (user_id file_name : string) (file_size : Z)
    : M W (FileHandler.UploadTokenBody + string) :=
  r ← file_GetUploadToken no_token user_id file_name file_size;
  mret (answer "get upload token failed" r).

Definition DeleteFile (file_id user_id : string) : M W (unit + string) :=
  r ← file_DeleteFile no_token file_id user_id; mret (answer "delete file failed" r).

Definition no_file_info : FileHandler.FileInfo :=
  {| FileHandler.fin_file_id := ""; FileHandler.fin_file_name := ""; FileHandler.fin_file_size := 0;
     FileHandler.fin_content_type := ""; FileHandler.fin_uploader_id := "";
     FileHandler.fin_uploaded_at := 0; FileHandler.fin_md5 := "" |}.
Definition GetFileInfo (file_id : string) : M W (FileHandler.FileInfo + string) :=
  r ← file_GetFileInfo no_token file_id;
  mret match answer "get file info failed" r with
       | inl info => inl (default no_file_info info)
       | inr e => inr e
       end.
End Client.
End FileRpcClient.

(** ** Calls to the gateways *)

Module GateRpcClient.
Section Client.
Context {W : Type} `{!Stubs W}.

(** A client is the address it was connected to ([None] after [Disconnect]). *)
Definition IsConnected (channel : option string) : M W bool :=
  match channel with None => mret false | Some address => gate_channel_ready address end.

Definition PushMessage (address user_id cmd payload : string) : M W (unit + string) :=
  r ← gate_PushMessage no_token address user_id cmd payload; mret (answer "push failed" r).

Definition DisconnectUser (address user_id reason : string) : M W (unit + string) :=
  r ← gate_DisconnectUser no_token address user_id reason; mret (answer "disconnect failed" r).
End Client.
End GateRpcClient.
