(* ===== verification/ZoneSystems.v ===== *)
(** [zonesvr/internal/system/*_system.cpp]: the five systems of the zone server, which
    forward to the clients of [ZoneRpc].  A system is its pointer [rpc_client_]: a bool
    that says whether it is set. *)

From S2P Require Import Prelude External Errors Rpc ZoneRpc.
From S2P Require AuthService FileHandler.

(** [AuthSystem]: two clients. *)
Record AuthSystemState : Type := { auth_rpc_client : bool; online_rpc_client : bool }.

(** [class SystemManager]: the systems between [Init] and [Shutdown]. *)
Record SystemManager : Type := {
  auth_system : option AuthSystemState; chat_system : option bool; friend_system : option bool;
  group_system : option bool; file_system : option bool }.
Definition systems_ready : SystemManager :=
  {| auth_system := Some {| auth_rpc_client := true; online_rpc_client := true |};
     chat_system := Some true; friend_system := Some true; group_system := Some true;
     file_system := Some true |}.

(** [if (!rpc_client_) { out_error = error; return false; } return rpc_client_->call;] *)
Definition with_client {W A} (rpc_client : bool) (error : string) (call : M W (A + string)) : M W (A + string) :=
  if negb rpc_client then mret (inr error) else call.

Module AuthSystem.
Section AuthSystem.
Context {W : Type} `{!Stubs W}.
Variable sys : AuthSystemState.

(** The user id, or the error and its code. *)
Definition Register (username password nickname email avatar_url : string) : M W (string + string * Z) :=
  if negb (auth_rpc_client sys) then mret (inr ("auth not configured", 0)) else
  AuthRpcClient.Register username password nickname email avatar_url.

(** [AuthLoginResult]: the user id, the token and its expiry. *)
Definition Login (username password device_id device_type : string) : M W (string * string * Z + string) :=
  if negb (auth_rpc_client sys) || negb (online_rpc_client sys) then mret (inr "auth not configured") else
  v ← AuthRpcClient.VerifyCredentials username password;
  match v with
  | inr error => mret (inr error)
  | inl user_id =>
      login ← OnlineRpcClient.Login user_id device_id device_type;
      mret match login with
           | inr error => inr error
           | inl (token, expire_at) => inl (user_id, token, expire_at)
           end
  end.

Definition Logout (user_id token : string) : M W (unit + string) :=
  with_client (online_rpc_client sys) "auth not configured" (OnlineRpcClient.Logout user_id token).

Definition ValidateToken (token : string) : M W string :=
  if negb (online_rpc_client sys) then mret "" else
  r ← OnlineRpcClient.ValidateToken token; mret (default "" r).

Definition SearchUsers (keyword : string) (limit : Z) (token : string)
    : M W (list AuthService.AuthProfile + string) :=
  with_client (auth_rpc_client sys) "auth not configured" (AuthRpcClient.SearchUsers keyword limit token).
End AuthSystem.
End AuthSystem.

Module ChatSystem.
Section ChatSystem.
Context {W : Type} `{!Stubs W}.
Variable rpc_client : bool.
Notation available := (with_client rpc_client "ChatSystem not available").

Definition SendMessage (from_user_id to_id : string) (chat_type : Z) (content media_url media_type : string)
    (mentions : list string) (reply_to_msg_id client_msg_id : string) (file_size : Z) (token : string)
    : M W (string * Z + string) :=
  with_client rpc_client "" (ChatRpcClient.SendMessage from_user_id to_id chat_type content media_url
    media_type mentions reply_to_msg_id client_msg_id file_size token).

(** [OfflineMessage] is the result of the client without its status. *)
Definition PullOffline (user_id : string) (limit : Z) (cursor token : string)
    : M W (list ChatRpcClient.ChatMessageResult * string * bool + string) :=
  available (ChatRpcClient.PullOffline user_id limit cursor token).

Definition RecallMessage (msg_id user_id token : string) : M W (unit + string) :=
  available (ChatRpcClient.RecallMessage msg_id user_id token).

Definition MarkRead (user_id chat_id : string) (chat_type : Z) (last_msg_id token : string)
    : M W (unit + string) :=
  available (ChatRpcClient.MarkRead user_id chat_id chat_type last_msg_id token).

Definition GetHistory (user_id chat_id : string) (chat_type : Z) (before_msg_id : string) (limit : Z)
    (token : string) : M W (list ChatRpcClient.ChatMessageResult * bool + string) :=
  available (ChatRpcClient.GetHistory user_id chat_id chat_type before_msg_id limit token).

Definition SyncConversations (user_id : string) (last_sync_time : Z) (token : string)
    : M W (list ChatRpcClient.ConversationResult + string) :=
  available (ChatRpcClient.SyncConversations user_id last_sync_time token).

Definition DeleteConversation (user_id chat_id : string) (chat_type : Z) (token : string)
    : M W (unit + string) :=
  available (ChatRpcClient.DeleteConversation user_id chat_id chat_type token).
End ChatSystem.
End ChatSystem.

Module FriendSystem.
Section FriendSystem.
Context {W : Type} `{!Stubs W}.
Variable rpc_client : bool.
Notation available := (with_client rpc_client "FriendSystem not available").

(** [std::string err; return rpc_client_->call(..., &err, ...);] *)
Definition succeeded (call : M W (unit + string)) : M W bool :=
  if negb rpc_client then mret false else
  r ← call; mret (match r with inl _ => true | inr _ => false end).

Definition AddFriend (user_id friend_id remark token : string) : M W bool :=
  succeeded (FriendRpcClient.AddFriend user_id friend_id remark "" token).
Definition HandleFriendRequest (user_id request_id : string) (accept : bool) (token : string) : M W bool :=
  succeeded (FriendRpcClient.HandleFriendRequest user_id request_id accept "" token).
Definition RemoveFriend (user_id friend_id token : string) : M W bool :=
  succeeded (FriendRpcClient.RemoveFriend user_id friend_id token).
Definition BlockUser (user_id target_id token : string) : M W bool :=
  succeeded (FriendRpcClient.BlockUser user_id target_id token).
Definition UnblockUser (user_id target_id token : string) : M W bool :=
  succeeded (FriendRpcClient.UnblockUser user_id target_id token).

Definition GetFriends (user_id group_id token : string) : M W (list FriendRpcClient.FriendInfoResult + string) :=
  available (FriendRpcClient.GetFriends user_id group_id token).
Definition GetFriendRequests (user_id : string) (type : Z) (token : string)
    : M W (list FriendRpcClient.FriendRequestInfoResult + string) :=
  available (FriendRpcClient.GetFriendRequests user_id type token).
Definition GetBlockList (user_id token : string) : M W (list string + string) :=
  available (FriendRpcClient.GetBlockList user_id token).
Definition CreateFriendGroup (user_id group_name token : string) : M W (unit + string) :=
  available (FriendRpcClient.CreateFriendGroup user_id group_name token).
Definition GetFriendGroups (user_id token : string) : M W (list FriendRpcClient.FriendGroupResult + string) :=
  available (FriendRpcClient.GetFriendGroups user_id token).
Definition MoveFriendToGroup (user_id friend_id group_id token : string) : M W (unit + string) :=
  available (FriendRpcClient.MoveFriendToGroup user_id friend_id group_id token).
Definition DeleteFriendGroup (user_id group_id token : string) : M W (unit + string) :=
  available (FriendRpcClient.DeleteFriendGroup user_id group_id token).
Definition SetRemark (user_id friend_id remark token : string) : M W (unit + string) :=
  available (FriendRpcClient.SetRemark user_id friend_id remark token).

(** Both ask without a token. *)
Definition IsFriend (user_id friend_id : string) : M W bool :=
  if negb rpc_client || bool_decide (friend_id = "") then mret false else
  r ← FriendRpcClient.GetFriends user_id "" "";
  mret match r with
       | inr _ => false
       | inl friends => bool_decide (friend_id ∈ FriendRpcClient.fir_friend_id <$> friends)
       end.
Definition IsBlocked (user_id target_id : string) : M W bool :=
  if negb rpc_client || bool_decide (target_id = "") then mret false else
  r ← FriendRpcClient.GetBlockList user_id "";
  mret match r with inr _ => false | inl blocked_ids => bool_decide (target_id ∈ blocked_ids) end.
End FriendSystem.
End FriendSystem.

Module GroupSystem.
Section GroupSystem.
Context {W : Type} `{!Stubs W}.
Variable rpc_client : bool.
Notation available := (with_client rpc_client "GroupSystem not available").
Notation succeeded := (FriendSystem.succeeded rpc_client).

(** The group id, empty when it failed. *)
Definition CreateGroup (creator_id group_name : string) (member_ids : list string) : M W string :=
  if negb rpc_client then mret "" else
  r ← GroupRpcClient.CreateGroup creator_id group_name "" member_ids;
  mret (match r with inl group_id => group_id | inr _ => "" end).
Definition DismissGroup (group_id operator_id : string) : M W bool :=
  succeeded (GroupRpcClient.DismissGroup group_id operator_id).
Definition InviteMembers (group_id inviter_id : string) (member_ids : list string) : M W bool :=
  succeeded (GroupRpcClient.InviteMembers group_id inviter_id member_ids).
Definition RemoveMember (group_id operator_id member_id : string) : M W bool :=
  succeeded (GroupRpcClient.RemoveMember group_id operator_id member_id).
Definition LeaveGroup (group_id user_id : string) : M W bool :=
  succeeded (GroupRpcClient.LeaveGroup group_id user_id).
Definition TransferOwner (group_id old_owner_id new_owner_id : string) : M W bool :=
  succeeded (GroupRpcClient.TransferOwner group_id old_owner_id new_owner_id).
Definition GetGroupMembers (group_id : string) (page page_size : Z)
    : M W (list GroupRpcClient.GroupMemberResult * Z + string) :=
  available (GroupRpcClient.GetGroupMembers group_id page page_size).
Definition GetGroupInfo (group_id : string) : M W (GroupRpcClient.GroupInfoResult + string) :=
  available (GroupRpcClient.GetGroupInfo group_id).
Definition GetUserGroups (user_id : string) : M W (list GroupRpcClient.GroupInfoResult + string) :=
  available (GroupRpcClient.GetUserGroups user_id).
End GroupSystem.
End GroupSystem.

Module FileSystem.
Section FileSystem.
Context {W : Type} `{!Stubs W}.
Variable rpc_client : bool.

Definition InitUpload (user_id file_name content_type : string) (file_size : Z) (md5 msg_id : string)
    : M W (string * Z + string) :=
  with_client rpc_client "" (FileRpcClient.InitUpload user_id file_name content_type file_size md5 msg_id).

(** [UploadToken], [FileUrl]: on failure the numbers keep whatever was in memory, [uninit]. *)
Definition GetUploadToken (uninit : Z) (user_id file_name : string) (file_size : Z)
    : M W FileHandler.UploadTokenBody :=
  r ← with_client rpc_client "" (FileRpcClient.GetUploadToken user_id file_name file_size);
  mret match r with
       | inl t => t
       | inr _ => {| FileHandler.utb_upload_token := ""; FileHandler.utb_upload_url := "";
                     FileHandler.utb_expire_at := uninit |}
       end.
Definition GetFileUrl (uninit : Z) (file_id user_id : string) : M W FileHandler.GetFileUrlBody :=
  r ← with_client rpc_client "" (FileRpcClient.GetFileUrl file_id user_id);
  mret match r with
       | inl u => u
       | inr _ => {| FileHandler.gfb_file_url := ""; FileHandler.gfb_file_name := "";
                     FileHandler.gfb_file_size := uninit; FileHandler.gfb_content_type := "";
                     FileHandler.gfb_expire_at := uninit |}
       end.

Definition GetFileInfo (file_id : string) : M W (FileHandler.FileInfo + string) :=
  with_client rpc_client "" (FileRpcClient.GetFileInfo file_id).

Definition DeleteFile (file_id user_id : string) : M W bool :=
  FriendSystem.succeeded rpc_client (FileRpcClient.DeleteFile file_id user_id).
End FileSystem.
End FileSystem.
