(* ===== verification/ZoneService.v ===== *)
(** [zonesvr/internal/service/zone_service.{h,cpp}]: the zone server, which knows who is
    online at which gateway, pushes to users through their gateways, and hands the
    clients' commands to the systems. *)

From Stdlib Require Import Ascii.
From S2P Require Import Prelude External Errors Utils Rpc Proto ZonePayloads ZoneStore ZoneRpc ZoneSystems.
From S2P Require AuthService FileHandler.

(** [ZoneServiceImpl]: the session store, the clients of the gateways by address (the flag:
    the client's channel is not reset), and what is beyond the network. *)
Record Zone (SS W : Type) : Type := {
  z_store : SS; z_gate_clients : gmap string bool; z_net : W }.
Arguments Build_Zone {SS W}. Arguments z_store {SS W}. Arguments z_gate_clients {SS W}.
Arguments z_net {SS W}.

Record RouteResult : Type := {
  rt_delivered : bool; rt_user_online : bool; rt_gate_id : string }.
Record BroadcastResult : Type := { bc_online_count : Z; bc_delivered_count : Z }.
Record HandleClientRequestResult : Type := {
  hr_code : Z; hr_message : string; hr_payload : string; hr_request_id : string }.

(** [SetResultError] on a fresh result; a result with code [OK]. *)
Definition SetResultError (ec : ErrorCode) (request_id : string) : HandleClientRequestResult :=
  {| hr_code := ErrorCodeToInt ec; hr_message := ErrorCodeToString ec; hr_payload := "";
     hr_request_id := request_id |}.
Definition result_ok (payload request_id : string) : HandleClientRequestResult :=
  {| hr_code := ErrorCodeToInt OK; hr_message := ""; hr_payload := payload;
     hr_request_id := request_id |}.
Definition NotImplemented (cmd request_id : string) : HandleClientRequestResult :=
  SetResultError UNSUPPORTED request_id.

(** [swift::ChatType] *)
Definition PRIVATE : Z := 1.
Definition GROUP : Z := 2.

Section ZoneService.
Context {SS W : Type} `{!SessionStore SS} `{!Stubs W} `{!ProtoBuf}.
Notation Zone := (Zone SS W).
Notation Result := HandleClientRequestResult.

Definition on_store {A} (m : M SS A) : M Zone A :=
  zoom z_store (λ s z, {| z_store := s; z_gate_clients := z_gate_clients z; z_net := z_net z |}) m.
Definition on_net {A} (m : M W A) : M Zone A :=
  zoom z_net (λ w z, {| z_store := z_store z; z_gate_clients := z_gate_clients z; z_net := w |}) m.
Definition set_client (gate_addr : string) (alive : bool) : M Zone unit := λ z,
  (Ret tt, {| z_store := z_store z; z_gate_clients := <[gate_addr := alive]> (z_gate_clients z);
              z_net := z_net z |}).

(** * Users and gateways *)

(** [now] is the reading of the clock, in milliseconds. *)
Definition UserOnline (now : Z) (user_id gate_id device_type device_id : string) : M Zone bool :=
  gate ← on_store (GetGate gate_id);
  match gate with
  | None => mret false
  | Some gate =>
      on_store (SetOnline
        {| us_user_id := user_id; us_gate_id := gate_id; us_gate_addr := gn_address gate;
           us_device_type := device_type; us_device_id := device_id; us_online_at := now;
           us_last_active_at := now |})
  end.

Definition UserOffline (user_id gate_id : string) : M Zone bool := on_store (SetOffline user_id).
Definition GetUserSession (user_id : string) : M Zone (option UserSession) :=
  on_store (GetSession user_id).
Definition GetUserStatuses (user_ids : list string) : M Zone (list UserSession) :=
  on_store (GetSessions user_ids).

Definition RegisterGate (now : Z) (gate_id address : string) : M Zone bool :=
  on_store (ZoneStore.RegisterGate
    {| gn_gate_id := gate_id; gn_address := address; gn_current_connections := 0;
       gn_registered_at := now; gn_last_heartbeat := now |}).
(** The store reads the clock, in seconds. *)
Definition GateHeartbeat (now_seconds : Z) (gate_id : string) (connections : Z) : M Zone bool :=
  on_store (UpdateGateHeartbeat now_seconds gate_id connections).
Definition KickUser (user_id reason : string) : M Zone bool := on_store (SetOffline user_id).

(** * Pushing *)

(** True when there is a client to push through. *)
Definition GetOrCreateGateClient (gate_addr : string) : M Zone bool :=
  if decide (gate_addr = "") then mret false else
  it ← reads (λ z, z_gate_clients z !! gate_addr);
  reuse ← match it with
          | Some alive =>
              connected ← on_net (GateRpcClient.IsConnected (if (alive : bool) then Some gate_addr else None));
              if (connected : bool) then mret true
              else _ ← set_client gate_addr false; mret false
          | None => mret false
          end;
  if (reuse : bool) then mret true else
  connected ← on_net (gate_WaitForConnected gate_addr);
  if negb connected then mret false else
  _ ← set_client gate_addr true; mret true.

Definition PushToGate (gate_addr user_id cmd payload : string) : M Zone bool :=
  client ← GetOrCreateGateClient gate_addr;
  if negb client then mret false else
  r ← on_net (GateRpcClient.PushMessage gate_addr user_id cmd payload);
  mret (match r with inl _ => true | inr _ => false end).

Definition RouteToUser (user_id cmd payload : string) : M Zone RouteResult :=
  opt ← on_store (GetSession user_id);
  match opt with
  | None => mret {| rt_delivered := false; rt_user_online := false; rt_gate_id := "" |}
  | Some s =>
      delivered ← PushToGate (us_gate_addr s) user_id cmd payload;
      mret {| rt_delivered := delivered; rt_user_online := true; rt_gate_id := us_gate_id s |}
  end.

(** The loop of [Broadcast]: the number of deliveries. *)
Fixpoint broadcast_loop (sessions : list UserSession) (cmd payload : string) : M Zone Z :=
  match sessions with
  | [] => mret 0
  | s :: sessions =>
      ok ← PushToGate (us_gate_addr s) (us_user_id s) cmd payload;
      n ← broadcast_loop sessions cmd payload;
      mret (if (ok : bool) then 1 + n else n)
  end.
Definition Broadcast (user_ids : list string) (cmd payload : string) : M Zone BroadcastResult :=
  sessions ← on_store (GetSessions user_ids);
  n ← broadcast_loop sessions cmd payload;
  mret {| bc_online_count := wrap32 (Z.of_nat (length sessions)); bc_delivered_count := wrap32 n |}.

(** * Commands *)

(** [manager_]; the content of members that nobody has set. *)
Variable manager : option SystemManager.
Variable uninit : Z.

(** [if (!req.ParseFromString(payload)) { SetResultError(INVALID_PARAM); return; }] *)
Definition parsed {A} `{!Msg A} (payload request_id : string) (body : A → M Zone Result) : M Zone Result :=
  match ParseFromString payload with
  | None => mret (SetResultError INVALID_PARAM request_id)
  | Some req => body req
  end.
(** [if (user_id.empty()) { SetResultError(SESSION_INVALID); return; }] *)
Definition for_session (user_id request_id : string) (body : M Zone Result) : M Zone Result :=
  if decide (user_id = "") then mret (SetResultError SESSION_INVALID request_id) else body.
(** [if (!resp_pb.SerializeToString(&result.payload)) { SetResultError(INTERNAL_ERROR); return; }] *)
Definition with_payload {A} `{!Msg A} (resp_pb : A) (request_id : string) (rest : string → Result) : Result :=
  match SerializeToString resp_pb with
  | None => SetResultError INTERNAL_ERROR request_id
  | Some payload => rest payload
  end.
(** A result without a payload: code [OK], or [ec] with a message. *)
Definition plain_result (ok : bool) (ec : ErrorCode) (message request_id : string) : Result :=
  if ok then result_ok "" request_id
  else {| hr_code := ErrorCodeToInt ec; hr_message := message; hr_payload := "";
          hr_request_id := request_id |}.
(** [result.message = err.empty() ? text : err] *)
Definition or_text (err text : string) : string := if decide (err = "") then text else err.
(** What a call that returns a list does with it: a payload, or [INTERNAL_ERROR] with the error. *)
Definition list_result {A B} `{!Msg B} (r : A + string) (text request_id : string) (resp_pb : A → B) : Result :=
  match r with
  | inr err => {| hr_code := ErrorCodeToInt INTERNAL_ERROR; hr_message := or_text err text;
                  hr_payload := ""; hr_request_id := request_id |}
  | inl a => with_payload (resp_pb a) request_id (λ p, result_ok p request_id)
  end.

(** ** auth.* *)

Definition HandleAuth (user_id cmd payload request_id token : string) : M Zone Result :=
  match m ← manager; auth_system m with
  | None => mret (SetResultError SERVICE_UNAVAILABLE request_id)
  | Some auth =>
  if decide (cmd = "auth.register") then
    parsed payload request_id (λ req : AuthRegisterPayload,
      reg ← on_net (AuthSystem.Register auth (zar_username req) (zar_password req) (zar_nickname req)
                      (zar_email req) (zar_avatar_url req));
      mret match reg with
           | inl user_id =>
               with_payload {| zarr_success := true; zarr_user_id := user_id; zarr_error := "" |} request_id
                 (λ p, result_ok p request_id)
           | inr (error, error_code) =>
               with_payload {| zarr_success := false; zarr_user_id := ""; zarr_error := error |} request_id
                 (λ p, {| hr_code := if decide (0 < error_code) then error_code else ErrorCodeToInt AUTH_FAILED;
                          hr_message := error; hr_payload := p; hr_request_id := request_id |})
           end)
  else if decide (cmd = "auth.login") then
    parsed payload request_id (λ req : AuthLoginPayload,
      login ← on_net (AuthSystem.Login auth (zal_username req) (zal_password req) (zal_device_id req)
                        (zal_device_type req));
      mret match login with
           | inl (user_id, tok, expire_at) =>
               with_payload {| zalr_success := true; zalr_user_id := user_id; zalr_token := tok;
                               zalr_expire_at := expire_at; zalr_error := "" |} request_id
                 (λ p, result_ok p request_id)
           | inr error =>
               with_payload {| zalr_success := false; zalr_user_id := ""; zalr_token := "";
                               zalr_expire_at := 0; zalr_error := error |} request_id
                 (λ p, {| hr_code := ErrorCodeToInt AUTH_FAILED;
                          hr_message := or_text error (ErrorCodeToString AUTH_FAILED);
                          hr_payload := p; hr_request_id := request_id |})
           end)
  else if decide (cmd = "auth.logout") then
    parsed payload request_id (λ req : AuthLogoutPayload,
      logout ← on_net (AuthSystem.Logout auth (zalo_user_id req) (zalo_token req));
      mret match logout with
           | inl _ => result_ok "" request_id
           | inr error => plain_result false AUTH_FAILED (or_text error (ErrorCodeToString AUTH_FAILED)) request_id
           end)
  else if decide (cmd = "auth.validate_token") then
    parsed payload request_id (λ req : AuthValidateTokenPayload,
      uid ← on_net (AuthSystem.ValidateToken auth (zavt_token req));
      mret (with_payload {| zavtr_user_id := uid |} request_id (λ p, result_ok p request_id)))
  else mret (NotImplemented cmd request_id)
  end.

(** ** chat.* *)

(** The members of the group, but for one user, in the loops that push to them. *)
Fixpoint push_members (members : list GroupRpcClient.GroupMemberResult) (except cmd payload : string)
    : M Zone unit :=
  match members with
  | [] => mret tt
  | m :: members =>
      _ ← (if decide (GroupRpcClient.gmr_user_id m ≠ except)
           then _ ← RouteToUser (GroupRpcClient.gmr_user_id m) cmd payload; mret tt
           else mret tt);
      push_members members except cmd payload
  end.
(** To the peer of a private chat, or to the members of a group. *)
Definition push_chat (chat_id : string) (chat_type : Z) (except cmd payload : string) : M Zone unit :=
  if decide (chat_type = PRIVATE) then _ ← RouteToUser chat_id cmd payload; mret tt else
  if decide (chat_type ≠ GROUP) then mret tt else
  match m ← manager; group_system m with
  | None => mret tt
  | Some grp =>
      r ← on_net (GroupSystem.GetGroupMembers grp chat_id 0 10000);
      match r with inr _ => mret tt | inl (members, _) => push_members members except cmd payload end
  end.

Definition push_of (msg_id : string) (timestamp : Z) (req : ChatSendMessagePayload) : ChatMessagePushPayload :=
  {| zcmp_msg_id := msg_id; zcmp_from_user_id := zcsm_from_user_id req; zcmp_to_id := zcsm_to_id req;
     zcmp_chat_type := zcsm_chat_type req; zcmp_content := zcsm_content req;
     zcmp_media_url := zcsm_media_url req; zcmp_media_type := zcsm_media_type req;
     zcmp_timestamp := timestamp; zcmp_mentions := zcsm_mentions req;
     zcmp_reply_to_msg_id := zcsm_reply_to_msg_id req |}.
(** A message of a list: [mentions] and [reply_to_msg_id] are not copied. *)
Definition message_out (m : ChatRpcClient.ChatMessageResult) : ChatMessagePushPayload :=
  {| zcmp_msg_id := ChatRpcClient.mr_msg_id m; zcmp_from_user_id := ChatRpcClient.mr_from_user_id m;
     zcmp_to_id := ChatRpcClient.mr_to_id m; zcmp_chat_type := ChatRpcClient.mr_chat_type m;
     zcmp_content := ChatRpcClient.mr_content m; zcmp_media_url := ChatRpcClient.mr_media_url m;
     zcmp_media_type := ChatRpcClient.mr_media_type m; zcmp_timestamp := ChatRpcClient.mr_timestamp m;
     zcmp_mentions := []; zcmp_reply_to_msg_id := "" |}.
Definition conversation_out (c : ChatRpcClient.ConversationResult) : ChatConversationPayload :=
  {| zcc_chat_id := ChatRpcClient.cr_chat_id c; zcc_chat_type := ChatRpcClient.cr_chat_type c;
     zcc_peer_id := ChatRpcClient.cr_peer_id c; zcc_peer_name := ChatRpcClient.cr_peer_name c;
     zcc_peer_avatar := ChatRpcClient.cr_peer_avatar c; zcc_unread_count := ChatRpcClient.cr_unread_count c;
     zcc_updated_at := ChatRpcClient.cr_updated_at c; zcc_last_msg_id := ChatRpcClient.cr_last_msg_id c;
     zcc_last_content := ChatRpcClient.cr_last_content c;
     zcc_last_timestamp := ChatRpcClient.cr_last_timestamp c |}.

(** [chat.send_message]: the answer, and the push to the receivers that are online. *)
Definition chat_send_message (chat : bool) (payload request_id token : string) : M Zone Result :=
  parsed payload request_id (λ req : ChatSendMessagePayload,
    r ← on_net (ChatSystem.SendMessage chat (zcsm_from_user_id req) (zcsm_to_id req) (zcsm_chat_type req)
                  (zcsm_content req) (zcsm_media_url req) (zcsm_media_type req) (zcsm_mentions req)
                  (zcsm_reply_to_msg_id req) (zcsm_client_msg_id req) (zcsm_file_size req) token);
    match r with
    | inr error =>
        mret (with_payload {| zcsmr_success := false; zcsmr_msg_id := ""; zcsmr_timestamp := 0;
                              zcsmr_error := error |} request_id
          (λ p, {| hr_code := ErrorCodeToInt MSG_SEND_FAILED;
                   hr_message := or_text error (ErrorCodeToString MSG_SEND_FAILED);
                   hr_payload := p; hr_request_id := request_id |}))
    | inl (msg_id, timestamp) =>
        match SerializeToString {| zcsmr_success := true; zcsmr_msg_id := msg_id;
                                   zcsmr_timestamp := timestamp; zcsmr_error := "" |} with
        | None => mret (SetResultError INTERNAL_ERROR request_id)
        | Some p =>
            let result := result_ok p request_id in
            if decide (msg_id = "") then mret result else
            match SerializeToString (push_of msg_id timestamp req) with
            | None => mret result
            | Some push_payload =>
                _ ← push_chat (zcsm_to_id req) (zcsm_chat_type req) (zcsm_from_user_id req)
                      "chat.message" push_payload;
                mret result
            end
        end
    end).

(** [chat.mark_read]: the answer, and the receipt for the others in the chat. *)
Definition chat_mark_read (chat : bool) (user_id payload request_id token : string) : M Zone Result :=
  parsed payload request_id (λ req : ChatMarkReadPayload,
    r ← on_net (ChatSystem.MarkRead chat user_id (zcmr_chat_id req) (zcmr_chat_type req)
                  (zcmr_last_msg_id req) token);
    match r with
    | inr err => mret (plain_result false INVALID_PARAM (or_text err "mark read failed") request_id)
    | inl _ =>
        let result := result_ok "" request_id in
        if decide (zcmr_last_msg_id req = "") then mret result else
        match SerializeToString {| zrrn_chat_id := zcmr_chat_id req; zrrn_user_id := user_id;
                                   zrrn_last_read_msg_id := zcmr_last_msg_id req |} with
        | None => mret result
        | Some receipt =>
            _ ← push_chat (zcmr_chat_id req) (zcmr_chat_type req) user_id "chat.read_receipt" receipt;
            mret result
        end
    end).

Definition HandleChat (user_id cmd payload request_id token : string) : M Zone Result :=
  match m ← manager; chat_system m with
  | None => mret (SetResultError SERVICE_UNAVAILABLE request_id)
  | Some chat =>
  if decide (cmd = "chat.send_message") then chat_send_message chat payload request_id token
  else if decide (cmd = "chat.mark_read") then chat_mark_read chat user_id payload request_id token
  else if decide (cmd = "chat.pull_offline") then
    parsed payload request_id (λ req : ChatPullOfflinePayload,
      for_session user_id request_id (
        let limit := if decide (0 < zcpo_limit req < 200) then zcpo_limit req
                     else if decide (200 ≤ zcpo_limit req) then 200 else 100 in
        r ← on_net (ChatSystem.PullOffline chat user_id limit (zcpo_cursor req) token);
        mret (list_result r "pull offline failed" request_id (λ '(messages, next_cursor, has_more),
          {| zcpor_messages := message_out <$> messages; zcpor_next_cursor := next_cursor;
             zcpor_has_more := has_more |}))))
  else if decide (cmd = "chat.recall_message") then
    parsed payload request_id (λ req : ChatRecallMessagePayload,
      r ← on_net (ChatSystem.RecallMessage chat (zcrm_msg_id req) (zcrm_user_id req) token);
      mret match r with
           | inl _ => result_ok "" request_id
           | inr err => plain_result false RECALL_NOT_ALLOWED
                          (or_text err (ErrorCodeToString RECALL_NOT_ALLOWED)) request_id
           end)
  else if decide (cmd = "chat.get_history") then
    parsed payload request_id (λ req : ChatGetHistoryPayload,
      for_session user_id request_id (
        let limit := if decide (0 < zcgh_limit req ≤ 100) then zcgh_limit req else 50 in
        r ← on_net (ChatSystem.GetHistory chat user_id (zcgh_chat_id req) (zcgh_chat_type req)
                      (zcgh_before_msg_id req) limit token);
        mret (list_result r "get history failed" request_id (λ '(messages, has_more),
          {| zcghr_messages := message_out <$> messages; zcghr_has_more := has_more |}))))
  else if decide (cmd = "chat.sync_conversations") then
    parsed payload request_id (λ req : ChatSyncConversationsPayload,
      for_session user_id request_id (
        r ← on_net (ChatSystem.SyncConversations chat user_id (zcsc_last_sync_time req) token);
        mret (list_result r "sync conversations failed" request_id (λ conversations,
          {| zcscr_conversations := conversation_out <$> conversations |}))))
  else if decide (cmd = "chat.delete_conversation") then
    parsed payload request_id (λ req : ChatDeleteConversationPayload,
      for_session user_id request_id (
        r ← on_net (ChatSystem.DeleteConversation chat user_id (zcdc_chat_id req) (zcdc_chat_type req) token);
        mret match r with
             | inl _ => result_ok "" request_id
             | inr err => plain_result false INVALID_PARAM err request_id
             end))
  else mret (NotImplemented cmd request_id)
  end.

(** ** friend.* *)

(** The result of a change of the friend groups: a payload with the success and the error. *)
Definition changed_result {B} `{!Msg B} (r : unit + string) (text request_id : string)
    (resp_pb : bool → string → B) : Result :=
  match r with
  | inl _ => with_payload (resp_pb true "") request_id (λ p, result_ok p request_id)
  | inr err => with_payload (resp_pb false (or_text err text)) request_id
                 (λ p, {| hr_code := ErrorCodeToInt INTERNAL_ERROR; hr_message := err;
                          hr_payload := p; hr_request_id := request_id |})
  end.

Definition friend_out (f : FriendRpcClient.FriendInfoResult) : FriendInfoPayload :=
  {| zfi_friend_id := FriendRpcClient.fir_friend_id f; zfi_remark := FriendRpcClient.fir_remark f;
     zfi_group_id := FriendRpcClient.fir_group_id f; zfi_nickname := FriendRpcClient.fir_nickname f;
     zfi_avatar_url := FriendRpcClient.fir_avatar_url f; zfi_added_at := FriendRpcClient.fir_added_at f |}.
Definition request_out (r : FriendRpcClient.FriendRequestInfoResult) : FriendRequestInfoPayload :=
  {| zfri_request_id := FriendRpcClient.rir_request_id r;
     zfri_from_user_id := FriendRpcClient.rir_from_user_id r;
     zfri_to_user_id := FriendRpcClient.rir_to_user_id r; zfri_remark := FriendRpcClient.rir_remark r;
     zfri_status := FriendRpcClient.rir_status r; zfri_created_at := FriendRpcClient.rir_created_at r;
     zfri_from_nickname := FriendRpcClient.rir_from_nickname r;
     zfri_from_avatar_url := FriendRpcClient.rir_from_avatar_url r |}.
Definition user_out (u : AuthService.AuthProfile) : FriendSearchUserPayload :=
  {| zfsu_user_id := AuthService.ap_user_id u; zfsu_username := AuthService.ap_username u;
     zfsu_nickname := AuthService.ap_nickname u; zfsu_avatar_url := AuthService.ap_avatar_url u;
     zfsu_signature := AuthService.ap_signature u; zfsu_gender := AuthService.ap_gender u |}.
Definition friend_group_out (g : FriendRpcClient.FriendGroupResult) : FriendGroupPayload :=
  {| zfg_group_id := FriendRpcClient.grr_group_id g; zfg_group_name := FriendRpcClient.grr_group_name g;
     zfg_friend_count := FriendRpcClient.grr_friend_count g;
     zfg_sort_order := FriendRpcClient.grr_sort_order g |}.

(** The commands on friend groups and remarks. *)
Definition friend_group_commands (fr : bool) (user_id cmd payload request_id token : string) : M Zone Result :=
  if decide (cmd = "friend.create_group") then
    parsed payload request_id (λ req : FriendCreateGroupPayload,
      for_session user_id request_id (
        r ← on_net (FriendSystem.CreateFriendGroup fr user_id (zfcg_group_name req) token);
        mret (changed_result r "create group failed" request_id (λ ok error,
          {| zfcgr_success := ok; zfcgr_group_id := ""; zfcgr_error := error |}))))
  else if decide (cmd = "friend.get_groups") then
    parsed payload request_id (λ req : FriendGetGroupsPayload,
      for_session user_id request_id (
        r ← on_net (FriendSystem.GetFriendGroups fr user_id token);
        mret (list_result r "get groups failed" request_id (λ groups,
          {| zfggr_success := true; zfggr_groups := friend_group_out <$> groups; zfggr_error := "" |}))))
  else if decide (cmd = "friend.move_to_group") then
    parsed payload request_id (λ req : FriendMoveToGroupPayload,
      for_session user_id request_id (
        r ← on_net (FriendSystem.MoveFriendToGroup fr user_id (zfmtg_friend_id req) (zfmtg_group_id req) token);
        mret (changed_result r "move to group failed" request_id (λ ok error,
          {| zfmtgr_success := ok; zfmtgr_error := error |}))))
  else if decide (cmd = "friend.delete_group") then
    parsed payload request_id (λ req : FriendDeleteGroupPayload,
      for_session user_id request_id (
        r ← on_net (FriendSystem.DeleteFriendGroup fr user_id (zfdg_group_id req) token);
        mret (changed_result r "delete group failed" request_id (λ ok error,
          {| zfdgr_success := ok; zfdgr_error := error |}))))
  else if decide (cmd = "friend.set_remark") then
    parsed payload request_id (λ req : FriendSetRemarkPayload,
      for_session user_id request_id (
        r ← on_net (FriendSystem.SetRemark fr user_id (zfrm_friend_id req) (zfrm_remark req) token);
        mret (changed_result r "set remark failed" request_id (λ ok error,
          {| zfrmr_success := ok; zfrmr_error := error |}))))
  else mret (NotImplemented cmd request_id).

(** The commands that list something, and those that follow. *)
Definition friend_list_commands (fr : bool) (user_id cmd payload request_id token : string) : M Zone Result :=
  if decide (cmd = "friend.get_friends") then
    parsed payload request_id (λ req : FriendGetFriendsPayload,
      for_session user_id request_id (
        r ← on_net (FriendSystem.GetFriends fr user_id (zfgf_group_id req) token);
        mret (list_result r "get friends failed" request_id (λ friends,
          {| zfgfr_friends := friend_out <$> friends |}))))
  else if decide (cmd = "friend.get_requests" ∨ cmd = "friend.get_friend_requests") then
    parsed payload request_id (λ req : FriendGetRequestsPayload,
      for_session user_id request_id (
        r ← on_net (FriendSystem.GetFriendRequests fr user_id (zfgr_type req) token);
        mret (list_result r "get friend requests failed" request_id (λ requests,
          {| zfgrr_requests := request_out <$> requests |}))))
  else if decide (cmd = "friend.search") then
    parsed payload request_id (λ req : FriendSearchPayload,
      for_session user_id request_id (
        match m ← manager; auth_system m with
        | None => mret (SetResultError SERVICE_UNAVAILABLE request_id)
        | Some auth =>
            let limit := if decide (0 < zfs_limit req) then zfs_limit req else 20 in
            r ← on_net (AuthSystem.SearchUsers auth (zfs_keyword req) limit token);
            mret (list_result r "search users failed" request_id (λ users,
              {| zfsr_users := user_out <$> filter (λ u, AuthService.ap_user_id u ≠ user_id) users |}))
        end))
  else if decide (cmd = "friend.get_block_list") then
    parsed payload request_id (λ req : FriendGetBlockListPayload,
      for_session user_id request_id (
        r ← on_net (FriendSystem.GetBlockList fr user_id token);
        mret (list_result r "get block list failed" request_id (λ blocked_ids,
          {| zfgblr_success := true; zfgblr_blocked_ids := blocked_ids; zfgblr_error := "" |}))))
  else friend_group_commands fr user_id cmd payload request_id token.

Definition HandleFriend (user_id cmd payload request_id token : string) : M Zone Result :=
  match m ← manager; friend_system m with
  | None => mret (SetResultError SERVICE_UNAVAILABLE request_id)
  | Some fr =>
  if decide (cmd = "friend.add") then
    parsed payload request_id (λ req : FriendAddPayload,
      ok ← on_net (FriendSystem.AddFriend fr (zfa_user_id req) (zfa_friend_id req) (zfa_remark req) token);
      mret (plain_result ok UNKNOWN "" request_id))
  else if decide (cmd = "friend.handle_request") then
    parsed payload request_id (λ req : FriendHandleRequestPayload,
      ok ← on_net (FriendSystem.HandleFriendRequest fr (zfhr_user_id req) (zfhr_request_id req)
                   (zfhr_accept req) token);
      mret (plain_result ok UNKNOWN "" request_id))
  else if decide (cmd = "friend.remove") then
    parsed payload request_id (λ req : FriendRemovePayload,
      ok ← on_net (FriendSystem.RemoveFriend fr (zfr_user_id req) (zfr_friend_id req) token);
      mret (plain_result ok UNKNOWN "" request_id))
  else if decide (cmd = "friend.block") then
    parsed payload request_id (λ req : FriendBlockPayload,
      ok ← on_net (FriendSystem.BlockUser fr (zfb_user_id req) (zfb_target_id req) token);
      mret (plain_result ok UNKNOWN "" request_id))
  else if decide (cmd = "friend.unblock") then
    parsed payload request_id (λ req : FriendBlockPayload,
      ok ← on_net (FriendSystem.UnblockUser fr (zfb_user_id req) (zfb_target_id req) token);
      mret (plain_result ok UNKNOWN "" request_id))
  else friend_list_commands fr user_id cmd payload request_id token
  end.

(** ** group.*: the systems are called without the token *)

Definition group_out (g : GroupRpcClient.GroupInfoResult) : GroupInfoPayload :=
  {| zgi_group_id := GroupRpcClient.gir_group_id g; zgi_group_name := GroupRpcClient.gir_group_name g;
     zgi_avatar_url := GroupRpcClient.gir_avatar_url g; zgi_owner_id := GroupRpcClient.gir_owner_id g;
     zgi_member_count := GroupRpcClient.gir_member_count g;
     zgi_announcement := GroupRpcClient.gir_announcement g;
     zgi_created_at := GroupRpcClient.gir_created_at g |}.
Definition member_out (m : GroupRpcClient.GroupMemberResult) : GroupMemberPayload :=
  {| zgm_user_id := GroupRpcClient.gmr_user_id m; zgm_role := GroupRpcClient.gmr_role m;
     zgm_nickname := GroupRpcClient.gmr_nickname m; zgm_joined_at := GroupRpcClient.gmr_joined_at m |}.

Definition HandleGroup (user_id cmd payload request_id token : string) : M Zone Result :=
  match m ← manager; group_system m with
  | None => mret (SetResultError SERVICE_UNAVAILABLE request_id)
  | Some grp =>
  if decide (cmd = "group.create") then
    parsed payload request_id (λ req : GroupCreatePayload,
      group_id ← on_net (GroupSystem.CreateGroup grp (zgc_creator_id req) (zgc_group_name req)
                           (zgc_member_ids req));
      let failed := bool_decide (group_id = "") in
      let text := if failed then ErrorCodeToString INTERNAL_ERROR else "" in
      mret (with_payload {| zgcr_success := negb failed; zgcr_group_id := group_id; zgcr_error := text |}
              request_id
              (λ p, {| hr_code := if failed then ErrorCodeToInt INTERNAL_ERROR else ErrorCodeToInt OK;
                       hr_message := text; hr_payload := p; hr_request_id := request_id |})))
  else if decide (cmd = "group.dismiss") then
    parsed payload request_id (λ req : GroupDismissPayload,
      ok ← on_net (GroupSystem.DismissGroup grp (zgd_group_id req) (zgd_operator_id req));
      mret (plain_result ok NOT_GROUP_OWNER (ErrorCodeToString NOT_GROUP_OWNER) request_id))
  else if decide (cmd = "group.invite_members") then
    parsed payload request_id (λ req : GroupInviteMembersPayload,
      ok ← on_net (GroupSystem.InviteMembers grp (zgim_group_id req) (zgim_inviter_id req) (zgim_member_ids req));
      mret (plain_result ok UNKNOWN "" request_id))
  else if decide (cmd = "group.remove_member") then
    parsed payload request_id (λ req : GroupRemoveMemberPayload,
      ok ← on_net (GroupSystem.RemoveMember grp (zgrm_group_id req) (zgrm_operator_id req) (zgrm_member_id req));
      mret (plain_result ok UNKNOWN "" request_id))
  else if decide (cmd = "group.leave") then
    parsed payload request_id (λ req : GroupLeavePayload,
      ok ← on_net (GroupSystem.LeaveGroup grp (zgl_group_id req) (zgl_user_id req));
      mret (plain_result ok UNKNOWN "" request_id))
  else if decide (cmd = "group.get_info") then
    parsed payload request_id (λ req : GroupGetInfoPayload,
      r ← on_net (GroupSystem.GetGroupInfo grp (zggi_group_id req));
      mret (list_result r "get group info failed" request_id (λ info,
        {| zggir_group := Some (group_out info) |})))
  else if decide (cmd = "group.get_members") then
    parsed payload request_id (λ req : GroupGetMembersPayload,
      let page := if decide (0 < zggm_page req) then zggm_page req else 1 in
      let page_size := if decide (0 < zggm_page_size req ≤ 100) then zggm_page_size req else 20 in
      r ← on_net (GroupSystem.GetGroupMembers grp (zggm_group_id req) page page_size);
      mret (list_result r "get members failed" request_id (λ '(members, total),
        {| zggmr_members := member_out <$> members; zggmr_total := total |})))
  else if decide (cmd = "group.get_user_groups") then
    parsed payload request_id (λ req : GroupGetUserGroupsPayload,
      for_session user_id request_id (
        r ← on_net (GroupSystem.GetUserGroups grp user_id);
        mret (list_result r "get user groups failed" request_id (λ groups,
          {| zggugr_groups := group_out <$> groups |}))))
  else mret (NotImplemented cmd request_id)
  end.

(** ** file.*: the systems are called without the token *)

Definition HandleFile (user_id cmd payload request_id token : string) : M Zone Result :=
  match m ← manager; file_system m with
  | None => mret (SetResultError SERVICE_UNAVAILABLE request_id)
  | Some file =>
  if decide (cmd = "file.get_upload_token") then
    parsed payload request_id (λ req : FileGetUploadTokenPayload,
      tok ← on_net (FileSystem.GetUploadToken file uninit (zfgut_user_id req) (zfgut_file_name req)
                      (zfgut_file_size req));
      let failed := bool_decide (FileHandler.utb_upload_token tok = "") in
      mret (with_payload
              {| zfgutr_success := negb failed; zfgutr_upload_token := FileHandler.utb_upload_token tok;
                 zfgutr_upload_url := FileHandler.utb_upload_url tok;
                 zfgutr_expire_at := FileHandler.utb_expire_at tok; zfgutr_error := "" |} request_id
              (λ p, {| hr_code := if failed then ErrorCodeToInt UPLOAD_FAILED else ErrorCodeToInt OK;
                       hr_message := if failed then ErrorCodeToString UPLOAD_FAILED else "";
                       hr_payload := p; hr_request_id := request_id |})))
  else if decide (cmd = "file.init_upload") then
    parsed payload request_id (λ req : FileInitUploadPayload,
      r ← on_net (FileSystem.InitUpload file (zfiu_user_id req) (zfiu_file_name req)
                    (zfiu_content_type req) (zfiu_file_size req) (zfiu_md5 req) (zfiu_msg_id req));
      mret match r with
           | inl (upload_id, expire_at) =>
               with_payload {| zfiur_success := true; zfiur_upload_id := upload_id;
                               zfiur_expire_at := expire_at; zfiur_error := "" |} request_id
                 (λ p, result_ok p request_id)
           | inr error =>
               with_payload {| zfiur_success := false; zfiur_upload_id := ""; zfiur_expire_at := 0;
                               zfiur_error := error |} request_id
                 (λ p, {| hr_code := ErrorCodeToInt UPLOAD_FAILED; hr_message := error;
                          hr_payload := p; hr_request_id := request_id |})
           end)
  else if decide (cmd = "file.get_file_info") then
    parsed payload request_id (λ req : FileGetFileInfoPayload,
      r ← on_net (FileSystem.GetFileInfo file (zfgfi_file_id req));
      mret match r with
           | inl i =>
               with_payload {| zfgfir_success := true; zfgfir_file_id := FileHandler.fin_file_id i;
                               zfgfir_file_name := FileHandler.fin_file_name i;
                               zfgfir_file_size := FileHandler.fin_file_size i;
                               zfgfir_content_type := FileHandler.fin_content_type i;
                               zfgfir_uploader_id := FileHandler.fin_uploader_id i;
                               zfgfir_uploaded_at := FileHandler.fin_uploaded_at i;
                               zfgfir_md5 := FileHandler.fin_md5 i; zfgfir_error := "" |} request_id
                 (λ p, result_ok p request_id)
           | inr error =>
               with_payload {| zfgfir_success := false; zfgfir_file_id := ""; zfgfir_file_name := "";
                               zfgfir_file_size := uninit; zfgfir_content_type := "";
                               zfgfir_uploader_id := ""; zfgfir_uploaded_at := uninit; zfgfir_md5 := "";
                               zfgfir_error := error |} request_id
                 (λ p, {| hr_code := ErrorCodeToInt FILE_NOT_FOUND; hr_message := error;
                          hr_payload := p; hr_request_id := request_id |})
           end)
  else if decide (cmd = "file.get_file_url") then
    parsed payload request_id (λ req : FileGetFileUrlPayload,
      url ← on_net (FileSystem.GetFileUrl file uninit (zfgfu_file_id req) (zfgfu_user_id req));
      let failed := bool_decide (FileHandler.gfb_file_url url = "") in
      mret (with_payload
              {| zfgfur_success := negb failed; zfgfur_file_url := FileHandler.gfb_file_url url;
                 zfgfur_file_name := FileHandler.gfb_file_name url;
                 zfgfur_file_size := FileHandler.gfb_file_size url;
                 zfgfur_content_type := FileHandler.gfb_content_type url;
                 zfgfur_expire_at := FileHandler.gfb_expire_at url; zfgfur_error := "" |} request_id
              (λ p, {| hr_code := if failed then ErrorCodeToInt FILE_NOT_FOUND else ErrorCodeToInt OK;
                       hr_message := if failed then ErrorCodeToString FILE_NOT_FOUND else "";
                       hr_payload := p; hr_request_id := request_id |})))
  else if decide (cmd = "file.delete") then
    parsed payload request_id (λ req : FileDeletePayload,
      ok ← on_net (FileSystem.DeleteFile file (zfd_file_id req) (zfd_user_id req));
      mret (plain_result ok FILE_NOT_FOUND (ErrorCodeToString FILE_NOT_FOUND) request_id))
  else mret (NotImplemented cmd request_id)
  end.

(** ** The entry *)

(** [cmd.substr(0, cmd.find('.'))], or all of it without a dot. *)
Definition cmd_prefix (cmd : string) : string :=
  match str_find_char "." cmd with Some dot => str_take dot cmd | None => cmd end.

(** The table of the handlers. *)
Definition GetPrefixHandlers (prefix : string)
    : option (string → string → string → string → string → M Zone Result) :=
  if decide (prefix = "auth") then Some HandleAuth else
  if decide (prefix = "chat") then Some HandleChat else
  if decide (prefix = "friend") then Some HandleFriend else
  if decide (prefix = "group") then Some HandleGroup else
  if decide (prefix = "file") then Some HandleFile else None.

Definition HandleClientRequest (conn_id user_id cmd payload request_id token : string) : M Zone Result :=
  match manager with
  | None => mret (SetResultError INTERNAL_ERROR request_id)
  | Some _ =>
      match GetPrefixHandlers (cmd_prefix cmd) with
      | Some h => h user_id cmd payload request_id token
      | None => mret (NotImplemented cmd request_id)
      end
  end.
End ZoneService.
