(* ===== verification/ZoneHandler.v ===== *)
(** [zonesvr/internal/handler/zone_handler.cpp], the gRPC interface of the zone server, and
    [interceptor/internal_secret_processor.cpp], which lets in the holders of the internal
    secret only, as far as [cmd/main.cpp] gets to start the server with it; the properties of the answers to client requests that hold for
    any business services. *)

From S2P Require Import Prelude External Errors Utils Rpc Proto ZonePayloads ZoneStore ZoneRpc ZoneSystems.
From S2P Require Import ZoneService.

(** [InternalSecretProcessor::Process] on the metadata of a call: the text of a status
    [UNAUTHENTICATED], or [None] for the status OK.  [expected] is the configured secret. *)
Definition kMetadataKey : string := "x-internal-secret".
Definition Process (expected : string) (auth_metadata : Metadata) : option string :=
  if decide (expected = "") then None else
  match auth_metadata kMetadataKey with
  | None => Some "missing or invalid x-internal-secret"
  | Some value => if decide (value ≠ expected) then Some "missing or invalid x-internal-secret" else None
  end.
(** [main] sets the processor when a secret is configured, and on insecure credentials.  Whether the
    gRPC in use takes one there is a parameter ([takes_processor]): gRPC documents that it must not be
    set on them, and its implementation stops the program with a failed assertion. *)
Definition server_starts (takes_processor : bool) (internal_secret : string) : bool :=
  if decide (internal_secret = "") then true else takes_processor.
(** A call of a server that has started with the processor, or without a secret: refused before the
    handler, or handled. *)
Definition admitted {S A} (expected : string) (c : Metadata) (handler : M S A) : M S (grpc A) :=
  match Process expected c with
  | Some error_message => mret (inr error_message)
  | None => r ← handler; mret (inl r)
  end.

(** The other fields of the responses of [RouteMessage], [Broadcast] and [GetUserStatus]. *)
Record UserStatus : Type := {
  st_user_id : string; st_online : bool; st_gate_id : string; st_device_type : string;
  st_last_active_at : Z }.

Section ZoneHandler.
Context {SS W : Type} `{!SessionStore SS} `{!Stubs W} `{!ProtoBuf}.
Notation Zone := (Zone SS W).

(** [set_code(ok ? OK : ec); if (!ok) set_message(...)] *)
Definition done_or (ec : ErrorCode) (ok : bool) : CommonResponse :=
  if ok then ok_plain tt else fail_with tt ec (ErrorCodeToString ec).

Definition UserOnline (now : Z) (user_id gate_id device_type device_id : string) : M Zone CommonResponse :=
  ok ← ZoneService.UserOnline now user_id gate_id device_type device_id;
  mret (done_or SERVICE_UNAVAILABLE ok).
Definition UserOffline (user_id gate_id : string) : M Zone CommonResponse :=
  ok ← ZoneService.UserOffline user_id gate_id; mret (done_or INTERNAL_ERROR ok).

(** Body: [delivered]. *)
Definition RouteMessage (to_user_id msg_type payload : string) : M Zone (Response bool) :=
  result ← RouteToUser to_user_id (if decide (msg_type = "") then "message" else msg_type) payload;
  mret (ok_plain (rt_delivered result)).
(** Body: [online_count] and [delivered_count]. *)
Definition Broadcast (user_ids : list string) (msg_type payload : string) : M Zone (Response (Z * Z)) :=
  result ← ZoneService.Broadcast user_ids (if decide (msg_type = "") then "broadcast" else msg_type) payload;
  mret (ok_plain (bc_online_count result, bc_delivered_count result)).

Definition status_of (uid : string) (opt : option UserSession) : UserStatus :=
  match opt with
  | Some s => {| st_user_id := uid; st_online := true; st_gate_id := us_gate_id s;
                 st_device_type := us_device_type s; st_last_active_at := us_last_active_at s |}
  | None => {| st_user_id := uid; st_online := false; st_gate_id := ""; st_device_type := "";
               st_last_active_at := 0 |}
  end.
Fixpoint statuses (user_ids : list string) : M Zone (list UserStatus) :=
  match user_ids with
  | [] => mret []
  | uid :: user_ids =>
      opt ← GetUserSession uid; rest ← statuses user_ids; mret (status_of uid opt :: rest)
  end.
Definition GetUserStatus (user_ids : list string) : M Zone (Response (list UserStatus)) :=
  l ← statuses user_ids; mret (ok_plain l).

Definition PushToUser (user_id cmd payload : string) : M Zone CommonResponse :=
  result ← RouteToUser user_id (if decide (cmd = "") then "push" else cmd) payload;
  mret (if negb (rt_user_online result) then fail_with tt USER_OFFLINE (ErrorCodeToString USER_OFFLINE)
        else if negb (rt_delivered result) then fail_with tt FORWARD_FAILED (ErrorCodeToString FORWARD_FAILED)
        else ok_plain tt).
Definition KickUser (user_id reason : string) : M Zone CommonResponse :=
  ok ← ZoneService.KickUser user_id reason; mret (done_or FORWARD_FAILED ok).
Definition GateRegister (now : Z) (gate_id address : string) : M Zone CommonResponse :=
  ok ← RegisterGate now gate_id address; mret (done_or INTERNAL_ERROR ok).
Definition GateHeartbeat (now_seconds : Z) (gate_id : string) (current_connections : Z) : M Zone CommonResponse :=
  ok ← ZoneService.GateHeartbeat now_seconds gate_id current_connections; mret (done_or GATE_NOT_FOUND ok).

(** Empty strings are not set: the response has the fields of the result. *)
Definition HandleClientRequest (manager : option SystemManager) (uninit : Z)
    (conn_id user_id cmd payload request_id token : string) : M Zone HandleClientRequestResult :=
  ZoneService.HandleClientRequest manager uninit conn_id user_id cmd payload request_id token.
End ZoneHandler.

(** * Every answer carries the id of its request *)

Definition echoes (request_id : string) (r : HandleClientRequestResult) : Prop := hr_request_id r = request_id.

Section Echo.
Context {SS W : Type} `{!SessionStore SS} `{!Stubs W} `{!ProtoBuf}.
Notation Zone := (Zone SS W).
Implicit Types rid : string.

Lemma echo_parsed {A} `{!Msg A} payload rid (body : A → M Zone _) :
  (∀ a, returns (echoes rid) (body a)) → returns (echoes rid) (parsed payload rid body).
Proof. intros Hb. unfold parsed. destruct (ParseFromString payload); [done|by apply returns_ret]. Qed.
Lemma echo_for_session user_id rid (body : M Zone _) :
  returns (echoes rid) body → returns (echoes rid) (for_session user_id rid body).
Proof. intros Hb. unfold for_session. case_decide; [by apply returns_ret|done]. Qed.
Lemma echo_with_payload {A} `{!Msg A} (a : A) rid rest :
  (∀ p, echoes rid (rest p)) → echoes rid (with_payload a rid rest).
Proof. intros Hr. unfold with_payload. by destruct (SerializeToString a). Qed.
Lemma echo_plain ok ec text rid : echoes rid (plain_result ok ec text rid).
Proof. by destruct ok. Qed.
Lemma echo_list {A B} `{!Msg B} (r : A + string) text rid (f : A → B) : echoes rid (list_result r text rid f).
Proof. destruct r; [by apply echo_with_payload|done]. Qed.
Lemma echo_changed {B} `{!Msg B} (r : unit + string) text rid (f : bool → string → B) :
  echoes rid (changed_result r text rid f).
Proof. destruct r; by apply echo_with_payload. Qed.
End Echo.

Create HintDb echo.
#[export] Hint Resolve echo_parsed echo_for_session echo_with_payload echo_plain echo_list echo_changed
  returns_ret returns_bind : echo.

(** The result of a handler, case by case. *)
Ltac echo_step :=
  match goal with
  | |- forall _, _ => intro
  | |- returns _ (parsed _ _ _) => apply echo_parsed
  | |- returns _ (for_session _ _ _) => apply echo_for_session
  | |- returns _ (mbind _ _) => apply returns_bind
  | |- returns _ (mret _) => apply returns_ret
  | |- returns _ (let _ := _ in _) => cbv zeta
  | |- returns _ (match ?x with _ => _ end) => destruct x
  | |- echoes _ (match ?x with _ => _ end) => destruct x
  | |- echoes _ (with_payload _ _ _) => apply echo_with_payload
  | |- echoes _ _ => first [reflexivity | solve [auto with echo]]
  end.

Section EchoHandlers.
Context {SS W : Type} `{!SessionStore SS} `{!Stubs W} `{!ProtoBuf}.
Implicit Types manager : option SystemManager.

Lemma echo_auth manager u cmd p rid t : returns (echoes rid) (HandleAuth (SS:=SS) (W:=W) manager u cmd p rid t).
Proof. unfold HandleAuth. repeat echo_step. Qed.
Lemma echo_chat manager u cmd p rid t : returns (echoes rid) (HandleChat (SS:=SS) (W:=W) manager u cmd p rid t).
Proof. unfold HandleChat, chat_send_message, chat_mark_read. repeat echo_step. Qed.
Lemma echo_friend manager u cmd p rid t : returns (echoes rid) (HandleFriend (SS:=SS) (W:=W) manager u cmd p rid t).
Proof. unfold HandleFriend, friend_list_commands, friend_group_commands. repeat echo_step. Qed.
Lemma echo_group manager u cmd p rid t : returns (echoes rid) (HandleGroup (SS:=SS) (W:=W) manager u cmd p rid t).
Proof. unfold HandleGroup. repeat echo_step. Qed.
Lemma echo_file manager uninit u cmd p rid t : returns (echoes rid) (HandleFile (SS:=SS) (W:=W) manager uninit u cmd p rid t).
Proof. unfold HandleFile. repeat echo_step. Qed.

Lemma HandleClientRequest_echo manager uninit conn u cmd p rid t :
  returns (echoes rid) (HandleClientRequest (SS:=SS) (W:=W) manager uninit conn u cmd p rid t).
Proof.
  unfold HandleClientRequest, ZoneService.HandleClientRequest. destruct manager as [m|]; [|by apply returns_ret].
  unfold GetPrefixHandlers. repeat case_decide;
    first [apply echo_auth|apply echo_chat|apply echo_friend|apply echo_group|apply echo_file|by apply returns_ret].
Qed.
End EchoHandlers.
