(* ===== verification/GateService.v ===== *)
(** [gatesvr/internal/service/gate_service.{h,cpp}] with its client of the zone server
    ([rpc/zone_rpc_client.cpp]), the messages of the WebSocket sessions
    ([handler/websocket_handler.cpp]) and the calls of the zone server
    ([handler/gate_internal_grpc_handler.cpp]).

    The tables are protected by one mutex, and no operation holds it while it calls the
    zone server or a session: each operation on [Gate] below is one critical section. *)

From S2P Require Import Prelude External Errors Rpc Proto ZonePayloads ZoneRpc ZoneService.

(** [struct Connection] *)
Record Connection : Type := {
  c_conn_id : string; c_user_id : string; c_token : string; c_device_id : string;
  c_device_type : string; c_connected_at : Z; c_last_heartbeat : Z; c_authenticated : bool }.

(** What the callbacks of a session do: post a task to its strand. *)
Inductive Posted : Type :=
  | PSend (conn_id data : string)
  | PClose (conn_id : string).
#[global] Instance Posted_eq_dec : EqDecision Posted.
Proof. solve_decision. Defined.

(** [GateService]: the tables, and the tasks posted to the sessions, oldest first. *)
Record Gate : Type := {
  connections : gmap string Connection;
  user_to_conn : gmap string string;
  send_callbacks : gset string;
  close_callbacks : gset string;
  posted : list Posted }.
Definition gate_empty : Gate :=
  {| connections := ∅; user_to_conn := ∅; send_callbacks := ∅; close_callbacks := ∅; posted := [] |}.

Definition with_tables (cs : gmap string Connection) (us : gmap string string) (g : Gate) : Gate :=
  {| connections := cs; user_to_conn := us; send_callbacks := send_callbacks g;
     close_callbacks := close_callbacks g; posted := posted g |}.
Definition with_callbacks (s c : gset string) (g : Gate) : Gate :=
  {| connections := connections g; user_to_conn := user_to_conn g; send_callbacks := s;
     close_callbacks := c; posted := posted g |}.
Definition post (p : Posted) (g : Gate) : Gate :=
  {| connections := connections g; user_to_conn := user_to_conn g; send_callbacks := send_callbacks g;
     close_callbacks := close_callbacks g; posted := posted g ++ [p] |}.

(** * The tables *)

Definition new_connection (now : Z) (conn_id : string) : Connection :=
  {| c_conn_id := conn_id; c_user_id := ""; c_token := ""; c_device_id := ""; c_device_type := "";
     c_connected_at := now; c_last_heartbeat := now; c_authenticated := false |}.
Definition AddConnection (now : Z) (conn_id : string) : M Gate unit := λ g,
  (Ret tt, with_tables (<[conn_id := new_connection now conn_id]> (connections g)) (user_to_conn g) g).

(** The locked part of [RemoveConnection]: the user of the connection, or nobody. *)
Definition erase_connection (conn_id : string) : M Gate string := λ g,
  match connections g !! conn_id with
  | None => (Ret "", g)
  | Some c =>
      (Ret (c_user_id c),
       with_tables (delete conn_id (connections g))
         (if decide (c_user_id c ≠ "") then delete (c_user_id c) (user_to_conn g)
          else user_to_conn g) g)
  end.

Definition GetConnection (conn_id : string) : M Gate (option Connection) :=
  reads (λ g, connections g !! conn_id).

Definition bound (user_id token device_id device_type : string) (c : Connection) : Connection :=
  {| c_conn_id := c_conn_id c; c_user_id := user_id; c_token := token; c_device_id := device_id;
     c_device_type := device_type; c_connected_at := c_connected_at c;
     c_last_heartbeat := c_last_heartbeat c; c_authenticated := true |}.
Definition BindUser (conn_id user_id token device_id device_type : string) : M Gate bool := λ g,
  match connections g !! conn_id with
  | None => (Ret false, g)
  | Some c =>
      let us := if decide (c_user_id c ≠ "") then delete (c_user_id c) (user_to_conn g)
                else user_to_conn g in
      (Ret true, with_tables (<[conn_id := bound user_id token device_id device_type c]> (connections g))
                   (<[user_id := conn_id]> us) g)
  end.

(** The token stays; the loop stops at the first connection of the user, in the order of
    the map. *)
Definition unbound (c : Connection) : Connection :=
  {| c_conn_id := c_conn_id c; c_user_id := ""; c_token := c_token c; c_device_id := "";
     c_device_type := ""; c_connected_at := c_connected_at c; c_last_heartbeat := c_last_heartbeat c;
     c_authenticated := false |}.
Definition UnbindUser (user_id : string) : M Gate unit := λ g,
  let us := delete user_id (user_to_conn g) in
  match list_find (λ kc : string * Connection, c_user_id kc.2 = user_id) (map_to_list (connections g)) with
  | Some (_, (cid, c)) => (Ret tt, with_tables (<[cid := unbound c]> (connections g)) us g)
  | None => (Ret tt, with_tables (connections g) us g)
  end.

Definition GetConnIdByUser (user_id : string) : M Gate string :=
  reads (λ g, default "" (user_to_conn g !! user_id)).
Definition GetConnectionByUserId (user_id : string) : M Gate (option Connection) :=
  reads (λ g, conn_id ← user_to_conn g !! user_id; connections g !! conn_id).

Definition beaten (now : Z) (c : Connection) : Connection :=
  {| c_conn_id := c_conn_id c; c_user_id := c_user_id c; c_token := c_token c;
     c_device_id := c_device_id c; c_device_type := c_device_type c;
     c_connected_at := c_connected_at c; c_last_heartbeat := now; c_authenticated := c_authenticated c |}.
Definition UpdateHeartbeat (now : Z) (conn_id : string) : M Gate unit := λ g,
  match connections g !! conn_id with
  | None => (Ret tt, g)
  | Some c => (Ret tt, with_tables (<[conn_id := beaten now c]> (connections g)) (user_to_conn g) g)
  end.

Definition GetConnectionCount : M Gate Z := reads (λ g, wrap32 (Z.of_nat (size (connections g)))).

(** ** Callbacks *)

Definition SetSendCallback (conn_id : string) : M Gate unit := λ g,
  (Ret tt, with_callbacks ({[conn_id]} ∪ send_callbacks g) (close_callbacks g) g).
Definition RemoveSendCallback (conn_id : string) : M Gate unit := λ g,
  (Ret tt, with_callbacks (send_callbacks g ∖ {[conn_id]}) (close_callbacks g) g).
Definition SetCloseCallback (conn_id : string) : M Gate unit := λ g,
  (Ret tt, with_callbacks (send_callbacks g) ({[conn_id]} ∪ close_callbacks g) g).
Definition RemoveCloseCallback (conn_id : string) : M Gate unit := λ g,
  (Ret tt, with_callbacks (send_callbacks g) (close_callbacks g ∖ {[conn_id]}) g).

(** [WsSession::Send] posts and returns true. *)
Definition SendToConn (conn_id data : string) : M Gate bool := λ g,
  if decide (conn_id ∈ send_callbacks g) then (Ret true, post (PSend conn_id data) g) else (Ret false, g).
Definition CloseConnection (conn_id : string) : M Gate unit := λ g,
  if decide (conn_id ∈ close_callbacks g) then (Ret tt, post (PClose conn_id) g) else (Ret tt, g).

(** The connections [CheckHeartbeat] collects, in the order of the map. *)
Definition timed_out (heartbeat_timeout_seconds now : Z) (g : Gate) : list string :=
  (filter (λ kc : string * Connection, heartbeat_timeout_seconds * 1000 < now - c_last_heartbeat kc.2)
     (map_to_list (connections g))).*1.
Definition CheckHeartbeat (heartbeat_timeout_seconds now : Z) : M Gate unit :=
  to_close ← reads (timed_out heartbeat_timeout_seconds now);
  for_each to_close CloseConnection.

(** * Messages *)

Section Messages.
Context `{!ProtoBuf}.

Definition SendResponse (conn_id cmd request_id : string) (code : Z) (message payload : string) : M Gate bool :=
  match SerializeToString {| zsm_cmd := cmd; zsm_payload := payload; zsm_request_id := request_id;
                             zsm_code := code; zsm_message := message |} with
  | None => mret false
  | Some data => SendToConn conn_id data
  end.
(** With the default payload, for an error code. *)
Definition SendError (conn_id cmd request_id : string) (ec : ErrorCode) : M Gate unit :=
  _ ← SendResponse conn_id cmd request_id (ErrorCodeToInt ec) (ErrorCodeToString ec) ""; mret tt.

Definition PushToUser (user_id cmd payload : string) : M Gate bool :=
  conn_id ← GetConnIdByUser user_id;
  if decide (conn_id = "") then mret false else
  match SerializeToString {| zsm_cmd := if decide (cmd = "") then "message" else cmd;
                             zsm_payload := payload; zsm_request_id := ""; zsm_code := 0;
                             zsm_message := "" |} with
  | None => mret false
  | Some data => SendToConn conn_id data
  end.

(** ** The calls of the zone server *)

Definition PushMessage (user_id cmd payload : string) : M Gate CommonResponse :=
  ok ← PushToUser user_id (if decide (cmd = "") then "message" else cmd) payload;
  mret (if (ok : bool) then ok_plain tt
        else fail_with tt USER_OFFLINE (ErrorCodeToString USER_OFFLINE)).
Definition DisconnectUser (user_id reason : string) : M Gate CommonResponse :=
  conn_id ← GetConnIdByUser user_id;
  _ ← (if decide (conn_id ≠ "") then CloseConnection conn_id else mret tt);
  mret (ok_plain tt).
End Messages.

(** * The zone server, seen from the gateway

    [gate_of] and [put_gate] are this gateway in the state of everything; a call of the
    zone server may come back with calls of this gateway. *)

Class ZoneStub (W : Type) : Type := {
  gate_of : W → Gate;
  put_gate : Gate → W → W;
  stub_UserOnline : Metadata → string → string → string → string → M W (grpc CommonResponse);
  stub_UserOffline : Metadata → string → string → M W (grpc CommonResponse);
  stub_GateRegister : Metadata → string → string → Z → M W (grpc CommonResponse);
  stub_GateHeartbeat : Metadata → string → Z → M W (grpc CommonResponse);
  stub_HandleClientRequest : Metadata → string → string → string → string → string → string →
    M W (grpc HandleClientRequestResult) }.

Definition kMetadataKey : string := "x-internal-secret".
(** [AddInternalSecret] on a new context. *)
Definition AddInternalSecret (secret : string) : Metadata := λ key,
  if decide (secret ≠ "" ∧ key = kMetadataKey) then Some secret else None.

Module ZoneRpcClient.
Section ZoneRpcClient.
Context {W : Type} `{!ZoneStub W}.
Variable zonesvr_internal_secret : string.
Notation ctx := (AddInternalSecret zonesvr_internal_secret).

(** [status.ok() && resp.code() == 0] *)
Definition succeeded (r : grpc CommonResponse) : bool :=
  match r with inl resp => bool_decide (rsp_code resp = 0) | inr _ => false end.

Definition UserOnline (user_id gate_id device_type device_id : string) : M W bool :=
  r ← stub_UserOnline ctx user_id gate_id device_type device_id; mret (succeeded r).
Definition UserOffline (user_id gate_id : string) : M W bool :=
  r ← stub_UserOffline ctx user_id gate_id; mret (succeeded r).
Definition GateRegister (gate_id address : string) (current_connections : Z) : M W bool :=
  r ← stub_GateRegister ctx gate_id address current_connections; mret (succeeded r).
Definition GateHeartbeat (gate_id : string) (current_connections : Z) : M W bool :=
  r ← stub_GateHeartbeat ctx gate_id current_connections; mret (succeeded r).

(** The result and whether the call got through. *)
Definition HandleClientRequest (conn_id user_id cmd payload request_id token : string)
    : M W (bool * HandleClientRequestResult) :=
  r ← stub_HandleClientRequest ctx conn_id user_id cmd payload request_id token;
  mret match r with
       | inr error_message => (false, {| hr_code := -1; hr_message := error_message; hr_payload := "";
                                         hr_request_id := request_id |})
       | inl resp => (true, resp)
       end.
End ZoneRpcClient.
End ZoneRpcClient.

Section GateService.
Context {W : Type} `{!ZoneStub W} `{!ProtoBuf}.
Variable gate_id : string.                  (* [gate_id_] *)
Variable zonesvr_internal_secret : string.
Variable zone_client : bool.                (* [zone_client_] is set, from [Init] on *)

Definition on_gate {A} (m : M Gate A) : M W A := zoom gate_of put_gate m.

Definition NotifyUserOffline (user_id : string) : M W unit :=
  if negb zone_client then mret tt else
  _ ← ZoneRpcClient.UserOffline zonesvr_internal_secret user_id gate_id; mret tt.

Definition RemoveConnection (conn_id : string) : M W unit :=
  user_id ← on_gate (erase_connection conn_id);
  if decide (user_id ≠ "") then NotifyUserOffline user_id else mret tt.

Definition RegisterGate (grpc_address : string) : M W bool :=
  if negb zone_client then mret false else
  n ← on_gate GetConnectionCount;
  ZoneRpcClient.GateRegister zonesvr_internal_secret gate_id grpc_address n.
Definition GateHeartbeat : M W bool :=
  if negb zone_client then mret false else
  n ← on_gate GetConnectionCount;
  ZoneRpcClient.GateHeartbeat zonesvr_internal_secret gate_id n.

(** ** The clients' messages *)

(** The answer to a request that did not get through. *)
Definition rpc_failed (r : HandleClientRequestResult) : Z * string :=
  (if decide (hr_code r < 0) then ErrorCodeToInt RPC_FAILED else hr_code r,
   if decide (hr_message r = "") then ErrorCodeToString RPC_FAILED else hr_message r).
Definition respond (conn_id cmd request_id : string) (code : Z) (message payload : string) : M W unit :=
  _ ← on_gate (SendResponse conn_id cmd request_id code message payload); mret tt.
Definition error_response (conn_id cmd request_id : string) (ec : ErrorCode) : M W unit :=
  on_gate (SendError conn_id cmd request_id ec).

Definition HandleLogin (conn_id payload request_id : string) : M W unit :=
  let error := error_response conn_id "auth.login" request_id in
  if negb zone_client then error UPSTREAM_UNAVAILABLE else
  match ParseFromString payload with
  | None => error INVALID_PARAM
  | Some req =>
      x ← ZoneRpcClient.HandleClientRequest zonesvr_internal_secret conn_id "" "auth.login" payload
            request_id "";
      let '(ok, r) := x in
      if negb ok then let '(code, msg) := rpc_failed r in
                      respond conn_id "auth.login" request_id code msg "" else
      let answer := respond conn_id "auth.login" (hr_request_id r) (hr_code r) (hr_message r) (hr_payload r) in
      if decide (hr_code r ≠ ErrorCodeToInt OK) then answer else
      match ParseFromString (hr_payload r) with
      | None => error INTERNAL_ERROR
      | Some resp =>
          if decide (zalr_user_id resp = "" ∨ zalr_token resp = "") then error INTERNAL_ERROR else
          bound ← on_gate (BindUser conn_id (zalr_user_id resp) (zalr_token resp) (zal_device_id req)
                             (zal_device_type req));
          if negb bound then error INTERNAL_ERROR else
          _ ← ZoneRpcClient.UserOnline zonesvr_internal_secret (zalr_user_id resp) gate_id
                (zal_device_type req) (zal_device_id req);
          answer
      end
  end.

(** The clock is read for the table and for the response. *)
Definition HandleHeartbeat (now now' : Z) (conn_id request_id : string) : M W unit :=
  _ ← on_gate (UpdateHeartbeat now conn_id);
  match SerializeToString {| zhr_server_time := now' |} with
  | None => mret tt
  | Some payload => respond conn_id "heartbeat" request_id (ErrorCodeToInt OK) (ErrorCodeToString OK) payload
  end.

(** After an [auth.validate_token] that the zone server answered with [OK]: the connection belongs to
    the user of the token. *)
Definition bind_validated (conn_id payload : string) (r : HandleClientRequestResult) : M W unit :=
  let validated_user_id := match ParseFromString (hr_payload r) with
                           | Some resp => zavtr_user_id resp | None => "" end in
  let validated_token := match ParseFromString payload with
                         | Some req => zavt_token req | None => "" end in
  if decide (validated_user_id = "" ∨ validated_token = "") then mret tt else
  c ← on_gate (GetConnection conn_id);
  let device_id := match c with Some c => c_device_id c | None => "" end in
  let device_type := match c with Some c => c_device_type c | None => "" end in
  _ ← on_gate (BindUser conn_id validated_user_id validated_token device_id device_type);
  _ ← ZoneRpcClient.UserOnline zonesvr_internal_secret validated_user_id gate_id device_type device_id;
  mret tt.

Definition ForwardToZone (conn_id cmd payload request_id : string) : M W unit :=
  if negb zone_client then error_response conn_id cmd request_id UPSTREAM_UNAVAILABLE else
  c ← on_gate (GetConnection conn_id);
  let user_id := match c with Some c => c_user_id c | None => "" end in
  let token := match c with Some c => c_token c | None => "" end in
  x ← ZoneRpcClient.HandleClientRequest zonesvr_internal_secret conn_id user_id cmd payload request_id token;
  let '(ok, r) := x in
  if negb ok then let '(code, msg) := rpc_failed r in respond conn_id cmd request_id code msg "" else
  _ ← (if decide (cmd = "auth.validate_token" ∧ hr_code r = ErrorCodeToInt OK)
       then bind_validated conn_id payload r else mret tt);
  respond conn_id cmd (hr_request_id r) (hr_code r) (hr_message r) (hr_payload r).

Definition forwarded (cmd : string) : bool :=
  String.prefix "chat." cmd || String.prefix "friend." cmd || String.prefix "group." cmd ||
  String.prefix "file." cmd.

Definition HandleClientMessage (now now' : Z) (conn_id cmd payload request_id : string) : M W unit :=
  if decide (cmd = "auth.login") then HandleLogin conn_id payload request_id else
  if decide (cmd = "auth.register") then ForwardToZone conn_id cmd payload request_id else
  if decide (cmd = "heartbeat") then HandleHeartbeat now now' conn_id request_id else
  if decide (cmd = "auth.logout" ∨ cmd = "auth.validate_token") then ForwardToZone conn_id cmd payload request_id else
  if forwarded cmd then ForwardToZone conn_id cmd payload request_id else
  error_response conn_id cmd request_id UNSUPPORTED.

(** [WebSocketHandler::OnMessage] *)
Definition OnMessage (now now' : Z) (conn_id data : string) : M W unit :=
  match ParseFromString data with
  | None => mret tt
  | Some msg => HandleClientMessage now now' conn_id (zcm_cmd msg) (zcm_payload msg) (zcm_request_id msg)
  end.
End GateService.

(** * The tables stay consistent

    The critical sections, in any order: other threads may come between any two of them. *)

Inductive gate_step : Gate → Gate → Prop :=
  | gs_add now c g : connections g !! c = None → gate_step g (snd (AddConnection now c g))
  | gs_erase c g : gate_step g (snd (erase_connection c g))
  | gs_bind c u t d ty g : u ≠ "" → gate_step g (snd (BindUser c u t d ty g))
  | gs_unbind u g : gate_step g (snd (UnbindUser u g))
  | gs_beat now c g : gate_step g (snd (UpdateHeartbeat now c g))
  | gs_set_send c g : gate_step g (snd (SetSendCallback c g))
  | gs_remove_send c g : gate_step g (snd (RemoveSendCallback c g))
  | gs_set_close c g : gate_step g (snd (SetCloseCallback c g))
  | gs_remove_close c g : gate_step g (snd (RemoveCloseCallback c g))
  | gs_send c data g : gate_step g (snd (SendToConn c data g))
  | gs_close c g : gate_step g (snd (CloseConnection c g)).

(** A user is found at a connection that belongs to him; a connection is authenticated when
    it belongs to somebody. *)
Record gate_wf (g : Gate) : Prop := {
  wf_user u c : user_to_conn g !! u = Some c →
    u ≠ "" ∧ ∃ x, connections g !! c = Some x ∧ c_user_id x = u;
  wf_conn c x : connections g !! c = Some x →
    c_conn_id x = c ∧ c_authenticated x = bool_decide (c_user_id x ≠ "") }.

(** The tables of two states are the same. *)
Definition same_tables (g g' : Gate) : Prop :=
  connections g' = connections g ∧ user_to_conn g' = user_to_conn g.
#[export] Instance same_tables_preorder : PreOrder same_tables.
Proof. split; unfold same_tables; [by intros g|]. intros a b c [-> ->] [-> ->]. done. Qed.
Lemma gate_wf_same g g' : same_tables g g' → gate_wf g → gate_wf g'.
Proof. intros [Hc Hu] [H1 H2]. split; rewrite Hc, ?Hu; auto. Qed.

Lemma SendToConn_same c data g : same_tables g (snd (SendToConn c data g)).
Proof. unfold SendToConn. by case_decide. Qed.
Lemma CloseConnection_same c g : same_tables g (snd (CloseConnection c g)).
Proof. unfold CloseConnection. by case_decide. Qed.

(** One connection changes, but not its owner. *)
Lemma gate_wf_update g c x x' : gate_wf g → connections g !! c = Some x → c_user_id x' = c_user_id x →
  c_conn_id x' = c_conn_id x → c_authenticated x' = c_authenticated x →
  gate_wf (with_tables (<[c := x']> (connections g)) (user_to_conn g) g).
Proof.
  intros [H1 H2] Hx Hu Hid Ha. split; cbn.
  - intros u c' Hc'. destruct (H1 _ _ Hc') as (Hne & y & Hy & Hyu). split; [done|].
    destruct (decide (c = c')) as [->|Hcc]; simplify_map_eq; eauto.
  - intros c' y Hy. destruct (decide (c = c')) as [->|Hcc]; simplify_map_eq; [|eauto].
    rewrite Hu, Ha, Hid. eauto.
Qed.

(** A connection loses its owner or disappears, with the entry of its owner. *)
Lemma gate_wf_release g c o us : gate_wf g →
  (∀ x', o = Some x' → c_conn_id x' = c ∧ c_user_id x' = "" ∧ c_authenticated x' = false) →
  (∀ u c', us !! u = Some c' → user_to_conn g !! u = Some c' ∧ c' ≠ c) →
  gate_wf (with_tables (partial_alter (λ _, o) c (connections g)) us g).
Proof.
  intros [H1 H2] Ho Hus. split; cbn.
  - intros u c' [Hc' Hne]%Hus. destruct (H1 _ _ Hc') as (Hu & x & Hx & Hxu).
    split; [done|]. exists x. by rewrite lookup_partial_alter_ne.
  - intros c' x Hx. destruct (decide (c = c')) as [->|Hcc].
    + rewrite lookup_partial_alter_eq in Hx. destruct (Ho _ Hx) as (-> & -> & ->). done.
    + rewrite lookup_partial_alter_ne in Hx by done. eauto.
Qed.

Lemma BindUser_wf c u t d ty g : u ≠ "" → gate_wf g → gate_wf (snd (BindUser c u t d ty g)).
Proof.
  intros Hu [H1 H2]. unfold BindUser. destruct (connections g !! c) as [x|] eqn:Hx; [|done].
  destruct (H2 _ _ Hx) as [Hid Ha]. split; cbn.
  - intros v c' Hv. destruct (decide (u = v)) as [<-|Huv].
    + rewrite lookup_insert_eq in Hv. injection Hv as <-. split; [done|].
      exists (bound u t d ty x). by rewrite lookup_insert_eq.
    + rewrite lookup_insert_ne in Hv by done.
      assert (user_to_conn g !! v = Some c' ∧ (c_user_id x ≠ "" → v ≠ c_user_id x)) as [Hv' Hne].
      { case_decide; [|done]. apply lookup_delete_Some in Hv. naive_solver. }
      destruct (H1 _ _ Hv') as (Hvn & y & Hy & Hyv). split; [done|]. exists y.
      rewrite lookup_insert_ne; [done|]. intros <-. assert (y = x) as -> by congruence.
      rewrite Hyv in Hne. by apply Hne.
  - intros c' y Hy. destruct (decide (c = c')) as [<-|Hcc]; simplify_map_eq; [|eauto].
    split; [done|]. by rewrite bool_decide_true.
Qed.

Lemma gate_step_wf g g' : gate_step g g' → gate_wf g → gate_wf g'.
Proof.
  destruct 1 as [now c g Hnew|c g|c u t d ty g Hu|u g|now c g|c g|c g|c g|c g|c data g|c g]; intros Hwf;
    try (eapply gate_wf_same; [|done]; done || apply SendToConn_same || apply CloseConnection_same).
  - cbn. apply gate_wf_release; [done|by intros x' [= <-]|].
    intros u c' Hc'. split; [done|]. intros ->. destruct (wf_user _ Hwf _ _ Hc') as (_ & x & ? & _). congruence.
  - unfold erase_connection. destruct (connections g !! c) as [x|] eqn:Hx; [cbn|done].
    apply gate_wf_release; [done|done|]. intros u c' Hc'.
    assert (user_to_conn g !! u = Some c' ∧ (c_user_id x ≠ "" → u ≠ c_user_id x)) as [Hu Hne].
    { case_decide; [|done]. apply lookup_delete_Some in Hc'. naive_solver. }
    split; [done|]. intros ->. destruct (wf_user _ Hwf _ _ Hu) as (? & y & ? & ?).
    assert (y = x) as -> by congruence. subst. by apply Hne.
  - by apply BindUser_wf.
  - unfold UnbindUser. destruct (list_find _ _) as [[i [cid x]]|] eqn:Hfind; cbn.
    + apply list_find_Some in Hfind as (Hin & Hux & _). cbn in Hux.
      apply list_elem_of_lookup_2, elem_of_map_to_list in Hin.
      apply gate_wf_release; [done|intros x' [= <-]; cbn; destruct (wf_conn _ Hwf _ _ Hin); done|].
      intros v c' [Hv Hc']%lookup_delete_Some. split; [done|]. intros ->.
      destruct (wf_user _ Hwf _ _ Hc') as (_ & y & ? & ?). congruence.
    + split; cbn; [|apply Hwf]. intros v c' [Hv Hc']%lookup_delete_Some. by apply Hwf.
  - unfold UpdateHeartbeat. destruct (connections g !! c) as [x|] eqn:Hx; [cbn|done].
    by eapply gate_wf_update.
Qed.

Lemma gate_steps_wf g : rtc gate_step gate_empty g → gate_wf g.
Proof.
  assert (gate_wf gate_empty) as Hwf by (split; cbn; intros ??; by rewrite lookup_empty).
  revert Hwf. generalize gate_empty. induction 2; eauto using gate_step_wf.
Qed.

(** * Properties of the tables *)

Section TableProperties.
Context `{!ProtoBuf}.

(** C19: whatever order the critical sections of the gateway run in, its tables agree: a user is found at a
    connection that is authenticated as him and at no other user's, and a connection is
    authenticated exactly when it belongs to somebody. *)
Theorem gate_tables_consistent g : rtc gate_step gate_empty g →
  (∀ u c, user_to_conn g !! u = Some c →
     u ≠ "" ∧ ∃ x, connections g !! c = Some x ∧ c_user_id x = u ∧ c_authenticated x = true) ∧
  (∀ u v c, user_to_conn g !! u = Some c → user_to_conn g !! v = Some c → u = v) ∧
  (∀ c x, connections g !! c = Some x → c_conn_id x = c ∧ (c_authenticated x = true ↔ c_user_id x ≠ "")).
Proof.
  intros [Hu Hc]%gate_steps_wf. split_and!.
  - intros u c Hin. destruct (Hu _ _ Hin) as (Hne & x & Hx & <-). split; [done|]. exists x.
    split_and!; [done..|]. rewrite (proj2 (Hc _ _ Hx)). by rewrite bool_decide_true.
  - intros u v c (_ & x & Hx & <-)%Hu (_ & y & Hy & <-)%Hu. congruence.
  - intros c x Hx. destruct (Hc _ _ Hx) as [Hid Ha]. split; [done|]. rewrite Ha. apply bool_decide_eq_true.
Qed.

(** whatever order the critical sections of the gateway run in, a push for a user that
    succeeds posts one frame, to a single session, whose connection is authenticated as that
    user; no other session gets anything. *)
Theorem push_reaches_its_user g u cmd payload g' : rtc gate_step gate_empty g →
  PushToUser u cmd payload g = (Ret true, g') →
  ∃ c x data, connections g !! c = Some x ∧ c_user_id x = u ∧ c_authenticated x = true ∧
    c ∈ send_callbacks g ∧ g' = post (PSend c data) g ∧
    SerializeToString {| zsm_cmd := if decide (cmd = "") then "message" else cmd; zsm_payload := payload;
      zsm_request_id := ""; zsm_code := 0; zsm_message := "" |} = Some data.
Proof.
  intros Hwf%gate_steps_wf Hrun. unfold PushToUser, GetConnIdByUser in Hrun. munfold Hrun.
  destruct (user_to_conn g !! u) as [c|] eqn:Hu; [|done]. cbn [default] in Hrun.
  case_decide; [done|]. destruct (SerializeToString _) as [data|] eqn:Hs; [|done].
  unfold SendToConn in Hrun. case_decide; [|done]. injection Hrun as <-.
  destruct (wf_user _ Hwf _ _ Hu) as (Hne & x & Hx & <-). exists c, x, data.
  split_and!; try done. rewrite (proj2 (wf_conn _ Hwf _ _ Hx)). by rewrite bool_decide_true.
Qed.

(** closing the older of a user's two connections cuts off the newer one: when a user is bound to a second
    connection and the first is removed, the gateway reports the user offline and no longer finds him,
    although the second connection is still there, authenticated as that user. *)
Theorem old_connection_cuts_off_new g c1 c2 u t d ty x1 x2 cmd payload : c1 ≠ c2 → u ≠ "" →
  connections g !! c1 = Some x1 → c_user_id x1 = u → connections g !! c2 = Some x2 →
  ∃ g1 g2, BindUser c2 u t d ty g = (Ret true, g1) ∧ erase_connection c1 g1 = (Ret u, g2) ∧
    (∃ x, connections g2 !! c2 = Some x ∧ c_user_id x = u ∧ c_authenticated x = true) ∧
    PushToUser u cmd payload g2 = (Ret false, g2).
Proof.
  intros Hc Hu H1 Hu1 H2. unfold BindUser. rewrite H2. eexists _, _. split; [done|].
  unfold erase_connection. cbn [connections with_tables]. rewrite lookup_insert_ne, H1 by done.
  split; [by rewrite Hu1|]. cbn. split.
  - exists (bound u t d ty x2). rewrite lookup_delete_ne, lookup_insert_eq by done. done.
  - unfold PushToUser, GetConnIdByUser, mbind, M_bind, reads. cbn.
    rewrite (decide_True (P:=u ≠ "")) by done. by rewrite lookup_delete_eq.
Qed.
End TableProperties.

(** * The gateway and the zone server *)

(** This gateway is a part of the state; a call of the zone server changes its tables in no way
    (it can post to the sessions). *)
Class ZoneStubLaws (W : Type) `{ZoneStub W} : Prop := {
  gate_of_put (g : Gate) (w : W) : gate_of (put_gate g w) = g;
  put_gate_of (w : W) : put_gate (gate_of w) w = w;
  stub_UserOnline_same c a1 a2 a3 a4 (w : W) :
    same_tables (gate_of w) (gate_of (snd (stub_UserOnline c a1 a2 a3 a4 w)));
  stub_UserOffline_same c a1 a2 (w : W) :
    same_tables (gate_of w) (gate_of (snd (stub_UserOffline c a1 a2 w)));
  stub_HandleClientRequest_same c a1 a2 a3 a4 a5 a6 (w : W) :
    same_tables (gate_of w) (gate_of (snd (stub_HandleClientRequest c a1 a2 a3 a4 a5 a6 w))) }.

Section GateProperties.
Context {W : Type} `{!ZoneStub W} `{!ZoneStubLaws W} `{!ProtoBuf}.
Variable gate_id secret : string.
Variable zone_client : bool.
Implicit Types w : W.

(** The tables before and after a run. *)
Definition keeps_tables {A} : M W A → Prop := along (on_view gate_of same_tables).
Lemma keeps_bind {A B} (m : M W A) (f : A → M W B) :
  keeps_tables m → (∀ a, keeps_tables (f a)) → keeps_tables (x ← m; f x).
Proof. apply along_bind, _. Qed.
Lemma keeps_ret {A} (a : A) : keeps_tables (mret a).
Proof. apply along_ret, _. Qed.
Lemma keeps_on_gate {A} (m : M Gate A) : (∀ g, same_tables g (snd (m g))) → keeps_tables (on_gate m).
Proof. intros Hm. apply along_zoom. intros w. unfold on_view. by rewrite gate_of_put. Qed.
Lemma keeps_SendResponse c cmd rid code msg p : keeps_tables (on_gate (SendResponse c cmd rid code msg p)).
Proof.
  apply keeps_on_gate. intros g. unfold SendResponse. destruct (SerializeToString _); [apply SendToConn_same|done].
Qed.
Lemma keeps_respond c cmd rid code msg p : keeps_tables (respond c cmd rid code msg p).
Proof. apply keeps_bind; [apply keeps_SendResponse|intros; apply keeps_ret]. Qed.
Lemma keeps_error c cmd rid ec : keeps_tables (error_response c cmd rid ec).
Proof.
  apply keeps_on_gate. intros g. unfold SendError, SendResponse, mbind, M_bind, mret, M_ret.
  destruct (SerializeToString _) as [data|]; [|done]. pose proof (SendToConn_same c data g) as Hs.
  by destruct (SendToConn c data g) as [[]].
Qed.
Lemma keeps_UserOnline u d ty : keeps_tables (ZoneRpcClient.UserOnline secret u gate_id d ty).
Proof. apply keeps_bind; [intros w; apply stub_UserOnline_same|intros; apply keeps_ret]. Qed.
Lemma keeps_request c u cmd p rid t : keeps_tables (ZoneRpcClient.HandleClientRequest secret c u cmd p rid t).
Proof. apply keeps_bind; [intros w; apply stub_HandleClientRequest_same|intros; apply keeps_ret]. Qed.

(** The user and the token of a connection. *)
Definition owner (g : Gate) (conn_id : string) : option (string * string) :=
  (λ c, (c_user_id c, c_token c)) <$> connections g !! conn_id.
Lemma owner_keeps {A} (m : M W A) w k : keeps_tables m → owner (gate_of (snd (m w))) k = owner (gate_of w) k.
Proof. intros Hm. unfold owner. by destruct (Hm w) as [-> _]. Qed.
Lemma owner_bind c u t d ty w k :
  owner (gate_of (snd (on_gate (BindUser c u t d ty) w))) k =
    (if decide (k = c) then (λ _, (u, t)) <$> owner (gate_of w) k else owner (gate_of w) k) ∧
  fst (on_gate (BindUser c u t d ty) w) = Ret (bool_decide (is_Some (owner (gate_of w) c))).
Proof.
  unfold on_gate, zoom, BindUser, owner.
  destruct (connections (gate_of w) !! c) as [x|] eqn:Hx; cbn; rewrite gate_of_put; cbn; split; try done.
  - case_decide; subst; simplify_map_eq; done.
  - case_decide; subst; simplify_map_eq; done.
Qed.

(** What the zone server's answer to a request of a connection says of its owner. *)
Definition named_by (cmd payload : string) (ans : HandleClientRequestResult) (u t : string) : Prop :=
  hr_code ans = ErrorCodeToInt OK ∧ u ≠ "" ∧ t ≠ "" ∧
  (cmd = "auth.login" ∧ (∃ resp, ParseFromString (hr_payload ans) = Some resp ∧
     zalr_user_id resp = u ∧ zalr_token resp = t) ∨
   cmd = "auth.validate_token" ∧ (∃ resp req, ParseFromString (hr_payload ans) = Some resp ∧
     zavtr_user_id resp = u ∧ ParseFromString payload = Some req ∧ zavt_token req = t)).

(** The user and the token that go with a connection's request to the zone server. *)
Definition asks_as (cmd conn_id : string) (w : W) : string * string :=
  if decide (cmd = "auth.login") then ("", "") else default ("", "") (owner (gate_of w) conn_id).
(** The connection [k] has got a new owner in [w'], the one that the zone server's answer to the
    request of [conn_id] in [w] names. *)
Definition rebound (w w' : W) (conn_id cmd payload request_id : string) (k : string) : Prop :=
  k = conn_id ∧ ∃ u t ans, named_by cmd payload ans u t ∧ owner (gate_of w') k = Some (u, t) ∧
    fst (stub_HandleClientRequest (AddInternalSecret secret) conn_id (asks_as cmd conn_id w).1 cmd payload
           request_id (asks_as cmd conn_id w).2 w) = Ret (inl ans).

Lemma request_answer c u cmd p rid t w ans w1 :
  ZoneRpcClient.HandleClientRequest secret c u cmd p rid t w = (Ret (true, ans), w1) →
  fst (stub_HandleClientRequest (AddInternalSecret secret) c u cmd p rid t w) = Ret (inl ans).
Proof.
  intros (r & w2 & Hrun & Hret)%run_bind_ret. rewrite Hrun. destruct r as [ans'|e]; [|done].
  by injection Hret as -> _.
Qed.
Local Hint Resolve keeps_bind keeps_ret keeps_respond keeps_error keeps_UserOnline keeps_request : core.

Lemma GetConnection_run c w : on_gate (GetConnection c) w = (Ret (connections (gate_of w) !! c), w).
Proof. unfold on_gate, zoom, GetConnection, reads. cbn. by rewrite put_gate_of. Qed.
Lemma asks_as_connection cmd c w : cmd ≠ "auth.login" → asks_as cmd c w =
  (match connections (gate_of w) !! c with Some c => c_user_id c | None => "" end,
   match connections (gate_of w) !! c with Some c => c_token c | None => "" end).
Proof. intros Hcmd. unfold asks_as, owner. rewrite decide_False by done. by destruct (_ !! c). Qed.

Lemma HandleLogin_owner c p rid w k (w' := snd (HandleLogin gate_id secret zone_client c p rid w)) :
  owner (gate_of w') k = owner (gate_of w) k ∨ rebound w w' c "auth.login" p rid k.
Proof.
  subst w'. unfold HandleLogin. destruct zone_client; cbn [negb]; [|left; by apply owner_keeps].
  destruct (ParseFromString p) as [req|]; [|left; by apply owner_keeps].
  pose proof (owner_keeps _ w k (keeps_request c "" "auth.login" p rid "")) as Hk.
  destruct (ZoneRpcClient.HandleClientRequest _ _ _ _ _ _ _ w) as [[[ok ans]|] w1] eqn:Hreq; cbn [snd] in Hk;
    [|left; by rewrite (bind_exc _ _ _ _ Hreq)]. rewrite (bind_run _ _ _ _ _ Hreq). destruct ok; cbn [negb]; [|destruct (rpc_failed ans); left; rewrite <-Hk; by apply owner_keeps].
  case_decide as Hcode; [left; rewrite <-Hk; by apply owner_keeps|].
  destruct (ParseFromString (hr_payload ans)) as [resp|] eqn:Hresp; [|left; rewrite <-Hk; by apply owner_keeps].
  case_decide as Hne; [left; rewrite <-Hk; by apply owner_keeps|].
  destruct (owner_bind c (zalr_user_id resp) (zalr_token resp) (zal_device_id req) (zal_device_type req) w1 k)
    as [Ho Hb].
  destruct (on_gate (BindUser _ _ _ _ _) w1) as [[b|] w2] eqn:Hbind; cbn [snd fst] in *; [|done].
  injection Hb as ->. rewrite (bind_run _ _ _ _ _ Hbind).
  case_bool_decide as Hc; cbn [negb].
  2:{ left. rewrite (owner_keeps _ w2) by done. rewrite Ho, Hk. case_decide as Hkc; [|done].
      subst k. rewrite <-Hk in *. destruct (owner (gate_of w1) c); [by destruct Hc; eexists|done]. }
  match goal with |- context [snd (?m w2)] => assert (keeps_tables m) as Hm by auto end.
  case_decide as Hkc.
  - right. split; [done|]. subst k. destruct Hc as [o Hc]. rewrite Hc in Ho.
    eexists _, _, ans. split; [|split; [by rewrite owner_keeps, Ho|by eapply request_answer]].
    unfold named_by. assert (zalr_user_id resp ≠ "" ∧ zalr_token resp ≠ "") as [? ?] by naive_solver. split_and!; [by destruct (decide (hr_code ans = ErrorCodeToInt OK))|done..|].
    left. split; [done|]. by exists resp.
  - left. rewrite owner_keeps, Ho by done. done.
Qed.

Lemma bind_validated_owner c p ans w k (w' := snd (bind_validated gate_id secret c p ans w)) :
  hr_code ans = ErrorCodeToInt OK →
  owner (gate_of w') k = owner (gate_of w) k ∨
  k = c ∧ ∃ u t, named_by "auth.validate_token" p ans u t ∧ owner (gate_of w') k = Some (u, t).
Proof.
  intros Hok. subst w'. unfold bind_validated. case_decide as Hne; [by left|].
  apply Decidable.not_or in Hne as [Hu Ht].
  destruct (ParseFromString (hr_payload ans)) as [resp|] eqn:Hresp; [|done].
  destruct (ParseFromString p) as [req|] eqn:Hreq; [|done].
  rewrite (bind_run _ _ _ _ _ (GetConnection_run c w)).
  set (x := connections (gate_of w) !! c).
  destruct (owner_bind c (zavtr_user_id resp) (zavt_token req)
    (match x with Some c => c_device_id c | None => "" end)
    (match x with Some c => c_device_type c | None => "" end) w k) as [Ho Hb].
  destruct (on_gate (BindUser _ _ _ _ _) w) as [[b|] w2] eqn:Hbind; cbn [snd fst] in *; [|done].
  rewrite (bind_run _ _ _ _ _ Hbind). rewrite owner_keeps, Ho by auto.
  case_decide as Hk; [|by left]. subst k. destruct (owner (gate_of w) c) as [o|]; [right|by left].
  split; [done|]. eexists _, _. split; [|done]. split_and!; [done..|]. right. split; [done|]. by exists resp, req.
Qed.

Lemma ForwardToZone_owner c cmd p rid w k
    (w' := snd (ForwardToZone gate_id secret zone_client c cmd p rid w)) : cmd ≠ "auth.login" →
  owner (gate_of w') k = owner (gate_of w) k ∨ rebound w w' c cmd p rid k.
Proof.
  intros Hcmd. subst w'. unfold ForwardToZone. destruct zone_client; cbn [negb]; [|left; by apply owner_keeps].
  rewrite (bind_run _ _ _ _ _ (GetConnection_run c w)).
  pose proof (asks_as_connection cmd c w Hcmd) as Has. set (x := connections (gate_of w) !! c) in *.
  pose proof (f_equal fst Has) as Hau. pose proof (f_equal snd Has) as Hat. cbn [fst snd] in Hau, Hat.
  pose proof (owner_keeps _ w k (keeps_request c (asks_as cmd c w).1 cmd p rid (asks_as cmd c w).2)) as Hk.
  rewrite Hau, Hat in Hk.
  destruct (ZoneRpcClient.HandleClientRequest _ _ _ _ _ _ _ w) as [[[ok ans]|] w1] eqn:Hreq; cbn [snd] in Hk;
    [|left; by rewrite (bind_exc _ _ _ _ Hreq)].
  rewrite (bind_run _ _ _ _ _ Hreq).
  destruct ok; cbn [negb]; [|destruct (rpc_failed ans); left; rewrite <-Hk; by apply owner_keeps].
  case_decide as Hval; [|left; rewrite <-Hk; by apply owner_keeps, keeps_respond].
  destruct Hval as [-> Hok]. destruct (bind_validated_owner c p ans w1 k Hok) as [Ho|(-> & u & t & Hn & Ho)].
  all: destruct (bind_validated _ _ _ _ _ w1) as [[b|] w2] eqn:Hbind; cbn [snd] in Ho;
    [rewrite (bind_run _ _ _ _ _ Hbind)|rewrite (bind_exc _ _ _ _ Hbind)].
  1, 2: left; cbn [snd]; rewrite ?(owner_keeps (respond _ _ _ _ _ _)) by auto; by rewrite Ho, Hk.
  all: right; split; [done|]; exists u, t, ans; split; [done|]; cbn [snd].
  all: rewrite Hau, Hat; split; [|by eapply request_answer].
  - by rewrite owner_keeps, Ho.
  - done.
Qed.

Lemma HandleHeartbeat_owner now now' c rid w k :
  owner (gate_of (snd (HandleHeartbeat now now' c rid w))) k = owner (gate_of w) k.
Proof.
  unfold HandleHeartbeat.
  assert (∀ w1, on_gate (UpdateHeartbeat now c) w = (Ret tt, w1) → owner (gate_of w1) k = owner (gate_of w) k) as Hb.
  { unfold on_gate, zoom, UpdateHeartbeat, owner. intros w1.
    destruct (connections (gate_of w) !! c) as [x|] eqn:Hx; intros [= <-]; rewrite gate_of_put; [|done]. cbn.
    destruct (decide (k = c)) as [->|]; by simplify_map_eq. }
  destruct (on_gate (UpdateHeartbeat now c) w) as [[[]|] w1] eqn:Hrun.
  - rewrite (bind_run _ _ _ _ _ Hrun). rewrite <-(Hb w1) by done.
    destruct (SerializeToString _); [|done]. by apply owner_keeps.
  - unfold on_gate, zoom, UpdateHeartbeat in Hrun. by destruct (connections _ !! c).
Qed.

(** C17: a message that a client sends over a connection changes the owner of no connection, unless
    it is a login or a token to validate, the zone server's answer to it is a success and names a user and a token:
    then they become the owner of that connection, and of no other. *)
Theorem owner_named_by_zone now now' c data w w' k :
  snd (OnMessage gate_id secret zone_client now now' c data w) = w' →
  owner (gate_of w') k = owner (gate_of w) k ∨
  ∃ msg, ParseFromString data = Some msg ∧
    rebound w w' c (zcm_cmd msg) (zcm_payload msg) (zcm_request_id msg) k.
Proof.
  intros <-. unfold OnMessage. destruct (ParseFromString data) as [msg|]; [|by left].
  assert (owner (gate_of (snd (HandleClientMessage gate_id secret zone_client now now' c (zcm_cmd msg)
    (zcm_payload msg) (zcm_request_id msg) w))) k = owner (gate_of w) k ∨
    rebound w (snd (HandleClientMessage gate_id secret zone_client now now' c (zcm_cmd msg)
    (zcm_payload msg) (zcm_request_id msg) w)) c (zcm_cmd msg) (zcm_payload msg) (zcm_request_id msg) k)
    as [|]; [|by left|right; by exists msg].
  unfold HandleClientMessage. case_decide as Hl; [rewrite Hl; apply HandleLogin_owner|].
  case_decide; [by apply ForwardToZone_owner|]. case_decide; [left; apply HandleHeartbeat_owner|].
  case_decide; [by apply ForwardToZone_owner|].
  destruct (forwarded _); [by apply ForwardToZone_owner|]. left. by apply owner_keeps.
Qed.
End GateProperties.

Create HintDb gate.
#[export] Hint Resolve keeps_bind keeps_ret keeps_respond keeps_error keeps_UserOnline keeps_request : gate.

(** * Concrete runs *)

(** A zone server that gives one answer to every request. *)
Record Answering : Type := { an_gate : Gate; an_answer : HandleClientRequestResult }.
#[export] Instance AnsweringStub : ZoneStub Answering := {|
  gate_of := an_gate;
  put_gate g w := {| an_gate := g; an_answer := an_answer w |};
  stub_UserOnline _ _ _ _ _ := mret (inl (ok_plain tt));
  stub_UserOffline _ _ _ := mret (inl (ok_plain tt));
  stub_GateRegister _ _ _ _ := mret (inl (ok_plain tt));
  stub_GateHeartbeat _ _ _ := mret (inl (ok_plain tt));
  stub_HandleClientRequest _ _ _ _ _ _ _ := λ w, (Ret (inl (an_answer w)), w) |}.
#[export] Instance AnsweringLaws : ZoneStubLaws Answering.
Proof. by split; [|intros []|..]. Qed.

Definition proto_text {A} `{Msg A} (a : A) : string := default "" (SerializeToString a).
Definition logged_in (u t : string) : HandleClientRequestResult :=
  {| hr_code := 0; hr_message := "";
     hr_payload := proto_text {| zalr_success := true; zalr_user_id := u; zalr_token := t;
                                 zalr_expire_at := 0; zalr_error := "" |};
     hr_request_id := "r1" |}.
Definition login_text : string :=
  proto_text {| zcm_cmd := "auth.login";
                zcm_payload := proto_text {| zal_username := "alice"; zal_password := "pw"; zal_device_id := "d";
                                             zal_device_type := "t" |};
                zcm_request_id := "r1" |}.
Definition gate_opened (l : list string) : Gate :=
  foldr (λ c g, snd (SetCloseCallback c (snd (SetSendCallback c (snd (AddConnection 5 c g)))))) gate_empty l.
Definition gate_bound : Gate := snd (BindUser "c1" "u1" "t1" "d" "t" (gate_opened ["c1"; "c2"])).

Lemma gate_opened_reachable : rtc gate_step gate_empty (gate_opened ["c1"; "c2"]).
Proof.
  assert (∀ c g, connections g !! c = None → rtc gate_step g
    (snd (SetCloseCallback c (snd (SetSendCallback c (snd (AddConnection 5 c g))))))) as Hopen.
  { intros c g Hc. eapply rtc_l; [by apply gs_add|]. eapply rtc_l; [apply gs_set_send|].
    apply rtc_once, gs_set_close. }
  etrans; [apply (Hopen "c2"); done|]. by apply Hopen.
Qed.
Lemma gate_bound_reachable : rtc gate_step gate_empty gate_bound.
Proof. eapply rtc_r; [apply gate_opened_reachable|by apply gs_bind]. Qed.

(** Witnesses. *)

Lemma gate_tables_consistent_witness :
  user_to_conn gate_bound !! "u1" = Some "c1" ∧
  ∃ x, connections gate_bound !! "c1" = Some x ∧ c_user_id x = "u1" ∧ c_authenticated x = true.
Proof.
  destruct (gate_tables_consistent gate_bound gate_bound_reachable) as (Hu & _ & _).
  assert (user_to_conn gate_bound !! "u1" = Some "c1") as Hin by (vm_compute; reflexivity).
  exact (conj Hin (proj2 (Hu "u1" "c1" Hin))).
Defined.
Lemma push_reaches_its_user_witness :
  fst (PushToUser "u1" "chat.message" "hello" gate_bound) = Ret true ∧
  (∃ c x data, connections gate_bound !! c = Some x ∧ c_user_id x = "u1" ∧ c_authenticated x = true ∧
    c ∈ send_callbacks gate_bound ∧
    snd (PushToUser "u1" "chat.message" "hello" gate_bound) = post (PSend c data) gate_bound).
Proof.
  assert (fst (PushToUser "u1" "chat.message" "hello" gate_bound) = Ret true) as Hrun by eval_eq.
  split; [done|].
  destruct (push_reaches_its_user gate_bound "u1" "chat.message" "hello" _ gate_bound_reachable
    (run_fst _ _ _ Hrun)) as (c & x & data & H1 & H2 & H3 & H4 & H5 & _).
  exists c, x, data. exact (conj H1 (conj H2 (conj H3 (conj H4 H5)))).
Defined.

Lemma old_connection_cuts_off_new_witness :
  ∃ g1 g2, BindUser "c2" "u1" "t2" "d2" "t" gate_bound = (Ret true, g1) ∧
    erase_connection "c1" g1 = (Ret "u1", g2) ∧
    (∃ x, connections g2 !! "c2" = Some x ∧ c_user_id x = "u1" ∧ c_authenticated x = true) ∧
    PushToUser "u1" "chat.message" "hello" g2 = (Ret false, g2).
Proof.
  eapply (old_connection_cuts_off_new gate_bound "c1" "c2" "u1" "t2" "d2" "t"); try done;
    vm_compute; reflexivity.
Defined.

Lemma owner_named_by_zone_witness :
  let w := {| an_gate := gate_opened ["c1"; "c2"]; an_answer := logged_in "u1" "t1" |} in
  let w' := snd (OnMessage "g1" "" true 7 7 "c1" login_text w) in
  owner (gate_of w') "c1" = Some ("u1", "t1") ∧
  (owner (gate_of w') "c1" = owner (gate_of w) "c1" ∨
   ∃ msg, ParseFromString login_text = Some msg ∧
     rebound "" w w' "c1" (zcm_cmd msg) (zcm_payload msg) (zcm_request_id msg) "c1").
Proof. cbv zeta. split; [eval_eq|]. by apply (owner_named_by_zone "g1" "" true 7 7 "c1" login_text). Defined.
