(* ===== verification/GateAnswers.v ===== *)
(** [gatesvr/internal/service/gate_service.cpp]: what a client gets back for a message. *)

From S2P Require Import Prelude External Errors Rpc Proto ZonePayloads ZoneRpc ZoneService GateService.

(** What the gateway relies on: a call of the zone server posts to sessions of this
    gateway at most, and the answer to a request carries the request's id. *)
Definition posts_more (g g' : Gate) : Prop :=
  send_callbacks g' = send_callbacks g ∧ posted g `prefix_of` posted g'.
#[export] Instance posts_more_preorder : PreOrder posts_more.
Proof.
  split; unfold posts_more; [done|]. intros a b c [-> Hab] [-> Hbc]. split; [done|]. by etrans.
Qed.
Class ZoneAnswers (W : Type) `{ZoneStub W} : Prop := {
  stub_UserOnline_posts c a1 a2 a3 a4 (w : W) :
    posts_more (gate_of w) (gate_of (snd (stub_UserOnline c a1 a2 a3 a4 w)));
  stub_HandleClientRequest_posts c a1 a2 a3 a4 a5 a6 (w : W) :
    posts_more (gate_of w) (gate_of (snd (stub_HandleClientRequest c a1 a2 a3 a4 a5 a6 w)));
  stub_HandleClientRequest_echo c a1 a2 a3 a4 rid a6 (w : W) ans :
    fst (stub_HandleClientRequest c a1 a2 a3 a4 rid a6 w) = Ret (inl ans) → hr_request_id ans = rid }.

(** Between the states [g] and [g'] of the gateway the session [c] was sent, last of all, a
    response to the command [cmd] with the id [rid]. *)
Definition answered `{ProtoBuf} (g g' : Gate) (c cmd rid : string) : Prop :=
  ∃ pushes frame sm, posted g' = posted g ++ pushes ++ [PSend c frame] ∧
    SerializeToString sm = Some frame ∧ zsm_cmd sm = cmd ∧ zsm_request_id sm = rid.

(** Messages are not too large to serialise. *)
Class ProtoTotal `{ProtoBuf} : Prop :=
  serialize_total : ∀ A (HA : Msg A) (a : A), is_Some (SerializeToString a).
#[export] Instance mem_proto_total : ProtoTotal.
Proof. intros A Hm a. by eexists. Qed.

Section Answers.
Context {W : Type} `{!ZoneStub W} `{!ZoneStubLaws W} `{!ZoneAnswers W} `{!ProtoBuf} `{!ProtoTotal}.
Variable gate_id secret : string.
Variable zone_client : bool.
Implicit Types w : W.

Definition posting {A} : M W A → Prop := along (on_view gate_of posts_more).
Lemma posting_bind {A B} (m : M W A) (f : A → M W B) :
  posting m → (∀ a, posting (f a)) → posting (x ← m; f x).
Proof. apply along_bind, _. Qed.
Lemma posting_ret {A} (a : A) : posting (mret a).
Proof. apply along_ret, _. Qed.
Lemma posting_on_gate {A} (m : M Gate A) : (∀ g, posts_more g (snd (m g))) → posting (on_gate m).
Proof. intros Hm. apply along_zoom. intros w. unfold on_view. by rewrite gate_of_put. Qed.
Lemma posting_GetConnection c : posting (on_gate (GetConnection c)).
Proof. by apply posting_on_gate. Qed.
Lemma posting_BindUser c u t d ty : posting (on_gate (BindUser c u t d ty)).
Proof. apply posting_on_gate. intros g. unfold BindUser. by destruct (connections g !! c). Qed.
Lemma posting_UpdateHeartbeat now c : posting (on_gate (UpdateHeartbeat now c)).
Proof. apply posting_on_gate. intros g. unfold UpdateHeartbeat. by destruct (connections g !! c). Qed.
Lemma posting_UserOnline u d ty : posting (ZoneRpcClient.UserOnline secret u gate_id d ty).
Proof. apply posting_bind; [intros w; apply stub_UserOnline_posts|intros; apply posting_ret]. Qed.
Local Hint Resolve posting_bind posting_ret posting_GetConnection posting_BindUser posting_UpdateHeartbeat
  posting_UserOnline : core.

(** The last thing [m] does is to send the connection [c] one frame, a response to [cmd] with the id [rid]. *)
Definition answers (c cmd rid : string) {A} (m : M W A) : Prop := ∀ w r w',
  c ∈ send_callbacks (gate_of w) → m w = (Ret r, w') → answered (gate_of w) (gate_of w') c cmd rid.

Lemma answers_bind c cmd rid {A B} (m : M W A) (f : A → M W B) :
  posting m → (∀ w a w1, m w = (Ret a, w1) → answers c cmd rid (f a)) → answers c cmd rid (x ← m; f x).
Proof.
  intros Hm Hf w r w' Hc (a & w1 & Hrun & Hrest)%run_bind_ret.
  specialize (Hm w). rewrite Hrun in Hm. destruct Hm as [Hcb [l Hl]]. cbn [snd] in *.
  destruct (Hf _ _ _ Hrun w1 r w') as (pushes & frame & sm & Hp & Hs); [by rewrite Hcb|done|].
  exists (l ++ pushes), frame, sm. split; [|done]. by rewrite Hp, Hl, <-!app_assoc.
Qed.
Lemma SendResponse_answers c cmd rid code msg p : answers c cmd rid (on_gate (SendResponse c cmd rid code msg p)).
Proof.
  intros w r w' Hc Hrun. unfold on_gate, zoom, SendResponse, SendToConn in Hrun.
  destruct (SerializeToString _) as [frame|] eqn:Hs.
  - rewrite decide_True in Hrun by done. injection Hrun as _ <-. rewrite gate_of_put.
    eexists [], frame, _. split_and!; [done|exact Hs|done..].
  - exfalso. eapply is_Some_None. rewrite <-Hs. apply serialize_total.
Qed.
Lemma then_ret_answers c cmd rid {A B} (m : M W A) (b : B) :
  answers c cmd rid m → answers c cmd rid (_ ← m; mret b).
Proof. intros Hm w r w' Hc (a & w1 & Hrun & [= _ <-])%run_bind_ret. by eapply Hm. Qed.
Lemma respond_answers c cmd rid code msg p : answers c cmd rid (respond c cmd rid code msg p).
Proof. apply then_ret_answers, SendResponse_answers. Qed.
Lemma error_answers c cmd rid ec : answers c cmd rid (error_response c cmd rid ec).
Proof.
  intros w r w' Hc Hrun.
  pose proof (SendResponse_answers c cmd rid (ErrorCodeToInt ec) (ErrorCodeToString ec) "" w) as Hans.
  unfold error_response, SendError, on_gate, zoom, mbind, M_bind, mret, M_ret in *.
  destruct (SendResponse _ _ _ _ _ _ (gate_of w)) as [[b|] g]; [|done]. injection Hrun as _ <-. by eapply Hans.
Qed.

Lemma posting_request c u cmd p rid t : posting (ZoneRpcClient.HandleClientRequest secret c u cmd p rid t).
Proof. apply posting_bind; [intros w; apply stub_HandleClientRequest_posts|intros; apply posting_ret]. Qed.
(** Delivered or not, what the client of the zone server returns has the request's id. *)
Lemma request_echo c u cmd p rid t w ok ans w1 :
  ZoneRpcClient.HandleClientRequest secret c u cmd p rid t w = (Ret (ok, ans), w1) → hr_request_id ans = rid.
Proof.
  intros (r & w2 & Hrun & Hret)%run_bind_ret. destruct r as [a|e]; injection Hret as _ <- _; [|done].
  eapply (stub_HandleClientRequest_echo _ _ _ _ _ _ _ w). by rewrite Hrun.
Qed.
Lemma posting_bind_validated c p ans : posting (bind_validated gate_id secret c p ans).
Proof. unfold bind_validated. case_decide; auto 8. Qed.
Local Hint Resolve posting_request posting_bind_validated respond_answers error_answers answers_bind : core.

Lemma HandleLogin_answers c p rid : answers c "auth.login" rid (HandleLogin gate_id secret zone_client c p rid).
Proof.
  unfold HandleLogin. destruct zone_client; cbn [negb]; [|auto]. destruct (ParseFromString p) as [req|]; [|auto].
  apply answers_bind; [auto|]. intros w [ok ans] w1 Hrun. pose proof (request_echo _ _ _ _ _ _ _ _ _ _ Hrun) as <-.
  destruct ok; cbn [negb]; [|destruct (rpc_failed ans); auto].
  case_decide; [auto|]. destruct (ParseFromString (hr_payload ans)); [|auto]. case_decide; [auto|].
  apply answers_bind; [auto|]. intros ? [] ? _; cbn [negb]; auto.
Qed.
Lemma ForwardToZone_answers c cmd p rid : answers c cmd rid (ForwardToZone gate_id secret zone_client c cmd p rid).
Proof.
  unfold ForwardToZone. destruct zone_client; cbn [negb]; [|auto].
  apply answers_bind; [apply posting_GetConnection|]. intros _ x _ _. apply answers_bind; [auto|].
  intros w [ok ans] w1 Hrun. pose proof (request_echo _ _ _ _ _ _ _ _ _ _ Hrun) as <-.
  destruct ok; cbn [negb]; [|destruct (rpc_failed ans); auto].
  apply answers_bind; [|auto]. case_decide; auto.
Qed.
Lemma HandleHeartbeat_answers now now' c rid : answers c "heartbeat" rid (HandleHeartbeat now now' c rid).
Proof.
  unfold HandleHeartbeat. apply answers_bind; [auto|]. intros _ _ _ _.
  destruct (SerializeToString _) as [payload|] eqn:Hs; [auto|].
  exfalso. eapply is_Some_None. rewrite <-Hs. apply serialize_total.
Qed.

Lemma OnMessage_answers now now' c data msg : ParseFromString data = Some msg →
  answers c (zcm_cmd msg) (zcm_request_id msg) (OnMessage gate_id secret zone_client now now' c data).
Proof.
  intros Hmsg. unfold OnMessage. rewrite Hmsg. unfold HandleClientMessage.
  case_decide as Hl; [rewrite Hl; apply HandleLogin_answers|].
  case_decide; [apply ForwardToZone_answers|].
  case_decide as Hh; [rewrite Hh; apply HandleHeartbeat_answers|].
  case_decide; [apply ForwardToZone_answers|].
  destruct (forwarded _); [apply ForwardToZone_answers|apply error_answers].
Qed.

(** C6: every message of a client that can be parsed is answered: whatever the command and whatever the zone
    server does, the last thing the gateway does is to send one frame to
    the same session, a response with the command and the request id of the message. *)
Theorem every_request_answered now now' c data msg w r w' :
  c ∈ send_callbacks (gate_of w) → ParseFromString data = Some msg →
  OnMessage gate_id secret zone_client now now' c data w = (Ret r, w') →
  answered (gate_of w) (gate_of w') c (zcm_cmd msg) (zcm_request_id msg).
Proof. intros Hc Hmsg Hrun. by eapply (OnMessage_answers now now' c data msg Hmsg). Qed.
End Answers.
