(* ===== verification/WsSession.v ===== *)
(** [gatesvr/internal/websocket/ws_listener.cpp]: a client's WebSocket session, its
    write queue and its life in the gateway's tables.

    Boost.Asio and Beast are outside: the handlers run one at a time on the strand of the
    session; [async_write] hands a frame to the socket and calls [OnWrite] once when it is done;
    a second [async_write] before that is undefined. *)

From Stdlib Require Import Ascii.
From S2P Require Import Prelude External Errors Utils Proto ZonePayloads ZoneRpc ZoneService GateService.

(** The members of [WsSession]; [ss_wire] are the frames given to [async_write], oldest first, and
    [ss_in_flight] the number of writes that have not called back. *)
Record Session : Type := {
  ss_queue : list string; ss_buffer : string; ss_writing : bool; ss_closed : bool;
  ss_wire : list string; ss_in_flight : nat }.
Definition session_new : Session :=
  {| ss_queue := []; ss_buffer := ""; ss_writing := false; ss_closed := false; ss_wire := [];
     ss_in_flight := 0 |}.

Definition GenerateConnId (now seq : Z) : string := "conn_" +:+ pretty now +:+ "_" +:+ pretty seq.

(** * Writing *)

Definition async_write (s : Session) : Session :=
  {| ss_queue := ss_queue s; ss_buffer := ss_buffer s; ss_writing := ss_writing s;
     ss_closed := ss_closed s; ss_wire := ss_wire s ++ [ss_buffer s];
     ss_in_flight := S (ss_in_flight s) |}.

Definition DoWrite (s : Session) : Session :=
  if ss_closed s then s else
  match ss_queue s with
  | [] => s
  | front :: queue =>
      async_write {| ss_queue := queue; ss_buffer := front; ss_writing := true;
                     ss_closed := ss_closed s; ss_wire := ss_wire s; ss_in_flight := ss_in_flight s |}
  end.

Definition QueueSend (data : string) (s : Session) : Session :=
  if ss_closed s then s else
  let s := {| ss_queue := ss_queue s ++ [data]; ss_buffer := ss_buffer s; ss_writing := ss_writing s;
              ss_closed := ss_closed s; ss_wire := ss_wire s; ss_in_flight := ss_in_flight s |} in
  if negb (ss_writing s) then DoWrite s else s.

Definition set_closed (s : Session) : Session :=
  {| ss_queue := ss_queue s; ss_buffer := ss_buffer s; ss_writing := ss_writing s; ss_closed := true;
     ss_wire := ss_wire s; ss_in_flight := ss_in_flight s |}.

(** * The session in the gateway *)

Record SessionIn (W : Type) : Type := { si_session : Session; si_world : W }.
Arguments Build_SessionIn {W}. Arguments si_session {W}. Arguments si_world {W}.

Section Session.
Context {W : Type} `{!ZoneStub W} `{!ProtoBuf}.
Variable gate_id zonesvr_internal_secret : string.
Variable zone_client : bool.
Variable conn_id : string.                  (* [conn_id_] *)
Notation SM := (M (SessionIn W)).

Definition on_world {A} (m : M W A) : SM A :=
  zoom si_world (λ w s, {| si_session := si_session s; si_world := w |}) m.
Definition on_session (f : Session → Session) : SM unit := λ s,
  (Ret tt, {| si_session := f (si_session s); si_world := si_world s |}).

(** [WebSocketHandler::OnDisconnect] does nothing; closing the socket is outside. *)
Definition Close : SM unit :=
  closed ← reads (λ s, ss_closed (si_session s));
  if (closed : bool) then mret tt else
  _ ← on_session set_closed;
  _ ← on_world (on_gate (RemoveCloseCallback conn_id));
  _ ← on_world (on_gate (RemoveSendCallback conn_id));
  on_world (RemoveConnection gate_id zonesvr_internal_secret zone_client conn_id).

(** A write is done; [ec] is its error. *)
Definition write_done (s : Session) : Session :=
  {| ss_queue := ss_queue s; ss_buffer := ss_buffer s; ss_writing := false; ss_closed := ss_closed s;
     ss_wire := ss_wire s; ss_in_flight := pred (ss_in_flight s) |}.
Definition OnWrite (ec : bool) : SM unit :=
  _ ← on_session write_done;
  s ← reads si_session;
  if ec then (if negb (ss_closed s) then Close else mret tt)
  else match ss_queue s with [] => mret tt | _ :: _ => on_session DoWrite end.

(** A frame was read: [None] is an error or the end of the stream; a text frame closes the
    session.  Then the next read is started. *)
Definition OnRead (now now' : Z) (frame : option (bool * string)) : SM unit :=
  match frame with
  | None | Some (true, _) => Close
  | Some (false, data) =>
      on_world (OnMessage gate_id zonesvr_internal_secret zone_client now now' conn_id data)
  end.

(** The handshake is accepted: the request is an upgrade and asks for "/ws". *)
Definition handshake_ok (is_upgrade : bool) (target : string) : bool :=
  is_upgrade && bool_decide (target = "/ws").
Definition OnAccept (now : Z) : SM unit :=
  _ ← on_world (on_gate (AddConnection now conn_id));
  _ ← on_world (on_gate (SetSendCallback conn_id));
  on_world (on_gate (SetCloseCallback conn_id)).

(** A task posted to the strand: nothing of another session. *)
Definition run_posted (p : Posted) : SM unit :=
  match p with
  | PSend c data => if decide (c = conn_id) then on_session (QueueSend data) else mret tt
  | PClose c => if decide (c = conn_id) then Close else mret tt
  end.
End Session.

(** * The write queue *)

(** What can happen to the queue: a frame is sent, a write completes, the session closes. *)
Inductive write_event : Type :=
  | ESend (data : string)
  | EWritten
  | EFailed
  | EClose.
Definition write_step (ev : write_event) (s : Session) : Session :=
  match ev with
  | ESend data => QueueSend data s
  | EWritten => let s := write_done s in match ss_queue s with [] => s | _ :: _ => DoWrite s end
  | EFailed => set_closed (write_done s)
  | EClose => set_closed s
  end.
(** A write completes only when one is in flight. *)
Definition enabled (ev : write_event) (s : Session) : Prop :=
  match ev with EWritten | EFailed => ss_in_flight s ≠ O | _ => True end.
Inductive write_reachable : list string → Session → Prop :=
  | wr_new : write_reachable [] session_new
  | wr_step ev sent s : write_reachable sent s → enabled ev s →
      write_reachable (match ev with
                       | ESend data => if ss_closed s then sent else sent ++ [data]
                       | _ => sent end) (write_step ev s).

Record write_inv (sent : list string) (s : Session) : Prop := {
  wi_order : ss_wire s ++ ss_queue s = sent;
  wi_one : ss_in_flight s = if ss_writing s then 1%nat else O;
  wi_idle : ss_closed s = false → ss_writing s = false → ss_queue s = [] }.

Lemma DoWrite_inv sent s : ss_wire s ++ ss_queue s = sent → ss_writing s = false → ss_in_flight s = O →
  (ss_closed s = true ∨ ss_queue s ≠ []) → write_inv sent (DoWrite s).
Proof.
  intros Ho Hw Hf Hq. unfold DoWrite. destruct (ss_closed s) eqn:Hc.
  - split; [done|by rewrite Hw|congruence].
  - destruct (ss_queue s) as [|x q] eqn:Hqs; [destruct Hq; done|]. split; cbn; [|by rewrite Hf|done].
    by rewrite <-app_assoc.
Qed.

Lemma write_reachable_inv sent s : write_reachable sent s → write_inv sent s.
Proof.
  induction 1 as [|ev sent s _ [Ho Hone Hidle] Hev]; [by split|].
  destruct ev as [data| | |]; cbn [write_step enabled] in *.
  - unfold QueueSend. destruct (ss_closed s) eqn:Hc; [by split; try congruence|]. cbn [ss_writing].
    destruct (ss_writing s) eqn:Hw; cbn [negb].
    + split; cbn; [by rewrite app_assoc, Ho|by rewrite Hone|congruence].
    + apply DoWrite_inv; cbn; [by rewrite app_assoc, Ho|done|done|right; by destruct (ss_queue s)].
  - destruct (ss_writing s) eqn:Hw; [|congruence]. destruct (ss_queue s) as [|x q] eqn:Hq; cbn; rewrite ?Hq.
    + split; cbn; [by rewrite Hq|by rewrite Hone|done].
    + apply DoWrite_inv; cbn; [by rewrite Hq|done|by rewrite Hone|right; by rewrite Hq].
  - split; cbn; [done|rewrite Hone; by destruct (ss_writing s)|done].
  - split; cbn; [done|by rewrite Hone|done].
Qed.

(** ** The handlers are the steps *)

Section Handlers.
Context {W : Type} `{!ZoneStub W} `{!ProtoBuf}.
Variable gate_id secret : string.
Variable zone_client : bool.
Variable conn_id : string.
Implicit Types s : SessionIn W.

Lemma Close_step s :
  si_session (snd (Close gate_id secret zone_client conn_id s)) = write_step EClose (si_session s).
Proof.
  unfold Close, mbind, M_bind, reads. destruct (ss_closed (si_session s)) eqn:Hc.
  - destruct s as [[q b w c wire fl] w']. cbn in *. by subst.
  - unfold on_session, on_world, zoom. cbn.
    destruct (RemoveConnection _ _ _ _ _) as [[]]; reflexivity.
Qed.
Lemma OnWrite_step ec s :
  si_session (snd (OnWrite gate_id secret zone_client conn_id ec s)) =
    write_step (if ec then EFailed else EWritten) (si_session s).
Proof.
  unfold OnWrite, mbind at 1, M_bind at 1. cbn [on_session]. unfold mbind, M_bind, reads.
  destruct ec; cbn [si_session].
  - destruct (ss_closed (write_done (si_session s))) eqn:Hc; cbn [negb].
    + destruct s as [[q b w c wire fl] w']. cbn in *. by subst.
    + rewrite Close_step. reflexivity.
  - cbn. by destruct (ss_queue (si_session s)).
Qed.
Lemma run_posted_step p s :
  si_session (snd (run_posted gate_id secret zone_client conn_id p s)) =
    match p with
    | PSend c data => if decide (c = conn_id) then write_step (ESend data) (si_session s) else si_session s
    | PClose c => if decide (c = conn_id) then write_step EClose (si_session s) else si_session s
    end.
Proof. destruct p; cbn; case_decide; [done|done|apply Close_step|done]. Qed.
End Handlers.

(** C35: a session never has two writes at once, and the frames go to its socket in the order they were
    sent to it, none twice and none left out, for as long as it is open; what is not yet
    written waits in the queue. *)
Theorem frames_in_order sent s : write_reachable sent s →
  (ss_in_flight s ≤ 1)%nat ∧ ss_wire s ++ ss_queue s = sent.
Proof.
  intros [Ho Hone _]%write_reachable_inv. split; [|done]. rewrite Hone. destruct (ss_writing s); lia.
Qed.

(** everything sent to an open session is given to its socket after as many completed writes as
    there were frames waiting. *)
Theorem frames_all_written sent s : write_reachable sent s → ss_closed s = false →
  let s' := Nat.iter (length (ss_queue s)) (write_step EWritten) s in
  ss_wire s' = sent ∧ ss_closed s' = false ∧ write_reachable sent s'.
Proof.
  intros Hr Hc. cbn zeta. remember (length (ss_queue s)) as n eqn:Hn. revert s Hr Hc Hn.
  induction n as [|n IH]; intros s Hr Hc Hn.
  - pose proof (write_reachable_inv _ _ Hr) as [Ho _ _].
    destruct (ss_queue s); [|done]. rewrite app_nil_r in Ho. done.
  - rewrite Nat.iter_succ_r. pose proof (write_reachable_inv _ _ Hr) as [Ho Hone Hidle].
    assert (ss_in_flight s ≠ O) as Hfl.
    { rewrite Hone. destruct (ss_writing s) eqn:Hw; [done|]. by rewrite Hidle in Hn. }
    apply IH; [exact (wr_step EWritten sent s Hr Hfl)|..]; cbn; destruct (ss_queue s) as [|x q] eqn:Hq;
      try done; unfold DoWrite; cbn; rewrite Hc, Hq; cbn; [done|]. cbn in Hn. lia.
Qed.

(** The ids of two connections differ: they carry the process-wide sequence number of the session. *)
Theorem conn_ids_unique now1 now2 seq1 seq2 :
  GenerateConnId now1 seq1 = GenerateConnId now2 seq2 → now1 = now2 ∧ seq1 = seq2.
Proof.
  intros Heq. unfold GenerateConnId in Heq. cbn [String.append] in Heq.
  injection Heq as Heq. apply str_split_at in Heq as [H1 H2]; [|by apply pretty_has_not..].
  split; by apply pretty_inj_Z.
Qed.

(** Witnesses: two frames are sent while the first is being written, then it is done. *)

Definition session_two : Session := write_step (ESend "b") (write_step (ESend "a") session_new).
Lemma session_two_reachable : write_reachable ["a"; "b"] session_two.
Proof.
  apply (wr_step (ESend "b") ["a"] (write_step (ESend "a") session_new)); [|done].
  apply (wr_step (ESend "a") [] session_new); [constructor|done].
Qed.
Lemma session_three_reachable : write_reachable ["a"; "b"; "c"] (write_step (ESend "c") session_two).
Proof. apply (wr_step (ESend "c") ["a"; "b"] session_two); [apply session_two_reachable|done]. Qed.

Lemma frames_in_order_witness :
  ss_wire session_two = ["a"] ∧ ss_queue session_two = ["b"] ∧
  (ss_in_flight session_two ≤ 1)%nat ∧ ss_wire session_two ++ ss_queue session_two = ["a"; "b"].
Proof. split; [done|]. split; [done|]. exact (frames_in_order _ _ session_two_reachable). Defined.

Lemma frames_all_written_witness :
  let s := write_step (ESend "c") session_two in
  length (ss_queue s) = 2%nat ∧ ss_wire (Nat.iter 2 (write_step EWritten) s) = ["a"; "b"; "c"].
Proof.
  split; [done|].
  exact (proj1 (frames_all_written ["a"; "b"; "c"] _ session_three_reachable eq_refl)).
Defined.

Lemma conn_ids_unique_witness :
  GenerateConnId 1700000000000 1 ≠ GenerateConnId 1700000000000 2 ∧
  (GenerateConnId 1700000000000 7 = GenerateConnId 1700000000000 7 →
   1700000000000 = 1700000000000 ∧ 7 = 7).
Proof. split; [done|]. intros H. exact (conn_ids_unique _ _ _ _ H). Defined.
