(* ===== verification/Cluster.v ===== *)
(** The running system: the business services behind gRPC, the zone server that calls
    them, and the gateways that it calls and that call it.

    The state is seen from one gateway ([cl_gate]); the other gateways are there to be
    pushed to.  Every remote call takes the next [Moment] of an arbitrary schedule, which says what
    the callee reads from its clock, its random engine and its disk, and whether the
    request or its response is lost (deadlines are among the reasons).  The calls of one request run one after
    the other. *)

From S2P Require Import Prelude External Errors Utils Jwt Rpc Proto ZonePayloads ZoneStore ZoneRpc.
From S2P Require Import ZoneSystems ZoneService ZoneHandler GateService GateAnswers.
From S2P Require GroupStore ChatService FileService.
From S2P Require AuthHandler ChatHandler GroupHandler FriendHandler FileHandler.
Import GroupStore (GroupStore). Import ChatService (Chat, ch_msg, ch_conv, ch_reg, ch_group).
Import FileService (FileState, FileConfig, FileEnv).

(** What becomes of a remote call: the error is that of its status. *)
Inductive fate : Type :=
  | Served
  | RequestLost (error_message : string)
  | ResponseLost (error_message : string).
#[global] Instance fate_eq_dec : EqDecision fate.
Proof. solve_decision. Defined.
Record Moment : Type := {
  mo_fate : fate; mo_now : Z; mo_env : Env; mo_file : FileEnv; mo_junk : Z }.

(** The stores of the business services. *)
Record Services (db GS : Type) : Type := {
  sv_auth : db; sv_online : option db; sv_chat : Chat db GS; sv_friend : db; sv_file : FileState db }.
Arguments Build_Services {db GS}. Arguments sv_auth {db GS}. Arguments sv_online {db GS}.
Arguments sv_chat {db GS}. Arguments sv_friend {db GS}. Arguments sv_file {db GS}.

Record Cluster (db GS : Type) : Type := {
  cl_services : Services db GS;
  cl_gate : Gate; cl_gate_addr : string; cl_other_gates : gmap string Gate;
  cl_secret : string; cl_internal_secret : string; cl_takes_processor : bool; cl_config : FileConfig;
  cl_weather : nat → Moment; cl_step : nat }.
Arguments Build_Cluster {db GS}. Arguments cl_services {db GS}. Arguments cl_gate {db GS}.
Arguments cl_gate_addr {db GS}. Arguments cl_other_gates {db GS}. Arguments cl_secret {db GS}.
Arguments cl_internal_secret {db GS}. Arguments cl_takes_processor {db GS}. Arguments cl_config {db GS}. Arguments cl_weather {db GS}.
Arguments cl_step {db GS}.

(** A call that may get lost; gRPC answers an exception of the handler with a status. *)
Definition delivered {W A} (f : fate) (call : M W (grpc A)) : M W (grpc A) := λ w,
  match f with
  | RequestLost e => (Ret (inr e), w)
  | ResponseLost e => (Ret (inr e), snd (call w))
  | Served => match call w with
              | (Ret r, w') => (Ret r, w')
              | (Exc, w') => (Ret (inr "Unexpected error in RPC handling"), w')
              end
  end.

Section Cluster.
Context {db GS : Type} `{!RocksDB db} `{!JsonLib} `{!OpenSSL} `{!GroupStore GS} `{!ProtoBuf}.
Notation Cluster := (Cluster db GS).
Notation Services := (Services db GS).

Definition with_services (s : Services) (w : Cluster) : Cluster :=
  {| cl_services := s; cl_gate := cl_gate w; cl_gate_addr := cl_gate_addr w;
     cl_other_gates := cl_other_gates w; cl_secret := cl_secret w;
     cl_internal_secret := cl_internal_secret w; cl_takes_processor := cl_takes_processor w; cl_config := cl_config w;
     cl_weather := cl_weather w; cl_step := cl_step w |}.
Definition with_gate (g : Gate) (w : Cluster) : Cluster :=
  {| cl_services := cl_services w; cl_gate := g; cl_gate_addr := cl_gate_addr w;
     cl_other_gates := cl_other_gates w; cl_secret := cl_secret w;
     cl_internal_secret := cl_internal_secret w; cl_takes_processor := cl_takes_processor w; cl_config := cl_config w;
     cl_weather := cl_weather w; cl_step := cl_step w |}.
Definition with_other_gate (addr : string) (g : Gate) (w : Cluster) : Cluster :=
  {| cl_services := cl_services w; cl_gate := cl_gate w; cl_gate_addr := cl_gate_addr w;
     cl_other_gates := <[addr := g]> (cl_other_gates w); cl_secret := cl_secret w;
     cl_internal_secret := cl_internal_secret w; cl_takes_processor := cl_takes_processor w; cl_config := cl_config w;
     cl_weather := cl_weather w; cl_step := cl_step w |}.
Definition tick (w : Cluster) : Cluster :=
  {| cl_services := cl_services w; cl_gate := cl_gate w; cl_gate_addr := cl_gate_addr w;
     cl_other_gates := cl_other_gates w; cl_secret := cl_secret w;
     cl_internal_secret := cl_internal_secret w; cl_takes_processor := cl_takes_processor w; cl_config := cl_config w;
     cl_weather := cl_weather w; cl_step := S (cl_step w) |}.
Definition moment (w : Cluster) : Moment := cl_weather w (cl_step w).

(** * Calls to the business services *)

Record part (S : Type) : Type := { get_part : Services → S; put_part : S → Services → Services }.
Arguments Build_part {S}. Arguments get_part {S}. Arguments put_part {S}.
Definition at_auth : part db := {| get_part := sv_auth; put_part x s :=
  {| sv_auth := x; sv_online := sv_online s; sv_chat := sv_chat s; sv_friend := sv_friend s; sv_file := sv_file s |} |}.
Definition at_online : part (option db) := {| get_part := sv_online; put_part x s :=
  {| sv_auth := sv_auth s; sv_online := x; sv_chat := sv_chat s; sv_friend := sv_friend s; sv_file := sv_file s |} |}.
Definition at_chat : part (Chat db GS) := {| get_part := sv_chat; put_part x s :=
  {| sv_auth := sv_auth s; sv_online := sv_online s; sv_chat := x; sv_friend := sv_friend s; sv_file := sv_file s |} |}.
Definition at_friend : part db := {| get_part := sv_friend; put_part x s :=
  {| sv_auth := sv_auth s; sv_online := sv_online s; sv_chat := sv_chat s; sv_friend := x; sv_file := sv_file s |} |}.
Definition at_file : part (FileState db) := {| get_part := sv_file; put_part x s :=
  {| sv_auth := sv_auth s; sv_online := sv_online s; sv_chat := sv_chat s; sv_friend := sv_friend s; sv_file := x |} |}.

Definition on_part {S A} (p : part S) (handler : Cluster → Moment → M S A) (mo : Moment) : M Cluster (grpc A) := λ w,
  let '(r, s) := handler w mo (get_part p (cl_services w)) in
  (match r with Ret a => Ret (inl a) | Exc => Exc end, with_services (put_part p s (cl_services w)) w).
Definition remote {S A} (p : part S) (handler : Cluster → Moment → M S A) : M Cluster (grpc A) := λ w,
  let mo := moment w in delivered (mo_fate mo) (on_part p handler mo) (tick w).

(** A call of the group service, which has the group store of the chat service. *)
Definition on_groups {A} (m : M GS A) : M (Chat db GS) A := λ s,
  match ch_group s with
  | None => (Exc, s)
  | Some g => let '(r, g') := m g in
      (r, {| ch_msg := ch_msg s; ch_conv := ch_conv s; ch_reg := ch_reg s; ch_group := Some g' |})
  end.

(** * Calls to the gateways *)

Definition gate_call {A} (address : string) (handler : M Gate A) : M Cluster (grpc A) := λ w,
  let on_gate := λ w,
    if decide (address = cl_gate_addr w) then
      let '(r, g) := handler (cl_gate w) in
      (match r with Ret a => Ret (inl a) | Exc => Exc end, with_gate g w)
    else match cl_other_gates w !! address with
         | None => (Ret (inr "failed to connect to all addresses"), w)
         | Some g => let '(r, g) := handler g in
                     (match r with Ret a => Ret (inl a) | Exc => Exc end, with_other_gate address g w)
         end in
  delivered (mo_fate (moment w)) on_gate (tick w).
Definition gate_reachable (address : string) : M Cluster bool := λ w,
  (Ret (bool_decide (mo_fate (moment w) = Served ∧
          (address = cl_gate_addr w ∨ is_Some (cl_other_gates w !! address)))), tick w).

(** * The stubs *)

Definition ctx (c : Metadata) (mo : Moment) : RpcContext := {| rc_meta := c; rc_now := mo_now mo |}.
Definition map_body {A B} (f : A → B) (r : Response A) : Response B :=
  {| rsp_code := rsp_code r; rsp_message := rsp_message r; rsp_body := f (rsp_body r) |}.
(** A status of the handler that is not ok. *)
Definition with_status {A} (r : grpc (AuthHandler.GrpcResult A)) : grpc A :=
  match r with inr e => inr e | inl (inl a) => inl a | inl (inr (_, message)) => inr message end.
(** The friend service leaves the profiles out. *)
Definition without_profiles {A} (l : list A) : list (A * option Profile) := (λ a, (a, None)) <$> l.

#[export] Instance cluster_stubs : Stubs Cluster := {|
  auth_Register c username password nickname email avatar_url :=
    remote at_auth (λ w mo, AuthHandler.Register (mo_env mo) username password nickname email avatar_url);
  auth_VerifyCredentials c username password :=
    remote at_auth (λ w mo, AuthHandler.VerifyCredentials username password);
  auth_GetProfile c user_id :=
    r ← remote at_auth (λ w mo, AuthHandler.GetProfile (cl_secret w) (ctx c mo)); mret (with_status r);
  auth_UpdateProfile c user_id nickname avatar_url signature :=
    remote at_auth (λ w mo,
      AuthHandler.UpdateProfile (cl_secret w) (mo_env mo) (ctx c mo) nickname avatar_url signature);
  auth_SearchUsers c keyword limit :=
    remote at_auth (λ w mo, AuthHandler.SearchUsers (cl_secret w) (ctx c mo) keyword limit);
  online_Login c user_id device_id device_type :=
    remote at_online (λ w mo, AuthHandler.Login (cl_secret w) (mo_env mo) user_id device_id device_type);
  online_Logout c user_id token := remote at_online (λ w mo, AuthHandler.Logout user_id token);
  online_ValidateToken c token :=
    remote at_online (λ w mo, AuthHandler.ValidateToken (cl_secret w) (mo_env mo) token);
  chat_SendMessage c from_user_id to_id chat_type content media_url media_type mentions reply client_msg_id file_size :=
    remote at_chat (λ w mo, ChatHandler.SendMessage (cl_secret w) (mo_env mo) (ctx c mo) to_id chat_type
      content media_url media_type mentions reply);
  chat_RecallMessage c msg_id user_id :=
    remote at_chat (λ w mo, ChatHandler.RecallMessage (cl_secret w) (mo_env mo) (ctx c mo) msg_id);
  chat_PullOffline c user_id cursor limit :=
    remote at_chat (λ w mo, ChatHandler.PullOffline (cl_secret w) (ctx c mo) cursor limit);
  chat_MarkRead c user_id chat_id chat_type last_msg_id :=
    remote at_chat (λ w mo, ChatHandler.MarkRead (cl_secret w) (ctx c mo) chat_id chat_type last_msg_id);
  chat_GetHistory c user_id chat_id chat_type before_msg_id limit :=
    remote at_chat (λ w mo, ChatHandler.GetHistory (cl_secret w) (ctx c mo) chat_id chat_type before_msg_id limit);
  chat_SyncConversations c user_id last_sync_time :=
    remote at_chat (λ w mo, ChatHandler.SyncConversations (cl_secret w) (ctx c mo));
  chat_DeleteConversation c user_id chat_id chat_type :=
    remote at_chat (λ w mo, ChatHandler.DeleteConversation (cl_secret w) (ctx c mo) chat_id chat_type);
  friend_AddFriend c user_id friend_id remark group_id :=
    remote at_friend (λ w mo, FriendHandler.AddFriend (cl_secret w) (mo_env mo) (ctx c mo) friend_id remark);
  friend_HandleFriendRequest c user_id request_id accept group_id :=
    remote at_friend (λ w mo, FriendHandler.HandleFriendRequest (cl_secret w) (mo_env mo) (ctx c mo)
      request_id accept group_id);
  friend_RemoveFriend c user_id friend_id :=
    remote at_friend (λ w mo, FriendHandler.RemoveFriend (cl_secret w) (ctx c mo) friend_id);
  friend_GetFriends c user_id group_id :=
    remote at_friend (λ w mo, r ← FriendHandler.GetFriends (cl_secret w) (ctx c mo) group_id;
      mret (map_body without_profiles r));
  friend_GetFriendRequests c user_id type :=
    remote at_friend (λ w mo, r ← FriendHandler.GetFriendRequests (cl_secret w) (ctx c mo) type;
      mret (map_body without_profiles r));
  friend_BlockUser c user_id target_id :=
    remote at_friend (λ w mo, FriendHandler.BlockUser (cl_secret w) (ctx c mo) target_id);
  friend_UnblockUser c user_id target_id :=
    remote at_friend (λ w mo, FriendHandler.UnblockUser (cl_secret w) (ctx c mo) target_id);
  friend_GetBlockList c user_id := remote at_friend (λ w mo, FriendHandler.GetBlockList (cl_secret w) (ctx c mo));
  friend_CreateFriendGroup c user_id group_name :=
    remote at_friend (λ w mo, FriendHandler.CreateFriendGroup (cl_secret w) (mo_env mo) (ctx c mo) group_name);
  friend_GetFriendGroups c user_id :=
    remote at_friend (λ w mo, FriendHandler.GetFriendGroups (cl_secret w) (ctx c mo));
  friend_MoveFriend c user_id friend_id to_group_id :=
    remote at_friend (λ w mo, FriendHandler.MoveFriend (cl_secret w) (ctx c mo) friend_id to_group_id);
  friend_DeleteFriendGroup c user_id group_id :=
    remote at_friend (λ w mo, FriendHandler.DeleteFriendGroup (cl_secret w) (ctx c mo) group_id);
  friend_SetRemark c user_id friend_id remark :=
    remote at_friend (λ w mo, FriendHandler.SetRemark (cl_secret w) (ctx c mo) friend_id remark);
  group_CreateGroup c creator_id group_name avatar_url member_ids :=
    remote at_chat (λ w mo, on_groups (GroupHandler.CreateGroup (cl_secret w) (mo_env mo) (ctx c mo)
      group_name avatar_url member_ids));
  group_DismissGroup c group_id operator_id :=
    remote at_chat (λ w mo, on_groups (GroupHandler.DismissGroup (cl_secret w) (ctx c mo) group_id));
  group_GetGroupInfo c group_id :=
    remote at_chat (λ w mo, on_groups (GroupHandler.GetGroupInfo (cl_secret w) (ctx c mo) group_id));
  group_GetGroupMembers c group_id page page_size :=
    remote at_chat (λ w mo,
      on_groups (GroupHandler.GetGroupMembers (cl_secret w) (ctx c mo) group_id page page_size));
  group_GetUserGroups c user_id :=
    remote at_chat (λ w mo, on_groups (GroupHandler.GetUserGroups (cl_secret w) (ctx c mo)));
  group_InviteMembers c group_id inviter_id member_ids :=
    remote at_chat (λ w mo, on_groups (GroupHandler.InviteMembers (cl_secret w) (mo_env mo) (ctx c mo)
      group_id member_ids));
  group_RemoveMember c group_id operator_id member_id :=
    remote at_chat (λ w mo, on_groups (GroupHandler.RemoveMember (cl_secret w) (ctx c mo) group_id member_id));
  group_LeaveGroup c group_id user_id :=
    remote at_chat (λ w mo, on_groups (GroupHandler.LeaveGroup (cl_secret w) (ctx c mo) group_id));
  group_TransferOwner c group_id old_owner_id new_owner_id :=
    remote at_chat (λ w mo, on_groups (GroupHandler.TransferOwner (cl_secret w) (ctx c mo) group_id new_owner_id));
  file_InitUpload c user_id file_name content_type file_size md5 msg_id :=
    remote at_file (λ w mo, FileHandler.InitUpload (cl_config w) (cl_secret w) (mo_file mo) (ctx c mo) user_id
      file_name content_type file_size md5 msg_id);
  file_GetFileUrl c file_id user_id :=
    remote at_file (λ w mo, FileHandler.GetFileUrl (cl_config w) (cl_secret w) (ctx c mo) user_id file_id);
  file_GetUploadToken c user_id file_name file_size :=
    remote at_file (λ w mo, FileHandler.GetUploadToken (cl_config w) (cl_secret w) (mo_file mo) (ctx c mo)
      user_id file_name file_size);
  file_DeleteFile c file_id user_id :=
    remote at_file (λ w mo, FileHandler.DeleteFile (cl_secret w) (mo_file mo) (ctx c mo) user_id file_id);
  file_GetFileInfo c file_id := remote at_file (λ w mo, FileHandler.GetFileInfo file_id);
  gate_WaitForConnected := gate_reachable;
  gate_channel_ready := gate_reachable;
  gate_PushMessage c address user_id cmd payload := gate_call address (PushMessage user_id cmd payload);
  gate_DisconnectUser c address user_id reason := gate_call address (DisconnectUser user_id reason) |}.

(** * The zone server, called by the gateway *)

Context {SS : Type} `{!SessionStore SS}.
Notation World := (Zone SS Cluster).

Definition on_cluster (f : Cluster → Cluster) (w : World) : World :=
  {| z_store := z_store w; z_gate_clients := z_gate_clients w; z_net := f (z_net w) |}.
(** The zone server runs, with the processor of the secret or without a secret. *)
Definition zone_started (w : Cluster) : bool := server_starts (cl_takes_processor w) (cl_internal_secret w).
Definition zone_call {A} (c : Metadata) (handler : Moment → M World A) : M World (grpc A) := λ w,
  let mo := moment (z_net w) in
  if zone_started (z_net w)
  then delivered (mo_fate mo) (admitted (cl_internal_secret (z_net w)) c (handler mo)) (on_cluster tick w)
  else (Ret (inr "failed to connect to all addresses"), on_cluster tick w).

#[export] Instance cluster_zone : ZoneStub World := {|
  gate_of w := cl_gate (z_net w);
  put_gate g := on_cluster (with_gate g);
  stub_UserOnline c user_id gate_id device_type device_id :=
    zone_call c (λ mo, ZoneHandler.UserOnline (mo_now mo) user_id gate_id device_type device_id);
  stub_UserOffline c user_id gate_id := zone_call c (λ mo, ZoneHandler.UserOffline user_id gate_id);
  stub_GateRegister c gate_id address current_connections :=
    zone_call c (λ mo, ZoneHandler.GateRegister (mo_now mo) gate_id address);
  stub_GateHeartbeat c gate_id current_connections :=
    zone_call c (λ mo, ZoneHandler.GateHeartbeat (Z.quot (mo_now mo) 1000) gate_id current_connections);
  stub_HandleClientRequest c conn_id user_id cmd payload request_id token :=
    zone_call c (λ mo, ZoneHandler.HandleClientRequest (Some systems_ready) (mo_junk mo) conn_id user_id cmd
      payload request_id token) |}.
End Cluster.
Arguments Build_part {db GS S}. Arguments get_part {db GS S}. Arguments put_part {db GS S}.
