(* ===== verification/System.v ===== *)
(** What holds of the running system ([Cluster]): the interfaces the gateway relies on, and
    properties of requests that go through the gateway, the zone server and the
    services. *)

From S2P Require Import Prelude External Errors Utils Jwt Rpc Proto ZonePayloads ZoneStore ZoneRpc.
From S2P Require Import ZoneSystems ZoneService ZoneHandler GateService GateAnswers Cluster.
From S2P Require AuthHandler ChatHandler GroupHandler FriendHandler FileHandler.
From S2P Require GroupStore ChatService FileStore FileService.
Import GroupStore (GroupStore). Import ChatService (Chat, ch_msg, ch_conv, ch_reg, ch_group).

Create HintDb net.
#[export] Hint Unfold with_client FriendSystem.succeeded
  AuthSystem.Register AuthSystem.Login AuthSystem.Logout AuthSystem.ValidateToken AuthSystem.SearchUsers
  ChatSystem.SendMessage ChatSystem.PullOffline ChatSystem.RecallMessage ChatSystem.MarkRead
  ChatSystem.GetHistory ChatSystem.SyncConversations ChatSystem.DeleteConversation
  FriendSystem.AddFriend FriendSystem.HandleFriendRequest FriendSystem.RemoveFriend FriendSystem.BlockUser
  FriendSystem.UnblockUser FriendSystem.GetFriends FriendSystem.GetFriendRequests FriendSystem.GetBlockList
  FriendSystem.CreateFriendGroup FriendSystem.GetFriendGroups FriendSystem.MoveFriendToGroup
  FriendSystem.DeleteFriendGroup FriendSystem.SetRemark
  GroupSystem.CreateGroup GroupSystem.DismissGroup GroupSystem.InviteMembers GroupSystem.RemoveMember
  GroupSystem.LeaveGroup GroupSystem.TransferOwner GroupSystem.GetGroupMembers GroupSystem.GetGroupInfo
  GroupSystem.GetUserGroups
  FileSystem.InitUpload FileSystem.GetUploadToken FileSystem.GetFileUrl FileSystem.GetFileInfo
  FileSystem.DeleteFile : net.
#[export] Hint Unfold AuthRpcClient.Register AuthRpcClient.VerifyCredentials AuthRpcClient.SearchUsers
  OnlineRpcClient.Login OnlineRpcClient.Logout OnlineRpcClient.ValidateToken
  ChatRpcClient.SendMessage ChatRpcClient.RecallMessage ChatRpcClient.PullOffline ChatRpcClient.GetHistory
  ChatRpcClient.SyncConversations ChatRpcClient.DeleteConversation ChatRpcClient.MarkRead
  FriendRpcClient.AddFriend FriendRpcClient.HandleFriendRequest FriendRpcClient.RemoveFriend
  FriendRpcClient.GetFriends FriendRpcClient.GetFriendRequests FriendRpcClient.BlockUser
  FriendRpcClient.UnblockUser FriendRpcClient.GetBlockList FriendRpcClient.CreateFriendGroup
  FriendRpcClient.GetFriendGroups FriendRpcClient.MoveFriendToGroup FriendRpcClient.DeleteFriendGroup
  FriendRpcClient.SetRemark
  GroupRpcClient.CreateGroup GroupRpcClient.DismissGroup GroupRpcClient.GetGroupInfo
  GroupRpcClient.GetGroupMembers GroupRpcClient.GetUserGroups GroupRpcClient.InviteMembers
  GroupRpcClient.RemoveMember GroupRpcClient.LeaveGroup GroupRpcClient.TransferOwner
  FileRpcClient.InitUpload FileRpcClient.GetFileUrl FileRpcClient.GetUploadToken FileRpcClient.DeleteFile
  FileRpcClient.GetFileInfo GateRpcClient.IsConnected GateRpcClient.PushMessage : net.

(** * The zone server keeps what its remote calls keep *)

Section ZoneAlong.
Context {SS W : Type} `{!SessionStore SS} `{!Stubs W} `{!ProtoBuf}.
Variable R : relation W.
Context `{!PreOrder R}.
Notation Zone := (Zone SS W).
Definition on_net_rel : relation Zone := on_view z_net R.
#[global] Instance on_net_rel_preorder : PreOrder on_net_rel.
Proof. apply _. Qed.

Lemma along_on_net {A} (m : M W A) : along R m → along on_net_rel (on_net m).
Proof. intros Hm. apply along_zoom. intros z. apply Hm. Qed.
Lemma along_on_store {A} (m : M SS A) : along on_net_rel (on_store m).
Proof. apply along_zoom. intros z. unfold on_net_rel, on_view. reflexivity. Qed.
Lemma along_set_client a b : along on_net_rel (set_client a b).
Proof. intros z. unfold on_net_rel, on_view. cbn. reflexivity. Qed.
Lemma along_parsed {A} `{!Msg A} p rid (body : A → M Zone HandleClientRequestResult) :
  (∀ a, along on_net_rel (body a)) → along on_net_rel (parsed p rid body).
Proof. intros Hb. unfold parsed. destruct (ParseFromString p); [done|by apply along_ret, _]. Qed.
Lemma along_for_session u rid (body : M Zone HandleClientRequestResult) :
  along on_net_rel body → along on_net_rel (for_session u rid body).
Proof. intros Hb. unfold for_session. case_decide; [by apply along_ret, _|done]. Qed.
End ZoneAlong.

(** Split a program of the zone server into its remote calls; what is left are these calls. *)
Ltac along_step :=
  match goal with
  | |- forall _, _ => intro
  | |- along _ (let _ := _ in _) => cbv zeta
  | |- along _ (mret _) => apply along_ret, _
  | |- along _ (reads _) => apply along_reads, _
  | |- along _ (mbind _ _) => apply along_bind; [apply _| |]
  | |- along _ (on_store _) => apply along_on_store, _
  | |- along _ (set_client _ _) => apply along_set_client, _
  | |- along _ (parsed _ _ _) => apply along_parsed; [apply _|]
  | |- along _ (for_session _ _ _) => apply along_for_session; [apply _|]
  | |- along _ (on_net _) => apply along_on_net; autounfold with net
  | |- along _ (match ?x with _ => _ end) => destruct x
  end.

Section ClusterFrame.
Context {db GS SS : Type} `{!RocksDB db} `{!JsonLib} `{!OpenSSL} `{!GroupStore GS} `{!ProtoBuf} `{!SessionStore SS}.
Notation Cluster := (Cluster db GS).
Notation World := (Zone SS Cluster).

(** ** This gateway during the calls it makes *)

Definition only_posts (g g' : Gate) : Prop := same_tables g g' ∧ posts_more g g'.
#[global] Instance only_posts_preorder : PreOrder only_posts.
Proof. split; [by intros g|]. intros a b c [? ?] [? ?]. split; by etrans. Qed.
Definition gate_frame : relation Cluster := on_view cl_gate only_posts.
#[global] Instance gate_frame_preorder : PreOrder gate_frame.
Proof. apply _. Qed.

Lemma along_delivered {S A} (R : relation S) `{!PreOrder R} f (call : M S (grpc A)) :
  along R call → along R (delivered f call).
Proof.
  intros Hcall s. specialize (Hcall s). unfold delivered.
  destruct f; [by destruct (call s) as [[]]|cbn; reflexivity|done].
Qed.
Lemma along_call {A} (R : relation Cluster) `{!PreOrder R} (call : Moment → M Cluster (grpc A)) :
  (∀ w, R w (tick w)) → (∀ mo, along R (call mo)) →
  along R (λ w, delivered (mo_fate (moment w)) (call (moment w)) (tick w)).
Proof.
  intros Ht Hcall w. transitivity (tick w); [apply Ht|]. by apply (along_delivered R).
Qed.
Lemma gate_frame_remote {S A} (p : part S) (h : Cluster → Moment → M S A) : along gate_frame (remote p h).
Proof.
  refine (along_call gate_frame (on_part p h) _ _); [intros w; split; by cbn|]. intros mo w.
  unfold on_part. destruct (h _ _ _). unfold gate_frame, on_view. cbn. reflexivity.
Qed.
Lemma SendToConn_only_posts c data g : only_posts g (snd (SendToConn c data g)).
Proof.
  unfold SendToConn. case_decide; [|reflexivity]. split; [done|]. split; [done|]. cbn. by exists [PSend c data].
Qed.
Lemma PushMessage_only_posts u cmd p g : only_posts g (snd (PushMessage u cmd p g)).
Proof.
  unfold PushMessage, PushToUser, GetConnIdByUser, reads, mbind, M_bind, mret, M_ret.
  case_decide; [reflexivity|]. destruct (SerializeToString _) as [data|]; [|reflexivity].
  match goal with |- context [SendToConn ?c data g] => pose proof (SendToConn_only_posts c data g) as Hs end.
  by destruct (SendToConn _ _ g) as [[b|] g1].
Qed.
Lemma gate_frame_push addr u cmd p : along gate_frame (gate_call addr (PushMessage u cmd p)).
Proof.
  refine (along_call gate_frame (λ _ w, _) _ _); [intros w; split; by cbn|]. intros mo w. case_decide.
  - pose proof (PushMessage_only_posts u cmd p (cl_gate w)) as Hp.
    unfold gate_frame, on_view. by destruct (PushMessage u cmd p (cl_gate w)).
  - unfold gate_frame, on_view. destruct (cl_other_gates w !! addr) as [g|]; [|cbn; reflexivity].
    destruct (PushMessage u cmd p g). cbn. reflexivity.
Qed.
Lemma gate_frame_reachable addr : along gate_frame (gate_reachable addr).
Proof. intros w. unfold gate_frame, on_view. cbn. reflexivity. Qed.

Ltac gate_frame_calls :=
  repeat first [apply gate_frame_remote|apply gate_frame_push|apply gate_frame_reachable|along_step].

Notation along_gate := (along (on_net_rel (SS:=SS) gate_frame)).

Lemma gate_frame_RouteToUser u cmd p : along_gate (RouteToUser u cmd p).
Proof. unfold RouteToUser, PushToGate, GetOrCreateGateClient. gate_frame_calls. Qed.
Lemma gate_frame_members l except cmd p : along_gate (push_members l except cmd p).
Proof.
  induction l as [|m l IH]; cbn [push_members]; [gate_frame_calls|].
  apply along_bind; [apply _|case_decide; [|gate_frame_calls]|done].
  apply along_bind; [apply _|apply gate_frame_RouteToUser|gate_frame_calls].
Qed.
Lemma gate_frame_push_chat m id ty except cmd p : along_gate (push_chat m id ty except cmd p).
Proof.
  unfold push_chat. case_decide; [apply along_bind; [apply _|apply gate_frame_RouteToUser|gate_frame_calls]|].
  gate_frame_calls. all: apply gate_frame_members.
Qed.
Lemma gate_frame_request m junk conn u cmd p rid t :
  along_gate (ZoneHandler.HandleClientRequest m junk conn u cmd p rid t).
Proof.
  unfold ZoneHandler.HandleClientRequest, ZoneService.HandleClientRequest. destruct m as [m|]; [|gate_frame_calls].
  unfold GetPrefixHandlers. repeat case_decide; [..|gate_frame_calls].
  - unfold HandleAuth. gate_frame_calls.
  - unfold HandleChat, chat_send_message, chat_mark_read.
    repeat first [apply gate_frame_push_chat|apply gate_frame_remote|along_step].
  - unfold HandleFriend, friend_list_commands, friend_group_commands. gate_frame_calls.
  - unfold HandleGroup. gate_frame_calls.
  - unfold HandleFile. gate_frame_calls.
Qed.

(** ** The interfaces of the zone server to the gateway *)

Lemma gate_frame_zone_call {A} c (h : Moment → M World A) :
  (∀ mo, along_gate (h mo)) → along_gate (zone_call c h).
Proof.
  intros Hh w. unfold zone_call. transitivity (on_cluster tick w); [split; split; by cbn|].
  destruct (zone_started _); [|done].
  apply (along_delivered (on_net_rel gate_frame)). unfold admitted.
  destruct (Process _ c); [apply along_ret, _|].
  apply along_bind; [apply _|apply Hh|intros; apply along_ret, _].
Qed.
Lemma gate_frame_UserOnline now u g ty d : along_gate (ZoneHandler.UserOnline now u g ty d).
Proof. unfold ZoneHandler.UserOnline, ZoneService.UserOnline. gate_frame_calls. Qed.
Lemma gate_frame_UserOffline u g : along_gate (ZoneHandler.UserOffline u g).
Proof. unfold ZoneHandler.UserOffline, ZoneService.UserOffline. gate_frame_calls. Qed.

#[export] Instance cluster_zone_laws : ZoneStubLaws World.
Proof.
  split.
  - done.
  - by intros [? ? []].
  - intros. by apply gate_frame_zone_call; intros; apply gate_frame_UserOnline.
  - intros. by apply gate_frame_zone_call; intros; apply gate_frame_UserOffline.
  - intros. by apply gate_frame_zone_call; intros; apply gate_frame_request.
Qed.

Lemma zone_call_returns {A} (P : A → Prop) c (h : Moment → M World A) w r :
  (∀ mo, returns P (h mo)) → fst (zone_call c h w) = Ret (inl r) → P r.
Proof.
  intros Hh. unfold zone_call, delivered, admitted. destruct (zone_started _); [|done].
  destruct (mo_fate _); [|done..].
  destruct (Process _ c); [done|]. unfold mbind, M_bind.
  destruct (h _ _) as [[a|] w1] eqn:Hrun; [|done]. intros [= <-]. by eapply Hh.
Qed.
#[export] Instance cluster_zone_answers : ZoneAnswers World.
Proof.
  split.
  - intros. by apply gate_frame_zone_call; intros; apply gate_frame_UserOnline.
  - intros. by apply gate_frame_zone_call; intros; apply gate_frame_request.
  - intros c a1 a2 a3 a4 rid a6 w ans Hans. eapply (zone_call_returns (echoes rid)); [|exact Hans].
    intros mo. apply HandleClientRequest_echo.
Qed.
End ClusterFrame.

(** * Groups

    The client of the group service sends no token, and the group service serves nobody
    without one. *)

Section Groups.
Context {db GS SS : Type} `{!RocksDB db} `{!JsonLib} `{!OpenSSL} `{!GroupStore GS} `{!ProtoBuf} `{!SessionStore SS}.
Notation Cluster := (Cluster db GS).
Notation World := (Zone SS Cluster).

(** The services and the gateways, and the gateways alone. *)
Definition gates (w : Cluster) : Gate * gmap string Gate := (cl_gate w, cl_other_gates w).
Definition quiet : relation Cluster := on_view (λ w, (cl_services w, gates w)) eq.
Definition no_push : relation Cluster := on_view gates eq.
#[global] Instance quiet_preorder : PreOrder quiet.
Proof. apply _. Qed.
#[global] Instance no_push_preorder : PreOrder no_push.
Proof. apply _. Qed.

Definition refused {A} (r : grpc (Response A)) : Prop :=
  match r with inl resp => rsp_code resp ≠ 0 | inr _ => True end.

(** A handler of the group service that answers with an error whatever its state. *)
Definition refuses {A} (h : Cluster → Moment → M GS (Response A)) : Prop :=
  ∀ w mo g, ∃ r, h w mo g = (Ret r, g) ∧ rsp_code r ≠ 0.
Lemma refuses_quiet {A} (h : Cluster → Moment → M GS (Response A)) :
  refuses h → along quiet (remote at_chat (λ w mo, on_groups (h w mo))).
Proof.
  intros Hh. refine (along_call quiet (on_part at_chat _) _ _); [intros w; by cbn|]. intros mo w.
  unfold on_part, on_groups. cbn. destruct (ch_group (sv_chat (cl_services w))) as [g|] eqn:Hg.
  - destruct (Hh w mo g) as (r & -> & _). unfold quiet, on_view. cbn.
    destruct w as [[a o [m c rg gg] f fl]]. cbn in *. by rewrite Hg.
  - unfold quiet, on_view. cbn. by destruct w as [[a o [m c rg gg] f fl]].
Qed.
Lemma refuses_refused {A} (h : Cluster → Moment → M GS (Response A)) :
  refuses h → returns refused (remote at_chat (λ w mo, on_groups (h w mo))).
Proof.
  intros Hh w r w'. unfold remote, delivered, on_part, on_groups.
  destruct (mo_fate _); [|by intros [= <- _]..]. cbn [get_part at_chat].
  destruct (ch_group _) as [g|]; cbn; [|by intros [= <- _]].
  destruct (Hh (tick w) (moment w) g) as (x & -> & Hx). by intros [= <- _].
Qed.

Lemma no_token_caller mo secret : caller (ctx no_token mo) secret = "".
Proof. unfold caller, GetAuthenticatedUserId. by case_decide. Qed.
Ltac solve_refuses :=
  let w := fresh in let mo := fresh in let g := fresh in intros w mo g; eexists; split;
    [unfold GroupHandler.CreateGroup, GroupHandler.DismissGroup, GroupHandler.GetGroupInfo,
       GroupHandler.GetGroupMembers, GroupHandler.GetUserGroups, GroupHandler.InviteMembers,
       GroupHandler.RemoveMember, GroupHandler.LeaveGroup, GroupHandler.TransferOwner, authenticated;
     rewrite no_token_caller; reflexivity|vm_compute; discriminate].

Lemma refused_answer {A} text (r : grpc (Response A)) : refused r → ∃ e, answer text r = inr e.
Proof. destruct r as [r|e]; [|by exists e]. intros Hr. unfold answer. rewrite decide_True by done. by eexists. Qed.

(** [m] keeps what [R] says, and what it returns satisfies [P]. *)
Definition dead {S A} (R : relation S) (P : A → Prop) (m : M S A) : Prop := along R m ∧ returns P m.
Lemma dead_ret {S A} (R : relation S) `{!PreOrder R} (P : A → Prop) (a : A) : P a → dead R P (mret a).
Proof. intros Ha. split; [apply along_ret, _|by apply returns_ret]. Qed.
Lemma dead_bind_ret {S A B} (R : relation S) `{!PreOrder R} (Q : A → Prop) (P : B → Prop) (m : M S A) (f : A → B) :
  dead R Q m → (∀ a, Q a → P (f a)) → dead R P (x ← m; mret (f x)).
Proof.
  intros [Hm HQ] HP. split; [apply along_bind; [apply _|done|intros; by apply along_ret]|].
  eapply returns_bind_when; [exact HQ|]. intros a Ha. by apply returns_ret, HP.
Qed.
Lemma dead_remote {A} (h : Cluster → Moment → M GS (Response A)) : refuses h →
  dead quiet refused (remote at_chat (λ w mo, on_groups (h w mo))).
Proof. intros Hh. split; [by apply refuses_quiet|by apply refuses_refused]. Qed.

Definition is_error {A} (r : A + string) : Prop := ∃ e, r = inr e.

(** The systems' calls of the group service. *)
Ltac dead_group_call :=
  autounfold with net;
  repeat match goal with |- dead _ _ (if negb ?c then _ else _) => destruct c; cbn [negb];
                         [|apply dead_ret; [apply _|first [by eexists|done]]] end;
  repeat match goal with |- dead _ _ (mbind _ (mbind _ _)) =>
    eapply (dead_bind_ret _ is_error); [|by intros ? [? ->]] end;
  eapply dead_bind_ret; [apply _|apply dead_remote; solve_refuses|];
  let r := fresh "r" in let Hr := fresh "Hr" in intros r Hr;
  match goal with |- context [answer ?t r] => destruct (refused_answer t r Hr) as [? ->] end;
  by eexists.

Lemma dead_CreateGroup b c n l : dead quiet (λ r, r = "") (GroupSystem.CreateGroup b c n l).
Proof. dead_group_call. Qed.
Lemma dead_DismissGroup b g o : dead quiet (λ r, r = false) (GroupSystem.DismissGroup b g o).
Proof. dead_group_call. Qed.
Lemma dead_InviteMembers b g i l : dead quiet (λ r, r = false) (GroupSystem.InviteMembers b g i l).
Proof. dead_group_call. Qed.
Lemma dead_RemoveMember b g o m : dead quiet (λ r, r = false) (GroupSystem.RemoveMember b g o m).
Proof. dead_group_call. Qed.
Lemma dead_LeaveGroup b g u : dead quiet (λ r, r = false) (GroupSystem.LeaveGroup b g u).
Proof. dead_group_call. Qed.
Lemma dead_GetGroupInfo b g : dead quiet is_error (GroupSystem.GetGroupInfo b g).
Proof. dead_group_call. Qed.
Lemma dead_GetGroupMembers b g p n : dead quiet is_error (GroupSystem.GetGroupMembers b g p n).
Proof. dead_group_call. Qed.
Lemma dead_GetUserGroups b u : dead quiet is_error (GroupSystem.GetUserGroups b u).
Proof. dead_group_call. Qed.

Notation dead_zone := (dead (S:=World) (on_net_rel quiet)).
Definition failed (r : HandleClientRequestResult) : Prop := hr_code r ≠ 0.

Lemma dead_on_net {A} (P : A → Prop) (m : M Cluster A) : dead quiet P m → dead_zone P (on_net m).
Proof.
  intros [Hm HP]. split; [by apply along_on_net|]. intros z r z'. unfold on_net, zoom.
  destruct (m (z_net z)) as [[a|] w] eqn:Hrun; [|done]. intros [= <- _]. by eapply HP.
Qed.
Lemma dead_parsed {A} `{!Msg A} p rid (body : A → M World _) :
  (∀ a, dead_zone failed (body a)) → dead_zone failed (parsed p rid body).
Proof. intros Hb. unfold parsed. destruct (ParseFromString p); [done|by apply dead_ret; [apply _|]]. Qed.
Lemma dead_for_session u rid (body : M World _) : dead_zone failed body → dead_zone failed (for_session u rid body).
Proof. intros Hb. unfold for_session. case_decide; [by apply dead_ret; [apply _|]|done]. Qed.
(** The answer to a call of the group service that failed is an error. *)
Lemma dead_answer {A} (Q : A → Prop) (m : M Cluster A) (f : A → HandleClientRequestResult) :
  dead quiet Q m → (∀ a, Q a → failed (f a)) → dead_zone failed (x ← on_net m; mret (f x)).
Proof. intros Hm Hf. eapply dead_bind_ret; [apply _|by apply dead_on_net|done]. Qed.
Lemma failed_with_payload {A} `{!Msg A} (a : A) rid rest : (∀ p, failed (rest p)) → failed (with_payload a rid rest).
Proof. intros Hr. unfold with_payload. by destruct (SerializeToString a). Qed.

Lemma HandleGroup_dead m u cmd p rid t : dead_zone failed (HandleGroup m u cmd p rid t).
Proof.
  unfold HandleGroup. destruct (m ≫= group_system) as [g|] eqn:Hm; rewrite ?Hm; [|by apply dead_ret; [apply _|]].
  repeat case_decide; [..|by apply dead_ret; [apply _|]]; apply dead_parsed; intros req;
    try (apply dead_for_session); cbv zeta.
  - eapply dead_answer; [apply dead_CreateGroup|]. intros ? ->. by apply failed_with_payload.
  - eapply dead_answer; [apply dead_DismissGroup|]. by intros ? ->.
  - eapply dead_answer; [apply dead_InviteMembers|]. by intros ? ->.
  - eapply dead_answer; [apply dead_RemoveMember|]. by intros ? ->.
  - eapply dead_answer; [apply dead_LeaveGroup|]. by intros ? ->.
  - eapply dead_answer; [apply dead_GetGroupInfo|]. by intros ? [? ->].
  - eapply dead_answer; [apply dead_GetGroupMembers|]. by intros ? [? ->].
  - eapply dead_answer; [apply dead_GetUserGroups|]. by intros ? [? ->].
Qed.

(** C20: no group command works through the gateway: the zone server answers every command that starts with group. with an
    error, and neither the services nor the gateways change, whoever asks, with whatever token. *)
Theorem group_commands_refused m junk conn u cmd p rid t (w w' : World) r :
  cmd_prefix cmd = "group" →
  ZoneHandler.HandleClientRequest (Some m) junk conn u cmd p rid t w = (r, w') →
  cl_services (z_net w') = cl_services (z_net w) ∧ gates (z_net w') = gates (z_net w) ∧
  ∀ ans, r = Ret ans → hr_code ans ≠ 0.
Proof.
  intros Hcmd Hrun. unfold ZoneHandler.HandleClientRequest, ZoneService.HandleClientRequest in Hrun.
  rewrite Hcmd in Hrun. change (HandleGroup (Some m) u cmd p rid t w = (r, w')) in Hrun.
  destruct (HandleGroup_dead (Some m) u cmd p rid t) as [Hk Hf]. specialize (Hk w).
  rewrite Hrun in Hk. cbn [snd] in Hk. injection Hk as Hs Hg Ho.
  split_and!; [done|by unfold gates; congruence|]. intros ans ->. by eapply Hf.
Qed.

(** ** Messages to a group *)

Lemma no_push_remote {S A} (p : part S) (h : Cluster → Moment → M S A) : along no_push (remote p h).
Proof.
  refine (along_call no_push (on_part p h) _ _); [intros w; by cbn|]. intros mo w.
  unfold on_part. by destruct (h _ _ _).
Qed.
Lemma along_quiet_no_push {A} (m : M Cluster A) : along quiet m → along no_push m.
Proof. intros Hm w. specialize (Hm w). unfold no_push, quiet, on_view in *. congruence. Qed.
Lemma push_chat_group m id except cmd p :
  along (on_net_rel (SS:=SS) no_push) (push_chat (Some m) id GROUP except cmd p).
Proof.
  unfold push_chat. rewrite decide_False by done. rewrite decide_False by (intros Hne; by apply Hne).
  destruct (Some m ≫= group_system) as [g|] eqn:Hg; rewrite ?Hg; [|apply along_ret, _].
  destruct (dead_GetGroupMembers g id 0 10000) as [Hk Hr]. intros w.
  pose proof (along_on_net (SS:=SS) no_push _ (along_quiet_no_push _ Hk) w) as Hw.
  destruct (on_net (GroupSystem.GetGroupMembers g id 0 10000) w) as [[r|] w1] eqn:Hrun; cbn [snd] in Hw.
  - rewrite (bind_run _ _ _ _ _ Hrun). destruct (dead_on_net _ _ (dead_GetGroupMembers g id 0 10000)) as [_ Hr'].
    by destruct (Hr' _ _ _ Hrun) as [e ->].
  - by rewrite (bind_exc _ _ _ _ Hrun).
Qed.

(** nobody is told of what happens in a group: a message to a group, or a mark of what
    was read in it, may be stored, but is pushed to no connection of any gateway. *)
Theorem group_messages_not_pushed m junk conn u p rid t (w : World) :
  (∀ req, ParseFromString p = Some req → zcsm_chat_type req = GROUP →
    gates (z_net (snd (ZoneHandler.HandleClientRequest (Some m) junk conn u "chat.send_message" p rid t w))) =
      gates (z_net w)) ∧
  (∀ req, ParseFromString p = Some req → zcmr_chat_type req = GROUP →
    gates (z_net (snd (ZoneHandler.HandleClientRequest (Some m) junk conn u "chat.mark_read" p rid t w))) =
      gates (z_net w)).
Proof.
  assert (∀ cmd, along (on_net_rel (SS:=SS) no_push) (HandleChat (Some m) u cmd p rid t) →
    gates (z_net (snd (HandleChat (Some m) u cmd p rid t w))) = gates (z_net w)) as Hw.
  { intros cmd Hk. symmetry. exact (Hk w). }
  split; intros req Hp Hty; apply Hw; unfold HandleChat; cbn [mbind option_bind];
    (destruct (chat_system m) as [chat|]; [|apply along_ret, _]);
    [rewrite decide_True by done|rewrite decide_False, decide_True by done];
    unfold chat_send_message, chat_mark_read, parsed; rewrite Hp, ?Hty; clear Hw Hp Hty;
    repeat first [apply push_chat_group|apply no_push_remote|along_step].
Qed.
End Groups.

(** * A private message reaches the receiver's screen *)

Section Delivery.
Context {db GS SS : Type} `{!RocksDB db} `{!JsonLib} `{!OpenSSL} `{!GroupStore GS} `{!ProtoBuf} `{!SessionStore SS}.
Notation Cluster := (Cluster db GS).
Notation World := (Zone SS Cluster).

(** No call is lost. *)
Definition all_served (w : Cluster) : Prop := ∀ i, mo_fate (cl_weather w i) = Served.
(** Nor one to the zone server: it runs. *)
Definition zone_serves (w : Cluster) : Prop := zone_started w = true ∧ all_served w.

Lemma remote_served {S A} (p : part S) (h : Cluster → Moment → M S A) w a s : all_served w →
  h (tick w) (moment w) (get_part p (cl_services w)) = (Ret a, s) →
  remote p h w = (Ret (inl a), with_services (put_part p s (cl_services w)) (tick w)).
Proof.
  intros Hs Hrun. unfold remote, delivered, on_part. unfold moment at 1. rewrite Hs. cbn. by rewrite Hrun.
Qed.
Lemma on_net_run {A} (m : M Cluster A) (w : World) r c : m (z_net w) = (r, c) →
  on_net m w = (r, {| z_store := z_store w; z_gate_clients := z_gate_clients w; z_net := c |}).
Proof. intros Hm. unfold on_net, zoom. by rewrite Hm. Qed.

(** What the calls that find a way to a gateway leave as it is. *)
Definition kept (w w' : World) : Prop :=
  all_served (z_net w') ∧ cl_gate_addr (z_net w') = cl_gate_addr (z_net w) ∧
  cl_gate (z_net w') = cl_gate (z_net w) ∧ cl_services (z_net w') = cl_services (z_net w).

Lemma reachable_here (w : Cluster) : all_served w → gate_reachable (cl_gate_addr w) w = (Ret true, tick w).
Proof. intros Hs. unfold gate_reachable. rewrite bool_decide_true; [done|]. split; [apply Hs|by left]. Qed.
Lemma client_here (w : World) addr : all_served (z_net w) → addr = cl_gate_addr (z_net w) → addr ≠ "" →
  ∃ w', GetOrCreateGateClient addr w = (Ret true, w') ∧ kept w w'.
Proof.
  intros Hs -> Ha. unfold GetOrCreateGateClient. rewrite decide_False by done.
  assert (∀ w1 : World, kept w w1 → on_net (gate_WaitForConnected (cl_gate_addr (z_net w))) w1 =
    (Ret true, on_cluster tick w1)) as Hwait.
  { intros w1 (Hs1 & Ha1 & _). rewrite <-Ha1. by apply on_net_run, reachable_here. }
  assert (kept w w) as Hkept by done.
  unfold mbind, M_bind, reads. destruct (z_gate_clients w !! _) as [[]|] eqn:Hit; cbn -[on_net].
  - rewrite (on_net_run _ w _ _ (reachable_here _ Hs)). cbn. eexists. by split.
  - rewrite (on_net_run (mret false) w (Ret false) (z_net w)) by done. cbn -[on_net].
    rewrite Hwait by done. cbn. eexists. by split.
  - rewrite Hwait by done. cbn. eexists. by split.
Qed.

Lemma PushMessage_found u cmd p c frame g : user_to_conn g !! u = Some c → c ≠ "" → c ∈ send_callbacks g →
  cmd ≠ "" → SerializeToString {| zsm_cmd := cmd; zsm_payload := p; zsm_request_id := ""; zsm_code := 0;
                       zsm_message := "" |} = Some frame →
  PushMessage u cmd p g = (Ret (ok_plain tt), post (PSend c frame) g).
Proof.
  intros Hu Hc Hcb Hcmd Hframe. unfold PushMessage, PushToUser, GetConnIdByUser, reads, mbind, M_bind.
  rewrite Hu. cbn [default]. rewrite !decide_False by (rewrite ?decide_False; done).
  rewrite Hframe. unfold SendToConn. by rewrite decide_True.
Qed.
Lemma PushToGate_here u cmd p c frame (w : World) addr : all_served (z_net w) → addr = cl_gate_addr (z_net w) →
  addr ≠ "" → user_to_conn (cl_gate (z_net w)) !! u = Some c → c ≠ "" → c ∈ send_callbacks (cl_gate (z_net w)) →
  cmd ≠ "" → SerializeToString {| zsm_cmd := cmd; zsm_payload := p; zsm_request_id := ""; zsm_code := 0;
                       zsm_message := "" |} = Some frame →
  ∃ w', PushToGate addr u cmd p w = (Ret true, w') ∧
    cl_services (z_net w') = cl_services (z_net w) ∧
    cl_gate (z_net w') = post (PSend c frame) (cl_gate (z_net w)).
Proof.
  intros Hs Haddr Ha Hu Hc Hcb Hcmd Hframe. unfold PushToGate.
  destruct (client_here w addr Hs Haddr Ha) as (w1 & Hrun & Hs1 & Ha1 & Hg1 & Hv1).
  rewrite (bind_run _ _ _ _ _ Hrun). cbn [negb].
  assert (gate_call addr (PushMessage u cmd p) (z_net w1) =
    (Ret (inl (ok_plain tt)), with_gate (post (PSend c frame) (cl_gate (z_net w1))) (tick (z_net w1)))) as Hcall.
  { unfold gate_call, delivered. unfold moment. rewrite Hs1. cbn [cl_gate_addr tick].
    rewrite decide_True by congruence. cbn [cl_gate tick].
    by rewrite (PushMessage_found u cmd p c frame) by (rewrite ?Hg1; done). }
  assert (GateRpcClient.PushMessage addr u cmd p (z_net w1) =
    (Ret (inl tt), with_gate (post (PSend c frame) (cl_gate (z_net w1))) (tick (z_net w1)))) as Hpush.
  { unfold GateRpcClient.PushMessage. by rewrite (bind_run _ _ _ _ _ Hcall). }
  rewrite (bind_run _ _ _ _ _ (on_net_run _ _ _ _ Hpush)). eexists. split; [done|]. cbn. by rewrite Hg1, Hv1.
Qed.

Lemma RouteToUser_here u cmd p c frame (w : World) x s' : all_served (z_net w) →
  GetSession u (z_store w) = (Ret (Some x), s') → us_gate_addr x = cl_gate_addr (z_net w) → us_gate_addr x ≠ "" →
  user_to_conn (cl_gate (z_net w)) !! u = Some c → c ≠ "" → c ∈ send_callbacks (cl_gate (z_net w)) →
  cmd ≠ "" → SerializeToString {| zsm_cmd := cmd; zsm_payload := p; zsm_request_id := ""; zsm_code := 0;
                       zsm_message := "" |} = Some frame →
  ∃ w' rr, RouteToUser u cmd p w = (Ret rr, w') ∧
    cl_services (z_net w') = cl_services (z_net w) ∧
    cl_gate (z_net w') = post (PSend c frame) (cl_gate (z_net w)).
Proof.
  intros Hs Hx Haddr Ha Hu Hc Hcb Hcmd Hframe. unfold RouteToUser.
  assert (on_store (GetSession u) w = (Ret (Some x),
    {| z_store := s'; z_gate_clients := z_gate_clients w; z_net := z_net w |})) as Hget
    by (unfold on_store, zoom; by rewrite Hx).
  rewrite (bind_run _ _ _ _ _ Hget).
  destruct (PushToGate_here u cmd p c frame {| z_store := s'; z_gate_clients := z_gate_clients w; z_net := z_net w |}
    (us_gate_addr x)) as (w' & Hrun & Hv & Hg); [done..|].
  rewrite (bind_run _ _ _ _ _ Hrun). by eexists _, _.
Qed.

(** What the chat service does with the request of a client: the sender is the user of the token. *)
Definition chat_service_sends (w : Cluster) (req : ChatSendMessagePayload) (t : string)
    : outcome (Response (string * Z)) * Chat db GS :=
  ChatHandler.SendMessage (cl_secret w) (mo_env (moment w)) (ctx (CreateContext t) (moment w)) (zcsm_to_id req)
    (zcsm_chat_type req) (zcsm_content req) (zcsm_media_url req) (zcsm_media_type req) (zcsm_mentions req)
    (zcsm_reply_to_msg_id req) (sv_chat (cl_services w)).

Context `{!ProtoTotal}.

Lemma HandleChat_send m u p rid t (w : World) : chat_system m = Some true →
  HandleChat (Some m) u "chat.send_message" p rid t w = chat_send_message (Some m) true p rid t w.
Proof. intros Hm. unfold HandleChat. cbn [mbind option_bind]. rewrite Hm. by rewrite decide_True. Qed.

(** a private message that the chat service has stored is shown at once to a receiver who is connected: when no call is
    lost, the sender gets a success, and the receiver's session gets one frame, which carries the
    message with its id and time.  The sender that the frame names is the one that the request
    claims; the chat service stores the message for the user of the token. *)
Theorem private_message_pushed m junk conn u p rid t (w : World) req msg_id ts chat' x s' c :
  all_served (z_net w) → chat_system m = Some true →
  ParseFromString p = Some req → zcsm_chat_type req = PRIVATE →
  chat_service_sends (z_net w) req t = (Ret (ok_with (msg_id, ts)), chat') → msg_id ≠ "" →
  GetSession (zcsm_to_id req) (z_store w) = (Ret (Some x), s') →
  us_gate_addr x = cl_gate_addr (z_net w) → us_gate_addr x ≠ "" →
  user_to_conn (cl_gate (z_net w)) !! zcsm_to_id req = Some c → c ≠ "" →
  c ∈ send_callbacks (cl_gate (z_net w)) →
  ∃ ans w' frame push,
    ZoneHandler.HandleClientRequest (Some m) junk conn u "chat.send_message" p rid t w = (Ret ans, w') ∧
    hr_code ans = 0 ∧ sv_chat (cl_services (z_net w')) = chat' ∧
    cl_gate (z_net w') = post (PSend c frame) (cl_gate (z_net w)) ∧
    SerializeToString {| zsm_cmd := "chat.message"; zsm_payload := push; zsm_request_id := ""; zsm_code := 0;
                         zsm_message := "" |} = Some frame ∧
    SerializeToString (push_of msg_id ts req) = Some push ∧
    zcmp_from_user_id (push_of msg_id ts req) = zcsm_from_user_id req.
Proof.
  intros Hs Hm Hp Hty Hsend Hid Hx Haddr Ha Hu Hc Hcb.
  destruct (serialize_total _ _ (push_of msg_id ts req)) as [push Hpush].
  destruct (serialize_total _ _ {| zsm_cmd := "chat.message"; zsm_payload := push; zsm_request_id := "";
    zsm_code := 0; zsm_message := "" |}) as [frame Hframe].
  destruct (serialize_total _ _ {| zcsmr_success := true; zcsmr_msg_id := msg_id; zcsmr_timestamp := ts;
    zcsmr_error := "" |}) as [answer Hanswer].
  set (c1 := with_services (put_part at_chat chat' (cl_services (z_net w))) (tick (z_net w))).
  assert (ChatSystem.SendMessage true (zcsm_from_user_id req) (zcsm_to_id req) (zcsm_chat_type req)
    (zcsm_content req) (zcsm_media_url req) (zcsm_media_type req) (zcsm_mentions req) (zcsm_reply_to_msg_id req)
    (zcsm_client_msg_id req) (zcsm_file_size req) t (z_net w) = (Ret (inl (msg_id, ts)), c1)) as Hcall.
  { unfold ChatSystem.SendMessage, with_client, ChatRpcClient.SendMessage. cbn [negb].
    erewrite bind_run; [|apply (remote_served at_chat); [done|exact Hsend]]. done. }
  set (w1 := {| z_store := z_store w; z_gate_clients := z_gate_clients w; z_net := c1 |} : World).
  destruct (RouteToUser_here (zcsm_to_id req) "chat.message" push c frame w1 x s') as (w' & rr & Hroute & Hv & Hg); try done.
  exists (result_ok answer rid), w', frame, push.
  split; [|split_and!; [done|by rewrite Hv|by rewrite Hg|done..]].
  change (HandleChat (Some m) u "chat.send_message" p rid t w = (Ret (result_ok answer rid), w')).
  rewrite HandleChat_send by done. unfold chat_send_message, parsed. rewrite Hp.
  rewrite (bind_run _ _ _ _ _ (on_net_run _ _ _ _ Hcall)). fold w1. rewrite Hanswer, decide_False, Hpush by done.
  cbv zeta. unfold push_chat. rewrite decide_True by done. rewrite Hty in *.
  erewrite bind_run; [|by erewrite bind_run; [|exact Hroute]]. done.
Qed.
End Delivery.

(** * Strangers *)

Lemma Process_own_secret secret : Process secret (AddInternalSecret secret) = None.
Proof.
  unfold Process, AddInternalSecret. case_decide; [done|]. rewrite decide_True by done.
  rewrite decide_False; [done|]. intros Hne. by apply Hne.
Qed.

Section Strangers.
Context {db GS SS : Type} `{!RocksDB db} `{!RocksDBLaws db} `{!JsonLib} `{!JsonLaws} `{!OpenSSL} `{!GroupStore GS}
  `{!ProtoBuf} `{!SessionStore SS}.
Notation Cluster := (Cluster db GS).
Notation World := (Zone SS Cluster).

Lemma zone_call_served {A} c (h : Moment → M World A) (w w' : World) a : zone_serves (z_net w) →
  Process (cl_internal_secret (z_net w)) c = None →
  h (moment (z_net w)) (on_cluster tick w) = (Ret a, w') → zone_call c h w = (Ret (inl a), w').
Proof.
  intros [Hup Hs] Hc Hrun. unfold zone_call, delivered, admitted. rewrite Hup. unfold moment at 1. rewrite Hs, Hc.
  by rewrite (bind_run _ _ _ _ _ Hrun).
Qed.


Lemma respond_run conn cmd rid code msg p (w : World) : ∃ w',
  respond conn cmd rid code msg p w = (Ret tt, w') ∧ cl_services (z_net w') = cl_services (z_net w).
Proof.
  unfold respond, on_gate, zoom, mbind, M_bind, SendResponse, SendToConn, mret, M_ret.
  destruct (SerializeToString _); [case_decide|]; by eexists.
Qed.

(** The zone server hands the deletion to the file service without a token. *)
Lemma HandleFile_delete u p rid t junk conn (w : World) id user st' : all_served (z_net w) →
  ParseFromString p = Some {| zfd_file_id := id; zfd_user_id := user |} →
  FileHandler.DeleteFile (cl_secret (z_net w)) (mo_file (moment (z_net w))) (ctx no_token (moment (z_net w))) user id
    (sv_file (cl_services (z_net w))) = (Ret (ok_with tt), st') →
  ∃ w', ZoneHandler.HandleClientRequest (Some systems_ready) junk conn u "file.delete" p rid t w =
    (Ret (result_ok "" rid), w') ∧ sv_file (cl_services (z_net w')) = st'.
Proof.
  intros Hs Hp Hdel. set (c1 := with_services (put_part at_file st' (cl_services (z_net w))) (tick (z_net w))).
  assert (FileSystem.DeleteFile true id user (z_net w) = (Ret true, c1)) as Hcall.
  { unfold FileSystem.DeleteFile, FriendSystem.succeeded, FileRpcClient.DeleteFile. cbn [negb].
    erewrite bind_run; [|erewrite bind_run; [|apply (remote_served at_file); [done|exact Hdel]]; done]. done. }
  exists {| z_store := z_store w; z_gate_clients := z_gate_clients w; z_net := c1 |}. split; [|done].
  transitivity (parsed p rid (λ req : FileDeletePayload,
      ok ← on_net (FileSystem.DeleteFile true (zfd_file_id req) (zfd_user_id req));
      mret (plain_result ok FILE_NOT_FOUND (ErrorCodeToString FILE_NOT_FOUND) rid)) w); [reflexivity|].
  unfold parsed. rewrite Hp. cbn [zfd_file_id zfd_user_id].
  by rewrite (bind_run _ _ _ _ _ (on_net_run _ _ _ _ Hcall)).
Qed.

(** C21: anybody who can open a connection to a gateway deletes any file: neither the gateway nor the zone server
    asks for a login before a file.delete, and the file service, which gets no token from the zone server, takes the user
    that the message names, the uploader, for the caller.  (In a system whose zone server runs, and where no call is
    lost.) *)
Theorem stranger_deletes_any_file gate_id now now' conn data p rid (w : World) id M m P
    (st := sv_file (cl_services (z_net w))) : zone_serves (z_net w) →
  ParseFromString data = Some {| zcm_cmd := "file.delete"; zcm_payload := p; zcm_request_id := rid |} →
  ParseFromString p = Some {| zfd_file_id := id; zfd_user_id := FileStore.fm_uploader_id m |} →
  FileService.disk_rep (cl_config (z_net w)) st M → keeps_writing P → P (FileService.fs_store st) →
  FileStore.GetById (FileService.fs_store st) id = Some m → FileStore.fm_uploader_id m ≠ "" →
  ∃ w', OnMessage gate_id (cl_internal_secret (z_net w)) true now now' conn data w = (Ret tt, w') ∧
    FileStore.GetById (FileService.fs_store (sv_file (cl_services (z_net w')))) id = None.
Proof.
  intros Hs Hdata Hp Hrep HP Hst Hm Hu.
  set (w1 := on_cluster tick w). set (w2 := z_net w1).
  destruct (FileHandler.anonymous_deletes_any_file _ (cl_secret w2) (mo_file (moment w2)) (ctx no_token (moment w2))
    id st M m P (no_token_caller _ _) Hrep HP Hst Hm Hu) as (info & st' & Hinfo & Hdel & Hgone).
  assert (FileHandler.fin_uploader_id info = FileStore.fm_uploader_id m) as Huser.
  { unfold FileHandler.GetFileInfo, FileService.GetFileInfo, mbind, M_bind, reads in Hinfo.
    case_decide; [done|]. rewrite Hm in Hinfo. by injection Hinfo as <-. }
  rewrite Huser in Hdel.
  unfold OnMessage. rewrite Hdata. cbn [zcm_cmd zcm_payload zcm_request_id].
  change (∃ w', ForwardToZone gate_id (cl_internal_secret (z_net w)) true conn "file.delete" p rid w = (Ret tt, w') ∧
    FileStore.GetById (FileService.fs_store (sv_file (cl_services (z_net w')))) id = None).
  unfold ForwardToZone. cbn [negb]. rewrite (bind_run _ _ _ _ _ (GetConnection_run conn w)).
  set (x := connections _ !! conn).
  destruct (HandleFile_delete (match x with Some c => c_user_id c | None => "" end) p rid
    (match x with Some c => c_token c | None => "" end) (mo_junk (moment (z_net w))) conn w1 id _ st' (proj2 Hs) Hp Hdel)
    as (w3 & Hreq & Hst').
  assert (ZoneRpcClient.HandleClientRequest (cl_internal_secret (z_net w)) conn
    (match x with Some c => c_user_id c | None => "" end) "file.delete" p rid
    (match x with Some c => c_token c | None => "" end) w = (Ret (true, result_ok "" rid), w3)) as Hcall.
  { unfold ZoneRpcClient.HandleClientRequest. erewrite bind_run;
      [|apply zone_call_served; [done|apply Process_own_secret|exact Hreq]]. done. }
  rewrite (bind_run _ _ _ _ _ Hcall). cbn [negb]. rewrite decide_False by (by intros [? _]).
  rewrite (bind_run _ _ _ _ _ (eq_refl : M_ret _ tt w3 = (Ret tt, w3))).
  destruct (respond_run conn "file.delete" (hr_request_id (result_ok "" rid)) (hr_code (result_ok "" rid))
    (hr_message (result_ok "" rid)) (hr_payload (result_ok "" rid)) w3) as (w4 & Hresp & Hkeep).
  exists w4. split; [exact Hresp|]. by rewrite Hkeep, Hst'.
Qed.
End Strangers.

(** * Who is online where *)

Section Presence.
Context {SS W : Type} `{!SessionStore SS} `{!SessionStoreLaws SS} `{!Stubs W} `{!ProtoBuf}.
Notation Zone := (Zone SS W).
Implicit Types z : Zone.

Definition session_at (now : Z) (u g address ty d : string) : UserSession :=
  {| us_user_id := u; us_gate_id := g; us_gate_addr := address; us_device_type := ty; us_device_id := d;
     us_online_at := now; us_last_active_at := now |}.

Lemma on_sessions_run {A} (m : M SS A) z r s : m (z_store z) = (r, s) →
  on_store m z = (r, {| z_store := s; z_gate_clients := z_gate_clients z; z_net := z_net z |}).
Proof. intros Hm. unfold on_store, zoom. by rewrite Hm. Qed.

(** A user comes online at a registered gateway. *)
Lemma UserOnline_run now u g ty d z n : store_up (z_store z) → user_ok u → gate_ok g →
  gate_at (z_store z) g = Some n → session_ok (session_at now u g (gn_address n) ty d) →
  ∃ z', ZoneHandler.UserOnline now u g ty d z = (Ret (ok_plain tt), z') ∧ store_up (z_store z') ∧
    (∀ v, user_ok v → online_at (z_store z') v =
       if decide (v = u) then Some (session_at now u g (gn_address n) ty d) else online_at (z_store z) v) ∧
    ∀ k, gate_ok k → gate_at (z_store z') k = gate_at (z_store z) k.
Proof.
  intros Hup Hu Hg Hn Hok. unfold ZoneHandler.UserOnline, ZoneService.UserOnline.
  destruct (GetGate_law _ g Hup Hg) as (s1 & Hget & Hup1 & Ho1 & Hg1). rewrite Hn in Hget.
  destruct (SetOnline_law s1 _ Hup1 Hok) as (s2 & Hset & Hup2 & Ho2 & Hg2).
  erewrite bind_run; [|erewrite bind_run; [|by apply on_sessions_run]; by apply on_sessions_run].
  eexists. split; [done|]. cbn. split; [done|]. split.
  - intros v Hv. rewrite Ho2 by done. cbn. case_decide; [done|by apply Ho1].
  - intros k Hk. by rewrite Hg2, Hg1.
Qed.
Lemma UserOffline_run u g z : store_up (z_store z) → user_ok u →
  ∃ z', ZoneHandler.UserOffline u g z = (Ret (ok_plain tt), z') ∧ store_up (z_store z') ∧
    ∀ v, user_ok v → online_at (z_store z') v = if decide (v = u) then None else online_at (z_store z) v.
Proof.
  intros Hup Hu. unfold ZoneHandler.UserOffline, ZoneService.UserOffline.
  destruct (SetOffline_law _ u Hup Hu) as (s1 & Hset & Hup1 & Ho1 & _).
  erewrite bind_run; [|by apply on_sessions_run]. eexists. split; [done|]. by split.
Qed.
Lemma RouteToUser_offline u cmd p z : store_up (z_store z) → user_ok u → online_at (z_store z) u = None →
  fst (RouteToUser u cmd p z) = Ret {| rt_delivered := false; rt_user_online := false; rt_gate_id := "" |}.
Proof.
  intros Hup Hu Hnone. unfold RouteToUser. destruct (GetSession_law _ u Hup Hu) as (s1 & Hget & _).
  rewrite Hnone in Hget. by rewrite (bind_run _ _ _ _ _ (on_sessions_run _ _ _ _ Hget)).
Qed.

(** a disconnect that comes late ends the newer session: when a user has moved from one gateway to another and the first
    gateway reports him offline, as it does when it notices the dead connection,
    the zone server forgets where he is, and a message for him is not delivered. *)
Theorem stale_disconnect_ends_session now1 now2 u g1 g2 n1 n2 ty1 ty2 d1 d2 cmd p z :
  store_up (z_store z) → user_ok u → gate_ok g1 → gate_ok g2 →
  gate_at (z_store z) g1 = Some n1 → gate_at (z_store z) g2 = Some n2 →
  session_ok (session_at now1 u g1 (gn_address n1) ty1 d1) →
  session_ok (session_at now2 u g2 (gn_address n2) ty2 d2) →
  ∃ z1 z2 z3, ZoneHandler.UserOnline now1 u g1 ty1 d1 z = (Ret (ok_plain tt), z1) ∧
    ZoneHandler.UserOnline now2 u g2 ty2 d2 z1 = (Ret (ok_plain tt), z2) ∧
    online_at (z_store z2) u = Some (session_at now2 u g2 (gn_address n2) ty2 d2) ∧
    ZoneHandler.UserOffline u g1 z2 = (Ret (ok_plain tt), z3) ∧
    fst (RouteToUser u cmd p z3) = Ret {| rt_delivered := false; rt_user_online := false; rt_gate_id := "" |}.
Proof.
  intros Hup Hu Hg1 Hg2 Hn1 Hn2 Hok1 Hok2.
  destruct (UserOnline_run now1 u g1 ty1 d1 z n1) as (z1 & Hrun1 & Hup1 & Ho1 & Hgates1); [done..|].
  destruct (UserOnline_run now2 u g2 ty2 d2 z1 n2) as (z2 & Hrun2 & Hup2 & Ho2 & _);
    [done..|by rewrite Hgates1|done|].
  destruct (UserOffline_run u g1 z2) as (z3 & Hrun3 & Hup3 & Ho3); [done..|].
  exists z1, z2, z3. split_and!; [done|done|by rewrite Ho2, decide_True|done|].
  apply RouteToUser_offline; [done..|by rewrite Ho3, decide_True].
Qed.
End Presence.
