(* ===== verification/LogSinks.v ===== *)
(** [component/asynclogger]: log levels, tags, entries, their text
    ([log_formatter.cpp]) and the places it goes to ([console_sink.cpp], [file_sink.cpp]).

    [std::put_time] of the local time is a parameter of the formatter and of the file names.
    The disk takes what is flushed to it and removes what it is told to; opening a file and listing the
    directory may fail ([LogMoment]).  An open file's stream holds text back until it is flushed
    or closed (the library may write it out earlier). *)

From Stdlib Require Import Ascii.
From S2P Require Import Prelude External Utils.

(** * Levels, tags, entries *)

Inductive LogLevel : Type := TRACE | DEBUG | INFO | WARN | ERROR | FATAL | OFF.
#[export] Instance LogLevel_eq_dec : EqDecision LogLevel.
Proof. solve_decision. Defined.

Definition LogLevel_int (level : LogLevel) : Z :=
  match level with TRACE => 0 | DEBUG => 1 | INFO => 2 | WARN => 3 | ERROR => 4 | FATAL => 5 | OFF => 6 end.
(** [static_cast<LogLevel>(level)]: [None] is a value without an enumerator. *)
Definition LogLevel_of (level : Z) : option LogLevel :=
  match level with
  | 0 => Some TRACE | 1 => Some DEBUG | 2 => Some INFO | 3 => Some WARN | 4 => Some ERROR
  | 5 => Some FATAL | 6 => Some OFF | _ => None
  end.

Definition LogLevelToString (level : option LogLevel) : string :=
  match level with
  | Some TRACE => "TRACE" | Some DEBUG => "DEBUG" | Some INFO => "INFO" | Some WARN => "WARN"
  | Some ERROR => "ERROR" | Some FATAL => "FATAL" | Some OFF => "OFF" | None => "UNKNOWN"
  end.
Definition StringToLogLevel (str : string) : LogLevel :=
  if decide (str = "TRACE" ∨ str = "trace") then TRACE else
  if decide (str = "DEBUG" ∨ str = "debug") then DEBUG else
  if decide (str = "INFO" ∨ str = "info") then INFO else
  if decide (str = "WARN" ∨ str = "warn") then WARN else
  if decide (str = "ERROR" ∨ str = "error") then ERROR else
  if decide (str = "FATAL" ∨ str = "fatal") then FATAL else
  if decide (str = "OFF" ∨ str = "off") then OFF else INFO.

Lemma LogLevel_of_int level : LogLevel_of (LogLevel_int level) = Some level.
Proof. by destruct level. Qed.
Lemma StringToLogLevel_of level : StringToLogLevel (LogLevelToString (Some level)) = level.
Proof. by destruct level. Qed.
Lemma StringToLogLevel_WARNING : StringToLogLevel "WARNING" = INFO.
Proof. reflexivity. Qed.

(** [Tag]: the keys and values in the order they were added. *)
Definition Tag : Type := list (string * string).
Definition Tag_Add (key value : string) (tags : Tag) : Tag := tags ++ [(key, value)].
Fixpoint tags_loop (tags : Tag) (first : bool) (oss : string) : string :=
  match tags with
  | [] => oss
  | (k, v) :: tags =>
      let oss := if first then oss else oss +:+ ", " in
      tags_loop tags false (oss +:+ (k +:+ "=" +:+ v))
  end.
Definition Tag_ToString (tags : Tag) : string :=
  match tags with [] => "" | _ :: _ => tags_loop tags true "" end.

Record LogEntry : Type := {
  le_timestamp : Z; le_level : Z; le_line : Z; le_file : string; le_message : string; le_tags : string }.

Record LogConfig : Type := {
  lc_min_level : LogLevel; lc_buffer_size : Z; lc_flush_interval_ms : Z; lc_enable_file : bool;
  lc_log_dir : string; lc_file_prefix : string; lc_max_file_size : Z; lc_max_file_count : Z;
  lc_enable_console : bool; lc_console_color : bool; lc_show_file_line : bool; lc_show_thread_id : bool }.
Definition LogConfig_default : LogConfig :=
  {| lc_min_level := INFO; lc_buffer_size := 4 * 1024 * 1024; lc_flush_interval_ms := 100;
     lc_enable_file := true; lc_log_dir := "./logs"; lc_file_prefix := "app";
     lc_max_file_size := 100 * 1024 * 1024; lc_max_file_count := 10; lc_enable_console := true;
     lc_console_color := true; lc_show_file_line := true; lc_show_thread_id := false |}.

(** * Text *)

(** [std::setfill('0') << std::setw(3)] *)
Definition setw3 (n : Z) : string :=
  let s := pretty n in
  match str_size s with 0%nat => "000" | 1%nat => "00" +:+ s | 2%nat => "0" +:+ s | _ => s end.
Definition newline : string := String (chr 10) "".

Section Format.
(** [std::put_time] of [localtime_r] of a [time_t]. *)
Variable put_time : string → Z → string.
(** The thread that formats, printed. *)
Variable this_thread : string.

Definition FormatTimestamp (timestamp : Z) : string :=
  let seconds := Z.quot timestamp 1000000 in
  let micros := Z.rem timestamp 1000000 in
  put_time "%Y-%m-%d %H:%M:%S" seconds +:+ "." +:+ setw3 (Z.quot micros 1000).

Definition Format (show_file_line show_thread_id : bool) (entry : LogEntry) : string :=
  "[" +:+ FormatTimestamp (le_timestamp entry) +:+ "] " +:+
  "[" +:+ LogLevelToString (LogLevel_of (le_level entry)) +:+ "] " +:+
  (if show_thread_id then "[tid:" +:+ this_thread +:+ "] " else "") +:+
  (if decide (le_tags entry = "") then "" else "[" +:+ le_tags entry +:+ "] ") +:+
  (if decide (show_file_line = true ∧ le_file entry ≠ "")
   then "[" +:+ le_file entry +:+ ":" +:+ pretty (le_line entry) +:+ "] " else "") +:+
  le_message entry +:+ newline.
End Format.

(** * The console *)

(** What a call finds when it asks the system: the clock (microseconds), whether the
    file opens, whether the directory can be listed. *)
Record LogMoment : Type := { lm_now : Z; lm_opens : bool; lm_lists : bool }.
Record LogIO : Type := {
  io_cout : string; io_disk : gmap string string; io_weather : nat → LogMoment; io_step : nat }.
Definition set_cout (f : string → string) (io : LogIO) : LogIO :=
  {| io_cout := f (io_cout io); io_disk := io_disk io; io_weather := io_weather io; io_step := io_step io |}.
Definition set_disk (f : gmap string string → gmap string string) (io : LogIO) : LogIO :=
  {| io_cout := io_cout io; io_disk := f (io_disk io); io_weather := io_weather io; io_step := io_step io |}.
Definition next_moment (io : LogIO) : LogMoment * LogIO :=
  (io_weather io (io_step io),
   {| io_cout := io_cout io; io_disk := io_disk io; io_weather := io_weather io; io_step := S (io_step io) |}).

Definition esc (s : string) : string := String (chr 27) s.
Definition GetColorCode (level : option LogLevel) : string :=
  match level with
  | Some TRACE => esc "[37m" | Some DEBUG => esc "[36m" | Some INFO => esc "[32m"
  | Some WARN => esc "[33m" | Some ERROR => esc "[31m" | Some FATAL => esc "[35;1m" | _ => esc "[0m"
  end.
Definition GetResetCode : string := esc "[0m".

Definition ConsoleSink_Write (formatted_log : string) (io : LogIO) : LogIO :=
  set_cout (λ out, out +:+ formatted_log) io.
Definition WriteWithLevel (enable_color : bool) (level : option LogLevel) (formatted_log : string)
    (io : LogIO) : LogIO :=
  if enable_color then set_cout (λ out, out +:+ GetColorCode level +:+ formatted_log +:+ GetResetCode) io
  else set_cout (λ out, out +:+ formatted_log) io.

(** * Log files *)

(** The members of [FileSink]; [fk_file] is the path of the open stream and the text it holds
    back. *)
Record FileSink : Type := {
  fk_log_dir : string; fk_file_prefix : string; fk_max_file_size : Z; fk_max_file_count : Z;
  fk_file : option (string * string); fk_current_file_path : string; fk_current_file_size : Z }.
Definition set_file (file : option (string * string)) (path : string) (size : Z) (k : FileSink) : FileSink :=
  {| fk_log_dir := fk_log_dir k; fk_file_prefix := fk_file_prefix k; fk_max_file_size := fk_max_file_size k;
     fk_max_file_count := fk_max_file_count k; fk_file := file; fk_current_file_path := path;
     fk_current_file_size := size |}.

(** [s.rfind(pat)]: the last occurrence, or [npos]. *)
Definition npos : Z := 2 ^ 64 - 1.
Fixpoint str_rfind (pat s : string) : option nat :=
  match s with
  | EmptyString => if decide (pat = "") then Some O else None
  | String _ s' => match str_rfind pat s' with
                   | Some n => Some (S n)
                   | None => if String.prefix pat s then Some O else None
                   end
  end.
Definition rfind (pat s : string) : Z := match str_rfind pat s with Some n => Z.of_nat n | None => npos end.

(** [filename.find(file_prefix_) == 0 && filename.rfind(".log") == filename.size() - 4], in [size_t]. *)
Definition is_log_name (file_prefix filename : string) : bool :=
  String.prefix file_prefix filename &&
  bool_decide (rfind ".log" filename = (Z.of_nat (str_size filename) - 4) `mod` 2 ^ 64).
(** The name in the directory of a path, if it is one. *)
Definition name_in (dir path : string) : option string :=
  if String.prefix (dir +:+ "/") path
  then let name := str_drop (str_size (dir +:+ "/")) path in
       if str_has "/" name then None else Some name
  else None.
Definition is_log_file (k : FileSink) (path : string) : bool :=
  match name_in (fk_log_dir k) path with Some name => is_log_name (fk_file_prefix k) name | None => false end.

Section FileSink.
Variable put_time : string → Z → string.
Notation FM := (M (FileSink * LogIO)).

Definition GenerateFileName (k : FileSink) (now : Z) : string :=
  fk_log_dir k +:+ "/" +:+ fk_file_prefix k +:+ "_" +:+ put_time "%Y%m%d_%H%M%S" (Z.quot now 1000000) +:+
  "_" +:+ setw3 (Z.rem (Z.quot now 1000) 1000) +:+ ".log".

(** [std::ofstream::open] for appending fails on a stream that is open; [tellp] is then -1. *)
Definition OpenNewFile : FM bool := λ '(k, io),
  let '(mo, io) := next_moment io in
  let file_path := GenerateFileName k (lm_now mo) in
  match fk_file k with
  | Some _ => (Ret true, (set_file (fk_file k) file_path npos k, io))
  | None =>
      if lm_opens mo then
        let content := default "" (io_disk io !! file_path) in
        (Ret true, (set_file (Some (file_path, "")) file_path (Z.of_nat (str_size content)) k,
                    set_disk <[file_path := content]> io))
      else (Ret false, (k, io))
  end.

(** [file_.flush()]: what was held back is at the end of the file. *)
Definition FileSink_Flush : FM unit := λ '(k, io),
  match fk_file k with
  | Some (path, text) =>
      (Ret tt, (set_file (Some (path, "")) (fk_current_file_path k) (fk_current_file_size k) k,
                set_disk <[path := default "" (io_disk io !! path) +:+ text]> io))
  | None => (Ret tt, (k, io))
  end.
Definition close_file : FM unit := λ '(k, io),
  (Ret tt, (set_file None (fk_current_file_path k) (fk_current_file_size k) k, io)).
(** Flush and close, if open. *)
Definition FileSink_Close : FM unit := _ ← FileSink_Flush; close_file.

(** The files of the directory that pass for log files, sorted by path. *)
Definition log_files (k : FileSink) (io : LogIO) : list string :=
  merge_sort String.le (filter (λ p, is_log_file k p = true) (elements (dom (io_disk io)))).

(** The loop that removes the oldest; [None]: [front] of an empty vector is undefined. *)
Fixpoint remove_oldest (max_file_count : Z) (files : list string) (disk : gmap string string) :
    option (gmap string string) :=
  if decide (Z.of_nat (length files) > max_file_count - 1) then
    match files with
    | [] => None
    | f :: files => remove_oldest max_file_count files (delete f disk)
    end
  else Some disk.
Definition CleanupOldFiles : FM unit := λ '(k, io),
  let '(mo, io) := next_moment io in
  let files := if lm_lists mo then log_files k io else [] in
  match remove_oldest (fk_max_file_count k) files (io_disk io) with
  | Some disk => (Ret tt, (k, set_disk (λ _, disk) io))
  | None => (Exc, (k, io))
  end.

Definition RotateFile : FM unit :=
  _ ← FileSink_Close;
  _ ← CleanupOldFiles;
  _ ← OpenNewFile;
  mret tt.
Definition CheckRotate : FM unit :=
  k ← reads fst;
  if decide (fk_current_file_size k >= fk_max_file_size k) then RotateFile else mret tt.

(** [file_ << log; current_file_size_ += log.size()] *)
Definition put_log (log : string) : FM unit := λ '(k, io),
  (Ret tt, (set_file ((λ f, (f.1, f.2 +:+ log)) <$> fk_file k) (fk_current_file_path k)
              ((fk_current_file_size k + Z.of_nat (str_size log)) `mod` 2 ^ 64) k, io)).
(** Open the file if it is not; false if that fails. *)
Definition ensure_open : FM bool :=
  k ← reads fst;
  match fk_file k with Some _ => mret true | None => OpenNewFile end.

Definition FileSink_Write (formatted_log : string) : FM unit :=
  opened ← ensure_open;
  if (opened : bool) then
    _ ← put_log formatted_log;
    CheckRotate
  else mret tt.
Definition FileSink_WriteBatch (logs : list string) : FM unit :=
  opened ← ensure_open;
  if (opened : bool) then
    _ ← for_each logs put_log;
    CheckRotate
  else mret tt.

(** The constructor. *)
Definition FileSink_new (log_dir file_prefix : string) (max_file_size max_file_count : Z) (io : LogIO) :
    FileSink * LogIO :=
  snd (OpenNewFile ({| fk_log_dir := log_dir; fk_file_prefix := file_prefix;
    fk_max_file_size := max_file_size; fk_max_file_count := max_file_count; fk_file := None;
    fk_current_file_path := ""; fk_current_file_size := 0 |}, io)).
End FileSink.

(** * Rotation *)

Definition delete_all (files : list string) (disk : gmap string string) : gmap string string :=
  foldl (λ d f, delete f d) disk files.
Lemma delete_all_lookup files disk p :
  delete_all files disk !! p = if decide (p ∈ files) then None else disk !! p.
Proof.
  unfold delete_all. revert disk. induction files as [|f files IH]; intros disk; cbn; [done|].
  rewrite IH. destruct (decide (p = f)) as [->|Hne].
  - rewrite (decide_True (P := f ∈ f :: files)) by set_solver. rewrite lookup_delete_eq. by destruct (decide _).
  - rewrite lookup_delete_ne by done. repeat case_decide; set_solver.
Qed.

Lemma remove_oldest_run c files disk : 1 ≤ c →
  remove_oldest c files disk = Some (delete_all (take (length files - Z.to_nat (c - 1)) files) disk).
Proof.
  intros Hc. revert disk. induction files as [|f files IH]; intros disk; cbn [remove_oldest length].
  - rewrite decide_False by (cbn; lia). done.
  - case_decide as Hd.
    + rewrite IH. replace (S (length files) - Z.to_nat (c - 1))%nat
        with (S (length files - Z.to_nat (c - 1))) by lia. done.
    + replace (S (length files) - Z.to_nat (c - 1))%nat with O by lia. done.
Qed.

Section LogFiles.
Variable k : FileSink.
Lemma log_files_elem io q : q ∈ log_files k io ↔ is_log_file k q = true ∧ q ∈ dom (io_disk io).
Proof. unfold log_files. by rewrite merge_sort_Permutation, list_elem_of_filter, elem_of_elements. Qed.
Lemma log_files_nodup io : NoDup (log_files k io).
Proof. unfold log_files. rewrite merge_sort_Permutation. apply NoDup_filter, NoDup_elements. Qed.
Lemma log_files_sorted io : StronglySorted String.le (log_files k io).
Proof. apply (StronglySorted_merge_sort _). Qed.
End LogFiles.

Lemma sorted_split_le (l : list string) n r q :
  StronglySorted String.le l → r ∈ take n l → q ∈ drop n l → String.le r q.
Proof.
  intros Hs Hr Hq. rewrite <-(take_drop n l) in Hs.
  revert Hs Hr. induction (take n l) as [|x t IH]; cbn; intros Hs Hr; [by apply elem_of_nil in Hr|].
  inversion Hs as [|? ? Hs' Hall]; subst. apply elem_of_cons in Hr as [->|Hr]; [|by apply IH].
  rewrite Forall_forall in Hall. apply Hall. set_solver.
Qed.

Section Rotation.
Variable put_time : string → Z → string.
Implicit Types (k : FileSink) (io : LogIO).

(** A write to an open file that is not full stays in the stream. *)
Lemma Write_kept k io log p t :
  fk_file k = Some (p, t) →
  (fk_current_file_size k + Z.of_nat (str_size log)) `mod` 2 ^ 64 < fk_max_file_size k →
  FileSink_Write put_time log (k, io) =
    (Ret tt, (set_file (Some (p, t +:+ log)) (fk_current_file_path k)
                ((fk_current_file_size k + Z.of_nat (str_size log)) `mod` 2 ^ 64) k, io)).
Proof.
  intros Hf Hsize. unfold FileSink_Write, ensure_open, mbind, M_bind, reads. cbn [fst]. rewrite Hf.
  cbn [mret M_ret put_log]. rewrite Hf. unfold CheckRotate, mbind, M_bind, reads. cbn [fst set_file fk_current_file_size fk_max_file_size fmap option_fmap option_map].
  rewrite decide_False by lia. done.
Qed.

(** The disk when the stream has been closed, and what the cleaning leaves of it. *)
Definition closed_disk p t log io : gmap string string :=
  <[p := default "" (io_disk io !! p) +:+ (t +:+ log)]> (io_disk io).
Definition listed k io (disk : gmap string string) : list string :=
  if lm_lists (io_weather io (io_step io)) then log_files k (set_disk (λ _, disk) io) else [].
Definition removed k io disk : list string :=
  take (length (listed k io disk) - Z.to_nat (fk_max_file_count k - 1)) (listed k io disk).

Lemma is_log_file_set k f p s : is_log_file (set_file f p s k) = is_log_file k.
Proof. done. Qed.

(** A write that fills the file: the file is closed, the oldest files are removed, and
    a new one is opened if that works. *)
Lemma Write_rotates k io log p t :
  fk_file k = Some (p, t) → 1 ≤ fk_max_file_count k →
  fk_max_file_size k ≤ (fk_current_file_size k + Z.of_nat (str_size log)) `mod` 2 ^ 64 →
  let disk := closed_disk p t log io in
  let disk' := delete_all (removed k io disk) disk in
  let mo := io_weather io (S (io_step io)) in
  let name := GenerateFileName put_time k (lm_now mo) in
  ∃ k' io', FileSink_Write put_time log (k, io) = (Ret tt, (k', io')) ∧
    is_log_file k' = is_log_file k ∧
    (if lm_opens mo
     then fk_file k' = Some (name, "") ∧ io_disk io' = <[name := default "" (disk' !! name)]> disk'
     else fk_file k' = None ∧ io_disk io' = disk').
Proof.
  intros Hf Hc Hsize. cbn zeta.
  unfold FileSink_Write, ensure_open, mbind, M_bind, reads. cbn [fst]. rewrite Hf.
  cbn [mret M_ret put_log]. rewrite Hf. unfold CheckRotate, mbind, M_bind, reads.
  cbn [fst set_file fk_current_file_size fk_max_file_size fmap option_fmap option_map snd].
  rewrite decide_True by lia. unfold RotateFile, FileSink_Close, mbind, M_bind.
  cbn [FileSink_Flush close_file set_file fk_file CleanupOldFiles fk_max_file_count fk_current_file_path fk_current_file_size].
  unfold next_moment. cbn [io_weather io_step set_disk io_disk].
  change (log_files _ _) with (log_files k (set_disk (λ _, closed_disk p t log io) io)).
  rewrite remove_oldest_run by done. fold (closed_disk p t log io) (listed k io (closed_disk p t log io)) (removed k io (closed_disk p t log io)).
  cbn [OpenNewFile next_moment set_disk set_cout io_weather io_step io_disk io_cout fk_file set_file].
  destruct (lm_opens _); eexists _, _; (split; [reflexivity|]); by split.
Qed.

Lemma kept_log k io io' p t log name : let disk := closed_disk p t log io in
  lm_lists (io_weather io (io_step io)) = true →
  (io_disk io' = delete_all (removed k io disk) disk ∨
   ∃ c, io_disk io' = <[name := c]> (delete_all (removed k io disk) disk)) →
  ∀ q, q ∈ log_files k io' → q ≠ name →
    q ∈ drop (length (listed k io disk) - Z.to_nat (fk_max_file_count k - 1)) (listed k io disk).
Proof.
  cbn zeta. intros Hl Hdisk q [Hlog Hq]%log_files_elem Hne.
  assert (is_Some (delete_all (removed k io (closed_disk p t log io)) (closed_disk p t log io) !! q)) as Hsome.
  { apply elem_of_dom in Hq. destruct Hdisk as [<-|(c & Heq)]; [done|].
    rewrite Heq, lookup_insert_ne in Hq by done. done. }
  rewrite delete_all_lookup in Hsome. case_decide as Hin; [by destruct Hsome|].
  assert (q ∈ listed k io (closed_disk p t log io)) as Hlisted.
  { unfold listed. rewrite Hl. apply log_files_elem. split; [done|]. cbn. by apply elem_of_dom. }
  rewrite <-(take_drop (length (listed k io (closed_disk p t log io)) - Z.to_nat (fk_max_file_count k - 1))
    (listed k io (closed_disk p t log io))) in Hlisted.
  apply elem_of_app in Hlisted as [?|?]; done.
Qed.

(** C29: a log file that is full is rotated: when [max_file_count] is at least 1 and the directory can be
    listed, there are then at most [max_file_count] log files; every
    file but the new one is as it was (with the line at the end of the one that was
    open), or is removed, and then it is a log file that comes before every one that is
    kept. *)
Theorem rotation_bounds_log_files k io log p t k' io' :
  let name := GenerateFileName put_time k (lm_now (io_weather io (S (io_step io)))) in
  fk_file k = Some (p, t) → 1 ≤ fk_max_file_count k →
  fk_max_file_size k ≤ (fk_current_file_size k + Z.of_nat (str_size log)) `mod` 2 ^ 64 →
  lm_lists (io_weather io (io_step io)) = true →
  FileSink_Write put_time log (k, io) = (Ret tt, (k', io')) →
  Z.of_nat (length (log_files k' io')) ≤ fk_max_file_count k ∧
  ∀ q, q ≠ name →
    io_disk io' !! q = closed_disk p t log io !! q ∨
    io_disk io' !! q = None ∧ is_log_file k q = true ∧
      ∀ q', q' ∈ log_files k' io' → q' ≠ name → String.le q q'.
Proof.
  cbn zeta. intros Hf Hc Hfull Hl Hrun.
  destruct (Write_rotates k io log p t Hf Hc Hfull) as (k1 & io1 & Hrun' & Hlogs & Hres).
  rewrite Hrun' in Hrun. injection Hrun as -> ->.
  set (name := GenerateFileName put_time k _) in *. set (disk := closed_disk p t log io) in *.
  assert (log_files k' io' = log_files k io') as Hk' by (unfold log_files; by rewrite Hlogs).
  assert (io_disk io' = delete_all (removed k io disk) disk ∨
    ∃ c, io_disk io' = <[name := c]> (delete_all (removed k io disk) disk)) as Hdisk.
  { destruct (lm_opens _); destruct Hres as [_ ->]; eauto. }
  pose proof (kept_log k io io' p t log name Hl Hdisk) as Hkept. fold disk in Hkept. rewrite <-Hk' in Hkept.
  split.
  - assert (length (log_files k' io') ≤ length (name :: drop (length (listed k io disk) -
      Z.to_nat (fk_max_file_count k - 1)) (listed k io disk)))%nat as Hlen.
    { apply submseteq_length, NoDup_submseteq; [rewrite Hk'; apply log_files_nodup|]. intros q Hq.
      destruct (decide (q = name)) as [->|Hne]; [left|right]. by apply Hkept. }
    cbn [length] in Hlen. rewrite length_drop in Hlen. lia.
  - intros q Hq. assert (io_disk io' !! q = delete_all (removed k io disk) disk !! q) as Hlook.
    { destruct Hdisk as [->|(c & ->)]; [done|]. by rewrite lookup_insert_ne. }
    rewrite Hlook, delete_all_lookup. case_decide as Hin; [right|by left]. split; [done|]. split.
    + unfold removed, listed in Hin. rewrite Hl in Hin. apply subseteq_take, log_files_elem in Hin. by destruct Hin.
    + intros q' Hq' Hne. eapply sorted_split_le; [|exact Hin|by apply Hkept].
      unfold listed. rewrite Hl. apply log_files_sorted.
Qed.
End Rotation.

Lemma str_rfind_short pat s : (str_size s < str_size pat)%nat → str_rfind pat s = None.
Proof.
  induction s as [|c s IH]; intros Hlt; cbn [str_rfind].
  - rewrite decide_False; [done|]. intros ->. unfold str_size in Hlt. cbn in Hlt. lia.
  - rewrite IH by (unfold str_size in *; cbn in Hlt; lia).
    destruct (String.prefix pat (String c s)) eqn:Hp; [|done].
    apply prefix_iff in Hp as [t Ht]. rewrite Ht, str_size_app in Hlt. lia.
Qed.

(** A name of three characters passes for a log file: [size() - 4] is then [npos]. *)
Lemma short_name_passes name : str_size name = 3%nat → is_log_name name name = true.
Proof.
  intros Hs. unfold is_log_name, rfind.
  rewrite str_rfind_short, Hs, bool_decide_true by (rewrite ?Hs; cbn; done || lia).
  rewrite andb_true_r. rewrite <-(str_app_nil_r name) at 2. apply prefix_app.
Qed.

(** Three files of the log when the last one is full and two are kept. *)
Definition sink0 : FileSink :=
  {| fk_log_dir := "logs"; fk_file_prefix := "a"; fk_max_file_size := 3; fk_max_file_count := 2;
     fk_file := Some ("logs/a_2.log", "x"); fk_current_file_path := "logs/a_2.log"; fk_current_file_size := 1 |}.
Definition sink_io0 : LogIO :=
  {| io_cout := ""; io_disk := {["logs/a_0.log" := "o"; "logs/a_1.log" := "p"; "logs/a_2.log" := ""; "logs/b" := "b"]};
     io_weather := λ _, {| lm_now := 3; lm_opens := true; lm_lists := true |}; io_step := 0 |}.
Definition sink_time0 : string → Z → string := λ _ _, "3".
Definition sink_after : FileSink * LogIO :=
  Eval vm_compute in snd (FileSink_Write sink_time0 "yz" (sink0, sink_io0)).
Lemma rotation_bounds_log_files_witness :
  log_files sink_after.1 sink_after.2 = ["logs/a_2.log"; "logs/a_3_000.log"] ∧
  Z.of_nat (length (log_files sink_after.1 sink_after.2)) ≤ 2 ∧
  io_disk sink_after.2 !! "logs/a_2.log" = Some "xyz" ∧ io_disk sink_after.2 !! "logs/a_0.log" = None.
Proof.
  assert (FileSink_Write sink_time0 "yz" (sink0, sink_io0) = (Ret tt, (sink_after.1, sink_after.2))) as Hrun by eval_eq.
  destruct (rotation_bounds_log_files sink_time0 sink0 sink_io0 "yz" "logs/a_2.log" "x" sink_after.1 sink_after.2
    eq_refl ltac:(cbn; lia) ltac:(vm_compute; discriminate) eq_refl Hrun) as [Hlen _].
  split; [eval_eq|]. split; [exact Hlen|]. split; eval_eq.
Defined.
