(* ===== verification/AsyncLogger.v ===== *)
(** [component/asynclogger]: the buffer between the threads that log and the thread that
    writes ([ring_buffer.cpp]), that thread ([backend_thread.cpp]) and the logger itself
    ([async_logger.cpp]), and the runs of all of them together.

    A step of a run is what one thread does at one moment: a load or store of an atomic
    variable, or a section under the mutex of the buffer.  The condition variable only ends a
    wait that would end by itself: [timed_out] says that the time is up. *)

From S2P Require Import Prelude External Utils LogSinks.

(** * The buffer *)

Record RingBuffer : Type := {
  rb_capacity : Z; rb_front : list LogEntry; rb_back : list LogEntry; rb_stopped : bool }.
Definition RingBuffer_new (capacity : Z) : RingBuffer :=
  {| rb_capacity := capacity; rb_front := []; rb_back := []; rb_stopped := false |}.
Definition set_front (front : list LogEntry) (b : RingBuffer) : RingBuffer :=
  {| rb_capacity := rb_capacity b; rb_front := front; rb_back := rb_back b; rb_stopped := rb_stopped b |}.

(** What [Push] does under the mutex; it loads [stopped_] before it takes it. *)
Definition Push_locked (entry : LogEntry) : M RingBuffer bool := λ b,
  if decide (Z.of_nat (length (rb_front b)) >= rb_capacity b) then (Ret false, b)
  else (Ret true, set_front (rb_front b ++ [entry]) b).
Definition Push (entry : LogEntry) : M RingBuffer bool :=
  stopped ← reads rb_stopped;
  if (stopped : bool) then mret false else Push_locked entry.

(** [SwapAndGet] waits with the mutex released; when the wait is over it swaps. *)
Definition wait_over (timed_out : bool) (b : RingBuffer) : bool :=
  bool_decide (rb_front b ≠ []) || rb_stopped b || timed_out.
Definition SwapAndGet : M RingBuffer (list LogEntry) := λ b,
  match rb_front b with
  | [] => (Ret [], b)
  | _ :: _ => (Ret (rb_front b), {| rb_capacity := rb_capacity b; rb_front := []; rb_back := [];
                                   rb_stopped := rb_stopped b |})
  end.
Definition Size (b : RingBuffer) : Z := Z.of_nat (length (rb_front b)).
Definition Empty (b : RingBuffer) : bool := bool_decide (rb_front b = []).
Definition Stop (b : RingBuffer) : RingBuffer :=
  {| rb_capacity := rb_capacity b; rb_front := rb_front b; rb_back := rb_back b; rb_stopped := true |}.

(** * The thread that writes *)

Inductive Sink : Type :=
  | Console (enable_color : bool)
  | File (k : FileSink).
Record BackendThread : Type := { bt_config : LogConfig; bt_sinks : list Sink; bt_running : bool }.
Definition set_sinks (sinks : list Sink) (bt : BackendThread) : BackendThread :=
  {| bt_config := bt_config bt; bt_sinks := sinks; bt_running := bt_running bt |}.
Definition set_running (running : bool) (bt : BackendThread) : BackendThread :=
  {| bt_config := bt_config bt; bt_sinks := bt_sinks bt; bt_running := running |}.
Definition AddSink (sink : Sink) (bt : BackendThread) : BackendThread := set_sinks (bt_sinks bt ++ [sink]) bt.

Section Logger.
Variable put_time : string → Z → string.
Variable backend_thread_id : string.

Definition on_file {A} (m : M (FileSink * LogIO) A) (k : FileSink) : M LogIO Sink := λ io,
  let '(r, (k, io)) := m (k, io) in
  match r with Ret _ => (Ret (File k), io) | Exc => (Exc, io) end.

(** The body of the inner loop of [ProcessEntries]. *)
Definition write_to (config : LogConfig) (level : Z) (formatted : string) (sink : Sink) : M LogIO Sink :=
  match sink with
  | Console enable_color => λ io,
      (Ret sink, if lc_console_color config
                 then WriteWithLevel enable_color (LogLevel_of level) formatted io
                 else ConsoleSink_Write formatted io)
  | File k => on_file (FileSink_Write put_time formatted) k
  end.
Definition format_entry (config : LogConfig) (entry : LogEntry) : string :=
  Format put_time backend_thread_id (lc_show_file_line config) (lc_show_thread_id config) entry.
Definition ProcessEntry (config : LogConfig) (entry : LogEntry) (sinks : list Sink) : M LogIO (list Sink) :=
  mapM (write_to config (le_level entry) (format_entry config entry)) sinks.
Fixpoint ProcessEntries (config : LogConfig) (entries : list LogEntry) (sinks : list Sink) :
    M LogIO (list Sink) :=
  match entries with
  | [] => mret sinks
  | entry :: entries => sinks ← ProcessEntry config entry sinks; ProcessEntries config entries sinks
  end.

Definition sink_Flush (sink : Sink) : M LogIO Sink :=
  match sink with Console _ => mret sink | File k => on_file FileSink_Flush k end.
Definition sink_Close (sink : Sink) : M LogIO Sink :=
  match sink with Console _ => mret sink | File k => on_file FileSink_Close k end.
Definition Flush (sinks : list Sink) : M LogIO (list Sink) := mapM sink_Flush sinks.
Definition flush_and_close (sinks : list Sink) : M LogIO (list Sink) :=
  mapM (λ sink, sink ← sink_Flush sink; sink_Close sink) sinks.

(** * The logger *)

(** The members of [AsyncLoggerImpl]; the pointers are null before [Init] and after [Shutdown]. *)
Record AsyncLoggerImpl : Type := {
  li_initialized : bool; li_min_level : Z; li_buffer : option RingBuffer; li_backend : option BackendThread }.
Definition logger_new : AsyncLoggerImpl :=
  {| li_initialized := false; li_min_level := LogLevel_int INFO; li_buffer := None; li_backend := None |}.
Definition set_initialized (b : bool) (l : AsyncLoggerImpl) : AsyncLoggerImpl :=
  {| li_initialized := b; li_min_level := li_min_level l; li_buffer := li_buffer l; li_backend := li_backend l |}.
Definition set_buffer (b : option RingBuffer) (l : AsyncLoggerImpl) : AsyncLoggerImpl :=
  {| li_initialized := li_initialized l; li_min_level := li_min_level l; li_buffer := b; li_backend := li_backend l |}.
Definition set_backend (b : option BackendThread) (l : AsyncLoggerImpl) : AsyncLoggerImpl :=
  {| li_initialized := li_initialized l; li_min_level := li_min_level l; li_buffer := li_buffer l; li_backend := b |}.
Definition SetLevel (level : LogLevel) (l : AsyncLoggerImpl) : AsyncLoggerImpl :=
  {| li_initialized := li_initialized l; li_min_level := LogLevel_int level; li_buffer := li_buffer l;
     li_backend := li_backend l |}.

Definition buffer_entries (config : LogConfig) : Z :=
  let buffer_entries := Z.quot (lc_buffer_size config) 256 in
  if decide (buffer_entries < 1024) then 1024 else buffer_entries.

Definition Init (config : LogConfig) : M (AsyncLoggerImpl * LogIO) bool := λ '(l, io),
  if li_initialized l then (Ret true, (l, io)) else
  let backend := {| bt_config := config; bt_sinks := []; bt_running := false |} in
  let backend := if lc_enable_console config then AddSink (Console (lc_console_color config)) backend
                 else backend in
  let '(backend, io) :=
    if lc_enable_file config then
      let '(k, io) := FileSink_new put_time (lc_log_dir config) (lc_file_prefix config)
                        (lc_max_file_size config) (lc_max_file_count config) io in
      (AddSink (File k) backend, io)
    else (backend, io) in
  (Ret true, ({| li_initialized := true; li_min_level := LogLevel_int (lc_min_level config);
                 li_buffer := Some (RingBuffer_new (buffer_entries config));
                 li_backend := Some (set_running true backend) |}, io)).

(** A call of [Log] or [LogWithTag]. *)
Record LogCall : Type := {
  ca_level : LogLevel; ca_tag : Tag; ca_file : option string; ca_line : Z; ca_message : string }.
Definition make_entry (now : Z) (c : LogCall) : LogEntry :=
  {| le_timestamp := now; le_level := LogLevel_int (ca_level c); le_line := ca_line c;
     le_file := default "" (ca_file c); le_message := ca_message c; le_tags := Tag_ToString (ca_tag c) |}.
(** The check of the macros before they call [Log]. *)
Definition ShouldLog (level : LogLevel) (l : AsyncLoggerImpl) : bool :=
  li_initialized l && bool_decide (LogLevel_int level >= li_min_level l).

(** * Runs *)

(** Where a thread is in [Log]: past the check of [initialized_], past the check of the level, past
    the check of [stopped_]. *)
Inductive log_call : Type :=
  | CLevel (c : LogCall)
  | CPush (entry : LogEntry)
  | CLock (entry : LogEntry).
(** Where the writing thread is in [Run]. *)
Inductive backend_pc : Type :=
  | BTop                             (* about to load [running_] *)
  | BEmpty                           (* [running_] was false: about to ask [Empty] *)
  | BSwap
  | BWrite (entries : list LogEntry) (* in [ProcessEntries] *)
  | BFlush
  | BDone.
(** Where the thread is that shuts the logger down. *)
Inductive shutdown_pc : Type :=
  | SIdle
  | SRunning                         (* [initialized_] is false *)
  | SStop                            (* [running_] is false *)
  | SJoin
  | SSwap                            (* joined: about to take what remains *)
  | SWrite (entries : list LogEntry)
  | SClose
  | SBackend                         (* about to destroy the backend *)
  | SBuffer                          (* about to destroy the buffer *)
  | SDone.

(** [w_accepted]: the entries [Push] returned true for, [w_written]: the entries that were
    processed, both oldest first. *)
Record World : Type := {
  w_logger : AsyncLoggerImpl; w_config : LogConfig; w_io : LogIO;
  w_calls : gmap nat log_call; w_backend : backend_pc; w_shutdown : shutdown_pc;
  w_accepted : list LogEntry; w_written : list LogEntry }.
Definition up_logger (f : AsyncLoggerImpl → AsyncLoggerImpl) (w : World) : World :=
  {| w_logger := f (w_logger w); w_config := w_config w; w_io := w_io w; w_calls := w_calls w; w_backend := w_backend w;
     w_shutdown := w_shutdown w; w_accepted := w_accepted w; w_written := w_written w |}.
Definition up_calls (f : gmap nat log_call → gmap nat log_call) (w : World) : World :=
  {| w_logger := w_logger w; w_config := w_config w; w_io := w_io w; w_calls := f (w_calls w); w_backend := w_backend w;
     w_shutdown := w_shutdown w; w_accepted := w_accepted w; w_written := w_written w |}.
Definition at_backend (pc : backend_pc) (w : World) : World :=
  {| w_logger := w_logger w; w_config := w_config w; w_io := w_io w; w_calls := w_calls w; w_backend := pc;
     w_shutdown := w_shutdown w; w_accepted := w_accepted w; w_written := w_written w |}.
Definition at_shutdown (pc : shutdown_pc) (w : World) : World :=
  {| w_logger := w_logger w; w_config := w_config w; w_io := w_io w; w_calls := w_calls w; w_backend := w_backend w;
     w_shutdown := pc; w_accepted := w_accepted w; w_written := w_written w |}.
Definition accept (l : list LogEntry) (w : World) : World :=
  {| w_logger := w_logger w; w_config := w_config w; w_io := w_io w; w_calls := w_calls w; w_backend := w_backend w;
     w_shutdown := w_shutdown w; w_accepted := w_accepted w ++ l; w_written := w_written w |}.
Definition after_write (l : list LogEntry) (sinks : list Sink) (io : LogIO) (w : World) : World :=
  {| w_logger := set_backend (set_sinks sinks <$> li_backend (w_logger w)) (w_logger w);
     w_config := w_config w; w_io := io;
     w_calls := w_calls w; w_backend := w_backend w; w_shutdown := w_shutdown w;
     w_accepted := w_accepted w; w_written := w_written w ++ l |}.

(** A step is impossible at this point of the thread, or leads on, or is undefined behaviour. *)
Inductive step_result : Type := Disabled | Next (w : World) | Crash.

(** Run something on the sinks that has processed the entries [l]. *)
Definition on_sinks (m : list Sink → M LogIO (list Sink)) (l : list LogEntry) (w : World) : step_result :=
  match li_backend (w_logger w) with
  | None => Crash
  | Some bt => match m (bt_sinks bt) (w_io w) with
               | (Ret sinks, io) => Next (after_write l sinks io w)
               | (Exc, _) => Crash
               end
  end.
Definition and_then (r : step_result) (f : World → World) : step_result :=
  match r with Next w => Next (f w) | _ => r end.
(** Use [*buffer_], which is gone after the shutdown. *)
Definition on_buffer {A} (w : World) (m : M RingBuffer A) (k : A → World → step_result) : step_result :=
  match li_buffer (w_logger w) with
  | None => Crash
  | Some b => match m b with
              | (Ret a, b) => k a (up_logger (set_buffer (Some b)) w)
              | (Exc, _) => Crash
              end
  end.

Definition call_step (now : Z) (t : nat) (w : World) : step_result :=
  match w_calls w !! t with
  | None => Disabled
  | Some (CLevel c) =>
      if decide (LogLevel_int (ca_level c) < li_min_level (w_logger w)) then Next (up_calls (delete t) w)
      else Next (up_calls <[t := CPush (make_entry now c)]> w)
  | Some (CPush entry) =>
      on_buffer w (reads rb_stopped) (λ stopped w,
        Next (if (stopped : bool) then up_calls (delete t) w else up_calls <[t := CLock entry]> w))
  | Some (CLock entry) =>
      on_buffer w (Push_locked entry) (λ accepted w,
        Next (up_calls (delete t) (if (accepted : bool) then accept [entry] w else w)))
  end.

Definition backend_step (timed_out : bool) (w : World) : step_result :=
  match w_backend w with
  | BTop => match li_backend (w_logger w) with
            | Some bt => Next (at_backend (if bt_running bt then BSwap else BEmpty) w)
            | None => Crash
            end
  | BEmpty => on_buffer w (reads Empty) (λ empty w,
                Next (at_backend (if (empty : bool) then BDone else BSwap) w))
  | BSwap => match li_buffer (w_logger w) with
             | Some b => if wait_over timed_out b
                         then on_buffer w SwapAndGet (λ entries w, Next (at_backend (BWrite entries) w))
                         else Disabled
             | None => Crash
             end
  | BWrite [] => Next (at_backend BFlush w)
  | BWrite (entry :: entries) =>
      and_then (on_sinks (ProcessEntry (w_config w) entry) [entry] w) (at_backend (BWrite entries))
  | BFlush => and_then (on_sinks Flush [] w) (at_backend BTop)
  | BDone => Disabled
  end.

(** [Shutdown], with [BackendThread::Stop] in it. *)
Definition shutdown_step (w : World) : step_result :=
  match w_shutdown w with
  | SIdle => Next (if li_initialized (w_logger w)
                   then at_shutdown SRunning (up_logger (set_initialized false) w)
                   else at_shutdown SDone w)
  | SRunning => Next (at_shutdown SStop (up_logger (λ l, set_backend (set_running false <$> li_backend l) l) w))
  | SStop => on_buffer w (λ b, (Ret tt, Stop b)) (λ _ w, Next (at_shutdown SJoin w))
  | SJoin => match w_backend w with BDone => Next (at_shutdown SSwap w) | _ => Disabled end
  | SSwap => on_buffer w SwapAndGet (λ remaining w, Next (at_shutdown (SWrite remaining) w))
  | SWrite [] => Next (at_shutdown SClose w)
  | SWrite (entry :: entries) =>
      and_then (on_sinks (ProcessEntry (w_config w) entry) [entry] w) (at_shutdown (SWrite entries))
  | SClose => and_then (on_sinks flush_and_close [] w) (at_shutdown SBackend)
  | SBackend => Next (at_shutdown SBuffer (up_logger (set_backend None) w))
  | SBuffer => Next (at_shutdown SDone (up_logger (set_buffer None) w))
  | SDone => Disabled
  end.

Inductive event : Type :=
  | ECall (t : nat) (c : LogCall)     (* a thread calls [Log] *)
  | EStep (now : Z) (t : nat)         (* and goes on in it *)
  | ELevel (level : LogLevel)
  | EFlush                            (* a thread calls [Flush] *)
  | EBackend (timed_out : bool)
  | EShutdown.
Definition step (ev : event) (w : World) : step_result :=
  match ev with
  | ECall t c =>
      match w_calls w !! t with
      | Some _ => Disabled
      | None => Next (if li_initialized (w_logger w) then up_calls <[t := CLevel c]> w else w)
      end
  | EStep now t => call_step now t w
  | ELevel level => Next (up_logger (SetLevel level) w)
  | EFlush => match li_backend (w_logger w) with None => Next w | Some _ => on_sinks Flush [] w end
  | EBackend timed_out => backend_step timed_out w
  | EShutdown => shutdown_step w
  end.

Definition started (config : LogConfig) (io : LogIO) : World :=
  let '(_, (l, io)) := Init config (logger_new, io) in
  {| w_logger := l; w_config := config; w_io := io; w_calls := ∅; w_backend := BTop; w_shutdown := SIdle;
     w_accepted := []; w_written := [] |}.
Inductive reachable (w0 : World) : World → Prop :=
  | reach_start : reachable w0 w0
  | reach_step ev w w' : reachable w0 w → step ev w = Next w' → reachable w0 w'.

Fixpoint run (evs : list event) (w : World) : step_result :=
  match evs with
  | [] => Next w
  | ev :: evs => match step ev w with Next w => run evs w | r => r end
  end.
End Logger.

(** * Invariants of the runs *)

Definition hand (pc : backend_pc) : list LogEntry := match pc with BWrite entries => entries | _ => [] end.
Definition last_hand (pc : shutdown_pc) : list LogEntry := match pc with SWrite entries => entries | _ => [] end.
Definition phase (pc : shutdown_pc) : Z :=
  match pc with
  | SIdle => 0 | SRunning => 1 | SStop => 2 | SJoin => 3 | SSwap => 4 | SWrite _ => 5 | SClose => 6
  | SBackend => 7 | SBuffer => 8 | SDone => 9
  end.

Record log_inv (w : World) : Prop := {
  inv_order : match li_buffer (w_logger w) with
              | Some b => w_accepted w = w_written w ++ hand (w_backend w) ++ last_hand (w_shutdown w) ++ rb_front b ∧
                          Z.of_nat (length (rb_front b)) ≤ rb_capacity b ∧
                          (3 ≤ phase (w_shutdown w) → rb_stopped b = true) ∧ phase (w_shutdown w) ≤ 8
              | None => w_written w `prefix_of` w_accepted w ∧ w_shutdown w = SDone
              end;
  inv_backend : match li_backend (w_logger w) with
                | Some bt => bt_running bt = bool_decide (phase (w_shutdown w) < 2) ∧ phase (w_shutdown w) ≤ 7
                | None => 8 ≤ phase (w_shutdown w)
                end;
  inv_joined : 4 ≤ phase (w_shutdown w) → w_backend w = BDone;
  inv_leaving : w_backend w = BEmpty ∨ w_backend w = BDone → 2 ≤ phase (w_shutdown w);
  inv_initialized : li_initialized (w_logger w) = bool_decide (phase (w_shutdown w) = 0) }.

Lemma on_sinks_next m l w w' : on_sinks m l w = Next w' →
  ∃ sinks io, is_Some (li_backend (w_logger w)) ∧ w' = after_write l sinks io w.
Proof.
  unfold on_sinks. intros Hs. destruct (li_backend _) as [bt|]; [|done].
  destruct (m _ _) as [[sinks|] io]; [|done]. injection Hs as <-. by eauto.
Qed.
Lemma and_then_next r f w' : and_then r f = Next w' → ∃ w, r = Next w ∧ w' = f w.
Proof. destruct r; cbn; intros [= <-]. by eauto. Qed.
Lemma on_buffer_next {A} (m : M RingBuffer A) k w w' : on_buffer w m k = Next w' →
  ∃ b a b', li_buffer (w_logger w) = Some b ∧ m b = (Ret a, b') ∧ k a (up_logger (set_buffer (Some b')) w) = Next w'.
Proof.
  unfold on_buffer. intros Hs. destruct (li_buffer _) as [b|]; [|done].
  destruct (m b) as [[a|] b'] eqn:Hm; [|done]. by eauto 6.
Qed.
Ltac next_step H :=
  lazymatch type of H with
  | and_then _ _ = Next _ => apply and_then_next in H; destruct H as (? & H & ->); next_step H
  | on_sinks _ _ _ = Next _ => apply on_sinks_next in H; destruct H as (? & ? & [? ?] & ->)
  | on_buffer _ _ _ = Next _ => apply on_buffer_next in H; destruct H as (? & ? & ? & ? & Hm & H); cbn beta in H; next_step H
  | Next _ = Next _ => (injection H; clear H; intros <-)
  | _ => idtac
  end.

(** What happens to the sinks changes none of what the invariant looks at. *)
Lemma after_write_inv l sinks io w : log_inv (after_write l sinks io w) ↔
  log_inv {| w_logger := w_logger w; w_config := w_config w; w_io := w_io w; w_calls := w_calls w;
    w_backend := w_backend w; w_shutdown := w_shutdown w; w_accepted := w_accepted w;
    w_written := w_written w ++ l |}.
Proof.
  split; intros [H1 H2 H3 H4 H5]; split; cbn in *; try done.
  - by destruct (li_backend _).
  - by destruct (li_backend _).
Qed.

(** Close a field of the invariant after a step, from the fields before it. *)
Ltac log_solve := cbn in *; destruct_and?;
  repeat match goal with H : ?a ≤ ?b → _ |- _ => specialize (H ltac:(lia)) end; first [done | lia | by intuition (subst; auto; try lia; try congruence) | idtac].

Ltac log_split :=
  split; cbn in *; try match goal with |- context [li_backend ?l] => destruct (li_backend l)
    | |- context [li_buffer ?l] => destruct (li_buffer l) end;
  rewrite ?app_nil_r, <-?app_assoc in *; log_solve.

Section Invariant.
Variable put_time : string → Z → string.
Variable tid : string.
Implicit Types w : World.

Lemma call_step_inv now t w w' : log_inv w → call_step now t w = Next w' → log_inv w'.
Proof.
  intros [H1 H2 H3 H4 H5] Hs. unfold call_step in Hs.
  destruct (w_calls w !! t) as [[c|e|e]|]; [|..|done].
  - case_decide; next_step Hs; by split.
  - next_step Hs. rename select (li_buffer _ = _) into Hb. rewrite Hb in H1. munfold Hm. simplify_eq.
    destruct (rb_stopped _) eqn:?; split; log_solve.
  - next_step Hs. rename select (li_buffer _ = _) into Hb. rewrite Hb in H1. destruct H1 as (Ho & Hc & Hst & Hp).
    unfold Push_locked in *. case_decide; simplify_eq; (split; [|log_solve..]); cbn.
    + done.
    + rewrite Ho, length_app. cbn. rewrite <-!app_assoc. split_and!; [done|lia|done|done].
Qed.

Lemma backend_step_inv timed_out w w' : log_inv w → backend_step put_time tid timed_out w = Next w' → log_inv w'.
Proof.
  intros [H1 H2 H3 H4 H5] Hs. unfold backend_step in Hs. destruct (w_backend w) as [| | |es| |] eqn:Hpc; [..|done].
  - destruct (li_backend _) as [bt|] eqn:Hbt; [|done]. next_step Hs. destruct H2 as [Hr Hle].
    destruct (bt_running bt) eqn:Hrun; split; log_solve; rewrite ?Hbt; log_solve.
    intros _. symmetry in Hr. apply bool_decide_eq_false in Hr. lia.
  - next_step Hs. munfold Hm. rename select (li_buffer _ = _) into Hb. rewrite Hb in H1. simplify_eq.
    destruct (Empty _); split; log_solve.
  - destruct (li_buffer _) as [b|] eqn:Hb; [|done]. destruct (wait_over _ _); [|done].
    unfold on_buffer in Hs. rewrite Hb in Hs. unfold SwapAndGet in Hs. destruct H1 as (Ho & Hc & Hst & Hp).
    assert (last_hand (w_shutdown w) = []) as Hl.
    { destruct (w_shutdown w) eqn:Hsd; try done. by specialize (H3 ltac:(cbn; lia)). }
    rewrite Hl in Ho. destruct (rb_front b) as [|x q] eqn:Hq; injection Hs as <-; split; cbn; log_solve;
      rewrite ?Hq, ?Hl; log_solve.
    rewrite app_nil_r. split_and!; [done|lia|done|done].
  - destruct es as [|e es].
    + next_step Hs. split; log_solve.
    + next_step Hs. split; log_solve.
      * destruct (li_buffer _); log_solve; rewrite <-?app_assoc; log_solve.
        rename select (w_shutdown w = SDone) into Hd. by specialize (H3 ltac:(rewrite Hd; cbn; lia)).
      * by destruct (li_backend _).
  - next_step Hs. split; log_solve; rewrite ?app_nil_r; log_solve. by destruct (li_backend _).
Qed.

Lemma shutdown_step_inv w w' : log_inv w → shutdown_step put_time tid w = Next w' → log_inv w'.
Proof.
  intros [H1 H2 H3 H4 H5] Hs. unfold shutdown_step in Hs.
  destruct (w_shutdown w) as [| | | | |es| | | |] eqn:Hpc; cbn [phase] in *; [..|done].
  - next_step Hs. rewrite H5, bool_decide_true by done. log_split.
  - next_step Hs. log_split.
  - next_step Hs. rename select (li_buffer _ = _) into Hb. rewrite Hb in H1. simplify_eq. log_split.
  - destruct (w_backend w) eqn:Hb; try done. next_step Hs. log_split. rewrite Hb. log_solve.
  - next_step Hs. rename select (li_buffer _ = _) into Hb. rewrite Hb in H1. rewrite H3 in * by lia.
    unfold SwapAndGet in Hm. destruct H1 as (Ho & Hc & Hst & Hp).
    destruct (rb_front _) as [|y q] eqn:Hq; simplify_eq; log_split; rewrite H3, ?Hq; cbn; rewrite ?app_nil_r; log_solve.
  - destruct es as [|e es].
    + next_step Hs. log_split.
    + next_step Hs. rewrite H3 in * by lia. log_split. rewrite H3. log_solve.
  - next_step Hs. log_split.
  - next_step Hs. log_split.
  - next_step Hs. rewrite H3 in * by lia. log_split. split; [|done].
    destruct (li_buffer _); [|by destruct H1]. destruct H1 as (-> & _). by eexists.
Qed.

Lemma step_inv ev w w' : log_inv w → step put_time tid ev w = Next w' → log_inv w'.
Proof.
  intros Hi Hs. destruct ev as [t c|now t|level| |timed_out|]; cbn [step] in Hs.
  - destruct (w_calls w !! t); [done|]. next_step Hs. case_match; [|done]. by destruct Hi; split.
  - by eapply call_step_inv.
  - next_step Hs. by destruct Hi; split.
  - destruct (li_backend (w_logger w)) as [bt|] eqn:Hb; [|by injection Hs as <-].
    next_step Hs. apply after_write_inv. rewrite app_nil_r. by destruct Hi; split.
  - by eapply backend_step_inv.
  - by eapply shutdown_step_inv.
Qed.

Lemma started_inv config io : log_inv (started put_time config io).
Proof.
  assert (0 ≤ buffer_entries config) by (unfold buffer_entries; case_decide; lia).
  unfold started, Init. cbn. destruct (lc_enable_file config); [destruct (FileSink_new _ _ _ _ _ _)|];
    destruct (lc_enable_console config); split; cbn; try done; split_and?; (done || lia || intuition done).
Qed.

Lemma reachable_inv config io w : reachable put_time tid (started put_time config io) w → log_inv w.
Proof. induction 1; [apply started_inv|by eapply step_inv]. Qed.
End Invariant.

(** C27: the order of the log: whatever the threads do, the entries the buffer has accepted are written
    in the order it accepted them, none twice and none left out: those not yet written wait in the
    hands of the writing thread or in the buffer, which never holds more than its capacity.  The comment
    at [ring_buffer.cpp:19] says otherwise: that a full buffer drops its oldest entry, one it had
    accepted.  The code drops the new entry, which is never accepted. *)
Theorem entries_written_in_order put_time tid config io w :
  reachable put_time tid (started put_time config io) w →
  w_written w `prefix_of` w_accepted w ∧
  ∀ b, li_buffer (w_logger w) = Some b →
    w_accepted w = w_written w ++ hand (w_backend w) ++ last_hand (w_shutdown w) ++ rb_front b ∧
    Z.of_nat (length (rb_front b)) ≤ rb_capacity b.
Proof.
  intros [Ho _ _ _ _]%reachable_inv. split.
  - destruct (li_buffer _); [|by destruct Ho]. destruct Ho as [-> _]. by eexists.
  - intros b Hb. rewrite Hb in Ho. by destruct Ho as (? & ? & _).
Qed.

(** * Nothing is lost by a quiet shutdown *)

(** No call is past the check of [stopped_] and still before the mutex. *)
Definition none_late (w : World) : Prop := ∀ t e, w_calls w !! t ≠ Some (CLock e).
(** Once the last swap is done, what was accepted is written or about to be. *)
Definition clean (w : World) : Prop :=
  5 ≤ phase (w_shutdown w) → w_accepted w = w_written w ++ last_hand (w_shutdown w).

Ltac case_goal := match goal with |- context [if ?b then _ else _] => destruct b end.
Section Clean.
Variable put_time : string → Z → string.
Variable tid : string.
Implicit Types w : World.

Lemma step_clean ev w w' :
  log_inv w → none_late w → clean w → step put_time tid ev w = Next w' → clean w'.
Proof.
  intros Hi Hn Hc Hs. pose proof Hi as [H1 H2 H3 H4 H5].
  destruct ev as [t c|now t|level| |timed_out|]; cbn [step] in Hs.
  - destruct (w_calls w !! t); [done|]. next_step Hs. by case_goal.
  - unfold call_step in Hs. destruct (w_calls w !! t) as [[c|e|e]|] eqn:Ht; [..|done].
    + case_decide; next_step Hs; done.
    + next_step Hs. by case_goal.
    + by apply Hn in Ht.
  - next_step Hs. done.
  - destruct (li_backend (w_logger w)); next_step Hs; [|done].
    intros Hp. cbn in *. rewrite app_nil_r. by apply Hc.
  - unfold backend_step in Hs. destruct (w_backend w) as [| | |es| |] eqn:Hpc.
    1-5: assert (¬ 4 ≤ phase (w_shutdown w)) as Hlt by (intros Hp; by specialize (H3 Hp)).
    + destruct (li_backend _); next_step Hs; [|done]. intros Hp. cbn in Hp. lia.
    + next_step Hs. intros Hp. cbn in Hp. lia.
    + destruct (li_buffer _); [|done]. destruct (wait_over _ _); next_step Hs; [|done].
      intros Hp. cbn in Hp. lia.
    + destruct es; next_step Hs; intros Hp; cbn in Hp; lia.
    + next_step Hs. intros Hp. cbn in Hp. lia.
    + done.
  - unfold clean in *. unfold shutdown_step in Hs.
    destruct (w_shutdown w) as [| | | | |es| | | |] eqn:Hpc; cbn [phase last_hand] in *; [..|done].
    + next_step Hs. rewrite H5, bool_decide_true by done. cbn. lia.
    + next_step Hs. cbn. lia.
    + next_step Hs. cbn. lia.
    + destruct (w_backend w); try done. next_step Hs. cbn. lia.
    + next_step Hs. intros _. rename select (li_buffer _ = _) into Hb. rewrite Hb, H3 in H1 by lia.
      destruct H1 as (Ho & _). unfold SwapAndGet in Hm. cbn in *.
      by destruct (rb_front _) eqn:Hq; simplify_eq; rewrite Ho, ?Hq.
    + specialize (Hc ltac:(lia)). destruct es as [|e es]; next_step Hs; intros _; cbn in *; [done|].
      by rewrite <-app_assoc.
    + specialize (Hc ltac:(lia)). next_step Hs. intros _. cbn in *. by rewrite app_nil_r.
    + specialize (Hc ltac:(lia)). next_step Hs. by intros _.
    + specialize (Hc ltac:(lia)). next_step Hs. by intros _.
Qed.

(** After the buffer is stopped no call gets past the check. *)
Lemma step_none_late ev w w' : log_inv w → 3 ≤ phase (w_shutdown w) → none_late w →
  step put_time tid ev w = Next w' → none_late w' ∧ 3 ≤ phase (w_shutdown w').
Proof.
  unfold none_late. intros Hi Hp Hn Hs. pose proof Hi as [H1 _ _ _ H5].
  destruct ev as [t c|now t|level| |timed_out|]; cbn [step] in Hs.
  - destruct (w_calls w !! t); [done|]. next_step Hs. rewrite H5, bool_decide_false by lia. done.
  - unfold call_step in Hs. destruct (w_calls w !! t) as [[c|e|e]|] eqn:Ht; [..|done].
    + case_decide; next_step Hs; (split; [|done]); intros t' e'; cbn;
        rewrite ?lookup_delete_Some, ?lookup_insert_Some; naive_solver.
    + next_step Hs. rename select (li_buffer _ = _) into Hb. rewrite Hb in H1. destruct H1 as (_ & _ & Hst & _).
      munfold Hm. simplify_eq. rewrite Hst by done. split; [|done]. intros t' e'. cbn.
      rewrite lookup_delete_Some. naive_solver.
    + by apply Hn in Ht.
  - next_step Hs. done.
  - destruct (li_backend (w_logger w)); next_step Hs; done.
  - unfold backend_step in Hs. destruct (w_backend w) as [| | |[|e es]| |]; try done.
    + destruct (li_backend _); next_step Hs; done.
    + next_step Hs; done.
    + destruct (li_buffer _); [|done]. destruct (wait_over _ _); next_step Hs; done.
    + next_step Hs; done.
    + next_step Hs; done.
    + next_step Hs; done.
  - unfold shutdown_step in Hs.
    destruct (w_shutdown w) as [| | | | |[|e es]| | | |]; try (cbn in Hp; lia); try done;
      try (destruct (w_backend w); try done); next_step Hs; done.
Qed.

Lemma run_clean evs w w' : log_inv w → 3 ≤ phase (w_shutdown w) → none_late w → clean w →
  run put_time tid evs w = Next w' → clean w'.
Proof.
  revert w. induction evs as [|ev evs IH]; intros w Hi Hp Hn Hc Hs; cbn in Hs; [by injection Hs as <-|].
  destruct (step _ _ ev w) as [|w1|] eqn:Hst; [done| |done].
  destruct (step_none_late ev w w1 Hi Hp Hn Hst) as [Hn' Hp'].
  eapply IH; [by eapply step_inv|done|done|by eapply step_clean|done].
Qed.
End Clean.

(** a shutdown loses nothing when no thread is about to take the mutex in [Push] at the moment the
    backend has been told to stop: whatever happens from then on, once the shutdown is done
    all that was accepted is written. *)
Theorem stopped_logger_loses_nothing put_time tid config io w evs w' :
  reachable put_time tid (started put_time config io) w →
  w_shutdown w = SJoin → none_late w →
  run put_time tid evs w = Next w' → w_shutdown w' = SDone →
  w_written w' = w_accepted w'.
Proof.
  intros Hr Hj Hn Hrun Hd.
  assert (clean w') as Hc.
  { eapply run_clean; [by eapply reachable_inv|by rewrite Hj|done| |exact Hrun]. unfold clean. rewrite Hj. cbn. lia. }
  specialize (Hc ltac:(rewrite Hd; cbn; lia)). rewrite Hd, app_nil_r in Hc. done.
Qed.

(** * What the console shows *)


Section Calm.
Variable put_time : string → Z → string.
End Calm.




Section Shown.
Variable put_time : string → Z → string.
Variable tid : string.








End Shown.

(** * A shutdown ends

    A schedule says which thread has the next turn, for ever; a thread that cannot go on lets its
    turn pass. *)

Section Schedules.
Variable put_time : string → Z → string.
Variable tid : string.

End Schedules.




Section Progress.
Variable put_time : string → Z → string.
Variable tid : string.
Implicit Types w : World.







End Progress.



(** * What an early shutdown does

    A call between its checks and the mutex when the logger is shut down. *)

Definition log_moment0 : LogMoment := {| lm_now := 1700000000000000; lm_opens := true; lm_lists := true |}.
Definition log_io0 : LogIO := {| io_cout := ""; io_disk := ∅; io_weather := λ _, log_moment0; io_step := 0 |}.
Definition put_time0 : string → Z → string := λ _ _, "20231114_221320".
Notation logger0 := (started put_time0 "1" LogConfig_default log_io0).
Definition call0 : LogCall :=
  {| ca_level := WARN; ca_tag := [("k", "v")]; ca_file := Some "a.cpp"; ca_line := 7; ca_message := "hi" |}.
Definition entry0 : LogEntry := make_entry 5 call0.
(** From the call of [Shutdown] to the last swap; what follows it; the thread that logs. *)
Definition shut_down : list event := [EShutdown; EShutdown; EShutdown; EBackend true; EBackend true; EShutdown; EShutdown].
Definition tear_down : list event := [EShutdown; EShutdown; EShutdown; EShutdown].

(** an entry can be lost although [Push] has answered that it was taken: the thread that logs has
    passed the check of [stopped_], and takes the mutex after the last swap. *)
Theorem accepted_entry_lost : ∃ evs w,
  run put_time0 "1" evs (started put_time0 LogConfig_default log_io0) = Next w ∧
  w_shutdown w = SDone ∧ w_accepted w = [entry0] ∧ w_written w = [] ∧ io_cout (w_io w) = "".
Proof.
  eexists ([ECall 1 call0; EStep 5 1; EStep 5 1] ++ shut_down ++ [EStep 5 1] ++ tear_down), _.
  split; [vm_compute; reflexivity|]. by split_and!.
Qed.
(** a thread that has passed the check of [initialized_] uses the buffer after it was destroyed. *)
Theorem logger_used_after_shutdown : ∃ evs,
  run put_time0 "1" evs (started put_time0 LogConfig_default log_io0) = Crash.
Proof.
  exists ([ECall 1 call0; EStep 5 1] ++ shut_down ++ tear_down ++ [EStep 5 1]). vm_compute. reflexivity.
Qed.

(** * Witnesses *)

Lemma run_reachable put_time tid w0 evs w w' :
  reachable put_time tid w0 w → run put_time tid evs w = Next w' → reachable put_time tid w0 w'.
Proof.
  revert w. induction evs as [|ev evs IH]; intros w Hr Hrun; cbn in Hrun; [by injection Hrun as <-|].
  destruct (step _ _ ev w) as [|w1|] eqn:Hs; [done| |done]. eapply IH; [by eapply reach_step|done].
Qed.
Definition run_of (evs : list event) : World :=
  match run put_time0 "1" evs (started put_time0 LogConfig_default log_io0) with
  | Next w => w | _ => started put_time0 LogConfig_default log_io0 end.
(** One entry is in the buffer; then in the hands of the writing thread and another one in the
    buffer; the first one when the logger has been stopped, and after the shutdown. *)
Definition logged : list event := [ECall 1 call0; EStep 5 1; EStep 5 1; EStep 5 1].
Definition two_logged : list event := logged ++ [EBackend true; EBackend true] ++ logged.
Definition stop : list event := logged ++ [EShutdown; EShutdown; EShutdown].
Definition drain : list event := replicate 8 (EBackend true) ++ [EShutdown; EShutdown] ++ tear_down.
Definition world_two : World := Eval vm_compute in run_of two_logged.
Definition world_stop : World := Eval vm_compute in run_of stop.
Definition world_drained : World := Eval vm_compute in run_of (stop ++ drain).
Lemma run_to evs w : run put_time0 "1" evs (started put_time0 LogConfig_default log_io0) = Next w →
  reachable put_time0 "1" (started put_time0 LogConfig_default log_io0) w.
Proof. apply run_reachable, reach_start. Qed.

Lemma entries_written_in_order_witness :
  w_accepted world_two = [entry0; entry0] ∧ hand (w_backend world_two) = [entry0] ∧
  w_written world_two `prefix_of` w_accepted world_two.
Proof.
  split; [eval_eq|]. split; [eval_eq|].
  refine (proj1 (entries_written_in_order put_time0 "1" LogConfig_default log_io0 world_two _)).
  apply (run_to two_logged). eval_eq.
Defined.


Lemma stopped_logger_loses_nothing_witness :
  run put_time0 "1" drain world_stop = Next world_drained ∧ w_written world_drained = w_accepted world_drained.
Proof.
  assert (run put_time0 "1" drain world_stop = Next world_drained) as Hrun by eval_eq.
  split; [exact Hrun|].
  refine (stopped_logger_loses_nothing put_time0 "1" LogConfig_default log_io0 world_stop drain world_drained
    _ _ _ Hrun _).
  - apply (run_to stop). eval_eq.
  - eval_eq.
  - intros t e. assert (w_calls world_stop = ∅) as -> by eval_eq. by rewrite lookup_empty.
  - eval_eq.
Defined.
