(* ===== verification/Config.v ===== *)
(** [common/src/config_loader.cpp] and the [internal/config] of the seven services: options
    from a key=value file, overridden by the environment.

    A file that does not open is [None]; the environment is the list of its strings, in its
    order. *)

From Stdlib Require Import Ascii.
From S2P Require Import Prelude External Utils.

(** * Key-value files *)

(** [" \t\r\n"] *)
Definition blank (c : ascii) : bool := bool_decide (code c ∈ [32; 9; 13; 10]%N).
Fixpoint find_first_not_of (p : ascii → bool) (s : string) : option nat :=
  match s with
  | EmptyString => None
  | String c s' => if p c then S <$> find_first_not_of p s' else Some O
  end.
Fixpoint find_last_not_of (p : ascii → bool) (s : string) : option nat :=
  match s with
  | EmptyString => None
  | String c s' => match find_last_not_of p s' with
                   | Some n => Some (S n)
                   | None => if p c then None else Some O
                   end
  end.
Definition Trim (s : string) : string :=
  match find_first_not_of blank s with
  | None => ""
  | Some start =>
      match find_last_not_of blank s with
      | None => str_drop start s
      | Some last => str_take (last - start + 1) (str_drop start s)
      end
  end.

Definition KeyValueConfig : Type := gmap string string.
Definition ToLowerKey (s : string) : string := str_map tolower s.

(** A line of the file: the key and the value it sets. *)
Definition parse_line (line : string) : option (string * string) :=
  let line := Trim line in
  match line with
  | EmptyString => None
  | String c _ =>
      if decide (c = "#"%char) then None else
      match str_find "=" line with
      | None => None
      | Some eq =>
          let key := Trim (str_take eq line) in
          let value := Trim (str_drop (eq + 1) line) in
          if decide (key = "") then None else Some (ToLowerKey key, value)
      end
  end.
Definition set_option (o : option (string * string)) (m : KeyValueConfig) : KeyValueConfig :=
  match o with Some (k, v) => <[k := v]> m | None => m end.
Definition LoadFile (file : option string) (m : KeyValueConfig) : KeyValueConfig :=
  match file with
  | None => m
  | Some text => foldl (λ m line, set_option (parse_line line) m) m (SplitChar text (chr 10))
  end.

(** A string of the environment. *)
Definition parse_env (prefix_upper env : string) : option (string * string) :=
  match str_find "=" env with
  | None => None
  | Some eq =>
      let name := str_take eq env in
      let value := str_drop (eq + 1) env in
      let name_upper := str_map toupper name in
      let plen := str_size prefix_upper in
      if decide ((str_size name_upper ≤ plen)%nat ∨ str_take plen name_upper ≠ prefix_upper) then None
      else Some (ToLowerKey (str_drop plen name_upper), value)
  end.
Definition ApplyEnvOverrides (env_prefix : string) (environ : list string) (m : KeyValueConfig) : KeyValueConfig :=
  foldl (λ m env, set_option (parse_env (str_map toupper env_prefix) env) m) m environ.

Definition Load (file : option string) (env_prefix : string) (environ : list string) (m : KeyValueConfig) :
    KeyValueConfig :=
  ApplyEnvOverrides env_prefix environ (LoadFile file m).
Definition LoadKeyValueConfig (file : option string) (env_prefix : string) (environ : list string) : KeyValueConfig :=
  Load file env_prefix environ ∅.

Definition Has (key : string) (m : KeyValueConfig) : bool := bool_decide (is_Some (m !! ToLowerKey key)).
Definition Get (m : KeyValueConfig) (key default_val : string) : string := default default_val (m !! ToLowerKey key).
Definition GetInt (m : KeyValueConfig) (key : string) (default_val : Z) : Z :=
  let v := Get m key "" in
  if decide (v = "") then default_val else default default_val (stoi v).
Definition GetInt64 (m : KeyValueConfig) (key : string) (default_val : Z) : Z :=
  let v := Get m key "" in
  if decide (v = "") then default_val else default default_val (stoll v).
Definition GetBool (m : KeyValueConfig) (key : string) (default_val : bool) : bool :=
  let v := Get m key "" in
  if decide (v = "") then default_val else
  let lower := ToLowerKey v in
  if decide (lower ∈ ["1"; "true"; "yes"; "on"]) then true else
  if decide (lower ∈ ["0"; "false"; "no"; "off"]) then false else default_val.

(** * The services

    The options of a service are read from what file and environment set. *)

Module Auth.
Record AuthConfig : Type := {
  host : string; port : Z; store_type : string; rocksdb_path : string; mysql_dsn : string;
  jwt_secret : string; log_dir : string; log_level : string }.
Definition LoadConfig (file : option string) (environ : list string) : AuthConfig :=
  let kv := LoadKeyValueConfig file "AUTHSVR_" environ in
  {| host := Get kv "host" "0.0.0.0"; port := GetInt kv "port" 9094;
     store_type := Get kv "store_type" "rocksdb"; rocksdb_path := Get kv "rocksdb_path" "/data/auth";
     mysql_dsn := Get kv "mysql_dsn" ""; jwt_secret := Get kv "jwt_secret" "swift_online_secret_2026";
     log_dir := Get kv "log_dir" "/data/logs"; log_level := Get kv "log_level" "INFO" |}.
End Auth.

Module Chat.
Record ChatConfig : Type := {
  host : string; port : Z; store_type : string; rocksdb_path : string; mysql_dsn : string;
  recall_timeout_seconds : Z; offline_max_count : Z; history_page_size : Z;
  jwt_secret : string; log_dir : string; log_level : string }.
Definition LoadConfig (file : option string) (environ : list string) : ChatConfig :=
  let kv := LoadKeyValueConfig file "CHATSVR_" environ in
  {| host := Get kv "host" "0.0.0.0"; port := GetInt kv "port" 9098;
     store_type := Get kv "store_type" "rocksdb"; rocksdb_path := Get kv "rocksdb_path" "/data/chat";
     mysql_dsn := Get kv "mysql_dsn" "";
     recall_timeout_seconds := GetInt kv "recall_timeout_seconds" 120;
     offline_max_count := GetInt kv "offline_max_count" 1000;
     history_page_size := GetInt kv "history_page_size" 50;
     jwt_secret := Get kv "jwt_secret" "swift_online_secret_2026";
     log_dir := Get kv "log_dir" "/data/logs"; log_level := Get kv "log_level" "INFO" |}.
End Chat.

Module Friend.
Record FriendConfig : Type := {
  host : string; port : Z; store_type : string; rocksdb_path : string; mysql_dsn : string;
  jwt_secret : string; log_dir : string; log_level : string }.
Definition LoadConfig (file : option string) (environ : list string) : FriendConfig :=
  let kv := LoadKeyValueConfig file "FRIENDSVR_" environ in
  {| host := Get kv "host" "0.0.0.0"; port := GetInt kv "port" 9096;
     store_type := Get kv "store_type" "rocksdb"; rocksdb_path := Get kv "rocksdb_path" "/data/friend";
     mysql_dsn := Get kv "mysql_dsn" ""; jwt_secret := Get kv "jwt_secret" "swift_online_secret_2026";
     log_dir := Get kv "log_dir" "/data/logs"; log_level := Get kv "log_level" "INFO" |}.
End Friend.

Module Online.
Record OnlineConfig : Type := {
  host : string; port : Z; store_type : string; rocksdb_path : string; jwt_secret : string;
  jwt_expire_hours : Z; log_dir : string; log_level : string }.
Definition LoadConfig (file : option string) (environ : list string) : OnlineConfig :=
  let kv := LoadKeyValueConfig file "ONLINESVR_" environ in
  {| host := Get kv "host" "0.0.0.0"; port := GetInt kv "port" 9095;
     store_type := Get kv "store_type" "rocksdb"; rocksdb_path := Get kv "rocksdb_path" "/data/online";
     jwt_secret := Get kv "jwt_secret" "swift_online_secret_2026";
     jwt_expire_hours := GetInt kv "jwt_expire_hours" (24 * 7);
     log_dir := Get kv "log_dir" "/data/logs"; log_level := Get kv "log_level" "INFO" |}.
End Online.

Module File.
Record FileConfig : Type := {
  host : string; grpc_port : Z; http_port : Z; store_type : string; rocksdb_path : string;
  storage_path : string; storage_type : string; minio_endpoint : string; minio_access_key : string;
  minio_secret_key : string; minio_bucket : string; max_file_size : Z; allowed_types : string;
  upload_session_expire_seconds : Z; cleanup_interval_seconds : Z;
  log_dir : string; log_level : string; jwt_secret : string }.
(** [cleanup_interval_seconds] keeps the value the structure starts with. *)
Definition LoadConfig (file : option string) (environ : list string) : FileConfig :=
  let kv := LoadKeyValueConfig file "FILESVR_" environ in
  {| host := Get kv "host" "0.0.0.0"; grpc_port := GetInt kv "grpc_port" 9100;
     http_port := GetInt kv "http_port" 8080; store_type := Get kv "store_type" "rocksdb";
     rocksdb_path := Get kv "rocksdb_path" "/data/file-meta"; storage_path := Get kv "storage_path" "/data/files";
     storage_type := Get kv "storage_type" "local"; minio_endpoint := Get kv "minio_endpoint" "";
     minio_access_key := Get kv "minio_access_key" ""; minio_secret_key := Get kv "minio_secret_key" "";
     minio_bucket := Get kv "minio_bucket" "swift-files";
     max_file_size := GetInt64 kv "max_file_size" (1024 * 1024 * 1024);
     allowed_types := Get kv "allowed_types" "image/*,video/*,audio/*,application/pdf";
     upload_session_expire_seconds := GetInt64 kv "upload_session_expire_seconds" (24 * 3600);
     cleanup_interval_seconds := 3600;
     log_dir := Get kv "log_dir" "/data/logs"; log_level := Get kv "log_level" "INFO";
     jwt_secret := Get kv "jwt_secret" "" |}.
End File.

Module Gate.
Record GateConfig : Type := {
  host : string; advertise_host : string; websocket_port : Z; grpc_port : Z; gate_id : string;
  zone_svr_addr : string; zonesvr_internal_secret : string; max_connections : Z;
  heartbeat_interval_seconds : Z; heartbeat_timeout_seconds : Z; log_dir : string; log_level : string }.
Definition LoadConfig (file : option string) (environ : list string) : GateConfig :=
  let kv := LoadKeyValueConfig file "GATESVR_" environ in
  {| host := Get kv "host" "0.0.0.0"; advertise_host := Get kv "advertise_host" "";
     websocket_port := GetInt kv "websocket_port" 9090; grpc_port := GetInt kv "grpc_port" 9091;
     gate_id := Get kv "gate_id" ""; zone_svr_addr := Get kv "zone_svr_addr" "localhost:9092";
     max_connections := GetInt kv "max_connections" 10000;
     heartbeat_interval_seconds := GetInt kv "heartbeat_interval_seconds" 30;
     heartbeat_timeout_seconds := GetInt kv "heartbeat_timeout_seconds" 90;
     log_dir := Get kv "log_dir" "/data/logs"; log_level := Get kv "log_level" "INFO";
     zonesvr_internal_secret := Get kv "zonesvr_internal_secret" "" |}.
End Gate.

Module Zone.
Record ZoneConfig : Type := {
  host : string; port : Z; auth_svr_addr : string; online_svr_addr : string; friend_svr_addr : string;
  chat_svr_addr : string; file_svr_addr : string; gate_svr_addr : string; session_store_type : string;
  redis_url : string; session_expire_seconds : Z; gate_heartbeat_timeout : Z; log_dir : string;
  log_level : string; internal_secret : string; standalone : bool }.
Definition LoadConfig (file : option string) (environ : list string) : ZoneConfig :=
  let kv := LoadKeyValueConfig file "ZONESVR_" environ in
  {| host := Get kv "host" "0.0.0.0"; port := GetInt kv "port" 9092;
     auth_svr_addr := Get kv "auth_svr_addr" "localhost:9094";
     online_svr_addr := Get kv "online_svr_addr" "localhost:9095";
     friend_svr_addr := Get kv "friend_svr_addr" "localhost:9096";
     chat_svr_addr := Get kv "chat_svr_addr" "localhost:9098";
     file_svr_addr := Get kv "file_svr_addr" "localhost:9100";
     gate_svr_addr := Get kv "gate_svr_addr" "localhost:9091";
     session_store_type := Get kv "session_store_type" "redis";
     redis_url := Get kv "redis_url" "redis://localhost:6379";
     session_expire_seconds := GetInt kv "session_expire_seconds" 3600;
     gate_heartbeat_timeout := GetInt kv "gate_heartbeat_timeout" 30;
     log_dir := Get kv "log_dir" "/data/logs"; log_level := Get kv "log_level" "INFO";
     internal_secret := Get kv "internal_secret" ""; standalone := GetBool kv "standalone" false |}.
End Zone.

(** * Which value an option has *)

Section Precedence.
(** The last of the settings of [key]. *)
Definition last_of (key : string) (l : list (option (string * string))) : option string :=
  last (omap (λ o : option (string * string), '(k, v) ← o; if decide (k = key) then Some v else None) l).
Definition in_file (file : option string) (key : string) : option string :=
  match file with None => None | Some text => last_of key (parse_line <$> SplitChar text (chr 10)) end.
Definition in_environ (env_prefix : string) (environ : list string) (key : string) : option string :=
  last_of key (parse_env (str_map toupper env_prefix) <$> environ).

Lemma foldl_set_option {A} (f : A → option (string * string)) l (m : KeyValueConfig) key :
  foldl (λ m x, set_option (f x) m) m l !! key =
    match last_of key (f <$> l) with Some v => Some v | None => m !! key end.
Proof.
  revert m. induction l as [|x l IH]; intros m; [done|]. cbn [foldl fmap list_fmap]. rewrite IH.
  unfold last_of. cbn. destruct (f x) as [[k v]|]; cbn; [|done].
  case_decide as Hk; [subst k|].
  - cbn. destruct (omap _ _) as [|y L]; [apply (lookup_insert_eq (M:=gmap string))|].
    change (last (v :: y :: L)) with (last (y :: L)). destruct (last (y :: L)) eqn:Hlast; [done|].
    by apply last_None in Hlast.
  - destruct (last _); [done|]. by apply (lookup_insert_ne (M:=gmap string)).
Qed.
Lemma toupper_idem_key s : ToLowerKey (ToLowerKey s) = ToLowerKey s.
Proof.
  unfold ToLowerKey. induction s as [|c s IH]; cbn; [done|]. rewrite IH. f_equal.
  by destruct c as [[] [] [] [] [] [] [] []].
Qed.
End Precedence.

Lemma Get_settings file env_prefix environ key default_val :
  Get (LoadKeyValueConfig file env_prefix environ) key default_val =
    match in_environ env_prefix environ (ToLowerKey key) with
    | Some v => v
    | None => default default_val (in_file file (ToLowerKey key))
    end.
Proof.
  unfold Get, LoadKeyValueConfig, Load, ApplyEnvOverrides, in_environ. rewrite foldl_set_option.
  destruct (last_of _ _); [done|]. unfold LoadFile, in_file. destruct file as [text|]; [|done].
  rewrite foldl_set_option. by destruct (last_of _ _).
Qed.
Lemma Get_unset file env_prefix environ key default_val :
  in_environ env_prefix environ (ToLowerKey key) = None → in_file file (ToLowerKey key) = None →
  Get (LoadKeyValueConfig file env_prefix environ) key default_val = default_val.
Proof. intros He Hf. by rewrite Get_settings, He, Hf. Qed.

(** C28: the value of an option: the last variable of the environment that is its name behind the prefix of the
    service, in any case, has precedence over the last line of the file for it, and that
    over the default. *)
Theorem option_precedence file env_prefix environ key default_val :
  Get (LoadKeyValueConfig file env_prefix environ) key default_val =
    match in_environ env_prefix environ (ToLowerKey key) with
    | Some v => v
    | None => default default_val (in_file file (ToLowerKey key))
    end.
Proof. apply Get_settings. Qed.

(** An integer option is in the range of its type if its default is. *)
Lemma GetInt_range m key d : int32_range d → int32_range (GetInt m key d).
Proof.
  intros Hd. unfold GetInt. case_decide; [done|]. unfold stoi. destruct (strto _) as [z|]; cbn; [|done].
  by case_decide.
Qed.
Lemma GetInt64_range m key d : int64_range d → int64_range (GetInt64 m key d).
Proof.
  intros Hd. unfold GetInt64. case_decide; [done|]. unfold stoll. destruct (strto _) as [z|]; cbn; [|done].
  by case_decide.
Qed.

(** Examples: comments, blanks, case, an override, a number with a tail. *)
Definition conf_text : string :=
  "# a comment" +:+ String (chr 10) (" Port = 9098x " +:+ String (chr 10) ("host=" +:+ String (chr 10) "port")).
Lemma conf_example :
  map_to_list (LoadKeyValueConfig (Some conf_text) "chatsvr_" ["PATH=/bin"; "ChatSvr_Log_Dir=/l"; "CHATSVR_="]) =
    [("log_dir", "/l"); ("host", ""); ("port", "9098x")] ∧
  GetInt (LoadKeyValueConfig (Some conf_text) "CHATSVR_" []) "port" 1 = 9098.
Proof. vm_compute. done. Qed.
