(* ===== verification/Startup.v ===== *)
(** What the services do before they serve: [common/include/swift/log_helper.h],
    [gatesvr/cmd/main.cpp] (waiting for the zone server, registering with it, the heartbeat
    thread), [GateService::Init], and [zonesvr/internal/system/system_manager.cpp]; and what that
    means for the running system.

    Time passes in the calls and the sleeps; resolving and connecting over TCP, host names
    and the state of a gRPC channel are outside. *)

From Stdlib Require Import Ascii.
From S2P Require Import Prelude External Errors Utils Jwt Rpc LogSinks Config Proto ZonePayloads ZoneStore ZoneRpc.
From S2P Require Import ZoneSystems ZoneService ZoneHandler GateService Cluster System.
From S2P Require AsyncLogger ChatService FileService.

(** * The log helper *)

Module Log.
Inductive Level : Type := TRACE | DEBUG | INFO | WARN | ERROR | FATAL.
Record Config : Type := {
  log_dir : string; file_prefix : string; min_level : Level; enable_console : bool; enable_file : bool;
  show_file_line : bool; console_color : bool; max_file_size : Z; max_file_count : Z }.
Definition Config_default : Config :=
  {| log_dir := "./logs"; file_prefix := "app"; min_level := INFO; enable_console := true; enable_file := true;
     show_file_line := true; console_color := true; max_file_size := 100 * 1024 * 1024; max_file_count := 10 |}.

Definition impl_level (level : Level) : LogLevel :=
  match level with
  | TRACE => LogSinks.TRACE | DEBUG => LogSinks.DEBUG | INFO => LogSinks.INFO | WARN => LogSinks.WARN
  | ERROR => LogSinks.ERROR | FATAL => LogSinks.FATAL
  end.
(** The [impl_config] of [Init]. *)
Definition impl_config (config : Config) : LogConfig :=
  {| lc_min_level := impl_level (min_level config);
     lc_buffer_size := lc_buffer_size LogConfig_default;
     lc_flush_interval_ms := lc_flush_interval_ms LogConfig_default;
     lc_enable_file := enable_file config; lc_log_dir := log_dir config; lc_file_prefix := file_prefix config;
     lc_max_file_size := max_file_size config; lc_max_file_count := max_file_count config;
     lc_enable_console := enable_console config; lc_console_color := console_color config;
     lc_show_file_line := show_file_line config; lc_show_thread_id := lc_show_thread_id LogConfig_default |}.

(** The configuration [InitFromEnv] makes. *)
Definition env_level (level : string) (old : Level) : Level :=
  if decide (level = "TRACE") then TRACE else if decide (level = "DEBUG") then DEBUG else
  if decide (level = "INFO") then INFO else if decide (level = "WARN") then WARN else
  if decide (level = "ERROR") then ERROR else if decide (level = "FATAL") then FATAL else old.
Definition env_config (getenv : string → option string) (service_name : string) : Config :=
  {| log_dir := default (log_dir Config_default) (getenv "LOG_DIR"); file_prefix := service_name;
     min_level := match getenv "LOG_LEVEL" with
                  | Some level => env_level level (min_level Config_default)
                  | None => min_level Config_default
                  end;
     enable_console := match getenv "LOG_CONSOLE" with
                       | Some console => bool_decide (console ≠ "false")
                       | None => enable_console Config_default
                       end;
     enable_file := enable_file Config_default; show_file_line := show_file_line Config_default;
     console_color := console_color Config_default; max_file_size := max_file_size Config_default;
     max_file_count := max_file_count Config_default |}.

Section Log.
Variable put_time : string → Z → string.
Definition Init (config : Config) : M (AsyncLogger.AsyncLoggerImpl * LogIO) bool :=
  AsyncLogger.Init put_time (impl_config config).
Definition InitFromEnv (getenv : string → option string) (service_name : string) :
    M (AsyncLogger.AsyncLoggerImpl * LogIO) bool :=
  Init (env_config getenv service_name).
End Log.
Definition SetLevel (level : Level) (l : AsyncLogger.AsyncLoggerImpl) : AsyncLogger.AsyncLoggerImpl :=
  AsyncLogger.SetLevel (impl_level level) l.

(** No option of the configuration files and of the services' own variables reaches the logger. *)
Lemma own_log_options_ignored getenv service name value :
  name ≠ "LOG_DIR" → name ≠ "LOG_LEVEL" → name ≠ "LOG_CONSOLE" →
  env_config (λ v, if decide (v = name) then Some value else getenv v) service = env_config getenv service.
Proof. intros H1 H2 H3. unfold env_config. by rewrite !decide_False. Qed.
(** The level "WARNING" of the documentation is not one. *)
Lemma WARNING_is_INFO getenv service : getenv "LOG_LEVEL" = Some "WARNING" →
  min_level (env_config getenv service) = INFO.
Proof. intros Hg. unfold env_config. cbn. by rewrite Hg. Qed.
End Log.

(** * The start of the gateway *)

(** [hostname] is the name [gethostname] gives, if it does. *)
Definition FallbackGateId (hostname : option string) (grpc_port : Z) : string :=
  default "" hostname +:+ ":" +:+ pretty grpc_port.
(** [GateService::Init]: the id of the gateway and the timeout of its heartbeat. *)
Definition gate_id_of (config : Gate.GateConfig) (hostname : option string) : string :=
  if decide (Gate.gate_id config = "") then FallbackGateId hostname (Gate.grpc_port config) else Gate.gate_id config.
Definition heartbeat_timeout_of (config : Gate.GateConfig) : Z :=
  if decide (Gate.heartbeat_timeout_seconds config > 0) then Gate.heartbeat_timeout_seconds config else 90.

Definition IsWildcardHost (host : string) : bool :=
  bool_decide (host = "" ∨ host = "0.0.0.0" ∨ host = "::").
Definition ResolveAdvertiseHost (config : Gate.GateConfig) (pod_ip hostname : option string) : string :=
  if decide (Gate.advertise_host config ≠ "") then Gate.advertise_host config else
  if decide (pod_ip ≠ None ∧ pod_ip ≠ Some "") then default "" pod_ip else
  if negb (IsWildcardHost (Gate.host config)) then Gate.host config else
  if decide (hostname ≠ None ∧ hostname ≠ Some "") then default "" hostname else Gate.host config.

(** The host and the port of an address ([WaitForZoneSvrReady], its first part). *)
Definition split_address (zone_svr_addr : string) : option (string * string) :=
  if decide (zone_svr_addr = "") then None else
  match str_rfind ":" zone_svr_addr with
  | None => None
  | Some colon =>
      if decide (str_size zone_svr_addr - 1 ≤ colon)%nat then None else
      let host := str_take colon zone_svr_addr in
      let port_str := str_drop (colon + 1) zone_svr_addr in
      if decide (host = "" ∨ port_str = "") then None else Some (host, port_str)
  end.

(** The world and the steady clock, in nanoseconds. *)
Record Timed (W : Type) : Type := { tw_world : W; tw_now : Z }.
Arguments Build_Timed {W}. Arguments tw_world {W}. Arguments tw_now {W}.
Definition seconds (n : Z) : Z := n * 1000000000.

Section Retry.
Context {W : Type}.
(** How long the [i]-th call takes, and how much longer than asked the [i]-th sleep. *)
Variable call_takes oversleep : nat → Z.
Notation TM := (M (Timed W)).

Definition sleep_for (i : nat) (s : Z) : TM unit := λ t,
  (Ret tt, {| tw_world := tw_world t; tw_now := tw_now t + seconds s + oversleep i |}).
Definition timed_call {A} (i : nat) (m : M W A) : TM A := λ t,
  let '(r, w) := m (tw_world t) in (r, {| tw_world := w; tw_now := tw_now t + call_takes i |}).

(** The loop of [RegisterGateWithRetry], before its [attempt]-th turn (from 0): whether it
    registered, after how many attempts; [None] when the fuel runs out. *)
Fixpoint register_loop (register : M W bool) (deadline : Z) (fuel attempt : nat) (backoff_sec : Z) :
    TM (option (bool * nat)) :=
  match fuel with
  | O => mret None
  | S fuel =>
      now ← reads tw_now;
      if decide (now < deadline) then
        ok ← timed_call attempt register;
        if (ok : bool) then mret (Some (true, S attempt)) else
        now ← reads tw_now;
        let remaining := Z.quot (deadline - now) 1000000000 in
        if decide (remaining ≤ 0) then mret (Some (false, S attempt)) else
        _ ← sleep_for attempt (if decide (backoff_sec < remaining) then backoff_sec else remaining);
        register_loop register deadline fuel (S attempt)
          (if decide (backoff_sec < 8) then wrap32 (backoff_sec * 2) else backoff_sec)
      else mret (Some (false, attempt))
  end.
Definition RegisterGateWithRetry (register : M W bool) (total_timeout_sec : Z) (fuel : nat) :
    TM (option (bool * nat)) :=
  now ← reads tw_now;
  register_loop register (now + seconds total_timeout_sec) fuel 0 1.

(** The loop of [WaitForZoneSvrReady]; [try_connect] is [TryConnectTcp] to the host and port. *)
Fixpoint wait_loop (try_connect : M W bool) (deadline poll_interval_sec : Z) (fuel i : nat) : TM (option bool) :=
  match fuel with
  | O => mret None
  | S fuel =>
      now ← reads tw_now;
      if decide (now < deadline) then
        ok ← timed_call i try_connect;
        if (ok : bool) then mret (Some true) else
        now ← reads tw_now;
        if decide (now >= deadline) then mret (Some false) else
        _ ← sleep_for i poll_interval_sec;
        wait_loop try_connect deadline poll_interval_sec fuel (S i)
      else mret (Some false)
  end.
Definition WaitForZoneSvrReady (TryConnectTcp : string → string → Z → M W bool) (zone_svr_addr : string)
    (timeout_sec poll_interval_sec : Z) (fuel : nat) : TM (option bool) :=
  match split_address zone_svr_addr with
  | None => mret (Some false)
  | Some (host, port_str) =>
      let connect_timeout := if decide (poll_interval_sec > 2) then 2
                             else if decide (poll_interval_sec > 0) then poll_interval_sec else 1 in
      now ← reads tw_now;
      wait_loop (TryConnectTcp host port_str connect_timeout) (now + seconds timeout_sec) poll_interval_sec fuel 0
  end.

(** ** The retries end *)

Hypothesis call_takes_time : ∀ i, 0 ≤ call_takes i.
Hypothesis oversleeps : ∀ i, 0 ≤ oversleep i.
(** A call that returns, whatever its answer. *)
Definition answers {A} (m : M W A) : Prop := ∀ w, ∃ a w', m w = (Ret a, w').

Lemma register_loop_turn register deadline fuel attempt backoff t :
  register_loop register deadline (S fuel) attempt backoff t =
    if decide (tw_now t < deadline) then
      match register (tw_world t) with
      | (Exc, w) => (Exc, {| tw_world := w; tw_now := tw_now t + call_takes attempt |})
      | (Ret true, w) => (Ret (Some (true, S attempt)), {| tw_world := w; tw_now := tw_now t + call_takes attempt |})
      | (Ret false, w) =>
          let now := tw_now t + call_takes attempt in
          let remaining := Z.quot (deadline - now) 1000000000 in
          if decide (remaining ≤ 0) then (Ret (Some (false, S attempt)), {| tw_world := w; tw_now := now |}) else
          register_loop register deadline fuel (S attempt)
            (if decide (backoff < 8) then wrap32 (backoff * 2) else backoff)
            {| tw_world := w; tw_now := now + seconds (if decide (backoff < remaining) then backoff else remaining) +
                                        oversleep attempt |}
      end
    else (Ret (Some (false, attempt)), t).
Proof.
  cbn [register_loop]. unfold mbind at 1, M_bind at 1, reads at 1.
  destruct (decide (tw_now t < deadline)); [|done].
  unfold mbind at 1, M_bind at 1, timed_call. destruct (register (tw_world t)) as [[[|]|] w]; [done| |done].
  unfold mbind at 1, M_bind at 1, reads. cbn [tw_now]. by destruct (decide (_ ≤ 0)).
Qed.

(** After less than a second there is no next turn. *)
Lemma remaining_none d : d < 1000000000 → Z.quot d 1000000000 ≤ 0.
Proof.
  intros Hd. destruct (decide (0 ≤ d)) as [H0|H0]; [rewrite Z.quot_small by lia; lia|].
  rewrite <-(Z.opp_involutive d), Z.quot_opp_l by done.
  pose proof (Z.quot_pos (- d) 1000000000 ltac:(lia) ltac:(lia)). lia.
Qed.

Lemma register_loop_ends register deadline fuel attempt backoff t : answers register → backoff ∈ [1; 2; 4; 8] →
  deadline ≤ tw_now t + seconds (Z.of_nat fuel) →
  ∃ b n t', register_loop register deadline (S fuel) attempt backoff t = (Ret (Some (b, n)), t') ∧
    (attempt ≤ n ≤ attempt + fuel)%nat ∧ (b = true → ∃ w, register w = (Ret true, tw_world t')).
Proof.
  intros Hreg. revert attempt backoff t. induction fuel as [|fuel IH]; intros attempt backoff t Hb Hd;
    rewrite register_loop_turn; case_decide as Hlt.
  - unfold seconds in Hd. lia.
  - eexists _, _, _. split_and!; [done|lia..|done].
  - destruct (Hreg (tw_world t)) as (ok & w' & Hrun). rewrite Hrun.
    destruct ok; [eexists _, _, _; split_and!; [done|lia..|by eexists]|]. cbn zeta.
    set (now := tw_now t + call_takes attempt). set (remaining := Z.quot (deadline - now) 1000000000).
    case_decide as Hr; [eexists _, _, _; split_and!; [done|lia..|done]|].
    assert (1 ≤ backoff) by set_solver by lia.
    destruct (IH (S attempt) (if decide (backoff < 8) then wrap32 (backoff * 2) else backoff)
      {| tw_world := w'; tw_now := now + seconds (if decide (backoff < remaining) then backoff else remaining) +
                                   oversleep attempt |}) as (b & n & t' & Hloop & Hn & Hok).
    + rewrite !elem_of_cons in *. by destruct Hb as [->|[->|[->|[->|Hb]]]]; [vm_compute; auto 10..|apply elem_of_nil in Hb].
    + cbn [tw_now]. pose proof (oversleeps attempt). pose proof (call_takes_time attempt).
      assert (1 ≤ if decide (backoff < remaining) then backoff else remaining) by (case_decide; lia).
      unfold seconds in *. unfold now. lia.
    + exists b, n, t'. split_and!; [exact Hloop|lia..|done].
  - eexists _, _, _. split_and!; [done|lia..|done].
Qed.
Lemma wait_loop_ends try_connect deadline poll fuel i t : answers try_connect → 1 ≤ poll →
  deadline ≤ tw_now t + seconds (Z.of_nat fuel) →
  ∃ b t', wait_loop try_connect deadline poll (S fuel) i t = (Ret (Some b), t') ∧
    (b = true → ∃ w, try_connect w = (Ret true, tw_world t')).
Proof.
  intros Htry Hpoll. revert i t. induction fuel as [|fuel IH]; intros i t Hd; cbn [wait_loop].
  - unfold mbind, M_bind, reads. rewrite decide_False by (unfold seconds in Hd; lia). by eexists _, _.
  - unfold mbind at 1, M_bind at 1, reads at 1. case_decide as Hlt; [|by eexists _, _].
    unfold mbind at 1, M_bind at 1, timed_call at 1. destruct (Htry (tw_world t)) as (ok & w' & Hrun). rewrite Hrun.
    destruct ok; [eexists _, _; split; [done|]; by eexists|].
    unfold mbind at 1, M_bind at 1, reads at 1. case_decide as Hge; [by eexists _, _|].
    unfold mbind at 1, M_bind at 1, sleep_for at 1. cbn [tw_world tw_now] in *. apply IH. cbn [tw_now].
    pose proof (oversleeps i). pose proof (call_takes_time i). unfold seconds in *. lia.
Qed.
(** The wait for the zone server ends: it tries at most once a second. *)
Theorem waiting_ends TryConnectTcp address timeout_sec poll_interval_sec t :
  (∀ host port_str timeout, answers (TryConnectTcp host port_str timeout)) → 0 ≤ timeout_sec → 1 ≤ poll_interval_sec →
  ∃ b t', WaitForZoneSvrReady TryConnectTcp address timeout_sec poll_interval_sec (S (Z.to_nat timeout_sec)) t =
    (Ret (Some b), t').
Proof.
  intros Ha Ht Hp. unfold WaitForZoneSvrReady. destruct (split_address address) as [[host port_str]|]; [|by eexists _, _].
  unfold mbind, M_bind, reads. edestruct wait_loop_ends as (b & t' & Hrun & _); [| | |by exists b, t'].
  - apply Ha.
  - done.
  - by rewrite Z2Nat.id.
Qed.
End Retry.

(** C30: the registration of a gateway ends: with a call that answers in the end, it needs at most as many attempts
    as it was given seconds, however long the calls and sleeps take; it reports success only
    after an attempt that succeeded, and nothing happens after that one. *)
Theorem registration_ends {W} (call_takes oversleep : nat → Z) (register : M W bool) total_timeout_sec t :
  (∀ i, 0 ≤ call_takes i) → (∀ i, 0 ≤ oversleep i) → answers register → 0 ≤ total_timeout_sec →
  ∃ b n t', RegisterGateWithRetry call_takes oversleep register total_timeout_sec (S (Z.to_nat total_timeout_sec)) t =
      (Ret (Some (b, n)), t') ∧
    (n ≤ Z.to_nat total_timeout_sec)%nat ∧ (b = true → ∃ w, register w = (Ret true, tw_world t')).
Proof.
  intros Hc Ho Hr Ht. unfold RegisterGateWithRetry, mbind, M_bind, reads.
  destruct (register_loop_ends call_takes oversleep Hc Ho register (tw_now t + seconds total_timeout_sec)
    (Z.to_nat total_timeout_sec) 0 1 t Hr) as (b & n & t' & Hrun & Hn & Hb); [by left| |].
  - by rewrite Z2Nat.id.
  - exists b, n, t'. split_and!; [exact Hrun|lia|done].
Qed.

Definition third_time : M nat bool := λ w, (Ret (bool_decide (w = 2)%nat), S w).
Lemma registration_ends_witness : ∃ b n t',
  RegisterGateWithRetry (λ _, 5) (λ _, 0) third_time 60 61 {| tw_world := O; tw_now := 0 |} = (Ret (Some (b, n)), t') ∧
  (n ≤ 60)%nat ∧
  RegisterGateWithRetry (λ _, 5) (λ _, 0) third_time 60 61 {| tw_world := O; tw_now := 0 |} =
    (Ret (Some (true, 3%nat)), {| tw_world := 3%nat; tw_now := 3000000015 |}).
Proof.
  destruct (registration_ends (λ _, 5) (λ _, 0) third_time 60 {| tw_world := O; tw_now := 0 |}
    ltac:(intros; lia) ltac:(intros; lia) ltac:(intros w; unfold third_time; eauto) ltac:(lia))
    as (b & n & t' & Hrun & Hn & _).
  exists b, n, t'. split; [exact Hrun|]. split; [exact Hn|eval_eq].
Defined.

(** * The start of the zone server *)

(** Which store [SystemManager::Init] makes. *)
Inductive StoreChoice : Type := UseRedis (host : string) (port : Z) | UseMemory.
Definition store_choice (config : Zone.ZoneConfig) : StoreChoice :=
  if decide (Zone.session_store_type config = "redis")
  then let '(host, port) := ParseRedisUrl (Zone.redis_url config) in UseRedis host port
  else UseMemory.

Section SystemManager.
(** [WaitForConnected] within five seconds, of the channel to an address. *)
Variable WaitForConnected : string → bool.

(** [RpcClientBase::Connect] *)
Definition Connect (address : string) (wait_ready : bool) : bool :=
  if negb wait_ready then true else WaitForConnected address.
Definition AuthSystem_Init (config : Zone.ZoneConfig) : bool * AuthSystemState :=
  let wait := negb (Zone.standalone config) in
  if negb (Connect (Zone.auth_svr_addr config) wait) then
    (false, {| auth_rpc_client := true; online_rpc_client := false |})
  else (Connect (Zone.online_svr_addr config) wait, {| auth_rpc_client := true; online_rpc_client := true |}).
(** The four others: the client is made before it connects. *)
Definition ChatSystem_Init (config : Zone.ZoneConfig) : bool * bool :=
  (Connect (Zone.chat_svr_addr config) (negb (Zone.standalone config)), true).
Definition FriendSystem_Init (config : Zone.ZoneConfig) : bool * bool :=
  (Connect (Zone.friend_svr_addr config) (negb (Zone.standalone config)), true).
Definition GroupSystem_Init (config : Zone.ZoneConfig) : bool * bool :=
  (Connect (Zone.chat_svr_addr config) (negb (Zone.standalone config)), true).
Definition FileSystem_Init (config : Zone.ZoneConfig) : bool * bool :=
  (Connect (Zone.file_svr_addr config) (negb (Zone.standalone config)), true).

Definition SystemManager_Init (config : Zone.ZoneConfig) : bool * SystemManager :=
  let manager auth chat friend group file :=
    {| auth_system := Some auth; chat_system := Some chat; friend_system := Some friend;
       group_system := Some group; file_system := Some file |} in
  let '(ok, auth) := AuthSystem_Init config in
  if negb ok then (false, manager auth false false false false) else
  let '(ok, chat) := ChatSystem_Init config in
  if negb ok then (false, manager auth chat false false false) else
  let '(ok, friend) := FriendSystem_Init config in
  if negb ok then (false, manager auth chat friend false false) else
  let '(ok, group) := GroupSystem_Init config in
  if negb ok then (false, manager auth chat friend group false) else
  let '(ok, file) := FileSystem_Init config in
  (ok, manager auth chat friend group file).

(** A zone server that starts has all its systems, and waits for every service unless it is
    standalone. *)
Lemma SystemManager_Init_ready config : fst (SystemManager_Init config) = true →
  snd (SystemManager_Init config) = systems_ready ∧
  (Zone.standalone config = false → ∀ address,
     address ∈ [Zone.auth_svr_addr config; Zone.online_svr_addr config; Zone.chat_svr_addr config;
                Zone.friend_svr_addr config; Zone.file_svr_addr config] → WaitForConnected address = true).
Proof.
  unfold SystemManager_Init, AuthSystem_Init, ChatSystem_Init, FriendSystem_Init, GroupSystem_Init, FileSystem_Init, Connect.
  destruct (Zone.standalone config); cbn; [by split|].
  destruct (WaitForConnected (Zone.auth_svr_addr config)) eqn:H1; [|done]. cbn.
  destruct (WaitForConnected (Zone.online_svr_addr config)) eqn:H2; [|done]. cbn.
  destruct (WaitForConnected (Zone.chat_svr_addr config)) eqn:H3; [|done]. cbn.
  destruct (WaitForConnected (Zone.friend_svr_addr config)) eqn:H4; [|done]. cbn.
  intros H5. split; [done|]. intros _ address. rewrite !elem_of_cons. set_solver.
Qed.
End SystemManager.

(** * The heartbeat thread of the gateway *)

Section Heartbeat.
Context {W : Type} `{!ZoneStub W} `{!ProtoBuf}.
(** A turn of the loop, at [now] (milliseconds). *)
Definition heartbeat_round (gate_id zonesvr_internal_secret : string) (heartbeat_timeout_seconds : Z)
    (register_addr : string) (now : Z) : M W unit :=
  _ ← RegisterGate gate_id zonesvr_internal_secret true register_addr;
  _ ← on_gate (CheckHeartbeat heartbeat_timeout_seconds now);
  _ ← GateHeartbeat gate_id zonesvr_internal_secret true;
  mret tt.
End Heartbeat.

(** ** What a heartbeat restores *)

Section Restart.
Context {db GS SS : Type} `{!RocksDB db} `{!JsonLib} `{!OpenSSL} `{!GroupStore.GroupStore GS} `{!ProtoBuf}
  `{!SessionStore SS} `{!SessionStoreLaws SS}.
Notation World := (Zone SS (Cluster db GS)).

Definition node_at (now : Z) (g address : string) : GateNode :=
  {| gn_gate_id := g; gn_address := address; gn_current_connections := 0; gn_registered_at := now;
     gn_last_heartbeat := now |}.

Lemma closing_keeps {A} (l : list A) f (g : Gate) : (∀ a g, ∃ g', f a g = (Ret tt, g') ∧ connections g' = connections g) →
  ∃ g', for_each l f g = (Ret tt, g') ∧ connections g' = connections g.
Proof.
  intros Hf. revert g. induction l as [|a l IH]; intros g; [by exists g|]. cbn.
  destruct (Hf a g) as (g1 & Hrun & Hc1). destruct (IH g1) as (g2 & Hrun2 & Hc2).
  exists g2. rewrite (bind_run _ _ _ _ _ Hrun). split; [done|congruence].
Qed.
Lemma CheckHeartbeat_run timeout now (w : World) : ∃ g',
  on_gate (CheckHeartbeat timeout now) w = (Ret tt, put_gate g' w) ∧ connections g' = connections (gate_of w).
Proof.
  destruct (closing_keeps (timed_out timeout now (gate_of w)) CloseConnection (gate_of w)) as (g' & Hrun & Hc).
  { intros c g. unfold CloseConnection. case_decide; by eexists. }
  exists g'. split; [|done]. unfold on_gate, zoom, CheckHeartbeat, mbind, M_bind, reads. by rewrite Hrun.
Qed.

Lemma GetConnectionCount_run (w : World) :
  on_gate GetConnectionCount w = (Ret (wrap32 (Z.of_nat (size (connections (gate_of w))))), w).
Proof. destruct w as [? ? []]. reflexivity. Qed.

(** The calls of the zone server in a turn of the loop. *)
Lemma GateRegister_run now g address (w : World) : store_up (z_store w) → node_ok (node_at now g address) →
  ∃ s', ZoneHandler.GateRegister now g address w =
      (Ret (ok_plain tt), {| z_store := s'; z_gate_clients := z_gate_clients w; z_net := z_net w |}) ∧
    store_up s' ∧ (∀ u, user_ok u → online_at s' u = online_at (z_store w) u) ∧
    (gate_ok g → gate_at s' g = Some (node_at now g address)).
Proof.
  intros Hup Hok. destruct (RegisterGate_law (z_store w) _ Hup Hok) as (s' & Hrun & Hup' & Ho & Hg).
  exists s'. unfold ZoneHandler.GateRegister, ZoneService.RegisterGate.
  erewrite bind_run; [|by apply on_sessions_run]. split_and!; [done..|].
  intros Hgok. rewrite Hg by done. by rewrite decide_True.
Qed.
Lemma GateHeartbeat_run now g n x (w : World) : store_up (z_store w) → gate_ok g → gate_at (z_store w) g = Some x →
  int32_range n → int64_range now →
  ∃ s', ZoneHandler.GateHeartbeat now g n w =
      (Ret (ok_plain tt), {| z_store := s'; z_gate_clients := z_gate_clients w; z_net := z_net w |}) ∧
    (∀ u, user_ok u → online_at s' u = online_at (z_store w) u) ∧ gate_at s' g = Some (set_heartbeat n now x).
Proof.
  intros Hup Hg Hx Hn Hnow. destruct (UpdateGateHeartbeat_law (z_store w) now g n x Hup Hg Hx Hn Hnow)
    as (s' & Hrun & _ & Ho & Hgs).
  exists s'. unfold ZoneHandler.GateHeartbeat, ZoneService.GateHeartbeat.
  erewrite bind_run; [|by apply on_sessions_run]. split_and!; [done..|]. rewrite Hgs by done. by rewrite decide_True.
Qed.

(** a zone server that has forgotten everything learns of a gateway by the next heartbeat, but not of the users: when it runs and no call
    is lost, a turn of the heartbeat thread leaves the gateway registered, with the number of its
    connections, and the sessions of the users are what they were; a user whose connection the gateway
    holds, and whom the zone server does not know, stays offline. *)
Theorem heartbeat_restores_gate_only g timeout address now (w : World)
    (mo := moment (z_net w)) (mo' := moment (tick (z_net w))) (n := Z.of_nat (size (connections (gate_of w)))) :
  zone_serves (z_net w) → store_up (z_store w) → gate_ok g → node_ok (node_at (mo_now mo) g address) →
  int32_range n → int64_range (Z.quot (mo_now mo') 1000) →
  ∃ w', heartbeat_round g (cl_internal_secret (z_net w)) timeout address now w = (Ret tt, w') ∧
    gate_at (z_store w') g = Some (set_heartbeat n (Z.quot (mo_now mo') 1000) (node_at (mo_now mo) g address)) ∧
    connections (gate_of w') = connections (gate_of w) ∧
    ∀ u, user_ok u → online_at (z_store w') u = online_at (z_store w) u.
Proof.
  intros Hs Hup Hg Hnode Hn Hnow.
  destruct (GateRegister_run (mo_now mo) g address (on_cluster tick w) Hup Hnode) as (s1 & Hreg & Hup1 & Ho1 & Hg1).
  set (w1 := {| z_store := s1; z_gate_clients := z_gate_clients w; z_net := tick (z_net w) |}).
  assert (RegisterGate g (cl_internal_secret (z_net w)) true address w = (Ret true, w1)) as Hr1.
  { unfold RegisterGate. cbn [negb]. rewrite (bind_run _ _ _ _ _ (GetConnectionCount_run w)).
    unfold ZoneRpcClient.GateRegister.
    erewrite bind_run; [|apply zone_call_served; [done|apply Process_own_secret|exact Hreg]]. done. }
  unfold heartbeat_round. rewrite (bind_run _ _ _ _ _ Hr1).
  destruct (CheckHeartbeat_run timeout now w1) as (g' & Hcheck & Hconn). rewrite (bind_run _ _ _ _ _ Hcheck).
  set (w2 := put_gate g' w1).
  destruct (GateHeartbeat_run (Z.quot (mo_now mo') 1000) g n _ (on_cluster tick w2) Hup1 Hg (Hg1 Hg) Hn Hnow)
    as (s3 & Hbeat & Ho3 & Hg3).
  set (w3 := {| z_store := s3; z_gate_clients := z_gate_clients w; z_net := tick (z_net w2) |}).
  assert (GateHeartbeat g (cl_internal_secret (z_net w)) true w2 = (Ret true, w3)) as Hr3.
  { unfold GateHeartbeat. cbn [negb]. rewrite (bind_run _ _ _ _ _ (GetConnectionCount_run w2)).
    assert (wrap32 (Z.of_nat (size (connections (gate_of w2)))) = n) as ->
      by (change (gate_of w2) with g'; rewrite Hconn; by apply wrap32_id).
    unfold ZoneRpcClient.GateHeartbeat.
    erewrite bind_run; [|apply zone_call_served; [done|apply Process_own_secret|exact Hbeat]]. done. }
  rewrite (bind_run _ _ _ _ _ Hr3). exists w3. split_and!; [done|exact Hg3|exact Hconn|].
  intros u Hu. etrans; [by apply Ho3|]. by apply Ho1.
Qed.
End Restart.

(** * Secrets that are not configured *)

Section Secrets.
Context `{!JsonLib} `{!JsonLaws} `{!OpenSSL}.

(** Neither the file nor the environment of a service sets the option. *)
Definition unset (file : option string) (env_prefix : string) (environ : list string) (key : string) : Prop :=
  in_environ env_prefix environ key = None ∧ in_file file key = None.

(** where the secret of the tokens is not configured it is the one in the source, and who has read that is any
    user he likes: a token he makes for [u] authenticates him as [u] at the chat, friend and
    authentication services.  Where the internal secret is not configured, the zone server lets in
    everybody. *)
Theorem unconfigured_secret_forgeable file environ now1 now2 meta u token :
  JwtCreate now1 u "swift_online_secret_2026" (24 * 7) "swift-online" = Some token →
  meta "authorization" = Some ("Bearer " +:+ token) →
  int32_range (Z.quot now1 1000 + 24 * 7 * 3600) → Z.quot now2 1000 ≤ Z.quot now1 1000 + 24 * 7 * 3600 →
  (unset file "CHATSVR_" environ "jwt_secret" →
     GetAuthenticatedUserId now2 meta (Chat.jwt_secret (Chat.LoadConfig file environ)) = u) ∧
  (unset file "FRIENDSVR_" environ "jwt_secret" →
     GetAuthenticatedUserId now2 meta (Friend.jwt_secret (Friend.LoadConfig file environ)) = u) ∧
  (unset file "AUTHSVR_" environ "jwt_secret" →
     GetAuthenticatedUserId now2 meta (Auth.jwt_secret (Auth.LoadConfig file environ)) = u) ∧
  (unset file "ZONESVR_" environ "internal_secret" →
     ∀ c, Process (Zone.internal_secret (Zone.LoadConfig file environ)) c = None).
Proof.
  intros Hc Hm He Hnow.
  assert (GetAuthenticatedUserId now2 meta "swift_online_secret_2026" = u) as Hu.
  { rewrite (GetAuthenticatedUserId_created now1 now2 meta u _ _ _ _ Hc Hm) by (done || set_solver).
    by rewrite decide_True. }
  split_and!; intros [Hne Hnf]; cbn [Chat.jwt_secret Chat.LoadConfig Friend.jwt_secret Friend.LoadConfig
    Auth.jwt_secret Auth.LoadConfig Zone.internal_secret Zone.LoadConfig]; rewrite Get_unset by done; try done.
Qed.
End Secrets.

Lemma unconfigured_secret_forgeable_witness : ∃ token,
  JwtCreate 1700000000000 "u_7" "swift_online_secret_2026" 168 "swift-online" = Some token ∧
  GetAuthenticatedUserId 1700000001000 (bearer token)
    (Chat.jwt_secret (Chat.LoadConfig (Some "port=9098") ["CHATSVR_HOST=h"])) = "u_7".
Proof.
  destruct (token_made 1700000000000 "u_7" "swift_online_secret_2026" "swift-online" ltac:(eval_eq)) as [token Ht].
  destruct (unconfigured_secret_forgeable (Some "port=9098") ["CHATSVR_HOST=h"] 1700000000000 1700000001000
    (bearer token) "u_7" token Ht eq_refl) as [Hchat _].
  - split; vm_compute; congruence.
  - vm_compute. congruence.
  - exists token. split; [exact Ht|]. apply Hchat. split; eval_eq.
Defined.
