(* ===== verification/Client.v ===== *)
(** The network layer of the desktop client: [client/desktop/src/network/] (protocol_handler,
    websocket_client, app_service) and the connections [main.cpp] makes between them.

    A callback is a value of a type of closures; calling it is an event. What a callback does in
    its turn (it may send requests) is a later input: no operation touches the table of
    requests after it has called a callback. Qt (the socket, the timers, URLs, white space) and the
    encoding of the messages are outside; the log lines are left out. *)

From S2P Require Import Prelude External Rpc Proto ZonePayloads ZoneRpc ZoneService GateService GateAnswers.

(** * ProtocolHandler *)

Record PendingRequest {K : Type} : Type := {
  pr_callback : option K; pr_callback_with_message : option K; pr_cmd : string; pr_start_ms : Z }.
Arguments PendingRequest : clear implicits.
Record ProtocolHandler {K : Type} : Type := {
  pendingRequests : gmap string (PendingRequest K); requestIdCounter : Z }.
Arguments ProtocolHandler : clear implicits.

(** What the handler does to the outside: it calls a callback of either kind, or emits a signal. *)
Inductive Event {K : Type} : Type :=
  | Callback (k : K) (code : Z) (payload : string)
  | CallbackWithMessage (k : K) (code : Z) (payload message : string)
  | dataToSend (data : string)
  | newMessageNotify (payload : string)
  | recallNotify (payload : string)
  | readReceiptNotify (payload : string)
  | friendRequestNotify (payload : string)
  | friendAcceptedNotify (payload : string)
  | userStatusChangeNotify (payload : string)
  | kickedNotify (reason : string).
Arguments Event : clear implicits.

(** [std::map] iterates in the order of its keys. *)
Definition key_le {A : Type} (a b : string * A) : Prop := String.le a.1 b.1.
#[export] Instance key_le_dec {A} : RelDecision (@key_le A) := λ a b, decide (String.le a.1 b.1).
Definition in_order {A : Type} (m : gmap string A) : list (string * A) := merge_sort key_le (map_to_list m).

Section Handler.
Context {K : Type} `{!ProtoBuf}.
Notation Handler := (ProtocolHandler K).
Notation Event := (Event K).
Implicit Types h : Handler.

Definition ProtocolHandler_new : Handler := {| pendingRequests := ∅; requestIdCounter := 0 |}.
Definition with_pending (m : gmap string (PendingRequest K)) h : Handler :=
  {| pendingRequests := m; requestIdCounter := requestIdCounter h |}.

(** [if (callback_with_message) ... else if (callback) ...] *)
Definition call (callback callback_with_message : option K) (code : Z) (payload message : string) : list Event :=
  match callback_with_message, callback with
  | Some k, _ => [CallbackWithMessage k code payload message]
  | None, Some k => [Callback k code payload]
  | None, None => []
  end.
Definition call_pending (p : PendingRequest K) : Z → string → string → list Event :=
  call (pr_callback p) (pr_callback_with_message p).

Definition request_id (n : Z) : string := "req_" +:+ pretty n.
Definition generateRequestId (h : Handler) : string * Handler :=
  let n := wrap32 (requestIdCounter h + 1) in
  (request_id n, {| pendingRequests := pendingRequests h; requestIdCounter := n |}).

Definition sendRequestImpl (now : Z) (cmd payload : string) (callback callback_with_message : option K)
    (h : Handler) : list Event * Handler :=
  let '(id, h) := generateRequestId h in
  match SerializeToString {| zcm_cmd := cmd; zcm_payload := payload; zcm_request_id := id |} with
  | None => (call callback callback_with_message (-1) "" "", h)
  | Some serialized =>
      ([dataToSend serialized],
       match callback, callback_with_message with
       | None, None => h
       | _, _ => with_pending (<[id := {| pr_callback := callback;
                   pr_callback_with_message := callback_with_message; pr_cmd := cmd; pr_start_ms := now |}]>
                   (pendingRequests h)) h
       end)
  end.
(** The two [sendRequest]. *)
Definition sendRequest (now : Z) (cmd payload : string) (callback : option K) : Handler → list Event * Handler :=
  sendRequestImpl now cmd payload callback None.
Definition sendRequestWithMessage (now : Z) (cmd payload : string) (callback : option K) :
    Handler → list Event * Handler :=
  sendRequestImpl now cmd payload None callback.

(** The timer of a request runs out. *)
Definition on_timeout (id : string) (h : Handler) : list Event * Handler :=
  match pendingRequests h !! id with
  | None => ([], h)
  | Some p => (call_pending p (-2) "" "", with_pending (delete id (pendingRequests h)) h)
  end.

(** The signal a pushed message is turned into. *)
Definition dispatch_push (cmd payload : string) : list Event :=
  if decide (cmd = "chat.new_message" ∨ cmd = "chat.message") then [newMessageNotify payload] else
  if decide (cmd = "chat.recall") then [recallNotify payload] else
  if decide (cmd = "chat.read_receipt") then [readReceiptNotify payload] else
  if decide (cmd = "friend.request") then [friendRequestNotify payload] else
  if decide (cmd = "friend.accepted") then [friendAcceptedNotify payload] else
  if decide (cmd = "user.status_change") then [userStatusChangeNotify payload] else
  if decide (cmd = "system.kicked") then
    [kickedNotify (if decide (payload = "") then "" else
                   match ParseFromString payload with Some kicked => zkn_reason kicked | None => "" end)]
  else [].
Definition handleMessage (data : string) (h : Handler) : list Event * Handler :=
  match ParseFromString data with
  | None => ([], h)
  | Some msg =>
      let id := zsm_request_id msg in
      match (if decide (id ≠ "") then pendingRequests h !! id else None) with
      | Some p => (call_pending p (zsm_code msg) (zsm_payload msg) (zsm_message msg),
                   with_pending (delete id (pendingRequests h)) h)
      | None => (dispatch_push (zsm_cmd msg) (zsm_payload msg), h)
      end
  end.

Definition clearPendingRequests (h : Handler) : list Event * Handler :=
  (flat_map (λ e, call_pending e.2 (-1) "" "") (in_order (pendingRequests h)), with_pending ∅ h).
End Handler.

(** * AppService

    The closures [AppService] hands to the handler, and the callbacks it was given. *)
Section App.
Context {C : Type} `{!ProtoBuf}.
Inductive Closure : Type :=
  | AuthLoginReply (callback : option C)
  | ChatGetHistoryReply (callback : option C)
  | OtherReply (callback : C).
Inductive AppEvent : Type :=
  | AuthLoginCallback (callback : C) (code : Z) (message : string) (payload : AuthLoginResponsePayload)
  | ChatGetHistoryCallback (callback : C) (code : Z) (message : string) (payload : ChatGetHistoryResponsePayload)
  | OtherCallback (callback : C) (code : Z) (data message : string).
Definition AuthLoginResponsePayload_new : AuthLoginResponsePayload :=
  {| zalr_success := false; zalr_user_id := ""; zalr_token := ""; zalr_expire_at := 0; zalr_error := "" |}.
Definition ChatGetHistoryResponsePayload_new : ChatGetHistoryResponsePayload :=
  {| zcghr_messages := []; zcghr_has_more := false |}.

(** The bodies of the closures. *)
Definition run_closure (k : Closure) (code : Z) (data message : string) : option AppEvent :=
  match k with
  | AuthLoginReply callback =>
      callback ← callback;
      if decide (code ≠ 0) then Some (AuthLoginCallback callback code message AuthLoginResponsePayload_new) else
      match ParseFromString data with
      | None => Some (AuthLoginCallback callback (-1) "auth.login response parse failed" AuthLoginResponsePayload_new)
      | Some resp => Some (AuthLoginCallback callback code (zalr_error resp) resp)
      end
  | ChatGetHistoryReply callback =>
      callback ← callback;
      if decide (code ≠ 0) then Some (ChatGetHistoryCallback callback code message ChatGetHistoryResponsePayload_new) else
      match ParseFromString data with
      | None => Some (ChatGetHistoryCallback callback (-1) "chat.get_history response parse failed"
                        ChatGetHistoryResponsePayload_new)
      | Some resp => Some (ChatGetHistoryCallback callback code "" resp)
      end
  | OtherReply callback => Some (OtherCallback callback code data message)
  end.

Notation Handler := (ProtocolHandler Closure).
(** [protocol]: whether the service has its handler. *)
Definition sendAuthLogin (protocol : bool) (now : Z) (username password deviceId deviceType : string)
    (callback : option C) (h : Handler) : option AppEvent * list (Event Closure) * Handler :=
  let fails message := (callback ← callback; Some (AuthLoginCallback callback (-1) message AuthLoginResponsePayload_new), [], h) in
  if negb protocol then fails "network layer unavailable" else
  match SerializeToString {| zal_username := username; zal_password := password; zal_device_id := deviceId;
                             zal_device_type := deviceType |} with
  | None => fails "auth.login serialize failed"
  | Some serialized =>
      let '(evs, h) := sendRequestWithMessage now "auth.login" serialized (Some (AuthLoginReply callback)) h in
      (None, evs, h)
  end.
(** [trimmed] is [QString::trimmed]. *)
Definition sendChatGetHistory (trimmed : string → string) (protocol : bool) (now : Z) (chatId : string)
    (chatType : Z) (beforeMsgId : string) (limit : Z) (callback : option C) (h : Handler) :
    option AppEvent * list (Event Closure) * Handler :=
  let fails message := (callback ← callback; Some (ChatGetHistoryCallback callback (-1) message
                                                     ChatGetHistoryResponsePayload_new), [], h) in
  if negb protocol then fails "network layer unavailable" else
  match SerializeToString {| zcgh_chat_id := chatId; zcgh_chat_type := chatType;
                             zcgh_before_msg_id := if decide (trimmed beforeMsgId ≠ "") then beforeMsgId else "";
                             zcgh_limit := if decide (limit > 0) then limit else 50 |} with
  | None => fails "chat.get_history serialize failed"
  | Some serialized =>
      let '(evs, h) := sendRequestWithMessage now "chat.get_history" serialized (Some (ChatGetHistoryReply callback)) h in
      (None, evs, h)
  end.
End App.
Arguments Closure : clear implicits.
Arguments AppEvent : clear implicits.

(** * WebSocketClient *)

Inductive SocketState : Type := UnconnectedState | ConnectingState | ConnectedState | ClosingState.
#[export] Instance SocketState_eq_dec : EqDecision SocketState.
Proof. solve_decision. Defined.
Inductive SocketError : Type := ConnectionRefusedError | HostNotFoundError | SocketTimeoutError | OtherError.
Record QUrl : Type := { url_valid : bool; url_scheme : string; url_host : string; url_path : string }.

(** What it asks of the socket, and its signals. *)
Inductive WsEvent : Type :=
  | ws_close | ws_open (url : QUrl) | sendBinaryMessage (data : string)
  | connected | disconnected | messageReceived (data : string) | errorOccurred (error : string).

Section WebSocketClient.
Variables (trimmed toLower : string → string) (fromUserInput : string → QUrl).
Definition connect (state : SocketState) (url : string) : list WsEvent :=
  let parsed := fromUserInput (trimmed url) in
  let scheme := toLower (url_scheme parsed) in
  if decide (url_valid parsed = false ∨ scheme ≠ "ws" ∧ scheme ≠ "wss" ∨ url_path parsed ≠ "/ws")
  then [errorOccurred "Invalid WebSocket URL. Expected format: ws://host:port/ws or wss://host:port/ws"] else
  if decide (trimmed (url_host parsed) = "") then [errorOccurred "Invalid WebSocket URL. Host is required."] else
  (if decide (state = ConnectingState ∨ state = ConnectedState) then [ws_close] else []) ++ [ws_open parsed].
Definition disconnect : list WsEvent := [ws_close].
Definition isConnected (state : SocketState) : bool := bool_decide (state = ConnectedState).
Definition sendMessage (state : SocketState) (data : string) : list WsEvent :=
  if decide (state ≠ ConnectedState) then [errorOccurred "WebSocket is not connected."] else [sendBinaryMessage data].
Definition onConnected : list WsEvent := [connected].
Definition onDisconnected : list WsEvent := [disconnected].
Definition onBinaryMessageReceived (message : string) : list WsEvent := [messageReceived message].
Definition onTextMessageReceived (message : string) : list WsEvent :=
  [errorOccurred "Text frame is not supported, binary frame required."; ws_close].
Definition onError (error : SocketError) (errorString : string) : list WsEvent :=
  [errorOccurred match error with
                 | ConnectionRefusedError => "ConnectionRefused: " +:+ errorString
                 | HostNotFoundError => "HostNotFound: " +:+ errorString
                 | SocketTimeoutError => "Timeout: " +:+ errorString
                 | OtherError => errorString
                 end].
End WebSocketClient.

(** * The connections of [main.cpp]

    [dataToSend] goes to [sendMessage], [messageReceived] to [handleMessage], [disconnected] to
    [clearPendingRequests]; the other signals are for the windows. *)
Inductive Output {K : Type} : Type := OHandler (e : Event K) | OSocket (e : WsEvent).
Arguments Output : clear implicits.
Record Client {K : Type} : Type := { c_protocol : ProtocolHandler K; c_socket : SocketState }.
Arguments Client : clear implicits.
Inductive Input {K : Type} : Type :=
  | Sends (now : Z) (cmd payload : string) (callback : option K)
  | SendsWithMessage (now : Z) (cmd payload : string) (callback : option K)
  | TimerFires (id : string)
  | SocketReceives (message : string)
  | SocketReceivesText (message : string)
  | SocketConnected
  | SocketDisconnected
  | SocketChanges (state : SocketState).
Arguments Input : clear implicits.

Section Wiring.
Context {K : Type} `{!ProtoBuf}.
Notation Client := (Client K).
Implicit Types (c : Client) (i : Input K).
Definition Client_new : Client := {| c_protocol := ProtocolHandler_new; c_socket := UnconnectedState |}.
Definition with_protocol h c : Client := {| c_protocol := h; c_socket := c_socket c |}.
Definition with_socket s c : Client := {| c_protocol := c_protocol c; c_socket := s |}.

Definition from_handler (state : SocketState) (e : Event K) : list (Output K) :=
  match e with
  | dataToSend data => OSocket <$> sendMessage state data
  | _ => [OHandler e]
  end.
(** An operation of the handler, its signals connected. *)
Definition handler_op (op : ProtocolHandler K → list (Event K) * ProtocolHandler K) (c : Client) : list (Output K) * Client :=
  let '(evs, h) := op (c_protocol c) in (flat_map (from_handler (c_socket c)) evs, with_protocol h c).
Definition from_socket (e : WsEvent) (c : Client) : list (Output K) * Client :=
  let '(outs, c) := match e with
                    | messageReceived data => handler_op (handleMessage data) c
                    | disconnected => handler_op clearPendingRequests c
                    | _ => ([], c)
                    end in
  (OSocket e :: outs, c).
Fixpoint from_sockets (es : list WsEvent) (c : Client) : list (Output K) * Client :=
  match es with
  | [] => ([], c)
  | e :: es => let '(o1, c) := from_socket e c in let '(o2, c) := from_sockets es c in (o1 ++ o2, c)
  end.

Definition step (i : Input K) (c : Client) : list (Output K) * Client :=
  match i with
  | Sends now cmd payload callback => handler_op (sendRequest now cmd payload callback) c
  | SendsWithMessage now cmd payload callback => handler_op (sendRequestWithMessage now cmd payload callback) c
  | TimerFires id => handler_op (on_timeout id) c
  | SocketReceives message => from_sockets (onBinaryMessageReceived message) c
  | SocketReceivesText message => from_sockets (onTextMessageReceived message) c
  | SocketConnected => from_sockets onConnected c
  | SocketDisconnected => from_sockets onDisconnected c
  | SocketChanges state => ([], with_socket state c)
  end.
Fixpoint run (inputs : list (Input K)) (c : Client) : list (Output K) * Client :=
  match inputs with
  | [] => ([], c)
  | i :: inputs => let '(o1, c) := step i c in let '(o2, c) := run inputs c in (o1 ++ o2, c)
  end.

(** The callbacks handed in, called, and still waiting. *)
Definition asked (i : Input K) : list K :=
  match i with Sends _ _ _ k | SendsWithMessage _ _ _ k => option_list k | _ => [] end.
Definition called_by (e : Event K) : list K :=
  match e with Callback k _ _ | CallbackWithMessage k _ _ _ => [k] | _ => [] end.
Definition called (o : Output K) : list K := match o with OHandler e => called_by e | OSocket _ => [] end.
Definition callback_of (p : PendingRequest K) : list K :=
  option_list (match pr_callback_with_message p with Some k => Some k | None => pr_callback p end).
Definition waiting (h : ProtocolHandler K) : list K := flat_map (λ e, callback_of e.2) (map_to_list (pendingRequests h)).
End Wiring.

(** ** What the operations of the handler do with the callbacks *)

Section HandlerLemmas.
Context {K : Type} `{!ProtoBuf}.
Implicit Types (h : ProtocolHandler K) (p : PendingRequest K).

#[export] Instance request_id_inj : Inj (=) (=) request_id.
Proof. intros a b Hab. unfold request_id in Hab. by apply (inj (String.app "req_")), (inj pretty) in Hab. Qed.

Lemma called_call p code data msg : flat_map called_by (call_pending p code data msg) = callback_of p.
Proof. unfold call_pending, callback_of, call. by destruct (pr_callback_with_message p), (pr_callback p). Qed.
Lemma called_push cmd data : flat_map called_by (dispatch_push (K:=K) cmd data) = [].
Proof. unfold dispatch_push. by repeat case_decide. Qed.
Lemma waiting_delete h id p : pendingRequests h !! id = Some p →
  waiting h ≡ₚ callback_of p ++ waiting (with_pending (delete id (pendingRequests h)) h).
Proof.
  intros Hp. unfold waiting. cbn [pendingRequests with_pending].
  by rewrite <-(map_to_list_delete _ _ _ Hp).
Qed.
Lemma waiting_insert h id p : pendingRequests h !! id = None →
  waiting (with_pending (<[id := p]> (pendingRequests h)) h) ≡ₚ callback_of p ++ waiting h.
Proof. intros Hp. unfold waiting. cbn [pendingRequests with_pending]. by rewrite map_to_list_insert. Qed.

(** The ids in use have been generated. *)
Definition ids_used h : Prop := 0 ≤ requestIdCounter h ∧
  ∀ id p, pendingRequests h !! id = Some p → ∃ n, id = request_id n ∧ 1 ≤ n ≤ requestIdCounter h.
(** [op] hands the handler the callbacks [ks]. *)
Definition keeps_callbacks (ks : list K) (op : ProtocolHandler K → list (Event K) * ProtocolHandler K) : Prop :=
  ∀ h, ids_used h → requestIdCounter h < 2 ^ 31 - 1 →
    ks ++ waiting h ≡ₚ flat_map called_by (fst (op h)) ++ waiting (snd (op h)) ∧ ids_used (snd (op h)) ∧
    requestIdCounter h ≤ requestIdCounter (snd (op h)) ≤ requestIdCounter h + 1.

Lemma ids_used_delete h id : ids_used h → ids_used (with_pending (delete id (pendingRequests h)) h).
Proof.
  intros [Hc Hids]. split; [done|]. cbn [pendingRequests with_pending requestIdCounter].
  intros id' p [_ Hp]%lookup_delete_Some. eauto.
Qed.
Lemma answer_keeps_callbacks h id p code data msg : pendingRequests h !! id = Some p →
  ids_used h → waiting h ≡ₚ flat_map called_by (call_pending p code data msg) ++
    waiting (with_pending (delete id (pendingRequests h)) h) ∧
  ids_used (with_pending (delete id (pendingRequests h)) h).
Proof. intros Hp Hids. rewrite called_call. split; [by apply waiting_delete|by apply ids_used_delete]. Qed.
Lemma on_timeout_callbacks id : keeps_callbacks [] (on_timeout id).
Proof.
  intros h Hids Hlt. unfold on_timeout. destruct (pendingRequests h !! id) as [p|] eqn:Hp; cbn [fst snd].
  - destruct (answer_keeps_callbacks h id p (-2) "" "" Hp Hids). split_and!; [done..| |]; cbn; lia.
  - split_and!; [done..| |]; lia.
Qed.
Lemma handleMessage_callbacks data : keeps_callbacks [] (handleMessage data).
Proof.
  intros h Hids Hlt. unfold handleMessage. destruct (ParseFromString data) as [msg|]; cbn [fst snd].
  2: split_and!; [done..| |]; lia.
  destruct (if decide _ then _ else _) as [p|] eqn:Hp; cbn [fst snd].
  - case_decide; [|done].
    destruct (answer_keeps_callbacks h _ p (zsm_code msg) (zsm_payload msg) (zsm_message msg) Hp Hids).
    split_and!; [done..| |]; cbn; lia.
  - rewrite called_push. split_and!; [done..| |]; lia.
Qed.
Lemma in_order_perm {A} (m : gmap string A) : in_order m ≡ₚ map_to_list m.
Proof. apply merge_sort_Permutation. Qed.
Lemma called_all code l :
  flat_map called_by (flat_map (λ e : string * PendingRequest K, call_pending e.2 code "" "") l) =
  flat_map (λ e, callback_of e.2) l.
Proof. induction l as [|e l IH]; [done|]. cbn. by rewrite flat_map_app, called_call, IH. Qed.
Lemma clear_callbacks : keeps_callbacks [] clearPendingRequests.
Proof.
  intros h [Hc Hids] Hlt. unfold clearPendingRequests. cbn [fst snd]. rewrite called_all. split_and!.
  - unfold waiting. cbn [pendingRequests with_pending]. by rewrite map_to_list_empty, in_order_perm, app_nil_r.
  - by split.
  - cbn. lia.
  - cbn. lia.
Qed.
Lemma sendRequestImpl_callbacks now cmd payload cb wcb :
  keeps_callbacks (option_list (match wcb with Some k => Some k | None => cb end))
    (sendRequestImpl now cmd payload cb wcb).
Proof.
  intros h [Hc Hids] Hlt. unfold sendRequestImpl, generateRequestId.
  rewrite wrap32_id by (unfold int32_range; lia).
  set (n := requestIdCounter h + 1). set (h1 := {| requestIdCounter := n |}).
  assert (ids_used h1) as Hids1.
  { split; [cbn; lia|]. intros id p Hp. destruct (Hids id p Hp) as (m & -> & Hm). exists m. split; [done|]. cbn [h1 requestIdCounter]. lia. }
  assert (pendingRequests h1 !! request_id n = None) as Hfresh.
  { destruct (_ !! _) as [p|] eqn:Hp; [|done]. destruct (Hids _ _ Hp) as (m & Heq & Hm).
    apply (inj request_id) in Heq. unfold n in Heq. lia. }
  assert (∀ p, waiting (with_pending (<[request_id n := p]> (pendingRequests h1)) h1) ≡ₚ callback_of p ++ waiting h ∧
    ids_used (with_pending (<[request_id n := p]> (pendingRequests h1)) h1)) as Hwait.
  { intros p. split; [exact (waiting_insert h1 _ p Hfresh)|]. destruct Hids1 as [? Hids1]. split; [done|].
    cbn [pendingRequests with_pending]. intros id q [[<- _]|[_ Hq]]%lookup_insert_Some; [|by eapply Hids1].
    exists n. split; [done|]. unfold n. cbn [with_pending h1 requestIdCounter]. lia. }
  destruct (SerializeToString _) as [data|] eqn:Hs; cbn [fst snd].
  - split_and!; [| |destruct cb, wcb; cbn; lia..].
    + destruct wcb as [k|], cb as [k'|]; cbn [flat_map called_by app]; try (symmetry; apply Hwait). done.
    + destruct wcb, cb; try apply Hwait. done.
  - split_and!; [|done|cbn; lia..]. unfold call. destruct wcb, cb; done.
Qed.
End HandlerLemmas.

Section Once.
Context {K : Type} `{!ProtoBuf}.
Implicit Types (c : Client K) (i : Input K).
Lemma called_outputs state (evs : list (Event K)) :
  flat_map called (flat_map (from_handler state) evs) = flat_map called_by evs.
Proof.
  induction evs as [|e evs IH]; [done|]. cbn. rewrite flat_map_app, IH. f_equal.
  destruct e; try done. cbn. unfold sendMessage. by case_decide.
Qed.
(** [op] keeps account of the callbacks [ks] it is handed. *)
Definition accounts (ks : list K) (op : Client K → list (Output K) * Client K) : Prop :=
  ∀ c, ids_used (c_protocol c) → requestIdCounter (c_protocol c) < 2 ^ 31 - 1 →
    ks ++ waiting (c_protocol c) ≡ₚ flat_map called (fst (op c)) ++ waiting (c_protocol (snd (op c))) ∧
    ids_used (c_protocol (snd (op c))) ∧
    requestIdCounter (c_protocol c) ≤ requestIdCounter (c_protocol (snd (op c)))
      ≤ requestIdCounter (c_protocol c) + 1.
Lemma handler_op_accounts ks op : keeps_callbacks ks op → accounts ks (handler_op op).
Proof.
  intros Hop c Hids Hlt. specialize (Hop (c_protocol c) Hids Hlt). unfold handler_op.
  destruct (op (c_protocol c)) as [evs h]. cbn [fst snd with_protocol c_protocol] in *.
  by rewrite called_outputs.
Qed.
Lemma nothing_accounts outs (f : Client K → Client K) : flat_map called outs = [] →
  (∀ c, c_protocol (f c) = c_protocol c) → accounts [] (λ c, (outs, f c)).
Proof. intros Ho Hf c Hids Hlt. cbn [fst snd]. rewrite Ho, Hf. split_and!; [done..| |]; lia. Qed.
Lemma step_accounts i : accounts (asked i) (step i).
Proof.
  destruct i as [now cmd payload k|now cmd payload k|id|message|message| | |state]; cbn [asked].
  - exact (handler_op_accounts _ _ (sendRequestImpl_callbacks now cmd payload k None)).
  - pose proof (sendRequestImpl_callbacks now cmd payload None k) as Hk. destruct k; by apply handler_op_accounts.
  - apply handler_op_accounts, on_timeout_callbacks.
  - intros c Hids Hlt. pose proof (handler_op_accounts _ _ (handleMessage_callbacks message) c Hids Hlt) as Hop.
    unfold step, onBinaryMessageReceived, from_sockets, from_socket. destruct (handler_op _ c). cbn in *.
    by rewrite app_nil_r.
  - by apply (nothing_accounts _ id).
  - by apply (nothing_accounts _ id).
  - intros c Hids Hlt. pose proof (handler_op_accounts _ _ clear_callbacks c Hids Hlt) as Hop.
    unfold step, onDisconnected, from_sockets, from_socket. destruct (handler_op _ c). cbn in *.
    by rewrite app_nil_r.
  - by apply (nothing_accounts [] (with_socket state)).
Qed.
Lemma run_accounts inputs c : ids_used (c_protocol c) →
  requestIdCounter (c_protocol c) + Z.of_nat (length inputs) < 2 ^ 31 →
  flat_map asked inputs ++ waiting (c_protocol c) ≡ₚ
    flat_map called (fst (run inputs c)) ++ waiting (c_protocol (snd (run inputs c))) ∧
  ids_used (c_protocol (snd (run inputs c))) ∧
  requestIdCounter (c_protocol (snd (run inputs c))) ≤ requestIdCounter (c_protocol c) + Z.of_nat (length inputs).
Proof.
  revert c. induction inputs as [|i inputs IH]; intros c Hids Hlt; [cbn; split_and!; [done..|lia]|].
  cbn [length] in Hlt. destruct (step_accounts i c Hids ltac:(lia)) as (Hperm & Hids1 & Hn).
  cbn [run flat_map]. destruct (step i c) as [o1 c1]. cbn [fst snd] in *.
  destruct (IH c1 Hids1 ltac:(lia)) as (Hperm2 & Hids2 & Hn2). destruct (run inputs c1) as [o2 c2]. cbn [fst snd] in *.
  split_and!; [|done|cbn [length]; lia].
  rewrite flat_map_app. rewrite (Permutation_app_comm (asked i)), <-!(assoc_L (++)), Hperm.
  rewrite (assoc_L (++)), (Permutation_app_comm (flat_map asked inputs)), <-(assoc_L (++)), Hperm2. done.
Qed.
End Once.

(** C8: no callback is lost and none is called twice: whatever the client sends, receives and loses, in any order, and
    whichever timers fire, the callbacks handed in are those called and those still waiting, each as
    often as it was handed in; and when the connection is lost all of them have been called. *)
Theorem callbacks_called_once {K : Type} `{!ProtoBuf} (inputs : list (Input K))
    (outs := fst (run inputs Client_new)) (c := snd (run inputs Client_new)) :
  Z.of_nat (length inputs) < 2 ^ 31 - 1 →
  flat_map asked inputs ≡ₚ flat_map called outs ++ waiting (c_protocol c) ∧
  flat_map asked inputs ≡ₚ flat_map called (outs ++ fst (step SocketDisconnected c)) ∧
  pendingRequests (c_protocol (snd (step SocketDisconnected c))) = ∅.
Proof.
  intros Hlt. destruct (run_accounts inputs Client_new) as (Hperm & Hids & Hn); [by split|cbn; lia|].
  fold outs c in Hperm, Hids, Hn. cbn [Client_new c_protocol requestIdCounter ProtocolHandler_new] in Hn.
  rewrite app_nil_r in Hperm. split; [done|].
  destruct (step_accounts SocketDisconnected c Hids ltac:(lia)) as (Hlast & _ & _).
  split; [|done]. rewrite flat_map_app, Hperm. apply Permutation_app_head. cbn [asked app] in Hlast.
  rewrite Hlast. unfold step, onDisconnected, from_sockets, from_socket. cbn. by rewrite app_nil_r.
Qed.

Section EndToEnd.
Context {K W : Type} `{!ProtoBuf} `{!ProtoLaws} `{!ProtoTotal} `{!ZoneStub W} `{!ZoneStubLaws W} `{!ZoneAnswers W}.
Implicit Types (h : ProtocolHandler K) (w : W).

(** C7: from the client through the gateway and back: a request with a callback is sent as one frame; when
    the gateway has handled that frame the last thing it posts to the connection is an answer, and that answer, received by the client in any state in which the request still waits,
    calls exactly the request's callback, with the code, the payload and the message of the answer, and takes the
    request off the table. *)
Theorem answer_reaches_callback gate_id secret zone_client now now1 now2 cmd payload k h conn w
    (id := request_id (wrap32 (requestIdCounter h + 1)))
    (msg := {| zcm_cmd := cmd; zcm_payload := payload; zcm_request_id := id |}) :
  pb_valid msg → conn ∈ send_callbacks (gate_of w) →
  ∃ data h1 p, sendRequestWithMessage now cmd payload (Some k) h = ([dataToSend data], h1) ∧
    pendingRequests h1 !! id = Some p ∧
    ∀ w', OnMessage gate_id secret zone_client now1 now2 conn data w = (Ret tt, w') →
      ∃ pushes frame sm, posted (gate_of w') = posted (gate_of w) ++ pushes ++ [PSend conn frame] ∧
        SerializeToString sm = Some frame ∧ zsm_cmd sm = cmd ∧
        (pb_valid sm → ∀ h2, pendingRequests h2 !! id = Some p → handleMessage frame h2 =
           ([CallbackWithMessage k (zsm_code sm) (zsm_payload sm) (zsm_message sm)],
            with_pending (delete id (pendingRequests h2)) h2)).
Proof.
  intros Hvalid Hc. destruct (Serialize_valid msg Hvalid) as [data Hdata].
  unfold sendRequestWithMessage, sendRequestImpl, generateRequestId. fold id. fold msg. rewrite Hdata.
  eexists _, _, _. split; [done|]. split; [cbn; apply lookup_insert_eq|].
  intros w' Hrun. pose proof (Parse_Serialize _ _ Hvalid Hdata) as Hparse.
  destruct (OnMessage_answers gate_id secret zone_client now1 now2 conn data msg Hparse w tt w' Hc Hrun)
    as (pushes & frame & sm & Hpost & Hsm & Hcmd & Hid).
  exists pushes, frame, sm. split_and!; [done..|]. intros Hsmv h2 Hp. unfold handleMessage.
  rewrite (Parse_Serialize _ _ Hsmv Hsm), Hid. cbn [zcm_request_id msg]. rewrite decide_True by done.
  by rewrite Hp.
Qed.
End EndToEnd.

(** A login callback that is told of success was answered so. *)
Lemma login_success {C : Type} `{!ProtoBuf} (cb : C) code data message text resp :
  run_closure (AuthLoginReply (Some cb)) code data message = Some (AuthLoginCallback cb 0 text resp) →
  code = 0 ∧ ParseFromString data = Some resp ∧ text = zalr_error resp.
Proof.
  cbn. case_decide as Hc; [by intros [= -> _ _]|]. destruct (ParseFromString data) as [r|]; [|done].
  by intros [= <- <- <-].
Qed.

(** Three requests: the second is answered, the third times out, the first is still waiting. *)
Definition answer_to_second : string :=
  match SerializeToString {| zsm_cmd := "auth.login"; zsm_payload := "token"; zsm_request_id := "req_2";
                             zsm_code := 0; zsm_message := "" |} with Some d => d | None => "" end.
Definition session : list (Input nat) :=
  [SocketChanges ConnectedState; SocketConnected; Sends 0 "heartbeat" "" (Some 1%nat);
   SendsWithMessage 1 "auth.login" "alice" (Some 2%nat); SendsWithMessage 2 "chat.pull_offline" "" (Some 3%nat);
   SocketReceives answer_to_second; TimerFires "req_3"; SocketReceives answer_to_second].
Lemma session_called : flat_map called (fst (run session Client_new)) = [2%nat; 3%nat].
Proof. eval_eq. Qed.
Lemma callbacks_called_once_witness :
  flat_map called (fst (run session Client_new)) = [2%nat; 3%nat] ∧
  [1%nat; 2%nat; 3%nat] ≡ₚ [2%nat; 3%nat] ++ waiting (c_protocol (snd (run session Client_new))).
Proof.
  split; [exact session_called|].
  pose proof (proj1 (callbacks_called_once session ltac:(reflexivity))) as Hp. rewrite session_called in Hp.
  exact Hp.
Defined.
