(* ===== verification/ChatStorage.v ===== *)
(** The local cache of the desktop client: [client/desktop/src/models/] and
    [client/desktop/src/utils/chat_storage.cpp]. One JSON file per user holds the list of conversations and
    the messages of each.

    Qt's JSON text, the place of the files and the classes of characters are outside, and so is the order in which
    [std::sort] leaves equal elements; user ids are ASCII, as the services make them. *)

From Stdlib Require Import Ascii.
From S2P Require Import Prelude External.

(** * Models *)

Record Message : Type := {
  msgId : string; fromUserId : string; toId : string; chatType : Z; content : string; mediaUrl : string;
  mediaType : string; mentions : list string; replyToMsgId : string; timestamp : Z; status : Z;
  isSelf : bool; sending : bool; sendFailed : bool }.
Definition Message_new : Message :=
  {| msgId := ""; fromUserId := ""; toId := ""; chatType := 1; content := ""; mediaUrl := ""; mediaType := "";
     mentions := []; replyToMsgId := ""; timestamp := 0; status := 0; isSelf := false; sending := false;
     sendFailed := false |}.
Record Conversation : Type := {
  chatId : string; c_chatType : Z; peerId : string; peerName : string; peerAvatar : string;
  lastMessage : Message; unreadCount : Z; updatedAt : Z; isPinned : bool; isMuted : bool }.
#[export] Instance Message_eq_dec : EqDecision Message.
Proof. solve_decision. Defined.
#[export] Instance Conversation_eq_dec : EqDecision Conversation.
Proof. solve_decision. Defined.

(** * What Qt and the C++ library offer *)

Inductive QJsonValue : Type :=
  | JNull | JBool (b : bool) | JDouble (d : Z) | JString (s : string)
  | JArray (l : list QJsonValue) | JObject (o : gmap string QJsonValue).
Notation QJsonObject := (gmap string QJsonValue).
(** [o["k"].toString()] and the like, with the default when the value is absent or of another kind. *)
Definition toString (o : QJsonObject) (k : string) : string := match o !! k with Some (JString s) => s | _ => "" end.
Definition toInt (o : QJsonObject) (k : string) (d : Z) : Z :=
  match o !! k with Some (JDouble z) => if decide (int32_range z) then z else d | _ => d end.
Definition toDouble (o : QJsonObject) (k : string) (d : Z) : Z := match o !! k with Some (JDouble z) => z | _ => d end.
Definition toBool (o : QJsonObject) (k : string) (d : bool) : bool := match o !! k with Some (JBool b) => b | _ => d end.
Definition as_array (v : option QJsonValue) : list QJsonValue := match v with Some (JArray l) => l | _ => [] end.
Definition as_object (v : option QJsonValue) : QJsonObject := match v with Some (JObject o) => o | _ => ∅ end.

(** [static_cast<double>] of a 64-bit integer: 53 significant bits, ties to even. *)
Definition double_of_int64 (z : Z) : Z :=
  let a := Z.abs z in
  if decide (a < 2 ^ 53) then z else
  let e := Z.log2 a - 52 in
  let q := a / 2 ^ e in let r := a mod 2 ^ e in
  let up := bool_decide (2 ^ e < 2 * r ∨ 2 * r = 2 ^ e ∧ Z.odd q = true) in
  Z.sgn z * ((q + Z.b2z up) * 2 ^ e).

(** [QList::mid]. *)
Definition mid {A} (l : list A) (pos len : Z) : list A :=
  let n := Z.of_nat (length l) in
  if decide (pos > n) then [] else
  if decide (len < 0 ∨ len > n - pos) then drop (Z.to_nat pos) l else take (Z.to_nat len) (drop (Z.to_nat pos) l).

(** The bytes of a JSON document. *)
Class QtJson (QByteArray : Type) : Type := {
  toJson : QJsonObject → QByteArray;
  fromJson : QByteArray → option QJsonValue;
  fromJson_toJson o : fromJson (toJson o) = Some (JObject o) }.

(** [std::sort]; its comparison has to be a strict weak order: [le] is the order it is the strict part of. *)
Class StdSort : Type := {
  std_sort {A} : (A → A → bool) → list A → list A;
  std_sort_perm {A} (lt : A → A → bool) l : std_sort lt l ≡ₚ l;
  std_sort_sorted {A} (lt : A → A → bool) (le : relation A) l : Transitive le → Total le →
    (∀ a b, lt a b = false ↔ le b a) → StronglySorted le (std_sort lt l) }.

(** * ChatStorage *)

Definition messageToJson (m : Message) : QJsonObject :=
  list_to_map [("msgId", JString (msgId m)); ("fromUserId", JString (fromUserId m)); ("toId", JString (toId m));
    ("chatType", JDouble (chatType m)); ("content", JString (content m)); ("mediaUrl", JString (mediaUrl m));
    ("mediaType", JString (mediaType m)); ("timestamp", JDouble (double_of_int64 (timestamp m)));
    ("status", JDouble (status m)); ("isSelf", JBool (isSelf m)); ("sending", JBool (sending m));
    ("sendFailed", JBool (sendFailed m)); ("mentions", JArray (JString <$> mentions m));
    ("replyToMsgId", JString (replyToMsgId m))].
Definition as_string (v : QJsonValue) : string := match v with JString s => s | _ => "" end.
Definition jsonToMessage (o : QJsonObject) : Message :=
  {| msgId := toString o "msgId"; fromUserId := toString o "fromUserId"; toId := toString o "toId";
     chatType := toInt o "chatType" 1; content := toString o "content"; mediaUrl := toString o "mediaUrl";
     mediaType := toString o "mediaType"; mentions := as_string <$> as_array (o !! "mentions");
     replyToMsgId := toString o "replyToMsgId"; timestamp := toDouble o "timestamp" 0;
     status := toInt o "status" 0; isSelf := toBool o "isSelf" false; sending := toBool o "sending" false;
     sendFailed := toBool o "sendFailed" false |}.
Definition conversationToJson (c : Conversation) : QJsonObject :=
  list_to_map [("chatId", JString (chatId c)); ("chatType", JDouble (c_chatType c)); ("peerId", JString (peerId c));
    ("peerName", JString (peerName c)); ("peerAvatar", JString (peerAvatar c));
    ("unreadCount", JDouble (unreadCount c)); ("updatedAt", JDouble (double_of_int64 (updatedAt c)));
    ("isPinned", JBool (isPinned c)); ("isMuted", JBool (isMuted c));
    ("lastMsgId", JString (msgId (lastMessage c))); ("lastContent", JString (content (lastMessage c)));
    ("lastTimestamp", JDouble (double_of_int64 (timestamp (lastMessage c))))].
Definition jsonToConversation (o : QJsonObject) : Conversation :=
  {| chatId := toString o "chatId"; c_chatType := toInt o "chatType" 1; peerId := toString o "peerId";
     peerName := toString o "peerName"; peerAvatar := toString o "peerAvatar";
     lastMessage := {| msgId := toString o "lastMsgId"; fromUserId := ""; toId := ""; chatType := 1;
                       content := toString o "lastContent"; mediaUrl := ""; mediaType := ""; mentions := [];
                       replyToMsgId := ""; timestamp := toDouble o "lastTimestamp" 0; status := 0;
                       isSelf := false; sending := false; sendFailed := false |};
     unreadCount := toInt o "unreadCount" 0; updatedAt := toDouble o "updatedAt" 0;
     isPinned := toBool o "isPinned" false; isMuted := toBool o "isMuted" false |}.

Section ChatStorage.
Context {QByteArray : Type} `{!QtJson QByteArray} `{!StdSort}.
Variable storageDir : string.
Variable isLetterOrNumber : ascii → bool.

(** The files, and what the next accesses meet: whether a file can be opened for reading, and what is on the disk after
    writing ([None]: it cannot be opened). *)
Notation Disk := (gmap string QByteArray).
Record Access : Type := { can_read : bool; on_write : QByteArray → option QByteArray }.

Definition safe_char (c : ascii) : ascii :=
  if negb (isLetterOrNumber c) && bool_decide (c ≠ "_"%char) && bool_decide (c ≠ "-"%char) then "_"%char else c.
Fixpoint str_map (f : ascii → ascii) (s : string) : string :=
  match s with EmptyString => EmptyString | String c s => String (f c) (str_map f s) end.
Definition dataFilePath (userId : string) : string :=
  let safe := str_map safe_char userId in
  storageDir +:+ "/chat_" +:+ (if decide (safe = "") then "default" else safe) +:+ ".json".

(** What [f.readAll()] parses to, when the file can be opened. *)
Definition read_doc (a : Access) (path : string) (d : Disk) : option QJsonValue :=
  if can_read a then d !! path ≫= fromJson else None.
Definition read_root (a : Access) (path : string) (d : Disk) : QJsonObject := as_object (read_doc a path d).
Definition write_root (a : Access) (path : string) (root : QJsonObject) (d : Disk) : bool * Disk :=
  match on_write a (toJson root) with
  | None => (false, d)
  | Some bytes => (true, <[path := bytes]> d)
  end.
Definition messages_key (chatId : string) (chatType : Z) : string := chatId +:+ "_" +:+ pretty chatType.

Definition loadConversations (a : Access) (userId : string) (d : Disk) : list Conversation :=
  match read_doc a (dataFilePath userId) d with
  | Some (JObject root) => (λ v, jsonToConversation (as_object (Some v))) <$> as_array (root !! "conversations")
  | _ => []
  end.
Definition older (m1 m2 : Message) : bool := bool_decide (timestamp m1 < timestamp m2).
(** The messages of a conversation in the file, in its order. *)
Definition stored_messages (root : QJsonObject) (chatId : string) (chatType : Z) : list Message :=
  (λ v, jsonToMessage (as_object (Some v))) <$>
    as_array (as_object (root !! "messages") !! messages_key chatId chatType).
Definition loadMessages (a : Access) (userId chatId : string) (chatType maxMessages : Z) (d : Disk) : list Message :=
  match read_doc a (dataFilePath userId) d with
  | Some (JObject root) =>
      let result := stored_messages root chatId chatType in
      if decide (Z.of_nat (length result) > maxMessages)
      then let result := std_sort older result in
           mid result (Z.of_nat (length result) - maxMessages) maxMessages
      else result
  | _ => []
  end.
Definition saveConversations (a : Access) (userId : string) (conversations : list Conversation) (d : Disk) :
    bool * Disk :=
  let path := dataFilePath userId in
  let root := read_root a path d in
  write_root a path (<["conversations" := JArray ((λ c, JObject (conversationToJson c)) <$> conversations)]> root) d.
Definition saveMessages (a : Access) (userId chatId : string) (chatType : Z) (messages : list Message) (d : Disk) :
    bool * Disk :=
  let path := dataFilePath userId in
  let root := read_root a path d in
  let msgObj := <[messages_key chatId chatType := JArray ((λ m, JObject (messageToJson m)) <$> messages)]>
                  (as_object (root !! "messages")) in
  write_root a path (<["messages" := JObject msgObj]> root) d.

(** [conversationMap] lists its values in the order of the keys. *)
Definition mergeAndSaveConversations (a : Access) (userId : string) (conversationMap : list (string * Conversation))
    (d : Disk) : Disk :=
  snd (saveConversations a userId (std_sort (λ c1 c2, bool_decide (updatedAt c1 > updatedAt c2)) (snd <$> conversationMap)) d).

(** The messages the loop over [newMessages] appends. *)
Fixpoint append_unseen (seen : gset string) (newMessages : list Message) : list Message :=
  match newMessages with
  | [] => []
  | m :: rest =>
      if decide (msgId m ≠ "" ∧ msgId m ∉ seen) then m :: append_unseen ({[msgId m]} ∪ seen) rest
      else append_unseen seen rest
  end.
Definition ids_of (messages : list Message) : gset string :=
  list_to_set (filter (λ i, i ≠ "") (msgId <$> messages)).
Definition mergeAndSaveMessages (a a' : Access) (userId chatId : string) (chatType : Z) (newMessages : list Message)
    (maxStored : Z) (d : Disk) : Disk :=
  let existing := loadMessages a userId chatId chatType (wrap32 (maxStored * 2)) d in
  let existing := std_sort older (existing ++ append_unseen (ids_of existing) newMessages) in
  let n := Z.of_nat (length existing) in
  let existing := if decide (n > maxStored) then mid existing (n - maxStored) maxStored else existing in
  snd (saveMessages a' userId chatId chatType existing d).
End ChatStorage.

(** * Round trips *)

(** A message the file can hold: the times are exact as doubles, the numbers are ints. *)
Definition exact_time (t : Z) : Prop := Z.abs t < 2 ^ 53.
Definition storable (m : Message) : Prop :=
  exact_time (timestamp m) ∧ int32_range (chatType m) ∧ int32_range (status m).
Lemma double_exact t : exact_time t → double_of_int64 t = t.
Proof. intros Ht. unfold double_of_int64. by rewrite decide_True. Qed.
Lemma strings_of (l : list string) : as_string <$> (JString <$> l) = l.
Proof. induction l as [|s l IH]; [done|]. cbn. by rewrite IH. Qed.
Lemma jsonToMessage_messageToJson m : storable m → jsonToMessage (messageToJson m) = m.
Proof.
  intros (Ht & Hc & Hs). destruct m. cbn in *. unfold jsonToMessage, messageToJson, toString, toInt, toDouble, toBool.
  simpl_map. cbn. rewrite double_exact by done.
  rewrite !decide_True by done. by rewrite strings_of.
Qed.
Lemma jsonToConversation_conversationToJson c :
  exact_time (updatedAt c) → exact_time (timestamp (lastMessage c)) →
  int32_range (c_chatType c) → int32_range (unreadCount c) →
  jsonToConversation (conversationToJson c) =
    {| chatId := chatId c; c_chatType := c_chatType c; peerId := peerId c; peerName := peerName c;
       peerAvatar := peerAvatar c;
       lastMessage := {| msgId := msgId (lastMessage c); fromUserId := ""; toId := ""; chatType := 1;
                         content := content (lastMessage c); mediaUrl := ""; mediaType := ""; mentions := [];
                         replyToMsgId := ""; timestamp := timestamp (lastMessage c); status := 0; isSelf := false;
                         sending := false; sendFailed := false |};
       unreadCount := unreadCount c; updatedAt := updatedAt c; isPinned := isPinned c; isMuted := isMuted c |}.
Proof.
  intros Hu Ht Hc Hn. destruct c. cbn in *. unfold jsonToConversation, conversationToJson, toString, toInt, toDouble, toBool.
  simpl_map. cbn. rewrite !double_exact by done. by rewrite !decide_True by done.
Qed.
Lemma stored_saved ms : Forall storable ms →
  (λ v, jsonToMessage (as_object (Some v))) <$> ((λ m, JObject (messageToJson m)) <$> ms) = ms.
Proof.
  induction 1 as [|m ms Hm _ IH]; [done|]. rewrite !fmap_cons, IH. cbn [as_object].
  by rewrite (jsonToMessage_messageToJson m Hm).
Qed.

(** * The list a merge leaves *)

Definition by_time (m1 m2 : Message) : Prop := timestamp m1 ≤ timestamp m2.
#[export] Instance by_time_trans : Transitive by_time.
Proof. intros m1 m2 m3. unfold by_time. lia. Qed.
#[export] Instance by_time_total : Total by_time.
Proof. intros m1 m2. unfold by_time. lia. Qed.
Lemma older_spec m1 m2 : older m1 m2 = false ↔ by_time m2 m1.
Proof. unfold older, by_time. rewrite bool_decide_eq_false. lia. Qed.
(** The ids of server messages. *)
Definition known_ids (ms : list Message) : list string := filter (λ i, i ≠ "") (msgId <$> ms).
Lemma known_ids_app l1 l2 : known_ids (l1 ++ l2) = known_ids l1 ++ known_ids l2.
Proof. unfold known_ids. by rewrite fmap_app, filter_app. Qed.
Lemma known_ids_elem ms i : i ∈ known_ids ms ↔ i ≠ "" ∧ ∃ m, m ∈ ms ∧ msgId m = i.
Proof. unfold known_ids. rewrite list_elem_of_filter, list_elem_of_fmap. naive_solver. Qed.
#[export] Instance known_ids_perm : Proper ((≡ₚ) ==> (≡ₚ)) known_ids.
Proof. intros l1 l2 Hl. unfold known_ids. by rewrite Hl. Qed.

Lemma append_unseen_elem seen new m : m ∈ append_unseen seen new → m ∈ new ∧ msgId m ≠ "" ∧ msgId m ∉ seen.
Proof.
  revert seen. induction new as [|x new IH]; intros seen; cbn [append_unseen]; [by intros ?%not_elem_of_nil|].
  case_decide as Hx; [|intros (? & ? & ?)%IH; set_solver].
  intros [->|(? & ? & ?)%IH]%elem_of_cons; [set_solver|set_solver].
Qed.
Lemma append_unseen_nodup seen new : NoDup (known_ids (append_unseen seen new)).
Proof.
  revert seen. induction new as [|x new IH]; intros seen; cbn [append_unseen]; [constructor|].
  case_decide as Hx; [|apply IH]. destruct Hx as [Hx _].
  change (x :: ?l) with ([x] ++ l). rewrite known_ids_app. unfold known_ids at 1. cbn [fmap list_fmap].
  rewrite filter_cons_True, filter_nil by done. cbn [app]. constructor; [|apply IH].
  intros (_ & m & (_ & _ & Hm)%append_unseen_elem & Heq)%known_ids_elem. set_solver.
Qed.
Lemma append_unseen_covers seen new m : m ∈ new → msgId m ≠ "" →
  msgId m ∈ seen ∨ ∃ m', m' ∈ append_unseen seen new ∧ msgId m' = msgId m.
Proof.
  revert seen. induction new as [|x new IH]; intros seen Hm Hne; [by apply not_elem_of_nil in Hm|].
  cbn [append_unseen]. apply elem_of_cons in Hm as [<-|Hm].
  - case_decide as Hx; [right; exists m; set_solver|]. destruct (decide (msgId m ∈ seen)); [by left|]. naive_solver.
  - case_decide as Hx; [|by apply IH].
    destruct (IH ({[msgId x]} ∪ seen) Hm Hne) as [[Hs|Hs]%elem_of_union|(m' & Hm' & Heq)].
    + apply elem_of_singleton in Hs. right. exists x. set_solver.
    + by left.
    + right. exists m'. set_solver.
Qed.
Lemma ids_of_elem ms i : i ∈ ids_of ms ↔ i ∈ known_ids ms.
Proof. unfold ids_of. by rewrite elem_of_list_to_set. Qed.

Lemma mid_last {A} (l : list A) k : 0 ≤ k < Z.of_nat (length l) →
  mid l (Z.of_nat (length l) - k) k = drop (length l - Z.to_nat k) l.
Proof.
  intros Hk. unfold mid. rewrite decide_False by lia. rewrite decide_False by lia.
  replace (Z.to_nat (Z.of_nat (length l) - k)) with (length l - Z.to_nat k)%nat by lia.
  apply take_ge. rewrite length_drop. lia.
Qed.

(** A list sorted by time, cut to its newest [k]. *)
Lemma newest_kept `{!StdSort} (ms : list Message) k (s := std_sort older ms)
    (kept := if decide (Z.of_nat (length s) > k) then mid s (Z.of_nat (length s) - k) k else s) : 0 ≤ k →
  ∃ dropped, ms ≡ₚ dropped ++ kept ∧ StronglySorted by_time kept ∧
    Z.of_nat (length kept) = Z.min k (Z.of_nat (length ms)) ∧ ∀ x y, x ∈ dropped → y ∈ kept → by_time x y.
Proof.
  intros Hk. pose proof (std_sort_perm older ms) as Hperm. fold s in Hperm.
  pose proof (std_sort_sorted older by_time ms _ _ older_spec) as Hsort. fold s in Hsort.
  assert (length s = length ms) as Hlen by by rewrite Hperm. unfold kept. case_decide as Hn.
  - rewrite mid_last by lia. set (n := (length s - Z.to_nat k)%nat).
    exists (take n s). rewrite take_drop. rewrite <-(take_drop n s) in Hsort.
    apply StronglySorted_app in Hsort as (Hcross & _ & Hs). split_and!; [done..| |by intros x y; apply Hcross].
    rewrite length_drop. lia.
  - exists []. split_and!; [done..|lia|]. by intros x y ?%not_elem_of_nil.
Qed.

(** * Saving and loading *)

Section Disk.
Context {QByteArray : Type} `{!QtJson QByteArray} `{!StdSort}.
Variable storageDir : string.
Variable isLetterOrNumber : ascii → bool.
Notation Disk := (gmap string QByteArray).
Implicit Types (d : Disk) (a : Access (QByteArray:=QByteArray)).
Notation loadMessages := (loadMessages storageDir isLetterOrNumber).
Notation loadConversations := (loadConversations storageDir isLetterOrNumber).
Notation saveMessages := (saveMessages storageDir isLetterOrNumber).
Notation saveConversations := (saveConversations storageDir isLetterOrNumber).
Notation mergeAndSaveMessages := (mergeAndSaveMessages storageDir isLetterOrNumber).
Notation dataFilePath := (dataFilePath storageDir isLetterOrNumber).

(** The file can be opened, and what is written is on the disk. *)
Definition healthy a : Prop := can_read a = true ∧ ∀ bytes, on_write a bytes = Some bytes.

Lemma read_written a a' path root d : healthy a → can_read a' = true →
  ∃ d', write_root a path root d = (true, d') ∧ read_doc a' path d' = Some (JObject root).
Proof.
  intros [_ Hw] Hr. unfold write_root. rewrite Hw. eexists. split; [done|].
  unfold read_doc. rewrite Hr, lookup_insert_eq. cbn. apply fromJson_toJson.
Qed.
Lemma saveMessages_run a a' u c t ms d : healthy a → can_read a' = true → Forall storable ms →
  ∃ d' root, saveMessages a u c t ms d = (true, d') ∧ read_doc a' (dataFilePath u) d' = Some (JObject root) ∧
    stored_messages root c t = ms ∧
    (∀ c2 t2, messages_key c2 t2 ≠ messages_key c t →
       stored_messages root c2 t2 = stored_messages (read_root a (dataFilePath u) d) c2 t2) ∧
    root !! "conversations" = read_root a (dataFilePath u) d !! "conversations".
Proof.
  intros Ha Hr Hms. unfold saveMessages.
  edestruct (read_written a a' (dataFilePath u)) as (d' & Hw & Hread); [done..|].
  exists d'. eexists. split; [exact Hw|]. split; [exact Hread|]. unfold stored_messages. simpl_map. cbn [as_object].
  split_and!.
  - rewrite lookup_insert_eq. cbn [as_array]. by apply stored_saved.
  - intros c2 t2 Hne. by rewrite lookup_insert_ne by done.
  - done.
Qed.
(** C12: the cache of a conversation: merging messages into it keeps the newest [maxStored] of the messages that were there and
    of the new ones whose id was not, in the order of time, each id once; what is dropped is older than
    all that is kept, and of a message that was there already the stored version stays.  The list of
    conversations in the file is untouched. *)
Theorem merge_keeps_newest a a' a'' u c t new maxStored d
    (existing := loadMessages a u c t (maxStored * 2) d) (d' := mergeAndSaveMessages a a' u c t new maxStored d)
    (kept := loadMessages a'' u c t maxStored d') :
  healthy a' → can_read a = true → can_read a'' = true → 0 ≤ maxStored < 2 ^ 30 →
  Forall storable existing → Forall storable new → NoDup (known_ids existing) →
  ∃ added dropped, added = append_unseen (ids_of existing) new ∧ existing ++ added ≡ₚ dropped ++ kept ∧
    (∀ m, m ∈ new → msgId m ≠ "" → msgId m ∈ known_ids (existing ++ added)) ∧
    (∀ m, m ∈ kept → msgId m ∈ known_ids existing → m ∈ existing) ∧ NoDup (known_ids kept) ∧
    StronglySorted by_time kept ∧ Z.of_nat (length kept) = Z.min maxStored (Z.of_nat (length (existing ++ added))) ∧
    (∀ x y, x ∈ dropped → y ∈ kept → by_time x y) ∧
    loadConversations a'' u d' = loadConversations a u d.
Proof.
  intros Ha' Hr Hr'' Hmax Hex Hnew Hnd. set (added := append_unseen (ids_of existing) new).
  destruct (newest_kept (existing ++ added) maxStored) as (dropped & Hperm & Hsort & Hlen & Hold); [lia|].
  set (list := if decide _ then _ else _) in *.
  assert (Forall storable list) as Hlist.
  { assert (Forall storable (existing ++ added)) as Hall.
    { apply Forall_app_2; [done|]. rewrite Forall_forall in Hnew |- *.
      intros m (Hm & _)%append_unseen_elem. by apply Hnew. }
    rewrite Hperm in Hall. by apply Forall_app in Hall as [_ ?]. }
  destruct (saveMessages_run a' a'' u c t list d Ha' Hr'' Hlist) as (d1 & root & Hsave & Hread & Hms & _ & Hconv).
  assert (d' = d1) as ->.
  { unfold d', mergeAndSaveMessages. rewrite wrap32_id by (unfold int32_range; lia). fold existing. fold added.
    unfold saveMessages, list in Hsave |- *. by rewrite Hsave. }
  assert (kept = list) as ->.
  { unfold kept, loadMessages. rewrite Hread, Hms. rewrite decide_False; [done|]. rewrite Hlen. lia. }
  assert (∀ i, i ∈ known_ids added → i ∉ known_ids existing) as Hfresh.
  { intros i (_ & m & (_ & _ & Hm)%append_unseen_elem & <-)%known_ids_elem. by rewrite <-ids_of_elem. }
  assert (NoDup (known_ids (dropped ++ list))) as Hnd2.
  { rewrite <-Hperm, known_ids_app. apply NoDup_app. split_and!; [done| |apply append_unseen_nodup].
    intros i Hi Hi2. by apply (Hfresh i). }
  exists added, dropped. split_and!; [done..| | | | | | |].
  - intros m Hm Hne. destruct (append_unseen_covers (ids_of existing) new m Hm Hne) as [Hs|(m' & Hm' & Heq)].
    + rewrite known_ids_app, elem_of_app. left. by apply ids_of_elem.
    + apply known_ids_elem. split; [done|]. exists m'. set_solver.
  - intros m Hm Hi. assert (m ∈ existing ++ added) as [|Hadd]%elem_of_app by (rewrite Hperm; set_solver); [done|].
    exfalso. apply (Hfresh (msgId m)); [|done]. apply known_ids_elem in Hi as [Hne _]. apply known_ids_elem. eauto.
  - rewrite known_ids_app in Hnd2. by apply NoDup_app in Hnd2 as (_ & _ & ?).
  - done.
  - done.
  - done.
  - unfold loadConversations. rewrite Hread, Hconv. unfold read_root, read_doc. rewrite Hr, (proj1 Ha').
    by destruct (d !! _ ≫= fromJson) as [[| | | | |root0]|].
Qed.
End Disk.

(** * Concrete parameters *)

#[export] Instance json_as_is : QtJson (gmap string QJsonValue) :=
  {| toJson o := o; fromJson o := Some (JObject o); fromJson_toJson _ := eq_refl |}.
Fixpoint insert_by {A} (lt : A → A → bool) (x : A) (l : list A) : list A :=
  match l with [] => [x] | y :: l' => if lt x y then x :: l else y :: insert_by lt x l' end.
Definition insertion_sort {A} (lt : A → A → bool) (l : list A) : list A := foldr (insert_by lt) [] l.
Lemma insert_by_perm {A} (lt : A → A → bool) x l : insert_by lt x l ≡ₚ x :: l.
Proof.
  induction l as [|y l IH]; [done|]. cbn. destruct (lt x y); [done|]. rewrite IH. constructor.
Qed.
Lemma insert_by_sorted {A} (lt : A → A → bool) (le : relation A) x l : Transitive le → Total le →
  (∀ a b, lt a b = false ↔ le b a) → StronglySorted le l → StronglySorted le (insert_by lt x l).
Proof.
  intros Htr Htot Hlt. induction 1 as [|y l Hl IH Hy]; cbn; [by repeat constructor|]. destruct (lt x y) eqn:Hxy.
  - assert (le x y) as Hle. { destruct (Htot x y) as [|Hyx]; [done|]. apply Hlt in Hyx. congruence. }
    constructor; [by constructor|]. constructor; [done|]. eapply Forall_impl; [exact Hy|]. intros z Hz. by etrans.
  - constructor; [done|]. rewrite insert_by_perm. constructor; [by apply Hlt|done].
Qed.
#[export, refine] Instance std_insertion_sort : StdSort := {| std_sort := @insertion_sort |}.
Proof.
  - intros A lt l. induction l as [|x l IH]; [done|]. cbn. by rewrite insert_by_perm, IH.
  - intros A lt le l ? ? Hlt. induction l as [|x l IH]; [constructor|]. cbn. by apply insert_by_sorted.
Defined.

Definition letter_or_digit (c : ascii) : bool :=
  let n := Ascii.nat_of_ascii c in
  (48 <=? n)%nat && (n <=? 57)%nat || (65 <=? n)%nat && (n <=? 90)%nat || (97 <=? n)%nat && (n <=? 122)%nat.
Definition works : Access (QByteArray:=gmap string QJsonValue) := {| can_read := true; on_write := Some |}.
Definition text_at (id text : string) (t : Z) : Message :=
  {| msgId := id; fromUserId := "bob"; toId := "alice"; chatType := 1; content := text; mediaUrl := "";
     mediaType := "text"; mentions := []; replyToMsgId := ""; timestamp := t; status := 0; isSelf := false;
     sending := false; sendFailed := false |}.
Definition cache0 : gmap string (gmap string QJsonValue) := Eval vm_compute in
  snd (saveMessages "/data" letter_or_digit works "alice" "bob" 1 [text_at "m2" "second" 20; text_at "m1" "first" 10] ∅).
(** Two of three messages are kept; the changed text of [m2] does not reach the file. *)
Lemma merge_keeps_newest_witness : let new := [text_at "m2" "changed" 20; text_at "m3" "third" 30] in
  let kept := loadMessages "/data" letter_or_digit works "alice" "bob" 1 2
    (mergeAndSaveMessages "/data" letter_or_digit works works "alice" "bob" 1 new 2 cache0) in
  kept = [text_at "m2" "second" 20; text_at "m3" "third" 30] ∧ NoDup (known_ids kept).
Proof.
  split; [eval_eq|].
  assert (loadMessages "/data" letter_or_digit works "alice" "bob" 1 (2 * 2) cache0 =
    [text_at "m2" "second" 20; text_at "m1" "first" 10]) as Hex by eval_eq.
  assert (∀ id text t, Z.abs t < 2 ^ 53 → storable (text_at id text t)) as Hst.
  { intros id text t Ht. split_and!; [exact Ht|vm_compute; done..]. }
  destruct (merge_keeps_newest "/data" letter_or_digit works works works "alice" "bob" 1
    [text_at "m2" "changed" 20; text_at "m3" "third" 30] 2 cache0 (conj eq_refl (λ _, eq_refl)) eq_refl eq_refl
    ltac:(lia) ltac:(rewrite Hex; repeat constructor; done) ltac:(repeat constructor; done)
    ltac:(rewrite Hex; apply (bool_decide_eq_true_1 _); eval_eq)) as (? & ? & _ & _ & _ & _ & Hnd & _).
  exact Hnd.
Defined.

(** Users whose ids differ in a character that is no letter share one file. *)
Example users_share_a_file : dataFilePath "/data" letter_or_digit "a.b" = dataFilePath "/data" letter_or_digit "a_b".
Proof. reflexivity. Qed.
