(* ===== verification/Widgets.v ===== *)
(** The lists the widgets of the desktop client keep: [client/desktop/src/ui/contactwidget.cpp] and
    [chatwidget.cpp].  What is drawn is left out; white space and comparison without case are Qt's. *)

From S2P Require Import Prelude External ChatStorage.

(** Comparison of strings. *)
Definition str_lt (a b : string) : bool := bool_decide (String.le a b ∧ a ≠ b).
Lemma str_lt_spec a b : str_lt a b = false ↔ String.le b a.
Proof.
  unfold str_lt. rewrite bool_decide_eq_false. split.
  - intros Hn. destruct (decide (a = b)) as [->|Hne]; [done|].
    destruct (total String.le a b) as [Hab|]; [|done]. exfalso. by apply Hn.
  - intros Hba [Hab Hne]. by apply Hne, (anti_symm String.le).
Qed.

(** * ChatWidget *)

Record ChatWidget : Type := {
  ch_chatId : string; ch_chatType : Z; ch_messages : list Message; ch_receipt : option (string * string) }.
Definition ChatWidget_new : ChatWidget :=
  {| ch_chatId := ""; ch_chatType := 1; ch_messages := []; ch_receipt := None |}.
Definition set_shown (messages : list Message) (w : ChatWidget) : ChatWidget :=
  {| ch_chatId := ch_chatId w; ch_chatType := ch_chatType w; ch_messages := messages; ch_receipt := ch_receipt w |}.
Definition set_receipt (r : option (string * string)) (w : ChatWidget) : ChatWidget :=
  {| ch_chatId := ch_chatId w; ch_chatType := ch_chatType w; ch_messages := ch_messages w; ch_receipt := r |}.

Definition shown_before (a b : Message) : bool :=
  if decide (timestamp a = timestamp b) then str_lt (msgId a) (msgId b) else bool_decide (timestamp a < timestamp b).
(** The loop that drops repeated ids. *)
Fixpoint dedupe (seenIds : gset string) (messages : list Message) : list Message :=
  match messages with
  | [] => []
  | m :: rest =>
      if decide (msgId m ≠ "") then
        if decide (msgId m ∈ seenIds) then dedupe seenIds rest
        else m :: dedupe ({[msgId m]} ∪ seenIds) rest
      else m :: dedupe seenIds rest
  end.
Definition normalizeMessages `{StdSort} (messages : list Message) : list Message :=
  dedupe ∅ (std_sort shown_before messages).

Definition setConversation (chatId : string) (chatType : Z) (w : ChatWidget) : ChatWidget :=
  {| ch_chatId := chatId; ch_chatType := chatType; ch_messages := []; ch_receipt := None |}.
Definition setMessages `{StdSort} (messages : list Message) (w : ChatWidget) : ChatWidget :=
  set_shown (normalizeMessages messages) w.
Definition prependHistoryMessages `{StdSort} (messages : list Message) (w : ChatWidget) : ChatWidget :=
  match messages with [] => w | _ => set_shown (normalizeMessages (messages ++ ch_messages w)) w end.
Definition appendMessage (message : Message) (w : ChatWidget) : ChatWidget :=
  if decide (msgId message ≠ "" ∧ msgId message ∈ msgId <$> ch_messages w) then w
  else set_shown (ch_messages w ++ [message]) w.
Definition with_status (s : Z) (m : Message) : Message :=
  {| msgId := msgId m; fromUserId := fromUserId m; toId := toId m; chatType := chatType m; content := content m;
     mediaUrl := mediaUrl m; mediaType := mediaType m; mentions := mentions m; replyToMsgId := replyToMsgId m;
     timestamp := timestamp m; status := s; isSelf := isSelf m; sending := sending m; sendFailed := sendFailed m |}.
(** The first message with the id, changed. *)
Fixpoint update_first (id : string) (f : Message → Message) (l : list Message) : list Message :=
  match l with
  | [] => []
  | m :: l => if decide (msgId m = id) then f m :: l else m :: update_first id f l
  end.
Definition markMessageRecalled (id : string) (w : ChatWidget) : ChatWidget :=
  set_shown (update_first id (with_status 1) (ch_messages w)) w.
Definition setReadReceipt (userId lastReadMsgId : string) (w : ChatWidget) : ChatWidget :=
  set_receipt (Some (userId, lastReadMsgId)) w.
Definition clearReadReceipt (w : ChatWidget) : ChatWidget := set_receipt None w.

(** The times at which [refreshMessageList] puts a separator before a message; [minute] is the text of a time
    without its seconds. *)
Definition ShouldInsertSeparator (minute : Z → string) (previousTs currentTs : Z) : bool :=
  if decide (currentTs ≤ 0) then false else if decide (previousTs ≤ 0) then true else
  bool_decide (minute previousTs ≠ minute currentTs).
Fixpoint separators (minute : Z → string) (previousTimestamp : Z) (messages : list Message) : list (option Z * Message) :=
  match messages with
  | [] => []
  | m :: rest => (if ShouldInsertSeparator minute previousTimestamp (timestamp m) then Some (timestamp m) else None, m)
                   :: separators minute (timestamp m) rest
  end.

(** * ContactWidget *)

Record FriendItem : Type := {
  fi_friendId : string; fi_nickname : string; fi_remark : string; fi_groupId : string; fi_avatarUrl : string;
  fi_addedAt : Z }.
Definition FriendItem_new : FriendItem :=
  {| fi_friendId := ""; fi_nickname := ""; fi_remark := ""; fi_groupId := ""; fi_avatarUrl := ""; fi_addedAt := 0 |}.
Record FriendRequestItem : Type := {
  fq_requestId : string; fq_fromUserId : string; fq_toUserId : string; fq_fromNickname : string;
  fq_fromAvatarUrl : string; fq_remark : string; fq_status : Z; fq_createdAt : Z }.
Record GroupItem : Type := {
  gi_groupId : string; gi_groupName : string; gi_avatarUrl : string; gi_ownerId : string; gi_announcement : string;
  gi_memberCount : Z; gi_createdAt : Z }.
Record GroupMemberItem : Type := { mi_userId : string; mi_nickname : string; mi_role : Z; mi_joinedAt : Z }.
Inductive ViewMode : Type := Conversations | Friends | Groups.

Record ContactWidget : Type := {
  cw_conversations : list Conversation; cw_friends : list FriendItem; cw_requests : list FriendRequestItem;
  cw_groups : list GroupItem; cw_groupInfo : option GroupItem; cw_members : list GroupMemberItem;
  cw_currentChatId : string }.
Definition ContactWidget_new : ContactWidget :=
  {| cw_conversations := []; cw_friends := []; cw_requests := []; cw_groups := []; cw_groupInfo := None;
     cw_members := []; cw_currentChatId := "" |}.
Definition set_conversations (l : list Conversation) (w : ContactWidget) : ContactWidget :=
  {| cw_conversations := l; cw_friends := cw_friends w; cw_requests := cw_requests w; cw_groups := cw_groups w;
     cw_groupInfo := cw_groupInfo w; cw_members := cw_members w; cw_currentChatId := cw_currentChatId w |}.
Definition set_friends (l : list FriendItem) (w : ContactWidget) : ContactWidget :=
  {| cw_conversations := cw_conversations w; cw_friends := l; cw_requests := cw_requests w; cw_groups := cw_groups w;
     cw_groupInfo := cw_groupInfo w; cw_members := cw_members w; cw_currentChatId := cw_currentChatId w |}.
Definition with_unread (n : Z) (c : Conversation) : Conversation :=
  {| chatId := chatId c; c_chatType := c_chatType c; peerId := peerId c; peerName := peerName c;
     peerAvatar := peerAvatar c; lastMessage := lastMessage c; unreadCount := n; updatedAt := updatedAt c;
     isPinned := isPinned c; isMuted := isMuted c |}.

Definition setConversations (conversations : list Conversation) (w : ContactWidget) : ContactWidget :=
  set_conversations conversations w.
(** The loop of [upsertConversation]: [None] when the conversation is not in the list. *)
Fixpoint replace_conversation (c : Conversation) (l : list Conversation) : option (list Conversation) :=
  match l with
  | [] => None
  | x :: l => if decide (chatId x = chatId c ∧ c_chatType x = c_chatType c) then Some (c :: l)
              else (cons x) <$> replace_conversation c l
  end.
Definition upsertConversation (c : Conversation) (w : ContactWidget) : ContactWidget :=
  set_conversations (default (c :: cw_conversations w) (replace_conversation c (cw_conversations w))) w.
Fixpoint increase_first (id : string) (l : list Conversation) : list Conversation :=
  match l with
  | [] => []
  | c :: l => if decide (chatId c = id) then with_unread (wrap32 (unreadCount c + 1)) c :: l else c :: increase_first id l
  end.
Definition increaseUnreadForChat (id : string) (w : ContactWidget) : ContactWidget :=
  set_conversations (increase_first id (cw_conversations w)) w.
Definition setCurrentChat (id : string) (w : ContactWidget) : ContactWidget :=
  {| cw_conversations := (λ c, if decide (chatId c = id) then with_unread 0 c else c) <$> cw_conversations w;
     cw_friends := cw_friends w; cw_requests := cw_requests w; cw_groups := cw_groups w;
     cw_groupInfo := cw_groupInfo w; cw_members := cw_members w; cw_currentChatId := id |}.
Definition setFriends (friends : list FriendItem) (w : ContactWidget) : ContactWidget := set_friends friends w.
Definition setFriendRequests `{StdSort} (requests : list FriendRequestItem) (w : ContactWidget) : ContactWidget :=
  {| cw_conversations := cw_conversations w; cw_friends := cw_friends w;
     cw_requests := std_sort (λ a b, bool_decide (fq_createdAt a > fq_createdAt b)) requests;
     cw_groups := cw_groups w; cw_groupInfo := cw_groupInfo w; cw_members := cw_members w;
     cw_currentChatId := cw_currentChatId w |}.
Definition setGroups (groups : list GroupItem) (w : ContactWidget) : ContactWidget :=
  {| cw_conversations := cw_conversations w; cw_friends := cw_friends w; cw_requests := cw_requests w;
     cw_groups := groups; cw_groupInfo := cw_groupInfo w; cw_members := cw_members w;
     cw_currentChatId := cw_currentChatId w |}.
Definition setCurrentGroupInfo (info : GroupItem) (w : ContactWidget) : ContactWidget :=
  {| cw_conversations := cw_conversations w; cw_friends := cw_friends w; cw_requests := cw_requests w;
     cw_groups := cw_groups w; cw_groupInfo := Some info; cw_members := cw_members w;
     cw_currentChatId := cw_currentChatId w |}.
Definition setGroupMembers (members : list GroupMemberItem) (w : ContactWidget) : ContactWidget :=
  {| cw_conversations := cw_conversations w; cw_friends := cw_friends w; cw_requests := cw_requests w;
     cw_groups := cw_groups w; cw_groupInfo := cw_groupInfo w; cw_members := members;
     cw_currentChatId := cw_currentChatId w |}.
Definition friendById (userId : string) (w : ContactWidget) : FriendItem :=
  default FriendItem_new (find (λ f, bool_decide (fi_friendId f = userId)) (cw_friends w)).
Fixpoint remark_first (userId remark : string) (l : list FriendItem) : list FriendItem :=
  match l with
  | [] => []
  | f :: l => if decide (fi_friendId f = userId)
              then {| fi_friendId := fi_friendId f; fi_nickname := fi_nickname f; fi_remark := remark;
                      fi_groupId := fi_groupId f; fi_avatarUrl := fi_avatarUrl f; fi_addedAt := fi_addedAt f |} :: l
              else f :: remark_first userId remark l
  end.
Definition updateFriendRemark (userId remark : string) (w : ContactWidget) : ContactWidget :=
  set_friends (remark_first userId remark (cw_friends w)) w.
Fixpoint remove_first (userId : string) (l : list FriendItem) : list FriendItem :=
  match l with
  | [] => []
  | f :: l => if decide (fi_friendId f = userId) then l else f :: remove_first userId l
  end.
Definition removeFriendById (userId : string) (w : ContactWidget) : ContactWidget :=
  set_friends (remove_first userId (cw_friends w)) w.

Section Filter.
Variables (trimmed : string → string) (contains : string → string → bool) (BuildPreview : Conversation → string).
Definition DisplayName (nickname fallback : string) : string := if decide (trimmed nickname = "") then fallback else nickname.
(** The visible part of each list, for what is typed in the search field. *)
Definition visible_conversations (keyword : string) (l : list Conversation) : list Conversation :=
  let key := trimmed keyword in
  if decide (key = "") then l else
  filter (λ c, contains (if decide (peerName c = "") then chatId c else peerName c) key
               || contains (chatId c) key || contains (BuildPreview c) key = true) l.
Definition visible_friends (keyword : string) (l : list FriendItem) : list FriendItem :=
  let key := trimmed keyword in
  if decide (key = "") then l else
  filter (λ f, contains (DisplayName (fi_remark f) (DisplayName (fi_nickname f) (fi_friendId f))) key
               || contains (fi_friendId f) key || contains (fi_nickname f) key = true) l.
Definition visible_groups (keyword : string) (l : list GroupItem) : list GroupItem :=
  let key := trimmed keyword in
  if decide (key = "") then l else
  filter (λ g, contains (gi_groupName g) key || contains (gi_groupId g) key = true) l.
Definition visible_members (search : string) (roleFilter : Z) (l : list GroupMemberItem) : list GroupMemberItem :=
  let key := trimmed search in
  filter (λ m, (roleFilter < 0 ∨ mi_role m = roleFilter) ∧
               (key = "" ∨ contains (DisplayName (mi_nickname m) (mi_userId m)) key = true ∨
                contains (mi_userId m) key = true)) l.
(** [refreshConversationList]: the order of the rows. *)
Definition conversation_rows `{StdSort} (l : list Conversation) : list Conversation :=
  std_sort (λ a b, bool_decide (updatedAt a > updatedAt b)) l.
End Filter.

(** * What the list of messages shows *)

Definition shown_order (a b : Message) : Prop :=
  timestamp a < timestamp b ∨ timestamp a = timestamp b ∧ String.le (msgId a) (msgId b).
#[export] Instance shown_order_trans : Transitive shown_order.
Proof.
  intros a b c [Hab|[Hab Hs]] [Hbc|[Hbc Hs']]; unfold shown_order; try (left; lia).
  right. split; [lia|]. by trans (msgId b).
Qed.
#[export] Instance shown_order_total : Total shown_order.
Proof.
  intros a b. unfold shown_order. destruct (Z.lt_trichotomy (timestamp a) (timestamp b)) as [|[He|]]; [by left; left| |by right; left].
  destruct (total String.le (msgId a) (msgId b)); [left|right]; by right.
Qed.
Lemma shown_before_spec a b : shown_before a b = false ↔ shown_order b a.
Proof.
  unfold shown_before, shown_order. case_decide as He.
  - rewrite str_lt_spec. split; [by intros ?; right|]. intros [?|[_ ?]]; [lia|done].
  - rewrite bool_decide_eq_false. lia.
Qed.

Lemma dedupe_sublist seen l : dedupe seen l `sublist_of` l.
Proof.
  revert seen. induction l as [|m l IH]; intros seen; cbn [dedupe]; [done|].
  repeat case_decide; by (apply sublist_skip || apply sublist_cons).
Qed.
Lemma StronglySorted_sublist_of {A} (R : relation A) l k : l `sublist_of` k → StronglySorted R k → StronglySorted R l.
Proof.
  induction 1 as [|x l k Hlk IH|x l k Hlk IH]; intros Hs; [constructor| |by inversion_clear Hs; apply IH].
  inversion_clear Hs as [|? ? Hk Hx]. constructor; [by apply IH|].
  rewrite Forall_forall in Hx |- *. intros y Hy. by apply Hx, (elem_of_sublist _ _ _ Hy Hlk).
Qed.
Lemma dedupe_ids seen l i : i ∈ known_ids (dedupe seen l) → i ∉ seen.
Proof.
  revert seen. induction l as [|m l IH]; intros seen; cbn [dedupe]; [by intros ?%not_elem_of_nil|].
  repeat case_decide; rewrite ?known_ids_elem; [by intros Hi%known_ids_elem; apply IH| |].
  - intros (Hi & x & [->|Hx]%elem_of_cons & Heq); [by subst|].
    assert (i ∉ {[msgId m]} ∪ seen); [|set_solver]. apply IH, known_ids_elem. eauto.
  - intros (Hi & x & [->|Hx]%elem_of_cons & Heq); [by destruct H; subst|]. apply IH, known_ids_elem. eauto.
Qed.
Lemma dedupe_nodup seen l : NoDup (known_ids (dedupe seen l)).
Proof.
  revert seen. induction l as [|m l IH]; intros seen; cbn [dedupe]; [constructor|].
  repeat case_decide; [apply IH| |]; change (m :: ?l) with ([m] ++ l); rewrite known_ids_app;
    unfold known_ids at 1; cbn [fmap list_fmap].
  - rewrite filter_cons_True, filter_nil by done. cbn [app]. constructor; [|apply IH].
    intros Hi%dedupe_ids. set_solver.
  - rewrite filter_cons_False, filter_nil by (intros Hn; by apply Hn). apply IH.
Qed.
(** Every message of the list is shown, or one with its id that comes no later. *)
Lemma dedupe_covers seen l m : StronglySorted shown_order l → m ∈ l → msgId m ∈ seen ∨
  ∃ m', m' ∈ dedupe seen l ∧ (m' = m ∨ msgId m ≠ "" ∧ msgId m' = msgId m ∧ shown_order m' m).
Proof.
  intros Hs. revert seen. induction Hs as [|x l Hs IH Hx]; intros seen Hm; [by apply not_elem_of_nil in Hm|].
  rewrite Forall_forall in Hx. cbn [dedupe]. apply elem_of_cons in Hm as [<-|Hm].
  - repeat case_decide; [by left|right; exists m; set_solver..].
  - repeat case_decide.
    + by apply IH.
    + destruct (IH ({[msgId x]} ∪ seen) Hm) as [[Hi|Hi]%elem_of_union|(m' & Hm' & Hc)].
      * apply elem_of_singleton in Hi. right. exists x. split; [set_solver|]. right. rewrite Hi. split_and!; [done..|by apply Hx].
      * by left.
      * right. exists m'. set_solver.
    + destruct (IH seen Hm) as [|(m' & Hm' & Hc)]; [by left|]. right. exists m'. set_solver.
Qed.

(** C15: what the list of messages shows: in the order of time, and of ids where the times are equal; no id twice; only messages
    it was given, and each of them or, in its place, one with its id that is no later. *)
Theorem normalize_shows_each_once `{!StdSort} (messages : list Message) (shown := normalizeMessages messages) :
  StronglySorted shown_order shown ∧ NoDup (known_ids shown) ∧ (∀ m, m ∈ shown → m ∈ messages) ∧
  ∀ m, m ∈ messages → ∃ m', m' ∈ shown ∧ (m' = m ∨ msgId m ≠ "" ∧ msgId m' = msgId m ∧ shown_order m' m).
Proof.
  pose proof (std_sort_sorted shown_before shown_order messages _ _ shown_before_spec) as Hs.
  pose proof (std_sort_perm shown_before messages) as Hp. unfold shown, normalizeMessages. split_and!.
  - exact (StronglySorted_sublist_of _ _ _ (dedupe_sublist _ _) Hs).
  - apply dedupe_nodup.
  - intros m Hm. rewrite <-Hp. exact (elem_of_sublist _ _ _ Hm (dedupe_sublist _ _)).
  - intros m Hm. rewrite <-Hp in Hm. by destruct (dedupe_covers ∅ _ m Hs Hm) as [?%not_elem_of_empty|].
Qed.
