(* ===== verification/MainWindow.v ===== *)
(** The main window of the desktop client: [client/desktop/src/ui/mainwindow.cpp]. Its tables of conversations
    and messages, what it asks of the server, what the answers and the pushes do to them, and its two widgets.

    A closure the window hands to the protocol handler is a [Reply].  A request whose envelope cannot be
    serialised is answered before [sendRequest] returns; all others later, as inputs of their own.  The window has its
    handler, socket and widgets; each operation meets one state of the disk ([acc]) and one time ([now]).
    Dialogs appear as the choice that was made in them.  The event loops that wait for an upload and for the address of
    a file are not nested: what follows them is an input, or part of the answer.  Pictures, the dialog that searches users, the transfer of
    files over HTTP and the log are left out. *)

From S2P Require Import Prelude External Utils Proto ZonePayloads Client ChatStorage Widgets.

(** The functions of Qt it uses. *)
Class Qt : Type := {
  trimmed : string → string; toLower : string → string; containsCI : string → string → bool;
  fromUserInput : string → QUrl; isLetterOrNumber : Ascii.ascii → bool; storageDir : string }.

(** A file that was picked: [QFileInfo]. *)
Record PickedFile : Type := { pf_path : string; pf_name : string; pf_size : Z; pf_is_file : bool }.
Inductive Reply : Type :=
  | RSync | RFriends | RFriendRequests | RHandleFriend | RUserGroups | RGroupInfo | RGroupMembers
  | RInvite (groupId : string) | RRemoveMember (groupId : string) | RLeave (groupId : string)
  | RDismiss (groupId : string) | RDeleteConversation (chatId : string) (chatType : Z)
  | RBlock (userId : string) | RUnblock (userId : string) | RHistory (chatId : string) (chatType : Z) | ROffline
  | RSend (key localMsgId chatId : string) (chatType : Z) | RRetry (key msgId : string)
  | RRecall (key msgId : string) | RValidate
  | RCreateGroup | RAddFriend (userId : string) | RRemoveFriend
  | RUploadToken (file : PickedFile) (chatId : string) (chatType : Z) (retried : bool)
  | RSendFile (mediaUrl : string) (file : PickedFile) (chatId : string) (chatType : Z)
  | RFileUrl (suggestName : string).
Inductive Output : Type :=
  | ToSocket (e : WsEvent)
  | Warning (title text : string)
  | Information (title text : string)
  | SingleShot (ms : Z)              (* the timer that validates the session *)
  | RetryUpload (ms : Z) (file : PickedFile) (chatId : string) (chatType : Z)
  | Upload (url token : string) (file : PickedFile) (chatId : string) (chatType : Z)
  | Download (url suggestName : string).
Record Window {QByteArray : Type} : Type := {
  m_protocol : ProtocolHandler (Closure Reply); m_socket : SocketState; m_disk : gmap string QByteArray;
  m_token : string; m_serverUrl : string; m_currentUserId : string; m_currentChatId : string;
  m_currentChatType : Z; m_conversationMap : gmap string Conversation;
  m_messageMap : gmap string (list Message); m_readReceiptMap : gmap string string;
  m_blacklistMap : gmap string string; m_offlineCursor : string; m_offlinePullInFlight : bool;
  m_sessionReady : bool; m_sessionValidationInFlight : bool; m_contactWidget : ContactWidget;
  m_chatWidget : ChatWidget; m_profile : FriendItem; m_starFriendIds : gset string; m_out : list Output }.
Arguments Window : clear implicits.

Section Setters.
Context {QByteArray : Type}.
Notation Window := (Window QByteArray).
Definition set_protocol (f : (ProtocolHandler (Closure Reply)) → (ProtocolHandler (Closure Reply))) (w : Window) : Window :=
  Build_Window QByteArray (f (m_protocol w)) (m_socket w) (m_disk w) (m_token w) (m_serverUrl w)
    (m_currentUserId w) (m_currentChatId w) (m_currentChatType w) (m_conversationMap w) (m_messageMap w)
    (m_readReceiptMap w) (m_blacklistMap w) (m_offlineCursor w) (m_offlinePullInFlight w) (m_sessionReady w)
    (m_sessionValidationInFlight w) (m_contactWidget w) (m_chatWidget w) (m_profile w) (m_starFriendIds w)
    (m_out w).
Definition set_socket (f : SocketState → SocketState) (w : Window) : Window :=
  Build_Window QByteArray (m_protocol w) (f (m_socket w)) (m_disk w) (m_token w) (m_serverUrl w)
    (m_currentUserId w) (m_currentChatId w) (m_currentChatType w) (m_conversationMap w) (m_messageMap w)
    (m_readReceiptMap w) (m_blacklistMap w) (m_offlineCursor w) (m_offlinePullInFlight w) (m_sessionReady w)
    (m_sessionValidationInFlight w) (m_contactWidget w) (m_chatWidget w) (m_profile w) (m_starFriendIds w)
    (m_out w).
Definition set_disk (f : (gmap string QByteArray) → (gmap string QByteArray)) (w : Window) : Window :=
  Build_Window QByteArray (m_protocol w) (m_socket w) (f (m_disk w)) (m_token w) (m_serverUrl w)
    (m_currentUserId w) (m_currentChatId w) (m_currentChatType w) (m_conversationMap w) (m_messageMap w)
    (m_readReceiptMap w) (m_blacklistMap w) (m_offlineCursor w) (m_offlinePullInFlight w) (m_sessionReady w)
    (m_sessionValidationInFlight w) (m_contactWidget w) (m_chatWidget w) (m_profile w) (m_starFriendIds w)
    (m_out w).
Definition set_currentChatId (f : string → string) (w : Window) : Window :=
  Build_Window QByteArray (m_protocol w) (m_socket w) (m_disk w) (m_token w) (m_serverUrl w) (m_currentUserId w)
    (f (m_currentChatId w)) (m_currentChatType w) (m_conversationMap w) (m_messageMap w) (m_readReceiptMap w)
    (m_blacklistMap w) (m_offlineCursor w) (m_offlinePullInFlight w) (m_sessionReady w)
    (m_sessionValidationInFlight w) (m_contactWidget w) (m_chatWidget w) (m_profile w) (m_starFriendIds w)
    (m_out w).
Definition set_currentChatType (f : Z → Z) (w : Window) : Window :=
  Build_Window QByteArray (m_protocol w) (m_socket w) (m_disk w) (m_token w) (m_serverUrl w) (m_currentUserId w)
    (m_currentChatId w) (f (m_currentChatType w)) (m_conversationMap w) (m_messageMap w) (m_readReceiptMap w)
    (m_blacklistMap w) (m_offlineCursor w) (m_offlinePullInFlight w) (m_sessionReady w)
    (m_sessionValidationInFlight w) (m_contactWidget w) (m_chatWidget w) (m_profile w) (m_starFriendIds w)
    (m_out w).
Definition set_conversationMap (f : (gmap string Conversation) → (gmap string Conversation)) (w : Window) : Window :=
  Build_Window QByteArray (m_protocol w) (m_socket w) (m_disk w) (m_token w) (m_serverUrl w) (m_currentUserId w)
    (m_currentChatId w) (m_currentChatType w) (f (m_conversationMap w)) (m_messageMap w) (m_readReceiptMap w)
    (m_blacklistMap w) (m_offlineCursor w) (m_offlinePullInFlight w) (m_sessionReady w)
    (m_sessionValidationInFlight w) (m_contactWidget w) (m_chatWidget w) (m_profile w) (m_starFriendIds w)
    (m_out w).
Definition set_messageMap (f : (gmap string (list Message)) → (gmap string (list Message))) (w : Window) : Window :=
  Build_Window QByteArray (m_protocol w) (m_socket w) (m_disk w) (m_token w) (m_serverUrl w) (m_currentUserId w)
    (m_currentChatId w) (m_currentChatType w) (m_conversationMap w) (f (m_messageMap w)) (m_readReceiptMap w)
    (m_blacklistMap w) (m_offlineCursor w) (m_offlinePullInFlight w) (m_sessionReady w)
    (m_sessionValidationInFlight w) (m_contactWidget w) (m_chatWidget w) (m_profile w) (m_starFriendIds w)
    (m_out w).
Definition set_readReceiptMap (f : (gmap string string) → (gmap string string)) (w : Window) : Window :=
  Build_Window QByteArray (m_protocol w) (m_socket w) (m_disk w) (m_token w) (m_serverUrl w) (m_currentUserId w)
    (m_currentChatId w) (m_currentChatType w) (m_conversationMap w) (m_messageMap w) (f (m_readReceiptMap w))
    (m_blacklistMap w) (m_offlineCursor w) (m_offlinePullInFlight w) (m_sessionReady w)
    (m_sessionValidationInFlight w) (m_contactWidget w) (m_chatWidget w) (m_profile w) (m_starFriendIds w)
    (m_out w).
Definition set_blacklistMap (f : (gmap string string) → (gmap string string)) (w : Window) : Window :=
  Build_Window QByteArray (m_protocol w) (m_socket w) (m_disk w) (m_token w) (m_serverUrl w) (m_currentUserId w)
    (m_currentChatId w) (m_currentChatType w) (m_conversationMap w) (m_messageMap w) (m_readReceiptMap w) (f
    (m_blacklistMap w)) (m_offlineCursor w) (m_offlinePullInFlight w) (m_sessionReady w)
    (m_sessionValidationInFlight w) (m_contactWidget w) (m_chatWidget w) (m_profile w) (m_starFriendIds w)
    (m_out w).
Definition set_offlineCursor (f : string → string) (w : Window) : Window :=
  Build_Window QByteArray (m_protocol w) (m_socket w) (m_disk w) (m_token w) (m_serverUrl w) (m_currentUserId w)
    (m_currentChatId w) (m_currentChatType w) (m_conversationMap w) (m_messageMap w) (m_readReceiptMap w)
    (m_blacklistMap w) (f (m_offlineCursor w)) (m_offlinePullInFlight w) (m_sessionReady w)
    (m_sessionValidationInFlight w) (m_contactWidget w) (m_chatWidget w) (m_profile w) (m_starFriendIds w)
    (m_out w).
Definition set_offlinePullInFlight (f : bool → bool) (w : Window) : Window :=
  Build_Window QByteArray (m_protocol w) (m_socket w) (m_disk w) (m_token w) (m_serverUrl w) (m_currentUserId w)
    (m_currentChatId w) (m_currentChatType w) (m_conversationMap w) (m_messageMap w) (m_readReceiptMap w)
    (m_blacklistMap w) (m_offlineCursor w) (f (m_offlinePullInFlight w)) (m_sessionReady w)
    (m_sessionValidationInFlight w) (m_contactWidget w) (m_chatWidget w) (m_profile w) (m_starFriendIds w)
    (m_out w).
Definition set_sessionReady (f : bool → bool) (w : Window) : Window :=
  Build_Window QByteArray (m_protocol w) (m_socket w) (m_disk w) (m_token w) (m_serverUrl w) (m_currentUserId w)
    (m_currentChatId w) (m_currentChatType w) (m_conversationMap w) (m_messageMap w) (m_readReceiptMap w)
    (m_blacklistMap w) (m_offlineCursor w) (m_offlinePullInFlight w) (f (m_sessionReady w))
    (m_sessionValidationInFlight w) (m_contactWidget w) (m_chatWidget w) (m_profile w) (m_starFriendIds w)
    (m_out w).
Definition set_sessionValidationInFlight (f : bool → bool) (w : Window) : Window :=
  Build_Window QByteArray (m_protocol w) (m_socket w) (m_disk w) (m_token w) (m_serverUrl w) (m_currentUserId w)
    (m_currentChatId w) (m_currentChatType w) (m_conversationMap w) (m_messageMap w) (m_readReceiptMap w)
    (m_blacklistMap w) (m_offlineCursor w) (m_offlinePullInFlight w) (m_sessionReady w) (f
    (m_sessionValidationInFlight w)) (m_contactWidget w) (m_chatWidget w) (m_profile w) (m_starFriendIds w)
    (m_out w).
Definition set_contactWidget (f : ContactWidget → ContactWidget) (w : Window) : Window :=
  Build_Window QByteArray (m_protocol w) (m_socket w) (m_disk w) (m_token w) (m_serverUrl w) (m_currentUserId w)
    (m_currentChatId w) (m_currentChatType w) (m_conversationMap w) (m_messageMap w) (m_readReceiptMap w)
    (m_blacklistMap w) (m_offlineCursor w) (m_offlinePullInFlight w) (m_sessionReady w)
    (m_sessionValidationInFlight w) (f (m_contactWidget w)) (m_chatWidget w) (m_profile w) (m_starFriendIds w)
    (m_out w).
Definition set_chatWidget (f : ChatWidget → ChatWidget) (w : Window) : Window :=
  Build_Window QByteArray (m_protocol w) (m_socket w) (m_disk w) (m_token w) (m_serverUrl w) (m_currentUserId w)
    (m_currentChatId w) (m_currentChatType w) (m_conversationMap w) (m_messageMap w) (m_readReceiptMap w)
    (m_blacklistMap w) (m_offlineCursor w) (m_offlinePullInFlight w) (m_sessionReady w)
    (m_sessionValidationInFlight w) (m_contactWidget w) (f (m_chatWidget w)) (m_profile w) (m_starFriendIds w)
    (m_out w).
Definition set_profile (f : FriendItem → FriendItem) (w : Window) : Window :=
  Build_Window QByteArray (m_protocol w) (m_socket w) (m_disk w) (m_token w) (m_serverUrl w) (m_currentUserId w)
    (m_currentChatId w) (m_currentChatType w) (m_conversationMap w) (m_messageMap w) (m_readReceiptMap w)
    (m_blacklistMap w) (m_offlineCursor w) (m_offlinePullInFlight w) (m_sessionReady w)
    (m_sessionValidationInFlight w) (m_contactWidget w) (m_chatWidget w) (f (m_profile w)) (m_starFriendIds w)
    (m_out w).
Definition set_starFriendIds (f : (gset string) → (gset string)) (w : Window) : Window :=
  Build_Window QByteArray (m_protocol w) (m_socket w) (m_disk w) (m_token w) (m_serverUrl w) (m_currentUserId w)
    (m_currentChatId w) (m_currentChatType w) (m_conversationMap w) (m_messageMap w) (m_readReceiptMap w)
    (m_blacklistMap w) (m_offlineCursor w) (m_offlinePullInFlight w) (m_sessionReady w)
    (m_sessionValidationInFlight w) (m_contactWidget w) (m_chatWidget w) (m_profile w) (f (m_starFriendIds w))
    (m_out w).
Definition set_out (f : (list Output) → (list Output)) (w : Window) : Window :=
  Build_Window QByteArray (m_protocol w) (m_socket w) (m_disk w) (m_token w) (m_serverUrl w) (m_currentUserId w)
    (m_currentChatId w) (m_currentChatType w) (m_conversationMap w) (m_messageMap w) (m_readReceiptMap w)
    (m_blacklistMap w) (m_offlineCursor w) (m_offlinePullInFlight w) (m_sessionReady w)
    (m_sessionValidationInFlight w) (m_contactWidget w) (m_chatWidget w) (m_profile w) (m_starFriendIds w) (f
    (m_out w)).
End Setters.



(** * Messages *)

Definition with_flags (is_sending failed : bool) (m : Message) : Message :=
  {| msgId := msgId m; fromUserId := fromUserId m; toId := toId m; chatType := chatType m; content := content m;
     mediaUrl := mediaUrl m; mediaType := mediaType m; mentions := mentions m; replyToMsgId := replyToMsgId m;
     timestamp := timestamp m; status := status m; isSelf := isSelf m; sending := is_sending; sendFailed := failed |}.
Definition with_id_time (id : string) (t : Z) (m : Message) : Message :=
  {| msgId := id; fromUserId := fromUserId m; toId := toId m; chatType := chatType m; content := content m;
     mediaUrl := mediaUrl m; mediaType := mediaType m; mentions := mentions m; replyToMsgId := replyToMsgId m;
     timestamp := t; status := status m; isSelf := isSelf m; sending := sending m; sendFailed := sendFailed m |}.
Definition with_self (me : string) (m : Message) : Message :=
  {| msgId := msgId m; fromUserId := fromUserId m; toId := toId m; chatType := chatType m; content := content m;
     mediaUrl := mediaUrl m; mediaType := mediaType m; mentions := mentions m; replyToMsgId := replyToMsgId m;
     timestamp := timestamp m; status := status m; isSelf := bool_decide (fromUserId m = me); sending := sending m;
     sendFailed := sendFailed m |}.
Definition find_message (id : string) (l : list Message) : option Message := find (λ m, bool_decide (msgId m = id)) l.
Definition convKey (chatId : string) (chatType : Z) : string := pretty chatType +:+ "#" +:+ chatId.
(** The message of a push, of an offline page and of the history. *)
Definition to_message (me : string) (p : ChatMessagePushPayload) : Message :=
  {| msgId := zcmp_msg_id p; fromUserId := zcmp_from_user_id p; toId := zcmp_to_id p; chatType := zcmp_chat_type p;
     content := zcmp_content p; mediaUrl := zcmp_media_url p; mediaType := zcmp_media_type p; mentions := [];
     replyToMsgId := ""; timestamp := zcmp_timestamp p; status := 0;
     isSelf := bool_decide (zcmp_from_user_id p = me); sending := false; sendFailed := false |}.
Definition of_legacy (me : string) (p : NewMessageNotify) : Message :=
  {| msgId := znm_msg_id p; fromUserId := znm_from_user_id p; toId := znm_chat_id p; chatType := znm_chat_type p;
     content := znm_content p; mediaUrl := znm_media_url p; mediaType := znm_media_type p; mentions := [];
     replyToMsgId := ""; timestamp := znm_timestamp p; status := 0;
     isSelf := bool_decide (znm_from_user_id p = me); sending := false; sendFailed := false |}.
(** The conversation a message belongs to. *)
Definition peer_of (m : Message) : string :=
  if decide (chatType m = 1) then if isSelf m then toId m else fromUserId m else toId m.
Definition Conversation_new : Conversation :=
  {| chatId := ""; c_chatType := 1; peerId := ""; peerName := ""; peerAvatar := ""; lastMessage := Message_new;
     unreadCount := 0; updatedAt := 0; isPinned := false; isMuted := false |}.
Definition with_last (m : Message) (c : Conversation) : Conversation :=
  {| chatId := chatId c; c_chatType := c_chatType c; peerId := peerId c; peerName := peerName c;
     peerAvatar := peerAvatar c; lastMessage := m; unreadCount := unreadCount c; updatedAt := timestamp m;
     isPinned := isPinned c; isMuted := isMuted c |}.
(** A conversation with its identity filled in. *)
Definition conversation_for (peer : string) (type : Z) (c : Conversation) : Conversation :=
  {| chatId := peer; c_chatType := type; peerId := peerId c; peerName := if decide (peerName c = "") then peer else peerName c;
     peerAvatar := peerAvatar c; lastMessage := lastMessage c; unreadCount := unreadCount c; updatedAt := updatedAt c;
     isPinned := isPinned c; isMuted := isMuted c |}.

Section MainWindow.
Context {QByteArray : Type} `{!QtJson QByteArray} `{!StdSort} `{!ProtoBuf} `{!Qt}.
Notation Window := (Window QByteArray).
Notation WM := (M Window).
Variable acc : Access (QByteArray:=QByteArray).
Variable now : Z.

Definition output (o : Output) : WM unit := modify (set_out (λ l, l ++ [o])).
Definition on_contact (f : ContactWidget → ContactWidget) : WM unit := modify (set_contactWidget f).
Definition on_chat (f : ChatWidget → ChatWidget) : WM unit := modify (set_chatWidget f).
Definition messages_at (key : string) (w : Window) : list Message := default [] (m_messageMap w !! key).
(** [m_messageMap[key]] changed; the entry is made when there is none. *)
Definition set_messages (key : string) (f : list Message → list Message) : WM unit :=
  modify (λ w, set_messageMap (insert key (f (messages_at key w))) w).

(** * The local cache *)

Definition loadLocalConversationsAndMessages : WM unit :=
  uid ← reads m_currentUserId;
  if decide (trimmed uid = "") then mret tt else
  disk ← reads m_disk;
  let convs := loadConversations storageDir isLetterOrNumber acc uid disk in
  match convs with
  | [] => mret tt
  | _ =>
      _ ← modify (set_conversationMap (λ _, foldl (λ m c, <[convKey (chatId c) (c_chatType c) := c]> m) ∅ convs));
      on_contact (setConversations convs)
  end.
Definition saveConversationsToLocal : WM unit := modify (λ w,
  if decide (trimmed (m_currentUserId w) = "") then w else
  set_disk (mergeAndSaveConversations storageDir isLetterOrNumber acc (m_currentUserId w)
              (in_order (m_conversationMap w))) w).
Definition saveMessagesToLocal (chatId : string) (chatType : Z) : WM unit := modify (λ w,
  if decide (trimmed (m_currentUserId w) = "" ∨ chatId = "") then w else
  match m_messageMap w !! convKey chatId chatType with
  | None => w
  | Some messages => set_disk (mergeAndSaveMessages storageDir isLetterOrNumber acc acc (m_currentUserId w) chatId
                                 chatType messages 500) w
  end).

(** * Requests *)

(** [dataToSend] is connected to [sendMessage]. *)
Definition send_data (data : string) : WM unit :=
  modify (λ w, set_out (λ l, l ++ (ToSocket <$> sendMessage (m_socket w) data)) w).
(** What [sendRequest] emits before it returns; [failed] is what the closure does with the code -1. *)
Definition emitted (failed : WM unit) (e : Event (Closure Reply)) : WM unit :=
  match e with
  | dataToSend data => send_data data
  | Callback _ _ _ | CallbackWithMessage _ _ _ _ => failed
  | _ => mret tt
  end.
Definition on_protocol (op : ProtocolHandler (Closure Reply) → list (Event (Closure Reply)) *
    ProtocolHandler (Closure Reply)) (failed : WM unit) : WM unit :=
  h ← reads m_protocol;
  let '(evs, h) := op h in
  _ ← modify (set_protocol (λ _, h));
  for_each evs (emitted failed).
Definition request_or (failed : WM unit) (cmd payload : string) (r : Reply) (with_message : bool) : WM unit :=
  on_protocol ((if with_message then sendRequestWithMessage else sendRequest) now cmd payload (Some (OtherReply r))) failed.

(** [triggerSessionValidation] *)
Definition validate_failed : WM unit :=
  _ ← modify (set_sessionValidationInFlight (λ _, false)); modify (set_sessionReady (λ _, false)).
Definition triggerSessionValidation : WM unit :=
  busy ← reads m_sessionValidationInFlight;
  if (busy : bool) then mret tt else
  socket ← reads m_socket;
  if negb (isConnected socket) then mret tt else
  token ← reads m_token;
  let token := trimmed token in
  if decide (token = "") then modify (set_sessionReady (λ _, false)) else
  match SerializeToString {| zavt_token := token |} with
  | None => modify (set_sessionReady (λ _, false))
  | Some payload =>
      _ ← modify (set_sessionValidationInFlight (λ _, true));
      request_or validate_failed "auth.validate_token" payload RValidate true
  end.

Definition warn_code (title prefix : string) (code : Z) (message : string) : WM unit :=
  output (Warning title (if decide (trimmed message = "") then prefix +:+ pretty code else message)).
(** [setMessages] when the chat widget shows the conversation of [m]. *)
Definition show_for (m : Message) (key : string) : WM unit :=
  chat ← reads m_chatWidget;
  messages ← reads (messages_at key);
  when_ (bool_decide (ch_chatId chat = toId m ∧ ch_chatType chat = chatType m)) (on_chat (setMessages messages)).
(** The message [id] under [key] could not be sent. *)
Definition send_failed (key id : string) (m : Message) : WM unit :=
  _ ← set_messages key (update_first id (with_flags false true)); show_for m key.
(** The first message with the id under [key]; the entry is made when there is none. *)
Definition locate (key id : string) : WM (option Message) :=
  _ ← set_messages key (λ l, l); messages ← reads (messages_at key); mret (find_message id messages).

Definition ensureGatewayConnected (actionText : string) : WM bool :=
  socket ← reads m_socket;
  url ← reads m_serverUrl;
  if isConnected socket then mret true else
  _ ← (if decide (trimmed url = "") then mret tt else
       modify (set_out (λ l, l ++ (ToSocket <$> connect trimmed toLower fromUserInput socket (trimmed url)))));
  _ ← output (Warning "网络未连接" ("当前与网关连接已断开，正在自动重连，请稍后再" +:+ actionText +:+ "。"));
  mret false.
(** The server no longer knows the session. *)
Definition revalidate_if (b : bool) : WM unit :=
  when_ b (_ ← modify (set_sessionReady (λ _, false)); triggerSessionValidation).
Definition session_invalid (code : Z) (message : string) : bool :=
  bool_decide (code = 307) || containsCI message "token invalid".

(** What the closures do with a code other than 0. *)
Definition reply_failed (r : Reply) (code : Z) (message : string) : WM unit :=
  match r with
  | RSync | RFriends | RFriendRequests | RUserGroups | RGroupInfo | RGroupMembers | RHistory _ _ => mret tt
  | RHandleFriend => warn_code "操作失败" "处理好友请求失败，错误码: " code message
  | RInvite _ => warn_code "邀请成员失败" "邀请失败，错误码: " code message
  | RRemoveMember _ => warn_code "踢人失败" "踢人失败，错误码: " code message
  | RLeave _ => warn_code "退群失败" "退群失败，错误码: " code message
  | RDismiss _ => warn_code "删除群聊失败" "删除群聊失败，错误码: " code message
  | RDeleteConversation _ _ => warn_code "删除会话失败" "删除会话失败，错误码: " code message
  | RBlock _ => warn_code "操作失败" "拉黑用户失败，错误码：" code message
  | RUnblock _ => warn_code "操作失败" "移除黑名单失败，错误码：" code message
  | ROffline => modify (set_offlinePullInFlight (λ _, false))
  | RSend key id _ _ =>
      found ← locate key id;
      match found with
      | None => mret tt
      | Some m =>
          _ ← revalidate_if (session_invalid code message);
          _ ← send_failed key id m;
          warn_code "消息发送失败" "发送失败，错误码: " code message
      end
  | RRetry key id =>
      found ← locate key id;
      match found with
      | None => mret tt
      | Some m => _ ← send_failed key id m; warn_code "消息重发失败" "重发失败，错误码: " code message
      end
  | RRecall _ _ => warn_code "撤回失败" "撤回失败，错误码: " code message
  | RValidate => validate_failed
  | RCreateGroup => warn_code "创建群失败" "创建群失败，错误码: " code message
  | RAddFriend _ => warn_code "添加好友失败" "发送好友申请失败，错误码: " code message
  | RRemoveFriend => output (Warning "删除失败" ("删除好友失败，错误码: " +:+ pretty code))
  | RUploadToken file chat_id type retried =>
      if decide (code = -1 ∨ code = -2) then
        if negb retried then
          _ ← ensureGatewayConnected "发送文件"; output (RetryUpload 600 file chat_id type)
        else output (Warning "文件发送失败" (if decide (code = -1) then "与网关连接已断开，请等待自动重连后重试。"
                                             else "获取上传令牌请求超时，请稍后重试。"))
      else warn_code "文件发送失败" "获取上传令牌失败，错误码: " code message
  | RSendFile _ _ _ _ =>
      if decide (code = -1) then output (Warning "文件发送失败" "文件已上传，但发送消息时连接断开，请重连后重试发送。") else
      if decide (code = -2) then output (Warning "文件发送失败" "发送文件消息超时，请稍后重试。") else
      _ ← revalidate_if (session_invalid code message);
      warn_code "文件发送失败" "发送文件消息失败，错误码: " code message
  | RFileUrl _ => warn_code "下载失败" "获取下载地址失败，错误码: " code message
  end.
Definition request (cmd payload : string) (r : Reply) (with_message : bool) : WM unit :=
  request_or (reply_failed r (-1) "") cmd payload r with_message.
(** A payload is serialised, and sent if that succeeds. *)
Definition request_msg {A} `{!Msg A} (cmd : string) (a : A) (r : Reply) (with_message : bool) : WM unit :=
  match SerializeToString a with None => mret tt | Some payload => request cmd payload r with_message end.

Definition syncConversations : WM unit := request_msg "chat.sync_conversations" {| zcsc_last_sync_time := 0 |} RSync false.
Definition loadFriends (groupId : string) : WM unit := request_msg "friend.get_friends" {| zfgf_group_id := groupId |} RFriends false.
Definition loadFriendRequests : WM unit := request_msg "friend.get_requests" {| zfgr_type := 0 |} RFriendRequests false.
Definition handleFriendRequest (requestId : string) (accept : bool) : WM unit :=
  uid ← reads m_currentUserId;
  if decide (requestId = "") then mret tt else
  request_msg "friend.handle_request" {| zfhr_user_id := uid; zfhr_request_id := requestId; zfhr_accept := accept |}
    RHandleFriend true.
Definition loadUserGroups : WM unit := request_msg "group.get_user_groups" zggug RUserGroups false.
Definition loadGroupInfo (groupId : string) : WM unit :=
  if decide (groupId = "") then mret tt else
  request_msg "group.get_info" {| zggi_group_id := groupId |} RGroupInfo false.
Definition loadGroupMembers (groupId : string) : WM unit :=
  if decide (groupId = "") then mret tt else
  request_msg "group.get_members" {| zggm_group_id := groupId; zggm_page := 1; zggm_page_size := 100 |} RGroupMembers false.
Definition loadHistory (chatId : string) (chatType : Z) : WM unit :=
  on_protocol (λ h, let '(_, evs, h) := sendChatGetHistory trimmed true now chatId chatType "" 50
                                          (Some (RHistory chatId chatType)) h in (evs, h)) (mret tt).
Definition pullOfflineMessages (limit : Z) : WM unit :=
  busy ← reads m_offlinePullInFlight;
  if (busy : bool) then mret tt else
  cursor ← reads m_offlineCursor;
  match SerializeToString {| zcpo_limit := if decide (limit > 0) then limit else 100; zcpo_cursor := cursor |} with
  | None => mret tt
  | Some payload =>
      _ ← modify (set_offlinePullInFlight (λ _, true));
      request "chat.pull_offline" payload ROffline false
  end.
Definition sendMarkRead : WM unit :=
  id ← reads m_currentChatId;
  type ← reads m_currentChatType;
  messages ← reads (messages_at (convKey id type));
  if decide (id = "") then mret tt else
  match last messages with
  | None => mret tt
  | Some m =>
      match SerializeToString {| zcmr_chat_id := id; zcmr_chat_type := type; zcmr_last_msg_id := msgId m |} with
      | None => mret tt
      | Some payload => on_protocol (sendRequest now "chat.mark_read" payload None) (mret tt)
      end
  end.

(** * What the user does *)

Definition inviteGroupMembers (groupId : string) (pickedIds : list string) : WM unit :=
  uid ← reads m_currentUserId;
  if decide (groupId = "" ∨ pickedIds = []) then mret tt else
  request_msg "group.invite_members" {| zgim_group_id := groupId; zgim_inviter_id := uid; zgim_member_ids := pickedIds |}
    (RInvite groupId) true.
Definition removeGroupMember (groupId memberId : string) : WM unit :=
  uid ← reads m_currentUserId;
  if decide (groupId = "" ∨ memberId = "") then mret tt else
  request_msg "group.remove_member" {| zgrm_group_id := groupId; zgrm_operator_id := uid; zgrm_member_id := memberId |}
    (RRemoveMember groupId) true.
(** [yes]: the question was answered so. *)
Definition leaveGroup (groupId : string) (yes : bool) : WM unit :=
  uid ← reads m_currentUserId;
  if decide (groupId = "" ∨ yes = false) then mret tt else
  request_msg "group.leave" {| zgl_group_id := groupId; zgl_user_id := uid |} (RLeave groupId) true.
Definition dismissGroup (groupId : string) (yes : bool) : WM unit :=
  uid ← reads m_currentUserId;
  if decide (groupId = "" ∨ yes = false) then mret tt else
  request_msg "group.dismiss" {| zgd_group_id := groupId; zgd_operator_id := uid |} (RDismiss groupId) true.
Definition deleteConversation (chatId : string) (chatType : Z) (yes : bool) : WM unit :=
  if decide (chatId = "" ∨ yes = false) then mret tt else
  request_msg "chat.delete_conversation" {| zcdc_chat_id := chatId; zcdc_chat_type := chatType |}
    (RDeleteConversation chatId chatType) true.
Definition blockUser (userId : string) : WM unit :=
  uid ← reads m_currentUserId;
  if decide (userId = "") then mret tt else
  request_msg "friend.block" {| zfb_user_id := uid; zfb_target_id := userId |} (RBlock userId) true.
Definition unblockUser (userId : string) : WM unit :=
  uid ← reads m_currentUserId;
  if decide (userId = "") then mret tt else
  request_msg "friend.unblock" {| zfb_user_id := uid; zfb_target_id := userId |} (RUnblock userId) true.
Definition loadBlacklist : WM unit := modify (set_blacklistMap (λ _, ∅)).

Definition ensureSessionReady (actionText : string) : WM bool :=
  ready ← reads m_sessionReady;
  if (ready : bool) then mret true else
  _ ← triggerSessionValidation;
  _ ← output (Information "会话恢复中" ("连接已恢复，正在校验登录状态，请稍后再" +:+ actionText +:+ "。"));
  mret false.

(** [now'] is the time of the second look at the clock. *)
Definition local_message (me chatId : string) (type : Z) (text : string) (now' : Z) : Message :=
  {| msgId := "local_" +:+ pretty now; fromUserId := me; toId := chatId; chatType := type; content := text;
     mediaUrl := ""; mediaType := "text"; mentions := []; replyToMsgId := ""; timestamp := now'; status := 0;
     isSelf := true; sending := true; sendFailed := false |}.
Definition text_request (me : string) (m : Message) : ChatSendMessagePayload :=
  {| zcsm_from_user_id := me; zcsm_to_id := toId m; zcsm_chat_type := chatType m; zcsm_content := content m;
     zcsm_media_url := ""; zcsm_media_type := "text"; zcsm_mentions := []; zcsm_reply_to_msg_id := "";
     zcsm_client_msg_id := msgId m; zcsm_file_size := 0 |}.
Definition sendChatMessage (now' : Z) (text : string) : WM unit :=
  me ← reads m_currentUserId;
  id ← reads m_currentChatId;
  type ← reads m_currentChatType;
  if decide (id = "" ∨ text = "") then mret tt else
  connected ← ensureGatewayConnected "发送消息";
  if negb connected then mret tt else
  ready ← ensureSessionReady "发送消息";
  if negb ready then mret tt else
  let local := local_message me id type text now' in
  _ ← set_messages (convKey id type) (λ l, l ++ [local]);
  chat ← reads m_chatWidget;
  _ ← when_ (bool_decide (ch_chatId chat = id ∧ ch_chatType chat = type)) (on_chat (appendMessage local));
  request_msg "chat.send_message" (text_request me local) (RSend (convKey id type) (msgId local) id type) true.
Definition retryFailedMessage (id : string) : WM unit :=
  me ← reads m_currentUserId;
  chat_id ← reads m_currentChatId;
  type ← reads m_currentChatType;
  if decide (chat_id = "" ∨ id = "") then mret tt else
  let key := convKey chat_id type in
  found ← locate key id;
  match found with
  | None => mret tt
  | Some m =>
      if negb (sendFailed m) then mret tt else
      if decide (toLower (mediaType m) ≠ "text")
      then output (Information "暂不支持重发" "当前仅支持重发文本消息。") else
      _ ← set_messages key (update_first id (with_flags true false));
      _ ← show_for m key;
      match SerializeToString (text_request me m) with
      | None => send_failed key id m
      | Some payload => request "chat.send_message" payload (RRetry key id) true
      end
  end.
Definition recallMessage (id : string) : WM unit :=
  me ← reads m_currentUserId;
  chat_id ← reads m_currentChatId;
  type ← reads m_currentChatType;
  if decide (id = "") then mret tt else
  let key := convKey chat_id type in
  found ← locate key id;
  match found with
  | None => mret tt
  | Some m =>
      if negb (isSelf m) || bool_decide (status m = 1) || sending m || sendFailed m then mret tt else
      request_msg "chat.recall_message" {| zcrm_msg_id := id; zcrm_user_id := me |} (RRecall key id) true
  end.

(** *** The profile of a friend *)

Definition onFriendSelected (userId : string) : WM unit :=
  modify (λ w,
    let f := friendById userId (m_contactWidget w) in
    set_profile (λ _, {| fi_friendId := if decide (fi_friendId f = "") then userId else fi_friendId f;
      fi_nickname := fi_nickname f; fi_remark := fi_remark f; fi_groupId := fi_groupId f;
      fi_avatarUrl := fi_avatarUrl f; fi_addedAt := fi_addedAt f |}) w).
Definition with_friend_id (id : string) (f : FriendItem) : FriendItem :=
  {| fi_friendId := id; fi_nickname := fi_nickname f; fi_remark := fi_remark f; fi_groupId := fi_groupId f;
     fi_avatarUrl := fi_avatarUrl f; fi_addedAt := fi_addedAt f |}.
Definition with_remark (remark : string) (f : FriendItem) : FriendItem :=
  {| fi_friendId := fi_friendId f; fi_nickname := fi_nickname f; fi_remark := remark; fi_groupId := fi_groupId f;
     fi_avatarUrl := fi_avatarUrl f; fi_addedAt := fi_addedAt f |}.
Definition toggleStar : WM unit :=
  modify (λ w,
    let id := fi_friendId (m_profile w) in
    if decide (id = "") then w else
    set_starFriendIds (λ ids, if decide (id ∈ ids) then ids ∖ {[id]} else {[id]} ∪ ids) w).
Definition editRemark (text : string) : WM unit :=
  profile ← reads m_profile;
  if decide (fi_friendId profile = "") then mret tt else
  let remark := trimmed text in
  _ ← modify (set_profile (with_remark remark)); on_contact (updateFriendRemark (fi_friendId profile) remark).
Definition removeCurrentFriend (yes : bool) : WM unit :=
  me ← reads m_currentUserId;
  id ← reads (λ w, fi_friendId (m_profile w));
  if decide (id = "" ∨ yes = false) then mret tt else
  request_msg "friend.remove" {| zfr_user_id := me; zfr_friend_id := id |} RRemoveFriend false.
(** The choice "delete the friend" of the conversation's menu. *)
Definition removeShownFriend (yes : bool) : WM unit :=
  id ← reads m_currentChatId;
  type ← reads m_currentChatType;
  if decide (id = "" ∨ type ≠ 1) then mret tt else
  _ ← modify (set_profile (with_friend_id id)); removeCurrentFriend yes.
Definition addFriend (userId : string) : WM unit :=
  me ← reads m_currentUserId;
  request_msg "friend.add" {| zfa_user_id := me; zfa_friend_id := userId; zfa_remark := "来自 " +:+ me +:+ " 的好友申请" |}
    (RAddFriend userId) true.
(** The users a search found that are offered: their id and the name shown. *)
Definition search_row (contacts : ContactWidget) (u : FriendSearchUserPayload) : option (string * string) :=
  let uid := trimmed (zfsu_user_id u) in
  let username := trimmed (zfsu_username u) in
  let nickname := trimmed (zfsu_nickname u) in
  if decide (uid = "") then None else
  if decide (fi_friendId (friendById uid contacts) ≠ "") then None else
  Some (uid, if decide (nickname = "") then if decide (username = "") then uid else username else nickname).
Definition search_rows (contacts : ContactWidget) (resp : FriendSearchResponsePayload) : list (string * string) :=
  omap (search_row contacts) (zfsr_users resp).
(** [choice]: the name that was entered and the friends that were checked. *)
Definition createGroup (choice : option (string * list string)) : WM unit :=
  me ← reads m_currentUserId;
  friends ← reads (λ w, cw_friends (m_contactWidget w));
  if decide (friends = []) then output (Information "创建群聊" "当前没有可选好友，请先添加好友。") else
  match choice with
  | None => mret tt
  | Some (name, checked) =>
      let name := trimmed name in
      let memberIds := filter (λ id, id ≠ "" ∧ id ≠ me) (trimmed <$> checked) in
      if decide (name = "") then output (Information "创建群聊" "群名称不能为空。") else
      if decide (memberIds = []) then output (Information "创建群聊" "请至少选择一位好友。") else
      request_msg "group.create" {| zgc_creator_id := me; zgc_group_name := name; zgc_member_ids := memberIds |} RCreateGroup true
  end.

(** *** Files *)

Definition requestUploadToken (file : PickedFile) (chatId : string) (chatType : Z) (retried : bool) : WM unit :=
  me ← reads m_currentUserId;
  request_msg "file.get_upload_token" {| zfgut_user_id := me; zfgut_file_name := pf_name file; zfgut_file_size := pf_size file |}
    (RUploadToken file chatId chatType retried) true.
Definition sendFileMessage (file : PickedFile) : WM unit :=
  id ← reads m_currentChatId;
  type ← reads m_currentChatType;
  if decide (id = "" ∨ pf_path file = "") then mret tt else
  connected ← ensureGatewayConnected "发送文件";
  if negb connected then mret tt else
  ready ← ensureSessionReady "发送文件";
  if negb ready then mret tt else
  if negb (pf_is_file file) then output (Warning "文件发送失败" "选择的文件不存在或不可用。") else
  requestUploadToken file id type false.
(** What [uploadFileByHttp] met: the file could not be opened, or the server's reply; its body is given as text and as JSON. *)
Record HttpReply : Type := {
  http_no_error : bool; http_status : Z; http_text : string; http_json : option QJsonValue;
  http_error_string : string; http_location : option string }.
Definition uploadFileByHttp (uploadUrl uploadToken : string) (met : option HttpReply) : string + string :=
  if decide (trimmed uploadUrl = "" ∨ trimmed uploadToken = "") then inl "上传参数无效。" else
  match met with
  | None => inl "读取本地文件失败。"
  | Some r =>
      if negb (http_no_error r && bool_decide (200 ≤ http_status r < 300))
      then inl (if decide (trimmed (http_text r) = "") then http_error_string r else trimmed (http_text r))
      else
        let obj := match http_json r with Some (JObject o) => o | _ => ∅ end in
        let url := toString obj "file_url" in
        let url := if decide (url = "") then toString obj "url" else url in
        let url := if decide (url = "") then toString obj "media_url" else url in
        let url := if decide (url = "") then default "" (http_location r) else url in
        inr (if decide (url = "") then uploadToken else url)
  end.
(** What [sendFileMessage] does when the upload is over. *)
Definition uploaded (now' : Z) (file : PickedFile) (chatId : string) (chatType : Z) (result : string + string) : WM unit :=
  me ← reads m_currentUserId;
  match result with
  | inl error => output (Warning "文件发送失败" (if decide (error = "") then "文件上传失败。" else error))
  | inr mediaUrl =>
      request_msg "chat.send_message"
        {| zcsm_from_user_id := me; zcsm_to_id := chatId; zcsm_chat_type := chatType; zcsm_content := pf_name file;
           zcsm_media_url := mediaUrl; zcsm_media_type := "file"; zcsm_mentions := []; zcsm_reply_to_msg_id := "";
           zcsm_client_msg_id := "c_file_" +:+ pretty now'; zcsm_file_size := pf_size file |}
        (RSendFile mediaUrl file chatId chatType) true
  end.
Definition download_name (m : Message) : string :=
  if decide (trimmed (content m) = "") then "download.bin" else trimmed (content m).
Definition openFileMessage (id : string) : WM unit :=
  me ← reads m_currentUserId;
  messages ← reads (λ w, messages_at (convKey (m_currentChatId w) (m_currentChatType w)) w);
  if decide (id = "") then mret tt else
  match find_message id messages with
  | None => mret tt
  | Some hit =>
      let media := trimmed (mediaUrl hit) in
      if decide (toLower (mediaType hit) ≠ "file") then mret tt else
      if String.prefix "http://" media || String.prefix "https://" media then output (Download media (download_name hit)) else
      if decide (media = "") then output (Warning "下载失败" "文件标识为空。") else
      match SerializeToString {| zfgfu_file_id := media; zfgfu_user_id := me |} with
      | None => output (Warning "下载失败" "构造下载请求失败。")
      | Some payload => request "file.get_file_url" payload (RFileUrl (download_name hit)) true
      end
  end.

(** [split(':')] into two parts. *)
Definition receipt_parts (s : string) : option (string * string) :=
  match str_find ":" s with
  | None => None
  | Some i => let rest := str_drop (i + 1) s in
              match str_find ":" rest with Some _ => None | None => Some (str_take i s, rest) end
  end.
Definition onConversationSelected (id : string) (type : Z) : WM unit :=
  me ← reads m_currentUserId;
  receipts ← reads m_readReceiptMap;
  _ ← modify (set_currentChatId (λ _, id));
  _ ← modify (set_currentChatType (λ _, type));
  _ ← on_contact (setCurrentChat id);
  _ ← on_chat (setConversation id type);
  _ ← match receipts !! id with
      | Some receipt => match receipt_parts receipt with
                        | Some (user, msg) => on_chat (setReadReceipt user msg)
                        | None => mret tt
                        end
      | None => on_chat clearReadReceipt
      end;
  messages ← reads (messages_at (convKey id type));
  cursor ← reads m_offlineCursor;
  let pull := when_ (bool_decide (cursor ≠ "")) (pullOfflineMessages 100) in
  if decide (messages ≠ []) then
    _ ← on_chat (setMessages messages); _ ← sendMarkRead; pull
  else
    disk ← reads m_disk;
    let local := with_self me <$> loadMessages storageDir isLetterOrNumber acc me id type 500 disk in
    _ ← when_ (bool_decide (local ≠ []))
          (_ ← set_messages (convKey id type) (λ _, local); _ ← on_chat (setMessages local); sendMarkRead);
    _ ← loadHistory id type;
    pull.
(** The button of the profile that opens its conversation. *)
Definition writeToFriend (now' : Z) : WM unit :=
  profile ← reads m_profile;
  convs ← reads m_conversationMap;
  let id := fi_friendId profile in
  if decide (id = "") then mret tt else
  _ ← match convs !! convKey id 1 with
      | Some _ => mret tt
      | None =>
          let conv := {| chatId := id; c_chatType := 1; peerId := id;
                         peerName := if decide (fi_nickname profile = "") then id else fi_nickname profile;
                         peerAvatar := ""; lastMessage := Message_new; unreadCount := 0; updatedAt := now';
                         isPinned := false; isMuted := false |} in
          _ ← modify (set_conversationMap (insert (convKey id 1) conv)); on_contact (upsertConversation conv)
      end;
  onConversationSelected id 1.
Definition onGroupSelected (groupId : string) : WM unit :=
  if decide (groupId = "") then mret tt else _ ← loadGroupInfo groupId; loadGroupMembers groupId.

(** * Answers *)

(** What follows when a list is replaced: the cache, and the widget if it shows the conversation. *)
Definition conversation_of (c : ChatConversationPayload) : Conversation :=
  {| chatId := zcc_chat_id c; c_chatType := zcc_chat_type c; peerId := zcc_peer_id c; peerName := zcc_peer_name c;
     peerAvatar := zcc_peer_avatar c;
     lastMessage := {| msgId := zcc_last_msg_id c; fromUserId := ""; toId := ""; chatType := 1;
                       content := zcc_last_content c; mediaUrl := ""; mediaType := ""; mentions := [];
                       replyToMsgId := ""; timestamp := zcc_last_timestamp c; status := 0; isSelf := false;
                       sending := false; sendFailed := false |};
     unreadCount := zcc_unread_count c; updatedAt := zcc_updated_at c; isPinned := false; isMuted := false |}.
Definition friend_item (f : FriendInfoPayload) : FriendItem :=
  {| fi_friendId := zfi_friend_id f; fi_nickname := zfi_nickname f; fi_remark := zfi_remark f;
     fi_groupId := zfi_group_id f; fi_avatarUrl := zfi_avatar_url f; fi_addedAt := zfi_added_at f |}.
Definition request_item (r : FriendRequestInfoPayload) : FriendRequestItem :=
  {| fq_requestId := zfri_request_id r; fq_fromUserId := zfri_from_user_id r; fq_toUserId := zfri_to_user_id r;
     fq_fromNickname := zfri_from_nickname r; fq_fromAvatarUrl := zfri_from_avatar_url r; fq_remark := zfri_remark r;
     fq_status := zfri_status r; fq_createdAt := zfri_created_at r |}.
Definition group_item (g : GroupInfoPayload) : GroupItem :=
  {| gi_groupId := zgi_group_id g; gi_groupName := zgi_group_name g; gi_avatarUrl := zgi_avatar_url g;
     gi_ownerId := zgi_owner_id g; gi_announcement := zgi_announcement g; gi_memberCount := zgi_member_count g;
     gi_createdAt := zgi_created_at g |}.
Definition member_item (m : GroupMemberPayload) : GroupMemberItem :=
  {| mi_userId := zgm_user_id m; mi_nickname := zgm_nickname m; mi_role := zgm_role m; mi_joinedAt := zgm_joined_at m |}.
Definition group_conversation (g : GroupItem) : Conversation :=
  {| chatId := gi_groupId g; c_chatType := 2; peerId := gi_groupId g; peerName := gi_groupName g;
     peerAvatar := gi_avatarUrl g; lastMessage := Message_new; unreadCount := 0; updatedAt := gi_createdAt g;
     isPinned := false; isMuted := false |}.
(** A group the user is in can be chosen and written to. *)
Definition list_group (g : GroupItem) : WM unit :=
  convs ← reads m_conversationMap;
  match convs !! convKey (gi_groupId g) 2 with
  | Some _ => mret tt
  | None =>
      let conv := group_conversation g in
      _ ← modify (set_conversationMap (insert (convKey (gi_groupId g) 2) conv)); on_contact (upsertConversation conv)
  end.
(** A conversation leaves the tables, and the widget if it is the one shown. *)
Definition forget_conversation (id : string) (type : Z) : WM unit :=
  _ ← modify (set_conversationMap (delete (convKey id type)));
  _ ← modify (set_messageMap (delete (convKey id type)));
  current ← reads (λ w, bool_decide (m_currentChatId w = id ∧ m_currentChatType w = type));
  when_ current (_ ← modify (set_currentChatId (λ _, "")); on_chat (setConversation "" type)).

(** [mergeOfflineMessage] *)
Definition mergeOfflineMessage (msg : Message) : WM bool :=
  let peer := peer_of msg in
  let key := convKey peer (chatType msg) in
  found ← locate key (msgId msg);
  match (if decide (msgId msg ≠ "") then found else None) with
  | Some _ => mret false
  | None =>
      _ ← set_messages key (λ l, l ++ [msg]);
      convs ← reads m_conversationMap;
      current ← reads (λ w, bool_decide (peer = m_currentChatId w ∧ chatType msg = m_currentChatType w));
      let conv := conversation_for peer (chatType msg) (default Conversation_new (convs !! key)) in
      let conv := if decide (timestamp msg >= updatedAt conv) then with_last msg conv else conv in
      let conv := if negb current && negb (isSelf msg) then with_unread (wrap32 (unreadCount conv + 1)) conv else conv in
      _ ← modify (set_conversationMap (insert key conv));
      _ ← on_contact (upsertConversation conv);
      _ ← saveMessagesToLocal peer (chatType msg);
      _ ← saveConversationsToLocal;
      mret true
  end.
(** The loop over a page; whether the conversation shown got a message. *)
Fixpoint merge_page (me current_key : string) (page : list ChatMessagePushPayload) : WM bool :=
  match page with
  | [] => mret false
  | p :: page =>
      let msg := to_message me p in
      merged ← mergeOfflineMessage msg;
      touched ← merge_page me current_key page;
      mret (merged && bool_decide (convKey (peer_of msg) (chatType msg) = current_key) || touched)
  end.

(** The message [id] under [key] was sent. *)
Definition sent_as (resp : ChatSendMessageResponsePayload) (m : Message) : Message :=
  let m := with_flags false false m in
  with_id_time (if decide (zcsmr_msg_id resp ≠ "") then zcsmr_msg_id resp else msgId m)
    (if decide (zcsmr_timestamp resp > 0) then zcsmr_timestamp resp else timestamp m) m.
(** The last message with an id, as the last message of its conversation. *)
Definition last_with_id (l : list Message) : option Message := last (filter (λ m, msgId m ≠ "") l).
Definition set_last (key : string) (m : Message) : WM unit :=
  convs ← reads m_conversationMap;
  match convs !! key with
  | None => mret tt
  | Some conv => _ ← modify (set_conversationMap (insert key (with_last m conv))); on_contact (upsertConversation (with_last m conv))
  end.

Definition file_message (me : string) (file : PickedFile) (chatId : string) (chatType : Z) (url : string)
    (resp : ChatSendMessageResponsePayload) : Message :=
  {| msgId := zcsmr_msg_id resp; fromUserId := me; toId := chatId; chatType := chatType; content := pf_name file;
     mediaUrl := url; mediaType := "file"; mentions := []; replyToMsgId := ""; timestamp := zcsmr_timestamp resp;
     status := 0; isSelf := true; sending := false; sendFailed := false |}.
(** ** The closures, for the code 0 *)

Definition sync_reply (data : string) : WM unit :=
  match ParseFromString data with
  | None => mret tt
  | Some resp =>
      let convs := conversation_of <$> zcscr_conversations resp in
      _ ← modify (set_conversationMap (λ _, foldl (λ m c, <[convKey (chatId c) (c_chatType c) := c]> m) ∅ convs));
      _ ← on_contact (setConversations convs);
      saveConversationsToLocal
  end.
Definition friends_reply (data : string) : WM unit :=
  match ParseFromString data with
  | None => mret tt
  | Some resp => on_contact (setFriends (friend_item <$> zfgfr_friends resp))
  end.
Definition friend_requests_reply (data : string) : WM unit :=
  match ParseFromString data with
  | None => mret tt
  | Some resp => on_contact (setFriendRequests (request_item <$> zfgrr_requests resp))
  end.
Definition handle_friend_reply : WM unit :=
  _ ← loadFriendRequests; loadFriends "".
Definition user_groups_reply (data : string) : WM unit :=
  match ParseFromString data with
  | None => mret tt
  | Some resp =>
      let groups := group_item <$> zggugr_groups resp in
      _ ← for_each groups list_group; on_contact (setGroups groups)
  end.
Definition group_info_reply (data : string) : WM unit :=
  match ParseFromString data with
  | None => mret tt
  | Some resp => match zggir_group resp with
                 | None => mret tt
                 | Some g => on_contact (setCurrentGroupInfo (group_item g))
                 end
  end.
Definition group_members_reply (data : string) : WM unit :=
  match ParseFromString data with
  | None => mret tt
  | Some resp => on_contact (setGroupMembers (member_item <$> zggmr_members resp))
  end.
Definition members_changed_reply (groupId : string) : WM unit :=
  _ ← loadGroupMembers groupId; loadGroupInfo groupId.
Definition left_group_reply (groupId : string) : WM unit :=
  _ ← forget_conversation groupId 2; _ ← saveConversationsToLocal; loadUserGroups.
Definition delete_conversation_reply (id : string) (type : Z) : WM unit :=
  _ ← forget_conversation id type; syncConversations.
Definition block_reply (userId : string) : WM unit :=
  _ ← modify (set_blacklistMap (insert userId userId));
  output (Information "操作成功" ("已将 " +:+ userId +:+ " 加入黑名单。")).
Definition unblock_reply (userId : string) : WM unit :=
  _ ← modify (set_blacklistMap (delete userId));
  output (Information "操作成功" ("已将 " +:+ userId +:+ " 从黑名单移除。")).
Definition offline_reply (data : string) : WM unit :=
  _ ← modify (set_offlinePullInFlight (λ _, false));
  match ParseFromString data with
  | None => mret tt
  | Some resp =>
      _ ← modify (set_offlineCursor (λ _, zcpor_next_cursor resp));
      me ← reads m_currentUserId;
      key ← reads (λ w, convKey (m_currentChatId w) (m_currentChatType w));
      touched ← merge_page me key (zcpor_messages resp);
      messages ← reads (λ w, m_messageMap w !! key);
      match messages with
      | Some messages => when_ touched (_ ← on_chat (setMessages messages); sendMarkRead)
      | None => mret tt
      end
  end.
Definition send_reply (key id chat_id : string) (type : Z) (data : string) : WM unit :=
  found ← locate key id;
  match found with
  | None => mret tt
  | Some m =>
      match ParseFromString data with
      | Some resp =>
          if negb (zcsmr_success resp) then
            _ ← send_failed key id m;
            output (Warning "消息发送失败" (if decide (trimmed (zcsmr_error resp) = "") then "服务端未返回成功结果。"
                                         else trimmed (zcsmr_error resp)))
          else
            _ ← set_messages key (update_first id (sent_as resp));
            _ ← show_for (sent_as resp m) key;
            _ ← set_last key (sent_as resp m);
            _ ← saveMessagesToLocal chat_id type;
            saveConversationsToLocal
      | None => _ ← send_failed key id m; output (Warning "消息发送失败" "服务端未返回成功结果。")
      end
  end.
Definition retry_reply (key id data : string) : WM unit :=
  found ← locate key id;
  match found with
  | None => mret tt
  | Some m =>
      match ParseFromString data with
      | Some resp =>
          if negb (zcsmr_success resp) then
            _ ← send_failed key id m;
            output (Warning "消息重发失败" (if decide (trimmed (zcsmr_error resp) = "") then "服务端未返回成功结果。"
                                         else trimmed (zcsmr_error resp)))
          else _ ← set_messages key (update_first id (sent_as resp)); show_for (sent_as resp m) key
      | None => _ ← send_failed key id m; output (Warning "消息重发失败" "服务端未返回成功结果。")
      end
  end.
Definition recall_reply (key id : string) : WM unit :=
  _ ← set_messages key (update_first id (with_status 1));
  current ← reads (λ w, bool_decide (ch_chatId (m_chatWidget w) = m_currentChatId w ∧
                                     ch_chatType (m_chatWidget w) = m_currentChatType w));
  _ ← when_ current (on_chat (markMessageRecalled id));
  messages ← reads (messages_at key);
  convs ← reads m_conversationMap;
  match convs !! key with
  | None => mret tt
  | Some conv => match last_with_id messages with
                 | Some m => set_last key m
                 | None => on_contact (upsertConversation conv)
                 end
  end.
Definition validate_reply (data : string) : WM unit :=
  _ ← modify (set_sessionValidationInFlight (λ _, false));
  me ← reads m_currentUserId;
  match ParseFromString data with
  | None => modify (set_sessionReady (λ _, false))
  | Some resp =>
      let uid := trimmed (zavtr_user_id resp) in
      modify (set_sessionReady (λ _, bool_decide (uid ≠ "" ∧ (trimmed me = "" ∨ uid = me))))
  end.
Definition create_group_reply (data : string) : WM unit :=
  match ParseFromString data with
  | None => loadUserGroups
  | Some resp =>
      if negb (zgcr_success resp) then
        output (Warning "创建群失败" (if decide (trimmed (zgcr_error resp) = "") then "服务端返回创建失败。" else trimmed (zgcr_error resp)))
      else
        _ ← loadUserGroups;
        when_ (bool_decide (zgcr_group_id resp ≠ "")) (onConversationSelected (zgcr_group_id resp) 2)
  end.
Definition add_friend_reply (userId : string) : WM unit :=
  _ ← output (Information "添加好友" ("已向 " +:+ userId +:+ " 发送好友申请。")); loadFriendRequests.
Definition remove_friend_reply : WM unit :=
  id ← reads (λ w, fi_friendId (m_profile w));
  _ ← on_contact (removeFriendById id);
  _ ← modify (set_starFriendIds (λ ids, ids ∖ {[id]}));
  modify (set_profile (with_friend_id "")).
Definition upload_token_reply (file : PickedFile) (chat_id : string) (type : Z) (data : string) : WM unit :=
  match ParseFromString data with
  | None => output (Warning "文件发送失败" "上传令牌响应无效。")
  | Some resp =>
      if negb (zfgutr_success resp) then
        output (Warning "文件发送失败" (if decide (trimmed (zfgutr_error resp) = "") then "上传令牌响应无效。" else trimmed (zfgutr_error resp)))
      else output (Upload (zfgutr_upload_url resp) (zfgutr_upload_token resp) file chat_id type)
  end.
Definition send_file_reply (mediaUrl : string) (file : PickedFile) (chat_id : string) (type : Z) (data : string) : WM unit :=
  me ← reads m_currentUserId;
  match ParseFromString data with
  | None => output (Warning "文件发送失败" "服务端未返回成功结果。")
  | Some resp =>
      if negb (zcsmr_success resp) then output (Warning "文件发送失败" "服务端未返回成功结果。") else
      let msg := file_message me file chat_id type mediaUrl resp in
      let key := convKey chat_id type in
      _ ← set_messages key (λ l, l ++ [msg]);
      chat ← reads m_chatWidget;
      _ ← when_ (bool_decide (ch_chatId chat = chat_id ∧ ch_chatType chat = type)) (on_chat (appendMessage msg));
      _ ← set_last key msg;
      _ ← saveMessagesToLocal chat_id type;
      saveConversationsToLocal
  end.
Definition file_url_reply (suggestName data : string) : WM unit :=
  match ParseFromString data with
  | None => output (Warning "下载失败" "下载地址响应无效。")
  | Some resp =>
      if negb (zfgfur_success resp) then
        output (Warning "下载失败" (if decide (trimmed (zfgfur_error resp) = "") then "下载地址响应无效。" else trimmed (zfgfur_error resp)))
      else if decide (zfgfur_file_url resp = "") then output (Warning "下载失败" "未返回可用下载地址。") else
      output (Download (zfgfur_file_url resp)
                (if decide (trimmed (zfgfur_file_name resp) = "") then suggestName else trimmed (zfgfur_file_name resp)))
  end.
Definition reply_ok (r : Reply) (data : string) : WM unit :=
  match r with
  | RSync => sync_reply data
  | RFriends => friends_reply data
  | RFriendRequests => friend_requests_reply data
  | RHandleFriend => handle_friend_reply
  | RUserGroups => user_groups_reply data
  | RGroupInfo => group_info_reply data
  | RGroupMembers => group_members_reply data
  | RInvite groupId | RRemoveMember groupId => members_changed_reply groupId
  | RLeave groupId | RDismiss groupId => left_group_reply groupId
  | RDeleteConversation id type => delete_conversation_reply id type
  | RBlock userId => block_reply userId
  | RUnblock userId => unblock_reply userId
  | RHistory _ _ => mret tt
  | ROffline => offline_reply data
  | RSend key id chat_id type => send_reply key id chat_id type data
  | RRetry key id => retry_reply key id data
  | RRecall key id => recall_reply key id
  | RValidate => validate_reply data
  | RCreateGroup => create_group_reply data
  | RAddFriend userId => add_friend_reply userId
  | RRemoveFriend => remove_friend_reply
  | RUploadToken file chat_id type _ => upload_token_reply file chat_id type data
  | RSendFile mediaUrl file chat_id type => send_file_reply mediaUrl file chat_id type data
  | RFileUrl suggestName => file_url_reply suggestName data
  end.
Definition reply (r : Reply) (code : Z) (data message : string) : WM unit :=
  if decide (code ≠ 0) then reply_failed r code message else reply_ok r data.
(** The closure of [loadHistory]. *)
Definition merge_history (me : string) (resp : ChatGetHistoryResponsePayload) (local : list Message) : list Message :=
  let server := to_message me <$> zcghr_messages resp in
  std_sort older (server ++ filter (λ m, msgId m ≠ "" ∧ msgId m ∉ ids_of server) local).
Definition reply_history (id : string) (type : Z) (code : Z) (resp : ChatGetHistoryResponsePayload) : WM unit :=
  if decide (code ≠ 0) then mret tt else
  me ← reads m_currentUserId;
  local ← reads (messages_at (convKey id type));
  let messages := merge_history me resp local in
  _ ← set_messages (convKey id type) (λ _, messages);
  _ ← modify (set_disk (mergeAndSaveMessages storageDir isLetterOrNumber acc acc me id type messages 500));
  current ← reads (λ w, bool_decide (id = m_currentChatId w ∧ type = m_currentChatType w));
  when_ current (_ ← on_chat (setMessages messages); sendMarkRead).

(** * Pushes *)

(** Is the conversation the one on the screen? *)
Definition is_current (id : string) (type : Z) (w : Window) : bool :=
  bool_decide (id = m_currentChatId w ∧ type = m_currentChatType w).
Definition push_legacy (p : NewMessageNotify) : WM unit :=
  me ← reads m_currentUserId;
  let m := of_legacy me p in
  _ ← set_messages (convKey (toId m) (chatType m)) (λ l, l ++ [m]);
  current ← reads (is_current (toId m) (chatType m));
  _ ← (if (current : bool) then _ ← on_chat (appendMessage m); sendMarkRead
       else when_ (negb (isSelf m)) (on_contact (increaseUnreadForChat (toId m))));
  _ ← saveMessagesToLocal (toId m) (chatType m);
  saveConversationsToLocal.
Definition push_message (p : ChatMessagePushPayload) : WM unit :=
  me ← reads m_currentUserId;
  let msg := to_message me p in
  let peer := peer_of msg in
  let key := convKey peer (chatType msg) in
  _ ← set_messages key (λ l, l ++ [msg]);
  convs ← reads m_conversationMap;
  current ← reads (is_current peer (chatType msg));
  let conv := with_last msg (conversation_for peer (chatType msg) (default Conversation_new (convs !! key))) in
  let conv := if negb current && negb (isSelf msg) then with_unread (wrap32 (unreadCount conv + 1)) conv else conv in
  _ ← modify (set_conversationMap (insert key conv));
  _ ← on_contact (upsertConversation conv);
  _ ← saveMessagesToLocal peer (chatType msg);
  _ ← saveConversationsToLocal;
  when_ current (_ ← on_chat (appendMessage msg); sendMarkRead).
Definition onPushNewMessage (payload : string) : WM unit :=
  match ParseFromString payload with
  | Some push => push_message push
  | None => match ParseFromString payload with Some legacy => push_legacy legacy | None => mret tt end
  end.
Definition onPushRecall (payload : string) : WM unit :=
  match ParseFromString payload with
  | None => mret tt
  | Some notify =>
      let id := zrn_chat_id notify in
      let type := zrn_chat_type notify in
      _ ← set_messages (convKey id type) (update_first (zrn_msg_id notify) (with_status 1));
      current ← reads (is_current id type);
      when_ current (on_chat (markMessageRecalled (zrn_msg_id notify)))
  end.
Definition onPushReadReceipt (payload : string) : WM unit :=
  match ParseFromString payload with
  | None => mret tt
  | Some notify =>
      let id := zrrn_chat_id notify in
      let user := zrrn_user_id notify in
      let msg := zrrn_last_read_msg_id notify in
      if decide (id = "" ∨ user = "" ∨ msg = "") then mret tt else
      _ ← modify (set_readReceiptMap (insert id (user +:+ ":" +:+ msg)));
      current ← reads m_currentChatId;
      when_ (bool_decide (id = current)) (on_chat (setReadReceipt user msg))
  end.
(** The text of the notice is left out. *)
Definition onPushFriendRequest : WM unit := _ ← loadFriendRequests; loadFriends "".
Definition onPushFriendAccepted : WM unit := _ ← loadFriends ""; loadFriendRequests.

(** * Runs *)

Definition on_app_event (e : option (AppEvent Reply)) : WM unit :=
  match e with
  | Some (OtherCallback r code data message) => reply r code data message
  | Some (ChatGetHistoryCallback (RHistory id type) code _ resp) => reply_history id type code resp
  | _ => mret tt
  end.
(** The slots connected to the signals of the handler, and its calls of closures. *)
Definition on_event (e : Event (Closure Reply)) : WM unit :=
  match e with
  | Callback k code payload => on_app_event (run_closure k code payload "")
  | CallbackWithMessage k code payload message => on_app_event (run_closure k code payload message)
  | dataToSend data => send_data data
  | newMessageNotify payload => onPushNewMessage payload
  | recallNotify payload => onPushRecall payload
  | readReceiptNotify payload => onPushReadReceipt payload
  | friendRequestNotify _ => onPushFriendRequest
  | friendAcceptedNotify _ => onPushFriendAccepted
  | userStatusChangeNotify _ | kickedNotify _ => mret tt      (* connected to nothing *)
  end.
Definition handler_events (op : ProtocolHandler (Closure Reply) → list (Event (Closure Reply)) *
    ProtocolHandler (Closure Reply)) : WM unit :=
  h ← reads m_protocol;
  let '(evs, h) := op h in
  _ ← modify (set_protocol (λ _, h));
  for_each evs on_event.

Inductive UiInput : Type :=
  | Open                                       (* the constructor *)
  | Select (chatId : string) (chatType : Z) | SelectGroup (groupId : string)
  | Send (now' : Z) (text : string) | Retry (id : string) | Recall (id : string)
  | DecideFriendRequest (requestId : string) (accept : bool)
  | Invite (groupId : string) (pickedIds : list string) | Kick (groupId memberId : string)
  | Leave (groupId : string) (yes : bool) | Dismiss (groupId : string) (yes : bool)
  | DeleteConversation (chatId : string) (chatType : Z) (yes : bool)
  | Block (userId : string) | Unblock (userId : string)
  | Frame (data : string) | RequestTimeout (id : string)
  | SocketUp | SocketDown | ValidationTimer | SocketIs (state : SocketState)
  | ReachedBottom | OpenBlacklist | OpenProfile (userId : string) | WriteToFriend (now' : Z) | ToggleStar
  | EditRemark (text : string) | RemoveFriend (yes : bool) | RemoveShownFriend (yes : bool) | AddFriend (userId : string)
  | CreateGroup (choice : option (string * list string)) | SendFile (file : PickedFile)
  | UploadTimer (file : PickedFile) (chatId : string) (chatType : Z)
  | Uploaded (now' : Z) (url token : string) (file : PickedFile) (chatId : string) (chatType : Z) (met : option HttpReply)
  | OpenFile (id : string).
Definition step (i : UiInput) : WM unit :=
  match i with
  | Open => _ ← loadLocalConversationsAndMessages; _ ← triggerSessionValidation; _ ← syncConversations;
            _ ← loadFriends ""; _ ← loadFriendRequests; _ ← loadUserGroups; pullOfflineMessages 100
  | Select id type => onConversationSelected id type
  | SelectGroup groupId => onGroupSelected groupId
  | Send now' text => sendChatMessage now' text
  | Retry id => retryFailedMessage id
  | Recall id => recallMessage id
  | DecideFriendRequest id accept => handleFriendRequest id accept
  | Invite groupId ids => inviteGroupMembers groupId ids
  | Kick groupId id => removeGroupMember groupId id
  | Leave groupId yes => leaveGroup groupId yes
  | Dismiss groupId yes => dismissGroup groupId yes
  | DeleteConversation id type yes => deleteConversation id type yes
  | Block userId => blockUser userId
  | Unblock userId => unblockUser userId
  | Frame data => handler_events (handleMessage data)
  | RequestTimeout id => handler_events (on_timeout id)
  | SocketUp => _ ← modify (set_sessionReady (λ _, false)); output (SingleShot 300)
  | SocketDown => _ ← handler_events clearPendingRequests;
                  _ ← modify (set_sessionReady (λ _, false)); modify (set_sessionValidationInFlight (λ _, false))
  | ValidationTimer => socket ← reads m_socket; when_ (isConnected socket) triggerSessionValidation
  | SocketIs state => modify (set_socket (λ _, state))
  | ReachedBottom => sendMarkRead
  | OpenBlacklist => loadBlacklist
  | OpenProfile userId => onFriendSelected userId
  | WriteToFriend now' => writeToFriend now'
  | ToggleStar => toggleStar
  | EditRemark text => editRemark text
  | RemoveFriend yes => removeCurrentFriend yes
  | RemoveShownFriend yes => removeShownFriend yes
  | AddFriend userId => addFriend userId
  | CreateGroup choice => createGroup choice
  | SendFile file => sendFileMessage file
  | UploadTimer file id type => requestUploadToken file id type true
  | Uploaded now' url token file id type met => uploaded now' file id type (uploadFileByHttp url token met)
  | OpenFile id => openFileMessage id
  end.
End MainWindow.

Section Runs.
Context {QByteArray : Type} `{!QtJson QByteArray} `{!StdSort} `{!ProtoBuf} `{!Qt}.
Definition Window_new (me token url : string) (disk : gmap string QByteArray) : Window QByteArray :=
  {| m_protocol := ProtocolHandler_new; m_socket := UnconnectedState; m_disk := disk; m_token := token;
     m_serverUrl := url; m_currentUserId := me; m_currentChatId := ""; m_currentChatType := 1; m_conversationMap := ∅;
     m_messageMap := ∅; m_readReceiptMap := ∅; m_blacklistMap := ∅; m_offlineCursor := "";
     m_offlinePullInFlight := false; m_sessionReady := false; m_sessionValidationInFlight := false;
     m_contactWidget := ContactWidget_new; m_chatWidget := ChatWidget_new; m_profile := FriendItem_new;
     m_starFriendIds := ∅; m_out := [] |}.
(** Inputs, each with its time and what the disk does. *)
Definition run_window (inputs : list (Access (QByteArray:=QByteArray) * Z * UiInput)) (w : Window QByteArray) :
    Window QByteArray :=
  foldl (λ w '(acc, now, i), snd (step acc now i w)) w inputs.
End Runs.
