(* ===== verification/Desktop.v ===== *)
(** Theorems about the main window of the desktop client ([MainWindow]): when it takes its session for valid, what
    becomes of a message it sends, what pages and histories do to its tables. *)

From S2P Require Import Prelude External Utils Proto ZonePayloads GateAnswers Client ChatStorage Widgets MainWindow.

#[export] Instance PickedFile_eq_dec : EqDecision PickedFile.
Proof. solve_decision. Defined.
#[export] Instance Reply_eq_dec : EqDecision Reply.
Proof. solve_decision. Defined.
#[export] Instance Closure_eq_dec : EqDecision (Closure Reply).
Proof. solve_decision. Defined.

Section Window.
Context {QByteArray : Type} `{!QtJson QByteArray} `{!StdSort} `{!ProtoBuf} `{!Qt}.
Notation Window := (Window QByteArray).
Notation WM := (M Window).
Implicit Types w : Window.

(** The session is not made valid, and the user stays the same. *)
Definition quiet : relation Window := λ w w',
  m_currentUserId w' = m_currentUserId w ∧ (m_sessionReady w' = true → m_sessionReady w = true).
#[export] Instance quiet_preorder : PreOrder quiet.
Proof. split; [by intros w|]. intros w1 w2 w3 [E1 R1] [E2 R2]. split; [congruence|auto]. Qed.

Variable acc : Access (QByteArray:=QByteArray).
Variable now : Z.

Lemma quiet_emitted failed e : sure quiet failed → sure quiet (emitted failed e).
Proof. intros Hf. unfold emitted, send_data. walk. Qed.
Lemma quiet_protocol op failed : sure quiet failed → sure quiet (on_protocol op failed).
Proof. intros Hf. unfold on_protocol. walk. by apply quiet_emitted. Qed.
Lemma quiet_output o : sure quiet (output o).
Proof. unfold output. walk. Qed.
Lemma quiet_on_contact f : sure quiet (on_contact f).
Proof. unfold on_contact. walk. Qed.
Lemma quiet_on_chat f : sure quiet (on_chat f).
Proof. unfold on_chat. walk. Qed.
Lemma quiet_set_messages key f : sure quiet (set_messages key f).
Proof. unfold set_messages. walk. Qed.
Lemma quiet_save_convs : sure quiet (saveConversationsToLocal acc).
Proof. unfold saveConversationsToLocal. walk. Qed.
Lemma quiet_save_msgs id type : sure quiet (saveMessagesToLocal acc id type).
Proof. unfold saveMessagesToLocal. walk. Qed.
#[local] Hint Resolve quiet_protocol quiet_output quiet_on_contact quiet_on_chat quiet_set_messages quiet_save_convs quiet_save_msgs : runs.
Lemma quiet_validate_failed : sure quiet validate_failed.
Proof. unfold validate_failed. walk. Qed.
#[local] Hint Resolve quiet_validate_failed : runs.
Lemma quiet_validation : sure quiet (triggerSessionValidation now).
Proof. unfold triggerSessionValidation, request_or. walk. Qed.
#[local] Hint Resolve quiet_validation : runs.
Lemma quiet_show_for m key : sure quiet (show_for m key).
Proof. unfold show_for. walk. Qed.
#[local] Hint Resolve quiet_show_for : runs.
Lemma quiet_send_failed key id m : sure quiet (send_failed key id m).
Proof. unfold send_failed. walk. Qed.
Lemma quiet_locate key id : sure quiet (locate key id).
Proof. unfold locate. walk. Qed.
Lemma quiet_warn title prefix code message : sure quiet (warn_code title prefix code message).
Proof. unfold warn_code. walk. Qed.
#[local] Hint Resolve quiet_send_failed quiet_locate quiet_warn : runs.
Lemma quiet_connected text : sure quiet (ensureGatewayConnected text).
Proof. unfold ensureGatewayConnected. walk. Qed.
Lemma quiet_ready text : sure quiet (ensureSessionReady now text).
Proof. unfold ensureSessionReady. walk. Qed.
Lemma quiet_revalidate b : sure quiet (revalidate_if now b).
Proof. unfold revalidate_if. walk. Qed.
#[local] Hint Resolve quiet_connected quiet_ready quiet_revalidate : runs.
Lemma quiet_reply_failed r code message : sure quiet (reply_failed now r code message).
Proof. unfold reply_failed. walk. Qed.
#[local] Hint Resolve quiet_reply_failed : runs.
Lemma quiet_request cmd payload r b : sure quiet (request now cmd payload r b).
Proof. unfold request, request_or. walk. Qed.
#[local] Hint Resolve quiet_request : runs.
Lemma quiet_request_msg {A} `{!Msg A} cmd (a : A) r b : sure quiet (request_msg now cmd a r b).
Proof. unfold request_msg. walk. Qed.
#[local] Hint Resolve quiet_request_msg : runs.
Lemma quiet_pull limit : sure quiet (pullOfflineMessages now limit).
Proof. unfold pullOfflineMessages. walk. Qed.
Lemma quiet_mark_read : sure quiet (sendMarkRead now).
Proof. unfold sendMarkRead. walk. Qed.
#[local] Hint Resolve quiet_pull quiet_mark_read : runs.
Lemma quiet_history id type : sure quiet (loadHistory now id type).
Proof. unfold loadHistory. walk. Qed.
Lemma quiet_group_info g : sure quiet (loadGroupInfo now g).
Proof. unfold loadGroupInfo. walk. Qed.
Lemma quiet_group_members g : sure quiet (loadGroupMembers now g).
Proof. unfold loadGroupMembers. walk. Qed.
Lemma quiet_forget id type : sure quiet (forget_conversation id type).
Proof. unfold forget_conversation. walk. Qed.
Lemma quiet_list_group g : sure quiet (list_group g).
Proof. unfold list_group. walk. Qed.
Lemma quiet_set_last key m : sure quiet (set_last key m).
Proof. unfold set_last. walk. Qed.
Lemma quiet_merge m : sure quiet (mergeOfflineMessage acc m).
Proof. unfold mergeOfflineMessage. walk. Qed.
#[local] Hint Resolve quiet_history quiet_group_info quiet_group_members quiet_forget quiet_list_group quiet_set_last quiet_merge : runs.
Lemma quiet_page me key page : sure quiet (merge_page acc me key page).
Proof. induction page; cbn [merge_page]; walk. Qed.
#[local] Hint Resolve quiet_page : runs.
Lemma quiet_select id type : sure quiet (onConversationSelected acc now id type).
Proof. unfold onConversationSelected. walk. Qed.
#[local] Hint Resolve quiet_select : runs.
Lemma quiet_reply_ok r data : r ≠ RValidate → sure quiet (reply_ok acc now r data).
Proof.
  intros Hr. unfold reply_ok, sync_reply, friends_reply, friend_requests_reply, handle_friend_reply, user_groups_reply, group_info_reply,
    group_members_reply, members_changed_reply, left_group_reply, delete_conversation_reply, block_reply, unblock_reply,
    offline_reply, send_reply, retry_reply, recall_reply, create_group_reply, add_friend_reply, remove_friend_reply,
    upload_token_reply, send_file_reply, file_url_reply,
    syncConversations, loadFriends, loadFriendRequests, loadUserGroups.
  destruct r; try by destruct Hr. all: walk.
Qed.
#[local] Hint Resolve quiet_reply_ok : runs.
Lemma quiet_reply_history id type code resp : sure quiet (reply_history acc now id type code resp).
Proof. unfold reply_history. walk. Qed.
Lemma quiet_push_message p : sure quiet (push_message acc now p).
Proof. unfold push_message. walk. Qed.
Lemma quiet_push_legacy p : sure quiet (push_legacy acc now p).
Proof. unfold push_legacy. walk. Qed.
#[local] Hint Resolve quiet_reply_history quiet_push_message quiet_push_legacy : runs.

(** The event that answers a validation with the code 0. *)
Definition validates (e : Event (Closure Reply)) (payload : string) : Prop :=
  e = Callback (OtherReply RValidate) 0 payload ∨ ∃ message, e = CallbackWithMessage (OtherReply RValidate) 0 payload message.
Lemma quiet_reply r code data message : (r = RValidate → code ≠ 0) → sure quiet (reply acc now r code data message).
Proof.
  intros Hr. unfold reply. case_decide; [walk|]. apply quiet_reply_ok. intros ->. by apply Hr.
Qed.
Lemma quiet_event e : (∀ payload, ¬ validates e payload) → sure quiet (on_event acc now e).
Proof.
  intros He. assert (∀ k code payload message, (k = OtherReply RValidate → code ≠ 0) →
    sure quiet (on_app_event acc now (run_closure k code payload message))) as Hk.
  { intros k code payload message Hn. destruct k as [[c|]|[c|]|c]; cbn; try walk.
    - case_decide; [|case_match]; cbn; walk.
    - case_decide; [|case_match]; cbn; walk.
    - apply quiet_reply. naive_solver. }
  destruct e; cbn; unfold onPushNewMessage, onPushRecall, onPushReadReceipt, onPushFriendRequest, onPushFriendAccepted,
    loadFriendRequests, loadFriends, send_data; walk;
    apply Hk; intros -> ->; eapply He; unfold validates; naive_solver.
Qed.
Lemma run_events op w : handler_events acc now op w =
  for_each (fst (op (m_protocol w))) (on_event acc now) (set_protocol (λ _, snd (op (m_protocol w))) w).
Proof. unfold handler_events, mbind, M_bind, reads, modify. by destruct (op (m_protocol w)). Qed.
Lemma quiet_events_at op w : (∀ e payload, e ∈ fst (op (m_protocol w)) → ¬ validates e payload) →
  ∃ w', handler_events acc now op w = (Ret tt, w') ∧ quiet w w'.
Proof.
  intros He. rewrite run_events. set (w1 := set_protocol _ w).
  destruct (sure_for_each quiet (fst (op (m_protocol w))) (on_event acc now)) with (s := w1) as ([] & w' & Hrun & Hq).
  - intros e Hin. apply quiet_event. intros payload. by apply He.
  - exists w'. split; [done|]. by apply (transitivity (y:=w1)).
Qed.
Lemma quiet_events op : (∀ h e payload, e ∈ fst (op h) → ¬ validates e payload) → sure quiet (handler_events acc now op).
Proof. intros He w. exists tt. apply quiet_events_at. eauto. Qed.
Lemma fails_only op (P : Z → Prop) : ¬ P 0 →
  (∀ h e, e ∈ fst (op h) → ∃ p code, P code ∧ e ∈ call_pending p code "" "") → sure quiet (handler_events acc now op).
Proof.
  intros HP He. apply quiet_events. intros h e payload Hin. destruct (He h e Hin) as (p & code & Hc & Hin').
  unfold call_pending, call in Hin'. intros [->|[message ->]]; repeat case_match; set_solver.
Qed.
Lemma quiet_timeout id : sure quiet (handler_events acc now (on_timeout id)).
Proof.
  apply (fails_only _ (λ code, code = -2)); [done|]. intros h e. unfold on_timeout. case_match; set_solver.
Qed.
Lemma quiet_clear : sure quiet (handler_events acc now clearPendingRequests).
Proof.
  apply (fails_only _ (λ code, code = -1)); [done|]. intros h e Hin. cbn in Hin.
  apply list_elem_of_In, in_flat_map in Hin as (p & _ & Hin%list_elem_of_In). eauto.
Qed.

#[local] Hint Resolve quiet_timeout quiet_clear : runs.
Lemma quiet_send now' text : sure quiet (sendChatMessage now now' text).
Proof. unfold sendChatMessage. walk. Qed.
Lemma quiet_retry id : sure quiet (retryFailedMessage now id).
Proof. unfold retryFailedMessage. walk. Qed.
Lemma quiet_recall id : sure quiet (recallMessage now id).
Proof. unfold recallMessage. walk. Qed.
Lemma quiet_load : sure quiet (loadLocalConversationsAndMessages acc).
Proof. unfold loadLocalConversationsAndMessages. walk. Qed.
#[local] Hint Resolve quiet_send quiet_retry quiet_recall quiet_load : runs.
Lemma quiet_step i : (∀ data, i ≠ Frame data) → sure quiet (step acc now i).
Proof.
  intros Hi. destruct i; cbn [step]; try by destruct (Hi data).
  all: unfold syncConversations, loadFriends, loadFriendRequests, loadUserGroups, onGroupSelected, handleFriendRequest,
    inviteGroupMembers, removeGroupMember, leaveGroup, dismissGroup, deleteConversation, blockUser, unblockUser,
    loadBlacklist, onFriendSelected, writeToFriend, toggleStar, editRemark, removeShownFriend, removeCurrentFriend, addFriend,
    createGroup, sendFileMessage, requestUploadToken, uploaded, openFileMessage; walk.
Qed.

(** The frame answers a pending validation with the code 0 and a user id that is that of the window (any, when the
    window has none). *)
Definition validated_by (data : string) (w : Window) : Prop := ∃ msg p resp,
  ParseFromString data = Some msg ∧ zsm_request_id msg ≠ "" ∧ zsm_code msg = 0 ∧
  pendingRequests (m_protocol w) !! zsm_request_id msg = Some p ∧ callback_of p = [OtherReply RValidate] ∧
  ParseFromString (zsm_payload msg) = Some resp ∧ trimmed (zavtr_user_id resp) ≠ "" ∧
  (trimmed (m_currentUserId w) = "" ∨ trimmed (zavtr_user_id resp) = m_currentUserId w).

Lemma frame_events data (h : ProtocolHandler (Closure Reply)) : fst (handleMessage data h) = [] ∨ (∃ cmd payload, fst (handleMessage data h) = dispatch_push cmd payload) ∨
  ∃ msg p, ParseFromString data = Some msg ∧ zsm_request_id msg ≠ "" ∧ pendingRequests h !! zsm_request_id msg = Some p ∧
    handleMessage data h = (call_pending p (zsm_code msg) (zsm_payload msg) (zsm_message msg),
                            with_pending (delete (zsm_request_id msg) (pendingRequests h)) h).
Proof.
  unfold handleMessage. destruct (ParseFromString data) as [msg|]; [|by left]. cbv zeta. case_decide; [|right; left; eauto].
  case_match; [|right; left; eauto]. right; right. eauto 10.
Qed.
Lemma push_validates cmd payload e p : e ∈ dispatch_push (K:=Closure Reply) cmd payload → ¬ validates e p.
Proof. unfold dispatch_push, validates. intros He. repeat case_decide; set_solver. Qed.
Lemma call_validates p code data message e payload : e ∈ call_pending (K:=Closure Reply) p code data message → validates e payload →
  code = 0 ∧ callback_of p = [OtherReply RValidate].
Proof.
  unfold call_pending, call, callback_of, validates. intros He Hv.
  destruct (pr_callback_with_message p), (pr_callback p); destruct Hv as [->|[? ->]]; set_solver.
Qed.
Lemma call_validation p data message : callback_of p = [OtherReply RValidate] →
  ∃ e, call_pending (K:=Closure Reply) p 0 data message = [e] ∧ on_event acc now e = reply_ok acc now RValidate data.
Proof.
  unfold call_pending, call, callback_of. destruct (pr_callback_with_message p), (pr_callback p); cbn; intros [= ->]; eauto.
Qed.

(** What the answer to a validation does. *)
Lemma run_validated data w : ∃ w', reply_ok acc now RValidate data w = (Ret tt, w') ∧
  (m_sessionReady w' = true → ∃ resp, ParseFromString data = Some resp ∧ trimmed (zavtr_user_id resp) ≠ "" ∧
     (trimmed (m_currentUserId w) = "" ∨ trimmed (zavtr_user_id resp) = m_currentUserId w)).
Proof.
  unfold reply_ok, validate_reply. destruct (ParseFromString data) as [resp|]; eexists; (split; [done|]); cbn; [|done].
  intros Hr%bool_decide_eq_true. exists resp. naive_solver.
Qed.
Lemma frame_validates data w : m_sessionReady w = false → m_sessionReady (snd (step acc now (Frame data) w)) = true →
  validated_by data w.
Proof.
  intros Hw Hr. cbn [step] in Hr.
  assert ((∀ e payload, e ∈ fst (handleMessage data (m_protocol w)) → ¬ validates e payload) → False) as Hno.
  { intros Hno. destruct (quiet_events_at _ _ Hno) as (w' & Hrun & _ & Hq). rewrite Hrun in Hr. apply Hq in Hr. congruence. }
  destruct (frame_events data (m_protocol w)) as [He|[(cmd & push & He)|(msg & p & Hmsg & Hid & Hp & He)]].
  { destruct Hno. rewrite He. set_solver. }
  { destruct Hno. rewrite He. apply push_validates. }
  destruct (decide (zsm_code msg = 0 ∧ callback_of p = [OtherReply RValidate])) as [[Hcode Hcb]|Hn].
  2: { destruct Hno. rewrite He. intros e payload Hin Hv. by destruct Hn, (call_validates _ _ _ _ _ _ Hin Hv). }
  rewrite run_events, He, Hcode in Hr. cbn [fst snd] in Hr.
  destruct (call_validation p (zsm_payload msg) (zsm_message msg) Hcb) as (e & Hall & Hev).
  rewrite Hall in Hr. cbn [for_each] in Hr. rewrite Hev in Hr.
  set (w1 := set_protocol _ w) in Hr. destruct (run_validated (zsm_payload msg) w1) as (w' & Hrun & Hready).
  erewrite bind_run in Hr by exact Hrun. destruct (Hready Hr) as (resp & ? & ? & ?). exists msg, p, resp. by split_and!.
Qed.
Lemma frame_or i : (∃ data, i = Frame data) ∨ ∀ data, i ≠ Frame data.
Proof. destruct i; eauto; by right. Qed.
Lemma step_ready i w : m_sessionReady w = false → m_sessionReady (snd (step acc now i w)) = true →
  ∃ data, i = Frame data ∧ validated_by data w.
Proof.
  intros Hw Hr. destruct (frame_or i) as [[data ->]|Hi]; [exists data; split; [done|by apply frame_validates]|].
  exfalso. destruct (quiet_step i Hi w) as (? & w' & Hrun & _ & Hq). rewrite Hrun in Hr. apply Hq in Hr. congruence.
Qed.
Lemma step_drop i w : i = SocketUp ∨ i = SocketDown → m_sessionReady (snd (step acc now i w)) = false.
Proof.
  intros [->| ->]; [done|]. cbn [step]. destruct (quiet_clear w) as (? & w' & Hrun & _). by erewrite bind_run.
Qed.
Lemma event_validates e : (∀ payload, ¬ validates e payload) ∨ ∃ payload, on_event acc now e = reply_ok acc now RValidate payload.
Proof.
  assert (∀ k code, k = OtherReply RValidate ∧ code = 0 ∨ ¬ (k = OtherReply RValidate ∧ code = 0)) as Hdec.
  { intros k code. destruct (decide (k = OtherReply RValidate ∧ code = 0)); auto. }
  destruct e as [k code payload|k code payload message|?|?|?|?|?|?|?|?].
  1,2: destruct (Hdec k code) as [[-> ->]|Hn]; [right; by eexists|left; unfold validates; naive_solver].
  all: left; unfold validates; naive_solver.
Qed.
Lemma step_user i w : m_currentUserId (snd (step acc now i w)) = m_currentUserId w.
Proof.
  pose (same := λ w w' : Window, m_currentUserId w' = m_currentUserId w).
  assert (PreOrder same) by (split; [by intros ?|intros ???; unfold same; congruence]).
  assert (∀ e, sure same (on_event acc now e)) as He.
  { intros e. destruct (event_validates e) as [Hno|[payload ->]].
    - intros w0. destruct (quiet_event e Hno w0) as (a & w' & Hrun & Hsame & _). eauto.
    - intros w0. unfold reply_ok, validate_reply. destruct (ParseFromString payload); eexists _, _; by split. }
  destruct (frame_or i) as [[data ->]|Hi].
  - cbn [step]. rewrite run_events. set (w1 := set_protocol _ w).
    by destruct (sure_for_each same (fst (handleMessage data (m_protocol w))) (on_event acc now) (λ e _, He e) w1) as (? & ? & -> & ?).
  - by destruct (quiet_step i Hi w) as (? & ? & -> & ? & _).
Qed.
End Window.

Section Session.
Context {QByteArray : Type} `{!QtJson QByteArray} `{!StdSort} `{!ProtoBuf} `{!Qt}.
Notation Inputs := (list (Access (QByteArray:=QByteArray) * Z * UiInput)).
Lemma run_window_app (xs ys : Inputs) w : run_window (xs ++ ys) w = run_window ys (run_window xs w).
Proof. apply foldl_app. Qed.
Lemma run_user (xs : Inputs) w : m_currentUserId (run_window xs w) = m_currentUserId w.
Proof.
  revert w. induction xs as [|[[acc now] i] xs IH]; intros w; [done|]. cbn [run_window foldl]. etrans; [apply IH|apply step_user].
Qed.

(** C10: a window only takes its session for valid when a frame of the present connection made it so: there is a frame among
    its inputs that answered a validation it had asked for with the code 0 and with a user id that is its own user's (any
    non-blank id, when it has none), and since that frame the socket has neither come up again nor gone down. No timeout, no other answer, no push
    and nothing the user does makes a session valid. *)
Theorem ready_since_validation (me token url : string) (disk : gmap string QByteArray) (inputs : Inputs)
    (start := Window_new me token url disk) :
  m_sessionReady (run_window inputs start) = true →
  ∃ before acc now data after, inputs = before ++ (acc, now, Frame data) :: after ∧
    validated_by data (run_window before start) ∧ m_currentUserId (run_window before start) = me ∧
    Forall (λ x, x.2 ≠ SocketUp ∧ x.2 ≠ SocketDown) after.
Proof.
  induction inputs as [|[[acc now] i] inputs IH] using rev_ind; [done|]. rewrite run_window_app. cbn [run_window foldl].
  set (w := run_window inputs start) in *. intros Hr.
  destruct (m_sessionReady w) eqn:Hw.
  - destruct (IH eq_refl) as (before & acc' & now' & data & after & -> & Hv & Hme & Hall).
    exists before, acc', now', data, (after ++ [(acc, now, i)]). rewrite <-app_assoc. split_and!; [done..|].
    apply Forall_app_2, Forall_singleton; [done|]. cbn.
    split; intros ->; [rewrite step_drop in Hr by auto|rewrite step_drop in Hr by auto]; done.
  - destruct (step_ready _ _ i w Hw Hr) as (data & -> & Hv).
    exists inputs, acc, now, data, []. split_and!; [done..| |done]. unfold w. by rewrite run_user.
Qed.
End Session.

(** * What becomes of a message that is sent *)

Section Sending.
Context {QByteArray : Type} `{!QtJson QByteArray} `{!StdSort} `{!ProtoBuf} `{!ProtoTotal} `{!Qt}.
Notation Window := (Window QByteArray).
Implicit Types w : Window.

(** The lists of messages stay as they are. *)
Definition same_messages : relation Window := λ w w', ∀ key, messages_at key w' = messages_at key w.
#[export] Instance same_messages_preorder : PreOrder same_messages.
Proof. split; [by intros w|]. intros w1 w2 w3 E1 E2 key. by rewrite E2. Qed.

Section Calm.
Variable acc : Access (QByteArray:=QByteArray).
Variable now : Z.
Lemma calm_output o : sure same_messages (output o).
Proof. unfold output. walk. Qed.
Lemma calm_protocol op failed : sure same_messages failed → sure same_messages (on_protocol op failed).
Proof. intros Hf. unfold on_protocol, emitted, send_data. walk. Qed.
Lemma calm_save_convs : sure same_messages (saveConversationsToLocal acc).
Proof. unfold saveConversationsToLocal. walk. Qed.
Lemma calm_save_msgs id type : sure same_messages (saveMessagesToLocal acc id type).
Proof. unfold saveMessagesToLocal. walk. Qed.
Lemma calm_show_for m key : sure same_messages (show_for m key).
Proof. unfold show_for, on_chat. walk. Qed.
Lemma calm_set_last key m : sure same_messages (set_last key m).
Proof. unfold set_last, on_contact. walk. Qed.
#[local] Hint Resolve calm_output calm_protocol calm_save_convs calm_save_msgs calm_show_for calm_set_last : runs.
Lemma calm_warn title prefix code message : sure same_messages (warn_code title prefix code message).
Proof. unfold warn_code. walk. Qed.
Lemma calm_validation : sure same_messages (triggerSessionValidation now).
Proof. unfold triggerSessionValidation, request_or. walk. apply calm_protocol. unfold validate_failed. walk. Qed.
#[local] Hint Resolve calm_warn calm_validation : runs.

(** The list under [key] becomes its image under [f], the others stay. *)
Definition changes (key : string) (f : list Message → list Message) : relation Window := λ w w',
  messages_at key w' = f (messages_at key w) ∧ ∀ k, k ≠ key → messages_at k w' = messages_at k w.
Lemma changes_set key f : sure (changes key f) (set_messages key f).
Proof.
  intros w. eexists _, _. split; [done|]. unfold changes, messages_at. cbn. split; [by rewrite lookup_insert_eq|].
  intros k Hk. by rewrite lookup_insert_ne.
Qed.
Lemma changes_after {A B} key f (m : M Window A) (g : A → M Window B) :
  sure same_messages m → (∀ a, sure (changes key f) (g a)) → sure (changes key f) (x ← m; g x).
Proof.
  intros Hm Hg w. destruct (Hm w) as (a & w1 & Ha & E1). destruct (Hg a w1) as (b & w2 & Hb & E2 & E3).
  exists b, w2. split; [by erewrite bind_run|]. split; [by rewrite E2, E1|]. intros k Hk. by rewrite E3, E1.
Qed.
Lemma changes_then {A B} key f (m : M Window A) (g : A → M Window B) :
  sure (changes key f) m → (∀ a, sure same_messages (g a)) → sure (changes key f) (x ← m; g x).
Proof.
  intros Hm Hg w. destruct (Hm w) as (a & w1 & Ha & E1 & E2). destruct (Hg a w1) as (b & w2 & Hb & E3).
  exists b, w2. split; [by erewrite bind_run|]. split; [by rewrite E3|]. intros k Hk. by rewrite E3, E2.
Qed.
Lemma changes_failed key id m : sure (changes key (update_first id (with_flags false true))) (send_failed key id m).
Proof. apply changes_then; [apply changes_set|auto with runs]. Qed.
Lemma run_locate key id w : ∃ w', locate key id w = (Ret (find_message id (messages_at key w)), w') ∧ same_messages w w'.
Proof.
  unfold locate. destruct (changes_set key (λ l, l) w) as ([] & w' & Hrun & E1 & E2). exists w'.
  rewrite (bind_run _ _ _ _ _ Hrun). split; [unfold mbind, M_bind, reads; by rewrite E1|].
  intros k. destruct (decide (k = key)) as [->|]; auto.
Qed.

Lemma run_located key id f (body : Message → M Window unit) w m :
  find_message id (messages_at key w) = Some m → sure (changes key f) (body m) →
  ∃ w', (found ← locate key id; match found with None => mret tt | Some m => body m end) w = (Ret tt, w') ∧ changes key f w w'.
Proof.
  intros Hm Hb. destruct (run_locate key id w) as (w1 & Hloc & Hsame). rewrite Hm in Hloc.
  rewrite (bind_run _ _ _ _ _ Hloc). destruct (Hb w1) as ([] & w' & Hrun & E1 & E2). exists w'.
  split; [done|]. split; [by rewrite E1, Hsame|]. intros k Hk. by rewrite E2.
Qed.

(** What an answer to [chat.send_message] makes of the message. *)
Definition settled (code : Z) (payload : string) (m : Message) : Message :=
  match (if decide (code ≠ 0) then None else ParseFromString payload) with
  | Some resp => if zcsmr_success resp then sent_as resp m else with_flags false true m
  | None => with_flags false true m
  end.
Lemma run_reply_send key id chat type code payload text w m : find_message id (messages_at key w) = Some m →
  ∃ w', reply acc now (RSend key id chat type) code payload text w = (Ret tt, w') ∧
        changes key (update_first id (settled code payload)) w w'.
Proof.
  intros Hm. unfold reply, settled. case_decide.
  - apply (run_located key id _ _ _ m Hm). apply changes_after; [unfold revalidate_if; walk|intros _].
    apply changes_then; [apply changes_failed|auto with runs].
  - apply (run_located key id _ _ _ m Hm). destruct (ParseFromString payload) as [resp|].
    + destruct (zcsmr_success resp) eqn:Hs; cbn [negb].
      * apply changes_then; [apply changes_set|]. intros _. walk.
      * apply changes_then; [apply changes_failed|auto with runs].
    + apply changes_then; [apply changes_failed|auto with runs].
Qed.

(** The input [i] answers the request [id], with a frame or by its timer. *)
Definition answers (id : string) (i : UiInput) (code : Z) (payload : string) : Prop :=
  match i with
  | Frame data => ∃ msg, ParseFromString data = Some msg ∧ zsm_request_id msg = id ∧ zsm_code msg = code ∧ zsm_payload msg = payload
  | RequestTimeout id' => id' = id ∧ code = -2 ∧ payload = ""
  | _ => False
  end.
Lemma run_answers id i code payload p r w : answers id i code payload → id ≠ "" →
  pendingRequests (m_protocol w) !! id = Some p → callback_of p = [OtherReply r] →
  ∃ text h, step acc now i w = reply acc now r code payload text (set_protocol (λ _, h) w).
Proof.
  intros Ha Hid Hp Hcb. assert (∀ w op text, op (m_protocol w) = (call_pending p code payload text, snd (op (m_protocol w))) →
    ∃ text, handler_events acc now op w = reply acc now r code payload text (set_protocol (λ _, snd (op (m_protocol w))) w)) as Hrun.
  { intros w0 op text Hop. rewrite run_events, Hop. cbn [fst snd].
    assert (∃ e text', call_pending p code payload text = [e] ∧ on_event acc now e = reply acc now r code payload text') as (e & text' & -> & He).
    { revert Hcb. unfold call_pending, call, callback_of. destruct (pr_callback_with_message p), (pr_callback p); cbn; intros [= ->]; eauto. }
    exists text'. cbn [for_each]. rewrite He. unfold mbind, M_bind, mret, M_ret.
    destruct (reply acc now r code payload text' _) as [[[]|] w']; done. }
  destruct i; try done; cbn [step].
  - destruct Ha as (msg & Hmsg & <- & <- & <-). edestruct (Hrun w (handleMessage data)) as [text Ht]; [|eauto].
    unfold handleMessage. by rewrite Hmsg, decide_True, Hp by done.
  - destruct Ha as (-> & -> & ->). edestruct (Hrun w (on_timeout id)) as [text Ht]; [|eauto]. unfold on_timeout. by rewrite Hp.
Qed.

(** A request that can be serialised. *)
Lemma run_request {A} `{!Msg A} cmd (a : A) r w (id := fst (generateRequestId (m_protocol w))) : ∃ payload frame w',
  request_msg now cmd a r true w = (Ret tt, w') ∧ same_messages w w' ∧
  SerializeToString a = Some payload ∧
  SerializeToString {| zcm_cmd := cmd; zcm_payload := payload; zcm_request_id := id |} = Some frame ∧
  m_out w' = m_out w ++ (ToSocket <$> sendMessage (m_socket w) frame) ∧
  pendingRequests (m_protocol w') !! id = Some {| pr_callback := None; pr_callback_with_message := Some (OtherReply r);
                                                  pr_cmd := cmd; pr_start_ms := now |}.
Proof.
  destruct (serialize_total _ _ a) as [payload Hp].
  destruct (serialize_total _ _ {| zcm_cmd := cmd; zcm_payload := payload; zcm_request_id := id |}) as [frame Hf].
  exists payload, frame. unfold request_msg. rewrite Hp. unfold request, request_or, on_protocol, mbind, M_bind, reads, modify.
  unfold sendRequestWithMessage, sendRequestImpl. change (generateRequestId (m_protocol w)) with (id, snd (generateRequestId (m_protocol w))).
  cbv beta iota. rewrite Hf. eexists. split; [done|]. split_and!; [done..|]. cbn. by rewrite lookup_insert_eq.
Qed.
(** [sendChatMessage] when the message goes out. *)
Lemma run_send now' text w (key := convKey (m_currentChatId w) (m_currentChatType w))
    (local := local_message now (m_currentUserId w) (m_currentChatId w) (m_currentChatType w) text now')
    (id := fst (generateRequestId (m_protocol w))) (w' := snd (step acc now (Send now' text) w)) :
  isConnected (m_socket w) = true → m_sessionReady w = true → m_currentChatId w ≠ "" → text ≠ "" →
  changes key (λ l, l ++ [local]) w w' ∧
  ∃ p payload frame, SerializeToString (text_request (m_currentUserId w) local) = Some payload ∧
    SerializeToString {| zcm_cmd := "chat.send_message"; zcm_payload := payload; zcm_request_id := id |} = Some frame ∧
    m_out w' = m_out w ++ [ToSocket (sendBinaryMessage frame)] ∧
    pendingRequests (m_protocol w') !! id = Some p ∧
    callback_of p = [OtherReply (RSend key (msgId local) (m_currentChatId w) (m_currentChatType w))].
Proof.
  intros Hc Hr Hid Ht. assert (sendMessage (m_socket w) = λ frame, [sendBinaryMessage frame]) as Hs.
  { apply bool_decide_eq_true in Hc. by rewrite Hc. }
  set (w1 := set_messageMap (insert key (messages_at key w ++ [local])) w).
  set (shown := bool_decide (ch_chatId (m_chatWidget w) = m_currentChatId w ∧ ch_chatType (m_chatWidget w) = m_currentChatType w)).
  set (w2 := if shown then set_chatWidget (appendMessage local) w1 else w1).
  destruct (run_request "chat.send_message" (text_request (m_currentUserId w) local)
    (RSend key (msgId local) (m_currentChatId w) (m_currentChatType w)) w2) as (payload & frame & w3 & Hrun & Hsame & Hp & Hf & Ho & Hpend).
  assert (step acc now (Send now' text) w = (Ret tt, w3)) as Hstep.
  { rewrite <-Hrun. cbn [step]. unfold sendChatMessage, ensureGatewayConnected, ensureSessionReady, set_messages, on_chat, when_, modify.
    unfold mbind, M_bind, reads, mret, M_ret. rewrite decide_False by tauto. rewrite Hc. cbn [negb]. rewrite Hr. cbn [negb].
    change (m_chatWidget (set_messageMap _ w)) with (m_chatWidget w). fold shown. unfold w2, w1. destruct shown; reflexivity. }
  unfold w'. rewrite Hstep. cbn [snd].
  assert (m_protocol w2 = m_protocol w ∧ m_socket w2 = m_socket w ∧ m_out w2 = m_out w) as (E1 & E2 & E3)
    by (unfold w2; by destruct shown).
  rewrite E1, E2, E3, ?Hs in *. split; [|eexists _, payload, frame; by split_and!].
  assert (∀ k, messages_at k w3 = messages_at k w1) as E by (intros k; rewrite Hsame; unfold w2; by destruct shown).
  destruct (changes_set key (λ l, l ++ [local]) w) as (? & ? & [= <- <-] & C1 & C2). split; [by rewrite E|]. intros k Hk. rewrite E. by apply C2.
Qed.
End Calm.

Lemma find_message_snoc id l m : find_message id l = None → msgId m = id → find_message id (l ++ [m]) = Some m.
Proof.
  intros Hl Hm. unfold find_message in *. induction l as [|x l IH]; cbn in *.
  - by rewrite bool_decide_true.
  - case_bool_decide; [done|auto].
Qed.
Lemma update_first_snoc id f l m : find_message id l = None → msgId m = id → update_first id f (l ++ [m]) = l ++ [f m].
Proof.
  intros Hl Hm. unfold find_message in *. induction l as [|x l IH]; cbn in *.
  - by rewrite decide_True.
  - case_bool_decide; [done|]. rewrite decide_False by done. f_equal. auto.
Qed.

Lemma request_id_used (h : ProtocolHandler (Closure Reply)) : fst (generateRequestId h) ≠ "".
Proof. unfold generateRequestId, request_id. done. Qed.

(** C9: a message sent over a valid session is shown at once as being sent, with the request that carries its text
    and its local id; an answer to that request that comes next, a frame or the end of its timer, settles it: with the code 0 and a
    payload that says so the message is sent, with the id and the time the server gave it; with any other code, with
    a payload that cannot be parsed or that says otherwise, and when time is up, it has failed and can be retried. The other messages
    are as they were, those of the conversation and those of the others. (Two messages sent in one
    millisecond would share their local id.) *)
Theorem sent_message_settles acc1 acc2 now1 now2 now' text i code payload w
    (key := convKey (m_currentChatId w) (m_currentChatType w))
    (local := local_message now1 (m_currentUserId w) (m_currentChatId w) (m_currentChatType w) text now')
    (id := fst (generateRequestId (m_protocol w)))
    (w1 := snd (step acc1 now1 (Send now' text) w)) (w2 := snd (step acc2 now2 i w1)) :
  isConnected (m_socket w) = true → m_sessionReady w = true → m_currentChatId w ≠ "" → text ≠ "" →
  find_message (msgId local) (messages_at key w) = None → answers id i code payload →
  messages_at key w1 = messages_at key w ++ [local] ∧
  (∃ request frame, SerializeToString (text_request (m_currentUserId w) local) = Some request ∧
     SerializeToString {| zcm_cmd := "chat.send_message"; zcm_payload := request; zcm_request_id := id |} = Some frame ∧
     m_out w1 = m_out w ++ [ToSocket (sendBinaryMessage frame)]) ∧
  messages_at key w2 = messages_at key w ++ [settled code payload local] ∧
  sending (settled code payload local) = false ∧
  (sendFailed (settled code payload local) = false ↔
     code = 0 ∧ ∃ resp, ParseFromString payload = Some resp ∧ zcsmr_success resp = true) ∧
  ∀ k, k ≠ key → messages_at k w2 = messages_at k w.
Proof.
  intros Hc Hr Hid Ht Hfresh Ha. destruct (run_send acc1 now1 now' text w Hc Hr Hid Ht)
    as ([C1 C2] & p & request & frame & Hp & Hf & Ho & Hpend & Hcb). fold key local id w1 in C1, C2, Hp, Hf, Ho, Hpend, Hcb.
  destruct (run_answers acc2 now2 id i code payload p _ w1 Ha (request_id_used _) Hpend Hcb) as (t & h & Hstep).
  destruct (run_reply_send acc2 now2 key (msgId local) (m_currentChatId w) (m_currentChatType w) code payload t
    (set_protocol (λ _, h) w1) local) as (w2' & Hrun & D1 & D2).
  { change (messages_at key (set_protocol (λ _, h) w1)) with (messages_at key w1). rewrite C1. by apply find_message_snoc. }
  assert (w2 = w2') as -> by (unfold w2; by rewrite Hstep, Hrun).
  split_and!; [done|by exists request, frame|..].
  - etrans; [exact D1|]. change (messages_at key (set_protocol (λ _, h) w1)) with (messages_at key w1). rewrite C1.
    by apply update_first_snoc.
  - unfold settled. repeat case_match; done.
  - unfold settled. split.
    + repeat case_match; try done; intros _; split; [lia|eauto].
    + intros (-> & resp & -> & Hs). rewrite decide_False by lia. by rewrite Hs.
  - intros k Hk. etrans; [by apply D2|]. by apply C2.
Qed.
End Sending.
#[export] Hint Resolve calm_output calm_protocol calm_save_convs calm_save_msgs calm_show_for calm_set_last calm_warn
  calm_validation : runs.

(** * Pages of messages that were missed *)

Section Offline.
Context {QByteArray : Type} `{!QtJson QByteArray} `{!StdSort} `{!ProtoBuf} `{!Qt}.
Notation Window := (Window QByteArray).
Implicit Types w : Window.
Variable acc : Access (QByteArray:=QByteArray).

Definition key_of (m : Message) : string := convKey (peer_of m) (chatType m).
Definition found_in (m : Message) (l : list Message) : bool := bool_decide (msgId m ≠ "" ∧ msgId m ∈ ids_of l).
Lemma found_in_spec m l : found_in m l = true ↔ msgId m ≠ "" ∧ is_Some (find_message (msgId m) l).
Proof.
  unfold found_in. rewrite bool_decide_eq_true, ids_of_elem, known_ids_elem. split.
  - intros (Hm & _ & x & Hx & Hid). split; [done|]. unfold find_message. destruct (find _ l) eqn:Hf; [done|].
    apply find_none with (x := x) in Hf; [|by apply list_elem_of_In]. by rewrite bool_decide_true in Hf.
  - intros (Hm & x & Hf). split_and!; [done..|]. unfold find_message in Hf. apply find_some in Hf as [Hx Hid%bool_decide_eq_true].
    exists x. split; [by apply list_elem_of_In|done].
Qed.
Lemma run_merge msg w : ∃ w', mergeOfflineMessage acc msg w = (Ret (negb (found_in msg (messages_at (key_of msg) w))), w') ∧
  if found_in msg (messages_at (key_of msg) w) then same_messages w w' else changes (key_of msg) (λ l, l ++ [msg]) w w'.
Proof.
  destruct (run_locate (key_of msg) (msgId msg) w) as (w1 & Hloc & Hsame).
  unfold mergeOfflineMessage. fold (key_of msg). rewrite (bind_run _ _ _ _ _ Hloc).
  destruct (found_in msg (messages_at (key_of msg) w)) eqn:Hf.
  - apply found_in_spec in Hf as [Hid [x Hx]]. rewrite decide_True, Hx by done. by exists w1.
  - assert ((if decide (msgId msg ≠ "") then find_message (msgId msg) (messages_at (key_of msg) w) else None) = None) as ->.
    { case_decide; [|done]. apply eq_None_not_Some. intros Hs. apply not_true_iff_false in Hf. by apply Hf, found_in_spec. }
    lazymatch goal with |- ∃ w', ?m w1 = _ ∧ _ =>
      assert (sure (changes (key_of msg) (λ l, l ++ [msg])) m) as Hm; [|assert (fst (m w1) = Ret true) as Htrue by reflexivity] end.
    { apply changes_then; [apply changes_set|intros _; unfold on_contact; walk]. }
    destruct (Hm w1) as (b & w' & Hrun & C1 & C2). rewrite Hrun in Htrue |- *. cbn in Htrue. simplify_eq. exists w'.
    split; [done|]. split; [by rewrite C1, Hsame|]. intros k Hk. by rewrite C2.
Qed.

Lemma ids_of_app l1 l2 : ids_of (l1 ++ l2) = ids_of l1 ∪ ids_of l2.
Proof. apply set_eq. intros i. by rewrite elem_of_union, !ids_of_elem, known_ids_app, elem_of_app. Qed.
Lemma dedupe_cons seen m l : dedupe seen (m :: l) =
  if decide (msgId m ≠ "" ∧ msgId m ∈ seen) then dedupe seen l else m :: dedupe (ids_of [m] ∪ seen) l.
Proof.
  cbn [dedupe]. assert (msgId m ≠ "" → ids_of [m] = {[msgId m]}) as Hone.
  { intros Hm. apply set_eq. intros i. rewrite ids_of_elem, known_ids_elem. set_solver. }
  assert (msgId m = "" → ids_of [m] = ∅) as Hnone.
  { intros Hm. apply set_eq. intros i. rewrite ids_of_elem, known_ids_elem. set_solver. }
  destruct (decide (msgId m ≠ "")) as [Hm|Hm].
  - destruct (decide (msgId m ∈ seen)); [by rewrite decide_True|]. rewrite decide_False by tauto. by rewrite Hone.
  - rewrite decide_False by tauto. rewrite Hnone by (by destruct (decide (msgId m = ""))). by rewrite (left_id_L ∅ (∪)).
Qed.
Lemma run_page me current page w : ∃ b w', merge_page acc me current page w = (Ret b, w') ∧
  ∀ key, messages_at key w' = messages_at key w ++
    dedupe (ids_of (messages_at key w)) (filter (λ m, key_of m = key) (to_message me <$> page)).
Proof.
  revert w. induction page as [|p page IH]; intros w; cbn [merge_page fmap list_fmap].
  { exists false, w. split; [done|]. intros key. by rewrite app_nil_r. }
  set (msg := to_message me p). destruct (run_merge msg w) as (w1 & Hrun & Hw1). destruct (IH w1) as (b & w' & Hpage & Hw').
  eexists _, w'. rewrite (bind_run _ _ _ _ _ Hrun), (bind_run _ _ _ _ _ Hpage). split; [done|]. intros key. rewrite Hw'.
  unfold found_in in Hw1. rewrite filter_cons. destruct (decide (key_of msg = key)) as [<-|Hk].
  - rewrite dedupe_cons. case_bool_decide as Hf.
    + by rewrite decide_True, Hw1 by done.
    + rewrite decide_False by done. destruct Hw1 as [-> _]. rewrite ids_of_app, <-app_assoc, (comm_L (∪)). done.
  - case_bool_decide; [by rewrite Hw1|]. destruct Hw1 as [_ Hw1]. by rewrite Hw1.
Qed.

(** What is merged already changes nothing. *)
Lemma merge_again msg w : found_in msg (messages_at (key_of msg) w) = true → mergeOfflineMessage acc msg w = (Ret false, w).
Proof.
  intros Hf. pose proof Hf as Hf'. apply found_in_spec in Hf' as [Hid [x Hx]].
  assert (m_messageMap w !! key_of msg = Some (messages_at (key_of msg) w)) as Hl.
  { unfold messages_at in *. by destruct (m_messageMap w !! key_of msg). }
  assert (set_messageMap (insert (key_of msg) (messages_at (key_of msg) w)) w = w) as Hw.
  { unfold set_messageMap. rewrite insert_id by done. by destruct w. }
  unfold mergeOfflineMessage, locate, set_messages, modify, mbind, M_bind, reads, mret, M_ret.
  fold (key_of msg). rewrite Hw, Hx, decide_True by done. done.
Qed.
Lemma page_again me current page w : (∀ p, p ∈ page → found_in (to_message me p) (messages_at (key_of (to_message me p)) w) = true) →
  merge_page acc me current page w = (Ret false, w).
Proof.
  induction page as [|p page IH]; intros Hf; [done|]. cbn [merge_page].
  rewrite (bind_run _ _ _ _ _ (merge_again _ _ (Hf p ltac:(left)))), (bind_run _ _ _ _ _ (IH (λ q Hq, Hf q ltac:(by right)))). done.
Qed.
Lemma dedupe_keeps seen l m : m ∈ l → msgId m ≠ "" → msgId m ∈ seen ∪ ids_of (dedupe seen l).
Proof.
  intros Hm Hid. revert seen. induction l as [|x l IH]; intros seen; [by apply not_elem_of_nil in Hm|].
  rewrite dedupe_cons. apply elem_of_cons in Hm as [<-|Hm].
  - case_decide as Hs; [set_solver|]. apply elem_of_union_r, ids_of_elem, known_ids_elem. split; [done|]. exists m. set_solver.
  - specialize (IH Hm). case_decide; [done|]. change (x :: ?k) with ([x] ++ k). rewrite ids_of_app.
    specialize (IH (ids_of [x] ∪ seen)). set_solver.
Qed.
End Offline.

Section Pages.
Context {QByteArray : Type} `{!QtJson QByteArray} `{!StdSort} `{!ProtoBuf} `{!Qt}.
Implicit Types w : Window QByteArray.

(** C11: a page of missed messages is merged once: the list of each conversation grows, behind what it had, by
    the messages of the page that are its own, in their order, without those whose id it has and without repetitions;
    and if the messages have ids, merging the same page again, when the server sends it a second time, touches nothing at all: no list,
    no count of unread messages, no conversation, no file. *)
Theorem offline_page_merged_once (acc : Access (QByteArray:=QByteArray)) me current page w : ∃ b w1,
  merge_page acc me current page w = (Ret b, w1) ∧
  (∀ key, messages_at key w1 = messages_at key w ++
     dedupe (ids_of (messages_at key w)) (filter (λ m, key_of m = key) (to_message me <$> page))) ∧
  ((∀ p, p ∈ page → zcmp_msg_id p ≠ "") → ∀ acc' current', merge_page acc' me current' page w1 = (Ret false, w1)).
Proof.
  destruct (run_page acc me current page w) as (b & w1 & Hrun & Hw1). exists b, w1. split_and!; [done..|].
  intros Hids acc' current'. apply page_again. intros p Hp. set (m := to_message me p).
  assert (msgId m ≠ "") as Hid by by apply Hids. apply bool_decide_eq_true. split; [done|].
  rewrite Hw1, ids_of_app. apply dedupe_keeps; [|done]. apply list_elem_of_filter. split; [done|]. by apply list_elem_of_fmap_2.
Qed.

(** What is kept of the list of a conversation beside a page of its history. *)
Definition beside (resp : ChatGetHistoryResponsePayload) (m : Message) : Prop :=
  msgId m ≠ "" ∧ msgId m ∉ zcmp_msg_id <$> zcghr_messages resp.
#[export] Instance beside_dec resp m : Decision (beside resp m).
Proof. unfold beside. apply _. Defined.

(** C16: the answer with a page of history replaces the list of the conversation by the messages of the page and those it had with other
    ids, in the order of time; the other conversations stay. A message of the page is one that was not recalled,
    whatever the list said before: the server keeps no trace of it in what it sends. *)
Theorem history_forgets_recalls (acc : Access (QByteArray:=QByteArray)) now id type resp w (key := convKey id type)
    (w' := snd (reply_history acc now id type 0 resp w)) :
  messages_at key w' ≡ₚ (to_message (m_currentUserId w) <$> zcghr_messages resp) ++
    filter (beside resp) (messages_at key w) ∧
  StronglySorted by_time (messages_at key w') ∧
  (∀ p m, p ∈ zcghr_messages resp → m ∈ messages_at key w' → msgId m = zcmp_msg_id p → status m = 0) ∧
  ∀ k, k ≠ key → messages_at k w' = messages_at k w.
Proof.
  set (server := to_message (m_currentUserId w) <$> zcghr_messages resp).
  set (messages := merge_history (m_currentUserId w) resp (messages_at key w)).
  assert (changes key (λ _, messages) w w') as [C1 C2].
  { unfold w', reply_history. rewrite decide_False by lia. do 2 (erewrite bind_run; [|reflexivity]). cbv zeta.
    apply sure_run. apply changes_then; [apply changes_set|]. intros _. unfold sendMarkRead, on_chat. walk. }
  assert (messages ≡ₚ server ++ filter (λ m, msgId m ≠ "" ∧ msgId m ∉ ids_of server) (messages_at key w)) as Hp by apply std_sort_perm.
  assert (∀ i, i ≠ "" → i ∈ ids_of server ↔ i ∈ zcmp_msg_id <$> zcghr_messages resp) as Hids.
  { intros i Hi. unfold server. rewrite ids_of_elem, known_ids_elem, !list_elem_of_fmap. setoid_rewrite list_elem_of_fmap. naive_solver. }
  assert (filter (λ m, msgId m ≠ "" ∧ msgId m ∉ ids_of server) (messages_at key w) =
          filter (beside resp) (messages_at key w)) as Hfil.
  { apply list_filter_iff. intros m. split; intros [Hm Hn]; (split; [done|]); [by rewrite <-Hids|by rewrite Hids]. }
  rewrite C1. split_and!; [by rewrite <-Hfil|exact (std_sort_sorted older by_time _ _ _ older_spec)| |done].
  intros p m Hq Hm Hid. rewrite Hp in Hm. apply elem_of_app in Hm as [Hm|Hm].
  - by apply list_elem_of_fmap in Hm as (q & -> & _).
  - apply list_elem_of_filter in Hm as [[Hne Hn] _]. destruct Hn. rewrite Hids by done. rewrite Hid. by apply list_elem_of_fmap_2.
Qed.
End Pages.

(** * Counts of unread messages *)

Section Unread.
Context {QByteArray : Type} `{!QtJson QByteArray} `{!StdSort} `{!ProtoBuf} `{!Qt}.
Implicit Types w : Window QByteArray.

(** The conversations stay, in the window and in its widget, and so does the one that is chosen. *)
Definition same_convs : relation (Window QByteArray) := λ w w',
  m_conversationMap w' = m_conversationMap w ∧ m_contactWidget w' = m_contactWidget w ∧
  m_currentUserId w' = m_currentUserId w ∧ m_currentChatId w' = m_currentChatId w ∧ m_currentChatType w' = m_currentChatType w.
#[export] Instance same_convs_preorder : PreOrder same_convs.
Proof. split; [by intros w|]. intros w1 w2 w3 (?&?&?&?&?) (?&?&?&?&?). unfold same_convs. split_and!; congruence. Qed.
Lemma convs_protocol op failed : sure same_convs failed → sure same_convs (on_protocol op failed).
Proof. intros Hf. unfold on_protocol, emitted, send_data. walk. Qed.
Lemma convs_mark_read now : sure same_convs (sendMarkRead now).
Proof. unfold sendMarkRead. walk. apply convs_protocol. walk. Qed.
Lemma convs_pull now limit : sure same_convs (pullOfflineMessages now limit).
Proof. unfold pullOfflineMessages, request, request_or. walk. apply convs_protocol. walk. Qed.
Lemma convs_history now id type : sure same_convs (loadHistory now id type).
Proof. apply convs_protocol. walk. Qed.
#[local] Hint Resolve convs_mark_read convs_pull convs_history : runs.

Lemma run_select acc now id type w (w' := snd (step acc now (Select id type) w)) :
  m_conversationMap w' = m_conversationMap w ∧ m_contactWidget w' = setCurrentChat id (m_contactWidget w) ∧
  m_currentUserId w' = m_currentUserId w ∧ m_currentChatId w' = id ∧ m_currentChatType w' = type.
Proof.
  set (w1 := set_contactWidget (setCurrentChat id) (set_currentChatType (λ _, type) (set_currentChatId (λ _, id) w))).
  assert (same_convs w1 w') as (?&?&?&?&?); [|done].
  unfold w'. cbn [step]. unfold onConversationSelected. do 2 (erewrite bind_run; [|reflexivity]).
  do 3 (erewrite bind_run; [|reflexivity]). fold w1. apply sure_run.
  unfold on_chat, set_messages. walk.
Qed.
Lemma run_push_message acc now p w (msg := to_message (m_currentUserId w) p) (key := key_of msg)
    (w' := snd (push_message acc now p w)) :
  isSelf msg = false → ¬ (peer_of msg = m_currentChatId w ∧ chatType msg = m_currentChatType w) →
  ∃ conv, unreadCount conv = wrap32 (unreadCount (default Conversation_new (m_conversationMap w !! key)) + 1) ∧
    chatId conv = peer_of msg ∧ c_chatType conv = chatType msg ∧ lastMessage conv = msg ∧
    m_conversationMap w' = <[key := conv]> (m_conversationMap w) ∧ m_contactWidget w' = upsertConversation conv (m_contactWidget w) ∧
    messages_at key w' = messages_at key w ++ [msg].
Proof.
  intros Hs Hc. set (conv := with_unread (wrap32 (unreadCount (default Conversation_new (m_conversationMap w !! key)) + 1))
    (with_last msg (conversation_for (peer_of msg) (chatType msg) (default Conversation_new (m_conversationMap w !! key))))).
  set (w1 := set_messageMap (insert key (messages_at key w ++ [msg])) w).
  set (w2 := set_contactWidget (upsertConversation conv) (set_conversationMap (insert key conv) w1)).
  assert (is_current (peer_of msg) (chatType msg) w1 = false) as Hcur by by apply bool_decide_eq_false.
  assert (push_message acc now p w = (_ ← saveMessagesToLocal acc (peer_of msg) (chatType msg); saveConversationsToLocal acc) w2) as Hrun.
  { unfold push_message. erewrite bind_run; [|reflexivity]. fold msg. fold (key_of msg). fold key.
    erewrite bind_run; [|reflexivity]. do 2 (erewrite bind_run; [|reflexivity]). fold w1. rewrite Hcur. cbn [negb andb when_].
    rewrite Hs. cbn [negb]. do 2 (erewrite bind_run; [|reflexivity]). reflexivity. }
  assert (same_convs w2 w') as (-> & -> & _) by (unfold w'; rewrite Hrun; apply sure_run; unfold saveMessagesToLocal, saveConversationsToLocal; walk).
  assert (same_messages w2 w') as -> by (unfold w'; rewrite Hrun; apply sure_run; walk).
  exists conv. split_and!; try done. unfold w2, w1, messages_at. cbn. by rewrite lookup_insert_eq.
Qed.
Lemma upsert_elem conv cw : conv ∈ cw_conversations (upsertConversation conv cw).
Proof.
  unfold upsertConversation, set_conversations. cbn. generalize (cw_conversations cw) as l. intros l.
  induction l as [|y l IH]; cbn; [by left|]. case_decide; cbn; [by left|].
  destruct (replace_conversation conv l) as [k|]; cbn in *; [by right|left].
Qed.
(** A frame that carries a pushed message. *)
Lemma run_push_frame acc now data sm p w : ParseFromString data = Some sm → zsm_request_id sm = "" → zsm_cmd sm = "chat.message" →
  ParseFromString (zsm_payload sm) = Some p → step acc now (Frame data) w = push_message acc now p w.
Proof.
  intros Hsm Hid Hcmd Hp. cbn [step]. rewrite run_events.
  assert (handleMessage data (m_protocol w) = ([newMessageNotify (zsm_payload sm)], m_protocol w)) as ->.
  { unfold handleMessage. rewrite Hsm, Hid, decide_False by tauto. cbv zeta beta iota. unfold dispatch_push.
    by rewrite decide_True by auto. }
  cbn [fst snd for_each on_event]. unfold onPushNewMessage. rewrite Hp.
  replace (set_protocol (λ _, m_protocol w) w) with w by by destruct w.
  unfold mbind, M_bind, mret, M_ret. by destruct (push_message acc now p w) as [[[]|] w'].
Qed.

(** the counts of unread messages are not those of what is unread. To open a conversation sets the counts the list shows to 0
    for every entry with its id, be it of a person or a group, and leaves that of the window's table; the first
    message that is pushed after another conversation was opened brings the old count back, plus one. *)
Theorem read_messages_counted_again acc now1 now2 now3 id other other_type data sm p c w
    (w1 := snd (step acc now1 (Select id 1) w)) (w2 := snd (step acc now2 (Select other other_type) w1))
    (w3 := snd (step acc now3 (Frame data) w2)) :
  m_conversationMap w !! convKey id 1 = Some c → other ≠ id → id ≠ m_currentUserId w →
  ParseFromString data = Some sm → zsm_request_id sm = "" → zsm_cmd sm = "chat.message" →
  ParseFromString (zsm_payload sm) = Some p → zcmp_from_user_id p = id → zcmp_chat_type p = 1 →
  (∀ x, x ∈ cw_conversations (m_contactWidget w1) → chatId x = id → unreadCount x = 0) ∧
  ∃ x, x ∈ cw_conversations (m_contactWidget w3) ∧ chatId x = id ∧ c_chatType x = 1 ∧
       unreadCount x = wrap32 (unreadCount c + 1).
Proof.
  intros Hc Ho Hme Hsm Hid Hcmd Hp Hfrom Htype.
  destruct (run_select acc now1 id 1 w) as (E1 & W1 & U1 & _).
  destruct (run_select acc now2 other other_type w1) as (E2 & W2 & U2 & C2 & T2). fold w1 in E1, W1, U1. fold w2 in E2, W2, U2, C2, T2.
  split.
  - rewrite W1. cbn. intros x (y & -> & _)%list_elem_of_fmap. by case_decide.
  - assert (isSelf (to_message (m_currentUserId w2) p) = false) as Hs.
    { cbn. rewrite bool_decide_eq_false. congruence. }
    assert (peer_of (to_message (m_currentUserId w2) p) = id) as Hpeer.
    { unfold peer_of. rewrite Hs. cbn. by rewrite decide_True. }
    destruct (run_push_message acc now3 p w2) as (conv & Hn & Hi & Ht & _ & _ & Hw & _); [done|rewrite Hpeer, C2; by intros [? _]|].
    exists conv. unfold w3. rewrite (run_push_frame acc now3 data sm p w2) by done. rewrite Hw. split_and!.
    + apply upsert_elem.
    + by rewrite Hi, Hpeer.
    + by rewrite Ht.
    + rewrite Hn. unfold key_of. rewrite Hpeer. cbn [to_message chatType]. rewrite Htype, E2, E1, Hc. done.
Qed.
End Unread.

(** * A run of a window *)

#[export] Instance some_qt : Qt := {|
  trimmed := Utils.Trim; toLower := Utils.ToLower;
  containsCI := λ s t, bool_decide (is_Some (Utils.str_find (Utils.ToLower t) (Utils.ToLower s)));
  fromUserInput := λ s, {| url_valid := true; url_scheme := "ws"; url_host := s; url_path := "/ws" |};
  isLetterOrNumber := letter_or_digit; storageDir := "/data" |}.
Notation MemWindow := (Window (gmap string QJsonValue)).
Definition server_text (cmd payload id : string) (code : Z) : string :=
  default "" (SerializeToString {| zsm_cmd := cmd; zsm_payload := payload; zsm_request_id := id; zsm_code := code;
                                   zsm_message := "" |}).
Definition text_of {A} `{!Msg A} (a : A) : string := default "" (SerializeToString a).
(** Alice's window connects and has its token checked. *)
Definition new_window : MemWindow := Window_new "alice" "t" "ws://gate/ws" cache0.
Definition valid_frame : string := Eval vm_compute in
  server_text "auth.validate_token" (text_of {| zavtr_user_id := "alice" |}) "req_1" 0.
Definition logging_in : list (Access (QByteArray:=gmap string QJsonValue) * Z * UiInput) :=
  [(works, 1, SocketIs ConnectedState); (works, 1, SocketUp); (works, 300, ValidationTimer); (works, 400, Frame valid_frame);
   (works, 500, Select "bob" 1)].
Lemma ready_since_validation_witness : ∃ before acc now data after, logging_in = before ++ (acc, now, Frame data) :: after ∧
  validated_by data (run_window before new_window) ∧ Forall (λ x, x.2 ≠ SocketUp ∧ x.2 ≠ SocketDown) after.
Proof.
  assert (m_sessionReady (run_window logging_in new_window) = true) as Hready by eval_eq.
  destruct (ready_since_validation "alice" "t" "ws://gate/ws" cache0 logging_in Hready) as (b & a & n & d & r & Heq & Hv & _ & Hall).
  exists b, a, n, d, r. exact (conj Heq (conj Hv Hall)).
Defined.

(** She writes to Bob; the server takes the message, or is silent. *)
Definition talking_window : MemWindow := Eval vm_compute in run_window logging_in new_window.
Definition sent_payload : string := Eval vm_compute in
  text_of {| zcsmr_success := true; zcsmr_msg_id := "m9"; zcsmr_timestamp := 777; zcsmr_error := "" |}.
Definition sent_frame : string := Eval vm_compute in server_text "chat.send_message" sent_payload "req_4" 0.
Notation hello := (local_message 600 "alice" "bob" 1 "hello" 601).
Definition two_before : list Message := Eval vm_compute in messages_at (convKey "bob" 1) talking_window.
Example ids_before : msgId <$> two_before = ["m2"; "m1"].
Proof. reflexivity. Qed.
Definition sent_resp : ChatSendMessageResponsePayload :=
  {| zcsmr_success := true; zcsmr_msg_id := "m9"; zcsmr_timestamp := 777; zcsmr_error := "" |}.
Lemma sent_message_settles_witness :
  messages_at (convKey "bob" 1) (snd (step works 600 (Send 601 "hello") talking_window)) = two_before ++ [hello] ∧
  messages_at (convKey "bob" 1) (snd (step works 700 (Frame sent_frame) (snd (step works 600 (Send 601 "hello") talking_window)))) =
    two_before ++ [sent_as sent_resp hello] ∧
  messages_at (convKey "bob" 1) (snd (step works 10700 (RequestTimeout "req_4") (snd (step works 600 (Send 601 "hello") talking_window)))) =
    two_before ++ [with_flags false true hello].
Proof.
  assert (isConnected (m_socket talking_window) = true) as Hc by reflexivity.
  assert (m_sessionReady talking_window = true) as Hr by reflexivity.
  assert (m_currentChatId talking_window = "bob") as Hid by reflexivity.
  assert (m_currentChatType talking_window = 1) as Hty by reflexivity.
  assert (m_currentUserId talking_window = "alice") as Hme by reflexivity.
  assert (messages_at (convKey "bob" 1) talking_window = two_before) as Hb by eval_eq.
  assert (find_message (msgId hello) two_before = None) as Hn by eval_eq.
  assert (fst (generateRequestId (m_protocol talking_window)) = "req_4") as Hrid by eval_eq.
  assert (settled 0 sent_payload hello = sent_as sent_resp hello) as Hs by eval_eq.
  pose proof (λ now i code payload, sent_message_settles works works 600 now 601 "hello" i code payload talking_window Hc Hr) as Hall.
  cbv zeta in Hall. rewrite Hid, Hty, Hme, Hb, Hrid in Hall.
  assert (answers "req_4" (Frame sent_frame) 0 sent_payload) as Hyes.
  { exists {| zsm_cmd := "chat.send_message"; zsm_payload := sent_payload; zsm_request_id := "req_4"; zsm_code := 0;
              zsm_message := "" |}. by split; [eval_eq|]. }
  assert (answers "req_4" (RequestTimeout "req_4") (-2) "") as Hno by by split_and!.
  assert ("bob" ≠ "") as Hbob by done. assert ("hello" ≠ "") as Htext by done.
  destruct (Hall 700 _ _ _ Hbob Htext Hn Hyes) as (Hw1 & _ & Hw2 & _).
  destruct (Hall 10700 _ _ _ Hbob Htext Hn Hno) as (_ & _ & Hw3 & _).
  rewrite Hs in Hw2. exact (conj Hw1 (conj Hw2 Hw3)).
Defined.

(** Two messages of Bob's come in, she opens his conversation and then Carol's, and a third comes. *)
Definition pushed (id : string) (t : Z) : ChatMessagePushPayload :=
  {| zcmp_msg_id := id; zcmp_from_user_id := "bob"; zcmp_to_id := "alice"; zcmp_chat_type := 1; zcmp_content := "hi";
     zcmp_media_url := ""; zcmp_media_type := "text"; zcmp_timestamp := t; zcmp_mentions := [];
     zcmp_reply_to_msg_id := "" |}.
Definition push_frame (p : ChatMessagePushPayload) : string := server_text "chat.message" (text_of p) "" 0.
Definition unread_window : MemWindow := Eval vm_compute in
  run_window [(works, 1, SocketIs ConnectedState); (works, 2, Frame (push_frame (pushed "n1" 1)));
              (works, 3, Frame (push_frame (pushed "n2" 2)))] new_window.
Definition third_frame : string := Eval vm_compute in push_frame (pushed "n3" 3).
Definition bobs : Conversation := Eval vm_compute in
  default Conversation_new (m_conversationMap unread_window !! convKey "bob" 1).
Lemma read_messages_counted_again_witness : unreadCount bobs = 2 ∧
  ∃ x, x ∈ cw_conversations (m_contactWidget (snd (step works 6 (Frame third_frame)
      (snd (step works 5 (Select "carol" 1) (snd (step works 4 (Select "bob" 1) unread_window))))))) ∧
    chatId x = "bob" ∧ c_chatType x = 1 ∧ unreadCount x = 3.
Proof.
  assert (m_conversationMap unread_window !! convKey "bob" 1 = Some bobs) as Hc by eval_eq.
  assert ("bob" ≠ m_currentUserId unread_window) as Hme by done.
  assert (ParseFromString third_frame = Some {| zsm_cmd := "chat.message"; zsm_payload := text_of (pushed "n3" 3);
    zsm_request_id := ""; zsm_code := 0; zsm_message := "" |}) as Hsm by eval_eq.
  assert (ParseFromString (text_of (pushed "n3" 3)) = Some (pushed "n3" 3)) as Hp by eval_eq.
  split; [reflexivity|].
  exact (proj2 (read_messages_counted_again works 4 5 6 "bob" "carol" 1 third_frame _ (pushed "n3" 3) bobs unread_window
    Hc ltac:(done) Hme Hsm eq_refl eq_refl Hp eq_refl eq_refl)).
Defined.

(** A message of her own stays in the file under its local id, as being sent, once a message that came in before
    the answer has had the conversation written. *)
Definition cached_twice : list (string * bool) := Eval vm_compute in
  (λ m, (msgId m, sending m)) <$> loadMessages "/data" letter_or_digit works "alice" "bob" 1 500
    (m_disk (run_window [(works, 600, Send 601 "hello"); (works, 650, Frame third_frame); (works, 700, Frame sent_frame)]
       talking_window)).
Example cached_twice_is : cached_twice =
  [("n3", false); ("m1", false); ("m2", false); ("local_600", true); ("m9", false)].
Proof. reflexivity. Qed.

(** The friend who disappears from the list is the one whose profile is open when the answer comes. *)
Definition friend_named (id : string) : FriendItem := with_friend_id id FriendItem_new.
Definition friends_window : MemWindow := set_contactWidget (setFriends [friend_named "bob"; friend_named "carol"]) talking_window.
Definition removed_frame : string := Eval vm_compute in server_text "friend.remove" "" "req_4" 0.
Definition friends_after : list string := Eval vm_compute in
  fi_friendId <$> cw_friends (m_contactWidget (run_window
    [(works, 1, OpenProfile "bob"); (works, 2, RemoveFriend true); (works, 3, OpenProfile "carol"); (works, 4, Frame removed_frame)]
    friends_window)).
Example wrong_friend_disappears : friends_after = ["bob"].
Proof. reflexivity. Qed.
