(* ===== verification/LoginWindow.v ===== *)
(** The login window of the desktop client: [client/desktop/src/ui/loginwindow.cpp].  It connects the socket, sends the
    login and the registration, and opens the main window; it lives as long as the program, and reconnects.

    [m_settings] is part of its state.  The dialogs appear as what was entered in them; the buttons' looks and the log
    are left out. *)

From S2P Require Import Prelude External Utils Proto ZonePayloads Client.
From S2P Require MainWindow.
From S2P Require Desktop.
Import MainWindow (Qt, trimmed, toLower, containsCI, fromUserInput).

Inductive LReply : Type := LLogin | LRegister (username : string) | LValidate | LHeartbeat.
Inductive LOutput : Type :=
  | LToSocket (e : WsEvent)
  | LWarning (title text : string)
  | LInformation (title text : string)
  | LloginSuccess (userId token : string)
  | LSetUser (username : string).      (* the text of the field for the user name *)
Record LoginWindow : Type := {
  l_protocol : ProtocolHandler (Closure LReply); l_socket : SocketState; l_serverUrl : string;
  l_savedUserId : string; l_savedToken : string; l_loginInFlight : bool; l_registerInFlight : bool;
  l_loginPendingAfterConnect : bool; l_pendingLoginUsername : string; l_pendingLoginPassword : string;
  l_enabled : bool; l_reconnectTimer : bool; l_loginPage : bool; l_reason : string; l_status : string;
  l_mainWindow : option string; l_out : list LOutput }.
Definition put_protocol (f : (ProtocolHandler (Closure LReply)) → (ProtocolHandler (Closure LReply))) (w : LoginWindow) : LoginWindow :=
  Build_LoginWindow (f (l_protocol w)) (l_socket w) (l_serverUrl w) (l_savedUserId w) (l_savedToken w)
    (l_loginInFlight w) (l_registerInFlight w) (l_loginPendingAfterConnect w) (l_pendingLoginUsername w)
    (l_pendingLoginPassword w) (l_enabled w) (l_reconnectTimer w) (l_loginPage w) (l_reason w) (l_status w)
    (l_mainWindow w) (l_out w).
Definition put_socket (f : SocketState → SocketState) (w : LoginWindow) : LoginWindow :=
  Build_LoginWindow (l_protocol w) (f (l_socket w)) (l_serverUrl w) (l_savedUserId w) (l_savedToken w)
    (l_loginInFlight w) (l_registerInFlight w) (l_loginPendingAfterConnect w) (l_pendingLoginUsername w)
    (l_pendingLoginPassword w) (l_enabled w) (l_reconnectTimer w) (l_loginPage w) (l_reason w) (l_status w)
    (l_mainWindow w) (l_out w).
Definition put_serverUrl (f : string → string) (w : LoginWindow) : LoginWindow :=
  Build_LoginWindow (l_protocol w) (l_socket w) (f (l_serverUrl w)) (l_savedUserId w) (l_savedToken w)
    (l_loginInFlight w) (l_registerInFlight w) (l_loginPendingAfterConnect w) (l_pendingLoginUsername w)
    (l_pendingLoginPassword w) (l_enabled w) (l_reconnectTimer w) (l_loginPage w) (l_reason w) (l_status w)
    (l_mainWindow w) (l_out w).
Definition put_savedUserId (f : string → string) (w : LoginWindow) : LoginWindow :=
  Build_LoginWindow (l_protocol w) (l_socket w) (l_serverUrl w) (f (l_savedUserId w)) (l_savedToken w)
    (l_loginInFlight w) (l_registerInFlight w) (l_loginPendingAfterConnect w) (l_pendingLoginUsername w)
    (l_pendingLoginPassword w) (l_enabled w) (l_reconnectTimer w) (l_loginPage w) (l_reason w) (l_status w)
    (l_mainWindow w) (l_out w).
Definition put_savedToken (f : string → string) (w : LoginWindow) : LoginWindow :=
  Build_LoginWindow (l_protocol w) (l_socket w) (l_serverUrl w) (l_savedUserId w) (f (l_savedToken w))
    (l_loginInFlight w) (l_registerInFlight w) (l_loginPendingAfterConnect w) (l_pendingLoginUsername w)
    (l_pendingLoginPassword w) (l_enabled w) (l_reconnectTimer w) (l_loginPage w) (l_reason w) (l_status w)
    (l_mainWindow w) (l_out w).
Definition put_loginInFlight (f : bool → bool) (w : LoginWindow) : LoginWindow :=
  Build_LoginWindow (l_protocol w) (l_socket w) (l_serverUrl w) (l_savedUserId w) (l_savedToken w) (f
    (l_loginInFlight w)) (l_registerInFlight w) (l_loginPendingAfterConnect w) (l_pendingLoginUsername w)
    (l_pendingLoginPassword w) (l_enabled w) (l_reconnectTimer w) (l_loginPage w) (l_reason w) (l_status w)
    (l_mainWindow w) (l_out w).
Definition put_registerInFlight (f : bool → bool) (w : LoginWindow) : LoginWindow :=
  Build_LoginWindow (l_protocol w) (l_socket w) (l_serverUrl w) (l_savedUserId w) (l_savedToken w)
    (l_loginInFlight w) (f (l_registerInFlight w)) (l_loginPendingAfterConnect w) (l_pendingLoginUsername w)
    (l_pendingLoginPassword w) (l_enabled w) (l_reconnectTimer w) (l_loginPage w) (l_reason w) (l_status w)
    (l_mainWindow w) (l_out w).
Definition put_loginPendingAfterConnect (f : bool → bool) (w : LoginWindow) : LoginWindow :=
  Build_LoginWindow (l_protocol w) (l_socket w) (l_serverUrl w) (l_savedUserId w) (l_savedToken w)
    (l_loginInFlight w) (l_registerInFlight w) (f (l_loginPendingAfterConnect w)) (l_pendingLoginUsername w)
    (l_pendingLoginPassword w) (l_enabled w) (l_reconnectTimer w) (l_loginPage w) (l_reason w) (l_status w)
    (l_mainWindow w) (l_out w).
Definition put_pendingLoginUsername (f : string → string) (w : LoginWindow) : LoginWindow :=
  Build_LoginWindow (l_protocol w) (l_socket w) (l_serverUrl w) (l_savedUserId w) (l_savedToken w)
    (l_loginInFlight w) (l_registerInFlight w) (l_loginPendingAfterConnect w) (f (l_pendingLoginUsername w))
    (l_pendingLoginPassword w) (l_enabled w) (l_reconnectTimer w) (l_loginPage w) (l_reason w) (l_status w)
    (l_mainWindow w) (l_out w).
Definition put_pendingLoginPassword (f : string → string) (w : LoginWindow) : LoginWindow :=
  Build_LoginWindow (l_protocol w) (l_socket w) (l_serverUrl w) (l_savedUserId w) (l_savedToken w)
    (l_loginInFlight w) (l_registerInFlight w) (l_loginPendingAfterConnect w) (l_pendingLoginUsername w) (f
    (l_pendingLoginPassword w)) (l_enabled w) (l_reconnectTimer w) (l_loginPage w) (l_reason w) (l_status w)
    (l_mainWindow w) (l_out w).
Definition put_enabled (f : bool → bool) (w : LoginWindow) : LoginWindow :=
  Build_LoginWindow (l_protocol w) (l_socket w) (l_serverUrl w) (l_savedUserId w) (l_savedToken w)
    (l_loginInFlight w) (l_registerInFlight w) (l_loginPendingAfterConnect w) (l_pendingLoginUsername w)
    (l_pendingLoginPassword w) (f (l_enabled w)) (l_reconnectTimer w) (l_loginPage w) (l_reason w) (l_status w)
    (l_mainWindow w) (l_out w).
Definition put_reconnectTimer (f : bool → bool) (w : LoginWindow) : LoginWindow :=
  Build_LoginWindow (l_protocol w) (l_socket w) (l_serverUrl w) (l_savedUserId w) (l_savedToken w)
    (l_loginInFlight w) (l_registerInFlight w) (l_loginPendingAfterConnect w) (l_pendingLoginUsername w)
    (l_pendingLoginPassword w) (l_enabled w) (f (l_reconnectTimer w)) (l_loginPage w) (l_reason w) (l_status w)
    (l_mainWindow w) (l_out w).
Definition put_loginPage (f : bool → bool) (w : LoginWindow) : LoginWindow :=
  Build_LoginWindow (l_protocol w) (l_socket w) (l_serverUrl w) (l_savedUserId w) (l_savedToken w)
    (l_loginInFlight w) (l_registerInFlight w) (l_loginPendingAfterConnect w) (l_pendingLoginUsername w)
    (l_pendingLoginPassword w) (l_enabled w) (l_reconnectTimer w) (f (l_loginPage w)) (l_reason w) (l_status w)
    (l_mainWindow w) (l_out w).
Definition put_reason (f : string → string) (w : LoginWindow) : LoginWindow :=
  Build_LoginWindow (l_protocol w) (l_socket w) (l_serverUrl w) (l_savedUserId w) (l_savedToken w)
    (l_loginInFlight w) (l_registerInFlight w) (l_loginPendingAfterConnect w) (l_pendingLoginUsername w)
    (l_pendingLoginPassword w) (l_enabled w) (l_reconnectTimer w) (l_loginPage w) (f (l_reason w)) (l_status w)
    (l_mainWindow w) (l_out w).
Definition put_status (f : string → string) (w : LoginWindow) : LoginWindow :=
  Build_LoginWindow (l_protocol w) (l_socket w) (l_serverUrl w) (l_savedUserId w) (l_savedToken w)
    (l_loginInFlight w) (l_registerInFlight w) (l_loginPendingAfterConnect w) (l_pendingLoginUsername w)
    (l_pendingLoginPassword w) (l_enabled w) (l_reconnectTimer w) (l_loginPage w) (l_reason w) (f (l_status w))
    (l_mainWindow w) (l_out w).
Definition put_mainWindow (f : (option string) → (option string)) (w : LoginWindow) : LoginWindow :=
  Build_LoginWindow (l_protocol w) (l_socket w) (l_serverUrl w) (l_savedUserId w) (l_savedToken w)
    (l_loginInFlight w) (l_registerInFlight w) (l_loginPendingAfterConnect w) (l_pendingLoginUsername w)
    (l_pendingLoginPassword w) (l_enabled w) (l_reconnectTimer w) (l_loginPage w) (l_reason w) (l_status w) (f
    (l_mainWindow w)) (l_out w).
Definition put_out (f : (list LOutput) → (list LOutput)) (w : LoginWindow) : LoginWindow :=
  Build_LoginWindow (l_protocol w) (l_socket w) (l_serverUrl w) (l_savedUserId w) (l_savedToken w)
    (l_loginInFlight w) (l_registerInFlight w) (l_loginPendingAfterConnect w) (l_pendingLoginUsername w)
    (l_pendingLoginPassword w) (l_enabled w) (l_reconnectTimer w) (l_loginPage w) (l_reason w) (l_status w)
    (l_mainWindow w) (f (l_out w)).

Section LoginWindow.
Context `{!ProtoBuf} `{!Qt}.
Notation LM := (M LoginWindow).
Variable deviceId : string.
Variable now : Z.

Definition l_emit (o : LOutput) : LM unit := modify (put_out (λ l, l ++ [o])).
Definition setText (s : string) : LM unit := modify (put_status (λ _, s)).
Definition setLoginUiEnabled (b : bool) : LM unit := modify (put_enabled (λ _, b)).
Definition kServerUrl : string := "ws://117.72.44.96:9090/ws".
Definition currentServerUrl : string := kServerUrl.
Definition showDisconnectedState (reason : string) : LM unit :=
  modify (λ w, put_loginPage (λ _, false) (put_reason (λ _, if decide (reason = "") then "当前无法连接到服务器。" else reason) w)).
Definition showLoginState : LM unit := modify (put_loginPage (λ _, true)).
Definition hasSavedSession (w : LoginWindow) : bool :=
  bool_decide (trimmed (l_savedUserId w) ≠ "" ∧ trimmed (l_savedToken w) ≠ "").
Definition cancelAutoReconnect : LM unit := modify (put_reconnectTimer (λ _, false)).
Definition scheduleAutoReconnect : LM unit :=
  modify (λ w, put_reconnectTimer (λ _, hasSavedSession w && negb (isConnected (l_socket w))) w).

(** What [onDisconnected] and [onConnectionError] begin with. *)
Definition forget_requests : LM unit :=
  modify (λ w, put_loginInFlight (λ _, false) (put_registerInFlight (λ _, false)
    (put_loginPendingAfterConnect (λ _, false) (put_pendingLoginUsername (λ _, "")
    (put_pendingLoginPassword (λ _, "") (put_enabled (λ _, true) w)))))).
Definition onDisconnected : LM unit :=
  _ ← forget_requests;
  saved ← reads hasSavedSession;
  _ ← showDisconnectedState (if (saved : bool) then "与服务器的连接已断开，将在 3 秒后自动重连。"
                             else "与服务器的连接已断开，请点击刷新图标重连。");
  scheduleAutoReconnect.
Definition refused_hint : string :=
  "

常见原因：
• 服务(GateSvr)未启动或未监听 9090
• 防火墙拒绝该端口
• 网关/路由器需开放 9090
• Minikube：确认服务已暴露(NodePort/port-forward)".
Definition onConnectionError (error : string) : LM unit :=
  let detail := if containsCI error "ConnectionRefused" || bool_decide (is_Some (str_find "请求被拒绝" error))
                then error +:+ refused_hint else error in
  _ ← forget_requests;
  saved ← reads hasSavedSession;
  _ ← showDisconnectedState ("连接失败：
" +:+ detail +:+ if (saved : bool) then "

将在 3 秒后自动重连。" else "");
  scheduleAutoReconnect.
(** The signals of the socket that are emitted while it is used; the rest is asked of it. *)
Definition socket_event (e : WsEvent) : LM unit :=
  match e with errorOccurred error => onConnectionError error | _ => l_emit (LToSocket e) end.
Definition doConnect : LM unit :=
  _ ← cancelAutoReconnect;
  _ ← modify (put_serverUrl (λ _, currentServerUrl));
  _ ← showDisconnectedState "正在尝试连接服务器...";
  socket ← reads l_socket;
  for_each (connect trimmed toLower fromUserInput socket currentServerUrl) socket_event.

(** ** Answers *)

Definition login_reply (code : Z) (message : string) (resp : AuthLoginResponsePayload) : LM unit :=
  _ ← modify (put_loginInFlight (λ _, false));
  _ ← setLoginUiEnabled true;
  if decide (code ≠ 0) then
    _ ← setText ("登录失败 code=" +:+ pretty code);
    l_emit (LWarning "登录失败" (if decide (trimmed message = "") then "服务器返回错误码：" +:+ pretty code else message))
  else if decide (zalr_success resp = false ∨ zalr_user_id resp = "" ∨ zalr_token resp = "") then
    _ ← setText "登录失败";
    l_emit (LWarning "登录失败" (if decide (zalr_error resp = "") then "用户名或密码错误" else zalr_error resp))
  else
    _ ← modify (λ w, put_savedUserId (λ _, zalr_user_id resp) (put_savedToken (λ _, zalr_token resp) w));
    _ ← l_emit (LloginSuccess (zalr_user_id resp) (zalr_token resp));
    _ ← setText "登录成功";
    modify (put_mainWindow (λ o, Some (default (zalr_user_id resp) o))).
Definition register_reply (username : string) (code : Z) (data : string) : LM unit :=
  _ ← modify (put_registerInFlight (λ _, false));
  _ ← setLoginUiEnabled true;
  let resp : option AuthRegisterResponsePayload := ParseFromString data in
  if decide (code ≠ 0) then
    _ ← setText ("注册失败 code=" +:+ pretty code);
    l_emit (LWarning "注册失败" (match resp with
      | Some resp => if decide (zarr_error resp = "") then "服务器返回错误码：" +:+ pretty code else zarr_error resp
      | None => "服务器返回错误码：" +:+ pretty code
      end))
  else match resp with
       | None => _ ← setText "注册失败：响应解析失败"; l_emit (LWarning "注册失败" "注册响应解析失败。")
       | Some resp =>
           if negb (zarr_success resp) then
             _ ← setText "注册失败";
             l_emit (LWarning "注册失败" (if decide (zarr_error resp = "") then "注册失败" else zarr_error resp))
           else
             _ ← l_emit (LSetUser username);
             _ ← setText "注册成功，请登录";
             l_emit (LInformation "注册成功" "账号已创建，请使用该账号登录。")
       end.
Definition validate_probe_reply (code : Z) (data : string) : LM unit :=
  if decide (code ≠ 0) then setText ("已连接 (token校验失败 code=" +:+ pretty code +:+ ")") else
  match ParseFromString data with
  | None => setText "已连接 (token校验响应解析失败)"
  | Some resp =>
      if decide (zavtr_user_id resp = "") then
        _ ← modify (λ w, put_savedUserId (λ _, "") (put_savedToken (λ _, "") w)); setText "已连接 (token无效)"
      else setText ("已连接 (token有效: " +:+ zavtr_user_id resp +:+ ")")
  end.
Definition onHeartbeatResponse (code : Z) (payload : string) : LM unit :=
  if decide (code = 0) then
    match ParseFromString payload with
    | Some resp => setText ("已连接 (server_time=" +:+ pretty (zhr_server_time resp) +:+ ")")
    | None => setText "已连接"
    end
  else setText ("请求失败 code=" +:+ pretty code).
Definition l_app_event (e : option (AppEvent LReply)) : LM unit :=
  match e with
  | Some (AuthLoginCallback LLogin code message resp) => login_reply code message resp
  | Some (OtherCallback (LRegister username) code data _) => register_reply username code data
  | Some (OtherCallback LValidate code data _) => validate_probe_reply code data
  | Some (OtherCallback LHeartbeat code data _) => onHeartbeatResponse code data
  | _ => mret tt
  end.
(** The handler sends, or calls a closure; the pushes are for the main window. *)
Definition l_event (e : Event (Closure LReply)) : LM unit :=
  match e with
  | Callback k code payload => l_app_event (run_closure k code payload "")
  | CallbackWithMessage k code payload message => l_app_event (run_closure k code payload message)
  | dataToSend data => socket ← reads l_socket; for_each (sendMessage socket data) socket_event
  | _ => mret tt
  end.
Definition l_handler (op : ProtocolHandler (Closure LReply) → list (Event (Closure LReply)) *
    ProtocolHandler (Closure LReply)) : LM unit :=
  h ← reads l_protocol;
  let '(evs, h) := op h in
  _ ← modify (put_protocol (λ _, h));
  for_each evs l_event.

(** ** Requests *)

Definition sendHeartbeat : LM unit :=
  match SerializeToString {| zhrq_client_time := now |} with
  | None => mret tt
  | Some payload => l_handler (sendRequest now "heartbeat" payload (Some (OtherReply LHeartbeat)))
  end.
Definition sendValidateTokenProbe (token : string) : LM unit :=
  if decide (token = "") then sendHeartbeat else
  match SerializeToString {| zavt_token := token |} with
  | None => sendHeartbeat
  | Some payload => l_handler (sendRequest now "auth.validate_token" payload (Some (OtherReply LValidate)))
  end.
Definition sendConnectionProbe : LM unit :=
  token ← reads l_savedToken;
  if decide (trimmed token ≠ "") then sendValidateTokenProbe (trimmed token) else sendHeartbeat.
Definition submitLoginRequest (username password : string) : LM unit :=
  if decide (username = "" ∨ password = "") then
    _ ← setLoginUiEnabled true; setText "登录失败：参数无效"
  else
    _ ← modify (put_loginInFlight (λ _, true));
    _ ← setLoginUiEnabled false;
    _ ← setText "登录中...";
    h ← reads l_protocol;
    let '(e, _, _) := sendAuthLogin true now username password deviceId "desktop" (Some LLogin) h in
    _ ← l_app_event e;
    l_handler (λ h, let '(_, evs, h) := sendAuthLogin true now username password deviceId "desktop" (Some LLogin) h in (evs, h)).
Definition onConnected : LM unit :=
  _ ← cancelAutoReconnect;
  _ ← showLoginState;
  _ ← setText "已连接";
  _ ← sendConnectionProbe;
  pending ← reads l_loginPendingAfterConnect;
  when_ pending (
    _ ← modify (put_loginPendingAfterConnect (λ _, false));
    username ← reads l_pendingLoginUsername;
    password ← reads l_pendingLoginPassword;
    _ ← submitLoginRequest username password;
    modify (λ w, put_pendingLoginUsername (λ _, "") (put_pendingLoginPassword (λ _, "") w))).
Definition ensureConnectedForRequest (connectingStatus : string) : LM bool :=
  socket ← reads l_socket;
  if isConnected socket then mret true else
  _ ← when_ (bool_decide (connectingStatus ≠ "")) (setText connectingStatus);
  _ ← doConnect;
  mret false.
Definition onLoginClicked (userText password : string) : LM unit :=
  busy ← reads (λ w, l_loginInFlight w || l_loginPendingAfterConnect w);
  if (busy : bool) then mret tt else
  let username := trimmed userText in
  if decide (username = "" ∨ password = "") then l_emit (LWarning "登录失败" "用户名和密码不能为空。") else
  connected ← ensureConnectedForRequest "连接中，连接成功后将自动登录...";
  if (connected : bool) then submitLoginRequest username password else
  _ ← modify (λ w, put_loginPendingAfterConnect (λ _, true) (put_pendingLoginUsername (λ _, username)
                     (put_pendingLoginPassword (λ _, password) w)));
  setLoginUiEnabled false.
Record RegisterForm : Type := {
  rf_username : string; rf_password : string; rf_confirm : string; rf_nickname : string; rf_email : string }.
(** [form]: what was entered, unless the dialog was cancelled. *)
Definition onRegisterClicked (form : option RegisterForm) : LM unit :=
  busy ← reads (λ w, l_loginInFlight w || l_registerInFlight w);
  socket ← reads l_socket;
  if (busy : bool) then mret tt else
  if negb (isConnected socket) then l_emit (LWarning "注册失败" "当前未连接到网关，请稍后重试。") else
  match form with
  | None => mret tt
  | Some form =>
      let username := trimmed (rf_username form) in
      if decide (username = "" ∨ rf_password form = "") then l_emit (LWarning "注册失败" "用户名和密码不能为空。") else
      if decide (rf_password form ≠ rf_confirm form) then l_emit (LWarning "注册失败" "两次输入的密码不一致。") else
      match SerializeToString {| zar_username := username; zar_password := rf_password form;
                                 zar_nickname := trimmed (rf_nickname form); zar_email := trimmed (rf_email form);
                                 zar_avatar_url := "" |} with
      | None => l_emit (LWarning "注册失败" "请求序列化失败。")
      | Some payload =>
          _ ← modify (put_registerInFlight (λ _, true));
          _ ← setLoginUiEnabled false;
          _ ← setText "注册中...";
          l_handler (sendRequest now "auth.register" payload (Some (OtherReply (LRegister username))))
      end
  end.

Inductive LInput : Type :=
  | LConnect | LReconnectTimer | LSocketUp | LSocketDown | LSocketError (error : SocketError) (errorString : string)
  | LTextFrame (message : string) | LFrame (data : string) | LTimeout (id : string) | LSocketIs (state : SocketState)
  | LClickLogin (userText password : string) | LClickRegister (form : option RegisterForm).
Definition l_step (i : LInput) : LM unit :=
  match i with
  | LConnect => doConnect
  | LReconnectTimer =>
      _ ← cancelAutoReconnect; socket ← reads l_socket; when_ (negb (isConnected socket)) doConnect
  | LSocketUp => onConnected
  | LSocketDown => _ ← l_handler clearPendingRequests; onDisconnected
  | LSocketError error errorString => for_each (onError error errorString) socket_event
  | LTextFrame message => for_each (onTextMessageReceived message) socket_event
  | LFrame data => l_handler (handleMessage data)
  | LTimeout id => l_handler (on_timeout id)
  | LSocketIs state => modify (put_socket (λ _, state))
  | LClickLogin userText password => onLoginClicked userText password
  | LClickRegister form => onRegisterClicked form
  end.
End LoginWindow.

Definition LoginWindow_new (savedUserId savedToken : string) : LoginWindow :=
  {| l_protocol := ProtocolHandler_new; l_socket := UnconnectedState; l_serverUrl := kServerUrl; l_savedUserId := savedUserId;
     l_savedToken := savedToken; l_loginInFlight := false; l_registerInFlight := false;
     l_loginPendingAfterConnect := false; l_pendingLoginUsername := ""; l_pendingLoginPassword := ""; l_enabled := true;
     l_reconnectTimer := false; l_loginPage := false; l_reason := "正在连接服务器..."; l_status := "";
     l_mainWindow := None; l_out := [] |}.
Definition run_login `{!ProtoBuf} `{!Qt} (deviceId : string) (inputs : list (Z * LInput)) (w : LoginWindow) : LoginWindow :=
  foldl (λ w '(now, i), snd (l_step deviceId now i w)) w inputs.

(** * The controls come back

    Between the inputs: controls that are locked belong to a login or registration under way, or a login that waits for
    the connection; and what is under way has its closure on the handler's table. *)

Section Controls.
Context `{!ProtoBuf} `{!Qt}.
Implicit Types w : LoginWindow.
Notation login_closure := (AuthLoginReply (Some LLogin)).

Definition busy w : Prop :=
  l_loginInFlight w = true ∨ l_registerInFlight w = true ∨ l_loginPendingAfterConnect w = true.
(** [ks]: closures that are being handed to the handler. *)
Definition tracked (ks : list (Closure LReply)) w : Prop :=
  (l_loginInFlight w = true → login_closure ∈ ks ++ waiting (l_protocol w)) ∧
  (l_registerInFlight w = true → ∃ username, OtherReply (LRegister username) ∈ ks ++ waiting (l_protocol w)).
Definition controls_ok w : Prop := (l_enabled w = false → busy w) ∧ tracked [] w ∧ ids_used (l_protocol w).

(** What an event does to the flags: none is raised, and the controls are never locked. *)
Definition eases : relation LoginWindow := λ w w',
  (l_enabled w = true → l_enabled w' = true) ∧
  (l_loginInFlight w' = true → l_loginInFlight w = true) ∧ (l_registerInFlight w' = true → l_registerInFlight w = true) ∧
  (l_enabled w' = true ∨ l_enabled w' = l_enabled w ∧ l_loginInFlight w' = l_loginInFlight w ∧
     l_registerInFlight w' = l_registerInFlight w ∧ l_loginPendingAfterConnect w' = l_loginPendingAfterConnect w) ∧
  l_protocol w' = l_protocol w.
#[export] Instance eases_preorder : PreOrder eases.
Proof.
  split; [intros w; unfold eases; tauto|]. intros w1 w2 w3 (A1 & B1 & C1 & D1 & E1) (A2 & B2 & C2 & D2 & E2).
  unfold eases. split_and!; auto; [|congruence]. destruct D1 as [D1|(? & ? & ? & ?)], D2 as [D2|(? & ? & ? & ?)]; auto.
  right. split_and!; congruence.
Qed.
Ltac eased := eexists _, _; split; [reflexivity|]; unfold eases; cbn; naive_solver.
Lemma eases_error error : sure eases (onConnectionError error).
Proof. intros w. eased. Qed.
Lemma eases_disconnected : sure eases onDisconnected.
Proof. intros w. eased. Qed.
Lemma eases_login code message resp : sure eases (login_reply code message resp).
Proof. intros w. unfold login_reply. repeat case_decide; eased. Qed.
Lemma eases_register username code data : sure eases (register_reply username code data).
Proof. intros w. unfold register_reply. repeat case_decide; repeat case_match; eased. Qed.
Ltac ease_walk := repeat first [ walk1 | assumption | apply sure_modify; intros ?; unfold eases; cbn; by naive_solver | solve [eauto with runs] ].
#[local] Hint Resolve eases_error eases_disconnected eases_login eases_register : runs.
Lemma eases_socket e : sure eases (socket_event e).
Proof. unfold socket_event, l_emit. ease_walk. Qed.
#[local] Hint Resolve eases_socket : runs.
Lemma eases_app_event e : sure eases (l_app_event e).
Proof. unfold l_app_event, validate_probe_reply, onHeartbeatResponse, setText. ease_walk. Qed.
#[local] Hint Resolve eases_app_event : runs.
Lemma eases_event e : sure eases (l_event e).
Proof. unfold l_event. ease_walk. Qed.
Lemma eases_connect : sure eases doConnect.
Proof. unfold doConnect, cancelAutoReconnect, showDisconnectedState. ease_walk. Qed.
#[local] Hint Resolve eases_event eases_connect : runs.

(** A closure that is called lowers its flag. *)
Lemma called_lowers e w w' : l_event e w = (Ret tt, w') →
  (login_closure ∈ called_by e → l_loginInFlight w' = false) ∧
  (∀ username, OtherReply (LRegister username) ∈ called_by e → l_registerInFlight w' = false).
Proof.
  intros Hrun. assert (∀ k code payload message, l_app_event (run_closure k code payload message) w = (Ret tt, w') →
    (login_closure ∈ [k] → l_loginInFlight w' = false) ∧
    (∀ username, OtherReply (LRegister username) ∈ [k] → l_registerInFlight w' = false)) as Hk.
  { intros k code payload message Hr. split; [intros <-%list_elem_of_singleton|intros username <-%list_elem_of_singleton].
    - assert (∃ code message resp, login_reply code message resp w = (Ret tt, w')) as (c & m & r & Hlog).
      { cbn in Hr. case_decide; [|case_match]; eauto. }
      revert Hlog. unfold login_reply. repeat case_decide; by intros [= <-].
    - revert Hr. cbn. unfold register_reply. repeat case_decide; repeat case_match; by intros [= <-]. }
  destruct e; try (split; [intros []%not_elem_of_nil|intros ? []%not_elem_of_nil]); by eapply Hk.
Qed.
Lemma events_lower evs w : ∃ w', for_each evs l_event w = (Ret tt, w') ∧ eases w w' ∧
  (login_closure ∈ flat_map called_by evs → l_loginInFlight w' = false) ∧
  (∀ username, OtherReply (LRegister username) ∈ flat_map called_by evs → l_registerInFlight w' = false).
Proof.
  revert w. induction evs as [|e evs IH]; intros w.
  - exists w. split_and!; [done..|intros []%not_elem_of_nil|intros ? []%not_elem_of_nil].
  - destruct (eases_event e w) as ([] & w1 & Hrun & He). destruct (IH w1) as (w' & Hrest & He' & Hl & Hr).
    destruct (called_lowers e w w1 Hrun) as [Hl1 Hr1]. exists w'. cbn [for_each flat_map]. rewrite (bind_run _ _ _ _ _ Hrun).
    split_and!; [done|by trans w1|intros [Hin|]%elem_of_app; [|auto]|intros u [Hin|]%elem_of_app; [|eauto]].
    + apply not_true_is_false. intros Ht. apply He' in Ht. rewrite Hl1 in Ht; done.
    + apply not_true_is_false. intros Ht. apply He' in Ht. rewrite (Hr1 u) in Ht; done.
Qed.
Lemma handler_ok ks op w : keeps_callbacks ks op → (l_enabled w = false → busy w) → tracked ks w → ids_used (l_protocol w) →
  requestIdCounter (l_protocol w) < 2 ^ 31 - 1 →
  ∃ w', l_handler op w = (Ret tt, w') ∧ controls_ok w' ∧
    requestIdCounter (l_protocol w) ≤ requestIdCounter (l_protocol w') ≤ requestIdCounter (l_protocol w) + 1.
Proof.
  intros Hop Hb [Tl Tr] Hids Hlt. destruct (Hop (l_protocol w) Hids Hlt) as (Hperm & Hids' & Hn).
  unfold l_handler, mbind, M_bind, reads, modify. destruct (op (l_protocol w)) as [evs h]. cbn [fst snd] in *.
  set (w1 := put_protocol (λ _, h) w). destruct (events_lower evs w1) as (w' & Hrun & He & Hl & Hr).
  exists w'. split; [done|]. destruct He as (E1 & E2 & E3 & E4 & E5). change (l_protocol w1) with h in E5. rewrite E5.
  split; [|done]. split_and!; [|split; rewrite E5|by rewrite E5].
  - intros Hdis. destruct E4 as [|(F1 & F2 & F3 & F4)]; [congruence|]. unfold busy. rewrite F2, F3, F4. apply Hb. by rewrite <-Hdis, F1.
  - intros Hf. specialize (Tl (E2 Hf)). rewrite Hperm in Tl. apply elem_of_app in Tl as [Hc|]; [|done]. rewrite Hl in Hf; done.
  - intros Hf. destruct (Tr (E3 Hf)) as [u Hu]. rewrite Hperm in Hu. exists u. apply elem_of_app in Hu as [Hc|]; [|done].
    rewrite (Hr u) in Hf; done.
Qed.

(** [m] keeps the controls in order and makes at most [k] requests. *)
Definition in_order_for {A} (k : Z) (m : M LoginWindow A) : Prop := ∀ w, controls_ok w →
  requestIdCounter (l_protocol w) + k < 2 ^ 31 → ∃ a w', m w = (Ret a, w') ∧ controls_ok w' ∧
    requestIdCounter (l_protocol w) ≤ requestIdCounter (l_protocol w') ≤ requestIdCounter (l_protocol w) + k.
Lemma order_bind {A B} j k (m : M LoginWindow A) (f : A → M LoginWindow B) : 0 ≤ j → 0 ≤ k →
  in_order_for j m → (∀ a, in_order_for k (f a)) → in_order_for (j + k) (x ← m; f x).
Proof.
  intros Hj Hk Hm Hf w Hw Hlt. destruct (Hm w Hw) as (a & w1 & Ha & Hw1 & Hn1); [lia|].
  destruct (Hf a w1 Hw1) as (b & w2 & Hb & Hw2 & Hn2); [lia|]. exists b, w2. rewrite (bind_run _ _ _ _ _ Ha).
  split_and!; [done..|lia|lia].
Qed.
Lemma order_eases {A} k (m : M LoginWindow A) : 0 ≤ k → sure eases m → in_order_for k m.
Proof.
  intros Hk Hm w (Hb & [Tl Tr] & Hids) Hlt. destruct (Hm w) as (a & w' & Hrun & E1 & E2 & E3 & E4 & E5).
  exists a, w'. rewrite E5. split_and!; [done| |lia|lia]. split_and!; [|split; rewrite E5|by rewrite E5].
  - intros Hdis. destruct E4 as [|(F1 & F2 & F3 & F4)]; [congruence|]. unfold busy. rewrite F2, F3, F4. apply Hb. by rewrite <-Hdis, F1.
  - auto.
  - auto.
Qed.
Lemma order_handler op : keeps_callbacks [] op → in_order_for 1 (l_handler op).
Proof. intros Hop w (Hb & Ht & Hids) Hlt. exists tt. apply (handler_ok [] op); [done..|lia]. Qed.
Lemma order_request op k : keeps_callbacks [k] op → in_order_for 1 (l_handler op).
Proof.
  intros Hop w (Hb & [Tl Tr] & Hids) Hlt. exists tt. apply (handler_ok [k] op); [done|done| |done|lia].
  split; [intros Hf; right; by apply Tl|]. intros Hf. destruct (Tr Hf) as [u Hu]. exists u. by right.
Qed.
Lemma handler_idle_callbacks : keeps_callbacks (K:=Closure LReply) [] (λ h, ([], h)).
Proof. intros h Hids Hlt. split_and!; [done|done|cbn; lia|cbn; lia]. Qed.
(** The form may be locked on behalf of a login that is not under way yet. *)
Lemma submit_ok deviceId now username password w : tracked [] w → ids_used (l_protocol w) →
  requestIdCounter (l_protocol w) + 1 < 2 ^ 31 →
  ∃ w', submitLoginRequest deviceId now username password w = (Ret tt, w') ∧ controls_ok w' ∧
    requestIdCounter (l_protocol w) ≤ requestIdCounter (l_protocol w') ≤ requestIdCounter (l_protocol w) + 1.
Proof.
  intros [Tl Tr] Hids Hlt. unfold submitLoginRequest. case_decide as Hargs.
  { eexists. split; [reflexivity|]. split; [split_and!; [done|done|done]|cbn; lia]. }
  set (w1 := put_status (λ _, "登录中...") (put_enabled (λ _, false) (put_loginInFlight (λ _, true) w))).
  unfold sendAuthLogin, setLoginUiEnabled, setText, mbind, M_bind, modify, reads; cbn [negb]. fold w1.
  destruct (SerializeToString _) as [payload|] eqn:Hpayload; cbn [mret M_ret].
  - destruct (sendRequestWithMessage now _ _ _ (l_protocol w1)) as [evs0 h0]. cbn [l_app_event mret M_ret].
    apply (handler_ok [login_closure] _ w1); [|intros _; by left| |done|cbn; lia].
    + intros h Hh Hlt'. pose proof (sendRequestImpl_callbacks now "auth.login" payload None (Some login_closure) h Hh Hlt') as Hop.
      unfold sendRequestWithMessage in *. by destruct (sendRequestImpl _ _ _ _ _ _).
    + split; [intros _; left|intros Hf]. destruct (Tr Hf) as [u Hu]. exists u. by right.
  - set (w2 := snd (login_reply (-1) "auth.login serialize failed" AuthLoginResponsePayload_new w1)).
    apply (handler_ok [] _ w2); [apply handler_idle_callbacks|done|split; [done|exact Tr]|done|].
    change (requestIdCounter (l_protocol w2)) with (requestIdCounter (l_protocol w)). lia.
Qed.
(** The steps that only ease. *)
Ltac eased_order := apply order_eases; [done|unfold cancelAutoReconnect, showLoginState, setText, l_emit in *; ease_walk].
Lemma sendRequest_callbacks now cmd payload k :
  keeps_callbacks (K:=Closure LReply) [k] (sendRequest now cmd payload (Some k)).
Proof. exact (sendRequestImpl_callbacks now cmd payload (Some k) None). Qed.
Lemma order_heartbeat now : in_order_for 1 (sendHeartbeat now).
Proof.
  unfold sendHeartbeat. case_match; [eapply order_request, sendRequest_callbacks|eased_order].
Qed.
Lemma order_probe now : in_order_for 1 (sendConnectionProbe now).
Proof.
  unfold sendConnectionProbe, sendValidateTokenProbe. apply (order_bind 0 1); [done|done| |intros token].
  { eased_order. }
  repeat case_decide; [apply order_heartbeat| |apply order_heartbeat].
  case_match; [eapply order_request, sendRequest_callbacks|apply order_heartbeat].
Qed.
Lemma order_connected deviceId now : in_order_for 2 (onConnected deviceId now).
Proof.
  unfold onConnected. apply (order_bind 0 2); [done|done| |intros _]. { eased_order. }
  apply (order_bind 0 2); [done|done| |intros _]. { eased_order. }
  apply (order_bind 0 2); [done|done| |intros _]. { eased_order. }
  apply (order_bind 1 1); [done|done|apply order_probe|intros _].
  apply (order_bind 0 1); [done|done|eased_order|intros [|]]; [|unfold when_; eased_order].
  intros w (Hb & Ht & Hids) Hlt.
  destruct (submit_ok deviceId now (l_pendingLoginUsername w) (l_pendingLoginPassword w)
    (put_loginPendingAfterConnect (λ _, false) w) Ht Hids Hlt) as (w1 & Hrun & Hok & Hn).
  exists tt, (put_pendingLoginUsername (λ _, "") (put_pendingLoginPassword (λ _, "") w1)). split; [|split; [|exact Hn]].
  - unfold when_, mbind, M_bind, modify, reads in *. cbn. rewrite Hrun. reflexivity.
  - exact Hok.
Qed.
Lemma order_clickLogin deviceId now userText password : in_order_for 1 (onLoginClicked deviceId now userText password).
Proof.
  unfold onLoginClicked. apply (order_bind 0 1); [done|done|eased_order|intros [|]; [eased_order|]].
  case_decide; [eased_order|]. unfold ensureConnectedForRequest.
  apply (order_bind 0 1); [done|done|eased_order|intros [|]].
  - intros w (Hb & Ht & Hids) Hlt. exists tt. by apply submit_ok.
  - intros w (Hb & Ht & Hids) Hlt. eexists tt, _. split; [reflexivity|]. split; [|cbn; lia].
    split_and!; [intros _; right; by right|exact Ht|exact Hids].
Qed.
Lemma order_clickRegister now form : in_order_for 1 (onRegisterClicked now form).
Proof.
  unfold onRegisterClicked. apply (order_bind 0 1); [done|done|eased_order|intros b].
  apply (order_bind 0 1); [done|done|eased_order|intros socket].
  destruct b; [eased_order|]. destruct (negb (isConnected socket)); [eased_order|]. destruct form as [form|]; [|eased_order].
  case_decide; [eased_order|]. case_decide; [eased_order|]. case_match; [|eased_order].
  intros w (Hb & [Tl Tr] & Hids) Hlt. exists tt.
  unfold setLoginUiEnabled, setText, mbind, M_bind, modify.
  apply (handler_ok [OtherReply (LRegister (trimmed (rf_username form)))] _
    (put_status (λ _, "注册中...") (put_enabled (λ _, false) (put_registerInFlight (λ _, true) w)))).
  - apply sendRequest_callbacks.
  - intros _. right. by left.
  - split; [intros Hf; right; by apply Tl|intros _; eexists; left].
  - done.
  - cbn. lia.
Qed.
(** Every input keeps the controls in order, with at most two requests. *)
Lemma order_step deviceId now i : in_order_for 2 (l_step deviceId now i).
Proof.
  assert (∀ j (m : M LoginWindow unit), j ≤ 2 → in_order_for j m → in_order_for 2 m) as Hless.
  { intros j m Hj Hm w Hw Hlt. destruct (Hm w Hw) as (a & w' & Hrun & Hok & Hn); [lia|]. exists a, w'. split_and!; [done..|lia|lia]. }
  destruct i; cbn [l_step].
  - eased_order.
  - eased_order.
  - apply order_connected.
  - apply (order_bind 1 1); [done|done|apply order_handler, clear_callbacks|intros _; eased_order].
  - eased_order.
  - eased_order.
  - apply (Hless 1); [done|apply order_handler, handleMessage_callbacks].
  - apply (Hless 1); [done|apply order_handler, on_timeout_callbacks].
  - eased_order.
  - apply (Hless 1); [done|apply order_clickLogin].
  - apply (Hless 1); [done|apply order_clickRegister].
Qed.
Lemma order_run deviceId inputs w : controls_ok w →
  requestIdCounter (l_protocol w) + 2 * Z.of_nat (length inputs) < 2 ^ 31 →
  controls_ok (run_login deviceId inputs w) ∧
  requestIdCounter (l_protocol (run_login deviceId inputs w)) ≤ requestIdCounter (l_protocol w) + 2 * Z.of_nat (length inputs).
Proof.
  revert w. induction inputs as [|[now i] inputs IH]; intros w Hw Hlt; [split; [done|cbn; lia]|].
  cbn [length] in *. destruct (order_step deviceId now i w Hw) as ([] & w' & Hrun & Hw' & Hn); [lia|].
  change (run_login deviceId ((now, i) :: inputs) w) with (run_login deviceId inputs (snd (l_step deviceId now i w))).
  rewrite Hrun. cbn [snd]. destruct (IH w' Hw'); [lia|]. split; [done|lia].
Qed.
Lemma new_ok savedUserId savedToken : controls_ok (LoginWindow_new savedUserId savedToken).
Proof. by split_and!. Qed.

Lemma in_waiting k (h : ProtocolHandler (Closure LReply)) : k ∈ waiting h →
  ∃ id p, pendingRequests h !! id = Some p ∧ k ∈ callback_of p.
Proof.
  unfold waiting. intros ([id p] & Hk & Hp)%list_elem_of_In%in_flat_map. exists id, p.
  split; [by apply elem_of_map_to_list, list_elem_of_In|by apply list_elem_of_In].
Qed.
(** The closure of a login or a registration unlocks the form, whatever it is told. *)
Lemma called_unlocks k code payload message w :
  k = login_closure ∨ (∃ username, k = OtherReply (LRegister username)) →
  l_enabled (snd (l_app_event (run_closure k code payload message) w)) = true.
Proof.
  intros [->|[username ->]]; cbn; [|unfold register_reply; repeat case_decide; by repeat case_match].
  assert (∀ c m r, l_enabled (snd (login_reply c m r w)) = true) as Hl by (intros c m r; unfold login_reply; by repeat case_decide).
  case_decide; [apply Hl|]. case_match; apply Hl.
Qed.
Lemma timeout_unlocks deviceId now k w : k ∈ waiting (l_protocol w) →
  k = login_closure ∨ (∃ username, k = OtherReply (LRegister username)) →
  ∃ id, is_Some (pendingRequests (l_protocol w) !! id) ∧ l_enabled (snd (l_step deviceId now (LTimeout id) w)) = true.
Proof.
  intros (id & p & Hp & Hk)%in_waiting Hown. exists id. split; [done|]. cbn [l_step].
  unfold l_handler, on_timeout, mbind, M_bind, reads, modify. rewrite Hp.
  set (w1 := put_protocol _ w). unfold callback_of in Hk. unfold call_pending, call.
  destruct (pr_callback_with_message p) as [k'|]; [|destruct (pr_callback p) as [k'|]; [|by apply not_elem_of_nil in Hk]];
    apply list_elem_of_singleton in Hk as <-; cbn [for_each l_event].
  all: match goal with |- context [run_closure ?k ?c ?d ?m] =>
    pose proof (called_unlocks k c d m w1 Hown) as Hu; destruct (eases_app_event (run_closure k c d m) w1) as ([] & w2 & Hrun & _) end.
  all: rewrite Hrun in Hu; rewrite (bind_run _ _ _ _ _ Hrun); exact Hu.
Qed.

(** C13: the form of the login window comes back: after any inputs (clicks, frames, timeouts, losses of the connection, in
    any order), controls that are locked belong to a login or registration that is under way, or to a login that waits for
    the connection; what is under way has a request whose timer, when no answer comes, unlocks the form; and when the
    connection is lost, or the socket reports an error, the form is unlocked and nothing is under way. *)
Theorem login_controls_come_back deviceId inputs savedUserId savedToken now :
  2 * Z.of_nat (S (length inputs)) < 2 ^ 31 →
  let w := run_login deviceId inputs (LoginWindow_new savedUserId savedToken) in
  let after i := snd (l_step deviceId now i w) in
  (l_enabled w = false → busy w) ∧
  (l_loginInFlight w = true ∨ l_registerInFlight w = true →
     ∃ id, is_Some (pendingRequests (l_protocol w) !! id) ∧ l_enabled (after (LTimeout id)) = true) ∧
  (∀ i, i = LSocketDown ∨ (∃ error text, i = LSocketError error text) →
     l_enabled (after i) = true ∧ ¬ busy (after i)).
Proof.
  intros Hlt w after. destruct (order_run deviceId inputs (LoginWindow_new savedUserId savedToken)) as [(Hb & [Tl Tr] & Hids) Hn].
  { apply new_ok. } { cbn [LoginWindow_new l_protocol ProtocolHandler_new requestIdCounter]. lia. }
  fold w in Hb, Tl, Tr, Hids, Hn. split; [done|split].
  - intros [Hf|Hf].
    + apply (timeout_unlocks deviceId now login_closure); [by apply Tl|by left].
    + destruct (Tr Hf) as [u Hu]. apply (timeout_unlocks deviceId now _ w Hu). right. by exists u.
  - unfold after, busy. intros i [->|(error & text & ->)]; cbn [l_step].
    + destruct (order_handler _ clear_callbacks w) as ([] & w1 & Hrun & _); [by split_and!|cbn in Hn; lia|].
      rewrite (bind_run _ _ _ _ _ Hrun). split; [done|]. by intros [?|[?|?]].
    + split; [done|]. by intros [?|[?|?]].
Qed.
End Controls.

(** * The main window

    It is opened by the answer to a login only. *)

Section Opening.
Context `{!ProtoBuf} `{!Qt}.
Implicit Types w : LoginWindow.
Notation login_closure := (AuthLoginReply (Some LLogin)).
Definition same_window : relation LoginWindow := λ w w', l_mainWindow w' = l_mainWindow w.
#[export] Instance same_window_preorder : PreOrder same_window.
Proof. split; [done|]. unfold same_window. intros ? ? ?. congruence. Qed.
Ltac window_walk := repeat first [ walk1 | assumption | apply sure_modify; by intros ? | solve [eauto with runs] ].
Lemma login_window code message resp : code ≠ 0 → sure same_window (login_reply code message resp).
Proof. intros Hcode. unfold login_reply, setLoginUiEnabled, setText, l_emit. rewrite decide_True by done. window_walk. Qed.
Lemma register_window username code data : sure same_window (register_reply username code data).
Proof. unfold register_reply, setLoginUiEnabled, setText, l_emit. window_walk. Qed.
Lemma gives_up_window : sure same_window forget_requests.
Proof. by apply sure_modify. Qed.
#[local] Hint Resolve register_window gives_up_window : runs.
Lemma error_window error : sure same_window (onConnectionError error).
Proof. unfold onConnectionError, showDisconnectedState, scheduleAutoReconnect. window_walk. Qed.
Lemma disconnected_window : sure same_window onDisconnected.
Proof. unfold onDisconnected, showDisconnectedState, scheduleAutoReconnect. window_walk. Qed.
#[local] Hint Resolve error_window disconnected_window : runs.
Lemma socket_window e : sure same_window (socket_event e).
Proof. unfold socket_event, l_emit. window_walk. Qed.
#[local] Hint Resolve socket_window : runs.
Lemma connect_window : sure same_window doConnect.
Proof. unfold doConnect, cancelAutoReconnect, showDisconnectedState. window_walk. Qed.
#[local] Hint Resolve connect_window : runs.
(** Only the answer to a login with code 0 opens it. *)
Lemma login_closure_code k code payload message c m r : (k = login_closure → code ≠ 0) →
  run_closure k code payload message = Some (AuthLoginCallback LLogin c m r) → c ≠ 0.
Proof.
  intros Hk Hrun. destruct k as [[k|]|[k|]|k]; cbn in Hrun; try done; repeat (case_decide || case_match); simplify_eq; auto.
Qed.
Lemma closure_window k code payload message : (k = login_closure → code ≠ 0) →
  sure same_window (l_app_event (run_closure k code payload message)).
Proof.
  intros Hk. pose proof (login_closure_code k code payload message) as Hc.
  destruct (run_closure k code payload message) as [[[] c m r|? ? ? ?|[] ? ? ?]|]; cbn [l_app_event];
    unfold validate_probe_reply, onHeartbeatResponse, setText; try solve [window_walk].
  by eapply login_window, Hc.
Qed.
Definition quiet (e : Event (Closure LReply)) : Prop :=
  match e with Callback k code _ | CallbackWithMessage k code _ _ => k = login_closure → code ≠ 0 | _ => True end.
Lemma event_window e : quiet e → sure same_window (l_event e).
Proof. destruct e; cbn [quiet l_event]; intros Hq; try (by apply closure_window); window_walk. Qed.
Lemma handler_window op : (∀ h, Forall quiet (fst (op h))) → sure same_window (l_handler op).
Proof.
  intros Hop. unfold l_handler. apply sure_bind; [apply _|apply sure_reads; apply _|intros h].
  pose proof (Hop h) as Hq. destruct (op h) as [evs h']. apply sure_bind; [apply _|by apply sure_modify|intros _].
  apply sure_for_each; [apply _|]. intros e He. apply event_window. by eapply Forall_forall in Hq.
Qed.
Lemma call_quiet cb wcb code payload message : code ≠ 0 → Forall quiet (call cb wcb code payload message).
Proof. intros Hc. unfold call. destruct wcb, cb; rewrite ?Forall_singleton, ?Forall_nil; cbn; auto. Qed.
Lemma sendRequestImpl_quiet now cmd payload cb wcb (h : ProtocolHandler (Closure LReply)) :
  Forall quiet (fst (sendRequestImpl now cmd payload cb wcb h)).
Proof.
  unfold sendRequestImpl, generateRequestId. destruct (SerializeToString _); cbn [fst]; [by apply Forall_singleton|by apply call_quiet].
Qed.
Lemma request_window now cmd payload k : sure same_window (l_handler (sendRequest now cmd payload k)).
Proof. apply handler_window. intros h. apply sendRequestImpl_quiet. Qed.
Lemma timeout_window id : sure same_window (l_handler (on_timeout id)).
Proof.
  apply handler_window. intros h. unfold on_timeout. destruct (_ !! id); [by apply call_quiet|constructor].
Qed.
Lemma clear_window : sure same_window (l_handler clearPendingRequests).
Proof.
  apply handler_window. intros h. unfold clearPendingRequests. cbn [fst]. apply Forall_flat_map, Forall_true. intros e. by apply call_quiet.
Qed.
#[local] Hint Resolve request_window timeout_window clear_window : runs.
Lemma submit_window deviceId now username password : sure same_window (submitLoginRequest deviceId now username password).
Proof.
  unfold submitLoginRequest, setLoginUiEnabled, setText. case_decide; [window_walk|].
  do 3 (apply sure_bind; [apply _|by apply sure_modify|intros _]).
  apply sure_bind; [apply _|apply sure_reads; apply _|intros h]. unfold sendAuthLogin; cbn [negb].
  destruct (SerializeToString _) as [payload|].
  - destruct (sendRequestWithMessage now _ _ _ h). apply sure_bind; [apply _|cbn; window_walk|intros _].
    apply handler_window. intros h'. pose proof (sendRequestImpl_quiet now "auth.login" payload None (Some login_closure) h') as Hq.
    unfold sendRequestWithMessage. by destruct (sendRequestImpl _ _ _ _ _ _).
  - apply sure_bind; [apply _|by apply login_window|intros _]. apply handler_window. intros h'. constructor.
Qed.
#[local] Hint Resolve submit_window : runs.
Lemma heartbeat_window now : sure same_window (sendHeartbeat now).
Proof. unfold sendHeartbeat. window_walk. Qed.
#[local] Hint Resolve heartbeat_window : runs.
Lemma step_window deviceId now i : (∀ data, i ≠ LFrame data) → sure same_window (l_step deviceId now i).
Proof.
  intros Hi. destruct i; cbn [l_step]; try (by destruct (Hi data));
    unfold onConnected, onLoginClicked, onRegisterClicked, sendConnectionProbe, sendValidateTokenProbe, ensureConnectedForRequest,
      setLoginUiEnabled, setText, cancelAutoReconnect, showLoginState, l_emit; window_walk.
Qed.

(** A login the server has granted to [u]. *)
Definition granted (u : string) (payload : string) : Prop := ∃ resp : AuthLoginResponsePayload,
  ParseFromString payload = Some resp ∧ zalr_success resp = true ∧ zalr_user_id resp = u ∧ u ≠ "" ∧ zalr_token resp ≠ "".
(** The frame is the answer, with code 0, to a login this window waits for. *)
Definition answers_login (u data : string) w : Prop := ∃ msg p, ParseFromString data = Some msg ∧ zsm_code msg = 0 ∧
  pendingRequests (l_protocol w) !! zsm_request_id msg = Some p ∧ login_closure ∈ callback_of p ∧ granted u (zsm_payload msg).
Lemma login_opens code message resp w u : l_mainWindow (snd (login_reply code message resp w)) = Some u →
  l_mainWindow w = Some u ∨
  code = 0 ∧ zalr_success resp = true ∧ zalr_user_id resp = u ∧ u ≠ "" ∧ zalr_token resp ≠ "".
Proof.
  unfold login_reply. case_decide as Hc; [by left|]. case_decide as Hr; [by left|].
  cbn. intros [= <-]. destruct (l_mainWindow w); [by left|right]. cbn. destruct (zalr_success resp) eqn:Hs; [|tauto].
  split_and!; [lia|done|done|tauto|tauto].
Qed.
Lemma closure_opens k code payload message w u :
  l_mainWindow (snd (l_app_event (run_closure k code payload message) w)) = Some u →
  l_mainWindow w = Some u ∨ k = login_closure ∧ code = 0 ∧ granted u payload.
Proof.
  intros Hw. destruct (decide (code = 0)) as [->|Hc].
  2: { left. rewrite <-Hw. symmetry. by apply (sure_run same_window), closure_window. }
  destruct k as [[[]|]|[c|]|[]]; try (left; rewrite <-Hw; symmetry; by apply (sure_run same_window), closure_window).
  cbn in Hw. destruct (ParseFromString payload) as [resp|] eqn:Hp.
  - apply login_opens in Hw as [|(_ & ? & ? & ? & ?)]; [by left|right]. split_and!; [done..|]. by exists resp.
  - left. apply login_opens in Hw as [|[]]; [done|lia].
Qed.
Lemma push_quiet cmd payload : Forall quiet (dispatch_push cmd payload).
Proof. unfold dispatch_push. repeat case_decide; rewrite ?Forall_singleton, ?Forall_nil; done. Qed.
Lemma frame_opens deviceId now data w u : l_mainWindow (snd (l_step deviceId now (LFrame data) w)) = Some u →
  l_mainWindow w = Some u ∨ answers_login u data w.
Proof.
  cbn [l_step]. unfold l_handler, handleMessage, mbind, M_bind, reads, modify.
  assert (∀ evs h, Forall quiet evs → l_mainWindow (snd (for_each evs l_event (put_protocol (λ _, h) w))) = l_mainWindow w) as Hq.
  { intros evs h Hev. apply (sure_run same_window (for_each evs l_event) (put_protocol (λ _, h) w)), sure_for_each; [apply _|].
    intros e He. apply event_window. by eapply Forall_forall in Hev. }
  destruct (ParseFromString data) as [msg|] eqn:Hmsg; [|rewrite Hq by apply Forall_nil_2; by left].
  destruct (if decide _ then _ else _) as [p|] eqn:Hp; [|rewrite Hq by apply push_quiet; by left].
  case_decide; [|done]. intros Hw. set (w1 := put_protocol _ w) in Hw.
  assert (∀ e, l_mainWindow (snd (for_each [e] l_event w1)) = l_mainWindow (snd (l_event e w1))) as Hone.
  { intros e. destruct (eases_event e w1) as ([] & w2 & Hrun & _). cbn [for_each]. by rewrite (bind_run _ _ _ _ _ Hrun), Hrun. }
  unfold call_pending, call in Hw.
  destruct (pr_callback_with_message p) as [k|] eqn:Hk; [|destruct (pr_callback p) as [k|] eqn:Hk'; [|by left]];
    rewrite Hone in Hw; apply closure_opens in Hw as [|(-> & ? & ?)]; try (by left); right; exists msg, p;
    (split_and!; [done..| |done]); unfold callback_of; rewrite Hk, ?Hk'; left.
Qed.
Lemma step_opens deviceId now i w u : l_mainWindow (snd (l_step deviceId now i w)) = Some u →
  l_mainWindow w = Some u ∨ ∃ data, i = LFrame data ∧ answers_login u data w.
Proof.
  intros Hw. assert ((∃ data, i = LFrame data) ∨ ∀ data, i ≠ LFrame data) as [[data ->]|Hi] by (destruct i; eauto).
  - apply frame_opens in Hw as [|]; [by left|right]. by exists data.
  - left. rewrite <-Hw. symmetry. by apply (sure_run same_window), step_window.
Qed.
(** C14: the main window needs a login: it is open, as the window of [u], only when some frame was the answer, with code 0
    and a success, to a login request this window was waiting for, and named [u] and a token; no error, timeout, lost
    connection, registration or answer to another request opens it. *)
Theorem main_window_needs_login deviceId inputs savedUserId savedToken u :
  l_mainWindow (run_login deviceId inputs (LoginWindow_new savedUserId savedToken)) = Some u →
  ∃ before now data after, inputs = before ++ (now, LFrame data) :: after ∧
    answers_login u data (run_login deviceId before (LoginWindow_new savedUserId savedToken)).
Proof.
  induction inputs as [|[now i] inputs IH] using rev_ind; [done|]. unfold run_login at 1. rewrite foldl_app. cbn [foldl].
  fold (run_login deviceId inputs (LoginWindow_new savedUserId savedToken)). intros [Hw|(data & -> & Ha)]%step_opens.
  - destruct (IH Hw) as (before & now' & data & after & -> & Ha). exists before, now', data, (after ++ [(now, i)]).
    split; [by rewrite <-app_assoc|done].
  - by exists inputs, now, data, [].
Qed.
End Opening.

(** * A run *)

#[local] Existing Instance Desktop.some_qt.
Definition granted_frame : string := Eval vm_compute in
  Desktop.server_text "auth.login" (Desktop.text_of {| zalr_success := true; zalr_user_id := "u1"; zalr_token := "t1"; zalr_expire_at := 9;
    zalr_error := "" |}) "req_2" 0.
(** The click comes before the connection. *)
Definition logging_in : list (Z * LInput) :=
  [(1, LConnect); (1, LSocketIs ConnectingState); (2, LClickLogin " alice " "pw"); (3, LSocketIs ConnectedState); (3, LSocketUp)].
Definition waiting_form : LoginWindow := Eval vm_compute in run_login "dev" logging_in (LoginWindow_new "" "").
Lemma login_controls_come_back_witness : l_enabled waiting_form = false ∧ busy waiting_form ∧
  l_enabled (snd (l_step "dev" 4 LSocketDown waiting_form)) = true.
Proof.
  assert (run_login "dev" logging_in (LoginWindow_new "" "") = waiting_form) as Hw by eval_eq.
  destruct (login_controls_come_back "dev" logging_in "" "" 4 ltac:(done)) as (Hb & _ & Hloss). rewrite Hw in Hb, Hloss.
  split; [reflexivity|]. split; [by apply Hb|]. by apply Hloss; left.
Defined.
Lemma main_window_needs_login_witness :
  ∃ before now data after, logging_in ++ [(5, LFrame granted_frame)] = before ++ (now, LFrame data) :: after ∧
    answers_login "u1" data (run_login "dev" before (LoginWindow_new "" "")).
Proof.
  assert (l_mainWindow (run_login "dev" (logging_in ++ [(5, LFrame granted_frame)]) (LoginWindow_new "" "")) = Some "u1") as Hw by eval_eq.
  exact (main_window_needs_login "dev" _ "" "" "u1" Hw).
Defined.
