(* ===== verification/MessageView.v ===== *)
(** A message as the chat shows it: the loader of pictures ([client/desktop/src/utils/imageloader.cpp]), the box of a file
    ([ui/filemessageitem.cpp]) and the row of a message ([ui/messageitem.cpp]).

    A label is its text; what is visible is a flag.  Files, pictures and their drawing are Qt's, as is the text of a number
    with decimals; colours, icons and layout are left out. *)

From S2P Require Import Prelude External Utils Client.
From S2P Require MainWindow.
From S2P Require Desktop.
Import MainWindow (Qt, toLower).

Inductive AspectRatioMode : Type := IgnoreAspectRatio | KeepAspectRatio | KeepAspectRatioByExpanding.
(** A watcher no computation was given to. *)
Record QFutureWatcher (P : Type) : Type := { isRunning : bool; isCanceled : bool; isFinished : bool; result : option P }.
Arguments isRunning {P}. Arguments isCanceled {P}. Arguments isFinished {P}. Arguments result {P}.
Class QtPictures : Type := {
  QPixmap : Type;
  read_picture : string → option QPixmap;                  (* [QPixmap(path)], unless it is null *)
  scale_picture : QPixmap → Z * Z → AspectRatioMode → QPixmap;
  movie_frames : string → option Z;                        (* [frameCount] of a valid [QMovie] *)
  QFileInfo_suffix : string → string;
  QFileInfo_fileName : string → string;
  QFileInfo_size : string → Z;
  quotient_text : Z → Z → Z → string;                      (* [arg(a / b, 0, 'f', decimals)] *)
  idle_watcher : QFutureWatcher QPixmap }.

(** * ImageLoader *)

Section ImageLoader.
Context `{!Qt} `{!QtPictures}.
Inductive LoaderPage : Type := LoadingPage | ImagePage | ErrorPage.
Inductive LoaderLabel : Type := EmptyLabel | PixmapLabel (p : QPixmap) | MovieLabel (path : string).
Inductive LoaderSignal : Type := loadFinished (p : option QPixmap) | loadFailed (error : string) | loadProgress (n : Z).
Record ImageLoader : Type := {
  il_imagePath : string; il_page : LoaderPage; il_errorText : string; il_original : option QPixmap; il_scaled :
  option QPixmap; il_label : LoaderLabel; il_maxSize : Z * Z; il_mode : AspectRatioMode; il_supportAnimation :
  bool; il_isAnimated : bool; il_movie : option (string * bool); il_isLoading : bool; il_loadProgress : Z;
  il_bar : Z; il_loadTimers : list string; il_progressTimers : nat; il_signals : list LoaderSignal }.
Definition put_il_imagePath (f : string → string) (w : ImageLoader) : ImageLoader := Build_ImageLoader (f
  (il_imagePath w)) (il_page w) (il_errorText w) (il_original w) (il_scaled w) (il_label w) (il_maxSize w) (il_mode
  w) (il_supportAnimation w) (il_isAnimated w) (il_movie w) (il_isLoading w) (il_loadProgress w) (il_bar w)
  (il_loadTimers w) (il_progressTimers w) (il_signals w).
Definition put_il_page (f : LoaderPage → LoaderPage) (w : ImageLoader) : ImageLoader := Build_ImageLoader
  (il_imagePath w) (f (il_page w)) (il_errorText w) (il_original w) (il_scaled w) (il_label w) (il_maxSize w)
  (il_mode w) (il_supportAnimation w) (il_isAnimated w) (il_movie w) (il_isLoading w) (il_loadProgress w) (il_bar w)
  (il_loadTimers w) (il_progressTimers w) (il_signals w).
Definition put_il_errorText (f : string → string) (w : ImageLoader) : ImageLoader := Build_ImageLoader (il_imagePath
  w) (il_page w) (f (il_errorText w)) (il_original w) (il_scaled w) (il_label w) (il_maxSize w) (il_mode w)
  (il_supportAnimation w) (il_isAnimated w) (il_movie w) (il_isLoading w) (il_loadProgress w) (il_bar w)
  (il_loadTimers w) (il_progressTimers w) (il_signals w).
Definition put_il_original (f : (option QPixmap) → (option QPixmap)) (w : ImageLoader) : ImageLoader :=
  Build_ImageLoader (il_imagePath w) (il_page w) (il_errorText w) (f (il_original w)) (il_scaled w) (il_label w)
  (il_maxSize w) (il_mode w) (il_supportAnimation w) (il_isAnimated w) (il_movie w) (il_isLoading w)
  (il_loadProgress w) (il_bar w) (il_loadTimers w) (il_progressTimers w) (il_signals w).
Definition put_il_scaled (f : (option QPixmap) → (option QPixmap)) (w : ImageLoader) : ImageLoader :=
  Build_ImageLoader (il_imagePath w) (il_page w) (il_errorText w) (il_original w) (f (il_scaled w)) (il_label w)
  (il_maxSize w) (il_mode w) (il_supportAnimation w) (il_isAnimated w) (il_movie w) (il_isLoading w)
  (il_loadProgress w) (il_bar w) (il_loadTimers w) (il_progressTimers w) (il_signals w).
Definition put_il_label (f : LoaderLabel → LoaderLabel) (w : ImageLoader) : ImageLoader := Build_ImageLoader
  (il_imagePath w) (il_page w) (il_errorText w) (il_original w) (il_scaled w) (f (il_label w)) (il_maxSize w)
  (il_mode w) (il_supportAnimation w) (il_isAnimated w) (il_movie w) (il_isLoading w) (il_loadProgress w) (il_bar w)
  (il_loadTimers w) (il_progressTimers w) (il_signals w).
Definition put_il_maxSize (f : (Z * Z) → (Z * Z)) (w : ImageLoader) : ImageLoader := Build_ImageLoader (il_imagePath
  w) (il_page w) (il_errorText w) (il_original w) (il_scaled w) (il_label w) (f (il_maxSize w)) (il_mode w)
  (il_supportAnimation w) (il_isAnimated w) (il_movie w) (il_isLoading w) (il_loadProgress w) (il_bar w)
  (il_loadTimers w) (il_progressTimers w) (il_signals w).
Definition put_il_mode (f : AspectRatioMode → AspectRatioMode) (w : ImageLoader) : ImageLoader := Build_ImageLoader
  (il_imagePath w) (il_page w) (il_errorText w) (il_original w) (il_scaled w) (il_label w) (il_maxSize w) (f
  (il_mode w)) (il_supportAnimation w) (il_isAnimated w) (il_movie w) (il_isLoading w) (il_loadProgress w) (il_bar
  w) (il_loadTimers w) (il_progressTimers w) (il_signals w).
Definition put_il_supportAnimation (f : bool → bool) (w : ImageLoader) : ImageLoader := Build_ImageLoader
  (il_imagePath w) (il_page w) (il_errorText w) (il_original w) (il_scaled w) (il_label w) (il_maxSize w) (il_mode
  w) (f (il_supportAnimation w)) (il_isAnimated w) (il_movie w) (il_isLoading w) (il_loadProgress w) (il_bar w)
  (il_loadTimers w) (il_progressTimers w) (il_signals w).
Definition put_il_isAnimated (f : bool → bool) (w : ImageLoader) : ImageLoader := Build_ImageLoader (il_imagePath w)
  (il_page w) (il_errorText w) (il_original w) (il_scaled w) (il_label w) (il_maxSize w) (il_mode w)
  (il_supportAnimation w) (f (il_isAnimated w)) (il_movie w) (il_isLoading w) (il_loadProgress w) (il_bar w)
  (il_loadTimers w) (il_progressTimers w) (il_signals w).
Definition put_il_movie (f : (option (string * bool)) → (option (string * bool))) (w : ImageLoader) : ImageLoader :=
  Build_ImageLoader (il_imagePath w) (il_page w) (il_errorText w) (il_original w) (il_scaled w) (il_label w)
  (il_maxSize w) (il_mode w) (il_supportAnimation w) (il_isAnimated w) (f (il_movie w)) (il_isLoading w)
  (il_loadProgress w) (il_bar w) (il_loadTimers w) (il_progressTimers w) (il_signals w).
Definition put_il_isLoading (f : bool → bool) (w : ImageLoader) : ImageLoader := Build_ImageLoader (il_imagePath w)
  (il_page w) (il_errorText w) (il_original w) (il_scaled w) (il_label w) (il_maxSize w) (il_mode w)
  (il_supportAnimation w) (il_isAnimated w) (il_movie w) (f (il_isLoading w)) (il_loadProgress w) (il_bar w)
  (il_loadTimers w) (il_progressTimers w) (il_signals w).
Definition put_il_loadProgress (f : Z → Z) (w : ImageLoader) : ImageLoader := Build_ImageLoader (il_imagePath w)
  (il_page w) (il_errorText w) (il_original w) (il_scaled w) (il_label w) (il_maxSize w) (il_mode w)
  (il_supportAnimation w) (il_isAnimated w) (il_movie w) (il_isLoading w) (f (il_loadProgress w)) (il_bar w)
  (il_loadTimers w) (il_progressTimers w) (il_signals w).
Definition put_il_bar (f : Z → Z) (w : ImageLoader) : ImageLoader := Build_ImageLoader (il_imagePath w) (il_page w)
  (il_errorText w) (il_original w) (il_scaled w) (il_label w) (il_maxSize w) (il_mode w) (il_supportAnimation w)
  (il_isAnimated w) (il_movie w) (il_isLoading w) (il_loadProgress w) (f (il_bar w)) (il_loadTimers w)
  (il_progressTimers w) (il_signals w).
Definition put_il_loadTimers (f : (list string) → (list string)) (w : ImageLoader) : ImageLoader :=
  Build_ImageLoader (il_imagePath w) (il_page w) (il_errorText w) (il_original w) (il_scaled w) (il_label w)
  (il_maxSize w) (il_mode w) (il_supportAnimation w) (il_isAnimated w) (il_movie w) (il_isLoading w)
  (il_loadProgress w) (il_bar w) (f (il_loadTimers w)) (il_progressTimers w) (il_signals w).
Definition put_il_progressTimers (f : nat → nat) (w : ImageLoader) : ImageLoader := Build_ImageLoader (il_imagePath
  w) (il_page w) (il_errorText w) (il_original w) (il_scaled w) (il_label w) (il_maxSize w) (il_mode w)
  (il_supportAnimation w) (il_isAnimated w) (il_movie w) (il_isLoading w) (il_loadProgress w) (il_bar w)
  (il_loadTimers w) (f (il_progressTimers w)) (il_signals w).
Definition put_il_signals (f : (list LoaderSignal) → (list LoaderSignal)) (w : ImageLoader) : ImageLoader :=
  Build_ImageLoader (il_imagePath w) (il_page w) (il_errorText w) (il_original w) (il_scaled w) (il_label w)
  (il_maxSize w) (il_mode w) (il_supportAnimation w) (il_isAnimated w) (il_movie w) (il_isLoading w)
  (il_loadProgress w) (il_bar w) (il_loadTimers w) (il_progressTimers w) (f (il_signals w)).

Definition ImageLoader_new : ImageLoader :=
  {| il_imagePath := ""; il_page := LoadingPage; il_errorText := ""; il_original := None; il_scaled := None;
     il_label := EmptyLabel; il_maxSize := (300, 300); il_mode := KeepAspectRatio; il_supportAnimation := true;
     il_isAnimated := false; il_movie := None; il_isLoading := false; il_loadProgress := 0; il_bar := 0; il_loadTimers := [];
     il_progressTimers := 0; il_signals := [] |}.
Implicit Types w : ImageLoader.
Definition il_emit (s : LoaderSignal) w : ImageLoader := put_il_signals (λ l, l ++ [s]) w.
Definition showLoadingState w : ImageLoader := put_il_page (λ _, LoadingPage) w.
Definition showSuccessState w : ImageLoader := put_il_page (λ _, ImagePage) w.
Definition showErrorState (error : string) w : ImageLoader :=
  put_il_page (λ _, ErrorPage) (put_il_errorText (λ _, "⚠ " +:+ error) w).
(** [QProgressBar::setValue] ignores what is out of the range of the bar. *)
Definition set_bar (n : Z) w : ImageLoader := put_il_bar (λ old, if decide (0 ≤ n ≤ 100) then n else old) w.
Definition startProgressAnimation w : ImageLoader := put_il_progressTimers S (put_il_loadProgress (λ _, 0) w).
Definition stopProgressAnimation w : ImageLoader := set_bar 100 (put_il_loadProgress (λ _, 100) w).
Definition updateScaledPixmap w : ImageLoader :=
  match il_original w with
  | None => w
  | Some p =>
      if il_isAnimated w && bool_decide (is_Some (il_movie w)) then w else
      let s := scale_picture p (il_maxSize w) (il_mode w) in
      put_il_label (λ _, PixmapLabel s) (put_il_scaled (λ _, Some s) w)
  end.
Definition setMaxSize (width height : Z) w : ImageLoader := updateScaledPixmap (put_il_maxSize (λ _, (width, height)) w).
Definition setAspectRatioMode (mode : AspectRatioMode) w : ImageLoader := updateScaledPixmap (put_il_mode (λ _, mode) w).
Definition stop_movie w : ImageLoader := put_il_movie (fmap (λ m, (m.1, false))) w.
(** The watcher has nothing to cancel. *)
Definition cancelLoading w : ImageLoader := stopProgressAnimation (put_il_isLoading (λ _, false) (stop_movie w)).
Definition loadImageAsync (imagePath : string) (showProgress supportAnimation : bool) w : ImageLoader :=
  let w := if il_isLoading w then cancelLoading w else w in
  let w := put_il_loadProgress (λ _, 0) (put_il_isLoading (λ _, true) (put_il_supportAnimation (λ _, supportAnimation)
             (put_il_imagePath (λ _, imagePath) w))) in
  let w := if showProgress then startProgressAnimation (showLoadingState w) else w in
  put_il_loadTimers (λ l, l ++ [imagePath]) (put_il_isLoading (λ _, true) w).
(** What is shown of a picture that was read. *)
Definition show_picture (none : string) (failure : string) w : ImageLoader :=
  match il_original w with
  | None => il_emit (loadFailed failure) (showErrorState none w)
  | Some _ => let w := showSuccessState (updateScaledPixmap w) in il_emit (loadFinished (il_scaled w)) w
  end.
Definition loadImageSync (imagePath : string) w : ImageLoader :=
  show_picture "无法加载图片" "图片加载失败"
    (put_il_original (λ _, read_picture imagePath) (put_il_imagePath (λ _, imagePath) w)).
Definition onLoadComplete w : ImageLoader :=
  let w := stopProgressAnimation (put_il_isLoading (λ _, false) w) in
  if isCanceled idle_watcher then w else
  if isFinished idle_watcher then
    show_picture "图片加载失败" ("无法加载图片：" +:+ il_imagePath w) (put_il_original (λ _, result idle_watcher) w)
  else w.
Definition detectAndLoadAnimation (imagePath : string) w : ImageLoader :=
  let suffix := toLower (QFileInfo_suffix imagePath) in
  let still w := onLoadComplete (put_il_original (λ _, read_picture imagePath) (put_il_isAnimated (λ _, false) w)) in
  if decide ((suffix = "gif" ∨ suffix = "webp") ∧ il_supportAnimation w = true) then
    match movie_frames imagePath with
    | Some n =>
        if decide (n > 1) then
          let w := put_il_isAnimated (λ _, true) (put_il_movie (λ _, Some (imagePath, true)) w) in
          let w := put_il_label (λ _, MovieLabel imagePath) w in
          il_emit (loadFinished None) (showSuccessState (stopProgressAnimation w))
        else still (put_il_movie (λ _, None) w)
    | None => still (put_il_movie (λ _, None) w)
    end
  else still w.
Definition onCancelClicked w : ImageLoader := put_il_page (λ _, ImagePage) (cancelLoading w).
Definition onRetryClicked w : ImageLoader :=
  if decide (il_imagePath w ≠ "") then loadImageAsync (il_imagePath w) true true w else w.
(** A timer of [startProgressAnimation]. *)
Definition progress_tick w : ImageLoader :=
  match il_progressTimers w with
  | O => w
  | S others =>
      if negb (il_isLoading w) then put_il_progressTimers (λ _, others) w else
      let increment := Z.max 1 (Z.quot (100 - il_loadProgress w) 10) in
      let n := il_loadProgress w + increment in
      let n := if decide (90 ≤ n ∧ isRunning idle_watcher = true) then 90 else n in
      let w := il_emit (loadProgress n) (set_bar n (put_il_loadProgress (λ _, n) w)) in
      if decide (100 ≤ n) then put_il_progressTimers (λ _, others) w else w
  end.
(** The timer of [loadImageAsync] that comes first. *)
Definition load_timer w : ImageLoader :=
  match il_loadTimers w with
  | [] => w
  | imagePath :: rest => detectAndLoadAnimation imagePath (put_il_loadTimers (λ _, rest) w)
  end.
Inductive LoaderInput : Type :=
  | LoadAsync (imagePath : string) (showProgress supportAnimation : bool) | LoadTimer | ProgressTimer | CancelClicked
  | RetryClicked | CancelLoading.
Definition loader_step w (i : LoaderInput) : ImageLoader :=
  match i with
  | LoadAsync imagePath showProgress supportAnimation => loadImageAsync imagePath showProgress supportAnimation w
  | LoadTimer => load_timer w
  | ProgressTimer => progress_tick w
  | CancelClicked => onCancelClicked w
  | RetryClicked => onRetryClicked w
  | CancelLoading => cancelLoading w
  end.
End ImageLoader.

(** * FileMessageItem *)

Section FileMessageItem.
Context `{!Qt} `{!QtPictures}.
Inductive DownloadState : Type := NotStarted | Downloading | Completed | Failed.
Inductive FileSignal : Type := downloadRequested (filePath : string) | openFileRequested (filePath : string).
Record FileMessageItem : Type := {
  fm_fileName : string; fm_fileSize : Z; fm_filePath : string; fm_isSelf : bool; fm_downloadState :
  DownloadState; fm_downloadedBytes : Z; fm_totalBytes : Z; fm_nameText : string; fm_sizeText : string;
  fm_buttonText : string; fm_progress : Z; fm_progressVisible : bool; fm_buttonVisible : bool }.
Definition put_fm_fileName (f : string → string) (w : FileMessageItem) : FileMessageItem := Build_FileMessageItem (f
  (fm_fileName w)) (fm_fileSize w) (fm_filePath w) (fm_isSelf w) (fm_downloadState w) (fm_downloadedBytes w)
  (fm_totalBytes w) (fm_nameText w) (fm_sizeText w) (fm_buttonText w) (fm_progress w) (fm_progressVisible w)
  (fm_buttonVisible w).
Definition put_fm_fileSize (f : Z → Z) (w : FileMessageItem) : FileMessageItem := Build_FileMessageItem (fm_fileName
  w) (f (fm_fileSize w)) (fm_filePath w) (fm_isSelf w) (fm_downloadState w) (fm_downloadedBytes w) (fm_totalBytes w)
  (fm_nameText w) (fm_sizeText w) (fm_buttonText w) (fm_progress w) (fm_progressVisible w) (fm_buttonVisible w).
Definition put_fm_filePath (f : string → string) (w : FileMessageItem) : FileMessageItem := Build_FileMessageItem
  (fm_fileName w) (fm_fileSize w) (f (fm_filePath w)) (fm_isSelf w) (fm_downloadState w) (fm_downloadedBytes w)
  (fm_totalBytes w) (fm_nameText w) (fm_sizeText w) (fm_buttonText w) (fm_progress w) (fm_progressVisible w)
  (fm_buttonVisible w).
Definition put_fm_isSelf (f : bool → bool) (w : FileMessageItem) : FileMessageItem := Build_FileMessageItem
  (fm_fileName w) (fm_fileSize w) (fm_filePath w) (f (fm_isSelf w)) (fm_downloadState w) (fm_downloadedBytes w)
  (fm_totalBytes w) (fm_nameText w) (fm_sizeText w) (fm_buttonText w) (fm_progress w) (fm_progressVisible w)
  (fm_buttonVisible w).
Definition put_fm_downloadState (f : DownloadState → DownloadState) (w : FileMessageItem) : FileMessageItem :=
  Build_FileMessageItem (fm_fileName w) (fm_fileSize w) (fm_filePath w) (fm_isSelf w) (f (fm_downloadState w))
  (fm_downloadedBytes w) (fm_totalBytes w) (fm_nameText w) (fm_sizeText w) (fm_buttonText w) (fm_progress w)
  (fm_progressVisible w) (fm_buttonVisible w).
Definition put_fm_downloadedBytes (f : Z → Z) (w : FileMessageItem) : FileMessageItem := Build_FileMessageItem
  (fm_fileName w) (fm_fileSize w) (fm_filePath w) (fm_isSelf w) (fm_downloadState w) (f (fm_downloadedBytes w))
  (fm_totalBytes w) (fm_nameText w) (fm_sizeText w) (fm_buttonText w) (fm_progress w) (fm_progressVisible w)
  (fm_buttonVisible w).
Definition put_fm_totalBytes (f : Z → Z) (w : FileMessageItem) : FileMessageItem := Build_FileMessageItem
  (fm_fileName w) (fm_fileSize w) (fm_filePath w) (fm_isSelf w) (fm_downloadState w) (fm_downloadedBytes w) (f
  (fm_totalBytes w)) (fm_nameText w) (fm_sizeText w) (fm_buttonText w) (fm_progress w) (fm_progressVisible w)
  (fm_buttonVisible w).
Definition put_fm_nameText (f : string → string) (w : FileMessageItem) : FileMessageItem := Build_FileMessageItem
  (fm_fileName w) (fm_fileSize w) (fm_filePath w) (fm_isSelf w) (fm_downloadState w) (fm_downloadedBytes w)
  (fm_totalBytes w) (f (fm_nameText w)) (fm_sizeText w) (fm_buttonText w) (fm_progress w) (fm_progressVisible w)
  (fm_buttonVisible w).
Definition put_fm_sizeText (f : string → string) (w : FileMessageItem) : FileMessageItem := Build_FileMessageItem
  (fm_fileName w) (fm_fileSize w) (fm_filePath w) (fm_isSelf w) (fm_downloadState w) (fm_downloadedBytes w)
  (fm_totalBytes w) (fm_nameText w) (f (fm_sizeText w)) (fm_buttonText w) (fm_progress w) (fm_progressVisible w)
  (fm_buttonVisible w).
Definition put_fm_buttonText (f : string → string) (w : FileMessageItem) : FileMessageItem := Build_FileMessageItem
  (fm_fileName w) (fm_fileSize w) (fm_filePath w) (fm_isSelf w) (fm_downloadState w) (fm_downloadedBytes w)
  (fm_totalBytes w) (fm_nameText w) (fm_sizeText w) (f (fm_buttonText w)) (fm_progress w) (fm_progressVisible w)
  (fm_buttonVisible w).
Definition put_fm_progress (f : Z → Z) (w : FileMessageItem) : FileMessageItem := Build_FileMessageItem (fm_fileName
  w) (fm_fileSize w) (fm_filePath w) (fm_isSelf w) (fm_downloadState w) (fm_downloadedBytes w) (fm_totalBytes w)
  (fm_nameText w) (fm_sizeText w) (fm_buttonText w) (f (fm_progress w)) (fm_progressVisible w) (fm_buttonVisible w).
Definition put_fm_progressVisible (f : bool → bool) (w : FileMessageItem) : FileMessageItem := Build_FileMessageItem
  (fm_fileName w) (fm_fileSize w) (fm_filePath w) (fm_isSelf w) (fm_downloadState w) (fm_downloadedBytes w)
  (fm_totalBytes w) (fm_nameText w) (fm_sizeText w) (fm_buttonText w) (fm_progress w) (f (fm_progressVisible w))
  (fm_buttonVisible w).
Definition put_fm_buttonVisible (f : bool → bool) (w : FileMessageItem) : FileMessageItem := Build_FileMessageItem
  (fm_fileName w) (fm_fileSize w) (fm_filePath w) (fm_isSelf w) (fm_downloadState w) (fm_downloadedBytes w)
  (fm_totalBytes w) (fm_nameText w) (fm_sizeText w) (fm_buttonText w) (fm_progress w) (fm_progressVisible w) (f
  (fm_buttonVisible w)).

Definition FileMessageItem_new : FileMessageItem :=
  {| fm_fileName := ""; fm_fileSize := 0; fm_filePath := ""; fm_isSelf := false; fm_downloadState := NotStarted;
     fm_downloadedBytes := 0; fm_totalBytes := 0; fm_nameText := ""; fm_sizeText := ""; fm_buttonText := ""; fm_progress := 0;
     fm_progressVisible := false; fm_buttonVisible := true |}.
Implicit Types w : FileMessageItem.
(** The loop over the units; the divisions are exact. *)
Fixpoint unit_loop (units : list string) (size divisor : Z) : Z * string :=
  match units with
  | [] => (divisor, "")
  | [unit] => (divisor, unit)
  | unit :: units => if decide (1024 * divisor ≤ size) then unit_loop units size (1024 * divisor) else (divisor, unit)
  end.
Definition formatFileSize (bytes : Z) : string :=
  if decide (bytes < 0) then "0 B" else
  let '(divisor, unit) := unit_loop ["B"; "KB"; "MB"; "GB"; "TB"] bytes 1 in
  quotient_text bytes divisor (if decide (divisor = 1) then 0 else 1) +:+ " " +:+ unit.
Definition updateActionButtonText w : FileMessageItem :=
  put_fm_buttonText (λ _, match fm_downloadState w with
                          | NotStarted => "⬇ 下载" | Downloading => "⏳ 下载中" | Completed => "📂 打开" | Failed => "↻ 重试"
                          end) w.
Definition updateUIState w : FileMessageItem :=
  match fm_downloadState w with
  | NotStarted | Completed => put_fm_buttonVisible (λ _, true) (put_fm_progressVisible (λ _, false) w)
  | Downloading => put_fm_buttonVisible (λ _, false) (put_fm_progressVisible (λ _, true) w)
  | Failed => put_fm_buttonVisible (λ _, true) (put_fm_sizeText (λ s, s +:+ " (下载失败)") (put_fm_progressVisible (λ _, false) w))
  end.
Definition setFileInfo (fileName : string) (fileSize : Z) (filePath : string) (isSelf : bool) w : FileMessageItem :=
  let w := put_fm_isSelf (λ _, isSelf) (put_fm_filePath (λ _, filePath) (put_fm_fileSize (λ _, fileSize)
             (put_fm_fileName (λ _, fileName) w))) in
  updateUIState (updateActionButtonText (put_fm_sizeText (λ _, formatFileSize fileSize) (put_fm_nameText (λ _, fileName) w))).
Definition setDownloadState (state : DownloadState) w : FileMessageItem :=
  updateUIState (updateActionButtonText (put_fm_downloadState (λ _, state) w)).
Definition setDownloadProgress (received total : Z) w : FileMessageItem :=
  let w := put_fm_totalBytes (λ _, total) (put_fm_downloadedBytes (λ _, received) w) in
  if decide (total > 0) then
    let percent := wrap32 (Z.quot (received * 100) total) in
    put_fm_sizeText (λ _, formatFileSize received +:+ " / " +:+ formatFileSize total +:+ " (" +:+ pretty percent +:+ "%)")
      (put_fm_progress (λ old, if decide (0 ≤ percent ≤ 100) then percent else old) w)
  else w.
Definition onActionButtonClicked w : list FileSignal :=
  match fm_downloadState w with
  | NotStarted | Failed => [downloadRequested (fm_filePath w)]
  | Completed => [openFileRequested (fm_filePath w)]
  | Downloading => []
  end.
End FileMessageItem.

(** * MessageItem *)

Section MessageItem.
Context `{!Qt} `{!QtPictures}.
Inductive ItemSignal : Type :=
  | replyRequested (msgId content senderName senderId : string) | imageClicked (msgId imageUrl : string)
  | retrySendRequested (msgId : string).
Record MessageItem : Type := {
  mi_msgId : string; mi_senderName : string; mi_isSelf : bool; mi_mediaUrl : string; mi_mediaType : string;
  mi_mentions : list string; mi_replyToMsgId : string; mi_replyToContent : string; mi_replyToSender : string;
  mi_recalled : bool; mi_sending : bool; mi_sendFailed : bool; mi_nameText : string; mi_nameVisible : bool;
  mi_avatar : string; mi_time : option Z; mi_contentText : string; mi_richText : bool; mi_contentVisible : bool;
  mi_loader : ImageLoader; mi_loaderVisible : bool; mi_file : FileMessageItem; mi_fileVisible : bool;
  mi_replyText : string; mi_replyVisible : bool; mi_replyTarget : string; mi_statusText : string;
  mi_statusVisible : bool; mi_retryVisible : bool }.
Definition put_mi_msgId (f : string → string) (w : MessageItem) : MessageItem := Build_MessageItem (f (mi_msgId w))
  (mi_senderName w) (mi_isSelf w) (mi_mediaUrl w) (mi_mediaType w) (mi_mentions w) (mi_replyToMsgId w)
  (mi_replyToContent w) (mi_replyToSender w) (mi_recalled w) (mi_sending w) (mi_sendFailed w) (mi_nameText w)
  (mi_nameVisible w) (mi_avatar w) (mi_time w) (mi_contentText w) (mi_richText w) (mi_contentVisible w) (mi_loader
  w) (mi_loaderVisible w) (mi_file w) (mi_fileVisible w) (mi_replyText w) (mi_replyVisible w) (mi_replyTarget w)
  (mi_statusText w) (mi_statusVisible w) (mi_retryVisible w).
Definition put_mi_senderName (f : string → string) (w : MessageItem) : MessageItem := Build_MessageItem (mi_msgId w)
  (f (mi_senderName w)) (mi_isSelf w) (mi_mediaUrl w) (mi_mediaType w) (mi_mentions w) (mi_replyToMsgId w)
  (mi_replyToContent w) (mi_replyToSender w) (mi_recalled w) (mi_sending w) (mi_sendFailed w) (mi_nameText w)
  (mi_nameVisible w) (mi_avatar w) (mi_time w) (mi_contentText w) (mi_richText w) (mi_contentVisible w) (mi_loader
  w) (mi_loaderVisible w) (mi_file w) (mi_fileVisible w) (mi_replyText w) (mi_replyVisible w) (mi_replyTarget w)
  (mi_statusText w) (mi_statusVisible w) (mi_retryVisible w).
Definition put_mi_isSelf (f : bool → bool) (w : MessageItem) : MessageItem := Build_MessageItem (mi_msgId w)
  (mi_senderName w) (f (mi_isSelf w)) (mi_mediaUrl w) (mi_mediaType w) (mi_mentions w) (mi_replyToMsgId w)
  (mi_replyToContent w) (mi_replyToSender w) (mi_recalled w) (mi_sending w) (mi_sendFailed w) (mi_nameText w)
  (mi_nameVisible w) (mi_avatar w) (mi_time w) (mi_contentText w) (mi_richText w) (mi_contentVisible w) (mi_loader
  w) (mi_loaderVisible w) (mi_file w) (mi_fileVisible w) (mi_replyText w) (mi_replyVisible w) (mi_replyTarget w)
  (mi_statusText w) (mi_statusVisible w) (mi_retryVisible w).
Definition put_mi_mediaUrl (f : string → string) (w : MessageItem) : MessageItem := Build_MessageItem (mi_msgId w)
  (mi_senderName w) (mi_isSelf w) (f (mi_mediaUrl w)) (mi_mediaType w) (mi_mentions w) (mi_replyToMsgId w)
  (mi_replyToContent w) (mi_replyToSender w) (mi_recalled w) (mi_sending w) (mi_sendFailed w) (mi_nameText w)
  (mi_nameVisible w) (mi_avatar w) (mi_time w) (mi_contentText w) (mi_richText w) (mi_contentVisible w) (mi_loader
  w) (mi_loaderVisible w) (mi_file w) (mi_fileVisible w) (mi_replyText w) (mi_replyVisible w) (mi_replyTarget w)
  (mi_statusText w) (mi_statusVisible w) (mi_retryVisible w).
Definition put_mi_mediaType (f : string → string) (w : MessageItem) : MessageItem := Build_MessageItem (mi_msgId w)
  (mi_senderName w) (mi_isSelf w) (mi_mediaUrl w) (f (mi_mediaType w)) (mi_mentions w) (mi_replyToMsgId w)
  (mi_replyToContent w) (mi_replyToSender w) (mi_recalled w) (mi_sending w) (mi_sendFailed w) (mi_nameText w)
  (mi_nameVisible w) (mi_avatar w) (mi_time w) (mi_contentText w) (mi_richText w) (mi_contentVisible w) (mi_loader
  w) (mi_loaderVisible w) (mi_file w) (mi_fileVisible w) (mi_replyText w) (mi_replyVisible w) (mi_replyTarget w)
  (mi_statusText w) (mi_statusVisible w) (mi_retryVisible w).
Definition put_mi_mentions (f : (list string) → (list string)) (w : MessageItem) : MessageItem := Build_MessageItem
  (mi_msgId w) (mi_senderName w) (mi_isSelf w) (mi_mediaUrl w) (mi_mediaType w) (f (mi_mentions w)) (mi_replyToMsgId
  w) (mi_replyToContent w) (mi_replyToSender w) (mi_recalled w) (mi_sending w) (mi_sendFailed w) (mi_nameText w)
  (mi_nameVisible w) (mi_avatar w) (mi_time w) (mi_contentText w) (mi_richText w) (mi_contentVisible w) (mi_loader
  w) (mi_loaderVisible w) (mi_file w) (mi_fileVisible w) (mi_replyText w) (mi_replyVisible w) (mi_replyTarget w)
  (mi_statusText w) (mi_statusVisible w) (mi_retryVisible w).
Definition put_mi_replyToMsgId (f : string → string) (w : MessageItem) : MessageItem := Build_MessageItem (mi_msgId
  w) (mi_senderName w) (mi_isSelf w) (mi_mediaUrl w) (mi_mediaType w) (mi_mentions w) (f (mi_replyToMsgId w))
  (mi_replyToContent w) (mi_replyToSender w) (mi_recalled w) (mi_sending w) (mi_sendFailed w) (mi_nameText w)
  (mi_nameVisible w) (mi_avatar w) (mi_time w) (mi_contentText w) (mi_richText w) (mi_contentVisible w) (mi_loader
  w) (mi_loaderVisible w) (mi_file w) (mi_fileVisible w) (mi_replyText w) (mi_replyVisible w) (mi_replyTarget w)
  (mi_statusText w) (mi_statusVisible w) (mi_retryVisible w).
Definition put_mi_replyToContent (f : string → string) (w : MessageItem) : MessageItem := Build_MessageItem
  (mi_msgId w) (mi_senderName w) (mi_isSelf w) (mi_mediaUrl w) (mi_mediaType w) (mi_mentions w) (mi_replyToMsgId w)
  (f (mi_replyToContent w)) (mi_replyToSender w) (mi_recalled w) (mi_sending w) (mi_sendFailed w) (mi_nameText w)
  (mi_nameVisible w) (mi_avatar w) (mi_time w) (mi_contentText w) (mi_richText w) (mi_contentVisible w) (mi_loader
  w) (mi_loaderVisible w) (mi_file w) (mi_fileVisible w) (mi_replyText w) (mi_replyVisible w) (mi_replyTarget w)
  (mi_statusText w) (mi_statusVisible w) (mi_retryVisible w).
Definition put_mi_replyToSender (f : string → string) (w : MessageItem) : MessageItem := Build_MessageItem (mi_msgId
  w) (mi_senderName w) (mi_isSelf w) (mi_mediaUrl w) (mi_mediaType w) (mi_mentions w) (mi_replyToMsgId w)
  (mi_replyToContent w) (f (mi_replyToSender w)) (mi_recalled w) (mi_sending w) (mi_sendFailed w) (mi_nameText w)
  (mi_nameVisible w) (mi_avatar w) (mi_time w) (mi_contentText w) (mi_richText w) (mi_contentVisible w) (mi_loader
  w) (mi_loaderVisible w) (mi_file w) (mi_fileVisible w) (mi_replyText w) (mi_replyVisible w) (mi_replyTarget w)
  (mi_statusText w) (mi_statusVisible w) (mi_retryVisible w).
Definition put_mi_recalled (f : bool → bool) (w : MessageItem) : MessageItem := Build_MessageItem (mi_msgId w)
  (mi_senderName w) (mi_isSelf w) (mi_mediaUrl w) (mi_mediaType w) (mi_mentions w) (mi_replyToMsgId w)
  (mi_replyToContent w) (mi_replyToSender w) (f (mi_recalled w)) (mi_sending w) (mi_sendFailed w) (mi_nameText w)
  (mi_nameVisible w) (mi_avatar w) (mi_time w) (mi_contentText w) (mi_richText w) (mi_contentVisible w) (mi_loader
  w) (mi_loaderVisible w) (mi_file w) (mi_fileVisible w) (mi_replyText w) (mi_replyVisible w) (mi_replyTarget w)
  (mi_statusText w) (mi_statusVisible w) (mi_retryVisible w).
Definition put_mi_sending (f : bool → bool) (w : MessageItem) : MessageItem := Build_MessageItem (mi_msgId w)
  (mi_senderName w) (mi_isSelf w) (mi_mediaUrl w) (mi_mediaType w) (mi_mentions w) (mi_replyToMsgId w)
  (mi_replyToContent w) (mi_replyToSender w) (mi_recalled w) (f (mi_sending w)) (mi_sendFailed w) (mi_nameText w)
  (mi_nameVisible w) (mi_avatar w) (mi_time w) (mi_contentText w) (mi_richText w) (mi_contentVisible w) (mi_loader
  w) (mi_loaderVisible w) (mi_file w) (mi_fileVisible w) (mi_replyText w) (mi_replyVisible w) (mi_replyTarget w)
  (mi_statusText w) (mi_statusVisible w) (mi_retryVisible w).
Definition put_mi_sendFailed (f : bool → bool) (w : MessageItem) : MessageItem := Build_MessageItem (mi_msgId w)
  (mi_senderName w) (mi_isSelf w) (mi_mediaUrl w) (mi_mediaType w) (mi_mentions w) (mi_replyToMsgId w)
  (mi_replyToContent w) (mi_replyToSender w) (mi_recalled w) (mi_sending w) (f (mi_sendFailed w)) (mi_nameText w)
  (mi_nameVisible w) (mi_avatar w) (mi_time w) (mi_contentText w) (mi_richText w) (mi_contentVisible w) (mi_loader
  w) (mi_loaderVisible w) (mi_file w) (mi_fileVisible w) (mi_replyText w) (mi_replyVisible w) (mi_replyTarget w)
  (mi_statusText w) (mi_statusVisible w) (mi_retryVisible w).
Definition put_mi_nameText (f : string → string) (w : MessageItem) : MessageItem := Build_MessageItem (mi_msgId w)
  (mi_senderName w) (mi_isSelf w) (mi_mediaUrl w) (mi_mediaType w) (mi_mentions w) (mi_replyToMsgId w)
  (mi_replyToContent w) (mi_replyToSender w) (mi_recalled w) (mi_sending w) (mi_sendFailed w) (f (mi_nameText w))
  (mi_nameVisible w) (mi_avatar w) (mi_time w) (mi_contentText w) (mi_richText w) (mi_contentVisible w) (mi_loader
  w) (mi_loaderVisible w) (mi_file w) (mi_fileVisible w) (mi_replyText w) (mi_replyVisible w) (mi_replyTarget w)
  (mi_statusText w) (mi_statusVisible w) (mi_retryVisible w).
Definition put_mi_nameVisible (f : bool → bool) (w : MessageItem) : MessageItem := Build_MessageItem (mi_msgId w)
  (mi_senderName w) (mi_isSelf w) (mi_mediaUrl w) (mi_mediaType w) (mi_mentions w) (mi_replyToMsgId w)
  (mi_replyToContent w) (mi_replyToSender w) (mi_recalled w) (mi_sending w) (mi_sendFailed w) (mi_nameText w) (f
  (mi_nameVisible w)) (mi_avatar w) (mi_time w) (mi_contentText w) (mi_richText w) (mi_contentVisible w) (mi_loader
  w) (mi_loaderVisible w) (mi_file w) (mi_fileVisible w) (mi_replyText w) (mi_replyVisible w) (mi_replyTarget w)
  (mi_statusText w) (mi_statusVisible w) (mi_retryVisible w).
Definition put_mi_avatar (f : string → string) (w : MessageItem) : MessageItem := Build_MessageItem (mi_msgId w)
  (mi_senderName w) (mi_isSelf w) (mi_mediaUrl w) (mi_mediaType w) (mi_mentions w) (mi_replyToMsgId w)
  (mi_replyToContent w) (mi_replyToSender w) (mi_recalled w) (mi_sending w) (mi_sendFailed w) (mi_nameText w)
  (mi_nameVisible w) (f (mi_avatar w)) (mi_time w) (mi_contentText w) (mi_richText w) (mi_contentVisible w)
  (mi_loader w) (mi_loaderVisible w) (mi_file w) (mi_fileVisible w) (mi_replyText w) (mi_replyVisible w)
  (mi_replyTarget w) (mi_statusText w) (mi_statusVisible w) (mi_retryVisible w).
Definition put_mi_time (f : (option Z) → (option Z)) (w : MessageItem) : MessageItem := Build_MessageItem (mi_msgId
  w) (mi_senderName w) (mi_isSelf w) (mi_mediaUrl w) (mi_mediaType w) (mi_mentions w) (mi_replyToMsgId w)
  (mi_replyToContent w) (mi_replyToSender w) (mi_recalled w) (mi_sending w) (mi_sendFailed w) (mi_nameText w)
  (mi_nameVisible w) (mi_avatar w) (f (mi_time w)) (mi_contentText w) (mi_richText w) (mi_contentVisible w)
  (mi_loader w) (mi_loaderVisible w) (mi_file w) (mi_fileVisible w) (mi_replyText w) (mi_replyVisible w)
  (mi_replyTarget w) (mi_statusText w) (mi_statusVisible w) (mi_retryVisible w).
Definition put_mi_contentText (f : string → string) (w : MessageItem) : MessageItem := Build_MessageItem (mi_msgId
  w) (mi_senderName w) (mi_isSelf w) (mi_mediaUrl w) (mi_mediaType w) (mi_mentions w) (mi_replyToMsgId w)
  (mi_replyToContent w) (mi_replyToSender w) (mi_recalled w) (mi_sending w) (mi_sendFailed w) (mi_nameText w)
  (mi_nameVisible w) (mi_avatar w) (mi_time w) (f (mi_contentText w)) (mi_richText w) (mi_contentVisible w)
  (mi_loader w) (mi_loaderVisible w) (mi_file w) (mi_fileVisible w) (mi_replyText w) (mi_replyVisible w)
  (mi_replyTarget w) (mi_statusText w) (mi_statusVisible w) (mi_retryVisible w).
Definition put_mi_richText (f : bool → bool) (w : MessageItem) : MessageItem := Build_MessageItem (mi_msgId w)
  (mi_senderName w) (mi_isSelf w) (mi_mediaUrl w) (mi_mediaType w) (mi_mentions w) (mi_replyToMsgId w)
  (mi_replyToContent w) (mi_replyToSender w) (mi_recalled w) (mi_sending w) (mi_sendFailed w) (mi_nameText w)
  (mi_nameVisible w) (mi_avatar w) (mi_time w) (mi_contentText w) (f (mi_richText w)) (mi_contentVisible w)
  (mi_loader w) (mi_loaderVisible w) (mi_file w) (mi_fileVisible w) (mi_replyText w) (mi_replyVisible w)
  (mi_replyTarget w) (mi_statusText w) (mi_statusVisible w) (mi_retryVisible w).
Definition put_mi_contentVisible (f : bool → bool) (w : MessageItem) : MessageItem := Build_MessageItem (mi_msgId w)
  (mi_senderName w) (mi_isSelf w) (mi_mediaUrl w) (mi_mediaType w) (mi_mentions w) (mi_replyToMsgId w)
  (mi_replyToContent w) (mi_replyToSender w) (mi_recalled w) (mi_sending w) (mi_sendFailed w) (mi_nameText w)
  (mi_nameVisible w) (mi_avatar w) (mi_time w) (mi_contentText w) (mi_richText w) (f (mi_contentVisible w))
  (mi_loader w) (mi_loaderVisible w) (mi_file w) (mi_fileVisible w) (mi_replyText w) (mi_replyVisible w)
  (mi_replyTarget w) (mi_statusText w) (mi_statusVisible w) (mi_retryVisible w).
Definition put_mi_loader (f : ImageLoader → ImageLoader) (w : MessageItem) : MessageItem := Build_MessageItem
  (mi_msgId w) (mi_senderName w) (mi_isSelf w) (mi_mediaUrl w) (mi_mediaType w) (mi_mentions w) (mi_replyToMsgId w)
  (mi_replyToContent w) (mi_replyToSender w) (mi_recalled w) (mi_sending w) (mi_sendFailed w) (mi_nameText w)
  (mi_nameVisible w) (mi_avatar w) (mi_time w) (mi_contentText w) (mi_richText w) (mi_contentVisible w) (f
  (mi_loader w)) (mi_loaderVisible w) (mi_file w) (mi_fileVisible w) (mi_replyText w) (mi_replyVisible w)
  (mi_replyTarget w) (mi_statusText w) (mi_statusVisible w) (mi_retryVisible w).
Definition put_mi_loaderVisible (f : bool → bool) (w : MessageItem) : MessageItem := Build_MessageItem (mi_msgId w)
  (mi_senderName w) (mi_isSelf w) (mi_mediaUrl w) (mi_mediaType w) (mi_mentions w) (mi_replyToMsgId w)
  (mi_replyToContent w) (mi_replyToSender w) (mi_recalled w) (mi_sending w) (mi_sendFailed w) (mi_nameText w)
  (mi_nameVisible w) (mi_avatar w) (mi_time w) (mi_contentText w) (mi_richText w) (mi_contentVisible w) (mi_loader
  w) (f (mi_loaderVisible w)) (mi_file w) (mi_fileVisible w) (mi_replyText w) (mi_replyVisible w) (mi_replyTarget w)
  (mi_statusText w) (mi_statusVisible w) (mi_retryVisible w).
Definition put_mi_file (f : FileMessageItem → FileMessageItem) (w : MessageItem) : MessageItem := Build_MessageItem
  (mi_msgId w) (mi_senderName w) (mi_isSelf w) (mi_mediaUrl w) (mi_mediaType w) (mi_mentions w) (mi_replyToMsgId w)
  (mi_replyToContent w) (mi_replyToSender w) (mi_recalled w) (mi_sending w) (mi_sendFailed w) (mi_nameText w)
  (mi_nameVisible w) (mi_avatar w) (mi_time w) (mi_contentText w) (mi_richText w) (mi_contentVisible w) (mi_loader
  w) (mi_loaderVisible w) (f (mi_file w)) (mi_fileVisible w) (mi_replyText w) (mi_replyVisible w) (mi_replyTarget w)
  (mi_statusText w) (mi_statusVisible w) (mi_retryVisible w).
Definition put_mi_fileVisible (f : bool → bool) (w : MessageItem) : MessageItem := Build_MessageItem (mi_msgId w)
  (mi_senderName w) (mi_isSelf w) (mi_mediaUrl w) (mi_mediaType w) (mi_mentions w) (mi_replyToMsgId w)
  (mi_replyToContent w) (mi_replyToSender w) (mi_recalled w) (mi_sending w) (mi_sendFailed w) (mi_nameText w)
  (mi_nameVisible w) (mi_avatar w) (mi_time w) (mi_contentText w) (mi_richText w) (mi_contentVisible w) (mi_loader
  w) (mi_loaderVisible w) (mi_file w) (f (mi_fileVisible w)) (mi_replyText w) (mi_replyVisible w) (mi_replyTarget w)
  (mi_statusText w) (mi_statusVisible w) (mi_retryVisible w).
Definition put_mi_replyText (f : string → string) (w : MessageItem) : MessageItem := Build_MessageItem (mi_msgId w)
  (mi_senderName w) (mi_isSelf w) (mi_mediaUrl w) (mi_mediaType w) (mi_mentions w) (mi_replyToMsgId w)
  (mi_replyToContent w) (mi_replyToSender w) (mi_recalled w) (mi_sending w) (mi_sendFailed w) (mi_nameText w)
  (mi_nameVisible w) (mi_avatar w) (mi_time w) (mi_contentText w) (mi_richText w) (mi_contentVisible w) (mi_loader
  w) (mi_loaderVisible w) (mi_file w) (mi_fileVisible w) (f (mi_replyText w)) (mi_replyVisible w) (mi_replyTarget w)
  (mi_statusText w) (mi_statusVisible w) (mi_retryVisible w).
Definition put_mi_replyVisible (f : bool → bool) (w : MessageItem) : MessageItem := Build_MessageItem (mi_msgId w)
  (mi_senderName w) (mi_isSelf w) (mi_mediaUrl w) (mi_mediaType w) (mi_mentions w) (mi_replyToMsgId w)
  (mi_replyToContent w) (mi_replyToSender w) (mi_recalled w) (mi_sending w) (mi_sendFailed w) (mi_nameText w)
  (mi_nameVisible w) (mi_avatar w) (mi_time w) (mi_contentText w) (mi_richText w) (mi_contentVisible w) (mi_loader
  w) (mi_loaderVisible w) (mi_file w) (mi_fileVisible w) (mi_replyText w) (f (mi_replyVisible w)) (mi_replyTarget w)
  (mi_statusText w) (mi_statusVisible w) (mi_retryVisible w).
Definition put_mi_replyTarget (f : string → string) (w : MessageItem) : MessageItem := Build_MessageItem (mi_msgId
  w) (mi_senderName w) (mi_isSelf w) (mi_mediaUrl w) (mi_mediaType w) (mi_mentions w) (mi_replyToMsgId w)
  (mi_replyToContent w) (mi_replyToSender w) (mi_recalled w) (mi_sending w) (mi_sendFailed w) (mi_nameText w)
  (mi_nameVisible w) (mi_avatar w) (mi_time w) (mi_contentText w) (mi_richText w) (mi_contentVisible w) (mi_loader
  w) (mi_loaderVisible w) (mi_file w) (mi_fileVisible w) (mi_replyText w) (mi_replyVisible w) (f (mi_replyTarget w))
  (mi_statusText w) (mi_statusVisible w) (mi_retryVisible w).
Definition put_mi_statusText (f : string → string) (w : MessageItem) : MessageItem := Build_MessageItem (mi_msgId w)
  (mi_senderName w) (mi_isSelf w) (mi_mediaUrl w) (mi_mediaType w) (mi_mentions w) (mi_replyToMsgId w)
  (mi_replyToContent w) (mi_replyToSender w) (mi_recalled w) (mi_sending w) (mi_sendFailed w) (mi_nameText w)
  (mi_nameVisible w) (mi_avatar w) (mi_time w) (mi_contentText w) (mi_richText w) (mi_contentVisible w) (mi_loader
  w) (mi_loaderVisible w) (mi_file w) (mi_fileVisible w) (mi_replyText w) (mi_replyVisible w) (mi_replyTarget w) (f
  (mi_statusText w)) (mi_statusVisible w) (mi_retryVisible w).
Definition put_mi_statusVisible (f : bool → bool) (w : MessageItem) : MessageItem := Build_MessageItem (mi_msgId w)
  (mi_senderName w) (mi_isSelf w) (mi_mediaUrl w) (mi_mediaType w) (mi_mentions w) (mi_replyToMsgId w)
  (mi_replyToContent w) (mi_replyToSender w) (mi_recalled w) (mi_sending w) (mi_sendFailed w) (mi_nameText w)
  (mi_nameVisible w) (mi_avatar w) (mi_time w) (mi_contentText w) (mi_richText w) (mi_contentVisible w) (mi_loader
  w) (mi_loaderVisible w) (mi_file w) (mi_fileVisible w) (mi_replyText w) (mi_replyVisible w) (mi_replyTarget w)
  (mi_statusText w) (f (mi_statusVisible w)) (mi_retryVisible w).
Definition put_mi_retryVisible (f : bool → bool) (w : MessageItem) : MessageItem := Build_MessageItem (mi_msgId w)
  (mi_senderName w) (mi_isSelf w) (mi_mediaUrl w) (mi_mediaType w) (mi_mentions w) (mi_replyToMsgId w)
  (mi_replyToContent w) (mi_replyToSender w) (mi_recalled w) (mi_sending w) (mi_sendFailed w) (mi_nameText w)
  (mi_nameVisible w) (mi_avatar w) (mi_time w) (mi_contentText w) (mi_richText w) (mi_contentVisible w) (mi_loader
  w) (mi_loaderVisible w) (mi_file w) (mi_fileVisible w) (mi_replyText w) (mi_replyVisible w) (mi_replyTarget w)
  (mi_statusText w) (mi_statusVisible w) (f (mi_retryVisible w)).

Definition MessageItem_new : MessageItem :=
  {| mi_msgId := ""; mi_senderName := ""; mi_isSelf := false; mi_mediaUrl := ""; mi_mediaType := ""; mi_mentions := [];
     mi_replyToMsgId := ""; mi_replyToContent := ""; mi_replyToSender := ""; mi_recalled := false; mi_sending := false;
     mi_sendFailed := false; mi_nameText := ""; mi_nameVisible := false; mi_avatar := "👤"; mi_time := None;
     mi_contentText := ""; mi_richText := false; mi_contentVisible := true; mi_loader := setMaxSize 300 300 ImageLoader_new;
     mi_loaderVisible := false; mi_file := FileMessageItem_new; mi_fileVisible := false; mi_replyText := "";
     mi_replyVisible := false; mi_replyTarget := ""; mi_statusText := ""; mi_statusVisible := false; mi_retryVisible := false |}.
Implicit Types w : MessageItem.
(** [QString::replace]: [skip] characters belong to the last occurrence. *)
Fixpoint replace_from (from to : string) (skip : nat) (s : string) : string :=
  match s, skip with
  | EmptyString, _ => ""
  | String _ s, S skip => replace_from from to skip s
  | String c s', O =>
      if String.prefix from s then to +:+ replace_from from to (String.length from - 1) s' else String c (replace_from from to 0 s')
  end.
Definition highlight (mentions : list string) (content : string) : string :=
  foldl (λ content userId, replace_from ("@" +:+ userId)
    ("<span style='color: #3498db; font-weight: 600;'>@" +:+ userId +:+ "</span>") 0 content) content mentions.
Definition setupReplyView (replyToMsgId replyToContent replyToSender : string) w : MessageItem :=
  if decide (replyToMsgId = "") then put_mi_replyVisible (λ _, false) w else
  put_mi_replyTarget (λ _, replyToMsgId)
    (put_mi_replyText (λ _, if decide (replyToSender ≠ "") then "回复 " +:+ replyToSender +:+ "：" +:+ replyToContent
                            else "回复：" +:+ replyToContent)
      (put_mi_replyVisible (λ _, true) w)).
(** The part of [setMessage] that depends on the type of the media. *)
Definition set_body (content : string) (isSelf : bool) (mediaUrl mediaType : string) (mentions : list string) w : MessageItem :=
  if decide (mediaType = "image" ∧ mediaUrl ≠ "") then
    put_mi_loader (loadImageAsync mediaUrl true true) (put_mi_loaderVisible (λ _, true) (put_mi_contentVisible (λ _, false) w))
  else if decide (mediaType = "file" ∧ mediaUrl ≠ "") then
    put_mi_file (setFileInfo (QFileInfo_fileName mediaUrl) (QFileInfo_size mediaUrl) mediaUrl isSelf)
      (put_mi_fileVisible (λ _, true) (put_mi_loaderVisible (λ _, false) (put_mi_contentVisible (λ _, false) w)))
  else
    let w := put_mi_contentVisible (λ _, true) (put_mi_fileVisible (λ _, false) (put_mi_loaderVisible (λ _, false) w)) in
    if decide (mentions ≠ []) then put_mi_richText (λ _, true) (put_mi_contentText (λ _, highlight mentions content) w)
    else put_mi_richText (λ _, false) (put_mi_contentText (λ _, content) w).
Definition setMessage (msgId content senderName : string) (isSelf : bool) (timestamp : Z) (mediaUrl mediaType : string)
    (mentions : list string) (replyToMsgId replyToContent replyToSender : string) w : MessageItem :=
  let w := put_mi_mentions (λ _, mentions) (put_mi_mediaType (λ _, mediaType) (put_mi_mediaUrl (λ _, mediaUrl)
             (put_mi_isSelf (λ _, isSelf) (put_mi_senderName (λ _, senderName) (put_mi_msgId (λ _, msgId) w))))) in
  let w := put_mi_replyToSender (λ _, replyToSender) (put_mi_replyToContent (λ _, replyToContent)
             (put_mi_replyToMsgId (λ _, replyToMsgId) w)) in
  let w := put_mi_nameVisible (λ _, bool_decide (senderName ≠ "")) (put_mi_nameText (λ _, senderName) w) in
  let w := put_mi_avatar (λ _, if isSelf then "🧑" else "👤") w in
  let w := put_mi_time (λ old, if decide (timestamp > 0) then Some timestamp else old) w in
  let w := set_body content isSelf mediaUrl mediaType mentions w in
  if decide (replyToMsgId ≠ "") then setupReplyView replyToMsgId replyToContent replyToSender w
  else put_mi_replyVisible (λ _, false) w.
Definition setRecalled (recalled : bool) w : MessageItem :=
  let w := put_mi_recalled (λ _, recalled) w in
  if recalled then
    put_mi_retryVisible (λ _, false) (put_mi_statusVisible (λ _, false) (put_mi_fileVisible (λ _, false)
      (put_mi_loaderVisible (λ _, false) (put_mi_contentText (λ _, "这条消息已撤回") (put_mi_contentVisible (λ _, true) w)))))
  else w.
Definition setSendingState (sending : bool) w : MessageItem :=
  put_mi_retryVisible (λ _, false) (put_mi_statusText (λ _, "发送中...") (put_mi_statusVisible (λ _, sending)
    (put_mi_sending (λ _, sending) w))).
Definition setFailedState (failed : bool) w : MessageItem :=
  put_mi_retryVisible (λ _, failed) (put_mi_statusText (λ _, "发送失败") (put_mi_statusVisible (λ _, failed)
    (put_mi_sendFailed (λ _, failed) w))).
Definition onReplyActionTriggered w : list ItemSignal :=
  [replyRequested (mi_msgId w) (mi_contentText w) (mi_senderName w) (mi_msgId w)].
Definition onImageLabelClicked w : list ItemSignal :=
  if decide (mi_mediaUrl w = "" ∨ mi_mediaType w ≠ "image") then [] else [imageClicked (mi_msgId w) (mi_mediaUrl w)].
Definition onRetryButtonClicked w : list ItemSignal := [retrySendRequested (mi_msgId w)].
Definition reply_label_clicked w : list ItemSignal :=
  if decide (mi_replyTarget w ≠ "") then [replyRequested (mi_replyTarget w) "" "" ""] else [].
End MessageItem.

(** * What the loader shows *)

Section Loader.
Context `{!Qt} `{!QtPictures}.
Implicit Types w : ImageLoader.
Definition run_loader (inputs : list LoaderInput) : ImageLoader := foldl loader_step ImageLoader_new inputs.
(** Signals that tell nothing of a still picture. *)
Definition no_still (s : LoaderSignal) : Prop :=
  match s with loadFinished None | loadProgress _ => True | _ => False end.
Definition still_hidden w : Prop :=
  il_scaled w = None ∧ (∀ p, il_label w ≠ PixmapLabel p) ∧ il_page w ≠ ErrorPage ∧ Forall no_still (il_signals w).
Lemma hidden_emit s w : no_still s → still_hidden w → still_hidden (il_emit s w).
Proof. intros Hs (Hs1 & Hs2 & Hs3 & Hs4). split_and!; [done..|]. cbn. apply Forall_app. split; [done|]. by apply Forall_singleton. Qed.
Lemma hidden_complete w : isCanceled idle_watcher = true → still_hidden w → still_hidden (onLoadComplete w).
Proof. intros Hc Hw. unfold onLoadComplete. by rewrite Hc. Qed.
Lemma hidden_detect imagePath w : isCanceled idle_watcher = true → still_hidden w →
  still_hidden (detectAndLoadAnimation imagePath w).
Proof.
  intros Hc Hw. unfold detectAndLoadAnimation. case_decide; [case_match; [case_decide|]|]; try by apply hidden_complete.
  apply hidden_emit; [done|]. destruct Hw as (Hs1 & Hs2 & Hs3 & Hs4). by split_and!.
Qed.
Lemma hidden_load imagePath showProgress supportAnimation w : still_hidden w →
  still_hidden (loadImageAsync imagePath showProgress supportAnimation w).
Proof. intros (Hs1 & Hs2 & Hs3 & Hs4). unfold loadImageAsync. destruct (il_isLoading w), showProgress; by split_and!. Qed.
Lemma hidden_step w i : isCanceled idle_watcher = true → still_hidden w → still_hidden (loader_step w i).
Proof.
  intros Hc Hw. destruct i; cbn [loader_step].
  - by apply hidden_load.
  - unfold load_timer. destruct (il_loadTimers w); [done|]. by apply hidden_detect.
  - unfold progress_tick. destruct (il_progressTimers w); [done|]. destruct (il_isLoading w); [|done]. cbn [negb].
    destruct (decide (100 ≤ _)); by apply (hidden_emit (loadProgress _)).
  - destruct Hw as (Hs1 & Hs2 & Hs3 & Hs4). by split_and!.
  - unfold onRetryClicked. case_decide; [by apply hidden_load|done].
  - destruct Hw as (Hs1 & Hs2 & Hs3 & Hs4). by split_and!.
Qed.

(** no still picture is shown: the watcher that [onLoadComplete] asks was never given a computation, and Qt counts such
    a watcher as cancelled; so whatever is loaded, cancelled and retried, and however the timers fire, the label of an
    image message never holds a picture, and neither a success nor a failure of a still picture is reported: only
    animations are ever seen. *)
Theorem no_still_picture_shown inputs : isCanceled idle_watcher = true →
  let w := run_loader inputs in
  (∀ p, il_label w ≠ PixmapLabel p) ∧ il_page w ≠ ErrorPage ∧
  ∀ s, s ∈ il_signals w → (∀ p, s ≠ loadFinished (Some p)) ∧ ∀ error, s ≠ loadFailed error.
Proof.
  intros Hc w. assert (still_hidden w) as (_ & Hs2 & Hs3 & Hs4).
  { unfold w, run_loader. clear w. induction inputs as [|i inputs IH] using rev_ind; [by split_and!|].
    rewrite foldl_app. cbn [foldl]. by apply hidden_step. }
  split_and!; [done..|]. intros s Hs. pose proof (proj1 (Forall_forall _ _) Hs4 s Hs) as Hq.
  split; [intros p ->|intros error ->]; done.
Qed.
Lemma detect_animation imagePath n w : movie_frames imagePath = Some n → n > 1 →
  toLower (QFileInfo_suffix imagePath) = "gif" → il_supportAnimation w = true →
  let w' := detectAndLoadAnimation imagePath w in
  il_isLoading w' = il_isLoading w ∧ il_progressTimers w' = il_progressTimers w ∧ il_loadProgress w' = 100.
Proof.
  intros Hm Hn Hs Hsup. unfold detectAndLoadAnimation. rewrite Hs, Hm, decide_True by (split; [by left|done]).
  by rewrite decide_True by done.
Qed.
Lemma tick_101 w k : isRunning idle_watcher = false → il_progressTimers w = S k → il_isLoading w = true →
  il_loadProgress w = 100 → loadProgress 101 ∈ il_signals (progress_tick w).
Proof.
  intros Hr Hk Hl Hp. unfold progress_tick. rewrite Hk, Hl, Hp, Hr. cbn [negb].
  rewrite (decide_False (P := 90 ≤ _ ∧ _)) by (by intros [_ ?]).
  destruct (decide (100 ≤ _)); cbn; apply elem_of_app; right; by apply list_elem_of_singleton.
Qed.
Lemma first_load imagePath showProgress supportAnimation :
  load_timer (loadImageAsync imagePath showProgress supportAnimation ImageLoader_new) =
  detectAndLoadAnimation imagePath
    (put_il_loadTimers (λ _, []) (loadImageAsync imagePath showProgress supportAnimation ImageLoader_new)).
Proof. unfold load_timer. by destruct showProgress. Qed.
(** The progress of an animation passes 100: the flag [m_isLoading] stays up, and the timer goes on from 100. *)
Theorem animation_progress_101 imagePath n : movie_frames imagePath = Some n → n > 1 →
  toLower (QFileInfo_suffix imagePath) = "gif" → isRunning idle_watcher = false →
  loadProgress 101 ∈ il_signals (progress_tick (load_timer (loadImageAsync imagePath true true ImageLoader_new))).
Proof.
  intros Hm Hn Hs Hr. rewrite first_load.
  destruct (detect_animation imagePath n (put_il_loadTimers (λ _, []) (loadImageAsync imagePath true true ImageLoader_new))
    Hm Hn Hs eq_refl) as (Hl & Hk & Hp).
  apply (tick_101 _ 0); [done|rewrite Hk; reflexivity|rewrite Hl; reflexivity|done].
Qed.
End Loader.

(** * A run *)

#[export] Instance some_pictures : QtPictures := {|
  QPixmap := string * (Z * Z);
  read_picture path := if decide (path = "") then None else Some (path, (640, 480));
  scale_picture p size _ := (p.1, size);
  movie_frames path := if String.prefix "movie" path then Some 12 else None;
  QFileInfo_suffix path := if String.prefix "movie" path then "gif" else "png";
  QFileInfo_fileName path := path; QFileInfo_size path := 2048;
  quotient_text a b decimals := pretty (Z.quot a b);
  idle_watcher := {| isRunning := false; isCanceled := true; isFinished := true; result := None |} |}.
#[local] Existing Instance Desktop.some_qt.
Example png_keeps_loading : il_page (run_loader [LoadAsync "cat" true true; LoadTimer; ProgressTimer]) = LoadingPage.
Proof. reflexivity. Qed.
Example gif_is_shown : il_label (run_loader [LoadAsync "movie" true true; LoadTimer]) = MovieLabel "movie".
Proof. reflexivity. Qed.
