(* ===== verification/ChatInput.v ===== *)
(** Writing a message, and acting on one that is shown: the input field of [client/desktop/src/ui/chatwidget.cpp] with its
    pop-up for mentions ([mentionpopup.cpp]), the replies and read receipts, and the dialogs for pictures
    ([imagepreviewdialog.cpp]), readers ([readreceiptdetaildialog.cpp]) and blocked users ([blacklistdialog.cpp]).

    A position in a text counts the characters of its model; the positions of the code fall on the same places, since the
    characters it looks for ([@], the space, the line feed) stand for themselves in every encoding.  The order of a [QMap]
    is that of a list of pairs. *)

From Stdlib Require Import Ascii.
From S2P Require Import Prelude External Utils ChatStorage Widgets MessageView.
From S2P Require MainWindow.
From S2P Require Desktop.
Import MainWindow (Qt, trimmed, toLower, containsCI).

(** * MentionPopupDialog *)

Section MentionPopup.
Context `{!Qt}.
Record MentionPopup : Type := {
  mp_members : list string; mp_memberNames : gmap string string; mp_memberList : list (string * string);
  mp_currentRow : option nat; mp_selectedUserId : string; mp_selectedUserName : string; mp_cursorPosition : nat;
  mp_mentionStartPos : option nat; mp_visible : bool }.
Definition put_mp_members (f : (list string) → (list string)) (w : MentionPopup) : MentionPopup :=
  Build_MentionPopup (f (mp_members w)) (mp_memberNames w) (mp_memberList w) (mp_currentRow w) (mp_selectedUserId w)
  (mp_selectedUserName w) (mp_cursorPosition w) (mp_mentionStartPos w) (mp_visible w).
Definition put_mp_memberNames (f : (gmap string string) → (gmap string string)) (w : MentionPopup) : MentionPopup :=
  Build_MentionPopup (mp_members w) (f (mp_memberNames w)) (mp_memberList w) (mp_currentRow w) (mp_selectedUserId w)
  (mp_selectedUserName w) (mp_cursorPosition w) (mp_mentionStartPos w) (mp_visible w).
Definition put_mp_memberList (f : (list (string * string)) → (list (string * string))) (w : MentionPopup) :
  MentionPopup := Build_MentionPopup (mp_members w) (mp_memberNames w) (f (mp_memberList w)) (mp_currentRow w)
  (mp_selectedUserId w) (mp_selectedUserName w) (mp_cursorPosition w) (mp_mentionStartPos w) (mp_visible w).
Definition put_mp_currentRow (f : (option nat) → (option nat)) (w : MentionPopup) : MentionPopup :=
  Build_MentionPopup (mp_members w) (mp_memberNames w) (mp_memberList w) (f (mp_currentRow w)) (mp_selectedUserId w)
  (mp_selectedUserName w) (mp_cursorPosition w) (mp_mentionStartPos w) (mp_visible w).
Definition put_mp_selectedUserId (f : string → string) (w : MentionPopup) : MentionPopup := Build_MentionPopup
  (mp_members w) (mp_memberNames w) (mp_memberList w) (mp_currentRow w) (f (mp_selectedUserId w))
  (mp_selectedUserName w) (mp_cursorPosition w) (mp_mentionStartPos w) (mp_visible w).
Definition put_mp_selectedUserName (f : string → string) (w : MentionPopup) : MentionPopup := Build_MentionPopup
  (mp_members w) (mp_memberNames w) (mp_memberList w) (mp_currentRow w) (mp_selectedUserId w) (f
  (mp_selectedUserName w)) (mp_cursorPosition w) (mp_mentionStartPos w) (mp_visible w).
Definition put_mp_cursorPosition (f : nat → nat) (w : MentionPopup) : MentionPopup := Build_MentionPopup (mp_members
  w) (mp_memberNames w) (mp_memberList w) (mp_currentRow w) (mp_selectedUserId w) (mp_selectedUserName w) (f
  (mp_cursorPosition w)) (mp_mentionStartPos w) (mp_visible w).
Definition put_mp_mentionStartPos (f : (option nat) → (option nat)) (w : MentionPopup) : MentionPopup :=
  Build_MentionPopup (mp_members w) (mp_memberNames w) (mp_memberList w) (mp_currentRow w) (mp_selectedUserId w)
  (mp_selectedUserName w) (mp_cursorPosition w) (f (mp_mentionStartPos w)) (mp_visible w).
Definition put_mp_visible (f : bool → bool) (w : MentionPopup) : MentionPopup := Build_MentionPopup (mp_members w)
  (mp_memberNames w) (mp_memberList w) (mp_currentRow w) (mp_selectedUserId w) (mp_selectedUserName w)
  (mp_cursorPosition w) (mp_mentionStartPos w) (f (mp_visible w)).

Definition MentionPopup_new : MentionPopup :=
  {| mp_members := []; mp_memberNames := ∅; mp_memberList := []; mp_currentRow := None; mp_selectedUserId := "";
     mp_selectedUserName := ""; mp_cursorPosition := 0; mp_mentionStartPos := Some 0%nat; mp_visible := false |}.
Implicit Types w : MentionPopup.
Definition name_of (names : gmap string string) (userId : string) : string := default userId (names !! userId).
Definition set_rows (rows : list (string * string)) w : MentionPopup :=
  put_mp_currentRow (λ _, match rows with [] => None | _ => Some 0%nat end) (put_mp_memberList (λ _, rows) w).
Definition setMembers (members : list string) (memberNames : gmap string string) w : MentionPopup :=
  set_rows ((λ userId, (userId, name_of memberNames userId)) <$> members)
    (put_mp_memberNames (λ _, memberNames) (put_mp_members (λ _, members) w)).
(** The loop that looks for the [@] before the first [n] characters end: it stops at a space or a line feed. *)
Fixpoint find_at (text : string) (n : nat) : option nat :=
  match n with
  | O => None
  | S i =>
      match String.get i text with
      | Some c => if decide (c = "@"%char) then Some i else
                  if decide (c = " "%char ∨ c = "010"%char) then None else find_at text i
      | None => find_at text i
      end
  end.
Definition setInputContext (currentText : string) (cursorPosition : nat) w : MentionPopup :=
  put_mp_mentionStartPos (λ _, find_at currentText cursorPosition) (put_mp_cursorPosition (λ _, cursorPosition) w).
Definition hide w : MentionPopup := put_mp_visible (λ _, false) w.
Definition matching (names : gmap string string) (searchText : string) (members : list string) : list (string * string) :=
  filter (λ row, containsCI row.2 (toLower searchText) = true) ((λ userId, (userId, name_of names userId)) <$> members).
Definition filterMembers (searchText : string) w : MentionPopup :=
  let rows := matching (mp_memberNames w) searchText (mp_members w) in
  let w := set_rows rows w in
  match rows with [] => hide w | _ => w end.
End MentionPopup.

(** * The input of the chat *)

Inductive ChatSignal : Type :=
  | messageSent (content : string) | retryMessageRequested (msgId : string) | fileMessageOpenRequested (msgId : string)
  | recallMessageRequested (msgId : string) | fileSelected (filePath : string) | viewImage (imageUrl : string)
  | scrollTo (msgId : string) | userSelected (userId userName : string).

Section ChatInput.
Context `{!Qt} `{!QtPictures}.
Record ChatInput : Type := {
  ci_chat : ChatWidget; ci_text : string; ci_cursor : nat; ci_popup : option MentionPopup; ci_replyToMsgId :
  string; ci_replyToContent : string; ci_replyToSender : string; ci_replyHint : option string; ci_readUsers :
  list (string * string); ci_unreadUsers : list (string * string); ci_receiptText : string; ci_signals : list
  ChatSignal }.
Definition put_ci_chat (f : ChatWidget → ChatWidget) (w : ChatInput) : ChatInput := Build_ChatInput (f (ci_chat w))
  (ci_text w) (ci_cursor w) (ci_popup w) (ci_replyToMsgId w) (ci_replyToContent w) (ci_replyToSender w)
  (ci_replyHint w) (ci_readUsers w) (ci_unreadUsers w) (ci_receiptText w) (ci_signals w).
Definition put_ci_text (f : string → string) (w : ChatInput) : ChatInput := Build_ChatInput (ci_chat w) (f (ci_text
  w)) (ci_cursor w) (ci_popup w) (ci_replyToMsgId w) (ci_replyToContent w) (ci_replyToSender w) (ci_replyHint w)
  (ci_readUsers w) (ci_unreadUsers w) (ci_receiptText w) (ci_signals w).
Definition put_ci_cursor (f : nat → nat) (w : ChatInput) : ChatInput := Build_ChatInput (ci_chat w) (ci_text w) (f
  (ci_cursor w)) (ci_popup w) (ci_replyToMsgId w) (ci_replyToContent w) (ci_replyToSender w) (ci_replyHint w)
  (ci_readUsers w) (ci_unreadUsers w) (ci_receiptText w) (ci_signals w).
Definition put_ci_popup (f : (option MentionPopup) → (option MentionPopup)) (w : ChatInput) : ChatInput :=
  Build_ChatInput (ci_chat w) (ci_text w) (ci_cursor w) (f (ci_popup w)) (ci_replyToMsgId w) (ci_replyToContent w)
  (ci_replyToSender w) (ci_replyHint w) (ci_readUsers w) (ci_unreadUsers w) (ci_receiptText w) (ci_signals w).
Definition put_ci_replyToMsgId (f : string → string) (w : ChatInput) : ChatInput := Build_ChatInput (ci_chat w)
  (ci_text w) (ci_cursor w) (ci_popup w) (f (ci_replyToMsgId w)) (ci_replyToContent w) (ci_replyToSender w)
  (ci_replyHint w) (ci_readUsers w) (ci_unreadUsers w) (ci_receiptText w) (ci_signals w).
Definition put_ci_replyToContent (f : string → string) (w : ChatInput) : ChatInput := Build_ChatInput (ci_chat w)
  (ci_text w) (ci_cursor w) (ci_popup w) (ci_replyToMsgId w) (f (ci_replyToContent w)) (ci_replyToSender w)
  (ci_replyHint w) (ci_readUsers w) (ci_unreadUsers w) (ci_receiptText w) (ci_signals w).
Definition put_ci_replyToSender (f : string → string) (w : ChatInput) : ChatInput := Build_ChatInput (ci_chat w)
  (ci_text w) (ci_cursor w) (ci_popup w) (ci_replyToMsgId w) (ci_replyToContent w) (f (ci_replyToSender w))
  (ci_replyHint w) (ci_readUsers w) (ci_unreadUsers w) (ci_receiptText w) (ci_signals w).
Definition put_ci_replyHint (f : (option string) → (option string)) (w : ChatInput) : ChatInput := Build_ChatInput
  (ci_chat w) (ci_text w) (ci_cursor w) (ci_popup w) (ci_replyToMsgId w) (ci_replyToContent w) (ci_replyToSender w)
  (f (ci_replyHint w)) (ci_readUsers w) (ci_unreadUsers w) (ci_receiptText w) (ci_signals w).
Definition put_ci_readUsers (f : (list (string * string)) → (list (string * string))) (w : ChatInput) : ChatInput :=
  Build_ChatInput (ci_chat w) (ci_text w) (ci_cursor w) (ci_popup w) (ci_replyToMsgId w) (ci_replyToContent w)
  (ci_replyToSender w) (ci_replyHint w) (f (ci_readUsers w)) (ci_unreadUsers w) (ci_receiptText w) (ci_signals w).
Definition put_ci_unreadUsers (f : (list (string * string)) → (list (string * string))) (w : ChatInput) : ChatInput
  := Build_ChatInput (ci_chat w) (ci_text w) (ci_cursor w) (ci_popup w) (ci_replyToMsgId w) (ci_replyToContent w)
  (ci_replyToSender w) (ci_replyHint w) (ci_readUsers w) (f (ci_unreadUsers w)) (ci_receiptText w) (ci_signals w).
Definition put_ci_receiptText (f : string → string) (w : ChatInput) : ChatInput := Build_ChatInput (ci_chat w)
  (ci_text w) (ci_cursor w) (ci_popup w) (ci_replyToMsgId w) (ci_replyToContent w) (ci_replyToSender w)
  (ci_replyHint w) (ci_readUsers w) (ci_unreadUsers w) (f (ci_receiptText w)) (ci_signals w).
Definition put_ci_signals (f : (list ChatSignal) → (list ChatSignal)) (w : ChatInput) : ChatInput := Build_ChatInput
  (ci_chat w) (ci_text w) (ci_cursor w) (ci_popup w) (ci_replyToMsgId w) (ci_replyToContent w) (ci_replyToSender w)
  (ci_replyHint w) (ci_readUsers w) (ci_unreadUsers w) (ci_receiptText w) (f (ci_signals w)).

Definition ChatInput_new (chat : ChatWidget) : ChatInput :=
  {| ci_chat := chat; ci_text := ""; ci_cursor := 0; ci_popup := None; ci_replyToMsgId := ""; ci_replyToContent := "";
     ci_replyToSender := ""; ci_replyHint := None; ci_readUsers := []; ci_unreadUsers := []; ci_receiptText := "";
     ci_signals := [] |}.
Implicit Types w : ChatInput.
Definition ci_emit (s : ChatSignal) w : ChatInput := put_ci_signals (λ l, l ++ [s]) w.
Definition hideMentionPopup w : ChatInput := put_ci_popup (fmap hide) w.
Definition popup_members : list string := ["user1"; "user2"; "user3"; "张三"; "李四"; "王五"].
Definition showMentionPopup w : ChatInput :=
  let popup := default (setMembers popup_members (list_to_map ((λ u, (u, u)) <$> popup_members)) MentionPopup_new) (ci_popup w) in
  put_ci_popup (λ _, Some (put_mp_visible (λ _, true) (setInputContext (ci_text w) (ci_cursor w) popup))) w.
Definition onInputTextChanged w : ChatInput :=
  let text := ci_text w in
  let pos := ci_cursor w in
  if decide (0 < pos ∧ String.get (pos - 1) text = Some "@"%char)%nat then
    if decide (ch_chatType (ci_chat w) = 2) then showMentionPopup w else w
  else
    match ci_popup w with
    | Some popup =>
        if mp_visible popup then
          match find_at text pos with
          | Some at_ => put_ci_popup (fmap (filterMembers (str_take (pos - at_ - 1) (str_drop (at_ + 1) text)))) w
          | None => hideMentionPopup w
          end
        else w
    | None => w
    end.
(** The user or a [QTextCursor] changes the text; [textChanged] is emitted. *)
Definition edit (text : string) (cursor : nat) w : ChatInput :=
  onInputTextChanged (put_ci_cursor (λ _, cursor) (put_ci_text (λ _, text) w)).
Definition insertText (at_ : nat) (s : string) w : ChatInput :=
  if decide (s = "") then w else
  edit (str_take at_ (ci_text w) +:+ s +:+ str_drop at_ (ci_text w)) (at_ + str_size s)%nat w.
Definition removeSelectedText (from to : nat) w : ChatInput :=
  if decide (from < to)%nat then edit (str_take from (ci_text w) +:+ str_drop to (ci_text w)) from w else w.
(** [popup->selectUser]: what it changes in the text, each change with its signal; then it hides. *)
Definition selectUser (userId userName : string) w : ChatInput :=
  match ci_popup w with
  | None => w
  | Some popup =>
      let w := put_ci_popup (fmap (λ p, put_mp_selectedUserName (λ _, userName) (put_mp_selectedUserId (λ _, userId) p))) w in
      let w := match mp_mentionStartPos popup with
               | Some start =>
                   let from := Nat.min (start + 1) (ci_cursor w) in
                   let to := Nat.max (start + 1) (ci_cursor w) in
                   insertText (from + str_size userName) " " (insertText from userName (removeSelectedText from to w))
               | None => w
               end in
      hideMentionPopup (ci_emit (userSelected userId userName) w)
  end.
Definition onMemberClicked (userId : string) w : ChatInput :=
  match ci_popup w with Some popup => selectUser userId (name_of (mp_memberNames popup) userId) w | None => w end.
(** A row of the pop-up is clicked, or return is pressed in it; and escape. *)
Definition row_clicked (row : nat) w : ChatInput :=
  match ci_popup w with
  | Some popup => if mp_visible popup then match mp_memberList popup !! row with Some (userId, _) => onMemberClicked userId w | None => w end else w
  | None => w
  end.
Definition return_pressed w : ChatInput :=
  match ci_popup w with Some popup => match mp_currentRow popup with Some row => row_clicked row w | None => w end | None => w end.
Definition escape_pressed w : ChatInput := hideMentionPopup w.

(** ** Replies, sending, and messages that are clicked *)

Definition onReplyMessageRequested (targetMsgId targetContent targetSender : string) w : ChatInput :=
  put_ci_replyHint (λ _, Some ("回复 " +:+ targetSender +:+ "：" +:+ targetContent))
    (put_ci_replyToSender (λ _, targetSender) (put_ci_replyToContent (λ _, targetContent)
      (put_ci_replyToMsgId (λ _, targetMsgId) w))).
Definition clearReplyState w : ChatInput :=
  put_ci_replyHint (λ _, None) (put_ci_replyToSender (λ _, "") (put_ci_replyToContent (λ _, "") (put_ci_replyToMsgId (λ _, "") w))).
Definition scrollToMessage (msgId_ : string) w : ChatInput :=
  if decide (msgId_ ≠ "" ∧ msgId_ ∈ (msgId <$> ch_messages (ci_chat w))) then ci_emit (scrollTo msgId_) w else w.
Definition onSendClicked w : ChatInput :=
  if decide (ch_chatId (ci_chat w) = "") then w else
  let content := trimmed (ci_text w) in
  if decide (content = "") then w else
  let w := if decide (ci_replyToMsgId w ≠ "") then clearReplyState (ci_emit (messageSent content) w)
           else ci_emit (messageSent content) w in
  edit "" 0 w.
Definition onFileClicked (filePath : string) w : ChatInput :=
  if decide (filePath = "") then w else ci_emit (fileSelected filePath) w.
(** Pictures that were chosen, unless the preview was cancelled. *)
Definition pictures_chosen (chosen : option (list string)) w : ChatInput :=
  foldl (λ w path, ci_emit (fileSelected path) w) w (default [] chosen).
(** What [refreshMessageList] builds for a message. *)
Definition quoted (messages : list Message) (message : Message) : string * string :=
  match (if decide (replyToMsgId message ≠ "") then find (λ m, bool_decide (msgId m = replyToMsgId message)) messages else None) with
  | Some m => (content m, if isSelf m then "我" else fromUserId m)
  | None => ("", "")
  end.
Definition buildMessageItemWidget (messages : list Message) (message : Message) : MessageItem :=
  let '(replyToContent, replyToSender) := quoted messages message in
  let item := setMessage (msgId message) (content message) (if isSelf message then "" else fromUserId message) (isSelf message)
                (timestamp message) (mediaUrl message) (mediaType message) (mentions message) (replyToMsgId message)
                replyToContent replyToSender MessageItem_new in
  let item := if decide (status message = 1) then setRecalled true item else item in
  let item := if sending message then setSendingState true item else item in
  if sendFailed message then setFailedState true item else item.
Definition on_item_signal (s : ItemSignal) w : ChatInput :=
  match s with
  | imageClicked _ imageUrl => ci_emit (viewImage imageUrl) w
  | retrySendRequested msgId => ci_emit (retryMessageRequested msgId) w
  | replyRequested msgId content senderName _ =>
      if decide (content = "") then scrollToMessage msgId w else onReplyMessageRequested msgId content senderName w
  end.
Definition IsFileMessage (m : Message) : bool := bool_decide (toLower (mediaType m) = "file").
(** The loop of a double click on the row of [id]. *)
Fixpoint double_click (id : string) (messages : list Message) : option ChatSignal :=
  match messages with
  | [] => None
  | m :: rest =>
      if decide (msgId m = id ∧ sendFailed m = true) then Some (retryMessageRequested id) else
      if decide (msgId m = id ∧ status m ≠ 1 ∧ IsFileMessage m = true) then Some (fileMessageOpenRequested id) else
      if decide (msgId m = id ∧ isSelf m = true ∧ sending m = false ∧ sendFailed m = false ∧ status m ≠ 1)
      then Some (recallMessageRequested id) else double_click id rest
  end.
Definition itemDoubleClicked (id : string) w : ChatInput :=
  if decide (id = "") then w else
  match double_click id (ch_messages (ci_chat w)) with Some s => ci_emit s w | None => w end.
End ChatInput.

(** ** Read receipts *)

Section Receipts.
Implicit Types w : ChatInput.
Definition shown_name (user : string * string) : string := if decide (user.2 = "") then user.1 else user.2.
Definition updateReadReceiptDisplay (chatType : Z) (readUsers unreadUsers : list (string * string)) w : ChatInput :=
  put_ci_receiptText (λ _,
    if decide (chatType = 1) then
      match readUsers, unreadUsers with
      | user :: _, _ => shown_name user +:+ " 已读"
      | [], user :: _ => shown_name user +:+ " 未读"
      | [], [] => ""
      end
    else if decide (readUsers ≠ [] ∨ unreadUsers ≠ [])
         then pretty (length readUsers) +:+ " 人已读，" +:+ pretty (length unreadUsers) +:+ " 人未读" else "")
    (put_ci_unreadUsers (λ _, unreadUsers) (put_ci_readUsers (λ _, readUsers) w)).
Record ReceiptDetail : Type := { rd_readList : list string; rd_unreadList : list string; rd_readCount : Z; rd_unreadCount : Z; rd_title : string }.
Definition receipt_detail (readList unreadList : list string) : ReceiptDetail :=
  let readCount := Z.of_nat (length readList) in
  let unreadCount := Z.of_nat (length unreadList) in
  {| rd_readList := readList; rd_unreadList := unreadList; rd_readCount := readCount; rd_unreadCount := unreadCount;
     rd_title := if decide (unreadCount > 0) then "已读：" +:+ pretty readCount +:+ " / 未读：" +:+ pretty unreadCount
                 else "已读：" +:+ pretty readCount |}.
Definition setPrivateChatReceipt (readerName : string) (hasRead : bool) : ReceiptDetail :=
  if hasRead then receipt_detail [readerName] [] else receipt_detail [] [readerName].
Definition setGroupChatReceipt (readUsers unreadUsers : list (string * string)) : ReceiptDetail :=
  receipt_detail (shown_name <$> readUsers) (shown_name <$> unreadUsers).
(** [None]: an iterator at the end of an empty map is read. *)
Definition showReadReceiptDetail w : option ReceiptDetail :=
  if decide (ch_chatType (ci_chat w) = 1) then
    match ci_readUsers w, ci_unreadUsers w with
    | user :: _, _ => Some (setPrivateChatReceipt (shown_name user) true)
    | [], user :: _ => Some (setPrivateChatReceipt (shown_name user) false)
    | [], [] => None
    end
  else Some (setGroupChatReceipt (ci_readUsers w) (ci_unreadUsers w)).
End Receipts.

(** * The preview of pictures *)

Section ImagePreview.
Record ImagePreview : Type := {
  ip_imagePaths : list string; ip_selectedImages : list string; ip_checked : list bool; ip_allChecked : bool;
  ip_countText : string; ip_confirmEnabled : bool }.
Definition put_ip_imagePaths (f : (list string) → (list string)) (w : ImagePreview) : ImagePreview :=
  Build_ImagePreview (f (ip_imagePaths w)) (ip_selectedImages w) (ip_checked w) (ip_allChecked w) (ip_countText w)
  (ip_confirmEnabled w).
Definition put_ip_selectedImages (f : (list string) → (list string)) (w : ImagePreview) : ImagePreview :=
  Build_ImagePreview (ip_imagePaths w) (f (ip_selectedImages w)) (ip_checked w) (ip_allChecked w) (ip_countText w)
  (ip_confirmEnabled w).
Definition put_ip_checked (f : (list bool) → (list bool)) (w : ImagePreview) : ImagePreview := Build_ImagePreview
  (ip_imagePaths w) (ip_selectedImages w) (f (ip_checked w)) (ip_allChecked w) (ip_countText w) (ip_confirmEnabled
  w).
Definition put_ip_allChecked (f : bool → bool) (w : ImagePreview) : ImagePreview := Build_ImagePreview
  (ip_imagePaths w) (ip_selectedImages w) (ip_checked w) (f (ip_allChecked w)) (ip_countText w) (ip_confirmEnabled
  w).
Definition put_ip_countText (f : string → string) (w : ImagePreview) : ImagePreview := Build_ImagePreview
  (ip_imagePaths w) (ip_selectedImages w) (ip_checked w) (ip_allChecked w) (f (ip_countText w)) (ip_confirmEnabled
  w).
Definition put_ip_confirmEnabled (f : bool → bool) (w : ImagePreview) : ImagePreview := Build_ImagePreview
  (ip_imagePaths w) (ip_selectedImages w) (ip_checked w) (ip_allChecked w) (ip_countText w) (f (ip_confirmEnabled
  w)).

Definition ImagePreview_new : ImagePreview :=
  {| ip_imagePaths := []; ip_selectedImages := []; ip_checked := []; ip_allChecked := false; ip_countText := "";
     ip_confirmEnabled := true |}.
Implicit Types w : ImagePreview.
Definition updateCountLabel w : ImagePreview :=
  put_ip_confirmEnabled (λ _, bool_decide (ip_selectedImages w ≠ []))
    (put_ip_countText (λ _, "已选择 " +:+ pretty (length (ip_selectedImages w)) +:+ " 张图片") w).
(** The boxes are checked before they are connected. *)
Definition setImages (imagePaths : list string) w : ImagePreview :=
  updateCountLabel (put_ip_checked (λ _, replicate (length imagePaths) true) (put_ip_selectedImages (λ _, [])
    (put_ip_imagePaths (λ _, imagePaths) w))).
Definition onImageSelected (index : nat) (selected : bool) w : ImagePreview :=
  match ip_imagePaths w !! index with
  | None => w
  | Some path =>
      let w := put_ip_selectedImages (λ l, if selected then if decide (path ∈ l) then l else l ++ [path]
                                           else filter (λ p, p ≠ path) l) w in
      let w := updateCountLabel w in
      put_ip_allChecked (λ _, bool_decide (length (ip_selectedImages w) = length (ip_imagePaths w))) w
  end.
(** [QCheckBox::setChecked], and a click: [toggled] is emitted when the box changes. *)
Definition setChecked (index : nat) (checked : bool) w : ImagePreview :=
  match ip_checked w !! index with
  | Some old => if decide (old = checked) then w else
                onImageSelected index checked (put_ip_checked (<[index := checked]>) w)
  | None => w
  end.
Definition onSelectAllClicked (checked : bool) w : ImagePreview :=
  foldl (λ w index, setChecked index checked w) w (seq 0 (length (ip_checked w))).
Definition select_all_clicked w : ImagePreview :=
  let checked := negb (ip_allChecked w) in onSelectAllClicked checked (put_ip_allChecked (λ _, checked) w).
End ImagePreview.

(** * The dialog of blocked users *)

Section Blacklist.
Context `{!Qt}.
Record Blacklist : Type := { bl_users : list (string * string); bl_rows : list (string * string); bl_count : string }.
Inductive BlacklistSignal : Type := addUserRequested (userId userName : string) | removeUserRequested (userId : string) | alreadyBlocked (userId : string).
Implicit Types w : Blacklist.
Definition updateCount w : Blacklist :=
  {| bl_users := bl_users w; bl_rows := bl_rows w; bl_count := pretty (length (bl_users w)) +:+ " 人" |}.
Definition setBlockedUsers (blockedUsers : list (string * string)) w : Blacklist :=
  updateCount {| bl_users := blockedUsers; bl_rows := (λ u, (u.1, shown_name u)) <$> blockedUsers; bl_count := bl_count w |}.
Definition onAddUserClicked (entered : option string) w : list BlacklistSignal :=
  match entered with
  | None => []
  | Some userId =>
      let userId := trimmed userId in
      if decide (userId = "") then [] else
      if decide (userId ∈ (fst <$> bl_users w)) then [alreadyBlocked userId] else [addUserRequested userId userId]
  end.
(** [confirmed]: the answer to the question. *)
Definition onRemoveUserClicked (row : option nat) (confirmed : bool) w : list BlacklistSignal * Blacklist :=
  match row ≫= λ r, (λ u, (r, u)) <$> bl_rows w !! r with
  | None => ([], w)
  | Some (r, (userId, _)) =>
      if decide (userId = "") then ([], w) else
      if negb confirmed then ([], w) else
      ([removeUserRequested userId],
       updateCount {| bl_users := bl_users w; bl_rows := delete r (bl_rows w); bl_count := bl_count w |})
  end.
End Blacklist.

(** * What the operations do *)

Section Texts.
Lemma get_app s t n : String.get (str_size s + n) (s +:+ t) = String.get n t.
Proof. induction s as [|c s IH]; [done|exact IH]. Qed.
Lemma get_before s t n : (n < str_size s)%nat → String.get n (s +:+ t) = String.get n s.
Proof.
  unfold str_size. revert n. induction s as [|c s IH]; intros [|n] Hn; cbn in *; try lia; [done|]. apply IH. lia.
Qed.
Lemma get_has c s n : str_has c s = false → String.get n s ≠ Some c.
Proof.
  revert n. induction s as [|a s IH]; intros [|n]; cbn; try done; intros [Ha Hs]%orb_false_elim; [|by apply IH].
  apply bool_decide_eq_false in Ha. by intros [= ->].
Qed.
Lemma get_some s n : (n < str_size s)%nat → ∃ c, String.get n s = Some c.
Proof. unfold str_size. revert n. induction s as [|a s IH]; intros [|n] Hn; cbn in *; try lia; [by exists a|]. apply IH. lia. Qed.
(** The word that is being typed holds none of the characters the search stops at. *)
Definition plain (s : string) : Prop := str_has "@" s = false ∧ str_has " " s = false ∧ str_has "010" s = false.
Lemma find_at_typed before typed rest n : plain typed → (n ≤ str_size typed)%nat →
  find_at (before +:+ "@" +:+ typed +:+ rest) (str_size before + S n) = Some (str_size before).
Proof.
  intros (Hat & Hsp & Hlf). induction n as [|n IH]; intros Hn.
  - rewrite Nat.add_comm. cbn [find_at plus]. rewrite <-(Nat.add_0_r (str_size before)), get_app. cbn [String.get String.app].
    rewrite decide_True by done. by rewrite Nat.add_0_r.
  - replace (str_size before + S (S n))%nat with (S (str_size before + S n)) by lia. cbn [find_at]. rewrite get_app.
    destruct (get_some typed n) as [c Hc]; [lia|].
    assert (String.get (S n) ("@" +:+ typed +:+ rest) = Some c) as ->.
    { change (String.get n (typed +:+ rest) = Some c). rewrite get_before by lia. done. }
    rewrite decide_False by (intros ->; by apply (get_has "@" typed n)).
    rewrite decide_False by (intros [->| ->]; [by apply (get_has " " typed n)|by apply (get_has "010" typed n)]).
    apply IH. lia.
Qed.
End Texts.

Section Mentions.
Context `{!Qt} `{!QtPictures}.
Implicit Types w : ChatInput.
(** A change of the text concerns the pop-up only. *)
Lemma changed_text w : let w' := onInputTextChanged w in
  ci_text w' = ci_text w ∧ ci_cursor w' = ci_cursor w ∧ ci_signals w' = ci_signals w ∧ ci_chat w' = ci_chat w ∧
  (is_Some (ci_popup w) → is_Some (ci_popup w')).
Proof.
  unfold onInputTextChanged. repeat (case_decide || case_match); cbn; split_and!; try done; eauto; rewrite ?H1, ?fmap_is_Some; try done.
Qed.
Lemma edited text cursor w : let w' := edit text cursor w in
  ci_text w' = text ∧ ci_cursor w' = cursor ∧ ci_signals w' = ci_signals w ∧ (is_Some (ci_popup w) → is_Some (ci_popup w')).
Proof.
  unfold edit. by destruct (changed_text (put_ci_cursor (λ _, cursor) (put_ci_text (λ _, text) w))) as (-> & -> & -> & _ & Hp).
Qed.
Lemma inserted at_ s w : ci_cursor w = at_ → let w' := insertText at_ s w in
  ci_text w' = str_take at_ (ci_text w) +:+ s +:+ str_drop at_ (ci_text w) ∧ ci_cursor w' = (at_ + str_size s)%nat ∧
  ci_signals w' = ci_signals w ∧ (is_Some (ci_popup w) → is_Some (ci_popup w')).
Proof.
  intros Hc. unfold insertText. case_decide as Hs; [|apply edited]. subst s. split_and!; [|cbn; lia|done|done].
  symmetry. apply str_take_drop.
Qed.
(** The pop-up is asked for when an [@] is typed in a group. *)
Lemma typed_at before after w : ch_chatType (ci_chat w) = 2 →
  let w1 := edit (before +:+ "@" +:+ after) (str_size before + 1) w in
  ci_chat w1 = ci_chat w ∧ ∃ popup, ci_popup w1 = Some popup ∧ mp_visible popup = true ∧
    mp_mentionStartPos popup = Some (str_size before).
Proof.
  intros Hg. unfold edit, onInputTextChanged. cbn [ci_text ci_cursor ci_chat put_ci_text put_ci_cursor].
  replace (str_size before + 1 - 1)%nat with (str_size before + 0)%nat by lia. rewrite get_app.
  rewrite decide_True by (split; [lia|done]). rewrite decide_True by done. split; [done|]. eexists. split; [reflexivity|].
  split; [done|]. cbn. by apply (find_at_typed before "" after 0).
Qed.
(** A word is typed behind it. *)
Lemma typed_word before typed after w popup : plain typed → typed ≠ "" → ci_popup w = Some popup → mp_visible popup = true →
  let w2 := edit (before +:+ "@" +:+ typed +:+ after) (str_size before + 1 + str_size typed) w in
  ci_popup w2 = Some (filterMembers typed popup).
Proof.
  intros Hp Hne Hpop Hvis. assert (str_size typed ≠ 0%nat) as Hsz by (by destruct typed).
  unfold edit, onInputTextChanged. cbn [ci_text ci_cursor ci_popup ci_chat put_ci_text put_ci_cursor].
  rewrite decide_False.
  - rewrite Hpop, Hvis. replace (str_size before + 1 + str_size typed)%nat with (str_size before + S (str_size typed))%nat by lia.
    rewrite find_at_typed by done. cbn [put_ci_popup ci_popup put_ci_cursor put_ci_text]. rewrite Hpop. cbn [fmap option_fmap option_map]. do 2 f_equal.
    replace (str_size before + S (str_size typed) - str_size before - 1)%nat with (str_size typed) by lia.
    rewrite <-str_drop_drop, str_drop_app. cbn. apply str_take_app.
  - intros [_ Hget]. replace (str_size before + 1 + str_size typed - 1)%nat with (str_size before + S (str_size typed - 1))%nat in Hget by lia.
    rewrite get_app in Hget. change (String.get (str_size typed - 1) (typed +:+ after) = Some "@"%char) in Hget.
    rewrite get_before in Hget by lia. by apply (get_has "@" typed (str_size typed - 1)) in Hget; [|apply Hp].
Qed.
(** A member is chosen. *)
Lemma selected before typed after userId userName w popup :
  ci_text w = before +:+ "@" +:+ typed +:+ after → ci_cursor w = (str_size before + 1 + str_size typed)%nat → typed ≠ "" →
  ci_popup w = Some popup → mp_mentionStartPos popup = Some (str_size before) →
  let w' := selectUser userId userName w in
  ci_text w' = before +:+ "@" +:+ userName +:+ " " +:+ after ∧
  ci_cursor w' = (str_size before + 1 + str_size userName + 1)%nat ∧
  ci_signals w' = ci_signals w ++ [userSelected userId userName] ∧ ∃ popup', ci_popup w' = Some popup' ∧ mp_visible popup' = false.
Proof.
  intros Htext Hcur Hne Hpop Hstart. assert (str_size typed ≠ 0%nat) as Hsz by (by destruct typed).
  unfold selectUser. rewrite Hpop, Hstart. cbn [ci_cursor put_ci_popup]. rewrite Hcur, Nat.min_l, Nat.max_r by lia.
  set (from := (str_size before + 1)%nat). match goal with |- context [removeSelectedText _ _ ?w0] => set (w1 := w0) end.
  unfold removeSelectedText. rewrite decide_True by lia.
  destruct (edited (str_take from (ci_text w1) +:+ str_drop (from + str_size typed) (ci_text w1)) from w1) as (T2 & C2 & S2 & P2).
  set (w2 := edit _ _ w1) in *. destruct (inserted from userName w2 C2) as (T3 & C3 & S3 & P3).
  set (w3 := insertText from userName w2) in *. destruct (inserted _ " " w3 C3) as (T4 & C4 & S4 & P4).
  set (w4 := insertText _ " " w3) in *.
  assert (ci_text w1 = (before +:+ "@") +:+ typed +:+ after) as T1 by (unfold w1; cbn; by rewrite Htext, !str_app_assoc).
  assert (from = str_size (before +:+ "@")) as Hfrom by (by rewrite str_size_app).
  assert (ci_text w2 = (before +:+ "@") +:+ after) as E2.
  { rewrite T2, T1. f_equal; [by rewrite Hfrom, str_take_app|]. by rewrite <-str_drop_drop, Hfrom, str_drop_app, str_drop_app. }
  assert (ci_text w3 = (before +:+ "@" +:+ userName) +:+ after) as E3.
  { by rewrite T3, E2, Hfrom, str_take_app, str_drop_app, !str_app_assoc. }
  assert ((from + str_size userName)%nat = str_size (before +:+ "@" +:+ userName)) as Hto.
  { unfold from. rewrite !str_size_app. cbn. lia. }
  split_and!.
  - change (ci_text w4 = before +:+ "@" +:+ userName +:+ " " +:+ after). rewrite T4, E3, Hto, str_take_app, str_drop_app.
    by rewrite !str_app_assoc.
  - change (ci_cursor w4 = (str_size before + 1 + str_size userName + 1)%nat). rewrite C4. cbn. unfold from. lia.
  - cbn. rewrite S4, S3, S2. done.
  - destruct P4 as [popup' Hp']; [apply P3, P2; unfold w1; cbn; by rewrite Hpop|]. cbn. rewrite Hp'. by eexists.
Qed.

(** a mention is completed: in a group chat, an [@] opens the pop-up; a word typed behind it leaves the members in it
    whose names contain the word, and it stays open as long as there is one; choosing one of them replaces exactly the word
    by the name and a space, whatever stands before and behind it and although every change of the text runs the search
    again; the cursor is then behind the space, the pop-up is gone, and the choice has been signalled. *)
Theorem mention_completes before typed after w : ch_chatType (ci_chat w) = 2 → plain typed → typed ≠ "" →
  let w1 := edit (before +:+ "@" +:+ after) (str_size before + 1) w in
  let w2 := edit (before +:+ "@" +:+ typed +:+ after) (str_size before + 1 + str_size typed) w1 in
  ∃ popup1 popup2, ci_popup w1 = Some popup1 ∧ mp_visible popup1 = true ∧ ci_popup w2 = Some popup2 ∧
    mp_memberList popup2 = matching (mp_memberNames popup1) typed (mp_members popup1) ∧
    mp_visible popup2 = bool_decide (mp_memberList popup2 ≠ []) ∧
    ∀ row userId userName, mp_memberList popup2 !! row = Some (userId, userName) →
      let w3 := row_clicked row w2 in
      ci_text w3 = before +:+ "@" +:+ userName +:+ " " +:+ after ∧
      ci_cursor w3 = (str_size before + 1 + str_size userName + 1)%nat ∧
      ci_signals w3 = ci_signals w ++ [userSelected userId userName] ∧
      ∃ popup3, ci_popup w3 = Some popup3 ∧ mp_visible popup3 = false.
Proof.
  intros Hg Hp Hne w1 w2. destruct (typed_at before after w Hg) as (_ & popup & Hpop & Hvis & Hstart). fold w1 in Hpop.
  pose proof (typed_word before typed after w1 popup Hp Hne Hpop Hvis) as Hpop2. fold w2 in Hpop2.
  set (rows := matching (mp_memberNames popup) typed (mp_members popup)).
  assert (mp_memberList (filterMembers typed popup) = rows ∧ mp_visible (filterMembers typed popup) = bool_decide (rows ≠ []) ∧
    mp_mentionStartPos (filterMembers typed popup) = Some (str_size before) ∧
    mp_memberNames (filterMembers typed popup) = mp_memberNames popup) as (Hrows & Hv & Hs & Hnames).
  { unfold filterMembers. fold rows. by destruct rows. }
  exists popup, (filterMembers typed popup). rewrite Hrows. split_and!; [done..|].
  intros row userId userName Hrow w3. assert (userName = name_of (mp_memberNames popup) userId) as Hname.
  { apply list_elem_of_lookup_2 in Hrow. apply list_elem_of_filter in Hrow as [_ Hin].
    by apply list_elem_of_fmap in Hin as (u & [= -> ->] & _). }
  assert (w3 = selectUser userId userName w2) as ->.
  { unfold w3, row_clicked, onMemberClicked. rewrite Hpop2, Hv, Hrows, Hrow, Hnames, <-Hname.
    rewrite bool_decide_true; [done|]. by intros Hnil; rewrite Hnil in Hrow. }
  destruct (edited (before +:+ "@" +:+ typed +:+ after) (str_size before + 1 + str_size typed) w1) as (T & C & S2 & _).
  destruct (edited (before +:+ "@" +:+ after) (str_size before + 1) w) as (_ & _ & S1 & _). fold w1 in S1. fold w2 in T, C, S2.
  destruct (selected before typed after userId userName w2 _ T C Hne Hpop2 Hs) as (? & ? & Hsig & ?).
  split_and!; [done..| |done]. by rewrite Hsig, S2, S1.
Qed.
End Mentions.

Section Shown.
Context `{!Qt} `{!QtPictures}.
Implicit Types w : ChatInput.
(** A reply is sent as any other message: which message it answers is forgotten, not sent. *)
Theorem reply_is_dropped w : ci_signals (onSendClicked w) = ci_signals (onSendClicked (clearReplyState w)).
Proof.
  unfold onSendClicked. cbn [ci_chat ci_text clearReplyState put_ci_replyHint put_ci_replyToSender put_ci_replyToContent put_ci_replyToMsgId].
  case_decide; [done|]. case_decide; [done|]. cbn [ci_replyToMsgId clearReplyState put_ci_replyHint put_ci_replyToSender put_ci_replyToContent put_ci_replyToMsgId].
  rewrite (decide_False (P := "" ≠ "")) by (intros []; done).
  case_decide; unfold edit; match goal with |- ci_signals (onInputTextChanged ?a) = ci_signals (onInputTextChanged ?b) =>
    destruct (changed_text a) as (_ & _ & -> & _); destruct (changed_text b) as (_ & _ & -> & _) end; done.
Qed.
(** The row of a message that is not recalled, and whose picture is shown, has no text: to reply to it only scrolls. *)
Theorem reply_to_picture_scrolls messages m w : mediaType m = "image" → mediaUrl m ≠ "" → status m ≠ 1 →
  foldl (λ w s, on_item_signal s w) w (onReplyActionTriggered (buildMessageItemWidget messages m)) = scrollToMessage (msgId m) w.
Proof.
  intros Ht Hu Hs. unfold buildMessageItemWidget. destruct (quoted messages m) as [c s].
  rewrite (decide_False (P := status m = 1)) by done. set (item := setMessage _ _ _ _ _ _ _ _ _ _ _ _).
  assert (mi_contentText item = "" ∧ mi_msgId item = msgId m) as [Hc Hi].
  { unfold item, setMessage, set_body. rewrite (decide_True (P := _ ∧ _)) by done. unfold setupReplyView. case_decide; [case_decide|]; split; reflexivity. }
  set (item' := if sendFailed m then _ else _).
  assert (mi_contentText item' = "" ∧ mi_msgId item' = msgId m) as [Hc' Hi'] by (unfold item'; by destruct (sending m), (sendFailed m)).
  unfold onReplyActionTriggered. cbn [foldl on_item_signal]. by rewrite Hc', Hi', decide_True.
Qed.
(** The row of a recalled message shows neither its text nor its picture nor its file. *)
Theorem recalled_hides_content messages m : status m = 1 →
  let item := buildMessageItemWidget messages m in
  mi_contentVisible item = true ∧ mi_contentText item = "这条消息已撤回" ∧ mi_loaderVisible item = false ∧ mi_fileVisible item = false.
Proof.
  intros Hs item. unfold item, buildMessageItemWidget. destruct (quoted messages m) as [c s].
  rewrite (decide_True (P := status m = 1)) by done. by destruct (sending m), (sendFailed m).
Qed.
(** But the row of a message that quotes it does. *)
Theorem quote_shows_recalled messages m q : find (λ x, bool_decide (msgId x = replyToMsgId q)) messages = Some m →
  status m = 1 → isSelf m = false → fromUserId m ≠ "" → replyToMsgId q ≠ "" →
  let item := buildMessageItemWidget messages q in
  mi_replyVisible item = true ∧ mi_replyText item = "回复 " +:+ fromUserId m +:+ "：" +:+ content m.
Proof.
  intros Hf Hs Hself Hfrom Hq item. unfold item, buildMessageItemWidget, quoted. rewrite decide_True by done. rewrite Hf, Hself.
  set (row := setMessage _ _ _ _ _ _ _ _ _ _ _ _).
  assert (mi_replyVisible row = true ∧ mi_replyText row = "回复 " +:+ fromUserId m +:+ "：" +:+ content m) as [Hv Ht].
  { unfold row, setMessage, setupReplyView. rewrite decide_True by done. rewrite decide_False by done. cbn. by rewrite decide_True. }
  case_decide; destruct (sending q), (sendFailed q); by split.
Qed.
End Shown.

Section Preview.
Implicit Types w : ImagePreview.
Inductive PreviewClick : Type := BoxClicked (index : nat) | SelectAll.
Definition preview_click w (c : PreviewClick) : ImagePreview :=
  match c with
  | BoxClicked index => match ip_checked w !! index with Some old => setChecked index (negb old) w | None => w end
  | SelectAll => select_all_clicked w
  end.
Definition preview_ok w : Prop :=
  NoDup (ip_selectedImages w) ∧ ip_selectedImages w ⊆ ip_imagePaths w ∧
  ip_confirmEnabled w = bool_decide (ip_selectedImages w ≠ []) ∧ length (ip_checked w) = length (ip_imagePaths w).
Lemma ok_setChecked index checked w : preview_ok w →
  preview_ok (setChecked index checked w) ∧ ip_imagePaths (setChecked index checked w) = ip_imagePaths w.
Proof.
  intros (Hn & Hs & Hc & Hl). unfold setChecked. destruct (ip_checked w !! index) as [old|]; [|done]. case_decide; [done|].
  unfold onImageSelected. cbn [ip_imagePaths put_ip_checked]. destruct (ip_imagePaths w !! index) as [path|] eqn:Hp.
  - split; [|done]. apply list_elem_of_lookup_2 in Hp. unfold preview_ok. cbn. rewrite length_insert. destruct checked; [case_decide|].
    + done.
    + split_and!; [|set_solver|done|done]. apply NoDup_app. split_and!; [done|set_solver|by apply NoDup_singleton].
    + split_and!; [by apply NoDup_filter| |done|done]. intros p [_ Hin]%list_elem_of_filter. by apply Hs.
  - split; [|done]. split_and!; [done..|]. cbn. by rewrite length_insert.
Qed.
Lemma ok_setAll checked l w : preview_ok w →
  preview_ok (foldl (λ w index, setChecked index checked w) w l) ∧
  ip_imagePaths (foldl (λ w index, setChecked index checked w) w l) = ip_imagePaths w.
Proof.
  revert w. induction l as [|i l IH]; intros w Hw; [done|]. cbn. destruct (ok_setChecked i checked w Hw) as [Hok Heq].
  destruct (IH _ Hok) as [? He]. split; [done|]. by rewrite He.
Qed.
(** Whatever is clicked, the pictures to send are some of those that were chosen, each once, and the button to send them is
    enabled when there are any. *)
Theorem preview_selection_sound imagePaths clicks w0 :
  let w := foldl preview_click (setImages imagePaths w0) clicks in
  NoDup (ip_selectedImages w) ∧ ip_selectedImages w ⊆ imagePaths ∧ ip_confirmEnabled w = bool_decide (ip_selectedImages w ≠ []).
Proof.
  intros w. enough (preview_ok w ∧ ip_imagePaths w = imagePaths) as [(Hn & Hs & Hc & _) Heq] by (by rewrite <-Heq). unfold w. clear w.
  induction clicks as [|c clicks [IH Heq]] using rev_ind.
  - split; [|done]. split_and!; [by apply NoDup_nil_2|set_solver|done|]. cbn. by rewrite length_replicate.
  - rewrite foldl_app. cbn [foldl]. set (w := foldl _ _ clicks) in *. destruct c as [index|]; cbn [preview_click].
    + destruct (ip_checked w !! index); [|done]. destruct (ok_setChecked index (negb b) w IH) as [? ->]. done.
    + unfold select_all_clicked, onSelectAllClicked. rewrite <-Heq. by apply (ok_setAll _ _ (put_ip_allChecked _ w)).
Qed.
(** All boxes are checked, and nothing is selected: to select all does not change that, and nothing can be sent. *)
Theorem select_all_selects_nothing imagePaths w :
  let w' := onSelectAllClicked true (setImages imagePaths w) in
  ip_checked w' = replicate (length imagePaths) true ∧ ip_selectedImages w' = [] ∧ ip_confirmEnabled w' = false.
Proof.
  assert (∀ l, foldl (λ w index, setChecked index true w) (setImages imagePaths w) l = setImages imagePaths w) as Hsame.
  { intros l. induction l as [|i l IH]; [done|]. cbn [foldl]. rewrite <-IH at 2. f_equal. unfold setChecked.
    destruct (ip_checked (setImages imagePaths w) !! i) as [b|] eqn:Hb; [|done].
    apply lookup_replicate in Hb as [-> _]. by rewrite decide_True. }
  unfold onSelectAllClicked. by rewrite Hsame.
Qed.
End Preview.

(** * A run *)

#[local] Existing Instance Desktop.some_qt.
Definition group_input : ChatInput := ChatInput_new {| ch_chatId := "g1"; ch_chatType := 2; ch_messages := []; ch_receipt := None |}.
Lemma mention_completes_witness : plain "user" ∧
  ci_text (row_clicked 1 (edit "hi @user, come" 8 (edit "hi @, come" 4 group_input))) = "hi @user2 , come".
Proof.
  assert (plain "user") as Hp by done. split; [exact Hp|].
  destruct (mention_completes "hi " "user" ", come" group_input eq_refl Hp ltac:(done)) as (p1 & p2 & Hp1 & _ & _ & Hrows & _ & Hpick).
  assert (p1 = default MentionPopup_new (ci_popup (edit "hi @, come" 4 group_input))) as Heq.
  { change (edit "hi @, come" 4 group_input) with (edit ("hi " +:+ "@" +:+ ", come") (str_size "hi " + 1) group_input). by rewrite Hp1. }
  destruct (Hpick 1%nat "user2" "user2") as [Htext _]; [|exact Htext]. rewrite Hrows, Heq. eval_eq.
Defined.
(** The pop-up that opens again still shows what the last word has left. *)
Example filter_survives : (λ p, mp_memberList p) <$> ci_popup (edit "@" 1 (edit "" 0 (edit "@user1" 6 (edit "@" 1 group_input)))) =
  Some [("user1", "user1")].
Proof. vm_compute. reflexivity. Qed.
