(* ===== verification/Delivery.v ===== *)
(** A private message on its way from the zone server to the screen of its receiver: [System] and [Desktop] composed. *)

From S2P Require Import Prelude External Errors Utils Jwt Rpc Proto ZonePayloads ZoneStore ZoneRpc.
From S2P Require Import ZoneSystems ZoneService GateService GateAnswers Cluster System.
From S2P Require ZoneHandler GroupStore ChatService.
From S2P Require Import ChatStorage Widgets.
From S2P Require MainWindow Desktop.
Import GroupStore (GroupStore).
Import MainWindow (Qt, Window, Frame, m_currentUserId, m_currentChatId, m_currentChatType, m_conversationMap,
  m_contactWidget, messages_at, convKey, to_message, Conversation_new).

Section Delivery.
Context {db GS SS : Type} `{!RocksDB db} `{!JsonLib} `{!OpenSSL} `{!GroupStore GS} `{!ProtoBuf} `{!SessionStore SS}.
Context `{!ProtoTotal} `{!ProtoLaws}.
Context {QByteArray : Type} `{!QtJson QByteArray} `{!StdSort} `{!Qt}.
Notation World := (Zone SS (Cluster db GS)).

(** The message [msg] is put behind the others under [key], and counted as unread in the conversation of [peer]. *)
Definition files_message (key peer : string) (msg : Message) (win win' : Window QByteArray) : Prop :=
  messages_at key win' = messages_at key win ++ [msg] ∧
  ∃ conv, m_conversationMap win' = <[key := conv]> (m_conversationMap win) ∧
    conv ∈ cw_conversations (m_contactWidget win') ∧ chatId conv = peer ∧ lastMessage conv = msg ∧
    unreadCount conv = wrap32 (unreadCount (default Conversation_new (m_conversationMap win !! key)) + 1).

(** C5: a private message the chat service has stored reaches the screen of a receiver who is connected: when no call is lost
    the sender gets a success, the receiver's session gets one frame, and that frame, when its window reads it,
    puts the message with its id and time behind those of a conversation and counts it as unread, unless that
    conversation is open. The conversation is that of the user the request names as its sender; the chat service
    stores the message for the user of the token, so a sender can write into the conversation of the
    receiver with anybody. *)
Theorem private_message_shown m junk conn u p rid t (w : World) req msg_id ts chat' x s' c
    acc now (win : Window QByteArray) (key := convKey (zcsm_from_user_id req) 1) :
  all_served (z_net w) → chat_system m = Some true →
  ParseFromString p = Some req → zcsm_chat_type req = PRIVATE →
  chat_service_sends (z_net w) req t = (Ret (ok_with (msg_id, ts)), chat') → msg_id ≠ "" →
  GetSession (zcsm_to_id req) (z_store w) = (Ret (Some x), s') →
  us_gate_addr x = cl_gate_addr (z_net w) → us_gate_addr x ≠ "" →
  user_to_conn (cl_gate (z_net w)) !! zcsm_to_id req = Some c → c ≠ "" →
  c ∈ send_callbacks (cl_gate (z_net w)) →
  pb_valid (push_of msg_id ts req) → (∀ push, SerializeToString (push_of msg_id ts req) = Some push →
    pb_valid {| zsm_cmd := "chat.message"; zsm_payload := push; zsm_request_id := ""; zsm_code := 0; zsm_message := "" |}) →
  m_currentUserId win = zcsm_to_id req → zcsm_from_user_id req ≠ zcsm_to_id req →
  ¬ (zcsm_from_user_id req = m_currentChatId win ∧ m_currentChatType win = 1) →
  ∃ ans w' frame, let win' := snd (MainWindow.step acc now (Frame frame) win) in
    ZoneHandler.HandleClientRequest (Some m) junk conn u "chat.send_message" p rid t w = (Ret ans, w') ∧
    hr_code ans = 0 ∧ cl_gate (z_net w') = post (PSend c frame) (cl_gate (z_net w)) ∧
    files_message key (zcsm_from_user_id req) (to_message (m_currentUserId win) (push_of msg_id ts req)) win win'.
Proof.
  intros Hs Hm Hp Hty Hsend Hid Hx Haddr Ha Hu Hc Hcb Hv1 Hv2 Hme Hne Hcur.
  destruct (private_message_pushed m junk conn u p rid t w req msg_id ts chat' x s' c)
    as (ans & w' & frame & push & Hrun & Hcode & _ & Hgate & Hframe & Hpush & _); try done.
  apply (Parse_Serialize _ _ (Hv2 push Hpush)) in Hframe. apply (Parse_Serialize _ _ Hv1) in Hpush.
  set (msg := to_message (m_currentUserId win) (push_of msg_id ts req)).
  assert (isSelf msg = false) as Hself by (cbn; rewrite bool_decide_eq_false; congruence).
  assert (MainWindow.peer_of msg = zcsm_from_user_id req) as Hpeer.
  { unfold MainWindow.peer_of. rewrite Hself. cbn. by rewrite Hty, decide_True. }
  assert (Desktop.key_of msg = key) as Hkey by (unfold Desktop.key_of; rewrite Hpeer; cbn; by rewrite Hty).
  destruct (Desktop.run_push_message acc now (push_of msg_id ts req) win) as (conv & Hn & Hci & _ & Hl & Hm' & Hw & Hmsgs);
    [done|fold msg; rewrite Hpeer; cbn; rewrite Hty; by intros [? ?]; apply Hcur|].
  fold msg in Hn, Hci, Hl, Hm', Hw, Hmsgs. rewrite Hkey in *.
  exists ans, w', frame. cbv zeta. rewrite (Desktop.run_push_frame acc now frame _ (push_of msg_id ts req) win Hframe) by done.
  split_and!; [done..|]. split; [done|]. exists conv. split_and!; [done| |by rewrite Hci, Hpeer|done..].
  rewrite Hw. apply Desktop.upsert_elem.
Qed.
End Delivery.
