(* ===== verification/Scenario.v ===== *)
(** A run of the whole system on concrete requests: two users register, log in and talk
    through one gateway; the theorems on the running system, applied along the run. *)

From S2P Require Import FileService.
From S2P Require Import Prelude External Errors Utils Jwt Rpc Proto ZonePayloads ZoneStore ZoneRpc.
From S2P Require Import ZoneSystems ZoneService ZoneHandler GateService GateAnswers Cluster System Startup Client Delivery.
From S2P Require GroupStore ChatService FileStore ChatStorage MainWindow Desktop.
Import ChatService (Build_Chat).

(** The clock advances by a millisecond with every call, and so do the random numbers. *)
Definition moment0 (i : nat) : Moment :=
  {| mo_fate := Served; mo_now := 1700000000000 + Z.of_nat i;
     mo_env := {| env_clock := λ _, 1700000000000 + Z.of_nat i; env_rand := λ _, N.of_nat i |};
     mo_file := FileService.fenv 9 9 None; mo_junk := 77 |}.
Notation MemWorld := (Zone MemoryImpl (Cluster MemDB MemDB)).
Definition cluster_with (file : FileService.FileState MemDB) : Cluster MemDB MemDB :=
  {| cl_services := {| sv_auth := mem_empty; sv_online := Some mem_empty;
       sv_chat := Build_Chat mem_empty mem_empty (Some mem_empty) (Some mem_empty);
       sv_friend := mem_empty; sv_file := file |};
     cl_gate := gate_opened ["c1"; "c2"]; cl_gate_addr := "10.0.0.1:9091"; cl_other_gates := ∅;
     cl_secret := "k"; cl_internal_secret := ""; cl_takes_processor := false; cl_config := FileService.cfg0;
     cl_weather := moment0; cl_step := 0 |}.
Definition world_with (file : FileService.FileState MemDB) : MemWorld :=
  {| z_store := snd (ZoneStore.RegisterGate node0 memory_empty); z_gate_clients := ∅;
     z_net := cluster_with file |}.

Definition client {A} `{Msg A} (cmd : string) (a : A) : string :=
  proto_text {| zcm_cmd := cmd; zcm_payload := proto_text a; zcm_request_id := "r" |}.
Definition says (conn data : string) (w : MemWorld) : MemWorld := snd (OnMessage "g1" "" true 7 7 conn data w).
Definition register (name : string) : string :=
  client "auth.register" {| zar_username := name; zar_password := "password1"; zar_nickname := name;
                            zar_email := ""; zar_avatar_url := "" |}.
Definition login (name : string) : string :=
  client "auth.login" {| zal_username := name; zal_password := "password1"; zal_device_id := "d";
                         zal_device_type := "t" |}.

Definition start : MemWorld := world_with {| FileService.fs_store := mem_empty; FileService.fs_disk := ∅ |}.
Definition talking : MemWorld :=
  says "c2" (login "bob") (says "c2" (register "bob")
    (says "c1" (login "alice") (says "c1" (register "alice") start))).
Definition user_at (conn : string) (w : MemWorld) : string := default "" (fst <$> owner (cl_gate (z_net w)) conn).
Definition token_at (conn : string) (w : MemWorld) : string := default "" (snd <$> owner (cl_gate (z_net w)) conn).

(** The frames a gateway has sent: connection, command, code. *)
Definition sent (w : MemWorld) : list (string * string * Z) :=
  omap (λ p, match p with
             | PSend c d => sm ← ParseFromString d; Some (c, zsm_cmd sm, zsm_code sm)
             | PClose c => None end) (posted (cl_gate (z_net w))).
Lemma talking_sent : sent talking =
  [("c1", "auth.register", 0); ("c1", "auth.login", 0); ("c2", "auth.register", 0); ("c2", "auth.login", 0)].
Proof. eval_eq. Qed.

(** Alice writes to Bob and claims to be Carol. *)
Definition hello : ChatSendMessagePayload :=
  {| zcsm_from_user_id := "carol"; zcsm_to_id := user_at "c2" talking; zcsm_chat_type := 1;
     zcsm_content := "hello"; zcsm_media_url := ""; zcsm_media_type := ""; zcsm_mentions := [];
     zcsm_reply_to_msg_id := ""; zcsm_client_msg_id := ""; zcsm_file_size := 0 |}.
Lemma hello_sent : sent (says "c1" (client "chat.send_message" hello) talking) =
  sent talking ++ [("c2", "chat.message", 0); ("c1", "chat.send_message", 0)].
Proof. eval_eq. Qed.

Lemma talking_served : all_served (z_net talking).
Proof. intros i. vm_compute. reflexivity. Qed.

(** * Witnesses *)

(** The request of Alice, as the zone server gets it. *)
Notation hello_text := (proto_text hello).
Notation hello_service := (chat_service_sends (z_net talking) hello (token_at "c1" talking)).
Definition hello_id : string * Z := Eval vm_compute in match fst hello_service with Ret r => rsp_body r | Exc => ("", 0) end.
Notation bob_session := (GetSession (zcsm_to_id hello) (z_store talking)).
Definition bob_found : UserSession :=
  Eval vm_compute in match fst bob_session with Ret (Some x) => x | _ => session0 end.

#[local] Existing Instance ChatStorage.json_as_is.
#[local] Existing Instance ChatStorage.std_insertion_sort.
#[local] Existing Instance Desktop.some_qt.
(** Bob's window, without conversations. *)
Definition bobs_window : Desktop.MemWindow :=
  MainWindow.Window_new (zcsm_to_id hello) "t" "ws://gate/ws" ∅.
Notation from_carol := (MainWindow.convKey "carol" 1).
Lemma private_message_shown_witness : ∃ ans w' frame,
  ZoneHandler.HandleClientRequest (Some systems_ready) 0 "c1" (user_at "c1" talking) "chat.send_message" hello_text
    "r" (token_at "c1" talking) talking = (Ret ans, w') ∧ hr_code ans = 0 ∧
  cl_gate (z_net w') = post (PSend "c2" frame) (cl_gate (z_net talking)) ∧
  ∃ conv, MainWindow.m_conversationMap (snd (MainWindow.step ChatStorage.works 7 (MainWindow.Frame frame) bobs_window)) !!
      from_carol = Some conv ∧ ChatStorage.chatId conv = "carol" ∧ ChatStorage.unreadCount conv = 1.
Proof.
  assert (hello_service = (Ret (ok_with (hello_id.1, hello_id.2)), snd hello_service)) as Hsend by eval_pair.
  assert (bob_session = (Ret (Some bob_found), snd bob_session)) as Hbob by eval_run.
  assert (ParseFromString hello_text = Some hello) as Hparse by eval_eq.
  assert (hello_id.1 ≠ "") as Hid by (vm_compute; discriminate).
  assert (us_gate_addr bob_found = cl_gate_addr (z_net talking)) as Haddr by eval_eq.
  assert (us_gate_addr bob_found ≠ "") as Hne by (vm_compute; discriminate).
  assert (user_to_conn (cl_gate (z_net talking)) !! zcsm_to_id hello = Some "c2") as Hconn by eval_eq.
  assert ("c2" ∈ send_callbacks (cl_gate (z_net talking))) as Hcb
    by (apply (bool_decide_eq_true_1 _); eval_eq).
  assert (MainWindow.m_currentUserId bobs_window = zcsm_to_id hello) as Hme by eval_eq.
  assert (zcsm_from_user_id hello ≠ zcsm_to_id hello) as Hother by (vm_compute; discriminate).
  assert (¬ (zcsm_from_user_id hello = MainWindow.m_currentChatId bobs_window ∧
    MainWindow.m_currentChatType bobs_window = 1)) as Hclosed by by intros [? _].
  pose proof (private_message_shown systems_ready 0 "c1" (user_at "c1" talking) hello_text "r"
    (token_at "c1" talking) talking hello hello_id.1 hello_id.2 _ bob_found _ "c2" ChatStorage.works 7 bobs_window
    talking_served eq_refl Hparse eq_refl Hsend Hid Hbob Haddr Hne Hconn ltac:(discriminate) Hcb I (λ _ _, I)
    Hme Hother Hclosed) as (ans & w' & frame & Hrun & Hcode & Hgate & _ & conv & Hmap & _ & Hchat & _ & Hn).
  exists ans, w', frame. refine (conj Hrun (conj Hcode (conj Hgate _))). exists conv.
  rewrite Hmap, lookup_insert_eq. exact (conj eq_refl (conj Hchat Hn)).
Defined.

(** Alice makes a group. *)
Definition new_group : string :=
  proto_text {| zgc_creator_id := user_at "c1" talking; zgc_group_name := "g";
                zgc_member_ids := [user_at "c2" talking; "x"] |}.
Notation group_call := (ZoneHandler.HandleClientRequest (Some systems_ready) 0 "c1" (user_at "c1" talking)
  "group.create" new_group "r" (token_at "c1" talking) talking).
Definition group_answer : HandleClientRequestResult :=
  match fst group_call with Ret ans => ans | Exc => SetResultError OK "" end.
Lemma group_commands_refused_witness :
  cl_services (z_net (snd group_call)) = cl_services (z_net talking) ∧
  ∃ ans, fst group_call = Ret ans ∧ hr_code ans ≠ 0.
Proof.
  pose proof (group_commands_refused systems_ready 0 "c1" (user_at "c1" talking) "group.create" new_group "r"
    (token_at "c1" talking) talking _ _ eq_refl (surjective_pairing group_call)) as (Hs & _ & Hcode).
  assert (fst group_call = Ret group_answer) as Hret by eval_eq.
  exact (conj Hs (ex_intro _ group_answer (conj Hret (Hcode group_answer Hret)))).
Defined.

(** A request of a connection that has not logged in is answered. *)
Definition early_text : string := client "chat.send_message" hello.
Notation early_run := (OnMessage "g1" "" true 7 7 "c2" early_text start).
Notation early_world := (snd early_run).
Lemma every_request_answered_witness :
  answered (gate_of start) (gate_of early_world) "c2" "chat.send_message" "r".
Proof.
  assert (early_run = (Ret tt, early_world)) as Hrun by eval_run.
  assert (ParseFromString early_text = Some {| zcm_cmd := "chat.send_message";
    zcm_payload := hello_text; zcm_request_id := "r" |}) as Hparse by eval_eq.
  assert ("c2" ∈ send_callbacks (gate_of start)) as Hcb by (apply (bool_decide_eq_true_1 _); eval_eq).
  exact (every_request_answered "g1" "" true 7 7 "c2" early_text _ start tt early_world Hcb Hparse Hrun).
Defined.

(** A message to a group, and a mark of what was read in it. *)
Definition group_hello : ChatSendMessagePayload :=
  {| zcsm_from_user_id := "alice"; zcsm_to_id := "g1"; zcsm_chat_type := 2; zcsm_content := "hello";
     zcsm_media_url := ""; zcsm_media_type := ""; zcsm_mentions := []; zcsm_reply_to_msg_id := "";
     zcsm_client_msg_id := ""; zcsm_file_size := 0 |}.
Definition group_read : ChatMarkReadPayload :=
  {| zcmr_chat_id := "g1"; zcmr_chat_type := 2; zcmr_last_msg_id := "m" |}.
Lemma group_messages_not_pushed_witness :
  gates (z_net (snd (ZoneHandler.HandleClientRequest (Some systems_ready) 0 "c1" (user_at "c1" talking)
    "chat.send_message" (proto_text group_hello) "r" (token_at "c1" talking) talking))) = gates (z_net talking) ∧
  gates (z_net (snd (ZoneHandler.HandleClientRequest (Some systems_ready) 0 "c1" (user_at "c1" talking)
    "chat.mark_read" (proto_text group_read) "r" (token_at "c1" talking) talking))) = gates (z_net talking).
Proof.
  assert (ParseFromString (proto_text group_hello) = Some group_hello) as H1 by eval_eq.
  assert (ParseFromString (proto_text group_read) = Some group_read) as H2 by eval_eq.
  exact (conj
    (proj1 (group_messages_not_pushed systems_ready 0 "c1" (user_at "c1" talking) (proto_text group_hello) "r"
      (token_at "c1" talking) talking) group_hello H1 eq_refl)
    (proj2 (group_messages_not_pushed systems_ready 0 "c1" (user_at "c1" talking) (proto_text group_read) "r"
      (token_at "c1" talking) talking) group_read H2 eq_refl)).
Defined.

(** The file [file4] of Alice, deleted over a connection that has not logged in. *)
Definition with_file : MemWorld := world_with file4.
Definition delete_payload : string := proto_text {| zfd_file_id := file_id; zfd_user_id := "alice" |}.
Definition delete_text : string :=
  client "file.delete" {| zfd_file_id := file_id; zfd_user_id := "alice" |}.
Lemma stranger_deletes_any_file_witness :
  owner (gate_of with_file) "c2" = Some ("", "") ∧
  ∃ w', OnMessage "g1" "" true 7 7 "c2" delete_text with_file = (Ret tt, w') ∧
    FileStore.GetById (fs_store (sv_file (cl_services (z_net w')))) file_id = None.
Proof.
  destruct file4_meta as (m & Hm & _ & Hu). destruct file4_rep as [M Hrep].
  assert (mem_healthy (fs_store file4) = true) as Hh by eval_eq.
  assert (ParseFromString delete_text = Some {| zcm_cmd := "file.delete"; zcm_payload := delete_payload;
    zcm_request_id := "r" |}) as Hdata by eval_eq.
  assert (ParseFromString delete_payload = Some {| zfd_file_id := file_id;
    zfd_user_id := FileStore.fm_uploader_id m |}) as Hp by (rewrite Hu; eval_eq).
  split; [eval_eq|].
  exact (stranger_deletes_any_file "g1" 7 7 "c2" delete_text delete_payload "r" with_file file_id M m
    (λ d, mem_healthy d = true) ltac:(split; [reflexivity|intros i; reflexivity]) Hdata Hp Hrep mem_keeps_writing Hh Hm
    ltac:(rewrite Hu; discriminate)).
Defined.

Notation offline_call := (λ mo : Moment, ZoneHandler.UserOffline "u_1" "g1" : M MemWorld _).

(** A user moves from gateway g1 to g2. *)
Definition two_gates : MemWorld :=
  {| z_store := snd (ZoneStore.RegisterGate {| gn_gate_id := "g2"; gn_address := "10.0.0.2:9091";
       gn_current_connections := 0; gn_registered_at := 1; gn_last_heartbeat := 1 |} (z_store start));
     z_gate_clients := ∅; z_net := z_net start |}.
Lemma stale_disconnect_ends_session_witness :
  ∃ z1 z2 z3, ZoneHandler.UserOnline 10 "u_1" "g1" "ios" "d1" two_gates = (Ret (ok_plain tt), z1) ∧
    ZoneHandler.UserOnline 20 "u_1" "g2" "ios" "d2" z1 = (Ret (ok_plain tt), z2) ∧
    online_at (z_store z2) "u_1" = Some (session_at 20 "u_1" "g2" "10.0.0.2:9091" "ios" "d2") ∧
    ZoneHandler.UserOffline "u_1" "g1" z2 = (Ret (ok_plain tt), z3) ∧
    fst (RouteToUser "u_1" "chat.message" "hi" z3) =
      Ret {| rt_delivered := false; rt_user_online := false; rt_gate_id := "" |}.
Proof.
  exact (stale_disconnect_ends_session 10 20 "u_1" "g1" "g2" node0 {| gn_gate_id := "g2";
    gn_address := "10.0.0.2:9091"; gn_current_connections := 0; gn_registered_at := 1; gn_last_heartbeat := 1 |}
    "ios" "ios" "d1" "d2" "chat.message" "hi" two_gates I I I I eq_refl eq_refl I I).
Defined.

(** The zone server is restarted while Alice and Bob are logged in; the gateway is as they left it. *)
Definition busy_gate : Gate := Eval vm_compute in cl_gate (z_net talking).
Definition alice : string := Eval vm_compute in user_at "c1" talking.
Definition restarted : MemWorld :=
  {| z_store := memory_empty; z_gate_clients := ∅; z_net := with_gate busy_gate (z_net start) |}.
Lemma heartbeat_restores_gate_only_witness :
  fst <$> owner busy_gate "c1" = Some alice ∧
  ∃ w' node, heartbeat_round "g1" "" 90 "10.0.0.1:9091" 0 restarted = (Ret tt, w') ∧
    gate_at (z_store w') "g1" = Some node ∧ gn_address node = "10.0.0.1:9091" ∧
    connections (gate_of w') = connections busy_gate ∧ online_at (z_store w') alice = None.
Proof.
  split; [eval_eq|].
  pose proof (heartbeat_restores_gate_only "g1" 90 "10.0.0.1:9091" 0 restarted
    ltac:(split; [reflexivity|intros i; reflexivity]) I I I ltac:(vm_compute; done) ltac:(vm_compute; done))
    as (w' & Hrun & Hgate & Hconn & Huser).
  exists w'. eexists. exact (conj Hrun (conj Hgate (conj eq_refl (conj Hconn (Huser alice I))))).
Defined.

(** A desktop client logs in through the gateway. *)
Definition client0 : ProtocolHandler nat := ProtocolHandler_new.
Definition login_payload : string := proto_text {| zal_username := "alice"; zal_password := "password1";
  zal_device_id := "d"; zal_device_type := "t" |}.
Definition login_frame : string := Eval vm_compute in
  proto_text {| zcm_cmd := "auth.login"; zcm_payload := login_payload; zcm_request_id := "req_1" |}.
Notation login_run := (OnMessage "g1" "" true 7 7 "c1" login_frame start).
Lemma answer_reaches_callback_witness :
  ∃ h1 p frame sm, sendRequestWithMessage 0 "auth.login" login_payload (Some 1%nat) client0 =
      ([dataToSend login_frame], h1) ∧
    last (posted (gate_of (snd login_run))) = Some (PSend "c1" frame) ∧ zsm_cmd sm = "auth.login" ∧
    pendingRequests h1 !! "req_1" = Some p ∧
    handleMessage frame h1 = ([CallbackWithMessage 1%nat (zsm_code sm) (zsm_payload sm) (zsm_message sm)],
      with_pending (delete "req_1" (pendingRequests h1)) h1).
Proof.
  assert ("c1" ∈ send_callbacks (gate_of start)) as Hcb by (apply (bool_decide_eq_true_1 _); eval_eq).
  assert (login_run = (Ret tt, snd login_run)) as Hrun by eval_run.
  pose proof (answer_reaches_callback "g1" "" true 0 7 7 "auth.login" login_payload 1%nat client0 "c1" start I Hcb)
    as (data & h1 & p & Hsend & Hp & Hanswer).
  assert (data = login_frame) as Hdata.
  { assert (fst (sendRequestWithMessage 0 "auth.login" login_payload (Some 1%nat) client0) = [dataToSend login_frame])
      as Hev by eval_eq. rewrite Hsend in Hev. by injection Hev. }
  subst data. destruct (Hanswer _ Hrun) as (pushes & frame & sm & Hpost & _ & Hcmd & Hcall).
  exists h1, p, frame, sm. refine (conj Hsend (conj _ (conj Hcmd (conj Hp (Hcall I h1 Hp))))).
  rewrite Hpost, !last_app. done.
Defined.
